(* ===== verification/_CoqProject ===== *)
-Q . S2P
Prelude.v
Der.v
DerRead.v
DerProps.v
JsDate.v
UString.v
X509.v
X509Props.v
CertParser.v
Effects.v
JsString.v
Gateway.v
Json.v
Buffer.v
Crypto.v
ErrorHandler.v
Redis.v
RateLimiter.v
Otp.v
Register.v
Activation.v
Schema.v
Validators.v
AdminAuth.v
AuditSemantics.v
AuditFetch.v
AuditReport.v
AuditTimeline.v
CaAdmin.v
Bank.v
AdminBank.v
Routes.v
UJson.v
WebCrypto.v
JsNumber.v
Sessions.v
Browser.v
KeyService.v
ClientLogic.v
Exchange.v
BankClient.v
EndToEnd.v
Enrollment.v
AdminClient.v
ReplyTypes.v
UserError.v
Mail.v
Provision.v
Keypad.v
PageRun.v
RegisterPage.v
Wire.v
WireModel.v
KdcProto.v
CaProto.v
BankProto.v
ProtoSchema.v
ProtoProps.v
GatewayWire.v
ProtoJson.v
KdcJson.v
CaJson.v
BankJson.v
JsonProps.v
HomePage.v
Locale.v
View.v
HomeView.v
PinPages.v
PinViews.v
RegisterView.v
AdminCaPage.v
AdminBankPage.v
TimelineView.v
CaView.v
BankView.v
SocPage.v
SocConsole.v
SocView.v
ViewProps.v
