(* ===== verification/Prelude.v ===== *)
(** * Mini banking app: a verification library

    ** The program

    A bank in four services (certificate authority, key distribution centre, bank,
    in Go) behind one HTTP gateway (Node, [api-gateway/src]) and a browser client
    ([frontend/src]). The development covers the two TypeScript programs. A
    customer proves an e-mail address with a one-time code, gets a registration
    token, generates a key pair in the browser and has a certificate issued; then a
    Kerberos-like protocol runs through the gateway: AS exchange (certificate and
    signature against a ticket-granting ticket), TGS exchange (that ticket against
    a service ticket for one scope), AP exchange with the bank (transfer, profile,
    history). Administrators of the CA and of the bank are provisioned out of band
    and activate their identity with a token; a security administrator reads the
    audit logs of the three services.

    Paths below are under [src/mini-banking-app]. The Go services are parameters:
    what the gateway asks them is an event, what they answer is unconstrained
    unless a theorem states a hypothesis.

    ** How it is modelled

    - Pure code is a function; an exception is the [Err] of [result] (this file).
    - An asynchronous handler or client service is a program of [Effects]: a tree
      whose nodes are the requests to the outside (Redis, gRPC, mail, clock and
      random values for the gateway; [fetch], IndexedDB, local storage, the session
      stores, Web Crypto's turns for the browser) and whose branches are the
      replies. [always p Q] says that every run of [p], with every choice of
      replies, ends with a trace and a result in [Q]; [run] executes a program
      against a concrete environment; [pool_step] interleaves the requests of
      several programs, which is how races are stated.
    - Library code that is not in the repository is a class whose laws state the
      documented behaviour, each with a concrete instance used by the witnesses:
      [Platform] (text decoding, case mapping, [atob], RSA verification),
      [WebCrypto]/[WebCryptoSpec] (AES-GCM, RSA-OAEP, RSA-PSS, PBKDF2),
      [Crypto]/[CryptoSpec] (HMAC, JWT, RSA in Node), [Zod]/[ZodSpec] (messages and
      issues of a schema), [Redis]/[RedisSpec] (commands with expiry; [map_redis]),
      [Wire]/[WireSpec] (the writer and the reader of protocol buffers;
      [WireModel.model_wire]).
    - A page of the frontend is a machine of [PageRun]: [react] is one input of the
      user, of a reply or of a timer, [reaches] the runs from the opened page. A
      reply finds the task that awaits it by its number; a function that is
      suspended at an [await] is split there and keeps what its rendering had read.
      [disciplined] restricts the inputs where a theorem needs it.
    - What a page renders is a function of that state into a tree of elements
      ([View]), whose buttons, fields and selections carry the inputs of the
      machine: [draws] are the inputs of its controls, [on_top] those of a dialog
      that covers it, [texts] what is read, [crashes] whether React refuses a child;
      such a page is removed, so what can be used ([offers]) and what a pointer
      reaches ([pointed_at]) is nothing then. Values that were only cast to an
      interface stay [ujson], so that what JavaScript does with other types is part
      of the model; the fields of a profile that the customer's page computes with
      have the types that the bank gives them ([HomePage.Account]). How numbers and
      dates are written is the class [Locale].
    - Texts of the browser are lists of UTF-16 code units ([UString]); texts of the
      gateway are Rocq strings of code units below 256 ([JsString]), and [widen] of
      [EndToEnd] relates them. Bytes are integers in [0, 256). The length arithmetic
      of the two DER readers and of the encoder is JavaScript's 32-bit arithmetic.

    ** Files, bottom up

    Shared: [Prelude] (results, notations, tactics, lists), [Effects], [JsDate],
    [JsString], [UString], [Json] and [UJson] ([JSON.stringify] and [JSON.parse] of
    either side, with [parse_stringify] and [uparse_stringify]), [Buffer] (Node's base64), [Crypto],
    [Redis], [Schema], [WebCrypto].

    Browser, certificates:
    - [Der], [DerRead], [DerProps]: [services/pki-registration/asn1.ts] and
      [csr.ts], and the readers of [services/chain-verify.ts] (Module [Chain]) and
      [services/as-exchange/cert.parser.ts] (Module [Parser]).
    - [X509], [X509Props]: [config/trust-anchors.ts] and the rest of
      [chain-verify.ts]. [CertParser]: the rest of [cert.parser.ts].

    Gateway, [api-gateway/src]:
    - [Gateway]: messages, errors and events; [services/*.service.ts] wrappers.
    - [ErrorHandler]: [middleware/errorHandler.ts]. [RateLimiter]:
      [middleware/rateLimiter.ts] and the activation limiters.
    - [Otp]: [controller/otp.controller.ts]. [Register]: [handleRegister] of
      [controller/ca.controller.ts]. [Activation]:
      [services/admin-activation.service.ts] and both activation handlers.
    - [Validators]: every validating middleware. [AdminAuth]:
      [middleware/admin.middleware.ts], [services/admin-ca.service.ts],
      [controller/admin-sec.controller.ts].
    - [AuditSemantics], [AuditFetch], [AuditReport], [AuditTimeline]:
      [lib/audit-semantics.ts], [lib/audit-fetch.ts],
      [controller/admin-audit-report.controller.ts],
      [controller/admin-timeline.controller.ts].
    - [CaAdmin], [Bank], [AdminBank]: [controller/ca.controller.ts],
      [kdc.controller.ts], [bank.controller.ts], [admin-bank.controller.ts].
    - [Routes]: [routes/*.route.ts] and [server.ts], every endpoint as its chain of
      middleware.

    Browser, protocol, [frontend/src/services]:
    - [Sessions]: [as-exchange/session.ts] and [tgs-exchange/session.ts] over a heap
      of key buffers. [Browser]: [api.service.ts], [db.service.ts],
      [operation-id.ts] and the events. [KeyService]: [key.service.ts].
      [ClientLogic]: the [yields] logic for client programs and its hints.
    - [Exchange]: [as-exchange/], [tgs-exchange/]. [BankClient]: [bank/] and
      [admin-bank/admin-session], with the logout of [pages/Home.tsx].
      [Enrollment]: [pki-registration/] and the administrators' activation.
      [AdminClient]: [admin/] and [admin-bank/admin-bank.api.ts].
    - [UserError]: [user-error-message.ts].

    Browser, pages, [frontend/src]:
    - [PageRun]: runs of a page and numbered tasks. [Keypad]: the keys of the PIN
      ([components/PinEntry.tsx]). [Locale]: numbers, dates and capitals as the
      browser writes them. [View]: trees of elements, and the drawn keypad.
    - [RegisterPage]: [pages/Register.tsx]. [HomePage]: [pages/Home.tsx], with the
      form of a transfer. [PinPages]: [pages/Login.tsx] and the login panels of the
      administrators (Module [PinLogin]), [pages/AdminCAActivate.tsx] and
      [AdminBankActivate.tsx] (Module [ActivationPage]).
    - [AdminCaPage]: [pages/AdminCA.tsx], its audit panel being also [KdcPanel] of
      [pages/AdminSOC.tsx]. [AdminBankPage]: [pages/AdminBank.tsx]. [SocPage]: the
      panels of [pages/AdminSOC.tsx], [SocConsole] the page that holds them.
      [TimelineView]: [components/AuditTimeline.tsx], its rows and its elements.
    - What they render: [HomeView], [RegisterView], [PinViews] (logins and
      activations), [CaView], [BankView] (with [lib/ui.tsx] and [lib/data.ts]),
      [SocView], each a function of the machine's state next to it.

    The protocol of the gateway and the services, [api-gateway/src/proto] and
    [proto]:
    - [Wire]: the class of the wire, the shapes of generated code (loops of
      [decode], maps, [longToNumber]) and what a message is. [WireModel]: an
      instance that satisfies the laws.
    - [KdcProto], [CaProto], [BankProto]: every message of [kdc.ts], [ca.ts] and
      [bank.ts] as a Module with its type, [createBase], [encode] and the cases of
      [decode], and the tables of the services. [ProtoSchema]: the three [.proto]
      files as data. [ProtoProps]: the theorems on all messages. [GatewayWire]: the
      calls of [Gateway] as the messages that are written.
    - [JsNumber]: doubles, with [Number(text)], [String(number)] and [Math.round].
      [ProtoJson]: the shapes of [fromJSON], [toJSON] and [fromPartial] over the
      values of the language. [KdcJson], [CaJson], [BankJson]: these functions for
      every message, in Modules named after the message. [JsonProps]: the theorems
      on all of them, and the two requests of [controller/kdc.controller.ts].

    Mails, [api-gateway/src]:
    - [Mail]: [config/mail.ts] and [workers/mail.worker.ts]. [Provision]:
      [scripts/provision-bank-admin.ts] and [provision-ca-admin.ts], with the
      reading of the link in [frontend/src/pages/AdminBankActivate.tsx].

    Both sides: [EndToEnd] (the client's bodies through the gateway's route to the
    bank), [ReplyTypes] (the client's interfaces against the gateway's answers),
    [ViewProps] (the pages over the gateway's data, and over all pages).

    ** What the theorems show

    - Authorisation: [Routes.complete_mediation] (who may cause which call of a
      service), [AdminAuth] (roles separated, session by proof of possession, login
      fails closed, challenge of the client accepted by the gateway).
    - Certificates: [X509Props.verifyChainToRoot_spec] (acceptance is a
      certification path), [anchor_sticks]; [CertParser.owner_id_consistent]; round
      trips, tiling, termination and agreement of the DER layer in [DerProps].
    - The customer's protocol in the browser, whatever the network answers:
      [Exchange.as_exchange_sound], [tgs_exchange_sound],
      [BankClient.transfer_sound], [Enrollment.enroll_fail_closed],
      [Sessions.key_hygiene]; [BankClient.logout_race] is a schedule that breaks a
      transfer's secrecy.
    - The pages, by induction on their runs: [RegisterPage.register_page_sound]
      (what the form has established when it enrols; its gap is
      [register_back_race]), [HomePage.home_transfer_sound] and
      [home_transfer_ends] (a transfer is what was confirmed, alone, and ends; with
      the keyboard it need not be: [fields_behind_dialog]),
      [PinPages.PinLogin.pin_login_sound], [ActivationPage.activation_page_sound],
      [AdminCaPage.revoke_confirmed] (and the list of [stale_certificates]),
      [AdminBankPage.accounts_of_selected] (and, when replies overtake each other,
      [accounts_of_another]), [SocPage.SessionDrawer.drawer_of_request],
      [SocConsole.console_session] (every query is sent with the token of the
      login whose address is shown; [late_refusal_signs_out] and
      [followed_request_returns] are what a sign-out leaves behind),
      [TimelineView.timeline_faithful].
    - What is shown: as long as React refuses no element, the controls of a page are
      what its machine takes, no more and no less ([HomeView.home_controls], [RegisterView.register_controls],
      [PinViews.login_controls], [activation_controls], [CaView.ca_controls],
      [BankView.bank_controls], [SocView.soc_controls]), so that the theorems on
      runs speak of what a user can do; [HomeView.home_pointed] and
      [CaView.revocation_is_modal] are the same for a pointer under a dialog, and
      [SocView.console_removed] is a run after which nothing can be used.
      [HomeView.confirmed_as_shown] and [CaView.revoked_as_shown]: what is sent is
      what the dialog named. [SocView.verdict_shown]: what is read of the audit
      chains, behind the gateway's check. [ViewProps.pins_never_shown], and
      [ViewProps.gateway_data_shown]: no run over the gateway's data crashes the
      customer's or the bank administrator's page.
    - The protocol: [ProtoProps.code_follows_schema] (tags and methods are those of
      the [.proto] files, and every field is written and read as its type there),
      [messages_roundtrip] (with [proto_key_lost], the key of a map that it must
      exclude), [decode_total], [long_exact_or_refused] (every 64-bit field of the
      schema); [JsonProps.json_faithful] and [kdc_requests_read];
      [GatewayWire.calls_delivered] (a service reads the
      call that the gateway made), [offset_overflow].
    - Issuing in the gateway: [Register] (sound, atomic, token used once; the
      interleaving that is not covered), [Activation] (the CA is asked at most once,
      for a pending identity; a token that was provisioned is not refused; once),
      [Provision.invitation_delivered] (from the script over the mailed link to the
      activation, or withdrawn), [Mail.activation_mail_reads_back], [Otp]
      (sound, single use, bounded guesses; its races).
    - Limits and errors: [RateLimiter] (concurrent bound, exact sequential
      behaviour, the lost window), [ErrorHandler.errorHandler_total],
      [UserError.user_message_closed].
    - Composition: [EndToEnd.transfer_refines_channel] refines the path of a
      transfer, from the client's request over the application to the bank and back,
      to one call of the bank or a refusal; [ReplyTypes.replies_typed] discharges the
      casts of [apiPost] and [apiGet], but for the fields of [casts_not_honoured].
    - Audit: the collection of [AuditReport] is complete up to its cap, for every
      choice of sources, and asks no other log; its counts and CSV are faithful; the verdict of [AuditTimeline]; where the two views of
      [AuditSemantics] disagree.

    ** Bounds and fuel

    Loops that are not structural take fuel that is proved to be enough: the DER
    readers take one more than the bytes left ([DerProps.children_terminates],
    [readChildren_tiles]: the fuel error never occurs); [encodeLength] takes the four
    turns after which a 32-bit value is zero; [AuditFetch.fetch_loop] takes one page
    more than the cap needs ([fetch_loop_total]); the two JSON readers take the length
    of the text ([parse_stringify]); a [decode] takes the length of the message
    ([ProtoProps.decode_total]). DER lengths are right below 2^31 bytes.

    ** Not modelled

    - React itself and the layout: classes that do not depend on the state, styles,
      animations, the shapes of icons, and focus except where [HomePage] says so.
      Of the chart of [pages/AdminBank.tsx] its data, not its axes and gradients.
      The components of [app/components/ui] are a vendored library that no page
      imports. No page renders [CertBadge], [UserStatusBadge], [ActionBadge] and
      [CHART_DATA] of [lib/] or calls its [fmtDate]; [EmptyView] of [pages/Home.tsx]
      is for a view that does not exist. [main.tsx] is the router.
    - The mail queue and its retries (BullMQ), SMTP: libraries; enqueueing and
      sending a mail are events.
    - The Go services: another language. Of [api-gateway/src/proto] the typed
      overloads of the clients' methods, which are declarations only.
    - In the browser, opening IndexedDB is part of its requests, and a mutation of
      the local storage by another tab is not considered.
    - An expiry or a limit that the services send and that is not a number is
      treated as JavaScript treats a failed comparison: not later, no date.
    - Node's logging, CORS, helmet and the process's start. *)

From Stdlib Require Export ZArith Lia Ascii String Bool Sorting.Sorted.
From stdpp Require Export base tactics option list numbers strings gmap.

#[export] Set Default Goal Selector "!".

(** ** Results of JavaScript code that may throw *)

(** [Ok a] is a normal completion, [Err e] an exception carrying [e]. *)
Inductive result (E A : Type) : Type :=
| Ok (a : A)
| Err (e : E).

Arguments Ok {E A} a.
Arguments Err {E A} e.

Definition rbind {E A B} (r : result E A) (k : A -> result E B) : result E B :=
  match r with Ok a => k a | Err e => Err e end.

Definition rmap {E A B} (f : A -> B) (r : result E A) : result E B :=
  match r with Ok a => Ok (f a) | Err e => Err e end.

Definition is_ok {E A} (r : result E A) : bool :=
  match r with Ok _ => true | Err _ => false end.

(** [guard b e]: the statement [if (!b) throw e]. *)
Definition check {E} (b : bool) (e : E) : result E unit :=
  if b then Ok tt else Err e.

Declare Scope js_scope.
Delimit Scope js_scope with js.

Notation "'let!' x := r 'in' k" := (rbind r (fun x => k))
  (at level 10, x pattern, r at level 100, k at level 200) : js_scope.

Open Scope js_scope.

(** [mapM f l]: run [f] on every element, left to right, stopping at the
    first exception, as [Array.prototype.map] with a throwing callback. *)
Fixpoint rmapM {E A B} (f : A -> result E B) (l : list A) : result E (list B) :=
  match l with
  | [] => Ok []
  | a :: l' => let! b := f a in let! bs := rmapM f l' in Ok (b :: bs)
  end.

(** ** Byte sequences *)

Definition is_byte (b : Z) : Prop := (0 <= b < 256)%Z.

Definition bytes_ok (l : list Z) : Prop := Forall is_byte l.

(** The same as boolean tests, for concrete data. *)
Definition is_byteb (b : Z) : bool := (0 <=? b)%Z && (b <? 256)%Z.

Definition bytes_okb (l : list Z) : bool := forallb is_byteb l.

(** The length of a sequence as a JavaScript number. *)
Definition zlen {A} (l : list A) : Z := Z.of_nat (length l).

(** [buf.subarray(a, b)] for [0 <= a]: both ends clamped to the length. *)
Definition subarray {A} (buf : list A) (a b : Z) : list A :=
  take (Z.to_nat (b - a)) (drop (Z.to_nat a) buf).

(** [buf[i]] at an index that the code has checked to be in range. *)
Definition byte_at (buf : list Z) (i : Z) : Z := nth (Z.to_nat i) buf 0%Z.

(** The [ToInt32] conversion applied by the bitwise operators. *)
Definition to_int32 (n : Z) : Z := ((n + 2 ^ 31) mod 2 ^ 32 - 2 ^ 31)%Z.

(** Storing a number in a [Uint8Array]. *)
Definition to_uint8 (n : Z) : Z := (n mod 256)%Z.

(** ** Tactics *)

Create HintDb js discriminated.
Create HintDb bytes discriminated.
Create Rewrite HintDb zlen.

(** Invert equations between results. *)
Ltac inv_result :=
  repeat match goal with
  | H : Ok _ = Ok _ |- _ => injection H as H; subst
  | H : Err _ = Err _ |- _ => injection H as H; subst
  | H : Ok _ = Err _ |- _ => discriminate H
  | H : Err _ = Ok _ |- _ => discriminate H
  end.

(** Split a hypothesis [rbind r k = Ok b] into its two steps. *)
Ltac inv_bind H :=
  lazymatch type of H with
  | rbind ?r _ = Ok _ =>
      let E := fresh "Hb" in destruct r eqn:E; cbn [rbind] in H; [|discriminate H]
  end.

(** Turn boolean comparisons on [Z] into propositions. *)
Ltac bool_to_Z :=
  repeat match goal with
  | H : context [Z.gtb _ _] |- _ => rewrite Z.gtb_ltb in H
  | H : (_ <? _)%Z = true |- _ => apply Z.ltb_lt in H
  | H : (_ <? _)%Z = false |- _ => apply Z.ltb_ge in H
  | H : (_ <=? _)%Z = true |- _ => apply Z.leb_le in H
  | H : (_ <=? _)%Z = false |- _ => apply Z.leb_gt in H
  | H : (_ =? _)%Z = true |- _ => apply Z.eqb_eq in H
  | H : (_ =? _)%Z = false |- _ => apply Z.eqb_neq in H
  | H : _ && _ = true |- _ => apply andb_true_iff in H as [? ?]
  | H : _ || _ = false |- _ => apply orb_false_iff in H as [? ?]
  | H : negb _ = true |- _ => apply negb_true_iff in H
  | H : negb _ = false |- _ => apply negb_false_iff in H
  end.

(** Case analysis on every [if] on a boolean of the goal. *)
Ltac case_ifs :=
  repeat match goal with
  | |- context [if ?b then _ else _] => destruct b eqn:?
  end.

(** ** Lemmas on results *)

Lemma rbind_ok {E A B} (r : result E A) (k : A -> result E B) b :
  rbind r k = Ok b -> exists a, r = Ok a /\ k a = Ok b.
Proof. destruct r; cbn; [eauto | discriminate]. Qed.

Lemma check_ok {E} b (e : E) u : check b e = Ok u -> b = true.
Proof. destruct b; [done | discriminate]. Qed.

Lemma rmapM_ok_length {E A B} (f : A -> result E B) l bs :
  rmapM f l = Ok bs -> length bs = length l.
Proof.
  revert bs. induction l as [|a l IH]; intros bs H; cbn in *; inv_result; [done|].
  inv_bind H. inv_bind H. inv_result. cbn. f_equal. by apply IH.
Qed.

Lemma rmapM_app {E A B} (f : A -> result E B) l k :
  rmapM f (l ++ k) = (let! a := rmapM f l in let! b := rmapM f k in Ok (a ++ b)).
Proof.
  induction l as [|x l IH]; cbn; [by destruct (rmapM f k)|]. destruct (f x); [|done]. cbn. rewrite IH.
  destruct (rmapM f l); [|done]. by destruct (rmapM f k).
Qed.

Lemma rmapM_ok_lookup {E A B} (f : A -> result E B) l bs i a :
  rmapM f l = Ok bs -> l !! i = Some a -> exists b, bs !! i = Some b /\ f a = Ok b.
Proof.
  revert bs i. induction l as [|x l IH]; intros bs i H Hi; [done|].
  cbn in H. inv_bind H. inv_bind H. inv_result.
  destruct i as [|i]; cbn in *; [naive_solver|]. by apply IH.
Qed.

Lemma rmapM_pure {E A B} (f : A -> result E B) (g : A -> B) l :
  (forall a, a ∈ l -> f a = Ok (g a)) -> rmapM f l = Ok (map g l).
Proof.
  induction l as [|a l IH]; intros H; [done|]. cbn.
  rewrite H by set_solver. cbn. rewrite IH by set_solver. done.
Qed.

(** ** Counting the elements that satisfy a test *)

Definition countb {A} (f : A -> bool) (l : list A) : nat := length (List.filter f l).

Lemma countb_cons {A} (f : A -> bool) a l : countb f (a :: l) = (Nat.b2n (f a) + countb f l)%nat.
Proof. unfold countb. cbn. by destruct (f a). Qed.

Lemma countb_insert {A} (f : A -> bool) l i x y :
  l !! i = Some x -> (countb f (<[i := y]> l) + Nat.b2n (f x) = countb f l + Nat.b2n (f y))%nat.
Proof.
  revert i. induction l as [|a l IH]; intros [|i] Hi; [done|done| |].
  - injection Hi as ->. change (<[0%nat := y]> (x :: l)) with (y :: l). rewrite !countb_cons. lia.
  - change (<[S i := y]> (a :: l)) with (a :: <[i := y]> l). rewrite !countb_cons.
    specialize (IH i Hi). lia.
Qed.

Lemma countb_replicate {A} (f : A -> bool) n a :
  countb f (replicate n a) = (n * Nat.b2n (f a))%nat.
Proof. induction n as [|n IH]; [done|]. cbn [replicate]. rewrite countb_cons, IH. lia. Qed.

Lemma countb_weaken {A} (f g : A -> bool) l :
  (forall a, a ∈ l -> f a = true -> g a = true) -> (countb f l <= countb g l)%nat.
Proof.
  induction l as [|a l IH]; intros H; [done|]. rewrite !countb_cons.
  specialize (IH ltac:(set_solver)). specialize (H a ltac:(set_solver)).
  destruct (f a); [rewrite (H eq_refl)|]; destruct (g a); cbn; lia.
Qed.

(** ** Lemmas on byte sequences *)

Lemma zlen_nonneg {A} (l : list A) : (0 <= zlen l)%Z.
Proof. unfold zlen. lia. Qed.

Lemma zlen_app {A} (l k : list A) : zlen (l ++ k) = (zlen l + zlen k)%Z.
Proof. unfold zlen. rewrite length_app. lia. Qed.

Lemma zlen_cons {A} (a : A) l : zlen (a :: l) = (1 + zlen l)%Z.
Proof. unfold zlen. cbn [length]. lia. Qed.

Lemma subarray_app {A} (pre mid post : list A) a b :
  a = zlen pre -> b = (zlen pre + zlen mid)%Z ->
  subarray (pre ++ mid ++ post) a b = mid.
Proof.
  intros -> ->. unfold subarray, zlen.
  rewrite Nat2Z.id, drop_app_length.
  replace (Z.to_nat _) with (length mid) by lia. by rewrite take_app_length.
Qed.

Lemma subarray_full {A} (l : list A) : subarray l 0 (zlen l) = l.
Proof.
  unfold subarray, zlen. rewrite drop_0, Z.sub_0_r, Nat2Z.id. apply firstn_all.
Qed.

Lemma zlen_subarray {A} (l : list A) a b :
  (0 <= a <= b)%Z -> (b <= zlen l)%Z -> zlen (subarray l a b) = (b - a)%Z.
Proof.
  unfold subarray, zlen. intros. rewrite length_take, length_drop. lia.
Qed.

Lemma subarray_decompose {A} (l : list A) a b :
  (0 <= a <= b)%Z -> (b <= zlen l)%Z ->
  l = take (Z.to_nat a) l ++ subarray l a b ++ drop (Z.to_nat b) l.
Proof.
  intros Hab Hb. unfold subarray.
  rewrite <- (take_drop (Z.to_nat a) l) at 1. f_equal.
  rewrite <- (take_drop (Z.to_nat (b - a)) (drop (Z.to_nat a) l)) at 1. f_equal.
  rewrite drop_drop. f_equal. lia.
Qed.

Lemma byte_at_app_r pre l i :
  (zlen pre <= i)%Z -> byte_at (pre ++ l) i = byte_at l (i - zlen pre).
Proof.
  unfold byte_at, zlen. intros.
  rewrite app_nth2 by lia. f_equal. lia.
Qed.

Lemma byte_at_app_l pre l i :
  (0 <= i < zlen pre)%Z -> byte_at (pre ++ l) i = byte_at pre i.
Proof. unfold byte_at, zlen. intros. apply app_nth1. lia. Qed.

Lemma byte_at_cons_0 b l : byte_at (b :: l) 0 = b.
Proof. done. Qed.

Lemma byte_at_is_byte l i : bytes_ok l -> is_byte (byte_at l i).
Proof.
  intros H. unfold byte_at.
  destruct (nth_in_or_default (Z.to_nat i) l 0%Z) as [Hin | ->].
  - unfold bytes_ok in H. rewrite Forall_forall in H. apply H. by apply list_elem_of_In.
  - unfold is_byte. lia.
Qed.

Lemma bytes_ok_app l k : bytes_ok (l ++ k) <-> bytes_ok l /\ bytes_ok k.
Proof. apply Forall_app. Qed.

Lemma bytes_ok_subarray l a b : bytes_ok l -> bytes_ok (subarray l a b).
Proof. intros. unfold subarray. by apply Forall_take, Forall_drop. Qed.

Lemma is_byteb_true b : is_byteb b = true -> is_byte b.
Proof. unfold is_byteb, is_byte. intros. bool_to_Z. lia. Qed.

Lemma bytes_okb_true l : bytes_okb l = true -> bytes_ok l.
Proof.
  unfold bytes_okb, bytes_ok. rewrite forallb_forall, Forall_forall. intros H b Hb.
  apply is_byteb_true, H. by apply list_elem_of_In.
Qed.

(** Concrete bytes are bytes, by computation. *)
Ltac concrete_bytes :=
  first [apply bytes_okb_true; reflexivity | apply is_byteb_true; reflexivity].

Lemma to_int32_small n : (- 2 ^ 31 <= n < 2 ^ 31)%Z -> to_int32 n = n.
Proof. intros. unfold to_int32. rewrite Z.mod_small; lia. Qed.

#[export] Hint Resolve bytes_ok_subarray byte_at_is_byte : bytes.
#[export] Hint Resolve zlen_nonneg : bytes.
#[export] Hint Rewrite @zlen_app @zlen_cons : zlen.

(** ** Stable sorting ([Array.prototype.sort] with a comparison of numbers)

    [before x y] says that the comparison of [x] with [y] is negative. *)

Fixpoint insert_by {A} (before : A -> A -> bool) (x : A) (l : list A) : list A :=
  match l with
  | [] => [x]
  | y :: l' => if before x y then x :: l else y :: insert_by before x l'
  end.

Definition sort_by {A} (before : A -> A -> bool) (l : list A) : list A :=
  fold_left (fun acc x => insert_by before x acc) l [].

Lemma insert_by_perm {A} (before : A -> A -> bool) x l : insert_by before x l ≡ₚ x :: l.
Proof.
  induction l as [|y l IH]; [done|]. cbn. destruct (before x y); [done|]. rewrite IH. constructor.
Qed.

Lemma sort_by_perm {A} (before : A -> A -> bool) l : sort_by before l ≡ₚ l.
Proof.
  unfold sort_by. cut (forall acc, fold_left (fun acc x => insert_by before x acc) l acc ≡ₚ l ++ acc).
  { intros H. by rewrite H, app_nil_r. }
  induction l as [|x l IH]; intros acc; [done|]. cbn. rewrite IH, insert_by_perm.
  by rewrite Permutation_middle.
Qed.

Lemma length_sort_by {A} (before : A -> A -> bool) l : length (sort_by before l) = length l.
Proof. by rewrite sort_by_perm. Qed.

Lemma StronglySorted_weaken {A} (R R' : A -> A -> Prop) l :
  (forall a b, R a b -> R' a b) -> StronglySorted R l -> StronglySorted R' l.
Proof.
  intros HR. induction 1 as [|a l Hs IH Ha]; constructor; [done|]. eapply Forall_impl; [exact Ha | apply HR].
Qed.

(** Sorting by a numeric key. *)
Definition by_key {A} (key : A -> Z) (x y : A) : bool := (key x <? key y)%Z.

Lemma insert_by_key_sorted {A} (key : A -> Z) x l :
  StronglySorted (fun a b => key a <= key b)%Z l ->
  StronglySorted (fun a b => key a <= key b)%Z (insert_by (by_key key) x l).
Proof.
  induction 1 as [|y l Hs IH Hy]; cbn; [by repeat constructor|]. unfold by_key at 1.
  destruct (Z.ltb_spec (key x) (key y)).
  - constructor; [by constructor|]. constructor; [lia|].
    eapply Forall_impl; [exact Hy|]. cbn. lia.
  - constructor; [done|]. rewrite insert_by_perm. by constructor.
Qed.

Lemma sort_by_key_sorted {A} (key : A -> Z) l :
  StronglySorted (fun a b => key a <= key b)%Z (sort_by (by_key key) l).
Proof.
  unfold sort_by. cut (forall acc, StronglySorted (fun a b => key a <= key b)%Z acc ->
    StronglySorted (fun a b => key a <= key b)%Z
      (fold_left (fun acc x => insert_by (by_key key) x acc) l acc)).
  { intros H. apply H. constructor. }
  induction l as [|x l IH]; intros acc Ha; cbn; [done|]. by apply IH, insert_by_key_sorted.
Qed.

Lemma filter_none {A} (P : A -> Prop) `{forall x, Decision (P x)} l :
  Forall (fun x => ~ P x) l -> filter P l = [].
Proof. induction 1 as [|x l Hx Hl IH]; [done|]. by rewrite filter_cons_False. Qed.

(** Equal keys keep their order: insertion goes after all smaller or equal keys. *)
Lemma insert_by_key_filter {A} (key : A -> Z) x l k :
  StronglySorted (fun a b => key a <= key b)%Z l ->
  filter (fun a => key a = k) (insert_by (by_key key) x l)
  = filter (fun a => key a = k) l ++ filter (fun a => key a = k) [x].
Proof.
  induction 1 as [|y l Hs IH Hy]; [done|]. cbn [insert_by]. unfold by_key at 1.
  destruct (Z.ltb_spec (key x) (key y)).
  - rewrite (filter_cons _ x (y :: l)), (filter_cons _ x []), filter_nil. case_decide; [|by rewrite app_nil_r].
    assert (Hn : filter (fun a => key a = k) (y :: l) = []); [|by rewrite Hn].
    apply filter_none. constructor; [lia|]. eapply Forall_impl; [exact Hy|]. cbn. lia.
  - rewrite !(filter_cons _ y), IH. by case_decide.
Qed.

Lemma sort_by_key_stable {A} (key : A -> Z) l k :
  filter (fun a => key a = k) (sort_by (by_key key) l) = filter (fun a => key a = k) l.
Proof.
  unfold sort_by. cut (forall acc, StronglySorted (fun a b => key a <= key b)%Z acc ->
    filter (fun a => key a = k) (fold_left (fun acc x => insert_by (by_key key) x acc) l acc)
    = filter (fun a => key a = k) acc ++ filter (fun a => key a = k) l).
  { intros H. rewrite H; [done | constructor]. }
  induction l as [|x l IH]; intros acc Ha; cbn [fold_left]; [by rewrite filter_nil, app_nil_r|].
  rewrite IH by (by apply insert_by_key_sorted). rewrite insert_by_key_filter by done.
  rewrite <- app_assoc. f_equal. by rewrite <- filter_app.
Qed.
