(* ===== verification/Der.v ===== *)
(** * The DER encoder of the browser ([pki-registration/asn1.ts]) and the CSR
    builder ([pki-registration/csr.ts])

    Byte arrays are lists of integers in [0, 256). The encoder is modelled
    operation by operation, including the 32-bit shift of the length loop; the
    lemmas show that the bytes it produces are the DER encoding for every
    content below 2^31 bytes. *)

From S2P Require Import Prelude.

Open Scope Z_scope.

(** ** [asn1.ts] *)

Module TAG.

Definition INTEGER : Z := 0x02.
Definition BIT_STRING : Z := 0x03.
Definition OCTET_STRING : Z := 0x04.
Definition NULL : Z := 0x05.
Definition OID : Z := 0x06.
Definition UTF8_STRING : Z := 0x0c.
Definition IA5_STRING : Z := 0x16.
Definition SEQUENCE : Z := 0x30.
Definition SET : Z := 0x31.
Definition CONTEXT_CONSTRUCTED_0 : Z := 0xa0.
Definition CONTEXT_PRIMITIVE_1 : Z := 0x81.

End TAG.

(** [out.set(p, offset)] on a typed array: overwrite from [offset]. *)
Definition array_set (out : list Z) (p : list Z) (offset : nat) : list Z :=
  take offset out ++ p ++ drop (offset + length p) out.

(** The copying loop of [concat]. *)
Fixpoint concat_loop (parts : list (list Z)) (out : list Z) (offset : nat) : list Z :=
  match parts with
  | [] => out
  | p :: ps => concat_loop ps (array_set out p offset) (offset + length p)
  end.

Definition concat (parts : list (list Z)) : list Z :=
  let total := fold_left (fun n p => (n + length p)%nat) parts 0%nat in
  concat_loop parts (repeat 0 total) 0.

(** The [while (n > 0)] loop of [encodeLength]: [n & 0xff] and [n >>= 8] are
    32-bit operations. *)
Fixpoint length_bytes (fuel : nat) (n : Z) (bytes : list Z) : list Z :=
  match fuel with
  | O => bytes
  | S fuel' =>
      if n >? 0
      then length_bytes fuel' (Z.shiftr (to_int32 n) 8) (Z.land (to_int32 n) 0xff :: bytes)
      else bytes
  end.

(** The first shift brings [n] below 2^23, so five turns always end the loop
    ([length_bytes_fuel]). *)
Definition encodeLength (len : Z) : list Z :=
  if len <? 0x80 then [to_uint8 len]
  else
    let bytes := length_bytes 5 len [] in
    to_uint8 (Z.lor 0x80 (zlen bytes)) :: map to_uint8 bytes.

Definition tlv (tag : Z) (content : list Z) : list Z :=
  concat [[to_uint8 tag]; encodeLength (zlen content); content].

#[global] Arguments concat : simpl never.
#[global] Arguments encodeLength : simpl never.
#[global] Arguments tlv : simpl never.

(** The [der] object. *)
Module der.

Definition sequence (items : list (list Z)) : list Z := tlv TAG.SEQUENCE (concat items).
Definition set (items : list (list Z)) : list Z := tlv TAG.SET (concat items).
Definition integer (value : Z) : list Z := tlv TAG.INTEGER [to_uint8 value].
Definition oid (encodedContent : list Z) : list Z := tlv TAG.OID encodedContent.
Definition null : list Z := tlv TAG.NULL [].
Definition octetString (content : list Z) : list Z := tlv TAG.OCTET_STRING content.
Definition utf8String (utf8 : list Z) : list Z := tlv TAG.UTF8_STRING utf8.
Definition ia5String (utf8 : list Z) : list Z := tlv TAG.IA5_STRING utf8.
Definition rfc822Name (utf8 : list Z) : list Z := tlv TAG.CONTEXT_PRIMITIVE_1 utf8.
Definition bitString (content : list Z) : list Z :=
  tlv TAG.BIT_STRING (concat [[0x00]; content]).
Definition context0 (content : list Z) : list Z := tlv TAG.CONTEXT_CONSTRUCTED_0 content.
Definition raw (bytes : list Z) : list Z := bytes.

End der.

Module OID.

Definition commonName : list Z := [0x55; 0x04; 0x03].
Definition emailAddress : list Z := [0x2a; 0x86; 0x48; 0x86; 0xf7; 0x0d; 0x01; 0x09; 0x01].
Definition extensionRequest : list Z := [0x2a; 0x86; 0x48; 0x86; 0xf7; 0x0d; 0x01; 0x09; 0x0e].
Definition subjectAltName : list Z := [0x55; 0x1d; 0x11].
Definition sha256WithRSA : list Z := [0x2a; 0x86; 0x48; 0x86; 0xf7; 0x0d; 0x01; 0x01; 0x0b].

End OID.

(** ** [csr.ts]

    The subject's strings are given as the bytes [TextEncoder] makes of them. *)

Record CsrSubject := { commonName : list Z; email : list Z }.

Definition buildSubjectName (subject : CsrSubject) : list Z :=
  let cnRdn := der.set [der.sequence [der.oid OID.commonName; der.utf8String (commonName subject)]] in
  let emailRdn := der.set [der.sequence [der.oid OID.emailAddress; der.ia5String (email subject)]] in
  der.sequence [cnRdn; emailRdn].

Definition buildAttributes (subject : CsrSubject) : list Z :=
  let sanValue := der.sequence [der.rfc822Name (email subject)] in
  let sanExtension := der.sequence [der.oid OID.subjectAltName; der.octetString sanValue] in
  let extensions := der.sequence [sanExtension] in
  let attribute := der.sequence [der.oid OID.extensionRequest; der.set [extensions]] in
  der.context0 attribute.

Definition buildRequestInfo (spki : list Z) (subject : CsrSubject) : list Z :=
  der.sequence [der.integer 0; buildSubjectName subject; der.raw spki; buildAttributes subject].

(** [buildCsrDer]: [spki] is the exported public key and [sign] the RSA
    signature of the platform's WebCrypto under the pair's private key. *)
Definition buildCsrDer (spki : list Z) (sign : list Z -> list Z) (subject : CsrSubject) : list Z :=
  let requestInfo := buildRequestInfo spki subject in
  let signature := sign requestInfo in
  let signatureAlgorithm := der.sequence [der.oid OID.sha256WithRSA; der.null] in
  der.sequence [requestInfo; signatureAlgorithm; der.bitString signature].

(** ** The reference encoding *)

(** Minimal big-endian base-256 digits of [n > 0], as X.690 wants them. *)
Fixpoint be_digits (fuel : nat) (n : Z) : list Z :=
  match fuel with
  | O => []
  | S fuel' => if n =? 0 then [] else be_digits fuel' (n / 256) ++ [n mod 256]
  end.

(** The value of big-endian digits. *)
Definition be_value (digits : list Z) : Z := fold_left (fun v d => v * 256 + d) digits 0.

Definition der_length (len : Z) : list Z :=
  if len <? 128 then [len]
  else let digits := be_digits 4 len in (128 + zlen digits) :: digits.

(** ** Lemmas on [concat] *)

Lemma fold_length_total (parts : list (list Z)) n :
  fold_left (fun n p => (n + length p)%nat) parts n = (n + length (List.concat parts))%nat.
Proof.
  revert n. induction parts as [|p ps IH]; intros n; cbn; [lia|].
  rewrite IH, length_app. lia.
Qed.

Lemma concat_loop_spec parts pre rest :
  length rest = length (List.concat parts) ->
  concat_loop parts (pre ++ rest) (length pre) = pre ++ List.concat parts.
Proof.
  revert pre rest. induction parts as [|p ps IH]; intros pre rest Hlen; cbn in *.
  - destruct rest; [done | discriminate].
  - unfold array_set. rewrite length_app in Hlen.
    rewrite take_app_length.
    rewrite drop_app_ge by lia.
    replace (length pre + length p - length pre)%nat with (length p) by lia.
    rewrite (app_assoc pre p), <- length_app, IH.
    + by rewrite <- app_assoc.
    + rewrite length_drop. lia.
Qed.

(** The offset-by-offset copy is list concatenation. *)
Lemma concat_spec parts : concat parts = List.concat parts.
Proof.
  unfold concat. rewrite fold_length_total.
  apply (concat_loop_spec parts []). by rewrite repeat_length.
Qed.

(** ** Lemmas on [encodeLength] *)

Lemma length_bytes_step fuel n acc :
  0 <= n < 2 ^ 31 ->
  length_bytes (S fuel) n acc =
  if n =? 0 then acc else length_bytes fuel (n / 256) (n mod 256 :: acc).
Proof.
  intros Hn. cbn [length_bytes]. rewrite to_int32_small by lia.
  rewrite Z.gtb_ltb. change 0xff with (Z.ones 8).
  rewrite Z.land_ones, Z.shiftr_div_pow2 by lia. change (2 ^ 8) with 256.
  destruct (Z.ltb_spec 0 n), (Z.eqb_spec n 0); first [done | lia].
Qed.

Lemma length_bytes_digits fuel n acc :
  0 <= n < 2 ^ 31 -> length_bytes fuel n acc = be_digits fuel n ++ acc.
Proof.
  revert n acc. induction fuel as [|fuel IH]; intros n acc Hn; [done|].
  rewrite length_bytes_step by lia. cbn [be_digits].
  destruct (Z.eqb_spec n 0); [done|].
  rewrite IH by (split; [apply Z.div_pos|apply Z.div_lt_upper_bound]; lia).
  by rewrite <- app_assoc.
Qed.

Lemma be_digits_bytes fuel n : 0 <= n -> bytes_ok (be_digits fuel n).
Proof.
  revert n. induction fuel as [|fuel IH]; intros n Hn; cbn; [constructor|].
  destruct (n =? 0); [constructor|]. apply bytes_ok_app. split.
  - apply IH. apply Z.div_pos; lia.
  - constructor; [|constructor]. apply Z.mod_pos_bound. lia.
Qed.

Lemma be_value_app xs d : be_value (xs ++ [d]) = be_value xs * 256 + d.
Proof. unfold be_value. by rewrite fold_left_app. Qed.

Lemma be_value_digits fuel n :
  0 <= n < 256 ^ Z.of_nat fuel -> be_value (be_digits fuel n) = n.
Proof.
  revert n. induction fuel as [|fuel IH]; intros n Hn; cbn [be_digits].
  - change (256 ^ Z.of_nat 0) with 1 in Hn. replace n with 0 by lia. done.
  - destruct (Z.eqb_spec n 0) as [->|Hnz]; [done|].
    rewrite Nat2Z.inj_succ, Z.pow_succ_r in Hn by lia.
    rewrite be_value_app, IH.
    + pose proof (Z.div_mod n 256). lia.
    + split; [apply Z.div_pos; lia | apply Z.div_lt_upper_bound; lia].
Qed.

Lemma be_digits_S fuel n :
  be_digits (S fuel) n = if n =? 0 then [] else be_digits fuel (n / 256) ++ [n mod 256].
Proof. done. Qed.

Lemma be_digits_stable fuel n :
  0 <= n < 256 ^ Z.of_nat fuel -> be_digits (S fuel) n = be_digits fuel n.
Proof.
  revert n. induction fuel as [|fuel IH]; intros n Hn.
  - change (256 ^ Z.of_nat 0) with 1 in Hn. by replace n with 0 by lia.
  - rewrite Nat2Z.inj_succ, Z.pow_succ_r in Hn by lia.
    rewrite (be_digits_S (S fuel) n), (be_digits_S fuel n).
    destruct (n =? 0); [done|]. rewrite IH; [done|].
    split; [apply Z.div_pos; lia | apply Z.div_lt_upper_bound; lia].
Qed.

Lemma be_digits_length fuel n : (length (be_digits fuel n) <= fuel)%nat.
Proof.
  revert n. induction fuel as [|fuel IH]; intros n; cbn; [lia|].
  destruct (n =? 0); cbn; [lia|]. rewrite length_app. cbn. specialize (IH (n / 256)). lia.
Qed.

Lemma be_digits_nonempty fuel n : n <> 0 -> (0 < length (be_digits (S fuel) n))%nat.
Proof.
  intros Hn. cbn [be_digits]. destruct (Z.eqb_spec n 0); [done|]. rewrite length_app. cbn. lia.
Qed.

Lemma map_to_uint8_id l : bytes_ok l -> map to_uint8 l = l.
Proof.
  induction 1 as [|b l Hb _ IH]; cbn; [done|]. rewrite IH. f_equal.
  unfold to_uint8. apply Z.mod_small. exact Hb.
Qed.

(** Every turn of the loop after the fourth sees [n = 0]: the fuel of
    [encodeLength] is never exhausted below 2^31. *)
Lemma length_bytes_fuel k n :
  0 <= n < 2 ^ 31 -> length_bytes (5 + k) n [] = length_bytes 5 n [].
Proof.
  intros Hn. rewrite !length_bytes_digits by done.
  rewrite !app_nil_r. induction k as [|k IH]; [done|].
  replace (5 + S k)%nat with (S (5 + k)) by lia.
  rewrite be_digits_stable; [done|].
  split; [lia|]. apply (Z.lt_le_trans _ (256 ^ 5)); [lia|].
  apply Z.pow_le_mono_r; lia.
Qed.

Lemma lor_128 n : 0 <= n < 128 -> Z.lor 0x80 n = 128 + n.
Proof.
  intros Hn.
  assert (Hl : Z.land 128 n = 0).
  { apply Z.bits_inj'. intros i Hi. rewrite Z.land_spec, Z.bits_0.
    change 128 with (2 ^ 7). rewrite Z.pow2_bits_eqb by lia.
    destruct (Z.eqb_spec 7 i) as [<-|]; [|done].
    rewrite andb_true_l, Z.testbit_eqb by lia. rewrite Z.div_small by lia. done. }
  pose proof (Z.add_lor_land 128 n) as H. rewrite Hl in H. lia.
Qed.

(** [encodeLength] is the DER length for every length below 2^31. *)
Lemma encodeLength_der len : 0 <= len < 2 ^ 31 -> encodeLength len = der_length len.
Proof.
  intros Hlen. unfold encodeLength, der_length.
  destruct (Z.ltb_spec len 128) as [Hs|Hs].
  - unfold to_uint8. rewrite Z.mod_small by lia. done.
  - rewrite length_bytes_digits, app_nil_r by lia.
    rewrite be_digits_stable by (cbn; lia).
    pose proof (be_digits_length 4 len).
    rewrite lor_128 by (unfold zlen; lia).
    rewrite map_to_uint8_id by (apply be_digits_bytes; lia).
    unfold to_uint8 at 1. rewrite Z.mod_small by (unfold zlen; lia). done.
Qed.

Lemma der_length_bytes len : 0 <= len -> bytes_ok (der_length len).
Proof.
  intros Hl. unfold der_length. destruct (Z.ltb_spec len 128).
  - constructor; [unfold is_byte; lia | constructor].
  - constructor; [|apply be_digits_bytes; lia].
    pose proof (be_digits_length 4 len). unfold is_byte, zlen. lia.
Qed.

Lemma der_length_zlen len : 0 <= len -> 1 <= zlen (der_length len) <= 5.
Proof.
  intros Hl. unfold der_length. destruct (Z.ltb_spec len 128).
  - done.
  - rewrite zlen_cons. pose proof (be_digits_length 4 len).
    unfold zlen in *. lia.
Qed.

(** The shape of an encoded element. *)
Lemma tlv_spec tag content :
  is_byte tag -> zlen content < 2 ^ 31 ->
  tlv tag content = tag :: der_length (zlen content) ++ content.
Proof.
  intros Ht Hc. unfold tlv. rewrite concat_spec, encodeLength_der.
  - cbn [List.concat]. rewrite app_nil_r. unfold to_uint8.
    rewrite Z.mod_small by exact Ht. done.
  - pose proof (zlen_nonneg content). lia.
Qed.

Lemma tlv_bytes tag content :
  is_byte tag -> zlen content < 2 ^ 31 -> bytes_ok content -> bytes_ok (tlv tag content).
Proof.
  intros Ht Hc Hb. rewrite tlv_spec by done. constructor; [done|].
  apply bytes_ok_app. split; [apply der_length_bytes, zlen_nonneg | done].
Qed.

Lemma zlen_tlv tag content :
  is_byte tag -> zlen content < 2 ^ 31 ->
  zlen content + 2 <= zlen (tlv tag content) <= zlen content + 6.
Proof.
  intros Ht Hc. rewrite tlv_spec by done. rewrite zlen_cons, zlen_app.
  pose proof (der_length_zlen (zlen content) (zlen_nonneg _)). lia.
Qed.

(** Beyond 2^31 the signed shift ends the loop early: the length is lost. *)
Lemma encodeLength_int32_wrap : encodeLength (2 ^ 31) = [0x81; 0x00].
Proof. vm_compute. reflexivity. Qed.
