(* ===== verification/DerRead.v ===== *)
(** * The two DER readers of the browser

    [chain-verify.ts] (Module [Chain]) reads elements at offsets of one buffer;
    [as-exchange/cert.parser.ts] (Module [Parser]) reads them out of content
    slices. Both are modelled as written; the lemmas show that they read back
    what [Der.tlv] writes, stay inside the buffer, terminate, and agree. *)

From S2P Require Import Prelude Der.

Open Scope Z_scope.

(** The exceptions, one constructor per [throw new Error]. [OutOfFuel] is not a
    JavaScript exception: it marks a loop of the model that ran out of fuel,
    which the termination lemmas exclude. *)
Inductive der_error : Type :=
| Truncated
| BadLength
| Overrun
| NoProgress
| EmptyOid
| TruncatedOid
| WrongTag
| UndefinedNode
| BadTime
| MissingParts
| TrailingData
| NoPublicKeyAlgorithm
| NoAlgorithmOid
| BadPem
| EmptyPem
| BadBase64
| BadOwnerUri
| NoOwnerUri
| OutOfFuel.

(** [for (let k = 0; k < n; k++) len = len * 256 + buf[i++];] *)
Fixpoint read_length (n : nat) (buf : list Z) (i len : Z) : Z * Z :=
  match n with
  | O => (len, i)
  | S n' => read_length n' buf (i + 1) (len * 256 + byte_at buf i)
  end.

Module Chain.

Record Tlv := { tag : Z; contentStart : Z; end_ : Z; raw : list Z }.

Definition readTlv (buf : list Z) (off : Z) : result der_error Tlv :=
  let! _ := check (off + 2 <=? zlen buf) Truncated in
  let tag := byte_at buf off in
  let len := byte_at buf (off + 1) in
  let i := off + 2 in
  let! (len, i) :=
    if negb (Z.land len 0x80 =? 0) then
      let n := Z.land len 0x7f in
      let! _ := check (negb ((n =? 0) || (n >? 4) || (i + n >? zlen buf))) BadLength in
      Ok (read_length (Z.to_nat n) buf i 0)
    else Ok (len, i) in
  let contentStart := i in
  let end_ := i + len in
  let! _ := check (end_ <=? zlen buf) Overrun in
  Ok {| tag := tag; contentStart := contentStart; end_ := end_; raw := subarray buf off end_ |}.

(** The loop of [children] from offset [off]; [stop] is the parent's end. *)
Fixpoint children_loop (fuel : nat) (buf : list Z) (off stop : Z) : result der_error (list Tlv) :=
  match fuel with
  | O => Err OutOfFuel
  | S fuel' =>
      if off <? stop then
        let! node := readTlv buf off in
        let! _ := check (negb (end_ node <=? off)) NoProgress in
        let! rest := children_loop fuel' buf (end_ node) stop in
        Ok (node :: rest)
      else Ok []
  end.

Definition children (buf : list Z) (parent : Tlv) : result der_error (list Tlv) :=
  children_loop (S (Z.to_nat (end_ parent - contentStart parent))) buf
    (contentStart parent) (end_ parent).

(** The arcs pushed by the loop of [decodeOid]. *)
Fixpoint oid_arcs (content : list Z) (value : Z) : list Z :=
  match content with
  | [] => []
  | b :: rest =>
      let value := value * 128 + Z.land b 0x7f in
      if Z.land b 0x80 =? 0 then value :: oid_arcs rest 0 else oid_arcs rest value
  end.

(** [decodeOid] up to the final [parts.join(".")]: the list of arcs. *)
Definition decodeOid (content : list Z) : result der_error (list Z) :=
  match content with
  | [] => Err EmptyOid
  | first :: rest => Ok (first / 40 :: first mod 40 :: oid_arcs rest 0)
  end.

Definition content_of (buf : list Z) (node : Tlv) : list Z :=
  subarray buf (contentStart node) (end_ node).

Definition oidOf (buf : list Z) (node : Tlv) : result der_error (list Z) :=
  decodeOid (content_of buf node).

End Chain.

Module Parser.

Record Tlv := { tag : Z; content : list Z; end_ : Z }.

Definition readTlv (buf : list Z) (off : Z) : result der_error Tlv :=
  let! _ := check (negb ((off <? 0) || (off + 2 >? zlen buf))) Truncated in
  let tag := byte_at buf off in
  let len := byte_at buf (off + 1) in
  let i := off + 2 in
  let! (len, i) :=
    if negb (Z.land len 0x80 =? 0) then
      let numBytes := Z.land len 0x7f in
      let! _ := check (negb ((numBytes =? 0) || (numBytes >? 4) || (i + numBytes >? zlen buf)))
                  BadLength in
      Ok (read_length (Z.to_nat numBytes) buf i 0)
    else Ok (len, i) in
  let end_ := i + len in
  let! _ := check (negb (end_ >? zlen buf)) Overrun in
  Ok {| tag := tag; content := subarray buf i end_; end_ := end_ |}.

Fixpoint readChildren_loop (fuel : nat) (content : list Z) (off : Z)
    : result der_error (list Tlv) :=
  match fuel with
  | O => Err OutOfFuel
  | S fuel' =>
      if off <? zlen content then
        let! node := readTlv content off in
        let! _ := check (negb (end_ node <=? off)) NoProgress in
        let! rest := readChildren_loop fuel' content (end_ node) in
        Ok (node :: rest)
      else Ok []
  end.

Definition readChildren (content : list Z) : result der_error (list Tlv) :=
  readChildren_loop (S (length content)) content 0.

Definition requireTag (node : Tlv) (t : Z) : result der_error Tlv :=
  if tag node =? t then Ok node else Err WrongTag.

Fixpoint bytesEqual (a b : list Z) : bool :=
  match a, b with
  | [], [] => true
  | x :: a', y :: b' => (x =? y) && bytesEqual a' b'
  | _, _ => false
  end.

Definition integerToNumber (bytes : list Z) : Z :=
  fold_left (fun value byte => value * 256 + byte) bytes 0.

Definition decodeOid (bytes : list Z) : result der_error (list Z) :=
  match bytes with
  | [] => Err EmptyOid
  | first :: rest =>
      let parts := [Z.min 2 (first / 40); if first <? 80 then first mod 40 else first - 80] in
      let arcs := parts ++ Chain.oid_arcs rest 0 in
      let! _ := check (Z.land (List.last bytes 0) 0x80 =? 0) TruncatedOid in
      Ok arcs
  end.

Definition isConstructed (t : Z) : bool := negb (Z.land t 0x20 =? 0).

(** The test on one SEQUENCE: an OID child equal to [oid] in front, and the
    first OCTET STRING child. *)
Definition extension_hit (kids : list Tlv) (oid : list Z) : option (list Z) :=
  match kids with
  | k0 :: _ :: _ =>
      if (tag k0 =? TAG.OID) && bytesEqual (content k0) oid
      then content <$> List.find (fun k => tag k =? TAG.OCTET_STRING) kids
      else None
  | _ => None
  end.

Fixpoint findExtension_loop (fuel : nat) (bytes oid : list Z) (off : Z)
    : result der_error (option (list Z)) :=
  match fuel with
  | O => Err OutOfFuel
  | S fuel' =>
      if off <? zlen bytes then
        let! node := readTlv bytes off in
        let! hit :=
          if tag node =? TAG.SEQUENCE
          then let! kids := readChildren (content node) in Ok (extension_hit kids oid)
          else Ok None in
        match hit with
        | Some v => Ok (Some v)
        | None =>
            let! found :=
              if isConstructed (tag node)
              then findExtension_loop fuel' (content node) oid 0
              else Ok None in
            match found with
            | Some v => Ok (Some v)
            | None => findExtension_loop fuel' bytes oid (end_ node)
            end
        end
      else Ok None
  end.

Definition findExtensionValue (bytes oid : list Z) : result der_error (option (list Z)) :=
  findExtension_loop (S (length bytes)) bytes oid 0.

End Parser.

(** ** Reading back a length *)

Lemma read_length_spec n buf i len :
  read_length n buf i len =
  (fold_left (fun v d => v * 256 + d) (map (fun k => byte_at buf (i + Z.of_nat k)) (seq 0 n)) len,
   i + Z.of_nat n).
Proof.
  revert i len. induction n as [|n IH]; intros i len.
  - cbn. f_equal. lia.
  - cbn [read_length seq map fold_left]. rewrite IH. f_equal; [|lia].
    rewrite <- seq_shift, map_map. replace (i + Z.of_nat 0) with i by lia.
    f_equal. apply map_ext. intros k. f_equal. lia.
Qed.

Lemma byte_at_run pre digits post :
  map (fun k => byte_at (pre ++ digits ++ post) (zlen pre + Z.of_nat k)) (seq 0 (length digits))
  = digits.
Proof.
  apply list_eq. intros k.
  rewrite list_lookup_fmap.
  destruct (decide (k < length digits)%nat) as [Hk|Hk].
  - rewrite lookup_seq_lt by done. cbn.
    rewrite byte_at_app_r by lia.
    replace (zlen pre + Z.of_nat k - zlen pre) with (Z.of_nat k) by lia.
    rewrite byte_at_app_l by (unfold zlen; lia).
    unfold byte_at. rewrite Nat2Z.id.
    symmetry. rewrite nth_lookup. destruct (lookup_lt_is_Some_2 digits k Hk) as [x Hx].
    by rewrite Hx.
  - rewrite lookup_seq_ge by lia. cbn. symmetry. apply lookup_ge_None. lia.
Qed.

Lemma read_length_digits pre digits post :
  read_length (length digits) (pre ++ digits ++ post) (zlen pre) 0
  = (be_value digits, zlen pre + zlen digits).
Proof. rewrite read_length_spec, byte_at_run. done. Qed.

Lemma land_high n : 0 <= n < 128 -> Z.land n 0x80 = 0.
Proof.
  intros Hn. pose proof (Z.add_lor_land 128 n) as H.
  rewrite lor_128 in H by done. rewrite Z.land_comm in H. lia.
Qed.

Lemma land_long n : 0 < n < 128 -> Z.land (128 + n) 0x80 = 128 /\ Z.land (128 + n) 0x7f = n.
Proof.
  intros Hn. split.
  - rewrite <- lor_128, Z.land_comm, Z.land_lor_distr_r by lia.
    rewrite (Z.land_comm 128 n), (land_high n) by lia. done.
  - change 0x7f with (Z.ones 7). rewrite Z.land_ones by lia.
    change (2 ^ 7) with 128. rewrite Z.add_comm.
    replace (n + 128) with (n + 1 * 128) by lia.
    rewrite Z.mod_add by lia. apply Z.mod_small. lia.
Qed.

(** The common header logic of both readers. *)
Lemma read_header pre tag content post :
  is_byte tag -> zlen content < 2 ^ 31 ->
  let buf := pre ++ tlv tag content ++ post in
  let off := zlen pre in
  let cs := off + (zlen (tlv tag content) - zlen content) in
  off + 2 <= zlen buf /\ byte_at buf off = tag /\ cs + zlen content <= zlen buf /\
  let len := byte_at buf (off + 1) in
  if negb (Z.land len 0x80 =? 0) then
    let n := Z.land len 0x7f in
    (n =? 0) || (n >? 4) || (off + 2 + n >? zlen buf) = false /\
    read_length (Z.to_nat n) buf (off + 2) 0 = (zlen content, cs)
  else len = zlen content /\ off + 2 = cs.
Proof.
  intros Ht Hc. pose proof (zlen_tlv tag content Ht Hc) as Hlen.
  rewrite tlv_spec in * by done. intros buf off cs.
  pose proof (zlen_nonneg pre). pose proof (zlen_nonneg content). pose proof (zlen_nonneg post).
  assert (Hbuf : zlen buf = off + zlen (tag :: der_length (zlen content) ++ content) + zlen post)
    by (subst buf off; autorewrite with zlen; lia).
  split; [lia|]. split.
  { subst buf off. rewrite byte_at_app_r by lia. by rewrite Z.sub_diag. }
  split; [lia|]. cbn zeta.
  assert (Hlenb : byte_at buf (off + 1) = byte_at (der_length (zlen content) ++ content ++ post) 0).
  { subst buf off. rewrite byte_at_app_r by lia.
    replace (zlen pre + 1 - zlen pre) with 1 by lia. rewrite <- app_comm_cons, <- app_assoc. done. }
  assert (Hb : buf = pre ++ tag :: der_length (zlen content) ++ content ++ post)
    by (subst buf; rewrite <- app_comm_cons, <- app_assoc; done).
  rewrite Hlenb. subst cs. clearbody buf. rewrite zlen_cons, zlen_app in *.
  unfold der_length in *. destruct (Z.ltb_spec (zlen content) 128) as [Hs|Hs].
  - cbn [app]. rewrite byte_at_cons_0, land_high by lia. cbn [negb Z.eqb].
    change (zlen [zlen content]) with 1. lia.
  - cbn [app]. rewrite byte_at_cons_0. set (digits := be_digits 4 (zlen content)) in *.
    assert (Hd : 0 < zlen digits <= 4).
    { pose proof (be_digits_length 4 (zlen content)).
      pose proof (be_digits_nonempty 3 (zlen content)). unfold zlen in *. subst digits. lia. }
    destruct (land_long (zlen digits)) as [Hl1 Hl2]; [lia|]. rewrite Hl1, Hl2. cbn [negb Z.eqb].
    rewrite zlen_cons in *. split.
    + rewrite !orb_false_iff, !Z.gtb_ltb, Z.eqb_neq, !Z.ltb_ge. lia.
    + replace buf with ((pre ++ [tag; 128 + zlen digits]) ++ digits ++ (content ++ post))
        by (rewrite Hb, <- !app_assoc; done).
      replace (off + 2) with (zlen (pre ++ [tag; 128 + zlen digits]))
        by (subst off; rewrite zlen_app; done).
      replace (Z.to_nat (zlen digits)) with (length digits) by (unfold zlen; lia).
      rewrite read_length_digits. f_equal.
      * subst digits. apply be_value_digits. cbn. lia.
      * rewrite zlen_app. subst off. change (zlen [tag; _]) with 2. lia.
Qed.

(** The two readers on an element written by [tlv]. *)
Lemma parser_readTlv_at pre tag content post :
  is_byte tag -> zlen content < 2 ^ 31 ->
  Parser.readTlv (pre ++ tlv tag content ++ post) (zlen pre) =
  Ok {| Parser.tag := tag; Parser.content := content;
        Parser.end_ := zlen pre + zlen (tlv tag content) |}.
Proof.
  intros Ht Hc.
  destruct (read_header pre tag content post Ht Hc) as (H1 & H2 & H3 & H4).
  pose proof (zlen_tlv tag content Ht Hc) as Hl. pose proof (zlen_nonneg pre).
  assert (Hsub : subarray (pre ++ tlv tag content ++ post)
    (zlen pre + (zlen (tlv tag content) - zlen content)) (zlen pre + zlen (tlv tag content)) = content).
  { rewrite (tlv_spec tag content) by done.
    replace (pre ++ (tag :: der_length (zlen content) ++ content) ++ post)
      with ((pre ++ tag :: der_length (zlen content)) ++ content ++ post)
      by (rewrite <- !app_assoc, <- !app_comm_cons, <- !app_assoc; done).
    apply subarray_app; rewrite !zlen_app, !zlen_cons, ?zlen_app; lia. }
  assert (Hend : zlen pre + (zlen (tlv tag content) - zlen content) + zlen content
    = zlen pre + zlen (tlv tag content)) by lia.
  unfold Parser.readTlv. set (buf := pre ++ tlv tag content ++ post) in *. cbn zeta in *.
  rewrite (proj2 (Z.ltb_ge (zlen pre) 0)) by lia.
  rewrite (Z.gtb_ltb (zlen pre + 2)), (proj2 (Z.ltb_ge _ _)) by lia. cbn [orb negb check rbind].
  rewrite H2. destruct (negb _).
  - destruct H4 as [H4 H5]. rewrite H4, H5. cbn [negb check rbind].
    rewrite Z.gtb_ltb, (proj2 (Z.ltb_ge _ _)) by lia. cbn [negb check rbind].
    by rewrite Hend, Hsub.
  - destruct H4 as [H4 H5]. rewrite H4, H5. cbn [rbind].
    rewrite Z.gtb_ltb, (proj2 (Z.ltb_ge _ _)) by lia. cbn [negb check rbind].
    by rewrite Hend, Hsub.
Qed.

Lemma parser_readTlv_0 tag content :
  is_byte tag -> zlen content < 2 ^ 31 ->
  Parser.readTlv (tlv tag content) 0 =
  Ok {| Parser.tag := tag; Parser.content := content; Parser.end_ := zlen (tlv tag content) |}.
Proof.
  intros Ht Hc. pose proof (parser_readTlv_at [] tag content [] Ht Hc) as H.
  by rewrite app_nil_l, app_nil_r in H.
Qed.

(** The parser's view of a node read by [chain-verify.ts]. *)
Definition parser_view (buf : list Z) (n : Chain.Tlv) : Parser.Tlv :=
  {| Parser.tag := Chain.tag n; Parser.content := Chain.content_of buf n;
     Parser.end_ := Chain.end_ n |}.

(** At any offset that is not negative the two readers accept the same bytes,
    give the same node and raise the same exception. *)
Lemma readTlv_agree buf off :
  0 <= off -> Parser.readTlv buf off = rmap (parser_view buf) (Chain.readTlv buf off).
Proof.
  intros Hoff. unfold Parser.readTlv, Chain.readTlv.
  rewrite (proj2 (Z.ltb_ge off 0)) by lia.
  rewrite (Z.gtb_ltb (off + 2)), (Z.ltb_antisym (off + 2)). cbn [orb]. rewrite negb_involutive.
  destruct (off + 2 <=? zlen buf); [|done]. cbn [check rbind].
  destruct (negb _); cbn [rbind].
  - destruct (negb _); [|done]. cbn [check rbind].
    destruct (read_length _ _ _ _) as [len i].
    rewrite (Z.gtb_ltb (i + len)), (Z.ltb_antisym (i + len)), negb_involutive.
    by destruct (i + len <=? zlen buf).
  - set (end_ := off + 2 + byte_at buf (off + 1)).
    rewrite (Z.gtb_ltb end_), (Z.ltb_antisym end_), negb_involutive.
    by destruct (end_ <=? zlen buf).
Qed.

(** What a successful read says about the buffer. *)
Lemma read_length_bounds n buf i len :
  bytes_ok buf -> 0 <= len ->
  0 <= fst (read_length n buf i len) /\ snd (read_length n buf i len) = i + Z.of_nat n.
Proof.
  intros Hb. revert i len. induction n as [|n IH]; intros i len Hl; cbn [read_length].
  - cbn. lia.
  - pose proof (byte_at_is_byte buf i Hb) as Hi. unfold is_byte in Hi.
    destruct (IH (i + 1) (len * 256 + byte_at buf i)) as [H1 H2]; [lia|]. lia.
Qed.

Lemma chain_readTlv_bounds buf off t :
  bytes_ok buf -> 0 <= off -> Chain.readTlv buf off = Ok t ->
  off + 2 <= Chain.contentStart t /\ Chain.contentStart t <= Chain.end_ t <= zlen buf /\
  Chain.raw t = subarray buf off (Chain.end_ t) /\ Chain.tag t = byte_at buf off.
Proof.
  intros Hb Hoff H. unfold Chain.readTlv in H.
  apply rbind_ok in H as (u & Hc & H). apply check_ok in Hc.
  pose proof (byte_at_is_byte buf (off + 1) Hb) as Hl.
  assert (Hhdr : exists len i, off + 2 <= i /\ 0 <= len /\
    (let! _ := check (i + len <=? zlen buf) Overrun in
     Ok {| Chain.tag := byte_at buf off; Chain.contentStart := i; Chain.end_ := i + len;
           Chain.raw := subarray buf off (i + len) |}) = Ok t).
  { destruct (negb _).
    - apply rbind_ok in H as ([len i] & Hr & H).
      apply rbind_ok in Hr as (? & _ & Hr). injection Hr as Hr.
      destruct (read_length_bounds (Z.to_nat (Z.land (byte_at buf (off + 1)) 127)) buf (off + 2) 0)
        as [Hf Hs]; [done | lia |]. rewrite Hr in Hf, Hs. cbn in Hf, Hs.
      exists len, i. split; [lia|]. done.
    - cbn [rbind] in H. exists (byte_at buf (off + 1)), (off + 2).
      unfold is_byte in Hl. split; [lia|]. split; [lia|]. done. }
  destruct Hhdr as (len & i & Hi & Hlen & H').
  apply rbind_ok in H' as (? & Hc' & H'). apply check_ok in Hc'. bool_to_Z. inv_result.
  cbn. repeat split; lia.
Qed.

Lemma parser_readTlv_bounds buf off t :
  bytes_ok buf -> 0 <= off -> Parser.readTlv buf off = Ok t ->
  off + 2 <= Parser.end_ t <= zlen buf /\ bytes_ok (Parser.content t) /\
  zlen (Parser.content t) <= Parser.end_ t - off - 2 /\
  exists hdr, subarray buf off (Parser.end_ t) = hdr ++ Parser.content t /\ 2 <= zlen hdr.
Proof.
  intros Hb Hoff H. rewrite readTlv_agree in H by done.
  destruct (Chain.readTlv buf off) as [c|] eqn:Hc; [|done]. injection H as <-.
  destruct (chain_readTlv_bounds buf off c Hb Hoff Hc) as (H1 & H2 & _ & _).
  cbn. unfold Chain.content_of. split; [lia|]. split; [auto with bytes|].
  rewrite zlen_subarray by lia. split; [lia|].
  exists (subarray buf off (Chain.contentStart c)). split.
  - unfold subarray.
    replace (Z.to_nat (Chain.end_ c - off)) with
      (Z.to_nat (Chain.contentStart c - off) + Z.to_nat (Chain.end_ c - Chain.contentStart c))%nat by lia.
    rewrite <- take_take_drop, drop_drop. do 3 f_equal. lia.
  - rewrite zlen_subarray by lia. lia.
Qed.

#[export] Hint Resolve chain_readTlv_bounds parser_readTlv_bounds : bytes.

(** The element written by [tlv], read by [chain-verify.ts]. *)
Lemma chain_readTlv_at pre tag content post :
  is_byte tag -> zlen content < 2 ^ 31 ->
  let buf := pre ++ tlv tag content ++ post in
  exists t, Chain.readTlv buf (zlen pre) = Ok t /\ Chain.tag t = tag /\
    Chain.content_of buf t = content /\ Chain.raw t = tlv tag content /\
    Chain.end_ t = zlen pre + zlen (tlv tag content).
Proof.
  intros Ht Hc buf. pose proof (parser_readTlv_at pre tag content post Ht Hc) as H.
  fold buf in H. rewrite readTlv_agree in H by apply zlen_nonneg.
  destruct (Chain.readTlv buf (zlen pre)) as [t|] eqn:E; [|done].
  cbn in H. injection H as H1 H2 H3. exists t. repeat split; try done.
  assert (Hraw : Chain.raw t = subarray buf (zlen pre) (Chain.end_ t)).
  { unfold Chain.readTlv in E. apply rbind_ok in E as (? & _ & E).
    apply rbind_ok in E as ([? ?] & _ & E). apply rbind_ok in E as (? & _ & E). injection E as <-. done. }
  rewrite Hraw, H3. unfold buf. apply subarray_app; done.
Qed.
