(* ===== verification/DerProps.v ===== *)
(** * Properties of the DER layer

    Round trips between the encoder and the two readers, containment and
    termination of the readers, agreement of the two OID decoders, and the
    e-mail address of a CSR found again by the extension search. *)

From S2P Require Import Prelude Der DerRead.

Open Scope Z_scope.

(** ** Specifications *)

(** An element to write: its tag and its content. *)
Definition element := (Z * list Z)%type.

Definition element_ok (e : element) : Prop := is_byte e.1 /\ zlen e.2 < 2 ^ 31.

Definition encode (items : list element) : list Z :=
  List.concat (map (fun e => tlv e.1 e.2) items).

#[global] Arguments encode : simpl never.

(** The nodes a reader must return for elements written one after another,
    the first at offset [off]. *)
Fixpoint nodes_from (off : Z) (items : list element) : list Parser.Tlv :=
  match items with
  | [] => []
  | e :: rest =>
      let stop := off + zlen (tlv e.1 e.2) in
      {| Parser.tag := e.1; Parser.content := e.2; Parser.end_ := stop |} :: nodes_from stop rest
  end.

(** [tiles buf off nodes]: read one after another from [off], the nodes fill
    the buffer exactly. *)
Fixpoint tiles (buf : list Z) (off : Z) (nodes : list Parser.Tlv) : Prop :=
  match nodes with
  | [] => zlen buf <= off
  | n :: rest => off < zlen buf /\ Parser.readTlv buf off = Ok n /\ tiles buf (Parser.end_ n) rest
  end.

(** An OID content both decoders treat alike: the first byte packs arcs below
    the third root's extended range, and the last byte ends an arc. *)
Definition oid_plain (content : list Z) : bool :=
  match content with
  | [] => true
  | first :: _ => (first <? 120) && (Z.land (List.last content 0) 0x80 =? 0)
  end.

(** ** Reading a run of elements *)

Lemma encode_cons e items : encode (e :: items) = tlv e.1 e.2 ++ encode items.
Proof. done. Qed.

Lemma readChildren_loop_encode fuel pre items :
  Forall element_ok items -> (length items < fuel)%nat ->
  Parser.readChildren_loop fuel (pre ++ encode items) (zlen pre) = Ok (nodes_from (zlen pre) items).
Proof.
  intros H. revert fuel pre. induction H as [|[t c] items [Ht Hc] _ IH]; intros fuel pre Hf.
  - destruct fuel; [lia|]. cbn [Parser.readChildren_loop]. change (encode []) with (@nil Z).
    by rewrite app_nil_r, Z.ltb_irrefl.
  - destruct fuel as [|fuel]; [cbn in Hf; lia|]. cbn [Parser.readChildren_loop fst snd] in *.
    rewrite encode_cons. cbn [fst snd].
    pose proof (zlen_tlv t c Ht Hc). pose proof (zlen_nonneg c). pose proof (zlen_nonneg (encode items)).
    rewrite (proj2 (Z.ltb_lt _ _)) by (rewrite !zlen_app; lia).
    rewrite parser_readTlv_at by done. cbn [rbind Parser.end_].
    rewrite (proj2 (Z.leb_gt _ _)) by lia. cbn [negb check rbind].
    rewrite app_assoc, <- zlen_app, IH by (cbn in Hf; lia).
    cbn [rbind nodes_from fst snd]. by rewrite zlen_app.
Qed.

Lemma encode_length items :
  Forall element_ok items -> (length items <= length (encode items))%nat.
Proof.
  induction 1 as [|[t c] items [Ht Hc] _ IH]; [done|].
  rewrite encode_cons, length_app. pose proof (zlen_tlv t c Ht Hc). pose proof (zlen_nonneg c).
  unfold zlen in *. cbn [length fst snd] in *. lia.
Qed.

Lemma readChildren_encode_aux items :
  Forall element_ok items -> Parser.readChildren (encode items) = Ok (nodes_from 0 items).
Proof.
  intros H. apply (readChildren_loop_encode _ [] items H).
  pose proof (encode_length items H). cbn. lia.
Qed.

Lemma nodes_from_contents off items :
  map (fun n => (Parser.tag n, Parser.content n)) (nodes_from off items) = items.
Proof.
  revert off. induction items as [|[t c] items IH]; intros off; cbn; [done|]. by rewrite IH.
Qed.

(** ** Termination: the loops never run out of fuel *)

Lemma parser_readTlv_errors buf off e :
  Parser.readTlv buf off = Err e -> e = Truncated \/ e = BadLength \/ e = Overrun.
Proof.
  unfold Parser.readTlv. intros H.
  destruct (negb ((off <? 0) || _)); cbn [check rbind] in H; [|injection H as <-; auto].
  destruct (negb (Z.land _ 0x80 =? 0)); cbn [rbind] in H.
  - destruct (negb (_ || _)); cbn [check rbind] in H; [|injection H as <-; auto].
    destruct (read_length _ _ _ _) as [len i].
    destruct (negb _); cbn in H; [done | injection H as <-; auto].
  - destruct (negb _); cbn in H; [done | injection H as <-; auto].
Qed.

Lemma readChildren_loop_progress fuel buf off e :
  bytes_ok buf -> 0 <= off -> (Z.to_nat (zlen buf - off) < fuel)%nat ->
  Parser.readChildren_loop fuel buf off = Err e -> e = Truncated \/ e = BadLength \/ e = Overrun.
Proof.
  intros Hb. revert off. induction fuel as [|fuel IH]; intros off Hoff Hf H; [lia|].
  cbn [Parser.readChildren_loop] in H. destruct (off <? zlen buf) eqn:Hlt; [|done].
  destruct (Parser.readTlv buf off) as [n|] eqn:Hr; cbn [rbind] in H.
  - destruct (parser_readTlv_bounds buf off n Hb Hoff Hr) as (He & _). bool_to_Z.
    rewrite (proj2 (Z.leb_gt _ _)) in H by lia. cbn [negb check rbind] in H.
    destruct (Parser.readChildren_loop fuel buf (Parser.end_ n)) eqn:Hl; [done|].
    injection H as <-. apply (IH (Parser.end_ n)); [lia | lia | done].
  - injection H as <-. by apply parser_readTlv_errors in Hr.
Qed.

Lemma readChildren_errors buf e :
  bytes_ok buf -> Parser.readChildren buf = Err e -> e = Truncated \/ e = BadLength \/ e = Overrun.
Proof.
  intros Hb. apply readChildren_loop_progress; [done | lia |]. unfold zlen. lia.
Qed.

Lemma children_loop_progress fuel buf off stop e :
  bytes_ok buf -> 0 <= off -> (Z.to_nat (stop - off) < fuel)%nat ->
  Chain.children_loop fuel buf off stop = Err e -> e = Truncated \/ e = BadLength \/ e = Overrun.
Proof.
  intros Hb. revert off. induction fuel as [|fuel IH]; intros off Hoff Hf H; [lia|].
  cbn [Chain.children_loop] in H. destruct (off <? stop) eqn:Hlt; [|done].
  destruct (Chain.readTlv buf off) as [n|] eqn:Hr; cbn [rbind] in H.
  - destruct (chain_readTlv_bounds buf off n Hb Hoff Hr) as (H1 & H2 & _). bool_to_Z.
    rewrite (proj2 (Z.leb_gt _ _)) in H by lia. cbn [negb check rbind] in H.
    destruct (Chain.children_loop fuel buf (Chain.end_ n) stop) eqn:Hl; [done|].
    injection H as <-. apply (IH (Chain.end_ n)); [lia | lia | done].
  - injection H as <-. apply (parser_readTlv_errors buf off). by rewrite readTlv_agree, Hr.
Qed.

Lemma findExtension_loop_progress fuel bytes oid off e :
  bytes_ok bytes -> 0 <= off -> (Z.to_nat (zlen bytes - off) < fuel)%nat ->
  Parser.findExtension_loop fuel bytes oid off = Err e ->
  e = Truncated \/ e = BadLength \/ e = Overrun.
Proof.
  revert bytes off. induction fuel as [|fuel IH]; intros bytes off Hb Hoff Hf H; [lia|].
  cbn [Parser.findExtension_loop] in H. destruct (off <? zlen bytes) eqn:Hlt; [|done].
  destruct (Parser.readTlv bytes off) as [n|] eqn:Hr; cbn [rbind] in H;
    [|injection H as <-; by apply parser_readTlv_errors in Hr].
  destruct (parser_readTlv_bounds bytes off n Hb Hoff Hr) as (He & Hcb & Hcl & _). bool_to_Z.
  match type of H with rbind ?r _ = _ => destruct r as [hit|e1] eqn:Hhit end; cbn [rbind] in H.
  - destruct hit as [v|]; [done|].
    match type of H with rbind ?r _ = _ => destruct r as [found|e1] eqn:Hfound end; cbn [rbind] in H.
    + destruct found; [done|]. apply (IH bytes (Parser.end_ n)); [done | lia | lia | done].
    + injection H as <-. destruct (Parser.isConstructed _); [|done].
      apply (IH (Parser.content n) 0); [done | lia | lia | done].
  - injection H as <-. destruct (Parser.tag n =? TAG.SEQUENCE); [|done].
    destruct (Parser.readChildren (Parser.content n)) eqn:Hk; cbn in Hhit; [done|].
    injection Hhit as <-. by apply readChildren_errors in Hk.
Qed.

(** ** Tiling *)

Lemma readChildren_loop_tiles fuel buf off nodes :
  bytes_ok buf -> 0 <= off -> (Z.to_nat (zlen buf - off) < fuel)%nat ->
  Parser.readChildren_loop fuel buf off = Ok nodes <-> tiles buf off nodes.
Proof.
  intros Hb. revert off nodes. induction fuel as [|fuel IH]; intros off nodes Hoff Hf; [lia|].
  cbn [Parser.readChildren_loop]. destruct (Z.ltb_spec off (zlen buf)) as [Hlt|Hge].
  - destruct (Parser.readTlv buf off) as [n|e] eqn:Hr; cbn [rbind].
    + destruct (parser_readTlv_bounds buf off n Hb Hoff Hr) as (He & _).
      rewrite (proj2 (Z.leb_gt _ _)) by lia. cbn [negb check rbind].
      specialize (IH (Parser.end_ n)).
      destruct (Parser.readChildren_loop fuel buf (Parser.end_ n)) as [rest|] eqn:Hl; cbn [rbind].
      * split.
        -- intros [= <-]. cbn. split; [lia|]. split; [done|]. apply IH; [lia | lia | done].
        -- destruct nodes as [|m ms]; cbn; [lia|]. rewrite Hr. intros (_ & [= <-] & Ht).
           apply IH in Ht; [|lia|lia]. by injection Ht as ->.
      * split; [done|]. destruct nodes as [|m ms]; cbn; [lia|]. rewrite Hr. intros (_ & [= <-] & Ht).
        apply IH in Ht; [done | lia | lia].
    + split; [done|]. destruct nodes as [|m ms]; cbn; [lia|]. rewrite Hr. intros (_ & ? & _); done.
  - split; [intros [= <-]; done|]. destruct nodes; cbn; [done | lia].
Qed.

(** ** Object identifiers *)

Lemma oid_head_agree first :
  0 <= first < 256 ->
  (Z.min 2 (first / 40) = first / 40 /\ (if first <? 80 then first mod 40 else first - 80) = first mod 40)
  <-> first < 120.
Proof.
  intros Hf. split.
  - intros [Hmin _]. pose proof (Z.div_mod first 40). pose proof (Z.mod_pos_bound first 40). lia.
  - intros Hlt. pose proof (Z.div_mod first 40). pose proof (Z.mod_pos_bound first 40).
    assert (first / 40 <= 2) by lia.
    split; [lia|]. destruct (Z.ltb_spec first 80); lia.
Qed.

(** ** The extension search on encoded elements *)

Section search.

Context (oid : list Z).

Lemma find_skip f pre t c post :
  is_byte t -> zlen c < 2 ^ 31 -> (t =? TAG.SEQUENCE) = false -> Parser.isConstructed t = false ->
  Parser.findExtension_loop (S f) (pre ++ tlv t c ++ post) oid (zlen pre) =
  Parser.findExtension_loop f ((pre ++ tlv t c) ++ post) oid (zlen (pre ++ tlv t c)).
Proof.
  intros Ht Hc Hseq Hcons. cbn [Parser.findExtension_loop].
  pose proof (zlen_tlv t c Ht Hc). pose proof (zlen_nonneg c). pose proof (zlen_nonneg post).
  rewrite (proj2 (Z.ltb_lt (zlen pre) _)) by (rewrite !zlen_app; lia).
  rewrite parser_readTlv_at by done. cbn [rbind Parser.tag Parser.content Parser.end_].
  rewrite Hseq, Hcons. cbn [rbind]. by rewrite zlen_app, <- app_assoc.
Qed.

Lemma find_hit f pre items post v :
  Forall element_ok items -> zlen (encode items) < 2 ^ 31 ->
  Parser.extension_hit (nodes_from 0 items) oid = Some v ->
  Parser.findExtension_loop (S f) (pre ++ tlv TAG.SEQUENCE (encode items) ++ post) oid (zlen pre)
  = Ok (Some v).
Proof.
  intros Hi Hc Hhit. cbn [Parser.findExtension_loop].
  assert (Ht : is_byte TAG.SEQUENCE) by concrete_bytes.
  pose proof (zlen_tlv _ _ Ht Hc). pose proof (zlen_nonneg (encode items)). pose proof (zlen_nonneg post).
  rewrite (proj2 (Z.ltb_lt (zlen pre) _)) by (rewrite !zlen_app; lia).
  rewrite parser_readTlv_at by done. cbn [rbind Parser.tag Parser.content Parser.end_].
  rewrite Z.eqb_refl, readChildren_encode_aux by done. cbn [rbind]. by rewrite Hhit.
Qed.

Lemma find_descend f pre t items post v :
  is_byte t -> Forall element_ok items -> zlen (encode items) < 2 ^ 31 ->
  Parser.isConstructed t = true ->
  Parser.extension_hit (nodes_from 0 items) oid = None ->
  Parser.findExtension_loop f (encode items) oid 0 = Ok (Some v) ->
  Parser.findExtension_loop (S f) (pre ++ tlv t (encode items) ++ post) oid (zlen pre) = Ok (Some v).
Proof.
  intros Ht Hi Hc Hcons Hmiss Hrec. cbn [Parser.findExtension_loop].
  pose proof (zlen_tlv _ _ Ht Hc). pose proof (zlen_nonneg (encode items)). pose proof (zlen_nonneg post).
  rewrite (proj2 (Z.ltb_lt (zlen pre) _)) by (rewrite !zlen_app; lia).
  rewrite parser_readTlv_at by done. cbn [rbind Parser.tag Parser.content Parser.end_].
  rewrite readChildren_encode_aux by done.
  destruct (t =? TAG.SEQUENCE); cbn [rbind]; rewrite ?Hmiss, Hcons, Hrec; done.
Qed.

Lemma find_hit_0 f items post v :
  Forall element_ok items -> zlen (encode items) < 2 ^ 31 ->
  Parser.extension_hit (nodes_from 0 items) oid = Some v ->
  Parser.findExtension_loop (S f) (tlv TAG.SEQUENCE (encode items) ++ post) oid 0 = Ok (Some v).
Proof. exact (find_hit f [] items post v). Qed.

Lemma find_descend_0 f t items post v :
  is_byte t -> Forall element_ok items -> zlen (encode items) < 2 ^ 31 ->
  Parser.isConstructed t = true ->
  Parser.extension_hit (nodes_from 0 items) oid = None ->
  Parser.findExtension_loop f (encode items) oid 0 = Ok (Some v) ->
  Parser.findExtension_loop (S f) (tlv t (encode items) ++ post) oid 0 = Ok (Some v).
Proof. exact (find_descend f [] t items post v). Qed.

Lemma find_skip_0 f t c post :
  is_byte t -> zlen c < 2 ^ 31 -> (t =? TAG.SEQUENCE) = false -> Parser.isConstructed t = false ->
  Parser.findExtension_loop (S f) (tlv t c ++ post) oid 0 =
  Parser.findExtension_loop f (tlv t c ++ post) oid (zlen (tlv t c)).
Proof. exact (find_skip f [] t c post). Qed.

End search.

(** ** The attributes of a CSR *)

Lemma zlen_encode1 t c :
  element_ok (t, c) -> zlen c + 2 <= zlen (encode [(t, c)]) <= zlen c + 6.
Proof.
  intros [Ht Hc]. cbn [fst snd] in *. rewrite encode_cons, app_nil_r. by apply zlen_tlv.
Qed.

Lemma zlen_encode2 t c t' c' :
  element_ok (t, c) -> element_ok (t', c') ->
  zlen c + zlen c' + 4 <= zlen (encode [(t, c); (t', c')]) <= zlen c + zlen c' + 12.
Proof.
  intros [Ht Hc] H'. rewrite encode_cons, zlen_app. cbn [fst snd] in *.
  pose proof (zlen_encode1 t' c' H'). pose proof (zlen_tlv t c Ht Hc). lia.
Qed.

Lemma csr_names_ok subject :
  zlen (email subject) < 2 ^ 30 -> element_ok (TAG.CONTEXT_PRIMITIVE_1, email subject).
Proof. intros. split; [concrete_bytes | cbn; lia]. Qed.

Section csr.

Context (subject : CsrSubject) (Hlen : zlen (email subject) < 2 ^ 30).

Let names : list element := [(TAG.CONTEXT_PRIMITIVE_1, email subject)].
Let san := tlv TAG.SEQUENCE (encode names).
Let l1 : list element := [(TAG.OID, OID.subjectAltName); (TAG.OCTET_STRING, san)].
Let l2 : list element := [(TAG.SEQUENCE, encode l1)].
Let l3 : list element := [(TAG.SEQUENCE, encode l2)].
Let l4 : list element := [(TAG.OID, OID.extensionRequest); (TAG.SET, encode l3)].
Let l5 : list element := [(TAG.SEQUENCE, encode l4)].

Lemma csr_sizes :
  Forall element_ok names /\ Forall element_ok l1 /\ Forall element_ok l2 /\
  Forall element_ok l3 /\ Forall element_ok l4 /\ Forall element_ok l5 /\
  zlen (encode l1) < 2 ^ 31 /\ zlen (encode l2) < 2 ^ 31 /\ zlen (encode l3) < 2 ^ 31 /\
  15 <= zlen (encode l4) < 2 ^ 31 /\ zlen (encode l5) < 2 ^ 31.
Proof.
  pose proof (csr_names_ok subject Hlen) as Hn. pose proof (zlen_encode1 _ _ Hn) as Z0.
  pose proof (zlen_nonneg san). pose proof (zlen_nonneg (email subject)).
  assert (Hs : zlen san <= zlen (encode names) + 6)
    by (apply zlen_tlv; [concrete_bytes | unfold names; lia]).
  assert (Ho : element_ok (TAG.OID, OID.subjectAltName)) by (split; [concrete_bytes | reflexivity]).
  assert (Hr : element_ok (TAG.OID, OID.extensionRequest)) by (split; [concrete_bytes | reflexivity]).
  fold names in Z0.
  assert (H1 : element_ok (TAG.OCTET_STRING, san)) by (split; [concrete_bytes | cbn; lia]).
  pose proof (zlen_encode2 _ _ _ _ Ho H1) as Z1. change (zlen OID.subjectAltName) with 3 in Z1.
  assert (H2 : element_ok (TAG.SEQUENCE, encode l1)) by (split; [concrete_bytes | unfold l1; cbn [snd]; lia]).
  pose proof (zlen_encode1 _ _ H2) as Z2. fold l2 in Z2. fold l1 in Z1.
  assert (H3 : element_ok (TAG.SEQUENCE, encode l2)) by (split; [concrete_bytes | cbn [snd]; lia]).
  pose proof (zlen_encode1 _ _ H3) as Z3. fold l3 in Z3.
  assert (H4 : element_ok (TAG.SET, encode l3)) by (split; [concrete_bytes | cbn [snd]; lia]).
  pose proof (zlen_encode2 _ _ _ _ Hr H4) as Z4. fold l4 in Z4. change (zlen OID.extensionRequest) with 9 in Z4.
  assert (H5 : element_ok (TAG.SEQUENCE, encode l4)) by (split; [concrete_bytes | cbn [snd]; lia]).
  pose proof (zlen_encode1 _ _ H5) as Z5. fold l5 in Z5.
  repeat split; try lia.
  all: repeat first [assumption | apply Forall_nil_2 | apply Forall_cons_2].
Qed.

Lemma buildAttributes_shape : buildAttributes subject = tlv TAG.CONTEXT_CONSTRUCTED_0 (encode l5).
Proof.
  unfold buildAttributes, der.context0, der.sequence, der.set, der.oid, der.octetString, der.rfc822Name.
  rewrite !concat_spec. unfold l5, l4, l3, l2, l1, san, names, encode. cbn. by rewrite !app_nil_r.
Qed.

Lemma csr_attributes_found :
  Parser.findExtensionValue (buildAttributes subject) OID.subjectAltName = Ok (Some san).
Proof.
  destruct csr_sizes as (F0 & F1 & F2 & F3 & F4 & F5 & Z1 & Z2 & Z3 & Z4 & Z5).
  pose proof (zlen_tlv TAG.CONTEXT_CONSTRUCTED_0 (encode l5)) as Zt.
  pose proof (zlen_encode1 TAG.SEQUENCE (encode l4)) as Zl.
  unfold Parser.findExtensionValue. rewrite buildAttributes_shape.
  set (fuel := S (length _)).
  assert (Hf : exists f, fuel = S (S (S (S (S (S f)))))).
  { exists (fuel - 6)%nat. fold l5 in Zl. unfold fuel, zlen in *.
    specialize (Zt ltac:(concrete_bytes)). inversion F5 as [|? ? He _]. specialize (Zl He). lia. }
  rewrite <- (app_nil_r (tlv TAG.CONTEXT_CONSTRUCTED_0 _)).
  destruct Hf as [f ->].
  apply find_descend_0; [concrete_bytes | done | done | done | reflexivity |].
  unfold l5. rewrite encode_cons. cbn [fst snd].
  apply find_descend_0; [concrete_bytes | done | lia | done | reflexivity |].
  unfold l4. rewrite encode_cons. cbn [fst snd].
  rewrite find_skip_0; [|concrete_bytes | done | done | done].
  rewrite encode_cons. cbn [fst snd].
  apply find_descend; [concrete_bytes | done | done | done | reflexivity |].
  unfold l3. rewrite encode_cons. cbn [fst snd].
  apply find_descend_0; [concrete_bytes | done | done | done | reflexivity |].
  unfold l2. rewrite encode_cons. cbn [fst snd].
  apply find_hit_0; [done | done | reflexivity].
Qed.

End csr.

(** ** The theorems *)

(** [cert.parser.ts] reads back exactly the elements that [asn1.ts] wrote:
    for every list of tags and contents below 2^31 bytes, [readChildren] of the
    concatenated encodings returns those tags and contents in order. *)
Theorem readChildren_roundtrip (items : list element)
  (Hok : Forall element_ok items) :
  exists nodes, Parser.readChildren (concat (map (fun e => tlv e.1 e.2) items)) = Ok nodes /\
    map (fun n => (Parser.tag n, Parser.content n)) nodes = items.
Proof.
  exists (nodes_from 0 items). rewrite concat_spec. split.
  - by apply readChildren_encode_aux.
  - apply nodes_from_contents.
Qed.

Lemma readChildren_roundtrip_witness :
  exists nodes, Parser.readChildren (concat [tlv 2 [0]; tlv 48 (repeat 7 200)]) = Ok nodes /\
    map (fun n => (Parser.tag n, Parser.content n)) nodes = [(2, [0]); (48, repeat 7 200)].
Proof.
  apply (readChildren_roundtrip [(2, [0]); (48, repeat 7 200)]).
  repeat constructor; first [concrete_bytes | reflexivity].
Defined.

(** The children the parser returns tile the content: it accepts exactly
    the node lists that, read one after another from offset 0, fill the whole
    content and never reach outside it; and it always answers, a malformed
    content being refused as truncated, badly sized or overrunning. *)
Theorem readChildren_tiles (content : list Z) (Hb : bytes_ok content) :
  (forall nodes, Parser.readChildren content = Ok nodes <-> tiles content 0 nodes) /\
  (forall e, Parser.readChildren content = Err e -> e = Truncated \/ e = BadLength \/ e = Overrun).
Proof.
  split.
  - intros nodes. apply readChildren_loop_tiles; [done | lia | unfold zlen; lia].
  - intros e. by apply readChildren_errors.
Qed.

Lemma readChildren_tiles_witness :
  tiles [2; 1; 0; 5; 0] 0
    [{| Parser.tag := 2; Parser.content := [0]; Parser.end_ := 3 |};
     {| Parser.tag := 5; Parser.content := []; Parser.end_ := 5 |}].
Proof.
  apply (readChildren_tiles [2; 1; 0; 5; 0]).
  - concrete_bytes.
  - vm_compute. reflexivity.
Defined.

(** Both readers accept the same element at every offset: [readTlv] of
    [chain-verify.ts] and of [cert.parser.ts] return the same tag, content and
    end or raise the same exception, and an accepted element lies inside the
    buffer, after its header, with [raw] its exact bytes. *)
Theorem readTlv_equivalent (buf : list Z) (off : Z) (Hb : bytes_ok buf) (Hoff : 0 <= off) :
  Parser.readTlv buf off = rmap (parser_view buf) (Chain.readTlv buf off) /\
  forall t, Chain.readTlv buf off = Ok t ->
    off + 2 <= Chain.contentStart t /\ Chain.contentStart t <= Chain.end_ t <= zlen buf /\
    Chain.raw t = subarray buf off (Chain.end_ t).
Proof.
  split; [by apply readTlv_agree|]. intros t Ht.
  destruct (chain_readTlv_bounds buf off t Hb Hoff Ht) as (? & ? & ? & _). done.
Qed.

Lemma readTlv_equivalent_witness :
  Parser.readTlv [0; 4; 2; 9; 9] 1 = rmap (parser_view [0; 4; 2; 9; 9]) (Chain.readTlv [0; 4; 2; 9; 9] 1).
Proof.
  apply (readTlv_equivalent [0; 4; 2; 9; 9] 1).
  - concrete_bytes.
  - lia.
Defined.

(** The [children] loop of [chain-verify.ts] always ends, with nodes or with
    a malformed-length exception; its no-progress check can never fire. *)
Theorem children_terminates (buf : list Z) (parent : Chain.Tlv) (e : der_error)
  (Hb : bytes_ok buf) (Hp : 0 <= Chain.contentStart parent) :
  Chain.children buf parent = Err e -> e = Truncated \/ e = BadLength \/ e = Overrun.
Proof. apply children_loop_progress; [done | done | lia]. Qed.

Lemma children_terminates_witness :
  Overrun = Truncated \/ Overrun = BadLength \/ Overrun = Overrun.
Proof.
  apply (children_terminates [48; 2; 5; 9]
           {| Chain.tag := 48; Chain.contentStart := 2; Chain.end_ := 4; Chain.raw := [] |}).
  - concrete_bytes.
  - cbn. lia.
  - vm_compute. reflexivity.
Defined.

(** Unlike the parser, [children] bounds an element by the buffer and not by its
    parent: an element that overruns its parent is accepted. *)
Lemma children_overrun_parent :
  exists buf parent kid, Chain.readTlv buf 0 = Ok parent /\
    Chain.children buf parent = Ok [kid] /\ Chain.end_ parent < Chain.end_ kid /\
    Parser.readChildren (Chain.content_of buf parent) = Err Overrun.
Proof.
  exists [48; 2; 4; 3; 1; 2; 3]. do 2 eexists.
  split; [vm_compute; reflexivity|]. split; [vm_compute; reflexivity|].
  split; [vm_compute; reflexivity|]. vm_compute. reflexivity.
Qed.

(** The OID decoders of the two files give the same arcs on exactly the
    plain contents: they differ when the first byte is 120 or more (the third
    root's arcs from 40 on) or when the last arc is cut short. *)
Theorem decodeOid_agree (content : list Z) (Hb : bytes_ok content) :
  Parser.decodeOid content = Chain.decodeOid content <-> oid_plain content = true.
Proof.
  unfold oid_plain. destruct content as [|first rest]; [done|].
  cbn [Parser.decodeOid Chain.decodeOid].
  inversion_clear Hb as [|? ? Hf _]. pose proof (oid_head_agree first Hf) as Hh.
  rewrite andb_true_iff, Z.ltb_lt.
  destruct (Z.land (List.last (first :: rest) 0) 0x80 =? 0); cbn [check rbind app].
  - rewrite <- Hh. split.
    + intros H. injection H as H1 H2. done.
    + intros [[H1 H2] _]. by rewrite H1, H2.
  - split; [done | intros [_ ?]; done].
Qed.

Lemma decodeOid_agree_witness : oid_plain OID.emailAddress = true.
Proof.
  apply (decodeOid_agree OID.emailAddress).
  - concrete_bytes.
  - vm_compute. reflexivity.
Defined.

(** The e-mail address that [buildAttributes] puts into a CSR's extension
    request is found by the search of [cert.parser.ts] for the subject
    alternative name, as the only GeneralName, under the rfc822 tag. *)
Theorem csr_email_found (subject : CsrSubject) (Hlen : zlen (email subject) < 2 ^ 30) :
  exists san node, Parser.findExtensionValue (buildAttributes subject) OID.subjectAltName = Ok (Some san) /\
    Parser.readTlv san 0 = Ok node /\ Parser.tag node = TAG.SEQUENCE /\
    exists name, Parser.readChildren (Parser.content node) = Ok [name] /\
      Parser.tag name = TAG.CONTEXT_PRIMITIVE_1 /\ Parser.content name = email subject.
Proof.
  pose proof (csr_attributes_found subject Hlen) as Hk.
  exists (tlv TAG.SEQUENCE (encode [(TAG.CONTEXT_PRIMITIVE_1, email subject)])).
  eexists. split; [exact Hk|].
  pose proof (csr_names_ok subject Hlen) as Hn.
  rewrite parser_readTlv_0; [|concrete_bytes|].
  - split; [done|]. split; [done|]. cbn [Parser.content].
    rewrite readChildren_encode_aux by (repeat constructor; apply Hn).
    eexists. split; [reflexivity|]. done.
  - pose proof (zlen_encode1 _ _ Hn). lia.
Qed.

Lemma csr_email_found_witness :
  exists san, Parser.findExtensionValue
    (buildAttributes {| commonName := [65]; email := [97; 64; 98] |}) OID.subjectAltName = Ok (Some san).
Proof.
  destruct (csr_email_found {| commonName := [65]; email := [97; 64; 98] |}) as (san & _ & H & _).
  - vm_compute. reflexivity.
  - exists san. exact H.
Defined.
