(* ===== verification/JsDate.v ===== *)
(** * The JavaScript [Date] operations the program uses

    A time value is an integer number of milliseconds since 1970-01-01 UTC.
    [days_from_civil] and [civil_from_days] are the proleptic Gregorian
    calendar; [Date_UTC] is [Date.UTC] with its carry of out-of-range fields
    and its two-digit years; [toISOString] is the formatter, which throws for
    times outside the range of dates. *)

From S2P Require Import Prelude.

Open Scope Z_scope.

Definition ms_per_day : Z := 86400000.

(** Day number of the first of a month ([m] in 1..12) and day [d]. *)
Definition days_from_civil (y m d : Z) : Z :=
  let y := if m <=? 2 then y - 1 else y in
  let era := y / 400 in
  let yoe := y - era * 400 in
  let mp := if m >? 2 then m - 3 else m + 9 in
  let doy := (153 * mp + 2) / 5 + d - 1 in
  let doe := yoe * 365 + yoe / 4 - yoe / 100 + doy in
  era * 146097 + doe - 719468.

(** Year, month and day of a day within an era of 400 years, years counted from
    the era's first March. *)
Definition civil_of_era_day (doe : Z) : Z * Z * Z :=
  let yoe := (doe - doe / 1460 + doe / 36524 - doe / 146096) / 365 in
  let doy := doe - (365 * yoe + yoe / 4 - yoe / 100) in
  let mp := (5 * doy + 2) / 153 in
  let d := doy - (153 * mp + 2) / 5 + 1 in
  let m := if mp <? 10 then mp + 3 else mp - 9 in
  (yoe, m, d).

Definition civil_from_days (z : Z) : Z * Z * Z :=
  let z := z + 719468 in
  let era := z / 146097 in
  let '(yoe, m, d) := civil_of_era_day (z - era * 146097) in
  ((if m <=? 2 then yoe + era * 400 + 1 else yoe + era * 400), m, d).

(** [Date.UTC(year, month, date, h, mi, s)], [month] counted from 0. *)
Definition Date_UTC (year month date h mi s : Z) : Z :=
  let yr := if (0 <=? year) && (year <=? 99) then 1900 + year else year in
  let ym := yr + month / 12 in
  let mn := month mod 12 in
  let day := days_from_civil ym (mn + 1) 1 + date - 1 in
  day * ms_per_day + h * 3600000 + mi * 60000 + s * 1000.

(** [n] in decimal with leading zeros, [width] digits. *)
Fixpoint pad_digits (width : nat) (n : Z) : string :=
  match width with
  | O => ""
  | S w => pad_digits w (n / 10) +:+ String (ascii_of_N (Z.to_N (48 + n mod 10))) ""
  end.

(** [new Date(t).toISOString()]; [None] is the RangeError. *)
Definition toISOString (t : Z) : option string :=
  if (t <? - 8640000000000000) || (8640000000000000 <? t) then None
  else
    let day := t / ms_per_day in
    let ms := t mod ms_per_day in
    let '(y, m, d) := civil_from_days day in
    let year :=
      if (0 <=? y) && (y <=? 9999) then pad_digits 4 y
      else if y <? 0 then "-" +:+ pad_digits 6 (- y) else "+" +:+ pad_digits 6 y in
    Some (year +:+ "-" +:+ pad_digits 2 m +:+ "-" +:+ pad_digits 2 d +:+ "T" +:+
          pad_digits 2 (ms / 3600000) +:+ ":" +:+ pad_digits 2 (ms / 60000 mod 60) +:+ ":" +:+
          pad_digits 2 (ms / 1000 mod 60) +:+ "." +:+ pad_digits 3 (ms mod 1000) +:+ "Z").

(** [Math.floor(Date.now() / 1000)] for a clock value in milliseconds. *)
Definition unix_seconds (now : Z) : Z := now / 1000.

(** ** Checks against known dates *)

Example toISOString_epoch : toISOString 0 = Some "1970-01-01T00:00:00.000Z".
Proof. vm_compute. reflexivity. Qed.

Example toISOString_leap : toISOString 951782400123 = Some "2000-02-29T00:00:00.123Z".
Proof. vm_compute. reflexivity. Qed.

Example toISOString_range : toISOString 8640000000000001 = None.
Proof. vm_compute. reflexivity. Qed.

Example Date_UTC_carry : Date_UTC 2023 13 1 0 0 0 = Date_UTC 2024 1 1 0 0 0.
Proof. vm_compute. reflexivity. Qed.

Example Date_UTC_short_year : Date_UTC 50 0 1 0 0 0 = Date_UTC 1950 0 1 0 0 0.
Proof. vm_compute. reflexivity. Qed.

(** [Math.floor] to seconds keeps order. *)
Lemma unix_seconds_mono a b : a <= b -> unix_seconds a <= unix_seconds b.
Proof. intros. apply Z.div_le_mono; lia. Qed.

Lemma toISOString_ok t : 0 <= t <= 8640000000000000 -> exists s, toISOString t = Some s.
Proof.
  intros H. unfold toISOString. rewrite (proj2 (Z.ltb_ge t (- 8640000000000000))) by lia.
  rewrite (proj2 (Z.ltb_ge 8640000000000000 t)) by lia. cbn [orb].
  destruct (civil_from_days (t / ms_per_day)) as [[y m] d]. by eexists.
Qed.
