(* ===== verification/UString.v ===== *)
(** * JavaScript strings as sequences of UTF-16 code units, and the platform

    The certificate code handles names in any script, so its strings are lists
    of code units. [Platform] gathers what the browser supplies: the text
    decoder, case mapping, [atob] and WebCrypto. They are not under [src/], so
    they are fields of a class that every definition using them takes as an
    argument; [demo_platform] is a concrete instance for evaluations. *)

From S2P Require Import Prelude.

Open Scope Z_scope.

Abbreviation ustr := (list Z).

(** The code units of a literal. *)
Definition js (s : string) : ustr := map (fun c => Z.of_N (N_of_ascii c)) (list_ascii_of_string s).

(** WhiteSpace and LineTerminator of ECMAScript, as [trim] and [\s] use them. *)
Definition is_space (u : Z) : bool :=
  existsb (Z.eqb u)
    [9; 10; 11; 12; 13; 32; 0xa0; 0x1680; 0x2000; 0x2001; 0x2002; 0x2003; 0x2004; 0x2005; 0x2006;
     0x2007; 0x2008; 0x2009; 0x200a; 0x2028; 0x2029; 0x202f; 0x205f; 0x3000; 0xfeff].

Fixpoint trimStart (s : ustr) : ustr :=
  match s with
  | [] => []
  | u :: s' => if is_space u then trimStart s' else s
  end.

Definition trim (s : ustr) : ustr := rev (trimStart (rev (trimStart s))).

(** [s.replace(/\s+/g, "")]. *)
Definition strip_spaces (s : ustr) : ustr := filter (fun u => is_space u = false) s.

(** [s.replace(/\s+/g, " ")]: every run becomes one space. *)
Fixpoint collapse_spaces (in_run : bool) (s : ustr) : ustr :=
  match s with
  | [] => []
  | u :: s' =>
      if is_space u
      then if in_run then collapse_spaces true s' else 32 :: collapse_spaces true s'
      else u :: collapse_spaces false s'
  end.

Fixpoint starts_with (p s : ustr) : bool :=
  match p, s with
  | [], _ => true
  | a :: p', b :: s' => (a =? b) && starts_with p' s'
  | _, [] => false
  end.

(** Text before and after the first occurrence of [p]. *)
Fixpoint find_sub (p s : ustr) : option (ustr * ustr) :=
  if starts_with p s then Some ([], drop (length p) s)
  else match s with
       | [] => None
       | u :: s' => match find_sub p s' with Some (a, b) => Some (u :: a, b) | None => None end
       end.

Definition includes (p s : ustr) : bool :=
  match find_sub p s with Some _ => true | None => false end.

(** A number that is a small integer, in decimal. *)
Fixpoint dec_digits (fuel : nat) (n : Z) (acc : ustr) : ustr :=
  match fuel with
  | O => acc
  | S f => let acc := (48 + n mod 10) :: acc in if n <? 10 then acc else dec_digits f (n / 10) acc
  end.

Definition dec (n : Z) : ustr := dec_digits (S (Z.to_nat (Z.log2 n))) n [].

Fixpoint join (sep : ustr) (l : list ustr) : ustr :=
  match l with
  | [] => []
  | [s] => s
  | s :: l' => s ++ sep ++ join sep l'
  end.

Definition ustr_eqb (a b : ustr) : bool := bool_decide (a = b).

(** [Number] of a run of ASCII digits. *)
Definition digits_value (s : ustr) : Z := fold_left (fun v u => v * 10 + (u - 48)) s 0.

Definition is_digit (u : Z) : bool := (48 <=? u) && (u <=? 57).

Class Platform := {
  textDecode : list Z -> ustr;
  textEncode : ustr -> list Z;
  toLowerCase : ustr -> ustr;
  atob : ustr -> option (list Z);
  decodeURIComponent : ustr -> option ustr;
  CryptoKey : Type;
  importVerifyKey : list Z -> option CryptoKey;
  importPssKey : list Z -> option CryptoKey;
  pkcs1Verify : CryptoKey -> list Z -> list Z -> bool;
  pssVerify : CryptoKey -> list Z -> list Z -> bool;
  sha256 : list Z -> list Z
}.

(** Two letters from [a] to [p] per byte: the demonstration's base 64. *)
Fixpoint demo_atob (s : ustr) : option (list Z) :=
  match s with
  | [] => Some []
  | h :: l :: s' =>
      match demo_atob s' with
      | Some bs => Some ((h - 97) * 16 + (l - 97) :: bs)
      | None => None
      end
  | _ => None
  end.

Definition demo_btoa (b : list Z) : ustr := flat_map (fun x => [97 + x / 16; 97 + x mod 16]) b.

(** A concrete platform: byte-wise text, ASCII case, keys that are their own
    bytes, and signatures that repeat the key before the data. *)
#[export] Instance demo_platform : Platform := {|
  textDecode := fun b => b;
  textEncode := fun s => s;
  toLowerCase := map (fun u => if (65 <=? u) && (u <=? 90) then u + 32 else u);
  atob := demo_atob;
  decodeURIComponent := fun s => Some s;
  CryptoKey := list Z;
  importVerifyKey := fun k => Some k;
  importPssKey := fun k => Some k;
  pkcs1Verify := fun k sig data => bool_decide (sig = k ++ data);
  pssVerify := fun k sig data => bool_decide (sig = k ++ data);
  sha256 := fun b => take 32 b
|}.

(** ** Lemmas *)

Lemma ustr_eqb_eq a b : ustr_eqb a b = true <-> a = b.
Proof. apply bool_decide_eq_true. Qed.

Lemma starts_with_app p s : starts_with p (p ++ s) = true.
Proof. induction p as [|u p IH]; [done|]. cbn. by rewrite Z.eqb_refl. Qed.

Lemma strip_spaces_no_space s : Forall (fun u => is_space u = false) (strip_spaces s).
Proof.
  apply Forall_forall. intros u Hu. unfold strip_spaces in Hu.
  by apply list_elem_of_filter in Hu as [? _].
Qed.

Lemma find_sub_sound p s a b : find_sub p s = Some (a, b) -> s = a ++ p ++ b.
Proof.
  revert a b. induction s as [|u s IH]; intros a b H.
  - cbn in H. destruct (starts_with p []) eqn:E; [|done]. injection H as <- <-.
    destruct p; [done | done].
  - cbn [find_sub] in H. destruct (starts_with p (u :: s)) eqn:E.
    + injection H as <- <-. clear IH. revert E. generalize (u :: s). clear.
      induction p as [|v p IH]; intros [|w l] E; cbn in *; try done.
      apply andb_true_iff in E as [Hv E]. apply Z.eqb_eq in Hv as ->. f_equal. by apply IH.
    + destruct (find_sub p s) as [[a' b']|]; [|done]. injection H as <- <-.
      cbn. f_equal. by apply IH.
Qed.
