(* ===== verification/X509.v ===== *)
(** * Certificate chain verification in the browser

    [config/trust-anchors.ts] and [services/chain-verify.ts] above the DER
    reader of Module [Chain]: PEM blocks, names, times, basic constraints, the
    certificate parser, one link of a chain, the cached root and
    [verifyChainToRoot]. *)

From S2P Require Import Prelude Der DerRead JsDate UString.

Open Scope Z_scope.

(** The exceptions of the two files. [Der] wraps the reader's. *)
Inductive chain_error : Type :=
| DerFailure (e : der_error)
| RootFetchFailed
| RootHttpError
| RootNotPem
| RootEmpty
| NoLeaf
| Base64Failure
| NotYetValid (position : nat)
| Expired (position : nat)
| RootNotYetValid
| RootExpired
| NotCA (position : nat)
| UnsupportedAlgorithm
| IssuerMismatch
| ImportFailed
| BadSignature.

Definition lift_der {A} (r : result der_error A) : result chain_error A :=
  match r with Ok a => Ok a | Err e => Err (DerFailure e) end.

(** [list[i].field] when [list[i]] may be [undefined]. *)
Definition at_index {A} (l : list A) (i : nat) : result der_error A :=
  match l !! i with Some a => Ok a | None => Err UndefinedNode end.

(** [buf[i] === v]; reading past the end gives [undefined], equal to no byte. *)
Definition byte_is (buf : list Z) (i v : Z) : bool := (i <? zlen buf) && (byte_at buf i =? v).

Definition OID_SHA256_RSA : ustr := js "1.2.840.113549.1.1.11".
Definition OID_BASIC_CONSTRAINTS : ustr := js "2.5.29.19".
Definition OID_CN : ustr := js "2.5.4.3".
Definition TAG_BOOLEAN : Z := 0x01.
Definition TAG_EXTENSIONS : Z := 0xa3.
Definition TAG_UTC_TIME : Z := 0x17.
Definition TAG_GENERALIZED_TIME : Z := 0x18.

Definition oid_string (arcs : list Z) : ustr := join (js ".") (map dec arcs).

Definition oidOf (buf : list Z) (node : Chain.Tlv) : result der_error ustr :=
  rmap oid_string (Chain.oidOf buf node).

(** Two digits of a run of digits. *)
Definition two (s : ustr) (i : nat) : Z := digits_value (take 2 (drop i s)).

(** The date in [raw]: [ylen] digits of year, five two-digit fields and [Z]. *)
Definition match_time (ylen : nat) (raw : ustr) : option (Z * Z * Z * Z * Z * Z) :=
  if (length raw =? ylen + 11)%nat && forallb is_digit (take (ylen + 10) raw) &&
     (List.last raw 0 =? 90)
  then Some (digits_value (take ylen raw), two raw ylen, two raw (ylen + 2), two raw (ylen + 4),
             two raw (ylen + 6), two raw (ylen + 8))
  else None.

Section chain_verify.

Context `{P : Platform}.

(** ** PEM *)

Definition BEGIN_CERT : ustr := js "-----BEGIN CERTIFICATE-----".
Definition END_CERT : ustr := js "-----END CERTIFICATE-----".

(** The [re.exec] loop: each match is the text between a BEGIN line and the
    nearest END line after it. *)
Fixpoint pem_matches (fuel : nat) (pem : ustr) : list ustr :=
  match fuel with
  | O => []
  | S f =>
      match find_sub BEGIN_CERT pem with
      | None => []
      | Some (_, after) =>
          match find_sub END_CERT after with
          | None => []
          | Some (body, rest) => body :: pem_matches f rest
          end
      end
  end.

Definition pemBlocks (pem : ustr) : result chain_error (list (list Z)) :=
  rmapM (fun b64 => match atob b64 with Some der => Ok der | None => Err Base64Failure end)
    (filter (fun b64 => b64 <> []) (map strip_spaces (pem_matches (S (length pem)) pem))).

(** ** Certificates *)

Record ParsedCert := {
  der : list Z;
  tbsRaw : list Z;
  sigAlgOid : ustr;
  signature : list Z;
  issuerName : ustr;
  subjectName : ustr;
  spkiRaw : list Z;
  notBefore : Z;
  notAfter : Z;
  subjectCN : ustr;
  isCA : bool
}.

Definition parseAsn1Time (node : Chain.Tlv) (buf : list Z) : result der_error Z :=
  let raw := textDecode (Chain.content_of buf node) in
  let fields :=
    if Chain.tag node =? TAG_UTC_TIME then
      match match_time 2 raw with
      | Some (yy, mo, d, h, mi, s) =>
          Some ((if 50 <=? yy then 1900 + yy else 2000 + yy), mo, d, h, mi, s)
      | None => None
      end
    else if Chain.tag node =? TAG_GENERALIZED_TIME then match_time 4 raw
    else None in
  match fields with
  | Some (year, mo, d, h, mi, s) => Ok (Date_UTC year (mo - 1) d h mi s)
  | None => Err BadTime
  end.

(** One attribute of a name: its OID and its text, or nothing when the pair is
    not an OID and a value. *)
Definition parse_atv (buf : list Z) (atv : Chain.Tlv) : result der_error (option (ustr * ustr)) :=
  let! kv := Chain.children buf atv in
  match kv with
  | p0 :: p1 :: _ =>
      if Chain.tag p0 =? TAG.OID
      then let! oid := oidOf buf p0 in Ok (Some (oid, textDecode (Chain.content_of buf p1)))
      else Ok None
  | _ => Ok None
  end.

Definition canonical_part (part : ustr * ustr) : ustr :=
  let '(oid, value) := part in
  oid ++ js "=" ++ collapse_spaces false (toLowerCase (trim value)).

(** The first non-empty common name. *)
Fixpoint first_cn (parts : list (ustr * ustr)) : ustr :=
  match parts with
  | [] => []
  | (oid, value) :: rest =>
      if ustr_eqb oid OID_CN && negb (ustr_eqb value []) then value else first_cn rest
  end.

Definition parseName (buf : list Z) (name : Chain.Tlv) : result der_error (ustr * ustr) :=
  let! rdns := Chain.children buf name in
  let! parts := rmapM (fun rdn => let! atvs := Chain.children buf rdn in
                                  rmapM (parse_atv buf) atvs) rdns in
  let found := omap id (List.concat parts) in
  Ok (first_cn found, join (js ",") (map canonical_part found)).

(** The loop over the extensions. *)
Fixpoint basic_constraints (buf : list Z) (exts : list Chain.Tlv) : result der_error bool :=
  match exts with
  | [] => Ok false
  | ext :: rest =>
      let! parts := Chain.children buf ext in
      match parts with
      | p0 :: _ :: _ =>
          if Chain.tag p0 =? TAG.OID then
            let! oid := oidOf buf p0 in
            if ustr_eqb oid OID_BASIC_CONSTRAINTS then
              let octet := List.last parts p0 in
              let! inner := Chain.readTlv buf (Chain.contentStart octet) in
              if Chain.tag inner =? TAG.SEQUENCE then
                let! bcParts := Chain.children buf inner in
                match bcParts with
                | b0 :: _ =>
                    if Chain.tag b0 =? TAG_BOOLEAN
                    then Ok (negb (byte_is buf (Chain.contentStart b0) 0))
                    else Ok false
                | [] => Ok false
                end
              else Ok false
            else basic_constraints buf rest
          else basic_constraints buf rest
      | _ => basic_constraints buf rest
      end
  end.

Definition parseBasicConstraintsCA (buf : list Z) (extensions : option Chain.Tlv)
    : result der_error bool :=
  match extensions with
  | None => Ok false
  | Some e =>
      let! kids := Chain.children buf e in
      match kids with
      | [] => Ok false
      | seq :: _ => let! exts := Chain.children buf seq in basic_constraints buf exts
      end
  end.

Definition parseCert (der : list Z) : result der_error ParsedCert :=
  let! cert := Chain.readTlv der 0 in
  let! kids := Chain.children der cert in
  match kids with
  | tbs :: sigAlg :: sigBit :: _ =>
      let! algKids := Chain.children der sigAlg in
      let! algOid := at_index algKids 0 in
      let! sigAlgOid := oidOf der algOid in
      let signature := subarray der (Chain.contentStart sigBit + 1) (Chain.end_ sigBit) in
      let! tbsKids := Chain.children der tbs in
      let! first := at_index tbsKids 0 in
      let idx := if Chain.tag first =? 0xa0 then 3%nat else 2%nat in
      let extensions :=
        List.find (fun n => Chain.tag n =? TAG_EXTENSIONS) (drop (idx + 4) tbsKids) in
      let! validity := at_index tbsKids (idx + 1) in
      let! vKids := Chain.children der validity in
      let! v0 := at_index vKids 0 in
      let! notBefore := parseAsn1Time v0 der in
      let! v1 := at_index vKids 1 in
      let! notAfter := parseAsn1Time v1 der in
      let! issuer := at_index tbsKids idx in
      let! issuerName := parseName der issuer in
      let! subject := at_index tbsKids (idx + 2) in
      let! subjectName := parseName der subject in
      let! spki := at_index tbsKids (idx + 3) in
      let! ca := parseBasicConstraintsCA der extensions in
      Ok {| der := der; tbsRaw := Chain.raw tbs; sigAlgOid := sigAlgOid; signature := signature;
            issuerName := issuerName.2; subjectName := subjectName.2; spkiRaw := Chain.raw spki;
            notBefore := notBefore; notAfter := notAfter; subjectCN := subjectName.1; isCA := ca |}
  | _ => Err MissingParts
  end.

(** ** Verification *)

Definition verifySignedBy (child issuer : ParsedCert) : result chain_error unit :=
  let! _ := check (ustr_eqb (sigAlgOid child) OID_SHA256_RSA) UnsupportedAlgorithm in
  let! _ := check (ustr_eqb (issuerName child) (subjectName issuer)) IssuerMismatch in
  match importVerifyKey (spkiRaw issuer) with
  | None => Err ImportFailed
  | Some key => check (pkcs1Verify key (signature child) (tbsRaw child)) BadSignature
  end.

Definition assertValidityWindow (cert : ParsedCert) (now : Z) (early late : chain_error)
    : result chain_error unit :=
  let! _ := check (negb (now <? notBefore cert)) early in
  check (negb (now >? notAfter cert)) late.

(** The loop of [verifyChainToRoot] from index [i]. *)
Fixpoint verify_links (i : nat) (certs : list ParsedCert) (root : ParsedCert) (now : Z)
    : result chain_error unit :=
  match certs with
  | [] => Ok tt
  | c :: rest =>
      let issuer := match rest with next :: _ => next | [] => root end in
      let! _ := assertValidityWindow c now (NotYetValid i) (Expired i) in
      let! _ := check (negb ((0 <? i)%nat && negb (isCA c))) (NotCA i) in
      let! _ := verifySignedBy c issuer in
      verify_links (S i) rest root now
  end.

Record VerifiedLeaf := { leafCN : ustr; publicKeyPss : CryptoKey; publicKeySpki : list Z }.

(** ** The trust anchor *)

(** The module variables of both files. *)
Record AnchorState := {
  overridePem : option ustr;
  pemPromise : option ustr;
  cachedAnchor : option ParsedCert
}.

(** What a [fetch] of the root file ends with. *)
Inductive fetch_reply :=
| FetchRejected
| FetchStatus (ok : bool) (text : ustr).

Definition setRootCaPem (pem : ustr) (st : AnchorState) : AnchorState :=
  {| overridePem := Some pem; pemPromise := None; cachedAnchor := cachedAnchor st |}.

Definition loadRootCaPem (net : fetch_reply) (st : AnchorState)
    : result chain_error ustr * AnchorState :=
  match overridePem st with
  | Some pem => (Ok pem, st)
  | None =>
      match pemPromise st with
      | Some pem => (Ok pem, st)
      | None =>
          match net with
          | FetchRejected => (Err RootFetchFailed, st)
          | FetchStatus false _ => (Err RootHttpError, st)
          | FetchStatus true text =>
              if includes (js "BEGIN CERTIFICATE") text
              then (Ok text, {| overridePem := None; pemPromise := Some text;
                                cachedAnchor := cachedAnchor st |})
              else (Err RootNotPem, st)
          end
      end
  end.

Definition anchor (net : fetch_reply) (st : AnchorState)
    : result chain_error ParsedCert * AnchorState :=
  match cachedAnchor st with
  | Some c => (Ok c, st)
  | None =>
      let '(pem, st) := loadRootCaPem net st in
      match (let! pem := pem in
             let! blocks := pemBlocks pem in
             match blocks with
             | [] => Err RootEmpty
             | b :: _ => lift_der (parseCert b)
             end) with
      | Ok c => (Ok c, {| overridePem := overridePem st; pemPromise := pemPromise st;
                          cachedAnchor := Some c |})
      | Err e => (Err e, st)
      end
  end.

(** The certificates of the leaf bundle followed by those of the extra PEMs. *)
Definition chain_certs (leafPem : ustr) (intermediatePems : list ustr)
    : result chain_error (list ParsedCert) :=
  let! leafBlocks := pemBlocks leafPem in
  let! _ := check (negb (length leafBlocks =? 0)%nat) NoLeaf in
  let! more := rmapM pemBlocks intermediatePems in
  lift_der (rmapM parseCert (leafBlocks ++ List.concat more)).

(** [verifyChainToRoot] after the root is known. *)
Definition verify_certs (certs : list ParsedCert) (root : ParsedCert) (now : Z)
    : result chain_error VerifiedLeaf :=
  let! _ := verify_links 0 certs root now in
  let! _ := assertValidityWindow root now RootNotYetValid RootExpired in
  match certs with
  | [] => Err NoLeaf
  | leaf :: _ =>
      match importPssKey (spkiRaw leaf) with
      | None => Err ImportFailed
      | Some key => Ok {| leafCN := subjectCN leaf; publicKeyPss := key; publicKeySpki := spkiRaw leaf |}
      end
  end.

Definition verifyChainToRoot (net : fetch_reply) (now : Z) (leafPem : ustr)
    (intermediatePems : list ustr) (st : AnchorState)
    : result chain_error VerifiedLeaf * AnchorState :=
  match chain_certs leafPem intermediatePems with
  | Err e => (Err e, st)
  | Ok certs =>
      let '(root, st) := anchor net st in
      match root with
      | Err e => (Err e, st)
      | Ok root => (verify_certs certs root now, st)
      end
  end.

(** ** Specification *)

(** [issued_by child issuer]: the issuer named in the child is the issuer's
    subject and the child's signed bytes verify under the issuer's key. *)
Definition issued_by (child issuer : ParsedCert) : Prop :=
  sigAlgOid child = OID_SHA256_RSA /\ issuerName child = subjectName issuer /\
  exists key, importVerifyKey (spkiRaw issuer) = Some key /\
    pkcs1Verify key (signature child) (tbsRaw child) = true.

Definition valid_at (now : Z) (c : ParsedCert) : Prop := notBefore c <= now <= notAfter c.

(** A path from a certificate to the root: every certificate is valid now and
    issued by the next, the last by the root; [ca] says whether the first one
    must be a CA. *)
Inductive path_to_root (root : ParsedCert) (now : Z) : bool -> list ParsedCert -> Prop :=
| path_last ca c :
    valid_at now c -> (ca = true -> isCA c = true) -> issued_by c root ->
    path_to_root root now ca [c]
| path_step ca c next rest :
    valid_at now c -> (ca = true -> isCA c = true) -> issued_by c next ->
    path_to_root root now true (next :: rest) ->
    path_to_root root now ca (c :: next :: rest).

(** ** Lemmas *)

Lemma verifySignedBy_spec child issuer :
  verifySignedBy child issuer = Ok tt <-> issued_by child issuer.
Proof.
  unfold verifySignedBy, issued_by. split.
  - intros H. apply rbind_ok in H as (? & H1 & H). apply rbind_ok in H as (? & H2 & H).
    apply check_ok, ustr_eqb_eq in H1. apply check_ok, ustr_eqb_eq in H2.
    destruct (importVerifyKey _) as [key|]; [|done]. apply check_ok in H. eauto 6.
  - intros (H1 & H2 & key & H3 & H4).
    apply ustr_eqb_eq in H1 as ->. apply ustr_eqb_eq in H2 as ->. cbn. by rewrite H3, H4.
Qed.

Lemma assertValidityWindow_spec c now e1 e2 :
  assertValidityWindow c now e1 e2 = Ok tt <-> valid_at now c.
Proof.
  unfold assertValidityWindow, valid_at. rewrite Z.gtb_ltb.
  destruct (Z.ltb_spec now (notBefore c)); cbn; [split; [done | lia]|].
  destruct (Z.ltb_spec (notAfter c) now); cbn; split; first [done | lia].
Qed.

Lemma ca_check_spec i c (e : chain_error) :
  check (negb ((0 <? i)%nat && negb (isCA c))) e = Ok tt <->
  ((0 <? i)%nat = true -> isCA c = true).
Proof. destruct (0 <? i)%nat, (isCA c); cbn; naive_solver. Qed.

Lemma verify_links_step i c rest root now :
  verify_links i (c :: rest) root now = Ok tt <->
  valid_at now c /\ ((0 <? i)%nat = true -> isCA c = true) /\
  issued_by c (match rest with next :: _ => next | [] => root end) /\
  verify_links (S i) rest root now = Ok tt.
Proof.
  cbn [verify_links]. rewrite <- (assertValidityWindow_spec c now (NotYetValid i) (Expired i)).
  rewrite <- (ca_check_spec i c (NotCA i)), <- verifySignedBy_spec.
  destruct (assertValidityWindow _ _ _ _) as [[]|]; cbn [rbind]; [|naive_solver].
  destruct (check _ (NotCA i)) as [[]|]; cbn [rbind]; [|naive_solver].
  destruct (verifySignedBy _ _) as [[]|]; cbn [rbind]; naive_solver.
Qed.

Lemma verify_links_spec i certs root now :
  certs <> [] ->
  verify_links i certs root now = Ok tt <-> path_to_root root now (0 <? i)%nat certs.
Proof.
  revert i. induction certs as [|c [|next rest] IH]; intros i Hne; [done| |].
  - rewrite verify_links_step. cbn [verify_links]. split.
    + intros (? & ? & ? & _). by constructor.
    + inversion 1; subst. done.
  - rewrite verify_links_step, IH by done. change (0 <? S i)%nat with true. split.
    + intros (? & ? & ? & ?). by constructor.
    + inversion 1; subst. done.
Qed.

Lemma chain_certs_nonempty leafPem more certs :
  chain_certs leafPem more = Ok certs -> certs <> [].
Proof.
  unfold chain_certs. intros H. apply rbind_ok in H as (blocks & _ & H).
  apply rbind_ok in H as (u & Hne & H). apply rbind_ok in H as (ms & _ & H).
  apply check_ok in Hne. destruct blocks as [|b blocks]; [done|].
  destruct (rmapM parseCert _) as [cs|] eqn:E; [|done]. injection H as <-.
  apply rmapM_ok_length in E. by destruct cs.
Qed.

Lemma verify_certs_spec certs root now leaf :
  certs <> [] ->
  verify_certs certs root now = Ok leaf <->
  path_to_root root now false certs /\ valid_at now root /\
  exists c rest key, certs = c :: rest /\ importPssKey (spkiRaw c) = Some key /\
    leaf = {| leafCN := subjectCN c; publicKeyPss := key; publicKeySpki := spkiRaw c |}.
Proof.
  intros Hne. unfold verify_certs.
  rewrite <- (verify_links_spec 0 certs root now Hne).
  rewrite <- (assertValidityWindow_spec root now RootNotYetValid RootExpired).
  destruct (verify_links 0 certs root now) as [[]|]; cbn [rbind]; [|naive_solver].
  destruct (assertValidityWindow root now _ _) as [[]|]; cbn [rbind]; [|naive_solver].
  destruct certs as [|c rest]; [done|]. split.
  - destruct (importPssKey (spkiRaw c)) as [key|] eqn:E; [|done]. intros [= <-]. eauto 10.
  - intros (_ & _ & c' & rest' & key & [= <- <-] & -> & ->). done.
Qed.

End chain_verify.
