(* ===== verification/X509Props.v ===== *)
(** * Properties of certificate chain verification *)

From S2P Require Import Prelude Der DerRead JsDate UString X509.

Open Scope Z_scope.

(** ** A concrete two-certificate hierarchy *)

Definition demo_alg : list Z := Der.der.sequence [Der.der.oid OID.sha256WithRSA; Der.der.null].

Definition demo_name (cn : ustr) : list Z :=
  Der.der.sequence [Der.der.set [Der.der.sequence [Der.der.oid OID.commonName; Der.der.utf8String cn]]].

Definition demo_validity : list Z :=
  Der.der.sequence [tlv TAG_UTC_TIME (js "240101000000Z"); tlv TAG_UTC_TIME (js "340101000000Z")].

Definition demo_spki (k : Z) : list Z := Der.der.sequence [Der.der.integer k].

Definition demo_ca_extension : list Z :=
  tlv TAG_EXTENSIONS (Der.der.sequence [Der.der.sequence
    [Der.der.oid [0x55; 0x1d; 0x13];
     Der.der.octetString (Der.der.sequence [tlv TAG_BOOLEAN [255]])]]).

Definition demo_tbs (issuer subject : ustr) (k : Z) (ca : bool) : list Z :=
  Der.der.sequence ([tlv 0xa0 (Der.der.integer 2); Der.der.integer 7; demo_alg; demo_name issuer;
                     demo_validity; demo_name subject; demo_spki k] ++
                    if ca then [demo_ca_extension] else []).

Definition demo_cert (issuer subject : ustr) (k issuerKey : Z) (ca : bool) : list Z :=
  let tbs := demo_tbs issuer subject k ca in
  Der.der.sequence [tbs; demo_alg; Der.der.bitString (demo_spki issuerKey ++ tbs)].

Definition demo_pem (der : list Z) : ustr := BEGIN_CERT ++ demo_btoa der ++ END_CERT.

Definition demo_root : ustr := demo_pem (demo_cert (js "root") (js "root") 1 1 true).
Definition demo_sub : ustr := demo_pem (demo_cert (js "root") (js "client ca") 2 1 true).
Definition demo_leaf : ustr := demo_pem (demo_cert (js "Client  CA") (js "kdc-service") 3 2 false).
Definition demo_rogue : ustr := demo_pem (demo_cert (js "kdc-service") (js "mallory") 4 3 false).

(** 2025-01-01. *)
Definition demo_now : Z := 1735689600000.

Definition demo_state : AnchorState :=
  {| overridePem := None; pemPromise := None; cachedAnchor := None |}.

(** The hierarchy verifies: leaf, intermediate, fetched root. *)
Example verify_accepts :
  exists leaf st, verifyChainToRoot (FetchStatus true demo_root) demo_now demo_leaf [demo_sub] demo_state
    = (Ok leaf, st) /\ leafCN leaf = js "kdc-service" /\ publicKeySpki leaf = demo_spki 3.
Proof. do 2 eexists. split; [vm_compute; reflexivity|]. split; vm_compute; reflexivity. Qed.

(** A certificate issued by a leaf is refused: the leaf is not a CA. *)
Example verify_refuses_leaf_issuer :
  fst (verifyChainToRoot (FetchStatus true demo_root) demo_now demo_rogue [demo_leaf; demo_sub] demo_state)
  = Err (NotCA 1).
Proof. vm_compute. reflexivity. Qed.

(** ** Lemmas on the anchor *)

Section anchors.

Context `{P : Platform}.

(** An operation of the browser session on the anchor's state. *)
Inductive anchor_op :=
| OpOverride (pem : ustr)
| OpVerify (net : fetch_reply) (now : Z) (leafPem : ustr) (more : list ustr).

Definition run_op (op : anchor_op) (st : AnchorState) : AnchorState :=
  match op with
  | OpOverride pem => setRootCaPem pem st
  | OpVerify net now leafPem more => snd (verifyChainToRoot net now leafPem more st)
  end.

Definition run_ops (ops : list anchor_op) (st : AnchorState) : AnchorState :=
  fold_left (fun st op => run_op op st) ops st.

Lemma anchor_cached net st root :
  cachedAnchor st = Some root -> anchor net st = (Ok root, st).
Proof. unfold anchor. by intros ->. Qed.

Lemma run_op_cached op st root :
  cachedAnchor st = Some root -> cachedAnchor (run_op op st) = Some root.
Proof.
  intros H. destruct op as [pem | net now leafPem more]; cbn; [done|].
  unfold verifyChainToRoot. destruct (chain_certs leafPem more); [|done].
  by rewrite (anchor_cached net st root H).
Qed.

Lemma run_ops_cached ops st root :
  cachedAnchor st = Some root -> cachedAnchor (run_ops ops st) = Some root.
Proof.
  unfold run_ops. revert st. induction ops as [|op ops IH]; intros st H; [done|].
  cbn. by apply IH, run_op_cached.
Qed.

Lemma loadRootCaPem_failure net st :
  overridePem st = None -> pemPromise st = None ->
  (forall text, net <> FetchStatus true text) ->
  is_ok (fst (loadRootCaPem net st)) = false /\ snd (loadRootCaPem net st) = st.
Proof.
  unfold loadRootCaPem. intros -> -> Hnet.
  destruct net as [|[] text]; [done | by destruct (Hnet text) | done].
Qed.

(** ** The theorems *)

(** C2: [verifyChainToRoot] accepts exactly the certification paths: it returns
    a leaf if and only if the PEM blocks parse, the root is available and in its
    validity window, and the certificates, leaf first, form a path in which each
    is currently valid, names the next one's subject as its issuer, carries an
    RSA/SHA-256 signature that verifies under the next one's key, every one
    after the leaf is a CA and the last is issued by the root; the result is the
    first certificate's name and key. *)
Theorem verifyChainToRoot_spec net now leafPem more st leaf st' :
  verifyChainToRoot net now leafPem more st = (Ok leaf, st') <->
  exists certs root, chain_certs leafPem more = Ok certs /\ anchor net st = (Ok root, st') /\
    path_to_root root now false certs /\ valid_at now root /\
    exists c rest key, certs = c :: rest /\ importPssKey (spkiRaw c) = Some key /\
      leaf = {| leafCN := subjectCN c; publicKeyPss := key; publicKeySpki := spkiRaw c |}.
Proof.
  unfold verifyChainToRoot.
  destruct (chain_certs leafPem more) as [certs|] eqn:Hc; [|split; [done | naive_solver]].
  apply chain_certs_nonempty in Hc.
  destruct (anchor net st) as [[root|] st2]; [|split; [done | naive_solver]].
  pose proof (verify_certs_spec certs root now leaf Hc) as Hv. split.
  - intros [= Hl <-]. exists certs, root. by apply Hv in Hl.
  - intros (certs' & root' & [= <-] & [= <- <-] & Hrest). f_equal. by apply Hv.
Qed.

(** The check fails closed without a trust anchor: when no root PEM was
    given or loaded before and the fetch is rejected or answers with an error
    status, no chain is accepted and nothing is cached. *)
Theorem verify_fails_closed net now leafPem more st
  (Ho : overridePem st = None) (Hp : pemPromise st = None) (Hc : cachedAnchor st = None)
  (Hnet : forall text, net <> FetchStatus true text) :
  is_ok (fst (verifyChainToRoot net now leafPem more st)) = false /\
  snd (verifyChainToRoot net now leafPem more st) = st.
Proof.
  unfold verifyChainToRoot, anchor. rewrite Hc.
  destruct (loadRootCaPem_failure net st Ho Hp Hnet) as [H1 H2].
  destruct (chain_certs leafPem more); [|done].
  destruct (loadRootCaPem net st) as [[pem|e] st2]; cbn in *; [done|]. by subst.
Qed.

(** The trust anchor is fixed by the first success: once a root has been
    cached, no sequence of verifications and of [setRootCaPem] calls changes it,
    and every later chain is checked against it, whatever the network says. *)
Theorem anchor_sticks ops st root net now leafPem more leaf
  (Hroot : cachedAnchor st = Some root)
  (Hok : fst (verifyChainToRoot net now leafPem more (run_ops ops st)) = Ok leaf) :
  cachedAnchor (run_ops ops st) = Some root /\
  exists certs, chain_certs leafPem more = Ok certs /\ path_to_root root now false certs.
Proof.
  pose proof (run_ops_cached ops st root Hroot) as Hc. split; [done|].
  unfold verifyChainToRoot in Hok.
  destruct (chain_certs leafPem more) as [certs|] eqn:Hcerts; [|done].
  rewrite (anchor_cached net _ root Hc) in Hok. cbn in Hok.
  apply verify_certs_spec in Hok as (Hpath & _); [|by eapply chain_certs_nonempty].
  eauto.
Qed.

End anchors.

Lemma verify_fails_closed_witness :
  is_ok (fst (verifyChainToRoot FetchRejected demo_now demo_leaf [demo_sub] demo_state)) = false /\
  snd (verifyChainToRoot FetchRejected demo_now demo_leaf [demo_sub] demo_state) = demo_state.
Proof. apply (verify_fails_closed FetchRejected demo_now demo_leaf [demo_sub] demo_state); done. Defined.

Lemma anchor_sticks_witness :
  exists root, cachedAnchor (run_ops [OpOverride (js "x")]
    (snd (verifyChainToRoot (FetchStatus true demo_root) demo_now demo_leaf [demo_sub] demo_state)))
    = Some root.
Proof.
  eexists.
  eapply (anchor_sticks [OpOverride (js "x")]
    (snd (verifyChainToRoot (FetchStatus true demo_root) demo_now demo_leaf [demo_sub] demo_state))
    _ FetchRejected demo_now demo_leaf [demo_sub]); vm_compute; reflexivity.
Defined.

(** Two different names with one canonical form: a comma in a value reads like
    the separator of attributes. *)
Lemma canonical_name_ambiguous :
  let one := [(js "2.5.4.3", js "a,2.5.4.10=b")] in
  let two := [(js "2.5.4.3", js "a"); (js "2.5.4.10", js "b")] in
  one <> two /\ join (js ",") (map canonical_part one) = join (js ",") (map canonical_part two).
Proof. split; [discriminate | vm_compute; reflexivity]. Qed.
