(* ===== verification/CertParser.v ===== *)
(** * The certificate reader of the browser ([as-exchange/cert.parser.ts])

    [certificatePemToJson] and [extractOwnerIdFromCertificate] above the DER
    reader of Module [Parser]. *)

From S2P Require Import Prelude Der DerRead JsDate UString X509.

Open Scope Z_scope.

Record ParsedDistinguishedName := {
  dnCommonName : ustr;
  dnOrganization : ustr;
  dnOrganizationalUnit : ustr;
  dnCountry : ustr;
  dnLocality : ustr;
  dnStateOrProvince : ustr;
  dnEmailAddress : ustr;
  attributes : list (ustr * list ustr)
}.

Record SubjectAltName := {
  emails : list ustr;
  dnsNames : list ustr;
  uris : list ustr;
  ipAddresses : list ustr
}.

Record ParsedCertificateJson := {
  version : Z;
  serialNumber : ustr;
  signatureAlgorithm : ustr * ustr;
  publicKeyAlgorithm : ustr * ustr;
  issuer : ParsedDistinguishedName;
  subject : ParsedDistinguishedName;
  validNotBefore : string;
  validNotAfter : string;
  subjectAltName : SubjectAltName;
  ownerId : option ustr;
  fingerprintSha256 : ustr
}.

Definition TAG_EMAIL : Z := 0x81.
Definition TAG_DNS : Z := 0x82.
Definition TAG_URI : Z := 0x86.
Definition TAG_IP : Z := 0x87.
Definition TAG_VERSION : Z := 0xa0.

Definition SAN_OID : list Z := [0x55; 0x1d; 0x11].
Definition OWNER_URI_PREFIX : ustr := js "urn:mini-banking:owner:".

Definition ALGORITHM_NAMES : list (ustr * ustr) :=
  [(js "1.2.840.113549.1.1.1", js "RSA");
   (js "1.2.840.113549.1.1.5", js "SHA-1 with RSA");
   (js "1.2.840.113549.1.1.10", js "RSA-PSS");
   (js "1.2.840.113549.1.1.11", js "SHA-256 with RSA");
   (js "1.2.840.113549.1.1.12", js "SHA-384 with RSA");
   (js "1.2.840.113549.1.1.13", js "SHA-512 with RSA");
   (js "1.2.840.10045.2.1", js "EC Public Key");
   (js "1.2.840.10045.4.3.2", js "ECDSA with SHA-256");
   (js "1.2.840.10045.4.3.3", js "ECDSA with SHA-384");
   (js "1.2.840.10045.4.3.4", js "ECDSA with SHA-512")].

Fixpoint assoc {A} (k : ustr) (l : list (ustr * A)) : option A :=
  match l with
  | [] => None
  | (k', a) :: l' => if ustr_eqb k k' then Some a else assoc k l'
  end.

Definition hex_digit (n : Z) : Z := if n <? 10 then 48 + n else 55 + n.

(** [bytesToHex(bytes, separator)]: two upper-case digits per byte. *)
Definition bytesToHex (bytes : list Z) (separator : ustr) : ustr :=
  join separator (map (fun b => [hex_digit (b / 16); hex_digit (b mod 16)]) bytes).

(** [attributes[oid].push(value)], the array created on first use. *)
Fixpoint push_attribute (oid value : ustr) (attrs : list (ustr * list ustr))
    : list (ustr * list ustr) :=
  match attrs with
  | [] => [(oid, [value])]
  | (o, vs) :: rest =>
      if ustr_eqb oid o then (o, vs ++ [value]) :: rest else (o, vs) :: push_attribute oid value rest
  end.

(** The fraction of seconds of a GeneralizedTime is dropped. *)
Definition match_time_fraction (raw : ustr) : option (Z * Z * Z * Z * Z * Z) :=
  match match_time 4 raw with
  | Some t => Some t
  | None =>
      let frac := take (length raw - 16) (drop 15 raw) in
      if (16 <? length raw)%nat && (nth 14 raw 0 =? 46) && forallb is_digit frac
      then match_time 4 (take 14 raw ++ drop (length raw - 1) raw)
      else None
  end.

(** [while (serialBytes.length > 1 && serialBytes[0] === 0)]. *)
Fixpoint strip_zeros (bytes : list Z) : list Z :=
  match bytes with
  | b :: rest => if (b =? 0) && negb (length rest =? 0)%nat then strip_zeros rest else bytes
  | [] => []
  end.

Section cert_parser.

Context `{P : Platform}.

Definition pemToDer (pem : ustr) : result der_error (list Z) :=
  match find_sub BEGIN_CERT pem, find_sub END_CERT pem with
  | Some (a, b), Some _ =>
      let pem1 := a ++ b in
      let pem2 := match find_sub END_CERT pem1 with Some (c, d) => c ++ d | None => pem1 end in
      let body := strip_spaces pem2 in
      match body with
      | [] => Err EmptyPem
      | _ => match atob body with Some der => Ok der | None => Err BadBase64 end
      end
  | _, _ => Err BadPem
  end.

Definition decodeString (node : Parser.Tlv) : ustr :=
  if Parser.tag node =? 0x1e
  then (fix go (l : list Z) : ustr :=
          match l with
          | hi :: lo :: rest => Z.lor (Z.shiftl hi 8) lo :: go rest
          | _ => []
          end) (Parser.content node)
  else textDecode (Parser.content node).

(** The pair of one SEQUENCE of a relative name. *)
Definition name_pair (sequence : Parser.Tlv) : result der_error (option (ustr * ustr)) :=
  if Parser.tag sequence =? TAG.SEQUENCE then
    let! kv := Parser.readChildren (Parser.content sequence) in
    match kv with
    | p0 :: p1 :: _ =>
        if Parser.tag p0 =? TAG.OID
        then let! arcs := Parser.decodeOid (Parser.content p0) in
             Ok (Some (oid_string arcs, decodeString p1))
        else Ok None
    | _ => Ok None
    end
  else Ok None.

Definition parseName (node : Parser.Tlv) : result der_error ParsedDistinguishedName :=
  let! _ := Parser.requireTag node TAG.SEQUENCE in
  let! sets := Parser.readChildren (Parser.content node) in
  let! found := rmapM (fun set =>
      if Parser.tag set =? TAG.SET
      then let! seqs := Parser.readChildren (Parser.content set) in rmapM name_pair seqs
      else Ok []) sets in
  let attrs := fold_left (fun attrs kv => push_attribute kv.1 kv.2 attrs)
                 (omap id (List.concat found)) [] in
  let first oid := match assoc (js oid) attrs with Some (v :: _) => v | _ => [] end in
  Ok {| dnCommonName := first "2.5.4.3"; dnOrganization := first "2.5.4.10";
        dnOrganizationalUnit := first "2.5.4.11"; dnCountry := first "2.5.4.6";
        dnLocality := first "2.5.4.7"; dnStateOrProvince := first "2.5.4.8";
        dnEmailAddress := first "1.2.840.113549.1.9.1"; attributes := attrs |}.

Definition parseAsn1Time (node : Parser.Tlv) : result der_error string :=
  let raw := textDecode (Parser.content node) in
  let fields :=
    if Parser.tag node =? TAG_UTC_TIME then
      match match_time 2 raw with
      | Some (yy, mo, d, h, mi, s) =>
          Some ((if 50 <=? yy then 1900 + yy else 2000 + yy), mo, d, h, mi, s)
      | None => None
      end
    else if Parser.tag node =? TAG_GENERALIZED_TIME then match_time_fraction raw
    else None in
  match fields with
  | Some (year, mo, d, h, mi, s) =>
      match toISOString (Date_UTC year (mo - 1) d h mi s) with
      | Some iso => Ok iso
      | None => Err BadTime
      end
  | None => Err BadTime
  end.

Definition parseAlgorithmIdentifier (node : Parser.Tlv) : result der_error (ustr * ustr) :=
  let! _ := Parser.requireTag node TAG.SEQUENCE in
  let! kids := Parser.readChildren (Parser.content node) in
  match List.find (fun k => Parser.tag k =? TAG.OID) kids with
  | None => Err NoAlgorithmOid
  | Some k =>
      let! arcs := Parser.decodeOid (Parser.content k) in
      let oid := oid_string arcs in
      Ok (oid, match assoc oid ALGORITHM_NAMES with Some n => n | None => oid end)
  end.

Definition add_general_name (san : SubjectAltName) (name : Parser.Tlv) : SubjectAltName :=
  let value := textDecode (Parser.content name) in
  let t := Parser.tag name in
  if t =? TAG_EMAIL then
    {| emails := emails san ++ [value]; dnsNames := dnsNames san; uris := uris san;
       ipAddresses := ipAddresses san |}
  else if t =? TAG_DNS then
    {| emails := emails san; dnsNames := dnsNames san ++ [value]; uris := uris san;
       ipAddresses := ipAddresses san |}
  else if t =? TAG_URI then
    {| emails := emails san; dnsNames := dnsNames san; uris := uris san ++ [value];
       ipAddresses := ipAddresses san |}
  else if t =? TAG_IP then
    {| emails := emails san; dnsNames := dnsNames san; uris := uris san;
       ipAddresses := ipAddresses san ++ [join (js ".") (map dec (Parser.content name))] |}
  else san.

Definition empty_san : SubjectAltName :=
  {| emails := []; dnsNames := []; uris := []; ipAddresses := [] |}.

Definition parseSubjectAltName (der : list Z) : result der_error SubjectAltName :=
  let! extension := Parser.findExtensionValue der SAN_OID in
  match extension with
  | None => Ok empty_san
  | Some ext =>
      let! node := Parser.readTlv ext 0 in
      let! sequence := Parser.requireTag node TAG.SEQUENCE in
      let! names := Parser.readChildren (Parser.content sequence) in
      Ok (fold_left add_general_name names empty_san)
  end.

Definition ownerIdFromUris (uris : list ustr) : result der_error (option ustr) :=
  match List.find (starts_with OWNER_URI_PREFIX) uris with
  | None => Ok None
  | Some uri =>
      match drop (length OWNER_URI_PREFIX) uri with
      | [] => Ok None
      | encoded =>
          match decodeURIComponent encoded with
          | Some [] => Ok None
          | Some id => Ok (Some id)
          | None => Err BadOwnerUri
          end
      end
  end.

(** [tbs[index]] where the code reads a field of it. *)
Definition node_at (l : list Parser.Tlv) (i : nat) : result der_error Parser.Tlv :=
  match l !! i with Some a => Ok a | None => Err UndefinedNode end.

(** The version field: its value and the index of the next element. *)
Definition parse_version (tbs : list Parser.Tlv) : result der_error (Z * nat) :=
  match tbs with
  | t :: _ =>
      if Parser.tag t =? TAG_VERSION then
        let! node := Parser.readTlv (Parser.content t) 0 in
        let! v := Parser.requireTag node TAG.INTEGER in
        Ok (Parser.integerToNumber (Parser.content v) + 1, 1%nat)
      else Ok (1, 0%nat)
  | [] => Ok (1, 0%nat)
  end.

Definition certificatePemToJson (certificatePem : ustr) : result der_error ParsedCertificateJson :=
  let! der := pemToDer certificatePem in
  let! outer := Parser.readTlv der 0 in
  let! certificate := Parser.requireTag outer TAG.SEQUENCE in
  let! _ := check (Parser.end_ certificate =? zlen der) TrailingData in
  let! certificateChildren := Parser.readChildren (Parser.content certificate) in
  match certificateChildren with
  | c0 :: _ :: _ :: _ =>
      let! tbsCertificate := Parser.requireTag c0 TAG.SEQUENCE in
      let! tbs := Parser.readChildren (Parser.content tbsCertificate) in
      let! (version, index) := parse_version tbs in
      let! serial := node_at tbs index in
      let! serialNode := Parser.requireTag serial TAG.INTEGER in
      let! sigAlgNode := node_at tbs (index + 1) in
      let! signatureAlgorithm := parseAlgorithmIdentifier sigAlgNode in
      let! issuerNode := node_at tbs (index + 2) in
      let! issuer := parseName issuerNode in
      let! validityField := node_at tbs (index + 3) in
      let! validityNode := Parser.requireTag validityField TAG.SEQUENCE in
      let! validity := Parser.readChildren (Parser.content validityNode) in
      match validity with
      | v0 :: v1 :: _ =>
          let! subjectNode := node_at tbs (index + 4) in
          let! subject := parseName subjectNode in
          let! spkiField := node_at tbs (index + 5) in
          let! subjectPublicKeyInfo := Parser.requireTag spkiField TAG.SEQUENCE in
          let! spkiChildren := Parser.readChildren (Parser.content subjectPublicKeyInfo) in
          match spkiChildren with
          | [] => Err NoPublicKeyAlgorithm
          | k0 :: _ =>
              let serialBytes := strip_zeros (Parser.content serialNode) in
              let! subjectAltName := parseSubjectAltName der in
              let fingerprint := sha256 der in
              let! publicKeyAlgorithm := parseAlgorithmIdentifier k0 in
              let! notBefore := parseAsn1Time v0 in
              let! notAfter := parseAsn1Time v1 in
              let! owner := ownerIdFromUris (uris subjectAltName) in
              Ok {| version := version; serialNumber := bytesToHex serialBytes [];
                    signatureAlgorithm := signatureAlgorithm;
                    publicKeyAlgorithm := publicKeyAlgorithm;
                    issuer := issuer; subject := subject;
                    validNotBefore := notBefore; validNotAfter := notAfter;
                    subjectAltName := subjectAltName; ownerId := owner;
                    fingerprintSha256 := bytesToHex fingerprint (js ":") |}
          end
      | _ => Err MissingParts
      end
  | _ => Err MissingParts
  end.

Definition extractOwnerIdFromCertificate (certificatePem : ustr) : result der_error ustr :=
  let! der := pemToDer certificatePem in
  let! san := parseSubjectAltName der in
  let! owner := ownerIdFromUris (uris san) in
  match owner with
  | Some id => Ok id
  | None => Err NoOwnerUri
  end.

End cert_parser.

(** ** The theorems *)

Section owner.

Context `{P : Platform}.

(** The two public functions agree on the owner: when the certificate is
    converted to JSON, its [ownerId] is [Some id] exactly when
    [extractOwnerIdFromCertificate] returns [id] for the same PEM, so the
    identity shown is the identity sent in the AS request. *)
Theorem owner_id_consistent (pem : ustr) (json : ParsedCertificateJson) (id : ustr)
  (Hjson : certificatePemToJson pem = Ok json) :
  ownerId json = Some id <-> extractOwnerIdFromCertificate pem = Ok id.
Proof.
  unfold certificatePemToJson in Hjson. unfold extractOwnerIdFromCertificate.
  apply rbind_ok in Hjson as (der & -> & H). cbn [rbind].
  repeat first
    [ match type of H with rbind (parseSubjectAltName _) _ = Ok _ => fail 2 end
    | apply rbind_ok in H as (? & _ & H)
    | match type of H with (match ?x with _ => _ end) = Ok _ => destruct x; try discriminate H end ].
  apply rbind_ok in H as (san & -> & H). cbn [rbind].
  do 3 apply rbind_ok in H as (? & _ & H).
  apply rbind_ok in H as (owner & -> & H). injection H as <-. cbn [rbind ownerId].
  destruct owner; split; congruence.
Qed.

End owner.

Definition demo_owner_cert : ustr :=
  let name := Der.der.sequence [] in
  let alg := Der.der.sequence [Der.der.oid OID.sha256WithRSA] in
  let validity := Der.der.sequence
    [tlv TAG_UTC_TIME (js "240101000000Z"); tlv TAG_UTC_TIME (js "340101000000Z")] in
  let san := Der.der.sequence [tlv TAG_URI (js "urn:mini-banking:owner:u-1")] in
  let exts := tlv TAG_EXTENSIONS (Der.der.sequence
    [Der.der.sequence [Der.der.oid SAN_OID; Der.der.octetString san]]) in
  let tbs := Der.der.sequence
    [Der.der.integer 7; alg; name; validity; name; Der.der.sequence [alg]; exts] in
  BEGIN_CERT ++ demo_btoa (Der.der.sequence [tbs; alg; Der.der.bitString []]) ++ END_CERT.

Lemma owner_id_consistent_witness :
  extractOwnerIdFromCertificate demo_owner_cert = Ok (js "u-1").
Proof.
  eapply owner_id_consistent; [vm_compute; reflexivity|]. vm_compute. reflexivity.
Defined.
