(* ===== verification/Effects.v ===== *)
(** * Handlers as programs over events

    An asynchronous handler is a tree of events: every [await] of a call to
    Redis, a service, the clock or the random generator is a request, and the
    rest of the handler is a function of the reply. [Container] fixes the type
    of requests and the type of each request's reply. A program can be run
    against any environment that answers requests; [always] states what holds
    of every run whatever the environment answers; [pool_step] interleaves the
    events of several handlers. *)

From S2P Require Import Prelude.

Class Container (E : Type) := reply : E -> Type.

Section programs.

Context {E X : Type} `{C : Container E}.

(** [X] is the type of exceptions. *)
Inductive prog (A : Type) : Type :=
| Ret (a : A)
| Raise (x : X)
| Vis (e : E) (k : reply e -> prog A).

End programs.

Arguments prog E X {C} A.
Arguments Ret {E X C A} a.
Arguments Raise {E X C A} x.
Arguments Vis {E X C A} e k.

Section operations.

Context {E X : Type} `{C : Container E}.

Fixpoint bind {A B} (p : prog E X A) (f : A -> prog E X B) : prog E X B :=
  match p with
  | Ret a => f a
  | Raise x => Raise x
  | Vis e k => Vis e (fun r => bind (k r) f)
  end.

(** [try { p } catch (x) { h(x) }]. *)
Fixpoint catch {A} (p : prog E X A) (h : X -> prog E X A) : prog E X A :=
  match p with
  | Ret a => Ret a
  | Raise x => h x
  | Vis e k => Vis e (fun r => catch (k r) h)
  end.

(** A block whose outcome is inspected: both ends as a value. *)
Definition attempt {A} (p : prog E X A) : prog E X (result X A) :=
  catch (bind p (fun a => Ret (Ok a))) (fun x => Ret (Err x)).

Definition of_result {A} (r : result X A) : prog E X A :=
  match r with Ok a => Ret a | Err x => Raise x end.

(** One request and its reply. *)
Record obs := Obs { request : E; answer : reply request }.

Definition trace := list obs.

(** ** Running against an environment *)

Section run.

Context {W : Type} (env : forall e : E, W -> W * reply e).

Fixpoint run {A} (p : prog E X A) (w : W) : W * trace * result X A :=
  match p with
  | Ret a => (w, [], Ok a)
  | Raise x => (w, [], Err x)
  | Vis e k =>
      let '(w1, r) := env e w in
      let '(w2, t, o) := run (k r) w1 in
      (w2, Obs e r :: t, o)
  end.

Definition run_world {A} (p : prog E X A) (w : W) : W := (run p w).1.1.
Definition run_trace {A} (p : prog E X A) (w : W) : trace := (run p w).1.2.
Definition run_result {A} (p : prog E X A) (w : W) : result X A := (run p w).2.

(** ** Interleaving: at each step one unfinished handler makes one request *)

Inductive pool_step {A} : list (prog E X A) * W -> list (prog E X A) * W -> Prop :=
| step_event i (ps : list (prog E X A)) e k w w' r :
    ps !! i = Some (Vis e k) -> env e w = (w', r) ->
    pool_step (ps, w) (<[i := k r]> ps, w').

Inductive pool_steps {A} : list (prog E X A) * W -> list (prog E X A) * W -> Prop :=
| steps_refl c : pool_steps c c
| steps_cons c1 c2 c3 : pool_step c1 c2 -> pool_steps c2 c3 -> pool_steps c1 c3.

(** A schedule names the handler that moves at each step. *)
Fixpoint run_schedule {A} (sched : list nat) (ps : list (prog E X A)) (w : W)
    : list (prog E X A) * W :=
  match sched with
  | [] => (ps, w)
  | i :: rest =>
      match ps !! i with
      | Some (Vis e k) => let '(w', r) := env e w in run_schedule rest (<[i := k r]> ps) w'
      | _ => run_schedule rest ps w
      end
  end.

End run.

Lemma triple_eta {A B D} (x : A * B * D) : x = (x.1.1, x.1.2, x.2).
Proof. by destruct x as [[a b] d]. Qed.

(** ** What holds of every run *)

Fixpoint always {A} (p : prog E X A) (Q : trace -> result X A -> Prop) : Prop :=
  match p with
  | Ret a => Q [] (Ok a)
  | Raise x => Q [] (Err x)
  | Vis e k => forall r, always (k r) (fun t => Q (Obs e r :: t))
  end.

(** ** Lemmas *)

Lemma bind_assoc {A B D} (p : prog E X A) (f : A -> prog E X B) (g : B -> prog E X D) Q :
  always (bind (bind p f) g) Q <-> always (bind p (fun a => bind (f a) g)) Q.
Proof.
  revert Q. induction p as [a | x | e k IH]; intros Q; cbn; [done | done |].
  split; intros H r; apply IH, H.
Qed.

Lemma always_run {W} (env : forall e : E, W -> W * reply e) {A} (p : prog E X A) Q w :
  always p Q -> Q (run_trace env p w) (run_result env p w).
Proof.
  unfold run_trace, run_result. revert Q w.
  induction p as [a | x | e k IH]; intros Q w H; cbn in *; [done | done |].
  destruct (env e w) as [w1 r]. specialize (IH r (fun t => Q (Obs e r :: t)) w1 (H r)).
  by destruct (run env (k r) w1) as [[w2 t] o].
Qed.

Lemma always_mono {A} (p : prog E X A) (Q Q' : trace -> result X A -> Prop) :
  (forall t o, Q t o -> Q' t o) -> always p Q -> always p Q'.
Proof.
  revert Q Q'. induction p as [a | x | e k IH]; intros Q Q' HQ H; cbn in *; [auto | auto |].
  intros r. eapply IH; [|apply H]. intros t o. apply HQ.
Qed.

Lemma always_bind {A B} (p : prog E X A) (f : A -> prog E X B) Q :
  always p (fun t o => match o with
                       | Ok a => always (f a) (fun t' => Q (t ++ t'))
                       | Err x => Q t (Err x)
                       end) ->
  always (bind p f) Q.
Proof.
  revert Q. induction p as [a | x | e k IH]; intros Q H; cbn in *; [done | done |].
  intros r. apply IH, H.
Qed.

Lemma always_catch {A} (p : prog E X A) (h : X -> prog E X A) Q :
  always p (fun t o => match o with
                       | Ok a => Q t (Ok a)
                       | Err x => always (h x) (fun t' => Q (t ++ t'))
                       end) ->
  always (catch p h) Q.
Proof.
  revert Q. induction p as [a | x | e k IH]; intros Q H; cbn in *; [done | done |].
  intros r. apply IH, H.
Qed.

Lemma always_attempt {A} (p : prog E X A) Q :
  always p (fun t o => Q t (Ok o)) -> always (attempt p) Q.
Proof.
  unfold attempt. intros H. apply always_catch, always_bind.
  eapply always_mono; [|exact H]. intros t [a|x]; cbn; rewrite ?app_nil_r; done.
Qed.

Lemma always_true {A} (p : prog E X A) (Q : trace -> result X A -> Prop) :
  (forall t o, Q t o) -> always p Q.
Proof. revert Q. induction p as [a | x | e k IH]; intros Q H; cbn; auto. Qed.

Lemma always_and {A} (p : prog E X A) (Q1 Q2 : trace -> result X A -> Prop) :
  always p Q1 -> always p Q2 -> always p (fun t o => Q1 t o /\ Q2 t o).
Proof.
  revert Q1 Q2. induction p as [a | x | e k IH]; intros Q1 Q2 H1 H2; cbn in *; [done..|].
  intros r. by apply (IH r (fun t => Q1 (Obs e r :: t)) (fun t => Q2 (Obs e r :: t))).
Qed.

Lemma run_bind {W} (env : forall e : E, W -> W * reply e) {A B}
    (p : prog E X A) (f : A -> prog E X B) w :
  run env (bind p f) w =
  match run env p w with
  | (w1, t1, Ok a) => let '(w2, t2, o) := run env (f a) w1 in (w2, t1 ++ t2, o)
  | (w1, t1, Err x) => (w1, t1, Err x)
  end.
Proof.
  revert w. induction p as [a | x | e k IH]; intros w; cbn.
  - by destruct (run env (f a) w) as [[w2 t2] o].
  - done.
  - destruct (env e w) as [w1 r]. rewrite IH.
    destruct (run env (k r) w1) as [[w2 t2] [a|x]]; [|done].
    by destruct (run env (f a) w2) as [[w3 t3] o].
Qed.

(** ** Which requests a program can make *)

Definition emits {A} (P : E -> Prop) (p : prog E X A) : Prop :=
  always p (fun t _ => Forall (fun o => P (request o)) t).

Lemma emits_ret {A} P (a : A) : emits P (Ret a).
Proof. constructor. Qed.

Lemma emits_raise {A} P x : emits (A := A) P (Raise x).
Proof. constructor. Qed.

Lemma emits_vis {A} P e (k : reply e -> prog E X A) : P e -> (forall r, emits P (k r)) -> emits P (Vis e k).
Proof.
  intros He Hk r. eapply always_mono; [|apply Hk]. intros t o Ht. constructor; [exact He | exact Ht].
Qed.

Lemma emits_bind {A B} P (p : prog E X A) (f : A -> prog E X B) :
  emits P p -> (forall a, emits P (f a)) -> emits P (bind p f).
Proof.
  intros Hp Hf. apply always_bind. eapply always_mono; [|exact Hp]. intros t [a|x] Ht; [|done].
  eapply always_mono; [|apply Hf]. intros t' o Ht'. by apply Forall_app.
Qed.

Lemma emits_catch {A} P (p : prog E X A) (h : X -> prog E X A) :
  emits P p -> (forall x, emits P (h x)) -> emits P (catch p h).
Proof.
  intros Hp Hh. apply always_catch. eapply always_mono; [|exact Hp]. intros t [a|x] Ht; [done|].
  eapply always_mono; [|apply Hh]. intros t' o Ht'. by apply Forall_app.
Qed.

Lemma emits_attempt {A} P (p : prog E X A) : emits P p -> emits P (attempt p).
Proof. intros Hp. apply always_attempt. exact Hp. Qed.

Lemma emits_of_result {A} P (r : result X A) : emits P (of_result r).
Proof. destruct r; constructor. Qed.

Lemma emits_weaken {A} (P Q : E -> Prop) (p : prog E X A) :
  (forall e, P e -> Q e) -> emits P p -> emits Q p.
Proof.
  intros HPQ. apply always_mono. intros t o Ht. eapply Forall_impl; [exact Ht|]. cbn. auto.
Qed.

(** ** What a program establishes

    [yields P p F]: every request of [p] satisfies [P] and when [p] ends
    normally, its trace and its value satisfy [F]. *)

Definition yields {A} (P : E -> Prop) (p : prog E X A) (F : trace -> A -> Prop) : Prop :=
  always p (fun t o => Forall (fun o => P (request o)) t /\ forall a, o = Ok a -> F t a).

Lemma yields_ret {A} P (a : A) (F : trace -> A -> Prop) : F [] a -> yields P (Ret a) F.
Proof. intros HF. split; [constructor|]. by intros ? [= <-]. Qed.

Lemma yields_raise {A} P x (F : trace -> A -> Prop) : yields P (Raise x) F.
Proof. split; [constructor | discriminate]. Qed.

Lemma yields_mono {A} P (p : prog E X A) (F G : trace -> A -> Prop) :
  (forall t a, F t a -> G t a) -> yields P p F -> yields P p G.
Proof. intros HFG. apply always_mono. intros t o [Ht Ho]. split; [done | auto]. Qed.

Lemma yields_emits {A} P (p : prog E X A) : emits P p -> yields P p (fun _ _ => True).
Proof. apply always_mono. intros t o Ht. by split. Qed.

Lemma yields_vis {A} P e (k : reply e -> prog E X A) (F : trace -> A -> Prop) :
  P e -> (forall r, yields P (k r) (fun t => F (Obs e r :: t))) -> yields P (Vis e k) F.
Proof.
  intros He Hk r. eapply always_mono; [|apply Hk]. intros t o [Ht Ho]. split; [by constructor | done].
Qed.

(** In front of any continuation. *)
Lemma always_yields {A B} P (p : prog E X A) (f : A -> prog E X B) F (Q : trace -> result X B -> Prop) :
  yields P p F ->
  (forall t x, Forall (fun o => P (request o)) t -> Q t (Err x)) ->
  (forall t a, Forall (fun o => P (request o)) t -> F t a -> always (f a) (fun t' => Q (t ++ t'))) ->
  always (bind p f) Q.
Proof.
  intros Hp He Hf. apply always_bind. eapply always_mono; [|exact Hp].
  intros t [a|x] [Ht Ho]; [by apply Hf, Ho | by apply He].
Qed.

Lemma yields_bind {A B} P (p : prog E X A) (f : A -> prog E X B) F (G : trace -> B -> Prop) :
  yields P p F -> (forall t a, F t a -> yields P (f a) (fun t' => G (t ++ t'))) -> yields P (bind p f) G.
Proof.
  intros Hp Hf. eapply always_yields; [exact Hp | by split |].
  intros t a Ht Ha. eapply always_mono; [|exact (Hf t a Ha)]. intros t' o [Ht' Ho].
  split; [by apply Forall_app | done].
Qed.

Lemma yields_run {W} (env : forall e : E, W -> W * reply e) {A} P (p : prog E X A) F w a :
  yields P p F -> run_result env p w = Ok a -> F (run_trace env p w) a.
Proof. intros Hp Hr. by apply (always_run env p _ w Hp). Qed.

(** A schedule is one of the interleavings of the step relation. *)
Lemma run_schedule_steps {W} (env : forall e : E, W -> W * reply e) {A} sched
    (ps : list (prog E X A)) w :
  pool_steps env (ps, w) (run_schedule env sched ps w).
Proof.
  revert ps w. induction sched as [|i rest IH]; intros ps w; cbn; [constructor|].
  destruct (ps !! i) as [[a | x | e k]|] eqn:Hi; [apply IH | apply IH | | apply IH].
  destruct (env e w) as [w' r] eqn:He.
  eapply steps_cons; [by eapply step_event | apply IH].
Qed.

(** Rule induction for an invariant of the shared world. *)
Lemma pool_invariant {W} (env : forall e : E, W -> W * reply e) {A} (I : W -> Prop)
    (c c' : list (prog E X A) * W) :
  (forall e w w' r, I w -> env e w = (w', r) -> I w') ->
  pool_steps env c c' -> I c.2 -> I c'.2.
Proof.
  intros Hstep Hs. induction Hs as [c | c1 c2 c3 H12 _ IH]; intros Hi; [done|].
  apply IH. destruct H12 as [i ps e k w w' r _ He]. cbn in *. eauto.
Qed.

End operations.

Notation "'let*' x := p 'in' q" := (bind p (fun x => q))
  (at level 10, x pattern, p at level 100, q at level 200) : js_scope.

Notation "'do*' p 'in' q" := (bind p (fun _ => q))
  (at level 10, p at level 100, q at level 200) : js_scope.

(** Follow the structure of a program whose requests are bounded: [side] proves
    that one request is allowed; lemmas are taken from the database [emits], any
    other definition is unfolded. *)
Create HintDb emits discriminated.

Ltac head_of p := lazymatch p with ?f _ => head_of f | _ => p end.

Ltac emits_step side :=
  lazymatch goal with
  | |- emits _ (Ret _) => apply emits_ret
  | |- emits _ (Raise _) => apply emits_raise
  | |- emits _ (Vis _ _) => apply emits_vis; [side | intros]
  | |- emits _ (bind _ _) => apply emits_bind; [|intros]
  | |- emits _ (catch _ _) => apply emits_catch; [|intros]
  | |- emits _ (attempt _) => apply emits_attempt
  | |- emits _ (of_result _) => apply emits_of_result
  | |- emits _ (match ?x with _ => _ end) => destruct x
  | |- emits _ ?p => first [solve [eauto with emits nocore] | let h := head_of p in unfold h]
  end.

Ltac emits_all side := repeat (cbv beta iota zeta; emits_step side).
