(* ===== verification/JsString.v ===== *)
(** * The string operations of the gateway

    Gateway strings (keys, addresses, tokens, codes) are Rocq strings, one
    character per UTF-16 code unit, for code units below 256. Case mapping and
    white space are those of ECMAScript on that range. *)

From S2P Require Import Prelude.

Open Scope Z_scope.

Definition code (a : ascii) : Z := Z.of_N (N_of_ascii a).
Definition of_code (n : Z) : ascii := ascii_of_N (Z.to_N n).

(** The double quote, the line feed and the carriage return as characters. *)
Definition QUOTE : ascii := of_code 34.
Definition LF : ascii := of_code 10.
Definition CR : ascii := of_code 13.

Definition lower (a : ascii) : ascii :=
  let c := code a in
  if ((65 <=? c) && (c <=? 90)) || ((192 <=? c) && (c <=? 222) && negb (c =? 215))
  then of_code (c + 32) else a.

Fixpoint smap (f : ascii -> ascii) (s : string) : string :=
  match s with
  | "" => ""
  | String a s' => String (f a) (smap f s')
  end.

Definition toLowerCase (s : string) : string := smap lower s.

Definition space (a : ascii) : bool :=
  let c := code a in
  ((9 <=? c) && (c <=? 13)) || (c =? 32) || (c =? 160).

Fixpoint trimStart (s : string) : string :=
  match s with
  | String a s' => if space a then trimStart s' else s
  | "" => ""
  end.

Fixpoint srev_acc (s acc : string) : string :=
  match s with
  | "" => acc
  | String a s' => srev_acc s' (String a acc)
  end.

Definition srev (s : string) : string := srev_acc s "".

Definition trim (s : string) : string := srev (trimStart (srev (trimStart s))).

(** [s.slice(n)]. *)
Fixpoint slice (n : nat) (s : string) : string :=
  match n, s with
  | S n', String _ s' => slice n' s'
  | _, _ => s
  end.

Definition startsWith (p s : string) : bool := String.prefix p s.

Definition endsWith (p s : string) : bool := String.prefix (srev p) (srev s).

Fixpoint has_char (c : ascii) (s : string) : bool :=
  match s with
  | "" => false
  | String a s' => Ascii.eqb a c || has_char c s'
  end.

Fixpoint sall (f : ascii -> bool) (s : string) : bool :=
  match s with
  | "" => true
  | String a s' => f a && sall f s'
  end.

(** Text before and after the first [c]. *)
Fixpoint cut (c : ascii) (s : string) : option (string * string) :=
  match s with
  | "" => None
  | String a s' =>
      if Ascii.eqb a c then Some ("", s')
      else match cut c s' with Some (x, y) => Some (String a x, y) | None => None end
  end.

(** [s.split(c)] for a one-character separator. *)
Fixpoint split (c : ascii) (s : string) : list string :=
  match s with
  | "" => [""]
  | String a s' =>
      if Ascii.eqb a c then "" :: split c s'
      else match split c s' with
           | w :: ws => String a w :: ws
           | [] => [String a ""]
           end
  end.

(** [l.join(sep)]. *)
Fixpoint sjoin (sep : string) (l : list string) : string :=
  match l with
  | [] => ""
  | [s] => s
  | s :: l' => s +:+ sep +:+ sjoin sep l'
  end.

Definition digit (a : ascii) : bool := (48 <=? code a) && (code a <=? 57).

(** [Number] of a run of digits, exact. *)
Fixpoint digits_val (v : Z) (s : string) : Z :=
  match s with
  | "" => v
  | String a s' => digits_val (v * 10 + (code a - 48)) s'
  end.

(** [String(n)] of an integer. *)
Fixpoint dec_loop (fuel : nat) (n : Z) (acc : string) : string :=
  match fuel with
  | O => acc
  | S f => let acc := String (of_code (48 + n mod 10)) acc in
           if n <? 10 then acc else dec_loop f (n / 10) acc
  end.

Definition nat_string (n : Z) : string := dec_loop (S (Z.to_nat (Z.log2 n))) n "".

Definition Z_string (n : Z) : string :=
  if n <? 0 then "-" +:+ nat_string (- n) else nat_string n.

Fixpoint digits_prefix (s : string) : string :=
  match s with
  | String a s' => if digit a then String a (digits_prefix s') else ""
  | "" => ""
  end.

(** [parseInt(s, 10)]: white space, a sign, the leading digits; [None] is NaN. *)
Definition parseInt (s : string) : option Z :=
  let s := trimStart s in
  let '(sign, s) :=
    match s with
    | String a s' => if code a =? 45 then (-1, s') else if code a =? 43 then (1, s') else (1, s)
    | "" => (1, s)
    end in
  match digits_prefix s with
  | "" => None
  | ds => Some (sign * digits_val 0 ds)
  end.

(** [a || b] on strings: the first non-empty one. *)
Definition str_or (a b : string) : string := if String.eqb a "" then b else a.

(** ** Lemmas *)

Lemma sapp_cons a s t : String a s +:+ t = String a (s +:+ t).
Proof. reflexivity. Qed.

Lemma sapp_nil_r s : s +:+ "" = s.
Proof. induction s as [|a s IH]; [done|]. by rewrite sapp_cons, IH. Qed.

Lemma sapp_assoc s t u : (s +:+ t) +:+ u = s +:+ (t +:+ u).
Proof. induction s as [|a s IH]; [done|]. by rewrite !sapp_cons, IH. Qed.

Lemma slength_app s t : String.length (s +:+ t) = (String.length s + String.length t)%nat.
Proof. induction s as [|a s IH]; [done|]. rewrite sapp_cons. cbn [String.length]. by rewrite IH. Qed.

Lemma sapp_inj_l p s t : p +:+ s = p +:+ t -> s = t.
Proof. induction p as [|a p IH]; [done|]. rewrite !sapp_cons. intros [= H]. by apply IH. Qed.

Lemma startsWith_app p s : startsWith p (p +:+ s) = true.
Proof.
  unfold startsWith. induction p as [|a p IH]; [by destruct s|]. rewrite sapp_cons. cbn.
  destruct (ascii_dec a a); [done | congruence].
Qed.

Lemma slice_app p s : slice (String.length p) (p +:+ s) = s.
Proof. induction p as [|a p IH]; [by destruct s | exact IH]. Qed.

Lemma split_nonempty c s : split c s <> [].
Proof. destruct s as [|a s]; cbn; [done|]. destruct (Ascii.eqb a c); [done|]. by destruct (split c s). Qed.

Lemma has_char_app c s t : has_char c (s +:+ t) = has_char c s || has_char c t.
Proof. induction s as [|a s IH]; [done|]. rewrite sapp_cons. cbn. rewrite IH. apply orb_assoc. Qed.

(** A separator-free word is one part. *)
Lemma split_single c s : has_char c s = false -> split c s = [s].
Proof.
  induction s as [|a s IH]; [done|]. cbn. intros H. apply orb_false_iff in H as [-> H].
  by rewrite IH.
Qed.

Lemma split_app c s t : has_char c s = false -> split c (s +:+ String c t) = s :: split c t.
Proof.
  induction s as [|a s IH].
  - change (String.append "" (String c t)) with (String c t). cbn. by rewrite Ascii.eqb_refl.
  - rewrite sapp_cons. cbn. intros H. apply orb_false_iff in H as [-> H]. by rewrite IH.
Qed.

(** Joining separator-free words and splitting gives the words back. *)
Lemma split_sjoin c l :
  l <> [] -> Forall (fun s => has_char c s = false) l -> split c (sjoin (String c "") l) = l.
Proof.
  induction l as [|s [|s' l] IH]; intros Hne Hall; [done| |].
  - inversion_clear Hall. cbn. by apply split_single.
  - inversion_clear Hall as [|? ? Hs Hl].
    change (sjoin (String c "") (s :: s' :: l)) with (s +:+ String c (sjoin (String c "") (s' :: l))).
    rewrite split_app by done. f_equal. by apply IH.
Qed.

Lemma smap_length f s : String.length (smap f s) = String.length s.
Proof. induction s as [|a s IH]; [done|]. cbn. by rewrite IH. Qed.

Lemma lower_idem a : lower (lower a) = lower a.
Proof. destruct a as [[] [] [] [] [] [] [] []]; reflexivity. Qed.

Lemma toLowerCase_idem s : toLowerCase (toLowerCase s) = toLowerCase s.
Proof. induction s as [|a s IH]; [done|]. unfold toLowerCase in *. cbn. by rewrite lower_idem, IH. Qed.

#[export] Hint Rewrite sapp_nil_r sapp_assoc : zlen.

(** ** Decimal numerals *)

Lemma code_of_code n : 0 <= n < 256 -> code (of_code n) = n.
Proof.
  intros H. unfold code, of_code. rewrite N_ascii_embedding by lia. lia.
Qed.

Lemma of_code_digit n : 0 <= n < 10 -> digit (of_code (48 + n)) = true.
Proof. intros H. unfold digit. rewrite code_of_code by lia. apply andb_true_iff. lia. Qed.

Lemma digits_val_app v s t : digits_val v (s +:+ t) = digits_val (digits_val v s) t.
Proof.
  revert v. induction s as [|a s IH]; intros v; [done|]. rewrite sapp_cons. cbn. apply IH.
Qed.

Lemma sall_app f s t : sall f (s +:+ t) = sall f s && sall f t.
Proof. induction s as [|a s IH]; [done|]. rewrite sapp_cons. cbn. rewrite IH. apply andb_assoc. Qed.

Lemma digits_val_shift v s :
  digits_val v s = v * 10 ^ Z.of_nat (String.length s) + digits_val 0 s.
Proof.
  revert v. induction s as [|a s IH]; intros v; cbn [digits_val String.length].
  - cbn. lia.
  - rewrite IH, (IH (0 * 10 + _)), Nat2Z.inj_succ, Z.pow_succ_r by lia. ring.
Qed.

Lemma dec_loop_spec fuel n acc :
  0 <= n -> (Z.to_nat (Z.log2 n) < fuel)%nat ->
  exists ds, dec_loop fuel n acc = ds +:+ acc /\ ds <> "" /\ sall digit ds = true /\
             digits_val 0 ds = n.
Proof.
  revert n acc. induction fuel as [|f IH]; intros n acc Hn Hf; [lia|].
  cbn [dec_loop]. pose proof (Z.mod_pos_bound n 10 ltac:(lia)) as Hm.
  destruct (Z.ltb_spec n 10) as [Hlt|Hge].
  - exists (String (of_code (48 + n mod 10)) ""). split_and!; [done | done | |].
    + cbn. by rewrite of_code_digit.
    + cbn. rewrite code_of_code by lia. rewrite Z.mod_small by lia. lia.
  - assert (Hlog : Z.log2 (n / 10) < Z.log2 n).
    { assert (Z.log2 n = Z.succ (Z.log2 (n / 2))) as ->.
      { rewrite <- Z.div2_div. rewrite <- Z.log2_double by (rewrite Z.div2_div; apply Z.div_str_pos; lia).
        destruct (Z.odd n) eqn:Ho.
        - rewrite (Z.div2_odd n) at 1. rewrite Ho. cbn [Z.b2z].
          rewrite Z.log2_succ_double, Z.log2_double; [done | |];
            rewrite Z.div2_div; apply Z.div_str_pos; lia.
        - rewrite (Z.div2_odd n) at 1. rewrite Ho. cbn [Z.b2z]. by rewrite Z.add_0_r. }
      assert (Z.log2 (n / 10) <= Z.log2 (n / 2)); [|lia].
      apply Z.log2_le_mono. apply Z.div_le_compat_l; lia. }
    destruct (IH (n / 10) (String (of_code (48 + n mod 10)) acc)) as (ds & -> & Hne & Hall & Hv).
    + apply Z.div_pos; lia.
    + pose proof (Z.log2_nonneg (n / 10)). lia.
    + exists (ds +:+ String (of_code (48 + n mod 10)) "").
      split_and!.
      * by rewrite sapp_assoc.
      * by destruct ds.
      * rewrite sall_app, Hall. cbn. by rewrite of_code_digit.
      * rewrite digits_val_app, Hv. cbn. rewrite code_of_code by lia.
        pose proof (Z.div_mod n 10). lia.
Qed.

Lemma nat_string_spec n :
  0 <= n -> nat_string n <> "" /\ sall digit (nat_string n) = true /\ digits_val 0 (nat_string n) = n.
Proof.
  intros Hn. unfold nat_string.
  destruct (dec_loop_spec (S (Z.to_nat (Z.log2 n))) n "") as (ds & -> & ?); [lia | lia |].
  by rewrite sapp_nil_r.
Qed.

Lemma digits_prefix_all s : sall digit s = true -> digits_prefix s = s.
Proof.
  induction s as [|a s IH]; cbn; [done|]. intros H. apply andb_true_iff in H as [-> H].
  by rewrite IH.
Qed.

Lemma digit_code a : digit a = true -> 48 <= code a <= 57.
Proof. unfold digit. intros H. bool_to_Z. lia. Qed.

Lemma digit_not_space a : digit a = true -> space a = false.
Proof.
  intros H. apply digit_code in H. unfold space.
  repeat (apply orb_false_iff; split); [apply andb_false_iff|..]; lia.
Qed.

Lemma parseInt_nat_string n : 0 <= n -> parseInt (nat_string n) = Some n.
Proof.
  intros Hn. destruct (nat_string_spec n Hn) as (Hne & Hall & Hv). unfold parseInt.
  destruct (nat_string n) as [|a s] eqn:E; [done|].
  pose proof Hall as Ha. cbn in Ha. apply andb_true_iff in Ha as [Ha _].
  cbn [trimStart]. rewrite (digit_not_space a Ha). apply digit_code in Ha.
  rewrite (proj2 (Z.eqb_neq (code a) 45)), (proj2 (Z.eqb_neq (code a) 43)) by lia.
  rewrite digits_prefix_all by done. f_equal. lia.
Qed.

Lemma parseInt_Z_string n : parseInt (Z_string n) = Some n.
Proof.
  unfold Z_string. destruct (Z.ltb_spec n 0); [|by apply parseInt_nat_string].
  destruct (nat_string_spec (- n)) as (Hne & Hall & Hv); [lia|].
  unfold parseInt. change (trimStart ("-" +:+ nat_string (- n))) with ("-" +:+ nat_string (- n)).
  change ("-" +:+ nat_string (- n)) with (String "-" (nat_string (- n))).
  cbv beta iota. change (code "-" =? 45) with true. cbv iota.
  rewrite digits_prefix_all by done.
  destruct (nat_string (- n)) as [|a s] eqn:E; [done|]. f_equal. lia.
Qed.

Lemma Z_string_nonempty n : Z_string n <> "".
Proof. intros H. pose proof (parseInt_Z_string n) as P. by rewrite H in P. Qed.

Lemma Z_string_inj n m : Z_string n = Z_string m -> n = m.
Proof.
  intros H. pose proof (parseInt_Z_string n) as P. rewrite H, parseInt_Z_string in P. congruence.
Qed.

(** A numeral has no superfluous leading zero. *)
Lemma dec_loop_head fuel n acc :
  0 < n -> (Z.to_nat (Z.log2 n) < fuel)%nat ->
  exists a s, dec_loop fuel n acc = String a s /\ code a <> 48.
Proof.
  revert n acc. induction fuel as [|f IH]; intros n acc Hn Hf; [lia|]. cbn [dec_loop].
  destruct (Z.ltb_spec n 10) as [Hlt|Hge].
  - eexists _, _. split; [done|]. rewrite Z.mod_small, code_of_code by lia. lia.
  - apply IH; [apply Z.div_str_pos; lia|].
    assert (Z.log2 (n / 10) <= Z.log2 (n / 2)) by (apply Z.log2_le_mono, Z.div_le_compat_l; lia).
    assert (1 < n / 2 \/ n / 2 = 1) as Hc by (assert (5 <= n / 2) by (apply Z.div_le_lower_bound; lia); lia).
    assert (Z.log2 (n / 2) < Z.log2 n); [|pose proof (Z.log2_nonneg (n / 10)); lia].
    rewrite <- Z.shiftr_div_pow2 with (n := 1) by lia.
    rewrite Z.log2_shiftr by (lia || done). pose proof (Z.log2_le_mono 2 n ltac:(lia)) as H2.
    change (Z.log2 2) with 1 in H2. lia.
Qed.

(** ** [Number(s)] of a text

    [Some n] when the value is the integer [n], exactly; [None] for NaN,
    infinity and values with a fraction. *)

Definition digits_suffix (s : string) : string := slice (String.length (digits_prefix s)) s.

Definition sign_of (s : string) : Z * string :=
  match s with
  | String a r => if code a =? 45 then (-1, r) else if code a =? 43 then (1, r) else (1, s)
  | "" => (1, s)
  end.

Definition hex_val (a : ascii) : option Z :=
  let c := code a in
  if (48 <=? c) && (c <=? 57) then Some (c - 48)
  else if (97 <=? c) && (c <=? 102) then Some (c - 87)
  else if (65 <=? c) && (c <=? 70) then Some (c - 55)
  else None.

Fixpoint radix_val (radix v : Z) (s : string) : option Z :=
  match s with
  | "" => Some v
  | String a r =>
      match hex_val a with
      | Some d => if d <? radix then radix_val radix (v * radix + d) r else None
      | None => None
      end
  end.

(** [m * 10 ^ k]. *)
Definition scaled (m k : Z) : option Z :=
  if 0 <=? k then Some (m * 10 ^ k)
  else if m mod 10 ^ (- k) =? 0 then Some (m / 10 ^ (- k)) else None.

Definition decimal_value (s : string) : option Z :=
  let '(sg, s) := sign_of s in
  let ip := digits_prefix s in
  let r := digits_suffix s in
  let '(fp, r) := match r with
                  | String a r' => if code a =? 46 then (digits_prefix r', digits_suffix r') else ("", r)
                  | "" => ("", r)
                  end in
  if String.eqb (ip +:+ fp) "" then None
  else
    let m := sg * digits_val 0 (ip +:+ fp) in
    let k := - Z.of_nat (String.length fp) in
    match r with
    | "" => scaled m k
    | String a r' =>
        if (code a =? 101) || (code a =? 69) then
          let '(esg, ds) := sign_of r' in
          if String.eqb ds "" then None
          else if sall digit ds then scaled m (k + esg * digits_val 0 ds) else None
        else None
    end.

Definition Number_integer (s : string) : option Z :=
  let s := trim s in
  match s with
  | "" => Some 0
  | String z (String x r) =>
      let c := code x in
      if (code z =? 48) && ((c =? 120) || (c =? 88)) then
        if String.eqb r "" then None else radix_val 16 0 r
      else if (code z =? 48) && ((c =? 111) || (c =? 79)) then
        if String.eqb r "" then None else radix_val 8 0 r
      else if (code z =? 48) && ((c =? 98) || (c =? 66)) then
        if String.eqb r "" then None else radix_val 2 0 r
      else decimal_value s
  | _ => decimal_value s
  end.

Example Number_examples :
  map Number_integer ["12"; " -7 "; "1e3"; "12.50e1"; "1.5"; "0x1F"; ""; "12a"; "."]
  = [Some 12; Some (-7); Some 1000; Some 125; None; Some 31; Some 0; None; None].
Proof. reflexivity. Qed.

(** ** Trimming *)

Lemma srev_acc_app s t acc : srev_acc (s +:+ t) acc = srev_acc t (srev_acc s acc).
Proof. revert acc. induction s as [|a s IH]; intros acc; [done|]. rewrite sapp_cons. cbn. apply IH. Qed.

Lemma srev_acc_acc s acc : srev_acc s acc = srev_acc s "" +:+ acc.
Proof.
  revert acc. induction s as [|a s IH]; intros acc; [done|]. cbn. rewrite IH, (IH (String a "")).
  by rewrite sapp_assoc.
Qed.

Lemma srev_cons a s : srev (String a s) = srev s +:+ String a "".
Proof. unfold srev. cbn. apply srev_acc_acc. Qed.

Lemma srev_involutive s : srev (srev s) = s.
Proof.
  induction s as [|a s IH]; [done|]. rewrite srev_cons. unfold srev at 1. rewrite srev_acc_app.
  cbn. change (srev_acc (srev s) "") with (srev (srev s)). by rewrite IH.
Qed.

Lemma sall_srev f s : sall f (srev s) = sall f s.
Proof.
  induction s as [|a s IH]; [done|]. rewrite srev_cons, sall_app, IH. cbn.
  rewrite andb_true_r. apply andb_comm.
Qed.

Definition no_space (s : string) : bool := sall (fun a => negb (space a)) s.

Lemma trimStart_id s : no_space s = true -> trimStart s = s.
Proof. destruct s as [|a s]; [done|]. cbn. by destruct (space a). Qed.

Lemma trim_id s : no_space s = true -> trim s = s.
Proof.
  intros H. unfold trim. rewrite (trimStart_id s H).
  rewrite trimStart_id; [apply srev_involutive|]. unfold no_space. by rewrite sall_srev.
Qed.

Lemma sall_weaken (f g : ascii -> bool) s :
  (forall a, f a = true -> g a = true) -> sall f s = true -> sall g s = true.
Proof.
  intros H. induction s as [|a s IH]; [done|]. cbn. rewrite !andb_true_iff. intros [Ha Hs]. auto.
Qed.

Lemma sall_no_char f c s : f c = false -> sall f s = true -> has_char c s = false.
Proof.
  intros Hc. induction s as [|a s IH]; [done|]. cbn. rewrite andb_true_iff. intros [Ha Hs].
  apply orb_false_iff. split; [|by apply IH]. apply Ascii.eqb_neq. intros ->. congruence.
Qed.

(** ** [Number(String(n))] *)

Definition digit_or_minus (a : ascii) : bool := digit a || (code a =? 45).

Lemma nat_string_digits n : 0 <= n -> sall digit (nat_string n) = true.
Proof. intros Hn. by destruct (nat_string_spec n Hn) as (_ & ? & _). Qed.

Lemma Z_string_chars n : sall digit_or_minus (Z_string n) = true.
Proof.
  assert (Hd : forall a, digit a = true -> digit_or_minus a = true)
    by (intros a Ha; unfold digit_or_minus; by rewrite Ha).
  unfold Z_string. destruct (Z.ltb_spec n 0).
  - change ("-" +:+ nat_string (- n)) with (String "-" (nat_string (- n))). cbn [sall].
    apply andb_true_iff. split; [done|]. eapply sall_weaken, nat_string_digits; [exact Hd | lia].
  - eapply sall_weaken, nat_string_digits; [exact Hd | lia].
Qed.

Lemma digit_or_minus_not_space a : digit_or_minus a = true -> negb (space a) = true.
Proof.
  unfold digit_or_minus. rewrite orb_true_iff, Z.eqb_eq, negb_true_iff. intros [H|H].
  - by apply digit_not_space.
  - unfold space. by rewrite H.
Qed.

Lemma slice_all s : slice (String.length s) s = "".
Proof. induction s; done. Qed.

Lemma scaled_0 m : scaled m 0 = Some m.
Proof. unfold scaled. cbn [Z.leb Z.compare]. f_equal. change (10 ^ 0) with 1. lia. Qed.

(** A run of digits after the sign. *)
Lemma decimal_digits sg ds s :
  sign_of s = (sg, ds) -> ds <> "" -> sall digit ds = true -> decimal_value s = Some (sg * digits_val 0 ds).
Proof.
  intros Hs Hne Hd. unfold decimal_value, digits_suffix. rewrite Hs.
  rewrite (digits_prefix_all ds Hd), slice_all. cbn [String.length].
  rewrite sapp_nil_r, (proj2 (String.eqb_neq ds "") Hne). apply scaled_0.
Qed.

Lemma sign_of_digit a s : digit a = true -> sign_of (String a s) = (1, String a s).
Proof.
  intros Ha. apply digit_code in Ha. unfold sign_of.
  by rewrite (proj2 (Z.eqb_neq _ _)), (proj2 (Z.eqb_neq _ _)) by lia.
Qed.

(** No radix prefix: the second character of a run of digits is a digit. *)
Lemma Number_digits a ds :
  digit_or_minus a = true -> sall digit ds = true ->
  Number_integer (String a ds) = decimal_value (String a ds).
Proof.
  intros Ha Hd. unfold Number_integer. rewrite trim_id.
  2: { cbn. rewrite digit_or_minus_not_space by done. eapply sall_weaken; [|exact Hd].
       intros b Hb. apply digit_or_minus_not_space. unfold digit_or_minus. by rewrite Hb. }
  destruct ds as [|b ds]; [done|]. cbn in Hd. apply andb_true_iff in Hd as [Hb _].
  apply digit_code in Hb.
  rewrite !(proj2 (Z.eqb_neq (code b) _)) by lia. cbn. by rewrite !andb_false_r.
Qed.

Lemma Number_Z_string n : Number_integer (Z_string n) = Some n.
Proof.
  unfold Z_string. destruct (Z.ltb_spec n 0) as [Hn|Hn].
  - destruct (nat_string_spec (- n)) as (Hne & Hd & Hv); [lia|].
    change ("-" +:+ nat_string (- n)) with (String "-" (nat_string (- n))).
    rewrite Number_digits by done. rewrite (decimal_digits (-1) (nat_string (- n))) by done.
    rewrite Hv. f_equal. lia.
  - destruct (nat_string_spec n) as (Hne & Hd & Hv); [lia|].
    destruct (nat_string n) as [|a ds] eqn:E; [done|].
    pose proof Hd as Hd'. cbn in Hd'. apply andb_true_iff in Hd' as [Ha Hd'].
    rewrite Number_digits by (done || unfold digit_or_minus; by rewrite Ha).
    rewrite (decimal_digits 1 (String a ds)) by (done || by apply sign_of_digit).
    rewrite Hv. f_equal. lia.
Qed.
