(* ===== verification/Gateway.v ===== *)
(** * The gateway's effects: errors, messages, requests and replies

    The gateway talks to Redis, to the CA, KDC and Bank services over gRPC, to
    the mail queue, the clock and the random generator. Each call is an event
    whose reply may be a rejection; nothing is assumed about the replies here. *)

From S2P Require Import Prelude JsString JsDate Effects.

Open Scope Z_scope.

(** ** Errors *)

(** The status names of [@grpc/grpc-js] that the code mentions. *)
Inductive grpcStatus :=
| INVALID_ARGUMENT
| DEADLINE_EXCEEDED
| NOT_FOUND
| ALREADY_EXISTS
| PERMISSION_DENIED
| RESOURCE_EXHAUSTED
| FAILED_PRECONDITION
| UNAVAILABLE
| UNAUTHENTICATED
| OtherStatus (n : Z).

#[export] Instance grpcStatus_eq_dec : EqDecision grpcStatus.
Proof. solve_decision. Defined.

(** An exception value: the fields that the handlers look at. [None] is a field
    that is absent or has another type. [err_activation] is the [code] of an
    [AdminActivationError], a string where a gRPC error has a number. *)
Record js_error := {
  err_code : option grpcStatus;
  err_details : option string;
  err_message : option string;
  err_meta_code : option string;
  err_status : option Z;
  err_error_code : option string;
  err_name : string;
  err_activation : option string
}.

(** [new Error(message)]. *)
Definition plain_error (message : string) : js_error :=
  {| err_code := None; err_details := None; err_message := Some message; err_meta_code := None;
     err_status := None; err_error_code := None; err_name := "Error"; err_activation := None |}.

(** [a || b] on optional strings: absent and empty are falsy. *)
Definition or_else (a : option string) (b : string) : string :=
  match a with Some s => str_or s b | None => b end.

(** [err?.details || err?.message || fallback]. *)
Definition error_text (err : js_error) (fallback : string) : string :=
  or_else (err_details err) (or_else (err_message err) fallback).

(** ** JSON values *)

(** [JDec] is a number that is not an integer, as its decimal literal. *)
Inductive json :=
| JUndefined
| JNull
| JBool (b : bool)
| JNum (n : Z)
| JDec (literal : string)
| JStr (s : string)
| JArr (l : list json)
| JObj (fields : list (string * json)).

(** The value of an own property, the last one written. *)
Fixpoint field (name : string) (l : list (string * json)) : option json :=
  match l with
  | [] => None
  | (k, v) :: l' =>
      match field name l' with
      | Some w => Some w
      | None => if String.eqb k name then Some v else None
      end
  end.

(** ** Requests and outcomes *)

(** What a handler reads of an Express request. The routes run
    [validateHeaders] first, so [request_id] is a non-empty header value. *)
Record Request := {
  request_id : string;
  authorization : option string;
  cookie : option string;
  ip : option string;
  remoteAddress : option string;
  body : json;
  query : list (string * json);
  params : list (string * string)
}.

Inductive payload := Json (j : json) | Text (s : string).

(** A response, or the call [next(err)] with the headers set so far. *)
Inductive outcome :=
| Respond (headers : list (string * string)) (status : Z) (p : payload)
| NextError (headers : list (string * string)) (e : js_error).

Definition respond (status : Z) (fields : list (string * json)) : outcome :=
  Respond [] status (Json (JObj fields)).

(** [res.set(name, value)] before the rest of a handler. *)
Definition with_header (name value : string) (o : outcome) : outcome :=
  match o with
  | Respond hs s p => Respond ((name, value) :: hs) s p
  | NextError hs e => NextError ((name, value) :: hs) e
  end.

Definition outcome_status (o : outcome) : option Z :=
  match o with Respond _ s _ => Some s | NextError _ _ => None end.

(** gRPC metadata: name and value. *)
Definition Metadata := list (string * string).

(** ** Messages of the CA service ([proto/ca]) *)

Inductive CertStatus := CERT_STATUS_UNKNOWN | CERT_STATUS_ACTIVE | CERT_STATUS_REVOKED | CERT_STATUS_EXPIRED | CertStatus_UNRECOGNIZED.

#[export] Instance CertStatus_eq_dec : EqDecision CertStatus.
Proof. solve_decision. Defined.

Inductive IdentityRole := IDENTITY_ROLE_UNKNOWN | IDENTITY_ROLE_CUSTOMER | IDENTITY_ROLE_BANK_ADMIN | IDENTITY_ROLE_CA_ADMIN | IdentityRole_UNRECOGNIZED.

#[export] Instance IdentityRole_eq_dec : EqDecision IdentityRole.
Proof. solve_decision. Defined.

Record RegisterUserRequest := {
  ru_csrPem : string; ru_ownerId : string; ru_subjectEmail : string; ru_fullName : string;
  ru_role : IdentityRole
}.

Record RegisterUserResponse := {
  certificatePem : string; serialNumber : string; notBeforeUnix : Z; notAfterUnix : Z;
  chainPem : string
}.

Record VerifyCertificateRequest := {
  vr_serialNumber : string; vr_caller : string; vr_includeCertificatePem : bool;
  vr_includePublicKeyPem : bool
}.

Record VerifyCertificateResponse := {
  vc_status : CertStatus; vc_ownerId : string; vc_subjectEmail : string; vc_publicKeyPem : string;
  vc_role : IdentityRole
}.

Record CertificateMetadata := {
  cm_serialNumber : string; cm_ownerId : string; cm_subjectCn : string; cm_subjectEmail : string;
  cm_fingerprintSha256 : string; cm_status : CertStatus; cm_notBeforeUnix : Z; cm_notAfterUnix : Z;
  cm_issuedAtUnix : Z; cm_revokedAtUnix : Z; cm_revocationReason : string; cm_certType : string;
  cm_issuerId : string; cm_issuerCommonName : string; cm_issuerSerialNumber : string;
  cm_chainPem : string; cm_chainFingerprints : list string; cm_isCa : bool;
  cm_keyUsage : list string; cm_extendedKeyUsage : list string
}.

Record ListCertificatesRequest := {
  lc_status : string; lc_certType : string; lc_issuerId : string; lc_ownerId : string;
  lc_subjectEmail : string; lc_serialNumber : string; lc_limit : Z; lc_offset : Z;
  lc_performedBy : string
}.

Record ListCertificatesResponse := {
  lc_certificates : list CertificateMetadata; lc_total : Z; lc_resLimit : Z; lc_resOffset : Z
}.

Record RevokeCertificateRequest := {
  rv_serialNumber : string; rv_reason : string; rv_performedBy : string
}.

Record AppendAuditEventRequest := {
  ae_action : string; ae_serialNumber : string; ae_performedBy : string; ae_reason : string;
  ae_metadata : list (string * string)
}.

Record CaAuditRequest := {
  ca_action : string; ca_serialNumber : string; ca_performedByFilter : string; ca_requestId : string;
  ca_fromUnix : Z; ca_toUnix : Z; ca_limit : Z; ca_offset : Z; ca_performedBy : string
}.

Record CaAuditRecord := {
  ca_recSerial : string; ca_recCertType : string; ca_recIssuerId : string; ca_recAction : string;
  ca_recPerformedBy : string; ca_recReason : string; ca_recAt : Z;
  ca_recMetadata : list (string * string)
}.

(** ** Messages of the KDC ([proto/kdc]) and of the Bank ([proto/bank]) *)

Record ASRequest := {
  as_ownerId : string; as_certSn : string; as_nonce : list Z; as_timestamp : Z; as_signature : list Z
}.

Record ASResponse := { asRep : list Z; tgtExpiresAtUnix : Z }.

Record TGSRequest := {
  tgs_tgt : list Z; tgs_authenticator : list Z; tgs_certSn : string; tgs_scope : string;
  tgs_serviceId : string; tgs_nonce : list Z
}.

Record TGSResponse := { tgsRep : list Z; ticketExpiresAtUnix : Z }.

Record CreateUserRequest := { cu_userId : string; cu_subjectEmail : string; cu_fullName : string }.

Record TransferRequest := {
  tr_ticketV : list Z; tr_authenticator : list Z; tr_cipherPayload : list Z; tr_iv : list Z
}.

Record TransferResponse := { tr_apRep : list Z; tr_transactionId : string }.

Record BalanceRequest := {
  bal_ticketV : list Z; bal_authenticator : list Z; bal_accountId : string
}.

Record BalanceResponse := {
  bal_apRep : list Z; bal_resAccountId : string; bal_accountNumber : string; bal_balance : Z;
  bal_currency : string; bal_status : Z
}.

Record HistoryRequest := {
  hi_ticketV : list Z; hi_authenticator : list Z; hi_accountId : string;
  hi_limit : option Z; hi_offset : option Z
}.

Record Transaction := {
  tx_id : string; tx_from : string; tx_to : string; tx_amount : Z; tx_currency : string;
  tx_status : Z; tx_description : string; tx_scope : string; tx_createdAtUnix : Z;
  tx_completedAtUnix : Z
}.

Record HistoryResponse := {
  hi_apRep : list Z; hi_transactions : list Transaction; hi_total : Z; hi_resLimit : Z;
  hi_resOffset : Z
}.

Record KdcAuditRequest := {
  kdc_action : string; kdc_clientId : string; kdc_certSerial : string; kdc_requestId : string;
  kdc_fromUnix : Z; kdc_toUnix : Z; kdc_limit : Z; kdc_offset : Z
}.

Record KdcAuditRecord := {
  kdc_recId : string; kdc_recAction : string; kdc_recClientId : string; kdc_recCertSerial : string;
  kdc_recScope : string; kdc_recReason : string; kdc_recRequestId : string; kdc_recIp : string;
  kdc_recMetadataJson : string; kdc_recAt : Z
}.

Inductive BankAuditAction :=
| BANK_AUDIT_ACTION_UNKNOWN
| BANK_AUDIT_ACTION_TRANSFER_COMPLETED
| BANK_AUDIT_ACTION_TRANSFER_REJECTED
| BANK_AUDIT_ACTION_REPLAY_DETECTED
| BANK_AUDIT_ACTION_INVALID_SIGNATURE
| BANK_AUDIT_ACTION_CERTIFICATE_REJECTED
| BANK_AUDIT_ACTION_FORBIDDEN_OWNERSHIP
| BANK_AUDIT_ACTION_INSUFFICIENT_FUNDS
| BankAuditAction_UNRECOGNIZED.

Record BankAuditRequest := {
  bank_action : BankAuditAction; bank_userId : string; bank_certSerial : string;
  bank_requestId : string; bank_fromUnix : Z; bank_toUnix : Z; bank_limit : Z; bank_offset : Z;
  bank_adminSessionToken : string
}.

Record BankAuditRecord := {
  bank_recId : string; bank_recAction : BankAuditAction; bank_recUserId : string;
  bank_recAccountId : string; bank_recTransactionId : string; bank_recCertSerial : string;
  bank_recRequestId : string; bank_recReason : string; bank_recMetadataJson : string; bank_recAt : Z
}.

(** A page of a list call. *)
Record page (A : Type) := { events : list A; total : Z; res_limit : Z; res_offset : Z }.
Arguments events {A}.
Arguments total {A}.
Arguments res_limit {A}.
Arguments res_offset {A}.

Record VerifyAuditChainResponse := {
  va_ok : bool; va_checked : Z; va_brokenSeq : Z; va_brokenId : string; va_detail : string
}.

(** ** Messages of the Bank's admin API *)

Record CreateAdminSessionRequest := { cas_ticketV : list Z; cas_authenticator : list Z }.

Record CreateAdminSessionResponse := {
  cas_apRep : list Z; cas_sessionToken : string; cas_expiresAtUnix : Z; cas_adminId : string;
  cas_role : string
}.

Record AdminOverviewResponse := {
  ov_totalUsers : Z; ov_activeUsers : Z; ov_totalAccounts : Z; ov_totalBalance : Z;
  ov_totalTransactions : Z; ov_completedTransactions : Z; ov_failedTransactions : Z;
  ov_auditEvents24h : Z
}.

Record ListAdminUsersRequest := {
  lu_email : string; lu_status : Z; lu_limit : Z; lu_offset : Z; lu_adminSessionToken : string
}.

Record AdminUser := {
  us_userId : string; us_email : string; us_fullName : string; us_status : Z; us_accountCount : Z;
  us_totalBalance : Z; us_createdAtUnix : Z
}.

Record AdminAccount := {
  ac_accountId : string; ac_accountNumber : string; ac_balance : Z; ac_currency : string;
  ac_status : Z; ac_createdAtUnix : Z
}.

Record ListAdminTransactionsRequest := {
  lt_accountId : string; lt_status : Z; lt_fromUnix : Z; lt_toUnix : Z; lt_limit : Z;
  lt_offset : Z; lt_adminSessionToken : string
}.

Record AdminTransaction := {
  at_transactionId : string; at_from : string; at_to : string; at_amount : Z; at_currency : string;
  at_status : Z; at_description : string; at_certSerial : string; at_currentHash : string;
  at_createdAtUnix : Z
}.

(** ** Requests and replies *)

(** A write inside [multi ... exec]. *)
Inductive redis_write :=
| WSet (key value : string)
| WSetEx (key value : string) (seconds : Z)
| WDel (key : string).

(** What [transporter.sendMail] of nodemailer gets; texts in UTF-16 units. *)
Record MailOptions := {
  mo_from : list Z; mo_to : list Z; mo_subject : list Z; mo_text : option (list Z); mo_html : list Z
}.

Inductive event :=
| RedisGet (key : string)
| RedisSetEx (key value : string) (seconds : Z)
| RedisIncr (key : string)
| RedisExpire (key : string) (seconds : Z)
| RedisTtl (key : string)
| RedisDel (key : string)
| RedisMulti (writes : list redis_write)
| DateNow
| RandomUUID
| RandomInt (lo hi : Z)
| RandomToken (bytes : Z)
| MailAdd (to otp : string)
| SmtpSend (options : MailOptions)
| CaRegisterUser (req : RegisterUserRequest) (md : Metadata)
| CaVerifyCertificate (req : VerifyCertificateRequest)
| CaRevokeCertificate (req : RevokeCertificateRequest) (md : Metadata)
| CaListCertificates (req : ListCertificatesRequest) (md : Metadata)
| CaGetCertificate (serial performedBy : string) (md : Metadata)
| CaAppendAudit (ev : AppendAuditEventRequest) (md : Metadata)
| CaListAudit (req : CaAuditRequest) (md : Metadata)
| CaVerifyChain (md : Metadata)
| KdcRequestTgt (req : ASRequest) (md : Metadata)
| KdcRequestServiceTicket (req : TGSRequest) (md : Metadata)
| KdcListAudit (req : KdcAuditRequest) (md : Metadata)
| KdcVerifyChain (md : Metadata)
| BankCheckUserEmail (email : string) (md : Metadata)
| BankCreateUser (req : CreateUserRequest) (md : Metadata)
| BankTransfer (req : TransferRequest) (md : Metadata)
| BankGetBalance (req : BalanceRequest) (md : Metadata)
| BankGetHistory (req : HistoryRequest) (md : Metadata)
| BankCreateSession (req : CreateAdminSessionRequest)
| BankOverview (adminSessionToken : string)
| BankListUsers (req : ListAdminUsersRequest)
| BankListAccounts (userId adminSessionToken : string)
| BankListTransactions (req : ListAdminTransactionsRequest)
| BankListAudit (req : BankAuditRequest)
| BankVerifyChain (adminSessionToken : string).

#[export] Instance event_container : Container event := fun e =>
  match e with
  | RedisGet _ => result js_error (option string)
  | RedisIncr _ | RedisTtl _ => result js_error Z
  | RedisSetEx _ _ _ | RedisExpire _ _ | RedisDel _ | RedisMulti _ => result js_error unit
  | DateNow | RandomInt _ _ => Z
  | RandomUUID | RandomToken _ => string
  | MailAdd _ _ => unit
  | SmtpSend _ => result js_error unit
  | CaRegisterUser _ _ => result js_error RegisterUserResponse
  | CaVerifyCertificate _ => result js_error VerifyCertificateResponse
  | CaRevokeCertificate _ _ | CaGetCertificate _ _ _ =>
      result js_error (option CertificateMetadata)
  | CaListCertificates _ _ => result js_error ListCertificatesResponse
  | CaAppendAudit _ _ => result js_error unit
  | CaListAudit _ _ => result js_error (page CaAuditRecord)
  | CaVerifyChain _ | KdcVerifyChain _ | BankVerifyChain _ =>
      result js_error VerifyAuditChainResponse
  | KdcRequestTgt _ _ => result js_error ASResponse
  | KdcRequestServiceTicket _ _ => result js_error TGSResponse
  | KdcListAudit _ _ => result js_error (page KdcAuditRecord)
  | BankCheckUserEmail _ _ => result js_error bool
  | BankCreateUser _ _ => result js_error unit
  | BankTransfer _ _ => result js_error TransferResponse
  | BankGetBalance _ _ => result js_error BalanceResponse
  | BankGetHistory _ _ => result js_error HistoryResponse
  | BankCreateSession _ => result js_error CreateAdminSessionResponse
  | BankOverview _ => result js_error AdminOverviewResponse
  | BankListUsers _ => result js_error (page AdminUser)
  | BankListAccounts _ _ => result js_error (list AdminAccount)
  | BankListTransactions _ => result js_error (page AdminTransaction)
  | BankListAudit _ => result js_error (page BankAuditRecord)
  end.

Abbreviation gw := (prog event js_error).
Abbreviation gw_trace := (trace (E := event)).

(** ** Redis ([config/ioredis.ts]), the clock, the random generator, the queue *)

Definition redis_get (key : string) : gw (option string) := Vis (RedisGet key) of_result.
Definition redis_set_ex (key value : string) (seconds : Z) : gw unit :=
  Vis (RedisSetEx key value seconds) of_result.
Definition redis_incr (key : string) : gw Z := Vis (RedisIncr key) of_result.
Definition redis_expire (key : string) (seconds : Z) : gw unit := Vis (RedisExpire key seconds) of_result.
Definition redis_ttl (key : string) : gw Z := Vis (RedisTtl key) of_result.
Definition redis_del (key : string) : gw unit := Vis (RedisDel key) of_result.
Definition redis_multi (writes : list redis_write) : gw unit := Vis (RedisMulti writes) of_result.

Definition date_now : gw Z := Vis DateNow Ret.
Definition random_uuid : gw string := Vis RandomUUID Ret.
Definition random_int (lo hi : Z) : gw Z := Vis (RandomInt lo hi) Ret.
Definition random_token (n : Z) : gw string := Vis (RandomToken n) Ret.

(** [mailQueue.add(...).catch(...)]: not awaited, its failure only logged. *)
Definition mail_add (to otp : string) : gw unit := Vis (MailAdd to otp) Ret.

(** [RedisKeys]. *)
Module RedisKeys.
Definition OTP : string := "otp:val:".
Definition IP_RATE_LIMIT : string := "rate:as:".
Definition CERT_RATE_LIMIT : string := "rate:tgs:".
Definition EMAIL_RATE_LIMIT : string := "rate:otp:".
Definition BANK_RATE_LIMIT : string := "rate:bank:".
Definition OTP_FAILED : string := "rate:verify:".
Definition REG_TOKEN : string := "`jwt_used:".
End RedisKeys.

(** ** The client functions of [services/*.service.ts] *)

Definition requestMetadata (requestId : option string) : Metadata :=
  match requestId with
  | Some id => if String.eqb id "" then [] else [("x-request-id", id)]
  | None => []
  end.

Definition registerUser (req : RegisterUserRequest) (requestId : option string)
    : gw RegisterUserResponse :=
  Vis (CaRegisterUser req (requestMetadata requestId)) of_result.
Definition verifyCertificate (req : VerifyCertificateRequest) : gw VerifyCertificateResponse :=
  Vis (CaVerifyCertificate req) of_result.
Definition revokeCertificate (req : RevokeCertificateRequest) (requestId : option string)
    : gw (option CertificateMetadata) :=
  Vis (CaRevokeCertificate req (requestMetadata requestId)) of_result.
Definition listCertificates (req : ListCertificatesRequest) (requestId : option string)
    : gw ListCertificatesResponse :=
  Vis (CaListCertificates req (requestMetadata requestId)) of_result.
Definition getCertificateDetail (serial performedBy : string) (requestId : option string)
    : gw (option CertificateMetadata) :=
  Vis (CaGetCertificate serial performedBy (requestMetadata requestId)) of_result.
Definition appendCaAuditEvent (ev : AppendAuditEventRequest) (requestId : option string)
    : gw unit :=
  Vis (CaAppendAudit ev (requestMetadata requestId)) of_result.
Definition listCaAuditEvents (req : CaAuditRequest) (requestId : option string)
    : gw (page CaAuditRecord) :=
  Vis (CaListAudit req (requestMetadata requestId)) of_result.
Definition verifyCaAuditChain (requestId : option string) : gw VerifyAuditChainResponse :=
  Vis (CaVerifyChain (requestMetadata requestId)) of_result.

Definition requestTgt (req : ASRequest) (requestId : option string) : gw ASResponse :=
  Vis (KdcRequestTgt req (requestMetadata requestId)) of_result.
Definition requestServiceTicket (req : TGSRequest) (requestId : option string) : gw TGSResponse :=
  Vis (KdcRequestServiceTicket req (requestMetadata requestId)) of_result.
Definition listKdcAuditEvents (req : KdcAuditRequest) (requestId : option string)
    : gw (page KdcAuditRecord) :=
  Vis (KdcListAudit req (requestMetadata requestId)) of_result.
Definition verifyKdcAuditChain (requestId : option string) : gw VerifyAuditChainResponse :=
  Vis (KdcVerifyChain (requestMetadata requestId)) of_result.

Definition checkUserEmail (email : string) (requestId : option string) : gw bool :=
  Vis (BankCheckUserEmail email (requestMetadata requestId)) of_result.
Definition createUserBankAccount (req : CreateUserRequest) (requestId : option string) : gw unit :=
  Vis (BankCreateUser req (requestMetadata requestId)) of_result.
Definition transferMoney (req : TransferRequest) (requestId : option string)
    : gw TransferResponse :=
  Vis (BankTransfer req (requestMetadata requestId)) of_result.
Definition getBalance (req : BalanceRequest) (requestId : option string) : gw BalanceResponse :=
  Vis (BankGetBalance req (requestMetadata requestId)) of_result.
Definition getHistory (req : HistoryRequest) (requestId : option string) : gw HistoryResponse :=
  Vis (BankGetHistory req (requestMetadata requestId)) of_result.

Definition createBankAdminSession (req : CreateAdminSessionRequest)
    : gw CreateAdminSessionResponse :=
  Vis (BankCreateSession req) of_result.
Definition getBankAdminOverview (token : string) : gw AdminOverviewResponse :=
  Vis (BankOverview token) of_result.
Definition listBankAdminUsers (req : ListAdminUsersRequest) : gw (page AdminUser) :=
  Vis (BankListUsers req) of_result.
Definition listBankAdminUserAccounts (userId token : string) : gw (list AdminAccount) :=
  Vis (BankListAccounts userId token) of_result.
Definition listBankAdminTransactions (req : ListAdminTransactionsRequest)
    : gw (page AdminTransaction) :=
  Vis (BankListTransactions req) of_result.
Definition listBankAdminAuditEvents (req : BankAuditRequest) : gw (page BankAuditRecord) :=
  Vis (BankListAudit req) of_result.
Definition verifyBankAuditChain (token : string) : gw VerifyAuditChainResponse :=
  Vis (BankVerifyChain token) of_result.

(** [recordRaAudit]: best effort, a rejection is logged and swallowed. The
    handlers call it as [void recordRaAudit(...)], so its end is not observed. *)
Definition recordRaAudit (action : string) (serial : option string) (performedBy : string)
    (reason : option string) (metadata : list (string * string)) (requestId : option string)
    : gw unit :=
  catch
    (appendCaAuditEvent
       {| ae_action := action; ae_serialNumber := default "" serial; ae_performedBy := performedBy;
          ae_reason := default "" reason; ae_metadata := metadata |} requestId)
    (fun _ => Ret tt).

(** ** Shared response parts *)

(** [new Date(ms).toISOString()] raises [RangeError] outside the range of dates. *)
Definition iso_of (ms : Z) : result js_error string :=
  match toISOString ms with
  | Some s => Ok s
  | None => Err (plain_error "Invalid time value")
  end.

Definition iso_now : gw string := let* now := date_now in of_result (iso_of now).

(** [Math.floor(Date.now() / 1000)]. *)
Definition now_seconds : gw Z := let* now := date_now in Ret (now / 1000).

(** [meta(req)]. *)
Definition meta (req : Request) : gw (list (string * json)) :=
  let* ts := iso_now in
  Ret [("request_id", JStr (request_id req)); ("timestamp", JStr ts)].

Definition fail_body (error_code message : string) (m : list (string * json))
    : list (string * json) :=
  [("success", JBool false); ("error_code", JStr error_code); ("message", JStr message)] ++ m.

(** [httpError(status, error_code, message)]: a plain object. *)
Definition httpError (status : Z) (error_code message : string) : js_error :=
  {| err_code := None; err_details := None; err_message := Some message; err_meta_code := None;
     err_status := Some status; err_error_code := Some error_code; err_name := "";
     err_activation := None |}.

(** A middleware ends the request, or calls [next()] leaving [a] to the rest. *)
Definition middleware (A : Type) := gw (result outcome A).

Definition andThen {A} (m : middleware A) (k : A -> gw outcome) : gw outcome :=
  let* r := m in match r with Ok a => k a | Err o => Ret o end.

Notation "'use!' x := m 'in' k" := (andThen m (fun x => k))
  (at level 10, x pattern, m at level 100, k at level 200) : js_scope.

(** ** Values of the request *)

(** [String(value)] of a JSON value; an object has no [toString] of its own. *)
Fixpoint js_String (j : json) : string :=
  match j with
  | JUndefined => "undefined"
  | JNull => "null"
  | JBool b => if b then "true" else "false"
  | JNum n => Z_string n
  | JDec literal => literal
  | JStr s => s
  | JArr l =>
      sjoin "," (map (fun j => match j with JUndefined | JNull => "" | _ => js_String j end) l)
  | JObj _ => "[object Object]"
  end.

Definition falsy (j : json) : bool :=
  match j with
  | JUndefined | JNull | JBool false => true
  | JNum n => n =? 0
  | JStr s => String.eqb s ""
  | _ => false
  end.

(** [j?.name] on a JSON value: [JUndefined] when there is no such property. *)
Definition prop (name : string) (j : json) : json :=
  match j with JObj l => default JUndefined (field name l) | _ => JUndefined end.

(** [a ?? b]. *)
Definition nullish (a b : json) : json :=
  match a with JUndefined | JNull => b | _ => a end.

(** ** The configuration ([config/env.ts]) *)

Class ENV := {
  RATE_LIMIT_DISABLED : bool;
  RATE_LIMIT_AS_WINDOW_SECONDS : Z; RATE_LIMIT_AS_MAX : Z;
  RATE_LIMIT_TGS_WINDOW_SECONDS : Z; RATE_LIMIT_TGS_MAX : Z;
  RATE_LIMIT_BANK_WINDOW_SECONDS : Z; RATE_LIMIT_BANK_MAX : Z;
  RATE_LIMIT_OTP_WINDOW_SECONDS : Z; RATE_LIMIT_OTP_MAX : Z;
  OTP_MAX_ATTEMPTS : Z; OTP_EXPIRES_IN : Z; OTP_COOLDOWN : Z;
  DEMO_OTP : option string;
  ADMIN_SEC_DEMO_EMAIL : option string; ADMIN_SEC_DEMO_PASSWORD : option string;
  ADMIN_SEC_DEMO_TOKEN : option string;
  GATEWAY_OTP_SECRET : string; GATEWAY_JWT_SECRET : string
}.

(** The defaults of the schema, with values for the required variables. *)
Definition default_env : ENV := {|
  RATE_LIMIT_DISABLED := false;
  RATE_LIMIT_AS_WINDOW_SECONDS := 300; RATE_LIMIT_AS_MAX := 10;
  RATE_LIMIT_TGS_WINDOW_SECONDS := 300; RATE_LIMIT_TGS_MAX := 10;
  RATE_LIMIT_BANK_WINDOW_SECONDS := 60; RATE_LIMIT_BANK_MAX := 20;
  RATE_LIMIT_OTP_WINDOW_SECONDS := 600; RATE_LIMIT_OTP_MAX := 3;
  OTP_MAX_ATTEMPTS := 5; OTP_EXPIRES_IN := 300; OTP_COOLDOWN := 900;
  DEMO_OTP := None;
  ADMIN_SEC_DEMO_EMAIL := None; ADMIN_SEC_DEMO_PASSWORD := None; ADMIN_SEC_DEMO_TOKEN := None;
  GATEWAY_OTP_SECRET := "otp-secret"; GATEWAY_JWT_SECRET := "jwt-secret" |}.

(** Unfold the one-event wrappers and run the combinators. *)
Ltac gw_unfold :=
  unfold meta, iso_now, iso_of, now_seconds, redis_get, redis_set_ex, redis_incr, redis_expire,
    redis_ttl, redis_del, redis_multi, date_now, random_uuid, random_int, random_token, mail_add,
    recordRaAudit, appendCaAuditEvent, registerUser, verifyCertificate, revokeCertificate,
    listCertificates, getCertificateDetail, listCaAuditEvents, verifyCaAuditChain, requestTgt,
    requestServiceTicket, listKdcAuditEvents, verifyKdcAuditChain, checkUserEmail,
    createUserBankAccount, transferMoney, getBalance, getHistory, createBankAdminSession,
    getBankAdminOverview, listBankAdminUsers, listBankAdminUserAccounts,
    listBankAdminTransactions, listBankAdminAuditEvents, verifyBankAuditChain.

Ltac gw_cbn := cbn [bind catch always of_result].

(** The request [e] was made and answered [r]. *)
Definition saw (e : event) (r : reply e) (t : gw_trace) : Prop := Obs e r ∈ t.

(** The reply to one request, under the name [r]; both ends of a result. *)
Ltac gw_reply r :=
  intros r; cbn [reply event_container] in r;
  lazymatch type of r with
  | result _ unit => destruct r as [[]|r]
  | result _ _ => destruct r as [r|r]
  | unit => destruct r
  | _ => idtac
  end; gw_cbn.

Ltac in_trace := unfold saw; repeat first [apply list_elem_of_here | apply list_elem_of_further].
