(* ===== verification/Json.v ===== *)
(** * JSON.stringify and JSON.parse

    The printer and the parser of the language's JSON on the values of
    [Gateway.json]: integers are numbers, any other number is kept as its
    decimal literal, a character is a code unit below 256. [parse_stringify]:
    what is printed is read back. *)

From S2P Require Import Prelude JsString Gateway.

Open Scope Z_scope.

Definition BSL : ascii := of_code 92.

(** ** Printing *)

Definition hex_digit (n : Z) : ascii := if n <? 10 then of_code (48 + n) else of_code (87 + n).

Definition esc (a : ascii) : string :=
  let c := code a in
  if c =? 34 then String BSL (String QUOTE "")
  else if c =? 92 then String BSL (String BSL "")
  else if c =? 8 then String BSL "b"
  else if c =? 9 then String BSL "t"
  else if c =? 10 then String BSL "n"
  else if c =? 12 then String BSL "f"
  else if c =? 13 then String BSL "r"
  else if c <? 32 then
    String BSL ("u00" +:+ String (hex_digit (c / 16)) (String (hex_digit (c mod 16)) ""))
  else String a "".

Fixpoint esc_all (s : string) : string :=
  match s with "" => "" | String a s' => esc a +:+ esc_all s' end.

Definition quote (s : string) : string := String QUOTE (esc_all s +:+ String QUOTE "").

Definition is_undefined (j : json) : bool := match j with JUndefined => true | _ => false end.

(** [JSON.stringify(j)] of a defined value. *)
Fixpoint stringify (j : json) : string :=
  match j with
  | JUndefined | JNull => "null"
  | JBool true => "true"
  | JBool false => "false"
  | JNum n => Z_string n
  | JDec literal => literal
  | JStr s => quote s
  | JArr l => "[" +:+ (sjoin "," (map stringify l) +:+ "]")
  | JObj fields =>
      "{" +:+ (sjoin "," (flat_map (fun f =>
                            if is_undefined f.2 then []
                            else [quote f.1 +:+ (":" +:+ stringify f.2)]) fields) +:+ "}")
  end.

(** ** Reading *)

Definition ws (a : ascii) : bool :=
  let c := code a in (c =? 32) || (c =? 9) || (c =? 10) || (c =? 13).

Fixpoint skip (s : string) : string :=
  match s with String a s' => if ws a then skip s' else s | "" => "" end.

Definition hex_value (a : ascii) : option Z :=
  let c := code a in
  if (48 <=? c) && (c <=? 57) then Some (c - 48)
  else if (97 <=? c) && (c <=? 102) then Some (c - 87)
  else if (65 <=? c) && (c <=? 70) then Some (c - 55)
  else None.

Definition hex4 (a b c d : ascii) : option ascii :=
  match hex_value a, hex_value b, hex_value c, hex_value d with
  | Some a, Some b, Some c, Some d =>
      let n := ((a * 16 + b) * 16 + c) * 16 + d in
      if n <? 256 then Some (of_code n) else None
  | _, _, _, _ => None
  end.

Definition unescape (a : ascii) : option ascii :=
  let c := code a in
  if c =? 34 then Some QUOTE else if c =? 92 then Some BSL
  else if c =? 47 then Some a
  else if c =? 98 then Some (of_code 8) else if c =? 116 then Some (of_code 9)
  else if c =? 110 then Some (of_code 10) else if c =? 102 then Some (of_code 12)
  else if c =? 114 then Some (of_code 13) else None.

Definition pcons (a : ascii) (r : option (string * string)) : option (string * string) :=
  match r with Some (s, rest) => Some (String a s, rest) | None => None end.

(** The characters up to the closing quote. *)
Fixpoint pstr (s : string) : option (string * string) :=
  match s with
  | "" => None
  | String a r =>
      if code a =? 34 then Some ("", r)
      else if code a =? 92 then
        match r with
        | String e r' =>
            if code e =? 117 then
              match r' with
              | String x (String y (String z (String w r''))) =>
                  match hex4 x y z w with Some c => pcons c (pstr r'') | None => None end
              | _ => None
              end
            else match unescape e with Some c => pcons c (pstr r') | None => None end
        | "" => None
        end
      else if code a <? 32 then None
      else pcons a (pstr r)
  end.

(** Fraction and exponent of a number, as text; [None] when malformed. *)
Definition pfrac (s : string) : option (string * string) :=
  match s with
  | String a r =>
      if code a =? 46
      then let ds := digits_prefix r in
           if String.eqb ds "" then None else Some (String a ds, slice (String.length ds) r)
      else Some ("", s)
  | "" => Some ("", s)
  end.

Definition pexp (s : string) : option (string * string) :=
  match s with
  | String a r =>
      if (code a =? 101) || (code a =? 69)
      then let '(sg, r) :=
             match r with
             | String b r' => if (code b =? 43) || (code b =? 45) then (String b "", r') else ("", r)
             | "" => ("", r)
             end in
           let ds := digits_prefix r in
           if String.eqb ds "" then None
           else Some (String a (sg +:+ ds), slice (String.length ds) r)
      else Some ("", s)
  | "" => Some ("", s)
  end.

Definition leading_zero (ds : string) : bool :=
  match ds with String a (String _ _) => code a =? 48 | _ => false end.

Definition pnum (s : string) : option (json * string) :=
  let '(neg, s) := match s with
                   | String a r => if code a =? 45 then (true, r) else (false, s)
                   | "" => (false, s)
                   end in
  let ds := digits_prefix s in
  if String.eqb ds "" || leading_zero ds then None
  else
    let v := digits_val 0 ds in
    match pfrac (slice (String.length ds) s) with
    | None => None
    | Some (fr, r) =>
        match pexp r with
        | None => None
        | Some (ex, r) =>
            let sg := if neg then "-" else "" in
            Some (if String.eqb (fr +:+ ex) "" then JNum (if neg then - v else v)
                  else JDec (sg +:+ ds +:+ fr +:+ ex), r)
        end
    end.

Definition plit (lit : string) (v : json) (s : string) : option (json * string) :=
  if startsWith lit s then Some (v, slice (String.length lit) s) else None.

(** A value after optional white space; the fuel bounds the nesting of calls. *)
Fixpoint pvalue (fuel : nat) (s : string) : option (json * string) :=
  match fuel with
  | O => None
  | S f =>
      match skip s with
      | "" => None
      | String a r =>
          let c := code a in
          if c =? 34 then match pstr r with Some (x, r) => Some (JStr x, r) | None => None end
          else if c =? 91 then
            match skip r with
            | String b r' => if code b =? 93 then Some (JArr [], r') else
                match pelems f r with Some (l, r) => Some (JArr l, r) | None => None end
            | "" => None
            end
          else if c =? 123 then
            match skip r with
            | String b r' => if code b =? 125 then Some (JObj [], r') else
                match pmembers f r with Some (l, r) => Some (JObj l, r) | None => None end
            | "" => None
            end
          else if c =? 116 then plit "true" (JBool true) (String a r)
          else if c =? 102 then plit "false" (JBool false) (String a r)
          else if c =? 110 then plit "null" JNull (String a r)
          else pnum (String a r)
      end
  end
with pelems (fuel : nat) (s : string) : option (list json * string) :=
  match fuel with
  | O => None
  | S f =>
      match pvalue f s with
      | None => None
      | Some (v, r) =>
          match skip r with
          | String b r' =>
              if code b =? 93 then Some ([v], r')
              else if code b =? 44 then
                match pelems f r' with Some (l, r) => Some (v :: l, r) | None => None end
              else None
          | "" => None
          end
      end
  end
with pmembers (fuel : nat) (s : string) : option (list (string * json) * string) :=
  match fuel with
  | O => None
  | S f =>
      match skip s with
      | String q r0 =>
          if code q =? 34 then
            match pstr r0 with
            | None => None
            | Some (k, r) =>
                match skip r with
                | String b r =>
                    if code b =? 58 then
                      match pvalue f r with
                      | None => None
                      | Some (v, r) =>
                          match skip r with
                          | String b r' =>
                              if code b =? 125 then Some ([(k, v)], r')
                              else if code b =? 44 then
                                match pmembers f r' with
                                | Some (l, r) => Some ((k, v) :: l, r)
                                | None => None
                                end
                              else None
                          | "" => None
                          end
                      end
                    else None
                | "" => None
                end
            end
          else None
      | "" => None
      end
  end.

(** [JSON.parse(s)]; [None] is a [SyntaxError]. *)
Definition parse (s : string) : option json :=
  match pvalue (S (2 * String.length s)) s with
  | Some (v, r) => match skip r with "" => Some v | _ => None end
  | None => None
  end.

(** ** What is printed is read back *)

(** Neither [undefined] nor a number that is not an integer, at any depth. *)
Fixpoint plain (j : json) : bool :=
  match j with
  | JUndefined | JDec _ => false
  | JArr l => forallb plain l
  | JObj fields => forallb (fun f => plain f.2) fields
  | _ => true
  end.

Lemma json_ind2 (P : json -> Prop) :
  P JUndefined -> P JNull -> (forall b, P (JBool b)) -> (forall n, P (JNum n)) ->
  (forall s, P (JDec s)) -> (forall s, P (JStr s)) -> (forall l, Forall P l -> P (JArr l)) ->
  (forall l, Forall (fun f => P f.2) l -> P (JObj l)) -> forall j, P j.
Proof.
  intros H1 H2 H3 H4 H5 H6 H7 H8. fix IH 1. intros [| | | | | | l | l]; [done|done|auto|auto|auto|auto| |].
  - apply H7. induction l; constructor; auto.
  - apply H8. induction l as [|[k v] l IHl]; constructor; [apply IH | apply IHl].
Qed.

(** What may follow a value inside a text. *)
Definition ends (s : string) : bool :=
  match s with
  | "" => true
  | String a _ => (code a =? 44) || (code a =? 93) || (code a =? 125)
  end.

Lemma ends_not_digit s : ends s = true -> digits_prefix s = "".
Proof.
  destruct s as [|a s]; [done|]. cbn. intros H. assert (digit a = false) as ->; [|done].
  unfold digit. rewrite !orb_true_iff, !Z.eqb_eq in H. apply andb_false_iff.
  rewrite Z.leb_gt, Z.leb_gt. lia.
Qed.

Lemma pstr_esc a t : pstr (esc a +:+ t) = pcons a (pstr t).
Proof. destruct a as [[] [] [] [] [] [] [] []]; reflexivity. Qed.

Lemma pstr_quote s rest : pstr (esc_all s +:+ String QUOTE rest) = Some (s, rest).
Proof.
  induction s as [|a s IH]; [reflexivity|].
  cbn [esc_all]. by rewrite sapp_assoc, pstr_esc, IH.
Qed.

Lemma digits_prefix_app ds rest :
  sall digit ds = true -> digits_prefix rest = "" -> digits_prefix (ds +:+ rest) = ds.
Proof.
  intros Hd Hr. induction ds as [|a ds IH]; [exact Hr|]. rewrite sapp_cons. cbn in *.
  apply andb_true_iff in Hd as [-> Hd]. by rewrite IH.
Qed.

Lemma nat_string_no_zero n : 0 <= n -> leading_zero (nat_string n) = false.
Proof.
  intros Hn. destruct (Z.eq_dec n 0) as [->|]; [done|]. unfold nat_string.
  destruct (dec_loop_head (S (Z.to_nat (Z.log2 n))) n "") as (a & s & -> & Ha); [lia | lia |].
  destruct s; [done|]. cbn. by apply Z.eqb_neq.
Qed.

Lemma pfrac_ends s : ends s = true -> pfrac s = Some ("", s).
Proof.
  destruct s as [|a s]; [done|]. cbn. rewrite !orb_true_iff, !Z.eqb_eq. intros H.
  by rewrite (proj2 (Z.eqb_neq (code a) 46)) by lia.
Qed.

Lemma pexp_ends s : ends s = true -> pexp s = Some ("", s).
Proof.
  destruct s as [|a s]; [done|]. cbn. rewrite !orb_true_iff, !Z.eqb_eq. intros H.
  by rewrite (proj2 (Z.eqb_neq (code a) 101)), (proj2 (Z.eqb_neq (code a) 69)) by lia.
Qed.

Lemma pnum_Z_string n rest : ends rest = true -> pnum (Z_string n +:+ rest) = Some (JNum n, rest).
Proof.
  intros He. unfold Z_string.
  assert (Hbody : forall m, 0 <= m ->
    digits_prefix (nat_string m +:+ rest) = nat_string m /\
    slice (String.length (nat_string m)) (nat_string m +:+ rest) = rest /\
    (String.eqb (nat_string m) "" || leading_zero (nat_string m)) = false /\
    digits_val 0 (nat_string m) = m).
  { intros m Hm. destruct (nat_string_spec m Hm) as (Hne & Hd & Hv).
    split_and!; [apply digits_prefix_app; [done | by apply ends_not_digit] | apply slice_app | | done].
    rewrite nat_string_no_zero by done. rewrite orb_false_r. by apply String.eqb_neq. }
  destruct (Z.ltb_spec n 0) as [Hn|Hn].
  - destruct (Hbody (- n)) as (H1 & H2 & H3 & H4); [lia|].
    change (("-" +:+ nat_string (- n)) +:+ rest) with (String "-" (nat_string (- n) +:+ rest)).
    unfold pnum. change (code "-" =? 45) with true. cbv iota.
    rewrite H1, H2, H3, H4, pfrac_ends, pexp_ends by done. cbn. by rewrite Z.opp_involutive.
  - destruct (Hbody n) as (H1 & H2 & H3 & H4); [lia|]. unfold pnum.
    destruct (nat_string_spec n Hn) as (Hne & Hd & _).
    assert (Hneg : match nat_string n +:+ rest with
                   | String a r => if code a =? 45 then (true, r) else (false, nat_string n +:+ rest)
                   | "" => (false, nat_string n +:+ rest)
                   end = (false, nat_string n +:+ rest)).
    { destruct (nat_string n) as [|a s]; [done|]. rewrite sapp_cons. cbn in Hd.
      apply andb_true_iff in Hd as [Hd _]. apply digit_code in Hd.
      by rewrite (proj2 (Z.eqb_neq (code a) 45)) by lia. }
    rewrite Hneg. cbv beta iota. by rewrite H1, H2, H3, H4, pfrac_ends, pexp_ends by done.
Qed.

Lemma slength_cons a s : String.length (String a s) = S (String.length s).
Proof. reflexivity. Qed.

(** A number is read by the last case of [pvalue]. *)
Lemma pvalue_num f n rest :
  ends rest = true -> pvalue (S f) (Z_string n +:+ rest) = Some (JNum n, rest).
Proof.
  intros He. pose proof (pnum_Z_string n rest He) as Hp.
  assert (Hh : exists a r, Z_string n +:+ rest = String a r /\ (code a = 45 \/ digit a = true)).
  { unfold Z_string. destruct (Z.ltb_spec n 0); [by eexists _, _; split; [done | left]|].
    destruct (nat_string_spec n) as (Hne & Hd & _); [done|]. destruct (nat_string n) as [|a s]; [done|].
    cbn in Hd. apply andb_true_iff in Hd as [Hd _]. eexists _, _. split; [done | by right]. }
  destruct Hh as (a & r & Hs & Ha). rewrite Hs in Hp |- *.
  assert (Hc : code a = 45 \/ 48 <= code a <= 57) by (destruct Ha; [by left | right; by apply digit_code]).
  cbn [pvalue skip]. unfold ws.
  repeat (rewrite (proj2 (Z.eqb_neq (code a) _)) by lia). cbn [orb].
  repeat (rewrite (proj2 (Z.eqb_neq (code a) _)) by lia). exact Hp.
Qed.

Lemma stringify_head j : plain j = true -> exists a r, stringify j = String a r /\ ws a = false /\ code a <> 93.
Proof.
  destruct j as [| | [] | n | | | |]; try done; intros _; cbn; try (by eexists _, _).
  unfold Z_string. destruct (Z.ltb_spec n 0); [by eexists _, _|].
  destruct (nat_string_spec n) as (Hne & Hd & _); [done|]. destruct (nat_string n) as [|a s]; [done|].
  cbn in Hd. apply andb_true_iff in Hd as [Hd _]. apply digit_code in Hd.
  eexists _, _. split; [done|]. unfold ws. rewrite !orb_false_iff, !Z.eqb_neq. lia.
Qed.

Definition reads_back (j : json) : Prop :=
  forall fuel rest, (2 * String.length (stringify j) <= fuel)%nat -> ends rest = true ->
    pvalue fuel (stringify j +:+ rest) = Some (j, rest).

Lemma skip_head a r : ws a = false -> skip (String a r) = String a r.
Proof. intros H. cbn. by rewrite H. Qed.

Lemma reads_elems l fuel rest :
  l <> [] -> Forall reads_back l -> forallb plain l = true ->
  (2 * String.length (sjoin "," (map stringify l)) + 1 <= fuel)%nat ->
  pelems fuel (sjoin "," (map stringify l) +:+ String "]" rest) = Some (l, rest).
Proof.
  revert fuel. induction l as [|j l IH]; intros fuel Hne Hall Hp Hf; [done|].
  inversion_clear Hall as [|? ? Hj Hl]. cbn [forallb] in Hp. apply andb_true_iff in Hp as [Hpj Hpl].
  destruct fuel as [|f]; [lia|]. destruct l as [|j' l].
  - cbn [map sjoin] in *. cbn [pelems]. rewrite Hj by (done || lia). reflexivity.
  - change (sjoin "," (map stringify (j :: j' :: l)))
      with (stringify j +:+ ("," +:+ sjoin "," (map stringify (j' :: l)))) in *.
    rewrite !slength_app in Hf. cbn [String.length] in Hf.
    rewrite sapp_assoc. cbn [pelems].
    change (("," +:+ sjoin "," (map stringify (j' :: l))) +:+ String "]" rest)
      with (String "," (sjoin "," (map stringify (j' :: l)) +:+ String "]" rest)).
    rewrite Hj by (done || lia). cbn [skip ws]. 
    change (ws ",") with false. cbv iota. change (code "," =? 93) with false.
    change (code "," =? 44) with true. cbv iota. by rewrite IH by (done || lia).
Qed.

Definition member (f : string * json) : string := quote f.1 +:+ (":" +:+ stringify f.2).

Lemma reads_members l fuel rest :
  l <> [] -> Forall (fun f => reads_back f.2) l -> forallb (fun f => plain f.2) l = true ->
  (2 * String.length (sjoin "," (map member l)) + 1 <= fuel)%nat ->
  pmembers fuel (sjoin "," (map member l) +:+ String "}" rest) = Some (l, rest).
Proof.
  revert fuel. induction l as [|[k v] l IH]; intros fuel Hne Hall Hp Hf; [done|].
  inversion_clear Hall as [|? ? Hj Hl]. cbn [forallb fst snd] in *.
  apply andb_true_iff in Hp as [Hpj Hpl].
  destruct fuel as [|f]; [lia|].
  assert (Hlen : (2 * String.length (stringify v) + 2 <= 2 * String.length (member (k, v)))%nat).
  { unfold member. rewrite !slength_app. cbn. lia. }
  assert (Hone : forall tail, ends tail = true -> (2 * String.length (stringify v) <= f)%nat ->
    pmembers (S f) (member (k, v) +:+ tail) =
    match skip tail with
    | String b r' =>
        if code b =? 125 then Some ([(k, v)], r')
        else if code b =? 44 then
          match pmembers f r' with Some (l, r) => Some ((k, v) :: l, r) | None => None end
        else None
    | "" => None
    end).
  { intros tail Ht Hf'. unfold member. cbn [fst snd]. rewrite !sapp_assoc.
    unfold quote. rewrite !sapp_cons, !sapp_assoc. cbn [pmembers].
    rewrite skip_head by done. change (code QUOTE =? 34) with true. cbv iota.
    change (String QUOTE "" +:+ String ":" ("" +:+ stringify v +:+ tail))
      with (String QUOTE (String ":" (stringify v +:+ tail))).
    rewrite pstr_quote. rewrite skip_head by done. change (code ":" =? 58) with true. cbv iota.
    by rewrite Hj. }
  destruct l as [|kv' l].
  - cbn [map sjoin] in *. rewrite Hone; [reflexivity | done | lia].
  - change (sjoin "," (map member ((k, v) :: kv' :: l)))
      with (member (k, v) +:+ ("," +:+ sjoin "," (map member (kv' :: l)))) in *.
    rewrite !slength_app in Hf. cbn [String.length] in Hf.
    rewrite sapp_assoc, Hone; [| done | lia].
    change (("," +:+ sjoin "," (map member (kv' :: l))) +:+ String "}" rest)
      with (String "," (sjoin "," (map member (kv' :: l)) +:+ String "}" rest)).
    rewrite skip_head by done. change (code "," =? 125) with false.
    change (code "," =? 44) with true. cbv iota. by rewrite IH by (done || lia).
Qed.

Lemma plit_app lit v rest : plit lit v (lit +:+ rest) = Some (v, rest).
Proof. unfold plit. by rewrite startsWith_app, slice_app. Qed.

Lemma all_read_back j : plain j = true -> reads_back j.
Proof.
  induction j as [| | b | n | | x | l IH | l IH] using json_ind2; intros Hp fuel rest Hf He; try done.
  - cbn in Hf. destruct fuel as [|f]; [lia|]. apply (plit_app "null").
  - destruct b; cbn in Hf; (destruct fuel as [|f]; [lia|]); [apply (plit_app "true") | apply (plit_app "false")].
  - destruct fuel as [|f]; [|by apply pvalue_num]. exfalso. cbn in Hf.
    pose proof (Z_string_nonempty n). destruct (Z_string n); [done | cbn in Hf; lia].
  - cbn in Hf. destruct fuel as [|f]; [lia|]. cbn [stringify]. unfold quote.
    rewrite sapp_cons, sapp_assoc. cbn [pvalue]. rewrite skip_head by done.
    change (code QUOTE =? 34) with true. cbv iota. cbn [append].
    change (String QUOTE "" +:+ rest) with (String QUOTE rest). by rewrite pstr_quote.
  - cbn [stringify plain] in *. rewrite !slength_app in Hf. cbn [String.length] in Hf.
    destruct fuel as [|f]; [lia|].
    change ("[" +:+ sjoin "," (map stringify l) +:+ "]")
      with (String "[" (sjoin "," (map stringify l) +:+ "]")).
    rewrite sapp_cons, sapp_assoc. change ("]" +:+ rest) with (String "]" rest).
    cbn [pvalue]. rewrite skip_head by done.
    change (code "[" =? 34) with false. change (code "[" =? 91) with true. cbv iota.
    destruct l as [|j l]; [reflexivity|].
    assert (Hhead : exists a r, sjoin "," (map stringify (j :: l)) +:+ String "]" rest = String a r /\
                                ws a = false /\ code a <> 93).
    { cbn [forallb] in Hp. apply andb_true_iff in Hp as [Hp _].
      destruct (stringify_head j Hp) as (a & r & Hs & Ha).
      destruct l as [|j' l]; cbn [map sjoin]; rewrite Hs; rewrite !sapp_cons; by eexists _, _. }
    destruct Hhead as (a & r & Hh & Hw & Hc). rewrite Hh, skip_head by done.
    rewrite (proj2 (Z.eqb_neq (code a) 93)) by done. rewrite <- Hh.
    rewrite reads_elems; [done | done | | done | lia].
    rewrite Forall_forall in IH |- *. intros x Hx. apply IH; [done|].
    rewrite forallb_forall in Hp. apply Hp. by apply list_elem_of_In.
  - cbn [stringify plain] in *.
    assert (Hm : forall l, forallb (fun f => plain f.2) l = true ->
      flat_map (fun f => if is_undefined f.2 then [] else [quote f.1 +:+ (":" +:+ stringify f.2)]) l
      = map member l).
    { clear. induction l as [|[k v] l IH]; [done|]. cbn. intros H.
      apply andb_true_iff in H as [Hv Hl]. rewrite IH by done. by destruct v. }
    rewrite Hm in * by done. rewrite !slength_app in Hf. cbn [String.length] in Hf.
    destruct fuel as [|f]; [lia|].
    change ("{" +:+ sjoin "," (map member l) +:+ "}")
      with (String "{" (sjoin "," (map member l) +:+ "}")).
    rewrite sapp_cons, sapp_assoc. change ("}" +:+ rest) with (String "}" rest).
    cbn [pvalue]. rewrite skip_head by done.
    change (code "{" =? 34) with false. change (code "{" =? 91) with false.
    change (code "{" =? 123) with true. cbv iota.
    destruct l as [|[k v] l]; [reflexivity|].
    assert (Hhead : exists r, sjoin "," (map member ((k, v) :: l)) +:+ String "}" rest = String QUOTE r).
    { destruct l as [|kv' l]; cbn [map sjoin]; unfold member, quote; rewrite !sapp_cons; by eexists _. }
    destruct Hhead as (r & Hh). rewrite Hh, skip_head by done.
    change (code QUOTE =? 125) with false. cbv iota. rewrite <- Hh.
    rewrite reads_members; [done | done | | done | lia].
    rewrite Forall_forall in IH |- *. intros x Hx. apply IH; [done|].
    rewrite forallb_forall in Hp. apply (Hp x). by apply list_elem_of_In.
Qed.

(** What [JSON.stringify] prints, [JSON.parse] reads back. *)
Lemma parse_stringify j : plain j = true -> parse (stringify j) = Some j.
Proof.
  intros Hp. unfold parse. rewrite <- (sapp_nil_r (stringify j)) at 2.
  by rewrite (all_read_back j Hp) by (done || lia).
Qed.
