(* ===== verification/Buffer.v ===== *)
(** * Node buffers: base64 and UTF-8

    [Buffer.from(s, base64)] as Node reads it: the text up to the first padding
    character, both alphabets, any other character skipped. [toString(base64)]
    prints the standard alphabet with padding. *)

From S2P Require Import Prelude JsString.

Open Scope Z_scope.

Definition b64_value (a : ascii) : option Z :=
  let c := code a in
  if (65 <=? c) && (c <=? 90) then Some (c - 65)
  else if (97 <=? c) && (c <=? 122) then Some (c - 71)
  else if (48 <=? c) && (c <=? 57) then Some (c + 4)
  else if (c =? 43) || (c =? 45) then Some 62
  else if (c =? 47) || (c =? 95) then Some 63
  else None.

Definition b64_char (v : Z) : ascii :=
  if v <? 26 then of_code (65 + v)
  else if v <? 52 then of_code (71 + v)
  else if v <? 62 then of_code (v - 4)
  else if v =? 62 then of_code 43 else of_code 47.

Fixpoint sextets (s : string) : list Z :=
  match s with
  | "" => []
  | String a s' =>
      if code a =? 61 then []
      else match b64_value a with Some v => v :: sextets s' | None => sextets s' end
  end.

Fixpoint from_sextets (l : list Z) : list Z :=
  match l with
  | a :: b :: c :: d :: l' =>
      (a * 4 + b / 16) :: ((b mod 16) * 16 + c / 4) :: ((c mod 4) * 64 + d) :: from_sextets l'
  | [a; b; c] => [a * 4 + b / 16; (b mod 16) * 16 + c / 4]
  | [a; b] => [a * 4 + b / 16]
  | _ => []
  end.

(** [Buffer.from(s, base64)]. *)
Definition from_base64 (s : string) : list Z := from_sextets (sextets s).

Fixpoint to_base64 (l : list Z) : string :=
  let ch v s := String (b64_char v) s in
  match l with
  | a :: b :: c :: l' =>
      ch (a / 4) (ch ((a mod 4) * 16 + b / 16) (ch ((b mod 16) * 4 + c / 64)
        (ch (c mod 64) (to_base64 l'))))
  | [a; b] =>
      ch (a / 4) (ch ((a mod 4) * 16 + b / 16) (ch ((b mod 16) * 4) "="))
  | [a] => ch (a / 4) (ch ((a mod 4) * 16) "==")
  | [] => ""
  end.

Lemma b64_value_char v : 0 <= v < 64 -> b64_value (b64_char v) = Some v /\ code (b64_char v) <> 61.
Proof.
  intros H. unfold b64_char.
  assert (Hk : forall k, 0 <= k < 256 -> code (of_code k) = k) by (intros; by apply code_of_code).
  assert (Hc : forall k, 0 <= k < 256 ->
    ((65 <= k <= 90 /\ v = k - 65) \/ (97 <= k <= 122 /\ v = k - 71) \/ (48 <= k <= 57 /\ v = k + 4) \/
     (k = 43 /\ v = 62) \/ (k = 47 /\ v = 63)) ->
    b64_value (of_code k) = Some v /\ code (of_code k) <> 61).
  { intros k Hb Hk'. unfold b64_value. rewrite Hk by done. split; [|lia].
    destruct Hk' as [[? ->]|[[? ->]|[[? ->]|[[-> ->]|[-> ->]]]]]; [| | |done|done];
      repeat (rewrite (proj2 (Z.leb_le _ _)) by lia);
      repeat (first [rewrite (proj2 (Z.leb_gt 65 k)) by lia | rewrite (proj2 (Z.leb_gt k 90)) by lia
                    | rewrite (proj2 (Z.leb_gt 97 k)) by lia | rewrite (proj2 (Z.leb_gt k 122)) by lia]);
      rewrite ?andb_false_r; cbn; f_equal; try lia;
      repeat (rewrite (proj2 (Z.leb_le _ _)) by lia); cbn; f_equal; lia. }
  case_ifs; bool_to_Z; apply Hc; lia.
Qed.

Lemma sextets_char v s : 0 <= v < 64 -> sextets (String (b64_char v) s) = v :: sextets s.
Proof.
  intros H. destruct (b64_value_char v H) as [Hv Hc]. cbn.
  by rewrite (proj2 (Z.eqb_neq _ _) Hc), Hv.
Qed.

Lemma byte_sextet a : is_byte a -> 0 <= a / 4 < 64 /\ 0 <= a mod 4 < 4 /\ a = a / 4 * 4 + a mod 4.
Proof.
  unfold is_byte. intros H. pose proof (Z.div_mod a 4). pose proof (Z.mod_pos_bound a 4).
  assert (0 <= a / 4 < 64) by (split; [apply Z.div_pos | apply Z.div_lt_upper_bound]; lia). lia.
Qed.

Lemma list_ind3 {A} (P : list A -> Prop) :
  P [] -> (forall a, P [a]) -> (forall a b, P [a; b]) ->
  (forall a b c l, P l -> P (a :: b :: c :: l)) -> forall l, P l.
Proof.
  intros H0 H1 H2 H3. fix IH 1. intros [|a [|b [|c l]]]; [done|done|done|]. apply H3, IH.
Qed.

Lemma join_hi x k y : 0 <= y < k -> (x * k + y) / k = x.
Proof. intros H. rewrite Z.add_comm, Z.div_add by lia. rewrite Z.div_small by lia. lia. Qed.

Lemma join_lo x k y : 0 <= y < k -> (x * k + y) mod k = y.
Proof. intros H. rewrite Z.add_comm, Z.mod_add by lia. by apply Z.mod_small. Qed.

(** The parts of a byte around bit [n]. *)
Lemma byte_parts b k : is_byte b -> 0 < k -> (k * (256 / k) = 256) ->
  0 <= b / k < 256 / k /\ 0 <= b mod k < k /\ b / k * k + b mod k = b.
Proof.
  unfold is_byte. intros H Hk H256. pose proof (Z.div_mod b k). pose proof (Z.mod_pos_bound b k).
  split; [split; [apply Z.div_pos | apply Z.div_lt_upper_bound]; lia | lia].
Qed.

Ltac byte_bounds :=
  change (256 / 4) with 64 in *; change (256 / 16) with 16 in *; change (256 / 64) with 4 in *; lia.

Lemma base64_roundtrip l : bytes_ok l -> from_base64 (to_base64 l) = l.
Proof.
  unfold from_base64. induction l as [|a|a b|a b c l IH] using list_ind3; intros H; [done| | |].
  - inversion_clear H as [|? ? Ha _].
    pose proof (byte_parts a 4 Ha ltac:(lia) eq_refl) as (? & ? & ?).
    change (to_base64 [a]) with (String (b64_char (a / 4)) (String (b64_char (a mod 4 * 16)) "==")).
    rewrite !sextets_char by byte_bounds. cbn. rewrite Z.div_mul by byte_bounds. f_equal. lia.
  - inversion_clear H as [|? ? Ha H']. inversion_clear H' as [|? ? Hb _].
    pose proof (byte_parts a 4 Ha ltac:(lia) eq_refl) as (? & ? & ?).
    pose proof (byte_parts b 16 Hb ltac:(lia) eq_refl) as (? & ? & ?).
    change (to_base64 [a; b]) with (String (b64_char (a / 4))
      (String (b64_char (a mod 4 * 16 + b / 16)) (String (b64_char (b mod 16 * 4)) "="))).
    rewrite !sextets_char by byte_bounds. cbn. rewrite join_hi, join_lo, Z.div_mul by byte_bounds.
    repeat f_equal; lia.
  - inversion_clear H as [|? ? Ha H']. inversion_clear H' as [|? ? Hb H''].
    inversion_clear H'' as [|? ? Hc Hl].
    pose proof (byte_parts a 4 Ha ltac:(lia) eq_refl) as (? & ? & ?).
    pose proof (byte_parts b 16 Hb ltac:(lia) eq_refl) as (? & ? & ?).
    pose proof (byte_parts c 64 Hc ltac:(lia) eq_refl) as (? & ? & ?).
    change (to_base64 (a :: b :: c :: l)) with (String (b64_char (a / 4))
      (String (b64_char (a mod 4 * 16 + b / 16)) (String (b64_char (b mod 16 * 4 + c / 64))
        (String (b64_char (c mod 64)) (to_base64 l))))).
    rewrite !sextets_char by byte_bounds. cbn [from_sextets].
    rewrite !join_hi, !join_lo, IH by (done || byte_bounds). repeat f_equal; lia.
Qed.

(** UTF-8 of code units below 256. *)
Fixpoint utf8 (s : string) : list Z :=
  match s with
  | "" => []
  | String a s' =>
      let c := code a in
      (if c <? 128 then [c] else [192 + c / 64; 128 + c mod 64]) ++ utf8 s'
  end.

Lemma code_range a : 0 <= code a < 256.
Proof. unfold code. pose proof (N_ascii_bounded a). lia. Qed.

Lemma code_inj a b : code a = code b -> a = b.
Proof.
  unfold code. intros H. apply N2Z.inj in H.
  by rewrite <- (ascii_N_embedding a), <- (ascii_N_embedding b), H.
Qed.

Lemma utf8_inj s t : utf8 s = utf8 t -> s = t.
Proof.
  revert t. induction s as [|a s IH]; intros [|b t] H; cbn in H; [done| | |].
  - by destruct (code b <? 128).
  - by destruct (code a <? 128).
  - pose proof (code_range a). pose proof (code_range b).
    destruct (Z.ltb_spec (code a) 128), (Z.ltb_spec (code b) 128); cbn in H.
    + injection H as E1 E2. f_equal; [by apply code_inj | by apply IH].
    + injection H as E1 E2. assert (0 <= code b / 64) by (apply Z.div_pos; lia). lia.
    + injection H as E1 E2. assert (0 <= code a / 64) by (apply Z.div_pos; lia). lia.
    + injection H as E1 E2 E3. pose proof (Z.div_mod (code a) 64). pose proof (Z.div_mod (code b) 64).
      f_equal; [apply code_inj; lia | by apply IH].
Qed.

(** ** One byte per character *)

Definition latin1 (s : string) : list Z := map code (list_ascii_of_string s).
Definition of_latin1 (l : list Z) : string := string_of_list_ascii (map of_code l).

Lemma of_code_code a : of_code (code a) = a.
Proof. apply code_inj. apply code_of_code, code_range. Qed.

Lemma latin1_roundtrip s : of_latin1 (latin1 s) = s.
Proof.
  unfold of_latin1, latin1. induction s as [|a s IH]; [done|]. cbn. by rewrite of_code_code, IH.
Qed.

Lemma latin1_bytes s : bytes_ok (latin1 s).
Proof. induction s as [|a s IH]; constructor; [apply code_range | exact IH]. Qed.

(** Base64 texts hold no white space. *)
Lemma b64_char_no_space v : 0 <= v < 64 -> negb (space (b64_char v)) = true.
Proof.
  intros H. assert (Hall : forallb (fun n => negb (space (b64_char (Z.of_nat n)))) (seq 0 64) = true)
    by (vm_compute; reflexivity).
  rewrite forallb_forall in Hall. specialize (Hall (Z.to_nat v)). rewrite Z2Nat.id in Hall by lia.
  apply Hall, in_seq. lia.
Qed.

Lemma to_base64_no_space l : bytes_ok l -> no_space (to_base64 l) = true.
Proof.
  unfold no_space. induction l as [|a|a b|a b c l IH] using list_ind3; intros H; [done| | |];
    repeat match goal with
    | H : bytes_ok (?a :: _) |- _ =>
        let Ha := fresh in let Hl := fresh in inversion_clear H as [|? ? Ha Hl];
        pose proof (byte_parts a 4 Ha ltac:(lia) eq_refl);
        pose proof (byte_parts a 16 Ha ltac:(lia) eq_refl);
        pose proof (byte_parts a 64 Ha ltac:(lia) eq_refl); change (Forall is_byte) with bytes_ok in *
    end; cbn [to_base64 sall]; rewrite !b64_char_no_space by byte_bounds; try done.
  by apply IH.
Qed.
