(* ===== verification/Crypto.v ===== *)
(** * The cryptography that the gateway calls

    [crypto] and [jsonwebtoken] are parameters: keyed and plain hashes, RSA
    signature verification and signed tokens. [CryptoSpec] states what the code
    relies on: a digest is not empty, a token signed under a secret is accepted under it
    until it expires, with the claims that were signed, and refused as expired
    from then on; a token is a compact text without white space. [toy_crypto] is a concrete instance. *)

From S2P Require Import Prelude JsString Gateway Json Buffer.

Open Scope Z_scope.

Class Crypto := {
  (** [createHmac(sha256, secret).update(data).digest(hex)]. *)
  hmac_sha256 (secret data : string) : string;
  (** [createHash(sha256).update(data, utf8).digest(hex)]. *)
  sha256_hex (data : string) : string;
  (** [createVerify(RSA-SHA256)]: raises on a key that it cannot read. *)
  rsa_verify (publicKeyPem data : string) (signature : list Z) : result js_error bool;
  jwt_sign (payload : list (string * json)) (secret : string) : string;
  (** [jwt.verify(token, secret)] at [now], in seconds: the claims. *)
  jwt_verify (token secret : string) (now : Z) : result js_error json
}.

(** [jwt.sign(payload, secret, {expiresIn})] at [now]. *)
Definition jwt_sign_for `{Crypto} (payload : list (string * json)) (secret : string)
    (now expiresIn : Z) : string :=
  jwt_sign (payload ++ [("iat", JNum now); ("exp", JNum (now + expiresIn))]) secret.

Definition TokenExpiredError : js_error :=
  {| err_code := None; err_details := None; err_message := Some "jwt expired";
     err_meta_code := None; err_status := None; err_error_code := None;
     err_name := "TokenExpiredError"; err_activation := None |}.

Class CryptoSpec `{Crypto} := {
  hmac_nonempty secret data : hmac_sha256 secret data <> "";
  jwt_accepts payload secret now e :
    plain (JObj payload) = true -> field "exp" payload = Some (JNum e) -> now < e ->
    jwt_verify (jwt_sign payload secret) secret now = Ok (JObj payload);
  jwt_expires payload secret now e :
    plain (JObj payload) = true -> field "exp" payload = Some (JNum e) -> e <= now ->
    jwt_verify (jwt_sign payload secret) secret now = Err TokenExpiredError;
  jwt_compact payload secret :
    jwt_sign payload secret <> "" /\ no_space (jwt_sign payload secret) = true
}.

(** ** A concrete instance *)

Definition invalid_token : js_error :=
  {| err_code := None; err_details := None; err_message := Some "invalid token";
     err_meta_code := None; err_status := None; err_error_code := None;
     err_name := "JsonWebTokenError"; err_activation := None |}.

Definition toy_crypto : Crypto := {|
  hmac_sha256 secret data := "hmac:" +:+ secret +:+ ":" +:+ data;
  sha256_hex data := "sha256:" +:+ data;
  rsa_verify key data signature := Ok (bool_decide (zlen signature = 256));
  jwt_sign payload secret := to_base64 (latin1 (stringify (JArr [JStr secret; JObj payload])));
  jwt_verify token secret now :=
    match parse (of_latin1 (from_base64 token)) with
    | Some (JArr [JStr s; JObj payload]) =>
        if String.eqb s secret then
          match field "exp" payload with
          | Some (JNum e) => if e <=? now then Err TokenExpiredError else Ok (JObj payload)
          | _ => Ok (JObj payload)
          end
        else Err invalid_token
    | _ => Err invalid_token
    end
|}.

Lemma toy_crypto_spec : CryptoSpec (H := toy_crypto).
Proof.
  split; [intros secret data Hx; discriminate Hx | | |].
  1-2: intros payload secret now e Hp He Hn; cbn -[stringify parse to_base64 from_base64];
    rewrite base64_roundtrip, latin1_roundtrip by apply latin1_bytes;
    rewrite parse_stringify by (cbn in *; by rewrite Hp); rewrite String.eqb_refl, He.
  - by rewrite (proj2 (Z.leb_gt e now)) by lia.
  - by rewrite (proj2 (Z.leb_le e now)) by lia.
  - intros payload secret. split; [|apply to_base64_no_space, latin1_bytes].
    intros He. apply (f_equal from_base64) in He. cbn -[stringify to_base64 from_base64] in He.
    rewrite base64_roundtrip in He by apply latin1_bytes. discriminate He.
Qed.
