(* ===== verification/ErrorHandler.v ===== *)
(** * From exceptions to HTTP errors ([middleware/errorHandler.ts])

    The mapping of gRPC failures to HTTP status and domain code, one function
    per service as in the source, and the error handler that Express runs on
    [next(err)] and on the rejection of a handler. *)

From S2P Require Import Prelude JsString JsDate Effects Gateway.

Open Scope Z_scope.

Record HttpError := { status : Z; error_code : string; message : string }.

#[export] Instance HttpError_eq_dec : EqDecision HttpError.
Proof. solve_decision. Defined.

(** The plain object as an exception value. *)
Definition http_err (h : HttpError) : js_error :=
  httpError (status h) (error_code h) (message h).

Definition caGrpcError (err : js_error) : HttpError :=
  let msg := error_text err "CA service unavailable" in
  match err_code err with
  | Some ALREADY_EXISTS => Build_HttpError 409 "IDENTITY_ALREADY_REGISTERED" msg
  | Some INVALID_ARGUMENT => Build_HttpError 400 "INVALID_CSR_FORMAT" msg
  | Some NOT_FOUND => Build_HttpError 404 "CERT_NOT_FOUND" msg
  | Some PERMISSION_DENIED => Build_HttpError 403 "CERT_NOT_OWNED" msg
  | _ => Build_HttpError 502 "CA_SERVICE_UNAVAILABLE" msg
  end.

Definition caAdminGrpcError (err : js_error) : HttpError :=
  let msg := error_text err "CA service unavailable" in
  match err_code err with
  | Some NOT_FOUND => Build_HttpError 404 "CERT_NOT_FOUND" msg
  | Some INVALID_ARGUMENT => Build_HttpError 400 "INVALID_ADMIN_CA_REQUEST" msg
  | Some ALREADY_EXISTS => Build_HttpError 409 "CERT_ALREADY_REVOKED" msg
  | Some FAILED_PRECONDITION => Build_HttpError 422 "CERT_TYPE_NOT_REVOKABLE" msg
  | _ => Build_HttpError 502 "CA_SERVICE_UNAVAILABLE" msg
  end.

Definition asGrpcError (err : js_error) : HttpError :=
  let msg := error_text err "KDC unavailable" in
  match err_code err with
  | Some INVALID_ARGUMENT => Build_HttpError 400 "INVALID_REQUEST" msg
  | Some UNAUTHENTICATED => Build_HttpError 401 "SIGNATURE_INVALID" msg
  | Some PERMISSION_DENIED => Build_HttpError 409 "REPLAY_DETECTED" msg
  | Some NOT_FOUND => Build_HttpError 401 "CERT_NOT_FOUND" msg
  | _ => Build_HttpError 502 "KDC_UNAVAILABLE" msg
  end.

Definition tgsGrpcError (err : js_error) : HttpError :=
  let msg := error_text err "KDC unavailable" in
  match err_code err with
  | Some INVALID_ARGUMENT => Build_HttpError 400 "INVALID_TGT_FORMAT" msg
  | Some UNAUTHENTICATED => Build_HttpError 401 "TGT_EXPIRED" msg
  | Some PERMISSION_DENIED => Build_HttpError 403 "SCOPE_DENIED" msg
  | _ => Build_HttpError 502 "KDC_UNAVAILABLE" msg
  end.

(** The trailing metadata value, when it is a non-empty string. *)
Definition grpcMetaCode (err : js_error) : option string :=
  match err_meta_code err with
  | Some v => if String.eqb v "" then None else Some v
  | None => None
  end.

Definition admin_bank_codes : list string :=
  ["ADMIN_SESSION_REQUIRED"; "ADMIN_SESSION_INVALID"; "ADMIN_SESSION_EXPIRED";
   "ADMIN_ROLE_REQUIRED"; "INVALID_PAGINATION"; "INVALID_DATE_RANGE"; "INVALID_FILTER"].

Definition adminBankCode (msg : string) : option string :=
  if bool_decide (msg ∈ admin_bank_codes) then Some msg else None.

Definition bankGrpcError (err : js_error) : HttpError :=
  let msg := error_text err "Bank service error" in
  let domainCode := match grpcMetaCode err with Some c => Some c | None => adminBankCode msg end in
  let h st c := Build_HttpError st (default c domainCode) msg in
  match err_code err with
  | Some INVALID_ARGUMENT => h 400 "BAD_REQUEST"
  | Some UNAUTHENTICATED => h 401 "UNAUTHENTICATED"
  | Some PERMISSION_DENIED => h 403 "FORBIDDEN"
  | Some NOT_FOUND => h 404 "NOT_FOUND"
  | Some ALREADY_EXISTS => h 409 "ALREADY_EXISTS"
  | Some FAILED_PRECONDITION => h 422 "UNPROCESSABLE_ENTITY"
  | Some RESOURCE_EXHAUSTED => h 429 "RATE_LIMITED"
  | Some UNAVAILABLE | Some DEADLINE_EXCEEDED => h 503 "SERVICE_UNAVAILABLE"
  | _ => h 500 "INTERNAL_ERROR"
  end.

(** What [errorHandler] answers: the first of its three branches that applies. *)
Definition handled (err : js_error) : HttpError :=
  match err_status err, err_error_code err, err_message err with
  | Some st, Some c, Some msg => Build_HttpError st c msg
  | _, _, _ =>
      match err_code err with
      | Some _ => bankGrpcError err
      | None => Build_HttpError 500 "INTERNAL_ERROR" "An unexpected error occurred"
      end
  end.

Definition errorHandler (err : js_error) (req : Request) (headers : list (string * string))
    : gw outcome :=
  let* m := meta req in
  let h := handled err in
  Ret (Respond headers (status h) (Json (JObj (fail_body (error_code h) (message h) m)))).

(** A handler as Express runs it: [next(err)] and a rejection both reach the
    error handler, a response ends the request. *)
Definition serve (req : Request) (handler : gw outcome) : gw outcome :=
  let* r := attempt handler in
  match r with
  | Ok (Respond hs s p) => Ret (Respond hs s p)
  | Ok (NextError hs e) => errorHandler e req hs
  | Err e => errorHandler e req []
  end.

(** ** Properties *)

(** An error that a mapping produced is relayed unchanged. *)
Lemma handled_http_err h : handled (http_err h) = h.
Proof. by destruct h. Qed.

Definition is_error_status (st : Z) : Prop := 400 <= st <= 599.

Lemma mappings_error_status err :
  is_error_status (status (caGrpcError err)) /\ is_error_status (status (caAdminGrpcError err)) /\
  is_error_status (status (asGrpcError err)) /\ is_error_status (status (tgsGrpcError err)) /\
  is_error_status (status (bankGrpcError err)).
Proof.
  unfold is_error_status, caGrpcError, caAdminGrpcError, asGrpcError, tgsGrpcError, bankGrpcError.
  destruct (err_code err) as [[]|]; cbn; lia.
Qed.

(** The domain code of a bank failure comes from the metadata, from the list of
    admin codes or from the status, and from nowhere else. *)
Definition generic_bank_codes : list string :=
  ["BAD_REQUEST"; "UNAUTHENTICATED"; "FORBIDDEN"; "NOT_FOUND"; "ALREADY_EXISTS";
   "UNPROCESSABLE_ENTITY"; "RATE_LIMITED"; "SERVICE_UNAVAILABLE"; "INTERNAL_ERROR"].

(** [errorHandler] answers every exception: an HTTP error object is relayed
    unchanged (so [next(caGrpcError(err))] reaches the client as mapped); a gRPC
    error is answered by [bankGrpcError], whose code is the trailing metadata
    code, one of the admin codes or the generic code of its status, a service
    that does not answer being 503; anything else is an opaque 500 that does not
    carry the error's text. *)
Theorem errorHandler_total err :
  (forall h, err = http_err h -> handled err = h) /\
  (err_status err = None -> forall c, err_code err = Some c ->
     handled err = bankGrpcError err /\ is_error_status (status (handled err)) /\
     (error_code (handled err) ∈ admin_bank_codes ++ generic_bank_codes \/
      err_meta_code err = Some (error_code (handled err))) /\
     (c = UNAVAILABLE \/ c = DEADLINE_EXCEEDED -> status (handled err) = 503)) /\
  (err_status err = None -> err_code err = None ->
     handled err = Build_HttpError 500 "INTERNAL_ERROR" "An unexpected error occurred").
Proof.
  split; [intros h ->; apply handled_http_err|].
  assert (Hd : err_status err = None ->
    handled err = match err_code err with
                  | Some _ => bankGrpcError err
                  | None => Build_HttpError 500 "INTERNAL_ERROR" "An unexpected error occurred"
                  end) by (intros Hs; unfold handled; by rewrite Hs).
  split; [|intros Hs Hc; by rewrite Hd, Hc].
  intros Hs c Hc. rewrite Hd, Hc by done.
  split; [done|]. split; [apply mappings_error_status|]. split.
  - unfold bankGrpcError, grpcMetaCode, adminBankCode.
    destruct (err_meta_code err) as [v|].
    + destruct (String.eqb_spec v "") as [->|Hv].
      * case_bool_decide as Hin.
        -- left. apply elem_of_app. left. rewrite Hc. by destruct c.
        -- left. rewrite Hc. apply (bool_decide_eq_true_1 _). by destruct c.
      * right. rewrite Hc. by destruct c.
    + case_bool_decide as Hin.
      * left. apply elem_of_app. left. rewrite Hc. by destruct c.
      * left. rewrite Hc. apply (bool_decide_eq_true_1 _). by destruct c.
  - intros [-> | ->]; unfold bankGrpcError; by rewrite Hc.
Qed.
