(* ===== verification/Redis.v ===== *)
(** * The key-value store and the world of a request

    Redis is not part of the repository. [Redis] is the interface the handlers
    rely on: what is live under a key at a time, and what each command does to
    it. [RedisSpec] states the documented behaviour of the commands, [map_redis]
    is a finite-map implementation that satisfies it. [gw_env] answers the
    events of a handler with a Redis, a clock that may advance at every event
    and the other services. *)

From S2P Require Import Prelude JsString Effects Gateway.

Open Scope Z_scope.

(** ** The interface *)

(** [live s now k]: the value under [k] at time [now] (milliseconds) and its
    expiry time, if it has one. *)
Class Redis (S : Type) := {
  live : S -> Z -> string -> option (string * option Z);
  set_ex : S -> Z -> string -> string -> Z -> S;
  set : S -> Z -> string -> string -> S;
  incr : S -> Z -> string -> S * result js_error Z;
  expire : S -> Z -> string -> Z -> S;
  ttl : S -> Z -> string -> Z;
  del : S -> Z -> string -> S
}.

(** An entry seen later: gone once its expiry time is reached. *)
Definition age (now : Z) (x : option (string * option Z)) : option (string * option Z) :=
  match x with
  | Some (v, Some e) => if e <=? now then None else Some (v, Some e)
  | x => x
  end.

Class RedisSpec (S : Type) `{Redis S} := {
  live_later s t t' k : t <= t' -> live s t' k = age t' (live s t k);
  live_set_ex s t k v n k' : 0 < n ->
    live (set_ex s t k v n) t k' =
    if String.eqb k' k then Some (v, Some (t + 1000 * n)) else live s t k';
  live_set s t k v k' :
    live (set s t k v) t k' = if String.eqb k' k then Some (v, None) else live s t k';
  live_del s t k k' :
    live (del s t k) t k' = if String.eqb k' k then None else live s t k';
  live_expire s t k n k' : 0 < n ->
    live (expire s t k n) t k' =
    if String.eqb k' k
    then match live s t k with Some (v, _) => Some (v, Some (t + 1000 * n)) | None => None end
    else live s t k';
  incr_absent s t k : live s t k = None ->
    (incr s t k).2 = Ok 1 /\
    forall k', live (incr s t k).1 t k' =
               if String.eqb k' k then Some (Z_string 1, None) else live s t k';
  incr_present s t k n e : live s t k = Some (Z_string n, e) -> - 2 ^ 63 <= n < 2 ^ 63 - 1 ->
    (incr s t k).2 = Ok (n + 1) /\
    forall k', live (incr s t k).1 t k' =
               if String.eqb k' k then Some (Z_string (n + 1), e) else live s t k'
}.

(** ** A finite-map implementation *)

Abbreviation map_store := (gmap string (string * option Z)).

Definition map_live (s : map_store) (t : Z) (k : string) : option (string * option Z) :=
  age t (s !! k).

(** The 64-bit integer that a value spells, as [INCR] reads it. *)
Definition int_value (v : string) : option Z :=
  match parseInt v with
  | Some n => if String.eqb (Z_string n) v && (- 2 ^ 63 <=? n) && (n <? 2 ^ 63) then Some n else None
  | None => None
  end.

#[export] Instance map_redis : Redis map_store := {
  live := map_live;
  set_ex s t k v n := <[k := (v, Some (t + 1000 * n))]> s;
  set s t k v := <[k := (v, None)]> s;
  incr s t k :=
    match map_live s t k with
    | None => (<[k := (Z_string 1, None)]> s, Ok 1)
    | Some (v, e) =>
        match int_value v with
        | Some n =>
            if n <? 2 ^ 63 - 1 then (<[k := (Z_string (n + 1), e)]> s, Ok (n + 1))
            else (s, Err (plain_error "ERR increment or decrement would overflow"))
        | None => (s, Err (plain_error "ERR value is not an integer or out of range"))
        end
    end;
  expire s t k n :=
    match map_live s t k with
    | Some (v, _) => if n <=? 0 then delete k s else <[k := (v, Some (t + 1000 * n))]> s
    | None => s
    end;
  ttl s t k :=
    match map_live s t k with
    | None => -2
    | Some (_, None) => -1
    | Some (_, Some e) => (e - t + 500) / 1000
    end;
  del s t k := delete k s
}.

Lemma age_later t t' x : t <= t' -> age t' (age t x) = age t' x.
Proof.
  intros Ht. destruct x as [[v [e|]]|]; [|done|done]. cbn.
  destruct (Z.leb_spec e t); cbn; [|done]. by rewrite (proj2 (Z.leb_le e t')) by lia.
Qed.

Lemma map_live_insert s t k v e k' :
  (forall x, e = Some x -> t < x) ->
  map_live (<[k := (v, e)]> s) t k' = if String.eqb k' k then Some (v, e) else map_live s t k'.
Proof.
  intros He. unfold map_live. destruct (String.eqb_spec k' k) as [->|Hk].
  - rewrite lookup_insert_eq. destruct e as [e|]; [|done]. cbn.
    specialize (He e eq_refl). by rewrite (proj2 (Z.leb_gt e t)) by lia.
  - by rewrite lookup_insert_ne by congruence.
Qed.

Lemma map_live_delete s t k k' :
  map_live (delete k s) t k' = if String.eqb k' k then None else map_live s t k'.
Proof.
  unfold map_live. destruct (String.eqb_spec k' k) as [->|Hk].
  - by rewrite lookup_delete_eq.
  - by rewrite lookup_delete_ne by congruence.
Qed.

Lemma map_live_fresh s t k v e : map_live s t k = Some (v, Some e) -> t < e.
Proof.
  unfold map_live, age. intros H. destruct (s !! k) as [[w [x|]]|]; [|done|done].
  destruct (Z.leb_spec x t); [done|]. by injection H as -> ->.
Qed.

Lemma int_value_Z_string n : - 2 ^ 63 <= n < 2 ^ 63 -> int_value (Z_string n) = Some n.
Proof.
  intros H. unfold int_value. rewrite parseInt_Z_string, String.eqb_refl.
  rewrite (proj2 (Z.leb_le _ _)), (proj2 (Z.ltb_lt _ _)) by lia. done.
Qed.

#[export] Instance map_redis_spec : RedisSpec map_store.
Proof.
  split; cbn.
  - intros s t t' k Ht. unfold map_live. by rewrite age_later.
  - intros s t k v n k' Hn. apply map_live_insert. intros x [= <-]. lia.
  - intros s t k v k'. by apply map_live_insert.
  - intros s t k k'. apply map_live_delete.
  - intros s t k n k' Hn. destruct (map_live s t k) as [[v e]|] eqn:Hl.
    + rewrite (proj2 (Z.leb_gt n 0)) by lia. apply map_live_insert. intros x [= <-]. lia.
    + destruct (String.eqb_spec k' k) as [->|]; done.
  - intros s t k Hl. rewrite Hl. split; [done|]. intros k'. by apply map_live_insert.
  - intros s t k n e Hl Hn. rewrite Hl, int_value_Z_string by lia.
    rewrite (proj2 (Z.ltb_lt n (2 ^ 63 - 1))) by lia. split; [done|]. intros k'.
    apply map_live_insert. intros x ->. by eapply map_live_fresh.
Qed.

(** ** The world of a request *)

Section world.

Context {S V : Type} `{Redis S}.

(** [svc] is the state of the other services. *)
Record world := World { store : S; now : Z; svc : V }.

(** How much the clock advances before an event, and the other services. *)
Context (delay : event -> world -> N) (serve : forall e : event, V -> V * reply e).

Definition apply_write (t : Z) (s : S) (w : redis_write) : S :=
  match w with
  | WSet k v => set s t k v
  | WSetEx k v n => set_ex s t k v n
  | WDel k => del s t k
  end.

Definition tick (e : event) (w : world) : Z := now w + Z.of_N (delay e w).

Definition gw_env (e : event) (w : world) : world * reply e :=
  let t := tick e w in
  let upd s := World s t (svc w) in
  match e with
  | RedisGet k => (upd (store w), Ok (option_map fst (live (store w) t k)))
  | RedisSetEx k v n => (upd (set_ex (store w) t k v n), Ok tt)
  | RedisIncr k => let '(s, r) := incr (store w) t k in (upd s, r)
  | RedisExpire k n => (upd (expire (store w) t k n), Ok tt)
  | RedisTtl k => (upd (store w), Ok (ttl (store w) t k))
  | RedisDel k => (upd (del (store w) t k), Ok tt)
  | RedisMulti ws => (upd (foldl (apply_write t) (store w) ws), Ok tt)
  | DateNow => (upd (store w), t)
  | e => let '(v, r) := serve e (svc w) in (World (store w) t v, r)
  end.

Lemma gw_env_now e w : now (gw_env e w).1 = tick e w.
Proof.
  unfold gw_env. destruct e; cbn; try done;
    try (by match goal with |- context [serve ?e ?v] => destruct (serve e v) end).
  by destruct (incr _ _ _).
Qed.

Lemma tick_later e w : now w <= tick e w.
Proof. unfold tick. lia. Qed.

End world.

Arguments world S V : clear implicits.
Arguments World {S V} store now svc.

(** Time never runs backwards along an interleaving. *)
Lemma pool_now {S V A} `{Redis S} (delay : event -> world S V -> N) serve
    (c c' : list (gw A) * world S V) :
  pool_steps (gw_env delay serve) c c' -> now c.2 <= now c'.2.
Proof.
  intros Hs. induction Hs as [c | c1 c2 c3 H12 _ IH]; [lia|].
  etrans; [|exact IH]. destruct H12 as [i ps e k w w' r _ He]. cbn.
  pose proof (gw_env_now delay serve e w) as Hn. rewrite He in Hn. cbn in Hn. rewrite Hn.
  apply tick_later.
Qed.

Lemma run_now {S V A} `{Redis S} (delay : event -> world S V -> N) serve (p : gw A) w w' t o :
  run (gw_env delay serve) p w = (w', t, o) -> now w <= now w'.
Proof.
  revert w w' t o. induction p as [a | x | e k IH]; intros w w' t o Hr.
  - injection Hr as <- _ _. lia.
  - injection Hr as <- _ _. lia.
  - cbn in Hr. destruct (gw_env delay serve e w) as [w1 r] eqn:He.
    destruct (run _ (k r) w1) as [[w2 t2] o2] eqn:H2. injection Hr as <- _ _.
    apply IH in H2. pose proof (gw_env_now delay serve e w) as Hn. rewrite He in Hn. cbn in Hn.
    pose proof (tick_later delay e w). lia.
Qed.

(** ** Weakest preconditions of a handler in this world *)

Section wp.

Context {S V : Type} `{Redis S}.
Context (delay : event -> world S V -> N) (serve : forall e : event, V -> V * reply e).

Definition post (A : Type) := world S V -> gw_trace -> result js_error A -> Prop.

Definition wp {A} (p : gw A) (w : world S V) (Q : post A) : Prop :=
  let '(w', t, r) := run (gw_env delay serve) p w in Q w' t r.

Lemma wp_ret {A} (a : A) w (Q : post A) : Q w [] (Ok a) -> wp (Ret a) w Q.
Proof. done. Qed.

Lemma wp_raise {A} x w (Q : post A) : Q w [] (Err x) -> wp (Raise x) w Q.
Proof. done. Qed.

Lemma wp_vis {A} e (k : reply e -> gw A) w (Q : post A) :
  (let '(w', r) := gw_env delay serve e w in
   wp (k r) w' (fun w'' t => Q w'' (Obs e r :: t))) -> wp (Vis e k) w Q.
Proof.
  unfold wp. cbn. destruct (gw_env delay serve e w) as [w1 r]. intros Hq.
  by destruct (run _ (k r) w1) as [[w2 t] o].
Qed.

Lemma wp_mono {A} (p : gw A) w (Q Q' : post A) :
  (forall w' t r, Q w' t r -> Q' w' t r) -> wp p w Q -> wp p w Q'.
Proof. unfold wp. destruct (run _ p w) as [[w' t] r]. auto. Qed.

Lemma wp_bind {A B} (p : gw A) (f : A -> gw B) w (Q : post B) :
  wp p w (fun w' t r => match r with
                        | Ok a => wp (f a) w' (fun w'' t' => Q w'' (t ++ t'))
                        | Err x => Q w' t (Err x)
                        end) -> wp (bind p f) w Q.
Proof.
  unfold wp. rewrite run_bind. destruct (run _ p w) as [[w1 t1] [a|x]]; [|done].
  by destruct (run _ (f a) w1) as [[w2 t2] r2].
Qed.

Lemma wp_run {A} (p : gw A) w w' t r (Q : post A) :
  run (gw_env delay serve) p w = (w', t, r) -> wp p w Q -> Q w' t r.
Proof. unfold wp. by intros ->. Qed.

End wp.

(** One event: its time is only known not to be before the last one. *)
Ltac wp_step :=
  lazymatch goal with
  | |- wp ?delay _ (Vis ?e _) ?w _ =>
      apply wp_vis; cbn [gw_env now store svc];
      let t := fresh "t" in let Ht := fresh "Ht" in
      pose proof (tick_later delay e w) as Ht; cbn [now store svc] in Ht |- *;
      set (t := tick delay e w) in Ht |- *; clearbody t
  end.

(** What is only claimed of early ends holds when it is already late. *)
Lemma wp_late {S V A} `{Redis S} (delay : event -> world S V -> N) serve (p : gw A) w deadline Q :
  deadline <= now w -> (forall w' t r, deadline <= now w' -> Q w' t r) -> wp delay serve p w Q.
Proof.
  intros Hd Hq. unfold wp. destruct (run _ p w) as [[w' t] r] eqn:Hr. apply Hq.
  apply run_now in Hr. lia.
Qed.

(** Services for concrete runs: audit and mail succeed, the identifiers are
    numbered, every other service is down. *)
Definition offline : js_error :=
  {| err_code := Some UNAVAILABLE; err_details := Some "offline"; err_message := None;
     err_meta_code := None; err_status := None; err_error_code := None; err_name := "Error";
     err_activation := None |}.

Definition quiet_services (e : event) (v : nat) : nat * reply e :=
  match e return nat * reply e with
  | RedisGet _ | RedisIncr _ | RedisTtl _ => (v, Err offline)
  | RedisSetEx _ _ _ | RedisExpire _ _ | RedisDel _ | RedisMulti _ => (v, Err offline)
  | DateNow => (v, 0)
  | RandomInt lo _ => (v, lo)
  | RandomUUID | RandomToken _ => (S v, "id-" +:+ Z_string (Z.of_nat v))
  | MailAdd _ _ => (v, tt)
  | CaAppendAudit _ _ => (v, Ok tt)
  | _ => (v, Err offline)
  end.
