(* ===== verification/RateLimiter.v ===== *)
(** * Rate limits ([middleware/rateLimiter.ts] and the activation limiters)

    A limiter counts requests under a key with [INCR], gives the counter its
    window on the first request, and answers 429 above the maximum. The three
    activation and OTP variants differ in their key and body. *)

From S2P Require Import Prelude JsString Effects Gateway Redis.

Open Scope Z_scope.

Record LimitConfig := { window : Z; max : Z }.

(** The reply above the maximum. *)
Definition too_many (retryAfter : Z) (code : string) : outcome :=
  Respond [("Retry-After", Z_string retryAfter)] 429
    (Json (JObj [("success", JBool false); ("error_code", JStr code);
                 ("message", JStr ("Too many requests. Try again in " +:+ Z_string retryAfter +:+
                                   " seconds."))])).

Definition check `{ENV} (key : string) (cfg : LimitConfig) (code : string) : middleware unit :=
  if RATE_LIMIT_DISABLED then Ret (Ok tt)
  else
    catch
      (let* count := redis_incr key in
       do* (if count =? 1 then redis_expire key (window cfg) else Ret tt) in
       if max cfg <? count then
         let* ttl := redis_ttl key in
         let retryAfter := if 0 <? ttl then ttl else window cfg in
         Ret (Err (too_many retryAfter code))
       else Ret (Ok tt))
      (fun _ => Ret (Ok tt)).

(** [req.ip ?? req.socket.remoteAddress ?? unknown]. *)
Definition caller_ip (req : Request) : string :=
  match ip req with Some a => a | None => default "unknown" (remoteAddress req) end.

Definition rateLimitByIP `{ENV} (req : Request) : middleware unit :=
  check (RedisKeys.IP_RATE_LIMIT +:+ caller_ip req)
    {| window := RATE_LIMIT_AS_WINDOW_SECONDS; max := RATE_LIMIT_AS_MAX |} "AUTH_RATE_LIMITED".

Definition rateLimitBankByIP `{ENV} (req : Request) : middleware unit :=
  check (RedisKeys.BANK_RATE_LIMIT +:+ caller_ip req)
    {| window := RATE_LIMIT_BANK_WINDOW_SECONDS; max := RATE_LIMIT_BANK_MAX |} "BANK_RATE_LIMITED".

Definition rateLimitByCertSn `{ENV} (req : Request) : middleware unit :=
  let certSn := prop "cert_sn" (body req) in
  if falsy certSn then Ret (Ok tt)
  else check (RedisKeys.CERT_RATE_LIMIT +:+ js_String certSn)
         {| window := RATE_LIMIT_TGS_WINDOW_SECONDS; max := RATE_LIMIT_TGS_MAX |}
         "AUTH_RATE_LIMITED".

(** [req.body?.email?.toLowerCase().trim()] raises on a value that is neither a
    string nor nullish. *)
Definition rateLimitOtpByEmail `{ENV} (req : Request) : middleware unit :=
  match prop "email" (body req) with
  | JUndefined | JNull => Ret (Ok tt)
  | JStr s =>
      let email := trim (toLowerCase s) in
      if String.eqb email "" then Ret (Ok tt)
      else check (RedisKeys.EMAIL_RATE_LIMIT +:+ email)
             {| window := RATE_LIMIT_OTP_WINDOW_SECONDS; max := RATE_LIMIT_OTP_MAX |}
             "OTP_RATE_LIMITED"
  | _ => Raise (plain_error "req.body?.email?.toLowerCase is not a function")
  end.

(** The activation limiters: 10 requests in 300 seconds, no [Retry-After], and
    no switch to disable them. *)
Definition activation_limit (key code : string) : middleware unit :=
  catch
    (let* count := redis_incr key in
     do* (if count =? 1 then redis_expire key 300 else Ret tt) in
     if 10 <? count then
       Ret (Err (respond 429
         [("success", JBool false); ("error_code", JStr code);
          ("message", JStr "Too many activation attempts. Try again later.")]))
     else Ret (Ok tt))
    (fun _ => Ret (Ok tt)).

Definition rateLimitAdminCaActivationByIP (req : Request) : middleware unit :=
  activation_limit ("rate:admin-ca-activation:" +:+ caller_ip req) "ADMIN_CA_ACTIVATION_RATE_LIMITED".

Definition rateLimitAdminActivationByIP (req : Request) : middleware unit :=
  activation_limit ("rate:admin-bank-activation:" +:+ caller_ip req) "ADMIN_ACTIVATION_RATE_LIMITED".

(** ** The counter under a key *)

Section counter.

Context {S V : Type} `{RedisSpec S}.
Context (delay : event -> world S V -> N) (serve : forall e : event, V -> V * reply e).

(** [counted key deadline c w]: [c] requests counted under [key], which does not
    expire before [deadline]. *)
Definition counted (key : string) (deadline c : Z) (w : world S V) : Prop :=
  0 <= c < 2 ^ 63 - 1 /\
  match live (store w) (now w) key with
  | None => c = 0
  | Some (v, e) => 1 <= c /\ v = Z_string c /\ forall x, e = Some x -> deadline <= x
  end.

(** Reading later, before the deadline, does not change the count. *)
Lemma counted_later key deadline c w t :
  counted key deadline c w -> now w <= t < deadline ->
  counted key deadline c (World (store w) t (svc w)).
Proof.
  intros [Hc Hl] Ht. split; [done|]. cbn. rewrite (live_later _ (now w)) by lia.
  destruct (live (store w) (now w) key) as [[v [e|]]|]; cbn; [|done|done].
  assert (t < e) by (destruct Hl as (_ & _ & He); specialize (He e eq_refl); lia).
  by rewrite (proj2 (Z.leb_gt e t)) by lia.
Qed.

Lemma incr_counted key deadline c w w' r :
  counted key deadline c w -> c + 1 < 2 ^ 63 - 1 ->
  gw_env delay serve (RedisIncr key) w = (w', r) -> now w' < deadline ->
  r = Ok (c + 1) /\ counted key deadline (c + 1) w'.
Proof.
  intros Hc Hb He Hd. cbn in He.
  destruct (incr (store w) (tick delay (RedisIncr key) w) key) as [s r'] eqn:Hi.
  injection He as <- <-. cbn in Hd.
  destruct (counted_later key deadline c w (tick delay (RedisIncr key) w) Hc) as [Hr Hl];
    [split; [apply tick_later | done]|]. cbn in Hl.
  destruct (live (store w) _ key) as [[v e]|] eqn:Hk.
  - destruct Hl as (H1 & -> & He).
    destruct (incr_present _ _ _ _ _ Hk) as [Hok Hst]; [lia|]. rewrite Hi in *. cbn in *.
    split; [done|]. split; [lia|]. cbn. rewrite Hst, String.eqb_refl. split_and!; [lia|done|done].
  - subst c. destruct (incr_absent _ _ _ Hk) as [Hok Hst]. rewrite Hi in *. cbn in *.
    split; [done|]. split; [lia|]. cbn. rewrite Hst, String.eqb_refl. split_and!; [lia|done|done].
Qed.

Lemma expire_counted key deadline c w w' r n :
  counted key deadline c w -> 0 < n -> deadline <= now w + 1000 * n ->
  gw_env delay serve (RedisExpire key n) w = (w', r) -> now w' < deadline ->
  r = Ok tt /\ counted key deadline c w'.
Proof.
  intros Hc Hn Hd He Ht. cbn in He. injection He as <- <-. cbn in Ht.
  pose proof (tick_later delay (RedisExpire key n) w) as Hle.
  destruct (counted_later key deadline c w (tick delay (RedisExpire key n) w) Hc) as [Hr Hl]; [done|].
  split; [done|]. split; [done|]. cbn in *. rewrite live_expire, String.eqb_refl by done.
  destruct (live (store w) _ key) as [[v e]|]; [|done].
  destruct Hl as (? & ? & ?). split_and!; [done|done|]. intros x [= <-]. lia.
Qed.

Lemma ttl_counted key deadline c w w' r :
  counted key deadline c w ->
  gw_env delay serve (RedisTtl key) w = (w', r) -> now w' < deadline ->
  (exists n, r = Ok n) /\ counted key deadline c w'.
Proof.
  intros Hc He Hd. cbn in He. injection He as <- <-. cbn in Hd.
  split; [eauto|]. apply counted_later; [done|]. split; [apply tick_later|done].
Qed.

End counter.

(** ** Concurrent requests under one key *)

Section concurrent.

Context {S V : Type} `{RedisSpec S}.
Context (delay : event -> world S V -> N) (serve : forall e : event, V -> V * reply e).
Context `{ENV} (key : string) (cfg : LimitConfig) (code : string).
Context (Henabled : RATE_LIMIT_DISABLED = false) (Hwindow : 0 < window cfg) (Hmax : 1 <= max cfg).

(** The rest of [check] once the counter was read. *)
Definition after_incr (count : Z) : middleware unit :=
  catch
    (do* (if count =? 1 then redis_expire key (window cfg) else Ret tt) in
     if max cfg <? count then
       let* ttl := redis_ttl key in
       let retryAfter := if 0 <? ttl then ttl else window cfg in
       Ret (Err (too_many retryAfter code))
     else Ret (Ok tt))
    (fun _ => Ret (Ok tt)).

(** Where a request is in [check]. *)
Inductive stage : middleware unit -> Prop :=
| st_new : stage (check key cfg code)
| st_expire : stage (after_incr 1)
| st_ttl c : max cfg < c -> stage (after_incr c)
| st_pass : stage (Ret (Ok tt))
| st_block n : stage (Ret (Err (too_many n code))).

(** The request was counted and goes, or will go, to the handler. *)
Definition passing (p : middleware unit) : bool :=
  match p with
  | Ret (Ok _) | Vis (RedisExpire _ _) _ => true
  | _ => false
  end.

Definition uncounted (p : middleware unit) : bool :=
  match p with Vis (RedisIncr _) _ => true | _ => false end.

Lemma stage_step t0 c p :
  stage p ->
  match p with
  | Vis e k => forall w w' r,
      counted key (t0 + 1000 * window cfg) c w -> c + 1 < 2 ^ 63 - 1 -> t0 <= now w ->
      gw_env delay serve e w = (w', r) -> now w' < t0 + 1000 * window cfg ->
      stage (k r) /\ uncounted (k r) = false /\
      exists c', counted key (t0 + 1000 * window cfg) c' w' /\ c' = c + Z.b2z (uncounted p) /\
        (passing (k r) = true -> passing p = true \/ c < c' <= max cfg)
  | _ => True
  end.
Proof.
  intros Hs. destruct Hs as [| | c0 Hc0 | |]; [| | |done|done].
  - unfold check. rewrite Henabled. cbn [catch bind redis_incr].
    intros w w' r Hc Hb Ht He Hd.
    destruct (incr_counted delay serve key _ c w w' r Hc Hb He Hd) as [-> Hc'].
    change (stage (after_incr (c + 1)) /\ uncounted (after_incr (c + 1)) = false /\
      exists c', counted key (t0 + 1000 * window cfg) c' w' /\ c' = c + 1 /\
        (passing (after_incr (c + 1)) = true -> false = true \/ c < c' <= max cfg)).
    destruct Hc as [Hc _].
    assert (Hst : stage (after_incr (c + 1)) /\ uncounted (after_incr (c + 1)) = false /\
                  (passing (after_incr (c + 1)) = true -> c + 1 <= max cfg)).
    { destruct (Z.ltb_spec (max cfg) (c + 1)) as [Hlt|Hge].
      - split; [by constructor|]. unfold after_incr.
        rewrite (proj2 (Z.eqb_neq (c + 1) 1)) by lia. cbn [bind].
        rewrite (proj2 (Z.ltb_lt (max cfg) (c + 1))) by done. done.
      - destruct (Z.eqb_spec (c + 1) 1) as [->|Hne]; [by split_and!; [constructor|..]|].
        unfold after_incr. rewrite (proj2 (Z.eqb_neq (c + 1) 1)) by done. cbn [bind].
        rewrite (proj2 (Z.ltb_ge (max cfg) (c + 1))) by done. split_and!; [constructor|done|done]. }
    destruct Hst as (? & ? & Hp). split_and!; [done|done|].
    exists (c + 1). split_and!; [done|cbn; lia|]. intros P. right. specialize (Hp P). lia.
  - unfold after_incr. cbn [Z.eqb Pos.eqb bind redis_expire catch].
    intros w w' r Hc Hb Ht He Hd.
    destruct (expire_counted delay serve key _ c w w' r (window cfg) Hc Hwindow) as [-> Hc'];
      [lia | done | done |].
    cbn [of_result bind]. rewrite (proj2 (Z.ltb_ge (max cfg) 1)) by lia. cbn.
    split_and!; [constructor | done |]. exists c. split_and!; [done | lia |]. by left.
  - unfold after_incr. rewrite (proj2 (Z.eqb_neq c0 1)) by lia. cbn [bind].
    rewrite (proj2 (Z.ltb_lt (max cfg) c0)) by done. cbn [bind redis_ttl catch].
    intros w w' r Hc Hb Ht He Hd.
    destruct (ttl_counted delay serve key _ c w w' r Hc He Hd) as [[n ->] Hc'].
    cbn. split_and!; [constructor | done |]. exists c. split_and!; [done | lia | done].
Qed.

Definition pool_ok (t0 : Z) (n : nat) (c : list (middleware unit) * world S V) : Prop :=
  Forall stage c.1 /\ length c.1 = n /\ t0 <= now c.2 /\
  exists k, counted key (t0 + 1000 * window cfg) k c.2 /\
    k + Z.of_nat (countb uncounted c.1) = Z.of_nat n /\
    Z.of_nat (countb passing c.1) <= Z.min k (max cfg).

Lemma pool_ok_step t0 n c c' :
  Z.of_nat n < 2 ^ 63 - 2 -> pool_ok t0 n c -> pool_step (gw_env delay serve) c c' ->
  now c'.2 < t0 + 1000 * window cfg -> pool_ok t0 n c'.
Proof.
  intros Hn (Hst & Hlen & Ht & k & Hk & Hsum & Hpass) Hstep Hd.
  destruct Hstep as [i ps e kont w w' r Hi He]. cbn [fst snd] in *.
  pose proof (gw_env_now delay serve e w) as Hnow. rewrite He in Hnow. cbn in Hnow.
  pose proof (tick_later delay e w).
  assert (Hp : stage (Vis e kont)) by (rewrite Forall_lookup in Hst; eauto).
  pose proof (stage_step t0 k _ Hp w w' r Hk ltac:(lia) Ht He Hd)
    as (Hs' & Hu & k' & Hk' & -> & Hpp).
  pose proof (countb_insert uncounted ps i _ (kont r) Hi) as HU.
  pose proof (countb_insert passing ps i _ (kont r) Hi) as HP.
  rewrite Hu in HU.
  split_and!; cbn [fst snd]; [by apply Forall_insert | by rewrite length_insert | lia |].
  eexists. split; [exact Hk'|]. clear Hk' Hs' Hp He Hi Hu Hst.
  generalize dependent (uncounted (Vis e kont)). generalize dependent (passing (Vis e kont)).
  generalize dependent (passing (kont r)). intros q1 q2 HP u Hpp HU. unfold middleware in *.
  split; [destruct u; cbn [Nat.b2n Z.b2z] in *; lia|].
  destruct q1; [destruct (Hpp eq_refl)|]; destruct q2, u; cbn [Nat.b2n Z.b2z] in *; try done; lia.
Qed.

Lemma pool_ok_steps t0 n c c' :
  Z.of_nat n < 2 ^ 63 - 2 -> pool_ok t0 n c -> pool_steps (gw_env delay serve) c c' ->
  now c'.2 < t0 + 1000 * window cfg -> pool_ok t0 n c'.
Proof.
  intros Hn Hok Hs. induction Hs as [c | c1 c2 c3 H12 H23 IH]; intros Hd; [done|].
  apply IH; [|done]. eapply pool_ok_step; [done | done | exact H12 |].
  pose proof (pool_now delay serve _ _ H23). lia.
Qed.

Lemma pool_ok_start t0 n w :
  now w = t0 -> live (store w) t0 key = None -> pool_ok t0 n (replicate n (check key cfg code), w).
Proof.
  intros Ht Hl.
  assert (Hu : uncounted (check key cfg code) = true) by (unfold check; by rewrite Henabled).
  assert (Hp : passing (check key cfg code) = false) by (unfold check; by rewrite Henabled).
  split_and!; cbn [fst snd]; [| by rewrite length_replicate | lia |].
  - apply Forall_forall. intros p [-> _]%elem_of_replicate. constructor.
  - exists 0. split_and!.
    + split; [lia|]. rewrite Ht, Hl. done.
    + rewrite countb_replicate, Hu. cbn. lia.
    + rewrite countb_replicate, Hp. cbn. lia.
Qed.

End concurrent.

(** The request went on to the handler. *)
Definition admitted (p : middleware unit) : bool :=
  match p with Ret (Ok _) => true | _ => false end.

(** Whatever the interleaving of [n] requests under one key, and however
    long each command takes, at most [max] of them are admitted until the window
    that starts with the first one is over. *)
Theorem rate_limit_concurrent {S V} `{RedisSpec S} (delay : event -> world S V -> N) serve `{ENV}
    key cfg code n (w : world S V) c' :
  RATE_LIMIT_DISABLED = false -> 0 < window cfg -> 1 <= max cfg -> Z.of_nat n < 2 ^ 63 - 2 ->
  live (store w) (now w) key = None ->
  pool_steps (gw_env delay serve) (replicate n (check key cfg code), w) c' ->
  now c'.2 < now w + 1000 * window cfg ->
  Z.of_nat (countb admitted c'.1) <= max cfg.
Proof.
  intros Hen Hw Hm Hn Hl Hs Hd.
  destruct (pool_ok_steps delay serve key cfg code Hen Hw Hm (now w) n _ _ Hn
              (pool_ok_start key cfg code Hen Hm (now w) n w eq_refl Hl) Hs Hd)
    as (_ & _ & _ & k & _ & _ & Hp).
  assert (countb admitted c'.1 <= countb passing c'.1)%nat; [|unfold middleware in *; lia].
  apply countb_weaken. intros [[]| |] _ Ha; done.
Qed.

(** Three interleaved requests with a maximum of two. *)
Lemma rate_limit_concurrent_witness :
  let cfg := {| window := 60; max := 2 |} in
  let w : world map_store nat := World ∅ 1000 0%nat in
  let c' := run_schedule (gw_env (fun _ _ => 1%N) quiet_services) [0; 1; 2; 0; 2; 1; 0; 2]%nat
              (replicate 3 (check (H := default_env) "k" cfg "LIMITED")) w in
  countb admitted c'.1 = 2%nat /\ Z.of_nat (countb admitted c'.1) <= 2.
Proof.
  intros cfg w c'. split; [reflexivity|].
  apply (rate_limit_concurrent (H1 := default_env) (fun _ _ => 1%N) quiet_services "k" cfg "LIMITED" 3 w);
    [reflexivity | reflexivity | intros Hx; discriminate Hx | reflexivity | reflexivity
    | apply run_schedule_steps | reflexivity].
Defined.

(** ** One request after the other *)

Section sequential.

Context {S V : Type} `{RedisSpec S}.
Context (delay : event -> world S V -> N) (serve : forall e : event, V -> V * reply e).
Context `{ENV} (key : string) (cfg : LimitConfig) (code : string).
Context (Henabled : RATE_LIMIT_DISABLED = false) (Hwindow : 0 < window cfg).

(** Running [n] requests in turn. *)
Fixpoint run_requests (n : nat) (w : world S V)
    : world S V * list (result js_error (result outcome unit)) :=
  match n with
  | O => (w, [])
  | Datatypes.S n' =>
      let '(w1, _, r) := run (gw_env delay serve) (check key cfg code) w in
      let '(w2, rs) := run_requests n' w1 in (w2, r :: rs)
  end.

Definition verdict (count : Z) (r : result js_error (result outcome unit)) : Prop :=
  if count <=? max cfg then r = Ok (Ok tt)
  else exists ra, 0 < ra /\ r = Ok (Err (too_many ra code)).

Lemma check_counted t0 c w w' t r :
  counted key (t0 + 1000 * window cfg) c w -> c + 1 < 2 ^ 63 - 1 -> t0 <= now w -> 1 <= max cfg ->
  run (gw_env delay serve) (check key cfg code) w = (w', t, r) ->
  now w' < t0 + 1000 * window cfg ->
  counted key (t0 + 1000 * window cfg) (c + 1) w' /\ verdict (c + 1) r.
Proof.
  intros Hc Hb Ht Hm Hrun Hd. unfold check in Hrun. rewrite Henabled in Hrun.
  cbn [bind catch run redis_incr] in Hrun.
  destruct (gw_env delay serve (RedisIncr key) w) as [w1 r1] eqn:He1.
  destruct (run _ _ w1) as [[w2 t2] o2] eqn:H2. injection Hrun as <- _ <-.
  pose proof (run_now _ _ _ _ _ _ _ H2) as Hn1.
  pose proof (gw_env_now delay serve (RedisIncr key) w) as Hn. rewrite He1 in Hn. cbn in Hn.
  pose proof (tick_later delay (RedisIncr key) w) as Hl.
  destruct (incr_counted delay serve key _ c w w1 r1 Hc Hb He1) as [-> Hc1]; [lia|].
  cbn [of_result bind] in H2. unfold verdict.
  destruct (Z.leb_spec (c + 1) (max cfg)) as [Hle|Hgt].
  - rewrite (proj2 (Z.ltb_ge (max cfg) (c + 1))) in H2 by lia.
    destruct (c + 1 =? 1) eqn:E1.
    + cbn [bind catch run redis_expire] in H2.
      destruct (gw_env delay serve (RedisExpire key (window cfg)) w1) as [w3 r3] eqn:He3.
      destruct (run _ _ w3) as [[w4 t4] o4] eqn:H4. injection H2 as <- _ <-.
      pose proof (run_now _ _ _ _ _ _ _ H4).
      destruct (expire_counted delay serve key _ (c + 1) w1 w3 r3 (window cfg) Hc1 Hwindow) as [-> Hc3];
        [lia | done | lia |].
      cbn in H4. by injection H4 as <- _ <-.
    + cbn in H2. by injection H2 as <- _ <-.
  - rewrite (proj2 (Z.ltb_lt (max cfg) (c + 1))) in H2 by lia.
    rewrite (proj2 (Z.eqb_neq (c + 1) 1)) in H2 by lia.
    cbn [bind catch run redis_ttl] in H2.
    destruct (gw_env delay serve (RedisTtl key) w1) as [w3 r3] eqn:He3.
    destruct (run _ _ w3) as [[w4 t4] o4] eqn:H4. injection H2 as <- _ <-.
    pose proof (run_now _ _ _ _ _ _ _ H4).
    destruct (ttl_counted delay serve key _ (c + 1) w1 w3 r3 Hc1 He3) as [[n ->] Hc3]; [lia|].
    cbn in H4. injection H4 as <- _ <-. split; [done|].
    eexists. split; [|done]. destruct (Z.ltb_spec 0 n); lia.
Qed.

Lemma run_requests_counted t0 n c w w' rs :
  counted key (t0 + 1000 * window cfg) c w -> c + Z.of_nat n < 2 ^ 63 - 1 -> t0 <= now w ->
  1 <= max cfg -> run_requests n w = (w', rs) -> now w' < t0 + 1000 * window cfg ->
  now w <= now w' /\ forall i r, rs !! i = Some r -> verdict (c + 1 + Z.of_nat i) r.
Proof.
  intros Hc Hb Ht Hm. revert c w w' rs Hc Hb Ht.
  induction n as [|n IH]; intros c w w' rs Hc Hb Ht Hr Hd; cbn in Hr.
  { injection Hr as <- <-. split; [lia|done]. }
  destruct (run _ _ w) as [[w1 t1] r1] eqn:Hr1.
  destruct (run_requests n w1) as [w2 rs2] eqn:H2. injection Hr as <- <-.
  pose proof (run_now _ _ _ _ _ _ _ Hr1) as Hn1.
  assert (Hmono : forall m x y l, run_requests m x = (y, l) -> now x <= now y).
  { clear. induction m as [|m IH]; intros x y l Hr; cbn in Hr; [injection Hr as <- _; lia|].
    destruct (run _ _ x) as [[x1 t1] r1] eqn:Hr1. destruct (run_requests m x1) as [x2 l2] eqn:H2.
    injection Hr as <- _. apply IH in H2. apply run_now in Hr1. lia. }
  pose proof (Hmono _ _ _ _ H2) as Hn2.
  destruct (check_counted t0 c w w1 t1 r1 Hc ltac:(lia) Ht Hm Hr1 ltac:(lia)) as [Hc1 Hv].
  destruct (IH (c + 1) w1 w2 rs2 Hc1 ltac:(lia) ltac:(lia) H2 Hd) as [_ Hrs].
  split; [lia|]. intros [|i] r Hi.
  - injection Hi as <-. by rewrite Z.add_0_r.
  - apply Hrs in Hi. by replace (c + 1 + Z.of_nat (Datatypes.S i)) with (c + 1 + 1 + Z.of_nat i) by lia.
Qed.

End sequential.

(** Requests that come one after the other within the window are decided by
    their rank alone: the first [max] reach the handler, every later one gets a
    429 whose [Retry-After] is positive. *)
Theorem rate_limit_exact {S V} `{RedisSpec S} (delay : event -> world S V -> N) serve `{ENV}
    key cfg code n (w w' : world S V) rs :
  RATE_LIMIT_DISABLED = false -> 0 < window cfg -> 1 <= max cfg -> Z.of_nat n < 2 ^ 63 - 1 ->
  live (store w) (now w) key = None ->
  run_requests delay serve key cfg code n w = (w', rs) ->
  now w' < now w + 1000 * window cfg ->
  length rs = n /\
  forall i r, rs !! i = Some r ->
    if Z.of_nat i <? max cfg then r = Ok (Ok tt)
    else exists ra, 0 < ra /\ r = Ok (Err (too_many ra code)).
Proof.
  intros Hen Hw Hm Hn Hl Hr Hd. split.
  - clear -Hr. revert w w' rs Hr. induction n as [|n IH]; intros w w' rs Hr; cbn in Hr.
    + by injection Hr as _ <-.
    + destruct (run _ _ w) as [[w1 t1] r1]. destruct (run_requests _ _ _ _ _ n w1) as [w2 rs2] eqn:H2.
      injection Hr as _ <-. cbn. f_equal. by eapply IH.
  - assert (Hc : counted key (now w + 1000 * window cfg) 0 w) by (split; [lia | by rewrite Hl]).
    destruct (run_requests_counted delay serve key cfg code Hen Hw (now w) n 0 w w' rs Hc)
      as [_ Hv]; [lia | lia | done | done | done |].
    intros i r Hi. specialize (Hv i r Hi). unfold verdict in Hv.
    destruct (Z.leb_spec (0 + 1 + Z.of_nat i) (max cfg)), (Z.ltb_spec (Z.of_nat i) (max cfg)); try lia; done.
Qed.

Lemma rate_limit_exact_witness :
  let cfg := {| window := 60; max := 2 |} in
  let w : world map_store nat := World ∅ 1000 0%nat in
  let res := run_requests (fun _ _ => 1%N) quiet_services (H1 := default_env) "k" cfg "LIMITED" 3 w in
  res.2 !! 1%nat = Some (Ok (Ok tt)) /\
  exists ra, 0 < ra /\ res.2 !! 2%nat = Some (Ok (Err (too_many ra "LIMITED"))).
Proof.
  intros cfg w res.
  destruct (rate_limit_exact (H1 := default_env) (fun _ _ => 1%N) quiet_services "k" cfg "LIMITED" 3 w
              res.1 res.2) as [Hn Hv];
    [reflexivity | reflexivity | intros Hx; discriminate Hx | reflexivity | reflexivity
    | apply surjective_pairing | vm_compute; reflexivity |].
  clearbody res. split.
  - destruct (lookup_lt_is_Some_2 res.2 1) as [r Hr]; [lia|]. rewrite Hr. f_equal. apply (Hv _ _ Hr).
  - destruct (lookup_lt_is_Some_2 res.2 2) as [r Hr]; [lia|]. rewrite Hr.
    destruct (Hv _ _ Hr) as (ra & Hra & ->). by exists ra.
Defined.

(** ** When Redis fails *)

(** The limiters fail open and do nothing else: whatever Redis replies, the
    request is refused only with a 429 after [INCR] replied a count above the
    maximum, and no reply makes the middleware fail. *)
Theorem rate_limit_fail_open `{ENV} key cfg code :
  always (check key cfg code) (fun t o =>
    o = Ok (Ok tt) \/
    exists n ra, max cfg < n /\ Obs (RedisIncr key) (Ok n) ∈ t /\
                 o = Ok (Err (too_many ra code))).
Proof.
  unfold check. destruct RATE_LIMIT_DISABLED; [by left|].
  apply always_catch. cbn. intros [n|x]; cbn; [|by left].
  assert (Hblock : forall l ra, max cfg < n ->
    exists m ra', max cfg < m /\ Obs (RedisIncr key) (Ok m) ∈ Obs (RedisIncr key) (Ok n) :: l /\
      Ok (E := js_error) (Err (A := unit) (too_many ra code)) = Ok (Err (too_many ra' code))).
  { intros l ra Hlt. exists n, ra. split_and!; [done | by left | done]. }
  destruct (n =? 1); cbn; [intros [[]|x]; cbn; [|by left]|];
    destruct (Z.ltb_spec (max cfg) n) as [Hlt|]; cbn; try (by left);
    intros [m|x]; cbn; (by left) || (right; by apply Hblock).
Qed.

(** A counter that has lost its window is never reset: if [EXPIRE] fails
    after the first [INCR] (the failure is swallowed and the request admitted),
    the key keeps no expiry time whatever happens later under [check], and once
    the count has reached the maximum every later request is refused, at any
    time in the future. *)
Theorem lost_window_locks_out {S V} `{RedisSpec S} (delay : event -> world S V -> N) serve `{ENV}
    key cfg code c (w w' : world S V) t r :
  RATE_LIMIT_DISABLED = false -> 1 <= c < 2 ^ 63 - 1 -> max cfg <= c ->
  live (store w) (now w) key = Some (Z_string c, None) ->
  run (gw_env delay serve) (check key cfg code) w = (w', t, r) ->
  live (store w') (now w') key = Some (Z_string (c + 1), None) /\
  exists ra, r = Ok (Err (too_many ra code)).
Proof.
  intros Hen Hc Hm Hl Hr. unfold check in Hr. rewrite Hen in Hr.
  cbn [bind catch run redis_incr gw_env] in Hr.
  set (t1 := tick delay (RedisIncr key) w) in Hr.
  assert (Hl1 : live (store w) t1 key = Some (Z_string c, None))
    by (rewrite (live_later _ (now w)) by apply tick_later; by rewrite Hl).
  destruct (incr_present _ _ _ _ _ Hl1) as [Hok Hst]; [lia|].
  destruct (incr (store w) t1 key) as [s r1]. cbn in Hok, Hst. subst r1.
  cbn [of_result bind] in Hr.
  rewrite (proj2 (Z.eqb_neq (c + 1) 1)), (proj2 (Z.ltb_lt (max cfg) (c + 1))) in Hr by lia.
  cbn in Hr. injection Hr as <- _ <-. cbn. split; [|eauto].
  rewrite (live_later _ t1) by apply (tick_later delay (RedisTtl key) (World s t1 (svc w))).
  by rewrite Hst, String.eqb_refl.
Qed.

Lemma lost_window_locks_out_witness :
  let cfg := {| window := 60; max := 2 |} in
  let w : world map_store nat := World {["k" := ("2", None)]} 1000 0%nat in
  let res := run (gw_env (fun _ _ => 1000000%N) quiet_services)
               (check (H := default_env) "k" cfg "LIMITED") w in
  live (store res.1.1) (now res.1.1) "k" = Some (Z_string (2 + 1), None) /\
  exists ra, res.2 = Ok (Err (too_many ra "LIMITED")).
Proof.
  intros cfg w res.
  apply (lost_window_locks_out (H1 := default_env) (fun _ _ => 1000000%N) quiet_services "k" cfg "LIMITED" 2
           w res.1.1 res.1.2 res.2);
    [reflexivity | split; reflexivity || discriminate | discriminate | reflexivity | exact (triple_eta res)].
Defined.

(** The TGS limiter looks for [cert_sn], a field that the TGS schema, whose
    field is [certSn], does not have: a request with the fields of the schema is
    admitted without a call to Redis. *)
Lemma tgs_requests_not_counted `{ENV} req fields :
  body req = JObj fields ->
  Forall (fun f => f.1 ∈ ["serviceId"; "tgtCiphertext"; "authenticator"; "certSn"; "nonce";
                          "requestedScope"]) fields ->
  rateLimitByCertSn req = Ret (Ok tt).
Proof.
  intros Hb Hf. unfold rateLimitByCertSn. rewrite Hb. cbn.
  assert (Hn : field "cert_sn" fields = None); [|by rewrite Hn].
  clear Hb. induction Hf as [|[k v] l Hk Hl IH]; [done|]. cbn [field]. rewrite IH.
  destruct (String.eqb_spec k "cert_sn") as [He|]; [|done].
  exfalso. cbn in Hk. subst k.
  by repeat (apply elem_of_cons in Hk as [Hk|Hk]; [discriminate Hk|]); apply elem_of_nil in Hk.
Qed.
