(* ===== verification/Otp.v ===== *)
(** * One-time passwords ([controller/otp.controller.ts])

    [handleOtpRequest] stores the HMAC of a code under the address and mails the
    code; [handleOtpVerify] compares a guess, counts failures, and on success
    deletes the code and signs a registration token. *)

From S2P Require Import Prelude JsString JsDate Effects Gateway Redis Buffer Crypto RateLimiter.

Open Scope Z_scope.

(** The request body as the validators leave it. *)
Record OtpVerifyBody := { vb_email : string; vb_otp : string }.

Section handlers.

Context `{ENV} `{Crypto}.

Definition hmacOtp (otp : string) : string := hmac_sha256 GATEWAY_OTP_SECRET otp.

(** [timingSafeEqual] compares buffers of one length. *)
Definition safeEqual (a b : string) : bool :=
  let ba := utf8 a in let bb := utf8 b in
  if negb (zlen ba =? zlen bb) then false else bool_decide (ba = bb).

(** [local[0]] of an empty text and the part after a missing separator print as
    [undefined]. *)
Definition maskEmail (email : string) : string :=
  let parts := split "@" email in
  let local := match parts with String a _ :: _ => String a "" | _ => "undefined" end in
  let domain := match parts with _ :: d :: _ => d | _ => "undefined" end in
  local +:+ "***@" +:+ domain.

Definition handleOtpRequest (req : Request) (email : string) : gw outcome :=
  let* m := meta req in
  let* otp := match DEMO_OTP with
              | Some otp => Ret otp
              | None => let* n := random_int 100000 1000000 in Ret (Z_string n)
              end in
  let hmac := hmacOtp otp in
  do* redis_set_ex (RedisKeys.OTP +:+ email) hmac OTP_EXPIRES_IN in
  do* mail_add email otp in
  do* recordRaAudit "ra_otp_requested" None "ra:otp" None
        [("email", toLowerCase email); ("request_id", request_id req)] (Some (request_id req)) in
  Ret (respond 200
    ([("success", JBool true); ("message", JStr "OTP dispatched");
      ("data", JObj [("email_masked", JStr (maskEmail email)); ("expires_in", JNum OTP_EXPIRES_IN)])]
     ++ m)).

(** [failRaw && parseInt(failRaw, 10) >= OTP_MAX_ATTEMPTS]. *)
Definition blocked (failRaw : option string) : bool :=
  match failRaw with
  | Some s => if String.eqb s "" then false
              else match parseInt s with Some n => OTP_MAX_ATTEMPTS <=? n | None => false end
  | None => false
  end.

Definition reg_claims (email ownerId jti : string) (iat : Z) : list (string * json) :=
  [("sub", JStr email); ("owner_id", JStr ownerId); ("purpose", JStr "pki_registration");
   ("jti", JStr jti); ("iat", JNum iat); ("exp", JNum (iat + 600))].

Definition not_found (m : list (string * json)) : outcome :=
  respond 404 (fail_body "OTP_NOT_FOUND" "No pending OTP for this email" m).

Definition rate_limited (m : list (string * json)) : outcome :=
  respond 429 (fail_body "VERIFY_RATE_LIMITED" "Too many failed attempts. Try again later." m).

Definition mismatch (m : list (string * json)) : outcome :=
  respond 401 (fail_body "OTP_MISMATCH" "Invalid OTP" m).

Definition verified (reg_token ownerId : string) (m : list (string * json)) : outcome :=
  respond 200
    ([("success", JBool true); ("message", JStr "OTP verified");
      ("data", JObj [("reg_token", JStr reg_token); ("owner_id", JStr ownerId);
                     ("expires_in", JNum 600)])] ++ m).

Definition handleOtpVerify (req : Request) (b : OtpVerifyBody) : gw outcome :=
  let* m := meta req in
  let email := toLowerCase (vb_email b) in
  let otp := vb_otp b in
  let failKey := RedisKeys.OTP_FAILED +:+ email in
  let audit action reason extra :=
    recordRaAudit action None "ra:otp" reason
      ([("email", email)] ++ extra ++ [("request_id", request_id req)]) (Some (request_id req)) in
  let* stored := redis_get (RedisKeys.OTP +:+ email) in
  let stored := default "" stored in
  if String.eqb stored "" then Ret (not_found m)
  else
    let* failRaw := redis_get failKey in
    if blocked failRaw then
      do* audit "ra_otp_failed" (Some "too_many_attempts") [] in
      Ret (rate_limited m)
    else if negb (safeEqual (hmacOtp otp) stored) then
      let* count := redis_incr failKey in
      do* (if count =? 1 then redis_expire failKey OTP_COOLDOWN else Ret tt) in
      do* audit "ra_otp_failed" (Some "otp_mismatch") [] in
      Ret (mismatch m)
    else
      do* redis_del (RedisKeys.OTP +:+ email) in
      let* jti := random_uuid in
      let* iat := now_seconds in
      let* ownerId := random_uuid in
      let reg_token := jwt_sign (reg_claims email ownerId jti iat) GATEWAY_JWT_SECRET in
      do* redis_set_ex (RedisKeys.REG_TOKEN +:+ jti) "0" 600 in
      do* audit "ra_otp_verified" None [("owner_id", ownerId)] in
      Ret (verified reg_token ownerId m).

(** ** Lemmas *)

Lemma safeEqual_spec a b : safeEqual a b = String.eqb a b.
Proof.
  unfold safeEqual. destruct (String.eqb_spec a b) as [->|Hne].
  - rewrite Z.eqb_refl. cbn. by apply bool_decide_eq_true.
  - case_ifs; [done|]. apply bool_decide_eq_false. intros He. by apply Hne, utf8_inj.
Qed.

Lemma blocked_Z_string n : blocked (Some (Z_string n)) = (OTP_MAX_ATTEMPTS <=? n).
Proof.
  cbn. rewrite (proj2 (String.eqb_neq _ _) (Z_string_nonempty n)). by rewrite parseInt_Z_string.
Qed.

End handlers.

(** ** What every run of the verification does *)

(** Reply [Ok] of the deletion of the code. *)
Definition deleted (email : string) (t : gw_trace) : Prop :=
  Obs (RedisDel (RedisKeys.OTP +:+ email)) (Ok tt) ∈ t.

(** C18: a registration token is only issued to the holder of the code: in every
    run that answers 200, whatever the services reply, Redis held the HMAC of
    the submitted code for the address, the failure counter read then was below
    the limit, the code was deleted, the identifier of the token was registered
    as unused, and the token carries the address, a fresh owner and a life of
    ten minutes. *)
Theorem otp_verify_sound `{ENV} `{Crypto} req b :
  always (handleOtpVerify req b) (fun t o => forall body,
    o = Ok (Respond [] 200 body) ->
    let email := toLowerCase (vb_email b) in
    Obs (RedisGet (RedisKeys.OTP +:+ email)) (Ok (Some (hmacOtp (vb_otp b)))) ∈ t /\
    (exists raw, Obs (RedisGet (RedisKeys.OTP_FAILED +:+ email)) (Ok raw) ∈ t /\
                 blocked raw = false) /\
    deleted email t /\
    exists jti ownerId ms m,
      Obs RandomUUID jti ∈ t /\ Obs RandomUUID ownerId ∈ t /\ Obs DateNow ms ∈ t /\
      Obs (RedisSetEx (RedisKeys.REG_TOKEN +:+ jti) "0" 600) (Ok tt) ∈ t /\
      Respond [] 200 body =
        verified (jwt_sign (reg_claims email ownerId jti (ms / 1000)) GATEWAY_JWT_SECRET) ownerId m).
Proof.
  unfold handleOtpVerify, meta, iso_now, iso_of, redis_get, redis_incr, redis_expire, redis_del,
    redis_set_ex, random_uuid, now_seconds, date_now, recordRaAudit, appendCaAuditEvent, deleted.
  cbn [bind catch always of_result]. intros ms0.
  destruct (toISOString ms0) as [ts|]; cbn [bind catch always of_result]; [|intros body Hb; discriminate Hb].
  intros [stored|x]; cbn [bind catch always of_result]; [|intros body Hb; discriminate Hb].
  destruct stored as [stored|]; cbn [default from_option id]; [|intros body Hb; discriminate Hb].
  destruct (String.eqb_spec stored "") as [->|Hne]; cbn [bind catch always of_result];
    [intros body Hb; discriminate Hb|].
  intros [raw|x]; cbn [bind catch always of_result]; [|intros body Hb; discriminate Hb].
  destruct (blocked raw) eqn:Hbl; cbn [bind catch always of_result].
  { intros [[]|x]; cbn; intros body Hb; discriminate Hb. }
  rewrite safeEqual_spec. destruct (String.eqb_spec (hmacOtp (vb_otp b)) stored) as [Heq|];
    cbn [negb bind catch always of_result].
  - intros [[]|x]; cbn [bind catch always of_result]; [|intros body Hb; discriminate Hb].
    intros jti ms ownerId [[]|x]; cbn [bind catch always of_result]; [|intros body Hb; discriminate Hb].
    intros r. subst stored.
    destruct r as [[]|x]; cbn [bind catch always of_result]; intros body Hb; injection Hb as <-;
      (split; [set_solver|split; [exists raw; split; [set_solver|done]|split; [set_solver|]]]);
      exists jti, ownerId, ms; eexists; (split; [set_solver|]); (split; [set_solver|]);
      (split; [set_solver|]); (split; [set_solver|]); reflexivity.
  - intros [cnt|x]; cbn [bind catch always of_result]; [|intros body Hb; discriminate Hb].
    destruct (cnt =? 1); cbn [bind catch always of_result].
    + intros [[]|x]; cbn [bind catch always of_result]; [|intros body Hb; discriminate Hb].
      intros [[]|x]; cbn; intros body Hb; discriminate Hb.
    + intros [[]|x]; cbn; intros body Hb; discriminate Hb.
Qed.

(** ** The two handlers against a working store *)

Section sequential.

Context {S V : Type} `{RedisSpec S}.
Context (delay : event -> world S V -> N) (serve : forall e : event, V -> V * reply e).
Context `{ENV} `{CryptoSpec}.

Definition in_dates (t : Z) : Prop := 0 <= t <= 8640000000000000.

Lemma hmacOtp_nonempty otp : hmacOtp otp <> "".
Proof. apply hmac_nonempty. Qed.

Lemma reg_otp_keys jti email : String.eqb (RedisKeys.OTP +:+ email) (RedisKeys.REG_TOKEN +:+ jti) = false.
Proof. reflexivity. Qed.

Lemma otp_fail_keys email email' :
  String.eqb (RedisKeys.OTP_FAILED +:+ email) (RedisKeys.OTP +:+ email') = false.
Proof. reflexivity. Qed.

(** A code that is live and not yet deleted at the end of the run. *)
Lemma verify_right_code req email otp e w :
  toLowerCase email = email -> 0 <= now w ->
  live (store w) (now w) (RedisKeys.OTP +:+ email) = Some (hmacOtp otp, Some e) ->
  live (store w) (now w) (RedisKeys.OTP_FAILED +:+ email) = None ->
  wp delay serve (handleOtpVerify req {| vb_email := email; vb_otp := otp |}) w (fun w' _ r =>
    now w' < e -> now w' <= 8640000000000000 ->
    (exists token ownerId m, r = Ok (verified token ownerId m)) /\
    live (store w') (now w') (RedisKeys.OTP +:+ email) = None).
Proof.
  intros Hlow Hw Hl Hf. unfold handleOtpVerify. cbn [vb_email vb_otp]. rewrite Hlow.
  gw_unfold. gw_cbn. wp_step. destruct (toISOString t) as [ts|] eqn:Hts; gw_cbn.
  2: { apply wp_raise. cbn. intros _ Hd. destruct (toISOString_ok t) as [s Hs]; [lia | congruence]. }
  wp_step. rewrite (live_later _ (now w)), Hl by lia. cbn [age].
  destruct (Z.leb_spec e t0) as [He|He]; cbn [option_map fst]; gw_cbn; cbn [default from_option id].
  { apply wp_ret. cbn. lia. }
  rewrite (proj2 (String.eqb_neq _ _) (hmacOtp_nonempty _)). gw_cbn. wp_step.
  rewrite (live_later _ (now w)), Hf by lia. cbn [age option_map]. gw_cbn. cbn [blocked].
  rewrite safeEqual_spec, String.eqb_refl. cbn [negb]. gw_cbn. wp_step. gw_cbn.
  wp_step. destruct (serve RandomUUID (svc w)) as [v1 jti]. gw_cbn.
  wp_step. gw_cbn. wp_step. destruct (serve RandomUUID v1) as [v2 ownerId]. gw_cbn.
  wp_step. gw_cbn. wp_step. destruct (serve (CaAppendAudit _ _) v2) as [v3 r].
  assert (Hgone : live (set_ex (del (store w) t2 (RedisKeys.OTP +:+ email)) t6
                     (RedisKeys.REG_TOKEN +:+ jti) "0" 600) t7 (RedisKeys.OTP +:+ email) = None).
  { rewrite (live_later _ t6) by lia. rewrite live_set_ex, reg_otp_keys by lia.
    rewrite (live_later _ t2) by lia. by rewrite live_del, String.eqb_refl. }
  destruct r as [[]|x]; gw_cbn; apply wp_ret; cbn [store now]; intros _ _; (split; [|exact Hgone]);
    by eexists _, _, _.
Qed.

(** Without a live code the answer is 404, and nothing is written. *)
Lemma verify_no_code req email otp w :
  toLowerCase email = email -> 0 <= now w ->
  live (store w) (now w) (RedisKeys.OTP +:+ email) = None ->
  wp delay serve (handleOtpVerify req {| vb_email := email; vb_otp := otp |}) w (fun w' _ r =>
    now w' <= 8640000000000000 -> store w' = store w /\ exists m, r = Ok (not_found m)).
Proof.
  intros Hlow Hw Hl. unfold handleOtpVerify. cbn [vb_email vb_otp]. rewrite Hlow.
  gw_unfold. gw_cbn. wp_step. destruct (toISOString t) as [ts|] eqn:Hts; gw_cbn.
  2: { apply wp_raise. cbn. intros Hd. destruct (toISOString_ok t) as [s Hs]; [lia | congruence]. }
  wp_step. rewrite (live_later _ (now w)), Hl by lia. cbn [age option_map].
  gw_cbn. cbn [default from_option id]. apply wp_ret. cbn. eauto.
Qed.

(** The code that is mailed is the one whose HMAC is stored. *)
Lemma request_stores req email w :
  0 <= now w -> 0 < OTP_EXPIRES_IN ->
  live (store w) (now w) (RedisKeys.OTP_FAILED +:+ email) = None ->
  wp delay serve (handleOtpRequest req email) w (fun w' t r =>
    now w' <= 8640000000000000 -> now w' < now w + 1000 * OTP_EXPIRES_IN ->
    exists otp e m, Obs (MailAdd email otp) tt ∈ t /\ now w + 1000 * OTP_EXPIRES_IN <= e /\
      r = Ok (respond 200 m) /\
      live (store w') (now w') (RedisKeys.OTP +:+ email) = Some (hmacOtp otp, Some e) /\
      live (store w') (now w') (RedisKeys.OTP_FAILED +:+ email) = None).
Proof.
  intros Hw Hx Hf. unfold handleOtpRequest. gw_unfold. gw_cbn. wp_step.
  destruct (toISOString t) as [ts|] eqn:Hts; gw_cbn.
  2: { apply wp_raise. cbn. intros Hd. destruct (toISOString_ok t) as [s Hs]; [lia | congruence]. }
  assert (Hrest : forall otp w1, store w1 = store w -> t <= now w1 ->
    wp delay serve
      (do* redis_set_ex (RedisKeys.OTP +:+ email) (hmacOtp otp) OTP_EXPIRES_IN in
       do* mail_add email otp in
       do* recordRaAudit "ra_otp_requested" None "ra:otp" None
             [("email", toLowerCase email); ("request_id", request_id req)]
             (Some (request_id req)) in
       Ret (respond 200
         ([("success", JBool true); ("message", JStr "OTP dispatched");
           ("data", JObj [("email_masked", JStr (maskEmail email));
                          ("expires_in", JNum OTP_EXPIRES_IN)])]
          ++ [("request_id", JStr (request_id req)); ("timestamp", JStr ts)])))
      w1 (fun w' tr r => now w' <= 8640000000000000 -> now w' < now w + 1000 * OTP_EXPIRES_IN ->
        exists e m, Obs (MailAdd email otp) tt ∈ tr /\ now w + 1000 * OTP_EXPIRES_IN <= e /\
          r = Ok (respond 200 m) /\
          live (store w') (now w') (RedisKeys.OTP +:+ email) = Some (hmacOtp otp, Some e) /\
          live (store w') (now w') (RedisKeys.OTP_FAILED +:+ email) = None)).
  { intros otp w1 Hs1 Ht1. gw_unfold. gw_cbn. wp_step. gw_cbn.
    wp_step. destruct (serve (MailAdd email otp) (svc w1)) as [v1 []]. gw_cbn.
    wp_step. destruct (serve (CaAppendAudit _ _) v1) as [v2 r].
    assert (Hend : now w1 <= t2 -> t2 < now w + 1000 * OTP_EXPIRES_IN ->
      live (set_ex (store w1) t0 (RedisKeys.OTP +:+ email) (hmacOtp otp) OTP_EXPIRES_IN) t2
        (RedisKeys.OTP +:+ email) = Some (hmacOtp otp, Some (t0 + 1000 * OTP_EXPIRES_IN)) /\
      live (set_ex (store w1) t0 (RedisKeys.OTP +:+ email) (hmacOtp otp) OTP_EXPIRES_IN) t2
        (RedisKeys.OTP_FAILED +:+ email) = None).
    { intros _ Hd. rewrite !(live_later _ t0 t2) by lia. rewrite !live_set_ex by done.
      rewrite String.eqb_refl, otp_fail_keys. cbn [age].
      rewrite (proj2 (Z.leb_gt _ _)) by lia. split; [done|].
      rewrite Hs1, (live_later _ (now w)), Hf by lia. done. }
    destruct r as [[]|x]; gw_cbn; apply wp_ret; cbn [store now]; intros _ Hd;
      destruct Hend as [H1' H2']; [lia | done | | lia | done |];
      exists (t0 + 1000 * OTP_EXPIRES_IN); eexists; (split; [set_solver|]); (split; [lia|]);
      (split; [reflexivity|]); by split. }
  destruct DEMO_OTP as [otp|]; gw_cbn.
  - eapply wp_mono; [|apply (Hrest otp); cbn; [done | lia]].
    cbn. intros w' tr r Hq Hd1 Hd2. destruct (Hq Hd1 Hd2) as (e & m & ? & ?). exists otp, e, m.
    split; [set_solver | done].
  - wp_step. destruct (serve (RandomInt _ _) (svc w)) as [v1 n]. gw_cbn.
    eapply wp_mono; [|apply (Hrest (Z_string n)); cbn; [done | lia]].
    cbn. intros w' tr r Hq Hd1 Hd2. destruct (Hq Hd1 Hd2) as (e & m & ? & ?). exists (Z_string n), e, m.
    split; [set_solver | done].
Qed.

(** ** Wrong guesses, one after the other *)

(** A wrong guess while the code is live and [c] failures are counted. *)
Lemma verify_wrong_code req email otp h e c deadline t0 w :
  toLowerCase email = email -> 0 <= now w -> h <> "" -> hmacOtp otp <> h -> 0 < OTP_COOLDOWN ->
  t0 <= now w -> deadline = t0 + 1000 * OTP_COOLDOWN -> 1 <= OTP_MAX_ATTEMPTS -> c + 1 < 2 ^ 63 - 1 ->
  live (store w) (now w) (RedisKeys.OTP +:+ email) = Some (h, Some e) ->
  counted (RedisKeys.OTP_FAILED +:+ email) deadline c w ->
  wp delay serve (handleOtpVerify req {| vb_email := email; vb_otp := otp |}) w (fun w' _ r =>
    now w' < e -> now w' < deadline -> now w' <= 8640000000000000 ->
    live (store w') (now w') (RedisKeys.OTP +:+ email) = Some (h, Some e) /\
    if c <? OTP_MAX_ATTEMPTS
    then (exists m, r = Ok (mismatch m)) /\
         counted (RedisKeys.OTP_FAILED +:+ email) deadline (c + 1) w'
    else (exists m, r = Ok (rate_limited m)) /\
         counted (RedisKeys.OTP_FAILED +:+ email) deadline c w').
Proof.
  intros Hlow Hw Hh Hne Hcool Ht0 -> Hmax Hc63 Hl Hc. unfold handleOtpVerify. cbn [vb_email vb_otp].
  rewrite Hlow. set (fk := RedisKeys.OTP_FAILED +:+ email) in *.
  set (ok := RedisKeys.OTP +:+ email) in *.
  assert (Hkeys : String.eqb ok fk = false) by reflexivity.
  gw_unfold. gw_cbn. wp_step. destruct (toISOString t) as [ts|] eqn:Hts; gw_cbn.
  2: { apply wp_raise. cbn. intros _ _ Hd. destruct (toISOString_ok t) as [s Hs]; [lia | congruence]. }
  wp_step. rewrite (live_later _ (now w)), Hl by lia. cbn [age].
  destruct (Z.leb_spec e t1) as [He|He]; cbn [option_map fst]; gw_cbn; cbn [default from_option id].
  { apply wp_ret. cbn. lia. }
  rewrite (proj2 (String.eqb_neq _ _) Hh). gw_cbn. wp_step.
  destruct (Z.le_gt_cases (t0 + 1000 * OTP_COOLDOWN) t2) as [Hlate|Hlate].
  { eapply wp_late; [exact Hlate|]. cbn. intros; lia. }
  destruct (counted_later _ _ _ w t2 Hc) as [Hc0 Hlive]; [lia|]. cbn [store now] in Hlive.
  assert (Hbl : blocked (option_map fst (live (store w) t2 fk)) = negb (c <? OTP_MAX_ATTEMPTS)).
  { destruct (live (store w) t2 fk) as [[v x]|] eqn:Hv; cbn [option_map fst].
    - destruct Hlive as (_ & -> & _). rewrite blocked_Z_string.
      destruct (Z.leb_spec OTP_MAX_ATTEMPTS c), (Z.ltb_spec c OTP_MAX_ATTEMPTS); done || lia.
    - subst c. cbn [blocked]. by rewrite (proj2 (Z.ltb_lt _ _)) by lia. }
  gw_cbn. rewrite Hbl. clear Hbl.
  assert (Hcw : counted fk (t0 + 1000 * OTP_COOLDOWN) c (World (store w) t2 (svc w))) by (by split).
  assert (Hlw : live (store w) t2 ok = age t2 (Some (h, Some e)))
    by (rewrite (live_later _ (now w)), Hl by lia; done).
  destruct (c <? OTP_MAX_ATTEMPTS); cbn [negb].
  - rewrite safeEqual_spec, (proj2 (String.eqb_neq _ _) Hne). cbn [negb]. gw_cbn.
    apply wp_vis. destruct (gw_env delay serve (RedisIncr fk) _) as [w3 r3] eqn:He3.
    pose proof (gw_env_now delay serve (RedisIncr fk) (World (store w) t2 (svc w))) as Hn3.
    rewrite He3 in Hn3. cbn [fst] in Hn3.
    pose proof (tick_later delay (RedisIncr fk) (World (store w) t2 (svc w))) as Ht3. cbn [now] in Ht3.
    destruct (Z.le_gt_cases (t0 + 1000 * OTP_COOLDOWN) (now w3)) as [Hl3|Hl3].
    { eapply wp_late; [exact Hl3|]. cbn. intros; lia. }
    destruct (incr_counted delay serve fk _ c _ w3 r3 Hcw Hc63 He3 ltac:(lia)) as [-> Hc3].
    assert (Hok3 : live (store w3) (now w3) ok = age (now w3) (Some (h, Some e))).
    { cbn in He3. set (t3 := tick _ _ _) in *.
      assert (Hl2 : live (store w) t3 fk = age t3 (live (store w) t2 fk)) by (apply live_later; lia).
      assert (Hok : live (store w) t3 ok = age t3 (Some (h, Some e)))
        by (rewrite (live_later _ t2), Hlw, age_later by lia; done).
      destruct (incr (store w) t3 fk) as [s3 r3] eqn:Hi. injection He3 as <- Hr3. cbn.
      destruct (live (store w) t3 fk) as [[v x]|] eqn:Hv.
      - destruct (live (store w) t2 fk) as [[v2 x2]|]; [|done]. destruct Hlive as (_ & -> & _).
        assert (v = Z_string c) as ->.
        { cbn in Hl2. destruct x2 as [x2|]; [|by injection Hl2]. destruct (x2 <=? t3); [done|].
          by injection Hl2. }
        destruct (incr_present _ _ _ _ _ Hv) as [_ Hst]; [lia|]. rewrite Hi in Hst. cbn in Hst.
        by rewrite Hst, Hkeys.
      - destruct (incr_absent _ _ _ Hv) as [_ Hst]. rewrite Hi in Hst. cbn in Hst.
        by rewrite Hst, Hkeys. }
    gw_cbn.
    assert (Hfin : forall w4, now w3 <= now w4 ->
      live (store w4) (now w4) ok = age (now w4) (Some (h, Some e)) ->
      (now w4 < t0 + 1000 * OTP_COOLDOWN -> counted fk (t0 + 1000 * OTP_COOLDOWN) (c + 1) w4) ->
      wp delay serve
        (Vis (CaAppendAudit
                {| ae_action := "ra_otp_failed"; ae_serialNumber := default "" None;
                   ae_performedBy := "ra:otp"; ae_reason := default "" (Some "otp_mismatch");
                   ae_metadata := [("email", email)] ++ [] ++ [("request_id", request_id req)] |}
                (requestMetadata (Some (request_id req))))
             (fun r => bind (catch (of_result r) (fun _ => Ret tt)) (fun _ =>
                Ret (mismatch [("request_id", JStr (request_id req)); ("timestamp", JStr ts)]))))
        w4 (fun w' _ r =>
          now w' < e -> now w' < t0 + 1000 * OTP_COOLDOWN -> now w' <= 8640000000000000 ->
          live (store w') (now w') ok = Some (h, Some e) /\
          (exists m, r = Ok (mismatch m)) /\
          counted fk (t0 + 1000 * OTP_COOLDOWN) (c + 1) w')).
    { intros w4 Hw4 Hok4 Hc4. wp_step.
      assert (Hend : t3 < e -> t3 < t0 + 1000 * OTP_COOLDOWN ->
        live (store w4) t3 ok = Some (h, Some e) /\
        counted fk (t0 + 1000 * OTP_COOLDOWN) (c + 1) (World (store w4) t3 (svc w4))).
      { intros Hx Hy. split.
        - rewrite (live_later _ (now w4)), Hok4, age_later by lia. cbn.
          by rewrite (proj2 (Z.leb_gt _ _)) by lia.
        - apply counted_later; [apply Hc4; lia | lia]. }
      destruct (serve (CaAppendAudit _ _) (svc w4)) as [v5 r5].
      destruct r5 as [[]|x]; gw_cbn; apply wp_ret; cbn [store now]; intros Hx Hy _;
        destruct (Hend Hx Hy) as [? Hcc]; (split; [done|]); (split; [by eexists|]); exact Hcc. }
    destruct (c + 1 =? 1); gw_cbn.
    + apply wp_vis. destruct (gw_env delay serve (RedisExpire fk OTP_COOLDOWN) w3) as [w4 r4] eqn:He4.
      pose proof (gw_env_now delay serve (RedisExpire fk OTP_COOLDOWN) w3) as Hn4.
      rewrite He4 in Hn4. cbn [fst] in Hn4.
      pose proof (tick_later delay (RedisExpire fk OTP_COOLDOWN) w3).
      assert (Hr4 : r4 = Ok tt /\ store w4 = expire (store w3) (now w4) fk OTP_COOLDOWN)
        by (rewrite Hn4; cbn in He4; by injection He4 as <- <-).
      destruct Hr4 as [-> Hs4]. gw_cbn. apply Hfin.
      * lia.
      * rewrite Hs4, live_expire, Hkeys by done. rewrite (live_later _ (now w3)), Hok3, age_later by lia.
        done.
      * intros Hy. by apply (expire_counted delay serve fk _ (c + 1) w3 w4 (Ok tt) OTP_COOLDOWN Hc3 Hcool
          ltac:(lia) He4).
    + apply Hfin; [lia | done | done].
  - gw_cbn. wp_step. destruct (serve (CaAppendAudit _ _) (svc w)) as [v5 r5].
    assert (Hend : t3 < e -> t3 < t0 + 1000 * OTP_COOLDOWN ->
      live (store w) t3 ok = Some (h, Some e) /\
      counted fk (t0 + 1000 * OTP_COOLDOWN) c (World (store w) t3 v5)).
    { intros Hx Hy. split.
      - rewrite (live_later _ t2), Hlw, age_later by lia. cbn.
        by rewrite (proj2 (Z.leb_gt _ _)) by lia.
      - apply (counted_later _ _ _ _ t3 Hcw). cbn. lia. }
    destruct r5 as [[]|x]; gw_cbn; apply wp_ret; cbn [store now]; intros Hx Hy _;
      destruct (Hend Hx Hy); (split; [done|]); (split; [by eexists|done]).
Qed.

End sequential.

(** ** The properties of a sequence of calls *)

Section calls.

Context {S V : Type} `{RedisSpec S}.
Context (delay : event -> world S V -> N) (serve : forall e : event, V -> V * reply e).
Context `{ENV} `{CryptoSpec}.

(** One verification per guess, in turn. *)
Fixpoint run_guesses (req : Request) (email : string) (guesses : list string) (w : world S V)
    : world S V * list (result js_error outcome) :=
  match guesses with
  | [] => (w, [])
  | otp :: rest =>
      let '(w1, _, r) :=
        run (gw_env delay serve) (handleOtpVerify req {| vb_email := email; vb_otp := otp |}) w in
      let '(w2, rs) := run_guesses req email rest w1 in (w2, r :: rs)
  end.

Lemma run_guesses_now req email guesses w w' rs :
  run_guesses req email guesses w = (w', rs) -> now w <= now w'.
Proof.
  revert w w' rs. induction guesses as [|otp rest IH]; intros w w' rs Hr; cbn [run_guesses] in Hr.
  { injection Hr as <- _. lia. }
  destruct (run _ _ w) as [[w1 t1] r1] eqn:E1. destruct (run_guesses _ _ rest w1) as [w2 rs2] eqn:E2.
  injection Hr as <- _. apply IH in E2. apply run_now in E1. lia.
Qed.

(** The guesses from the [c]-th failure on. *)
Lemma run_guesses_wrong req email guesses h e c t0 w w' rs :
  toLowerCase email = email -> 0 <= now w -> h <> "" -> Forall (fun otp => hmacOtp otp <> h) guesses ->
  0 < OTP_COOLDOWN -> t0 <= now w -> 1 <= OTP_MAX_ATTEMPTS -> c + Z.of_nat (length guesses) < 2 ^ 63 - 1 ->
  live (store w) (now w) (RedisKeys.OTP +:+ email) = Some (h, Some e) ->
  counted (RedisKeys.OTP_FAILED +:+ email) (t0 + 1000 * OTP_COOLDOWN) c w ->
  c <= OTP_MAX_ATTEMPTS ->
  run_guesses req email guesses w = (w', rs) ->
  now w' < e -> now w' < t0 + 1000 * OTP_COOLDOWN -> now w' <= 8640000000000000 ->
  forall i r, rs !! i = Some r ->
    if c + Z.of_nat i <? OTP_MAX_ATTEMPTS then exists m, r = Ok (mismatch m)
    else exists m, r = Ok (rate_limited m).
Proof.
  intros Hlow Hw0 Hh Hg Hcool. revert c w w' rs Hw0.
  induction Hg as [|otp rest Hotp Hg IH]; intros c w w' rs Hw0 Ht0 Hmax H63 Hl Hc Hle Hr He Hd Hdate;
    cbn [run_guesses] in Hr.
  { injection Hr as _ <-. done. }
  destruct (run _ _ w) as [[w1 t1] r1] eqn:E1. destruct (run_guesses _ _ rest w1) as [w2 rs2] eqn:E2.
  injection Hr as <- <-. pose proof (run_guesses_now _ _ _ _ _ _ E2) as Hn2.
  pose proof (run_now _ _ _ _ _ _ _ E1) as Hn1. cbn [length] in H63.
  pose proof (wp_run _ _ _ _ _ _ _ _ E1 (verify_wrong_code delay serve req email otp h e c _ t0 w
    Hlow Hw0 Hh Hotp Hcool Ht0 eq_refl Hmax ltac:(lia) Hl Hc)) as Hone. cbn beta in Hone.
  destruct Hone as [Hl1 Hv]; [lia | lia | lia |].
  destruct (Z.ltb_spec c OTP_MAX_ATTEMPTS) as [Hlt|Hge]; destruct Hv as [Hr1 Hc1].
  - intros [|i] r Hi.
    + injection Hi as <-. rewrite Z.add_0_r. by rewrite (proj2 (Z.ltb_lt _ _)).
    + replace (c + Z.of_nat (Datatypes.S i)) with (c + 1 + Z.of_nat i) by lia.
      eapply (IH (c + 1) w1 w2 rs2); try done; lia.
  - intros [|i] r Hi.
    + injection Hi as <-. rewrite Z.add_0_r. by rewrite (proj2 (Z.ltb_ge _ _)) by lia.
    + rewrite (proj2 (Z.ltb_ge _ _)) by lia.
      assert (Hi' : if c + Z.of_nat i <? OTP_MAX_ATTEMPTS then exists m, r = Ok (mismatch m)
                    else exists m, r = Ok (rate_limited m))
        by (eapply (IH c w1 w2 rs2); try done; lia).
      by rewrite (proj2 (Z.ltb_ge _ _)) in Hi' by lia.
Qed.

(** A code works once. After a request for an address in lower case, the
    mailed code is accepted by the next verification before it expires, and
    every verification after that, with whatever code, answers 404. *)
Theorem otp_single_use req email w w1 t1 r1 :
  toLowerCase email = email -> 0 <= now w -> 0 < OTP_EXPIRES_IN ->
  live (store w) (now w) (RedisKeys.OTP_FAILED +:+ email) = None ->
  run (gw_env delay serve) (handleOtpRequest req email) w = (w1, t1, r1) ->
  now w1 <= 8640000000000000 -> now w1 < now w + 1000 * OTP_EXPIRES_IN ->
  exists otp, Obs (MailAdd email otp) tt ∈ t1 /\
  forall w2 t2 r2,
    run (gw_env delay serve) (handleOtpVerify req {| vb_email := email; vb_otp := otp |}) w1
      = (w2, t2, r2) ->
    now w2 <= 8640000000000000 -> now w2 < now w + 1000 * OTP_EXPIRES_IN ->
    (exists token ownerId m, r2 = Ok (verified token ownerId m)) /\
    forall otp' w3 t3 r3,
      run (gw_env delay serve) (handleOtpVerify req {| vb_email := email; vb_otp := otp' |}) w2
        = (w3, t3, r3) ->
      now w3 <= 8640000000000000 -> exists m, r3 = Ok (not_found m).
Proof.
  intros Hlow Hw Hx Hf E1 Hd1 Hx1.
  destruct (wp_run _ _ _ _ _ _ _ _ E1 (request_stores delay serve req email w Hw Hx Hf) Hd1 Hx1)
    as (otp & e & m & Hmail & He & _ & Hl & Hf1).
  exists otp. split; [done|]. intros w2 t2 r2 E2 Hd2 Hx2.
  pose proof (run_now _ _ _ _ _ _ _ E1). pose proof (run_now _ _ _ _ _ _ _ E2).
  destruct (wp_run _ _ _ _ _ _ _ _ E2
    (verify_right_code delay serve req email otp e w1 Hlow ltac:(lia) Hl Hf1)) as [Hok Hgone]; [lia | lia |].
  split; [done|]. intros otp' w3 t3 r3 E3 Hd3.
  by destruct (wp_run _ _ _ _ _ _ _ _ E3
    (verify_no_code delay serve req email otp' w2 Hlow ltac:(lia) Hgone) Hd3).
Qed.

(** C36: guesses that come one after the other are bounded: while the code is
    live and the cooldown runs, only the first [OTP_MAX_ATTEMPTS] wrong guesses
    are compared with it, every later one is refused with 429 unseen. *)
Theorem otp_guesses_bounded req email guesses h e w w' rs :
  toLowerCase email = email -> 0 <= now w -> h <> "" -> Forall (fun otp => hmacOtp otp <> h) guesses ->
  0 < OTP_COOLDOWN -> 1 <= OTP_MAX_ATTEMPTS -> Z.of_nat (length guesses) < 2 ^ 63 - 1 ->
  live (store w) (now w) (RedisKeys.OTP +:+ email) = Some (h, Some e) ->
  live (store w) (now w) (RedisKeys.OTP_FAILED +:+ email) = None ->
  run_guesses req email guesses w = (w', rs) ->
  now w' < e -> now w' < now w + 1000 * OTP_COOLDOWN -> now w' <= 8640000000000000 ->
  forall i r, rs !! i = Some r ->
    if Z.of_nat i <? OTP_MAX_ATTEMPTS then exists m, r = Ok (mismatch m)
    else exists m, r = Ok (rate_limited m).
Proof.
  intros Hlow Hw Hh Hg Hcool Hmax H63 Hl Hf Hr He Hd Hdate.
  apply (run_guesses_wrong req email guesses h e 0 (now w) w w' rs); try done; try lia.
  split; [lia|]. by rewrite Hf.
Qed.

End calls.

(** ** Concrete runs *)

Definition demo_request : Request :=
  {| request_id := "r1"; authorization := None; cookie := None; ip := None; remoteAddress := None;
     body := JUndefined; query := []; params := [] |}.

Lemma otp_single_use_witness :
  let w : world map_store nat := World ∅ 1000 0%nat in
  let run1 := run (gw_env (fun _ _ => 1%N) quiet_services)
                (handleOtpRequest (H := default_env) (H0 := toy_crypto) demo_request "a@b.c") w in
  exists otp, Obs (MailAdd "a@b.c" otp) tt ∈ run1.1.2 /\
    forall w2 t2 r2,
      run (gw_env (fun _ _ => 1%N) quiet_services)
        (handleOtpVerify (H := default_env) (H0 := toy_crypto) demo_request
           {| vb_email := "a@b.c"; vb_otp := otp |}) run1.1.1 = (w2, t2, r2) ->
      now w2 <= 8640000000000000 -> now w2 < 1000 + 1000 * 300 ->
      exists token ownerId m, r2 = Ok (verified token ownerId m).
Proof.
  intros w run1.
  destruct (otp_single_use (H1 := default_env) (H2 := toy_crypto) (H3 := toy_crypto_spec)
              (fun _ _ => 1%N) quiet_services demo_request "a@b.c" w run1.1.1 run1.1.2 run1.2)
    as (otp & Hmail & Hv);
    [reflexivity | discriminate | reflexivity | reflexivity | | vm_compute; discriminate | vm_compute; reflexivity |].
  - change (run1 = (run1.1.1, run1.1.2, run1.2)). clearbody run1. by destruct run1 as [[w1 t1] r1].
  - exists otp. split; [exact Hmail|]. intros w2 t2 r2 E Hd Hx. by destruct (Hv w2 t2 r2 E Hd Hx).
Defined.

Definition finished (p : gw outcome) : option Z :=
  match p with Ret o => outcome_status o | _ => None end.

(** A live code for one address, at the second second of the epoch. *)
Definition demo_world : world map_store nat :=
  World {["otp:val:a@b.c" := (hmacOtp (H := default_env) (H0 := toy_crypto) "123456", Some 300000)]}
    1000 0%nat.

Definition demo_verify (otp : string) : gw outcome :=
  handleOtpVerify (H := default_env) (H0 := toy_crypto) demo_request
    {| vb_email := "a@b.c"; vb_otp := otp |}.

Lemma otp_guesses_bounded_witness :
  let res := run_guesses (fun _ _ => 1%N) quiet_services (H1 := default_env) (H2 := toy_crypto)
               demo_request "a@b.c" ["111111"; "222222"; "333333"; "444444"; "555555"; "666666"]
               demo_world in
  (exists m, res.2 !! 4%nat = Some (Ok (mismatch m))) /\
  (exists m, res.2 !! 5%nat = Some (Ok (rate_limited m))).
Proof.
  intros res.
  assert (Hg : forall i r, res.2 !! i = Some r ->
    if Z.of_nat i <? 5 then exists m, r = Ok (mismatch m) else exists m, r = Ok (rate_limited m)).
  { apply (otp_guesses_bounded (H1 := default_env) (H2 := toy_crypto)
             (fun _ _ => 1%N) quiet_services demo_request "a@b.c"
             ["111111"; "222222"; "333333"; "444444"; "555555"; "666666"]
             (hmacOtp (H := default_env) (H0 := toy_crypto) "123456") 300000 demo_world res.1 res.2);
      [reflexivity | discriminate | discriminate | repeat constructor; discriminate | reflexivity
      | discriminate | reflexivity | reflexivity | reflexivity | apply surjective_pairing
      | vm_compute; reflexivity | vm_compute; reflexivity | vm_compute; discriminate]. }
  assert (Hn : length res.2 = 6%nat) by (vm_compute; reflexivity).
  clearbody res. split.
  - destruct (lookup_lt_is_Some_2 res.2 4) as [r Hr]; [lia|].
    rewrite Hr. destruct (Hg _ _ Hr) as [m ->]. by exists m.
  - destruct (lookup_lt_is_Some_2 res.2 5) as [r Hr]; [lia|].
    rewrite Hr. destruct (Hg _ _ Hr) as [m ->]. by exists m.
Defined.

(** Each of [n] handlers makes [k] requests in turn, round after round. *)
Definition rounds (n k : nat) : list nat := concat (replicate k (seq 0 n)).

(** Both guarantees are sequential only, because the failure counter and
    the code are read before they are written. Six wrong guesses whose requests
    interleave are all compared with the code although the limit is five, and
    two interleaved verifications of the right code are both answered 200, each
    with a token and an owner of its own. *)
Theorem otp_races :
  let go ps := run_schedule (gw_env (fun _ _ => 1%N) quiet_services) (rounds (length ps) 9) ps demo_world in
  map finished (go (replicate 6 (demo_verify "000000"))).1 = replicate 6 (Some 401) /\
  map finished (go (replicate 2 (demo_verify "123456"))).1 = replicate 2 (Some 200) /\
  OTP_MAX_ATTEMPTS (ENV := default_env) = 5.
Proof. split_and!; vm_compute; reflexivity. Qed.
