(* ===== verification/Register.v ===== *)
(** * Registration ([handleRegister] of [controller/ca.controller.ts])

    The registration authority: a token from the OTP verification and a signing
    request become a certificate and a bank user, or the certificate is revoked
    again. *)

From S2P Require Import Prelude JsString JsDate Effects Gateway ErrorHandler Redis Crypto Otp.

Open Scope Z_scope.

(** The request body as [validateRegister] leaves it. *)
Record RegisterBody := { rb_csrPem : string; rb_fullName : string }.

Section handlers.

Context `{ENV} `{Crypto}.

Definition recordRegistrationRejected (requestId ownerId email reason : string) : gw unit :=
  recordRaAudit "ra_registration_rejected" None "ra:register" (Some reason)
    [("owner_id", ownerId); ("email", email); ("request_id", requestId)] (Some requestId).

(** The text after [Bearer ], or nothing. *)
Definition bearer (authHeader : option string) : string :=
  let authHeader := default "" authHeader in
  if startsWith "Bearer " authHeader then slice 7 authHeader else "".

(** An [HttpError] whose message is that of another exception. *)
Definition http_error_of (status : Z) (code : string) (message : option string) : js_error :=
  {| err_code := None; err_details := None; err_message := message; err_meta_code := None;
     err_status := Some status; err_error_code := Some code; err_name := "";
     err_activation := None |}.

Definition next_error (e : js_error) : gw outcome := Ret (NextError [] e).

(** [typeof v === string ? v : fallback]. *)
Definition string_or_empty (j : json) : string := match j with JStr s => s | _ => "" end.

Definition issued (resp : RegisterUserResponse) (issued_at : Z) (m : list (string * json)) : outcome :=
  respond 201
    ([("success", JBool true); ("message", JStr "X.509 certificate issued");
      ("data", JObj [("cert_pem", JStr (certificatePem resp)); ("cert_serial", JStr (serialNumber resp));
                     ("issued_at", JNum issued_at); ("expires_at", JNum (notAfterUnix resp));
                     ("chain_pem", JStr (chainPem resp))])] ++ m).

(** [createUserBankAccount] failed: the certificate is revoked. *)
Definition rollback (req : Request) (ownerId subjectEmail : string) (caResp : RegisterUserResponse)
    (bankErr : js_error) : gw outcome :=
  let mapped := bankGrpcError bankErr in
  let exists_already := String.eqb (error_code mapped) "ALREADY_EXISTS" in
  let reason := if exists_already then "email_already_registered" else "bank_create_user_failed" in
  do* attempt (revokeCertificate
                 {| rv_serialNumber := serialNumber caResp; rv_reason := "registration_rollback";
                    rv_performedBy := "ra:register" |} (Some (request_id req))) in
  do* recordRegistrationRejected (request_id req) ownerId subjectEmail reason in
  if exists_already
  then next_error (httpError 409 "EMAIL_ALREADY_REGISTERED" "Email is already registered")
  else next_error (http_err mapped).

Definition handleRegister (req : Request) (b : RegisterBody) : gw outcome :=
  let* m := meta req in
  let token := bearer (authorization req) in
  let* now := now_seconds in
  match jwt_verify token GATEWAY_JWT_SECRET now with
  | Err e =>
      let expired := String.eqb (err_name e) "TokenExpiredError" in
      next_error (http_error_of 401 (if expired then "REG_TOKEN_EXPIRED" else "REG_TOKEN_INVALID")
                    (err_message e))
  | Ok payload =>
      if negb (String.eqb (string_or_empty (prop "purpose" payload)) "pki_registration") then
        next_error (httpError 401 "REG_TOKEN_INVALID" "Invalid token purpose")
      else
          let jtiKey := RedisKeys.REG_TOKEN +:+ js_String (prop "jti" payload) in
          let* jtiState := redis_get jtiKey in
          if bool_decide (jtiState = Some "1") then
            next_error (httpError 401 "REG_TOKEN_USED" "Registration token has already been used")
          else
            let subjectEmail := toLowerCase (string_or_empty (prop "sub" payload)) in
            let ownerId := string_or_empty (prop "owner_id" payload) in
            if String.eqb subjectEmail "" || String.eqb ownerId "" then
              next_error (httpError 401 "REG_TOKEN_INVALID"
                            "Registration token is missing subject email or owner id")
            else
              let* existing := attempt (checkUserEmail subjectEmail (Some (request_id req))) in
              match existing with
              | Err bankErr =>
                  do* recordRegistrationRejected (request_id req) ownerId subjectEmail
                        "bank_email_check_failed" in
                  next_error (http_err (bankGrpcError bankErr))
              | Ok true =>
                  do* recordRegistrationRejected (request_id req) ownerId subjectEmail
                        "email_already_registered" in
                  next_error (httpError 409 "EMAIL_ALREADY_REGISTERED" "Email is already registered")
              | Ok false =>
                  let* ca := attempt (registerUser
                    {| ru_csrPem := rb_csrPem b; ru_ownerId := ownerId;
                       ru_subjectEmail := subjectEmail; ru_fullName := rb_fullName b;
                       ru_role := IDENTITY_ROLE_CUSTOMER |} (Some (request_id req))) in
                  match ca with
                  | Err err =>
                      let reason := match err_details err with
                                    | Some d => d
                                    | None => default "registration_failed" (err_message err)
                                    end in
                      do* recordRegistrationRejected (request_id req) ownerId subjectEmail reason in
                      next_error (http_err (caGrpcError err))
                  | Ok caResp =>
                      let* bank := attempt (createUserBankAccount
                        {| cu_userId := ownerId; cu_subjectEmail := subjectEmail;
                           cu_fullName := rb_fullName b |} (Some (request_id req))) in
                      match bank with
                      | Err bankErr => rollback req ownerId subjectEmail caResp bankErr
                      | Ok _ =>
                          let* ttlSeconds := match prop "exp" payload with
                                             | JNum exp => let* now := now_seconds in
                                                           Ret (Z.max 1 (exp - now))
                                             | _ => Ret 600
                                             end in
                          do* attempt (redis_set_ex jtiKey "1" ttlSeconds) in
                          do* recordRaAudit "ra_registration_approved" (Some (serialNumber caResp))
                                "ra:register" None
                                [("owner_id", ownerId); ("email", subjectEmail);
                                 ("request_id", request_id req)] (Some (request_id req)) in
                          let* issued_at := now_seconds in
                          Ret (issued caResp issued_at m)
                      end
                  end
              end
  end.

End handlers.

(** ** What every run does *)

Definition customer (b : RegisterBody) (ownerId email : string) : RegisterUserRequest :=
  {| ru_csrPem := rb_csrPem b; ru_ownerId := ownerId; ru_subjectEmail := email;
     ru_fullName := rb_fullName b; ru_role := IDENTITY_ROLE_CUSTOMER |}.

Definition bank_user (b : RegisterBody) (ownerId email : string) : CreateUserRequest :=
  {| cu_userId := ownerId; cu_subjectEmail := email; cu_fullName := rb_fullName b |}.

Definition rollback_of (resp : RegisterUserResponse) : RevokeCertificateRequest :=
  {| rv_serialNumber := serialNumber resp; rv_reason := "registration_rollback";
     rv_performedBy := "ra:register" |}.

(** The claims under which a registration went through. *)
Definition accepted_claims `{ENV} `{Crypto} (req : Request) (t : gw_trace) (ownerId email : string) : Prop :=
  exists ms payload,
    saw DateNow ms t /\
    jwt_verify (bearer (authorization req)) GATEWAY_JWT_SECRET (ms / 1000) = Ok payload /\
    string_or_empty (prop "purpose" payload) = "pki_registration" /\
    ownerId = string_or_empty (prop "owner_id" payload) /\ ownerId <> "" /\
    email = toLowerCase (string_or_empty (prop "sub" payload)) /\ email <> "" /\
    exists state, state <> Some "1" /\
      saw (RedisGet (RedisKeys.REG_TOKEN +:+ js_String (prop "jti" payload))) (Ok state) t.

(** The certificates that the CA issued during a run. *)
Definition issued_by_event (o : obs (E := event)) : option RegisterUserResponse :=
  match request o as e return reply e -> option RegisterUserResponse with
  | CaRegisterUser _ _ => fun a => match a with Ok resp => Some resp | Err _ => None end
  | _ => fun _ => None
  end (answer o).

Definition ca_issued (t : gw_trace) : list RegisterUserResponse := omap issued_by_event t.

Section runs.

Context `{ENV} `{Crypto} (req : Request) (b : RegisterBody).

(** The three ways a registration ends. *)
Inductive registration : gw_trace -> result js_error outcome -> Prop :=
| reg_refused t hs e : ca_issued t = [] -> registration t (Ok (NextError hs e))
| reg_failed t e : ca_issued t = [] -> registration t (Err e)
| reg_rolled_back t ownerId email resp md x e :
    accepted_claims req t ownerId email ->
    saw (BankCheckUserEmail email md) (Ok false) t ->
    saw (CaRegisterUser (customer b ownerId email) md) (Ok resp) t ->
    ca_issued t = [resp] ->
    saw (BankCreateUser (bank_user b ownerId email) md) (Err x) t ->
    (exists r, saw (CaRevokeCertificate (rollback_of resp) md) r t) ->
    registration t (Ok (NextError [] e))
| reg_done t ownerId email resp md n m :
    accepted_claims req t ownerId email ->
    saw (BankCheckUserEmail email md) (Ok false) t ->
    saw (CaRegisterUser (customer b ownerId email) md) (Ok resp) t ->
    ca_issued t = [resp] ->
    saw (BankCreateUser (bank_user b ownerId email) md) (Ok tt) t ->
    registration t (Ok (issued resp n m)).

(** Every run ends in one of them. *)
Lemma register_runs : always (handleRegister req b) registration.
Proof.
  unfold handleRegister, rollback, recordRegistrationRejected, attempt, next_error. gw_unfold. gw_cbn.
  gw_reply ms0. destruct (toISOString ms0) as [ts|]; gw_cbn; [|by apply reg_failed].
  gw_reply ms. destruct (jwt_verify _ _ _) as [payload|err] eqn:Hjwt; [|by apply reg_refused].
  destruct (String.eqb_spec (string_or_empty (prop "purpose" payload)) "pki_registration") as [Hp|];
    cbn [negb]; [|by apply reg_refused].
  gw_cbn. gw_reply state; [|by apply reg_failed].
  case_bool_decide as Hused; [by apply reg_refused|].
  set (email := toLowerCase (string_or_empty (prop "sub" payload))).
  set (ownerId := string_or_empty (prop "owner_id" payload)).
  destruct (String.eqb_spec email "") as [|Hemail]; [by apply reg_refused|].
  destruct (String.eqb_spec ownerId "") as [|Howner]; [by apply reg_refused|]. cbn [orb]. gw_cbn.
  gw_reply existing; [destruct existing; gw_cbn|];
    [gw_reply a; by apply reg_refused | | gw_reply a; by apply reg_refused].
  gw_reply resp; [|gw_reply a; by apply reg_refused].
  assert (Hacc : forall t, saw DateNow ms t ->
    saw (RedisGet (RedisKeys.REG_TOKEN +:+ js_String (prop "jti" payload))) (Ok state) t ->
    accepted_claims req t ownerId email) by (intros; exists ms, payload; eauto 12).
  gw_reply bank.
  - destruct (prop "exp" payload) as [| | | exp | | | |]; gw_cbn;
      [| | | gw_reply sec | | | |]; gw_reply a; gw_reply c; gw_reply d;
      (eapply reg_done; [apply Hacc; in_trace | in_trace | in_trace | done | in_trace]).
  - case_ifs; gw_cbn; gw_reply a; gw_reply c;
      (eapply reg_rolled_back;
       [apply Hacc; in_trace | in_trace | in_trace | done | in_trace | eexists; in_trace]).
Qed.

End runs.

(** C6: an answer 201 means that everything happened, for the identity of the
    token and no other: the token was valid, meant for registration and not
    recorded as used; the bank did not know the address; the CA issued exactly
    one certificate, as a customer, for the owner and the address in the token
    and not in the body; the bank created the user; and the certificate in the
    answer is that one. *)
Theorem register_sound `{ENV} `{Crypto} req b :
  always (handleRegister req b) (fun t o => forall body, o = Ok (Respond [] 201 body) ->
    exists ownerId email resp md n m,
      accepted_claims req t ownerId email /\
      saw (BankCheckUserEmail email md) (Ok false) t /\
      saw (CaRegisterUser (customer b ownerId email) md) (Ok resp) t /\
      ca_issued t = [resp] /\
      saw (BankCreateUser (bank_user b ownerId email) md) (Ok tt) t /\
      Respond [] 201 body = issued resp n m).
Proof.
  eapply always_mono; [|apply register_runs].
  intros t o Hr body Hb. destruct Hr; try discriminate Hb.
  eexists _, _, _, _, _, _. split_and!; try eassumption. by injection Hb as <-.
Qed.

(** C35: no certificate is left without a bank user: in every run at most one
    certificate is issued, and if the answer is not 201 its revocation was
    requested, with the serial number that the CA returned, after the bank
    refused the user. *)
Theorem register_atomic `{ENV} `{Crypto} req b :
  always (handleRegister req b) (fun t o =>
    ca_issued t = [] \/
    exists resp ownerId email md, ca_issued t = [resp] /\
      ((exists n m, o = Ok (issued resp n m)) /\
       saw (BankCreateUser (bank_user b ownerId email) md) (Ok tt) t \/
       (exists e, o = Ok (NextError [] e)) /\
       (exists x, saw (BankCreateUser (bank_user b ownerId email) md) (Err x) t) /\
       exists r, saw (CaRevokeCertificate (rollback_of resp) md) r t)).
Proof.
  eapply always_mono; [|apply register_runs].
  intros t o Hr. destruct Hr; [by left | by left | right | right].
  - eexists _, ownerId, email, _. split; [eassumption|]. right. split_and!; eauto.
  - eexists _, ownerId, email, _. split; [eassumption|]. left. split; eauto.
Qed.

(** ** A token registers once *)

Section once.

Context {S V : Type} `{RedisSpec S}.
Context (delay : event -> world S V -> N) (serve : forall e : event, V -> V * reply e).
Context `{ENV} `{CryptoSpec} (email ownerId jti : string) (iat : Z).

Definition reg_token : string := jwt_sign (reg_claims email ownerId jti iat) GATEWAY_JWT_SECRET.
Definition jti_key : string := RedisKeys.REG_TOKEN +:+ jti.

Lemma bearer_app token : bearer (Some ("Bearer " +:+ token)) = token.
Proof.
  unfold bearer. cbn [default from_option id]. rewrite startsWith_app.
  apply (slice_app "Bearer ").
Qed.

(** The sentinel outlives the token. *)
Definition marked (w : world S V) : Prop :=
  exists e, 1000 * (iat + 600) <= e /\
    live (store w) (now w) jti_key = age (now w) (Some ("1", Some e)).

(** A reply of the other services, both ends. *)
Ltac svc_reply :=
  lazymatch goal with
  | |- wp _ _ (let '(_, _) := ?x in _) _ _ => idtac
  | |- context [let '(_, _) := ?serve ?e ?v in _] => destruct (serve e v) as [? [?|?]]; gw_cbn
  end.

Lemma reg_token_verify now :
  jwt_verify reg_token GATEWAY_JWT_SECRET now =
  if iat + 600 <=? now then Err TokenExpiredError else Ok (JObj (reg_claims email ownerId jti iat)).
Proof.
  destruct (Z.leb_spec (iat + 600) now).
  - by apply jwt_expires with (e := iat + 600).
  - by apply jwt_accepts with (e := iat + 600).
Qed.

Lemma mark_outlives t now : now = t / 1000 -> 1000 * (iat + 600) <= t + 1000 * Z.max 1 (iat + 600 - now).
Proof. intros ->. pose proof (Z.div_mod t 1000). pose proof (Z.mod_pos_bound t 1000). lia. Qed.

(** The tail of a registration: the sentinel is written and stays. *)
Lemma tail_marks w req resp m :
  wp delay serve
    (let* ttlSeconds := (let* now := now_seconds in Ret (Z.max 1 (iat + 600 - now))) in
     do* attempt (redis_set_ex jti_key "1" ttlSeconds) in
     do* recordRaAudit "ra_registration_approved" (Some (serialNumber resp)) "ra:register" None
           [("owner_id", ownerId); ("email", toLowerCase email); ("request_id", request_id req)]
           (Some (request_id req)) in
     let* issued_at := now_seconds in
     Ret (issued resp issued_at m)) w (fun w' _ _ => marked w').
Proof.
  unfold attempt. gw_unfold. gw_cbn. wp_step. gw_cbn. wp_step. gw_cbn. wp_step.
  pose proof (mark_outlives t (t / 1000) eq_refl) as Hm.
  assert (Hlive : forall t', t0 <= t' ->
    live (set_ex (store w) t0 jti_key "1" (Z.max 1 (iat + 600 - t / 1000))) t' jti_key =
    age t' (Some ("1", Some (t0 + 1000 * Z.max 1 (iat + 600 - t / 1000))))).
  { intros t' Ht'. rewrite (live_later _ t0 t') by done. rewrite live_set_ex by lia.
    by rewrite String.eqb_refl. }
  destruct (serve (CaAppendAudit _ _) (svc w)) as [v1 [[]|x]]; gw_cbn; wp_step; gw_cbn; apply wp_ret;
    (eexists; split; [|cbn [store now]; apply Hlive; lia]; lia).
Qed.

Lemma register_marks req b w :
  authorization req = Some ("Bearer " +:+ reg_token) ->
  wp delay serve (handleRegister req b) w (fun w' _ r =>
    forall body, r = Ok (Respond [] 201 body) -> marked w').
Proof.
  intros Hauth. unfold handleRegister. rewrite Hauth, bearer_app.
  unfold rollback, recordRegistrationRejected, next_error, attempt. gw_unfold. gw_cbn.
  wp_step. destruct (toISOString t) as [ts|]; gw_cbn; [|by apply wp_raise].
  wp_step. rewrite reg_token_verify. destruct (iat + 600 <=? t0 / 1000); [by apply wp_ret|].
  cbn [negb string_or_empty prop reg_claims field default from_option id String.eqb Ascii.eqb Bool.eqb].
  gw_cbn. wp_step. gw_cbn. case_bool_decide; [by apply wp_ret|]. cbn [js_String].
  destruct (String.eqb (toLowerCase email) "" || String.eqb ownerId ""); [by apply wp_ret|]. gw_cbn.
  wp_step. destruct (serve (BankCheckUserEmail _ _) (svc w)) as [v1 [[]|x]]; gw_cbn.
  - wp_step. destruct (serve (CaAppendAudit _ _) v1) as [v2 [[]|x]]; gw_cbn; by apply wp_ret.
  - wp_step. destruct (serve (CaRegisterUser _ _) v1) as [v2 [resp|x]]; gw_cbn.
    + wp_step. destruct (serve (BankCreateUser _ _) v2) as [v3 [[]|x]]; gw_cbn.
      * eapply wp_mono; [|exact (tail_marks _ req resp _)]. cbn. auto.
      * case_ifs; wp_step; destruct (serve (CaRevokeCertificate _ _) v3) as [v4 [c|y]]; gw_cbn; wp_step;
          destruct (serve (CaAppendAudit _ _) v4) as [v5 [[]|z]]; gw_cbn; by apply wp_ret.
    + wp_step. destruct (serve (CaAppendAudit _ _) v2) as [v3 [[]|y]]; gw_cbn; by apply wp_ret.
  - wp_step. destruct (serve (CaAppendAudit _ _) v1) as [v2 [[]|y]]; gw_cbn; by apply wp_ret.
Qed.

(** With the sentinel in place the token is refused. *)
Lemma marked_refuses req b w :
  authorization req = Some ("Bearer " +:+ reg_token) -> marked w -> 0 <= now w ->
  wp delay serve (handleRegister req b) w (fun w' t r => now w' <= 8640000000000000 ->
    now w' < 1000 * (iat + 600) \/ 1000 * (iat + 600) <= now w ->
    ca_issued t = [] /\ exists e, r = Ok (NextError [] e) /\
      err_error_code e ∈ [Some "REG_TOKEN_USED"; Some "REG_TOKEN_EXPIRED"]).
Proof.
  intros Hauth (e & He & Hl) Hw. unfold handleRegister. rewrite Hauth, bearer_app.
  unfold next_error. gw_unfold. gw_cbn. wp_step. destruct (toISOString t) as [ts|] eqn:Hts; gw_cbn.
  2: { apply wp_raise. cbn. intros Hd. destruct (toISOString_ok t) as [s Hs]; [lia | congruence]. }
  wp_step. rewrite reg_token_verify.
  destruct (Z.leb_spec (iat + 600) (t0 / 1000)) as [Hx|Hx].
  { apply wp_ret. intros _ _. split; [done|]. eexists. split; [done|]. cbn. in_trace. }
  cbn [negb string_or_empty prop reg_claims field default from_option id String.eqb Ascii.eqb Bool.eqb].
  gw_cbn. wp_step. cbn [js_String]. change (RedisKeys.REG_TOKEN +:+ jti) with jti_key.
  rewrite (live_later _ (now w)), Hl, age_later by lia. cbn [age].
  destruct (Z.leb_spec e t1) as [He1|He1]; cbn [option_map fst].
  - pose proof (Z.mul_div_le t0 1000 ltac:(lia)). pose proof (Z.mul_succ_div_gt t0 1000 ltac:(lia)).
    eapply (wp_late _ _ _ _ (1000 * (iat + 600))); [cbn; lia|]. cbn. intros w' tr r Hlate _ Hx'. lia.
  - gw_cbn. rewrite bool_decide_eq_true_2 by done. apply wp_ret. intros _ _. split; [done|].
    eexists. split; [done|]. cbn. in_trace.
Qed.

(** A registration token registers once: after a run answered 201, a second
    run with the same token, at any later time and for any body, issues no
    certificate and is refused as used or as expired, provided that the token
    does not expire in the middle of that run. *)
Theorem register_token_once req b w w1 t1 body req' b' w2 t2 r2 :
  authorization req = Some ("Bearer " +:+ reg_token) ->
  authorization req' = Some ("Bearer " +:+ reg_token) -> 0 <= now w ->
  run (gw_env delay serve) (handleRegister req b) w = (w1, t1, Ok (Respond [] 201 body)) ->
  run (gw_env delay serve) (handleRegister req' b') w1 = (w2, t2, r2) ->
  now w2 <= 8640000000000000 ->
  now w2 < 1000 * (iat + 600) \/ 1000 * (iat + 600) <= now w1 ->
  ca_issued t2 = [] /\ exists e, r2 = Ok (NextError [] e) /\
    err_error_code e ∈ [Some "REG_TOKEN_USED"; Some "REG_TOKEN_EXPIRED"].
Proof.
  intros Ha Ha' Hw E1 E2 Hd Hx. pose proof (run_now _ _ _ _ _ _ _ E1).
  pose proof (wp_run _ _ _ _ _ _ _ _ E1 (register_marks req b w Ha) body eq_refl) as Hm.
  exact (wp_run _ _ _ _ _ _ _ _ E2 (marked_refuses req' b' w1 Ha' Hm ltac:(lia)) Hd Hx).
Qed.

End once.

(** ** Concrete runs *)

(** A CA that issues, and a bank that knows the addresses it was given. *)
Record services := { bank_users : list string; next_serial : nat; revoked : list string }.

Definition demo_services (e : event) (v : services) : services * reply e :=
  match e return services * reply e with
  | RandomUUID | RandomToken _ => (v, "id")
  | RandomInt lo _ => (v, lo)
  | MailAdd _ _ => (v, tt)
  | SmtpSend _ => (v, Ok tt)
  | DateNow => (v, 0)
  | CaAppendAudit _ _ => (v, Ok tt)
  | BankCheckUserEmail email _ => (v, Ok (bool_decide (email ∈ bank_users v)))
  | BankCreateUser req _ =>
      if bool_decide (cu_subjectEmail req ∈ bank_users v) then
        (v, Err {| err_code := Some ALREADY_EXISTS; err_details := Some "email exists";
                   err_message := None; err_meta_code := None; err_status := None;
                   err_error_code := None; err_name := "Error"; err_activation := None |})
      else ({| bank_users := cu_subjectEmail req :: bank_users v; next_serial := next_serial v;
               revoked := revoked v |}, Ok tt)
  | CaRegisterUser req _ =>
      ({| bank_users := bank_users v; next_serial := Datatypes.S (next_serial v); revoked := revoked v |},
       Ok {| certificatePem := ru_csrPem req; serialNumber := "sn-" +:+ Z_string (Z.of_nat (next_serial v));
             notBeforeUnix := 0; notAfterUnix := 1000; chainPem := "" |})
  | CaRevokeCertificate req _ =>
      ({| bank_users := bank_users v; next_serial := next_serial v;
          revoked := rv_serialNumber req :: revoked v |}, Ok None)
  | _ => (v, Err offline)
  end.

Definition demo_token : string :=
  reg_token (H1 := default_env) (H2 := toy_crypto) "a@b.c" "owner" "jti" 1.

Definition bearer_request (token : string) : Request :=
  {| request_id := "r1"; authorization := Some ("Bearer " +:+ token); cookie := None;
     ip := None; remoteAddress := None; body := JUndefined; query := []; params := [] |}.

Definition demo_body (name : string) : RegisterBody := {| rb_csrPem := "csr"; rb_fullName := name |}.

Definition demo_register (name : string) : gw outcome :=
  handleRegister (H := default_env) (H0 := toy_crypto) (bearer_request demo_token) (demo_body name).

Definition demo_start : world map_store services :=
  World {["`jwt_used:jti" := ("0", Some 601000)]} 1000
    {| bank_users := []; next_serial := 0; revoked := [] |}.

Lemma register_token_once_witness :
  let env := gw_env (fun _ _ => 1%N) demo_services in
  let run1 := run env (demo_register "Alice") demo_start in
  let run2 := run env (demo_register "Mallory") run1.1.1 in
  ca_issued run2.1.2 = [] /\ exists e, run2.2 = Ok (NextError [] e) /\
    err_error_code e ∈ [Some "REG_TOKEN_USED"; Some "REG_TOKEN_EXPIRED"].
Proof.
  intros env run1 run2.
  pose (body := match run1.2 with Ok (Respond _ _ p) => p | _ => Text "" end).
  assert (H1 : run1.2 = Ok (Respond [] 201 body)) by (vm_compute; reflexivity).
  eapply (register_token_once (H1 := default_env) (H2 := toy_crypto) (H3 := toy_crypto_spec)
           (fun _ _ => 1%N) demo_services "a@b.c" "owner" "jti" 1 (bearer_request demo_token)
           (demo_body "Alice") demo_start run1.1.1 run1.1.2 body (bearer_request demo_token)
           (demo_body "Mallory") run2.1.1 run2.1.2 run2.2);
    [reflexivity | reflexivity | discriminate | | | vm_compute; discriminate | left; vm_compute; reflexivity].
  - rewrite <- H1. exact (triple_eta run1).
  - exact (triple_eta run2).
Defined.

(** Two interleaved registrations with one token both pass the check of the
    token's state and of the address, so the CA issues two certificates for the
    owner; the bank's own rule on addresses stops the second one, whose
    certificate is revoked. *)
Theorem register_race :
  let end_state := run_schedule (gw_env (fun _ _ => 1%N) demo_services) (rounds 2 12)
                     [demo_register "Alice"; demo_register "Mallory"] demo_start in
  map finished end_state.1 = [Some 201; None] /\
  map (fun p => match p with Ret (NextError _ e) => err_error_code e | _ => None end) end_state.1
    = [None; Some "EMAIL_ALREADY_REGISTERED"] /\
  next_serial (svc end_state.2) = 2%nat /\ revoked (svc end_state.2) = ["sn-1"] /\
  bank_users (svc end_state.2) = ["a@b.c"].
Proof. split_and!; vm_compute; reflexivity. Qed.
