(* ===== verification/Activation.v ===== *)
(** * Administrator activation

    [services/admin-activation.service.ts]: a pending identity is provisioned
    with an activation token, looked up by the hash of the token, and marked
    active once a certificate was issued. The handlers of the bank
    ([handleAdminActivate]) and of the CA ([handleAdminCaActivate]) share it. *)

From S2P Require Import Prelude JsString JsDate Effects Gateway Json ErrorHandler Redis Crypto Otp Register.

Open Scope Z_scope.

(** ** The identity model ([models/bank-admin.ts]) *)

Inductive AdminRole := BANK_ADMIN | CA_ADMIN.

#[export] Instance AdminRole_eq_dec : EqDecision AdminRole.
Proof. solve_decision. Defined.

Definition role_text (role : AdminRole) : string :=
  match role with BANK_ADMIN => "bank_admin" | CA_ADMIN => "ca_admin" end.

Definition PENDING_ACTIVATION : string := "pending_activation".
Definition ACTIVE : string := "active".

(** The properties of an identity, in order. *)
Definition AdminIdentity := list (string * json).

(** A text property; identities are only written by this service. *)
Definition text (name : string) (identity : AdminIdentity) : string :=
  match field name identity with Some (JStr s) => s | _ => "" end.

(** [identity[name] === v] for a text [v]. *)
Definition text_is (name v : string) (identity : AdminIdentity) : bool :=
  match field name identity with Some (JStr s) => String.eqb s v | _ => false end.

(** [{...obj, [name]: v}]: in place, or at the end. *)
Fixpoint obj_set (name : string) (v : json) (l : AdminIdentity) : AdminIdentity :=
  match l with
  | [] => [(name, v)]
  | (k, w) :: l' => if String.eqb k name then (k, v) :: l' else (k, w) :: obj_set name v l'
  end.

(** ** Errors *)

Definition AdminActivationError (code message : string) (status : Z) : js_error :=
  {| err_code := None; err_details := None; err_message := Some message; err_meta_code := None;
     err_status := Some status; err_error_code := None; err_name := "AdminActivationError";
     err_activation := Some code |}.

(** ** Scopes and keys *)

Definition label (role : AdminRole) : string :=
  match role with CA_ADMIN => "CA Admin" | BANK_ADMIN => "Bank Admin" end.

Definition identityPrefix (role : AdminRole) : string :=
  match role with CA_ADMIN => "admin:ca:identity:" | BANK_ADMIN => "admin:bank:identity:" end.

Definition activationPrefix (role : AdminRole) : string :=
  match role with CA_ADMIN => "admin:ca:activation:" | BANK_ADMIN => "admin:bank:activation:" end.

Definition identityKey (role : AdminRole) (adminId : string) : string :=
  identityPrefix role +:+ adminId.

Definition activationKey (role : AdminRole) (tokenHash : string) : string :=
  activationPrefix role +:+ tokenHash.

(** [scopeForRole(active.role)]: anything but the CA role is the bank's. *)
Definition role_of (identity : AdminIdentity) : AdminRole :=
  if text_is "role" "ca_admin" identity then CA_ADMIN else BANK_ADMIN.

Section service.

Context `{Crypto} (ADMIN_ACTIVATION_TTL_SECONDS : option string).

Definition hashActivationToken (rawToken : string) : string := sha256_hex rawToken.

Definition activationTtlSeconds : Z :=
  match ADMIN_ACTIVATION_TTL_SECONDS with
  | Some s => match Number_integer s with
              | Some n => if (n <? 60) || (86400 <? n) then 900 else n
              | None => 900
              end
  | None => 900
  end.

Definition new_identity (adminId email fullName tokenHash : string) (role : AdminRole)
    (now expiresIn : Z) : AdminIdentity :=
  [("admin_id", JStr adminId); ("email", JStr email); ("full_name", JStr fullName);
   ("role", JStr (role_text role)); ("status", JStr PENDING_ACTIVATION);
   ("activation_token_hash", JStr tokenHash); ("activation_expires_at", JNum (now + expiresIn));
   ("created_at", JNum now)].

(** The identity, the token to mail and its life in seconds. *)
Definition createPendingAdmin (inputEmail inputName : string) (role : AdminRole)
    : gw (AdminIdentity * string * Z) :=
  let email := toLowerCase (trim inputEmail) in
  let fullName := trim inputName in
  if String.eqb email "" || negb (has_char "@" email) then
    Raise (AdminActivationError "INVALID_ADMIN_EMAIL"
             ("A valid " +:+ label role +:+ " email is required") 400)
  else if String.eqb fullName "" then
    Raise (AdminActivationError "INVALID_ADMIN_NAME" (label role +:+ " full name is required") 400)
  else
    let* now := now_seconds in
    let expiresIn := activationTtlSeconds in
    let* activationToken := random_token 32 in
    let tokenHash := hashActivationToken activationToken in
    let* adminId := random_uuid in
    let identity := new_identity adminId email fullName tokenHash role now expiresIn in
    do* redis_multi
          [WSet (identityKey role adminId) (stringify (JObj identity));
           WSetEx (activationKey role tokenHash) adminId expiresIn] in
    Ret (identity, activationToken, expiresIn).

Definition createPendingBankAdmin (email fullName : string) := createPendingAdmin email fullName BANK_ADMIN.
Definition createPendingCaAdmin (email fullName : string) := createPendingAdmin email fullName CA_ADMIN.

Definition discardPendingAdminProvision (identity : AdminIdentity) (activationToken : string) : gw unit :=
  redis_multi
    [WDel (identityKey (role_of identity) (text "admin_id" identity));
     WDel (activationKey (role_of identity) (hashActivationToken activationToken))].

(** [activation_expires_at <= now]; false on what is not a number. *)
Definition expires_by (identity : AdminIdentity) (now : Z) : bool :=
  match field "activation_expires_at" identity with
  | Some (JNum n) => n <=? now
  | Some JNull => 0 <=? now
  | Some (JStr s) => match Number_integer s with Some n => n <=? now | None => false end
  | _ => false
  end.

Definition invalid (message : string) : js_error :=
  AdminActivationError "ADMIN_ACTIVATION_INVALID" message 401.

(** [JSON.parse(encoded)], as the property reads that follow see it. *)
Definition decode_identity (encoded : string) : result js_error AdminIdentity :=
  match parse encoded with
  | None => Err (invalid "Pending Admin identity is corrupted")
  | Some JNull => Err (plain_error "Cannot read properties of null")
  | Some (JObj identity) => Ok identity
  | Some _ => Ok []
  end.

Definition getPendingAdminByToken (rawToken : string) (role : AdminRole) : gw AdminIdentity :=
  let tokenHash := hashActivationToken rawToken in
  let* adminId := redis_get (activationKey role tokenHash) in
  let adminId := default "" adminId in
  if String.eqb adminId "" then Raise (invalid "Activation token is invalid or expired")
  else
    let* encoded := redis_get (identityKey role adminId) in
    let encoded := default "" encoded in
    if String.eqb encoded "" then
      do* redis_del (activationKey role tokenHash) in
      Raise (invalid "Pending Admin identity was not found")
    else
      let* identity := of_result (decode_identity encoded) in
      if negb (text_is "activation_token_hash" tokenHash identity) then
        Raise (invalid "Activation token does not match the Admin identity")
      else if text_is "status" ACTIVE identity then
        Raise (AdminActivationError "ADMIN_ALREADY_ACTIVE" (label role +:+ " is already active") 409)
      else
        let* now := now_seconds in
        if expires_by identity now then
          do* redis_del (activationKey role tokenHash) in
          Raise (AdminActivationError "ADMIN_ACTIVATION_EXPIRED" "Activation token has expired" 401)
        else if negb (text_is "role" (role_text role) identity) then
          Raise (AdminActivationError "ADMIN_ACTIVATION_INVALID"
                   ("Pending identity is not a " +:+ label role) 403)
        else Ret identity.

Definition activated (identity : AdminIdentity) (certSerial : string) (now : Z) : AdminIdentity :=
  obj_set "activated_at" (JNum now)
    (obj_set "cert_serial" (JStr certSerial) (obj_set "status" (JStr ACTIVE) identity)).

Definition markAdminActivated (identity : AdminIdentity) (certSerial : string) : gw AdminIdentity :=
  let* now := now_seconds in
  let active := activated identity certSerial now in
  do* redis_multi
        [WSet (identityKey (role_of active) (text "admin_id" active)) (stringify (JObj active));
         WDel (activationKey (role_of active) (text "activation_token_hash" active))] in
  Ret active.

(** ** The two handlers *)

Record ActivationBody := { activation_token : string; csr_pem : string }.

(** [issueBankAdminCertificate] sends no metadata and [issueCaAdminCertificate]
    passes no request id; the role is fixed by the service. *)
Definition issue_request (identity : AdminIdentity) (csrPem : string) (role : IdentityRole)
    : RegisterUserRequest :=
  {| ru_csrPem := csrPem; ru_ownerId := text "admin_id" identity;
     ru_subjectEmail := text "email" identity; ru_fullName := text "full_name" identity;
     ru_role := role |}.

Definition issueBankAdminCertificate (identity : AdminIdentity) (csrPem : string)
    : gw RegisterUserResponse :=
  registerUser (issue_request identity csrPem IDENTITY_ROLE_BANK_ADMIN) None.

Definition issueCaAdminCertificate (identity : AdminIdentity) (csrPem : string)
    : gw RegisterUserResponse :=
  registerUser (issue_request identity csrPem IDENTITY_ROLE_CA_ADMIN) None.

Definition activation_reply (message : string) (issued : RegisterUserResponse)
    (active : AdminIdentity) (m : list (string * json)) : outcome :=
  respond 201
    ([("success", JBool true); ("message", JStr message);
      ("data", JObj [("cert_pem", JStr (certificatePem issued)); ("cert_serial", JStr (serialNumber issued));
                     ("issued_at", JNum (notBeforeUnix issued)); ("expires_at", JNum (notAfterUnix issued));
                     ("admin_id", JStr (text "admin_id" active)); ("email", JStr (text "email" active));
                     ("full_name", JStr (text "full_name" active)); ("role", JStr (text "role" active))])]
     ++ m).

(** [caActivationError] of the bank's controller. *)
Definition bank_activation_error (err : js_error) : HttpError :=
  let message := error_text err "CA service unavailable" in
  match err_code err with
  | Some ALREADY_EXISTS => Build_HttpError 409 "ADMIN_ALREADY_ACTIVE" message
  | Some INVALID_ARGUMENT => Build_HttpError 400 "INVALID_CSR_FORMAT" message
  | Some UNAVAILABLE | Some DEADLINE_EXCEEDED => Build_HttpError 503 "CA_SERVICE_UNAVAILABLE" message
  | _ => Build_HttpError 502 "CA_SERVICE_UNAVAILABLE" message
  end.

Definition bank_activation_failure (err : js_error) : HttpError :=
  match err_activation err with
  | Some code => Build_HttpError (default 0 (err_status err)) code (default "" (err_message err))
  | None => bank_activation_error err
  end.

(** [caActivationError] of the CA's controller. *)
Definition ca_activation_failure (err : js_error) : HttpError :=
  match err_activation err with
  | Some code => Build_HttpError (default 0 (err_status err)) code (default "" (err_message err))
  | None =>
      match err_status err, err_error_code err with
      | Some st, Some code =>
          if String.eqb code "" then caGrpcError err
          else Build_HttpError st code (default "" (err_message err))
      | _, _ => caGrpcError err
      end
  end.

Definition refusal (h : HttpError) (m : list (string * json)) : outcome :=
  respond (status h) (fail_body (error_code h) (message h) m).

Definition activate (role : AdminRole) (issue : AdminIdentity -> string -> gw RegisterUserResponse)
    (message : string) (failure : js_error -> HttpError) (req : Request) (b : ActivationBody)
    : gw outcome :=
  let* m := meta req in
  catch
    (let* identity := getPendingAdminByToken (activation_token b) role in
     let* issued := issue identity (csr_pem b) in
     let* active := markAdminActivated identity (serialNumber issued) in
     Ret (activation_reply message issued active m))
    (fun err => Ret (refusal (failure err) m)).

Definition handleAdminActivate : Request -> ActivationBody -> gw outcome :=
  activate BANK_ADMIN issueBankAdminCertificate "Bank Admin certificate issued" bank_activation_failure.

Definition handleAdminCaActivate : Request -> ActivationBody -> gw outcome :=
  activate CA_ADMIN issueCaAdminCertificate "CA Admin certificate issued" ca_activation_failure.

End service.

(** ** Lemmas *)

Lemma field_obj_set_ne name v l name' :
  name <> name' -> field name' (obj_set name v l) = field name' l.
Proof.
  intros Hne. induction l as [|[k w] l IH]; cbn.
  - by rewrite (proj2 (String.eqb_neq _ _) Hne).
  - destruct (String.eqb_spec k name) as [->|]; cbn [field].
    + by rewrite (proj2 (String.eqb_neq _ _) Hne).
    + by rewrite IH.
Qed.

(** ** What every run does *)

Definition cert_role (role : AdminRole) : IdentityRole :=
  match role with BANK_ADMIN => IDENTITY_ROLE_BANK_ADMIN | CA_ADMIN => IDENTITY_ROLE_CA_ADMIN end.

Section runs.

Context `{Crypto} (role : AdminRole) (msg : string) (failure : js_error -> HttpError).
Context (req : Request) (b : ActivationBody).

Definition issue_for (identity : AdminIdentity) (csrPem : string) : gw RegisterUserResponse :=
  registerUser (issue_request identity csrPem (cert_role role)) None.

(** A pending identity of the role, found under the token and still open. *)
Definition granted (t : gw_trace) (identity : AdminIdentity) : Prop :=
  exists adminId encoded ms,
    saw (RedisGet (activationKey role (sha256_hex (activation_token b)))) (Ok (Some adminId)) t /\
    saw (RedisGet (identityKey role adminId)) (Ok (Some encoded)) t /\
    decode_identity encoded = Ok identity /\
    text_is "activation_token_hash" (sha256_hex (activation_token b)) identity = true /\
    text_is "status" ACTIVE identity = false /\
    saw DateNow ms t /\ expires_by identity (ms / 1000) = false /\
    text_is "role" (role_text role) identity = true.

Definition mark_writes (active : AdminIdentity) : list redis_write :=
  [WSet (identityKey (role_of active) (text "admin_id" active)) (stringify (JObj active));
   WDel (activationKey (role_of active) (text "activation_token_hash" active))].

(** What the CA was asked for, and its answer. *)
Definition ca_request (o : obs) : option (RegisterUserRequest * result js_error RegisterUserResponse) :=
  match o with
  | Obs (CaRegisterUser rq _) r => Some (rq, r)
  | _ => None
  end.

Definition ca_requests (t : gw_trace) : list (RegisterUserRequest * result js_error RegisterUserResponse) :=
  omap ca_request t.

Inductive activation : gw_trace -> result js_error outcome -> Prop :=
| act_refused t h m : ca_requests t = [] -> activation t (Ok (refusal h m))
| act_failed t e : ca_requests t = [] -> activation t (Err e)
| act_denied t identity x m :
    granted t identity -> ca_requests t = [(issue_request identity (csr_pem b) (cert_role role), Err x)] ->
    activation t (Ok (refusal (failure x) m))
| act_unmarked t identity resp now x m :
    granted t identity -> ca_requests t = [(issue_request identity (csr_pem b) (cert_role role), Ok resp)] ->
    saw (RedisMulti (mark_writes (activated identity (serialNumber resp) now))) (Err x) t ->
    activation t (Ok (refusal (failure x) m))
| act_done t identity resp now m :
    granted t identity -> ca_requests t = [(issue_request identity (csr_pem b) (cert_role role), Ok resp)] ->
    saw (RedisMulti (mark_writes (activated identity (serialNumber resp) now))) (Ok tt) t ->
    activation t (Ok (activation_reply msg resp (activated identity (serialNumber resp) now) m)).

Lemma activate_runs : always (activate role issue_for msg failure req b) activation.
Proof.
  unfold activate, getPendingAdminByToken, issue_for, markAdminActivated, hashActivationToken.
  gw_unfold. gw_cbn. gw_reply ms0. destruct (toISOString ms0) as [ts|]; gw_cbn; [|by apply act_failed].
  gw_reply adminId; [|by apply act_refused].
  destruct adminId as [adminId|]; cbn [default from_option id]; [|by apply act_refused].
  destruct (String.eqb adminId ""); gw_cbn; [by apply act_refused|].
  gw_reply encoded; [|by apply act_refused].
  destruct encoded as [encoded|]; cbn [default from_option id].
  2: { gw_cbn. gw_reply a; by apply act_refused. }
  destruct (String.eqb encoded ""); gw_cbn; [gw_reply a; by apply act_refused|].
  destruct (decode_identity encoded) as [identity|x] eqn:Hdec; gw_cbn; [|by apply act_refused].
  destruct (text_is "activation_token_hash" _ identity) eqn:Hhash; cbn [negb]; gw_cbn;
    [|by apply act_refused].
  destruct (text_is "status" ACTIVE identity) eqn:Hst; gw_cbn; [by apply act_refused|].
  gw_reply ms. destruct (expires_by identity (ms / 1000)) eqn:Hexp; gw_cbn;
    [gw_reply a; by apply act_refused|].
  destruct (text_is "role" (role_text role) identity) eqn:Hrole; cbn [negb]; gw_cbn;
    [|by apply act_refused].
  assert (Hgr : forall t,
    saw (RedisGet (activationKey role (sha256_hex (activation_token b)))) (Ok (Some adminId)) t ->
    saw (RedisGet (identityKey role adminId)) (Ok (Some encoded)) t -> saw DateNow ms t ->
    granted t identity) by (intros; exists adminId, encoded, ms; eauto 10).
  gw_reply resp; [gw_reply now1; gw_reply wr; [eapply act_done | eapply act_unmarked] | eapply act_denied];
    first [apply Hgr; in_trace | reflexivity | in_trace].
Qed.

End runs.

(** C16: the CA is only asked for a pending administrator. In every run of either
    activation handler the CA is asked for a certificate at most once, whether it
    then issues one or refuses, for the administrator's role of that handler, with
    the id, address and name of the stored identity, of the request only the CSR;
    and that identity was found under the hash of the token, carries that hash,
    was not active, had not expired and is of that role. The answer is the success
    reply only after the CA issued, the identity was stored as active and the
    token deleted; a refusal of the CA is answered as its failure, and a
    certificate without the success reply means that the write was refused by
    Redis. *)
Theorem activation_sound `{Crypto} req b :
  always (handleAdminActivate req b)
    (activation BANK_ADMIN "Bank Admin certificate issued" bank_activation_failure b) /\
  always (handleAdminCaActivate req b)
    (activation CA_ADMIN "CA Admin certificate issued" ca_activation_failure b).
Proof. split; apply activate_runs. Qed.

(** ** Against a working store *)

Section sequential.

Context {S V : Type} `{RedisSpec S}.
Context (delay : event -> world S V -> N) (serve : forall e : event, V -> V * reply e).
Context `{CryptoSpec} (role : AdminRole) (msg : string) (failure : js_error -> HttpError).

Lemma role_of_role identity : text_is "role" (role_text role) identity = true -> role_of identity = role.
Proof.
  unfold role_of, text_is. destruct (field "role" identity) as [[| | | | |s| |]|]; try done.
  intros Hr. apply String.eqb_eq in Hr. subst s. by destruct role.
Qed.

Lemma text_is_text name v identity : text_is name v identity = true -> text name identity = v.
Proof.
  unfold text_is, text. destruct (field name identity) as [[]|]; try done. apply String.eqb_eq.
Qed.

Lemma keys_differ r k r' k' : String.eqb (activationKey r k) (identityKey r' k') = false.
Proof. by destruct r, r'. Qed.

Lemma keys_differ' r k r' k' : String.eqb (identityKey r' k') (activationKey r k) = false.
Proof. by destruct r, r'. Qed.

(** Activation changes neither the role nor the hash nor the id. *)
Lemma activated_field identity sn now name :
  name ∈ ["role"; "activation_token_hash"; "admin_id"; "email"; "full_name"] ->
  field name (activated identity sn now) = field name identity.
Proof.
  intros Hn. unfold activated.
  rewrite !field_obj_set_ne; [done|..]; intros <-;
    repeat (apply elem_of_cons in Hn as [Hn|Hn]; [discriminate Hn|]); by apply elem_of_nil in Hn.
Qed.

Definition key (token : string) : string := activationKey role (sha256_hex token).

(** After the success reply the token is gone. *)
Lemma activate_deletes req b w :
  wp delay serve (activate role (issue_for role) msg failure req b) w (fun w' _ r =>
    forall resp active m, r = Ok (activation_reply msg resp active m) ->
      live (store w') (now w') (key (activation_token b)) = None).
Proof.
  unfold activate, getPendingAdminByToken, issue_for, markAdminActivated, hashActivationToken.
  gw_unfold. gw_cbn. wp_step. destruct (toISOString t) as [ts|]; gw_cbn; [|by apply wp_raise].
  wp_step. gw_cbn.
  destruct (String.eqb _ ""); gw_cbn; [by apply wp_ret|]. wp_step. gw_cbn.
  destruct (String.eqb _ ""); gw_cbn; [wp_step; gw_cbn; by apply wp_ret|].
  destruct (decode_identity _) as [identity|x]; gw_cbn; [|by apply wp_ret].
  destruct (text_is "activation_token_hash" _ identity) eqn:Hhash; cbn [negb]; gw_cbn; [|by apply wp_ret].
  destruct (text_is "status" ACTIVE identity); gw_cbn; [by apply wp_ret|].
  wp_step. destruct (expires_by identity _); gw_cbn; [wp_step; gw_cbn; by apply wp_ret|].
  destruct (text_is "role" (role_text role) identity) eqn:Hrole; cbn [negb]; gw_cbn; [|by apply wp_ret].
  wp_step. destruct (serve (CaRegisterUser _ _) (svc w)) as [v1 [resp|x]]; gw_cbn; [|by apply wp_ret].
  wp_step. wp_step. gw_cbn. apply wp_ret. intros resp' active m _. cbn [store now foldl apply_write].
  assert (Hkey : activationKey (role_of (activated identity (serialNumber resp) (t4 / 1000)))
    (text "activation_token_hash" (activated identity (serialNumber resp) (t4 / 1000)))
    = key (activation_token b)).
  { unfold role_of, text, text_is. rewrite !activated_field by in_trace. unfold key. f_equal.
    - by apply role_of_role.
    - by apply text_is_text. }
  rewrite Hkey. by rewrite live_del, String.eqb_refl.
Qed.

(** Without the key the token is refused and nothing is issued. *)
Lemma activate_without_key req b w :
  live (store w) (now w) (key (activation_token b)) = None -> 0 <= now w ->
  wp delay serve (activate role (issue_for role) msg failure req b) w (fun w' t r =>
    now w' <= 8640000000000000 -> ca_issued t = [] /\
    exists m, r = Ok (refusal (failure (invalid "Activation token is invalid or expired")) m)).
Proof.
  intros Hl Hw. unfold activate, getPendingAdminByToken, hashActivationToken. gw_unfold. gw_cbn. wp_step.
  destruct (toISOString t) as [ts|] eqn:Hts; gw_cbn.
  2: { apply wp_raise. cbn. intros Hd. destruct (toISOString_ok t) as [s Hs]; [lia | congruence]. }
  wp_step. change (activationKey role (sha256_hex (activation_token b))) with (key (activation_token b)).
  rewrite (live_later _ (now w)), Hl by lia. cbn [age option_map]. gw_cbn.
  cbn [default from_option id String.eqb]. gw_cbn. apply wp_ret. intros _. split; [done|]. by eexists.
Qed.

(** What a provision leaves in the store. *)
Definition pending (token : string) (identity : AdminIdentity) (e : Z) (w : world S V) : Prop :=
  live (store w) (now w) (key token) = age (now w) (Some (text "admin_id" identity, Some e)) /\
  live (store w) (now w) (identityKey role (text "admin_id" identity))
    = Some (stringify (JObj identity), None).

Lemma create_pending ttl_setting email name w :
  0 <= now w ->
  wp delay serve (createPendingAdmin ttl_setting email name role) w (fun w' _ r =>
    forall identity token ttl, r = Ok (identity, token, ttl) ->
      exists adminId now0 e,
        identity = new_identity adminId (toLowerCase (trim email)) (trim name) (sha256_hex token) role now0 ttl /\
        1000 * (now0 + ttl) <= e /\ pending token identity e w').
Proof.
  intros Hw. unfold createPendingAdmin, hashActivationToken. gw_unfold.
  case_ifs; [by apply wp_raise | by apply wp_raise |].
  gw_cbn. wp_step. gw_cbn. wp_step. destruct (serve (RandomToken 32) (svc w)) as [v1 token]. gw_cbn.
  wp_step. destruct (serve RandomUUID v1) as [v2 adminId]. gw_cbn. wp_step. gw_cbn. apply wp_ret.
  cbn [store now foldl apply_write]. intros identity token' ttl Hr. injection Hr as <- <- <-.
  assert (Httl : 60 <= activationTtlSeconds ttl_setting).
  { unfold activationTtlSeconds. case_match; [case_match|]; case_ifs; bool_to_Z; lia. }
  exists adminId, (t / 1000), (t2 + 1000 * activationTtlSeconds ttl_setting).
  split; [done|]. split; [pose proof (Z.mul_div_le t 1000); lia|]. split.
  - cbn [store now]. unfold key. rewrite live_set_ex, String.eqb_refl by lia. cbn [age].
    by rewrite (proj2 (Z.leb_gt _ _)) by lia.
  - cbn [store now]. rewrite live_set_ex, keys_differ' by lia. cbn.
    by rewrite live_set, String.eqb_refl.
Qed.

Lemma decode_stringify identity : plain (JObj identity) = true ->
  decode_identity (stringify (JObj identity)) = Ok identity.
Proof. intros Hp. unfold decode_identity. by rewrite parse_stringify. Qed.

(** The CA is asked for the identity and its answer decides: a certificate is
    answered with the activated identity, a refusal as a failure. *)
Definition issues (msg : string) (failure : js_error -> HttpError) (identity : AdminIdentity) (csr : string)
    (t : gw_trace) (r : result js_error outcome) : Prop :=
  exists answer, ca_requests t = [(issue_request identity csr (cert_role role), answer)] /\
    match answer with
    | Ok resp => exists now1 m, r = Ok (activation_reply msg resp (activated identity (serialNumber resp) now1) m)
    | Err x => exists m, r = Ok (refusal (failure x) m)
    end.

(** A pending identity is activated as soon as the CA issues. *)
Lemma activate_pending req b identity adminId email name now0 ttl e w :
  identity = new_identity adminId email name (sha256_hex (activation_token b)) role now0 ttl ->
  adminId <> "" -> 0 <= now w -> 1000 * (now0 + ttl) <= e -> pending (activation_token b) identity e w ->
  wp delay serve (activate role (issue_for role) msg failure req b) w (fun w' t r =>
    now w' <= 8640000000000000 -> now w' < 1000 * (now0 + ttl) ->
    issues msg failure identity (csr_pem b) t r).
Proof.
  intros Hid Hne Hw He [Hk Hi]. unfold activate, getPendingAdminByToken, issue_for, markAdminActivated.
  unfold hashActivationToken. gw_unfold. gw_cbn. wp_step.
  destruct (toISOString t) as [ts|] eqn:Hts; gw_cbn.
  2: { apply wp_raise. cbn. intros Hd. destruct (toISOString_ok t) as [s Hs]; [lia | congruence]. }
  wp_step. change (activationKey role (sha256_hex (activation_token b))) with (key (activation_token b)).
  rewrite (live_later _ (now w)), Hk, age_later by lia. cbn [age].
  assert (Htext : text "admin_id" identity = adminId) by (by subst identity).
  rewrite Htext in *.
  destruct (Z.leb_spec e t0) as [Hl|Hl]; cbn [option_map fst]; gw_cbn; cbn [default from_option id].
  { apply wp_ret. cbn. lia. }
  rewrite (proj2 (String.eqb_neq _ _) Hne). gw_cbn. wp_step.
  rewrite (live_later _ (now w)), Hi by lia. cbn [age option_map fst]. gw_cbn. cbn [default from_option id].
  assert (Hplain : plain (JObj identity) = true) by (by subst identity).
  assert (Hs : String.eqb (stringify (JObj identity)) "" = false) by reflexivity.
  rewrite Hs, decode_stringify by done. gw_cbn.
  assert (Hhash : text_is "activation_token_hash" (sha256_hex (activation_token b)) identity = true)
    by (subst identity; apply String.eqb_refl).
  assert (Hst : text_is "status" ACTIVE identity = false) by (by subst identity).
  assert (Hrole : text_is "role" (role_text role) identity = true) by (subst identity; apply String.eqb_refl).
  rewrite Hhash, Hst. cbn [negb]. gw_cbn. wp_step.
  assert (Hexp : expires_by identity (t2 / 1000) = (now0 + ttl <=? t2 / 1000)) by (by subst identity).
  rewrite Hexp. destruct (Z.leb_spec (now0 + ttl) (t2 / 1000)) as [Hx|Hx]; gw_cbn.
  { pose proof (Z.mul_div_le t2 1000 ltac:(lia)). eapply (wp_late _ _ _ _ (1000 * (now0 + ttl))).
    - cbn. lia.
    - cbn. intros; lia. }
  rewrite Hrole. cbn [negb]. gw_cbn.
  wp_step. destruct (serve (CaRegisterUser _ _) (svc w)) as [v1 [resp|x]]; gw_cbn;
    [|apply wp_ret; intros _ _; exists (Err x); split; [reflexivity | by eexists]].
  wp_step. gw_cbn. wp_step. gw_cbn. apply wp_ret. intros _ _.
  exists (Ok resp). split; [reflexivity|]. by eexists _, _.
Qed.

End sequential.

(** The handler of a role. *)
Definition handler `{Crypto} (role : AdminRole) : Request -> ActivationBody -> gw outcome :=
  match role with BANK_ADMIN => handleAdminActivate | CA_ADMIN => handleAdminCaActivate end.

Definition success_message (role : AdminRole) : string :=
  match role with
  | BANK_ADMIN => "Bank Admin certificate issued"
  | CA_ADMIN => "CA Admin certificate issued"
  end.

Definition failure_of (role : AdminRole) : js_error -> HttpError :=
  match role with BANK_ADMIN => bank_activation_failure | CA_ADMIN => ca_activation_failure end.

Lemma handler_activate `{Crypto} role req b :
  handler role req b = activate role (issue_for role) (success_message role) (failure_of role) req b.
Proof. by destruct role. Qed.

(** An activation token works once: after a successful activation every
    later activation with the same token, by whatever request, issues no
    certificate and answers 401 [ADMIN_ACTIVATION_INVALID]. *)
Theorem activation_once {S V} `{RedisSpec S} (delay : event -> world S V -> N) serve `{CryptoSpec}
    role req b req' b' w w1 t1 resp active m w2 t2 r2 :
  0 <= now w -> activation_token b' = activation_token b ->
  run (gw_env delay serve) (handler role req b) w
    = (w1, t1, Ok (activation_reply (success_message role) resp active m)) ->
  run (gw_env delay serve) (handler role req' b') w1 = (w2, t2, r2) ->
  now w2 <= 8640000000000000 ->
  ca_issued t2 = [] /\
  exists m', r2 = Ok (respond 401
    (fail_body "ADMIN_ACTIVATION_INVALID" "Activation token is invalid or expired" m')).
Proof.
  intros Hw Htok E1 E2 Hd. rewrite handler_activate in E1, E2. pose proof (run_now _ _ _ _ _ _ _ E1).
  pose proof (wp_run _ _ _ _ _ _ _ _ E1 (activate_deletes delay serve role _ _ req b w) _ _ _ eq_refl) as Hn.
  rewrite <- Htok in Hn.
  destruct (wp_run _ _ _ _ _ _ _ _ E2
    (activate_without_key delay serve role (success_message role) (failure_of role) req' b' w1 Hn ltac:(lia)) Hd)
    as [? [m' ->]].
  split; [done|]. exists m'. by destruct role.
Qed.

(** C37: what is provisioned can be activated. Against a working store, however
    long each step takes: after [createPendingAdmin] has returned an identity and
    a token, the handler of that role, called next with this token by any request
    and with any CSR, does not refuse the token as long as the identity does not
    expire during the call: it asks the CA exactly once, for the provisioned
    identity with the address given to the script, and then the CA's answer
    decides. If the CA issues a certificate, the handler answers success with that
    certificate and the activated identity; if the CA refuses, the handler answers
    the CA's error. (The identifier drawn for the identity is not empty, and the
    clock shows a date that can be printed.) *)
Theorem provision_then_activate {S V} `{RedisSpec S} (delay : event -> world S V -> N) serve `{CryptoSpec}
    ttl_setting role email name req b w w1 t1 identity ttl w2 t2 r2 :
  0 <= now w -> text "admin_id" identity <> "" ->
  run (gw_env delay serve) (createPendingAdmin ttl_setting email name role) w
    = (w1, t1, Ok (identity, activation_token b, ttl)) ->
  run (gw_env delay serve) (handler role req b) w1 = (w2, t2, r2) ->
  now w2 <= 8640000000000000 -> expires_by identity (now w2 / 1000) = false ->
  text "email" identity = toLowerCase (trim email) /\
  issues role (success_message role) (failure_of role) identity (csr_pem b) t2 r2.
Proof.
  intros Hw Hne E1 E2 Hd Hexp. rewrite handler_activate in E2. pose proof (run_now _ _ _ _ _ _ _ E1).
  destruct (wp_run _ _ _ _ _ _ _ _ E1 (create_pending delay serve role ttl_setting email name w Hw)
    _ _ _ eq_refl) as (adminId & now0 & e & Hid & He & Hp).
  assert (Hx : now w2 < 1000 * (now0 + ttl)).
  { subst identity. cbn in Hexp. apply Z.leb_gt in Hexp.
    pose proof (Z.mul_succ_div_gt (now w2) 1000 ltac:(lia)). lia. }
  split; [by subst identity|].
  assert (Hne' : adminId <> "") by (by subst identity).
  exact (wp_run _ _ _ _ _ _ _ _ E2
    (activate_pending delay serve role (success_message role) (failure_of role) req b identity adminId _ _
       now0 ttl e w1 Hid Hne' ltac:(lia) He Hp) Hd Hx).
Qed.

(** ** A concrete provision, activation and replay *)

Definition demo_activation : ActivationBody := {| activation_token := "id"; csr_pem := "csr" |}.

Definition demo_admin_env := gw_env (S := map_store) (fun _ _ => 1%N) demo_services.

Definition demo_provision :=
  run demo_admin_env (createPendingAdmin (H := toy_crypto) None " Ann@B.c " "Ann" CA_ADMIN)
    (World ∅ 1000 {| bank_users := []; next_serial := 0; revoked := [] |}).

Definition demo_activate (w : world map_store services) :=
  run demo_admin_env (handler (H := toy_crypto) CA_ADMIN demo_request demo_activation) w.

Definition demo_cert : RegisterUserResponse :=
  {| certificatePem := "csr"; serialNumber := "sn-0"; notBeforeUnix := 0; notAfterUnix := 1000;
     chainPem := "" |}.

Definition demo_identity : AdminIdentity :=
  new_identity "id" "ann@b.c" "Ann" (sha256_hex (Crypto := toy_crypto) "id") CA_ADMIN 1 900.

Lemma provision_then_activate_witness :
  let second := demo_activate demo_provision.1.1 in
  issues CA_ADMIN "CA Admin certificate issued" ca_activation_failure demo_identity "csr" second.1.2 second.2.
Proof.
  intros second.
  apply (provision_then_activate (H1 := toy_crypto) (H2 := toy_crypto_spec) (fun _ _ => 1%N) demo_services
           None CA_ADMIN " Ann@B.c " "Ann" demo_request demo_activation
           (World ∅ 1000 {| bank_users := []; next_serial := 0; revoked := [] |})
           demo_provision.1.1 demo_provision.1.2 demo_identity 900 second.1.1 second.1.2 second.2);
    [discriminate | discriminate | vm_compute; reflexivity | exact (triple_eta second)
    | vm_compute; discriminate | vm_compute; reflexivity].
Defined.

Lemma activation_once_witness :
  let first := demo_activate demo_provision.1.1 in
  let second := demo_activate first.1.1 in
  ca_issued second.1.2 = [] /\
  exists m', second.2 = Ok (respond 401
    (fail_body "ADMIN_ACTIVATION_INVALID" "Activation token is invalid or expired" m')).
Proof.
  intros first second.
  apply (activation_once (H1 := toy_crypto) (H2 := toy_crypto_spec) (fun _ _ => 1%N) demo_services CA_ADMIN
            demo_request demo_activation demo_request demo_activation demo_provision.1.1
            first.1.1 first.1.2 demo_cert (activated demo_identity "sn-0" 1)
            [("request_id", JStr "r1"); ("timestamp", JStr "1970-01-01T00:00:01.005Z")]
            second.1.1 second.1.2 second.2);
    [vm_compute; discriminate | reflexivity | | exact (triple_eta second) | vm_compute; discriminate].
  transitivity (first.1.1, first.1.2, first.2); [exact (triple_eta first)|].
  apply (f_equal (pair (first.1.1, first.1.2))). vm_compute. reflexivity.
Defined.
