(* ===== verification/Schema.v ===== *)
(** * Request schemas

    The gateway declares the shape of a request with [zod], a library outside
    the repository. A schema is data here, [parses] is the documented meaning of
    the constructors the gateway uses, and [Zod] is the interface: [safeParse]
    returns the parsed value exactly when the schema accepts, and otherwise a
    non-empty list of issues whose paths name fields of the schema. *)

From S2P Require Import Prelude JsString Gateway.

Open Scope Z_scope.

(** ** Schemas as data *)

(** [.regex], [.min], [.startsWith], [.refine] with their message, and the
    overwriting [.trim] and [.toLowerCase]. *)
Inductive str_check :=
| Refine (f : string -> bool) (message : option string)
| Overwrite (f : string -> string).

(** Numbers are only declared with [.int()]; [coerce] is [z.coerce.number()].
    [STransform] is [.transform] with a function that may refuse. *)
Inductive schema :=
| SString (checks : list str_check)
| SInt (coerce : bool) (checks : list (Z -> bool))
| SEnum (values : list string)
| SOptional (s : schema)
| SDefault (s : schema) (v : json)
| STransform (s : schema) (f : json -> option json)
| SObject (strict : bool) (fields : list (string * schema)).

Record issue := { path : option string; message : string }.

(** ** What a schema accepts *)

Fixpoint str_checks (l : list str_check) (s : string) : option string :=
  match l with
  | [] => Some s
  | Refine f _ :: l' => if f s then str_checks l' s else None
  | Overwrite f :: l' => str_checks l' (f s)
  end.

(** [Number(j)], when it is an integer. *)
Definition Number_json (j : json) : option Z :=
  match j with
  | JUndefined | JDec _ | JObj _ => None
  | JNull => Some 0
  | JBool b => Some (if b then 1 else 0)
  | JNum n => Some n
  | JStr s => Number_integer s
  | JArr _ => Number_integer (js_String j)
  end.

(** The integers of [.int()]: those that a double represents safely. *)
Definition safe_integer (n : Z) : bool := Z.abs n <=? 2 ^ 53 - 1.

Definition int_of (coerce : bool) (j : json) : option Z :=
  if coerce then Number_json j else match j with JNum n => Some n | _ => None end.

Definition known_keys (fields : list (string * schema)) (l : list (string * json)) : bool :=
  forallb (fun kv => existsb (String.eqb kv.1) (map fst fields)) l.

Fixpoint parses (s : schema) (j : json) {struct s} : option json :=
  match s with
  | SString checks =>
      match j with JStr t => option_map JStr (str_checks checks t) | _ => None end
  | SInt coerce checks =>
      match int_of coerce j with
      | Some n => if safe_integer n && forallb (fun f => f n) checks then Some (JNum n) else None
      | None => None
      end
  | SEnum values =>
      match j with JStr t => if existsb (String.eqb t) values then Some j else None | _ => None end
  | SOptional s => match j with JUndefined => Some JUndefined | _ => parses s j end
  | SDefault s v => match j with JUndefined => Some v | _ => parses s j end
  | STransform s f => match parses s j with Some v => f v | None => None end
  | SObject strict fields =>
      match j with
      | JObj l =>
          let fix go (fs : list (string * schema)) : option (list (string * json)) :=
            match fs with
            | [] => Some []
            | (name, s) :: fs' =>
                match parses s (default JUndefined (field name l)), go fs' with
                | Some v, Some vs => Some ((name, v) :: vs)
                | _, _ => None
                end
            end in
          if strict && negb (known_keys fields l) then None else option_map JObj (go fields)
      | _ => None
      end
  end.

(** The fields of an accepted object, one after the other. *)
Fixpoint parse_fields (l : list (string * json)) (fs : list (string * schema))
    : option (list (string * json)) :=
  match fs with
  | [] => Some []
  | (name, s) :: fs' =>
      match parses s (default JUndefined (field name l)), parse_fields l fs' with
      | Some v, Some vs => Some ((name, v) :: vs)
      | _, _ => None
      end
  end.

(** ** The library *)

Class Zod := {
  zod_email : string -> bool;
  zod_uuid : string -> bool;
  safeParse : schema -> json -> result (list issue) json
}.

(** The field names of an object schema. *)
Definition schema_keys (s : schema) : list string :=
  match s with SObject _ fields => map fst fields | _ => [] end.

Class ZodSpec `{Zod} := {
  zod_accepts s j v : parses s j = Some v -> safeParse s j = Ok v;
  zod_refuses s j : parses s j = None ->
    exists i rest, safeParse s j = Err (i :: rest) /\ forall k, path i = Some k -> k ∈ schema_keys s
}.

(** ** Concrete instance *)

Definition hex_char (a : ascii) : bool := bool_decide (is_Some (hex_val a)).

Definition toy_zod : Zod := {|
  zod_email := has_char (of_code 64);
  zod_uuid s := bool_decide (String.length s = 36%nat);
  safeParse s j :=
    match parses s j with
    | Some v => Ok v
    | None => Err [{| path := head (schema_keys s); message := "Invalid input" |}]
    end
|}.

Lemma toy_zod_spec : ZodSpec (H := toy_zod).
Proof.
  split; intros s j; cbn; [intros v ->; done|]. intros ->. eexists _, _. split; [done|].
  intros k Hk. cbn in Hk. destruct (schema_keys s); [done|]. injection Hk as ->. left.
Qed.

(** ** Lemmas *)

Lemma parses_object strict fields j :
  parses (SObject strict fields) j =
  match j with
  | JObj l =>
      if strict && negb (known_keys fields l) then None else option_map JObj (parse_fields l fields)
  | _ => None
  end.
Proof.
  destruct j as [| | | | | | |l]; try done. cbn [parses].
  destruct (strict && negb (known_keys fields l)); [done|]. f_equal.
  induction fields as [|[name s] fs IH]; [done|]. cbn. by rewrite IH.
Qed.

Lemma safeParse_ok `{ZodSpec} s j v : safeParse s j = Ok v <-> parses s j = Some v.
Proof.
  split; [|apply zod_accepts]. intros Hs. destruct (parses s j) as [v'|] eqn:Hp.
  - apply zod_accepts in Hp. rewrite Hs in Hp. by injection Hp as ->.
  - destruct (zod_refuses s j Hp) as (i & rest & Hr & _). congruence.
Qed.

(** An accepted object: every field was accepted, and is found again under its
    name when the names are distinct. *)
Lemma parse_fields_lookup l fs vs name s :
  parse_fields l fs = Some vs -> NoDup (map fst fs) -> (name, s) ∈ fs ->
  exists v, parses s (default JUndefined (field name l)) = Some v /\ field name vs = Some v.
Proof.
  revert vs. induction fs as [|[k sk] fs IH]; intros vs Hp Hnd Hin; [by apply elem_of_nil in Hin|].
  cbn in Hp, Hnd. apply NoDup_cons in Hnd as [Hk Hnd].
  destruct (parses sk _) as [v|] eqn:Hv; [|done].
  destruct (parse_fields l fs) as [vs'|] eqn:Hf; [|done]. injection Hp as <-. cbn.
  apply elem_of_cons in Hin as [[= -> ->]|Hin].
  - exists v. split; [done|]. assert (Hno : field k vs' = None); [|by rewrite Hno, String.eqb_refl].
    clear -Hf Hk. revert vs' Hf. induction fs as [|[k' s'] fs IH]; intros vs' Hf; cbn in Hf.
    + by injection Hf as <-.
    + destruct (parses s' _); [|done]. destruct (parse_fields l fs) as [vs2|]; [|done].
      injection Hf as <-. cbn. cbn in Hk. apply not_elem_of_cons in Hk as [Hne Hk].
      rewrite (IH Hk vs2 eq_refl). by rewrite (proj2 (String.eqb_neq k' k)).
  - destruct (IH vs' eq_refl Hnd Hin) as (v' & Hv' & Hl). exists v'. split; [done|]. by rewrite Hl.
Qed.

(** A field of an object that [safeParse] accepted. *)
Lemma safeParse_field `{ZodSpec} strict fields j v name s :
  safeParse (SObject strict fields) j = Ok v -> NoDup (map fst fields) -> (name, s) ∈ fields ->
  parses s (prop name j) = Some (prop name v).
Proof.
  rewrite safeParse_ok, parses_object. destruct j as [| | | | | | |l]; try done.
  case_match; [done|]. destruct (parse_fields l fields) as [vs|] eqn:Hp; [|done].
  intros [= <-] Hnd Hin.
  destruct (parse_fields_lookup l fields vs name s Hp Hnd Hin) as (w & Hw & Hl). cbn. by rewrite Hl.
Qed.

(** A text field: a text that passes the checks. *)
Lemma parses_string checks j v :
  parses (SString checks) j = Some v ->
  exists s t, j = JStr s /\ str_checks checks s = Some t /\ v = JStr t.
Proof.
  destruct j as [| | | | |s| |]; try done. cbn. destruct (str_checks checks s) as [t|] eqn:Ht; [|done].
  intros [= <-]. eauto.
Qed.

Lemma parses_int coerce checks j v :
  parses (SInt coerce checks) j = Some v ->
  exists n, int_of coerce j = Some n /\ safe_integer n = true /\
    Forall (fun f => f n = true) checks /\ v = JNum n.
Proof.
  cbn. destruct (int_of coerce j) as [n|]; [|done].
  destruct (safe_integer n) eqn:Hs; [|done]. cbn.
  destruct (forallb (fun f => f n) checks) eqn:Hf; [|done].
  intros [= <-]. exists n. split_and!; try done. apply Forall_forall. intros f Hin.
  apply forallb_forall with (x := f) in Hf; [done|]. by apply list_elem_of_In.
Qed.

(** ** Dates in a query

    [Date.parse] accepts other formats than ISO 8601, in a way that the language
    leaves to the engine: it is a parameter. [None] is NaN. *)

Class Dates := { date_parse : string -> option Z }.

(** [isoToUnix], declared alike in three controllers: seconds, zero when absent. *)
Definition isoToUnix `{Dates} : schema :=
  STransform (SOptional (SString [])) (fun value =>
    match value with
    | JStr s => if String.eqb s "" then Some (JNum 0)
                else option_map (fun millis => JNum (millis / 1000)) (date_parse s)
    | _ => Some (JNum 0)
    end).
