(* ===== verification/Validators.v ===== *)
(** * Request validation

    The middleware of [otp.middleware.ts], [auth.middleware.ts],
    [bank.middleware.ts], [admin.middleware.ts], [admin-bank.middleware.ts] and
    [validateHeaders.ts]: every validator answers 400 with the first issue of
    its schema, or hands the fields that the handler reads to the rest. *)

From S2P Require Import Prelude JsString JsDate Effects Gateway Buffer Otp Register Activation Schema.

Open Scope Z_scope.

(** ** The regular expressions *)

Fixpoint span (f : ascii -> bool) (s : string) : string * string :=
  match s with
  | String a s' => if f a then let '(x, y) := span f s' in (String a x, y) else ("", s)
  | "" => ("", "")
  end.

Definition nonempty (s : string) : bool := negb (String.eqb s "").

Definition alnum (a : ascii) : bool :=
  let c := code a in
  ((48 <=? c) && (c <=? 57)) || ((65 <=? c) && (c <=? 90)) || ((97 <=? c) && (c <=? 122)).

(** [[A-Za-z0-9+/]], [[A-Za-z0-9_-]] and [[0-9A-Fa-f]]. *)
Definition base64_class (a : ascii) : bool := alnum a || (code a =? 43) || (code a =? 47).
Definition base64url_class (a : ascii) : bool := alnum a || (code a =? 95) || (code a =? 45).
Definition hex_class (a : ascii) : bool := match hex_val a with Some _ => true | None => false end.

(** [/^[A-Za-z0-9+/]*={0,2}$/], and with [+] for [*]. *)
Definition base64_star (s : string) : bool :=
  let '(_, r) := span base64_class s in String.eqb r "" || String.eqb r "=" || String.eqb r "==".
Definition base64Re (s : string) : bool := nonempty (span base64_class s).1 && base64_star s.
Definition base64UrlRe (s : string) : bool := nonempty s && sall base64url_class s.
Definition hexRe (s : string) : bool := nonempty s && sall hex_class s.

(** The versions and variants that a UUID pattern admits, without case. *)
Definition uuid_pattern (version variant : ascii -> bool) (s : string) : bool :=
  match split "-" s with
  | [a; b; String v c; String w d; e] =>
      sall hex_class a && sall hex_class b && sall hex_class c && sall hex_class d && sall hex_class e &&
      version v && variant w &&
      bool_decide (map String.length [a; b; c; d; e] = [8; 4; 3; 3; 12]%nat)
  | _ => false
  end.
Definition rfc_variant (a : ascii) : bool := bool_decide (lower a ∈ list_ascii_of_string "89ab").
Definition uuidRe : string -> bool :=
  uuid_pattern (fun a => (49 <=? code a) && (code a <=? 53)) rfc_variant.
Definition uuidV4Re : string -> bool := uuid_pattern (fun a => code a =? 52) rfc_variant.

Definition slen (s : string) : Z := Z.of_nat (String.length s).

Fixpoint sincludes (p s : string) : bool :=
  startsWith p s || match s with String _ s' => sincludes p s' | "" => false end.

(** ** Building blocks *)

Definition regex (f : string -> bool) (m : string) : str_check := Refine f (Some m).
Definition min_len (n : Z) : str_check := Refine (fun s => n <=? slen s) None.
Definition max_len (n : Z) : str_check := Refine (fun s => slen s <=? n) None.
Definition refine (f : string -> bool) (m : string) : str_check := Refine f (Some m).
Definition at_least (n : Z) : Z -> bool := fun v => n <=? v.
Definition at_most (n : Z) : Z -> bool := fun v => v <=? n.

Definition decodesTo (bytes : Z) (b64 : string) : bool := zlen (from_base64 b64) =? bytes.
Definition is16Bytes : string -> bool := decodesTo 16.

(** The fields of an accepted value. *)
Definition text_of (name : string) (j : json) : string :=
  match prop name j with JStr s => s | _ => "" end.
Definition opt_text (name : string) (j : json) : option string :=
  match prop name j with JStr s => Some s | _ => None end.
Definition int_at (name : string) (j : json) : Z := match prop name j with JNum n => n | _ => 0 end.

(** [safeParse]: the value or the first issue. *)
Definition first_issue `{Zod} (s : schema) (j : json) : result issue json :=
  match safeParse s j with
  | Ok v => Ok v
  | Err (i :: _) => Err i
  | Err [] => Err {| path := None; message := "" |}
  end.

Definition on_field (i : issue) (name : string) : bool :=
  match path i with Some f => String.eqb f name | None => false end.

(** [codeByField[field] ?? INVALID_REQUEST]. *)
Fixpoint code_by_field (table : list (string * string)) (i : issue) : string :=
  match table with
  | [] => "INVALID_REQUEST"
  | (name, c) :: table' => if on_field i name then c else code_by_field table' i
  end.

Definition bad (status : Z) (c m : string) : outcome := respond status (fail_body c m []).

Definition stop {A} (o : outcome) : middleware A := Ret (Err o).
Definition pass {A} (a : A) : middleware A := Ret (Ok a).

(** ** [validateHeaders.ts] *)

Definition validateHeaders (x_request_id : option string) : middleware string :=
  match x_request_id with
  | Some id => if nonempty id then pass id
               else stop (bad 400 "MISSING_REQUEST_ID" "X-Request-ID header is required")
  | None => stop (bad 400 "MISSING_REQUEST_ID" "X-Request-ID header is required")
  end.

Section validators.

Context `{Zod}.

Definition uuid (m : string) : schema := SString [Refine zod_uuid (Some m)].

(** ** [otp.middleware.ts] *)

Definition emailSchema : schema :=
  SString [Refine zod_email None; max_len 254; Overwrite toLowerCase; Overwrite trim].
Definition otpSchema : schema :=
  SString [regex (fun s => (slen s =? 6) && sall digit s) "OTP must be exactly 6 digits"].
Definition csrPemSchema : schema :=
  SString [refine (startsWith "-----BEGIN CERTIFICATE REQUEST-----")
             "csr_pem must be a PEM-encoded PKCS#10 CSR"].

Definition otp_request_schema : schema := SObject false [("email", emailSchema)].
Definition otp_verify_schema : schema := SObject false [("email", emailSchema); ("otp", otpSchema)].
Definition register_schema : schema :=
  SObject false
    [("csrPem", csrPemSchema);
     ("fullName", SString [Refine (fun s => 3 <=? slen s) (Some "Must be a valid name")])].

(** The e-mail address of an OTP request. *)
Definition validateOtpRequest (req : Request) : middleware string :=
  match first_issue otp_request_schema (body req) with
  | Err i =>
      stop (bad 400 (if on_field i "email" then "INVALID_EMAIL" else "MISSING_REQUIRED_FIELD")
              (message i))
  | Ok d => pass (text_of "email" d)
  end.

Definition validateOtpVerify (req : Request) : middleware OtpVerifyBody :=
  match first_issue otp_verify_schema (body req) with
  | Err i =>
      stop (bad 400 (if on_field i "otp" then "INVALID_OTP_FORMAT" else "MISSING_REQUIRED_FIELD")
              (message i))
  | Ok d => pass {| vb_email := text_of "email" d; vb_otp := text_of "otp" (body req) |}
  end.

Definition validateRegister (req : Request) : middleware RegisterBody :=
  match first_issue register_schema (body req) with
  | Err i =>
      stop (bad 400 (if on_field i "csrPem" then "INVALID_CSR_FORMAT" else "MISSING_REQUIRED_FIELD")
              (message i))
  | Ok d => pass {| rb_csrPem := text_of "csrPem" d; rb_fullName := text_of "fullName" d |}
  end.

(** ** [auth.middleware.ts] *)

Definition CLOCK_SKEW : Z := 300.

Definition base64_text (m : string) : schema := SString [regex base64_star m].
Definition nonce_text (name : string) : schema :=
  SString [regex base64_star (name +:+ " must be valid base64");
           refine is16Bytes (name +:+ " must decode to exactly 16 bytes")].
Definition certSn_text : schema := SString [regex hexRe "cert_sn must be a hex string"].

Definition ASRequestSchema : schema :=
  SObject false
    [("clientId", uuid "Invalid client ID"); ("nonce", nonce_text "nonce1");
     ("timestamp", SInt false []); ("certSn", certSn_text);
     ("preAuthSignature", base64_text "pre_auth_signature must be valid base64")].

Definition TGSRequestSchema : schema :=
  SObject false
    [("serviceId", SEnum ["bank-service"]);
     ("tgtCiphertext", base64_text "tgt_ciphertext must be valid base64");
     ("authenticator", base64_text "authenticator must be valid base64"); ("certSn", certSn_text);
     ("nonce", nonce_text "nonce2");
     ("requestedScope", SEnum ["transfer:create"; "balance:read"; "history:read"; "bank-admin:read"])].

(** The body is left as it was. *)
Definition validateASRequest (req : Request) : middleware unit :=
  match first_issue ASRequestSchema (body req) with
  | Err i =>
      stop (bad 400 (if on_field i "nonce1" then "INVALID_NONCE" else "INVALID_REQUEST") (message i))
  | Ok d =>
      let* now := now_seconds in
      if CLOCK_SKEW <? Z.abs (now - int_at "timestamp" d)
      then stop (bad 408 "REQUEST_EXPIRED"
                   ("Request timestamp is outside the allowed " +:+ String (of_code 177) "5 minute window"))
      else pass tt
  end.

Definition validateTGSRequest (req : Request) : middleware unit :=
  match first_issue TGSRequestSchema (body req) with
  | Err i =>
      let c := if on_field i "tgt_ciphertext" then "INVALID_TGT_FORMAT" else "INVALID_REQUEST" in
      stop (bad 400 (if on_field i "authenticator" then "INVALID_AUTH_C" else c) (message i))
  | Ok _ => pass tt
  end.

(** ** [bank.middleware.ts] *)

Definition b64 (label : string) : schema :=
  SString [regex base64Re (label +:+ " must be a non-empty base64 string")].
Definition requestId : schema := SString [regex uuidV4Re "request_id must be a valid UUID v4"].

Definition TransferBodySchema : schema :=
  SObject false
    [("ticket_v", b64 "ticket_v"); ("authenticator", b64 "authenticator");
     ("cipher_payload", b64 "cipher_payload");
     ("iv", SString [regex base64Re "iv must be a non-empty base64 string";
                     refine (decodesTo 12) "iv must decode to exactly 12 bytes"]);
     ("request_id", requestId)].

Definition ReadBodySchema : schema :=
  SObject false
    [("ticket_v", b64 "ticket_v"); ("authenticator", b64 "authenticator"); ("request_id", requestId)].

Definition AccountIdSchema : schema := SString [regex uuidRe "account_id must be a valid UUID"].

Definition PaginationSchema : schema :=
  SObject false
    [("limit", SOptional (SInt true [at_least 1; at_most 100]));
     ("offset", SOptional (SInt true [at_least 0]))].

Definition reject {A} (i : issue) (codeByField : list (string * string)) : middleware A :=
  stop (bad 400 (code_by_field codeByField i) (message i)).

(** One [safeParse] step of a validator. *)
Definition accept {A} (s : schema) (j : json) (codeByField : list (string * string))
    (k : json -> middleware A) : middleware A :=
  match first_issue s j with Err i => reject i codeByField | Ok d => k d end.

(** [req.params.id] and the like. *)
Definition param (name : string) (req : Request) : json :=
  match find (fun p => String.eqb p.1 name) (params req) with
  | Some (_, v) => JStr v
  | None => JUndefined
  end.

Definition validateTransferRequest (req : Request) : middleware unit :=
  accept TransferBodySchema (body req) [("ticket_v", "INVALID_TICKET"); ("iv", "INVALID_IV")]
    (fun _ => pass tt).

Definition validateProfileRequest (req : Request) : middleware unit :=
  accept ReadBodySchema (body req) [("ticket_v", "INVALID_TICKET")] (fun _ => pass tt).

Definition validateBalanceQuery (req : Request) : middleware unit :=
  accept AccountIdSchema (param "id" req) [] (fun _ =>
  accept ReadBodySchema (body req) [("ticket_v", "INVALID_TICKET")] (fun _ => pass tt)).

Definition validateHistoryQuery (req : Request) : middleware unit :=
  accept AccountIdSchema (param "id" req) [] (fun _ =>
  accept ReadBodySchema (body req) [("ticket_v", "INVALID_TICKET")] (fun _ =>
  accept PaginationSchema (JObj (query req))
    [("limit", "INVALID_PAGINATION"); ("offset", "INVALID_PAGINATION")] (fun _ => pass tt))).

(** ** [admin.middleware.ts] *)

Definition AdminLoginBodySchema : schema :=
  SObject false
    [("email", SOptional (SString [Refine zod_email (Some "email must be valid")]));
     ("password", SString [Refine (fun s => 1 <=? slen s) (Some "password is required")])].

Definition csr_pem_schema : schema :=
  SString [min_len 128;
           refine (fun value => startsWith "-----BEGIN CERTIFICATE REQUEST-----" value &&
                                sincludes "-----END CERTIFICATE REQUEST-----" value)
             "csr_pem must be a PEM certificate request"].

(** The same schema in both files. *)
Definition activationBodySchema : schema :=
  SObject true [("activation_token", SString [min_len 32; max_len 256]); ("csr_pem", csr_pem_schema)].

Definition AdminCaCertificateSessionBodySchema : schema :=
  SObject true
    [("cert_serial", SString [min_len 8; max_len 128; regex hexRe "cert_serial must be hexadecimal"]);
     ("challenge", SString [min_len 32; max_len 512]);
     ("signature", SString [min_len 128; max_len 1024; regex base64Re "signature must be base64"])].

Record LoginBody := { lb_email : json; lb_password : json }.

Definition validateAdminLoginRequest (req : Request) : middleware LoginBody :=
  accept AdminLoginBodySchema (body req)
    [("email", "INVALID_ADMIN_CA_EMAIL"); ("password", "ADMIN_CA_PASSWORD_REQUIRED")]
    (fun d => pass {| lb_email := prop "email" d; lb_password := prop "password" d |}).

Definition activation_body (d : json) : ActivationBody :=
  {| activation_token := text_of "activation_token" d; csr_pem := text_of "csr_pem" d |}.

Definition validateAdminCaActivation (req : Request) : middleware ActivationBody :=
  accept activationBodySchema (body req) [] (fun d => pass (activation_body d)).

Record CertificateSessionBody := { cs_cert_serial : string; cs_challenge : string; cs_signature : string }.

Definition validateAdminCaCertificateSession (req : Request) : middleware CertificateSessionBody :=
  accept AdminCaCertificateSessionBodySchema (body req) [] (fun d =>
    pass {| cs_cert_serial := toLowerCase (text_of "cert_serial" d);
            cs_challenge := text_of "challenge" d; cs_signature := text_of "signature" d |}).

(** ** [admin-bank.middleware.ts] *)

Definition admin_b64 : schema := SString [regex base64Re "must be a non-empty base64 string"].
Definition pagination : list (string * schema) :=
  [("limit", SDefault (SInt false [at_least 1; at_most 100]) (JNum 20));
   ("offset", SDefault (SInt false [at_least 0]) (JNum 0))].
Definition unixRange : list (string * schema) :=
  [("from_unix", SDefault (SInt false [at_least 0]) (JNum 0));
   ("to_unix", SDefault (SInt false [at_least 0]) (JNum 0))].

Definition adminSessionBodySchema : schema :=
  SObject true [("ticket_v", admin_b64); ("authenticator", admin_b64)].
Definition emptyQuerySchema : schema := SObject true [].
Definition usersQuerySchema : schema :=
  SObject true
    ([("email", SOptional (SString [Overwrite trim; min_len 1; max_len 254]));
      ("status", SOptional (SEnum ["active"; "locked"]))] ++ pagination).
Definition transactionsQuerySchema : schema :=
  SObject true
    ([("account_id", SOptional (uuid "account_id must be a valid UUID"));
      ("status", SOptional (SEnum ["pending"; "completed"; "failed"]))] ++ unixRange ++ pagination).
Definition auditQuerySchema : schema :=
  SObject true
    ([("action", SOptional (SEnum
         ["transfer_completed"; "transfer_rejected"; "replay_detected"; "invalid_signature";
          "certificate_rejected"; "forbidden_ownership"; "insufficient_funds"]));
      ("user_id", SOptional (uuid "user_id must be a valid UUID"));
      ("cert_serial", SOptional (SString [regex hexRe "cert_serial must be hexadecimal"]));
      ("request_id", SOptional (uuid "request_id must be a valid UUID"))] ++ unixRange ++ pagination).

Record AdminSessionBody := { as_ticket_v : string; as_authenticator : string }.
Record UsersQuery := {
  uq_email : option string; uq_status : option string; uq_limit : Z; uq_offset : Z
}.
Record TransactionsQuery := {
  tq_account_id : option string; tq_status : option string; tq_from_unix : Z; tq_to_unix : Z;
  tq_limit : Z; tq_offset : Z
}.
Record AuditQuery := {
  aq_action : option string; aq_user_id : option string; aq_cert_serial : option string;
  aq_request_id : option string; aq_from_unix : Z; aq_to_unix : Z; aq_limit : Z; aq_offset : Z
}.

(** [reject] of this file adds the request id and the time. *)
Definition metadata_reject {A} (req : Request) (status : Z) (c m : string) : middleware A :=
  let* md := meta req in stop (respond status (fail_body c m md)).

(** [validateBody(schema, code)]. *)
Definition validateBody {A} (s : schema) (c : string) (f : json -> A) (req : Request) : middleware A :=
  match first_issue s (nullish (body req) (JObj [])) with
  | Err i => metadata_reject req 400 c (message i)
  | Ok d => pass (f d)
  end.

Definition validateAdminActivation (req : Request) : middleware ActivationBody :=
  match first_issue activationBodySchema (body req) with
  | Err i => stop (bad 400 "INVALID_ADMIN_ACTIVATION_REQUEST" (message i))
  | Ok d => pass (activation_body d)
  end.

Definition validateAdminSessionRequest : Request -> middleware AdminSessionBody :=
  validateBody adminSessionBodySchema "INVALID_REQUEST" (fun d =>
    {| as_ticket_v := text_of "ticket_v" d; as_authenticator := text_of "authenticator" d |}).

Definition validateAdminOverviewQuery : Request -> middleware unit :=
  validateBody emptyQuerySchema "INVALID_FILTER" (fun _ => tt).

(** The code of a refused query. *)
Definition query_code (i : issue) : string :=
  if on_field i "limit" || on_field i "offset" then "INVALID_PAGINATION" else "INVALID_FILTER".

Definition validateQuery {A} (s : schema) (req : Request) (k : json -> middleware A) : middleware A :=
  match first_issue s (nullish (body req) (JObj [])) with
  | Err i => metadata_reject req 400 (query_code i) (message i)
  | Ok d => k d
  end.

(** The test of the date range, shared by two validators. *)
Definition bad_range (from_unix to_unix : Z) : bool :=
  (0 <? from_unix) && (0 <? to_unix) && (to_unix <? from_unix).

Definition validateAdminUsersQuery (req : Request) : middleware UsersQuery :=
  validateQuery usersQuerySchema req (fun d =>
    pass {| uq_email := opt_text "email" d; uq_status := opt_text "status" d;
            uq_limit := int_at "limit" d; uq_offset := int_at "offset" d |}).

Definition validateAdminTransactionsQuery (req : Request) : middleware TransactionsQuery :=
  validateQuery transactionsQuerySchema req (fun d =>
    if bad_range (int_at "from_unix" d) (int_at "to_unix" d) then
      metadata_reject req 400 "INVALID_DATE_RANGE" "from_unix must not exceed to_unix"
    else
      pass {| tq_account_id := opt_text "account_id" d; tq_status := opt_text "status" d;
              tq_from_unix := int_at "from_unix" d; tq_to_unix := int_at "to_unix" d;
              tq_limit := int_at "limit" d; tq_offset := int_at "offset" d |}).

Definition validateAdminAuditQuery (req : Request) : middleware AuditQuery :=
  validateQuery auditQuerySchema req (fun d =>
    if bad_range (int_at "from_unix" d) (int_at "to_unix" d) then
      metadata_reject req 400 "INVALID_DATE_RANGE" "from_unix must not exceed to_unix"
    else
      pass {| aq_action := opt_text "action" d; aq_user_id := opt_text "user_id" d;
              aq_cert_serial := opt_text "cert_serial" d; aq_request_id := opt_text "request_id" d;
              aq_from_unix := int_at "from_unix" d; aq_to_unix := int_at "to_unix" d;
              aq_limit := int_at "limit" d; aq_offset := int_at "offset" d |}).

Definition validateAdminUserAccountsQuery (req : Request) : middleware unit :=
  match first_issue (uuid "userId must be a valid UUID") (param "userId" req) with
  | Err i => metadata_reject req 400 "INVALID_FILTER" (message i)
  | Ok _ =>
      match first_issue emptyQuerySchema (nullish (body req) (JObj [])) with
      | Err i => metadata_reject req 400 "INVALID_FILTER" (message i)
      | Ok _ => pass tt
      end
  end.

End validators.

(** ** Cookies *)

Definition BANK_ADMIN_SESSION_COOKIE : string := "bank_admin_session".

(** [decodeURIComponent], as UTF-16 code units; [None] is a [URIError]. *)
Definition pct (s : string) : option (Z * string) :=
  match s with
  | String p (String h (String l s')) =>
      match hex_val h, hex_val l with
      | Some a, Some b => if code p =? 37 then Some (16 * a + b, s') else None
      | _, _ => None
      end
  | _ => None
  end.

Fixpoint continuation (n : nat) (v : Z) (s : string) : option (Z * string) :=
  match n with
  | O => Some (v, s)
  | S n' =>
      match pct s with
      | Some (b, s') =>
          if (128 <=? b) && (b <? 192) then continuation n' (64 * v + (b - 128)) s' else None
      | None => None
      end
  end.

(** The shortest form, no surrogate, at most U+10FFFF. *)
Definition code_point (least v : Z) : option (list Z) :=
  if (v <? least) || (1114111 <? v) || ((55296 <=? v) && (v <=? 57343)) then None
  else if v <? 65536 then Some [v]
  else Some [55296 + (v - 65536) / 1024; 56320 + (v - 65536) mod 1024].

Definition escaped (s : string) : option (list Z * string) :=
  match pct s with
  | None => None
  | Some (b, s') =>
      let multi (n : nat) (v least : Z) :=
        match continuation n v s' with
        | Some (v, s'') => match code_point least v with Some u => Some (u, s'') | None => None end
        | None => None
        end in
      if b <? 128 then Some ([b], s')
      else if (192 <=? b) && (b <? 224) then multi 1%nat (b - 192) 128
      else if (224 <=? b) && (b <? 240) then multi 2%nat (b - 224) 2048
      else if (240 <=? b) && (b <? 248) then multi 3%nat (b - 240) 65536
      else None
  end.

Fixpoint decode_loop (fuel : nat) (s : string) : option (list Z) :=
  match fuel, s with
  | _, "" => Some []
  | O, _ => None
  | S f, String a s' =>
      if code a =? 37 then
        match escaped s with
        | Some (u, rest) => option_map (app u) (decode_loop f rest)
        | None => None
        end
      else option_map (cons (code a)) (decode_loop f s')
  end.

Definition decodeURIComponent (s : string) : option (list Z) := decode_loop (String.length s) s.

(** The loop over the parts of the header: the first part of that name decides. *)
Fixpoint cookie_in (parts : list string) (name : string) : option (list Z) :=
  match parts with
  | [] => None
  | part :: rest =>
      match cut (of_code 61) part with
      | Some (k, v) =>
          if String.eqb (trim k) name then decodeURIComponent (trim v) else cookie_in rest name
      | None => cookie_in rest name
      end
  end.

Definition cookieValue (header : option string) (name : string) : option (list Z) :=
  match header with
  | Some h => if nonempty h then cookie_in (split ";" h) name else None
  | None => None
  end.

Definition string_of_units (l : list Z) : string := fold_right (fun u s => String (of_code u) s) "" l.

(** [base64UrlRe.test] on code units. *)
Definition base64url_units (l : list Z) : bool :=
  forallb (fun u => (u <? 256) && base64url_class (of_code u)) l.

(** The session token that the bank gave to the browser. *)
Definition requireBankAdminSessionCookie (req : Request) : middleware string :=
  match cookieValue (cookie req) BANK_ADMIN_SESSION_COOKIE with
  | None | Some [] =>
      metadata_reject req 401 "ADMIN_SESSION_REQUIRED" "Bank Admin session cookie is required"
  | Some token =>
      if (256 <? zlen token) || negb (base64url_units token) then
        metadata_reject req 401 "ADMIN_SESSION_INVALID" "Bank Admin session cookie is invalid"
      else pass (string_of_units token)
  end.
