(* ===== verification/AdminAuth.v ===== *)
(** * Administrator authentication

    [requireAdminRole] of [admin.middleware.ts], the certificate-based session
    of the CA administrator ([services/admin-ca.service.ts] and
    [handleAdminCaCertificateSession]) and the login of the security
    administrator ([controller/admin-sec.controller.ts]). *)

From S2P Require Import Prelude JsString JsDate Effects Gateway Json Buffer ErrorHandler Redis Crypto Otp Register Schema Validators.

Open Scope Z_scope.

(** [/^Bearer\s+\S+$/]. *)
Definition bearerRe (s : string) : bool :=
  startsWith "Bearer" s &&
  (let '(sp, r) := span space (slice 6 s) in
   nonempty sp && nonempty r && sall (fun a => negb (space a)) r).

(** [res.locals.adminCa]. *)
Record AdminCa := { ad_email : json; ad_role : string; ad_performedBy : string }.

Section guard.

Context `{ENV} `{Crypto} `{Zod}.

Definition AuthHeaderSchema : schema :=
  SObject false
    [("authorization", SString [Refine (fun s => 1 <=? slen s) (Some "Authorization header is required");
                                regex bearerRe "Authorization must use Bearer token"])].

Definition headers_json (req : Request) : json :=
  JObj (match authorization req with Some h => [("authorization", JStr h)] | None => [] end).

(** [ENV.ADMIN_SEC_DEMO_TOKEN && token === ENV.ADMIN_SEC_DEMO_TOKEN]. *)
Definition static_token (token : string) : bool :=
  match ADMIN_SEC_DEMO_TOKEN with Some t => nonempty t && String.eqb token t | None => false end.

(** The claims of a token, or what [jwt.verify] and the property access throw. *)
Definition token_claims (token : string) (now : Z) : result js_error json :=
  match jwt_verify token GATEWAY_JWT_SECRET now with
  | Ok JNull | Ok JUndefined => Err (plain_error "Cannot read properties of null (reading 'role')")
  | r => r
  end.

(** [payload.role ?? empty], when it is a text of [allowedRoles]. *)
Definition allowed_role (allowedRoles : list string) (payload : json) : option string :=
  match nullish (prop "role" payload) (JStr "") with
  | JStr role => if existsb (String.eqb role) allowedRoles then Some role else None
  | _ => None
  end.

Definition claimed_email (payload : json) : json :=
  nullish (prop "email" payload) (nullish (prop "sub" payload) (JStr "unknown")).

(** The [try] block: the token is checked at [now], in seconds. *)
Definition role_decision (allowedRoles : list string) (token : string) (now : Z) : result outcome AdminCa :=
  match token_claims token now with
  | Err err => Err (bad 401 "ADMIN_CA_TOKEN_INVALID" (default "Invalid admin-ca token" (err_message err)))
  | Ok payload =>
      match allowed_role allowedRoles payload with
      | None => Err (bad 403 "ADMIN_CA_ROLE_FORBIDDEN" "Admin CA role is not allowed for this endpoint")
      | Some role =>
          Ok {| ad_email := claimed_email payload; ad_role := role;
                ad_performedBy := "admin-ca:" +:+ js_String (claimed_email payload) |}
      end
  end.

Definition static_admin : AdminCa :=
  let email := default "security-admin" ADMIN_SEC_DEMO_EMAIL in
  {| ad_email := JStr email; ad_role := "security-admin"; ad_performedBy := "security-admin:" +:+ email |}.

Definition requireAdminRole (allowedRoles : list string) (req : Request) : middleware AdminCa :=
  match first_issue AuthHeaderSchema (headers_json req) with
  | Err i => stop (bad 401 (code_by_field [("authorization", "ADMIN_CA_TOKEN_REQUIRED")] i) (message i))
  | Ok h =>
      let token := trim (slice 7 (text_of "authorization" h)) in
      if static_token token then
        if existsb (String.eqb "security-admin") allowedRoles then pass static_admin
        else stop (bad 403 "ADMIN_CA_ROLE_FORBIDDEN" "Admin role is not allowed for this endpoint")
      else
        let* now := now_seconds in Ret (role_decision allowedRoles token now)
  end.

(** ** The session of a CA administrator ([services/admin-ca.service.ts]) *)

Definition CHALLENGE_PREFIX : string := "admin-ca-login".
Definition CHALLENGE_MAX_AGE_SECONDS : Z := 5 * 60.

(** The checks of [parseChallenge], at [now] in seconds. *)
Definition challenge_error (challenge certSerial : string) (now : Z) : option string :=
  match split ":" challenge with
  | [prefix; serial; requestId; issuedAtRaw] =>
      if negb (String.eqb prefix CHALLENGE_PREFIX) then Some "ADMIN_CA_CHALLENGE_INVALID"
      else
        match Number_integer issuedAtRaw with
        | Some issuedAt =>
            if negb (String.eqb serial certSerial) || String.eqb requestId ""
            then Some "ADMIN_CA_CHALLENGE_INVALID"
            else if CHALLENGE_MAX_AGE_SECONDS <? Z.abs (now - issuedAt)
                 then Some "ADMIN_CA_CHALLENGE_EXPIRED" else None
        | None => Some "ADMIN_CA_CHALLENGE_INVALID"
        end
  | _ => Some "ADMIN_CA_CHALLENGE_INVALID"
  end.

Definition well_formed (challenge : string) : bool :=
  match split ":" challenge with
  | [prefix; _; _; _] => String.eqb prefix CHALLENGE_PREFIX
  | _ => false
  end.

(** The clock is read after the shape of the challenge was checked. *)
Definition parseChallenge (challenge certSerial : string) : gw unit :=
  if negb (well_formed challenge) then Raise (plain_error "ADMIN_CA_CHALLENGE_INVALID")
  else
    let* now := now_seconds in
    match challenge_error challenge certSerial now with
    | Some m => Raise (plain_error m)
    | None => Ret tt
    end.

Definition verifySignature (publicKeyPem challenge signatureBase64 : string) : gw unit :=
  let signature := from_base64 signatureBase64 in
  if zlen signature <? 128 then Raise (plain_error "ADMIN_CA_SIGNATURE_INVALID")
  else
    let* ok := of_result (rsa_verify publicKeyPem challenge signature) in
    if ok : bool then Ret tt else Raise (plain_error "ADMIN_CA_SIGNATURE_INVALID").

Record CaAdminSession := {
  se_token : string; se_email : string; se_certSerial : string; se_ownerId : string; se_expiresIn : Z
}.

Definition SESSION_SECONDS : Z := 8 * 60 * 60.

Definition session_claims (email certSerial ownerId : string) : list (string * json) :=
  [("sub", JStr email); ("email", JStr email); ("role", JStr "admin-ca"); ("purpose", JStr "admin-ca");
   ("cert_serial", JStr certSerial); ("owner_id", JStr ownerId)].

Definition session_lookup (certSerial : string) : VerifyCertificateRequest :=
  {| vr_serialNumber := certSerial; vr_caller := "api-gateway:admin-ca-session";
     vr_includeCertificatePem := false; vr_includePublicKeyPem := true |}.

Definition createCaAdminSession (inputSerial challenge signature : string) (requestId : option string)
    : gw CaAdminSession :=
  let certSerial := toLowerCase (trim inputSerial) in
  do* parseChallenge challenge certSerial in
  let* cert := attempt (verifyCertificate (session_lookup certSerial)) in
  match cert with
  | Err err => Raise (http_err (caGrpcError err))
  | Ok cert =>
      if negb (bool_decide (vc_status cert = CERT_STATUS_ACTIVE)) then
        Raise (plain_error "ADMIN_CA_CERT_NOT_ACTIVE")
      else if negb (bool_decide (vc_role cert = IDENTITY_ROLE_CA_ADMIN)) then
        Raise (plain_error "ADMIN_CA_CERT_ROLE_REQUIRED")
      else if String.eqb (vc_publicKeyPem cert) "" then
        Raise (plain_error "ADMIN_CA_CERT_PUBLIC_KEY_MISSING")
      else
        do* verifySignature (vc_publicKeyPem cert) challenge signature in
        let* now := now_seconds in
        let token := jwt_sign_for (session_claims (vc_subjectEmail cert) certSerial (vc_ownerId cert))
                       GATEWAY_JWT_SECRET now SESSION_SECONDS in
        do* recordRaAudit "admin_ca_login_success" (Some certSerial)
              ("admin-ca:" +:+ vc_subjectEmail cert) None
              [("email", vc_subjectEmail cert); ("owner_id", vc_ownerId cert);
               ("request_id", default "" requestId); ("method", "certificate")] requestId in
        Ret {| se_token := token; se_email := vc_subjectEmail cert; se_certSerial := certSerial;
               se_ownerId := vc_ownerId cert; se_expiresIn := SESSION_SECONDS |}
  end.

(** ** [handleAdminCaCertificateSession] ([controller/ca.controller.ts]) *)

Definition session_reply (s : CaAdminSession) (m : list (string * json)) : outcome :=
  respond 200
    ([("success", JBool true);
      ("data", JObj [("token", JStr (se_token s)); ("token_type", JStr "Bearer");
                     ("role", JStr "admin-ca"); ("email", JStr (se_email s));
                     ("cert_serial", JStr (se_certSerial s)); ("owner_id", JStr (se_ownerId s));
                     ("expires_in", JNum (se_expiresIn s))])] ++ m).

(** [err?.error_code ?? ...]. *)
Definition login_error_code (err : js_error) : string :=
  match err_error_code err with
  | Some c => c
  | None => let rawMessage := default "" (err_message err) in
            if startsWith "ADMIN_CA_" rawMessage then rawMessage else "ADMIN_CA_CERT_LOGIN_FAILED"
  end.

Definition handleAdminCaCertificateSession (req : Request) (b : CertificateSessionBody) : gw outcome :=
  let* m := meta req in
  let* r := attempt (createCaAdminSession (cs_cert_serial b) (cs_challenge b) (cs_signature b)
                       (Some (request_id req))) in
  match r with
  | Ok session => Ret (session_reply session m)
  | Err err =>
      let c := login_error_code err in
      do* recordRaAudit "admin_ca_login_failed" (Some (cs_cert_serial b)) "admin-ca:certificate"
            (Some c) [("request_id", request_id req); ("method", "certificate")]
            (Some (request_id req)) in
      Ret (respond (default 401 (err_status err))
             (fail_body c "Admin CA certificate login failed" m))
  end.

(** ** [handleSecAdminAuth] ([controller/admin-sec.controller.ts]) *)

Definition sec_claims (email : string) : list (string * json) :=
  [("sub", JStr email); ("email", JStr email); ("role", JStr "security-admin");
   ("purpose", JStr "admin-sec")].

Definition handleSecAdminAuth (req : Request) (b : LoginBody) : gw outcome :=
  match ADMIN_SEC_DEMO_EMAIL, ADMIN_SEC_DEMO_PASSWORD with
  | Some demo_email, Some demo_password =>
      if String.eqb demo_email "" || String.eqb demo_password "" then
        next_error (httpError 503 "ADMIN_SEC_NOT_CONFIGURED" "Security-admin login is not configured")
      else
        let email := toLowerCase (trim (js_String (nullish (lb_email b) (JStr demo_email)))) in
        let password := js_String (nullish (lb_password b) (JStr "")) in
        if negb (String.eqb email demo_email) || negb (String.eqb password demo_password) then
          next_error (httpError 401 "ADMIN_SEC_LOGIN_FAILED" "Invalid security-admin credentials")
        else
          let* now := now_seconds in
          let token := jwt_sign_for (sec_claims email) GATEWAY_JWT_SECRET now SESSION_SECONDS in
          let* m := meta req in
          Ret (respond 200
            ([("success", JBool true);
              ("data", JObj [("token", JStr token); ("token_type", JStr "Bearer");
                             ("role", JStr "security-admin"); ("email", JStr email);
                             ("expires_in", JNum (8 * 60 * 60))])] ++ m))
  | _, _ => next_error (httpError 503 "ADMIN_SEC_NOT_CONFIGURED" "Security-admin login is not configured")
  end.

End guard.

(** ** The browser's side of the challenge ([ca-admin-session.service.ts]) *)

Definition ca_challenge (serialNumber uuid : string) (issuedAt : Z) : string :=
  sjoin ":" ["admin-ca-login"; toLowerCase serialNumber; uuid; Z_string issuedAt].

(** ** Lemmas *)

Section lemmas.

Context `{ENV} `{CryptoSpec} `{ZodSpec}.

Lemma field_app name l1 l2 :
  field name (l1 ++ l2) = match field name l2 with Some v => Some v | None => field name l1 end.
Proof.
  induction l1 as [|[k v] l1 IH]; cbn; [by destruct (field name l2)|]. rewrite IH.
  by destruct (field name l2), (field name l1).
Qed.

(** A token of [jwt_sign_for] is good until it expires. *)
Lemma jwt_for_verify claims secret iat life now :
  plain (JObj claims) = true ->
  jwt_verify (jwt_sign_for claims secret iat life) secret now =
  if iat + life <=? now then Err TokenExpiredError
  else Ok (JObj (claims ++ [("iat", JNum iat); ("exp", JNum (iat + life))])).
Proof.
  intros Hp. unfold jwt_sign_for. set (l := claims ++ _).
  assert (Hpl : plain (JObj l) = true) by (cbn in *; unfold l; by rewrite forallb_app, Hp).
  assert (He : field "exp" l = Some (JNum (iat + life))) by (unfold l; by rewrite field_app).
  destruct (Z.leb_spec (iat + life) now); [by eapply jwt_expires | by eapply jwt_accepts].
Qed.

Lemma bearer_accepted token :
  token <> "" -> no_space token = true -> bearerRe ("Bearer " +:+ token) = true.
Proof.
  intros Hne Hs. unfold bearerRe.
  change ("Bearer " +:+ token) with ("Bearer" +:+ String " " token).
  rewrite startsWith_app. cbn [andb]. change 6%nat with (String.length "Bearer").
  rewrite slice_app. cbn [span]. change (space " ") with true. cbn [fst snd].
  assert (Hsp : span space token = ("", token)).
  { destruct token as [|a t]; [done|]. cbn in Hs |- *. by destruct (space a). }
  rewrite Hsp. unfold no_space in Hs. rewrite Hs. destruct token; done.
Qed.

(** The guard on a request that carries a compact token. *)
Lemma guard_token allowed req token :
  authorization req = Some ("Bearer " +:+ token) -> token <> "" -> no_space token = true ->
  static_token token = false ->
  requireAdminRole allowed req = Vis DateNow (fun ms => Ret (role_decision allowed token (ms / 1000))).
Proof.
  intros Ha Hne Hs Hst. unfold requireAdminRole, first_issue, headers_json. rewrite Ha.
  rewrite (proj2 (safeParse_ok AuthHeaderSchema _
                    (JObj [("authorization", JStr ("Bearer " +:+ token))]))).
  - unfold text_of. cbn [prop field default from_option id String.eqb Ascii.eqb Bool.eqb].
    change 7%nat with (String.length "Bearer "). rewrite slice_app, trim_id by done. by rewrite Hst.
  - unfold AuthHeaderSchema. rewrite parses_object. cbn [andb parse_fields parses].
    cbn [field default from_option id String.eqb Ascii.eqb Bool.eqb str_checks].
    unfold regex. cbn [str_checks].
    rewrite bearer_accepted by done. by rewrite (proj2 (Z.leb_le _ _)) by (unfold slen; rewrite slength_app; cbn; lia).
Qed.

Lemma hex_class_facts a :
  hex_class a = true -> negb (space (lower a)) = true /\ lower a <> ":"%char.
Proof. destruct a as [[] [] [] [] [] [] [] []]; vm_compute; done. Qed.

Lemma hex_lower s :
  sall hex_class s = true ->
  no_space (toLowerCase s) = true /\ has_char ":" (toLowerCase s) = false.
Proof.
  unfold toLowerCase, no_space. induction s as [|a s IH]; [done|]. cbn [sall smap has_char].
  rewrite !andb_true_iff. intros [Ha Hs]. destruct (IH Hs) as [H4 H5].
  destruct (hex_class_facts a Ha) as [H6 H7]. rewrite H4, H5, H6. split; [done|].
  by rewrite (proj2 (Ascii.eqb_neq _ _) H7).
Qed.

Lemma hex_no_space s : sall hex_class s = true -> no_space s = true.
Proof.
  apply sall_weaken. intros a. destruct a as [[] [] [] [] [] [] [] []]; vm_compute; done.
Qed.

(** The four parts of the browser's challenge. *)
Lemma challenge_parts serial uuid issuedAt :
  sall hex_class serial = true -> has_char ":" uuid = false ->
  split ":" (ca_challenge serial uuid issuedAt)
  = ["admin-ca-login"; toLowerCase serial; uuid; Z_string issuedAt].
Proof.
  intros Hs Hu. unfold ca_challenge. apply (split_sjoin ":"); [done|].
  apply Forall_cons_2; [done|]. apply Forall_cons_2; [by apply hex_lower|].
  apply Forall_cons_2; [done|]. apply Forall_cons_2; [|by apply Forall_nil].
  eapply sall_no_char, Z_string_chars. done.
Qed.

End lemmas.

(** ** The theorems *)

(** A credential for an administrator identity: the bearer text of the request
    is either the configured static token, which is not empty and only gives the
    security administrator, or a token that [jwt.verify] accepted under the
    gateway's secret at the time of the check, whose claims (the role is empty
    if absent) give the identity. *)
Definition credential `{ENV} `{Crypto} `{Zod} (req : Request) (t : gw_trace) (ad : AdminCa) : Prop :=
  exists h token, first_issue AuthHeaderSchema (headers_json req) = Ok h /\
    token = trim (slice 7 (text_of "authorization" h)) /\
    ((ad = static_admin /\ token <> "" /\ ADMIN_SEC_DEMO_TOKEN = Some token) \/
     exists ms payload, saw DateNow ms t /\
       jwt_verify token GATEWAY_JWT_SECRET (ms / 1000) = Ok payload /\
       nullish (prop "role" payload) (JStr "") = JStr (ad_role ad) /\ ad_email ad = claimed_email payload /\
       ad_performedBy ad = "admin-ca:" +:+ js_String (claimed_email payload)).

(** Nobody passes a guard without a credential for one of its roles; any other
    request is answered 401 or 403, and the middleware never fails. *)
Lemma guard_sound `{ENV} `{Crypto} `{Zod} allowed req :
  always (requireAdminRole allowed req) (fun t r =>
    match r with
    | Ok (Ok ad) => ad_role ad ∈ allowed /\ credential req t ad
    | Ok (Err o) => outcome_status o = Some 401 \/ outcome_status o = Some 403
    | Err _ => False
    end).
Proof.
  unfold requireAdminRole.
  destruct (first_issue AuthHeaderSchema (headers_json req)) as [h|i] eqn:Hh; [|by left].
  set (token := trim _). destruct (static_token token) eqn:Hst.
  - destruct (existsb (String.eqb "security-admin") allowed) eqn:Hin; [|by right].
    apply existsb_exists in Hin as (r & Hr & <-%String.eqb_eq). split; [by apply list_elem_of_In|].
    exists h, token. split_and!; [done | done |]. left. unfold static_token in Hst.
    destruct ADMIN_SEC_DEMO_TOKEN as [s|]; [|done].
    apply andb_true_iff in Hst as [Hn <-%String.eqb_eq]. clearbody token. split_and!; [done | by intros -> | done].
  - gw_unfold. gw_cbn. intros ms. gw_cbn. unfold role_decision, token_claims.
    destruct (jwt_verify token GATEWAY_JWT_SECRET (ms / 1000)) as [payload|e] eqn:Hj; [|by left].
    destruct (allowed_role allowed payload) as [role|] eqn:Hrole;
      [|destruct payload; [by left | by left | ..]; cbv iota; rewrite Hrole; by right].
    assert (Hp : nullish (prop "role" payload) (JStr "") = JStr role /\ role ∈ allowed).
    { unfold allowed_role in Hrole. destruct (nullish _ _) as [| | | | |s| |]; try discriminate Hrole.
      destruct (existsb _ allowed) eqn:Hin; [|discriminate Hrole]. injection Hrole as <-.
      apply existsb_exists in Hin as (x & Hx & <-%String.eqb_eq). by apply list_elem_of_In in Hx. }
    destruct Hp as [Hp Hin].
    destruct payload; [by left | by left | ..]; cbv iota; rewrite Hrole; split; try done;
      exists h, token; (split_and!; [done | done |]);
      right; eexists ms, _; (split_and!; [in_trace | done..]).
Qed.

(** The bearer tokens that the gateway itself issues: for a registration, for a
    CA administrator and for the security administrator, with the role and the
    address they give and the second in which they expire. *)
Inductive gateway_token `{ENV} `{Crypto} : string -> option (string * string) -> Z -> Prop :=
| registration_token email ownerId jti iat :
    gateway_token (jwt_sign (reg_claims email ownerId jti iat) GATEWAY_JWT_SECRET) None (iat + 600)
| ca_admin_token email certSerial ownerId iat :
    gateway_token
      (jwt_sign_for (session_claims email certSerial ownerId) GATEWAY_JWT_SECRET iat SESSION_SECONDS)
      (Some ("admin-ca", email)) (iat + SESSION_SECONDS)
| security_token email iat :
    gateway_token (jwt_sign_for (sec_claims email) GATEWAY_JWT_SECRET iat SESSION_SECONDS)
      (Some ("security-admin", email)) (iat + SESSION_SECONDS).

(** What such a token gives at a guard, at a time in seconds. *)
Definition grant (guard : string) (who : option (string * string)) (expiry now : Z)
    : result outcome AdminCa :=
  if expiry <=? now then Err (bad 401 "ADMIN_CA_TOKEN_INVALID" "jwt expired")
  else
    match who with
    | Some (role, email) =>
        if String.eqb role guard
        then Ok {| ad_email := JStr email; ad_role := role; ad_performedBy := "admin-ca:" +:+ email |}
        else Err (bad 403 "ADMIN_CA_ROLE_FORBIDDEN" "Admin CA role is not allowed for this endpoint")
    | None => Err (bad 403 "ADMIN_CA_ROLE_FORBIDDEN" "Admin CA role is not allowed for this endpoint")
    end.

Lemma gateway_token_decision `{ENV} `{CryptoSpec} guard token who expiry now :
  gateway_token token who expiry -> guard <> "" ->
  token <> "" /\ no_space token = true /\ role_decision [guard] token now = grant guard who expiry now.
Proof.
  intros Ht Hg. assert (Hne : String.eqb "" guard = false) by (by apply String.eqb_neq, not_eq_sym).
  destruct Ht as [email ownerId jti iat | email sn ownerId iat | email iat];
    (split_and!; [apply jwt_compact | apply jwt_compact |]); unfold role_decision, token_claims, grant.
  - assert (Hp : plain (JObj (reg_claims email ownerId jti iat)) = true) by done.
    destruct (Z.leb_spec (iat + 600) now).
    + by rewrite (jwt_expires _ _ _ (iat + 600)).
    + rewrite (jwt_accepts _ _ _ (iat + 600)) by done. unfold allowed_role.
      set (r := nullish _ _). change r with (JStr ""). cbn [existsb]. by rewrite Hne.
  - rewrite jwt_for_verify by done. destruct (iat + SESSION_SECONDS <=? now); [done|]. unfold allowed_role.
    set (r := nullish _ _). change r with (JStr "admin-ca"). cbn [existsb]. rewrite orb_false_r.
    by destruct (String.eqb "admin-ca" guard).
  - rewrite jwt_for_verify by done. destruct (iat + SESSION_SECONDS <=? now); [done|]. unfold allowed_role.
    set (r := nullish _ _). change r with (JStr "security-admin"). cbn [existsb]. rewrite orb_false_r.
    by destruct (String.eqb "security-admin" guard).
Qed.

(** The administrator roles are separate, and a registration token gives
    none of them although it is signed with the same secret: a request with a
    token that the gateway issued passes the guard of a role exactly when the
    token was issued for that role and has not expired, as the address in the
    token; it is answered 401 when the token has expired and 403 otherwise. *)
Theorem admin_roles_separated `{ENV} `{CryptoSpec} `{ZodSpec} guard token who expiry req :
  gateway_token token who expiry -> guard ∈ ["admin-ca"; "security-admin"] ->
  authorization req = Some ("Bearer " +:+ token) -> ADMIN_SEC_DEMO_TOKEN <> Some token ->
  always (requireAdminRole [guard] req) (fun t r =>
    exists ms, t = [Obs DateNow ms] /\ r = Ok (grant guard who expiry (ms / 1000))).
Proof.
  intros Ht Hg Ha Hst.
  assert (Hne : guard <> "") by (intros ->; rewrite !elem_of_cons, elem_of_nil in Hg; destruct Hg as [|[|]]; done).
  destruct (gateway_token_decision guard token who expiry 0 Ht Hne) as (Hn & Hs & _).
  assert (Hno : static_token token = false).
  { unfold static_token. destruct ADMIN_SEC_DEMO_TOKEN as [s|]; [|done].
    apply andb_false_iff. right. apply String.eqb_neq. congruence. }
  rewrite (guard_token _ _ token) by done.
  intros ms. exists ms. split; [done|]. f_equal. by apply gateway_token_decision.
Qed.

(** Proof of possession of the key of an active certificate of a CA
    administrator, in a run. *)
Definition possession `{Crypto} (sn challenge signature : string) (t : gw_trace)
    (cert : VerifyCertificateResponse) : Prop :=
  exists ms requestId issuedAtRaw issuedAt,
    split ":" challenge = [CHALLENGE_PREFIX; sn; requestId; issuedAtRaw] /\
    requestId <> "" /\ Number_integer issuedAtRaw = Some issuedAt /\
    saw DateNow ms t /\ Z.abs (ms / 1000 - issuedAt) <= 300 /\
    saw (CaVerifyCertificate (session_lookup sn)) (Ok cert) t /\
    vc_status cert = CERT_STATUS_ACTIVE /\ vc_role cert = IDENTITY_ROLE_CA_ADMIN /\
    128 <= zlen (from_base64 signature) /\
    rsa_verify (vc_publicKeyPem cert) challenge (from_base64 signature) = Ok true.

Definition session_for `{ENV} `{Crypto} (sn : string) (cert : VerifyCertificateResponse) (iat : Z)
    : CaAdminSession :=
  {| se_token := jwt_sign_for (session_claims (vc_subjectEmail cert) sn (vc_ownerId cert))
                   GATEWAY_JWT_SECRET iat SESSION_SECONDS;
     se_email := vc_subjectEmail cert; se_certSerial := sn; se_ownerId := vc_ownerId cert;
     se_expiresIn := SESSION_SECONDS |}.

Lemma challenge_ok challenge certSerial now :
  challenge_error challenge certSerial now = None ->
  exists requestId issuedAtRaw issuedAt,
    split ":" challenge = [CHALLENGE_PREFIX; certSerial; requestId; issuedAtRaw] /\
    requestId <> "" /\ Number_integer issuedAtRaw = Some issuedAt /\ Z.abs (now - issuedAt) <= 300.
Proof.
  unfold challenge_error.
  destruct (split ":" challenge) as [|p [|s [|r [|i [|? ?]]]]]; try discriminate.
  destruct (String.eqb_spec p CHALLENGE_PREFIX) as [->|]; [|discriminate]. cbn [negb].
  destruct (Number_integer i) as [issuedAt|] eqn:Hnum; [|discriminate].
  destruct (String.eqb_spec s certSerial) as [->|]; [|discriminate].
  destruct (String.eqb_spec r ""); [discriminate|]. cbn [negb orb].
  destruct (Z.ltb_spec CHALLENGE_MAX_AGE_SECONDS (Z.abs (now - issuedAt))) as [|Hle]; [discriminate|].
  intros _. unfold CHALLENGE_MAX_AGE_SECONDS in Hle. exists r, i, issuedAt. split_and!; try done.
Qed.

Lemma session_created `{ENV} `{Crypto} inputSerial challenge signature rid :
  always (createCaAdminSession inputSerial challenge signature rid) (fun t r =>
    forall s, r = Ok s -> exists cert iat,
      possession (toLowerCase (trim inputSerial)) challenge signature t cert /\
      s = session_for (toLowerCase (trim inputSerial)) cert iat).
Proof.
  unfold createCaAdminSession, parseChallenge, verifySignature, attempt. set (sn := toLowerCase _).
  destruct (well_formed challenge); [|done]. gw_unfold. gw_cbn. gw_reply ms.
  destruct (challenge_error challenge sn (ms / 1000)) eqn:Hc; gw_cbn; [done|].
  destruct (challenge_ok _ _ _ Hc) as (rid' & raw & issuedAt & Hsplit & Hrid & Hnum & Habs).
  gw_reply cert; [|done]. case_bool_decide as Hst; [|done]. case_bool_decide as Hrole; [|done]. cbn [negb].
  destruct (String.eqb (vc_publicKeyPem cert) ""); [done|]. gw_cbn. destruct (Z.ltb_spec (zlen (from_base64 signature)) 128); gw_cbn; [done|].
  destruct (rsa_verify _ _ _) as [[]|x] eqn:Hrsa; gw_cbn; [|done..]. gw_reply iat. gw_reply a;
    (intros s [= <-]; exists cert, (iat / 1000); split; [|done];
     exists ms, rid', raw, issuedAt; split_and!; try done; in_trace).
Qed.

(** C38: a CA administrator session is only opened by proof of possession. In
    every run, an answer with a token means that the challenge names the certificate and was
    issued within five minutes of the check, that the CA answered for exactly
    that certificate that it is active and of the CA administrator's role, and
    that the challenge was signed with its key; the token carries the address
    that the CA gave, never one of the request. Every other answer is the failure body,
    which holds no token. *)
Theorem ca_session_sound `{ENV} `{Crypto} req b :
  always (handleAdminCaCertificateSession req b) (fun t r =>
    match r with
    | Ok o =>
        let sn := toLowerCase (trim (cs_cert_serial b)) in
        (exists cert iat m, possession sn (cs_challenge b) (cs_signature b) t cert /\
           o = session_reply (session_for sn cert iat) m) \/
        exists status c m, o = respond status (fail_body c "Admin CA certificate login failed" m)
    | Err e => err_message e = Some "Invalid time value"
    end).
Proof.
  unfold handleAdminCaCertificateSession. gw_unfold. gw_cbn.
  gw_reply ms0. destruct (toISOString ms0) as [ts|]; gw_cbn; [|done].
  apply always_bind, always_attempt. eapply always_mono; [|apply session_created].
  intros t [s|e] Hs; gw_cbn.
  - left. destruct (Hs s eq_refl) as (cert & iat & (ms & rid & raw & n & Hp) & ->).
    eexists cert, iat, _. split; [|done]. exists ms, rid, raw, n.
    destruct Hp as (? & ? & ? & Hms & ? & Hv & ?). unfold saw. rewrite app_nil_r.
    split_and!; try tauto; by apply list_elem_of_further.
  - gw_reply a; right; eauto.
Qed.

(** The two sides of the CA administrator's login agree: the challenge that
    the browser builds for a certificate is accepted for the serial number of
    that certificate, in lower case, and for no other, at exactly the times that
    are within 300 seconds of its issue; the gateway keeps no record of a
    challenge, so it is accepted again at every such time. *)
Theorem challenge_roundtrip serial uuid issuedAt certSerial now :
  hexRe serial = true -> uuid <> "" -> has_char ":" uuid = false ->
  well_formed (ca_challenge serial uuid issuedAt) = true /\
  (challenge_error (ca_challenge serial uuid issuedAt) certSerial now = None <->
   certSerial = toLowerCase (trim serial) /\ Z.abs (now - issuedAt) <= 300).
Proof.
  intros [_ Hs]%andb_true_iff Hu Hc. unfold well_formed, challenge_error.
  rewrite challenge_parts by done. rewrite (trim_id serial) by (by apply hex_no_space).
  split; [done|]. rewrite String.eqb_refl, Number_Z_string. cbn [negb].
  rewrite (proj2 (String.eqb_neq uuid "") Hu), orb_false_r. unfold CHALLENGE_MAX_AGE_SECONDS.
  destruct (String.eqb_spec (toLowerCase serial) certSerial) as [<-|Hne]; cbn [negb].
  - destruct (Z.ltb_spec (5 * 60) (Z.abs (now - issuedAt))) as [Hlt|Hle].
    + split; [discriminate | lia].
    + split; [intros _; split; [done | lia] | done].
  - split; [discriminate | intros [-> _]; by destruct Hne].
Qed.

(** The security administrator's login fails closed: a token is only issued
    when both the address and the password are configured and not empty and the
    request gives that password and, up to case and outer white space, that
    address (or none); the configured address must itself be in lower case, any
    other can never log in. Every other run ends with 401 or 503. *)
Theorem sec_login_sound `{ENV} `{Crypto} req b :
  always (handleSecAdminAuth req b) (fun t r =>
    match r with
    | Ok (Respond hs s p) => s = 200 /\ exists email password,
        ADMIN_SEC_DEMO_EMAIL = Some email /\ ADMIN_SEC_DEMO_PASSWORD = Some password /\
        email <> "" /\ password <> "" /\ js_String (nullish (lb_password b) (JStr "")) = password /\
        toLowerCase (trim (js_String (nullish (lb_email b) (JStr email)))) = email /\
        toLowerCase email = email
    | Ok (NextError hs e) => err_status e = Some 401 \/ err_status e = Some 503
    | Err e => err_message e = Some "Invalid time value"
    end).
Proof.
  unfold handleSecAdminAuth, next_error.
  destruct ADMIN_SEC_DEMO_EMAIL as [email|]; [|by right].
  destruct ADMIN_SEC_DEMO_PASSWORD as [password|]; [|by right].
  destruct (String.eqb_spec email "") as [|He]; [by right|].
  destruct (String.eqb_spec password "") as [|Hp]; [by right|]. cbn [orb].
  destruct (String.eqb_spec (toLowerCase (trim (js_String (nullish (lb_email b) (JStr email))))) email)
    as [Hmail|]; [|by left].
  destruct (String.eqb_spec (js_String (nullish (lb_password b) (JStr ""))) password) as [Hpw|];
    cbn [negb orb]; [|by left].
  gw_unfold. gw_cbn. gw_reply iat. gw_reply ms. destruct (toISOString ms); gw_cbn; [|done].
  split; [done|]. exists email, password. split_and!; try done.
  rewrite <- Hmail at 1. by rewrite toLowerCase_idem.
Qed.

(** ** Concrete inputs *)

Lemma challenge_roundtrip_witness :
  challenge_error (ca_challenge "0AF3" "u-1" 1000) "0af3" 1300 = None /\
  challenge_error (ca_challenge "0AF3" "u-1" 1000) "0af3" 1301 <> None.
Proof.
  split.
  - apply (challenge_roundtrip "0AF3" "u-1" 1000 "0af3" 1300);
      [reflexivity | discriminate | reflexivity | split; [reflexivity | discriminate]].
  - intros He. apply (challenge_roundtrip "0AF3" "u-1" 1000 "0af3" 1301) in He;
      [| reflexivity | discriminate | reflexivity].
    destruct He as [_ He]. by apply He.
Defined.

Definition soc_request : Request :=
  {| request_id := "r1";
     authorization := Some ("Bearer " +:+ jwt_sign_for (H := toy_crypto) (sec_claims "soc@b.c")
                              "jwt-secret" 1000 SESSION_SECONDS);
     cookie := None; ip := None; remoteAddress := None; body := JUndefined; query := []; params := [] |}.

(** The security administrator at the guard of the CA administrator. *)
Lemma admin_roles_separated_witness :
  let env := gw_env (S := map_store) (V := nat) (fun _ _ => 1%N) quiet_services in
  let p := requireAdminRole (H := default_env) (H0 := toy_crypto) (H1 := toy_zod) ["admin-ca"] soc_request in
  exists ms, run_trace env p (World ∅ 2000000 0%nat) = [Obs DateNow ms] /\
    run_result env p (World ∅ 2000000 0%nat)
    = Ok (grant "admin-ca" (Some ("security-admin", "soc@b.c")) (1000 + SESSION_SECONDS) (ms / 1000)).
Proof.
  intros env p.
  apply (always_run env p (fun t r => exists ms, t = [Obs DateNow ms] /\
    r = Ok (grant "admin-ca" (Some ("security-admin", "soc@b.c")) (1000 + SESSION_SECONDS) (ms / 1000)))).
  apply (admin_roles_separated (H := default_env) (H0 := toy_crypto) (H1 := toy_crypto_spec)
           (H2 := toy_zod) (H3 := toy_zod_spec) "admin-ca"
           (jwt_sign_for (H := toy_crypto) (sec_claims "soc@b.c") "jwt-secret" 1000 SESSION_SECONDS)).
  - apply (security_token (H := default_env) (H0 := toy_crypto)).
  - apply list_elem_of_here.
  - reflexivity.
  - discriminate.
Defined.
