(* ===== verification/AuditSemantics.v ===== *)
(** * The meaning of audit events ([lib/audit-semantics.ts])

    Category, severity, outcome, actor and description of an event, derived from
    its source, action, actor, reason and target only. *)

From S2P Require Import Prelude JsString Gateway.

Open Scope Z_scope.

Inductive AuditSource := ca | kdc | bank.

#[export] Instance AuditSource_eq_dec : EqDecision AuditSource.
Proof. solve_decision. Defined.

(** [Inherited] is what [CATEGORY_BY_ACTION] finds on [Object.prototype] when
    the action is the name of one of its members. *)
Inductive AuditCategory :=
| key_issuance
| cert_lifecycle
| authentication
| resource_access
| admin_action
| Inherited (member : string).

Inductive AuditSeverity := info | warning | critical.
Inductive AuditOutcome := success | denied.
Inductive ActorType := user | admin | ra | service | system.

#[export] Instance AuditSeverity_eq_dec : EqDecision AuditSeverity.
Proof. solve_decision. Defined.
#[export] Instance AuditOutcome_eq_dec : EqDecision AuditOutcome.
Proof. solve_decision. Defined.

Definition source_text (s : AuditSource) : string :=
  match s with ca => "ca" | kdc => "kdc" | bank => "bank" end.
Definition severity_text (s : AuditSeverity) : string :=
  match s with info => "info" | warning => "warning" | critical => "critical" end.
Definition outcome_text (o : AuditOutcome) : string :=
  match o with success => "success" | denied => "denied" end.
Definition actor_type_text (t : ActorType) : string :=
  match t with
  | user => "user" | admin => "admin" | ra => "ra" | service => "service" | system => "system"
  end.

(** A category as a JSON value and as text: a function is not serialised. *)
Definition category_json (c : AuditCategory) : json :=
  match c with
  | key_issuance => JStr "key_issuance" | cert_lifecycle => JStr "cert_lifecycle"
  | authentication => JStr "authentication" | resource_access => JStr "resource_access"
  | admin_action => JStr "admin_action"
  | Inherited m => if String.eqb m "__proto__" then JObj [] else JUndefined
  end.
Definition category_text (c : AuditCategory) : string :=
  match c with
  | key_issuance => "key_issuance" | cert_lifecycle => "cert_lifecycle"
  | authentication => "authentication" | resource_access => "resource_access"
  | admin_action => "admin_action"
  | Inherited m => if String.eqb m "__proto__" then "[object Object]"
                   else "function Object() { [native code] }"
  end.

Record RawAuditFields := {
  raw_source : AuditSource; raw_action : string; raw_actor : string; raw_reason : string;
  raw_target : string
}.

Record AuditActor := { actor_type : ActorType; actor_id : string; actor_display : string }.

Record AuditSemantics := {
  category : AuditCategory; severity : AuditSeverity; outcome : AuditOutcome; actor : AuditActor;
  description : string
}.

Definition CATEGORY_BY_ACTION : list (string * AuditCategory) :=
  [("issued", cert_lifecycle); ("verify_certificate", cert_lifecycle);
   ("issuer_provisioned", cert_lifecycle); ("chain_verified", cert_lifecycle);
   ("ra_registration_approved", cert_lifecycle); ("ra_registration_rejected", cert_lifecycle);
   ("looked_up", admin_action); ("revoked", admin_action);
   ("ra_otp_requested", authentication); ("ra_otp_verified", authentication);
   ("ra_otp_failed", authentication); ("admin_ca_login_success", authentication);
   ("admin_ca_login_failed", authentication);
   ("as_ticket_issued", key_issuance); ("as_rejected", key_issuance);
   ("tgs_ticket_issued", key_issuance); ("tgs_rejected", key_issuance);
   ("transfer_completed", resource_access); ("transfer_rejected", resource_access);
   ("replay_detected", resource_access); ("invalid_signature", resource_access);
   ("certificate_rejected", resource_access); ("forbidden_ownership", resource_access);
   ("insufficient_funds", resource_access)].

Definition FALLBACK_CATEGORY (s : AuditSource) : AuditCategory :=
  match s with ca => cert_lifecycle | kdc => key_issuance | bank => resource_access end.

Definition lookup_text {A} (table : list (string * A)) (key : string) : option A :=
  option_map snd (find (fun kv => String.eqb kv.1 key) table).

(** The members of [Object.prototype] whose names are in lower case. *)
Definition inherited_lower : list string :=
  ["constructor"; "__proto__"].

Definition mem (s : string) (l : list string) : bool := existsb (String.eqb s) l.

(** [CATEGORY_BY_ACTION[action] ?? FALLBACK_CATEGORY[source]] of a lower-case action. *)
Definition category_of (source : AuditSource) (action : string) : AuditCategory :=
  match lookup_text CATEGORY_BY_ACTION action with
  | Some c => c
  | None => if mem action inherited_lower then Inherited action else FALLBACK_CATEGORY source
  end.

Definition CRITICAL : list string :=
  ["revoked"; "certificate_rejected"; "replay_detected"; "invalid_signature"].

Definition isDenied (action : string) : bool :=
  if String.eqb action "revoked" then false
  else if endsWith "_rejected" action || endsWith "_failed" action then true
  else mem action ["forbidden_ownership"; "insufficient_funds"; "replay_detected";
                   "invalid_signature"; "certificate_rejected"].

Definition severityOf (action : string) : AuditSeverity :=
  if mem action CRITICAL then critical else if isDenied action then warning else info.

Definition actorOf (source : AuditSource) (actor : string) : AuditActor :=
  let a := trim actor in
  if String.eqb a "" then
    match source with
    | kdc => Build_AuditActor user "" "unknown client"
    | bank => Build_AuditActor user "" "unknown user"
    | ca => Build_AuditActor system "" "system"
    end
  else
    let raw := Build_AuditActor user a a in
    match cut ":" a with
    | Some (prefix, suffix) =>
        if String.eqb prefix "ra" then
          Build_AuditActor ra a ("RA (" +:+ str_or suffix "gateway" +:+ ")")
        else if mem prefix ["admin-ca"; "admin"; "bank_admin"] then
          Build_AuditActor admin a (str_or suffix a)
        else if mem prefix ["system"; "service"; "legacy"] then
          Build_AuditActor service a (str_or suffix a)
        else raw
    | None => raw
    end.

(** The sentences, with the action already in lower case. *)
Definition describe (raw : RawAuditFields) (actor : AuditActor) : string :=
  let who := actor_display actor in
  let target := if String.eqb (raw_target raw) "" then "" else " " +:+ raw_target raw in
  let reason := if String.eqb (raw_reason raw) "" then "" else " (" +:+ raw_reason raw +:+ ")" in
  let act a := String.eqb (raw_action raw) a in
  if act "issued" then who +:+ " issued certificate" +:+ target
  else if act "revoked" then who +:+ " revoked certificate" +:+ target +:+ reason
  else if act "looked_up" then who +:+ " viewed certificate" +:+ target
  else if act "verify_certificate" then "certificate" +:+ target +:+ " was verified"
  else if act "chain_verified" then "certificate chain" +:+ target +:+ " was verified"
  else if act "issuer_provisioned" then "issuer" +:+ target +:+ " was provisioned"
  else if act "ra_otp_requested" then "OTP challenge issued for registration"
  else if act "ra_otp_verified" then "email ownership verified for registration"
  else if act "ra_otp_failed" then "OTP verification failed" +:+ reason
  else if act "ra_registration_approved" then
    "registration approved, certificate" +:+ target +:+ " issued"
  else if act "ra_registration_rejected" then "registration rejected" +:+ reason
  else if act "admin_ca_login_success" then who +:+ " signed in to Admin CA"
  else if act "admin_ca_login_failed" then "Admin CA sign-in failed" +:+ reason
  else if act "as_ticket_issued" then who +:+ " was granted a TGT (AS exchange)"
  else if act "as_rejected" then "AS exchange denied" +:+ reason
  else if act "tgs_ticket_issued" then who +:+ " was granted a service ticket" +:+ target
  else if act "tgs_rejected" then "TGS exchange denied" +:+ reason
  else if act "transfer_completed" then who +:+ " completed a transfer" +:+ target
  else if act "transfer_rejected" then "transfer rejected" +:+ reason
  else if act "replay_detected" then "replay attack detected" +:+ reason
  else if act "invalid_signature" then "invalid payload signature" +:+ reason
  else if act "certificate_rejected" then "certificate rejected" +:+ reason
  else if act "forbidden_ownership" then "ownership check failed" +:+ reason
  else if act "insufficient_funds" then "transfer failed: insufficient funds"
  else raw_action raw +:+ reason.

Definition enrichAudit (raw : RawAuditFields) : AuditSemantics :=
  let action := toLowerCase (raw_action raw) in
  let actor := actorOf (raw_source raw) (raw_actor raw) in
  {| category := category_of (raw_source raw) action;
     severity := severityOf action;
     outcome := if isDenied action then denied else success;
     actor := actor;
     description := describe
       {| raw_source := raw_source raw; raw_action := action; raw_actor := raw_actor raw;
          raw_reason := raw_reason raw; raw_target := raw_target raw |} actor |}.

(** ** The two texts of a bank action *)

(** [bankAuditActionToJSON] of the generated [proto/bank.ts]: the enum's name. *)
Definition bankAuditActionToJSON (a : BankAuditAction) : string :=
  match a with
  | BANK_AUDIT_ACTION_UNKNOWN => "BANK_AUDIT_ACTION_UNKNOWN"
  | BANK_AUDIT_ACTION_TRANSFER_COMPLETED => "BANK_AUDIT_ACTION_TRANSFER_COMPLETED"
  | BANK_AUDIT_ACTION_TRANSFER_REJECTED => "BANK_AUDIT_ACTION_TRANSFER_REJECTED"
  | BANK_AUDIT_ACTION_REPLAY_DETECTED => "BANK_AUDIT_ACTION_REPLAY_DETECTED"
  | BANK_AUDIT_ACTION_INVALID_SIGNATURE => "BANK_AUDIT_ACTION_INVALID_SIGNATURE"
  | BANK_AUDIT_ACTION_CERTIFICATE_REJECTED => "BANK_AUDIT_ACTION_CERTIFICATE_REJECTED"
  | BANK_AUDIT_ACTION_FORBIDDEN_OWNERSHIP => "BANK_AUDIT_ACTION_FORBIDDEN_OWNERSHIP"
  | BANK_AUDIT_ACTION_INSUFFICIENT_FUNDS => "BANK_AUDIT_ACTION_INSUFFICIENT_FUNDS"
  | BankAuditAction_UNRECOGNIZED => "UNRECOGNIZED"
  end.

(** [auditActionText[action] ?? unknown] of [controller/admin-bank.controller.ts]. *)
Definition auditActionText (a : BankAuditAction) : string :=
  match a with
  | BANK_AUDIT_ACTION_TRANSFER_COMPLETED => "transfer_completed"
  | BANK_AUDIT_ACTION_TRANSFER_REJECTED => "transfer_rejected"
  | BANK_AUDIT_ACTION_REPLAY_DETECTED => "replay_detected"
  | BANK_AUDIT_ACTION_INVALID_SIGNATURE => "invalid_signature"
  | BANK_AUDIT_ACTION_CERTIFICATE_REJECTED => "certificate_rejected"
  | BANK_AUDIT_ACTION_FORBIDDEN_OWNERSHIP => "forbidden_ownership"
  | BANK_AUDIT_ACTION_INSUFFICIENT_FUNDS => "insufficient_funds"
  | _ => "unknown"
  end.

(** The text that the timeline, the summary and the export use. *)
Definition soc_action (a : BankAuditAction) : string := toLowerCase (bankAuditActionToJSON a).

(** ** Lemmas *)

(** Only the lower-case action, the source and the actor matter to the class. *)
Lemma denied_severity action : isDenied action = true -> severityOf action <> info.
Proof. unfold severityOf. intros ->. by destruct (mem action CRITICAL). Qed.

Lemma severity_critical action : severityOf action = critical <-> mem action CRITICAL = true.
Proof. unfold severityOf. destruct (mem action CRITICAL); [done|]. by destruct (isDenied action). Qed.

(** What an event of the bank counts as in a view that names its action by [f]. *)
Definition bank_view (f : BankAuditAction -> string) (a : BankAuditAction) (actor reason target : string)
    : AuditSemantics :=
  enrichAudit {| raw_source := bank; raw_action := f a; raw_actor := actor; raw_reason := reason;
                 raw_target := target |}.

(** The security view and the bank's own view classify the same event
    differently, because the first names the action by the enumeration's
    constant: category and actor always agree, but replayed requests, forged
    signatures, foreign accounts and overdrawn accounts, which the bank's view
    reports as denied, count as successes of no importance, a refused
    certificate is not critical, and exactly these five actions differ. *)
Theorem bank_views_disagree a actor_ reason target :
  let bank_s := bank_view auditActionText a actor_ reason target in
  let soc_s := bank_view soc_action a actor_ reason target in
  category soc_s = category bank_s /\ actor soc_s = actor bank_s /\
  ((severity soc_s, outcome soc_s) = (severity bank_s, outcome bank_s) <->
   a ∉ [BANK_AUDIT_ACTION_REPLAY_DETECTED; BANK_AUDIT_ACTION_INVALID_SIGNATURE;
        BANK_AUDIT_ACTION_CERTIFICATE_REJECTED; BANK_AUDIT_ACTION_FORBIDDEN_OWNERSHIP;
        BANK_AUDIT_ACTION_INSUFFICIENT_FUNDS]) /\
  (a ∈ [BANK_AUDIT_ACTION_REPLAY_DETECTED; BANK_AUDIT_ACTION_INVALID_SIGNATURE;
        BANK_AUDIT_ACTION_FORBIDDEN_OWNERSHIP; BANK_AUDIT_ACTION_INSUFFICIENT_FUNDS] ->
   outcome bank_s = denied /\ (severity soc_s, outcome soc_s) = (info, success)).
Proof.
  cbv zeta. split; [by destruct a|]. split; [done|].
  unfold bank_view, enrichAudit. cbn [severity outcome raw_action].
  destruct a;
    (set (x := severityOf _); vm_compute in x; subst x); (set (x := isDenied _); vm_compute in x; subst x);
    try ((set (x := severityOf _); vm_compute in x; subst x);
         (set (x := isDenied _); vm_compute in x; subst x));
    rewrite !elem_of_cons, elem_of_nil; naive_solver.
Qed.
