(* ===== verification/AuditFetch.v ===== *)
(** * Reading the audit logs ([lib/audit-fetch.ts])

    Each service lists its events in pages; a window is read page by page up to
    a cap, and every event is brought to one shape. [AuditLog] is the interface
    between the reader and a service. *)

From S2P Require Import Prelude JsString JsDate Effects Gateway Json Validators AuditSemantics.

Open Scope Z_scope.

Record NormalizedEvent := {
  ne_source : AuditSource; ne_action : string; ne_actor : string; ne_target : string;
  ne_reason : string; ne_request_id : string; ne_ip : string; ne_scope : string;
  ne_timestamp : string; ne_ts : Z; ne_metadata : json
}.

(** Zero is no bound. *)
Record WindowFilter := { fromUnix : Z; toUnix : Z }.

Definition PAGE : Z := 100.

(** [JSON.parse], or the text itself. *)
Definition safeJson (raw : string) : json := default (JStr raw) (parse raw).

Definition metaRequestId (metadata : list (string * string)) : string :=
  default "" (lookup_text metadata "request_id").

(** [new Date(seconds * 1000).toISOString()]. *)
Definition iso_seconds (seconds : Z) : result js_error string := iso_of (seconds * 1000).

Definition metadata_json (metadata : list (string * string)) : json :=
  JObj (map (fun kv => (kv.1, JStr kv.2)) metadata).

(** ** The interface of a log *)

Class AuditLog (R : Type) := {
  (** One page: the filter, the limit, the offset and the caller's text (the
      request id, or the session token of the bank). *)
  list_page (who : string) (filter : WindowFilter) (limit offset : Z) : gw (page R);
  normalize (e : R) : result js_error NormalizedEvent
}.

(** [a || b || c]. *)
Definition first_text (a b c : string) : string := str_or a (str_or b c).

#[export] Instance ca_log : AuditLog CaAuditRecord := {|
  list_page who filter limit offset :=
    listCaAuditEvents
      {| ca_action := ""; ca_serialNumber := ""; ca_performedByFilter := ""; ca_requestId := "";
         ca_fromUnix := fromUnix filter; ca_toUnix := toUnix filter; ca_limit := limit;
         ca_offset := offset; ca_performedBy := "" |} (Some who);
  normalize e :=
    let! timestamp := iso_seconds (ca_recAt e) in
    Ok {| ne_source := ca; ne_action := ca_recAction e; ne_actor := ca_recPerformedBy e;
          ne_target := ca_recSerial e; ne_reason := ca_recReason e;
          ne_request_id := metaRequestId (ca_recMetadata e); ne_ip := ""; ne_scope := "";
          ne_timestamp := timestamp; ne_ts := ca_recAt e;
          ne_metadata := metadata_json (ca_recMetadata e) |}
|}.

#[export] Instance kdc_log : AuditLog KdcAuditRecord := {|
  list_page who filter limit offset :=
    listKdcAuditEvents
      {| kdc_action := ""; kdc_clientId := ""; kdc_certSerial := ""; kdc_requestId := "";
         kdc_fromUnix := fromUnix filter; kdc_toUnix := toUnix filter; kdc_limit := limit;
         kdc_offset := offset |} (Some who);
  normalize e :=
    let! timestamp := iso_seconds (kdc_recAt e) in
    Ok {| ne_source := kdc; ne_action := kdc_recAction e; ne_actor := kdc_recClientId e;
          ne_target := kdc_recCertSerial e; ne_reason := kdc_recReason e;
          ne_request_id := kdc_recRequestId e; ne_ip := kdc_recIp e; ne_scope := kdc_recScope e;
          ne_timestamp := timestamp; ne_ts := kdc_recAt e;
          ne_metadata := safeJson (kdc_recMetadataJson e) |}
|}.

#[export] Instance bank_log : AuditLog BankAuditRecord := {|
  list_page who filter limit offset :=
    listBankAdminAuditEvents
      {| bank_action := BANK_AUDIT_ACTION_UNKNOWN; bank_userId := ""; bank_certSerial := "";
         bank_requestId := ""; bank_fromUnix := fromUnix filter; bank_toUnix := toUnix filter;
         bank_limit := limit; bank_offset := offset; bank_adminSessionToken := who |};
  normalize e :=
    let! timestamp := iso_seconds (bank_recAt e) in
    Ok {| ne_source := bank; ne_action := soc_action (bank_recAction e); ne_actor := bank_recUserId e;
          ne_target := first_text (bank_recTransactionId e) (bank_recAccountId e) (bank_recCertSerial e);
          ne_reason := bank_recReason e; ne_request_id := bank_recRequestId e; ne_ip := "";
          ne_scope := ""; ne_timestamp := timestamp; ne_ts := bank_recAt e;
          ne_metadata := safeJson (bank_recMetadataJson e) |}
|}.

(** ** The loop *)

Section loop.

Context {R : Type} `{AuditLog R}.

(** [None] is the end of the fuel. *)
Fixpoint fetch_loop (fuel : nat) (who : string) (filter : WindowFilter) (cap : nat)
    (out : list NormalizedEvent) (offset : Z) : gw (option (list NormalizedEvent)) :=
  if bool_decide (cap <= length out)%nat then Ret (Some (take cap out))
  else
    match fuel with
    | O => Ret None
    | S fuel' =>
        let* res := list_page who filter PAGE offset in
        let* l := of_result (rmapM normalize (events res)) in
        if zlen (events res) <? PAGE then Ret (Some (take cap (out ++ l)))
        else fetch_loop fuel' who filter cap (out ++ l) (offset + PAGE)
    end.

(** Every page but the last one adds [PAGE] events. *)
Definition fetch_fuel (cap : nat) : nat := S (cap / 100).

Definition fetchWindow (filter : WindowFilter) (cap : nat) (who : string) : gw (list NormalizedEvent) :=
  let* r := fetch_loop (fetch_fuel cap) who filter cap [] 0 in Ret (default [] r).

End loop.

Definition fetchCaWindow := fetchWindow (R := CaAuditRecord).
Definition fetchKdcWindow := fetchWindow (R := KdcAuditRecord).
Definition fetchBankWindow := fetchWindow (R := BankAuditRecord).

(** ** The cookie and the window *)

Definition BANK_SESSION_COOKIE : string := "bank_admin_session".

(** [const [k, ...v] = part.trim().split(=)]: the first part of that name. *)
Fixpoint read_cookie_in (parts : list string) (name : string) : result js_error string :=
  match parts with
  | [] => Ok ""
  | part :: rest =>
      match split (of_code 61) (trim part) with
      | k :: v =>
          if String.eqb k name then
            match decodeURIComponent (sjoin "=" v) with
            | Some units => Ok (string_of_units units)
            | None => Err (plain_error "URI malformed")
            end
          else read_cookie_in rest name
      | [] => read_cookie_in rest name
      end
  end.

Definition readCookie (header : option string) (name : string) : result js_error string :=
  match header with
  | Some h => if nonempty h then read_cookie_in (split ";" h) name else Ok ""
  | None => Ok ""
  end.

(** [/^(\d+)([smhd])$/] on the trimmed text. *)
Definition unit_seconds (s : string) : option Z :=
  if String.eqb s "s" then Some 1 else if String.eqb s "m" then Some 60
  else if String.eqb s "h" then Some 3600 else if String.eqb s "d" then Some 86400 else None.

Definition parseWindowSeconds (value : option string) : Z :=
  match value with
  | Some v =>
      if nonempty v then
        let '(ds, u) := span digit (trim v) in
        match unit_seconds u with
        | Some unit => if nonempty ds then digits_val 0 ds * unit else 24 * 3600
        | None => 24 * 3600
        end
      else 24 * 3600
  | None => 24 * 3600
  end.

(** ** Lemmas *)

Lemma rmapM_Forall2 {X A B} (f : A -> result X B) l bs :
  rmapM f l = Ok bs <-> Forall2 (fun a b => f a = Ok b) l bs.
Proof.
  revert bs. induction l as [|a l IH]; intros bs; cbn.
  - split; [by intros [= <-] | by inversion 1].
  - split.
    + destruct (f a) as [b|] eqn:Ha; cbn; [|done]. destruct (rmapM f l) as [bs'|]; cbn; [|done].
      intros [= <-]. constructor; [done | by apply IH].
    + inversion 1 as [|? b ? bs' Ha Hl]; subst. rewrite Ha. cbn. by rewrite (proj2 (IH bs') Hl).
Qed.

Lemma rmapM_take_drop {X A B} (f : A -> result X B) l bs n m :
  rmapM f l = Ok bs -> rmapM f (take n (drop m l)) = Ok (take n (drop m bs)).
Proof. rewrite !rmapM_Forall2. intros H. by apply Forall2_take, Forall2_drop. Qed.

Section lemmas.

Context {R : Type} `{AuditLog R} (who : string) (filter : WindowFilter).

(** The fuel is enough, whatever the service replies. *)
Lemma fetch_loop_total fuel cap out offset :
  (cap <= length out + 100 * fuel)%nat ->
  always (fetch_loop fuel who filter cap out offset) (fun _ r => r <> Ok None).
Proof.
  revert out offset. induction fuel as [|fuel IH]; intros out offset Hf; cbn [fetch_loop].
  - case_bool_decide; [done | lia].
  - case_bool_decide; [done|]. apply always_bind, always_true. intros t [res|x]; [|done].
    destruct (rmapM normalize (events res)) as [l|x] eqn:Hl; gw_cbn; [|done].
    pose proof (rmapM_ok_length _ _ _ Hl) as Hlen. unfold zlen, PAGE.
    destruct (Z.ltb_spec (Z.of_nat (length (events res))) 100); [done|].
    apply IH. rewrite length_app. lia.
Qed.

Lemma fetch_fuel_enough cap : (cap <= 100 * fetch_fuel cap)%nat.
Proof. unfold fetch_fuel. pose proof (Nat.div_mod cap 100). pose proof (Nat.mod_upper_bound cap 100). lia. Qed.

(** A service that answers from a log, page by page. *)
Definition serves {W} (env : forall e : event, W -> W * reply e) (log : list R) : Prop :=
  forall offset w, 0 <= offset -> exists w' t pg,
    run env (list_page who filter PAGE offset) w = (w', t, Ok pg) /\
    events pg = take 100 (drop (Z.to_nat offset) log).

(** What is read of a log for [cap] events: whole pages, all of whose events must
    have a date. *)
Definition pages (cap : nat) : nat := (cap + 99) / 100.

Definition read_log (cap : nat) (log : list R) : result js_error (list NormalizedEvent) :=
  let! evs := rmapM normalize (take (100 * pages cap) log) in Ok (take cap evs).

Lemma fetch_loop_served {W} (env : forall e : event, W -> W * reply e) log cap k fuel out w :
  serves env log -> (100 * k <= length log)%nat -> (pages cap <= k + fuel)%nat -> (k <= pages cap)%nat ->
  rmapM normalize (take (100 * k) log) = Ok out ->
  exists w' t, run env (fetch_loop fuel who filter cap out (Z.of_nat (100 * k))) w
    = (w', t, let! l := read_log cap log in Ok (Some l)).
Proof.
  intros Hs. assert (Hp : (cap <= 100 * pages cap /\ 100 * pages cap <= cap + 99)%nat).
  { unfold pages. pose proof (Nat.div_mod (cap + 99) 100). pose proof (Nat.mod_upper_bound (cap + 99) 100). lia. }
  revert k out w. induction fuel as [|fuel IH]; intros k out w Hk Hf Hle Hn; pose proof (rmapM_ok_length _ _ _ Hn) as Hl;
    rewrite length_take in Hl; cbn [fetch_loop].
  all: assert (Hstop : (cap <= length out)%nat -> read_log cap log = Ok (take cap out))
    by (intros Hc; assert (k = pages cap) as -> by lia; unfold read_log; by rewrite Hn).
  all: case_bool_decide as Hc; [eexists w, []; by rewrite Hstop|].
  { lia. }
  destruct (Hs (Z.of_nat (100 * k)) w) as (w1 & t1 & pg & Hr & Hpg); [lia|]. rewrite Nat2Z.id in Hpg.
  rewrite run_bind, Hr, Hpg. set (page := take 100 (drop (100 * k) log)).
  assert (Hpage : take (100 * k) log ++ page = take (100 * S k) log)
    by (unfold page; rewrite take_take_drop; f_equal; lia).
  assert (Hrest : take (100 * pages cap) log = take (100 * S k) log ++ drop (100 * S k) (take (100 * pages cap) log))
    by (rewrite <- (take_drop (100 * S k) (take (100 * pages cap) log)) at 1; by rewrite take_take, Nat.min_l by lia).
  assert (Hlen : length page = Nat.min 100 (length log - 100 * k)) by (unfold page; by rewrite length_take, length_drop).
  destruct (rmapM normalize page) as [l|x] eqn:Hl'; gw_cbn.
  2: { eexists w1, _. unfold read_log. rewrite Hrest, <- Hpage, <- app_assoc, !rmapM_app, Hn, Hl'. reflexivity. }
  assert (Hout : rmapM normalize (take (100 * S k) log) = Ok (out ++ l)) by (by rewrite <- Hpage, rmapM_app, Hn, Hl').
  unfold zlen, PAGE. destruct (Z.ltb_spec (Z.of_nat (length page)) 100) as [Hlt|Hge].
  - eexists w1, _. unfold read_log. rewrite !take_ge in Hout by lia. rewrite (take_ge log) by lia.
    rewrite Hout. reflexivity.
  - replace (Z.of_nat (100 * k) + 100) with (Z.of_nat (100 * S k)) by lia.
    destruct (IH (S k) (out ++ l) w1) as (w2 & t2 & Hr2); [lia..|exact Hout|]. rewrite Hr2. by eexists w2, _.
Qed.

(** The reader of a window returns the first [cap] events of the log, or fails on
    an event without a date in the pages that it reads. *)
Lemma fetchWindow_served {W} (env : forall e : event, W -> W * reply e) log cap w :
  serves env log -> exists w' t, run env (fetchWindow filter cap who) w = (w', t, read_log cap log).
Proof.
  intros Hs. unfold fetchWindow. rewrite run_bind.
  destruct (fetch_loop_served env log cap 0 (fetch_fuel cap) [] w Hs) as (w' & t & Hr); [lia| |lia|done|].
  { pose proof (fetch_fuel_enough cap). unfold pages. apply Nat.lt_succ_r, Nat.Div0.div_lt_upper_bound. lia. }
  change (Z.of_nat (100 * 0)) with 0 in Hr. rewrite Hr. destruct (read_log cap log); by eexists w', _.
Qed.

(** A service that refuses every page. *)
Lemma fetchWindow_refused {W} (env : forall e : event, W -> W * reply e) cap x w :
  (0 < cap)%nat ->
  (forall offset w, exists w' t, run env (list_page who filter PAGE offset) w = (w', t, Err x)) ->
  exists w' t, run env (fetchWindow filter cap who) w = (w', t, Err x).
Proof.
  intros Hc Hx. unfold fetchWindow. rewrite run_bind. unfold fetch_fuel. cbn [fetch_loop].
  rewrite bool_decide_eq_false_2 by (cbn [length]; lia). rewrite run_bind.
  destruct (Hx 0 w) as (w' & t & ->). by eexists w', _.
Qed.

End lemmas.

(** The reader only asks for pages of its log. *)
Lemma emits_fetch {R} `{AuditLog R} (P : event -> Prop) fuel who win cap out offset :
  (forall limit offset, emits P (list_page (R := R) who win limit offset)) ->
  emits P (fetch_loop (R := R) fuel who win cap out offset).
Proof.
  intros Hp. revert out offset. induction fuel as [|fuel IH]; intros out offset; cbn [fetch_loop].
  - case_bool_decide; apply emits_ret.
  - case_bool_decide; [apply emits_ret|]. apply emits_bind; [apply Hp|intros res].
    apply emits_bind; [apply emits_of_result|intros l]. destruct (zlen _ <? _); [apply emits_ret | apply IH].
Qed.

Lemma emits_fetchWindow {R} `{AuditLog R} (P : event -> Prop) win cap who :
  (forall limit offset, emits P (list_page (R := R) who win limit offset)) ->
  emits P (fetchWindow (R := R) win cap who).
Proof.
  intros Hp. unfold fetchWindow. apply emits_bind; [by apply emits_fetch | intros; apply emits_ret].
Qed.
