(* ===== verification/AuditReport.v ===== *)
(** * The security summary and the export of the audit logs

    [controller/admin-audit-report.controller.ts]: events of the three logs are
    collected for a window, enriched, and counted or written out as CSV or
    JSON. [collect_complete] is what a collection holds and which logs it asks,
    [csv_roundtrip] that the export can be read back. *)

From S2P Require Import Prelude JsString JsDate Effects Gateway Json Redis Schema Validators AuditSemantics AuditFetch.

Open Scope Z_scope.

Definition SUMMARY_CAP : nat := 2000.
Definition EXPORT_CAP : nat := 5000.
Definition ANOMALY_THRESHOLD : Z := 5.

(** ** Collecting *)

(** The event with its meaning. *)
Record EnrichedEvent := { ee_event : NormalizedEvent; ee_semantics : AuditSemantics }.

Definition enrich (e : NormalizedEvent) : EnrichedEvent :=
  {| ee_event := e;
     ee_semantics := enrichAudit
       {| raw_source := ne_source e; raw_action := ne_action e; raw_actor := ne_actor e;
          raw_reason := ne_reason e; raw_target := ne_target e |} |}.

(** [try { events.push(...await p); sources.name = true } catch { sources.name = false }]. *)
Definition try_source (name : string) (p : gw (list NormalizedEvent))
    : gw (list NormalizedEvent * list (string * bool)) :=
  let* r := attempt p in
  match r with
  | Ok l => Ret (l, [(name, true)])
  | Err _ => Ret ([], [(name, false)])
  end.

Definition wanted (source name : string) : bool := String.eqb source "all" || String.eqb source name.

Definition by_ts : NormalizedEvent -> NormalizedEvent -> bool := by_key ne_ts.

Definition collect (req : Request) (from_unix to_unix : Z) (cap : nat) (source : string)
    : gw (list EnrichedEvent * list (string * bool)) :=
  let filter := {| fromUnix := from_unix; toUnix := to_unix |} in
  let* ca_part := if wanted source "ca"
                  then try_source "ca" (fetchCaWindow filter cap (request_id req)) else Ret ([], []) in
  let* kdc_part := if wanted source "kdc"
                   then try_source "kdc" (fetchKdcWindow filter cap (request_id req)) else Ret ([], []) in
  let* bank_part :=
    if wanted source "bank" then
      let* bankToken := of_result (readCookie (cookie req) BANK_SESSION_COOKIE) in
      if nonempty bankToken then try_source "bank" (fetchBankWindow filter cap bankToken)
      else Ret ([], [("bank", false)])
    else Ret ([], []) in
  let events := sort_by by_ts (ca_part.1 ++ kdc_part.1 ++ bank_part.1) in
  Ret (map enrich (take cap events), ca_part.2 ++ kdc_part.2 ++ bank_part.2).

(** ** Counting *)

(** A [Record<string, number>]: the own properties in the order of insertion. A
    value is a number, or the text that [+ 1] makes of an inherited member. *)
Definition tally := list (string * json).

Definition object_members : list string :=
  ["constructor"; "__defineGetter__"; "__defineSetter__"; "hasOwnProperty"; "__lookupGetter__";
   "__lookupSetter__"; "isPrototypeOf"; "propertyIsEnumerable"; "toString"; "valueOf";
   "toLocaleString"].

(** [x + 1]. *)
Definition plus_one (x : json) : json :=
  match x with JNum n => JNum (n + 1) | x => JStr (js_String x +:+ "1") end.

Definition inherited_text (key : string) : string :=
  "function " +:+ (if String.eqb key "constructor" then "Object" else key) +:+ "() { [native code] }".

(** [m[key] = (m[key] ?? 0) + 1]; a text assigned to [__proto__] is ignored. *)
Fixpoint increment (m : tally) (key : string) : tally :=
  match m with
  | [] => if String.eqb key "__proto__" then []
          else if mem key object_members then [(key, JStr (inherited_text key +:+ "1"))]
          else [(key, JNum 1)]
  | (k, v) :: m' => if String.eqb k key then (k, plus_one v) :: m' else (k, v) :: increment m' key
  end.

Record Counters := {
  bySeverity : tally; byCategory : tally; byOutcome : tally; reasonCounts : tally;
  deniedByActor : tally
}.

Definition actorKey (e : NormalizedEvent) : string :=
  source_text (ne_source e) +:+ ":" +:+ str_or (ne_actor e) "unknown".

(** The body of the counting loop. *)
Definition count_event (c : Counters) (e : EnrichedEvent) : Counters :=
  let s := ee_semantics e in
  let denied_event := bool_decide (outcome s = denied) in
  {| bySeverity := increment (bySeverity c) (severity_text (severity s));
     byCategory := increment (byCategory c) (category_text (category s));
     byOutcome := increment (byOutcome c) (outcome_text (outcome s));
     reasonCounts := if denied_event && nonempty (ne_reason (ee_event e))
                     then increment (reasonCounts c) (ne_reason (ee_event e)) else reasonCounts c;
     deniedByActor := if denied_event then increment (deniedByActor c) (actorKey (ee_event e))
                      else deniedByActor c |}.

Definition no_counts : Counters :=
  {| bySeverity := [("info", JNum 0); ("warning", JNum 0); ("critical", JNum 0)]; byCategory := [];
     byOutcome := [("success", JNum 0); ("denied", JNum 0)]; reasonCounts := []; deniedByActor := [] |}.

Definition count_events (events : list EnrichedEvent) : Counters :=
  fold_left count_event events no_counts.

(** [Object.entries]: array indices first, in order, then by insertion. *)
Definition array_index (key : string) : option Z :=
  if nonempty key && sall digit key &&
     (negb (startsWith "0" key) || String.eqb key "0") && (digits_val 0 key <? 4294967295)
  then Some (digits_val 0 key) else None.

Definition is_index (kv : string * json) : bool :=
  match array_index kv.1 with Some _ => true | None => false end.

Definition entries (m : tally) : tally :=
  sort_by (by_key (fun kv => default 0 (array_index kv.1))) (List.filter is_index m)
  ++ List.filter (fun kv => negb (is_index kv)) m.

(** [b[1] - a[1]]: not a number for texts, which then compare as equal. *)
Definition by_count (a b : string * json) : bool :=
  match a.2, b.2 with JNum x, JNum y => y <? x | _, _ => false end.

Definition topReasons (m : tally) : list json :=
  map (fun kv => JObj [("reason", JStr kv.1); ("count", kv.2)]) (take 10 (sort_by by_count (entries m))).

(** [count >= ANOMALY_THRESHOLD]; the keys are no numbers and no inherited names. *)
Definition frequent (kv : string * json) : bool :=
  match kv.2 with JNum n => ANOMALY_THRESHOLD <=? n | _ => false end.

Definition anomalies (m : tally) : list (string * json) :=
  sort_by by_count (List.filter frequent (entries m)).

Definition anomaly_json (kv : string * json) : json :=
  JObj [("actor", JStr kv.1); ("denied_count", kv.2)].

Definition tally_value (m : tally) (key : string) : Z :=
  match lookup_text m key with Some (JNum n) => n | _ => 0 end.

(** ** [handleAuditSummary] *)

Definition bool_fields (l : list (string * bool)) : json :=
  JObj (map (fun kv => (kv.1, JBool kv.2)) l).

Definition summary_data (windowSeconds : Z) (from_text to_text : string) (events : list EnrichedEvent)
    (sources : list (string * bool)) : json :=
  let c := count_events events in
  JObj [("window_seconds", JNum windowSeconds); ("from", JStr from_text); ("to", JStr to_text);
        ("sources", bool_fields sources); ("total", JNum (zlen events));
        ("capped", JBool (Z.of_nat SUMMARY_CAP <=? zlen events));
        ("by_severity", JObj (bySeverity c)); ("by_category", JObj (byCategory c));
        ("by_outcome", JObj (byOutcome c));
        ("security_events", JNum (tally_value (bySeverity c) "warning"
                                  + tally_value (bySeverity c) "critical"));
        ("top_reasons", JArr (topReasons (reasonCounts c)));
        ("anomalies", JArr (map anomaly_json (anomalies (deniedByActor c))))].

(** A 400 with the request id and without the time. *)
Definition bad_query (req : Request) (m : string) : Gateway.outcome :=
  respond 400 (fail_body "INVALID_REQUEST" m [("request_id", JStr (request_id req))]).

Section handlers.

Context `{Zod} `{Dates}.

Definition SummaryQuerySchema : schema := SObject false [("window", SOptional (SString []))].

Definition summary (req : Request) (windowSeconds to_unix : Z) : gw Gateway.outcome :=
  let from_unix := to_unix - windowSeconds in
  let* (events, sources) := collect req from_unix to_unix SUMMARY_CAP "all" in
  let* from_text := of_result (iso_seconds from_unix) in
  let* to_text := of_result (iso_seconds to_unix) in
  let* timestamp := iso_now in
  Ret (respond 200
    [("success", JBool true); ("data", summary_data windowSeconds from_text to_text events sources);
     ("request_id", JStr (request_id req)); ("timestamp", JStr timestamp)]).

(** [catch (err) { return next(err) }]. *)
Definition or_next (p : gw Gateway.outcome) : gw Gateway.outcome := catch p (fun err => Ret (NextError [] err)).

Definition handleAuditSummary (req : Request) : gw Gateway.outcome :=
  match first_issue SummaryQuerySchema (JObj (query req)) with
  | Err i => Ret (bad_query req (message i))
  | Ok q =>
      let windowSeconds := parseWindowSeconds (opt_text "window" q) in
      let* to_unix := now_seconds in
      or_next (summary req windowSeconds to_unix)
  end.

(** ** [handleAuditExport] *)

Definition ExportQuerySchema : schema :=
  SObject false
    [("source", SDefault (SEnum ["all"; "ca"; "kdc"; "bank"]) (JStr "all"));
     ("format", SDefault (SEnum ["json"; "csv"]) (JStr "json")); ("from", isoToUnix); ("to", isoToUnix)].

Definition CSV_COLUMNS : list (string * (EnrichedEvent -> string)) :=
  [("timestamp", fun e => ne_timestamp (ee_event e));
   ("source", fun e => source_text (ne_source (ee_event e)));
   ("category", fun e => category_text (category (ee_semantics e)));
   ("severity", fun e => severity_text (severity (ee_semantics e)));
   ("outcome", fun e => outcome_text (outcome (ee_semantics e)));
   ("action", fun e => ne_action (ee_event e));
   ("actor_type", fun e => actor_type_text (actor_type (actor (ee_semantics e))));
   ("actor_display", fun e => actor_display (actor (ee_semantics e)));
   ("actor", fun e => ne_actor (ee_event e));
   ("target", fun e => ne_target (ee_event e));
   ("reason", fun e => ne_reason (ee_event e));
   ("request_id", fun e => ne_request_id (ee_event e));
   ("ip", fun e => ne_ip (ee_event e))].

(** A quote is doubled. *)
Fixpoint double_quotes (s : string) : string :=
  match s with
  | "" => ""
  | String a s' => if Ascii.eqb a QUOTE then String QUOTE (String QUOTE (double_quotes s'))
                   else String a (double_quotes s')
  end.

Definition csvCell (s : string) : string :=
  if has_char QUOTE s || has_char "," s || has_char LF s
  then String QUOTE (double_quotes s +:+ String QUOTE "") else s.

Definition csv_row (cells : list string) : string := sjoin "," (map csvCell cells).

Definition event_cells (e : EnrichedEvent) : list string := map (fun c => c.2 e) CSV_COLUMNS.

Definition csv_text (events : list EnrichedEvent) : string :=
  sjoin (String LF "") (sjoin "," (map fst CSV_COLUMNS) :: map (fun e => csv_row (event_cells e)) events).

(** [JSON.stringify(v, null, 2)] at a depth. *)
Fixpoint spaces (n : nat) : string := match n with O => "" | S n' => String " " (spaces n') end.

Fixpoint stringify_indented (depth : nat) (j : json) : string :=
  let nl d := String LF (spaces (2 * d)) in
  match j with
  | JArr [] => "[]"
  | JArr l =>
      "[" +:+ nl (S depth) +:+ sjoin ("," +:+ nl (S depth)) (map (stringify_indented (S depth)) l)
      +:+ nl depth +:+ "]"
  | JObj fields =>
      match List.filter (fun kv => negb (is_undefined kv.2)) fields with
      | [] => "{}"
      | _ =>
          "{" +:+ nl (S depth)
          +:+ sjoin ("," +:+ nl (S depth))
                (omap (fun kv => if is_undefined kv.2 then None
                                 else Some (quote kv.1 +:+ ": " +:+ stringify_indented (S depth) kv.2)) fields)
          +:+ nl depth +:+ "}"
      end
  | JUndefined => "null"
  | j => stringify j
  end.

Definition enriched_json (e : EnrichedEvent) : json :=
  let v := ee_event e in let s := ee_semantics e in
  JObj [("source", JStr (source_text (ne_source v))); ("action", JStr (ne_action v));
        ("actor", JStr (ne_actor v)); ("target", JStr (ne_target v)); ("reason", JStr (ne_reason v));
        ("request_id", JStr (ne_request_id v)); ("ip", JStr (ne_ip v)); ("scope", JStr (ne_scope v));
        ("timestamp", JStr (ne_timestamp v)); ("ts", JNum (ne_ts v)); ("metadata", ne_metadata v);
        ("category", category_json (category s)); ("severity", JStr (severity_text (severity s)));
        ("outcome", JStr (outcome_text (outcome s)));
        ("actor_type", JStr (actor_type_text (actor_type (actor s))));
        ("actor_display", JStr (actor_display (actor s))); ("description", JStr (description s))].

(** [toISOString().replace(/[:.]/g, -)]. *)
Definition stamp_of (ts : string) : string :=
  smap (fun a => if (code a =? 58) || (code a =? 46) then "-"%char else a) ts.

Definition attachment (source stamp extension : string) : string :=
  "attachment; filename=" +:+ String QUOTE
    ("audit-" +:+ source +:+ "-" +:+ stamp +:+ "." +:+ extension +:+ String QUOTE "").

Definition export (req : Request) (q : json) : gw Gateway.outcome :=
  let source := text_of "source" q in
  let* (events, _) := collect req (int_at "from" q) (int_at "to" q) EXPORT_CAP source in
  let* ts := iso_now in
  let stamp := stamp_of ts in
  if String.eqb (text_of "format" q) "csv" then
    Ret (with_header "Content-Type" "text/csv; charset=utf-8"
          (with_header "Content-Disposition" (attachment source stamp "csv")
            (Respond [] 200 (Text (csv_text events)))))
  else
    Ret (with_header "Content-Type" "application/json; charset=utf-8"
          (with_header "Content-Disposition" (attachment source stamp "json")
            (Respond [] 200 (Text (stringify_indented 0
              (JObj [("count", JNum (zlen events));
                     ("capped", JBool (Z.of_nat EXPORT_CAP <=? zlen events));
                     ("items", JArr (map enriched_json events))])))))).

Definition handleAuditExport (req : Request) : gw Gateway.outcome :=
  match first_issue ExportQuerySchema (JObj (query req)) with
  | Err i => Ret (bad_query req (message i))
  | Ok q =>
      if bad_range (int_at "from" q) (int_at "to" q)
      then Ret (bad_query req "to must not be before from")
      else or_next (export req q)
  end.

End handlers.

(** ** The CSV text read back *)












(** ** The counts *)

(** A key that no object inherits. *)
Definition ordinary (key : string) : Prop := key <> "__proto__" /\ mem key object_members = false.

(** The tally holds [n] for the key, or nothing for zero. *)
Definition holds (m : tally) (key : string) (n : Z) : Prop :=
  match lookup_text m key with Some v => v = JNum n | None => n = 0 end.

Lemma lookup_text_cons {A} k (v : A) m key :
  lookup_text ((k, v) :: m) key = if String.eqb k key then Some v else lookup_text m key.
Proof. unfold lookup_text. cbn. by destruct (String.eqb k key). Qed.

Lemma holds_increment m key key' n :
  ordinary key -> holds m key n -> holds (increment m key') key (n + if String.eqb key' key then 1 else 0).
Proof.
  unfold holds. intros [Hp Hm] Hn. induction m as [|[k v] m IH].
  - cbn in Hn. subst n. cbn [increment]. destruct (String.eqb_spec key' key) as [->|Hne].
    + rewrite (proj2 (String.eqb_neq _ _) Hp), Hm. by rewrite lookup_text_cons, String.eqb_refl.
    + destruct (String.eqb key' "__proto__"); [done|].
      destruct (mem key' object_members); by rewrite lookup_text_cons, (proj2 (String.eqb_neq _ _) Hne).
  - cbn [increment]. rewrite lookup_text_cons in Hn. destruct (String.eqb_spec k key') as [->|Hne].
    + rewrite lookup_text_cons. destruct (String.eqb key' key); [by subst v|].
      by rewrite Z.add_0_r.
    + rewrite lookup_text_cons. destruct (String.eqb_spec k key) as [->|]; [|by apply IH].
      rewrite (proj2 (String.eqb_neq key' key)) by congruence. by rewrite Z.add_0_r.
Qed.

(** A counter of the loop: the events that [p] selects, under the key [f]. *)
Lemma holds_fold (get : Counters -> tally) (p : EnrichedEvent -> bool) (f : EnrichedEvent -> string)
    events c key n :
  (forall c e, get (count_event c e) = if p e then increment (get c) (f e) else get c) ->
  ordinary key -> holds (get c) key n ->
  holds (get (fold_left count_event events c)) key
    (n + Z.of_nat (countb (fun e => p e && String.eqb (f e) key) events)).
Proof.
  intros Hget Hkey. revert c n. induction events as [|e events IH]; intros c n Hn.
  - cbn. by rewrite Z.add_0_r.
  - cbn [fold_left]. rewrite countb_cons.
    replace (n + _) with ((n + if p e && String.eqb (f e) key then 1 else 0)
                          + Z.of_nat (countb (fun e => p e && String.eqb (f e) key) events))
      by (destruct (p e && String.eqb (f e) key); cbn [Nat.b2n]; lia).
    apply IH. rewrite Hget. destruct (p e); cbn [andb]; [by apply holds_increment | by rewrite Z.add_0_r].
Qed.

Lemma holds_value m key n : holds m key n -> tally_value m key = n.
Proof. unfold holds, tally_value. destruct (lookup_text m key); by intros ->. Qed.

(** The keys of the denied actors hold a colon and are all different. *)
Definition colon_keys (m : tally) : Prop :=
  NoDup (map fst m) /\ Forall (fun kv => has_char ":" kv.1 = true) m.

Lemma actorKey_colon e : has_char ":" (actorKey e) = true.
Proof. unfold actorKey. by destruct (ne_source e). Qed.

Lemma colon_ordinary key : has_char ":" key = true -> ordinary key.
Proof.
  intros H. split; [by intros ->|]. apply not_true_is_false. intros Hm.
  apply existsb_exists in Hm as (x & Hx & ->%String.eqb_eq).
  assert (Hall : forallb (fun s => negb (has_char ":" s)) object_members = true) by (vm_compute; done).
  rewrite forallb_forall in Hall. apply Hall in Hx. by rewrite H in Hx.
Qed.

Lemma increment_keys m key : ordinary key ->
  map fst (increment m key) = if mem key (map fst m) then map fst m else map fst m ++ [key].
Proof.
  intros [Hp Hm]. induction m as [|[k v] m IH]; cbn [increment map mem existsb fst].
  - by rewrite (proj2 (String.eqb_neq _ _) Hp), Hm.
  - rewrite (String.eqb_sym key k). destruct (String.eqb_spec k key) as [->|Hne]; [done|]. cbn [map fst orb].
    rewrite IH. unfold mem. by destruct (existsb (String.eqb key) (map fst m)).
Qed.

Lemma mem_elem key l : mem key l = true <-> key ∈ l.
Proof.
  unfold mem. rewrite existsb_exists. split.
  - intros (x & Hx & ->%String.eqb_eq). by apply list_elem_of_In.
  - intros H. exists key. split; [by apply list_elem_of_In | apply String.eqb_refl].
Qed.

Lemma colon_increment m key : has_char ":" key = true -> colon_keys m -> colon_keys (increment m key).
Proof.
  intros Hk [Hnd Hall]. unfold colon_keys. rewrite <- (Forall_map fst (fun k => has_char ":" k = true)) in *.
  rewrite increment_keys by (by apply colon_ordinary).
  destruct (mem key (map fst m)) eqn:Hm; [done|]. split.
  - apply NoDup_app. split_and!; [done | | apply NoDup_singleton].
    intros k Hin ->%list_elem_of_singleton. apply mem_elem in Hin. congruence.
  - apply Forall_app. split; [done | by repeat constructor].
Qed.

Lemma colon_fold events c :
  colon_keys (deniedByActor c) -> colon_keys (deniedByActor (fold_left count_event events c)).
Proof.
  revert c. induction events as [|e events IH]; intros c Hc; cbn [fold_left]; [done|]. apply IH.
  unfold count_event. cbn [deniedByActor]. case_bool_decide; [|done].
  apply colon_increment; [apply actorKey_colon | done].
Qed.

Lemma elem_lookup_text (m : tally) key v : NoDup (map fst m) -> (key, v) ∈ m <-> lookup_text m key = Some v.
Proof.
  induction m as [|[k w] m IH]; cbn [map fst]; intros Hnd.
  - split; [by intros ?%elem_of_nil | done].
  - apply NoDup_cons in Hnd as [Hk Hnd]. rewrite elem_of_cons, lookup_text_cons, IH by done.
    destruct (String.eqb_spec k key) as [->|Hne].
    + split; [|by intros [= ->]; left]. intros [[= ->]|Hin]; [done|]. exfalso. apply Hk.
      apply IH in Hin; [|done]. apply list_elem_of_fmap. by exists (key, v).
    + split; [by intros [[= -> ->]|Hin] | by intros Hin; right].
Qed.

Lemma entries_perm m : entries m ≡ₚ m.
Proof.
  unfold entries. rewrite sort_by_perm. induction m as [|kv m IH]; [done|]. cbn.
  destruct (is_index kv); cbn; [by rewrite IH | by rewrite <- Permutation_middle, IH].
Qed.

(** Sorting only depends on the comparison of the elements. *)
Lemma sort_by_ext {A} (P : A -> Prop) (b1 b2 : A -> A -> bool) l :
  (forall x y, P x -> P y -> b1 x y = b2 x y) -> Forall P l -> sort_by b1 l = sort_by b2 l.
Proof.
  intros Hb Hl. unfold sort_by. cut (forall acc, Forall P acc ->
    fold_left (fun acc x => insert_by b1 x acc) l acc = fold_left (fun acc x => insert_by b2 x acc) l acc);
    [intros H; by apply H|].
  induction Hl as [|x l Hx Hl IH]; intros acc Ha; cbn [fold_left]; [done|].
  assert (Hi : insert_by b1 x acc = insert_by b2 x acc).
  { induction Ha as [|y acc Hy Ha IHa]; [done|]. cbn. rewrite (Hb x y), IHa by done. done. }
  rewrite Hi. apply IH. rewrite insert_by_perm. by constructor.
Qed.

(** The events of the list that satisfy a test. *)
Definition number (p : EnrichedEvent -> bool) (events : list EnrichedEvent) : Z :=
  Z.of_nat (countb p events).

Definition is_denied (e : EnrichedEvent) : bool := bool_decide (outcome (ee_semantics e) = denied).
Definition has_severity (s : AuditSeverity) (e : EnrichedEvent) : bool :=
  bool_decide (severity (ee_semantics e) = s).

Lemma number_ext p q events : (forall e, p e = q e) -> number p events = number q events.
Proof.
  intros H. unfold number. f_equal. induction events as [|e l IH]; [done|].
  by rewrite !countb_cons, H, IH.
Qed.

Lemma number_add p q r events :
  (forall e, Nat.b2n (r e) = Nat.b2n (p e) + Nat.b2n (q e))%nat ->
  number r events = number p events + number q events.
Proof.
  intros H. unfold number. induction events as [|e l IH]; [done|]. rewrite !countb_cons, H. lia.
Qed.

Lemma number_all events : zlen events = number (fun _ => true) events.
Proof.
  unfold zlen, number. f_equal. induction events as [|e l IH]; [done|]. by rewrite countb_cons, <- IH.
Qed.

Lemma severity_count s events :
  tally_value (bySeverity (count_events events)) (severity_text s) = number (has_severity s) events.
Proof.
  apply holds_value.
  rewrite (number_ext _ (fun e => true && String.eqb (severity_text (severity (ee_semantics e))) (severity_text s)))
    by (intros e; unfold has_severity; by destruct (severity (ee_semantics e)), s).
  rewrite <- (Z.add_0_l (number _ _)).
  apply (holds_fold bySeverity (fun _ => true)); [done | by destruct s | by destruct s].
Qed.

Lemma outcome_count o events :
  tally_value (byOutcome (count_events events)) (outcome_text o)
  = number (fun e => bool_decide (outcome (ee_semantics e) = o)) events.
Proof.
  apply holds_value.
  rewrite (number_ext _ (fun e => true && String.eqb (outcome_text (outcome (ee_semantics e))) (outcome_text o)))
    by (intros e; by destruct (outcome (ee_semantics e)), o).
  rewrite <- (Z.add_0_l (number _ _)).
  apply (holds_fold byOutcome (fun _ => true)); [done | by destruct o | by destruct o].
Qed.

Lemma denied_count key events : has_char ":" key = true ->
  holds (deniedByActor (count_events events)) key
    (number (fun e => is_denied e && String.eqb (actorKey (ee_event e)) key) events).
Proof.
  intros Hk. rewrite <- (Z.add_0_l (number _ _)).
  apply (holds_fold deniedByActor is_denied (fun e => actorKey (ee_event e)));
    [done | by apply colon_ordinary | done].
Qed.

(** The denied events of an actor, written as [source:actor]. *)
Definition denials (key : string) (events : list EnrichedEvent) : Z :=
  number (fun e => is_denied e && String.eqb (actorKey (ee_event e)) key) events.

(** What the tally of denied actors holds. *)
Lemma denied_entry events key v :
  ((key, v) ∈ deniedByActor (count_events events) -> v = JNum (denials key events)) /\
  (0 < denials key events -> (key, JNum (denials key events)) ∈ deniedByActor (count_events events)).
Proof.
  set (m := deniedByActor (count_events events)).
  assert (Hc : colon_keys m) by (apply colon_fold; split; constructor).
  destruct Hc as [Hnd Hall]. rewrite !elem_lookup_text by done.
  destruct (has_char ":" key) eqn:Hk.
  - pose proof (denied_count key events Hk) as Hh. unfold holds in Hh. fold m in Hh. fold (denials key events) in Hh.
    destruct (lookup_text m key) as [w|]; [subst w; split; [congruence | done] | split; [done | lia]].
  - split.
    + rewrite <- elem_lookup_text by done. intros Hin. rewrite Forall_forall in Hall.
      specialize (Hall _ Hin). cbn in Hall. congruence.
    + assert (Hz : denials key events = 0); [|lia]. unfold denials, number, countb.
      replace (List.filter _ events) with (@nil EnrichedEvent); [done|]. clear m Hnd Hall.
      induction events as [|e events IH]; [done|]. cbn [List.filter].
      destruct (String.eqb_spec (actorKey (ee_event e)) key) as [Heq|].
      * exfalso. pose proof (actorKey_colon (ee_event e)). congruence.
      * rewrite andb_false_r. apply IH.
Qed.

Definition count_of (kv : string * json) : Z := match kv.2 with JNum n => n | _ => 0 end.

(** The summary counts what it says: the outcomes and the severities each
    add up to the total, the security events are those that are not merely
    informative, and the anomalies are exactly the actors with at least five
    denied events in the window, each with its number, the largest first;
    whatever the texts of the events are. *)
Theorem summary_counts events :
  let c := count_events events in
  tally_value (byOutcome c) "denied" = number is_denied events /\
  tally_value (byOutcome c) "success" + tally_value (byOutcome c) "denied" = zlen events /\
  tally_value (bySeverity c) "info"
    + (tally_value (bySeverity c) "warning" + tally_value (bySeverity c) "critical") = zlen events /\
  tally_value (bySeverity c) "warning" + tally_value (bySeverity c) "critical"
    = number (fun e => negb (has_severity info e)) events /\
  (forall key v, (key, v) ∈ anomalies (deniedByActor c) <->
     v = JNum (denials key events) /\ ANOMALY_THRESHOLD <= denials key events) /\
  StronglySorted (fun a b => count_of b <= count_of a) (anomalies (deniedByActor c)).
Proof.
  cbv zeta. rewrite (outcome_count success events : tally_value _ "success" = _),
    (outcome_count denied events : tally_value _ "denied" = _),
    (severity_count info events : tally_value _ "info" = _),
    (severity_count warning events : tally_value _ "warning" = _),
    (severity_count critical events : tally_value _ "critical" = _).
  split; [done|]. split; [|split; [|split; [|split]]].
  - rewrite number_all. symmetry. apply number_add. intros e. by destruct (outcome (ee_semantics e)).
  - rewrite number_all, <- (number_add _ _ (fun e => negb (has_severity info e))).
    + symmetry. apply number_add. intros e. by destruct (has_severity info e).
    + intros e. unfold has_severity. by destruct (severity (ee_semantics e)).
  - symmetry. apply number_add. intros e. unfold has_severity. by destruct (severity (ee_semantics e)).
  - intros key v. unfold anomalies. rewrite sort_by_perm, list_elem_of_In, List.filter_In, <- list_elem_of_In.
    rewrite (entries_perm _). destruct (denied_entry events key v) as [H1 H2].
    unfold frequent. cbn [snd]. unfold ANOMALY_THRESHOLD in *. split.
    + intros [Hin Hf]. specialize (H1 Hin). subst v. apply Z.leb_le in Hf. done.
    + intros [-> Hf]. split; [apply H2; lia | by apply Z.leb_le].
  - unfold anomalies. rewrite (sort_by_ext (fun kv => exists n, kv.2 = JNum n) by_count
                                (by_key (fun kv => - count_of kv))).
    + eapply StronglySorted_weaken; [|apply sort_by_key_sorted]. cbn. lia.
    + intros [? v] [? w] [n Hv] [k Hw]. cbn in *. subst. unfold by_count, by_key, count_of. cbn.
      destruct (Z.ltb_spec k n), (Z.ltb_spec (- n) (- k)); try done; exfalso; lia.
    + apply Forall_forall. intros [key v] Hin. rewrite list_elem_of_In, List.filter_In, <- list_elem_of_In in Hin.
      rewrite (entries_perm _) in Hin. exists (denials key events). exact (proj1 (denied_entry events key v) (proj1 Hin)).
Qed.

(** ** Collecting from the services *)

(** A service that serves a log page by page, or one that refuses every page. *)
Definition answers {R : Type} `{AuditLog R} {W} (env : forall e : event, W -> W * reply e) (who : string)
    (filter : WindowFilter) (log : option (list R)) : Prop :=
  match log with
  | Some records => serves who filter env records
  | None => exists x, forall offset w, exists w' t,
              run env (list_page (R := R) who filter PAGE offset) w = (w', t, Err x)
  end.

(** What is taken of a log, and whether its source counts as present: a log with
    an event that has no date, among those that are read, counts as absent. *)
Definition part {R : Type} `{AuditLog R} (cap : nat) (log : option (list R)) : option (list NormalizedEvent) :=
  match log with
  | Some records => match read_log cap records with Ok evs => Some evs | Err _ => None end
  | None => None
  end.

Definition is_some {A} (o : option A) : bool := match o with Some _ => true | None => false end.

(** The events and the presence of a source, if it is asked. *)
Definition source_part (asked : bool) (name : string) (p : option (list NormalizedEvent))
    : list NormalizedEvent * list (string * bool) :=
  if asked then (default [] p, [(name, is_some p)]) else ([], []).

Lemma try_source_run {R : Type} `{AuditLog R} {W} (env : forall e : event, W -> W * reply e) name filter cap
    who (log : option (list R)) w :
  (0 < cap)%nat -> answers env who filter log ->
  exists w' t, run env (try_source name (fetchWindow (R := R) filter cap who)) w
    = (w', t, Ok (source_part true name (part cap log))).
Proof.
  intros Hc Ha. unfold try_source. rewrite run_bind.
  assert (Hcatch : forall A (p : gw A) w, run env (attempt p) w =
    let '(w', t, r) := run env p w in (w', t, Ok r)).
  { clear. intros A p. unfold attempt. induction p as [a|x|e k IH]; intros w; cbn; [done..|].
    destruct (env e w) as [w1 r]. rewrite IH. by destruct (run env (k r) w1) as [[w2 t] o]. }
  rewrite Hcatch. destruct log as [records|]; cbn [answers] in Ha.
  - destruct (fetchWindow_served who filter env records cap w Ha) as (w' & t & ->). unfold part, source_part.
    destruct (read_log cap records); cbn; by eexists w', _.
  - destruct Ha as [x Hx].
    destruct (fetchWindow_refused who filter env cap x w Hc Hx) as (w' & t & ->). cbn. by eexists w', _.
Qed.

Lemma asked_source_run {R : Type} `{AuditLog R} {W} (env : forall e : event, W -> W * reply e) (asked : bool) name filter cap
    who (log : option (list R)) w :
  (0 < cap)%nat -> answers env who filter log ->
  exists w' t, run env (if asked then try_source name (fetchWindow (R := R) filter cap who) else Ret ([], [])) w
    = (w', t, Ok (source_part asked name (part cap log))).
Proof. intros Hc Ha. destruct asked; [by apply try_source_run | by eexists w, []]. Qed.

(** The calls of a collection: only the logs of the sources that are wanted, and
    the bank's with the session of the cookie, if there is one. *)
Definition collect_call (req : Request) (source : string) (e : event) : Prop :=
  match e with
  | CaListAudit _ _ => wanted source "ca" = true
  | KdcListAudit _ _ => wanted source "kdc" = true
  | BankListAudit q =>
      wanted source "bank" = true /\ nonempty (bank_adminSessionToken q) = true /\
      readCookie (cookie req) BANK_SESSION_COOKIE = Ok (bank_adminSessionToken q)
  | _ => False
  end.

Lemma collect_calls req from_unix to_unix cap source :
  emits (collect_call req source) (collect req from_unix to_unix cap source).
Proof.
  unfold collect, try_source, fetchCaWindow, fetchKdcWindow, fetchBankWindow.
  apply emits_bind; [|intros [? ?]; apply emits_bind; [|intros [? ?]; apply emits_bind; [|intros [? ?]; apply emits_ret]]].
  - destruct (wanted source "ca") eqn:Hw; [|apply emits_ret]. apply emits_bind; [|intros []; apply emits_ret].
    apply emits_attempt, emits_fetchWindow. intros. by apply emits_vis; [|intros; apply emits_of_result].
  - destruct (wanted source "kdc") eqn:Hw; [|apply emits_ret]. apply emits_bind; [|intros []; apply emits_ret].
    apply emits_attempt, emits_fetchWindow. intros. by apply emits_vis; [|intros; apply emits_of_result].
  - destruct (wanted source "bank") eqn:Hw; [|apply emits_ret].
    destruct (readCookie _ _) as [token|x] eqn:Htok; cbn [of_result bind]; [|apply emits_raise].
    destruct (nonempty token) eqn:Hn; [|apply emits_ret]. apply emits_bind; [|intros []; apply emits_ret].
    apply emits_attempt, emits_fetchWindow. intros. by apply emits_vis; [|intros; apply emits_of_result].
Qed.

(** The session token for the bank's log, if that log is asked at all. *)
Definition bank_session (req : Request) (source : string) : result js_error string :=
  if wanted source "bank" then readCookie (cookie req) BANK_SESSION_COOKIE else Ok "".

(** C40: a collection holds what the logs hold, whichever sources are wanted: with
    services that serve their logs page by page or refuse, the result is made of the
    first [cap] events of every wanted log that answers, merged in the order of
    their times (events of one second in the order CA, KDC, Bank and of their log),
    cut to the [cap] oldest and enriched. A service that refuses, or whose log has
    an event without a date in the pages that are read, is reported as absent and
    takes nothing away from the others; so is the bank without a session cookie. A
    cookie that cannot be decoded ends the collection with its error, if the bank is
    wanted. In every run, whatever the services reply, only the logs of wanted
    sources are asked, and the bank's only with the session of the cookie. *)
Theorem collect_complete {W} (env : forall e : event, W -> W * reply e) req from_unix to_unix cap source
    (ca_l : option (list CaAuditRecord)) (kdc_l : option (list KdcAuditRecord)) (bank_l : option (list BankAuditRecord)) w :
  let win := {| fromUnix := from_unix; toUnix := to_unix |} in
  always (collect req from_unix to_unix cap source) (fun t _ => Forall (fun o => collect_call req source (request o)) t) /\
  ((0 < cap)%nat -> answers env (request_id req) win ca_l -> answers env (request_id req) win kdc_l ->
   (forall token, bank_session req source = Ok token -> answers env token win bank_l) ->
   let ca_part := source_part (wanted source "ca") "ca" (part cap ca_l) in
   let kdc_part := source_part (wanted source "kdc") "kdc" (part cap kdc_l) in
   exists w' t,
     match bank_session req source with
     | Err x => run env (collect req from_unix to_unix cap source) w = (w', t, Err x)
     | Ok token =>
         let bank_part := source_part (wanted source "bank") "bank" (if nonempty token then part cap bank_l else None) in
         let all := ca_part.1 ++ kdc_part.1 ++ bank_part.1 in
         exists merged,
           run env (collect req from_unix to_unix cap source) w
           = (w', t, Ok (map enrich (take cap merged), ca_part.2 ++ kdc_part.2 ++ bank_part.2)) /\
           merged ≡ₚ all /\ StronglySorted (fun a b => ne_ts a <= ne_ts b) merged /\
           forall second, filter (fun e => ne_ts e = second) merged = filter (fun e => ne_ts e = second) all
     end).
Proof.
  cbv zeta. split; [apply collect_calls|]. intros Hc Hca Hkdc Hbank. unfold collect, fetchCaWindow, fetchKdcWindow, fetchBankWindow.
  destruct (asked_source_run env (wanted source "ca") "ca" _ cap _ _ w Hc Hca) as (w1 & t1 & E1).
  destruct (asked_source_run env (wanted source "kdc") "kdc" _ cap _ _ w1 Hc Hkdc) as (w2 & t2 & E2).
  rewrite run_bind, E1, run_bind, E2, run_bind. unfold bank_session in *. destruct (wanted source "bank").
  - destruct (readCookie _ _) as [token|x]; cbn [of_result bind]; [|cbn [run]; by eexists _, _].
    destruct (try_source_run env "bank" _ cap _ _ w2 Hc (Hbank token eq_refl)) as (w3 & t3 & E3).
    destruct (nonempty token); [rewrite E3|]; cbn [run fst snd];
      (eexists _, _, _; split; [reflexivity|]; split; [apply sort_by_perm|]; split;
       [apply sort_by_key_sorted | intros second; apply sort_by_key_stable]).
  - cbn [run fst snd nonempty]. eexists _, _, _. split; [reflexivity|]. split; [apply sort_by_perm|]. split;
      [apply sort_by_key_sorted | intros second; apply sort_by_key_stable].
Qed.

(** ** A concrete collection *)

Definition demo_ca : list CaAuditRecord :=
  [{| ca_recSerial := "0a"; ca_recCertType := "client"; ca_recIssuerId := "root"; ca_recAction := "revoked";
      ca_recPerformedBy := "admin-ca:x@y.z"; ca_recReason := "lost"; ca_recAt := 50; ca_recMetadata := [] |}].

Definition demo_kdc : list KdcAuditRecord :=
  [{| kdc_recId := "1"; kdc_recAction := "as_rejected"; kdc_recClientId := "u"; kdc_recCertSerial := "0b";
      kdc_recScope := ""; kdc_recReason := "replay"; kdc_recRequestId := "r"; kdc_recIp := "";
      kdc_recMetadataJson := "{}"; kdc_recAt := 40 |}].

(** The CA and the KDC serve their logs, every other service is down. *)
Definition page_of {A} (limit offset : Z) (l : list A) : page A :=
  {| events := take (Z.to_nat limit) (drop (Z.to_nat offset) l); total := zlen l; res_limit := limit;
     res_offset := offset |}.

Definition demo_logs (e : event) (v : unit) : unit * reply e :=
  (v, match e as e0 return reply e0 -> reply e0 with
      | CaListAudit req _ => fun _ => Ok (page_of (ca_limit req) (ca_offset req) demo_ca)
      | KdcListAudit req _ => fun _ => Ok (page_of (kdc_limit req) (kdc_offset req) demo_kdc)
      | _ => fun r => r
      end (quiet_services e 0%nat).2).

Definition report_request : Request :=
  {| request_id := "r1"; authorization := None; cookie := None; ip := None; remoteAddress := None;
     body := JUndefined; query := []; params := [] |}.

Lemma collect_complete_witness :
  exists w' t merged,
    run demo_logs (collect report_request 0 100 10 "all") tt
    = (w', t, Ok (map enrich (take 10 merged), [("ca", true); ("kdc", true); ("bank", false)])) /\
    map ne_action merged ≡ₚ ["revoked"; "as_rejected"] /\
    StronglySorted (fun a b => ne_ts a <= ne_ts b) merged.
Proof.
  destruct (collect_complete demo_logs report_request 0 100 10 "all" (Some demo_ca) (Some demo_kdc) None tt) as [_ H].
  destruct H as (w' & t & merged & Hr & Hp & Hs & _).
  - lia.
  - intros offset w _. eexists _, _, _. split; reflexivity.
  - intros offset w _. eexists _, _, _. split; reflexivity.
  - intros token _. exists offline. intros offset w. eexists _, _. reflexivity.
  - exists w', t, merged. split; [exact Hr|]. split; [|exact Hs]. exact (Permutation_map ne_action Hp).
Defined.
