(* ===== verification/AuditTimeline.v ===== *)
(** * The timeline of a request and the check of the audit chains

    [controller/admin-timeline.controller.ts]: the events of one request id are
    gathered from the three logs, and the hash chains of the logs are verified. *)

From S2P Require Import Prelude JsString JsDate Effects Gateway Json Redis Activation Schema Validators AuditSemantics AuditFetch.

Open Scope Z_scope.

Record TimelineItem := {
  ti_source : AuditSource; ti_action : string; ti_actor : string; ti_target : string;
  ti_reason : string; ti_request_id : string; ti_timestamp : string; ti_ts : Z; ti_metadata : json
}.

(** [{ included, reason? }]. *)
Definition included (name : string) : string * json := (name, JObj [("included", JBool true)]).
Definition excluded (name reason : string) : string * json :=
  (name, JObj [("included", JBool false); ("reason", JStr reason)]).

(** [for (const e of events) items.push(f(e))]: what was pushed stays when [f] throws. *)
Fixpoint push_all {A B X} (f : A -> result X B) (l : list A) : list B * option X :=
  match l with
  | [] => ([], None)
  | a :: l' =>
      match f a with
      | Ok b => let '(bs, x) := push_all f l' in (b :: bs, x)
      | Err x => ([], Some x)
      end
  end.

(** One [try] block of the timeline. *)
Definition timeline_source {R} (name : string) (p : gw (page R)) (f : R -> result js_error TimelineItem)
    : gw (list TimelineItem * (string * json)) :=
  let failed err := excluded name (default (name +:+ "_error") (err_message err)) in
  let* r := attempt p in
  match r with
  | Err err => Ret ([], failed err)
  | Ok res =>
      match push_all f (events res) with
      | (items, None) => Ret (items, included name)
      | (items, Some err) => Ret (items, failed err)
      end
  end.

(** [{ ...a, ...b }] on property lists. *)
Definition spread (a b : list (string * json)) : list (string * json) :=
  fold_left (fun acc kv => obj_set kv.1 kv.2 acc) b a.

(** The own properties of a parsed object or array. *)
Definition safeJsonObject (raw : string) : list (string * json) :=
  match safeJson raw with
  | JObj fields => fields
  | JArr l => imap (fun i v => (Z_string (Z.of_nat i), v)) l
  | _ => []
  end.

Definition ca_item (traceId : string) (e : CaAuditRecord) : result js_error TimelineItem :=
  let! timestamp := iso_seconds (ca_recAt e) in
  Ok {| ti_source := ca; ti_action := ca_recAction e; ti_actor := ca_recPerformedBy e;
        ti_target := ca_recSerial e; ti_reason := ca_recReason e; ti_request_id := traceId;
        ti_timestamp := timestamp; ti_ts := ca_recAt e; ti_metadata := metadata_json (ca_recMetadata e) |}.

Definition kdc_item (traceId : string) (e : KdcAuditRecord) : result js_error TimelineItem :=
  let! timestamp := iso_seconds (kdc_recAt e) in
  Ok {| ti_source := kdc; ti_action := kdc_recAction e; ti_actor := kdc_recClientId e;
        ti_target := kdc_recCertSerial e; ti_reason := kdc_recReason e; ti_request_id := traceId;
        ti_timestamp := timestamp; ti_ts := kdc_recAt e;
        ti_metadata := JObj (spread (spread [] (safeJsonObject (kdc_recMetadataJson e)))
                               [("scope", JStr (kdc_recScope e)); ("ip", JStr (kdc_recIp e))]) |}.

Definition bank_item (traceId : string) (e : BankAuditRecord) : result js_error TimelineItem :=
  let! timestamp := iso_seconds (bank_recAt e) in
  Ok {| ti_source := bank; ti_action := soc_action (bank_recAction e); ti_actor := bank_recUserId e;
        ti_target := first_text (bank_recTransactionId e) (bank_recAccountId e) (bank_recCertSerial e);
        ti_reason := bank_recReason e; ti_request_id := traceId; ti_timestamp := timestamp;
        ti_ts := bank_recAt e; ti_metadata := safeJson (bank_recMetadataJson e) |}.

(** The enriched row: [actor] is replaced by the normalised actor. *)
Definition actor_json (a : AuditActor) : json :=
  JObj [("type", JStr (actor_type_text (actor_type a))); ("id", JStr (actor_id a));
        ("display", JStr (actor_display a))].

Definition semantics_fields (s : AuditSemantics) : list (string * json) :=
  [("category", category_json (category s)); ("severity", JStr (severity_text (severity s)));
   ("outcome", JStr (outcome_text (outcome s))); ("actor", actor_json (actor s));
   ("description", JStr (description s))].

Definition enriched_item (i : TimelineItem) : json :=
  JObj (spread
    [("source", JStr (source_text (ti_source i))); ("action", JStr (ti_action i));
     ("actor", JStr (ti_actor i)); ("target", JStr (ti_target i)); ("reason", JStr (ti_reason i));
     ("request_id", JStr (ti_request_id i)); ("timestamp", JStr (ti_timestamp i));
     ("metadata", ti_metadata i)]
    (semantics_fields (enrichAudit
       {| raw_source := ti_source i; raw_action := ti_action i; raw_actor := ti_actor i;
          raw_reason := ti_reason i; raw_target := ti_target i |}))).

Definition by_trace_ca (traceId : string) (limit : Z) : CaAuditRequest :=
  {| ca_action := ""; ca_serialNumber := ""; ca_performedByFilter := ""; ca_requestId := traceId;
     ca_fromUnix := 0; ca_toUnix := 0; ca_limit := limit; ca_offset := 0; ca_performedBy := "" |}.
Definition by_trace_kdc (traceId : string) (limit : Z) : KdcAuditRequest :=
  {| kdc_action := ""; kdc_clientId := ""; kdc_certSerial := ""; kdc_requestId := traceId;
     kdc_fromUnix := 0; kdc_toUnix := 0; kdc_limit := limit; kdc_offset := 0 |}.
Definition by_trace_bank (traceId : string) (limit : Z) (token : string) : BankAuditRequest :=
  {| bank_action := BANK_AUDIT_ACTION_UNKNOWN; bank_userId := ""; bank_certSerial := "";
     bank_requestId := traceId; bank_fromUnix := 0; bank_toUnix := 0; bank_limit := limit;
     bank_offset := 0; bank_adminSessionToken := token |}.

Section handlers.

Context `{Zod}.

Definition TimelineQuerySchema : schema :=
  SObject false
    [("request_id", SString [Refine (fun s => 1 <=? slen s) (Some "request_id is required")]);
     ("limit", SDefault (SInt true [at_least 1; at_most 200]) (JNum 100))].

Definition handleAuditTimeline (req : Request) : gw Gateway.outcome :=
  match first_issue TimelineQuerySchema (JObj (query req)) with
  | Err i =>
      Ret (respond 400 (fail_body "INVALID_REQUEST" (message i) [("request_id", JStr (request_id req))]))
  | Ok q =>
      let traceId := text_of "request_id" q in
      let limit := int_at "limit" q in
      let* (ca_items, ca_source) :=
        timeline_source "ca" (listCaAuditEvents (by_trace_ca traceId limit) (Some (request_id req)))
          (ca_item traceId) in
      let* (kdc_items, kdc_source) :=
        timeline_source "kdc" (listKdcAuditEvents (by_trace_kdc traceId limit) (Some (request_id req)))
          (kdc_item traceId) in
      let* bankToken := of_result (readCookie (cookie req) BANK_SESSION_COOKIE) in
      let* (bank_items, bank_source) :=
        (if nonempty bankToken
         then timeline_source "bank" (listBankAdminAuditEvents (by_trace_bank traceId limit bankToken))
                (bank_item traceId)
         else Ret ([], excluded "bank" "bank_admin_session_required")) in
      let items := sort_by (by_key ti_ts) (ca_items ++ kdc_items ++ bank_items) in
      let* timestamp := iso_now in
      Ret (respond 200
        [("success", JBool true);
         ("data", JObj [("request_id", JStr traceId); ("count", JNum (zlen items));
                        ("sources", JObj [ca_source; kdc_source; bank_source]);
                        ("items", JArr (map enriched_item items))]);
         ("request_id", JStr (request_id req)); ("timestamp", JStr timestamp)])
  end.

(** ** [handleAuditVerify] *)

(** The result of one chain: [None] was not checked. *)
Definition chain_result := option bool.

Definition chain_json (name : string) (r : result js_error VerifyAuditChainResponse)
    : (string * json) * chain_result :=
  match r with
  | Ok v =>
      let broken (x : json) := if va_ok v then JUndefined else x in
      ((name, JObj [("checked", JBool true); ("ok", JBool (va_ok v)); ("verified", JNum (va_checked v));
                    ("broken_seq", broken (JNum (va_brokenSeq v)));
                    ("broken_id", broken (JStr (va_brokenId v)));
                    ("detail", broken (JStr (va_detail v)))]), Some (va_ok v))
  | Err err =>
      ((name, JObj [("checked", JBool false);
                    ("detail", JStr (default (name +:+ "_error") (err_message err)))]), None)
  end.

(** [!r.checked || r.ok !== false]. *)
Definition chain_ok (r : chain_result) : bool := match r with Some ok => ok | None => true end.

Definition verify_reply (req : Request) (results : list ((string * json) * chain_result))
    (timestamp : string) : Gateway.outcome :=
  respond 200
    [("success", JBool true);
     ("data", JObj [("ok", JBool (forallb (fun r => chain_ok r.2) results));
                    ("sources", JObj (map fst results))]);
     ("request_id", JStr (request_id req)); ("timestamp", JStr timestamp)].

Definition handleAuditVerify (req : Request) : gw Gateway.outcome :=
  let* ca_r := attempt (verifyCaAuditChain (Some (request_id req))) in
  let* kdc_r := attempt (verifyKdcAuditChain (Some (request_id req))) in
  let* bankToken := of_result (readCookie (cookie req) BANK_SESSION_COOKIE) in
  let* bank_r :=
    (if nonempty bankToken
     then let* r := attempt (verifyBankAuditChain bankToken) in Ret (chain_json "bank" r)
     else Ret (("bank", JObj [("checked", JBool false);
                              ("detail", JStr "bank_admin_session_required")]), None)) in
  let* timestamp := iso_now in
  Ret (verify_reply req [chain_json "ca" ca_r; chain_json "kdc" kdc_r; bank_r] timestamp).

End handlers.

(** ** The theorem *)

(** The verdict of a chain in a run. *)
Definition chain_verdict (o : obs (E := event)) : option bool :=
  match request o as e return reply e -> option bool with
  | CaVerifyChain _ => fun a => match a with Ok v => Some (va_ok v) | Err _ => None end
  | KdcVerifyChain _ => fun a => match a with Ok v => Some (va_ok v) | Err _ => None end
  | BankVerifyChain _ => fun a => match a with Ok v => Some (va_ok v) | Err _ => None end
  | _ => fun _ => None
  end (answer o).

Definition verdicts (t : gw_trace) : list bool := omap chain_verdict t.

(** The check of the audit logs reports tampering exactly when a service
    found it: in every run the answer is 200 and its [ok] is the conjunction of
    the verdicts that the services gave; the chains of CA and KDC are always
    asked for, the bank's only with a session cookie. A service that cannot be
    reached gives no verdict, so the answer is [ok] when no chain was checked at
    all. *)
Theorem audit_verify_verdict req :
  always (handleAuditVerify req) (fun t r =>
    match r with
    | Ok o => exists sources timestamp ca_r kdc_r,
        o = respond 200
              [("success", JBool true);
               ("data", JObj [("ok", JBool (forallb id (verdicts t))); ("sources", sources)]);
               ("request_id", JStr (request_id req)); ("timestamp", JStr timestamp)] /\
        saw (CaVerifyChain (requestMetadata (Some (request_id req)))) ca_r t /\
        saw (KdcVerifyChain (requestMetadata (Some (request_id req)))) kdc_r t /\
        ((exists token bank_r, saw (BankVerifyChain token) bank_r t) ->
         exists token, readCookie (cookie req) BANK_SESSION_COOKIE = Ok token /\ token <> "")
    | Err e => err_message e = Some "Invalid time value" \/
               readCookie (cookie req) BANK_SESSION_COOKIE = Err e
    end).
Proof.
  unfold handleAuditVerify, attempt. gw_unfold. gw_cbn. gw_reply ca_r; gw_reply kdc_r;
    (destruct (readCookie (cookie req) BANK_SESSION_COOKIE) as [token|e]; gw_cbn; [|by right]);
    (destruct (nonempty token) eqn:Hn; gw_cbn; [gw_reply bank_r|]); gw_reply ms;
    (destruct (toISOString ms) as [ts|]; gw_cbn; [|by left]);
    (eexists _, ts, _, _; split; [reflexivity|]; split; [in_trace|]; split; [in_trace|]);
    intros (tk & br & Hsaw); unfold saw in Hsaw;
    first [exists token; split; [done|]; by intros ->
          | exfalso; rewrite !elem_of_cons, elem_of_nil in Hsaw; naive_solver].
Qed.
