(* ===== verification/CaAdmin.v ===== *)
(** * The CA administrator's views and revocation ([controller/ca.controller.ts])

    Listing and reading certificates, revoking one, and the audit log of the CA;
    [controller/admin-kdc.controller.ts] reads the audit log of the KDC. The
    handlers run behind [requireAdminRole] and act under the identity that it
    passed on. *)

From S2P Require Import Prelude JsString JsDate Effects Gateway ErrorHandler Schema Validators Register AdminAuth AuditSemantics AuditFetch AuditReport AuditTimeline.

Open Scope Z_scope.

Definition normalizeLimit (value : json) : Z :=
  match Number_json (nullish value (JNum 20)) with
  | Some parsed => if parsed <? 1 then 20 else Z.min parsed 100
  | None => 20
  end.

Definition normalizeOffset (value : json) : Z :=
  match Number_json (nullish value (JNum 0)) with
  | Some parsed => if parsed <? 0 then 0 else parsed
  | None => 0
  end.

Definition statusFromProto (status : CertStatus) : string :=
  match status with
  | CERT_STATUS_ACTIVE => "active"
  | CERT_STATUS_REVOKED => "revoked"
  | CERT_STATUS_EXPIRED => "expired"
  | _ => "unknown"
  end.

Definition normalizeQueryString (value : json) : string := trim (js_String (nullish value (JStr ""))).

Definition strings_json (l : list string) : json := JArr (map JStr l).

Definition mapCertificate (cert : CertificateMetadata) : json :=
  JObj [("serial", JStr (cm_serialNumber cert)); ("cert_type", JStr (cm_certType cert));
        ("issuer_id", JStr (cm_issuerId cert)); ("issuer_common_name", JStr (cm_issuerCommonName cert));
        ("issuer_serial_number", JStr (cm_issuerSerialNumber cert)); ("owner_id", JStr (cm_ownerId cert));
        ("cn", JStr (cm_subjectCn cert)); ("email", JStr (cm_subjectEmail cert));
        ("chain_pem", JStr (cm_chainPem cert));
        ("chain_fingerprints", strings_json (cm_chainFingerprints cert)); ("is_ca", JBool (cm_isCa cert));
        ("key_usage", strings_json (cm_keyUsage cert));
        ("extended_key_usage", strings_json (cm_extendedKeyUsage cert));
        ("fingerprint", JStr (cm_fingerprintSha256 cert)); ("status", JStr (statusFromProto (cm_status cert)));
        ("not_before", JNum (cm_notBeforeUnix cert)); ("not_after", JNum (cm_notAfterUnix cert));
        ("issued_at", JNum (cm_issuedAtUnix cert));
        ("revoked_at", if cm_revokedAtUnix cert =? 0 then JNull else JNum (cm_revokedAtUnix cert));
        ("revocation_reason", if nonempty (cm_revocationReason cert) then JStr (cm_revocationReason cert)
                              else JNull)].

(** [req.query.name]. *)
Definition query_value (name : string) (req : Request) : json := prop name (JObj (query req)).

Definition allowedStatuses : list string := [""; "active"; "revoked"; "expired"].
Definition allowedCertTypes : list string := [""; "root_ca"; "intermediate_ca"; "service_tls"; "client"].

(** [all] is no filter. *)
Definition unless_all (s : string) : string := if String.eqb s "all" then "" else s.

Definition certificate_query (req : Request) (ad : AdminCa) (status certType : string)
    : ListCertificatesRequest :=
  {| lc_status := status; lc_certType := certType;
     lc_issuerId := normalizeQueryString (query_value "issuer_id" req);
     lc_ownerId := normalizeQueryString (query_value "owner_id" req);
     lc_subjectEmail := normalizeQueryString (query_value "email" req);
     lc_serialNumber := normalizeQueryString (query_value "serial" req);
     lc_limit := normalizeLimit (query_value "limit" req);
     lc_offset := normalizeOffset (query_value "offset" req);
     lc_performedBy := ad_performedBy ad |}.

(** [catch (err) { return next(caAdminGrpcError(err)) }]. *)
Definition or_ca_admin_error (p : gw Gateway.outcome) : gw Gateway.outcome :=
  catch p (fun err => next_error (http_err (caAdminGrpcError err))).

(** [res.status(200).json({ success: true, data, ...meta(req) })]. *)
Definition ok_data (req : Request) (data : json) : gw Gateway.outcome :=
  let* m := meta req in
  Ret (respond 200 ([("success", JBool true); ("data", data)] ++ m)).

Definition page_fields (total limit offset : Z) : list (string * json) :=
  [("total", JNum total); ("limit", JNum limit); ("offset", JNum offset)].

Definition handleAdminListCertificates (req : Request) (ad : AdminCa) : gw Gateway.outcome :=
  let status := unless_all (toLowerCase (normalizeQueryString (query_value "status" req))) in
  if negb (mem status allowedStatuses) then
    next_error (httpError 400 "INVALID_CERT_STATUS" "status must be one of: all, active, revoked, expired")
  else
    let certType := unless_all (toLowerCase (normalizeQueryString (query_value "cert_type" req))) in
    if negb (mem certType allowedCertTypes) then
      next_error (httpError 400 "INVALID_CERT_TYPE"
        "cert_type must be one of: all, root_ca, intermediate_ca, service_tls, client")
    else
      or_ca_admin_error (
        do* meta req in
        let* caResp := listCertificates (certificate_query req ad status certType) (Some (request_id req)) in
        ok_data req (JObj ([("items", JArr (map mapCertificate (lc_certificates caResp)))]
                           ++ page_fields (lc_total caResp) (lc_resLimit caResp) (lc_resOffset caResp)))).

(** [String(req.params.serial ?? empty).trim()]. *)
Definition serial_param (req : Request) : string := trim (js_String (nullish (param "serial" req) (JStr ""))).

(** The answer to a call that returns at most one certificate. *)
Definition certificate_reply (req : Request) (cert : option CertificateMetadata) : gw Gateway.outcome :=
  match cert with
  | None => next_error (httpError 404 "CERT_NOT_FOUND" "Certificate not found")
  | Some cert => ok_data req (mapCertificate cert)
  end.

Definition handleAdminGetCertificateDetail (req : Request) (ad : AdminCa) : gw Gateway.outcome :=
  let serial := serial_param req in
  if negb (nonempty serial) then
    next_error (httpError 400 "CERT_SERIAL_REQUIRED" "Certificate serial is required")
  else
    or_ca_admin_error (
      do* meta req in
      let* cert := getCertificateDetail serial (ad_performedBy ad) (Some (request_id req)) in
      certificate_reply req cert).

Definition revocation (serial reason : string) (ad : AdminCa) : RevokeCertificateRequest :=
  {| rv_serialNumber := serial; rv_reason := reason; rv_performedBy := ad_performedBy ad |}.

(** [String(req.body?.reason ?? empty).trim()]. *)
Definition reason_of (req : Request) : string := trim (js_String (nullish (prop "reason" (body req)) (JStr ""))).

Definition handleAdminRevokeCertificate (req : Request) (ad : AdminCa) : gw Gateway.outcome :=
  let serial := serial_param req in
  let reason := reason_of req in
  if negb (nonempty serial) then
    next_error (httpError 400 "CERT_SERIAL_REQUIRED" "Certificate serial is required")
  else if negb (nonempty reason) then
    next_error (httpError 400 "REVOCATION_REASON_REQUIRED" "reason is required")
  else
    or_ca_admin_error (
      do* meta req in
      let* cert := revokeCertificate (revocation serial reason ad) (Some (request_id req)) in
      certificate_reply req cert).

(** ** The audit logs *)

Definition CA_ACTIONS : list string :=
  ["issuer_provisioned"; "issued"; "revoked"; "looked_up"; "verify_certificate"; "chain_verified";
   "ra_otp_requested"; "ra_otp_verified"; "ra_otp_failed"; "ra_registration_approved";
   "ra_registration_rejected"; "admin_ca_login_success"; "admin_ca_login_failed"].

Definition KDC_ACTIONS : list string := ["as_ticket_issued"; "as_rejected"; "tgs_ticket_issued"; "tgs_rejected"].

(** The enrichment at the end of a row. *)
Definition row (fields : list (string * json)) (s : AuditSource) (action actor reason target : string) : json :=
  JObj (spread fields (semantics_fields (enrichAudit
    {| raw_source := s; raw_action := action; raw_actor := actor; raw_reason := reason; raw_target := target |}))).

Definition ca_row (e : CaAuditRecord) : result js_error json :=
  let! performed_at := iso_seconds (ca_recAt e) in
  Ok (row [("serial_number", JStr (ca_recSerial e)); ("cert_type", JStr (ca_recCertType e));
           ("issuer_id", JStr (ca_recIssuerId e)); ("action", JStr (ca_recAction e));
           ("performed_by", JStr (ca_recPerformedBy e)); ("reason", JStr (ca_recReason e));
           ("performed_at", JStr performed_at); ("metadata", metadata_json (ca_recMetadata e))]
        ca (ca_recAction e) (ca_recPerformedBy e) (ca_recReason e) (ca_recSerial e)).

Definition kdc_row (e : KdcAuditRecord) : result js_error json :=
  let! created_at := iso_seconds (kdc_recAt e) in
  Ok (row [("id", JStr (kdc_recId e)); ("action", JStr (kdc_recAction e));
           ("client_id", JStr (kdc_recClientId e)); ("cert_serial", JStr (kdc_recCertSerial e));
           ("scope", JStr (kdc_recScope e)); ("reason", JStr (kdc_recReason e));
           ("request_id", JStr (kdc_recRequestId e)); ("ip", JStr (kdc_recIp e));
           ("metadata", safeJson (kdc_recMetadataJson e)); ("created_at", JStr created_at)]
        kdc (kdc_recAction e) (kdc_recClientId e) (kdc_recReason e) (kdc_recCertSerial e)).

(** The answer of both audit readers. *)
Definition audit_page {R} (req : Request) (f : R -> result js_error json) (p : gw (page R))
    : gw Gateway.outcome :=
  or_next (
    let* res := p in
    let* items := of_result (rmapM f (events res)) in
    let* timestamp := iso_now in
    Ret (respond 200
      [("success", JBool true);
       ("data", JObj ([("items", JArr items)] ++ page_fields (total res) (res_limit res) (res_offset res)));
       ("request_id", JStr (request_id req)); ("timestamp", JStr timestamp)])).

Section handlers.

Context `{Zod} `{Dates}.

Definition audit_query_fields (actions : list string) (texts : list string) : list (string * schema) :=
  [("action", SOptional (SEnum actions))] ++ map (fun name => (name, SOptional (SString []))) texts ++
  [("limit", SDefault (SInt true [at_least 1; at_most 100]) (JNum 20));
   ("offset", SDefault (SInt true [at_least 0]) (JNum 0)); ("from", isoToUnix); ("to", isoToUnix)].

Definition CaAuditQuerySchema : schema :=
  SObject false (audit_query_fields CA_ACTIONS ["serial"; "performed_by"; "request_id"]).
Definition KdcAuditQuerySchema : schema :=
  SObject false (audit_query_fields KDC_ACTIONS ["client_id"; "cert_serial"; "request_id"]).

(** The query checks that both readers make before they call their service. *)
Definition with_query (s : schema) (req : Request) (k : json -> gw Gateway.outcome) : gw Gateway.outcome :=
  match first_issue s (JObj (query req)) with
  | Err i => Ret (bad_query req (message i))
  | Ok q => if bad_range (int_at "from" q) (int_at "to" q)
            then Ret (bad_query req "to must not be before from") else k q
  end.

Definition handleListCaAudit (req : Request) (ad : AdminCa) : gw Gateway.outcome :=
  do* meta req in
  with_query CaAuditQuerySchema req (fun q =>
    audit_page req ca_row (listCaAuditEvents
      {| ca_action := text_of "action" q; ca_serialNumber := text_of "serial" q;
         ca_performedByFilter := text_of "performed_by" q; ca_requestId := text_of "request_id" q;
         ca_fromUnix := int_at "from" q; ca_toUnix := int_at "to" q; ca_limit := int_at "limit" q;
         ca_offset := int_at "offset" q; ca_performedBy := ad_performedBy ad |}
      (Some (request_id req)))).

Definition handleListKdcAudit (req : Request) : gw Gateway.outcome :=
  with_query KdcAuditQuerySchema req (fun q =>
    audit_page req kdc_row (listKdcAuditEvents
      {| kdc_action := text_of "action" q; kdc_clientId := text_of "client_id" q;
         kdc_certSerial := text_of "cert_serial" q; kdc_requestId := text_of "request_id" q;
         kdc_fromUnix := int_at "from" q; kdc_toUnix := int_at "to" q; kdc_limit := int_at "limit" q;
         kdc_offset := int_at "offset" q |} (Some (request_id req)))).

End handlers.
