(* ===== verification/Bank.v ===== *)
(** * The customer's requests to the KDC and to the bank

    [controller/kdc.controller.ts] and [controller/bank.controller.ts]: the
    gateway decodes the opaque fields, forwards them and encodes the reply; it
    never opens a ticket. The handlers run behind the validators of
    [Validators], so the fields they read are texts. *)

From S2P Require Import Prelude JsString JsDate Effects Gateway Buffer ErrorHandler Schema Validators AuditFetch AuditReport CaAdmin.

Open Scope Z_scope.

(** [Buffer.from(req.body[name], base64)]. *)
Definition bytes_of (name : string) (req : Request) : list Z := from_base64 (text_of name (body req)).

(** ** The ticket exchanges *)

(** [ASRequest.fromJSON] and [TGSRequest.fromJSON] of the validated fields: see
    [JsonProps.kdc_requests_read]. *)
Definition as_request (req : Request) : ASRequest :=
  {| as_ownerId := text_of "clientId" (body req); as_certSn := text_of "certSn" (body req);
     as_nonce := bytes_of "nonce" req; as_timestamp := int_at "timestamp" (body req);
     as_signature := bytes_of "preAuthSignature" req |}.

Definition tgs_request (req : Request) : TGSRequest :=
  {| tgs_tgt := bytes_of "tgtCiphertext" req; tgs_authenticator := bytes_of "authenticator" req;
     tgs_certSn := text_of "certSn" (body req); tgs_scope := text_of "requestedScope" (body req);
     tgs_serviceId := text_of "serviceId" (body req); tgs_nonce := bytes_of "nonce" req |}.

Definition trailer (req : Request) (ts : string) : list (string * json) :=
  [("request_id", JStr (request_id req)); ("timestamp", JStr ts)].

Definition ticket_reply (req : Request) (ts text : string) (data : list (string * json)) : Gateway.outcome :=
  respond 200 ([("success", JBool true); ("message", JStr text); ("data", JObj data)] ++ trailer req ts).

Definition exchange_failed (req : Request) (ts : string) (e : HttpError) : Gateway.outcome :=
  respond (status e) (fail_body (error_code e) (ErrorHandler.message e) (trailer req ts)).

Definition handleRequestTGT (req : Request) : gw Gateway.outcome :=
  let* ts := iso_now in
  let* r := attempt (requestTgt (as_request req) (Some (request_id req))) in
  match r with
  | Ok grpcRes =>
      Ret (ticket_reply req ts "AS_REP generated"
             [("encrypted_payload", JStr (to_base64 (asRep grpcRes)));
              ("tgt_expiry", JNum (tgtExpiresAtUnix grpcRes))])
  | Err err => Ret (exchange_failed req ts (asGrpcError err))
  end.

Definition handleRequestTGS (req : Request) : gw Gateway.outcome :=
  let* ts := iso_now in
  let* r := attempt (requestServiceTicket (tgs_request req) (Some (request_id req))) in
  match r with
  | Ok resp =>
      Ret (ticket_reply req ts "TGS_REP generated"
             [("encrypted_payload", JStr (to_base64 (tgsRep resp)));
              ("ticket_expiry", JNum (ticketExpiresAtUnix resp))])
  | Err err => Ret (exchange_failed req ts (tgsGrpcError err))
  end.

(** ** The bank *)

Definition success_data (data : list (string * json)) : Gateway.outcome :=
  respond 200 [("success", JBool true); ("data", JObj data)].

(** [res.set(Cache-Control, no-store)] before the [try]. *)
Definition no_store (p : gw Gateway.outcome) : gw Gateway.outcome :=
  let* o := or_next p in Ret (with_header "Cache-Control" "no-store" o).

Definition transfer_request (req : Request) : TransferRequest :=
  {| tr_ticketV := bytes_of "ticket_v" req; tr_authenticator := bytes_of "authenticator" req;
     tr_cipherPayload := bytes_of "cipher_payload" req; tr_iv := bytes_of "iv" req |}.

Definition handleTransfer (req : Request) : gw Gateway.outcome :=
  or_next (
    let* response := transferMoney (transfer_request req) (Some (request_id req)) in
    Ret (success_data [("ap_rep", JStr (to_base64 (tr_apRep response)));
                       ("transaction_id", JStr (tr_transactionId response))])).

Definition balance_request (req : Request) (accountId : string) : BalanceRequest :=
  {| bal_ticketV := bytes_of "ticket_v" req; bal_authenticator := bytes_of "authenticator" req;
     bal_accountId := accountId |}.

(** [String(req.params.id)]. *)
Definition account_param (req : Request) : string := js_String (param "id" req).

(** [toJSON] of a Node buffer. *)
Definition buffer_json (l : list Z) : json :=
  JObj [("type", JStr "Buffer"); ("data", JArr (map JNum l))].

(** [res.json(response)]: the message itself. *)
Definition balance_json (r : BalanceResponse) : Gateway.outcome :=
  respond 200
    [("apRep", buffer_json (bal_apRep r)); ("accountId", JStr (bal_resAccountId r));
     ("accountNumber", JStr (bal_accountNumber r)); ("balance", JNum (bal_balance r));
     ("currency", JStr (bal_currency r)); ("status", JNum (bal_status r))].

Definition handleBalanceQuery (req : Request) : gw Gateway.outcome :=
  no_store (
    let* response := getBalance (balance_request req (account_param req)) (Some (request_id req)) in
    Ret (balance_json response)).

Definition handleProfile (req : Request) : gw Gateway.outcome :=
  no_store (
    let* response := getBalance (balance_request req "") (Some (request_id req)) in
    Ret (success_data [("ap_rep", JStr (to_base64 (bal_apRep response)));
                       ("account_id", JStr (bal_resAccountId response))])).

(** [parseInt(value ?? fallback, 10)]; [None] is NaN. *)
Definition page_param (name fallback : string) (req : Request) : option Z :=
  parseInt (js_String (nullish (query_value name req) (JStr fallback))).

Definition history_request (req : Request) : HistoryRequest :=
  {| hi_ticketV := bytes_of "ticket_v" req; hi_authenticator := bytes_of "authenticator" req;
     hi_accountId := account_param req; hi_limit := page_param "limit" "20" req;
     hi_offset := page_param "offset" "0" req |}.

Definition txnStatus (status : Z) : string :=
  if status =? 1 then "pending" else if status =? 2 then "completed"
  else if status =? 3 then "failed" else "unknown".

Definition transaction_json (t : Transaction) : json :=
  JObj [("transaction_id", JStr (tx_id t)); ("from_account_number", JStr (tx_from t));
        ("to_account_number", JStr (tx_to t)); ("amount", JNum (tx_amount t));
        ("currency", JStr (tx_currency t)); ("status", JStr (txnStatus (tx_status t)));
        ("description", JStr (tx_description t)); ("scope", JStr (tx_scope t));
        ("created_at_unix", JNum (tx_createdAtUnix t)); ("completed_at_unix", JNum (tx_completedAtUnix t))].

Definition handleHistoryQuery (req : Request) : gw Gateway.outcome :=
  no_store (
    let* response := getHistory (history_request req) (Some (request_id req)) in
    Ret (success_data
      ([("ap_rep", JStr (to_base64 (hi_apRep response)));
        ("transactions", JArr (map transaction_json (hi_transactions response)))]
       ++ page_fields (hi_total response) (hi_resLimit response) (hi_resOffset response)))).
