(* ===== verification/AdminBank.v ===== *)
(** * The bank administrator's session and queries

    [controller/admin-bank.controller.ts]: the session is opened by the bank and
    kept in a cookie; every query forwards the session token of the cookie. The
    handlers run behind [requireBankAdminSessionCookie] and the validators. *)

From S2P Require Import Prelude JsString JsDate Effects Gateway Buffer ErrorHandler Schema Validators AuditSemantics AuditFetch AuditReport AuditTimeline CaAdmin Bank.

Open Scope Z_scope.

(** ** Enumerations: the numbers of the protocol and their texts *)

Definition userStatus (status : option string) : Z :=
  match status with
  | Some s => if String.eqb s "active" then 1 else if String.eqb s "locked" then 2 else 0
  | None => 0
  end.

Definition transactionStatus (status : option string) : Z :=
  match status with
  | Some s => if String.eqb s "pending" then 1 else if String.eqb s "completed" then 2
              else if String.eqb s "failed" then 3 else 0
  | None => 0
  end.

(** [action ? values[action] : UNKNOWN]; the validator only lets these texts through. *)
Definition auditAction (action : option string) : BankAuditAction :=
  match action with
  | Some a =>
      default BANK_AUDIT_ACTION_UNKNOWN (lookup_text
        [("transfer_completed", BANK_AUDIT_ACTION_TRANSFER_COMPLETED);
         ("transfer_rejected", BANK_AUDIT_ACTION_TRANSFER_REJECTED);
         ("replay_detected", BANK_AUDIT_ACTION_REPLAY_DETECTED);
         ("invalid_signature", BANK_AUDIT_ACTION_INVALID_SIGNATURE);
         ("certificate_rejected", BANK_AUDIT_ACTION_CERTIFICATE_REJECTED);
         ("forbidden_ownership", BANK_AUDIT_ACTION_FORBIDDEN_OWNERSHIP);
         ("insufficient_funds", BANK_AUDIT_ACTION_INSUFFICIENT_FUNDS)] a)
  | None => BANK_AUDIT_ACTION_UNKNOWN
  end.

Definition userStatusText (status : Z) : string :=
  if status =? 1 then "active" else if status =? 2 then "locked" else "unknown".
Definition accountStatusText (status : Z) : string :=
  if status =? 1 then "active" else if status =? 2 then "locked"
  else if status =? 3 then "frozen" else "unknown".
Definition transactionStatusText (status : Z) : string :=
  if status =? 1 then "pending" else if status =? 2 then "completed"
  else if status =? 3 then "failed" else "unknown".

(** ** The session *)

Definition session_request (b : AdminSessionBody) : CreateAdminSessionRequest :=
  {| cas_ticketV := from_base64 (as_ticket_v b); cas_authenticator := from_base64 (as_authenticator b) |}.

(** [res.cookie] serialises with the library [cookie]: the value is encoded, and
    an expiry date out of range is refused. [production] is [NODE_ENV]. *)
Class Cookies := { set_cookie (name value : string) (secure : bool) (path : string) (expires_ms : Z) : string }.

Definition set_session_cookie `{Cookies} (production : bool) (r : CreateAdminSessionResponse)
    : result js_error string :=
  let expires := cas_expiresAtUnix r * 1000 in
  match toISOString expires with
  | Some _ => Ok (set_cookie BANK_ADMIN_SESSION_COOKIE (cas_sessionToken r) production "/v1/admin/bank" expires)
  | None => Err (plain_error "option expires is invalid")
  end.

(** The headers set before an exception stay set. *)
Definition handleAdminSession `{Cookies} (production : bool) (req : Request) (b : AdminSessionBody)
    : gw Gateway.outcome :=
  no_store (
    let* response := createBankAdminSession (session_request b) in
    let* header := of_result (set_session_cookie production response) in
    let* o := or_next (
      let* m := meta req in
      Ret (respond 200
        ([("success", JBool true);
          ("data", JObj [("ap_rep", JStr (to_base64 (cas_apRep response)));
                         ("expires_at_unix", JNum (cas_expiresAtUnix response));
                         ("admin_id", JStr (cas_adminId response)); ("role", JStr (cas_role response))])]
         ++ m))) in
    Ret (with_header "Set-Cookie" header o)).

(** ** The queries *)

(** [return res.json({ success: true, data, ...meta(req) })]. *)
Definition reply (req : Request) (data : list (string * json)) : gw Gateway.outcome :=
  let* m := meta req in
  Ret (respond 200 ([("success", JBool true); ("data", JObj data)] ++ m)).

Definition handleAdminOverviewQuery (req : Request) (token : string) : gw Gateway.outcome :=
  no_store (
    let* r := getBankAdminOverview token in
    reply req
      [("total_users", JNum (ov_totalUsers r)); ("active_users", JNum (ov_activeUsers r));
       ("total_accounts", JNum (ov_totalAccounts r)); ("total_balance", JNum (ov_totalBalance r));
       ("total_transactions", JNum (ov_totalTransactions r));
       ("completed_transactions", JNum (ov_completedTransactions r));
       ("failed_transactions", JNum (ov_failedTransactions r));
       ("audit_events_24h", JNum (ov_auditEvents24h r))]).

Definition user_json (u : AdminUser) : json :=
  JObj [("user_id", JStr (us_userId u)); ("email", JStr (us_email u)); ("full_name", JStr (us_fullName u));
        ("status", JStr (userStatusText (us_status u))); ("account_count", JNum (us_accountCount u));
        ("total_balance", JNum (us_totalBalance u)); ("created_at_unix", JNum (us_createdAtUnix u))].

Definition users_request (q : UsersQuery) (token : string) : ListAdminUsersRequest :=
  {| lu_email := default "" (uq_email q); lu_status := userStatus (uq_status q); lu_limit := uq_limit q;
     lu_offset := uq_offset q; lu_adminSessionToken := token |}.

Definition handleAdminUsersQuery (req : Request) (token : string) (q : UsersQuery) : gw Gateway.outcome :=
  no_store (
    let* r := listBankAdminUsers (users_request q token) in
    reply req ([("users", JArr (map user_json (events r)))]
               ++ page_fields (total r) (res_limit r) (res_offset r))).

(** The currency field carries the limits as [currency|limit|used]; [NaN] is
    serialised as null. *)
Definition limit_field (parts : list string) (i : nat) (fallback : Z) : json :=
  match parts !! i with
  | Some s => if nonempty s then match parseInt s with Some n => JNum n | None => JNull end
              else JNum fallback
  | None => JNum fallback
  end.

Definition account_json (a : AdminAccount) : json :=
  let parts := split "|" (ac_currency a) in
  JObj [("account_id", JStr (ac_accountId a)); ("account_number", JStr (ac_accountNumber a));
        ("balance", JNum (ac_balance a)); ("currency", JStr (str_or (default "" (parts !! 0%nat)) "VND"));
        ("daily_transfer_limit", limit_field parts 1 50000000);
        ("daily_transfer_used", limit_field parts 2 0);
        ("status", JStr (accountStatusText (ac_status a))); ("created_at_unix", JNum (ac_createdAtUnix a))].

Definition handleAdminUserAccountsQuery (req : Request) (token : string) : gw Gateway.outcome :=
  no_store (
    let* accounts := listBankAdminUserAccounts (js_String (param "userId" req)) token in
    reply req [("accounts", JArr (map account_json accounts))]).

Definition admin_transaction_json (t : AdminTransaction) : json :=
  JObj [("transaction_id", JStr (at_transactionId t)); ("from_account_number", JStr (at_from t));
        ("to_account_number", JStr (at_to t)); ("amount", JNum (at_amount t));
        ("currency", JStr (at_currency t)); ("status", JStr (transactionStatusText (at_status t)));
        ("description", JStr (at_description t)); ("cert_serial", JStr (at_certSerial t));
        ("current_hash", JStr (at_currentHash t)); ("created_at_unix", JNum (at_createdAtUnix t))].

Definition transactions_request (q : TransactionsQuery) (token : string) : ListAdminTransactionsRequest :=
  {| lt_accountId := default "" (tq_account_id q); lt_status := transactionStatus (tq_status q);
     lt_fromUnix := tq_from_unix q; lt_toUnix := tq_to_unix q; lt_limit := tq_limit q;
     lt_offset := tq_offset q; lt_adminSessionToken := token |}.

Definition handleAdminTransactionsQuery (req : Request) (token : string) (q : TransactionsQuery)
    : gw Gateway.outcome :=
  no_store (
    let* r := listBankAdminTransactions (transactions_request q token) in
    reply req ([("transactions", JArr (map admin_transaction_json (events r)))]
               ++ page_fields (total r) (res_limit r) (res_offset r))).

Definition bank_event_json (e : BankAuditRecord) : json :=
  let action := auditActionText (bank_recAction e) in
  row [("event_id", JStr (bank_recId e)); ("action", JStr action); ("user_id", JStr (bank_recUserId e));
       ("account_id", JStr (bank_recAccountId e)); ("transaction_id", JStr (bank_recTransactionId e));
       ("cert_serial", JStr (bank_recCertSerial e)); ("request_id", JStr (bank_recRequestId e));
       ("reason", JStr (bank_recReason e)); ("metadata_json", JStr (bank_recMetadataJson e));
       ("created_at_unix", JNum (bank_recAt e))]
    bank action (bank_recUserId e) (bank_recReason e)
    (first_text (bank_recTransactionId e) (bank_recAccountId e) (bank_recCertSerial e)).

Definition audit_request (q : AuditQuery) (token : string) : BankAuditRequest :=
  {| bank_action := auditAction (aq_action q); bank_userId := default "" (aq_user_id q);
     bank_certSerial := default "" (aq_cert_serial q); bank_requestId := default "" (aq_request_id q);
     bank_fromUnix := aq_from_unix q; bank_toUnix := aq_to_unix q; bank_limit := aq_limit q;
     bank_offset := aq_offset q; bank_adminSessionToken := token |}.

Definition handleAdminAuditQuery (req : Request) (token : string) (q : AuditQuery) : gw Gateway.outcome :=
  no_store (
    let* r := listBankAdminAuditEvents (audit_request q token) in
    reply req ([("events", JArr (map bank_event_json (events r)))]
               ++ page_fields (total r) (res_limit r) (res_offset r))).

(** ** The error handler of the router *)

(** [typeof err?.code !== number]: only gRPC errors are answered here. *)
Definition handleAdminBankError (err : js_error) (req : Request) : gw Gateway.outcome :=
  match err_code err with
  | None => Ret (NextError [] err)
  | Some _ =>
      let mapped := bankGrpcError err in
      let* m := meta req in
      Ret (respond (status mapped) (fail_body (error_code mapped) (ErrorHandler.message mapped) m))
  end.

(** A handler of the router with its error handler, the headers set so far kept. *)
Definition admin_bank_route (p : gw Gateway.outcome) (req : Request) : gw Gateway.outcome :=
  let* o := p in
  match o with
  | NextError hs err =>
      let* o' := handleAdminBankError err req in
      Ret (fold_right (fun h o => with_header h.1 h.2 o) o' hs)
  | o => Ret o
  end.
