(* ===== verification/Routes.v ===== *)
(** * The routes of the gateway ([routes/*.route.ts], [server.ts])

    Every endpoint is its chain of middleware in the order of the router; the
    theorem says which service calls each chain can make and for whom. *)

From S2P Require Import Prelude JsString JsDate Effects Gateway ErrorHandler Crypto RateLimiter Otp Register Activation Schema Validators AdminAuth AuditSemantics AuditFetch AuditReport AuditTimeline CaAdmin Bank AdminBank.

Open Scope Z_scope.

(** The request as the router sees it, the header apart. *)
Definition with_id (id : string) (req : Request) : Request :=
  {| request_id := id; authorization := authorization req; cookie := cookie req; ip := ip req;
     remoteAddress := remoteAddress req; body := body req; query := query req; params := params req |}.

Inductive endpoint :=
| post_register | post_as_req | post_tgs_req | post_me
| post_otp_request | post_otp_verify
| post_transfer | post_balance | post_history
| post_bank_activate | post_bank_session | post_overview | post_users | post_user_accounts
| post_transactions | post_bank_audit
| post_ca_activate | post_ca_session | get_certificates | get_certificate | post_revoke | get_ca_audit
| get_kdc_audit
| get_timeline | get_verify | get_summary | get_export
| post_sec_auth.

Section routes.

Context `{ENV} `{Crypto} `{Zod} `{Dates} `{Cookies} (production : bool).

Definition requireCAAdmin (req : Request) : middleware AdminCa := requireAdminRole ["admin-ca"] req.
Definition requireSecAdmin (req : Request) : middleware AdminCa := requireAdminRole ["security-admin"] req.

Definition authRouter (e : endpoint) (req : Request) : gw Gateway.outcome :=
  match e with
  | post_register => use! b := validateRegister req in handleRegister req b
  | post_as_req => use! _ := rateLimitByIP req in use! _ := validateASRequest req in handleRequestTGT req
  | post_tgs_req =>
      use! _ := rateLimitByCertSn req in use! _ := validateTGSRequest req in handleRequestTGS req
  | _ => use! _ := rateLimitByIP req in use! _ := validateProfileRequest req in handleProfile req
  end.

Definition otpRouter (e : endpoint) (req : Request) : gw Gateway.outcome :=
  match e with
  | post_otp_request =>
      use! _ := rateLimitOtpByEmail req in use! email := validateOtpRequest req in
      handleOtpRequest req email
  | _ => use! b := validateOtpVerify req in handleOtpVerify req b
  end.

Definition bankRouter (e : endpoint) (req : Request) : gw Gateway.outcome :=
  use! _ := rateLimitBankByIP req in
  match e with
  | post_transfer => use! _ := validateTransferRequest req in handleTransfer req
  | post_balance => use! _ := validateBalanceQuery req in handleBalanceQuery req
  | _ => use! _ := validateHistoryQuery req in handleHistoryQuery req
  end.

Definition adminBankRouter (e : endpoint) (req : Request) : gw Gateway.outcome :=
  admin_bank_route
    (match e with
     | post_bank_activate =>
         use! _ := rateLimitAdminActivationByIP req in use! b := validateAdminActivation req in
         handleAdminActivate req b
     | post_bank_session =>
         use! b := validateAdminSessionRequest req in handleAdminSession production req b
     | post_overview =>
         use! token := requireBankAdminSessionCookie req in
         use! _ := validateAdminOverviewQuery req in handleAdminOverviewQuery req token
     | post_users =>
         use! token := requireBankAdminSessionCookie req in
         use! q := validateAdminUsersQuery req in handleAdminUsersQuery req token q
     | post_user_accounts =>
         use! token := requireBankAdminSessionCookie req in
         use! _ := validateAdminUserAccountsQuery req in handleAdminUserAccountsQuery req token
     | post_transactions =>
         use! token := requireBankAdminSessionCookie req in
         use! q := validateAdminTransactionsQuery req in handleAdminTransactionsQuery req token q
     | _ =>
         use! token := requireBankAdminSessionCookie req in
         use! q := validateAdminAuditQuery req in handleAdminAuditQuery req token q
     end) req.

Definition adminCARouter (e : endpoint) (req : Request) : gw Gateway.outcome :=
  match e with
  | post_ca_activate =>
      use! _ := rateLimitAdminCaActivationByIP req in use! b := validateAdminCaActivation req in
      handleAdminCaActivate req b
  | post_ca_session =>
      use! b := validateAdminCaCertificateSession req in handleAdminCaCertificateSession req b
  | get_certificates => use! ad := requireCAAdmin req in handleAdminListCertificates req ad
  | get_certificate => use! ad := requireCAAdmin req in handleAdminGetCertificateDetail req ad
  | post_revoke => use! ad := requireCAAdmin req in handleAdminRevokeCertificate req ad
  | _ => use! ad := requireCAAdmin req in handleListCaAudit req ad
  end.

Definition adminKDCRouter (req : Request) : gw Gateway.outcome :=
  use! _ := requireAdminRole ["security-admin"] req in handleListKdcAudit req.

Definition adminTimelineRouter (e : endpoint) (req : Request) : gw Gateway.outcome :=
  use! _ := requireSecAdmin req in
  match e with
  | get_timeline => handleAuditTimeline req
  | get_verify => handleAuditVerify req
  | get_summary => handleAuditSummary req
  | _ => handleAuditExport req
  end.

Definition adminSecRouter (req : Request) : gw Gateway.outcome :=
  use! b := validateAdminLoginRequest req in handleSecAdminAuth req b.

(** Every chain starts with [validateHeaders]; the application's error handler
    answers what the routers leave. *)
Definition dispatch (e : endpoint) (req : Request) : gw Gateway.outcome :=
  match e with
  | post_register | post_as_req | post_tgs_req | post_me => authRouter e req
  | post_otp_request | post_otp_verify => otpRouter e req
  | post_transfer | post_balance | post_history => bankRouter e req
  | post_bank_activate | post_bank_session | post_overview | post_users | post_user_accounts
  | post_transactions | post_bank_audit => adminBankRouter e req
  | post_ca_activate | post_ca_session | get_certificates | get_certificate | post_revoke
  | get_ca_audit => adminCARouter e req
  | get_kdc_audit => adminKDCRouter req
  | get_timeline | get_verify | get_summary | get_export => adminTimelineRouter e req
  | post_sec_auth => adminSecRouter req
  end.

Definition app (e : endpoint) (x_request_id : option string) (req : Request) : gw Gateway.outcome :=
  serve (with_id (default "" x_request_id) req)
    (use! id := validateHeaders x_request_id in dispatch e (with_id id req)).

End routes.

(** ** Mediation *)

(** The bank's session token in the request's cookie, as the bank's queries and
    as the audit views read it. *)
Definition session_cookie (req : Request) (token : string) : Prop :=
  exists units, cookieValue (cookie req) BANK_ADMIN_SESSION_COOKIE = Some units /\ units <> [] /\
    zlen units <= 256 /\ base64url_units units = true /\ token = string_of_units units.

Definition audit_cookie (req : Request) (token : string) : Prop :=
  readCookie (cookie req) BANK_SESSION_COOKIE = Ok token /\ token <> "".

Section mediation.

Context `{ENV} `{Crypto} `{Zod} `{Dates} `{Cookies} (production : bool).

(** An administrator of a role asked, and acts as [performedBy] if it is given. *)
Definition asked_by (req : Request) (t : gw_trace) (role : string) (performedBy : option string) : Prop :=
  exists ad, credential req t ad /\ ad_role ad = role /\
    forall p, performedBy = Some p -> p = ad_performedBy ad.

(** Who must have asked for a call. *)
Definition mediated (req : Request) (t : gw_trace) (e : event) : Prop :=
  match e with
  | CaListCertificates q _ => asked_by req t "admin-ca" (Some (lc_performedBy q))
  | CaGetCertificate _ by_ _ => asked_by req t "admin-ca" (Some by_)
  | CaRevokeCertificate rv _ =>
      rv_performedBy rv = "ra:register" \/ asked_by req t "admin-ca" (Some (rv_performedBy rv))
  | CaListAudit q _ =>
      asked_by req t "admin-ca" (Some (ca_performedBy q)) \/ asked_by req t "security-admin" None
  | KdcListAudit _ _ | CaVerifyChain _ | KdcVerifyChain _ => asked_by req t "security-admin" None
  | BankVerifyChain token => asked_by req t "security-admin" None /\ audit_cookie req token
  | BankListAudit q =>
      session_cookie req (bank_adminSessionToken q) \/
      asked_by req t "security-admin" None /\ audit_cookie req (bank_adminSessionToken q)
  | BankOverview token | BankListAccounts _ token => session_cookie req token
  | BankListUsers q => session_cookie req (lu_adminSessionToken q)
  | BankListTransactions q => session_cookie req (lt_adminSessionToken q)
  | _ => True
  end.

(** Calls that anybody may cause. *)
Definition free (e : event) : Prop :=
  match e with
  | CaRevokeCertificate rv _ => rv_performedBy rv = "ra:register"
  | CaListCertificates _ _ | CaGetCertificate _ _ _ | CaListAudit _ _
  | KdcListAudit _ _ | CaVerifyChain _ | KdcVerifyChain _ | BankVerifyChain _ | BankListAudit _
  | BankOverview _ | BankListAccounts _ _ | BankListUsers _ | BankListTransactions _ => False
  | _ => True
  end.

Lemma free_mediated req t e : free e -> mediated req t e.
Proof. destruct e; cbn; try done. by left. Qed.

Lemma credential_app req t1 t2 ad : credential req t1 ad -> credential req (t1 ++ t2) ad.
Proof.
  intros (h & token & Hh & Ht & [Hs|(ms & payload & Hsaw & Hp)]); exists h, token; split; [done| |done|];
    split; [done | by left | done|]. right. exists ms, payload. split; [|done].
  unfold saw in *. apply elem_of_app. by left.
Qed.

(** A chain whose calls are all free. *)
Lemma emits_mediated {A} req (p : gw A) :
  emits free p -> always p (fun t _ => forall e a, saw e a t -> mediated req t e).
Proof.
  apply always_mono. intros t o Ht e a Hsaw. apply free_mediated.
  unfold saw in Hsaw. rewrite Forall_forall in Ht. exact (Ht _ Hsaw).
Qed.

(** What a handler may call for the identity of its guard. *)
Definition admin_call (req : Request) (ad : AdminCa) (e : event) : Prop :=
  free e \/ forall t, credential req t ad -> mediated req t e.

Lemma guard_mediated req allowed (k : AdminCa -> gw Gateway.outcome) :
  emits free (requireAdminRole allowed req) ->
  (forall ad, ad_role ad ∈ allowed -> emits (admin_call req ad) (k ad)) ->
  always (use! ad := requireAdminRole allowed req in k ad)
    (fun t _ => forall e a, saw e a t -> mediated req t e).
Proof.
  intros Hg Hk. unfold andThen. apply always_bind.
  assert (Hboth : always (requireAdminRole allowed req) (fun t r =>
    Forall (fun o => free (request o)) t /\
    match r with Ok (Ok ad) => ad_role ad ∈ allowed /\ credential req t ad | _ => True end)).
  { eapply always_mono; [|exact (always_and _ _ _ Hg (guard_sound allowed req))].
    cbv beta. intros t [[ad|o]|x] [? ?]; tauto. }
  eapply always_mono; [|exact Hboth]. intros t r [Ht Hr].
  destruct r as [[ad|o]|x].
  - destruct Hr as [Hrole Hcred]. eapply always_mono; [|apply (Hk ad Hrole)].
    intros t' o Ht' e a Hsaw. unfold saw in Hsaw. apply elem_of_app in Hsaw as [Hin|Hin].
    + apply free_mediated. rewrite Forall_forall in Ht. exact (Ht _ Hin).
    + rewrite Forall_forall in Ht'. destruct (Ht' _ Hin) as [Hf|Hm]; [by apply free_mediated|].
      apply Hm, credential_app, Hcred.
  - intros e a Hsaw. rewrite app_nil_r in Hsaw. apply free_mediated. rewrite Forall_forall in Ht.
    exact (Ht _ Hsaw).
  - intros e a Hsaw. apply free_mediated. rewrite Forall_forall in Ht. exact (Ht _ Hsaw).
Qed.

(** Every call of a trace was mediated. *)
Definition all_mediated (req : Request) (t : gw_trace) : Prop := forall e a, saw e a t -> mediated req t e.

Lemma asked_app req t1 t2 role p : asked_by req t1 role p -> asked_by req (t1 ++ t2) role p.
Proof. intros (ad & Hc & Hr). exists ad. split; [by apply credential_app | done]. Qed.

Lemma mediated_app req t1 t2 e : mediated req t1 e -> mediated req (t1 ++ t2) e.
Proof.
  destruct e; cbn; try done; try apply asked_app.
  - intros [Hr|Hr]; [by left | right; by apply asked_app].
  - intros [Hr|Hr]; [left | right]; by apply asked_app.
  - intros [Hr|[Hr Hc]]; [by left | right; split; [by apply asked_app | done]].
  - intros [Hr Hc]; split; [by apply asked_app | done].
Qed.

(** After mediated calls, free ones. *)
Lemma bind_free {A B} req (p : gw A) (f : A -> gw B) :
  always p (fun t _ => all_mediated req t) -> (forall a, emits free (f a)) ->
  always (bind p f) (fun t _ => all_mediated req t).
Proof.
  intros Hp Hf. apply always_bind. eapply always_mono; [|exact Hp]. intros t [a|x] Ht; [|done].
  eapply always_mono; [|apply Hf]. intros t' o Hfree e v Hsaw. unfold saw in Hsaw.
  apply elem_of_app in Hsaw as [Hin|Hin]; [apply mediated_app; by apply (Ht e v)|].
  apply free_mediated. rewrite Forall_forall in Hfree. exact (Hfree _ Hin).
Qed.

(** A middleware that makes free calls and establishes [G]. *)
Lemma use_mediated {A} req (m : middleware A) (k : A -> gw Gateway.outcome) (G : A -> Prop) :
  always m (fun t r => Forall (fun o => free (request o)) t /\ forall a, r = Ok (Ok a) -> G a) ->
  (forall a, G a -> emits (fun e => forall t, mediated req t e) (k a)) ->
  always (andThen m k) (fun t _ => all_mediated req t).
Proof.
  intros Hm Hk. unfold andThen. apply always_bind. eapply always_mono; [|exact Hm].
  assert (Hfree : forall t, Forall (fun o => free (request o)) t -> all_mediated req t).
  { intros t Ht e v Hsaw. apply free_mediated. rewrite Forall_forall in Ht. exact (Ht _ Hsaw). }
  intros t [[a|o]|x] [Ht Ha]; [| rewrite <- (app_nil_r t) in Ht; by apply Hfree | by apply Hfree].
  eapply always_mono; [|apply (Hk a), Ha, eq_refl]. intros t' o Ht' e v Hsaw. unfold saw in Hsaw.
  apply elem_of_app in Hsaw as [Hin|Hin].
  - apply free_mediated. rewrite Forall_forall in Ht. exact (Ht _ Hin).
  - rewrite Forall_forall in Ht'. exact (Ht' _ Hin _).
Qed.

Lemma emits_free_mediated {A} req (p : gw A) : emits free p -> always p (fun t _ => all_mediated req t).
Proof. apply emits_mediated. Qed.

Ltac in_list := rewrite !elem_of_cons; tauto.

Ltac emits_free := emits_all ltac:(exact I || reflexivity).

(** The chains behind no administrator's guard. *)
Lemma customer_routes e req :
  e ∈ [post_register; post_as_req; post_tgs_req; post_me; post_otp_request; post_otp_verify; post_transfer;
       post_balance; post_history; post_sec_auth; post_ca_activate; post_ca_session; post_bank_activate;
       post_bank_session] ->
  emits free (dispatch production e req).
Proof.
  rewrite !elem_of_cons, elem_of_nil. intros He.
  repeat (destruct He as [->|He]; [unfold dispatch; emits_free|]). done.
Qed.

Lemma guard_free allowed req : emits free (requireAdminRole allowed req).
Proof. emits_free. Qed.

(** An administrator's guard in front of a handler. *)
Ltac admin_side ad Hrole :=
  first [left; exact I
        | right; let Hc := fresh in intros ? Hc; exists ad; split;
          [exact Hc | split; [exact Hrole | intros ? [= <-]; reflexivity]]
        | right; let Hc := fresh in intros ? Hc; left; exists ad; split;
          [exact Hc | split; [exact Hrole | intros ? [= <-]; reflexivity]]
        | right; let Hc := fresh in intros ? Hc; right; exists ad; split;
          [exact Hc | split; [exact Hrole | intros ? [= <-]; reflexivity]]].

Lemma ca_admin_routes e req :
  e ∈ [get_certificates; get_certificate; post_revoke; get_ca_audit] ->
  always (dispatch production e req) (fun t _ => all_mediated req t).
Proof.
  rewrite !elem_of_cons, elem_of_nil. intros He.
  repeat (destruct He as [->|He];
    [unfold dispatch, adminCARouter, requireCAAdmin; apply guard_mediated; [apply guard_free|];
     intros ad Hrole%list_elem_of_singleton; emits_all ltac:(admin_side ad Hrole)|]).
  done.
Qed.

(** The security administrator's views; the bank is asked with the cookie. *)
Definition sec_call (req : Request) (ad : AdminCa) (e : event) : Prop :=
  free e \/ forall t, credential req t ad -> ad_role ad = "security-admin" -> mediated req t e.

Lemma sec_asked req t ad :
  credential req t ad -> ad_role ad = "security-admin" -> asked_by req t "security-admin" None.
Proof. intros Hc Hr. by exists ad. Qed.

Lemma sec_call_ca req ad q md : sec_call req ad (CaListAudit q md).
Proof. right. intros t Hc Hr. right. by eapply sec_asked. Qed.

Lemma sec_call_kdc req ad q md : sec_call req ad (KdcListAudit q md).
Proof. right. intros t Hc Hr. by eapply sec_asked. Qed.

Lemma sec_call_bank req ad q :
  audit_cookie req (bank_adminSessionToken q) -> sec_call req ad (BankListAudit q).
Proof. intros Ha. right. intros t Hc Hr. right. split; [by eapply sec_asked | done]. Qed.

Lemma sec_call_chain req ad e :
  match e with
  | CaVerifyChain _ | KdcVerifyChain _ => True
  | BankVerifyChain token => audit_cookie req token
  | _ => False
  end -> sec_call req ad e.
Proof.
  intros He. right. intros t Hc Hr. pose proof (sec_asked _ _ _ Hc Hr). by destruct e.
Qed.

Hint Resolve sec_call_ca sec_call_kdc sec_call_bank : emits.

Lemma emits_cookie {A} P req (k : string -> gw A) :
  (forall token, readCookie (cookie req) BANK_SESSION_COOKIE = Ok token -> emits P (k token)) ->
  emits P (bind (of_result (readCookie (cookie req) BANK_SESSION_COOKIE)) k).
Proof.
  intros Hk. destruct (readCookie _ _) as [token|x]; cbn [of_result bind]; [by apply Hk | apply emits_raise].
Qed.

Lemma nonempty_true s : nonempty s = true -> s <> "".
Proof. by intros Hn ->. Qed.

Lemma emits_collect req ad from_unix to_unix cap source :
  emits (sec_call req ad) (collect req from_unix to_unix cap source).
Proof.
  unfold collect, try_source, fetchCaWindow, fetchKdcWindow, fetchBankWindow.
  apply emits_bind; [|intros [? ?]; apply emits_bind; [|intros [? ?]; apply emits_bind; [|intros [? ?]; apply emits_ret]]].
  - destruct (wanted source "ca"); [|apply emits_ret]. apply emits_bind; [|intros []; apply emits_ret].
    apply emits_attempt, emits_fetchWindow. intros. apply emits_vis; [apply sec_call_ca | intros; apply emits_of_result].
  - destruct (wanted source "kdc"); [|apply emits_ret]. apply emits_bind; [|intros []; apply emits_ret].
    apply emits_attempt, emits_fetchWindow. intros. apply emits_vis; [apply sec_call_kdc | intros; apply emits_of_result].
  - destruct (wanted source "bank"); [|apply emits_ret]. apply emits_cookie. intros token Htok.
    destruct (nonempty token) eqn:Hn; [|apply emits_ret]. apply emits_bind; [|intros []; apply emits_ret].
    apply emits_attempt, emits_fetchWindow. intros.
    apply emits_vis; [apply sec_call_bank | intros; apply emits_of_result].
    split; [done | by apply nonempty_true].
Qed.

Hint Resolve emits_collect : emits.

Ltac sec_side :=
  first [left; exact I | apply sec_call_ca | apply sec_call_kdc | apply sec_call_chain; exact I
        | (apply sec_call_bank || apply sec_call_chain); split; [eassumption | by apply nonempty_true]].

Ltac sec_step :=
  lazymatch goal with
  | |- emits _ (bind (of_result (readCookie _ _)) _) => apply emits_cookie; intros
  | |- emits _ (if nonempty ?x then _ else _) => let Hn := fresh "Hn" in destruct (nonempty x) eqn:Hn
  | _ => emits_step sec_side
  end.

Lemma sec_admin_routes e req :
  e ∈ [get_kdc_audit; get_timeline; get_verify; get_summary; get_export] ->
  always (dispatch production e req) (fun t _ => all_mediated req t).
Proof.
  rewrite !elem_of_cons, elem_of_nil. intros He.
  assert (Hsec : forall k, (forall ad, emits (sec_call req ad) (k ad)) ->
    always (use! ad := requireAdminRole ["security-admin"] req in k ad) (fun t _ => all_mediated req t)).
  { intros k Hk. apply guard_mediated; [apply guard_free|]. intros ad Hrole%list_elem_of_singleton.
    eapply emits_weaken; [|apply Hk]. intros ev [Hf|Hm]; [by left | right]. intros t Hc. by apply Hm. }
  repeat (destruct He as [->|He];
    [unfold dispatch, adminTimelineRouter, adminKDCRouter, requireSecAdmin; apply Hsec; intros ad|]).
  all: repeat (cbv beta iota zeta; sec_step).
  done.
Qed.

(** The cookie's guard. *)
Lemma cookie_guard req :
  always (requireBankAdminSessionCookie req) (fun t r =>
    Forall (fun o => free (request o)) t /\ forall token, r = Ok (Ok token) -> session_cookie req token).
Proof.
  assert (Hstop : forall status c m, always (metadata_reject (A := string) req status c m) (fun t r =>
    Forall (fun o => free (request o)) t /\ forall token, r = Ok (Ok token) -> session_cookie req token)).
  { intros status c m. unfold metadata_reject. gw_unfold. gw_cbn. intros ms.
    destruct (toISOString ms); gw_cbn; (split; [by repeat constructor | discriminate]). }
  unfold requireBankAdminSessionCookie.
  destruct (cookieValue (cookie req) BANK_ADMIN_SESSION_COOKIE) as [[|u units]|] eqn:Hc; [apply Hstop | | apply Hstop].
  destruct (Z.ltb_spec 256 (zlen (u :: units))); [apply Hstop|].
  destruct (base64url_units (u :: units)) eqn:Hb; [|apply Hstop].
  split; [constructor|]. intros token [= <-]. by exists (u :: units).
Qed.

Ltac cookie_side token Htok :=
  first [intros ?; exact I | intros ?; exact Htok | intros ?; left; exact Htok].

Lemma cookie_routes e req :
  e ∈ [post_overview; post_users; post_user_accounts; post_transactions; post_bank_audit] ->
  always (dispatch production e req) (fun t _ => all_mediated req t).
Proof.
  rewrite !elem_of_cons, elem_of_nil. intros He.
  assert (Hroute : forall k, (forall token, session_cookie req token ->
      emits (fun ev => forall t, mediated req t ev) (k token)) ->
    always (admin_bank_route (use! token := requireBankAdminSessionCookie req in k token) req)
      (fun t _ => all_mediated req t)).
  { intros k Hk. unfold admin_bank_route. apply bind_free; [|intros o; emits_free].
    by apply (use_mediated _ _ _ (session_cookie req)); [apply cookie_guard|]. }
  repeat (destruct He as [->|He];
    [unfold dispatch, adminBankRouter; apply Hroute; intros token Htok; emits_all ltac:(cookie_side token Htok)|]).
  done.
Qed.

(** C1: complete mediation. Whatever request reaches whatever endpoint, and
    whatever the services, the libraries and the configuration do: certificates
    are only listed, read and revoked for a request with a credential of the CA
    administrator's role and in the name of that administrator (the one other
    revocation is the rollback of a registration); the log of the KDC and the
    checks of the audit chains are only read for a credential of the security
    administrator; the log of the CA for one of the two; and every query of the
    bank's administration carries a token of the cookie of that same request. *)
Theorem complete_mediation e x_request_id req :
  always (app production e x_request_id req) (fun t _ => forall ev a, saw ev a t -> mediated req t ev).
Proof.
  unfold app, serve. set (id := default "" x_request_id).
  change (fun t _ => forall ev a, saw ev a t -> mediated req t ev)
    with (fun (t : gw_trace) (_ : result js_error Gateway.outcome) => all_mediated (with_id id req) t).
  apply bind_free; [|intros r; emits_free]. apply always_attempt.
  unfold validateHeaders, andThen.
  destruct x_request_id as [x|]; [destruct (nonempty x)|]; cbn [bind pass stop];
    [| intros ev a []%elem_of_nil | intros ev a []%elem_of_nil].
  subst id. cbn [default from_option id].
  destruct e; first [apply ca_admin_routes; in_list | apply sec_admin_routes; in_list
                    | apply cookie_routes; in_list | apply emits_mediated, customer_routes; in_list].
Qed.

End mediation.
