(* ===== verification/UJson.v ===== *)
(** * JSON over UTF-16 code units

    The browser's texts are lists of code units, so [JSON.stringify] and
    [JSON.parse] of the client are defined on them: names in any script and lone
    surrogates included. Integers are numbers, any other number is kept as its
    decimal literal. [uparse_stringify]: what is printed is read back. *)

From S2P Require Import Prelude JsString Gateway Json UString.

Open Scope Z_scope.

Inductive ujson :=
| UUndefined
| UNull
| UBool (b : bool)
| UNum (n : Z)
| UDec (literal : ustr)
| UStr (s : ustr)
| UArr (l : list ujson)
| UObj (fields : list (ustr * ujson)).

(** The value of an own property, the last one written. *)
Fixpoint ufield (name : ustr) (l : list (ustr * ujson)) : option ujson :=
  match l with
  | [] => None
  | (k, v) :: l' =>
      match ufield name l' with
      | Some w => Some w
      | None => if ustr_eqb k name then Some v else None
      end
  end.

(** A value of the gateway as the browser sees it. *)
Fixpoint widen (j : json) : ujson :=
  match j with
  | JUndefined => UUndefined
  | JNull => UNull
  | JBool b => UBool b
  | JNum n => UNum n
  | JDec s => UDec (js s)
  | JStr s => UStr (js s)
  | JArr l => UArr (map widen l)
  | JObj fields => UObj (map (fun f => (js f.1, widen f.2)) fields)
  end.

(** ** Printing *)

Definition lead (u : Z) : bool := (0xd800 <=? u) && (u <=? 0xdbff).
Definition trail (u : Z) : bool := (0xdc00 <=? u) && (u <=? 0xdfff).
Definition surrogate (u : Z) : bool := lead u || trail u.

Definition uhex (n : Z) : Z := if n <? 10 then 48 + n else 87 + n.

(** [\uXXXX]. *)
Definition u_escape (u : Z) : ustr :=
  [92; 117; uhex (u / 4096); uhex (u / 256 mod 16); uhex (u / 16 mod 16); uhex (u mod 16)].

Definition uesc (u : Z) : ustr :=
  if u =? 34 then [92; 34]
  else if u =? 92 then [92; 92]
  else if u =? 8 then [92; 98]
  else if u =? 9 then [92; 116]
  else if u =? 10 then [92; 110]
  else if u =? 12 then [92; 102]
  else if u =? 13 then [92; 114]
  else if (u <? 32) || surrogate u then u_escape u
  else [u].

(** A pair of surrogates stays, a lone one is escaped. *)
Fixpoint uesc_all (s : ustr) : ustr :=
  match s with
  | [] => []
  | u :: s' =>
      match s' with
      | v :: s'' => if lead u && trail v then u :: v :: uesc_all s'' else uesc u ++ uesc_all s'
      | [] => uesc u
      end
  end.

Definition uquote (s : ustr) : ustr := 34 :: uesc_all s ++ [34].

Definition u_undefined (j : ujson) : bool := match j with UUndefined => true | _ => false end.

Definition umember (k v : ustr) : ustr := uquote k ++ js ":" ++ v.

(** [JSON.stringify(j)] of a defined value. *)
Fixpoint ustringify (j : ujson) : ustr :=
  match j with
  | UUndefined | UNull => js "null"
  | UBool true => js "true"
  | UBool false => js "false"
  | UNum n => js (Z_string n)
  | UDec literal => literal
  | UStr s => uquote s
  | UArr l => js "[" ++ join (js ",") (map ustringify l) ++ js "]"
  | UObj fields =>
      js "{" ++ join (js ",") (flat_map (fun f =>
                   if u_undefined f.2 then [] else [umember f.1 (ustringify f.2)]) fields) ++ js "}"
  end.

(** ** Reading *)

Definition uws (u : Z) : bool := (u =? 32) || (u =? 9) || (u =? 10) || (u =? 13).

Fixpoint uskip (s : ustr) : ustr :=
  match s with u :: s' => if uws u then uskip s' else s | [] => [] end.

Definition uhex_value (u : Z) : option Z :=
  if (48 <=? u) && (u <=? 57) then Some (u - 48)
  else if (97 <=? u) && (u <=? 102) then Some (u - 87)
  else if (65 <=? u) && (u <=? 70) then Some (u - 55)
  else None.

Definition uhex4 (a b c d : Z) : option Z :=
  match uhex_value a, uhex_value b, uhex_value c, uhex_value d with
  | Some a, Some b, Some c, Some d => Some (((a * 16 + b) * 16 + c) * 16 + d)
  | _, _, _, _ => None
  end.

Definition uunescape (u : Z) : option Z :=
  if (u =? 34) || (u =? 92) || (u =? 47) then Some u
  else if u =? 98 then Some 8 else if u =? 116 then Some 9 else if u =? 110 then Some 10
  else if u =? 102 then Some 12 else if u =? 114 then Some 13 else None.

Definition ucons (u : Z) (r : option (ustr * ustr)) : option (ustr * ustr) :=
  match r with Some (s, rest) => Some (u :: s, rest) | None => None end.

(** The characters up to the closing quote. *)
Fixpoint upstr (s : ustr) : option (ustr * ustr) :=
  match s with
  | [] => None
  | u :: r =>
      if u =? 34 then Some ([], r)
      else if u =? 92 then
        match r with
        | e :: r' =>
            if e =? 117 then
              match r' with
              | a :: b :: c :: d :: r'' =>
                  match uhex4 a b c d with Some v => ucons v (upstr r'') | None => None end
              | _ => None
              end
            else match uunescape e with Some v => ucons v (upstr r') | None => None end
        | [] => None
        end
      else if u <? 32 then None
      else ucons u (upstr r)
  end.

(** The characters of a number, greedily; what follows one is never of them. *)
Definition number_unit (u : Z) : bool :=
  is_digit u || (u =? 43) || (u =? 45) || (u =? 46) || (u =? 69) || (u =? 101).

Fixpoint number_prefix (s : ustr) : ustr :=
  match s with u :: s' => if number_unit u then u :: number_prefix s' else [] | [] => [] end.

(** The text of code units below 128. *)
Definition narrow (s : ustr) : string := string_of_list_ascii (map of_code s).

Definition upnum (s : ustr) : option (ujson * ustr) :=
  let token := number_prefix s in
  match pnum (narrow token) with
  | Some (j, "") => Some (widen j, drop (length token) s)
  | _ => None
  end.

Definition uplit (lit : string) (v : ujson) (s : ustr) : option (ujson * ustr) :=
  if starts_with (js lit) s then Some (v, drop (length (js lit)) s) else None.

(** A value after optional white space; the fuel bounds the nesting of calls. *)
Fixpoint uvalue (fuel : nat) (s : ustr) : option (ujson * ustr) :=
  match fuel with
  | O => None
  | S f =>
      match uskip s with
      | [] => None
      | u :: r =>
          if u =? 34 then match upstr r with Some (x, r) => Some (UStr x, r) | None => None end
          else if u =? 91 then
            match uskip r with
            | v :: r' => if v =? 93 then Some (UArr [], r') else
                match uelems f r with Some (l, r) => Some (UArr l, r) | None => None end
            | [] => None
            end
          else if u =? 123 then
            match uskip r with
            | v :: r' => if v =? 125 then Some (UObj [], r') else
                match umembers f r with Some (l, r) => Some (UObj l, r) | None => None end
            | [] => None
            end
          else if u =? 116 then uplit "true" (UBool true) (u :: r)
          else if u =? 102 then uplit "false" (UBool false) (u :: r)
          else if u =? 110 then uplit "null" UNull (u :: r)
          else upnum (u :: r)
      end
  end
with uelems (fuel : nat) (s : ustr) : option (list ujson * ustr) :=
  match fuel with
  | O => None
  | S f =>
      match uvalue f s with
      | None => None
      | Some (v, r) =>
          match uskip r with
          | u :: r' =>
              if u =? 93 then Some ([v], r')
              else if u =? 44 then
                match uelems f r' with Some (l, r) => Some (v :: l, r) | None => None end
              else None
          | [] => None
          end
      end
  end
with umembers (fuel : nat) (s : ustr) : option (list (ustr * ujson) * ustr) :=
  match fuel with
  | O => None
  | S f =>
      match uskip s with
      | q :: r0 =>
          if q =? 34 then
            match upstr r0 with
            | None => None
            | Some (k, r) =>
                match uskip r with
                | u :: r =>
                    if u =? 58 then
                      match uvalue f r with
                      | None => None
                      | Some (v, r) =>
                          match uskip r with
                          | w :: r' =>
                              if w =? 125 then Some ([(k, v)], r')
                              else if w =? 44 then
                                match umembers f r' with
                                | Some (l, r) => Some ((k, v) :: l, r)
                                | None => None
                                end
                              else None
                          | [] => None
                          end
                      end
                    else None
                | [] => None
                end
            end
          else None
      | [] => None
      end
  end.

(** [JSON.parse(s)]; [None] is a [SyntaxError]. *)
Definition uparse (s : ustr) : option ujson :=
  match uvalue (S (2 * length s)) s with
  | Some (v, r) => match uskip r with [] => Some v | _ => None end
  | None => None
  end.

Example uparse_example :
  uparse (js "{ \u0022" ++ js (String QUOTE "") ) = None /\
  uparse (ustringify (UObj [(js "a", UArr [UNum (-12); UBool true; UNull]); (js "b", UStr [0x1ea1; 34; 0xd800])]))
  = Some (UObj [(js "a", UArr [UNum (-12); UBool true; UNull]); (js "b", UStr [0x1ea1; 34; 0xd800])]).
Proof. split; vm_compute; reflexivity. Qed.

(** ** What is printed is read back *)

Definition unit_ok (u : Z) : Prop := 0 <= u < 65536.
Definition unit_okb (u : Z) : bool := (0 <=? u) && (u <? 65536).

(** Neither [undefined] nor a number that is not an integer, at any depth; the
    texts are code units. *)
Fixpoint uplain (j : ujson) : bool :=
  match j with
  | UUndefined | UDec _ => false
  | UStr s => forallb unit_okb s
  | UArr l => forallb uplain l
  | UObj fields => forallb (fun f => forallb unit_okb f.1 && uplain f.2) fields
  | _ => true
  end.

Lemma ujson_ind2 (P : ujson -> Prop) :
  P UUndefined -> P UNull -> (forall b, P (UBool b)) -> (forall n, P (UNum n)) ->
  (forall s, P (UDec s)) -> (forall s, P (UStr s)) -> (forall l, Forall P l -> P (UArr l)) ->
  (forall l, Forall (fun f => P f.2) l -> P (UObj l)) -> forall j, P j.
Proof.
  intros H1 H2 H3 H4 H5 H6 H7 H8. fix IH 1. intros [| | | | | | l | l]; [done|done|auto|auto|auto|auto| |].
  - apply H7. induction l; constructor; auto.
  - apply H8. induction l as [|[k v] l IHl]; constructor; [apply IH | apply IHl].
Qed.

Lemma unit_okb_true u : unit_okb u = true <-> unit_ok u.
Proof. unfold unit_okb, unit_ok. rewrite andb_true_iff, Z.leb_le, Z.ltb_lt. done. Qed.

Lemma uhex_value_hex n : 0 <= n < 16 -> uhex_value (uhex n) = Some n.
Proof.
  intros H. unfold uhex, uhex_value. destruct (Z.ltb_spec n 10).
  - rewrite (proj2 (Z.leb_le _ _)), (proj2 (Z.leb_le _ _)) by lia. cbn. f_equal. lia.
  - rewrite (proj2 (Z.leb_gt (87 + n) 57)) by lia. rewrite andb_false_r.
    rewrite (proj2 (Z.leb_le _ _)), (proj2 (Z.leb_le _ _)) by lia. cbn. f_equal. lia.
Qed.

Lemma uhex4_escape u : unit_ok u ->
  uhex4 (uhex (u / 4096)) (uhex (u / 256 mod 16)) (uhex (u / 16 mod 16)) (uhex (u mod 16)) = Some u.
Proof.
  unfold unit_ok. intros H. unfold uhex4.
  pose proof (Z.div_mod u 16). pose proof (Z.div_mod (u / 16) 16). pose proof (Z.div_mod (u / 256) 16).
  rewrite !Z.div_div in * by lia. change (16 * 16) with 256 in *. change (256 * 16) with 4096 in *.
  pose proof (Z.mod_pos_bound u 16). pose proof (Z.mod_pos_bound (u / 16) 16).
  pose proof (Z.mod_pos_bound (u / 256) 16).
  assert (0 <= u / 4096 < 16) by (split; [apply Z.div_pos | apply Z.div_lt_upper_bound]; lia).
  rewrite !uhex_value_hex by lia. f_equal. lia.
Qed.

Lemma upstr_plain u t : 32 <= u -> u <> 34 -> u <> 92 -> upstr (u :: t) = ucons u (upstr t).
Proof.
  intros H1 H2 H3. cbn [upstr].
  rewrite (proj2 (Z.eqb_neq _ _) H2), (proj2 (Z.eqb_neq _ _) H3), (proj2 (Z.ltb_ge _ _) H1). done.
Qed.

Lemma upstr_esc u t : unit_ok u -> upstr (uesc u ++ t) = ucons u (upstr t).
Proof.
  intros Hu. unfold uesc.
  repeat match goal with
  | |- context [if u =? ?k then _ else _] => destruct (Z.eqb_spec u k) as [->|?]; [reflexivity|]
  end.
  destruct ((u <? 32) || surrogate u) eqn:Hs.
  - cbn [app u_escape upstr Z.eqb Pos.eqb]. by rewrite uhex4_escape.
  - apply orb_false_iff in Hs as [Hs _]. apply Z.ltb_ge in Hs. by apply upstr_plain.
Qed.

Lemma pair_units u v : lead u && trail v = true -> 55296 <= u /\ 56320 <= v.
Proof. unfold lead, trail. intros H. bool_to_Z. lia. Qed.

Lemma upstr_quote s rest :
  Forall unit_ok s -> upstr (uesc_all s ++ 34 :: rest) = Some (s, rest).
Proof.
  induction s as [s IH] using (induction_ltof1 _ (@length Z)); unfold ltof in IH. intros Hs.
  destruct s as [|u [|v s]]; [reflexivity| |]; inversion_clear Hs as [|? ? Hu Hs'].
  - cbn [uesc_all]. by rewrite upstr_esc.
  - change (uesc_all (u :: v :: s))
      with (if lead u && trail v then u :: v :: uesc_all s else uesc u ++ uesc_all (v :: s)).
    destruct (lead u && trail v) eqn:Hp.
    + apply pair_units in Hp. inversion_clear Hs' as [|? ? Hv Hs''].
      rewrite <- !app_comm_cons, !upstr_plain by lia. rewrite IH; [done | cbn; lia | done].
    + rewrite <- app_assoc, upstr_esc by done. rewrite IH; [done | cbn; lia | done].
Qed.

(** What may follow a value inside a text. *)
Definition uends (s : ustr) : bool :=
  match s with [] => true | u :: _ => (u =? 44) || (u =? 93) || (u =? 125) end.

Lemma uends_not_number s : uends s = true -> number_prefix s = [].
Proof.
  destruct s as [|u s]; [done|]. cbn. intros H. assert (number_unit u = false) as ->; [|done].
  rewrite !orb_true_iff, !Z.eqb_eq in H. unfold number_unit, is_digit.
  rewrite !orb_false_iff, andb_false_iff, !Z.eqb_neq, !Z.leb_gt. lia.
Qed.

Lemma number_prefix_app t rest :
  Forall (fun u => number_unit u = true) t -> number_prefix rest = [] -> number_prefix (t ++ rest) = t.
Proof. induction 1 as [|u t Hu Ht IH]; intros Hr; cbn; [done|]. by rewrite Hu, IH. Qed.

Lemma narrow_js s : narrow (js s) = s.
Proof.
  unfold narrow, js. rewrite map_map. rewrite (map_ext _ (fun a => a)), map_id.
  - apply string_of_list_ascii_of_string.
  - intros a. unfold of_code. by rewrite N2Z.id, ascii_N_embedding.
Qed.

Lemma js_app s t : js (s +:+ t) = js s ++ js t.
Proof.
  induction s as [|a s IH]; [done|]. rewrite sapp_cons. unfold js in *. cbn. by rewrite IH.
Qed.

Lemma js_length s : length (js s) = String.length s.
Proof. unfold js. rewrite length_map. induction s as [|a s IH]; [done|]. cbn. by rewrite IH. Qed.

Lemma js_inj s t : js s = js t -> s = t.
Proof. intros H. rewrite <- (narrow_js s), <- (narrow_js t). by rewrite H. Qed.

Lemma Forall_js (P : Z -> Prop) (f : ascii -> bool) s :
  (forall a, f a = true -> P (code a)) -> sall f s = true -> Forall P (js s).
Proof.
  intros HP. induction s as [|a s IH]; cbn; intros H; constructor.
  - apply andb_true_iff in H as [Ha _]. exact (HP a Ha).
  - apply andb_true_iff in H as [_ Hs]. by apply IH.
Qed.

Lemma js_units s : Forall (fun u => 0 <= u < 256) (js s).
Proof.
  apply Forall_forall. intros u Hu. unfold js in Hu. apply list_elem_of_fmap in Hu as (a & -> & _).
  pose proof (N_ascii_bounded a). lia.
Qed.

Lemma js_units_ok s : forallb unit_okb (js s) = true.
Proof.
  apply forallb_forall. intros u Hu. apply unit_okb_true. unfold unit_ok.
  pose proof (js_units s) as H. rewrite Forall_forall in H. apply list_elem_of_In in Hu.
  specialize (H u Hu). cbn in H. lia.
Qed.

Lemma number_unit_code a : digit_or_minus a = true -> number_unit (code a) = true.
Proof.
  unfold digit_or_minus, digit, number_unit, is_digit. intros H. apply orb_true_iff in H as [H|H].
  - by rewrite H.
  - rewrite H. by rewrite !orb_true_r.
Qed.

Lemma upnum_Z_string n rest : uends rest = true ->
  upnum (js (Z_string n) ++ rest) = Some (UNum n, rest).
Proof.
  intros He. unfold upnum.
  rewrite number_prefix_app, narrow_js;
    [| exact (Forall_js _ _ _ number_unit_code (Z_string_chars n)) | by apply uends_not_number].
  pose proof (pnum_Z_string n "" eq_refl) as Hp. rewrite sapp_nil_r in Hp. rewrite Hp.
  cbn. by rewrite drop_app_length.
Qed.

Lemma Z_string_head n : exists u t, js (Z_string n) = u :: t /\ (u = 45 \/ 48 <= u <= 57).
Proof.
  pose proof (Z_string_nonempty n) as Hne. pose proof (Z_string_chars n) as Hc.
  destruct (Z_string n) as [|a s]; [done|]. cbn in Hc. apply andb_true_iff in Hc as [Ha _].
  exists (code a), (js s). split; [done|]. unfold digit_or_minus in Ha.
  apply orb_true_iff in Ha as [Ha|Ha]; [right; by apply digit_code | left; by apply Z.eqb_eq].
Qed.

Lemma uskip_head u r : uws u = false -> uskip (u :: r) = u :: r.
Proof. intros H. cbn. by rewrite H. Qed.

Lemma not_ws u : 33 <= u -> uws u = false.
Proof. intros H. unfold uws. rewrite !orb_false_iff, !Z.eqb_neq. lia. Qed.

(** The last case of [uvalue]. *)
Lemma uvalue_num f n rest : uends rest = true ->
  uvalue (S f) (js (Z_string n) ++ rest) = Some (UNum n, rest).
Proof.
  intros He. pose proof (upnum_Z_string n rest He) as Hp.
  destruct (Z_string_head n) as (u & t & Hs & Hu). rewrite Hs in Hp |- *. cbn [app] in *.
  cbn [uvalue]. rewrite uskip_head by (apply not_ws; lia).
  repeat (rewrite (proj2 (Z.eqb_neq u _)) by lia). exact Hp.
Qed.

Lemma ustringify_head j : uplain j = true -> exists u r, ustringify j = u :: r /\ 33 <= u /\ u <> 93.
Proof.
  destruct j as [| | [] | n | | | |]; try done; intros _; cbn;
    try (eexists _, _; split; [reflexivity|]; lia).
  destruct (Z_string_head n) as (u & t & -> & Hu). eexists _, _. split; [done|]. lia.
Qed.

Definition ureads_back (j : ujson) : Prop :=
  forall fuel rest, (2 * length (ustringify j) <= fuel)%nat -> uends rest = true ->
    uvalue fuel (ustringify j ++ rest) = Some (j, rest).

Lemma ureads_elems l fuel rest :
  l <> [] -> Forall ureads_back l ->
  (2 * length (join (js ",") (map ustringify l)) + 1 <= fuel)%nat ->
  uelems fuel (join (js ",") (map ustringify l) ++ 93 :: rest) = Some (l, rest).
Proof.
  revert fuel. induction l as [|j l IH]; intros fuel Hne Hall Hf; [done|].
  inversion_clear Hall as [|? ? Hj Hl]. destruct fuel as [|f]; [lia|]. destruct l as [|j' l].
  - cbn [map join] in *. cbn [uelems]. rewrite Hj by (done || lia). reflexivity.
  - change (join (js ",") (map ustringify (j :: j' :: l)))
      with (ustringify j ++ 44 :: join (js ",") (map ustringify (j' :: l))) in *.
    rewrite length_app in Hf. rewrite <- app_assoc. cbn [uelems length app] in *.
    rewrite Hj by (done || lia). rewrite uskip_head by done. cbn [Z.eqb Pos.eqb].
    by rewrite IH by (done || lia).
Qed.

Definition uentry (f : ustr * ujson) : ustr := umember f.1 (ustringify f.2).

Lemma ureads_members l fuel rest :
  l <> [] -> Forall (fun f => Forall unit_ok f.1 /\ ureads_back f.2) l ->
  (2 * length (join (js ",") (map uentry l)) + 1 <= fuel)%nat ->
  umembers fuel (join (js ",") (map uentry l) ++ 125 :: rest) = Some (l, rest).
Proof.
  revert fuel. induction l as [|[k v] l IH]; intros fuel Hne Hall Hf; [done|].
  inversion_clear Hall as [|? ? [Hk Hj] Hl]. destruct fuel as [|f]; [lia|].
  assert (Hone : forall tail, uends tail = true -> (2 * length (ustringify v) <= f)%nat ->
    umembers (S f) (uentry (k, v) ++ tail) =
    match uskip tail with
    | w :: r' =>
        if w =? 125 then Some ([(k, v)], r')
        else if w =? 44 then
          match umembers f r' with Some (l, r) => Some ((k, v) :: l, r) | None => None end
        else None
    | [] => None
    end).
  { intros tail Ht Hf'. unfold uentry, umember, uquote. cbn [fst snd app umembers].
    rewrite uskip_head by done. cbn [Z.eqb Pos.eqb]. rewrite <- !app_assoc. cbn [app].
    rewrite upstr_quote by done. change (js ":" ++ ustringify v ++ tail) with (58 :: ustringify v ++ tail).
    rewrite uskip_head by done. cbn [Z.eqb Pos.eqb]. cbn [snd] in Hj. by rewrite Hj. }
  assert (Hlen : (length (ustringify v) + 1 <= length (uentry (k, v)))%nat).
  { unfold uentry, umember. cbn [fst snd]. rewrite !length_app. cbn [length js list_ascii_of_string map]. lia. }
  destruct l as [|kv' l].
  - cbn [map join] in *. rewrite Hone; [reflexivity | done | lia].
  - change (join (js ",") (map uentry ((k, v) :: kv' :: l)))
      with (uentry (k, v) ++ 44 :: join (js ",") (map uentry (kv' :: l))) in *.
    rewrite length_app in Hf. cbn [length] in Hf. rewrite <- app_assoc. cbn [app].
    rewrite Hone; [| done | lia]. rewrite uskip_head by done. cbn [Z.eqb Pos.eqb].
    by rewrite IH by (done || lia).
Qed.

Lemma starts_with_drop p s : starts_with p (p ++ s) = true /\ drop (length p) (p ++ s) = s.
Proof. by rewrite starts_with_app, drop_app_length. Qed.

Lemma uplit_app lit v rest : uplit lit v (js lit ++ rest) = Some (v, rest).
Proof. unfold uplit. by rewrite (proj1 (starts_with_drop _ _)), (proj2 (starts_with_drop _ _)). Qed.

(** The first unit of a joined list. *)
Lemma join_cons_head sep (a : ustr) l tail u t :
  a = u :: t -> exists r, join sep (a :: l) ++ tail = u :: r.
Proof. intros ->. destruct l; cbn; by eexists. Qed.

Lemma uplain_members l :
  forallb (fun f : ustr * ujson => forallb unit_okb f.1 && uplain f.2) l = true ->
  flat_map (fun f => if u_undefined f.2 then [] else [umember f.1 (ustringify f.2)]) l = map uentry l.
Proof.
  induction l as [|[k v] l IH]; [done|]. cbn [flat_map forallb fst snd map]. intros H.
  apply andb_true_iff in H as [Hv Hl]. apply andb_true_iff in Hv as [_ Hv].
  rewrite IH by done. by destruct v.
Qed.

Lemma forallb_units s : forallb unit_okb s = true -> Forall unit_ok s.
Proof.
  rewrite forallb_forall, Forall_forall. intros H u Hu. apply unit_okb_true, H. by apply list_elem_of_In.
Qed.

Lemma uall_read_back j : uplain j = true -> ureads_back j.
Proof.
  induction j as [| | b | n | | x | l IH | l IH] using ujson_ind2; intros Hp fuel rest Hf He; try done.
  - cbn in Hf. destruct fuel as [|f]; [lia|]. apply (uplit_app "null").
  - destruct b; cbn in Hf; (destruct fuel as [|f]; [lia|]); [apply (uplit_app "true") | apply (uplit_app "false")].
  - destruct fuel as [|f]; [|by apply uvalue_num]. exfalso. cbn in Hf.
    destruct (Z_string_head n) as (u & t & Hs & _). rewrite Hs in Hf. cbn in Hf. lia.
  - cbn in Hf. destruct fuel as [|f]; [lia|]. cbn [ustringify]. unfold uquote.
    cbn [app uvalue]. rewrite uskip_head by done. cbn [Z.eqb Pos.eqb]. rewrite <- app_assoc. cbn [app].
    by rewrite upstr_quote by (by apply forallb_units).
  - cbn [ustringify uplain] in *. rewrite !length_app, !js_length in Hf. cbn [String.length] in Hf.
    destruct fuel as [|f]; [lia|]. change (js "[") with [91]. change (js "]") with [93].
    cbn [app uvalue]. rewrite uskip_head by done. cbn [Z.eqb Pos.eqb].
    destruct l as [|j l]; [reflexivity|].
    destruct (ustringify_head j) as (u & t & Hs & Hu & Hu93);
      [by cbn in Hp; apply andb_true_iff in Hp as [? _]|].
    destruct (join_cons_head (js ",") (ustringify j) (map ustringify l) ([93] ++ rest) u t Hs) as [r Hr].
    rewrite <- app_assoc. cbn [map]. rewrite Hr, uskip_head by (apply not_ws; lia).
    rewrite (proj2 (Z.eqb_neq u 93)) by done. rewrite <- Hr.
    change (ustringify j :: map ustringify l) with (map ustringify (j :: l)).
    change ([93] ++ rest) with (93 :: rest). rewrite ureads_elems; [done | done | | lia].
    rewrite forallb_forall in Hp. rewrite Forall_forall in IH |- *. intros x Hx.
    apply IH; [done|]. apply Hp. by apply list_elem_of_In.
  - cbn [ustringify uplain] in *. rewrite uplain_members in * by done.
    rewrite !length_app, !js_length in Hf. cbn [String.length] in Hf.
    destruct fuel as [|f]; [lia|]. change (js "{") with [123]. change (js "}") with [125].
    cbn [app uvalue]. rewrite uskip_head by done. cbn [Z.eqb Pos.eqb].
    destruct l as [|[k v] l]; [reflexivity|]. rewrite <- app_assoc. cbn [map].
    destruct (join_cons_head (js ",") (uentry (k, v)) (map uentry l) ([125] ++ rest) 34
                (uesc_all k ++ [34] ++ js ":" ++ ustringify v)) as [r Hr].
    { unfold uentry, umember, uquote. cbn [fst snd]. by rewrite <- app_comm_cons, <- app_assoc. }
    rewrite Hr, uskip_head by done. cbn [Z.eqb Pos.eqb]. rewrite <- Hr.
    change (uentry (k, v) :: map uentry l) with (map uentry ((k, v) :: l)).
    change ([125] ++ rest) with (125 :: rest). rewrite ureads_members; [done | done | | lia].
    rewrite forallb_forall in Hp. rewrite Forall_forall in IH |- *. intros x Hx.
    specialize (Hp x). rewrite andb_true_iff in Hp. destruct Hp as [H1 H2]; [by apply list_elem_of_In|].
    split; [by apply forallb_units | by apply IH].
Qed.

(** What [JSON.stringify] prints, [JSON.parse] reads back. *)
Lemma uparse_stringify j : uplain j = true -> uparse (ustringify j) = Some j.
Proof.
  intros Hp. unfold uparse. rewrite <- (app_nil_r (ustringify j)) at 2.
  by rewrite (uall_read_back j Hp) by (done || lia).
Qed.

Lemma forallb_map {A B} (f : A -> B) (g : B -> bool) l : forallb g (map f l) = forallb (fun a => g (f a)) l.
Proof. induction l as [|a l IH]; [done|]. cbn. by rewrite IH. Qed.

(** The gateway's values are read back too. *)
Lemma uplain_widen j : plain j = true -> uplain (widen j) = true.
Proof.
  induction j as [| | b | n | | x | l IH | l IH] using json_ind2; try done;
    cbn [widen uplain plain]; intros Hp; [apply js_units_ok | |];
    rewrite forallb_map; rewrite forallb_forall in Hp |- *; rewrite Forall_forall in IH; intros x Hx.
  - apply IH; [by apply list_elem_of_In | by apply Hp].
  - cbn [fst snd]. rewrite js_units_ok. apply (IH x); [by apply list_elem_of_In | by apply Hp].
Qed.
