(* ===== verification/WebCrypto.v ===== *)
(** * What the browser supplies to the client's services

    Web Crypto is a class: RSA keys, PBKDF2, AES-GCM and RSA-OAEP as functions
    that may fail, with the laws that the protocol relies on in [WebCryptoSpec].
    [TextSpec] states what the client needs of the platform's text and base64
    functions. [web_platform] and [toy_webcrypto] are concrete instances. *)

From S2P Require Import Prelude JsString Buffer UString UJson.

Open Scope Z_scope.

(** ** Texts and their bytes *)

(** One unit in one, two or three bytes: UTF-8 outside of surrogates. *)
Definition unit_bytes (u : Z) : list Z :=
  if u <? 0x80 then [u]
  else if u <? 0x800 then [192 + u / 64; 128 + u mod 64]
  else [224 + u / 4096; 128 + u / 64 mod 64; 128 + u mod 64].

Definition units_to_bytes (s : ustr) : list Z := flat_map unit_bytes s.

Fixpoint units_of_bytes (l : list Z) : ustr :=
  match l with
  | [] => []
  | b :: l1 =>
      if b <? 0x80 then b :: units_of_bytes l1
      else match l1 with
           | c :: l2 =>
               if b <? 224 then (b - 192) * 64 + (c - 128) :: units_of_bytes l2
               else match l2 with
                    | d :: l3 => ((b - 224) * 64 + (c - 128)) * 64 + (d - 128) :: units_of_bytes l3
                    | [] => []
                    end
           | [] => []
           end
  end.

(** A literal of the source, which is UTF-8. *)
Definition u8 (literal : string) : ustr := units_of_bytes (js literal).

(** ** Base64 *)

(** [bytesToBase64]: the characters chunk by chunk, then [btoa]. *)
Fixpoint binary_chunks (fuel : nat) (chunk : nat) (bytes : list Z) : ustr :=
  match fuel, bytes with
  | S f, _ :: _ => take chunk bytes ++ binary_chunks f chunk (drop chunk bytes)
  | _, _ => []
  end.

Definition btoa (binary : ustr) : ustr := js (to_base64 binary).

Definition bytesToBase64 (bytes : list Z) : ustr :=
  btoa (binary_chunks (length bytes) (Z.to_nat 0x8000) bytes).

(** [base64ToBytes]; [None] is the exception of [atob]. *)
Definition base64ToBytes `{Platform} (b64 : ustr) : option (list Z) := atob b64.

Lemma binary_chunks_all fuel chunk bytes :
  (0 < chunk)%nat -> (length bytes <= fuel)%nat -> binary_chunks fuel chunk bytes = bytes.
Proof.
  intros Hc. revert bytes. induction fuel as [|f IH]; intros bytes Hf; destruct bytes as [|b bytes];
    cbn [binary_chunks]; [done | cbn in Hf; lia | done |].
  rewrite IH, take_drop; [done|]. rewrite length_drop. cbn in *. lia.
Qed.

Lemma bytesToBase64_spec bytes : bytesToBase64 bytes = js (to_base64 bytes).
Proof. unfold bytesToBase64, btoa. by rewrite binary_chunks_all by lia. Qed.

(** [atob] as the HTML standard has it. *)
Definition ascii_space (u : Z) : bool := (u =? 9) || (u =? 10) || (u =? 12) || (u =? 13) || (u =? 32).

Definition strip_padding (s : ustr) : ustr :=
  match rev s with
  | 61 :: 61 :: r => rev r
  | 61 :: r => rev r
  | _ => s
  end.

Definition std_value (u : Z) : option Z :=
  if (65 <=? u) && (u <=? 90) then Some (u - 65)
  else if (97 <=? u) && (u <=? 122) then Some (u - 71)
  else if (48 <=? u) && (u <=? 57) then Some (u + 4)
  else if u =? 43 then Some 62
  else if u =? 47 then Some 63
  else None.

Definition web_atob (s : ustr) : option (list Z) :=
  let s := filter (fun u => ascii_space u = false) s in
  let s := if zlen s mod 4 =? 0 then strip_padding s else s in
  if zlen s mod 4 =? 1 then None
  else match mapM std_value s with Some v => Some (from_sextets v) | None => None end.

(** ** The laws of texts *)

(** No lone surrogate and no byte order mark at the start. *)
Fixpoint well_paired (s : ustr) : bool :=
  match s with
  | [] => true
  | u :: s' =>
      if lead u then match s' with v :: s'' => trail v && well_paired s'' | [] => false end
      else negb (trail u) && well_paired s'
  end.

Definition text_ok (s : ustr) : bool :=
  forallb unit_okb s && well_paired s && negb (bool_decide (head s = Some 0xfeff)).

Class TextSpec `{Platform} := {
  atob_btoa bytes : bytes_ok bytes -> atob (btoa bytes) = Some bytes;
  text_roundtrip s : text_ok s = true -> textDecode (textEncode s) = s;
  text_bytes s : bytes_ok (textEncode s);
  text_ascii s : Forall (fun u => 0 <= u < 128) s -> textEncode s = s
}.

(** ** Web Crypto *)

Class WebCrypto := {
  RsaKey : Type;
  (** [exportKey(spki)] of the public half. *)
  rsa_spki : RsaKey -> list Z;
  rsa_pkcs8 : RsaKey -> list Z;
  import_pkcs8 : list Z -> option RsaKey;
  (** 32 bytes from a PIN, a salt and a number of iterations. *)
  pbkdf2 : list Z -> list Z -> Z -> list Z;
  (** AES-GCM with a key, an IV and a text; [None] is a rejected promise. *)
  gcm_seal : list Z -> list Z -> list Z -> option (list Z);
  gcm_open : list Z -> list Z -> list Z -> option (list Z);
  (** RSA-OAEP with a label. *)
  oaep_open : RsaKey -> list Z -> list Z -> option (list Z);
  pkcs1_sign : RsaKey -> list Z -> list Z;
  (** RSA-PSS with the salt that the browser draws. *)
  pss_sign : RsaKey -> list Z -> list Z -> list Z
}.

Class WebCryptoSpec `{WebCrypto} `{Platform} := {
  gcm_seals key iv text : zlen key = 32 -> zlen iv = 12 -> exists c, gcm_seal key iv text = Some c;
  gcm_opens key iv text c : gcm_seal key iv text = Some c -> gcm_open key iv c = Some text;
  gcm_nonempty key iv text c : gcm_seal key iv text = Some c -> c <> [];
  gcm_bytes key iv text c : bytes_ok text -> gcm_seal key iv text = Some c -> bytes_ok c;
  pkcs8_imports k : import_pkcs8 (rsa_pkcs8 k) = Some k;
  pbkdf2_length pin salt n : zlen (pbkdf2 pin salt n) = 32;
  pss_verifies k salt data pk :
    importPssKey (rsa_spki k) = Some pk -> pssVerify pk (pss_sign k salt data) data = true
}.

(** ** Concrete instances *)

Definition web_platform : Platform := {|
  textDecode := units_of_bytes;
  textEncode s := units_to_bytes (map (fun u => u mod 65536) s);
  toLowerCase := map (fun u => if (65 <=? u) && (u <=? 90) then u + 32 else u);
  atob := web_atob;
  decodeURIComponent := fun s => Some s;
  CryptoKey := list Z;
  importVerifyKey := fun k => Some k;
  importPssKey := fun k => Some k;
  pkcs1Verify := fun k sig data => bool_decide (sig = k ++ data);
  pssVerify := fun k sig data => bool_decide (drop 32 sig = k ++ data);
  sha256 := fun b => take 32 b
|}.

(** Keys are their own bytes; a box repeats the key and the IV in front of a tag
    byte and the text. *)
Definition toy_webcrypto : WebCrypto := {|
  RsaKey := list Z;
  rsa_spki := fun k => k;
  rsa_pkcs8 := fun k => k;
  import_pkcs8 := fun l => Some l;
  pbkdf2 := fun pin salt n => take 32 (map to_uint8 (pin ++ salt) ++ replicate 32 0);
  gcm_seal := fun key iv text =>
    if bool_decide (zlen key = 32) then Some (map to_uint8 (key ++ iv) ++ 0 :: text) else None;
  gcm_open := fun key iv c =>
    let hd := map to_uint8 (key ++ iv) ++ [0] in
    if bool_decide (take (length hd) c = hd) then Some (drop (length hd) c) else None;
  oaep_open := fun k label c => Some c;
  pkcs1_sign := fun k data => k ++ data;
  pss_sign := fun k salt data => take 32 (salt ++ replicate 32 0) ++ k ++ data
|}.

(** ** The instances obey the laws *)

Lemma units_of_unit u t : unit_ok u -> units_of_bytes (unit_bytes u ++ t) = u :: units_of_bytes t.
Proof.
  unfold unit_ok. intros H. unfold unit_bytes.
  pose proof (Z.div_mod u 64). pose proof (Z.mod_pos_bound u 64).
  pose proof (Z.div_mod (u / 64) 64). pose proof (Z.mod_pos_bound (u / 64) 64).
  rewrite Z.div_div in * by lia. change (64 * 64) with 4096 in *.
  destruct (Z.ltb_spec u 0x80); [|destruct (Z.ltb_spec u 0x800)]; cbn [app units_of_bytes].
  - by rewrite (proj2 (Z.ltb_lt u 0x80)) by lia.
  - assert (2 <= u / 64 < 32) by lia. rewrite (proj2 (Z.ltb_ge _ 0x80)), (proj2 (Z.ltb_lt _ 224)) by lia.
    f_equal. lia.
  - assert (0 <= u / 4096 < 16) by lia. rewrite !(proj2 (Z.ltb_ge _ _)) by lia. f_equal. lia.
Qed.

Lemma units_roundtrip s : Forall unit_ok s -> units_of_bytes (units_to_bytes s) = s.
Proof.
  induction 1 as [|u s Hu Hs IH]; [done|]. cbn [units_to_bytes flat_map].
  rewrite units_of_unit by done. by f_equal.
Qed.

Lemma unit_bytes_ok u : unit_ok u -> bytes_ok (unit_bytes u).
Proof.
  unfold unit_ok. intros H. unfold unit_bytes.
  pose proof (Z.div_mod u 64). pose proof (Z.mod_pos_bound u 64). pose proof (Z.mod_pos_bound (u / 64) 64).
  assert (0 <= u / 4096 < 16) by (split; [apply Z.div_pos | apply Z.div_lt_upper_bound]; lia).
  destruct (Z.ltb_spec u 0x80); [|destruct (Z.ltb_spec u 0x800)]; repeat constructor; unfold is_byte; lia.
Qed.

Lemma units_to_bytes_ok s : Forall unit_ok s -> bytes_ok (units_to_bytes s).
Proof.
  induction 1 as [|u s Hu Hs IH]; [constructor|]. cbn [units_to_bytes flat_map].
  apply bytes_ok_app. split; [by apply unit_bytes_ok | exact IH].
Qed.

(** The sextets of a base64 text and its padding. *)
Fixpoint b64_values (l : list Z) : list Z :=
  match l with
  | a :: b :: c :: l' =>
      a / 4 :: a mod 4 * 16 + b / 16 :: b mod 16 * 4 + c / 64 :: c mod 64 :: b64_values l'
  | [a; b] => [a / 4; a mod 4 * 16 + b / 16; b mod 16 * 4]
  | [a] => [a / 4; a mod 4 * 16]
  | [] => []
  end.

Fixpoint b64_padding (l : list Z) : ustr :=
  match l with _ :: _ :: _ :: l' => b64_padding l' | [_; _] => [61] | [_] => [61; 61] | [] => [] end.

Definition uchar (v : Z) : Z := code (b64_char v).

Lemma uchar_ok v : 0 <= v < 64 -> std_value (uchar v) = Some v /\ uchar v <> 61 /\ ascii_space (uchar v) = false.
Proof.
  intros H. assert (Hall : forallb (fun n => let v := Z.of_nat n in
    bool_decide (std_value (uchar v) = Some v /\ uchar v <> 61 /\ ascii_space (uchar v) = false)) (seq 0 64) = true)
    by (vm_compute; reflexivity).
  rewrite forallb_forall in Hall. specialize (Hall (Z.to_nat v)). cbn zeta in Hall.
  rewrite Z2Nat.id in Hall by lia. eapply bool_decide_eq_true, Hall, in_seq. lia.
Qed.

Lemma b64_values_bound l : bytes_ok l -> Forall (fun v => 0 <= v < 64) (b64_values l).
Proof.
  induction l as [|a|a b|a b c l IH] using list_ind3; intros H; [constructor| | |];
    repeat match goal with
    | H : bytes_ok (?a :: _) |- _ =>
        let Ha := fresh in let Hl := fresh in inversion_clear H as [|? ? Ha Hl];
        pose proof (byte_parts a 4 Ha ltac:(lia) eq_refl);
        pose proof (byte_parts a 16 Ha ltac:(lia) eq_refl);
        pose proof (byte_parts a 64 Ha ltac:(lia) eq_refl); change (Forall is_byte) with bytes_ok in *
    end; cbn [b64_values]; repeat (constructor; [byte_bounds|]); [constructor | constructor | by apply IH].
Qed.

Lemma js_to_base64 l : js (to_base64 l) = map uchar (b64_values l) ++ b64_padding l.
Proof.
  induction l as [|a|a b|a b c l IH] using list_ind3; [done | done | done |].
  cbn [to_base64 b64_values b64_padding map app]. by rewrite <- IH.
Qed.

Lemma sextets_to_base64 l : bytes_ok l -> sextets (to_base64 l) = b64_values l.
Proof.
  induction l as [|a|a b|a b c l IH] using list_ind3; intros H; [done| | |];
    pose proof (b64_values_bound _ H) as Hb; cbn [b64_values to_base64] in *;
    repeat match goal with H : Forall _ (_ :: _) |- _ => inversion_clear H end;
    rewrite !sextets_char by done; [done | done |].
  rewrite IH; [done|]. by do 3 (apply Forall_cons in H as [_ H]).
Qed.

Lemma b64_lengths l : exists k : Z,
  (zlen (b64_values l) = 4 * k /\ b64_padding l = []) \/
  (zlen (b64_values l) = 4 * k + 3 /\ b64_padding l = [61]) \/
  (zlen (b64_values l) = 4 * k + 2 /\ b64_padding l = [61; 61]).
Proof.
  induction l as [|a|a b|a b c l [k IH]] using list_ind3; cbn [b64_values b64_padding].
  - exists 0. by left.
  - exists 0. right. by right.
  - exists 0. right. by left.
  - exists (k + 1). rewrite !zlen_cons. destruct IH as [[? ->]|[[? ->]|[? ->]]]; [left | right; left | right; right];
      (split; [lia | done]).
Qed.

Lemma strip_padding_app t p :
  Forall (fun u => u <> 61) t -> p ∈ [[]; [61]; [61; 61]] -> strip_padding (t ++ p) = t.
Proof.
  intros Ht Hp. unfold strip_padding. rewrite rev_app_distr.
  assert (Hr : forall u r, rev t = u :: r -> u <> 61).
  { intros u r Hu. rewrite Forall_forall in Ht. apply Ht. apply list_elem_of_In, in_rev. rewrite Hu. by left. }
  repeat (apply elem_of_cons in Hp as [->|Hp]); [..|by apply elem_of_nil in Hp]; cbn [rev app].
  - rewrite app_nil_r. destruct (rev t) as [|u r]; [done|]. specialize (Hr u r eq_refl).
    destruct (Z.eq_dec u 61) as [->|]; [done|]. destruct u as [|p|p]; try done. by repeat (destruct p; try done).
  - destruct (rev t) as [|u r] eqn:E; [by apply (f_equal (@rev Z)) in E; rewrite rev_involutive in E; rewrite E|].
    specialize (Hr u r eq_refl). rewrite <- (rev_involutive t), E.
    destruct u as [|p|p]; try done. by repeat (destruct p; try done).
  - by rewrite rev_involutive.
Qed.

Lemma mapM_uchar vs : Forall (fun v => 0 <= v < 64) vs -> mapM std_value (map uchar vs) = Some vs.
Proof.
  induction 1 as [|v vs Hv Hvs IH]; [done|]. cbn [map mapM]. 
  destruct (uchar_ok v Hv) as (-> & _ & _). cbn. by rewrite IH.
Qed.

Lemma web_atob_btoa l : bytes_ok l -> web_atob (btoa l) = Some l.
Proof.
  intros Hl. unfold web_atob, btoa. pose proof (b64_values_bound l Hl) as Hb.
  pose proof (b64_lengths l) as [k Hk]. rewrite js_to_base64.
  assert (Hf : forall s, Forall (fun u => ascii_space u = false) s -> filter (fun u => ascii_space u = false) s = s).
  { induction 1; [done|]. rewrite filter_cons_True by done. by f_equal. }
  rewrite Hf.
  2: { apply Forall_app. split.
       - apply Forall_fmap. eapply Forall_impl; [exact Hb|]. intros v Hv. by destruct (uchar_ok v Hv) as (_ & _ & ?).
       - destruct Hk as [[_ ->]|[[_ ->]|[_ ->]]]; repeat constructor. }
  assert (Hlen : zlen (map uchar (b64_values l)) = zlen (b64_values l)) by (unfold zlen; by rewrite length_map).
  assert (H4 : zlen (map uchar (b64_values l) ++ b64_padding l) mod 4 = 0).
  { rewrite zlen_app, Hlen. destruct Hk as [[-> ->]|[[-> ->]|[-> ->]]]; cbn [zlen length];
      rewrite Z.mod_eq by lia; [pose proof (Z_div_mult k 4) | pose proof (Z_div_mult (k + 1) 4) |
        pose proof (Z_div_mult (k + 1) 4)]; unfold zlen; cbn [length]; 
      [replace (4 * k + Z.of_nat 0) with (k * 4) by lia | replace (4 * k + 3 + Z.of_nat 1) with ((k + 1) * 4) by lia
      | replace (4 * k + 2 + Z.of_nat 2) with ((k + 1) * 4) by lia]; lia. }
  rewrite H4. cbn [Z.eqb]. rewrite strip_padding_app.
  - rewrite Hlen. assert (zlen (b64_values l) mod 4 <> 1) as Hm.
    { destruct Hk as [[-> _]|[[-> _]|[-> _]]]; [replace (4 * k) with (0 + k * 4) by lia
        | replace (4 * k + 3) with (3 + k * 4) by lia | replace (4 * k + 2) with (2 + k * 4) by lia];
        rewrite Z.mod_add by lia; done. }
    rewrite (proj2 (Z.eqb_neq _ _) Hm), mapM_uchar by done.
    rewrite <- sextets_to_base64 by done. by rewrite <- (base64_roundtrip l Hl) at 2.
  - apply Forall_fmap. eapply Forall_impl; [exact Hb|]. intros v Hv. by destruct (uchar_ok v Hv) as (_ & ? & _).
  - destruct Hk as [[_ ->]|[[_ ->]|[_ ->]]]; set_solver.
Qed.

Lemma wrap_units_ok s : Forall unit_ok (map (fun u => u mod 65536) s).
Proof.
  apply Forall_fmap, Forall_forall. intros u _. unfold unit_ok. cbn. pose proof (Z.mod_pos_bound u 65536). lia.
Qed.

Lemma wrap_units_id s : Forall unit_ok s -> map (fun u => u mod 65536) s = s.
Proof. induction 1 as [|u s Hu Hs IH]; [done|]. cbn. rewrite Z.mod_small by exact Hu. by f_equal. Qed.

Lemma web_platform_spec : TextSpec (H := web_platform).
Proof.
  split; cbn.
  - intros l Hl. by apply web_atob_btoa.
  - intros s Hs. unfold text_ok in Hs. apply andb_true_iff in Hs as [Hs _].
    apply andb_true_iff in Hs as [Hs _]. apply forallb_units in Hs.
    rewrite wrap_units_id by done. by apply units_roundtrip.
  - intros s. apply units_to_bytes_ok, wrap_units_ok.
  - intros s Hs. rewrite wrap_units_id.
    + induction Hs as [|u s Hu _ IH]; [done|]. cbn [units_to_bytes flat_map]. unfold unit_bytes at 1.
      rewrite (proj2 (Z.ltb_lt u 0x80)) by lia. cbn [app]. by f_equal.
    + eapply Forall_impl; [exact Hs|]. intros u Hu. cbn in Hu. unfold unit_ok. lia.
Qed.

Lemma to_uint8_bytes l : bytes_ok (map to_uint8 l).
Proof.
  apply Forall_fmap, Forall_forall. intros b _. unfold is_byte, to_uint8. cbn.
  pose proof (Z.mod_pos_bound b 256). lia.
Qed.

Lemma toy_webcrypto_spec : WebCryptoSpec (H := toy_webcrypto) (H0 := web_platform).
Proof.
  split; cbn.
  - intros key iv text Hk _. rewrite bool_decide_eq_true_2 by done. by eexists.
  - intros key iv text c H. case_bool_decide as Hk; [|done]. injection H as <-.
    rewrite bool_decide_eq_true_2.
    + f_equal. change (0 :: text) with ([0] ++ text). rewrite app_assoc. apply drop_app_length.
    + change (0 :: text) with ([0] ++ text). rewrite app_assoc. apply take_app_length.
  - intros key iv text c H ->. case_bool_decide; [|done]. by destruct (map _ _) in H.
  - intros key iv text c Ht H. case_bool_decide; [|done]. injection H as <-.
    apply bytes_ok_app. split; [apply to_uint8_bytes|]. constructor; [unfold is_byte; lia | done].
  - done.
  - intros pin salt n. unfold zlen. rewrite length_take, length_app.
    change (length (_ :: _)) with 32%nat. lia.
  - intros k salt data pk [= <-]. apply bool_decide_eq_true_2.
    rewrite drop_app_length'; [done|]. rewrite length_take, length_app.
    change (length (_ :: _)) with 32%nat. lia.
Qed.
