(* ===== verification/JsNumber.v ===== *)
(** * JavaScript numbers

    The values of the generated code's number fields: doubles, as the exact
    numbers that they stand for. [nearest] rounds a ratio as IEEE 754 does,
    [StringToNumber] and [NumberToString] are the conversions of ECMAScript and
    [Math_round] is [Math.round]. The two zeros are one: the generated code
    compares with [!== 0] and writes integers. *)

From S2P Require Import Prelude JsString UString UJson.

Open Scope Z_scope.

(** An integer, or [m / 2 ^ k] with an odd [m]. *)
Inductive number :=
| Int (n : Z)
| Frac (m : Z) (k : positive)
| Infinity (negative : bool)
| NaN.

#[export] Instance number_eq_dec : EqDecision number.
Proof. solve_decision. Defined.

(** ** Rounding *)

(** [p / q] to the nearest integer, ties to the even one. *)
Definition half_even (p q : Z) : Z :=
  let d := p / q in let r := p mod q in
  if 2 * r <? q then d else if q <? 2 * r then d + 1 else if Z.even d then d else d + 1.

(** The greatest [e] with [2 ^ e <= p / q]. *)
Definition magnitude (p q : Z) : Z :=
  let e := Z.log2 p - Z.log2 q in
  if p * 2 ^ Z.max 0 (- e) <? q * 2 ^ Z.max 0 e then e - 1 else e.

(** [m / 2 ^ k] in lowest terms. *)
Fixpoint dyadic (m : Z) (k : nat) : number :=
  match k with
  | O => Int m
  | S k' => if Z.even m then dyadic (m / 2) k' else Frac m (Pos.of_succ_nat k')
  end.

(** The double nearest to [p / q], [0 < q]: 53 significant bits, exponents from
    -1074, and infinity from [2 ^ 1024] on. *)
Definition nearest (p q : Z) : number :=
  if p =? 0 then Int 0
  else
    let a := Z.abs p in
    let u := Z.max (-1074) (magnitude a q - 52) in
    let v := half_even (a * 2 ^ Z.max 0 (- u)) (q * 2 ^ Z.max 0 u) in
    if 0 <=? u then
      if 2 ^ 1024 <=? v * 2 ^ u then Infinity (p <? 0) else Int (Z.sgn p * (v * 2 ^ u))
    else dyadic (Z.sgn p * v) (Z.to_nat (- u)).

(** A whole number of the source. *)
Definition of_integer (n : Z) : number := nearest n 1.

(** ** [Number(s)] of a text *)

(** [m * 10 ^ k]. *)
Definition scaled_number (m k : Z) : number :=
  if 0 <=? k then of_integer (m * 10 ^ k) else nearest m (10 ^ (- k)).

(** A decimal literal with an optional sign, as [JsString.decimal_value]. *)
Definition StrDecimalLiteral (s : string) : number :=
  let '(sg, s) := sign_of s in
  if String.eqb s "Infinity" then Infinity (sg <? 0)
  else
    let ip := digits_prefix s in
    let r := digits_suffix s in
    let '(fp, r) := match r with
                    | String a r' => if code a =? 46 then (digits_prefix r', digits_suffix r') else ("", r)
                    | "" => ("", r)
                    end in
    if String.eqb (ip +:+ fp) "" then NaN
    else
      let m := sg * digits_val 0 (ip +:+ fp) in
      let k := - Z.of_nat (String.length fp) in
      match r with
      | "" => scaled_number m k
      | String a r' =>
          if (code a =? 101) || (code a =? 69) then
            let '(esg, ds) := sign_of r' in
            if String.eqb ds "" then NaN
            else if sall digit ds then scaled_number m (k + esg * digits_val 0 ds) else NaN
          else NaN
      end.

(** The digits after [0x], [0o] or [0b]. *)
Definition radix_number (radix : Z) (s : string) : number :=
  if String.eqb s "" then NaN
  else match radix_val radix 0 s with Some n => of_integer n | None => NaN end.

Definition StringToNumber (s : ustr) : number :=
  let s := UString.trim s in
  if negb (forallb (fun u => u <? 128) s) then NaN
  else match narrow s with
       | "" => Int 0
       | String z (String x r) as s =>
           let c := code x in
           if (code z =? 48) && ((c =? 120) || (c =? 88)) then radix_number 16 r
           else if (code z =? 48) && ((c =? 111) || (c =? 79)) then radix_number 8 r
           else if (code z =? 48) && ((c =? 98) || (c =? 66)) then radix_number 2 r
           else StrDecimalLiteral s
       | s => StrDecimalLiteral s
       end.

Example StringToNumber_examples :
  map (fun s => StringToNumber (js s))
    ["12"; " -7 "; "1e3"; "0.5"; "-.75"; "0x1F"; ""; "12a"; "."; "-Infinity"; "9007199254740993"; "1e400"]
  = [Int 12; Int (-7); Int 1000; Frac 1 1; Frac (-3) 2; Int 31; Int 0; NaN; NaN; Infinity true;
     Int 9007199254740992; Infinity false] /\
  StringToNumber (js "0.1") = Frac 3602879701896397 55.
Proof. split; vm_compute; reflexivity. Qed.

(** ** [String(x)] *)

Definition numerator (x : number) : Z := match x with Int n => n | Frac m _ => m | _ => 0 end.
Definition denominator (x : number) : Z := match x with Frac _ k => 2 ^ Z.pos k | _ => 1 end.

(** The least [n >= from] with [p / q < 10 ^ n]. The search starts below it, from
    the binary exponent times a little more than [log10 2]. *)
Fixpoint decimal_exponent (fuel : nat) (from p q : Z) : Z :=
  match fuel with
  | O => from
  | S f => if p * 10 ^ Z.max 0 (- from) <? q * 10 ^ Z.max 0 from then from
           else decimal_exponent f (from + 1) p q
  end.

(** The shortest digits [s] and the exponent [n] such that [s * 10 ^ (n - k)]
    rounds to [p / q], the closest ones of [k] digits. *)
Fixpoint shortest (fuel : nat) (k n p q : Z) : Z * Z * Z :=
  let e := n - k in
  let s := half_even (p * 10 ^ Z.max 0 (- e)) (q * 10 ^ Z.max 0 e) in
  let '(s', n') := if s =? 10 ^ k then (10 ^ (k - 1), n + 1) else (s, n) in
  match fuel with
  | O => (s', k, n')
  | S f => if decide (scaled_number s' (n' - k) = nearest p q) then (s', k, n')
           else shortest f (k + 1) n p q
  end.

Definition zeros (n : Z) : string := string_of_list_ascii (repeat ("0"%char) (Z.to_nat n)).

Definition format_digits (digits : string) (k n : Z) : string :=
  if (k <=? n) && (n <=? 21) then digits +:+ zeros (n - k)
  else if (0 <? n) && (n <=? 21) then substring 0 (Z.to_nat n) digits +:+ "." +:+ slice (Z.to_nat n) digits
  else if (-6 <? n) && (n <=? 0) then "0." +:+ zeros (- n) +:+ digits
  else
    let e := (if n - 1 <? 0 then "e-" else "e+") +:+ nat_string (Z.abs (n - 1)) in
    if k =? 1 then digits +:+ e else substring 0 1 digits +:+ "." +:+ slice 1 digits +:+ e.

Definition NumberToString (x : number) : ustr :=
  match x with
  | NaN => js "NaN"
  | Infinity negative => js (if negative then "-Infinity" else "Infinity")
  | Int 0 => js "0"
  | _ =>
      let p := Z.abs (numerator x) in
      let q := denominator x in
      let n := decimal_exponent 5 (magnitude p q * 30103 / 100000 - 1) p q in
      let '(s, k, n) := shortest 17 1 n p q in
      js ((if numerator x <? 0 then "-" else "") +:+ format_digits (nat_string s) k n)
  end.

Example NumberToString_examples :
  map (fun s => narrow (NumberToString (StringToNumber (js s))))
    ["100"; "-1.50"; "1e21"; "1e23"; "0.001"; "1e-7"]
  = ["100"; "-1.5"; "1e+21"; "1e+23"; "0.001"; "1e-7"].
Proof. vm_compute. reflexivity. Qed.

(** ** [Math.round] and comparisons *)

(** The greatest integer below [x + 1/2]. *)
Definition Math_round (x : number) : number :=
  match x with Frac m k => Int ((m + 2 ^ (Z.pos k - 1)) / 2 ^ Z.pos k) | _ => x end.

(** [x !== 0]. *)
Definition number_nonzero (x : number) : bool := match x with Int n => negb (n =? 0) | _ => true end.

(** [Boolean(x)]. *)
Definition number_truthy (x : number) : bool :=
  match x with Int n => negb (n =? 0) | NaN => false | _ => true end.

Definition whole (x : number) : bool := match x with Frac _ _ => false | _ => true end.

Lemma Math_round_whole x : whole x = true -> Math_round x = x.
Proof. by destruct x. Qed.

Lemma number_nonzero_false x : number_nonzero x = false -> x = Int 0.
Proof. destruct x as [n| | |]; try done. cbn. intros H. apply negb_false_iff, Z.eqb_eq in H. by subst. Qed.

(** ** Integers are exact up to [2 ^ 53] *)

Lemma half_even_exact n q : 0 < q -> half_even (n * q) q = n.
Proof.
  intros Hq. unfold half_even. rewrite Z.div_mul, Z.mod_mul by lia.
  rewrite (proj2 (Z.ltb_lt _ _)) by lia. done.
Qed.

Lemma dyadic_exact n k : dyadic (n * 2 ^ Z.of_nat k) k = Int n.
Proof.
  induction k as [|k IH]; cbn [dyadic]; [f_equal; cbn; lia|].
  rewrite Nat2Z.inj_succ, Z.pow_succ_r by lia.
  replace (n * (2 * 2 ^ Z.of_nat k)) with (n * 2 ^ Z.of_nat k * 2) by ring.
  rewrite Z.even_mul, orb_true_r, Z.div_mul by lia. exact IH.
Qed.

Lemma magnitude_small p q : 0 < p -> 0 < q -> p < q * 2 ^ 53 -> magnitude p q <= 52.
Proof.
  intros Hp Hq H. unfold magnitude. cbv zeta.
  destruct (Z.log2_spec p Hp) as [Hlp _]. destruct (Z.log2_spec q Hq) as [_ Hlq].
  assert (Z.log2 p < Z.log2 q + 54).
  { apply (Z.pow_lt_mono_r_iff 2); [lia | pose proof (Z.log2_nonneg q); lia|].
    replace (Z.log2 q + 54) with (Z.succ (Z.log2 q) + 53) by lia.
    rewrite Z.pow_add_r by (pose proof (Z.log2_nonneg q); lia). nia. }
  destruct (Z.eq_dec (Z.log2 p - Z.log2 q) 53) as [->|]; [|case_match; lia].
  rewrite Z.max_l, Z.max_r by lia.
  rewrite (proj2 (Z.ltb_lt (p * 2 ^ 0) (q * 2 ^ 53))) by lia. lia.
Qed.

Lemma nearest_exact n q : 0 < q -> Z.abs n <= 2 ^ 53 - 1 -> nearest (n * q) q = Int n.
Proof.
  intros Hq Hn. unfold nearest. destruct (Z.eqb_spec (n * q) 0) as [Hz|Hz].
  { f_equal. nia. }
  assert (Ha : Z.abs (n * q) = Z.abs n * q) by lia. rewrite Ha.
  assert (n <> 0) by nia.
  pose proof (magnitude_small (Z.abs n * q) q ltac:(nia) Hq ltac:(nia)) as Hm.
  set (u := Z.max (-1074) (magnitude _ q - 52)).
  rewrite (Z.max_l 0 u) by lia. rewrite Z.pow_0_r, Z.mul_1_r, (Z.max_r 0 (- u)) by lia.
  replace (Z.abs n * q * 2 ^ (- u)) with (Z.abs n * 2 ^ (- u) * q) by ring.
  rewrite half_even_exact by done.
  assert (Hs : Z.sgn (n * q) * (Z.abs n * 2 ^ (- u)) = n * 2 ^ (- u)).
  { rewrite Z.sgn_mul, (Z.sgn_pos q) by lia. rewrite Z.mul_1_r, Z.mul_assoc. f_equal. lia. }
  destruct (Z.leb_spec 0 u) as [Hu|Hu].
  - assert (u = 0) as Hu0 by lia. clearbody u. subst u. rewrite Z.opp_0, Z.pow_0_r in *.
    rewrite (proj2 (Z.leb_gt _ _)) by lia. f_equal. lia.
  - rewrite Hs. rewrite <- (Z2Nat.id (- u)) at 1 by lia. apply dyadic_exact.
Qed.

(** The integers up to [2 ^ 53] are doubles. *)
Lemma of_integer_exact n : Z.abs n <= 2 ^ 53 - 1 -> of_integer n = Int n.
Proof. intros Hn. unfold of_integer. rewrite <- (Z.mul_1_r n) at 1. by apply nearest_exact. Qed.
