(* ===== verification/Sessions.v ===== *)
(** * The session stores of the browser ([as-exchange/session.ts], [tgs-exchange/session.ts])

    Session keys are byte arrays that the stores share with the services that
    use them, so a store's [fill(0)] is seen through every alias: the memory is
    a heap of buffers, a session holds the address of its key. [key_hygiene]:
    a key given to a store is in use or wiped. *)

From S2P Require Import Prelude UString UJson.

Open Scope Z_scope.

(** ** Data *)

Inductive Scope := transfer_create | balance_read | history_read | bank_admin_read.

#[export] Instance Scope_eq_dec : EqDecision Scope.
Proof. solve_decision. Defined.

Definition Scope_index (s : Scope) : nat :=
  match s with transfer_create => 0 | balance_read => 1 | history_read => 2 | bank_admin_read => 3 end.

Definition Scope_of_index (n : nat) : Scope :=
  match n with 0%nat => transfer_create | 1%nat => balance_read | 2%nat => history_read | _ => bank_admin_read end.

#[export] Instance Scope_countable : Countable Scope.
Proof. apply (inj_countable' Scope_index Scope_of_index). by intros []. Defined.

Definition scope_text (s : Scope) : ustr :=
  match s with
  | transfer_create => js "transfer:create"
  | balance_read => js "balance:read"
  | history_read => js "history:read"
  | bank_admin_read => js "bank-admin:read"
  end.

(** The address of a byte array. *)
Abbreviation addr := nat.

(** The serial, the ciphertexts and the expiry come from a parsed reply and are kept as they
    are. *)
Record AsSession := {
  as_clientId : ustr;
  as_certSn : ujson;
  as_tgt : ujson;
  as_sessionKey : addr;
  as_tgtExpiresAt : ujson;
  as_operationId : option ustr
}.

Record ServiceTicketSession := {
  st_scope : Scope;
  st_serviceId : ujson;
  st_ticketV : ujson;
  st_sessionKey : addr;
  st_ticketExpiresAt : ujson;
  st_clientId : ustr;
  st_certSn : ujson
}.

(** The module variables [current] and [tickets] and the byte arrays. *)
Record memory := {
  heap : list (list Z);
  current : option AsSession;
  tickets : gmap Scope ServiceTicketSession
}.

Definition empty_memory : memory := {| heap := []; current := None; tickets := ∅ |}.

Definition with_heap (h : list (list Z)) (m : memory) : memory :=
  {| heap := h; current := current m; tickets := tickets m |}.

(** ** Byte arrays *)

Definition zeros (bytes : list Z) : list Z := map (fun _ => 0) bytes.

(** [buffer.fill(0)]. *)
Definition fill_zero (a : addr) (m : memory) : memory := with_heap (alter zeros a (heap m)) m.

Definition read_buffer (a : addr) (m : memory) : list Z := default [] (heap m !! a).

(** A new [Uint8Array]. *)
Definition new_buffer (bytes : list Z) (m : memory) : memory * addr :=
  (with_heap (heap m ++ [bytes]) m, length (heap m)).

(** ** [as-exchange/session.ts] *)

Definition getSession (m : memory) : option AsSession := current m.

Definition clearSession (m : memory) : memory :=
  let m' := match current m with Some s => fill_zero (as_sessionKey s) m | None => m end in
  {| heap := heap m'; current := None; tickets := tickets m' |}.

Definition setSession (s : AsSession) (m : memory) : memory :=
  let m' := clearSession m in
  {| heap := heap m'; current := Some s; tickets := tickets m' |}.

(** [expiresAt * 1000 > Date.now()]; only a number is later than the clock. *)
Definition later_than (expiresAt : ujson) (now : Z) : bool :=
  match expiresAt with UNum n => now <? n * 1000 | _ => false end.

Definition hasValidTgt (m : memory) (now : Z) : bool :=
  match current m with Some s => later_than (as_tgtExpiresAt s) now | None => false end.

(** ** [tgs-exchange/session.ts] *)

Definition setServiceTicket (t : ServiceTicketSession) (m : memory) : memory :=
  let m' := match tickets m !! st_scope t with
            | Some old => fill_zero (st_sessionKey old) m
            | None => m
            end in
  {| heap := heap m'; current := current m'; tickets := <[st_scope t := t]> (tickets m') |}.

Definition getServiceTicket (s : Scope) (m : memory) : option ServiceTicketSession := tickets m !! s.

Definition hasValidServiceTicket (s : Scope) (m : memory) (now : Z) : bool :=
  match tickets m !! s with Some t => later_than (st_ticketExpiresAt t) now | None => false end.

(** The keys of the tickets, in the order of the map. *)
Definition ticket_keys (m : memory) : list addr := map (fun kt => st_sessionKey kt.2) (map_to_list (tickets m)).

Definition clearServiceTickets (m : memory) : memory :=
  let m' := foldr fill_zero m (ticket_keys m) in
  {| heap := heap m'; current := current m'; tickets := ∅ |}.

(** ** The operations as steps *)

Inductive session_command :=
| NewBuffer (bytes : list Z)
| ReadBuffer (a : addr)
| SetSession (s : AsSession)
| GetSession
| ClearSession
| SetServiceTicket (t : ServiceTicketSession)
| GetServiceTicket (s : Scope)
| ClearServiceTickets.

Definition session_reply (c : session_command) : Type :=
  match c with
  | NewBuffer _ => addr
  | ReadBuffer _ => list Z
  | GetSession => option AsSession
  | GetServiceTicket _ => option ServiceTicketSession
  | SetSession _ | ClearSession | SetServiceTicket _ | ClearServiceTickets => unit
  end.

Definition session_exec (c : session_command) (m : memory) : memory * session_reply c :=
  match c with
  | NewBuffer bytes => new_buffer bytes m
  | ReadBuffer a => (m, read_buffer a m)
  | SetSession s => (setSession s m, tt)
  | GetSession => (m, getSession m)
  | ClearSession => (clearSession m, tt)
  | SetServiceTicket t => (setServiceTicket t m, tt)
  | GetServiceTicket s => (m, getServiceTicket s m)
  | ClearServiceTickets => (clearServiceTickets m, tt)
  end.

Fixpoint exec_all (cs : list session_command) (m : memory) : memory :=
  match cs with [] => m | c :: cs' => exec_all cs' (session_exec c m).1 end.

(** ** Hygiene *)

(** The keys that a sequence of commands has given to the stores. *)
Definition given (c : session_command) : option addr :=
  match c with
  | SetSession s => Some (as_sessionKey s)
  | SetServiceTicket t => Some (st_sessionKey t)
  | _ => None
  end.

(** A key is in use when a store refers to it. *)
Definition in_use (m : memory) (a : addr) : Prop :=
  (exists s, current m = Some s /\ as_sessionKey s = a) \/
  (exists sc t, tickets m !! sc = Some t /\ st_sessionKey t = a).

Definition wiped (m : memory) (a : addr) : Prop := Forall (fun b => b = 0) (read_buffer a m).

Definition clean (m : memory) (a : addr) : Prop := in_use m a \/ wiped m a.

Lemma zeros_zero l : Forall (fun b => b = 0) (zeros l).
Proof. induction l; by constructor. Qed.

Lemma read_fill a b m :
  read_buffer b (fill_zero a m) = if decide (a = b) then zeros (read_buffer b m) else read_buffer b m.
Proof.
  unfold read_buffer, fill_zero. cbn. case_decide as Hab.
  - subst b. rewrite list_lookup_alter_eq. destruct (heap m !! a); reflexivity.
  - by rewrite list_lookup_alter_ne.
Qed.

Lemma wiped_fill a m : wiped (fill_zero a m) a.
Proof. unfold wiped. rewrite read_fill, decide_True by done. apply zeros_zero. Qed.

Lemma wiped_fill_mono a b m : wiped m b -> wiped (fill_zero a m) b.
Proof. unfold wiped. rewrite read_fill. case_decide; [intros _; apply zeros_zero | done]. Qed.

Lemma wiped_fills l b m : b ∈ l \/ wiped m b -> wiped (foldr fill_zero m l) b.
Proof.
  induction l as [|a l IH]; cbn [foldr]; intros H.
  - destruct H as [H|H]; [by apply elem_of_nil in H | done].
  - destruct (decide (a = b)) as [->|Hab]; [apply wiped_fill|]. apply wiped_fill_mono, IH.
    destruct H as [H|H]; [|by right]. apply elem_of_cons in H as [H|H]; [congruence | by left].
Qed.

Lemma wiped_heap m m' a : heap m' = heap m -> wiped m a -> wiped m' a.
Proof. unfold wiped, read_buffer. by intros ->. Qed.

Lemma elem_of_ticket_keys m a : a ∈ ticket_keys m <-> exists sc t, tickets m !! sc = Some t /\ st_sessionKey t = a.
Proof.
  unfold ticket_keys. rewrite list_elem_of_fmap. split.
  - intros ([sc t] & -> & Hin). apply elem_of_map_to_list in Hin. eauto.
  - intros (sc & t & Ht & <-). exists (sc, t). split; [done|]. by apply elem_of_map_to_list.
Qed.

Lemma wiped_new bytes m a : (a < length (heap m))%nat -> wiped m a -> wiped (new_buffer bytes m).1 a.
Proof.
  unfold wiped, read_buffer. cbn. intros Ha. by rewrite lookup_app_l.
Qed.

Lemma length_heap_exec c m : (length (heap m) <= length (heap (session_exec c m).1))%nat.
Proof.
  assert (Hf : forall a m, length (heap (fill_zero a m)) = length (heap m))
    by (intros; apply length_alter).
  destruct c as [bytes| | s | | | t | |]; cbn; [rewrite length_app; lia | done | | done | | | done |].
  - destruct (current m); rewrite ?Hf; done.
  - destruct (current m); rewrite ?Hf; done.
  - destruct (tickets m !! st_scope t); rewrite ?Hf; done.
  - induction (ticket_keys m) as [|a l IH]; cbn [foldr]; [done|]. by rewrite Hf.
Qed.

(** What a command may do to a key that it does not give. *)
Lemma clean_fill a b m m' :
  heap m' = heap (fill_zero a m) -> (in_use m b -> b <> a -> in_use m' b) -> clean m b -> clean m' b.
Proof.
  intros Hh Hu [Hb|Hb].
  - destruct (decide (b = a)) as [->|Hne]; [right; eapply wiped_heap; [exact Hh | apply wiped_fill]|].
    left. by apply Hu.
  - right. eapply wiped_heap; [exact Hh | by apply wiped_fill_mono].
Qed.

Lemma clean_clearSession b m : clean m b -> clean (clearSession m) b.
Proof.
  unfold clearSession. destruct (current m) as [s|] eqn:Hc.
  - apply (clean_fill (as_sessionKey s)); [done|]. intros [(s' & Hs' & <-)|Ht] Hne; [congruence | by right].
  - intros [[(s & Hs & _)|Ht]|Hw]; [congruence | left; by right | right; exact Hw].
Qed.

Lemma clean_setSession s b m : clean m b -> clean (setSession s m) b.
Proof.
  intros Hb. destruct (clean_clearSession b m Hb) as [[(s' & Hs' & _)|Ht]|Hw].
  - unfold clearSession in Hs'. cbn in Hs'. discriminate.
  - left. right. exact Ht.
  - right. exact Hw.
Qed.

Lemma clean_setTicket t b m : clean m b -> clean (setServiceTicket t m) b.
Proof.
  unfold setServiceTicket. destruct (tickets m !! st_scope t) as [old|] eqn:Ho.
  - apply (clean_fill (st_sessionKey old)); [done|]. intros [Hs|(sc & t' & Ht' & <-)] Hne; [by left|].
    right. exists sc, t'. split; [|done]. cbn. rewrite lookup_insert_ne; [done|]. intros <-. congruence.
  - intros [[Hs|(sc & t' & Ht' & <-)]|Hw]; [by left; left | | by right].
    left. right. exists sc, t'. split; [|done]. cbn. rewrite lookup_insert_ne; [done|]. intros <-. congruence.
Qed.

Lemma wiped_clearTickets b m :
  (exists sc t, tickets m !! sc = Some t /\ st_sessionKey t = b) \/ wiped m b -> wiped (clearServiceTickets m) b.
Proof. intros H. apply (wiped_fills (ticket_keys m) b m). by rewrite elem_of_ticket_keys. Qed.

Lemma current_fills l m : current (foldr fill_zero m l) = current m.
Proof. by induction l as [|a l IH]. Qed.

Lemma clean_clearTickets b m : clean m b -> clean (clearServiceTickets m) b.
Proof.
  intros [[(s & Hs & <-)|Ht]|Hw].
  - left. left. exists s. split; [|done]. cbn. by rewrite current_fills.
  - right. apply wiped_clearTickets. by left.
  - right. apply wiped_clearTickets. by right.
Qed.

Lemma clean_exec c b m : (b < length (heap m))%nat -> clean m b -> clean (session_exec c m).1 b.
Proof.
  destruct c; intros Hl Hb; cbn [session_exec fst]; [| exact Hb | by apply clean_setSession | exact Hb
    | by apply clean_clearSession | by apply clean_setTicket | exact Hb | by apply clean_clearTickets].
  destruct Hb as [Hu|Hw]; [by left | right; by apply wiped_new].
Qed.

Lemma clean_given c b m : given c = Some b -> clean (session_exec c m).1 b.
Proof.
  destruct c as [| | s | | | t | |]; try done; intros [= <-]; left.
  - left. by exists s.
  - right. exists (st_scope t), t. split; [|done]. cbn. apply lookup_insert_eq.
Qed.

(** Every key is a byte array that exists when it is given. *)
Fixpoint allocated (cs : list session_command) (m : memory) : bool :=
  match cs with
  | [] => true
  | c :: cs' =>
      match given c with Some a => bool_decide (a < length (heap m))%nat | None => true end &&
      allocated cs' (session_exec c m).1
  end.

Lemma clean_all cs b m :
  (b < length (heap m))%nat -> clean m b -> clean (exec_all cs m) b.
Proof.
  revert m. induction cs as [|c cs IH]; intros m Hl Hb; [done|]. cbn [exec_all]. apply IH.
  - pose proof (length_heap_exec c m). lia.
  - by apply clean_exec.
Qed.

Lemma all_given_clean cs b m :
  allocated cs m = true -> b ∈ omap given cs -> clean (exec_all cs m) b.
Proof.
  revert m. induction cs as [|c cs IH]; intros m Ha Hb; [by apply elem_of_nil in Hb|].
  cbn [allocated exec_all] in *. apply andb_true_iff in Ha as [Hc Ha].
  cbn [omap list_omap] in Hb. destruct (given c) as [a|] eqn:Hg; [|by apply IH].
  apply elem_of_cons in Hb as [->|Hb]; [|by apply IH]. apply bool_decide_eq_true in Hc.
  apply clean_all; [pose proof (length_heap_exec c m); lia | by apply clean_given].
Qed.

(** C15: the hygiene of session keys. Whatever sequence of operations the two
    stores go through from an empty memory, every key that was ever given to
    one of them is in use by the current session or by the ticket of a scope,
    or its byte array holds only zeros; and after the logout of the pages,
    [clearServiceTickets] and then [clearSession], all of them are zeros. *)
Theorem key_hygiene cs key :
  allocated cs empty_memory = true -> key ∈ omap given cs ->
  clean (exec_all cs empty_memory) key /\
  wiped (clearSession (clearServiceTickets (exec_all cs empty_memory))) key.
Proof.
  intros Ha Hk. pose proof (all_given_clean cs key empty_memory Ha Hk) as Hc. split; [exact Hc|].
  destruct (clean_clearTickets _ _ Hc) as [[(s & Hs & <-)|(sc & t & Ht & _)]|Hw].
  - unfold clearSession. rewrite Hs. eapply wiped_heap; [reflexivity | apply wiped_fill].
  - cbn in Ht. by rewrite lookup_empty in Ht.
  - unfold clearSession. destruct (current _); [|by eapply wiped_heap].
    eapply wiped_heap; [reflexivity | by apply wiped_fill_mono].
Qed.

Definition demo_session : AsSession :=
  {| as_clientId := js "u-1"; as_certSn := UStr (js "0a"); as_tgt := UStr (js "TGT"); as_sessionKey := 0%nat;
     as_tgtExpiresAt := UNum 100; as_operationId := None |}.

Definition demo_ticket (key : addr) : ServiceTicketSession :=
  {| st_scope := balance_read; st_serviceId := UStr (js "bank-service"); st_ticketV := UStr (js "TV");
     st_sessionKey := key; st_ticketExpiresAt := UNum 100; st_clientId := js "u-1"; st_certSn := UStr (js "0a") |}.

Definition demo_commands : list session_command :=
  [NewBuffer [1; 2; 3]; SetSession demo_session; NewBuffer [4; 5]; SetServiceTicket (demo_ticket 1);
   NewBuffer [6; 7]; SetServiceTicket (demo_ticket 2)].

Lemma key_hygiene_witness :
  clean (exec_all demo_commands empty_memory) 1%nat /\
  wiped (clearSession (clearServiceTickets (exec_all demo_commands empty_memory))) 1%nat.
Proof. apply (key_hygiene demo_commands 1%nat); [vm_compute; reflexivity|]. cbn. right. left. Defined.

Example replaced_key_is_wiped :
  heap (exec_all demo_commands empty_memory) = [[1; 2; 3]; [0; 0]; [6; 7]].
Proof. vm_compute. reflexivity. Qed.
