(* ===== verification/Browser.v ===== *)
(** * The browser client's effects ([api.service.ts], [db.service.ts], [operation-id.ts])

    The client's services draw random values, read the clock, call the gateway
    with [fetch], keep credentials in IndexedDB and sessions in memory. Each is
    an event; every [await] of Web Crypto is an event too ([Turn]), since other
    code of the page can run there. *)

From S2P Require Import Prelude Effects DerRead UString UJson X509 WebCrypto Sessions.

Open Scope Z_scope.

(** ** Exceptions *)

(** [PlatformError] is thrown by the browser itself: a [TypeError], a [SyntaxError]
    or a [DOMException], whose message is the browser's. *)
Inductive js_exception :=
| ApiError (code message : ustr) (status : Z)
| JsError (message : ustr)
| ChainError (e : chain_error)
| DerError (e : der_error)
| PlatformError (kind : string).

(** ** Data *)

(** [WrappedPrivateKey]; [v] is the constant 1. *)
Record WrappedPrivateKey := {
  wrapped : list Z;
  salt : list Z;
  wp_iv : list Z;
  iterations : Z
}.

Inductive EnrollmentScope := customer | bank_admin | ca_admin.

#[export] Instance EnrollmentScope_eq_dec : EqDecision EnrollmentScope.
Proof. solve_decision. Defined.

(** The certificate and the serial as the gateway's reply has them. *)
Record StoredCertificate := {
  sc_certificatePem : ujson;
  sc_serialNumber : ujson;
  sc_notAfter : string;
  sc_role : option EnrollmentScope
}.

Record StoredClientProfile := { pr_fullName : ustr; pr_role : option EnrollmentScope }.

(** The keys of the store [pki] and what is kept under each. *)
Inductive KEYS := wrappedPrivateKey | certificate | clientProfile.

Definition pki_value (k : KEYS) : Type :=
  match k with
  | wrappedPrivateKey => WrappedPrivateKey
  | certificate => StoredCertificate
  | clientProfile => StoredClientProfile
  end.

Record pki_entry := Entry { e_scope : EnrollmentScope; e_key : KEYS; e_value : pki_value e_key }.

Definition scope_name (s : EnrollmentScope) : ustr :=
  match s with customer => js "customer" | bank_admin => js "bank_admin" | ca_admin => js "ca_admin" end.

Definition key_name (k : KEYS) : ustr :=
  match k with
  | wrappedPrivateKey => js "wrapped_private_key"
  | certificate => js "certificate"
  | clientProfile => js "client_profile"
  end.

(** The key in the object store; the scopes do not share credentials. *)
Definition scopedKey (k : KEYS) (s : EnrollmentScope) : ustr := scope_name s ++ js ":" ++ key_name k.

Lemma scopedKey_inj k s k' s' : scopedKey k s = scopedKey k' s' -> k = k' /\ s = s'.
Proof. destruct k, s, k', s'; intros H; first [done | discriminate H]. Qed.

Record HttpRequest := {
  hr_method : string;
  hr_url : ustr;
  hr_headers : list (ustr * ustr);
  hr_body : option ujson
}.

(** A response; [rp_json] is [None] when its body is not JSON. *)
Record HttpReply := { rp_status : Z; rp_json : option ujson }.

(** ** Events *)

Inductive bevent :=
| GetRandomValues (n : Z)
| BrowserUUID
| BrowserNow
| Turn
| GenerateKey
| PssSalt
| Fetch (r : HttpRequest)
| IdbGet (s : EnrollmentScope) (k : KEYS)
| IdbPut (entries : list pki_entry)
| IdbDelete (s : EnrollmentScope) (k : KEYS)
| LocalGet (key : string)
| LocalSet (key : string) (value : ujson)
| LocalRemove (key : string)
| Session (c : session_command)
| AnchorRead
| AnchorWrite (st : AnchorState).

(** [AnchorRead] is what [verifyChainToRoot] finds: the outcome of fetching the
    root, the clock and the module variables of the two files. *)
#[export] Instance bevent_container `{Platform} `{WebCrypto} : Container bevent := fun e =>
  match e with
  | GetRandomValues _ | PssSalt => list Z
  | BrowserUUID => ustr
  | BrowserNow => Z
  | Turn | LocalSet _ _ | LocalRemove _ | AnchorWrite _ => unit
  | GenerateKey => RsaKey
  | Fetch _ => option HttpReply
  | IdbGet _ k => result js_exception (option (pki_value k))
  | IdbPut _ | IdbDelete _ _ => result js_exception unit
  | LocalGet _ => option ustr
  | Session c => session_reply c
  | AnchorRead => (fetch_reply * Z * AnchorState)%type
  end.

(** The client's configuration: [VITE_API_BASE_URL] and [VITE_ADMIN_SOC_TOKEN]. *)
Class ClientEnv := { VITE_API_BASE_URL : option ustr; VITE_ADMIN_SOC_TOKEN : option ustr }.

Definition toy_client_env : ClientEnv := {| VITE_API_BASE_URL := None; VITE_ADMIN_SOC_TOKEN := None |}.

(** ** Values from outside *)

Definition type_error : js_exception := PlatformError "TypeError".

(** [value.name]; [undefined] and [null] have no properties. *)
Definition uprop (name : string) (j : ujson) : result js_exception ujson :=
  match j with
  | UUndefined | UNull => Err type_error
  | UObj l => Ok (default UUndefined (ufield (js name) l))
  | _ => Ok UUndefined
  end.

Definition utruthy (j : ujson) : bool :=
  match j with
  | UUndefined | UNull => false
  | UBool b => b
  | UNum n => negb (n =? 0)
  | UStr s => negb (bool_decide (s = []))
  | UDec _ | UArr _ | UObj _ => true
  end.

(** [a || b]. *)
Definition uor (a b : ujson) : ujson := if utruthy a then a else b.

(** [a ?? b]. *)
Definition unullish (a b : ujson) : ujson := match a with UUndefined | UNull => b | _ => a end.

(** [String(value)]. *)
Fixpoint ustring (j : ujson) : ustr :=
  match j with
  | UUndefined => js "undefined"
  | UNull => js "null"
  | UBool true => js "true"
  | UBool false => js "false"
  | UNum n => js (JsString.Z_string n)
  | UDec s => s
  | UStr s => s
  | UArr l => join (js ",") (map (fun j => match j with UUndefined | UNull => [] | _ => ustring j end) l)
  | UObj _ => js "[object Object]"
  end.

(** [value === text]. *)
Definition is_text (s : ustr) (j : ujson) : bool := match j with UStr t => ustr_eqb t s | _ => false end.

Lemma is_text_true s j : is_text s j = true <-> j = UStr s.
Proof. destruct j; cbn; try (split; [discriminate | discriminate]). rewrite ustr_eqb_eq. naive_solver. Qed.

(** [(status >= 200 && status < 300)], [Response.ok]. *)
Definition rp_ok (r : HttpReply) : bool := (200 <=? rp_status r) && (rp_status r <? 300).

Section client.

Context `{P : Platform} `{W : WebCrypto} `{ClientEnv}.

Definition br (A : Type) : Type := prog bevent js_exception A.

Definition ask (e : bevent) : br (reply e) := Vis e Ret.

(** A call of Web Crypto that was awaited. *)
Definition awaited {A} (kind : string) (o : option A) : br A :=
  Vis Turn (fun _ => match o with Some a => Ret a | None => Raise (PlatformError kind) end).

(** A call of a method of texts. *)
Definition text_value (j : ujson) : br ustr := match j with UStr s => Ret s | _ => Raise type_error end.

Definition prop_of (name : string) (j : ujson) : br ujson := of_result (uprop name j).

(** ** [operation-id.ts] *)

Definition newOperationId : br ustr := ask BrowserUUID.

Definition operationHeaders (operationId : option ustr) : list (ustr * ustr) :=
  match operationId with
  | Some (u :: s) => [(js "X-Request-ID", u :: s)]
  | _ => []
  end.

(** ** [api.service.ts] *)

Definition strip_slash (s : ustr) : ustr :=
  match rev s with 47 :: r => rev r | _ => s end.

Definition BASE_URL : ustr := strip_slash (default [] VITE_API_BASE_URL).

(** [{...a, ...b}] of header objects: a later value replaces in place. *)
Definition assign (headers more : list (ustr * ustr)) : list (ustr * ustr) :=
  fold_left (fun acc kv =>
    if existsb (fun f => ustr_eqb f.1 kv.1) acc
    then map (fun f => if ustr_eqb f.1 kv.1 then kv else f) acc
    else acc ++ [kv]) more headers.

(** The texts that differ between [apiPost] and [apiGet]. *)
Record api_texts := { no_network : ustr; invalid_reply : ustr; failed : ustr }.

Definition post_texts : api_texts :=
  {| no_network := u8 "Không thể kết nối tới máy chủ"; invalid_reply := u8 "Phản hồi không hợp lệ (HTTP ";
     failed := u8 "Yêu cầu thất bại (HTTP " |}.

Definition get_texts : api_texts :=
  {| no_network := js "Khong the ket noi toi may chu"; invalid_reply := js "Phan hoi khong hop le (HTTP ";
     failed := js "Yeu cau that bai (HTTP " |}.

Definition with_status (text : ustr) (status : Z) : ustr :=
  text ++ js (JsString.Z_string status) ++ js ")".

(** What becomes of a parsed envelope. *)
Definition read_envelope (texts : api_texts) (r : HttpReply) (payload : ujson) : br ujson :=
  let* success := (if rp_ok r then prop_of "success" payload else Ret UUndefined) in
  if negb (rp_ok r) || negb (utruthy success) then
    let* code := prop_of "error_code" payload in
    let* message := prop_of "message" payload in
    Raise (ApiError (ustring (unullish code (UStr (js "UNKNOWN_ERROR"))))
             (ustring (unullish message (UStr (with_status (failed texts) (rp_status r)))))
             (rp_status r))
  else prop_of "data" payload.

Definition read_reply (texts : api_texts) (r : option HttpReply) : br ujson :=
  match r with
  | None => Raise (ApiError (js "NETWORK_ERROR") (no_network texts) 0)
  | Some r =>
      match rp_json r with
      | None => Raise (ApiError (js "INVALID_RESPONSE") (with_status (invalid_reply texts) (rp_status r)) (rp_status r))
      | Some payload => read_envelope texts r payload
      end
  end.

Definition apiPost (path : ustr) (body : ujson) (headers : list (ustr * ustr)) : br ujson :=
  let* id := ask BrowserUUID in
  Vis (Fetch {| hr_method := "POST"; hr_url := BASE_URL ++ path;
                hr_headers := assign [(js "Content-Type", js "application/json"); (js "X-Request-ID", id)] headers;
                hr_body := Some body |})
    (read_reply post_texts).

Definition apiGet (path : ustr) (headers : list (ustr * ustr)) : br ujson :=
  let* id := ask BrowserUUID in
  Vis (Fetch {| hr_method := "GET"; hr_url := BASE_URL ++ path;
                hr_headers := assign [(js "X-Request-ID", id)] headers; hr_body := None |})
    (read_reply get_texts).

(** ** [db.service.ts] over the store [pki] *)

Definition idb {A} (e : bevent) (k : reply e -> result js_exception A) : br A := Vis e (fun r => of_result (k r)).

Definition idbGet (s : EnrollmentScope) (k : KEYS) : br (option (pki_value k)) :=
  idb (IdbGet s k) (fun r => r).

Definition idbPutMany (entries : list pki_entry) : br unit := idb (IdbPut entries) (fun r => r).

Definition idbPut (e : pki_entry) : br unit := idbPutMany [e].

Definition idbDelete (s : EnrollmentScope) (k : KEYS) : br unit := idb (IdbDelete s k) (fun r => r).

(** ** [chain-verify.ts] as the services call it *)

Definition verify_chain (leafPem : ustr) (intermediatePems : list ustr) : br VerifiedLeaf :=
  Vis AnchorRead (fun found =>
    let '(net, now, st) := found in
    let '(r, st') := verifyChainToRoot net now leafPem intermediatePems st in
    Vis (AnchorWrite st') (fun _ =>
      match r with Ok leaf => Ret leaf | Err e => Raise (ChainError e) end)).

End client.

Arguments br {P W} A.
