(* ===== verification/KeyService.v ===== *)
(** * Keys in the browser ([key.service.ts])

    Wrapping a private key under a PIN, the three imports of a wrapped key, and
    the encryptions and signatures of the protocol. *)

From S2P Require Import Prelude Effects JsString UString UJson WebCrypto Sessions Browser.

Open Scope Z_scope.

Definition PBKDF2_ITERATIONS : Z := 210000.
Definition SALT_BYTES : Z := 16.
Definition IV_BYTES : Z := 12.

(** A private [CryptoKey] can do what it was imported for. *)
Inductive KeyUse := RSASSA_sign | RSA_OAEP_decrypt | RSA_PSS_sign.

#[export] Instance KeyUse_eq_dec : EqDecision KeyUse.
Proof. solve_decision. Defined.

Record PrivateKey `{WebCrypto} := { pk_use : KeyUse; pk_rsa : RsaKey }.

(** What [importKey(raw, ..., AES-GCM)] accepts. *)
Definition aes_key_ok (key : list Z) : bool :=
  bool_decide (zlen key = 16 \/ zlen key = 24 \/ zlen key = 32).

Section keys.

Context `{P : Platform} `{W : WebCrypto}.

Definition generateClientKeyPair : br PrivateKey :=
  Vis GenerateKey (fun k => Ret {| pk_use := RSASSA_sign; pk_rsa := k |}).

Definition exportPublicKeySpki (key : PrivateKey) : br (list Z) :=
  awaited "InvalidAccessError" (Some (rsa_spki (pk_rsa key))).

(** [b64.match(/.{1,64}/g)]. *)
Definition derToPem (der : list Z) (label : ustr) : ustr :=
  let b64 := bytesToBase64 der in
  let fix lines (fuel : nat) (s : ustr) : list ustr :=
    match fuel, s with S f, _ :: _ => take 64 s :: lines f (drop 64 s) | _, _ => [] end in
  js "-----BEGIN " ++ label ++ js "-----" ++ [10] ++ join [10] (lines (length b64) b64) ++ [10] ++
  js "-----END " ++ label ++ js "-----" ++ [10].

Definition exportPublicKeyPem (key : PrivateKey) : br ustr :=
  let* spki := exportPublicKeySpki key in Ret (derToPem spki (js "PUBLIC KEY")).

Definition deriveWrapKey (pin : ustr) (salt : list Z) (iterations : Z) : br (list Z) :=
  let* pinKey := awaited "DataError" (Some (textEncode pin)) in
  awaited "OperationError" (Some (pbkdf2 pinKey salt iterations)).

Definition wrapPrivateKey (privateKey : PrivateKey) (pin : ustr) : br WrappedPrivateKey :=
  let* salt := ask (GetRandomValues SALT_BYTES) in
  let* iv := ask (GetRandomValues IV_BYTES) in
  let* wrapKey := deriveWrapKey pin salt PBKDF2_ITERATIONS in
  let* wrapped := awaited "OperationError" (gcm_seal wrapKey iv (rsa_pkcs8 (pk_rsa privateKey))) in
  Ret {| wrapped := wrapped; salt := salt; wp_iv := iv; iterations := PBKDF2_ITERATIONS |}.

(** [unwrapKey(pkcs8, ...)]: a wrong PIN fails the authentication of AES-GCM. *)
Definition unwrap_as (use : KeyUse) (blob : WrappedPrivateKey) (pin : ustr) : br PrivateKey :=
  let* wrapKey := deriveWrapKey pin (salt blob) (iterations blob) in
  let* k := awaited "OperationError"
    (match gcm_open wrapKey (wp_iv blob) (wrapped blob) with
     | Some pkcs8 => import_pkcs8 pkcs8
     | None => None
     end) in
  Ret {| pk_use := use; pk_rsa := k |}.

Definition unwrapPrivateKey : WrappedPrivateKey -> ustr -> br PrivateKey := unwrap_as RSASSA_sign.
Definition unwrapDecryptionKey : WrappedPrivateKey -> ustr -> br PrivateKey := unwrap_as RSA_OAEP_decrypt.
Definition unwrapPssSigningKey : WrappedPrivateKey -> ustr -> br PrivateKey := unwrap_as RSA_PSS_sign.

(** The key must have been imported for the operation. *)
Definition for_use (use : KeyUse) (key : PrivateKey) : br RsaKey :=
  if decide (pk_use key = use) then Ret (pk_rsa key) else Raise (PlatformError "InvalidAccessError").

Definition rsaOaepDecrypt (privateKey : PrivateKey) (data : list Z) (label : ustr) : br (list Z) :=
  let* k := for_use RSA_OAEP_decrypt privateKey in
  awaited "OperationError" (oaep_open k (textEncode label) data).

(** The key's bytes are copied by [importKey], when the function is called. *)
Definition import_aes (keyBytes : list Z) : br (list Z) :=
  awaited "DataError" (if aes_key_ok keyBytes then Some keyBytes else None).

Definition aesGcmDecrypt (keyBytes ivAndCiphertext : list Z) : br (list Z) :=
  let* key := import_aes keyBytes in
  let iv := take (Z.to_nat IV_BYTES) ivAndCiphertext in
  let ciphertext := drop (Z.to_nat IV_BYTES) ivAndCiphertext in
  awaited "OperationError" (gcm_open key iv ciphertext).

Definition aesGcmEncrypt (keyBytes plaintext : list Z) : br (list Z) :=
  let* key := import_aes keyBytes in
  let* iv := ask (GetRandomValues IV_BYTES) in
  let* ciphertext := awaited "OperationError" (gcm_seal key iv plaintext) in
  Ret (iv ++ ciphertext).

Definition signRsaSha256 (privateKey : PrivateKey) (data : list Z) : br (list Z) :=
  let* k := for_use RSASSA_sign privateKey in
  awaited "OperationError" (Some (pkcs1_sign k data)).

Definition signRsaPss (privateKey : PrivateKey) (data : list Z) : br (list Z) :=
  let* k := for_use RSA_PSS_sign privateKey in
  let* salt := ask PssSalt in
  Ret (pss_sign k salt data).

Definition verifyRsaPss (publicKey : CryptoKey) (signature data : list Z) : br bool :=
  awaited "InvalidAccessError" (Some (pssVerify publicKey signature data)).

(** A key that lives in the session stores, read when the call is made. *)
Definition with_key {A} (key : addr) (k : list Z -> br A) : br A := Vis (Session (ReadBuffer key)) k.

(** [new TextDecoder().decode(bytes)] and [JSON.parse]. *)
Definition parse_json (bytes : list Z) : br ujson :=
  match uparse (textDecode bytes) with
  | Some j => Ret j
  | None => Raise (PlatformError "SyntaxError")
  end.

(** [base64ToBytes(value)] of a field of a reply. *)
Definition base64_of (j : ujson) : br (list Z) :=
  match base64ToBytes (ustring j) with
  | Some bytes => Ret bytes
  | None => Raise (PlatformError "InvalidCharacterError")
  end.

End keys.
