(* ===== verification/ClientLogic.v ===== *)
(** * Reasoning about the client's programs

    What each step of a client program establishes about the run, as [yields]
    lemmas collected in the database [client]. *)

From S2P Require Import Prelude Effects UString UJson X509 WebCrypto Sessions Browser KeyService.

Open Scope Z_scope.

Section logic.

Context `{P : Platform} `{W : WebCrypto} `{ClientEnv}.

Definition btrace : Type := trace (E := bevent).

(** The run made the request and got the answer. *)
Definition observed (e : bevent) (r : reply e) (t : btrace) : Prop := Obs e r ∈ t.

Lemma observed_app e r t1 t2 : observed e r (t1 ++ t2) <-> observed e r t1 \/ observed e r t2.
Proof. apply elem_of_app. Qed.

Lemma observed_l e r t1 t2 : observed e r t1 -> observed e r (t1 ++ t2).
Proof. intros ?. apply observed_app. by left. Qed.

Lemma observed_r e r t1 t2 : observed e r t2 -> observed e r (t1 ++ t2).
Proof. intros ?. apply observed_app. by right. Qed.

(** The first observation of a trace and the rest. *)
Lemma observed_here e r t : observed e r (Obs e r :: t).
Proof. apply list_elem_of_here. Qed.

Lemma observed_later e r o t : observed e r t -> observed e r (o :: t).
Proof. apply list_elem_of_further. Qed.

Lemma not_observed (Q : bevent -> Prop) e r t :
  Forall (fun o => Q (request o)) t -> ~ Q e -> ~ observed e r t.
Proof. intros Hf Hq Ho. rewrite Forall_forall in Hf. exact (Hq (Hf _ Ho)). Qed.

Lemma yields_ask Q e : Q e -> yields Q (ask e) (fun t r => observed e r t).
Proof. intros He. apply yields_vis; [done|]. intros r. apply yields_ret, observed_here. Qed.

Lemma yields_awaited {A} (Q : bevent -> Prop) kind (o : option A) :
  Q Turn -> yields Q (awaited kind o) (fun _ a => o = Some a).
Proof.
  intros Hq. apply yields_vis; [done|]. intros []. destruct o; [by apply yields_ret | apply yields_raise].
Qed.

Lemma yields_prop Q n j : yields Q (prop_of n j) (fun _ v => uprop n j = Ok v).
Proof. unfold prop_of. destruct (uprop n j); [by apply yields_ret | apply yields_raise]. Qed.

Lemma yields_text Q j : yields Q (text_value j) (fun _ s => j = UStr s).
Proof. destruct j; first [by apply yields_ret | apply yields_raise]. Qed.

Lemma yields_base64 Q j : yields Q (base64_of j) (fun _ b => atob (ustring j) = Some b).
Proof.
  unfold base64_of, base64ToBytes. destruct (atob (ustring j)); [by apply yields_ret | apply yields_raise].
Qed.

Lemma yields_parse Q bytes : yields Q (parse_json bytes) (fun _ j => uparse (textDecode bytes) = Some j).
Proof.
  unfold parse_json. destruct (uparse (textDecode bytes)); [by apply yields_ret | apply yields_raise].
Qed.

(** What [verify_chain] established: a path to a root that the client trusted. *)
Definition chain_verified (chain : ustr) (more : list ustr) (leaf : VerifiedLeaf) (t : btrace) : Prop :=
  exists net now st certs root c rest key st',
    observed AnchorRead (net, now, st) t /\
    chain_certs chain more = Ok certs /\ anchor net st = (Ok root, st') /\
    path_to_root root now false certs /\ valid_at now root /\
    certs = c :: rest /\ importPssKey (spkiRaw c) = Some key /\
    leaf = {| leafCN := subjectCN c; publicKeyPss := key; publicKeySpki := spkiRaw c |}.

Lemma yields_verify_chain (Q : bevent -> Prop) chain more :
  (forall st, Q (AnchorWrite st)) -> Q AnchorRead ->
  yields Q (verify_chain chain more) (fun t leaf => chain_verified chain more leaf t).
Proof.
  intros Hw Hr. apply yields_vis; [done|]. intros [[net now] st].
  destruct (verifyChainToRoot net now chain more st) as [r st'] eqn:Hv.
  apply yields_vis; [done|]. intros []. destruct r as [leaf|]; [|apply yields_raise]. apply yields_ret.
  unfold verifyChainToRoot in Hv. destruct (chain_certs chain more) as [certs|] eqn:Hc; [|congruence].
  destruct (anchor net st) as [[root|] st''] eqn:Ha; [|congruence]. injection Hv as Hv _.
  apply verify_certs_spec in Hv as (Hp & Hn & c & rest & key & -> & Hk & Hl);
    [|by eapply chain_certs_nonempty].
  exists net, now, st, (c :: rest), root, c, rest, key, st''. split_and!; try done. apply observed_here.
Qed.

Lemma chain_verified_l chain more leaf t1 t2 :
  chain_verified chain more leaf t1 -> chain_verified chain more leaf (t1 ++ t2).
Proof.
  intros (net & now & st & certs & root & c & rest & key & st' & Ho & Hr).
  exists net, now, st, certs, root, c, rest, key, st'. split; [by apply observed_l | done].
Qed.

Lemma chain_verified_r chain more leaf t1 t2 :
  chain_verified chain more leaf t2 -> chain_verified chain more leaf (t1 ++ t2).
Proof.
  intros (net & now & st & certs & root & c & rest & key & st' & Ho & Hr).
  exists net, now, st, certs, root, c, rest, key, st'. split; [by apply observed_r | done].
Qed.

(** Requests other than the writes to the session stores. *)
Definition quiet (e : bevent) : Prop :=
  match e with Session (SetSession _) | Session (SetServiceTicket _) => False | _ => True end.

(** AES-GCM with a fixed key. *)
Lemma yields_decrypt (Q : bevent -> Prop) key box : Q Turn ->
  yields Q (aesGcmDecrypt key box)
    (fun _ text => gcm_open key (take (Z.to_nat IV_BYTES) box) (drop (Z.to_nat IV_BYTES) box) = Some text).
Proof.
  intros Hq. unfold aesGcmDecrypt, import_aes.
  eapply yields_bind; [by apply yields_awaited|]. intros t k Hk.
  destruct (aes_key_ok key); [|discriminate]. injection Hk as ->.
  eapply yields_mono; [|by apply yields_awaited]. done.
Qed.

Lemma yields_encrypt (Q : bevent -> Prop) key text : Q Turn -> Q (GetRandomValues IV_BYTES) ->
  yields Q (aesGcmEncrypt key text)
    (fun t box => exists iv c, observed (GetRandomValues IV_BYTES) iv t /\ gcm_seal key iv text = Some c /\
                               box = iv ++ c).
Proof.
  intros Hq Hr. unfold aesGcmEncrypt, import_aes.
  eapply yields_bind; [by apply yields_awaited|]. intros t k Hk.
  destruct (aes_key_ok key); [|discriminate]. injection Hk as ->.
  eapply yields_bind; [by apply yields_ask|]. intros t2 iv Hiv.
  eapply yields_bind; [by apply yields_awaited|]. intros t3 c Hc. apply yields_ret.
  exists iv, c. split; [|done]. apply observed_r, observed_l, Hiv.
Qed.

Lemma yields_with_key {A} (Q : bevent -> Prop) a (k : list Z -> br A) F :
  Q (Session (ReadBuffer a)) -> (forall key, yields Q (k key) (fun t b => F key (Obs (Session (ReadBuffer a)) key :: t) b)) ->
  yields Q (with_key a k) (fun t b => exists key : list Z, observed (Session (ReadBuffer a)) key t /\ F key t b).
Proof.
  intros Hq Hk. apply yields_vis; [done|]. intros key. eapply yields_mono; [|apply Hk].
  intros t b Hb. exists key. split; [apply observed_here | done].
Qed.

(** The private key inside a wrapped one, when the PIN is right. *)
Definition unwrapped (blob : WrappedPrivateKey) (pin : ustr) : option RsaKey :=
  match gcm_open (pbkdf2 (textEncode pin) (salt blob) (iterations blob)) (wp_iv blob) (wrapped blob) with
  | Some pkcs8 => import_pkcs8 pkcs8
  | None => None
  end.

Lemma yields_derive (Q : bevent -> Prop) pin salt n : Q Turn ->
  yields Q (deriveWrapKey pin salt n) (fun _ key => key = pbkdf2 (textEncode pin) salt n).
Proof.
  intros Hq. unfold deriveWrapKey. eapply yields_bind; [by apply yields_awaited|]. intros t k [= <-].
  eapply yields_mono; [|by apply yields_awaited]. by intros t2 key [= ->].
Qed.

Lemma yields_unwrap (Q : bevent -> Prop) use blob pin : Q Turn ->
  yields Q (unwrap_as use blob pin) (fun _ k => unwrapped blob pin = Some (pk_rsa k) /\ pk_use k = use).
Proof.
  intros Hq. unfold unwrap_as. eapply yields_bind; [by apply yields_derive|]. intros t key ->. eapply yields_bind; [by apply yields_awaited|]. intros t2 k Hk. by apply yields_ret.
Qed.

Lemma yields_for_use Q use key : yields Q (for_use use key) (fun _ k => k = pk_rsa key /\ pk_use key = use).
Proof. unfold for_use. case_decide; [by apply yields_ret | apply yields_raise]. Qed.

Lemma yields_oaep (Q : bevent -> Prop) key data label : Q Turn ->
  yields Q (rsaOaepDecrypt key data label) (fun _ b => oaep_open (pk_rsa key) (textEncode label) data = Some b).
Proof.
  intros Hq. unfold rsaOaepDecrypt. eapply yields_bind; [apply yields_for_use|]. intros t r [-> _].
  by apply yields_awaited.
Qed.

Lemma yields_sign (Q : bevent -> Prop) key data : Q Turn ->
  yields Q (signRsaSha256 key data) (fun _ b => b = pkcs1_sign (pk_rsa key) data).
Proof.
  intros Hq. unfold signRsaSha256. eapply yields_bind; [apply yields_for_use|]. intros t r [-> _].
  eapply yields_mono; [|by apply yields_awaited]. by intros t2 b [= ->].
Qed.

Lemma yields_signPss (Q : bevent -> Prop) key data : Q PssSalt ->
  yields Q (signRsaPss key data)
    (fun t b => exists salt, observed PssSalt salt t /\ b = pss_sign (pk_rsa key) salt data).
Proof.
  intros Hq. unfold signRsaPss. eapply yields_bind; [apply yields_for_use|]. intros t r [-> _].
  eapply yields_bind; [by apply yields_ask|]. intros t2 s Hs. apply yields_ret. exists s.
  split; [by apply observed_r, observed_l | done].
Qed.

Lemma yields_verifyPss (Q : bevent -> Prop) key sig data : Q Turn ->
  yields Q (verifyRsaPss key sig data) (fun _ b => b = pssVerify key sig data).
Proof. intros Hq. eapply yields_mono; [|by apply yields_awaited]. by intros t b [= ->]. Qed.

(** A successful reply of the gateway and its data. *)
Definition replied (rep : HttpReply) (data : ujson) : Prop :=
  exists envelope success, rp_ok rep = true /\ rp_json rep = Some envelope /\
    uprop "success" envelope = Ok success /\ utruthy success = true /\ uprop "data" envelope = Ok data.

Definition called (path : ustr) (body : ujson) (t : btrace) (data : ujson) : Prop :=
  exists req rep, observed (Fetch req) (Some rep) t /\ hr_url req = BASE_URL ++ path /\
    hr_body req = Some body /\ replied rep data.

Lemma yields_reply Q texts r :
  yields Q (read_reply texts r) (fun _ data => exists rep, r = Some rep /\ replied rep data).
Proof.
  unfold read_reply. destruct r as [rep|]; [|apply yields_raise].
  destruct (rp_json rep) as [envelope|] eqn:Hj; [|apply yields_raise]. unfold read_envelope.
  destruct (rp_ok rep) eqn:Hok; cbn [negb orb].
  - eapply yields_bind; [apply yields_prop|]. intros t success Hs. destruct (utruthy success) eqn:Ht; cbn [negb].
    + eapply yields_mono; [|apply yields_prop]. intros t2 data Hd. exists rep. split; [done|].
      by exists envelope, success.
    + eapply yields_bind; [apply yields_prop|]. intros. eapply yields_bind; [apply yields_prop|].
      intros. apply yields_raise.
  - eapply yields_bind; [by apply (yields_ret _ _ (fun _ _ => True))|]. intros.
    eapply yields_bind; [apply yields_prop|]. intros. eapply yields_bind; [apply yields_prop|].
    intros. apply yields_raise.
Qed.

Lemma yields_apiPost (Q : bevent -> Prop) path body headers :
  Q BrowserUUID -> (forall r, Q (Fetch r)) -> yields Q (apiPost path body headers) (called path body).
Proof.
  intros Hu Hf. unfold apiPost. eapply yields_bind; [by apply yields_ask|]. intros t id _.
  apply yields_vis; [done|]. intros r. eapply yields_mono; [|apply yields_reply].
  intros t2 data (rep & -> & Hr). eexists _, rep. split_and!;
    [apply observed_r, observed_here | reflexivity | reflexivity | exact Hr].
Qed.

Lemma called_l path body t1 t2 data : called path body t1 data -> called path body (t1 ++ t2) data.
Proof. intros (req & rep & Ho & Hr). exists req, rep. split; [by apply observed_l | done]. Qed.

Lemma called_r path body t1 t2 data : called path body t2 data -> called path body (t1 ++ t2) data.
Proof. intros (req & rep & Ho & Hr). exists req, rep. split; [by apply observed_r | done]. Qed.

(** The bytes in a base64 field of a reply. *)
Definition base64_field (name : string) (j : ujson) (bytes : list Z) : Prop :=
  exists v, uprop name j = Ok v /\ atob (ustring v) = Some bytes.

Lemma yields_bool (Q : bevent -> Prop) kind (b : bool) : Q Turn -> yields Q (awaited kind (Some b)) (fun _ c => c = b).
Proof. intros Hq. eapply yields_mono; [|by apply yields_awaited]. intros t c Hc. by injection Hc as ->. Qed.

End logic.

Arguments btrace {P W}.

(** Find a fact of one part of the trace in the whole. *)
Ltac on_trace :=
  repeat first [assumption | apply observed_here | apply observed_l; assumption | apply observed_r
               | apply observed_later | apply chain_verified_l; assumption | apply chain_verified_r
               | apply called_l; assumption | apply called_r].

Create HintDb client discriminated.

#[export] Hint Resolve yields_ask yields_awaited yields_prop yields_text yields_base64 yields_parse
  yields_verify_chain yields_decrypt yields_encrypt yields_bool yields_unwrap yields_for_use yields_apiPost
  yields_oaep yields_sign yields_signPss yields_verifyPss : client.
#[export] Hint Extern 1 (quiet _) => exact I : client.

(** One step of a sequence whose requests are unconstrained in the conclusion. *)
Tactic Notation "client_step" simple_intropattern(t) simple_intropattern(a) simple_intropattern(Ha) :=
  eapply yields_bind; [solve [eauto with client nocore] | cbv beta; intros t a Ha].

(** Requests of a program, by structure. *)
Ltac client_side := first [exact I | reflexivity | done].
Ltac client_emits := emits_all client_side.
