(* ===== verification/Exchange.v ===== *)
(** * Getting tickets ([as-exchange.service.ts], [tgs-exchange.service.ts])

    The AS exchange with the user's key and the TGS exchange with the session
    key, the gateway calls and the checks of every reply. [as_exchange_sound]
    and [tgs_exchange_sound]: a session or a ticket is kept only for a reply
    that passed all of them. *)

From S2P Require Import Prelude Effects UString UJson X509 CertParser WebCrypto Sessions Browser KeyService ClientLogic.

Open Scope Z_scope.

Section exchange.

Context `{P : Platform} `{W : WebCrypto} `{ClientEnv}.

(** ** The stored credentials ([pki-registration.service.ts]) *)

Definition getStoredCertificate (s : EnrollmentScope) : br (option StoredCertificate) := idbGet s certificate.

Definition getStoredClientProfile (s : EnrollmentScope) : br (option StoredClientProfile) := idbGet s clientProfile.

Definition getWrappedPrivateKey (s : EnrollmentScope) : br (option WrappedPrivateKey) :=
  idbGet s wrappedPrivateKey.

(** ** The session stores as events *)

Definition session (c : session_command) : br (session_reply c) := Vis (Session c) Ret.

(** A session or ticket with a new byte array for its key. *)
Definition store (key : list Z) (c : addr -> session_command) : br unit :=
  Vis (Session (NewBuffer key)) (fun a => Vis (Session (c a)) (fun _ => Ret tt)).

Definition clock : br Z := ask BrowserNow.

(** [Math.floor(Date.now() / 1000)]. *)
Definition unix_now : br Z := Vis BrowserNow (fun ms => Ret (ms / 1000)).

Definition valid_tgt : br bool :=
  Vis (Session GetSession) (fun s =>
    match s with
    | None => Ret false
    | Some s => Vis BrowserNow (fun now => Ret (later_than (as_tgtExpiresAt s) now))
    end).

Definition valid_ticket (sc : Scope) : br bool :=
  Vis (Session (GetServiceTicket sc)) (fun t =>
    match t with
    | None => Ret false
    | Some t => Vis BrowserNow (fun now => Ret (later_than (st_ticketExpiresAt t) now))
    end).

(** ** [as-exchange.api.ts] *)

Record AsReqParams := {
  ar_clientId : ustr; ar_certSn : ujson; ar_nonce : ustr; ar_timestamp : Z; ar_preAuthSignature : ustr;
  ar_operationId : option ustr
}.

Definition as_body (p : AsReqParams) : ujson :=
  UObj [(js "clientId", UStr (ar_clientId p)); (js "certSn", ar_certSn p);
        (js "nonce", UStr (ar_nonce p)); (js "timestamp", UNum (ar_timestamp p));
        (js "preAuthSignature", UStr (ar_preAuthSignature p))].

Definition postAsReq (p : AsReqParams) : br ujson :=
  apiPost (js "/v1/auth/as-req") (as_body p) (operationHeaders (ar_operationId p)).

(** ** [performAsExchange] *)

Definition NONCE_BYTES : Z := 16.
Definition OAEP_LABEL : ustr := js "AS_REP".
Definition KDC_SIGNER_CN : ustr := js "kdc-service".

(** The signed text, in the field order of the KDC. *)
Definition as_canonical (certSn : ujson) (clientId nonce : ustr) (timestamp : Z) : ustr :=
  ustringify (UObj [(js "cert_sn", certSn); (js "owner_id", UStr clientId);
                    (js "nonce", UStr nonce); (js "timestamp", UNum timestamp)]).

(** Opening an AS_REP: the bytes that the KDC signed. *)
Definition open_as_rep (blob : WrappedPrivateKey) (pin : ustr) (asRep : ujson) : br (list Z) :=
  let* decryptionKey := unwrapDecryptionKey blob pin in
  let* key_text := prop_of "encrypted_key" asRep in
  let* encrypted_key := base64_of key_text in
  let* aesKey := rsaOaepDecrypt decryptionKey encrypted_key OAEP_LABEL in
  let* payload_text := prop_of "encrypted_payload" asRep in
  let* encrypted_payload := base64_of payload_text in
  aesGcmDecrypt aesKey encrypted_payload.

(** Who signed it: the chain, its common name and the signature. *)
Definition verify_kdc (asRep : ujson) (payloadPlaintext : list Z) : br unit :=
  let* chain := prop_of "kdc_cert_chain" asRep in
  if negb (utruthy chain) then
    Raise (JsError (u8 "AS_REP thiếu kdc_cert_chain — không thể xác minh danh tính KDC"))
  else
    let* leaf := verify_chain (ustring chain) [] in
    if negb (ustr_eqb (leafCN leaf) KDC_SIGNER_CN) then
      Raise (JsError (u8 "Cert ký AS_REP có CN không đúng (" ++
        (match leafCN leaf with [] => u8 "rỗng" | cn => cn end) ++ u8 ") — nghi ngờ giả mạo KDC"))
    else
      let* sig_text := prop_of "kdc_signature" asRep in
      let* sig := base64_of sig_text in
      let* ok := verifyRsaPss (publicKeyPss leaf) sig payloadPlaintext in
      if ok then Ret tt
      else Raise (JsError (u8 "Chữ ký KDC trên AS_REP không hợp lệ — nghi ngờ giả mạo KDC/gateway MITM")).

Record AsExchangeResult := { ax_clientId : ustr; ax_certSn : ujson; ax_tgtExpiresAt : ujson }.

(** The checks of the reply to a request with nonce [nonceB64]: the TGT, the
    session key and the expiry. *)
Definition check_as_rep (blob : WrappedPrivateKey) (pin nonceB64 : ustr) (resp : ujson)
    : br (ujson * list Z * ujson) :=
  let* enc := prop_of "encrypted_payload" resp in
  let* rep_bytes := base64_of enc in
  let* asRep := parse_json rep_bytes in
  let* payloadPlaintext := open_as_rep blob pin asRep in
  let* payload := parse_json payloadPlaintext in
  do* verify_kdc asRep payloadPlaintext in
  let* nonce_1 := prop_of "nonce_1" payload in
  if negb (is_text nonceB64 nonce_1) then
    Raise (JsError (u8 "AS_REP nonce không khớp — nghi ngờ MITM/replay"))
  else
    let* tgt := prop_of "tgt" payload in
    let* key_text := prop_of "k_c_tgs" payload in
    let* key := base64_of key_text in
    let* expiry := prop_of "tgt_expiry" resp in
    Ret (tgt, key, expiry).

(** What the request was made with, and its reply. *)
Record as_sent := {
  sent_blob : WrappedPrivateKey; sent_clientId : ustr; sent_certSn : ujson; sent_nonce : ustr;
  sent_resp : ujson
}.

Definition send_as_req (pin : ustr) (scope : EnrollmentScope) (operationId : option ustr) : br as_sent :=
  let* cert := getStoredCertificate scope in
  match cert with
  | None => Raise (JsError (u8 "Chưa đăng ký PKI: không tìm thấy certificate"))
  | Some cert =>
      let* blob := getWrappedPrivateKey scope in
      match blob with
      | None => Raise (JsError (u8 "Không tìm thấy private key đã lưu"))
      | Some blob =>
          let* pem := text_value (sc_certificatePem cert) in
          let* clientId := match extractOwnerIdFromCertificate pem with
                           | Ok id => Ret id
                           | Err e => Raise (DerError e)
                           end in
          let certSn := sc_serialNumber cert in
          let* nonce := ask (GetRandomValues NONCE_BYTES) in
          let nonceB64 := bytesToBase64 nonce in
          let* timestamp := unix_now in
          let canonicalBytes := textEncode (as_canonical certSn clientId nonceB64 timestamp) in
          let* signingKey := unwrapPrivateKey blob pin in
          let* signature := signRsaSha256 signingKey canonicalBytes in
          let* resp := postAsReq
            {| ar_clientId := clientId; ar_certSn := certSn; ar_nonce := nonceB64;
               ar_timestamp := timestamp; ar_preAuthSignature := bytesToBase64 signature;
               ar_operationId := operationId |} in
          Ret {| sent_blob := blob; sent_clientId := clientId; sent_certSn := certSn;
                 sent_nonce := nonceB64; sent_resp := resp |}
      end
  end.

Definition performAsExchange (pin : ustr) (scope : EnrollmentScope) (operationId : option ustr)
    : br AsExchangeResult :=
  let* rq := send_as_req pin scope operationId in
  let* (tgt, key, expiry) := check_as_rep (sent_blob rq) pin (sent_nonce rq) (sent_resp rq) in
  do* store key (fun a => SetSession
    {| as_clientId := sent_clientId rq; as_certSn := sent_certSn rq; as_tgt := tgt; as_sessionKey := a;
       as_tgtExpiresAt := expiry; as_operationId := operationId |}) in
  Ret {| ax_clientId := sent_clientId rq; ax_certSn := sent_certSn rq; ax_tgtExpiresAt := expiry |}.

(** ** [tgs-exchange.api.ts] *)

Record TgsReqParams := {
  tp_serviceId : ustr; tp_tgtCiphertext : ujson; tp_authenticator : ustr; tp_certSn : ujson;
  tp_nonce : ustr; tp_requestedScope : Scope; tp_operationId : option ustr
}.

Definition tgs_body (p : TgsReqParams) : ujson :=
  UObj [(js "serviceId", UStr (tp_serviceId p)); (js "tgtCiphertext", tp_tgtCiphertext p);
        (js "authenticator", UStr (tp_authenticator p)); (js "certSn", tp_certSn p);
        (js "nonce", UStr (tp_nonce p)); (js "requestedScope", UStr (scope_text (tp_requestedScope p)))].

Definition postTgsReq (p : TgsReqParams) : br ujson :=
  apiPost (js "/v1/auth/tgs-req") (tgs_body p) (operationHeaders (tp_operationId p)).

(** ** [performTgsExchange] *)

Definition SERVICE_ID : ustr := js "bank-service".

Record TgsExchangeResult := { tx_scope : Scope; tx_serviceId : ujson; tx_ticketExpiresAt : ujson }.

Definition tgs_authenticator (clientId nonce requestId : ustr) (timestamp : Z) (scope : Scope) : ustr :=
  ustringify (UObj [(js "client_id", UStr clientId); (js "ts_3", UNum timestamp);
                    (js "nonce_req", UStr nonce); (js "request_id", UStr requestId);
                    (js "requested_service", UStr SERVICE_ID); (js "scope", UStr (scope_text scope))]).

(** The checks of the reply: service, ticket, key and expiry. *)
Definition check_tgs_rep (tgt : AsSession) (scope : Scope) (nonceB64 : ustr) (resp : ujson)
    : br (ujson * ujson * list Z * ujson) :=
  let* enc := prop_of "encrypted_payload" resp in
  let* bytes := base64_of enc in
  let* plaintext := with_key (as_sessionKey tgt) (fun key => aesGcmDecrypt key bytes) in
  let* reply := parse_json plaintext in
  let* nonce2 := prop_of "nonce2" reply in
  if negb (is_text nonceB64 nonce2) then
    Raise (JsError (u8 "TGS_REP nonce không khớp — nghi ngờ MITM/replay"))
  else
    let* granted := prop_of "scope" reply in
    if negb (is_text (scope_text scope) granted) then
      Raise (JsError (u8 "TGS_REP scope không khớp yêu cầu"))
    else
      let* id_v := prop_of "id_v" reply in
      let* ticket_v := prop_of "ticket_v" reply in
      let* key_text := prop_of "k_c_v" reply in
      let* key := base64_of key_text in
      let* expiry := prop_of "ticket_expiry" resp in
      Ret (uor id_v (UStr SERVICE_ID), ticket_v, key, expiry).

(** The session, the nonce and the reply. *)
Definition send_tgs_req (scope : Scope) (operationId : option ustr) : br (AsSession * ustr * ujson) :=
  let* ok := valid_tgt in
  if negb ok then
    Raise (JsError (u8 "TGT đã hết hạn hoặc chưa đăng nhập — cần thực hiện lại AS Exchange"))
  else
    let* s := session GetSession in
    match s with
    | None => Raise (JsError (u8 "Không tìm thấy phiên TGT"))
    | Some tgt =>
        let* nonce := ask (GetRandomValues NONCE_BYTES) in
        let nonceB64 := bytesToBase64 nonce in
        let* timestamp := unix_now in
        let* requestId := ask BrowserUUID in
        let plain := tgs_authenticator (as_clientId tgt) nonceB64 requestId timestamp scope in
        let* authenticator := with_key (as_sessionKey tgt) (fun key => aesGcmEncrypt key (textEncode plain)) in
        let* resp := postTgsReq
          {| tp_serviceId := SERVICE_ID; tp_tgtCiphertext := as_tgt tgt;
             tp_authenticator := bytesToBase64 authenticator; tp_certSn := as_certSn tgt;
             tp_nonce := nonceB64; tp_requestedScope := scope; tp_operationId := operationId |} in
        Ret (tgt, nonceB64, resp)
    end.

Definition request_ticket (scope : Scope) (operationId : option ustr) : br TgsExchangeResult :=
  let* (tgt, nonceB64, resp) := send_tgs_req scope operationId in
  let* (serviceId, ticket_v, key, expiry) := check_tgs_rep tgt scope nonceB64 resp in
  do* store key (fun a => SetServiceTicket
    {| st_scope := scope; st_serviceId := serviceId; st_ticketV := ticket_v; st_sessionKey := a;
       st_ticketExpiresAt := expiry; st_clientId := as_clientId tgt; st_certSn := as_certSn tgt |}) in
  Ret {| tx_scope := scope; tx_serviceId := serviceId; tx_ticketExpiresAt := expiry |}.

(** The existing ticket of the scope; [null.serviceId] is a [TypeError]. *)
Definition reuse_ticket (scope : Scope) : br TgsExchangeResult :=
  let* t := session (GetServiceTicket scope) in
  match t with
  | Some t => Ret {| tx_scope := scope; tx_serviceId := st_serviceId t; tx_ticketExpiresAt := st_ticketExpiresAt t |}
  | None => Raise type_error
  end.

Definition performTgsExchange (scope : Scope) (force : bool) (operationId : option ustr)
    : br TgsExchangeResult :=
  if force then request_ticket scope operationId
  else
    let* valid := valid_ticket scope in
    if valid then reuse_ticket scope else request_ticket scope operationId.

End exchange.

(** ** What the exchanges establish *)

Section soundness.

Context `{P : Platform} `{W : WebCrypto} `{ClientEnv}.

(** The reply opens with the user's key to the bytes [plain]. *)
Definition as_rep_opens (blob : WrappedPrivateKey) (pin : ustr) (asRep : ujson) (plain : list Z) : Prop :=
  exists rsa ek aes box,
    unwrapped blob pin = Some rsa /\ base64_field "encrypted_key" asRep ek /\
    oaep_open rsa (textEncode OAEP_LABEL) ek = Some aes /\
    base64_field "encrypted_payload" asRep box /\
    gcm_open aes (take (Z.to_nat IV_BYTES) box) (drop (Z.to_nat IV_BYTES) box) = Some plain.

(** The KDC signed the bytes: the chain in the reply ends at the client's root,
    its leaf is the KDC's and verifies the signature. *)
Definition kdc_signed (asRep : ujson) (plain : list Z) (t : btrace) : Prop :=
  exists chain leaf sig,
    uprop "kdc_cert_chain" asRep = Ok chain /\ chain_verified (ustring chain) [] leaf t /\
    leafCN leaf = KDC_SIGNER_CN /\ base64_field "kdc_signature" asRep sig /\
    pssVerify (publicKeyPss leaf) sig plain = true.

(** The checks that a session passed. *)
Definition as_rep_accepted (blob : WrappedPrivateKey) (pin nonceB64 : ustr) (resp : ujson) (t : btrace)
    (tgt : ujson) (key : list Z) (expiry : ujson) : Prop :=
  exists reply asRep plain payload,
    base64_field "encrypted_payload" resp reply /\ uparse (textDecode reply) = Some asRep /\
    as_rep_opens blob pin asRep plain /\ kdc_signed asRep plain t /\
    uparse (textDecode plain) = Some payload /\ uprop "nonce_1" payload = Ok (UStr nonceB64) /\
    uprop "tgt" payload = Ok tgt /\ base64_field "k_c_tgs" payload key /\
    uprop "tgt_expiry" resp = Ok expiry.

Lemma yields_open_as_rep blob pin asRep :
  yields quiet (open_as_rep blob pin asRep) (fun _ plain => as_rep_opens blob pin asRep plain).
Proof.
  unfold open_as_rep, unwrapDecryptionKey.
  client_step t k Hk. client_step t1 v1 Hv1. client_step t2 ek Hek. client_step t3 aes Haes. client_step t4 v2 Hv2. client_step t5 box Hbox.
  eapply yields_mono; [|by apply yields_decrypt]. intros t6 plain Hp. destruct Hk as [Hk _].
  exists (pk_rsa k), ek, aes, box. split_and!; [done | by exists v1 | done | by exists v2 | done].
Qed.

Lemma kdc_signed_l asRep plain t1 t2 : kdc_signed asRep plain t1 -> kdc_signed asRep plain (t1 ++ t2).
Proof.
  intros (chain & leaf & sig & Hc & Hv & Hr). exists chain, leaf, sig.
  split; [done|]. split; [by apply chain_verified_l | done].
Qed.

Lemma kdc_signed_r asRep plain t1 t2 : kdc_signed asRep plain t2 -> kdc_signed asRep plain (t1 ++ t2).
Proof.
  intros (chain & leaf & sig & Hc & Hv & Hr). exists chain, leaf, sig.
  split; [done|]. split; [by apply chain_verified_r | done].
Qed.

Lemma yields_verify_kdc asRep plain :
  yields quiet (verify_kdc asRep plain) (fun t _ => kdc_signed asRep plain t).
Proof.
  unfold verify_kdc. client_step t chain Hc. destruct (utruthy chain); cbn [negb]; [|apply yields_raise].
  client_step t1 leaf Hl. destruct (ustr_eqb (leafCN leaf) KDC_SIGNER_CN) eqn:Hcn; cbn [negb]; [|apply yields_raise].
  client_step t2 v Hv. client_step t3 sig Hsig. client_step t4 ok Hok.
  subst ok. destruct (pssVerify _ _ _) eqn:Hp; [|apply yields_raise]. apply yields_ret.
  exists chain, leaf, sig. split_and!; [done | | by apply ustr_eqb_eq | by exists v | done].
  on_trace.
Qed.

Lemma yields_check_as_rep blob pin nonceB64 resp :
  yields quiet (check_as_rep blob pin nonceB64 resp) (fun t r => let '(tgt, key, expiry) := r in
    as_rep_accepted blob pin nonceB64 resp t tgt key expiry).
Proof.
  unfold check_as_rep. client_step t enc Henc. client_step t1 rb Hrb. client_step t2 asRep Hrep.
  eapply yields_bind; [apply yields_open_as_rep|]. cbv beta. intros t3 plain Hplain.
  client_step t4 payload Hpayload.
  eapply yields_bind; [apply yields_verify_kdc|]. cbv beta. intros t5 [] Hsigned.
  client_step t6 n Hn. destruct (is_text nonceB64 n) eqn:Ht; cbn [negb]; [|apply yields_raise].
  apply is_text_true in Ht as ->. client_step t7 tgt Htgt. client_step t8 k Hk. client_step t9 key Hkey.
  client_step t10 expiry Hexp. apply yields_ret. exists rb, asRep, plain, payload.
  split_and!; try done; [by exists enc | | by exists k].
  rewrite !app_assoc. rewrite <- !app_assoc. by repeat first [apply kdc_signed_l; exact Hsigned | apply kdc_signed_r].
Qed.

(** What was sent: the certificate and the key of the scope, a fresh nonce, the
    time, and the signature of the user's key over all of them. *)
Definition as_requested (pin : ustr) (scope : EnrollmentScope) (t : btrace) (rq : as_sent) : Prop :=
  exists cert pem nonce ms rsa op,
    observed (IdbGet scope certificate) (Ok (Some cert)) t /\
    sc_certificatePem cert = UStr pem /\ extractOwnerIdFromCertificate pem = Ok (sent_clientId rq) /\
    sent_certSn rq = sc_serialNumber cert /\
    observed (IdbGet scope wrappedPrivateKey) (Ok (Some (sent_blob rq))) t /\
    unwrapped (sent_blob rq) pin = Some rsa /\
    observed (GetRandomValues NONCE_BYTES) nonce t /\ sent_nonce rq = bytesToBase64 nonce /\
    observed BrowserNow ms t /\
    called (js "/v1/auth/as-req")
      (as_body {| ar_clientId := sent_clientId rq; ar_certSn := sent_certSn rq; ar_nonce := sent_nonce rq;
                  ar_timestamp := ms / 1000;
                  ar_preAuthSignature := bytesToBase64 (pkcs1_sign rsa (textEncode
                    (as_canonical (sent_certSn rq) (sent_clientId rq) (sent_nonce rq) (ms / 1000))));
                  ar_operationId := op |}) t (sent_resp rq).

Lemma yields_idbGet (Q : bevent -> Prop) s k : Q (IdbGet s k) ->
  yields Q (idbGet s k) (fun t v => observed (IdbGet s k) (Ok v) t).
Proof.
  intros Hq. apply yields_vis; [done|]. intros [v|x]; [|apply yields_raise].
  apply yields_ret, observed_here.
Qed.

Lemma yields_unix_now (Q : bevent -> Prop) : Q BrowserNow ->
  yields Q unix_now (fun t v => exists ms : Z, observed BrowserNow ms t /\ v = ms / 1000).
Proof. intros Hq. apply yields_vis; [done|]. intros ms. apply yields_ret. exists ms. split; [apply observed_here | done]. Qed.

Lemma yields_owner Q pem :
  yields Q (match extractOwnerIdFromCertificate pem with Ok id => Ret id | Err e => Raise (DerError e) end)
    (fun _ id => extractOwnerIdFromCertificate pem = Ok id).
Proof. destruct (extractOwnerIdFromCertificate pem); [by apply yields_ret | apply yields_raise]. Qed.

Lemma yields_send_as_req pin scope op :
  yields quiet (send_as_req pin scope op) (as_requested pin scope).
Proof.
  unfold send_as_req, getStoredCertificate, getWrappedPrivateKey.
  eapply yields_bind; [by apply yields_idbGet|]. cbv beta. intros t [cert|] Hcert; [|apply yields_raise].
  eapply yields_bind; [by apply yields_idbGet|]. cbv beta. intros t1 [blob|] Hblob; [|apply yields_raise].
  client_step t2a pem Hpem.
  eapply yields_bind; [apply yields_owner|]. cbv beta. intros t2 id Hid.
  client_step t3 nonce Hnonce.
  eapply yields_bind; [by apply yields_unix_now|]. cbv beta. intros t4 now (ms & Hms & ->).
  unfold unwrapPrivateKey, postAsReq. client_step t5 k Hk. client_step t6 sig Hsig. subst sig.
  client_step t7 resp Hresp. apply yields_ret. destruct Hk as [Hk _].
  exists cert, pem, nonce, ms, (pk_rsa k), op. cbn [sent_clientId sent_certSn sent_blob sent_nonce sent_resp].
  split_and!; try done; on_trace.
Qed.

(** A write to a store after quiet requests is the only one. *)
Lemma only_command c c' r r' x t key :
  ~ quiet (Session c) -> Forall (fun o => quiet (request o)) t ->
  observed (Session c) r (t ++ [Obs (Session (NewBuffer key)) x; Obs (Session c') r']) -> c = c'.
Proof.
  intros Hc Ht Ho. apply observed_app in Ho as [Ho|Ho]; [exfalso; by eapply (not_observed quiet)|].
  apply elem_of_cons in Ho as [Ho|Ho].
  - exfalso. apply Hc. by injection Ho as -> _.
  - apply list_elem_of_singleton in Ho. by injection Ho as -> _.
Qed.

(** Everything that a stored session went through. *)
Definition session_accepted (pin : ustr) (scope : EnrollmentScope) (op : option ustr) (t : btrace) (s : AsSession)
    : Prop :=
  exists rq (key : list Z),
    as_requested pin scope t rq /\ as_clientId s = sent_clientId rq /\ as_certSn s = sent_certSn rq /\
    as_operationId s = op /\
    as_rep_accepted (sent_blob rq) pin (sent_nonce rq) (sent_resp rq) t (as_tgt s) key (as_tgtExpiresAt s) /\
    observed (Session (NewBuffer key)) (as_sessionKey s) t.

Lemma as_requested_l pin scope t1 t2 rq : as_requested pin scope t1 rq -> as_requested pin scope (t1 ++ t2) rq.
Proof.
  intros (cert & pem & nonce & ms & rsa & op & ? & ? & ? & ? & ? & ? & ? & ? & ? & ?).
  exists cert, pem, nonce, ms, rsa, op. split_and!; try done; on_trace.
Qed.

Lemma as_rep_accepted_in blob pin nonce resp t1 t t2 tgt key expiry :
  as_rep_accepted blob pin nonce resp t tgt key expiry ->
  as_rep_accepted blob pin nonce resp (t1 ++ t ++ t2) tgt key expiry.
Proof.
  intros (reply & asRep & plain & payload & H1 & H2 & H3 & Hs & Hr).
  exists reply, asRep, plain, payload. repeat (split; [assumption|]).
  split; [by apply kdc_signed_r, kdc_signed_l | exact Hr].
Qed.

(** A run of an exchange: whatever is written to the store was accepted, and the
    exchange ends normally exactly when something was. *)
Definition stores_only {S A} (c : S -> session_command) (accepted : btrace -> S -> Prop)
    (t : btrace) (r : result js_exception A) : Prop :=
  (forall s y, observed (Session (c s)) y t -> accepted t s) /\
  ((exists res, r = Ok res) <-> exists s y, observed (Session (c s)) y t).

Lemma always_store {A} key (c : addr -> session_command) (res : A) (Q : btrace -> result js_exception A -> Prop) :
  (forall x y, Q [Obs (Session (NewBuffer key)) x; Obs (Session (c x)) y] (Ok res)) ->
  always (bind (store key c) (fun _ => Ret res)) Q.
Proof. intros HQ x y. apply HQ. Qed.

Lemma stores_nothing {S A} (c : S -> session_command) accepted t x :
  (forall s, ~ quiet (Session (c s))) -> Forall (fun o => quiet (request o)) t ->
  stores_only (A := A) c accepted t (Err x).
Proof.
  intros Hc Ht. assert (Hn : forall s y, ~ observed (Session (c s)) y t).
  { intros s y. by apply (not_observed quiet). }
  split; [intros s y Hs; by apply Hn in Hs|].
  split; [intros [? ?]; discriminate | intros (s & y & Hs); by apply Hn in Hs].
Qed.

Lemma stores_one {S A} (c : S -> session_command) (accepted : btrace -> S -> Prop) t key x s0
    (y : reply (Session (c s0))) (res : A) :
  (forall s, ~ quiet (Session (c s))) -> (forall s s', c s = c s' -> s = s') ->
  Forall (fun o => quiet (request o)) t ->
  accepted (t ++ [Obs (Session (NewBuffer key)) x; Obs (Session (c s0)) y]) s0 ->
  stores_only c accepted (t ++ [Obs (Session (NewBuffer key)) x; Obs (Session (c s0)) y]) (Ok res).
Proof.
  intros Hc Hi Ht Ha. split.
  - intros s y' Hs. apply only_command in Hs; [|done..]. by apply Hi in Hs as ->.
  - split; [|by eexists]. intros _. exists s0, y. apply observed_r, observed_later, observed_here.
Qed.

(** C3: the AS exchange is fail-closed. Whatever the gateway, the network, the
    database and Web Crypto answer, a session is stored only if the request
    carried the identity of the stored certificate, a fresh nonce and the
    signature of the user's unwrapped key, and the reply opened with that key
    to a payload with the same nonce, signed under a certificate of the KDC
    whose chain was verified up to the client's root; the session holds the
    ticket and the key of that payload. The exchange ends normally exactly when
    it has stored its session. *)
Theorem as_exchange_sound pin scope op :
  always (performAsExchange pin scope op) (stores_only SetSession (session_accepted pin scope op)).
Proof.
  assert (Herr : forall t x, Forall (fun o => quiet (request o)) t -> stores_only SetSession
    (session_accepted pin scope op) t (Err (A := AsExchangeResult) x)).
  { intros t x Ht. apply stores_nothing; [by intros ? [] | done]. }
  unfold performAsExchange. eapply always_yields; [apply yields_send_as_req | exact Herr |].
  intros t rq Ht Hrq. eapply always_yields; [apply yields_check_as_rep | |].
  { intros t' x Ht'. apply Herr. by apply Forall_app. }
  intros t' [[tgt key] expiry] Ht' Hrep. apply always_store. intros x r. rewrite (app_assoc t).
  apply stores_one; [by intros ? [] | by intros ? ? [= ->] | by apply Forall_app |]. exists rq, key.
  split_and!; try done; [by do 2 apply as_requested_l | | ].
  - rewrite <- app_assoc. by apply as_rep_accepted_in.
  - apply observed_r, observed_here.
Qed.

(** ** The TGS exchange *)

(** The request of a session: its TGT, a fresh nonce and an authenticator sealed
    under the session key. *)
Definition tgs_requested (scope : Scope) (op : option ustr) (t : btrace) (tgt : AsSession) (nonceB64 : ustr)
    (resp : ujson) : Prop :=
  exists nonce ms id (key : list Z) iv c,
    observed (Session GetSession) (Some tgt) t /\
    observed (GetRandomValues NONCE_BYTES) nonce t /\ nonceB64 = bytesToBase64 nonce /\
    observed BrowserNow ms t /\ observed BrowserUUID id t /\
    observed (Session (ReadBuffer (as_sessionKey tgt))) key t /\ observed (GetRandomValues IV_BYTES) iv t /\
    gcm_seal key iv (textEncode (tgs_authenticator (as_clientId tgt) nonceB64 id (ms / 1000) scope)) = Some c /\
    called (js "/v1/auth/tgs-req")
      (tgs_body {| tp_serviceId := SERVICE_ID; tp_tgtCiphertext := as_tgt tgt;
                   tp_authenticator := bytesToBase64 (iv ++ c); tp_certSn := as_certSn tgt;
                   tp_nonce := nonceB64; tp_requestedScope := scope; tp_operationId := op |}) t resp.

(** The reply opens under the session key, repeats the nonce and grants the
    scope; the ticket, its key and its expiry are those of the reply. *)
Definition tgs_rep_accepted (tgt : AsSession) (scope : Scope) (nonceB64 : ustr) (resp : ujson) (t : btrace)
    (serviceId ticket : ujson) (key : list Z) (expiry : ujson) : Prop :=
  exists box (k : list Z) plain rep id_v,
    base64_field "encrypted_payload" resp box /\ observed (Session (ReadBuffer (as_sessionKey tgt))) k t /\
    gcm_open k (take (Z.to_nat IV_BYTES) box) (drop (Z.to_nat IV_BYTES) box) = Some plain /\
    uparse (textDecode plain) = Some rep /\ uprop "nonce2" rep = Ok (UStr nonceB64) /\
    uprop "scope" rep = Ok (UStr (scope_text scope)) /\
    uprop "id_v" rep = Ok id_v /\ serviceId = uor id_v (UStr SERVICE_ID) /\
    uprop "ticket_v" rep = Ok ticket /\ base64_field "k_c_v" rep key /\
    uprop "ticket_expiry" resp = Ok expiry.

Lemma tgs_requested_l scope op t1 t2 tgt n resp :
  tgs_requested scope op t1 tgt n resp -> tgs_requested scope op (t1 ++ t2) tgt n resp.
Proof.
  intros (nonce & ms & id & key & iv & c & ? & ? & ? & ? & ? & ? & ? & ? & ?).
  exists nonce, ms, id, key, iv, c. split_and!; try done; on_trace.
Qed.

Lemma tgs_requested_r scope op t1 t2 tgt n resp :
  tgs_requested scope op t2 tgt n resp -> tgs_requested scope op (t1 ++ t2) tgt n resp.
Proof.
  intros (nonce & ms & id & key & iv & c & ? & ? & ? & ? & ? & ? & ? & ? & ?).
  exists nonce, ms, id, key, iv, c. split_and!; try done; on_trace.
Qed.

Lemma tgs_rep_accepted_in tgt scope n resp t1 t t2 sid ticket key expiry :
  tgs_rep_accepted tgt scope n resp t sid ticket key expiry ->
  tgs_rep_accepted tgt scope n resp (t1 ++ t ++ t2) sid ticket key expiry.
Proof.
  intros (box & k & plain & rep & id_v & Hb & Hk & Hr). exists box, k, plain, rep, id_v.
  split; [done|]. split; [on_trace | done].
Qed.

Lemma yields_session (Q : bevent -> Prop) c : Q (Session c) ->
  yields Q (session c) (fun t v => observed (Session c) v t).
Proof. intros Hq. apply yields_vis; [done|]. intros v. apply yields_ret, observed_here. Qed.

Lemma yields_valid_tgt : yields quiet valid_tgt (fun _ _ => True).
Proof. apply yields_emits. unfold valid_tgt. client_emits. Qed.

Lemma yields_valid_ticket sc : yields quiet (valid_ticket sc) (fun _ _ => True).
Proof. apply yields_emits. unfold valid_ticket. client_emits. Qed.

Lemma yields_seal (Q : bevent -> Prop) a text :
  Q (Session (ReadBuffer a)) -> Q Turn -> Q (GetRandomValues IV_BYTES) ->
  yields Q (with_key a (fun key => aesGcmEncrypt key text)) (fun t box => exists (key : list Z) iv c,
    observed (Session (ReadBuffer a)) key t /\ observed (GetRandomValues IV_BYTES) iv t /\
    gcm_seal key iv text = Some c /\ box = iv ++ c).
Proof.
  intros Ha Ht Hr. eapply yields_mono; [|apply (yields_with_key Q a _ (fun key t box => exists iv c,
    observed (GetRandomValues IV_BYTES) iv t /\ gcm_seal key iv text = Some c /\ box = iv ++ c)); [done|]].
  - intros t box (key & Hk & iv & c & Hi). by exists key, iv, c.
  - intros key. eapply yields_mono; [|by apply yields_encrypt]. intros t box (iv & c & Hi & Hrest).
    exists iv, c. split; [by apply observed_later | done].
Qed.

Lemma yields_open (Q : bevent -> Prop) a box : Q (Session (ReadBuffer a)) -> Q Turn ->
  yields Q (with_key a (fun key => aesGcmDecrypt key box)) (fun t text => exists key : list Z,
    observed (Session (ReadBuffer a)) key t /\
    gcm_open key (take (Z.to_nat IV_BYTES) box) (drop (Z.to_nat IV_BYTES) box) = Some text).
Proof. intros Ha Ht. apply (yields_with_key Q a _ (fun key _ _ => _)); [done|]. intros key. by apply yields_decrypt. Qed.

Lemma yields_send_tgs_req scope op :
  yields quiet (send_tgs_req scope op) (fun t '(tgt, n, resp) => tgs_requested scope op t tgt n resp).
Proof.
  unfold send_tgs_req. eapply yields_bind; [apply yields_valid_tgt|]. cbv beta. intros t [] _; cbn [negb]; [|apply yields_raise].
  eapply yields_bind; [by apply yields_session|]. cbv beta. intros t1 [tgt|] Htgt; [|apply yields_raise].
  client_step t2 nonce Hnonce.
  eapply yields_bind; [by apply yields_unix_now|]. cbv beta. intros t3 now (ms & Hms & ->).
  client_step t4 id Hid.
  eapply yields_bind; [by apply yields_seal|]. cbv beta. intros t5 box (key & iv & c & Hk & Hiv & Hc & ->).
  unfold postTgsReq. client_step t6 resp Hresp. apply yields_ret.
  exists nonce, ms, id, key, iv, c. split_and!; try done; on_trace.
Qed.

Lemma yields_check_tgs_rep tgt scope n resp :
  yields quiet (check_tgs_rep tgt scope n resp) (fun t '(sid, ticket, key, expiry) =>
    tgs_rep_accepted tgt scope n resp t sid ticket key expiry).
Proof.
  unfold check_tgs_rep. client_step t enc Henc. client_step t1 box Hbox.
  eapply yields_bind; [by apply yields_open|]. cbv beta. intros t2 plain (k & Hk & Hplain).
  client_step t3 rep Hrep. client_step t4 n2 Hn2.
  destruct (is_text n n2) eqn:Hn; cbn [negb]; [|apply yields_raise]. apply is_text_true in Hn as ->.
  client_step t5 granted Hgr. destruct (is_text (scope_text scope) granted) eqn:Hs; cbn [negb]; [|apply yields_raise].
  apply is_text_true in Hs as ->. client_step t6 id_v Hid. client_step t7 ticket Hti. client_step t8 kt Hkt.
  client_step t9 key Hkey. client_step t10 expiry Hex. apply yields_ret. exists box, k, plain, rep, id_v.
  split_and!; try done; [by exists enc | on_trace | by exists kt].
Qed.

(** Everything that a stored ticket went through. *)
Definition ticket_accepted (scope : Scope) (op : option ustr) (t : btrace) (s : ServiceTicketSession) : Prop :=
  exists tgt n resp (key : list Z),
    tgs_requested scope op t tgt n resp /\ st_scope s = scope /\
    st_clientId s = as_clientId tgt /\ st_certSn s = as_certSn tgt /\
    tgs_rep_accepted tgt scope n resp t (st_serviceId s) (st_ticketV s) key (st_ticketExpiresAt s) /\
    observed (Session (NewBuffer key)) (st_sessionKey s) t.

Lemma request_ticket_sound scope op :
  always (request_ticket scope op) (stores_only SetServiceTicket (ticket_accepted scope op)).
Proof.
  assert (Herr : forall t x, Forall (fun o => quiet (request o)) t -> stores_only SetServiceTicket
    (ticket_accepted scope op) t (Err (A := TgsExchangeResult) x)).
  { intros t x Ht. apply stores_nothing; [by intros ? [] | done]. }
  unfold request_ticket. eapply always_yields; [apply yields_send_tgs_req | exact Herr |].
  intros t [[tgt n] resp] Ht Hrq. eapply always_yields; [apply yields_check_tgs_rep | |].
  { intros t' x Ht'. apply Herr. by apply Forall_app. }
  intros t' [[[sid ticket] key] expiry] Ht' Hrep. apply always_store. intros x r. rewrite (app_assoc t).
  apply stores_one; [by intros ? [] | by intros ? ? [= ->] | by apply Forall_app |]. exists tgt, n, resp, key.
  split_and!; try done; [by do 2 apply tgs_requested_l | | ].
  - rewrite <- app_assoc. by apply tgs_rep_accepted_in.
  - apply observed_r, observed_here.
Qed.

Lemma no_ticket s y t : Forall (fun o => quiet (request o)) t -> ~ observed (Session (SetServiceTicket s)) y t.
Proof. intros Ht. apply (not_observed quiet); [done | intros []]. Qed.

Lemma emits_reuse scope : emits quiet (reuse_ticket scope).
Proof. unfold reuse_ticket, session. client_emits. Qed.

(** C14: the TGS exchange is fail-closed. A ticket is stored only if the request
    carried the TGT of the session, a fresh nonce and an authenticator sealed
    under the session key, and the reply opened under that key, repeated the
    nonce and granted exactly the requested scope; the stored ticket, its
    service and its key are those of that reply. A call that must not reuse a
    ticket ends normally exactly when it has stored one. *)
Theorem tgs_exchange_sound scope force op :
  always (performTgsExchange scope force op) (fun t r =>
    (forall s y, observed (Session (SetServiceTicket s)) y t -> ticket_accepted scope op t s) /\
    (force = true -> (exists res, r = Ok res) <-> exists s y, observed (Session (SetServiceTicket s)) y t)).
Proof.
  unfold performTgsExchange. destruct force.
  { eapply always_mono; [|apply request_ticket_sound]. by intros t r [Hs Hr]. }
  eapply always_yields; [apply yields_valid_ticket | |].
  { intros t x Ht. split; [|done]. intros s y Hs. exfalso. by eapply no_ticket. }
  intros t valid Ht _. destruct valid.
  - eapply always_mono; [|exact (emits_reuse scope)].
    intros t' r Ht'. split; [|done]. intros s y Hs. exfalso.
    eapply no_ticket; [|exact Hs]. by apply Forall_app.
  - eapply always_mono; [|apply request_ticket_sound]. intros t' r [Hs _]. split; [|done].
    intros s y Hy. apply observed_app in Hy as [Hy|Hy]; [exfalso; by eapply no_ticket|].
    destruct (Hs s y Hy) as (tgt & n & resp & key & H1 & H2 & H3 & H4 & H5 & H6).
    exists tgt, n, resp, key. split_and!; try done; [by apply tgs_requested_r | | on_trace].
    rewrite <- (app_nil_r t'). by apply tgs_rep_accepted_in.
Qed.

End soundness.
