(* ===== verification/BankClient.v ===== *)
(** * The client of the bank ([bank/], [admin-bank/admin-session])

    The AP exchange: a ticket of the right scope, an authenticator under its
    session key, the request, and the checks of the encrypted reply. A transfer
    also carries a payload signed with the user's key. [transfer_sound] is what a
    finished transfer went through; [logout_race] is a schedule in which a logout
    during a transfer has it encrypt its payload under a key of zeros. *)

From S2P Require Import Prelude Effects JsString UString UJson X509 WebCrypto Sessions Browser KeyService ClientLogic Exchange.

Open Scope Z_scope.

(** ** Texts *)

(** [a < b] on texts: by code units. *)
Fixpoint ustr_lt (a b : ustr) : bool :=
  match a, b with
  | [], [] => false
  | [], _ :: _ => true
  | _ :: _, [] => false
  | u :: a', v :: b' => (u <? v) || ((u =? v) && ustr_lt a' b')
  end.

(** [Array.prototype.sort] of texts. *)
Fixpoint insert_key (k : ustr) (l : list ustr) : list ustr :=
  match l with
  | [] => [k]
  | k' :: l' => if ustr_lt k' k then k' :: insert_key k l' else k :: l
  end.

Definition sort_keys (l : list ustr) : list ustr := foldr insert_key [] l.

(** [JSON.stringify(obj, keys)]: the listed properties in the order of the list. *)
Definition pick (keys : list ustr) (obj : list (ustr * ujson)) : ujson :=
  UObj (omap (fun k => match ufield k obj with Some v => Some (k, v) | None => None end) keys).

(** The escapes that Go's [json.Marshal] adds; no pair of surrogates is one. *)
Definition go_escape (u : Z) : ustr :=
  if u =? 60 then js "\u003c"
  else if u =? 62 then js "\u003e"
  else if u =? 38 then js "\u0026"
  else if u =? 0x2028 then js "\u2028"
  else if u =? 0x2029 then js "\u2029"
  else [u].

Definition canonicalStringify (obj : list (ustr * ujson)) : ustr :=
  flat_map go_escape (ustringify (pick (sort_keys (map fst obj)) obj)).

(** [encodeURIComponent]; [None] is the [URIError] of a lone surrogate. *)
Definition uri_unreserved (u : Z) : bool :=
  is_digit u || ((65 <=? u) && (u <=? 90)) || ((97 <=? u) && (u <=? 122)) ||
  existsb (Z.eqb u) (js "-_.!~*'()").

Definition HEX (n : Z) : Z := if n <? 10 then 48 + n else 55 + n.

Definition percent (b : Z) : ustr := [37; HEX (b / 16); HEX (b mod 16)].

(** The four bytes of a pair of surrogates. *)
Definition pair_bytes (u v : Z) : list Z :=
  let c := 0x10000 + (u - 0xd800) * 1024 + (v - 0xdc00) in
  [240 + c / 262144; 128 + c / 4096 mod 64; 128 + c / 64 mod 64; 128 + c mod 64].

Fixpoint encodeURIComponent (s : ustr) : option ustr :=
  match s with
  | [] => Some []
  | u :: s' =>
      if uri_unreserved u then option_map (cons u) (encodeURIComponent s')
      else if lead u then
        match s' with
        | v :: s'' => if trail v then option_map (app (flat_map percent (pair_bytes u v))) (encodeURIComponent s'')
                      else None
        | [] => None
        end
      else if trail u then None
      else option_map (app (flat_map percent (unit_bytes u))) (encodeURIComponent s')
  end.

(** The keys of [obj], sorted. *)
Example sorted_keys : sort_keys [js "to"; js "amount"; js "from"] = [js "amount"; js "from"; js "to"].
Proof. reflexivity. Qed.

Example canonical_demo :
  canonicalStringify [(js "to", UStr (js "<b>")); (js "amount", UNum 5)] =
  js "{" ++ uquote (js "amount") ++ js ":5," ++ uquote (js "to") ++ js ":" ++
  [34] ++ js "\u003cb\u003e" ++ [34] ++ js "}".
Proof. vm_compute. reflexivity. Qed.

Section bank.

Context `{P : Platform} `{W : WebCrypto} `{ClientEnv}.

(** [operationId ?? newOperationId()]. *)
Definition operation (operationId : option ustr) : br ustr :=
  match operationId with Some id => Ret id | None => newOperationId end.

Definition no_ticket_for (scope : string) : js_exception :=
  JsError (u8 "Không lấy được Ticket_v cho scope " ++ js scope).

Definition replay_suspected : js_exception :=
  JsError (u8 "AP_REP nonce không khớp — nghi ngờ MITM/replay").

(** The ticket of a scope, obtained or reused. *)
Definition ticket_for (scope : Scope) (force : bool) (operationId : option ustr) (missing : js_exception)
    : br ServiceTicketSession :=
  do* performTgsExchange scope force operationId in
  let* t := session (GetServiceTicket scope) in
  match t with Some t => Ret t | None => Raise missing end.

(** ** [ap-authenticator.ts] *)

Record ApAuthenticator := { aa_authenticator : ustr; aa_nonce : ustr; aa_requestId : ustr }.

(** The text inside an authenticator. *)
Definition ap_plain (clientId nonce requestId : ustr) (ts3 : Z) : ustr :=
  ustringify (UObj [(js "client_id", UStr clientId); (js "nonce", UStr nonce);
                    (js "request_id", UStr requestId); (js "ts_3", UNum ts3)]).

Definition buildApAuthenticator (kcv : addr) (clientId : ustr) : br ApAuthenticator :=
  let* bytes := ask (GetRandomValues 16) in
  let nonce := bytesToBase64 bytes in
  let* requestId := ask BrowserUUID in
  let* ts3 := unix_now in
  let* box := with_key kcv (fun key => aesGcmEncrypt key (textEncode (ap_plain clientId nonce requestId ts3))) in
  Ret {| aa_authenticator := bytesToBase64 box; aa_nonce := nonce; aa_requestId := requestId |}.

(** [JSON.parse] of the decrypted [ap_rep]. *)
Definition open_ap_rep (kcv : addr) (resp : ujson) : br ujson :=
  let* text := prop_of "ap_rep" resp in
  let* box := base64_of text in
  let* plain := with_key kcv (fun key => aesGcmDecrypt key box) in
  parse_json plain.

(** The result, and then the nonce. *)
Definition check_ap_rep (kcv : addr) (nonce : ustr) (rejected : js_exception) (resp : ujson) : br ujson :=
  let* apRep := open_ap_rep kcv resp in
  let* result := prop_of "result" apRep in
  if negb (is_text (js "ok") result) then Raise rejected
  else
    let* n := prop_of "nonce" apRep in
    if negb (is_text nonce n) then Raise replay_suspected else Ret apRep.

(** ** [transfer.api.ts] *)

Record TransferReqParams := {
  tr_ticketV : ujson; tr_authenticator : ustr; tr_cipherPayload : ustr; tr_iv : ustr; tr_requestId : ustr;
  tr_operationId : option ustr
}.

Definition transfer_body (p : TransferReqParams) : ujson :=
  UObj [(js "ticket_v", tr_ticketV p); (js "authenticator", UStr (tr_authenticator p));
        (js "cipher_payload", UStr (tr_cipherPayload p)); (js "iv", UStr (tr_iv p));
        (js "request_id", UStr (tr_requestId p))].

Definition postTransfer (p : TransferReqParams) : br ujson :=
  apiPost (js "/v1/bank/transfer") (transfer_body p) (operationHeaders (tr_operationId p)).

(** ** [transfer.service.ts] *)

Definition TRANSFER_NONCE_BYTES : Z := 32.

(** [amount] is any number; [currency] and [operationId] may be missing. *)
Record TransferParams := {
  fromAccountNumber : ustr; toAccountNumber : ustr; amount : ujson; description : option ustr;
  currency : option ustr; pin : ustr; operationId : option ustr
}.

(** The signed payload, in the order in which the code builds it. *)
Definition transfer_payload (p : TransferParams) (requestId idempotencyKey : ustr) : list (ustr * ujson) :=
  [(js "from_account_number", UStr (fromAccountNumber p));
   (js "to_account_number", UStr (toAccountNumber p));
   (js "amount", amount p);
   (js "currency", UStr (default (js "VND") (currency p)));
   (js "request_id", UStr requestId);
   (js "idempotency_key", UStr idempotencyKey);
   (js "scope", UStr (scope_text transfer_create))] ++
  match description p with
  | Some (u :: s) => [(js "description", UStr (u :: s))]
  | _ => []
  end.

(** The text that is encrypted: the signed bytes as they are, and the signature. *)
Definition transfer_envelope (canonical : ustr) (signature : list Z) : ustr :=
  js "{" ++ uquote (js "payload") ++ js ":" ++ canonical ++ js "," ++ uquote (js "client_signature") ++ js ":" ++
  ustringify (UStr (bytesToBase64 signature)) ++ js "}".

(** The request, the key and the nonce that its reply is checked with. *)
Record transfer_request := { tq_params : TransferReqParams; tq_key : addr; tq_nonce : ustr }.

(** Everything before the gateway is called. *)
Definition prepare_transfer (p : TransferParams) : br transfer_request :=
  let* operationId := operation (operationId p) in
  let* ticket := ticket_for transfer_create false (Some operationId) (no_ticket_for "transfer:create") in
  let* blob := getWrappedPrivateKey customer in
  match blob with
  | None => Raise (JsError (u8 "Không tìm thấy private key đã lưu"))
  | Some blob =>
      let kcv := st_sessionKey ticket in
      let* nonce := ask (GetRandomValues TRANSFER_NONCE_BYTES) in
      let nonceB64 := bytesToBase64 nonce in
      let* ts3 := unix_now in
      let* requestId := ask BrowserUUID in
      let plain := ap_plain (st_clientId ticket) nonceB64 requestId ts3 in
      let* authenticator := with_key kcv (fun key => aesGcmEncrypt key (textEncode plain)) in
      let* idempotencyKey := ask BrowserUUID in
      let canonical := canonicalStringify (transfer_payload p requestId idempotencyKey) in
      let* signingKey := unwrapPssSigningKey blob (pin p) in
      let* signature := signRsaPss signingKey (textEncode canonical) in
      let envelope := transfer_envelope canonical signature in
      let* embedded := with_key kcv (fun key => aesGcmEncrypt key (textEncode envelope)) in
      let iv := take (Z.to_nat IV_BYTES) embedded in
      let cipherPayload := drop (Z.to_nat IV_BYTES) embedded in
      Ret {| tq_params :=
               {| tr_ticketV := st_ticketV ticket; tr_authenticator := bytesToBase64 authenticator;
                  tr_cipherPayload := bytesToBase64 cipherPayload; tr_iv := bytesToBase64 iv;
                  tr_requestId := requestId; tr_operationId := Some operationId |};
             tq_key := kcv; tq_nonce := nonceB64 |}
  end.

Definition transfer_rejected : js_exception := JsError (u8 "Giao dịch bị từ chối bởi Bank Service").

(** [resp.transaction_id || apRep.tx_id]. *)
Definition performTransfer (p : TransferParams) : br ujson :=
  let* rq := prepare_transfer p in
  let* resp := postTransfer (tq_params rq) in
  let* apRep := check_ap_rep (tq_key rq) (tq_nonce rq) transfer_rejected resp in
  let* id := prop_of "transaction_id" resp in
  if utruthy id then Ret id else prop_of "tx_id" apRep.

(** ** [profile.api.ts], [profile.service.ts] *)

Definition read_body (ticketV : ujson) (auth : ApAuthenticator) : ujson :=
  UObj [(js "ticket_v", ticketV); (js "authenticator", UStr (aa_authenticator auth));
        (js "request_id", UStr (aa_requestId auth))].

Definition postProfile (ticketV : ujson) (auth : ApAuthenticator) (operationId : ustr) : br ujson :=
  apiPost (js "/v1/auth/me") (read_body ticketV auth) (operationHeaders (Some operationId)).

Record Profile := {
  p_accountId : ujson; p_fullName : ujson; p_email : ujson; p_userStatus : ujson; p_accountNumber : ujson;
  p_balance : ujson; p_currency : ujson; p_accountStatus : ujson; p_dailyTransferLimit : ujson;
  p_dailyTransferUsed : ujson
}.

Definition read_profile (apRep : ujson) : br Profile :=
  let* account_id := prop_of "account_id" apRep in
  let* full_name := prop_of "full_name" apRep in
  let* email := prop_of "email" apRep in
  let* user_status := prop_of "user_status" apRep in
  let* account_number := prop_of "account_number" apRep in
  let* balance := prop_of "balance" apRep in
  let* currency := prop_of "currency" apRep in
  let* account_status := prop_of "account_status" apRep in
  let* limit := prop_of "daily_transfer_limit" apRep in
  let* used := prop_of "daily_transfer_used" apRep in
  Ret {| p_accountId := account_id; p_fullName := full_name; p_email := email; p_userStatus := user_status;
         p_accountNumber := account_number; p_balance := balance; p_currency := currency;
         p_accountStatus := account_status; p_dailyTransferLimit := limit;
         p_dailyTransferUsed := unullish used (UNum 0) |}.

Definition fetchProfile (operationId : option ustr) : br Profile :=
  let* effectiveOperationId := operation operationId in
  let* ticket := ticket_for balance_read false (Some effectiveOperationId) (no_ticket_for "balance:read") in
  let kcv := st_sessionKey ticket in
  let* auth := buildApAuthenticator kcv (st_clientId ticket) in
  let* resp := postProfile (st_ticketV ticket) auth effectiveOperationId in
  let* apRep := check_ap_rep kcv (aa_nonce auth)
    (JsError (u8 "Không lấy được thông tin tài khoản")) resp in
  read_profile apRep.

(** ** [history.api.ts], [history.service.ts] *)

Definition DEFAULT_LIMIT : Z := 50.

Definition postHistory (accountId : ustr) (ticketV : ujson) (auth : ApAuthenticator) (limit offset : Z)
    (operationId : ustr) : br ujson :=
  match encodeURIComponent accountId with
  | None => Raise (PlatformError "URIError")
  | Some id =>
      apiPost (js "/v1/bank/accounts/" ++ id ++ js "/transactions/query" ++
               js "?limit=" ++ js (Z_string limit) ++ js "&offset=" ++ js (Z_string offset))
        (read_body ticketV auth) (operationHeaders (Some operationId))
  end.

Record HistoryItem := {
  h_transactionId : ujson; h_fromAccountNumber : ujson; h_toAccountNumber : ujson; h_amount : ujson;
  h_currency : ujson; h_status : ujson; h_description : ujson; h_scope : ujson; h_createdAtUnix : ujson;
  h_completedAtUnix : ujson
}.

Record HistoryResult := { hr_items : list HistoryItem; hr_total : ujson; hr_limit : ujson; hr_offset : ujson }.

Definition mapItem (t : ujson) : br HistoryItem :=
  let* transaction_id := prop_of "transaction_id" t in
  let* from := prop_of "from_account_number" t in
  let* to := prop_of "to_account_number" t in
  let* amount := prop_of "amount" t in
  let* currency := prop_of "currency" t in
  let* status := prop_of "status" t in
  let* description := prop_of "description" t in
  let* scope := prop_of "scope" t in
  let* created := prop_of "created_at_unix" t in
  let* completed := prop_of "completed_at_unix" t in
  Ret {| h_transactionId := transaction_id; h_fromAccountNumber := from; h_toAccountNumber := to;
         h_amount := amount; h_currency := currency; h_status := status; h_description := description;
         h_scope := scope; h_createdAtUnix := created; h_completedAtUnix := completed |}.

Fixpoint map_items (l : list ujson) : br (list HistoryItem) :=
  match l with
  | [] => Ret []
  | t :: l' => let* i := mapItem t in let* rest := map_items l' in Ret (i :: rest)
  end.

(** [(resp.transactions ?? []).map(mapItem)]; what is not an array has no [map]. *)
Definition history_items (transactions : ujson) : br (list HistoryItem) :=
  match transactions with
  | UUndefined | UNull => Ret []
  | UArr l => map_items l
  | _ => Raise type_error
  end.

Definition fetchHistory (accountId : ustr) (limit offset : option Z) (operationId : option ustr)
    : br HistoryResult :=
  match accountId with
  | [] => Raise (JsError (u8 "Thiếu account_id để xem lịch sử"))
  | _ =>
      let* operationId := operation operationId in
      let* ticket := ticket_for history_read false (Some operationId) (no_ticket_for "history:read") in
      let kcv := st_sessionKey ticket in
      let* auth := buildApAuthenticator kcv (st_clientId ticket) in
      let* resp := postHistory accountId (st_ticketV ticket) auth (default DEFAULT_LIMIT limit)
        (default 0 offset) operationId in
      do* check_ap_rep kcv (aa_nonce auth) (JsError (u8 "Không lấy được lịch sử giao dịch")) resp in
      let* transactions := prop_of "transactions" resp in
      let* items := history_items transactions in
      let* total := prop_of "total" resp in
      let* l := prop_of "limit" resp in
      let* o := prop_of "offset" resp in
      Ret {| hr_items := items; hr_total := total; hr_limit := l; hr_offset := o |}
  end.

(** ** [admin-session.api.ts], [admin-session.service.ts] *)

Definition postAdminSession (ticketV : ujson) (authenticator : ustr) : br ujson :=
  apiPost (js "/v1/admin/bank/session")
    (UObj [(js "ticket_v", ticketV); (js "authenticator", UStr authenticator)]) [].

Record BankAdminSession := { bs_adminId : ustr; bs_expiresAtUnix : ujson }.

(** [a !== b] on values that are not shared objects; an array or an object of
    one reply is never that of the other. *)
Fixpoint strict_equal (a b : ujson) : bool :=
  match a, b with
  | UUndefined, UUndefined | UNull, UNull => true
  | UBool x, UBool y => Bool.eqb x y
  | UNum x, UNum y => x =? y
  | UDec x, UDec y => ustr_eqb x y
  | UStr x, UStr y => ustr_eqb x y
  | _, _ => false
  end.

Definition session_invalid : js_exception := JsError (js "ADMIN_SESSION_INVALID").

Definition createAdminSession (pin : ustr) : br BankAdminSession :=
  let* asResult := performAsExchange pin bank_admin None in
  let* ticket := ticket_for bank_admin_read true None (JsError (u8 "Không lấy được Ticket_v cho Bank Admin")) in
  let kcv := st_sessionKey ticket in
  let* auth := buildApAuthenticator kcv (st_clientId ticket) in
  let* response := postAdminSession (st_ticketV ticket) (aa_authenticator auth) in
  let* apRep := open_ap_rep kcv response in
  let* result := prop_of "result" apRep in
  if negb (is_text (js "ok") result) then Raise session_invalid
  else
    let* n := prop_of "nonce" apRep in
    let* rid := prop_of "request_id" apRep in
    if negb (is_text (aa_nonce auth) n && is_text (aa_requestId auth) rid) then Raise replay_suspected
    else
      let* role := prop_of "role" apRep in
      let* role' := prop_of "role" response in
      if negb (is_text (js "bank_admin") role && is_text (js "bank_admin") role') then
        Raise (JsError (js "ADMIN_ROLE_REQUIRED"))
      else
        let* admin_id := prop_of "admin_id" response in
        if negb (is_text (ax_clientId asResult) admin_id) then Raise session_invalid
        else
          let* at_rep := prop_of "session_expires_at" apRep in
          let* at_unix := prop_of "expires_at_unix" response in
          if negb (strict_equal at_rep at_unix) then Raise session_invalid
          else Ret {| bs_adminId := ax_clientId asResult; bs_expiresAtUnix := at_unix |}.

End bank.

(** ** What a transfer went through *)

Section soundness.

Context `{P : Platform} `{W : WebCrypto} `{ClientEnv}.

(** The request is the one of the ticket: an authenticator and an envelope sealed
    under its session key, the envelope with the canonical payload of the form
    and the signature of the user's key, which the PIN opened. *)
Definition transfer_authorised (p : TransferParams) (t : btrace) (rq : transfer_request) : Prop :=
  exists ticket blob rsa nonce ms rid idem salt (k1 k2 : list Z) iv1 c1 iv2 c2 op,
    let canonical := canonicalStringify (transfer_payload p rid idem) in
    let signature := pss_sign rsa salt (textEncode canonical) in
    observed (Session (GetServiceTicket transfer_create)) (Some ticket) t /\
    observed (IdbGet customer wrappedPrivateKey) (Ok (Some blob)) t /\
    unwrapped blob (pin p) = Some rsa /\
    observed (GetRandomValues TRANSFER_NONCE_BYTES) nonce t /\ observed BrowserNow ms t /\
    observed BrowserUUID rid t /\ observed BrowserUUID idem t /\ observed PssSalt salt t /\
    observed (Session (ReadBuffer (st_sessionKey ticket))) k1 t /\ observed (GetRandomValues IV_BYTES) iv1 t /\
    gcm_seal k1 iv1 (textEncode (ap_plain (st_clientId ticket) (bytesToBase64 nonce) rid (ms / 1000))) = Some c1 /\
    observed (Session (ReadBuffer (st_sessionKey ticket))) k2 t /\ observed (GetRandomValues IV_BYTES) iv2 t /\
    gcm_seal k2 iv2 (textEncode (transfer_envelope canonical signature)) = Some c2 /\
    rq = {| tq_params :=
              {| tr_ticketV := st_ticketV ticket; tr_authenticator := bytesToBase64 (iv1 ++ c1);
                 tr_cipherPayload := bytesToBase64 (drop (Z.to_nat IV_BYTES) (iv2 ++ c2));
                 tr_iv := bytesToBase64 (take (Z.to_nat IV_BYTES) (iv2 ++ c2));
                 tr_requestId := rid; tr_operationId := op |};
            tq_key := st_sessionKey ticket; tq_nonce := bytesToBase64 nonce |}.

Definition transfer_url : ustr := BASE_URL ++ js "/v1/bank/transfer".

Definition no_transfer (e : bevent) : Prop :=
  match e with Fetch r => hr_url r <> transfer_url | _ => True end.

(** The only request to the endpoint is the prepared one. *)
Definition only_transfer (body : ujson) (e : bevent) : Prop :=
  match e with Fetch r => hr_url r = transfer_url /\ hr_body r = Some body | _ => True end.

Lemma emits_tgs scope force op : emits no_transfer (performTgsExchange scope force op).
Proof.
  unfold performTgsExchange. emits_all ltac:(first [exact I | intros He; apply app_inv_head in He; discriminate He]).
Qed.

Lemma yields_operation (Q : bevent -> Prop) op : Q BrowserUUID -> yields Q (operation op) (fun _ _ => True).
Proof. intros Hq. apply yields_emits. destruct op; [apply emits_ret|]. by apply emits_vis; [|intros; apply emits_ret]. Qed.

Lemma yields_ticket_for scope force op x :
  yields no_transfer (ticket_for scope force op x)
    (fun t ticket => observed (Session (GetServiceTicket scope)) (Some ticket) t).
Proof.
  unfold ticket_for. eapply yields_bind; [apply yields_emits, emits_tgs|]. intros t _ _.
  eapply yields_bind; [by apply yields_session|]. cbv beta. intros t1 [ticket|] Ht; [|apply yields_raise].
  apply yields_ret. on_trace.
Qed.

#[local] Hint Extern 1 (no_transfer _) => exact I : client.
#[local] Hint Extern 1 (only_transfer _ _) => exact I : client.

Lemma yields_prepare p : yields no_transfer (prepare_transfer p) (transfer_authorised p).
Proof.
  unfold prepare_transfer, getWrappedPrivateKey, unwrapPssSigningKey.
  eapply yields_bind; [by apply yields_operation|]. cbv beta. intros t op _.
  eapply yields_bind; [apply yields_ticket_for|]. cbv beta. intros t1 ticket Hticket.
  eapply yields_bind; [by apply yields_idbGet|]. cbv beta. intros t2 [blob|] Hblob; [|apply yields_raise].
  client_step t3 nonce Hnonce.
  eapply yields_bind; [by apply yields_unix_now|]. cbv beta. intros t4 now (ms & Hms & ->).
  client_step t5 rid Hrid.
  eapply yields_bind; [by apply yields_seal|]. cbv beta. intros t6 box1 (k1 & iv1 & c1 & Hk1 & Hiv1 & Hc1 & ->).
  client_step t7 idem Hidem. client_step t8 k Hk. destruct Hk as [Hk _].
  client_step t9 sig Hsig. destruct Hsig as (salt & Hsalt & ->).
  eapply yields_bind; [by apply yields_seal|]. cbv beta. intros t10 box2 (k2 & iv2 & c2 & Hk2 & Hiv2 & Hc2 & ->).
  apply yields_ret. exists ticket, blob, (pk_rsa k), nonce, ms, rid, idem, salt, k1, k2, iv1, c1, iv2, c2, (Some op).
  cbv zeta. split_and!; try done; on_trace.
Qed.

(** The reply opens under the key to a JSON text. *)
Definition ap_rep_opens (key : addr) (resp : ujson) (t : btrace) (apRep : ujson) : Prop :=
  exists box (k : list Z) plain,
    base64_field "ap_rep" resp box /\ observed (Session (ReadBuffer key)) k t /\
    gcm_open k (take (Z.to_nat IV_BYTES) box) (drop (Z.to_nat IV_BYTES) box) = Some plain /\
    uparse (textDecode plain) = Some apRep.

Lemma yields_open_ap_rep (Q : bevent -> Prop) key resp : Q Turn -> Q (Session (ReadBuffer key)) ->
  yields Q (open_ap_rep key resp) (ap_rep_opens key resp).
Proof.
  intros Hq Hr. unfold open_ap_rep. client_step t text Htext. client_step t1 box Hbox.
  eapply yields_bind; [by apply yields_open|]. cbv beta. intros t2 plain (k & Hk & Hp).
  eapply yields_mono; [|apply yields_parse]. intros t3 apRep Hj.
  exists box, k, plain. split_and!; try done; [by exists text | on_trace].
Qed.

Lemma ap_rep_opens_l key resp t1 t2 apRep : ap_rep_opens key resp t1 apRep -> ap_rep_opens key resp (t1 ++ t2) apRep.
Proof. intros (box & k & plain & Hb & Hk & Hr). exists box, k, plain. split; [done|]. split; [on_trace | done]. Qed.

Lemma ap_rep_opens_r key resp t1 t2 apRep : ap_rep_opens key resp t2 apRep -> ap_rep_opens key resp (t1 ++ t2) apRep.
Proof. intros (box & k & plain & Hb & Hk & Hr). exists box, k, plain. split; [done|]. split; [on_trace | done]. Qed.

(** ... says ok and repeats the nonce. *)
Definition ap_rep_accepted (key : addr) (nonce : ustr) (resp : ujson) (t : btrace) (apRep : ujson) : Prop :=
  ap_rep_opens key resp t apRep /\
  uprop "result" apRep = Ok (UStr (js "ok")) /\ uprop "nonce" apRep = Ok (UStr nonce).

Lemma yields_check_ap_rep (Q : bevent -> Prop) key nonce x resp : Q Turn -> Q (Session (ReadBuffer key)) ->
  yields Q (check_ap_rep key nonce x resp) (ap_rep_accepted key nonce resp).
Proof.
  intros Hq Hr. unfold check_ap_rep.
  eapply yields_bind; [by apply yields_open_ap_rep|]. cbv beta. intros t apRep Hopen.
  client_step t1 res Hres. destruct (is_text (js "ok") res) eqn:Hok; cbn [negb]; [|apply yields_raise].
  apply is_text_true in Hok as ->. client_step t2 n Hn.
  destruct (is_text nonce n) eqn:Hnn; cbn [negb]; [|apply yields_raise]. apply is_text_true in Hnn as ->.
  apply yields_ret. split; [|done]. by apply ap_rep_opens_l.
Qed.

(** The identifier that the page shows. *)
Definition transfer_id (resp apRep id : ujson) : Prop :=
  exists v, uprop "transaction_id" resp = Ok v /\
    if utruthy v then id = v else uprop "tx_id" apRep = Ok id.

Lemma yields_finish rq (body := transfer_body (tq_params rq)) p :
  yields (only_transfer body)
    (let* resp := postTransfer (tq_params rq) in
     let* apRep := check_ap_rep (tq_key rq) (tq_nonce rq) p resp in
     let* id := prop_of "transaction_id" resp in
     if utruthy id then Ret id else prop_of "tx_id" apRep)
    (fun t id => exists resp apRep, called (js "/v1/bank/transfer") body t resp /\
       ap_rep_accepted (tq_key rq) (tq_nonce rq) resp t apRep /\ transfer_id resp apRep id).
Proof.
  eapply yields_bind.
  { unfold postTransfer, apiPost. eapply yields_bind; [by apply yields_ask|]. cbv beta. intros t0 id _.
    apply yields_vis; [done|]. intros rep. eapply yields_mono; [|apply yields_reply].
    cbv beta. intros t data (r & -> & Hr).
    instantiate (1 := called (js "/v1/bank/transfer") body). eexists _, r.
    split_and!; [apply observed_r, observed_here | reflexivity | reflexivity | exact Hr]. }
  cbv beta. intros t resp Hresp.
  eapply yields_bind; [by apply yields_check_ap_rep|]. cbv beta. intros t1 apRep [Hrep Hok].
  client_step t2 v Hv. destruct (utruthy v) eqn:Ht.
  - apply yields_ret. exists resp, apRep. split; [on_trace|]. split; [|exists v; by rewrite Ht].
    split; [|done]. by apply ap_rep_opens_r, ap_rep_opens_l.
  - eapply yields_mono; [|apply yields_prop]. intros t3 id Hid. exists resp, apRep.
    split; [on_trace|]. split; [|exists v; by rewrite Ht]. split; [|done]. by apply ap_rep_opens_r, ap_rep_opens_l.
Qed.

Lemma transfer_authorised_l p t1 t2 rq : transfer_authorised p t1 rq -> transfer_authorised p (t1 ++ t2) rq.
Proof.
  intros (ticket & blob & rsa & nonce & ms & rid & idem & salt & k1 & k2 & iv1 & c1 & iv2 & c2 & op & Hall).
  exists ticket, blob, rsa, nonce, ms, rid, idem, salt, k1, k2, iv1, c1, iv2, c2, op. cbv zeta in *.
  destruct Hall as (? & ? & ? & ? & ? & ? & ? & ? & ? & ? & ? & ? & ? & ? & ?). split_and!; try done; on_trace.
Qed.

(** C4: a transfer is authorised before it leaves the browser, and authenticated
    when it is reported. Whatever the gateway, the database and Web Crypto
    answer, every request to the transfer endpoint is the one that was prepared
    after the user's PIN had opened the stored key: an authenticator and an
    envelope sealed under the session key of the transfer ticket, the envelope
    with the canonical payload of the form's accounts and amount and the
    signature of exactly that text. A transfer is reported as done only for a
    reply that opens under the same ticket's key, says ok and repeats the nonce. *)
Theorem transfer_sound p :
  always (performTransfer p) (fun t r =>
    (forall req rep, observed (Fetch req) rep t -> hr_url req = transfer_url ->
       exists rq, transfer_authorised p t rq /\ hr_body req = Some (transfer_body (tq_params rq))) /\
    (forall id, r = Ok id -> exists rq resp apRep,
       transfer_authorised p t rq /\ called (js "/v1/bank/transfer") (transfer_body (tq_params rq)) t resp /\
       ap_rep_accepted (tq_key rq) (tq_nonce rq) resp t apRep /\ transfer_id resp apRep id)).
Proof.
  assert (Hno : forall t req rep, Forall (fun o => no_transfer (request o)) t ->
    observed (Fetch req) rep t -> hr_url req <> transfer_url).
  { intros t req rep Ht Ho. rewrite Forall_forall in Ht. exact (Ht _ Ho). }
  unfold performTransfer. eapply always_yields; [apply yields_prepare | |].
  { intros t x Ht. split; [|done]. intros req rep Ho Hu. exfalso. by eapply Hno. }
  intros t rq Ht Hrq. eapply always_mono; [|apply yields_finish]. cbv beta. intros t' r [Ht' Hr]. split.
  - intros req rep Ho Hu. exists rq. split; [by apply transfer_authorised_l|].
    apply observed_app in Ho as [Ho|Ho]; [exfalso; by eapply Hno|].
    rewrite Forall_forall in Ht'. by destruct (Ht' _ Ho).
  - intros id Hid. destruct (Hr id Hid) as (resp & apRep & Hc & [Ha Hok] & Htx). exists rq, resp, apRep.
    split_and!; [by apply transfer_authorised_l | on_trace | | done]. split; [by apply ap_rep_opens_r | done].
Qed.

End soundness.

(** ** A logout during a transfer ([Home.tsx], [handleLogout])

    The services hold the byte array of the ticket, not a copy of it. *)

(** [handleLogout] up to its navigation. *)
Definition handleLogout `{Platform} `{WebCrypto} : br ujson :=
  do* session ClearServiceTickets in
  do* session ClearSession in
  Ret UUndefined.

Section race.

#[local] Existing Instance web_platform.
#[local] Existing Instance toy_webcrypto.
#[local] Existing Instance toy_client_env.

(** A page with one memory, which records its requests; the network is down. *)
Record page := { page_memory : memory; page_requests : list HttpRequest }.

Definition some_uuid : ustr := js "2b6e1c1e-7a52-4d3e-9f60-8d1f4a1c0b7e".

Definition page_env (blob : WrappedPrivateKey) (e : bevent) (w : page) : page * reply e :=
  match e as e return page * reply e with
  | GetRandomValues n => (w, replicate (Z.to_nat n) 7)
  | PssSalt => (w, replicate 32 9)
  | BrowserUUID => (w, some_uuid)
  | BrowserNow => (w, 1000)
  | Turn | LocalSet _ _ | LocalRemove _ | AnchorWrite _ => (w, tt)
  | GenerateKey => (w, [5])
  | Fetch r => ({| page_memory := page_memory w; page_requests := page_requests w ++ [r] |}, None : option HttpReply)
  | IdbGet _ k => (w, match k return result js_exception (option (pki_value k)) with
                      | wrappedPrivateKey => Ok (Some blob)
                      | certificate | clientProfile => Ok None
                      end)
  | IdbPut _ | IdbDelete _ _ => (w, Ok tt)
  | LocalGet _ => (w, None : option ustr)
  | Session c => let '(m, r) := session_exec c (page_memory w) in
                 ({| page_memory := m; page_requests := page_requests w |}, r)
  | AnchorRead => (w, (FetchRejected, 1000, {| overridePem := None; pemPromise := None; cachedAnchor := None |}))
  end.

(** The key [5], wrapped under the PIN 123456. *)
Definition race_blob : WrappedPrivateKey :=
  {| wrapped := default [] (gcm_seal (pbkdf2 (textEncode (js "123456")) [1] 1) [2] [5]);
     salt := [1]; wp_iv := [2]; iterations := 1 |}.

(** Logged in with a transfer ticket whose key is 32 ones. *)
Definition race_start : page :=
  {| page_memory := exec_all
       [NewBuffer (replicate 32 1);
        SetServiceTicket
          {| st_scope := transfer_create; st_serviceId := UStr SERVICE_ID; st_ticketV := UStr (js "TV");
             st_sessionKey := 0%nat; st_ticketExpiresAt := UNum 100; st_clientId := js "u-1";
             st_certSn := UStr (js "0a") |}] empty_memory;
     page_requests := [] |}.

Definition race_transfer : TransferParams :=
  {| fromAccountNumber := js "100"; toAccountNumber := js "200"; amount := UNum 50000; description := None;
     currency := None; pin := js "123456"; operationId := None |}.

(** What a request's envelope opens to under a key. *)
Definition envelope_under (key : list Z) (req : HttpRequest) : option ustr :=
  match hr_body req with
  | Some (UObj fields) =>
      match ufield (js "iv") fields, ufield (js "cipher_payload") fields with
      | Some (UStr iv), Some (UStr box) =>
          match atob iv, atob box with
          | Some iv, Some box => option_map textDecode (gcm_open key iv box)
          | _, _ => None
          end
      | _, _ => None
      end
  | _ => None
  end.

(** Twelve steps of the transfer, the logout, and the rest of the transfer. *)
Definition race_run : list (br ujson) * page :=
  run_schedule (page_env race_blob) (replicate 12 0%nat ++ [1%nat; 1%nat] ++ replicate 60 0%nat)
    [performTransfer race_transfer; handleLogout] race_start.

Definition race_canonical : ustr := canonicalStringify (transfer_payload race_transfer some_uuid some_uuid).

(** A logout during a transfer does not stop it and exposes it. The transfer
    keeps the byte array of the ticket's session key across its awaits, and
    [clearServiceTickets] fills that array with zeros: there is an interleaving
    of the two in which the transfer still posts its one request, with the signed
    payload in an envelope that the key of 32 zeros opens and the ticket's key
    does not. *)
Theorem logout_race : exists ps w req,
  pool_steps (page_env race_blob) ([performTransfer race_transfer; handleLogout], race_start) (ps, w) /\
  page_requests w = [req] /\ hr_url req = transfer_url /\
  envelope_under (replicate 32 0) req =
    Some (transfer_envelope race_canonical (pss_sign [5] (replicate 32 9) (textEncode race_canonical))) /\
  envelope_under (replicate 32 1) req = None.
Proof.
  exists race_run.1, race_run.2,
    (nth 0 (page_requests race_run.2) {| hr_method := ""; hr_url := []; hr_headers := []; hr_body := None |}).
  split; [unfold race_run; rewrite <- surjective_pairing; apply run_schedule_steps|].
  vm_compute. repeat split.
Qed.

End race.

(** ** The other replies *)

Section replies.

Context `{P : Platform} `{W : WebCrypto} `{ClientEnv}.

(** The checks of a reply look at nothing but its [ap_rep]: the list of a history
    and the identifier of a transfer are not covered by them. *)
Lemma check_ap_rep_only key nonce x r1 r2 :
  uprop "ap_rep" r1 = uprop "ap_rep" r2 -> check_ap_rep key nonce x r1 = check_ap_rep key nonce x r2.
Proof. intros He. unfold check_ap_rep, open_ap_rep, prop_of. by rewrite He. Qed.

(** A profile is what the authenticated reply says. *)
Lemma read_profile_fields apRep :
  yields (fun _ => False) (read_profile apRep) (fun _ p =>
    uprop "account_id" apRep = Ok (p_accountId p) /\ uprop "account_number" apRep = Ok (p_accountNumber p) /\
    uprop "balance" apRep = Ok (p_balance p) /\ uprop "currency" apRep = Ok (p_currency p)).
Proof.
  unfold read_profile. repeat (let v := fresh "v" in let Hv := fresh "Hv" in client_step ? v Hv).
  by apply yields_ret.
Qed.

(** A session of a bank administrator is the one that its own authentication
    asked for. *)
Lemma admin_session_sound pin :
  yields (fun _ => True) (createAdminSession pin) (fun t s => exists ticket auth resp apRep,
    observed (Session (GetServiceTicket bank_admin_read)) (Some ticket) t /\
    ap_rep_accepted (st_sessionKey ticket) (aa_nonce auth) resp t apRep /\
    uprop "request_id" apRep = Ok (UStr (aa_requestId auth)) /\
    uprop "role" apRep = Ok (UStr (js "bank_admin")) /\ uprop "role" resp = Ok (UStr (js "bank_admin")) /\
    uprop "admin_id" resp = Ok (UStr (bs_adminId s)) /\ uprop "expires_at_unix" resp = Ok (bs_expiresAtUnix s)).
Proof.
  unfold createAdminSession.
  eapply yields_bind; [apply yields_emits, always_true; intros; by apply Forall_true|]. intros t asr _.
  eapply yields_bind; [eapply always_mono; [|apply yields_ticket_for]; intros t1 r [_ Hr]; split;
    [by apply Forall_true | exact Hr]|]. cbv beta. intros t1 ticket Hticket.
  eapply yields_bind; [apply yields_emits, always_true; intros; by apply Forall_true|]. intros t2 auth _.
  eapply yields_bind; [apply yields_emits, always_true; intros; by apply Forall_true|]. intros t3 resp _.
  eapply yields_bind; [by apply yields_open_ap_rep|]. cbv beta. intros t4 apRep Hopen.
  client_step t5 res Hres. destruct (is_text _ res) eqn:Hok; cbn [negb]; [|apply yields_raise].
  apply is_text_true in Hok as ->. client_step t6 n Hn. client_step t7 rid Hrid.
  destruct (is_text _ n) eqn:E; cbn [negb andb]; [|apply yields_raise]. apply is_text_true in E as ->.
  destruct (is_text _ rid) eqn:E; cbn [negb andb]; [|apply yields_raise]. apply is_text_true in E as ->.
  client_step t8 ro Hro. client_step t9 ro' Hro'.
  destruct (is_text _ ro) eqn:E; cbn [negb andb]; [|apply yields_raise]. apply is_text_true in E as ->.
  destruct (is_text _ ro') eqn:E; cbn [negb andb]; [|apply yields_raise]. apply is_text_true in E as ->.
  client_step t10 aid Haid. destruct (is_text _ aid) eqn:E; cbn [negb]; [|apply yields_raise].
  apply is_text_true in E as ->. client_step t11 e1 He1. client_step t12 e2 He2.
  destruct (strict_equal _ _); cbn [negb]; [|apply yields_raise]. apply yields_ret.
  exists ticket, auth, resp, apRep. split; [on_trace|]. split; [|done]. split; [|done].
  do 4 apply ap_rep_opens_r. by apply ap_rep_opens_l.
Qed.

End replies.
