(* ===== verification/EndToEnd.v ===== *)
(** * The client and the gateway together

    The bodies that the client sends are read by the gateway's validators and
    controllers as the bytes that the client meant. [transfer_refines_channel]:
    the whole path from [postTransfer] over the application of the gateway to the
    bank and back is one call of the bank, or a refusal. *)

From S2P Require Import Prelude JsString Effects Gateway Buffer ErrorHandler Crypto RateLimiter Schema Validators AuditReport Bank AdminAuth AdminBank Routes Json UString UJson WebCrypto Sessions Browser KeyService ClientLogic BankClient.

Open Scope Z_scope.

(** ** Base64 texts pass the validators *)

Lemma b64_char_class v : 0 <= v < 64 -> base64_class (b64_char v) = true.
Proof.
  intros H. assert (Hall : forallb (fun n => base64_class (b64_char (Z.of_nat n))) (seq 0 64) = true)
    by (vm_compute; reflexivity).
  rewrite forallb_forall in Hall. specialize (Hall (Z.to_nat v)). rewrite Z2Nat.id in Hall by lia.
  apply Hall, in_seq. lia.
Qed.

Lemma span_cons f a s : f a = true -> span f (String a s) = (String a (span f s).1, (span f s).2).
Proof. intros H. cbn. rewrite H. by destruct (span f s). Qed.

(** The sextets of a text in base64 are all of the class, the padding is not. *)
Lemma to_base64_span l : bytes_ok l ->
  (span base64_class (to_base64 l)).2 ∈ [""; "="; "=="] /\
  (l <> [] -> nonempty (span base64_class (to_base64 l)).1 = true).
Proof.
  induction l as [|a|a b|a b c l IH] using list_ind3; intros H; [by split; [left|]| | |];
    pose proof (b64_values_bound _ H) as Hb; cbn [b64_values to_base64] in *;
    repeat match goal with H : Forall _ (_ :: _) |- _ => inversion_clear H end;
    repeat (rewrite span_cons by (by apply b64_char_class)); cbn [fst snd].
  - split; [|done]. right. right. left.
  - split; [|done]. right. left.
  - split; [|done]. apply IH. by do 3 (apply Forall_cons in H as [_ H]).
Qed.

Lemma base64_star_to_base64 l : bytes_ok l -> base64_star (to_base64 l) = true.
Proof.
  intros H. destruct (to_base64_span l H) as [Hp _]. unfold base64_star.
  destruct (span base64_class (to_base64 l)) as [x r]. cbn [snd] in Hp.
  repeat (apply elem_of_cons in Hp as [->|Hp]; [done|]). by apply elem_of_nil in Hp.
Qed.

Lemma base64Re_to_base64 l : bytes_ok l -> l <> [] -> base64Re (to_base64 l) = true.
Proof.
  intros H Hl. unfold base64Re. rewrite base64_star_to_base64 by done.
  destruct (to_base64_span l H) as [_ ->]; done.
Qed.

Lemma decodesTo_to_base64 n l : bytes_ok l -> zlen l = n -> decodesTo n (to_base64 l) = true.
Proof. intros H Hl. unfold decodesTo. rewrite base64_roundtrip by done. by apply Z.eqb_eq. Qed.

(** ** What crosses the channel *)

(** The bytes of a transfer and the identifier of its request. *)
Record transfer_message := {
  tm_ticket : list Z; tm_authenticator : list Z; tm_cipher : list Z; tm_iv : list Z; tm_requestId : string
}.

(** Bytes, with the lengths of AES-GCM, and an identifier of [crypto.randomUUID]. *)
Definition message_ok (m : transfer_message) : Prop :=
  bytes_ok (tm_ticket m) /\ bytes_ok (tm_authenticator m) /\ bytes_ok (tm_cipher m) /\ bytes_ok (tm_iv m) /\
  tm_ticket m <> [] /\ tm_authenticator m <> [] /\ tm_cipher m <> [] /\ zlen (tm_iv m) = 12 /\
  uuidV4Re (tm_requestId m) = true.

(** The parameters of [postTransfer]. *)
Definition client_params (m : transfer_message) (op : option ustr) : TransferReqParams :=
  {| tr_ticketV := UStr (bytesToBase64 (tm_ticket m));
     tr_authenticator := bytesToBase64 (tm_authenticator m);
     tr_cipherPayload := bytesToBase64 (tm_cipher m); tr_iv := bytesToBase64 (tm_iv m);
     tr_requestId := js (tm_requestId m); tr_operationId := op |}.

(** The body as the gateway parses it. *)
Definition gateway_body (m : transfer_message) : json :=
  JObj [("ticket_v", JStr (to_base64 (tm_ticket m))); ("authenticator", JStr (to_base64 (tm_authenticator m)));
        ("cipher_payload", JStr (to_base64 (tm_cipher m))); ("iv", JStr (to_base64 (tm_iv m)));
        ("request_id", JStr (tm_requestId m))].

(** What the bank must be given. *)
Definition bank_message (m : transfer_message) : TransferRequest :=
  {| Gateway.tr_ticketV := tm_ticket m; Gateway.tr_authenticator := tm_authenticator m;
     Gateway.tr_cipherPayload := tm_cipher m; Gateway.tr_iv := tm_iv m |}.

Lemma body_on_the_wire m op : transfer_body (client_params m op) = widen (gateway_body m).
Proof. unfold transfer_body, client_params. cbn -[js]. by rewrite !bytesToBase64_spec. Qed.

(** ... and on the wire it is the text of that value. *)
Lemma wire_parses m op : uparse (ustringify (transfer_body (client_params m op))) = Some (widen (gateway_body m)).
Proof. rewrite body_on_the_wire. apply uparse_stringify, uplain_widen. reflexivity. Qed.

(** The parsed body of a request that [fetch] sent: [express.json] reads the text
    that [JSON.stringify] wrote. *)
Definition arrives (rq : HttpRequest) (req : Request) : Prop :=
  exists b, hr_body rq = Some b /\ uparse (ustringify b) = Some (widen (body req)).

Lemma widen_inj j j' : widen j = widen j' -> j = j'.
Proof.
  revert j'. induction j as [| | b | n | | x | l IH | l IH] using json_ind2; intros [] E;
    cbn [widen] in E; try discriminate E; try done; injection E as E; f_equal; try done; try by apply js_inj.
  - revert l0 E. induction IH as [|j l Hj _ IHl]; intros [|j' l'] E; try discriminate E; [done|].
    injection E as E1 E2. f_equal; [by apply Hj | by apply IHl].
  - revert fields E. induction IH as [|[k v] l Hv _ IHl]; intros [|[k' v'] l'] E; try discriminate E; [done|].
    cbn [map fst snd] in E. injection E as E1 E2 E3. f_equal; [f_equal; [by apply js_inj | by apply Hv] | by apply IHl].
Qed.

(** What arrives of the client's request is the message. *)
Lemma message_arrives m op rq req :
  hr_body rq = Some (transfer_body (client_params m op)) -> arrives rq req -> body req = gateway_body m.
Proof. intros Hb (b & Hb' & Hp). simplify_eq. rewrite wire_parses in Hp. injection Hp as Hp. by apply widen_inj. Qed.

Lemma gateway_reads_message m req : message_ok m -> body req = gateway_body m ->
  Bank.transfer_request req = bank_message m.
Proof.
  intros (H1 & H2 & H3 & H4 & _) Hb. unfold Bank.transfer_request, bytes_of. rewrite Hb.
  cbn -[from_base64 to_base64]. by rewrite !base64_roundtrip by done.
Qed.

Section channel.

Context `{P : Platform} `{W : WebCrypto} `{ClientEnv} `{ENV} `{Crypto} `{ZodSpec} `{Dates} `{Cookies} (production : bool).

Lemma message_valid m req : message_ok m -> body req = gateway_body m -> validateTransferRequest req = pass tt.
Proof.
  intros (Bt & Ba & Bc & Bi & Ht & Ha & Hc & Hi & Hu) Hb. unfold validateTransferRequest, accept, first_issue.
  assert (Hiv : tm_iv m <> []) by (intros E; by rewrite E in Hi).
  rewrite Hb. assert (Hp : parses TransferBodySchema (gateway_body m) = Some (gateway_body m)).
  { cbn -[base64Re uuidV4Re decodesTo]. rewrite !base64Re_to_base64 by done.
    cbn -[base64Re uuidV4Re decodesTo]. by rewrite decodesTo_to_base64, Hu by done. }
  apply zod_accepts in Hp. by rewrite Hp.
Qed.

(** What the browser receives of an outcome. *)
Definition client_view (o : Gateway.outcome) : option HttpReply :=
  match o with
  | Respond _ st (Json j) => Some {| rp_status := st; rp_json := Some (widen j) |}
  | Respond _ st (Text s) => Some {| rp_status := st; rp_json := uparse (js s) |}
  | NextError _ _ => None
  end.

(** What [apiPost] makes of it. *)
Definition client_reads (o : Gateway.outcome) : br ujson := read_reply post_texts (client_view o).

(** The calls of the bank in a run. *)
Definition bank_call (o : obs) : option (TransferRequest * result js_error TransferResponse) :=
  match o with
  | Obs (BankTransfer rq _) r => Some (rq, r)
  | _ => None
  end.

Definition bank_calls (t : gw_trace) : list (TransferRequest * result js_error TransferResponse) := omap bank_call t.

(** The channel as the client may think of it: the message was refused on the
    way, or the bank was called once with it and its answer came back. *)
Inductive channel (m : transfer_message) :
    list (TransferRequest * result js_error TransferResponse) -> br ujson -> Prop :=
| refused code text st : channel m [] (Raise (ApiError code text st))
| answered resp data :
    (bytes_ok (tr_apRep resp) -> base64_field "ap_rep" data (tr_apRep resp)) ->
    uprop "transaction_id" data = Ok (UStr (js (tr_transactionId resp))) ->
    channel m [(bank_message m, Ok resp)] (Ret data)
| rejected e p :
    (err_status e = None ->
     p = Raise (ApiError (js (error_code (handled e))) (js (ErrorHandler.message (handled e))) (status (handled e)))) ->
    channel m [(bank_message m, Err e)] p.

(** An error body is an exception of the client. *)
Lemma client_reads_error hs st c text more :
  (st <? 200) || (299 <? st) = true -> forallb (fun f => negb (bool_decide (f.1 ∈ ["error_code"; "message"]))) more = true ->
  client_reads (Respond hs st (Json (JObj (fail_body c text more)))) = Raise (ApiError (js c) (js text) st).
Proof.
  intros Hst Hm. unfold client_reads, client_view, read_reply. cbn [rp_json]. unfold read_envelope.
  assert (Hok : rp_ok {| rp_status := st; rp_json := Some (widen (JObj (fail_body c text more))) |} = false).
  { unfold rp_ok. cbn [rp_status]. apply orb_true_iff in Hst as [Hst|Hst]; apply Z.ltb_lt in Hst;
      apply andb_false_iff; [left; apply Z.leb_gt; lia | right; apply Z.ltb_ge; lia]. }
  rewrite Hok. cbn [negb orb bind]. 
  assert (Hno : forall k, k ∈ ["error_code"; "message"] ->
    ufield (js k) (map (fun f => (js f.1, widen f.2)) more) = None).
  { intros k Hk. clear Hst Hok. induction more as [|[k' v] more IH]; [done|]. cbn [forallb fst] in Hm.
    apply andb_true_iff in Hm as [Hk' Hm]. cbn [map ufield fst snd]. rewrite (IH Hm).
    destruct (ustr_eqb (js k') (js k)) eqn:E; [|done]. apply ustr_eqb_eq, js_inj in E as ->.
    by rewrite bool_decide_eq_true_2 in Hk'. }
  pose proof (Hno "error_code" ltac:(by left)) as He. pose proof (Hno "message" ltac:(by right; left)) as Hx.
  unfold prop_of, fail_body. cbn [widen uprop]. rewrite map_app.
  set (tail := map _ more) in *. cbn [map fst snd widen]. rewrite <- !app_comm_cons, app_nil_l. cbn [ufield]. rewrite He, Hx. reflexivity.
Qed.

(** A served transfer is an answer of the bank as the client decodes it. *)
Lemma client_reads_answer hs resp :
  client_reads (Respond hs 200 (Json (JObj
    [("success", JBool true);
     ("data", JObj [("ap_rep", JStr (to_base64 (tr_apRep resp)));
                    ("transaction_id", JStr (tr_transactionId resp))])]))) =
  Ret (widen (JObj [("ap_rep", JStr (to_base64 (tr_apRep resp)));
                    ("transaction_id", JStr (tr_transactionId resp))])).
Proof. reflexivity. Qed.

(** The limiter makes no call of the bank. *)
Lemma bank_limit_calls req :
  always (rateLimitBankByIP req) (fun t r => bank_calls t = [] /\
    (r = Ok (Ok tt) \/ exists n, r = Ok (Err (too_many n "BANK_RATE_LIMITED")))).
Proof.
  unfold rateLimitBankByIP, check. destruct RATE_LIMIT_DISABLED; [by split; [|left]|].
  gw_unfold. gw_cbn. gw_reply count; [|by split; [|left]].
  destruct (count =? 1); gw_cbn.
  - gw_reply u; [|by split; [|left]]. destruct (_ <? count); gw_cbn; [|by split; [|left]].
    gw_reply ttl; [|by split; [|left]]. split; [done|]. right. by eexists.
  - destruct (_ <? count); gw_cbn; [|by split; [|left]].
    gw_reply ttl; [|by split; [|left]]. split; [done|]. right. by eexists.
Qed.

Lemma client_reads_too_many n c :
  client_reads (too_many n c) =
  Raise (ApiError (js c) (js ("Too many requests. Try again in " +:+ Z_string n +:+ " seconds.")) 429).
Proof. exact (client_reads_error _ 429 _ _ [] eq_refl eq_refl). Qed.

Lemma bank_calls_app t1 t2 : bank_calls (t1 ++ t2) = bank_calls t1 ++ bank_calls t2.
Proof. apply omap_app. Qed.

Lemma handled_error_status e : err_status e = None ->
  (status (handled e) <? 200) || (299 <? status (handled e)) = true.
Proof.
  intros He. assert (Hs : is_error_status (status (handled e))).
  { unfold handled. rewrite He. destruct (err_code e); [apply mappings_error_status | by split]. }
  unfold is_error_status in Hs. apply orb_true_iff. right. apply Z.ltb_lt. lia.
Qed.

Lemma answer_decodes `{!TextSpec} m resp :
  channel m [(bank_message m, Ok resp)] (Ret (widen (JObj
    [("ap_rep", JStr (to_base64 (tr_apRep resp))); ("transaction_id", JStr (tr_transactionId resp))]))).
Proof.
  apply answered; [|reflexivity]. intros Hok. exists (UStr (js (to_base64 (tr_apRep resp)))).
  split; [reflexivity|]. cbn [ustring]. by apply atob_btoa.
Qed.

(** The gateway's part: a request that carries the message. *)
Lemma gateway_channel `{!TextSpec} m x_request_id req :
  message_ok m -> body req = gateway_body m ->
  always (app production post_transfer x_request_id req) (fun t o =>
    (exists out, o = Ok out /\ channel m (bank_calls t) (client_reads out)) \/
    (exists now : Z, saw DateNow now t /\ JsDate.toISOString now = None)).
Proof.
  intros Hm Hb. unfold app, serve. apply always_bind, always_attempt. unfold validateHeaders.
  assert (Hno : forall hs, channel m [] (client_reads (Respond hs 400 (Json (JObj
      (fail_body "MISSING_REQUEST_ID" "X-Request-ID header is required" [])))))).
  { intros hs. rewrite client_reads_error by done. apply refused. }
  destruct x_request_id as [id|]; [|left; eexists; split; [done | apply Hno]].
  destruct (nonempty id); [|left; eexists; split; [done | apply Hno]].
  unfold pass, andThen at 1. cbn [bind dispatch]. unfold bankRouter.
  unfold andThen at 1. apply always_bind. eapply always_mono; [|apply bank_limit_calls].
  intros t r [Ht [->|[n ->]]].
  - rewrite (message_valid m (with_id id req) Hm Hb). unfold pass, andThen. cbn [bind].
    unfold handleTransfer, or_next. gw_unfold. gw_cbn. rewrite (gateway_reads_message m (with_id id req) Hm Hb).
    intros [resp|e]; gw_cbn.
    + left. eexists. split; [done|]. rewrite app_nil_r, bank_calls_app, Ht. unfold success_data, Gateway.respond.
      rewrite client_reads_answer. apply answer_decodes.
    + unfold errorHandler. gw_unfold. gw_cbn. intros now. gw_cbn.
      destruct (JsDate.toISOString now) eqn:Hiso; gw_cbn.
      2: { right. exists now. split; [|done]. apply elem_of_app. right. left. }
      left. eexists. split; [done|].
      rewrite !bank_calls_app, Ht. apply rejected. intros He.
      apply client_reads_error; [by apply handled_error_status | done].
  - left. eexists. split; [done|]. rewrite !app_nil_r, Ht.
    change (channel m [] (client_reads (too_many n "BANK_RATE_LIMITED"))). rewrite client_reads_too_many.
    apply refused.
Qed.

(** Reading a reply makes no request. *)
Lemma read_reply_result texts rep : exists p, read_reply texts rep = of_result p.
Proof.
  unfold read_reply, read_envelope, prop_of. destruct rep as [rep|]; [|by eexists (Err _)].
  destruct (rp_json rep) as [v|]; [|by eexists (Err _)].
  destruct (rp_ok rep); cbn [negb orb bind].
  - destruct (uprop "success" v) as [a|e]; cbn [of_result bind]; [|by eexists (Err _)].
    destruct (utruthy a); cbn [negb]; [by eexists|].
    destruct (uprop "error_code" v); cbn [of_result bind]; [|by eexists (Err _)].
    destruct (uprop "message" v); cbn [of_result bind]; by eexists (Err _).
  - destruct (uprop "error_code" v); cbn [of_result bind]; [|by eexists (Err _)].
    destruct (uprop "message" v); cbn [of_result bind]; by eexists (Err _).
Qed.

(** C7: [postTransfer] and the gateway implement a channel to the bank. In every
    run of [postTransfer] on the base64 texts of a message (bytes, none of the
    fields empty, an iv of twelve bytes and a random identifier), exactly one
    request is sent, with POST to the path of transfers. Whenever the application
    of the gateway is asked at that endpoint with the body that this request has
    on the wire, it answers, whatever the limiter and the bank answer, as long as
    the clock shows a date; and if [fetch] hands that answer to the client, then
    either [postTransfer] ends with an error that the gateway sent and no call of
    the bank was made, or the bank was called exactly once with exactly the bytes
    of the message, each in its field, and [postTransfer] ends with the bytes and
    the identifier of the bank's answer, or with the error that the bank's status
    is mapped to. *)
Theorem transfer_refines_channel `{!TextSpec} m op :
  message_ok m ->
  always (postTransfer (client_params m op)) (fun t p =>
    exists id rq rep, t = [@Obs bevent _ BrowserUUID id; @Obs bevent _ (Fetch rq) rep] /\
      hr_method rq = "POST" /\ hr_url rq = BASE_URL ++ js "/v1/bank/transfer" /\
      forall x_request_id req, arrives rq req ->
        always (app production post_transfer x_request_id req) (fun t' o =>
          (exists out, o = Ok out /\ (rep = client_view out -> channel m (bank_calls t') (of_result p))) \/
          (exists now : Z, saw DateNow now t' /\ JsDate.toISOString now = None))).
Proof.
  intros Hm. unfold postTransfer, apiPost, ask. cbn [bind always]. intros id rep.
  destruct (read_reply_result post_texts rep) as [p Hp]. rewrite Hp.
  assert (Hq : forall Q : _ -> _ -> Prop, Q [] p -> always (of_result p : br ujson) Q) by (by destruct p).
  apply Hq. eexists id, _, rep. split_and!; [reflexivity..|]. intros x_request_id req Ha.
  assert (Hb : body req = gateway_body m) by (by eapply (message_arrives m op), Ha).
  eapply always_mono; [|exact (gateway_channel m x_request_id req Hm Hb)].
  intros t' o [(out & -> & Hc)|Hn]; [|by right]. left. exists out. split; [done|].
  intros ->. unfold client_reads in Hc. by rewrite Hp in Hc.
Qed.

End channel.

(** A message of the toy client, against the toy libraries. *)
Definition demo_message : transfer_message :=
  {| tm_ticket := [1; 2; 3]; tm_authenticator := [4]; tm_cipher := [5; 6]; tm_iv := repeat 7 12;
     tm_requestId := "2b6e1c1e-7a52-4d3e-9f60-8d1f4a1c0b7e" |}.

Definition demo_transfer : Request :=
  {| request_id := "r-1"; authorization := None; cookie := None; ip := Some "10.0.0.1"; remoteAddress := None;
     body := gateway_body demo_message; query := []; params := [] |}.

Definition demo_request : HttpRequest :=
  {| hr_method := "POST"; hr_url := js "/v1/bank/transfer"; hr_headers := [];
     hr_body := Some (transfer_body (client_params demo_message None)) |}.

#[local] Existing Instance toy_webcrypto.
#[local] Existing Instance toy_client_env.
#[local] Existing Instance default_env.
#[local] Existing Instance toy_crypto.
#[local] Existing Instance web_platform.
#[local] Existing Instance toy_zod.
#[local] Instance no_dates : Dates := {| date_parse := fun _ => None |}.
#[local] Instance no_cookies : Cookies := {| set_cookie := fun name value _ _ _ => name +:+ value |}.

Lemma transfer_refines_channel_witness :
  arrives demo_request demo_transfer /\
  always (postTransfer (client_params demo_message None))
    (fun t p =>
      exists id rq rep, t = [Obs BrowserUUID id; Obs (Fetch rq) rep] /\
        hr_method rq = "POST" /\ hr_url rq = BASE_URL ++ js "/v1/bank/transfer" /\
        forall x_request_id req, arrives rq req ->
          always (app true post_transfer x_request_id req) (fun t' o =>
            (exists out, o = Ok out /\ (rep = client_view out -> channel demo_message (bank_calls t') (of_result p))) \/
            (exists now : Z, saw DateNow now t' /\ JsDate.toISOString now = None))).
Proof.
  split; [by eexists|].
  apply (@transfer_refines_channel web_platform _ _ _ _ _ toy_zod_spec); [exact web_platform_spec|].
  unfold message_ok. split_and!; try (by intros [=]); try reflexivity; repeat constructor; unfold is_byte; lia.
Defined.
