(* ===== verification/Enrollment.v ===== *)
(** * Enrolling a device ([pki-registration/], the administrators' activation)

    A key pair is generated, wrapped under the PIN and stored before the
    certificate request leaves the browser; the customer's certificate is stored
    only after its chain, its key and its names were checked.
    [enroll_fail_closed] states both, [admin_certificate_unchecked] that no run of
    an administrators' activation consults the trust anchor. *)

From S2P Require Import Prelude Effects JsDate Der DerRead UString UJson X509 CertParser WebCrypto Sessions Browser KeyService ClientLogic Exchange.

Open Scope Z_scope.

Section enrollment.

Context `{P : Platform} `{W : WebCrypto} `{ClientEnv}.

(** ** [csr.ts] *)

(** The key pair is one key: the public half is exported from it. *)
Definition buildCsrPem (keyPair : PrivateKey) (cn mail : ustr) : br ustr :=
  let subject := {| commonName := textEncode cn; Der.email := textEncode mail |} in
  let* spki := exportPublicKeySpki keyPair in
  let* signature := signRsaSha256 keyPair (buildRequestInfo spki subject) in
  Ret (derToPem (buildCsrDer spki (fun _ => signature) subject) (js "CERTIFICATE REQUEST")).

(** ** [registration.api.ts] *)

Definition requestOtp (email : ustr) (operationId : option ustr) : br ujson :=
  apiPost (js "/v1/otp/request") (UObj [(js "email", UStr email)]) (operationHeaders operationId).

Definition verifyOtp (email otp : ustr) (operationId : option ustr) : br ujson :=
  apiPost (js "/v1/otp/verify") (UObj [(js "email", UStr email); (js "otp", UStr otp)])
    (operationHeaders operationId).

Definition register_body (csrPem fullName : ustr) : ujson :=
  UObj [(js "csrPem", UStr csrPem); (js "fullName", UStr fullName)].

Definition registerPki (csrPem fullName regToken : ustr) (operationId : option ustr) : br ujson :=
  apiPost (js "/v1/auth/register") (register_body csrPem fullName)
    (operationHeaders operationId ++ [(js "Authorization", js "Bearer " ++ regToken)]).

(** ** [pki-registration.service.ts] *)

Record PrepareEnrollmentParams := {
  en_fullName : ustr; en_email : ustr; en_pin : ustr; en_scope : option EnrollmentScope
}.

(** The request and the public key. *)
Definition prepareEnrollment (params : PrepareEnrollmentParams) : br (ustr * list Z) :=
  let* keyPair := generateClientKeyPair in
  let* csrPem := buildCsrPem keyPair (en_fullName params) (en_email params) in
  let* publicKeySpki := exportPublicKeySpki keyPair in
  let* wrapped := wrapPrivateKey keyPair (en_pin params) in
  do* idbPut (Entry (default customer (en_scope params)) wrappedPrivateKey wrapped) in
  Ret (csrPem, publicKeySpki).

Fixpoint bytesEqual (a b : list Z) : bool :=
  match a, b with
  | [], [] => true
  | x :: a', y :: b' => (x =? y) && bytesEqual a' b'
  | _, _ => false
  end.

(** The addresses of the certificate, and the one that was registered. *)
Definition has_email (emails : list ustr) (expected : ustr) : bool :=
  existsb (fun e => ustr_eqb (toLowerCase (trim e)) (toLowerCase (trim expected))) emails.

Record VerifyIssuedCertParams := {
  vi_certificatePem : ujson; vi_chainPem : ujson; vi_expectedPublicKeySpki : list Z;
  vi_expectedFullName : ustr; vi_expectedEmail : ustr
}.

Definition verifyIssuedCertificate (params : VerifyIssuedCertParams) : br unit :=
  if negb (utruthy (vi_chainPem params)) then
    Raise (JsError (u8 "Thiếu chain_pem — không thể xác minh cert cấp về Root CA"))
  else
    let* leaf := verify_chain (ustring (vi_certificatePem params)) [ustring (vi_chainPem params)] in
    if negb (bytesEqual (publicKeySpki leaf) (vi_expectedPublicKeySpki params)) then
      Raise (JsError (u8 "Public key trong cert không khớp khóa vừa sinh — nghi ngờ tráo cert"))
    else if negb (ustr_eqb (trim (leafCN leaf)) (trim (vi_expectedFullName params))) then
      Raise (JsError (u8 "CN trong cert (" ++ [34] ++ leafCN leaf ++ [34] ++ u8 ") không khớp họ tên đăng ký"))
    else
      let* pem := text_value (vi_certificatePem params) in
      do* ask Turn in
      let* parsed := match certificatePemToJson pem with Ok j => Ret j | Err e => Raise (DerError e) end in
      if negb (has_email (emails (subjectAltName parsed)) (vi_expectedEmail params)) then
        Raise (JsError (u8 "Email trong cert không khớp email đăng ký"))
      else Ret tt.

Definition storeCertificate (cert : StoredCertificate) (scope : EnrollmentScope) : br unit :=
  idbPut (Entry scope certificate
    {| sc_certificatePem := sc_certificatePem cert; sc_serialNumber := sc_serialNumber cert;
       sc_notAfter := sc_notAfter cert; sc_role := Some (default scope (sc_role cert)) |}).

Definition storeClientProfile (profile : StoredClientProfile) (scope : EnrollmentScope) : br unit :=
  idbPut (Entry scope clientProfile
    {| pr_fullName := pr_fullName profile; pr_role := Some (default scope (pr_role profile)) |}).

(** [new Date(expires_at * 1000).toISOString()]: a number of seconds; a text or a
    fraction is taken for no date. *)
Definition expiry_iso (expires_at : ujson) : br string :=
  match (match expires_at with
         | UNum n => toISOString (n * 1000)
         | UNull => toISOString 0
         | UBool b => toISOString (if b then 1000 else 0)
         | _ => None
         end) with
  | Some s => Ret s
  | None => Raise (PlatformError "RangeError")
  end.

(** The record of an issued certificate. *)
Definition issued_certificate (resp : ujson) (role : EnrollmentScope) : br StoredCertificate :=
  let* cert_pem := prop_of "cert_pem" resp in
  let* cert_serial := prop_of "cert_serial" resp in
  let* expires_at := prop_of "expires_at" resp in
  let* notAfter := expiry_iso expires_at in
  Ret {| sc_certificatePem := cert_pem; sc_serialNumber := cert_serial; sc_notAfter := notAfter;
         sc_role := Some role |}.

Record EnrollAndRegisterParams := {
  er_fullName : ustr; er_email : ustr; er_pin : ustr; er_regToken : ustr; er_operationId : option ustr
}.

(** Up to the checks of the certificate. *)
Definition register_and_verify (params : EnrollAndRegisterParams) (csrPem : ustr) (spki : list Z) : br ujson :=
  let* resp := registerPki csrPem (er_fullName params) (er_regToken params) (er_operationId params) in
  let* cert_pem := prop_of "cert_pem" resp in
  let* chain_pem := prop_of "chain_pem" resp in
  do* verifyIssuedCertificate
    {| vi_certificatePem := cert_pem; vi_chainPem := chain_pem; vi_expectedPublicKeySpki := spki;
       vi_expectedFullName := er_fullName params; vi_expectedEmail := er_email params |} in
  Ret resp.

Definition enrollAndRegister (params : EnrollAndRegisterParams) : br StoredCertificate :=
  let* (csrPem, publicKeySpki) := prepareEnrollment
    {| en_fullName := er_fullName params; en_email := er_email params; en_pin := er_pin params;
       en_scope := Some customer |} in
  let* resp := register_and_verify params csrPem publicKeySpki in
  let* cert := issued_certificate resp customer in
  do* idbPutMany
    [Entry customer certificate cert;
     Entry customer clientProfile {| pr_fullName := trim (er_fullName params); pr_role := Some customer |}] in
  Ret cert.

(** [Promise.all]: both reads are made, the first rejection is the outcome. *)
Definition isEnrolled (scope : EnrollmentScope) : br bool :=
  let* r1 := attempt (getWrappedPrivateKey scope) in
  let* r2 := attempt (getStoredCertificate scope) in
  let* key := of_result r1 in
  let* cert := of_result r2 in
  Ret (bool_decide (is_Some key) && bool_decide (is_Some cert)).

Definition loadSigningKey (pin : ustr) (scope : EnrollmentScope) : br PrivateKey :=
  let* blob := getWrappedPrivateKey scope in
  match blob with
  | None => Raise (JsError (js "No enrolled private key found"))
  | Some blob => unwrapPrivateKey blob pin
  end.

(** [Promise.all]: every deletion is made, the first rejection is the outcome. *)
Definition clearEnrollment (scope : EnrollmentScope) : br unit :=
  let* r1 := attempt (idbDelete scope wrappedPrivateKey) in
  let* r2 := attempt (idbDelete scope certificate) in
  let* r3 := attempt (idbDelete scope clientProfile) in
  do* of_result r1 in do* of_result r2 in of_result r3.

(** ** The administrators' activation

    [admin-enrollment.service.ts] and [ca-admin-enrollment.service.ts] differ in
    the path, the scope and the role. *)

Record ActivateParams := { av_activationToken : ustr; av_email : ustr; av_fullName : ustr; av_pin : ustr }.

Record ActivatedAdmin := {
  ad_adminId : ujson; ad_email : ujson; ad_fullName : ujson; ad_certificate : StoredCertificate
}.

Definition activation_body (token csrPem : ustr) : ujson :=
  UObj [(js "activation_token", UStr token); (js "csr_pem", UStr csrPem)].

Definition postAdminActivation (token csrPem : ustr) : br ujson :=
  apiPost (js "/v1/admin/bank/activate") (activation_body token csrPem) [].

Definition activateAdminCA (token csrPem : ustr) : br ujson :=
  apiPost (js "/v1/admin-ca/activate") (activation_body token csrPem) [].

Definition activate_admin (post : ustr -> ustr -> br ujson) (scope : EnrollmentScope) (params : ActivateParams)
    : br ActivatedAdmin :=
  let email := toLowerCase (trim (av_email params)) in
  let fullName := trim (av_fullName params) in
  let* (csrPem, _) := prepareEnrollment
    {| en_fullName := fullName; en_email := email; en_pin := av_pin params; en_scope := Some scope |} in
  let* response := post (trim (av_activationToken params)) csrPem in
  let* role := prop_of "role" response in
  if negb (is_text (scope_name scope) role) then Raise (JsError (js "ADMIN_ROLE_REQUIRED"))
  else
    let* cert := issued_certificate response scope in
    do* storeCertificate cert scope in
    let* full_name := prop_of "full_name" response in
    let* name := text_value full_name in
    do* storeClientProfile {| pr_fullName := trim name; pr_role := Some scope |} scope in
    let* admin_id := prop_of "admin_id" response in
    let* mail := prop_of "email" response in
    Ret {| ad_adminId := admin_id; ad_email := mail; ad_fullName := full_name; ad_certificate := cert |}.

Definition activateBankAdmin : ActivateParams -> br ActivatedAdmin := activate_admin postAdminActivation bank_admin.
Definition activateCaAdmin : ActivateParams -> br ActivatedAdmin := activate_admin activateAdminCA ca_admin.

End enrollment.

(** ** What an enrolment went through *)

Section soundness.

Context `{P : Platform} `{W : WebCrypto} `{ClientEnv}.

(** The writes of a certificate, and the requests of the network. *)
Definition puts_certificate (e : bevent) : Prop :=
  match e with IdbPut l => exists s c, Entry s certificate c ∈ l | _ => False end.
Definition no_certificate (e : bevent) : Prop := ~ puts_certificate e.
Definition local_only (e : bevent) : Prop := match e with Fetch _ => False | _ => no_certificate e end.

(** The key of the pair is stored, wrapped under the PIN. *)
Definition key_stored (scope : EnrollmentScope) (pin : ustr) (k : RsaKey) (t : btrace) : Prop :=
  exists blob (salt iv c : list Z),
    observed GenerateKey k t /\
    observed (IdbPut [Entry scope wrappedPrivateKey blob]) (Ok tt) t /\
    gcm_seal (pbkdf2 (textEncode pin) salt PBKDF2_ITERATIONS) iv (rsa_pkcs8 k) = Some c /\
    blob = {| wrapped := c; salt := salt; wp_iv := iv; iterations := PBKDF2_ITERATIONS |}.

(** The request is for the public half of that key and proves its possession. *)
Definition csr_of (k : RsaKey) (cn mail csrPem : ustr) : Prop :=
  let subject := {| commonName := textEncode cn; Der.email := textEncode mail |} in
  csrPem = derToPem (buildCsrDer (rsa_spki k) (pkcs1_sign k) subject) (js "CERTIFICATE REQUEST").

(** The checks of an issued certificate. *)
Definition certificate_checked (spki : list Z) (name mail : ustr) (cert_pem chain_pem : ujson) (t : btrace) : Prop :=
  exists leaf pem parsed,
    chain_verified (ustring cert_pem) [ustring chain_pem] leaf t /\
    publicKeySpki leaf = spki /\ trim (leafCN leaf) = trim name /\
    cert_pem = UStr pem /\ certificatePemToJson pem = Ok parsed /\
    has_email (emails (subjectAltName parsed)) mail = true.

(** The stored certificate is the one that was checked. *)
Definition certificate_accepted (p : EnrollAndRegisterParams) (t : btrace) (c : StoredCertificate) : Prop :=
  exists k csrPem resp chain_pem,
    key_stored customer (er_pin p) k t /\ csr_of k (er_fullName p) (er_email p) csrPem /\
    called (js "/v1/auth/register") (register_body csrPem (er_fullName p)) t resp /\
    uprop "cert_pem" resp = Ok (sc_certificatePem c) /\ uprop "chain_pem" resp = Ok chain_pem /\
    uprop "cert_serial" resp = Ok (sc_serialNumber c) /\
    certificate_checked (rsa_spki k) (er_fullName p) (er_email p) (sc_certificatePem c) chain_pem t.

Lemma bytesEqual_eq a b : bytesEqual a b = true <-> a = b.
Proof.
  revert b. induction a as [|x a IH]; intros [|y b]; cbn; try done. rewrite andb_true_iff, Z.eqb_eq, IH. naive_solver.
Qed.

Lemma yields_idbPut (Q : bevent -> Prop) l : Q (IdbPut l) ->
  yields Q (idbPutMany l) (fun t _ => observed (IdbPut l) (Ok tt) t).
Proof.
  intros Hq. apply yields_vis; [done|]. intros [[]|x]; [|apply yields_raise]. apply yields_ret, observed_here.
Qed.

Lemma key_stored_l scope pin k t1 t2 : key_stored scope pin k t1 -> key_stored scope pin k (t1 ++ t2).
Proof.
  intros (blob & salt & iv & c & Hk & Hp & Hr). exists blob, salt, iv, c. split; [on_trace|]. split; [on_trace | done].
Qed.

#[local] Hint Extern 1 (no_certificate _) => intros [] : client.
#[local] Hint Extern 1 (local_only _) => intros [] : client.

Lemma yields_generate (Q : bevent -> Prop) : Q GenerateKey ->
  yields Q generateClientKeyPair (fun t k => observed GenerateKey (pk_rsa k) t /\ pk_use k = RSASSA_sign).
Proof. intros Hq. apply yields_vis; [done|]. intros k. apply yields_ret. split; [apply observed_here | done]. Qed.

Lemma yields_spki (Q : bevent -> Prop) k : Q Turn -> yields Q (exportPublicKeySpki k) (fun _ b => b = rsa_spki (pk_rsa k)).
Proof. intros Hq. eapply yields_mono; [|by apply yields_awaited]. by intros t b [= ->]. Qed.

Lemma yields_csr (Q : bevent -> Prop) k cn mail : Q Turn ->
  yields Q (buildCsrPem k cn mail) (fun _ csr => csr_of (pk_rsa k) cn mail csr).
Proof.
  intros Hq. unfold buildCsrPem. eapply yields_bind; [by apply yields_spki|]. intros t b ->.
  eapply yields_bind; [by apply yields_sign|]. intros t1 sig ->. by apply yields_ret.
Qed.

Lemma yields_wrap (Q : bevent -> Prop) k pin : Q Turn -> (forall n, Q (GetRandomValues n)) ->
  yields Q (wrapPrivateKey k pin) (fun _ blob => exists salt iv c : list Z,
    gcm_seal (pbkdf2 (textEncode pin) salt PBKDF2_ITERATIONS) iv (rsa_pkcs8 (pk_rsa k)) = Some c /\
    blob = {| wrapped := c; salt := salt; wp_iv := iv; iterations := PBKDF2_ITERATIONS |}).
Proof.
  intros Hq Hr. unfold wrapPrivateKey. eapply yields_bind; [by apply yields_ask|]. intros t salt _.
  eapply yields_bind; [by apply yields_ask|]. intros t1 iv _.
  eapply yields_bind; [by apply yields_derive|]. intros t2 key ->.
  eapply yields_bind; [by apply yields_awaited|]. intros t3 c Hc. apply yields_ret. by exists salt, iv, c.
Qed.

Lemma only_key scope blob : ~ puts_certificate (IdbPut [Entry scope wrappedPrivateKey blob]).
Proof. intros (s & c & Hin). apply list_elem_of_singleton in Hin. by apply (f_equal e_key) in Hin. Qed.

Lemma yields_prepareEnrollment p :
  yields local_only (prepareEnrollment p) (fun t '(csrPem, spki) => exists k,
    key_stored (default customer (en_scope p)) (en_pin p) k t /\ csr_of k (en_fullName p) (en_email p) csrPem /\
    spki = rsa_spki k).
Proof.
  unfold prepareEnrollment. eapply yields_bind; [apply yields_generate; by intros []|]. cbv beta. intros t k [Hk _].
  eapply yields_bind; [apply yields_csr; by intros []|]. cbv beta. intros t1 csr Hcsr.
  eapply yields_bind; [apply yields_spki; by intros []|]. cbv beta. intros t2 spki ->.
  eapply yields_bind; [apply yields_wrap; [by intros [] | by intros n []]|]. cbv beta.
  intros t3 blob (salt & iv & c & Hc & ->).
  eapply yields_bind; [apply yields_idbPut, only_key|]. cbv beta. intros t4 _ Hput. apply yields_ret.
  exists (pk_rsa k). split; [|done]. eexists _, salt, iv, c. split_and!; [on_trace | | exact Hc | reflexivity].
  on_trace.
Qed.

Lemma yields_issued_check p spki cert_pem chain_pem :
  yields no_certificate (verifyIssuedCertificate
    {| vi_certificatePem := cert_pem; vi_chainPem := chain_pem; vi_expectedPublicKeySpki := spki;
       vi_expectedFullName := er_fullName p; vi_expectedEmail := er_email p |})
    (fun t _ => certificate_checked spki (er_fullName p) (er_email p) cert_pem chain_pem t).
Proof.
  unfold verifyIssuedCertificate. cbn [vi_certificatePem vi_chainPem vi_expectedPublicKeySpki vi_expectedFullName vi_expectedEmail].
  destruct (utruthy chain_pem); cbn [negb]; [|apply yields_raise].
  eapply yields_bind; [apply yields_verify_chain; [by intros st [] | by intros []]|]. cbv beta. intros t leaf Hleaf.
  destruct (bytesEqual _ _) eqn:Hb; cbn [negb]; [|apply yields_raise]. apply bytesEqual_eq in Hb.
  destruct (ustr_eqb _ _) eqn:Hn; cbn [negb]; [|apply yields_raise]. apply ustr_eqb_eq in Hn.
  client_step t1 pem Hpem. client_step t2 u Hu.
  eapply (yields_bind _ _ _ (fun _ j => certificatePemToJson pem = Ok j)).
  { destruct (certificatePemToJson pem); [by apply yields_ret | apply yields_raise]. }
  cbv beta. intros t3 parsed Hparsed. destruct (has_email _ _) eqn:He; cbn [negb]; [|apply yields_raise].
  apply yields_ret. exists leaf, pem, parsed. split_and!; try done. on_trace.
Qed.

Lemma yields_register p csrPem spki :
  yields no_certificate (register_and_verify p csrPem spki) (fun t resp => exists cert_pem chain_pem,
    called (js "/v1/auth/register") (register_body csrPem (er_fullName p)) t resp /\
    uprop "cert_pem" resp = Ok cert_pem /\ uprop "chain_pem" resp = Ok chain_pem /\
    certificate_checked spki (er_fullName p) (er_email p) cert_pem chain_pem t).
Proof.
  unfold register_and_verify, registerPki.
  eapply yields_bind; [apply yields_apiPost; [by intros [] | by intros r []]|]. cbv beta. intros t resp Hresp.
  client_step t1 cert_pem Hcert. client_step t2 chain_pem Hchain.
  eapply yields_bind; [apply yields_issued_check|]. cbv beta. intros t3 u Hchk. apply yields_ret.
  exists cert_pem, chain_pem. split_and!; [on_trace | done | done |].
  destruct Hchk as (leaf & pem & parsed & Hv & Hr). exists leaf, pem, parsed. split; [on_trace | exact Hr].
Qed.

Lemma yields_issued_certificate (Q : bevent -> Prop) resp role :
  yields Q (issued_certificate resp role) (fun _ c => uprop "cert_pem" resp = Ok (sc_certificatePem c) /\
    uprop "cert_serial" resp = Ok (sc_serialNumber c) /\ sc_role c = Some role).
Proof.
  unfold issued_certificate. client_step t pem Hpem. client_step t1 sn Hsn. client_step t2 e He.
  eapply (yields_bind _ _ _ (fun _ _ => True)).
  { unfold expiry_iso. case_match; [by apply yields_ret | apply yields_raise]. }
  cbv beta. intros t3 iso _. by apply yields_ret.
Qed.

Lemma entry_certificate s c s' c' : Entry s certificate c = Entry s' certificate c' -> s = s' /\ c = c'.
Proof.
  intros He. split; [exact (f_equal e_scope He)|].
  set (cert_of e := match e with Entry _ certificate c => Some c | _ => None end).
  apply (f_equal cert_of) in He. by injection He.
Qed.

(** The run stored no certificate. *)
Lemma none_stored (Q : StoredCertificate -> Prop) t : Forall (fun o => no_certificate (request o)) t ->
  forall l x s c, observed (IdbPut l) x t -> Entry s certificate c ∈ l -> s = customer /\ Q c.
Proof.
  intros Ht l x s c Ho Hin. exfalso. apply (not_observed no_certificate _ _ _ Ht) in Ho; [done|].
  intros Hn. apply Hn. by exists s, c.
Qed.

Lemma local_no_certificate t : Forall (fun o => local_only (request o)) t ->
  Forall (fun o => no_certificate (request o)) t.
Proof. intros Ht. eapply Forall_impl; [exact Ht|]. intros o Ho. cbn in *. by destruct (request o). Qed.

Lemma local_no_fetch t req rep : Forall (fun o => local_only (request o)) t -> ~ observed (Fetch req) rep t.
Proof. intros Ht. apply (not_observed local_only); [done | intros []]. Qed.

(** The writes of [enrollAndRegister] at its end. *)
Definition enrolled_entries (p : EnrollAndRegisterParams) (c : StoredCertificate) : list pki_entry :=
  [Entry customer certificate c;
   Entry customer clientProfile {| pr_fullName := trim (er_fullName p); pr_role := Some customer |}].

(** What a run of an enrolment guarantees. *)
Definition enrolment_safe (p : EnrollAndRegisterParams) (t : btrace) (r : result js_exception StoredCertificate)
    : Prop :=
  (forall l x s c, observed (IdbPut l) x t -> Entry s certificate c ∈ l ->
     s = customer /\ certificate_accepted p t c) /\
  (forall req rep, observed (Fetch req) rep t -> exists t1 t2 k,
     t = t1 ++ t2 /\ (forall req rep, ~ observed (Fetch req) rep t1) /\ key_stored customer (er_pin p) k t1) /\
  (forall c, r = Ok c -> observed (IdbPut (enrolled_entries p c)) (Ok tt) t).

(** C5: enrolment is fail-closed, and the key comes first. Whatever the gateway,
    the database and Web Crypto answer, a certificate is stored only if it came in
    the reply to a request for the public half of the key that was generated,
    signed by that key; its chain was verified up to the client's root, it binds
    that same key, its common name is the registered name and its alternative
    names hold the registered address. Before anything is sent, the key is in the
    database, wrapped under the PIN (so a stored key of the same scope is replaced
    even if the registration is then refused). The enrolment ends normally only
    when the certificate and the profile were stored together. *)
Theorem enroll_fail_closed p : always (enrollAndRegister p) (enrolment_safe p).
Proof.
  unfold enrollAndRegister. eapply always_yields; [apply yields_prepareEnrollment | |].
  { intros t x Ht. split; [by apply (none_stored (certificate_accepted p _)), local_no_certificate|].
    split; [|done]. intros req rep Ho. by apply local_no_fetch in Ho. }
  cbv beta. intros t [csrPem spki] Ht (k & Hk & Hcsr & ->). cbn [default en_scope en_pin en_fullName en_email] in *.
  assert (Hfirst : forall t' req rep, observed (Fetch req) rep (t ++ t') -> exists t1 t2 k,
    t ++ t' = t1 ++ t2 /\ (forall req rep, ~ observed (Fetch req) rep t1) /\ key_stored customer (er_pin p) k t1).
  { intros t' _ _ _. exists t, t', k. split; [done|]. split; [|done]. intros req rep. by apply local_no_fetch. }
  apply local_no_certificate in Ht.
  eapply always_yields; [apply yields_register | |].
  { intros t1 x Ht1. split; [by apply (none_stored (certificate_accepted p _)), Forall_app|]. split; [apply Hfirst | done]. }
  cbv beta. intros t1 resp Ht1 (cert_pem & chain_pem & Hresp & Hpem & Hchain & Hchk).
  eapply always_yields; [apply (yields_issued_certificate no_certificate) | |].
  { intros t2 x Ht2. split; [by apply (none_stored (certificate_accepted p _)); rewrite !Forall_app|]. split; [apply Hfirst | done]. }
  cbv beta. intros t2 c Ht2 (Hpem' & Hsn & _). rewrite Hpem in Hpem'. injection Hpem' as ->.
  assert (Hacc : forall t3, certificate_accepted p (t ++ t1 ++ t2 ++ t3) c).
  { intros t3. exists k, csrPem, resp, chain_pem. split_and!; [by apply key_stored_l | done | on_trace | done | done | done |].
    destruct Hchk as (leaf & pem & parsed & Hv & Hr). exists leaf, pem, parsed. split; [on_trace | exact Hr]. }
  intros r. assert (Hput : forall l x s c', observed (IdbPut l) x (t ++ t1 ++ t2 ++ [Obs (IdbPut (enrolled_entries p c)) r]) ->
    Entry s certificate c' ∈ l -> s = customer /\ c' = c).
  { intros l x s c' Ho Hin. rewrite !app_assoc in Ho. apply observed_app in Ho as [Ho|Ho].
    - apply (none_stored (fun c' => c' = c) (((t ++ t1) ++ t2))) with l x; [by rewrite !Forall_app | done | done].
    - apply list_elem_of_singleton in Ho. injection Ho as -> _. unfold enrolled_entries in Hin.
      apply elem_of_cons in Hin as [Hin|Hin]; [by apply entry_certificate in Hin|].
      apply list_elem_of_singleton in Hin. by apply (f_equal e_key) in Hin. }
  destruct r as [[]|x]; (split; [|split; [apply Hfirst|]]).
  - intros l x s c' Ho Hin. destruct (Hput l x s c' Ho Hin) as [-> ->]. split; [done | apply Hacc].
  - intros c' [= <-]. rewrite !app_assoc. apply observed_r, observed_here.
  - intros l y s c' Ho Hin. destruct (Hput l y s c' Ho Hin) as [-> ->]. split; [done | apply Hacc].
  - done.
Qed.

(** The administrators' activation stores the certificate of the reply without
    verifying its chain: no run consults the trust anchor. *)
Lemma admin_certificate_unchecked scope post p : post = postAdminActivation \/ post = activateAdminCA ->
  emits (fun e => e <> AnchorRead) (activate_admin post scope p).
Proof.
  intros Hpost. unfold activate_admin. destruct Hpost as [-> | ->];
    unfold postAdminActivation, activateAdminCA, prepareEnrollment; client_emits.
Qed.

End soundness.
