(* ===== verification/AdminClient.v ===== *)
(** * The administrators' clients ([admin/], [admin-bank/admin-bank.api])

    The CA administrator's certificate login and views, the security
    administrator's views, and the queries of the bank's administrator. Session
    tokens are kept in the local storage; queries are built with
    [URLSearchParams]. *)

From S2P Require Import Prelude Effects JsString UString UJson X509 WebCrypto Sessions Browser KeyService ClientLogic Exchange BankClient Enrollment.

Open Scope Z_scope.

Section admin.

Context `{P : Platform} `{W : WebCrypto} `{ClientEnv}.

(** ** [URLSearchParams] *)

(** [query.set(name, value)]. *)
Fixpoint param_set (name value : ustr) (l : list (ustr * ustr)) : list (ustr * ustr) :=
  match l with
  | [] => [(name, value)]
  | (k, v) :: l' => if ustr_eqb k name then (k, value) :: l' else (k, v) :: param_set name value l'
  end.

(** A byte in [application/x-www-form-urlencoded]. *)
Definition form_byte (b : Z) : ustr :=
  if b =? 32 then [43]
  else if is_digit b || ((65 <=? b) && (b <=? 90)) || ((97 <=? b) && (b <=? 122)) ||
          existsb (Z.eqb b) (js "*-._") then [b]
  else percent b.

Definition form_text (s : ustr) : ustr := flat_map form_byte (textEncode s).

(** [query.toString()]. *)
Definition params_string (l : list (ustr * ustr)) : ustr :=
  join (js "&") (map (fun kv => form_text kv.1 ++ js "=" ++ form_text kv.2) l).

(** Steps of the query builders. *)
Definition paging (limit offset : option Z) : list (ustr * ustr) :=
  param_set (js "offset") (js (Z_string (default 0 offset)))
    (param_set (js "limit") (js (Z_string (default 20 limit))) []).

(** [if (value && value !== all) query.set(name, value)]. *)
Definition set_unless_all (name : string) (value : option ustr) (l : list (ustr * ustr)) : list (ustr * ustr) :=
  match value with
  | Some (u :: s) => if ustr_eqb (u :: s) (js "all") then l else param_set (js name) (u :: s) l
  | _ => l
  end.

(** [if (value?.trim()) query.set(name, value.trim())]. *)
Definition set_trimmed (name : string) (value : option ustr) (l : list (ustr * ustr)) : list (ustr * ustr) :=
  match value with
  | Some s => match trim s with [] => l | t => param_set (js name) t l end
  | None => l
  end.

(** A path with a part of [encodeURIComponent]. *)
Definition encoded (s : ustr) : br ustr :=
  match encodeURIComponent s with Some t => Ret t | None => Raise (PlatformError "URIError") end.

(** ** [ca-admin.api.ts] *)

(** [localStorage.getItem(key) || fallback]. *)
Definition stored_or (key : string) (fallback : ustr) : br ustr :=
  Vis (LocalGet key) (fun v => Ret (match v with Some (u :: s) => u :: s | _ => fallback end)).

Definition CA_TOKEN_KEY : string := "mini_banking_admin_ca_token".
Definition CA_EMAIL_KEY : string := "mini_banking_admin_ca_email".

Definition getStoredAdminToken : br ustr := stored_or CA_TOKEN_KEY [].
Definition getStoredAdminEmail : br ustr := stored_or CA_EMAIL_KEY [].

Definition store_session (token_key email_key : string) (session : ujson) : br unit :=
  let* token := prop_of "token" session in
  do* ask (LocalSet token_key token) in
  let* email := prop_of "email" session in
  ask (LocalSet email_key email).

Definition storeAdminSession : ujson -> br unit := store_session CA_TOKEN_KEY CA_EMAIL_KEY.

Definition clear_session (token_key email_key : string) : br unit :=
  do* ask (LocalRemove token_key) in ask (LocalRemove email_key).

Definition clearAdminSession : br unit := clear_session CA_TOKEN_KEY CA_EMAIL_KEY.

Definition bearer_header (token : ustr) : list (ustr * ustr) := [(js "Authorization", js "Bearer " ++ token)].

Definition authHeaders : br (list (ustr * ustr)) :=
  let* token := getStoredAdminToken in Ret (bearer_header token).

Definition createAdminCaCertificateSession (certSerial : ujson) (challenge signature : ustr) : br ujson :=
  apiPost (js "/v1/admin-ca/session")
    (UObj [(js "cert_serial", certSerial); (js "challenge", UStr challenge); (js "signature", UStr signature)]) [].

Record CertificateListParams := {
  cl_status : option ustr; cl_certType : option ustr; cl_issuerId : option ustr; cl_search : option ustr;
  cl_limit : option Z; cl_offset : option Z
}.

(** The search is an address when it has an at sign, else a serial number. *)
Definition set_search (search : option ustr) (l : list (ustr * ustr)) : list (ustr * ustr) :=
  match trim (default [] search) with
  | [] => l
  | s => if existsb (Z.eqb 64) s then param_set (js "email") s l else param_set (js "serial") s l
  end.

Definition certificate_query (p : CertificateListParams) : list (ustr * ustr) :=
  set_search (cl_search p) (set_trimmed "issuer_id" (cl_issuerId p)
    (set_unless_all "cert_type" (cl_certType p) (set_unless_all "status" (cl_status p)
      (paging (cl_limit p) (cl_offset p))))).

Definition listAdminCertificates (p : CertificateListParams) : br ujson :=
  let* headers := authHeaders in
  apiGet (js "/v1/admin-ca/certificates?" ++ params_string (certificate_query p)) headers.

Definition getAdminCertificateDetail (serial : ustr) : br ujson :=
  let* s := encoded serial in
  let* headers := authHeaders in
  apiGet (js "/v1/admin-ca/certificates/" ++ s) headers.

Definition revokeAdminCertificate (serial reason : ustr) : br ujson :=
  let* s := encoded serial in
  let* headers := authHeaders in
  apiPost (js "/v1/admin-ca/certificates/" ++ s ++ js "/revoke") (UObj [(js "reason", UStr reason)]) headers.

Record CaAuditListParams := {
  al_action : option ustr; al_serial : option ustr; al_performedBy : option ustr;
  al_limit : option Z; al_offset : option Z
}.

Definition ca_audit_query (p : CaAuditListParams) : list (ustr * ustr) :=
  set_trimmed "performed_by" (al_performedBy p) (set_trimmed "serial" (al_serial p)
    (set_unless_all "action" (al_action p) (paging (al_limit p) (al_offset p)))).

Definition listAdminCaAudit (p : CaAuditListParams) : br ujson :=
  let* headers := authHeaders in
  apiGet (js "/v1/admin-ca/audit?" ++ params_string (ca_audit_query p)) headers.

(** ** [ca-admin-session.service.ts] *)

(** The signed text: purpose, serial, a nonce and the time. *)
Definition ca_challenge (serial nonce : ustr) (issuedAt : Z) : ustr :=
  join (js ":") [js "admin-ca-login"; toLowerCase serial; nonce; js (Z_string issuedAt)].

Definition loginAdminCAWithCertificate (pin : ustr) : br ujson :=
  let* cert := getStoredCertificate ca_admin in
  let serial := match cert with Some c => sc_serialNumber c | None => UUndefined end in
  if negb (utruthy serial) then Raise (JsError (js "ADMIN_CA_CERT_NOT_FOUND"))
  else
    let* issuedAt := unix_now in
    let* text := text_value serial in
    let* nonce := ask BrowserUUID in
    let challenge := ca_challenge text nonce issuedAt in
    let* signingKey := loadSigningKey pin ca_admin in
    let* signature := signRsaSha256 signingKey (textEncode challenge) in
    let* session := createAdminCaCertificateSession serial challenge (bytesToBase64 signature) in
    do* storeAdminSession session in
    Ret session.

(** ** [soc-admin.api.ts] *)

Definition SOC_TOKEN_KEY : string := "mini_banking_admin_soc_token".
Definition SOC_EMAIL_KEY : string := "mini_banking_admin_soc_email".

Definition envToken : ustr := default [] VITE_ADMIN_SOC_TOKEN.

Definition getStoredSocToken : br ustr := stored_or SOC_TOKEN_KEY envToken.
Definition getStoredSocEmail : br ustr := stored_or SOC_EMAIL_KEY [].
Definition storeSocSession : ujson -> br unit := store_session SOC_TOKEN_KEY SOC_EMAIL_KEY.
Definition clearSocSession : br unit := clear_session SOC_TOKEN_KEY SOC_EMAIL_KEY.

Definition socHeaders : br (list (ustr * ustr)) :=
  let* token := getStoredSocToken in Ret (bearer_header token).

Definition loginSecAdmin (email password : ustr) : br ujson :=
  apiPost (js "/v1/admin-sec/auth") (UObj [(js "email", UStr email); (js "password", UStr password)]) [].

Record KdcAuditListParams := {
  kl_action : option ustr; kl_clientId : option ustr; kl_certSerial : option ustr; kl_requestId : option ustr;
  kl_limit : option Z; kl_offset : option Z
}.

Definition kdc_audit_query (p : KdcAuditListParams) : list (ustr * ustr) :=
  set_trimmed "request_id" (kl_requestId p) (set_trimmed "cert_serial" (kl_certSerial p)
    (set_trimmed "client_id" (kl_clientId p)
      (set_unless_all "action" (kl_action p) (paging (kl_limit p) (kl_offset p))))).

Definition listKdcAudit (p : KdcAuditListParams) : br ujson :=
  let* headers := socHeaders in
  apiGet (js "/v1/admin-kdc/audit?" ++ params_string (kdc_audit_query p)) headers.

Definition getAuditSummary (window : option ustr) : br ujson :=
  let* w := encoded (default (js "24h") window) in
  let* headers := socHeaders in
  apiGet (js "/v1/admin/audit/summary?window=" ++ w) headers.

Definition verifyAuditChains : br ujson :=
  let* headers := socHeaders in apiGet (js "/v1/admin/audit/verify") headers.

Definition getAuditTimeline (requestId : ustr) : br ujson :=
  let* id := encoded requestId in
  let* headers := socHeaders in
  apiGet (js "/v1/admin/audit/timeline?request_id=" ++ id) headers.

Record ExportOptions := {
  ex_source : option ustr; ex_format : option ustr; ex_from : option ustr; ex_to : option ustr
}.

Definition set_given (name : string) (value : option ustr) (l : list (ustr * ustr)) : list (ustr * ustr) :=
  match value with Some (u :: s) => param_set (js name) (u :: s) l | _ => l end.

Definition export_query (o : ExportOptions) : list (ustr * ustr) :=
  set_given "to" (ex_to o) (set_given "from" (ex_from o)
    (param_set (js "format") (default (js "csv") (ex_format o))
      (param_set (js "source") (default (js "all") (ex_source o)) []))).

(** The name under which the browser saves the answer; the blob and the click
    are the browser's. *)
Definition downloadAuditExport (o : ExportOptions) : br ustr :=
  let* id := ask BrowserUUID in
  let* headers := socHeaders in
  Vis (Fetch {| hr_method := "GET";
                hr_url := BASE_URL ++ js "/v1/admin/audit/export?" ++ params_string (export_query o);
                hr_headers := assign [(js "X-Request-ID", id)] headers; hr_body := None |})
    (fun res =>
      match res with
      | None => Raise type_error
      | Some res =>
          if negb (rp_ok res) then
            Raise (JsError (js "Export failed (HTTP " ++ js (Z_string (rp_status res)) ++ js ")"))
          else Ret (js "audit-" ++ default (js "all") (ex_source o) ++ js "." ++ default (js "csv") (ex_format o))
      end).

(** ** [admin-bank.api.ts] *)

(** [...(value ? { name: value } : {})]. *)
Definition when_given (name : string) (value : option ustr) : list (ustr * ujson) :=
  match value with Some (u :: s) => [(js name, UStr (u :: s))] | _ => [] end.

Definition paging_fields (limit offset : option Z) : list (ustr * ujson) :=
  [(js "limit", UNum (default 20 limit)); (js "offset", UNum (default 0 offset))].

Definition range_fields (fromUnix toUnix : option Z) : list (ustr * ujson) :=
  [(js "from_unix", UNum (default 0 fromUnix)); (js "to_unix", UNum (default 0 toUnix))].

(** [{ ...response, items: response[name] }]. *)
Definition with_items (name : string) (response : ujson) : br ujson :=
  let* items := prop_of name response in
  Ret (UObj ((match response with UObj l => l | _ => [] end) ++ [(js "items", items)])).

Definition queryAdminOverview : br ujson := apiPost (js "/v1/admin/bank/overview/query") (UObj []) [].

Record UsersParams := {
  up_email : option ustr; up_status : option ustr; up_limit : option Z; up_offset : option Z
}.

Definition users_body (p : UsersParams) : ujson :=
  UObj (when_given "email" (up_email p) ++ when_given "status" (up_status p) ++
        paging_fields (up_limit p) (up_offset p)).

Definition queryAdminUsers (p : UsersParams) : br ujson :=
  let* response := apiPost (js "/v1/admin/bank/users/query") (users_body p) [] in
  with_items "users" response.

Definition queryAdminUserAccounts (userId : ustr) : br ujson :=
  let* id := encoded userId in
  apiPost (js "/v1/admin/bank/users/" ++ id ++ js "/accounts/query") (UObj []) [].

Record TransactionsParams := {
  tp_accountId : option ustr; tp_status : option ustr; tp_fromUnix : option Z; tp_toUnix : option Z;
  tp_limit : option Z; tp_offset : option Z
}.

Definition transactions_body (p : TransactionsParams) : ujson :=
  UObj (when_given "account_id" (tp_accountId p) ++ when_given "status" (tp_status p) ++
        range_fields (tp_fromUnix p) (tp_toUnix p) ++ paging_fields (tp_limit p) (tp_offset p)).

Definition queryAdminTransactions (p : TransactionsParams) : br ujson :=
  let* response := apiPost (js "/v1/admin/bank/transactions/query") (transactions_body p) [] in
  with_items "transactions" response.

Record AuditParams := {
  ap_action : option ustr; ap_userId : option ustr; ap_certSerial : option ustr; ap_requestId : option ustr;
  ap_fromUnix : option Z; ap_toUnix : option Z; ap_limit : option Z; ap_offset : option Z
}.

Definition audit_body (p : AuditParams) : ujson :=
  UObj (when_given "action" (ap_action p) ++ when_given "user_id" (ap_userId p) ++
        when_given "cert_serial" (ap_certSerial p) ++ when_given "request_id" (ap_requestId p) ++
        range_fields (ap_fromUnix p) (ap_toUnix p) ++ paging_fields (ap_limit p) (ap_offset p)).

Definition queryAdminAuditEvents (p : AuditParams) : br ujson :=
  let* response := apiPost (js "/v1/admin/bank/audit/query") (audit_body p) [] in
  with_items "events" response.

End admin.
