(* ===== verification/ReplyTypes.v ===== *)
(** * The types of the gateway's replies

    The client casts the data of a reply to an interface without a check
    ([apiPost<T>]). The interfaces of the client's files are data here. A field
    whose declaration the gateway does not honour has two types, the declared one
    and the one that it is given ([TCast]); [replies_typed] shows what the
    controllers answer, [casts_not_honoured] that those declarations do fail. *)

From S2P Require Import Prelude JsString Effects Gateway Buffer ErrorHandler Crypto RateLimiter Otp Register Activation Schema Validators AdminAuth AuditSemantics AuditFetch AuditTimeline AuditReport CaAdmin Bank AdminBank UString UJson WebCrypto Sessions Browser KeyService ClientLogic BankClient EndToEnd.

Open Scope Z_scope.

(** ** Interfaces *)

Inductive ty :=
| TString
| TNumber
| TBoolean
| TEnum (values : list string)
| TNullable (t : ty)
| TArray (t : ty)
| TOptional (t : ty)
| TRecord (t : ty)
| TUnknown
| TOr (t u : ty)
| TCast (declared given : ty)
| TInterface (fields : list (string * ty)).

(** The value has the type; an interface may have further fields, and of a cast
    only the type that is given counts. *)
Fixpoint typed (t : ty) (j : ujson) {struct t} : bool :=
  match t with
  | TString => match j with UStr _ => true | _ => false end
  | TNumber => match j with UNum _ | UDec _ => true | _ => false end
  | TBoolean => match j with UBool _ => true | _ => false end
  | TEnum values => match j with UStr s => existsb (fun v => ustr_eqb s (js v)) values | _ => false end
  | TNullable t => match j with UNull => true | _ => typed t j end
  | TArray t => match j with UArr l => forallb (typed t) l | _ => false end
  | TOptional t => match j with UUndefined => true | _ => typed t j end
  | TRecord t => match j with UObj l => forallb (fun f => typed t f.2) l | _ => false end
  | TUnknown => true
  | TOr t u => typed t j || typed u j
  | TCast _ given => typed given j
  | TInterface fields =>
      match j with
      | UObj l =>
          (fix go fs := match fs with
                        | [] => true
                        | (name, t) :: fs' => typed t (default UUndefined (ufield (js name) l)) && go fs'
                        end) fields
      | _ => false
      end
  end.

(** The type as the client's file declares it. *)
Fixpoint declared (t : ty) : ty :=
  match t with
  | TNullable t => TNullable (declared t)
  | TArray t => TArray (declared t)
  | TOptional t => TOptional (declared t)
  | TRecord t => TRecord (declared t)
  | TOr t u => TOr (declared t) (declared u)
  | TCast d _ => d
  | TInterface fields => TInterface (map (fun f => (f.1, declared f.2)) fields)
  | t => t
  end.

(** The fields whose declaration is not honoured, with their paths. *)
Fixpoint casts (t : ty) : list string :=
  match t with
  | TNullable t | TArray t | TOptional t | TRecord t => casts t
  | TOr t u => casts t ++ casts u
  | TCast _ _ => [""]
  | TInterface fields => flat_map (fun f => map (fun p => "." +:+ f.1 +:+ p) (casts f.2)) fields
  | _ => []
  end.

(** [registration.api.ts] *)
Definition RequestOtpResult : ty := TInterface [("email_masked", TString); ("expires_in", TNumber)].
Definition VerifyOtpResult : ty :=
  TInterface [("reg_token", TString); ("owner_id", TString); ("expires_in", TNumber)].
Definition RegisterPkiResult : ty :=
  TInterface [("cert_pem", TString); ("cert_serial", TString); ("issued_at", TNumber); ("expires_at", TNumber);
              ("chain_pem", TString)].

(** [as-exchange.api.ts], [tgs-exchange.api.ts] *)
Definition AsRepResult : ty := TInterface [("encrypted_payload", TString); ("tgt_expiry", TNumber)].
Definition TgsRepResult : ty := TInterface [("encrypted_payload", TString); ("ticket_expiry", TNumber)].

(** [transfer.api.ts], [profile.api.ts], [history.api.ts] *)
Definition TransferRepResult : ty := TInterface [("ap_rep", TString); ("transaction_id", TString)].
Definition ProfileRepResult : ty := TInterface [("ap_rep", TString); ("account_id", TString)].
Definition HistoryItemDto : ty :=
  TInterface [("transaction_id", TString); ("from_account_number", TString); ("to_account_number", TString);
              ("amount", TNumber); ("currency", TString); ("status", TString);
              ("description", TString); ("scope", TString); ("created_at_unix", TNumber);
              ("completed_at_unix", TNumber)].
Definition HistoryRepResult : ty :=
  TInterface [("ap_rep", TString); ("transactions", TArray HistoryItemDto); ("total", TNumber); ("limit", TNumber);
              ("offset", TNumber)].

(** [ca-admin.api.ts], [soc-admin.api.ts] *)
Definition CertificateStatus : ty := TEnum ["active"; "revoked"; "expired"; "unknown"].
Definition CertificateType : ty := TEnum ["root_ca"; "intermediate_ca"; "service_tls"; "client"].

(** The type of a certificate is relayed as the CA answers it. *)
Definition AdminCertificate : ty :=
  TInterface [("serial", TString); ("cert_type", TCast (TOr CertificateType (TEnum [""])) TString); ("issuer_id", TString); ("issuer_common_name", TString);
              ("issuer_serial_number", TString); ("owner_id", TString); ("cn", TString); ("email", TString);
              ("chain_pem", TString); ("chain_fingerprints", TArray TString); ("is_ca", TBoolean);
              ("key_usage", TArray TString); ("extended_key_usage", TArray TString); ("fingerprint", TString);
              ("status", CertificateStatus); ("not_before", TNumber); ("not_after", TNumber);
              ("issued_at", TNumber); ("revoked_at", TNullable TNumber); ("revocation_reason", TNullable TString)].
Definition paged (name : string) (t : ty) : ty :=
  TInterface [(name, TArray t); ("total", TNumber); ("limit", TNumber); ("offset", TNumber)].
Definition AdminLoginResponse : ty :=
  TInterface [("token", TString); ("token_type", TEnum ["Bearer"]); ("role", TString); ("email", TString);
              ("expires_in", TNumber); ("cert_serial", TOptional TString); ("owner_id", TOptional TString)].
Definition AdminActivationResult : ty :=
  TInterface [("cert_pem", TString); ("cert_serial", TString); ("issued_at", TNumber); ("expires_at", TNumber);
              ("admin_id", TString); ("email", TString); ("full_name", TString); ("role", TString)].

(** [admin-session.api.ts], [admin-bank.api.ts] *)
Definition AdminSessionResult : ty :=
  TInterface [("ap_rep", TString); ("expires_at_unix", TNumber); ("admin_id", TString); ("role", TString)].
Definition AdminOverviewType : ty :=
  TInterface [("total_users", TNumber); ("active_users", TNumber); ("total_accounts", TNumber);
              ("total_balance", TNumber); ("total_transactions", TNumber); ("completed_transactions", TNumber);
              ("failed_transactions", TNumber); ("audit_events_24h", TNumber)].
Definition AdminUserType : ty :=
  TInterface [("user_id", TString); ("email", TString); ("full_name", TString);
              ("status", TEnum ["active"; "locked"; "unknown"]); ("account_count", TNumber);
              ("total_balance", TNumber); ("created_at_unix", TNumber)].

(** The two limits are declared numbers; the gateway answers null for a limit
    that it cannot read. *)
Definition AdminAccountType : ty :=
  TInterface [("account_id", TString); ("account_number", TString); ("balance", TNumber); ("currency", TString);
              ("status", TEnum ["active"; "locked"; "frozen"; "unknown"]); ("created_at_unix", TNumber);
              ("daily_transfer_limit", TCast TNumber (TNullable TNumber));
              ("daily_transfer_used", TCast TNumber (TNullable TNumber))].
Definition AdminTransactionType : ty :=
  TInterface [("transaction_id", TString); ("from_account_number", TString); ("to_account_number", TString);
              ("amount", TNumber); ("currency", TString);
              ("status", TEnum ["pending"; "completed"; "failed"; "unknown"]); ("description", TString);
              ("cert_serial", TString); ("current_hash", TString); ("created_at_unix", TNumber)].

(** The [AdminAuditEvent] of the bank. *)
Definition AdminAuditEventType : ty :=
  TInterface [("event_id", TString); ("action", TString); ("user_id", TString); ("account_id", TString);
              ("transaction_id", TString); ("cert_serial", TString); ("request_id", TString); ("reason", TString);
              ("metadata_json", TString); ("created_at_unix", TNumber); ("category", TOptional TString);
              ("severity", TOptional (TEnum ["info"; "warning"; "critical"]));
              ("outcome", TOptional (TEnum ["success"; "denied"]));
              ("actor", TOptional (TInterface [("type", TString); ("id", TString); ("display", TString)]));
              ("description", TOptional TString)].

(** [soc-admin.api.ts], and the same fields in [ca-admin.api.ts]. An action with
    the name of a member of [Object.prototype] has no category, or an empty
    object. *)
Definition AuditCategoryType : ty :=
  TEnum ["key_issuance"; "cert_lifecycle"; "authentication"; "resource_access"; "admin_action"].
Definition AuditSemanticFields : list (string * ty) :=
  [("category", TCast AuditCategoryType (TOptional (TOr AuditCategoryType (TInterface [])))); ("severity", TEnum ["info"; "warning"; "critical"]); ("outcome", TEnum ["success"; "denied"]);
   ("actor", TInterface [("type", TString); ("id", TString); ("display", TString)]); ("description", TString)].
Definition CaAuditEvent : ty :=
  TInterface ([("serial_number", TString); ("cert_type", TString); ("issuer_id", TString); ("action", TString);
               ("performed_by", TString); ("reason", TString); ("performed_at", TString); ("metadata", TRecord TString)]
              ++ AuditSemanticFields).
(** The action is relayed as the KDC recorded it. *)
Definition KdcAuditAction : ty := TEnum ["as_ticket_issued"; "as_rejected"; "tgs_ticket_issued"; "tgs_rejected"].
Definition KdcAuditEvent : ty :=
  TInterface ([("id", TString); ("action", TCast KdcAuditAction TString); ("client_id", TString); ("cert_serial", TString); ("scope", TString);
               ("reason", TString); ("request_id", TString); ("ip", TString); ("metadata", TUnknown); ("created_at", TString)]
              ++ AuditSemanticFields).

(** The count of a reason is declared a number; a reason with the name of such a
    member is counted as a text. *)
Definition AuditSummary : ty :=
  TInterface [("window_seconds", TNumber); ("from", TString); ("to", TString); ("sources", TRecord TBoolean);
              ("total", TNumber); ("capped", TBoolean);
              ("by_severity", TInterface [("info", TNumber); ("warning", TNumber); ("critical", TNumber)]);
              ("by_category", TRecord TNumber); ("by_outcome", TInterface [("success", TNumber); ("denied", TNumber)]);
              ("security_events", TNumber);
              ("top_reasons", TArray (TInterface [("reason", TString); ("count", TCast TNumber (TOr TNumber TString))]));
              ("anomalies", TArray (TInterface [("actor", TString); ("denied_count", TNumber)]))].
Definition AuditChainStatus : ty :=
  TInterface [("checked", TBoolean); ("ok", TOptional TBoolean); ("verified", TOptional TNumber);
              ("broken_seq", TOptional TNumber); ("broken_id", TOptional TString); ("detail", TOptional TString)].
Definition AuditVerifyResult : ty := TInterface [("ok", TBoolean); ("sources", TRecord AuditChainStatus)].
Definition TimelineItemType : ty :=
  TInterface ([("source", TEnum ["ca"; "kdc"; "bank"]); ("action", TString); ("target", TString); ("reason", TString);
               ("request_id", TString); ("timestamp", TString); ("metadata", TUnknown)] ++ AuditSemanticFields).
Definition AuditTimelineResult : ty :=
  TInterface [("request_id", TString); ("count", TNumber);
              ("sources", TRecord (TInterface [("included", TBoolean); ("reason", TOptional TString)]));
              ("items", TArray TimelineItemType)].

(** ** Outcomes *)

Definition is_success (st : Z) : bool := (200 <=? st) && (st <? 300).

(** The data of a successful answer has the type. *)
Definition well_typed (T : ty) (o : Gateway.outcome) : bool :=
  match o with
  | Respond _ st (Json j) =>
      negb (is_success st) || negb (utruthy (widen (prop "success" j))) || typed T (widen (prop "data" j))
  | Respond _ _ (Text _) => false
  | NextError _ _ => true
  end.

Lemma well_typed_data T hs st l d :
  field "data" l = Some d -> typed T (widen d) = true -> well_typed T (Respond hs st (Json (JObj l))) = true.
Proof. intros Hd Ht. cbn [well_typed prop]. rewrite Hd. apply orb_true_iff. by right. Qed.

Lemma ufield_widen k l : ufield (js k) (map (fun f => (js f.1, widen f.2)) l) = option_map widen (field k l).
Proof.
  induction l as [|[k' v] l IH]; [done|]. cbn [map ufield field fst snd]. rewrite IH.
  destruct (field k l); [done|]. cbn [option_map]. destruct (String.eqb_spec k' k) as [->|Hne].
  - assert (ustr_eqb (js k) (js k) = true) as -> by (by apply ustr_eqb_eq). done.
  - destruct (ustr_eqb (js k') (js k)) eqn:E; [|done]. by apply ustr_eqb_eq, js_inj in E.
Qed.

Lemma uprop_widen k j v : uprop k (widen j) = Ok v -> v = widen (prop k j).
Proof.
  destruct j as [| |b|n|s|s|l|l]; cbn [widen uprop prop]; try done; try (by intros [= <-]).
  intros [= <-]. rewrite ufield_widen. by destruct (field k l).
Qed.

Section replies.

Context `{P : Platform} `{W : WebCrypto}.

(** What the client gets out of an answer has the type. *)
Definition client_typed (T : ty) (o : Gateway.outcome) : Prop :=
  forall data, client_reads o = Ret data -> typed T data = true.

Lemma well_typed_client T o : well_typed T o = true -> client_typed T o.
Proof.
  destruct o as [hs st [j|s]|hs e]; cbn [well_typed]; [|done|].
  - intros Hw data. unfold client_reads, client_view, read_reply. cbn [rp_json]. unfold read_envelope.
    unfold rp_ok. cbn [rp_status]. change ((200 <=? st) && (st <? 300)) with (is_success st).
    destruct (is_success st); cbn [negb orb] in *.
    + unfold prop_of. destruct (uprop "success" (widen j)) as [v|x] eqn:Hs; [|done]. cbn [of_result bind].
      apply uprop_widen in Hs as ->. destruct (utruthy (widen (prop "success" j))); cbn [negb orb] in *.
      * destruct (uprop "data" (widen j)) as [d|x] eqn:Hd; [|done]. cbn [of_result]. intros [= <-].
        by apply uprop_widen in Hd as ->.
      * unfold of_result. destruct (uprop "error_code" (widen j)); [|done]. cbn [bind].
        by destruct (uprop "message" (widen j)).
    + cbn [bind]. unfold prop_of, of_result. destruct (uprop "error_code" (widen j)); [|done]. cbn [bind].
      by destruct (uprop "message" (widen j)).
  - intros _ data. discriminate.
Qed.

(** Every answer of a handler. *)
Definition replies (T : ty) (p : gw Gateway.outcome) : Prop :=
  always p (fun _ r => match r with Ok o => well_typed T o = true | Err _ => True end).

Lemma replies_ret T o : well_typed T o = true -> replies T (Ret o).
Proof. done. Qed.

Lemma replies_raise T e : replies T (Raise e).
Proof. done. Qed.

Lemma replies_bind {A} T (p : gw A) f : (forall a, replies T (f a)) -> replies T (bind p f).
Proof. intros Hf. apply always_bind, always_true. intros t [a|e]; [apply Hf | done]. Qed.

(** With what is known of the first part. *)
Lemma replies_bind_with {A} T (Q : A -> Prop) (p : gw A) f :
  always p (fun _ r => match r with Ok a => Q a | Err _ => True end) -> (forall a, Q a -> replies T (f a)) ->
  replies T (bind p f).
Proof. intros Hp Hf. apply always_bind. eapply always_mono; [|exact Hp]. intros t [a|e]; [apply Hf | done]. Qed.

Lemma replies_result {A} T (r : result js_error A) (f : A -> gw Gateway.outcome) :
  (forall a, r = Ok a -> replies T (f a)) -> replies T (let* a := of_result r in f a).
Proof. intros Hf. destruct r as [a|e]; [by apply Hf | done]. Qed.

Lemma replies_meta T req f :
  (forall ts, replies T (f [("request_id", JStr (request_id req)); ("timestamp", JStr ts)])) ->
  replies T (let* m := meta req in f m).
Proof. intros Hf. gw_unfold. gw_cbn. intros now. gw_cbn. destruct (JsDate.toISOString now); gw_cbn; [apply Hf | done]. Qed.

Lemma replies_catch T p h : replies T p -> (forall e, replies T (h e)) -> replies T (catch p h).
Proof.
  intros Hp Hh. apply always_catch. eapply always_mono; [|exact Hp]. intros t [a|e]; [done|]. intros _. apply Hh.
Qed.

Lemma replies_or_next T p : replies T p -> replies T (or_next p).
Proof. intros Hp. by apply replies_catch. Qed.

Lemma well_typed_header T n v o : well_typed T (with_header n v o) = well_typed T o.
Proof. by destruct o. Qed.

Lemma replies_header T p n v : replies T p -> replies T (let* o := p in Ret (with_header n v o)).
Proof.
  intros Hp. apply always_bind. eapply always_mono; [|exact Hp]. intros t [o|e]; [|done].
  intros Ho. cbn. by rewrite well_typed_header.
Qed.

Lemma replies_no_store T p : replies T p -> replies T (no_store p).
Proof. intros Hp. apply replies_header. by apply replies_or_next. Qed.

(** Served by Express, as the client reads it. *)
Lemma replies_serve T req p : replies T p ->
  always (serve req p) (fun _ r => forall o, r = Ok o -> client_typed T o).
Proof.
  intros Hp. unfold serve. apply always_bind, always_attempt. eapply always_mono; [|exact Hp].
  assert (He : forall e hs, always (errorHandler e req hs) (fun _ r => forall o, r = Ok o -> client_typed T o)).
  { intros e hs. unfold errorHandler. gw_unfold. gw_cbn. intros now. gw_cbn.
    destruct (JsDate.toISOString now); gw_cbn; [|done]. intros o [= <-]. apply well_typed_client.
    cbn [well_typed]. apply orb_true_iff. left. apply orb_true_iff. by right. }
  intros t [[hs st pl|hs e]|e] Hr; [|apply He | apply He].
  intros o [= <-]. by apply well_typed_client.
Qed.

End replies.

(** ** Typing of the parts *)

Lemma typed_list {A} T (f : A -> json) l :
  (forall a, a ∈ l -> typed T (widen (f a)) = true) -> typed (TArray T) (widen (JArr (map f l))) = true.
Proof.
  intros Hf. cbn [widen typed]. induction l as [|a l IH]; [done|]. cbn [map forallb]. rewrite Hf by apply list_elem_of_here.
  apply IH. intros b Hb. by apply Hf, list_elem_of_further.
Qed.

Lemma typed_array {A} T (f : A -> json) l :
  (forall a, typed T (widen (f a)) = true) -> typed (TArray T) (widen (JArr (map f l))) = true.
Proof. intros Hf. apply typed_list. auto. Qed.

Lemma typed_strings l : typed (TArray TString) (widen (strings_json l)) = true.
Proof. by apply typed_array. Qed.

(** Fields one by one. *)
Lemma typed_fields fields l :
  Forall (fun nt => typed nt.2 (widen (default JUndefined (field nt.1 l))) = true) fields ->
  typed (TInterface fields) (widen (JObj l)) = true.
Proof.
  intros Hf. cbn [widen typed]. induction Hf as [|[n t] fs Ht _ IH]; [done|]. rewrite IH, andb_true_r.
  cbn [fst snd] in Ht. rewrite ufield_widen. by destruct (field n l).
Qed.

(** A page of items and its numbers. *)
Lemma typed_page {A} name T (f : A -> json) l t n o :
  (forall a, typed T (widen (f a)) = true) ->
  bool_decide (name ∈ ["total"; "limit"; "offset"]) = false ->
  typed (paged name T) (widen (JObj ([(name, JArr (map f l))] ++ page_fields t n o))) = true.
Proof.
  intros Hf Hn. apply bool_decide_eq_false in Hn. unfold paged, page_fields.
  apply typed_fields. cbn [app]. repeat constructor; cbn [fst snd field].
  rewrite String.eqb_refl.
  assert (Hne : forall k, k ∈ ["total"; "limit"; "offset"] -> String.eqb k name = false).
  { intros k Hk. apply String.eqb_neq. by intros ->. }
  rewrite !Hne by set_solver. cbn [default]. by apply typed_array.
Qed.

Lemma typed_user u : typed AdminUserType (widen (user_json u)) = true.
Proof.
  unfold user_json, userStatusText. apply typed_fields.
  repeat constructor; cbn. by repeat case_match.
Qed.

Lemma typed_admin_transaction t : typed AdminTransactionType (widen (admin_transaction_json t)) = true.
Proof.
  unfold admin_transaction_json, transactionStatusText. apply typed_fields. repeat constructor; cbn.
  by repeat case_match.
Qed.

Lemma typed_limit parts i n : typed (TNullable TNumber) (widen (limit_field parts i n)) = true.
Proof. unfold limit_field. by repeat case_match. Qed.

Lemma typed_account a : typed AdminAccountType (widen (account_json a)) = true.
Proof.
  unfold account_json, accountStatusText. apply typed_fields. repeat constructor; try apply typed_limit; cbn.
  by repeat case_match.
Qed.

Lemma typed_history_item t : typed HistoryItemDto (widen (transaction_json t)) = true.
Proof. apply typed_fields. repeat constructor. Qed.

Lemma typed_certificate c : typed AdminCertificate (widen (mapCertificate c)) = true.
Proof.
  unfold mapCertificate. apply typed_fields. repeat constructor; try apply typed_strings; cbn.
  - destruct (cm_status c); reflexivity.
  - by destruct (_ =? 0).
  - by destruct (nonempty _).
Qed.

(** Records and events. *)
Lemma typed_record T l : Forall (fun f => typed T (widen f.2) = true) l -> typed (TRecord T) (widen (JObj l)) = true.
Proof.
  intros Hl. cbn [widen typed]. induction Hl as [|f l Hf Hl IH]; [done|]. cbn [map forallb snd]. by rewrite Hf.
Qed.

Lemma typed_category c :
  typed (TOptional (TOr AuditCategoryType (TInterface []))) (widen (category_json c)) = true.
Proof. destruct c as [| | | | |m]; try reflexivity. cbn [category_json]. by destruct (String.eqb m _). Qed.

Ltac event_fields s := unfold semantics_fields; apply typed_fields; repeat constructor; try apply typed_category; try by (destruct (AuditSemantics.severity s)); try by (destruct (AuditSemantics.outcome s)).

Lemma typed_metadata m : typed (TRecord TString) (widen (metadata_json m)) = true.
Proof. apply typed_record, Forall_map, Forall_true. by intros []. Qed.

Lemma typed_ca_event e j : ca_row e = Ok j -> typed CaAuditEvent (widen j) = true.
Proof.
  unfold ca_row. destruct (iso_seconds _) as [at_|]; [|done]. cbn [rbind]. intros [= <-]. unfold row.
  set (s := enrichAudit _). event_fields s. apply typed_metadata.
Qed.

Lemma typed_kdc_event e j : kdc_row e = Ok j -> typed KdcAuditEvent (widen j) = true.
Proof.
  unfold kdc_row. destruct (iso_seconds _) as [at_|]; [|done]. cbn [rbind]. intros [= <-]. unfold row.
  set (s := enrichAudit _). event_fields s.
Qed.

Lemma typed_bank_event e : typed AdminAuditEventType (widen (bank_event_json e)) = true.
Proof.
  unfold bank_event_json, row. destruct (bank_recAction e); cbn [auditActionText];
    unfold semantics_fields; apply typed_fields; repeat constructor.
Qed.

Lemma typed_timeline_item i : typed TimelineItemType (widen (enriched_item i)) = true.
Proof. unfold enriched_item. set (s := enrichAudit _). event_fields s. by destruct (ti_source i). Qed.

(** What [rmapM] made of rows. *)
Lemma typed_rows {R X} T (f : R -> result X json) l items : (forall e j, f e = Ok j -> typed T (widen j) = true) ->
  rmapM f l = Ok items -> typed (TArray T) (widen (JArr items)) = true.
Proof.
  intros Hf. revert items. induction l as [|e l IH]; intros items H; cbn [rmapM] in H; [by injection H as <-|].
  inv_bind H. inv_bind H. inv_result. cbn [widen typed map forallb]. rewrite (Hf _ _ Hb). exact (IH _ eq_refl).
Qed.

Lemma typed_chain name r : typed AuditChainStatus (widen (chain_json name r).1.2) = true.
Proof. destruct r as [v|e]; [|by apply typed_fields; repeat constructor]. apply typed_fields. repeat constructor; cbn; by destruct (va_ok v). Qed.

(** The counters of the summary whose names are no members of [Object.prototype]
    are numbers, and those that the code begins with are there. *)
Definition is_number (kv : string * json) : bool := match kv.2 with JNum _ => true | _ => false end.

Definition counters (names : list string) (m : tally) : Prop :=
  forallb is_number m = true /\ forall n, n ∈ names -> n ∈ map fst m.

Lemma counters_increment names m key : ordinary key -> counters names m -> counters names (increment m key).
Proof.
  intros Ho [Hm Hn]. split.
  - clear Hn. induction m as [|[k v] m IH]; cbn [increment]; destruct Ho as [Hp Ho].
    + by rewrite (proj2 (String.eqb_neq _ _) Hp), Ho.
    + cbn [forallb] in Hm. apply andb_true_iff in Hm as [Hv Hm]. destruct (String.eqb k key); cbn [forallb].
      * rewrite Hm. by destruct v.
      * rewrite Hv. by apply IH.
  - intros n Hin. rewrite increment_keys by done. apply Hn in Hin.
    destruct (mem key (map fst m)); [done|]. apply elem_of_app. by left.
Qed.

Lemma counters_fold (get : Counters -> tally) (f : EnrichedEvent -> string) names events c :
  (forall c e, get (count_event c e) = increment (get c) (f e)) -> (forall e, ordinary (f e)) ->
  counters names (get c) -> counters names (get (fold_left count_event events c)).
Proof.
  intros Hg Ho. revert c. induction events as [|e events IH]; intros c Hc; [done|]. apply IH. rewrite Hg.
  by apply counters_increment.
Qed.

Lemma field_of n (m : list (string * json)) : n ∈ map fst m -> exists v, field n m = Some v /\ (n, v) ∈ m.
Proof.
  induction m as [|[k v] m IH]; [by intros H; apply elem_of_nil in H|]. cbn [map fst field]. intros H.
  destruct (field n m) as [w|] eqn:Hf.
  - exists w. split; [done|]. right. assert (Hm : n ∈ map fst m).
    { clear -Hf. induction m as [|[k v] m IH]; [done|]. cbn [field map fst] in *.
      destruct (field n m); [right; by apply IH|]. destruct (String.eqb_spec k n) as [->|]; [left | done]. }
    destruct (IH Hm) as (w' & [= <-] & Hw). done.
  - apply elem_of_cons in H as [->|H]; [rewrite String.eqb_refl; exists v; split; [done | left]|].
    destruct (IH H) as (w & [=] & _).
Qed.

Lemma typed_counters names m : counters names m -> typed (TInterface (map (fun n => (n, TNumber)) names)) (widen (JObj m)) = true.
Proof.
  intros [Hm Hn]. apply typed_fields. apply Forall_map, Forall_forall. intros n Hin. cbn [fst snd].
  destruct (field_of n m (Hn n Hin)) as (v & -> & Hv). cbn [default]. apply list_elem_of_In in Hv.
  pose proof (proj1 (forallb_forall _ _) Hm _ Hv) as Hk. by destruct v.
Qed.

Lemma typed_numbers m : forallb is_number m = true -> typed (TRecord TNumber) (widen (JObj m)) = true.
Proof.
  intros Hm. apply typed_record, Forall_forall. intros kv Hk. apply list_elem_of_In in Hk.
  pose proof (proj1 (forallb_forall _ _) Hm _ Hk) as Hv. destruct kv as [k v]. by destruct v.
Qed.

(** The count of a reason is a number, or the text that began with the member. *)
Definition counted (kv : string * json) : bool := typed (TOr TNumber TString) (widen kv.2).

Lemma counted_plus_one v : typed (TOr TNumber TString) (widen (plus_one v)) = true.
Proof. by destruct v. Qed.

Lemma counted_increment m key : forallb counted m = true -> forallb counted (increment m key) = true.
Proof.
  induction m as [|[k v] m IH]; cbn [increment forallb].
  - intros _. destruct (String.eqb key _); [done|]. by destruct (mem key _).
  - intros H. apply andb_true_iff in H as [Hv Hm]. destruct (String.eqb k key); cbn [forallb]; apply andb_true_iff.
    + split; [apply counted_plus_one | done].
    + auto.
Qed.

Lemma counted_reasons events : forallb counted (reasonCounts (count_events events)) = true.
Proof.
  unfold count_events. assert (H : forallb counted (reasonCounts no_counts) = true) by done. revert H.
  generalize no_counts. induction events as [|e events IH]; intros c Hc; [done|]. apply IH.
  cbn [count_event reasonCounts]. destruct (_ && _); [by apply counted_increment | done].
Qed.

Lemma typed_reasons m : forallb counted m = true ->
  typed (TArray (TInterface [("reason", TString); ("count", TCast TNumber (TOr TNumber TString))]))
    (widen (JArr (topReasons m))) = true.
Proof.
  intros Hm. apply typed_list. intros [k v] Hk. apply elem_of_take in Hk as (i & Hk & _).
  apply list_elem_of_lookup_2 in Hk. rewrite sort_by_perm in Hk. unfold entries in Hk. rewrite sort_by_perm in Hk.
  apply typed_fields. repeat constructor. cbn [field fst snd String.eqb Ascii.eqb Bool.eqb default].
  apply (proj1 (forallb_forall counted m) Hm (k, v)).
  apply elem_of_app in Hk as [Hk|Hk]; apply list_elem_of_In, List.filter_In in Hk; apply Hk.
Qed.

Lemma typed_summary w a b events sources : typed AuditSummary (widen (summary_data w a b events sources)) = true.
Proof.
  unfold summary_data. apply typed_fields. repeat constructor; cbn [fst snd field String.eqb Ascii.eqb Bool.eqb default].
  - apply typed_record, Forall_map, Forall_true. by intros [].
  - apply (typed_counters ["info"; "warning"; "critical"]), (counters_fold bySeverity (fun e => severity_text (AuditSemantics.severity (ee_semantics e)))); [done | |].
    + intros e. by destruct (AuditSemantics.severity _).
    + split; [done|]. intros n Hn. exact Hn.
  - apply typed_numbers, (counters_fold byCategory (fun e => category_text (AuditSemantics.category (ee_semantics e))) []); [done | |].
    + intros e. destruct (AuditSemantics.category _) as [| | | | |m]; try done. cbn [category_text]. by destruct (String.eqb m _).
    + split; [done|]. intros n Hn. by apply elem_of_nil in Hn.
  - apply (typed_counters ["success"; "denied"]), (counters_fold byOutcome (fun e => outcome_text (AuditSemantics.outcome (ee_semantics e)))); [done | |].
    + intros e. by destruct (AuditSemantics.outcome _).
    + split; [done|]. intros n Hn. exact Hn.
  - apply typed_reasons, counted_reasons.
  - apply (typed_list (TInterface [("actor", TString); ("denied_count", TNumber)])). intros [k v] Hv. unfold anomalies in Hv.
    rewrite sort_by_perm, list_elem_of_In, List.filter_In in Hv. destruct Hv as [_ Hv].
    apply typed_fields. repeat constructor. by destruct v.
Qed.

Lemma typed_history rep l t n o :
  typed HistoryRepResult (widen (JObj ([("ap_rep", JStr rep); ("transactions", JArr (map transaction_json l))]
    ++ page_fields t n o))) = true.
Proof.
  apply typed_fields. repeat constructor. apply (typed_array HistoryItemDto), typed_history_item.
Qed.

Lemma typed_accounts l :
  typed (TInterface [("accounts", TArray AdminAccountType)])
    (widen (JObj [("accounts", JArr (map account_json l))])) = true.
Proof. apply typed_fields. repeat constructor. apply (typed_array AdminAccountType), typed_account. Qed.

(** The declarations that are not honoured: a certificate of a type that the
    client does not know, an event of the KDC of another action, and an account
    whose limit is no number. *)
Definition foreign_certificate : CertificateMetadata :=
  {| cm_serialNumber := "01"; cm_ownerId := ""; cm_subjectCn := ""; cm_subjectEmail := ""; cm_fingerprintSha256 := "";
     cm_status := CERT_STATUS_ACTIVE; cm_notBeforeUnix := 0; cm_notAfterUnix := 0; cm_issuedAtUnix := 0;
     cm_revokedAtUnix := 0; cm_revocationReason := ""; cm_certType := "code_signing"; cm_issuerId := "";
     cm_issuerCommonName := ""; cm_issuerSerialNumber := ""; cm_chainPem := ""; cm_chainFingerprints := [];
     cm_isCa := false; cm_keyUsage := []; cm_extendedKeyUsage := [] |}.

Definition foreign_event : KdcAuditRecord :=
  {| kdc_recId := "1"; kdc_recAction := "constructor"; kdc_recClientId := ""; kdc_recCertSerial := ""; kdc_recScope := "";
     kdc_recReason := ""; kdc_recRequestId := ""; kdc_recIp := ""; kdc_recMetadataJson := ""; kdc_recAt := 0 |}.

Lemma casts_not_honoured :
  typed (declared AdminCertificate) (widen (mapCertificate foreign_certificate)) = false /\
  (exists j, kdc_row foreign_event = Ok j /\ typed (declared KdcAuditEvent) (widen j) = false /\
     typed KdcAuditAction (widen (prop "action" j)) = false /\ prop "category" j = JUndefined) /\
  typed (declared AdminAccountType) (widen (account_json
    {| ac_accountId := ""; ac_accountNumber := ""; ac_balance := 0; ac_currency := "VND|none"; ac_status := 1;
       ac_createdAtUnix := 0 |})) = false.
Proof.
  split_and!; [vm_compute; reflexivity | | vm_compute; reflexivity].
  eexists. split; [vm_compute; reflexivity|]. by vm_compute.
Qed.

(** ** The handlers *)

(** Follow a handler to its answers; [leaf] types a successful one. *)
Ltac replies_step leaf :=
  lazymatch goal with
  | |- replies _ (Ret (NextError _ _)) => apply replies_ret; reflexivity
  | |- replies _ (Ret _) => apply replies_ret; leaf
  | |- replies _ (Raise _) => apply replies_raise
  | |- replies _ (or_next _) => apply replies_or_next
  | |- replies _ (no_store _) => apply replies_no_store
  | |- replies _ (bind (meta _) _) => apply replies_meta; intros
  | |- replies _ (bind _ (fun o => Ret (with_header _ _ o))) => apply replies_header
  | |- replies _ (bind _ _) => apply replies_bind; intros
  | |- replies _ (catch _ _) => apply replies_catch; [|intros]
  | |- replies _ (match ?x with _ => _ end) => destruct x
  | |- replies _ ?p => let h := head_of p in unfold h
  end.

Ltac replies_all leaf := repeat (cbv beta iota zeta; replies_step leaf).

(** A page of items, or one certificate. *)
Ltac reply_page :=
  eapply well_typed_data; [reflexivity|];
  lazymatch goal with
  | |- typed HistoryRepResult _ = _ => apply typed_history
  | |- typed AdminCertificate _ = _ => apply typed_certificate
  | |- typed (paged _ AdminCertificate) _ = _ => apply typed_page; [apply typed_certificate | reflexivity]
  | |- typed (paged _ AdminUserType) _ = _ => apply typed_page; [apply typed_user | reflexivity]
  | |- typed (paged _ AdminAuditEventType) _ = _ => apply typed_page; [apply typed_bank_event | reflexivity]
  | |- typed (paged _ AdminTransactionType) _ = _ => apply typed_page; [apply typed_admin_transaction | reflexivity]
  | |- _ => apply typed_accounts
  end.

(** The leaf: an error body, or an answer whose fields are typed by computation. *)
Ltac refused_leaf := cbn [well_typed]; apply orb_true_iff; left; apply orb_true_iff; right; reflexivity.
Ltac reply_leaf := first [reflexivity | refused_leaf].
Ltac page_leaf := first [reply_page | refused_leaf].

Section handlers.

Context `{P : Platform} `{W : WebCrypto} `{ENV} `{Crypto} `{Cookies} `{Zod} `{Dates}.

Lemma otp_request_typed req email : replies RequestOtpResult (handleOtpRequest req email).
Proof. replies_all reply_leaf. Qed.

Lemma otp_verify_typed req b : replies VerifyOtpResult (handleOtpVerify req b).
Proof. replies_all reply_leaf. Qed.

Lemma register_typed req b : replies RegisterPkiResult (handleRegister req b).
Proof. replies_all reply_leaf. Qed.
Lemma as_typed req : replies AsRepResult (handleRequestTGT req).
Proof. replies_all reply_leaf. Qed.

Lemma tgs_typed req : replies TgsRepResult (handleRequestTGS req).
Proof. replies_all reply_leaf. Qed.

Lemma transfer_typed req : replies TransferRepResult (handleTransfer req).
Proof. replies_all reply_leaf. Qed.

Lemma profile_typed req : replies ProfileRepResult (handleProfile req).
Proof. replies_all reply_leaf. Qed.

Lemma history_typed req : replies HistoryRepResult (handleHistoryQuery req).
Proof. replies_all page_leaf. Qed.

Lemma ca_session_typed req b : replies AdminLoginResponse (handleAdminCaCertificateSession req b).
Proof. replies_all reply_leaf. Qed.

Lemma sec_login_typed req b : replies AdminLoginResponse (handleSecAdminAuth req b).
Proof. replies_all reply_leaf. Qed.

Lemma certificates_typed req ad : replies (paged "items" AdminCertificate) (handleAdminListCertificates req ad).
Proof. replies_all page_leaf. Qed.

Lemma certificate_typed req ad : replies AdminCertificate (handleAdminGetCertificateDetail req ad).
Proof. replies_all page_leaf. Qed.

Lemma revoke_typed req ad : replies AdminCertificate (handleAdminRevokeCertificate req ad).
Proof. replies_all page_leaf. Qed.

Lemma bank_session_typed production req b : replies AdminSessionResult (handleAdminSession production req b).
Proof. replies_all reply_leaf. Qed.

Lemma overview_typed req token : replies AdminOverviewType (handleAdminOverviewQuery req token).
Proof. replies_all reply_leaf. Qed.

Lemma users_typed req token q : replies (paged "users" AdminUserType) (handleAdminUsersQuery req token q).
Proof. replies_all page_leaf. Qed.

Lemma accounts_typed req token :
  replies (TInterface [("accounts", TArray AdminAccountType)]) (handleAdminUserAccountsQuery req token).
Proof. replies_all page_leaf. Qed.

Lemma transactions_typed req token q :
  replies (paged "transactions" AdminTransactionType) (handleAdminTransactionsQuery req token q).
Proof. replies_all page_leaf. Qed.

Lemma bank_audit_typed req token q :
  replies (paged "events" AdminAuditEventType) (handleAdminAuditQuery req token q).
Proof. replies_all page_leaf. Qed.

Lemma replies_bind_error T e req : replies T (handleAdminBankError e req).
Proof. replies_all refused_leaf. Qed.

Lemma bank_activation_typed req b : replies AdminActivationResult (handleAdminActivate req b).
Proof. replies_all reply_leaf. Qed.

Lemma ca_activation_typed req b : replies AdminActivationResult (handleAdminCaActivate req b).
Proof. replies_all reply_leaf. Qed.

(** The error handler of the bank administrator's router. *)
Lemma replies_bank_route T p req : replies T p -> replies T (admin_bank_route p req).
Proof.
  intros Hp. apply always_bind. eapply always_mono; [|exact Hp].
  intros t [[hs st pl|hs e]|e] Hr; [exact Hr | | done]. cbn beta iota.
  assert (Hh : forall o, well_typed T o = true ->
    well_typed T (fold_right (fun h o => with_header h.1 h.2 o) o hs) = true).
  { intros o Ho. clear Hr. induction hs as [|h hs IH]; [done|]. cbn. by rewrite well_typed_header. }
  apply always_bind. eapply always_mono; [|apply (replies_bind_error T e req)].
  intros t' [o|x]; [|done]. intros Ho. apply Hh, Ho.
Qed.

(** The audit views. *)
Lemma replies_audit_page {R} T (f : R -> result js_error json) req p :
  (forall e j, f e = Ok j -> typed T (widen j) = true) -> replies (paged "items" T) (audit_page req f p).
Proof.
  intros Hf. apply replies_or_next, replies_bind. intros res. apply replies_result. intros items Hi.
  apply replies_bind. intros ts. apply replies_ret. eapply well_typed_data; [reflexivity|].
  apply typed_fields. repeat constructor. by apply (typed_rows _ f (events res)).
Qed.

Lemma replies_with_query T sc req k : (forall q, replies T (k q)) -> replies T (with_query sc req k).
Proof.
  intros Hk. unfold with_query. destruct (first_issue _ _) as [q|i]; [|apply replies_ret; by refused_leaf].
  destruct (bad_range _ _); [|apply Hk]. apply replies_ret. by refused_leaf.
Qed.

Lemma ca_audit_typed req ad : replies (paged "items" CaAuditEvent) (handleListCaAudit req ad).
Proof. apply replies_bind. intros _. apply replies_with_query. intros q. apply replies_audit_page, typed_ca_event. Qed.

Lemma kdc_audit_typed req : replies (paged "items" KdcAuditEvent) (handleListKdcAudit req).
Proof. apply replies_with_query. intros q. apply replies_audit_page, typed_kdc_event. Qed.

Lemma summary_typed req : replies AuditSummary (handleAuditSummary req).
Proof.
  unfold handleAuditSummary. destruct (first_issue _ _) as [q|i]; [|apply replies_ret; by refused_leaf].
  apply replies_bind. intros to_unix. apply replies_or_next, replies_bind. intros [events sources].
  do 3 (apply replies_bind; intros ?). apply replies_ret. eapply well_typed_data; [reflexivity | apply typed_summary].
Qed.

(** The record of a source. *)
Definition source_typed (s : string * json) : Prop :=
  typed (TInterface [("included", TBoolean); ("reason", TOptional TString)]) (widen s.2) = true.

Lemma excluded_typed name reason : source_typed (excluded name reason).
Proof. by apply typed_fields; repeat constructor. Qed.

Lemma source_replies {R} name (p : gw (Gateway.page R)) f :
  always (timeline_source name p f) (fun _ r => match r with Ok x => source_typed x.2 | Err _ => True end).
Proof.
  apply always_bind, always_true. intros t [[res|err]|e]; [|apply excluded_typed | done].
  destruct (push_all f (events res)) as [items [err|]]; [apply excluded_typed | by apply typed_fields; repeat constructor].
Qed.

Lemma timeline_typed req : replies AuditTimelineResult (handleAuditTimeline req).
Proof.
  unfold handleAuditTimeline. destruct (first_issue _ _) as [q|i]; [|apply replies_ret; by refused_leaf].
  eapply replies_bind_with; [apply source_replies|]. intros [ca_items ca_source] Hc.
  eapply replies_bind_with; [apply source_replies|]. intros [kdc_items kdc_source] Hk.
  apply replies_bind. intros token.
  eapply (replies_bind_with _ (fun x => source_typed x.2)); [destruct (nonempty token); [apply source_replies | apply excluded_typed]|].
  intros [bank_items bank_source] Hb. apply replies_bind. intros ts. apply replies_ret.
  eapply well_typed_data; [reflexivity|]. apply typed_fields. repeat constructor.
  - apply typed_record. by repeat constructor.
  - apply typed_array, typed_timeline_item.
Qed.

Lemma verify_typed req : replies AuditVerifyResult (handleAuditVerify req).
Proof.
  apply replies_bind. intros ca_r. apply replies_bind. intros kdc_r. apply replies_bind. intros token.
  eapply (replies_bind_with _ (fun x => typed AuditChainStatus (widen x.1.2) = true)).
  { destruct (nonempty token); [|by apply typed_fields; repeat constructor].
    apply always_bind, always_true. intros t [r|e]; [apply typed_chain | done]. }
  intros bank_r Hb. apply replies_bind. intros ts. apply replies_ret. eapply well_typed_data; [reflexivity|].
  apply typed_fields. repeat constructor. apply typed_record. repeat constructor; [apply typed_chain.. | done].
Qed.

(** ** All of them *)

(** The calls of the client, with what the middleware hands to the handler. *)
Inductive call :=
| c_requestOtp (email : string)
| c_verifyOtp (b : OtpVerifyBody)
| c_registerPki (b : RegisterBody)
| c_postAsReq | c_postTgsReq | c_postTransfer | c_postProfile | c_postHistory
| c_createAdminCaCertificateSession (b : CertificateSessionBody)
| c_activateAdminCA (b : ActivationBody)
| c_listAdminCertificates (ad : AdminCa)
| c_getAdminCertificateDetail (ad : AdminCa)
| c_revokeAdminCertificate (ad : AdminCa)
| c_listAdminCaAudit (ad : AdminCa)
| c_loginSecAdmin (b : LoginBody)
| c_listKdcAudit | c_getAuditSummary | c_verifyAuditChains | c_getAuditTimeline
| c_postAdminActivation (b : ActivationBody)
| c_postAdminSession (b : AdminSessionBody)
| c_queryAdminOverview (token : string)
| c_queryAdminUsers (token : string) (q : UsersQuery)
| c_queryAdminUserAccounts (token : string)
| c_queryAdminTransactions (token : string) (q : TransactionsQuery)
| c_queryAdminAuditEvents (token : string) (q : AuditQuery).

(** The interface that the client casts the data to. *)
Definition reply_type (c : call) : ty :=
  match c with
  | c_requestOtp _ => RequestOtpResult
  | c_verifyOtp _ => VerifyOtpResult
  | c_registerPki _ => RegisterPkiResult
  | c_postAsReq => AsRepResult
  | c_postTgsReq => TgsRepResult
  | c_postTransfer => TransferRepResult
  | c_postProfile => ProfileRepResult
  | c_postHistory => HistoryRepResult
  | c_createAdminCaCertificateSession _ | c_loginSecAdmin _ => AdminLoginResponse
  | c_activateAdminCA _ | c_postAdminActivation _ => AdminActivationResult
  | c_listAdminCertificates _ => paged "items" AdminCertificate
  | c_getAdminCertificateDetail _ | c_revokeAdminCertificate _ => AdminCertificate
  | c_listAdminCaAudit _ => paged "items" CaAuditEvent
  | c_listKdcAudit => paged "items" KdcAuditEvent
  | c_getAuditSummary => AuditSummary
  | c_verifyAuditChains => AuditVerifyResult
  | c_getAuditTimeline => AuditTimelineResult
  | c_postAdminSession _ => AdminSessionResult
  | c_queryAdminOverview _ => AdminOverviewType
  | c_queryAdminUsers _ _ => paged "users" AdminUserType
  | c_queryAdminUserAccounts _ => TInterface [("accounts", TArray AdminAccountType)]
  | c_queryAdminTransactions _ _ => paged "transactions" AdminTransactionType
  | c_queryAdminAuditEvents _ _ => paged "events" AdminAuditEventType
  end.

(** The handler behind the route. *)
Definition answer_of (production : bool) (c : call) (req : Request) : gw Gateway.outcome :=
  match c with
  | c_requestOtp email => handleOtpRequest req email
  | c_verifyOtp b => handleOtpVerify req b
  | c_registerPki b => handleRegister req b
  | c_postAsReq => handleRequestTGT req
  | c_postTgsReq => handleRequestTGS req
  | c_postTransfer => handleTransfer req
  | c_postProfile => handleProfile req
  | c_postHistory => handleHistoryQuery req
  | c_createAdminCaCertificateSession b => handleAdminCaCertificateSession req b
  | c_activateAdminCA b => handleAdminCaActivate req b
  | c_listAdminCertificates ad => handleAdminListCertificates req ad
  | c_getAdminCertificateDetail ad => handleAdminGetCertificateDetail req ad
  | c_revokeAdminCertificate ad => handleAdminRevokeCertificate req ad
  | c_listAdminCaAudit ad => handleListCaAudit req ad
  | c_loginSecAdmin b => handleSecAdminAuth req b
  | c_listKdcAudit => handleListKdcAudit req
  | c_getAuditSummary => handleAuditSummary req
  | c_verifyAuditChains => handleAuditVerify req
  | c_getAuditTimeline => handleAuditTimeline req
  | c_postAdminActivation b => admin_bank_route (handleAdminActivate req b) req
  | c_postAdminSession b => admin_bank_route (handleAdminSession production req b) req
  | c_queryAdminOverview token => admin_bank_route (handleAdminOverviewQuery req token) req
  | c_queryAdminUsers token q => admin_bank_route (handleAdminUsersQuery req token q) req
  | c_queryAdminUserAccounts token => admin_bank_route (handleAdminUserAccountsQuery req token) req
  | c_queryAdminTransactions token q => admin_bank_route (handleAdminTransactionsQuery req token q) req
  | c_queryAdminAuditEvents token q => admin_bank_route (handleAdminAuditQuery req token q) req
  end.

(** C8: what the client's casts rely on. [apiPost<T>] and [apiGet<T>] return the
    data of a reply as an interface without looking at it. For every call of
    [apiPost<T>] and [apiGet<T>] in the client's services, whatever the request,
    the services, Redis and the clock answer, if the client gets data out of the
    answer of the route's handler, then it has every field of the declared interface, with its
    type: texts, numbers, enumerations and lists of records, down to the fields of
    their items. Six declarations are not honoured, and there only a wider type is
    shown: the type of a certificate and the action of an event of the KDC are
    declared enumerations, but any text of the service is relayed; the two limits
    of an account may be null; the category of an event may be missing or an empty
    object, and the count of a reason may be a text. For every other call the type
    is the declared one. *)
Theorem replies_typed production c req :
  always (serve req (answer_of production c req)) (fun _ r => forall o, r = Ok o -> client_typed (reply_type c) o) /\
  (casts (reply_type c) = [] -> declared (reply_type c) = reply_type c) /\
  forall p, p ∈ casts (reply_type c) ->
    p ∈ [".cert_type"; ".items.cert_type"; ".items.action"; ".accounts.daily_transfer_limit";
         ".accounts.daily_transfer_used"; ".items.category"; ".top_reasons.count"].
Proof.
  split_and!; [|by destruct c | intros p Hp; destruct c; cbn in Hp; set_solver].
  apply replies_serve. destruct c; cbn [answer_of reply_type].
  all: lazymatch goal with |- replies _ (admin_bank_route _ _) => apply replies_bank_route | _ => idtac end.
  - apply otp_request_typed.
  - apply otp_verify_typed.
  - apply register_typed.
  - apply as_typed.
  - apply tgs_typed.
  - apply transfer_typed.
  - apply profile_typed.
  - apply history_typed.
  - apply ca_session_typed.
  - apply ca_activation_typed.
  - apply certificates_typed.
  - apply certificate_typed.
  - apply revoke_typed.
  - apply ca_audit_typed.
  - apply sec_login_typed.
  - apply kdc_audit_typed.
  - apply summary_typed.
  - apply verify_typed.
  - apply timeline_typed.
  - apply bank_activation_typed.
  - apply bank_session_typed.
  - apply overview_typed.
  - apply users_typed.
  - apply accounts_typed.
  - apply transactions_typed.
  - apply bank_audit_typed.
Qed.

End handlers.
