(* ===== verification/UserError.v ===== *)
(** * Messages for the user ([user-error-message.ts])

    The texts of errors, by code and by status. [user_message_closed]: whatever a
    server or the browser puts into an error, the user sees one of the texts of
    this file or the caller's. *)

From S2P Require Import Prelude UString UJson X509 WebCrypto Sessions Browser.

Open Scope Z_scope.

(** [ERROR_MESSAGES]; the codes are upper case, so no inherited property is one. *)
Definition ERROR_MESSAGES : list (string * string) :=
  [("NETWORK_ERROR", "Không thể kết nối tới máy chủ. Vui lòng kiểm tra kết nối và thử lại.");
   ("INVALID_RESPONSE", "Máy chủ trả về dữ liệu không hợp lệ. Vui lòng thử lại sau.");
   ("UNKNOWN_ERROR", "Không thể hoàn tất yêu cầu. Vui lòng thử lại.");
   ("INTERNAL_ERROR", "Hệ thống đang gặp sự cố. Vui lòng thử lại sau.");
   ("INVALID_EMAIL", "Địa chỉ email không hợp lệ.");
   ("MISSING_REQUIRED_FIELD", "Vui lòng nhập đầy đủ thông tin bắt buộc.");
   ("INVALID_REQUEST", "Thông tin gửi lên chưa hợp lệ. Vui lòng kiểm tra và thử lại.");
   ("BAD_REQUEST", "Thông tin giao dịch chưa hợp lệ. Vui lòng kiểm tra lại.");
   ("INVALID_NONCE", "Yêu cầu xác thực không hợp lệ. Vui lòng thử đăng nhập lại.");
   ("INVALID_IV", "Dữ liệu bảo mật của giao dịch không hợp lệ. Vui lòng thử lại.");
   ("INVALID_PAGINATION", "Thông tin phân trang không hợp lệ.");
   ("INVALID_DATE_RANGE", "Khoảng thời gian truy vấn không hợp lệ.");
   ("INVALID_FILTER", "Bộ lọc truy vấn không hợp lệ.");
   ("ADMIN_ACTIVATION_INVALID", "Token kích hoạt Bank Admin không hợp lệ.");
   ("ADMIN_ACTIVATION_EXPIRED", "Token kích hoạt Bank Admin đã hết hạn.");
   ("ADMIN_ALREADY_ACTIVE", "Bank Admin này đã được kích hoạt.");
   ("ADMIN_SESSION_REQUIRED", "Vui lòng đăng nhập Bank Admin để tiếp tục.");
   ("ADMIN_SESSION_INVALID", "Phiên Bank Admin không hợp lệ. Vui lòng đăng nhập lại.");
   ("ADMIN_SESSION_EXPIRED", "Phiên Bank Admin đã hết hạn. Vui lòng đăng nhập lại.");
   ("ADMIN_ROLE_REQUIRED", "Chứng chỉ hiện tại không có quyền Bank Admin.");
   ("INVALID_OTP_FORMAT", "Mã OTP phải gồm đúng 6 chữ số.");
   ("OTP_NOT_FOUND", "Mã OTP không tồn tại hoặc đã hết hạn. Vui lòng yêu cầu mã mới.");
   ("OTP_MISMATCH", "Mã OTP không chính xác. Vui lòng kiểm tra lại.");
   ("OTP_RATE_LIMITED", "Bạn đã yêu cầu OTP quá nhiều lần. Vui lòng chờ trước khi thử lại.");
   ("VERIFY_RATE_LIMITED", "Bạn đã nhập sai OTP quá nhiều lần. Vui lòng thử lại sau.");
   ("REG_TOKEN_EXPIRED", "Phiên đăng ký đã hết hạn. Vui lòng đăng ký lại từ đầu.");
   ("REG_TOKEN_INVALID", "Phiên đăng ký không hợp lệ. Vui lòng đăng ký lại từ đầu.");
   ("REG_TOKEN_USED", "Phiên đăng ký này đã được sử dụng. Vui lòng đăng ký lại từ đầu.");
   ("IDENTITY_ALREADY_REGISTERED", "Tài khoản này đã được đăng ký.");
   ("INVALID_CSR_FORMAT", "Không thể tạo yêu cầu cấp chứng chỉ. Vui lòng đăng ký lại.");
   ("CERT_NOT_FOUND", "Không tìm thấy chứng chỉ trên hệ thống. Vui lòng đăng ký lại thiết bị.");
   ("CERT_NOT_OWNED", "Chứng chỉ không thuộc về tài khoản hiện tại.");
   ("CERT_REVOKED", "Chứng chỉ đã bị thu hồi. Vui lòng liên hệ quản trị viên.");
   ("CERT_EXPIRED", "Chứng chỉ đã hết hạn. Vui lòng đăng ký lại thiết bị.");
   ("CERT_REJECTED", "Chứng chỉ không còn hợp lệ. Vui lòng liên hệ quản trị viên.");
   ("CA_SERVICE_UNAVAILABLE", "Dịch vụ chứng chỉ hiện không khả dụng. Vui lòng thử lại sau.");
   ("REQUEST_EXPIRED", "Yêu cầu đã hết thời gian hiệu lực. Vui lòng thử lại.");
   ("SIGNATURE_INVALID", "Không thể xác minh chữ ký số. Vui lòng đăng ký lại thiết bị.");
   ("INVALID_SIGNATURE", "Chữ ký giao dịch không hợp lệ. Vui lòng thử lại.");
   ("AUTH_INVALID", "Thông tin xác thực không hợp lệ. Vui lòng đăng nhập lại.");
   ("INVALID_AUTH_C", "Thông tin xác thực phiên không hợp lệ. Vui lòng đăng nhập lại.");
   ("INVALID_AUTHENTICATOR", "Phiên xác thực giao dịch không hợp lệ. Vui lòng đăng nhập lại.");
   ("UNAUTHENTICATED", "Phiên đăng nhập không hợp lệ hoặc đã hết hạn. Vui lòng đăng nhập lại.");
   ("REPLAY_DETECTED", "Yêu cầu bị trùng lặp và đã được hệ thống từ chối. Vui lòng thử lại.");
   ("STALE_REQUEST", "Yêu cầu đã quá hạn. Vui lòng thực hiện lại thao tác.");
   ("AUTH_RATE_LIMITED", "Bạn thao tác đăng nhập quá nhiều lần. Vui lòng thử lại sau.");
   ("KDC_UNAVAILABLE", "Dịch vụ xác thực hiện không khả dụng. Vui lòng thử lại sau.");
   ("INVALID_TGT_FORMAT", "Phiên đăng nhập không hợp lệ. Vui lòng đăng nhập lại.");
   ("TGT_EXPIRED", "Phiên đăng nhập đã hết hạn. Vui lòng đăng nhập lại.");
   ("INVALID_TICKET", "Phiên giao dịch không hợp lệ hoặc đã hết hạn. Vui lòng đăng nhập lại.");
   ("SCOPE_DENIED", "Phiên hiện tại không có quyền thực hiện thao tác này.");
   ("WRONG_SCOPE", "Phiên giao dịch không có quyền chuyển khoản.");
   ("FORBIDDEN", "Bạn không có quyền thực hiện thao tác trên tài khoản này.");
   ("NOT_FOUND", "Không tìm thấy tài khoản được yêu cầu.");
   ("ACCOUNT_NOT_FOUND", "Không tìm thấy tài khoản được yêu cầu.");
   ("FROM_ACCOUNT_NOT_FOUND", "Không tìm thấy tài khoản nguồn.");
   ("TO_ACCOUNT_NOT_FOUND", "Không tìm thấy tài khoản nhận.");
   ("ACCOUNT_NOT_ACTIVE", "Tài khoản hiện không hoạt động nên không thể giao dịch.");
   ("INSUFFICIENT_FUNDS", "Số dư tài khoản không đủ để thực hiện giao dịch.");
   ("DAILY_LIMIT_EXCEEDED", "Giao dịch vượt quá hạn mức chuyển tiền trong ngày.");
   ("IDEMPOTENCY_FAILED", "Giao dịch này đã được gửi trước đó. Vui lòng kiểm tra lịch sử giao dịch.");
   ("ALREADY_EXISTS", "Dữ liệu này đã tồn tại trên hệ thống.");
   ("UNPROCESSABLE_ENTITY", "Không thể thực hiện giao dịch với trạng thái hiện tại.");
   ("RATE_LIMITED", "Bạn thao tác quá nhanh. Vui lòng chờ rồi thử lại.");
   ("BANK_RATE_LIMITED", "Bạn thực hiện quá nhiều yêu cầu ngân hàng. Vui lòng thử lại sau.");
   ("SERVICE_UNAVAILABLE", "Dịch vụ ngân hàng hiện không khả dụng. Vui lòng thử lại sau.")].

Fixpoint error_message (code : ustr) (table : list (string * string)) : option ustr :=
  match table with
  | [] => None
  | (k, v) :: table' => if ustr_eqb (js k) code then Some (u8 v) else error_message code table'
  end.

(** [.replace(/[\s-]+/g, _)]. *)
Fixpoint underscored (inside : bool) (s : ustr) : ustr :=
  match s with
  | [] => []
  | u :: s' =>
      if is_space u || (u =? 45) then (if inside then underscored true s' else 95 :: underscored true s')
      else u :: underscored false s'
  end.

Definition status_messages : list (Z * string) :=
  [(400, "Thông tin gửi lên chưa hợp lệ. Vui lòng kiểm tra lại.");
   (401, "Phiên xác thực không hợp lệ hoặc đã hết hạn. Vui lòng đăng nhập lại.");
   (403, "Bạn không có quyền thực hiện thao tác này.");
   (404, "Không tìm thấy dữ liệu được yêu cầu.");
   (408, "Yêu cầu đã hết thời gian xử lý. Vui lòng thử lại.");
   (409, "Yêu cầu bị trùng với dữ liệu đã tồn tại.");
   (422, "Không thể thực hiện yêu cầu với trạng thái hiện tại.");
   (429, "Bạn thao tác quá nhiều lần. Vui lòng thử lại sau.")].

Definition messageByStatus (status : Z) : option ustr :=
  match find (fun p => p.1 =? status) status_messages with
  | Some (_, text) => Some (u8 text)
  | None => if 500 <=? status then Some (u8 "Dịch vụ đang gặp sự cố. Vui lòng thử lại sau.") else None
  end.

(** [/^[A-Z][A-Z0-9_-]*$/.test(s)]. *)
Definition constant_case (s : ustr) : bool :=
  match s with
  | [] => false
  | u :: s' =>
      ((65 <=? u) && (u <=? 90)) &&
      forallb (fun u => ((65 <=? u) && (u <=? 90)) || ((48 <=? u) && (u <=? 57)) || (u =? 95) || (u =? 45)) s'
  end.

Definition default_fallback : ustr := u8 "Có lỗi xảy ra. Vui lòng thử lại.".

Section messages.

Context `{P : Platform}.

(** [String.prototype.toUpperCase], and the message of an exception that the
    browser or a parser throws. *)
Context (toUpperCase : ustr -> ustr) (thrown_message : js_exception -> ustr).

Definition normalizeCode (value : ustr) : ustr := underscored false (toUpperCase (trim value)).

Definition lookup_message (code : ustr) : option ustr := error_message code ERROR_MESSAGES.

(** [a ?? b]. *)
Definition or_else (a b : option ustr) : option ustr := match a with Some _ => a | None => b end.

Definition api_message (code message : ustr) (status : Z) : option ustr :=
  let serverCode := if constant_case (trim message) then normalizeCode message else [] in
  or_else (match serverCode with [] => None | c => lookup_message c end)
    (or_else (lookup_message (normalizeCode code)) (messageByStatus status)).

(** [None] is a thrown value that is no [Error]. *)
Definition getUserErrorMessage (error : option js_exception) (fallback : ustr) : ustr :=
  match error with
  | Some (ApiError code message status) => default fallback (api_message code message status)
  | Some (JsError message) => default fallback (lookup_message (normalizeCode message))
  | Some e => default fallback (lookup_message (normalizeCode (thrown_message e)))
  | None => fallback
  end.

(** The texts that can be shown. *)
Definition known_messages : list ustr :=
  map (fun kv => u8 kv.2) ERROR_MESSAGES ++ map (fun kv => u8 kv.2) status_messages ++
  [u8 "Dịch vụ đang gặp sự cố. Vui lòng thử lại sau."].

#[local] Opaque ERROR_MESSAGES status_messages u8.

Lemma error_message_in code table m : error_message code table = Some m -> m ∈ map (fun kv => u8 kv.2) table.
Proof.
  induction table as [|[k v] table IH]; [done|]. cbn. case_match; [intros [= <-]; left | intros Hm; right; by apply IH].
Qed.

Lemma lookup_known code m : lookup_message code = Some m -> m ∈ known_messages.
Proof. intros Hm. apply elem_of_app. left. by eapply error_message_in. Qed.

Lemma status_known st m : messageByStatus st = Some m -> m ∈ known_messages.
Proof.
  unfold messageByStatus. intros Hm. apply elem_of_app. right. apply elem_of_app.
  destruct (find _ status_messages) as [[k text]|] eqn:Hf.
  - left. injection Hm as <-. apply find_some in Hf as [Hin _]. apply list_elem_of_In.
    by apply (in_map (fun kv => u8 kv.2)) in Hin.
  - right. destruct (500 <=? st); [|done]. injection Hm as <-. left.
Qed.

Lemma or_else_known a b m :
  (forall m, a = Some m -> m ∈ known_messages) -> (forall m, b = Some m -> m ∈ known_messages) ->
  or_else a b = Some m -> m ∈ known_messages.
Proof. intros Ha Hb. destruct a; cbn; [apply Ha | apply Hb]. Qed.

(** Nothing that a server or the browser put into an error is shown: the message
    is one of the texts of the file, or the caller's fallback. *)
Lemma user_message_closed error fallback :
  getUserErrorMessage error fallback ∈ fallback :: known_messages.
Proof.
  assert (Hd : forall o, (forall m, o = Some m -> m ∈ known_messages) -> default fallback o ∈ fallback :: known_messages).
  { intros [m|] Hm; [right; by apply Hm | left]. }
  destruct error as [[code message status|message|e|e|kind]|]; cbn [getUserErrorMessage];
    try (apply Hd; intros m; apply lookup_known); [|left].
  apply Hd. intros m. apply or_else_known; [|intros m'; apply or_else_known].
  - intros m'. case_match; [done | apply lookup_known].
  - intros m2. apply lookup_known.
  - intros m2. apply status_known.
Qed.

(** A business code in the message wins over the code of the transport. *)
Lemma server_code_first code message status m :
  constant_case (trim message) = true -> normalizeCode message <> [] ->
  lookup_message (normalizeCode message) = Some m -> api_message code message status = Some m.
Proof. intros Hc Hn Hl. unfold api_message. rewrite Hc. destruct (normalizeCode message); [done|]. by rewrite Hl. Qed.

End messages.
