(* ===== verification/Mail.v ===== *)
(** * The mails of the gateway ([config/mail.ts], [workers/mail.worker.ts])

    The two HTML templates with their fields, the escaping of the fields, the
    senders and the worker of the mail queue. Texts are UTF-16 units; in the
    templates the double quote of HTML is written as a tilde, which they do not
    contain. [activation_mail_reads_back]: a reader of HTML finds every field in
    its place, whatever it holds, and the rest of the document unchanged. *)

From S2P Require Import Prelude JsString Effects Gateway UString WebCrypto.

Open Scope Z_scope.

(** A literal of a template. *)
Definition html (literal : string) : ustr := map (fun u => if u =? 126 then 34 else u) (u8 literal).

(** ** [escapeHtml] *)

Definition escape_character (u : Z) : ustr :=
  if u =? 38 then js "&amp;"
  else if u =? 60 then js "&lt;"
  else if u =? 62 then js "&gt;"
  else if u =? 34 then js "&quot;"
  else if u =? 39 then js "&#039;"
  else [u].

Definition escapeHtml (value : ustr) : ustr := flat_map escape_character value.

(** ** [sendOTPEmail] *)

Definition otp_html (otp : ustr) : ustr :=
  html "
    <!DOCTYPE html>
    <html>
    <head>
      <meta charset=~utf-8~>
      <meta name=~viewport~ content=~width=device-width, initial-scale=1.0~>
      <title>Xác thực tài khoản</title>
      <style>
        body {
          font-family: Arial, Helvetica, ~Times New Roman~, sans-serif;
          background-color: #f4f6f8;
          margin: 0;
          padding: 0;
          -webkit-font-smoothing: antialiased;
        }
        .container {
          max-width: 500px;
          margin: 40px auto;
          background: #ffffff;
          border-radius: 12px;
          overflow: hidden;
          box-shadow: 0 4px 12px rgba(0, 0, 0, 0.05);
          border: 1px solid #e1e8ed;
        }
        .header {
          background-color: #0052cc;
          padding: 30px 20px;
          text-align: center;
        }
        .header h1 {
          color: #ffffff;
          font-size: 24px;
          margin: 0;
          font-weight: bold;
          letter-spacing: 0.5px;
        }
        .content {
          padding: 40px 30px;
          text-align: center;
          color: #333333;
        }
        .content p {
          font-size: 15px;
          line-height: 1.6;
          margin: 0 0 20px 0;
          color: #444444;
        }
        .otp-container {
          background-color: #f4f5f7;
          border-radius: 8px;
          padding: 16px 24px;
          margin: 30px 0;
          display: inline-block;
          border: 1px dashed #0052cc;
        }
        .otp-code {
          font-family: Arial, Helvetica, sans-serif;
          font-size: 36px;
          font-weight: bold;
          letter-spacing: 8px;
          color: #0052cc;
          margin: 0;
        }
        .footer {
          background-color: #fafbfc;
          padding: 20px;
          text-align: center;
          font-size: 12px;
          color: #777777;
          border-top: 1px solid #ebecf0;
        }
        .warning {
          font-size: 13px !important;
          color: #c92a2a !important;
          margin-top: 25px !important;
          font-weight: bold;
        }
      </style>
    </head>
    <body>
      <div class=~container~>
        <div class=~header~>
          <h1>Mini-Banking</h1>
        </div>
        
        <div class=~content~>
          <p>Xin chào,</p>
          <p>Bạn đang thực hiện đăng ký tài khoản tại <strong>Mini-Banking System</strong>. Vui lòng sử dụng mã OTP dưới đây để hoàn tất quá trình xác thực:</p>
          
          <div class=~otp-container~>
            <h2 class=~otp-code~>"
    ++ otp
    ++ html "</h2>
          </div>
          
          <p>Mã này có hiệu lực trong vòng <strong>5 phút</strong>.</p>
          <p class=~warning~>Tuyệt đối KHÔNG chia sẻ mã này với bất kỳ ai để tránh mất mát tài sản.</p>
        </div>
        
        <div class=~footer~>
          <p>Đây là email tự động, vui lòng không phản hồi email này.</p>
          <p>&copy; 2026 Mini-Banking System. All rights reserved.</p>
        </div>
      </div>
    </body>
    </html>
    ".

Definition mail_from : ustr := js "Mini-Banking System - <no-reply@minibanking.com>".

(** [transporter.sendMail] in its [try] block. *)
Definition send_mail (options : MailOptions) (failure : string) : gw unit :=
  Vis (SmtpSend options) (fun r => match r with Ok _ => Ret tt | Err _ => Raise (plain_error failure) end).

Definition sendOTPEmail (to otp : string) : gw unit :=
  send_mail {| mo_from := mail_from; mo_to := js to; mo_subject := u8 "Mã xác thực đăng ký tài khoản";
               mo_text := None; mo_html := otp_html (js otp) |}
    ("[Email] Failed to send email to " +:+ to).

(** [mailWorker]: what it does with the data of a job. *)
Definition mail_worker (to otp : string) : gw unit := sendOTPEmail to otp.

(** ** Activation mails *)

Record ActivationEmailInput := {
  ei_adminId : ustr; ei_fullName : ustr; ei_expiresAt : ustr; ei_activationUrl : ustr
}.

Record ActivationEmailTheme := {
  th_roleName : ustr; th_title : ustr; th_headerBackground : ustr; th_pageBackground : ustr;
  th_accent : ustr; th_badgeBackground : ustr; th_border : ustr
}.

Definition activation_text (input : ActivationEmailInput) (theme : ActivationEmailTheme) : ustr :=
  join [10]
    [u8 "Xin chào " ++ ei_fullName input ++ js ",";
     [];
     u8 "Tài khoản " ++ th_roleName theme ++ u8 " của bạn đã được tạo.";
     js "Admin ID: " ++ ei_adminId input;
     u8 "Hết hạn: " ++ ei_expiresAt input;
     u8 "Liên kết kích hoạt: " ++ ei_activationUrl input;
     [];
     u8 "Hãy mở liên kết để xác minh thông tin và đặt mã PIN. Không chia sẻ liên kết này."].

Definition activation_html (input : ActivationEmailInput) (theme : ActivationEmailTheme) : ustr :=
  let fullName := escapeHtml (ei_fullName input) in
  let adminId := escapeHtml (ei_adminId input) in
  let expiresAt := escapeHtml (ei_expiresAt input) in
  let activationUrl := escapeHtml (ei_activationUrl input) in
  html "
    <!DOCTYPE html>
    <html>
    <head>
      <meta charset=~utf-8~>
      <meta name=~viewport~ content=~width=device-width, initial-scale=1.0~>
      <title>"
    ++ th_title theme
    ++ html "</title>
      <style>
        body {
          font-family: Arial, Helvetica, ~Times New Roman~, sans-serif;
          background-color: "
    ++ th_pageBackground theme
    ++ html ";
          margin: 0;
          padding: 0;
          -webkit-font-smoothing: antialiased;
        }
        .container {
          max-width: 560px;
          margin: 40px auto;
          background: #ffffff;
          border-radius: 12px;
          overflow: hidden;
          box-shadow: 0 10px 30px rgba(15, 23, 42, 0.12);
          border: 1px solid "
    ++ th_border theme
    ++ html ";
        }
        .header {
          background-color: "
    ++ th_headerBackground theme
    ++ html ";
          padding: 32px 24px;
          text-align: center;
        }
        .header .eyebrow {
          color: rgba(255, 255, 255, 0.78);
          font-size: 12px;
          font-weight: bold;
          letter-spacing: 1.6px;
          text-transform: uppercase;
          margin: 0 0 8px 0;
        }
        .header h1 {
          color: #ffffff;
          font-size: 24px;
          margin: 0;
          font-weight: bold;
          letter-spacing: 0.3px;
        }
        .content {
          padding: 36px 30px;
          color: #263238;
        }
        .content p {
          font-size: 15px;
          line-height: 1.65;
          margin: 0 0 18px 0;
          color: #374151;
        }
        .identity-card {
          background-color: "
    ++ th_badgeBackground theme
    ++ html ";
          border: 1px solid "
    ++ th_border theme
    ++ html ";
          border-radius: 10px;
          padding: 18px 20px;
          margin: 24px 0;
        }
        .identity-row {
          margin: 0 0 10px 0;
          font-size: 14px;
          color: #374151;
        }
        .identity-row:last-child {
          margin-bottom: 0;
        }
        .label {
          display: inline-block;
          min-width: 86px;
          color: #6b7280;
          font-weight: bold;
        }
        code {
          font-family: Consolas, Menlo, Monaco, monospace;
          color: #111827;
          word-break: break-all;
        }
        .button-wrap {
          text-align: center;
          margin: 28px 0 20px 0;
        }
        .button {
          display: inline-block;
          background-color: "
    ++ th_accent theme
    ++ html ";
          color: #ffffff !important;
          text-decoration: none;
          border-radius: 8px;
          padding: 14px 22px;
          font-size: 15px;
          font-weight: bold;
        }
        .raw-link {
          font-size: 12px !important;
          color: #6b7280 !important;
          word-break: break-all;
          margin-top: 18px !important;
        }
        .warning {
          font-size: 13px !important;
          color: #b91c1c !important;
          font-weight: bold;
          margin-top: 24px !important;
        }
        .footer {
          background-color: #f8fafc;
          padding: 20px;
          text-align: center;
          font-size: 12px;
          color: #777777;
          border-top: 1px solid #e5e7eb;
        }
      </style>
    </head>
    <body>
      <div class=~container~>
        <div class=~header~>
          <p class=~eyebrow~>Mini Banking Privileged Access</p>
          <h1>"
    ++ th_title theme
    ++ html "</h1>
        </div>

        <div class=~content~>
          <p>Xin chào <strong>"
    ++ fullName
    ++ html "</strong>,</p>
          <p>Tài khoản <strong>"
    ++ th_roleName theme
    ++ html "</strong> của bạn đã được tạo. Vui lòng mở liên kết bên dưới để xác minh thông tin và đặt mã PIN cho chứng chỉ quản trị.</p>

          <div class=~identity-card~>
            <p class=~identity-row~><span class=~label~>Vai trò</span> "
    ++ th_roleName theme
    ++ html "</p>
            <p class=~identity-row~><span class=~label~>Admin ID</span> <code>"
    ++ adminId
    ++ html "</code></p>
            <p class=~identity-row~><span class=~label~>Hết hạn</span> "
    ++ expiresAt
    ++ html "</p>
          </div>

          <div class=~button-wrap~>
            <a class=~button~ href=~"
    ++ activationUrl
    ++ html "~>Mở liên kết kích hoạt</a>
          </div>

          <p class=~raw-link~>Nếu nút không mở được, hãy copy liên kết này vào trình duyệt:<br>"
    ++ activationUrl
    ++ html "</p>
          <p class=~warning~>Không chia sẻ token hoặc liên kết này với bất kỳ ai.</p>
        </div>

        <div class=~footer~>
          <p>Đây là email tự động, vui lòng không phản hồi email này.</p>
          <p>&copy; 2026 Mini-Banking System. All rights reserved.</p>
        </div>
      </div>
    </body>
    </html>
    ".

(** The text and the HTML. *)
Definition buildActivationEmail (input : ActivationEmailInput) (theme : ActivationEmailTheme) : ustr * ustr :=
  (activation_text input theme, activation_html input theme).

Definition bankAdminTheme : ActivationEmailTheme :=
  {| th_roleName := js "Bank Admin"; th_title := u8 "Kích hoạt Bank Admin";
     th_headerBackground := js "#075985"; th_pageBackground := js "#e0f2fe"; th_accent := js "#0284c7";
     th_badgeBackground := js "#f0f9ff"; th_border := js "#bae6fd" |}.

Definition caAdminTheme : ActivationEmailTheme :=
  {| th_roleName := js "CA Admin"; th_title := u8 "Kích hoạt CA Admin";
     th_headerBackground := js "#0f766e"; th_pageBackground := js "#ccfbf1"; th_accent := js "#0d9488";
     th_badgeBackground := js "#f0fdfa"; th_border := js "#99f6e4" |}.

Definition activation_options (to : ustr) (input : ActivationEmailInput) (theme : ActivationEmailTheme)
    (subject : ustr) : MailOptions :=
  let email := buildActivationEmail input theme in
  {| mo_from := mail_from; mo_to := to; mo_subject := subject; mo_text := Some email.1; mo_html := email.2 |}.

Definition sendBankAdminActivationEmail (to : string) (input : ActivationEmailInput) : gw unit :=
  send_mail (activation_options (js to) input bankAdminTheme (u8 "Kích hoạt tài khoản Bank Admin"))
    ("[Email] Failed to send Bank Admin activation to " +:+ to).

Definition sendCaAdminActivationEmail (to : string) (input : ActivationEmailInput) : gw unit :=
  send_mail (activation_options (js to) input caAdminTheme (u8 "Kích hoạt tài khoản CA Admin"))
    ("[Email] Failed to send CA Admin activation to " +:+ to).

(** ** A reader of HTML

    Tags with their quoted attributes, and the texts between them; the character
    references of [escapeHtml] are decoded in texts and in attribute values. *)

Inductive token :=
| Text (s : ustr)
| Tag (name : ustr) (attributes : list (ustr * ustr)).

(** What is being read, the latest unit first. *)
Inductive reader :=
| InText (acc : ustr)
| InName (acc : ustr)
| InTag (name : ustr) (attributes : list (ustr * ustr))
| InAttribute (name : ustr) (attributes : list (ustr * ustr)) (acc : ustr)
| InValue (name : ustr) (attributes : list (ustr * ustr)) (attribute : ustr) (acc : ustr).

(** One unit: the token that it completes, raw, and the next state. *)
Definition step (r : reader) (u : Z) : option token * reader :=
  match r with
  | InText acc => if u =? 60 then (Some (Text (rev acc)), InName []) else (None, InText (u :: acc))
  | InName acc =>
      if u =? 62 then (Some (Tag (rev acc) []), InText [])
      else if is_space u then (None, InTag (rev acc) []) else (None, InName (u :: acc))
  | InTag name atts =>
      if u =? 62 then (Some (Tag name (rev atts)), InText [])
      else if is_space u then (None, InTag name atts) else (None, InAttribute name atts [u])
  | InAttribute name atts acc =>
      if u =? 62 then (Some (Tag name (rev ((rev acc, []) :: atts))), InText [])
      else if is_space u then (None, InTag name ((rev acc, []) :: atts))
      else if u =? 61 then (None, InAttribute name atts acc)
      else if u =? 34 then (None, InValue name atts (rev acc) []) else (None, InAttribute name atts (u :: acc))
  | InValue name atts attribute acc =>
      if u =? 34 then (None, InTag name ((attribute, rev acc) :: atts))
      else (None, InValue name atts attribute (u :: acc))
  end.

Fixpoint read (r : reader) (s : ustr) : list token * reader :=
  match s with
  | [] => ([], r)
  | u :: s' =>
      let '(t, r1) := step r u in
      let '(ts, r2) := read r1 s' in
      (match t with Some t => t :: ts | None => ts end, r2)
  end.

Definition references : list (ustr * Z) :=
  [(js "&amp;", 38); (js "&lt;", 60); (js "&gt;", 62); (js "&quot;", 34); (js "&#039;", 39)].

(** The reference at the head of a text: its unit and its remaining length. *)
Definition reference (s : ustr) : option (Z * nat) :=
  option_map (fun r => (r.2, pred (length r.1))) (List.find (fun r => starts_with r.1 s) references).

Fixpoint decode (skip : nat) (s : ustr) : ustr :=
  match s, skip with
  | [], _ => []
  | _ :: s', S n => decode n s'
  | u :: s', O => match reference s with Some (c, n) => c :: decode n s' | None => u :: decode O s' end
  end.

Definition decode_token (t : token) : token :=
  match t with
  | Text s => Text (decode 0 s)
  | Tag name atts => Tag name (map (fun a => (a.1, decode 0 a.2)) atts)
  end.

(** The tokens of a document that ends in a text. *)
Definition read_html (s : ustr) : list token :=
  let '(ts, r) := read (InText []) s in
  map decode_token (ts ++ match r with InText acc => [Text (rev acc)] | _ => [] end).

(** ** Reading escaped texts *)

Lemma read_app r s s' :
  read r (s ++ s') = ((read r s).1 ++ (read (read r s).2 s').1, (read (read r s).2 s').2).
Proof.
  revert r. induction s as [|u s IH]; intros r; cbn [app read fst snd]; [apply surjective_pairing|].
  destruct (step r u) as [t r1]. rewrite IH. destruct (read r1 s) as [ts r2]. cbn [fst snd].
  by destruct t.
Qed.

(** Split the leading comparisons of units. *)
Ltac eqb_cases := repeat match goal with |- context [if ?a =? ?b then _ else _] => destruct (Z.eqb_spec a b) end.

(** Units that neither end a text nor a value. *)
Definition inert (u : Z) : Prop := u <> 60 /\ u <> 34.

Lemma escape_inert s : Forall inert (escapeHtml s).
Proof.
  unfold escapeHtml. induction s as [|u s IH]; cbn [flat_map]; [constructor|]. apply Forall_app. split; [|done].
  unfold escape_character. eqb_cases; repeat (constructor; [unfold inert; cbn; lia|]); constructor.
Qed.

Lemma read_text acc s : Forall inert s -> read (InText acc) s = ([], InText (rev s ++ acc)).
Proof.
  intros Hs. revert acc. induction Hs as [|u s [Hu _] _ IH]; intros acc; [done|].
  cbn [read step]. rewrite (proj2 (Z.eqb_neq u 60) Hu), IH. cbn [rev]. by rewrite <- app_assoc.
Qed.

Lemma read_value n atts a acc s : Forall inert s ->
  read (InValue n atts a acc) s = ([], InValue n atts a (rev s ++ acc)).
Proof.
  intros Hs. revert acc. induction Hs as [|u s [_ Hu] _ IH]; intros acc; [done|].
  cbn [read step]. rewrite (proj2 (Z.eqb_neq u 34) Hu), IH. cbn [rev]. by rewrite <- app_assoc.
Qed.

Lemma reference_none u s : u <> 38 -> reference (u :: s) = None.
Proof.
  intros Hu. unfold reference. destruct (List.find _ _) as [[p c]|] eqn:Hf; [|done].
  apply List.find_some in Hf as [Hin Hp]. exfalso. apply Hu. cbn [fst] in Hp.
  assert (exists p', p = 38 :: p') as [p' ->].
  { unfold references in Hin. cbn in Hin. naive_solver. }
  cbn [starts_with] in Hp. apply andb_true_iff in Hp as [Hp _]. by apply Z.eqb_eq in Hp.
Qed.

Lemma decode_escape s : decode 0 (escapeHtml s) = s.
Proof.
  unfold escapeHtml. induction s as [|u s IH]; [done|]. cbn [flat_map]. unfold escape_character.
  set (rest := flat_map _ s) in *. eqb_cases.
  6: { cbn [app decode]. rewrite reference_none by done. by rewrite IH. }
  all: transitivity (u :: decode 0 rest); [subst u; reflexivity | by rewrite IH].
Qed.

(** A chunk of a template read on: what was before it goes to its first text. *)
Lemma read_on K a acc t ts r : read (InText a) K = (Text t :: ts, r) ->
  read (InText (a ++ acc)) K = (Text (rev acc ++ t) :: ts, r).
Proof.
  revert a. induction K as [|u K IH]; intros a; [done|]. cbn [read step]. destruct (u =? 60).
  - destruct (read (InName []) K) as [ts' r']. intros [= <- <- <-]. by rewrite rev_app_distr.
  - destruct (read (InText (u :: a)) K) as [ts' r'] eqn:Hr. intros [= -> ->]. apply IH in Hr. cbn [app] in Hr. by rewrite Hr.
Qed.

Lemma read_slot acc e K ts r s : Forall inert e -> read (InText []) K = (Text [] :: ts, r) ->
  read (InText acc) (e ++ K ++ s) = (Text (rev acc ++ e) :: ts ++ (read r s).1, (read r s).2).
Proof.
  intros He HK. rewrite read_app, read_text by done. cbn [fst snd app]. rewrite read_app.
  apply (read_on K [] (rev e ++ acc)) in HK. cbn [app] in HK. rewrite HK. cbn [fst snd].
  by rewrite rev_app_distr, rev_involutive, app_nil_r.
Qed.

Lemma read_value_slot n atts a e K ts r s : Forall inert e -> read (InText []) K = (ts, r) ->
  read (InValue n atts a []) (e ++ (34 :: 62 :: K) ++ s)
  = (Tag n (rev atts ++ [(a, e)]) :: ts ++ (read r s).1, (read r s).2).
Proof.
  intros He HK. rewrite read_app, read_value by done. cbn [fst snd app read step Z.eqb Pos.eqb].
  rewrite read_app, HK. cbn [fst snd]. by rewrite app_nil_r, rev_involutive.
Qed.

(** The frame of an activation mail around its five fields. *)
Lemma read_frame K0 K1 K2 K3 K4 K5 ts0 ts1 ts2 ts3 ts4 ts5 n atts a x4 x5 :
  read (InText []) K0 = (ts0, InText []) -> read (InText []) K1 = (Text [] :: ts1, InText []) ->
  read (InText []) K2 = (Text [] :: ts2, InText [32]) ->
  read (InText []) K3 = (Text [] :: ts3, InValue n atts a []) ->
  K4 = 34 :: 62 :: x4 -> read (InText []) x4 = (ts4, InText []) ->
  read (InText []) K5 = (Text [] :: ts5, InText x5) ->
  forall name id expiry url, read_html (K0 ++ escapeHtml name ++ K1 ++ escapeHtml id ++ K2 ++ escapeHtml expiry
      ++ K3 ++ escapeHtml url ++ K4 ++ escapeHtml url ++ K5)
  = map decode_token ts0 ++ [Text name] ++ map decode_token ts1 ++ [Text id] ++ map decode_token ts2
    ++ [Text (32 :: expiry)] ++ map decode_token ts3
    ++ [Tag n (map (fun a => (a.1, decode 0 a.2)) (rev atts) ++ [(a, url)])] ++ map decode_token ts4
    ++ [Text url] ++ map decode_token (ts5 ++ [Text (rev x5)]).
Proof.
  intros H0 H1 H2 H3 -> H4 H5 name id expiry url. unfold read_html. rewrite read_app, H0. cbn [fst snd].
  rewrite (read_slot [] _ K1 ts1 _ _ (escape_inert name) H1).
  rewrite (read_slot [] _ K2 ts2 _ _ (escape_inert id) H2).
  rewrite (read_slot [32] _ K3 ts3 _ _ (escape_inert expiry) H3).
  rewrite (read_value_slot n atts a _ x4 ts4 _ _ (escape_inert url) H4).
  rewrite <- (app_nil_r K5), (read_slot [] _ K5 ts5 _ [] (escape_inert url) H5). cbn [read fst snd rev app].
  rewrite !app_nil_r. repeat (rewrite ?map_app; cbn [map decode_token app fst snd]).
  change (decode 0 (32 :: escapeHtml expiry)) with (32 :: decode 0 (escapeHtml expiry)).
  rewrite !decode_escape. by repeat (rewrite <- !app_assoc; cbn [app]).
Qed.

(** Name the literals of a template and join its constant pieces. *)
Ltac join_constants :=
  repeat match goal with |- context [html ?s] => let l := fresh "l" in remember (html s) as l end;
  repeat match goal with
  | |- context [?a ++ ?b ++ ?c] =>
      lazymatch a with context [escapeHtml] => fail | _ => idtac end;
      lazymatch b with context [escapeHtml] => fail | _ => idtac end;
      rewrite (app_assoc a b c)
  end.

(** The fields of an activation mail stay fields. For either administrator
    the mail has a fixed frame, and whatever the name, the identifier, the expiry
    and the link of the invitation hold, a reader of its HTML finds exactly that
    frame with each field in its place as a text, and the link as the target of
    the button: no field can close or add an element or an attribute. *)
Theorem activation_mail_reads_back theme : theme = bankAdminTheme \/ theme = caAdminTheme ->
  exists before after_name after_id before_link after_link rest, forall input,
    read_html (buildActivationEmail input theme).2
    = before ++ [Text (ei_fullName input)] ++ after_name ++ [Text (ei_adminId input)] ++ after_id
      ++ [Text (32 :: ei_expiresAt input)] ++ before_link
      ++ [Tag (js "a") [(js "class", js "button"); (js "href", ei_activationUrl input)]] ++ after_link
      ++ [Text (ei_activationUrl input)] ++ rest.
Proof.
  intros [-> | ->]; do 6 eexists; intros input; cbn [buildActivationEmail snd]; unfold activation_html;
    (etransitivity;
     [ join_constants; eapply (read_frame _ _ _ _ _ _ _ _ _ _ _ _ (js "a") [(js "class", js "button")] (js "href"));
       subst; vm_compute; reflexivity
     | reflexivity ]).
Qed.

Lemma activation_mail_reads_back_witness :
  exists before after,
    read_html (buildActivationEmail
      {| ei_adminId := js "id"; ei_fullName := js "</strong><script>"; ei_expiresAt := js "now";
         ei_activationUrl := js "http://b/#token=t" |} bankAdminTheme).2
    = before ++ [Text (js "</strong><script>")] ++ after.
Proof.
  destruct (activation_mail_reads_back bankAdminTheme (or_introl eq_refl)) as (b & n & i & l & a & r & H).
  eexists b, _. rewrite H. reflexivity.
Defined.

(** ** The mail with a code

    The code is not escaped, which digits do not need. *)

Definition digits (s : ustr) : Prop := Forall (fun u => 48 <= u <= 57) s.

Lemma decode_plain s : Forall (fun u => u <> 38) s -> decode 0 s = s.
Proof. induction 1 as [|u s Hu _ IH]; [done|]. cbn [decode]. by rewrite reference_none, IH. Qed.

Lemma otp_mail_reads_back : exists before rest, forall otp, digits otp ->
  read_html (otp_html otp) = before ++ [Text otp] ++ rest.
Proof.
  assert (Hframe : forall K0 K1 ts0 ts1 x otp, digits otp -> read (InText []) K0 = (ts0, InText []) ->
    read (InText []) K1 = (Text [] :: ts1, InText x) ->
    read_html (K0 ++ otp ++ K1) = map decode_token ts0 ++ [Text otp] ++ map decode_token (ts1 ++ [Text (rev x)])).
  { intros K0 K1 ts0 ts1 x otp Ho H0 H1. unfold read_html. rewrite read_app, H0. cbn [fst snd].
    assert (Hi : Forall inert otp) by (eapply Forall_impl; [exact Ho|]; intros u Hu; unfold inert; cbn in Hu; lia).
    rewrite <- (app_nil_r K1), (read_slot [] _ K1 ts1 _ [] Hi H1). cbn [read fst snd rev app].
    rewrite app_nil_r, !map_app. cbn [map decode_token app]. rewrite decode_plain, <- app_assoc; [done|].
    eapply Forall_impl; [exact Ho|]. intros u Hu. cbn in Hu. lia. }
  do 2 eexists. intros otp Ho. unfold otp_html. eapply Hframe; [exact Ho | vm_compute; reflexivity..].
Qed.
