(* ===== verification/Provision.v ===== *)
(** * Provisioning an administrator ([scripts/provision-bank-admin.ts], [scripts/provision-ca-admin.ts])

    The two scripts differ in the role: a pending identity is created, its token
    is mailed as a link to the activation page, and the identity is withdrawn when
    the mail cannot be sent. The activation pages read the token out of the link.
    [invitation_delivered] follows the token from the script to the page. *)

From S2P Require Import Prelude Effects UString JsString JsDate Gateway Json Redis Crypto Otp Register Activation UJson X509 WebCrypto BankClient Browser AdminClient Mail.

Open Scope Z_scope.

(** [new URL(path, base)] for an absolute path and the configured base: the
    origin of the base, which has no fragment, or [None] when it is not a URL. *)
Class NodeUrl := { url_origin : ustr -> option ustr }.
Class NodeUrlSpec `{NodeUrl} := { origin_no_hash base o : url_origin base = Some o -> 35 ∉ o }.

(** ** The command line *)

(** [process.argv[process.argv.indexOf(name) + 1]], or the empty text. *)
Fixpoint readArg (argv : list string) (name : string) : string :=
  match argv with
  | [] => ""
  | a :: rest => if String.eqb a name then default "" (head rest) else readArg rest name
  end.

Definition hasFlag (argv : list string) (name : string) : bool := existsb (String.eqb name) argv.

Record ScriptResult := { exitCode : Z; stdout : list ustr; stderr : list ustr }.

Section provision.

Context `{Platform} `{Crypto} `{NodeUrl}.
Context (FRONTEND_BASE_URL : string) (ADMIN_ACTIVATION_TTL_SECONDS : option string) (role : AdminRole).

Definition ACTIVATION_PATH : ustr :=
  match role with BANK_ADMIN => js "/admin-bank/activate" | CA_ADMIN => js "/admin-ca/activate" end.

(** [url.hash = query.toString()]: the query has no character that a fragment encodes. *)
Definition activationUrl (token : string) : gw ustr :=
  match url_origin (strip_slash (js FRONTEND_BASE_URL) ++ js "/") with
  | Some origin => Ret (origin ++ ACTIVATION_PATH ++ js "#" ++ params_string [(js "token", js token)])
  | None => Raise (plain_error "Invalid URL")
  end.

Definition quoted (s : string) : string := String QUOTE (s +:+ String QUOTE "").

Definition usage : string :=
  match role with
  | BANK_ADMIN =>
      "Usage: npm run provision:bank-admin -- --email bank.admin@example.com --full-name "
      +:+ quoted "Bank Administrator" +:+ " [--print-only]"
  | CA_ADMIN =>
      "Usage: npm run provision:ca-admin -- --email ca.admin@example.com --full-name "
      +:+ quoted "CA Administrator" +:+ " [--print-only]"
  end.

(** [identity.activation_expires_at], which [createPendingAdmin] has set. *)
Definition activation_expires_at (identity : AdminIdentity) : Z :=
  match field "activation_expires_at" identity with Some (JNum n) => n | _ => 0 end.

Definition theme : ActivationEmailTheme :=
  match role with BANK_ADMIN => bankAdminTheme | CA_ADMIN => caAdminTheme end.

Definition sendActivationEmail (to : string) (input : ActivationEmailInput) : gw unit :=
  match role with
  | BANK_ADMIN => sendBankAdminActivationEmail to input
  | CA_ADMIN => sendCaAdminActivationEmail to input
  end.

Definition invitation_input (identity : AdminIdentity) (expiresAt : string) (url : ustr) : ActivationEmailInput :=
  {| ei_adminId := js (text "admin_id" identity); ei_fullName := js (text "full_name" identity);
     ei_expiresAt := js expiresAt; ei_activationUrl := url |}.

(** What the script prints. *)
Definition printed (printOnly : bool) (identity : AdminIdentity) (expiresAt : string) (url : ustr) : list ustr :=
  [js (label role +:+ (if printOnly then " provisioned. Activation email was skipped (--print-only):"
                       else " provisioned and activation email sent:"));
   js ("  admin_id: " +:+ text "admin_id" identity);
   js ("  email: " +:+ text "email" identity);
   js ("  full_name: " +:+ text "full_name" identity);
   js ("  expires_at: " +:+ expiresAt);
   js "  activation_path: " ++ ACTIVATION_PATH;
   js "  activation_url: " ++ url].

Definition print_only (argv : list string) : bool := hasFlag argv "--print-only" || hasFlag argv "--no-email".

Definition main (argv : list string) : gw (list ustr) :=
  let email := readArg argv "--email" in
  let fullName := readArg argv "--full-name" in
  if String.eqb email "" || String.eqb fullName "" then Raise (plain_error usage)
  else
    let* (identity, activationToken, _) := createPendingAdmin ADMIN_ACTIVATION_TTL_SECONDS email fullName role in
    let* expiresAt := of_result (iso_of (activation_expires_at identity * 1000)) in
    let* url := activationUrl activationToken in
    do* (if print_only argv then Ret tt
         else catch (sendActivationEmail (text "email" identity) (invitation_input identity expiresAt url))
                (fun error => do* discardPendingAdminProvision identity activationToken in Raise error)) in
    Ret (printed (print_only argv) identity expiresAt url).

(** [main().catch(...)]; the connection to Redis is then closed. *)
Definition provision (argv : list string) : gw ScriptResult :=
  catch (let* lines := main argv in Ret {| exitCode := 0; stdout := lines; stderr := [] |})
    (fun err => Ret {| exitCode := 1; stdout := [];
                       stderr := [js ("Provision failed: " +:+ default "" (err_message err))] |}).

End provision.

(** ** The activation page reads the link

    [AdminBankActivate.tsx] and [AdminCAActivate.tsx] start with the same effect. *)

(** [location.hash]: the fragment with its number sign. *)
Fixpoint location_hash (url : ustr) : ustr :=
  match url with [] => [] | u :: rest => if u =? 35 then url else location_hash rest end.

Definition hex_digit (u : Z) : option Z :=
  if is_digit u then Some (u - 48)
  else if (65 <=? u) && (u <=? 70) then Some (u - 55)
  else if (97 <=? u) && (u <=? 102) then Some (u - 87) else None.

(** A name or a value of a query: bytes, with blanks and escapes. *)
Fixpoint form_bytes (s : list Z) : list Z :=
  match s with
  | [] => []
  | u :: s' =>
      if u =? 37 then
        match s' with
        | h :: l :: s'' =>
            match hex_digit h, hex_digit l with
            | Some a, Some b => a * 16 + b :: form_bytes s''
            | _, _ => 37 :: form_bytes s'
            end
        | _ => 37 :: form_bytes s'
        end
      else (if u =? 43 then 32 else u) :: form_bytes s'
  end.

(** Text before the first [sep] and, if there is one, the text after it. *)
Fixpoint cut (sep : Z) (s : list Z) : list Z * option (list Z) :=
  match s with
  | [] => ([], None)
  | u :: s' => if u =? sep then ([], Some s') else let '(a, b) := cut sep s' in (u :: a, b)
  end.

Fixpoint pieces (fuel : nat) (s : list Z) : list (list Z) :=
  match fuel with
  | O => []
  | S f => match cut 38 s with (a, Some b) => a :: pieces f b | (a, None) => [a] end
  end.

Section page.

Context `{Platform}.

(** [new URLSearchParams(text)]. *)
Definition parse_params (s : ustr) : list (ustr * ustr) :=
  let s := match s with 63 :: s' => s' | _ => s end in
  let bytes := textEncode s in
  map (fun p => let '(name, value) := cut 61 p in
                (textDecode (form_bytes name), textDecode (form_bytes (default [] value))))
      (List.filter (fun p => negb (bool_decide (p = []))) (pieces (S (length bytes)) bytes)).

(** [params.get(name)]. *)
Definition param_get (name : ustr) (l : list (ustr * ustr)) : option ustr :=
  option_map snd (List.find (fun kv => ustr_eqb kv.1 name) l).

(** The token that the page fills in. *)
Definition page_token (hash : ustr) : ustr :=
  let hash := match hash with 35 :: h => h | _ => hash end in
  match param_get (js "token") (parse_params hash) with Some t => UString.trim t | None => [] end.

End page.

(** ** The link and the page agree *)

(** The alphabet of [toString(base64url)]. *)
Definition base64url (u : Z) : bool :=
  is_digit u || ((65 <=? u) && (u <=? 90)) || ((97 <=? u) && (u <=? 122)) || (u =? 45) || (u =? 95).

Definition token_ok (s : ustr) : Prop := Forall (fun u => base64url u = true) s.

Lemma base64url_range u : base64url u = true ->
  (48 <= u <= 57) \/ (65 <= u <= 90) \/ (97 <= u <= 122) \/ u = 45 \/ u = 95.
Proof. unfold base64url, is_digit. rewrite !orb_true_iff, !andb_true_iff, !Z.leb_le, !Z.eqb_eq. lia. Qed.

Lemma token_without (Q : Z -> Prop) s : token_ok s ->
  (forall u, (48 <= u <= 57) \/ (65 <= u <= 90) \/ (97 <= u <= 122) \/ u = 45 \/ u = 95 -> Q u) -> Forall Q s.
Proof. intros Hs HQ. eapply Forall_impl; [exact Hs|]. intros u Hu. by apply HQ, base64url_range. Qed.

Lemma trimStart_spaceless s : Forall (fun u => is_space u = false) s -> UString.trimStart s = s.
Proof. destruct 1 as [|u s Hu _]; [done|]. cbn [UString.trimStart]. by rewrite Hu. Qed.

Lemma trim_token s : token_ok s -> UString.trim s = s.
Proof.
  intros Hs. assert (Hsp : Forall (fun u => is_space u = false) s).
  { apply token_without; [done|]. intros u Hu. unfold is_space.
    destruct (existsb _ _) eqn:He; [|done]. apply existsb_exists in He as (v & Hv & Huv).
    apply Z.eqb_eq in Huv as <-. cbn in Hv. lia. }
  unfold UString.trim. rewrite (trimStart_spaceless s) by done. rewrite trimStart_spaceless by (by apply Forall_rev).
  apply rev_involutive.
Qed.

Lemma form_byte_token u : base64url u = true -> form_byte u = [u].
Proof.
  intros Hu%base64url_range. unfold form_byte. rewrite (proj2 (Z.eqb_neq u 32)) by lia.
  destruct Hu as [Hu|[Hu|[Hu|[-> | ->]]]]; [| | |done|done]; unfold is_digit;
    by rewrite (proj2 (Z.leb_le _ _) (proj1 Hu)), (proj2 (Z.leb_le _ _) (proj2 Hu)), ?orb_true_r.
Qed.

Lemma form_text_token `{TextSpec} s : token_ok s -> form_text s = s.
Proof.
  intros Hs. unfold form_text. rewrite text_ascii by (apply token_without; [done|]; lia).
  induction Hs as [|u s Hu _ IH]; [done|]. cbn [flat_map]. rewrite form_byte_token, IH by done. done.
Qed.

Lemma form_bytes_token s : token_ok s -> form_bytes s = s.
Proof.
  induction 1 as [|u s Hu%base64url_range _ IH]; [done|]. cbn [form_bytes].
  by rewrite (proj2 (Z.eqb_neq u 37)), (proj2 (Z.eqb_neq u 43)), IH by lia.
Qed.

Lemma cut_none sep s : sep ∉ s -> cut sep s = (s, None).
Proof.
  induction s as [|u s IH]; intros Hn; [done|]. cbn [cut]. apply not_elem_of_cons in Hn as [Hu Hs].
  by rewrite (proj2 (Z.eqb_neq u sep)), IH by done.
Qed.

Lemma token_ok_text s : token_ok s -> text_ok s = true.
Proof.
  intros Hs. unfold text_ok. rewrite !andb_true_iff, negb_true_iff, bool_decide_eq_false. split; [split|].
  - apply forallb_forall. intros u Hu%list_elem_of_In. eapply Forall_forall in Hu; [|exact Hs].
    apply base64url_range in Hu. unfold unit_okb. rewrite andb_true_iff, Z.leb_le, Z.ltb_lt. lia.
  - induction Hs as [|u s Hu%base64url_range _ IH]; [done|]. cbn [well_paired].
    unfold lead, trail. by rewrite (proj2 (Z.leb_gt 0xd800 u)), (proj2 (Z.leb_gt 0xdc00 u)) by lia.
  - destruct Hs as [|u s Hu%base64url_range _]; [done|]. cbn. intros [= ->]. lia.
Qed.

(** What the scripts put behind the number sign, the pages read back. *)
Lemma page_token_params `{TextSpec} token : token_ok token ->
  page_token (js "#" ++ params_string [(js "token", token)]) = token.
Proof.
  intros Ht. assert (Hn : token_ok (js "token")) by (repeat constructor).
  unfold params_string. cbn [map join fst snd]. rewrite !form_text_token by done.
  unfold page_token. change (js "#" ++ ?x) with (35 :: x). cbv iota beta.
  change (js "token" ++ js "=" ++ token) with (js "token=" ++ token).
  assert (Hp : parse_params (js "token=" ++ token) = [(js "token", token)]).
  { unfold parse_params. change (js "token=" ++ token) with (116 :: js "oken=" ++ token). cbv iota beta.
    rewrite text_ascii.
    2: { change (116 :: js "oken=" ++ token) with (js "token=" ++ token). apply Forall_app.
         split; [repeat (constructor; [done|]); constructor | apply token_without; [done | lia]]. }
    change (116 :: js "oken=" ++ token) with (js "token" ++ 61 :: token).
    assert (Hc : cut 38 (js "token" ++ 61 :: token) = (js "token" ++ 61 :: token, None)).
    { apply cut_none. rewrite elem_of_app, elem_of_cons. intros [Hi|[Hi|Hi]]; [|done|].
      - cbn in Hi. set_solver.
      - eapply Forall_forall in Hi; [|exact Ht]. done. }
    cbn [pieces]. rewrite Hc. cbn [List.filter negb]. rewrite bool_decide_eq_false_2 by done. cbn [negb map].
    assert (Hq : cut 61 (js "token" ++ 61 :: token) = (js "token", Some token)) by reflexivity.
    rewrite Hq. cbn [default]. rewrite !form_bytes_token by done.
    f_equal. f_equal; [rewrite <- (text_ascii (js "token")) at 1 | rewrite <- (text_ascii token) at 1];
      first [apply text_roundtrip; by apply token_ok_text | apply token_without; [done | lia]]. }
  rewrite Hp. unfold param_get. cbn [List.find fst]. unfold ustr_eqb. rewrite bool_decide_eq_true_2 by done.
  cbn [option_map snd]. by apply trim_token.
Qed.

(** ** An invitation is delivered or withdrawn *)

Lemma location_hash_app o s : 35 ∉ o -> location_hash (o ++ 35 :: s) = 35 :: s.
Proof.
  induction o as [|u o IH]; intros Hn; [done|]. apply not_elem_of_cons in Hn as [Hu Ho].
  cbn [app location_hash]. by rewrite (proj2 (Z.eqb_neq u 35)), IH by done.
Qed.

Section delivery.

Context {S V : Type} `{RedisSpec S} (delay : event -> world S V -> N) (serve : forall e : event, V -> V * reply e).
Context `{TextSpec} `{CryptoSpec} `{NodeUrlSpec}.
Context (FRONTEND_BASE_URL : string) (ttl_setting : option string) (role : AdminRole) (argv : list string).

(** What [crypto] gives: tokens in base64url, identifiers that are not empty. *)
Context (random_tokens : forall v, token_ok (js (serve (RandomToken 32) v).2)).
Context (random_ids : forall v, (serve RandomUUID v).2 <> "").

(** The link of an invitation opens the page of the role with this token. *)
Definition links_to (input : ActivationEmailInput) (token : string) : Prop :=
  page_token (location_hash (ei_activationUrl input)) = js token.

(** A mail to the address of the identity with the fields [input]. *)
Definition mails (identity : AdminIdentity) (input : ActivationEmailInput) (options : MailOptions) : Prop :=
  text "email" identity = toLowerCase (trim (readArg argv "--email")) /\
  text "full_name" identity = trim (readArg argv "--full-name") /\
  mo_to options = js (text "email" identity) /\
  ei_fullName input = js (text "full_name" identity) /\
  mo_html options = (buildActivationEmail input (theme role)).2.

(** The token activates: whenever the handler of the role is called with it and
    the identity does not expire during the call, the CA is asked for that identity
    and its answer decides; a certificate is answered as success. *)
Definition activates (token : string) (identity : AdminIdentity) (w : world S V) : Prop :=
  forall req csr w2 t2 r2,
    run (gw_env delay serve) (handler role req {| activation_token := token; csr_pem := csr |}) w = (w2, t2, r2) ->
    now w2 <= 8640000000000000 -> expires_by identity (now w2 / 1000) = false ->
    issues role (success_message role) (failure_of role) identity csr t2 r2.

(** Neither the token nor the identity is left in the store. *)
Definition withdrawn (token : string) (identity : AdminIdentity) (w : world S V) : Prop :=
  live (store w) (now w) (activationKey role (sha256_hex token)) = None /\
  live (store w) (now w) (identityKey role (text "admin_id" identity)) = None.

Inductive provisioned (w : world S V) (t : gw_trace) : ScriptResult -> Prop :=
| prov_refused err : t = [] ->
    provisioned w t {| exitCode := 1; stdout := []; stderr := [js ("Provision failed: " +:+ err)] |}
| prov_mailed token identity input options lines :
    print_only argv = false -> mails identity input options -> links_to input token ->
    saw (SmtpSend options) (Ok tt) t -> activates token identity w ->
    provisioned w t {| exitCode := 0; stdout := lines; stderr := [] |}
| prov_withdrawn token identity input options x err :
    print_only argv = false -> mails identity input options -> links_to input token ->
    saw (SmtpSend options) (Err x) t -> withdrawn token identity w ->
    provisioned w t {| exitCode := 1; stdout := []; stderr := [js ("Provision failed: " +:+ err)] |}
| prov_printed token identity input expiresAt :
    print_only argv = true -> links_to input token -> activates token identity w ->
    (forall options r, ~ saw (SmtpSend options) r t) ->
    provisioned w t
      {| exitCode := 0; stdout := printed role true identity expiresAt (ei_activationUrl input); stderr := [] |}.

Lemma links_token token origin : 35 ∉ origin -> token_ok (js token) ->
  page_token (location_hash (origin ++ ACTIVATION_PATH role ++ js "#" ++ params_string [(js "token", js token)])) = js token.
Proof.
  intros Ho Ht. assert (Hp : 35 ∉ ACTIVATION_PATH role).
  { destruct role; cbn; rewrite !not_elem_of_cons; repeat split; try done; apply not_elem_of_nil. }
  rewrite app_assoc. change (js "#" ++ ?s) with (35 :: s). rewrite location_hash_app.
  - by apply page_token_params.
  - rewrite elem_of_app. naive_solver.
Qed.

Lemma ttl_range : 60 <= activationTtlSeconds ttl_setting <= 86400.
Proof. unfold activationTtlSeconds. case_match; [case_match|]; case_ifs; bool_to_Z; lia. Qed.

Lemma pending_activates token identity adminId email name now0 ttl e w :
  identity = new_identity adminId email name (sha256_hex token) role now0 ttl -> adminId <> "" ->
  0 <= now w -> 1000 * (now0 + ttl) <= e -> pending role token identity e w -> activates token identity w.
Proof.
  intros Hid Hne Hw He Hp req csr w2 t2 r2 Hr Hd Hexp. rewrite handler_activate in Hr.
  pose proof (run_now _ _ _ _ _ _ _ Hr).
  assert (Hx : now w2 < 1000 * (now0 + ttl)).
  { subst identity. cbn in Hexp. apply Z.leb_gt in Hexp.
    pose proof (Z.mul_succ_div_gt (now w2) 1000 ltac:(lia)). lia. }
  exact (wp_run _ _ _ _ _ _ _ _ Hr
    (activate_pending delay serve role (success_message role) (failure_of role) req
       {| activation_token := token; csr_pem := csr |} identity adminId _ _ now0 ttl e w Hid Hne Hw He Hp)
    Hd Hx).
Qed.

Lemma send_shape to input : exists options failure,
  sendActivationEmail role to input = send_mail options failure /\
  mo_to options = js to /\ mo_html options = (buildActivationEmail input (theme role)).2.
Proof. unfold sendActivationEmail, theme. destruct role; do 2 eexists; split_and!; reflexivity. Qed.

Lemma provision_runs origin w :
  url_origin (strip_slash (js FRONTEND_BASE_URL) ++ js "/") = Some origin -> 0 <= now w ->
  wp delay serve (provision FRONTEND_BASE_URL ttl_setting role argv) w (fun w' t r =>
    now w' <= 8640000000000000 - 86400000 -> exists res, r = Ok res /\ provisioned w' t res).
Proof.
  intros Ho Hw. pose proof ttl_range as Httl. pose proof (origin_no_hash _ _ Ho) as Hno.
  unfold provision, main, activationUrl. rewrite Ho. unfold createPendingAdmin, discardPendingAdminProvision, hashActivationToken.
  gw_unfold. destruct (String.eqb _ "" || String.eqb _ ""); gw_cbn.
  { apply wp_ret. intros _. eexists. split; [done|]. by apply prov_refused. }
  destruct (String.eqb _ "" || negb _); gw_cbn.
  { apply wp_ret. intros _. eexists. split; [done|]. by apply prov_refused. }
  destruct (String.eqb _ ""); gw_cbn.
  { apply wp_ret. intros _. eexists. split; [done|]. by apply prov_refused. }
  wp_step. gw_cbn. wp_step. pose proof (random_tokens (svc w)) as Htok.
  destruct (serve (RandomToken 32) (svc w)) as [v1 token]. cbn [snd] in Htok. gw_cbn.
  wp_step. pose proof (random_ids v1) as Hid. destruct (serve RandomUUID v1) as [v2 adminId]. cbn [snd] in Hid. gw_cbn.
  wp_step. gw_cbn.
  set (email := toLowerCase _). set (name := trim _). set (hash := sha256_hex token).
  set (ttl := activationTtlSeconds ttl_setting) in *. set (identity := new_identity _ _ _ _ _ _ _).
  change (activation_expires_at identity) with (t / 1000 + ttl).
  pose proof (Z.mul_div_le t 1000 ltac:(lia)) as Hdiv.
  destruct (toISOString ((t / 1000 + ttl) * 1000)) as [iso|] eqn:Hiso; gw_cbn.
  2: { apply wp_ret. cbn [now]. intros Hd. exfalso.
       destruct (toISOString_ok ((t / 1000 + ttl) * 1000)) as [s Hs]; [|congruence].
       pose proof (Z.div_pos t 1000). lia. }
  set (input := invitation_input identity iso _).
  assert (Hlink : links_to input token) by exact (links_token token origin Hno Htok).
  set (s3 := foldl _ _ _).
  assert (Hact : forall w', store w' = s3 -> t2 <= now w' -> activates token identity w').
  { intros w' Hs Hn. eapply (pending_activates token identity adminId email name (t / 1000) ttl (t2 + 1000 * ttl));
      [reflexivity | done | lia | lia |]. unfold pending. rewrite Hs. split; rewrite (live_later s3 t2) by lia;
      unfold s3; cbn [foldl apply_write].
    - unfold key. by rewrite live_set_ex, String.eqb_refl by lia.
    - rewrite live_set_ex, keys_differ' by lia. by rewrite live_set, String.eqb_refl. }
  destruct (print_only argv) eqn:Hpo; gw_cbn.
  { apply wp_ret. intros _. eexists. split; [done|]. apply (prov_printed _ _ token identity input iso Hpo Hlink); [by apply Hact|].
    intros options r Hs. repeat (apply elem_of_cons in Hs as [Hs|Hs]; [discriminate Hs|]). by apply elem_of_nil in Hs. }
  destruct (send_shape (text "email" identity) input) as (options & failure & -> & Hto & Hhtml).
  assert (Hm : mails identity input options) by (repeat split; done).
  unfold send_mail. gw_cbn. wp_step. destruct (serve (SmtpSend options) v2) as [v3 [[]|x]]; gw_cbn.
  { apply wp_ret. intros _. eexists. split; [done|]. apply (prov_mailed _ _ token identity input options _ Hpo Hm Hlink); [in_trace|].
    apply Hact; [done | cbn [now]; lia]. }
  wp_step. gw_cbn. apply wp_ret. intros _. eexists. split; [done|].
  apply (prov_withdrawn _ _ token identity input options x _ Hpo Hm Hlink); [in_trace|].
  assert (Hrole : role_of identity = role) by (apply role_of_role; by destruct role).
  unfold withdrawn. cbn [store now foldl apply_write]. rewrite Hrole.
  split; rewrite !live_del, ?String.eqb_refl, ?keys_differ, ?keys_differ'; done.
Qed.

(** C17: an invitation is delivered or withdrawn. Against a working store, however
    long each step takes, a run of either script ends in one of four ways: it
    refused its arguments and touched nothing; it sent the mail to the given
    address, whose link the activation page reads as a token that the handler of
    that role does not refuse: called next with it, while the identity does not
    expire, it asks the CA for exactly this identity, and answers success when the
    CA issues; the mail could not be sent, and neither the token nor the identity
    is in the store any more; or it was told to print, sent nothing, and printed
    such a link. (The configured base address is a URL, the random tokens are in
    base64url, the identifiers are not empty, and the clock is a day away from the
    last date that can be printed.) *)
Theorem invitation_delivered origin w w' t r :
  url_origin (strip_slash (js FRONTEND_BASE_URL) ++ js "/") = Some origin -> 0 <= now w ->
  run (gw_env delay serve) (provision FRONTEND_BASE_URL ttl_setting role argv) w = (w', t, r) ->
  now w' <= 8640000000000000 - 86400000 ->
  exists res, r = Ok res /\ provisioned w' t res.
Proof. intros Ho Hw Hr. exact (wp_run _ _ _ _ _ _ _ _ Hr (provision_runs origin w Ho Hw)). Qed.

End delivery.

(** ** A concrete invitation *)

Definition toy_node_url : NodeUrl :=
  {| url_origin base := Some (filter (fun u => u <> 35) (strip_slash base)) |}.

Lemma toy_node_url_spec : NodeUrlSpec (H := toy_node_url).
Proof. split. intros base o [= <-]. rewrite list_elem_of_filter. naive_solver. Qed.

Definition demo_argv : list string := ["node"; "provision.ts"; "--email"; "Ann@B.c"; "--full-name"; "Ann"].

Definition demo_invitation :=
  run (gw_env (S := map_store) (fun _ _ => 1%N) demo_services)
    (provision (H := web_platform) (H0 := toy_crypto) (H1 := toy_node_url) "http://localhost:5173" None CA_ADMIN
       demo_argv)
    (World ∅ 1000 {| bank_users := []; next_serial := 0; revoked := [] |}).

Lemma invitation_delivered_witness :
  exists res, demo_invitation.2 = Ok res /\
    provisioned (H := map_redis) (H1 := web_platform) (H3 := toy_crypto) (fun _ _ => 1%N) demo_services CA_ADMIN demo_argv
      demo_invitation.1.1 demo_invitation.1.2 res.
Proof.
  apply (invitation_delivered (H0 := map_redis_spec) (H2 := web_platform_spec) (H3 := toy_crypto)
           (H6 := toy_node_url_spec) (fun _ _ => 1%N) demo_services "http://localhost:5173" None CA_ADMIN demo_argv)
    with (origin := js "http://localhost:5173") (w := World ∅ 1000 {| bank_users := []; next_serial := 0; revoked := [] |}).
  - intros v. repeat constructor.
  - discriminate.
  - vm_compute. reflexivity.
  - vm_compute. discriminate.
  - exact (triple_eta demo_invitation).
  - vm_compute. discriminate.
Defined.

Example demo_invitation_mailed :
  match demo_invitation.2 with Ok res => exitCode res | Err _ => -1 end = 0.
Proof. vm_compute. reflexivity. Qed.
