(* ===== verification/Keypad.v ===== *)
(** * The keypad of the PIN

    The pages that ask for a PIN have the same twelve keys: the digits and one
    that deletes the last digit. *)

From S2P Require Import Prelude UString.

Open Scope Z_scope.

Inductive key := Digit (d : Z) | Del.

(** The keys that are offered. *)
Definition offered_key (k : key) : bool :=
  match k with Digit d => (0 <=? d) && (d <=? 9) | Del => true end.

Definition all_digits (s : ustr) : bool := forallb is_digit s.

(** [s.slice(0, -1)]. *)
Definition drop_last (s : ustr) : ustr := removelast s.

Definition key_text (d : Z) : ustr := [48 + d].

(** A PIN that is being entered, and one that is complete. *)
Definition pin_part (s : ustr) : Prop := all_digits s = true /\ (length s <= 6)%nat.
Definition pin_whole (s : ustr) : Prop := all_digits s = true /\ length s = 6%nat.

(** [setPin(current => current.slice(0, -1))], or the digit at the end and
    whether the PIN is complete now; a full PIN takes no more. *)
Definition press (pin : ustr) (k : key) : ustr * bool :=
  match k with
  | Del => (drop_last pin, false)
  | Digit d =>
      if (6 <=? length pin)%nat then (pin, false)
      else let next := pin ++ key_text d in (next, (length next =? 6)%nat)
  end.

Lemma all_digits_app a b : all_digits (a ++ b) = all_digits a && all_digits b.
Proof. apply forallb_app. Qed.

Lemma all_digits_last s : all_digits s = true -> all_digits (drop_last s) = true.
Proof.
  unfold drop_last. induction s as [|u [|v s] IH]; [done | done|]. cbn [all_digits forallb removelast].
  intros Hd. apply andb_true_iff in Hd as [Hu Hs]. apply andb_true_iff. split; [done|]. by apply IH.
Qed.

Lemma length_drop_last s : (length (drop_last s) <= length s)%nat.
Proof. unfold drop_last. induction s as [|u [|v s] IH]; cbn in *; lia. Qed.

Lemma digit_text d : 0 <= d <= 9 -> all_digits (key_text d) = true.
Proof. intros Hd. cbn. unfold is_digit. rewrite (proj2 (Z.leb_le _ _)), (proj2 (Z.leb_le _ _)) by lia. done. Qed.

Lemma press_part pin k : offered_key k = true -> pin_part pin -> pin_part (press pin k).1.
Proof.
  intros Hk [Hd Hl]. destruct k as [d|]; unfold press.
  - apply andb_true_iff in Hk as [H1 H2]. bool_to_Z.
    destruct (Nat.leb_spec 6 (length pin)); cbn [fst]; [by split|]. split.
    + rewrite all_digits_app, Hd. apply digit_text. lia.
    + rewrite length_app. cbn [length key_text]. lia.
  - cbn [fst]. pose proof (length_drop_last pin). split; [by apply all_digits_last | lia].
Qed.

Lemma press_whole pin k : offered_key k = true -> pin_part pin -> (press pin k).2 = true -> pin_whole (press pin k).1.
Proof.
  intros Hk Hp Hw. split; [by apply press_part|]. destruct k as [d|]; [|done]. unfold press in *.
  destruct (6 <=? length pin)%nat; [done|]. cbn [fst snd] in *. by apply Nat.eqb_eq.
Qed.

Lemma pin_part_nil : pin_part [].
Proof. split; [done | cbn; lia]. Qed.
