(* ===== verification/PageRun.v ===== *)
(** * Runs of a page

    A page of the frontend is a state machine: [react] says what one input, of
    the user or of a reply, does to the state and which calls it makes, or that
    the page does not offer it. A run is the list of the steps that were taken,
    the latest first. *)

From S2P Require Import Prelude.

Record step_taken (P I C : Type) := { before : P; by_input : I; calls : list C }.

Arguments before {P I C} s.
Arguments by_input {P I C} s.
Arguments calls {P I C} s.

Section runs.

Context {P I C : Type} (react : P -> I -> option (P * list C)).

Inductive reaches (start : P) : list (step_taken P I C) -> P -> Prop :=
| reach_start : reaches start [] start
| reach_step t p i p' cs :
    reaches start t p -> react p i = Some (p', cs) ->
    reaches start ({| before := p; by_input := i; calls := cs |} :: t) p'.

(** An invariant of the runs. *)
Lemma reaches_invariant (good : list (step_taken P I C) -> P -> Prop) start :
  good [] start ->
  (forall t p i p' cs, good t p -> react p i = Some (p', cs) ->
     good ({| before := p; by_input := i; calls := cs |} :: t) p') ->
  forall t p, reaches start t p -> good t p.
Proof. intros H0 Hs. induction 1; eauto. Qed.

(** Every step of a run was one of the page. *)
Lemma reaches_step start t p s : reaches start t p -> s ∈ t -> exists p', react (before s) (by_input s) = Some (p', calls s).
Proof.
  induction 1 as [|t p i p' cs Hp IH Hr]; [by intros Hs; apply elem_of_nil in Hs|].
  intros Hs. apply elem_of_cons in Hs as [->|Hs]; [by exists p' | by apply IH].
Qed.

(** A call was made. *)
Definition made (c : C) (t : list (step_taken P I C)) : Prop := exists s, s ∈ t /\ c ∈ calls s.

(** The calls of a run, in their order. *)
Definition all_calls (t : list (step_taken P I C)) : list C := flat_map calls (rev t).

(** The run of a list of inputs. *)
Fixpoint run_inputs (inputs : list I) (t : list (step_taken P I C)) (p : P) : option (list (step_taken P I C) * P) :=
  match inputs with
  | [] => Some (t, p)
  | i :: rest =>
      match react p i with
      | Some (p', cs) => run_inputs rest ({| before := p; by_input := i; calls := cs |} :: t) p'
      | None => None
      end
  end.

Lemma run_inputs_reaches start inputs t p t' p' :
  reaches start t p -> run_inputs inputs t p = Some (t', p') -> reaches start t' p'.
Proof.
  revert t p. induction inputs as [|i rest IH]; intros t p Hp; cbn [run_inputs]; [by intros [= <- <-]|].
  destruct (react p i) as [[p1 cs]|] eqn:Hr; [|done]. apply IH. by eapply reach_step.
Qed.

Lemma made_cons c s t : made c t -> made c (s :: t).
Proof. intros (s' & Hs & Hc). exists s'. split; [by apply list_elem_of_further | done]. Qed.
End runs.

(** The page restricted to the inputs that satisfy a discipline. *)
Definition disciplined {P I C} (allowed : P -> I -> bool) (react : P -> I -> option (P * list C)) (p : P) (i : I) :
    option (P * list C) :=
  if allowed p i then react p i else None.

Lemma disciplined_some {P I C} (allowed : P -> I -> bool) (react : P -> I -> option (P * list C)) p i r :
  disciplined allowed react p i = Some r -> allowed p i = true /\ react p i = Some r.
Proof. unfold disciplined. by destruct (allowed p i). Qed.

Lemma is_Some_disciplined {P I C} (allowed : P -> I -> bool) (react : P -> I -> option (P * list C)) p i :
  is_Some (disciplined allowed react p i) <-> allowed p i = true /\ is_Some (react p i).
Proof. unfold disciplined. destruct (allowed p i); split; try done; [by intros [? ?] | by intros [? ?]]. Qed.

(** ** What is awaited

    Tasks in flight with numbers of their own, in the order in which they were
    started. *)

Section tasks.

Context {T : Type}.

Implicit Types (l : list (nat * T)) (k n : nat) (t : T).

(** The task with a number, and the rest. *)
Definition take_numbered k l : option (T * list (nat * T)) :=
  match List.find (fun x => (x.1 =? k)%nat) l with
  | Some (_, t) => Some (t, filter (fun x => x.1 <> k) l)
  | None => None
  end.

(** All numbers differ and are less than the next one. *)
Definition numbered n l : Prop := NoDup l.*1 /\ (forall k t, (k, t) ∈ l -> (k < n)%nat).

(** The numbers of the tasks of a kind. *)
Definition of_kind (f : T -> bool) l : list nat := omap (fun x => if f x.2 then Some x.1 else None) l.

Lemma take_numbered_some k l t l' : take_numbered k l = Some (t, l') ->
  (k, t) ∈ l /\ l' = filter (fun x => x.1 <> k) l.
Proof.
  unfold take_numbered. destruct (List.find _ _) as [[k0 t0]|] eqn:Hf; [|done]. intros [= <- <-].
  apply find_some in Hf as [Hin Hk]. cbn in Hk. apply Nat.eqb_eq in Hk as ->. split; [by apply list_elem_of_In | done].
Qed.

Lemma numbered_nil n : numbered n [].
Proof. split; [apply NoDup_nil_2 | intros k t Hk; by apply elem_of_nil in Hk]. Qed.

Lemma numbered_le n n' l : (n <= n')%nat -> numbered n l -> numbered n' l.
Proof. intros Hn [H1 H2]. split; [done|]. intros k t Hk. apply H2 in Hk. lia. Qed.

Lemma numbered_add n l t : numbered n l -> numbered (S n) (l ++ [(n, t)]).
Proof.
  intros [Hn Hl]. split.
  - rewrite fmap_app. apply NoDup_app. split_and!; [done | | apply NoDup_singleton].
    intros k Hk Hk'. apply list_elem_of_singleton in Hk'. cbn in Hk'. subst k.
    apply list_elem_of_fmap in Hk as ([k' t'] & Heq & Hk'). cbn in Heq. apply Hl in Hk'. lia.
  - intros k t' Hk. apply elem_of_app in Hk as [Hk|Hk]; [by apply Hl in Hk; lia|].
    apply list_elem_of_singleton in Hk. injection Hk as -> _. lia.
Qed.

Lemma numbered_rest n k l : numbered n l -> numbered n (filter (fun x => x.1 <> k) l).
Proof.
  intros [Hn Hl]. split.
  - eapply sublist_NoDup; [exact Hn|]. apply fmap_sublist. apply sublist_filter.
  - intros k' t Hk. apply list_elem_of_filter in Hk as [_ Hk]. by apply Hl in Hk.
Qed.

Lemma numbered_unique n k t t' l : numbered n l -> (k, t) ∈ l -> (k, t') ∈ l -> t' = t.
Proof.
  intros [Hn _]. induction l as [|[k0 t0] l IH]; intros H H'; [by apply elem_of_nil in H|].
  apply NoDup_cons in Hn as [Hk0 Hn]. apply elem_of_cons in H as [H|H], H' as [H'|H'].
  - congruence.
  - injection H as -> ->. destruct Hk0. by apply (list_elem_of_fmap_2 fst _ (_, t')).
  - injection H' as -> ->. destruct Hk0. by apply (list_elem_of_fmap_2 fst _ (_, t)).
  - by apply IH.
Qed.

Lemma take_numbered_is n k t l : numbered n l -> (k, t) ∈ l ->
  take_numbered k l = Some (t, filter (fun x => x.1 <> k) l).
Proof.
  intros Hn Hk. unfold take_numbered. destruct (List.find _ _) as [[k0 t0]|] eqn:Hf.
  - apply find_some in Hf as [Hin Hk0]. cbn in Hk0. apply Nat.eqb_eq in Hk0 as ->. apply list_elem_of_In in Hin.
    by rewrite (numbered_unique _ _ _ _ _ Hn Hk Hin).
  - apply list_elem_of_In in Hk. pose proof (find_none _ _ Hf _ Hk) as Hne. cbn in Hne. by rewrite Nat.eqb_refl in Hne.
Qed.

Lemma of_kind_app f l l' : of_kind f (l ++ l') = of_kind f l ++ of_kind f l'.
Proof. apply omap_app. Qed.

Lemma of_kind_add f l n t : of_kind f (l ++ [(n, t)]) = of_kind f l ++ (if f t then [n] else []).
Proof. rewrite of_kind_app. cbn. by destruct (f t). Qed.

Lemma of_kind_elem f l k t : (k, t) ∈ l -> f t = true -> k ∈ of_kind f l.
Proof. intros Hk Hf. apply list_elem_of_omap. exists (k, t). cbn. by rewrite Hf. Qed.

Lemma filter_other (l : list nat) k : k ∉ l -> filter (fun m => m <> k) l = l.
Proof.
  induction l as [|m l IH]; [done|]. intros Hk. apply not_elem_of_cons in Hk as [Hm Hk].
  rewrite filter_cons_True by congruence. by rewrite IH.
Qed.

(** Taking a task removes its number, and nothing from the other kinds. *)
Lemma of_kind_rest f l k : of_kind f (filter (fun x => x.1 <> k) l) = filter (fun m => m <> k) (of_kind f l).
Proof.
  induction l as [|[k0 t0] l IH]; [done|]. destruct (decide (k0 = k)) as [->|Hne].
  - rewrite filter_cons_False by (cbn; auto). rewrite IH. cbn. destruct (f t0); [|done].
    by rewrite filter_cons_False by auto.
  - rewrite filter_cons_True by done. cbn. destruct (f t0); [|exact IH].
    rewrite filter_cons_True by done. f_equal. exact IH.
Qed.

Lemma of_kind_rest_other f l n k t : numbered n l -> (k, t) ∈ l -> f t = false ->
  of_kind f (filter (fun x => x.1 <> k) l) = of_kind f l.
Proof.
  intros Hn Hk Hf. rewrite of_kind_rest. apply filter_other. intros Hm.
  apply list_elem_of_omap in Hm as ([k' t'] & Hin & He). cbn in He. destruct (f t') eqn:Hf'; [|done].
  injection He as ->. rewrite (numbered_unique _ _ _ _ _ Hn Hk Hin) in Hf'. congruence.
Qed.
End tasks.

#[export] Hint Resolve numbered_nil numbered_add numbered_rest : tasks.
