(* ===== verification/RegisterPage.v ===== *)
(** * The registration page ([pages/Register.tsx])

    The page is a state machine: four steps, each a component with its own state
    that is lost when the step changes, and the calls and timers in flight, which
    keep the values that were current when they began. [react] is one input: what
    the user does, a reply or a timer. [register_page_sound] is what holds when
    the page enrols; [register_back_race] a run in which the address of the
    enrolment is not the verified one. *)

From S2P Require Import Prelude Effects UString UJson X509 WebCrypto Sessions Browser Enrollment UserError Keypad PageRun.

Open Scope Z_scope.

(** ** The state *)

(** [StepEmail], [StepOTP], [StepUsername] and [StepPIN]. *)
Record EmailState := { es_email : ustr; es_loading : bool; es_error : ustr }.

Record OtpState := { os_digits : list ustr; os_error : ustr; os_verifying : bool; os_countdown : Z }.

Record NameState := { ns_fullName : ustr; ns_error : ustr }.

Inductive SubStep := set_pin | confirm_pin.

Record PinState := {
  ps_subStep : SubStep; ps_pin : ustr; ps_saved : ustr; ps_error : bool;
  ps_submitting : bool; ps_apiError : ustr; ps_success : bool
}.

Inductive screen :=
| StepEmail (s : EmailState)
| StepOTP (s : OtpState)
| StepUsername (s : NameState)
| StepPIN (s : PinState).

(** A call in flight or a timer, with the mounted component it belongs to and the
    values it closed over. *)
Inductive task :=
| TOtp (mount : nat) (email : ustr)
| TVerify (mount : nat) (email code : ustr)
| TResend (mount : nat)
| TEnroll (mount : nat)
| TSaved (mount : nat) (next : ustr)
| TMismatch (mount : nat)
| TDone.

(** The page; [mounted] numbers the components that were mounted. *)
Record page := {
  shown : screen; mounted : nat; email : ustr; regToken : ustr; fullName : ustr; operationId : ustr;
  pending : list task; left_page : bool
}.

(** Calls of the services and of the router. *)
Inductive call :=
| RequestOtp (email operationId : ustr)
| VerifyOtp (email code operationId : ustr)
| Enroll (params : EnrollAndRegisterParams)
| Navigate (path : string).

Inductive input :=
| TypeEmail (v : ustr)
| SubmitEmail
| TypeDigit (idx : nat) (v : ustr)
| PasteDigits (text : ustr)
| Resend
| Tick
| Back
| TypeName (v : ustr)
| SubmitName
| PressKey (k : key)
| ResetPin
| Restart (fresh : ustr)
| Settle (k : nat) (reply : result js_exception ustr).

(** ** Helpers of the page *)

(** [val.slice(-1)]. *)
Definition last_unit (s : ustr) : ustr := match rev s with [] => [] | u :: _ => [u] end.

Definition no_digits : list ustr := replicate 6 [].

(** [text.split(empty)] over six empty places. *)
Definition spread (text : ustr) : list ustr := map (fun u => [u]) text ++ drop (length text) no_digits.

(** [v.trim().split(blank).length]. *)
Definition parts (s : ustr) : nat := S (length (filter (fun u => u = 32) s)).

(** The words that are not empty. *)
Fixpoint words (in_word : bool) (s : ustr) : nat :=
  match s with
  | [] => 0
  | u :: s' => if u =? 32 then words false s' else (if in_word then 0 else 1) + words true s'
  end.

(** [validate]: [None] when the name is accepted. *)
Definition validate (v : ustr) : option ustr :=
  if (length (trim v) <? 2)%nat then Some (u8 "Họ và tên phải có ít nhất 2 ký tự")
  else if (parts (trim v) <? 2)%nat then Some (u8 "Vui lòng nhập đầy đủ họ và tên")
  else None.

(** ** Mounting *)

Definition new_email : EmailState := {| es_email := []; es_loading := false; es_error := [] |}.

Definition new_otp : OtpState :=
  {| os_digits := no_digits; os_error := []; os_verifying := false; os_countdown := 300 |}.

Definition new_name : NameState := {| ns_fullName := []; ns_error := [] |}.

Definition new_pin : PinState :=
  {| ps_subStep := set_pin; ps_pin := []; ps_saved := []; ps_error := false; ps_submitting := false;
     ps_apiError := []; ps_success := false |}.

Definition step_number (s : screen) : nat :=
  match s with StepEmail _ => 1 | StepOTP _ => 2 | StepUsername _ => 3 | StepPIN _ => 4 end.

Definition new_step (n : nat) : screen :=
  match n with
  | 1%nat => StepEmail new_email
  | 2%nat => StepOTP new_otp
  | 3%nat => StepUsername new_name
  | _ => StepPIN new_pin
  end.

Definition set_shown (s : screen) (p : page) : page :=
  {| shown := s; mounted := mounted p; email := email p; regToken := regToken p; fullName := fullName p;
     operationId := operationId p; pending := pending p; left_page := left_page p |}.

(** [setStep(n)]: another step is mounted anew, the same step stays. *)
Definition setStep (n : nat) (p : page) : page :=
  if (step_number (shown p) =? n)%nat then p
  else {| shown := new_step n; mounted := S (mounted p); email := email p; regToken := regToken p;
          fullName := fullName p; operationId := operationId p; pending := pending p; left_page := left_page p |}.

Definition set_email (v : ustr) (p : page) : page :=
  {| shown := shown p; mounted := mounted p; email := v; regToken := regToken p; fullName := fullName p;
     operationId := operationId p; pending := pending p; left_page := left_page p |}.

Definition set_regToken (v : ustr) (p : page) : page :=
  {| shown := shown p; mounted := mounted p; email := email p; regToken := v; fullName := fullName p;
     operationId := operationId p; pending := pending p; left_page := left_page p |}.

Definition set_fullName (v : ustr) (p : page) : page :=
  {| shown := shown p; mounted := mounted p; email := email p; regToken := regToken p; fullName := v;
     operationId := operationId p; pending := pending p; left_page := left_page p |}.

Definition set_operationId (v : ustr) (p : page) : page :=
  {| shown := shown p; mounted := mounted p; email := email p; regToken := regToken p; fullName := fullName p;
     operationId := v; pending := pending p; left_page := left_page p |}.

Definition set_pending (l : list task) (p : page) : page :=
  {| shown := shown p; mounted := mounted p; email := email p; regToken := regToken p; fullName := fullName p;
     operationId := operationId p; pending := l; left_page := left_page p |}.

Definition add_task (t : task) (p : page) : page := set_pending (pending p ++ [t]) p.

Definition leave (p : page) : page :=
  {| shown := shown p; mounted := mounted p; email := email p; regToken := regToken p; fullName := fullName p;
     operationId := operationId p; pending := pending p; left_page := true |}.

Section page.

Context (toUpperCase : ustr -> ustr) (thrown_message : js_exception -> ustr).

Definition errMessage (e : js_exception) : ustr :=
  getUserErrorMessage toUpperCase thrown_message (Some e) (u8 "Có lỗi xảy ra, vui lòng thử lại").

(** ** Step 1 *)

Definition at_sign (s : ustr) : bool := existsb (Z.eqb 64) s.

Definition submit_email (s : EmailState) (p : page) : option (page * list call) :=
  if negb (at_sign (es_email s)) || es_loading s then None
  else Some (add_task (TOtp (mounted p) (es_email s))
               (set_shown (StepEmail {| es_email := es_email s; es_loading := true; es_error := [] |}) p),
             [RequestOtp (es_email s) (operationId p)]).

(** ** Step 2 *)

Definition verify (s : OtpState) (code : ustr) (p : page) : page * list call :=
  (add_task (TVerify (mounted p) (email p) code)
     (set_shown (StepOTP {| os_digits := os_digits s; os_error := []; os_verifying := true;
                            os_countdown := os_countdown s |}) p),
   [VerifyOtp (email p) code (operationId p)]).

Definition with_digits (next : list ustr) (error : ustr) (s : OtpState) : OtpState :=
  {| os_digits := next; os_error := error; os_verifying := os_verifying s; os_countdown := os_countdown s |}.

Definition handleInput (s : OtpState) (idx : nat) (val : ustr) (p : page) : page * list call :=
  if negb (all_digits val) || os_verifying s then (p, [])
  else
    let next := <[idx := last_unit val]> (os_digits s) in
    let s' := with_digits next [] s in
    let p' := set_shown (StepOTP s') p in
    if (idx =? 5)%nat && negb (bool_decide (val = [])) then
      let code := mjoin next in
      if (length code =? 6)%nat then verify s' code p' else (p', [])
    else (p', []).

Definition handlePaste (s : OtpState) (clipboard : ustr) (p : page) : page * list call :=
  let text := take 6 (filter (fun u => is_digit u = true) clipboard) in
  if bool_decide (text = []) then (p, [])
  else
    let s' := with_digits (spread text) (os_error s) s in
    let p' := set_shown (StepOTP s') p in
    if (length text =? 6)%nat then verify s' text p' else (p', []).

Definition resend (s : OtpState) (p : page) : option (page * list call) :=
  if os_countdown s =? 0 then
    Some (add_task (TResend (mounted p)) (set_shown (StepOTP (with_digits (os_digits s) [] s)) p),
          [RequestOtp (email p) (operationId p)])
  else None.

(** ** Step 3 *)

Definition submit_name (s : NameState) (p : page) : option (page * list call) :=
  if (words false (trim (ns_fullName s)) <? 2)%nat then None
  else match validate (ns_fullName s) with
       | Some err => Some (set_shown (StepUsername {| ns_fullName := ns_fullName s; ns_error := err |}) p, [])
       | None => Some (setStep 4 (set_fullName (trim (ns_fullName s)) p), [])
       end.

(** ** Step 4 *)

Definition with_pin (pin : ustr) (error : bool) (s : PinState) : PinState :=
  {| ps_subStep := ps_subStep s; ps_pin := pin; ps_saved := ps_saved s; ps_error := error;
     ps_submitting := ps_submitting s; ps_apiError := ps_apiError s; ps_success := ps_success s |}.

Definition enrolment (pin : ustr) (p : page) : EnrollAndRegisterParams :=
  {| er_fullName := fullName p; er_email := email p; er_pin := pin; er_regToken := regToken p;
     er_operationId := Some (operationId p) |}.

Definition finish (s : PinState) (pin : ustr) (p : page) : page * list call :=
  (add_task (TEnroll (mounted p))
     (set_shown (StepPIN {| ps_subStep := ps_subStep s; ps_pin := ps_pin s; ps_saved := ps_saved s;
                            ps_error := ps_error s; ps_submitting := true; ps_apiError := [];
                            ps_success := ps_success s |}) p),
   [Enroll (enrolment pin p)]).

Definition handleKey (s : PinState) (k : key) (p : page) : page * list call :=
  if ps_submitting s then (p, [])
  else
    match k with
    | Del => (set_shown (StepPIN (with_pin (drop_last (ps_pin s)) false s)) p, [])
    | Digit d =>
        if (6 <=? length (ps_pin s))%nat then (p, [])
        else
          let next := ps_pin s ++ key_text d in
          let s' := with_pin next (ps_error s) s in
          let p' := set_shown (StepPIN s') p in
          if (length next =? 6)%nat then
            match ps_subStep s with
            | set_pin => (add_task (TSaved (mounted p) next) p', [])
            | confirm_pin =>
                if ustr_eqb next (ps_saved s) then finish s' next p'
                else (add_task (TMismatch (mounted p)) (set_shown (StepPIN (with_pin next true s)) p), [])
            end
          else (p', [])
    end.

(** The keypad is on the screen. *)
Definition keypad (s : PinState) : bool :=
  negb (ps_success s) && bool_decide (ps_apiError s = []) && negb (ps_submitting s).

Definition restarted (fresh : ustr) (p : page) : page :=
  setStep 1 (set_fullName [] (set_regToken [] (set_operationId fresh p))).

(** ** Replies and timers *)

(** The state of the component that began the task, if it is still mounted. *)
Definition local (m : nat) (f : screen -> screen) (p : page) : page :=
  if (mounted p =? m)%nat then set_shown (f (shown p)) p else p.

Definition on_email (f : EmailState -> EmailState) (s : screen) : screen :=
  match s with StepEmail s => StepEmail (f s) | s => s end.
Definition on_otp (f : OtpState -> OtpState) (s : screen) : screen :=
  match s with StepOTP s => StepOTP (f s) | s => s end.
Definition on_pin (f : PinState -> PinState) (s : screen) : screen :=
  match s with StepPIN s => StepPIN (f s) | s => s end.

Definition otp_sent (r : result js_exception ustr) (s : EmailState) : EmailState :=
  {| es_email := es_email s; es_loading := false;
     es_error := match r with Ok _ => es_error s | Err e => errMessage e end |}.

Definition otp_checked (r : result js_exception ustr) (s : OtpState) : OtpState :=
  match r with
  | Ok _ => {| os_digits := os_digits s; os_error := os_error s; os_verifying := false; os_countdown := os_countdown s |}
  | Err e => {| os_digits := no_digits; os_error := errMessage e; os_verifying := false;
                os_countdown := os_countdown s |}
  end.

Definition otp_resent (r : result js_exception ustr) (s : OtpState) : OtpState :=
  match r with
  | Ok _ => {| os_digits := no_digits; os_error := os_error s; os_verifying := os_verifying s; os_countdown := 300 |}
  | Err e => with_digits (os_digits s) (errMessage e) s
  end.

Definition enrolled (r : result js_exception ustr) (s : PinState) : PinState :=
  {| ps_subStep := ps_subStep s; ps_pin := ps_pin s; ps_saved := ps_saved s; ps_error := ps_error s;
     ps_submitting := false; ps_apiError := match r with Ok _ => ps_apiError s | Err e => errMessage e end;
     ps_success := match r with Ok _ => true | Err _ => ps_success s end |}.

Definition saved_pin (next : ustr) (s : PinState) : PinState :=
  {| ps_subStep := confirm_pin; ps_pin := []; ps_saved := next; ps_error := ps_error s;
     ps_submitting := ps_submitting s; ps_apiError := ps_apiError s; ps_success := ps_success s |}.

Definition forget_pin (s : PinState) : PinState :=
  {| ps_subStep := set_pin; ps_pin := []; ps_saved := []; ps_error := false;
     ps_submitting := ps_submitting s; ps_apiError := ps_apiError s; ps_success := ps_success s |}.

(** [onNext] belongs to the page and runs even when its step is gone. *)
Definition settle (t : task) (r : result js_exception ustr) (p : page) : page * list call :=
  match t with
  | TOtp m e =>
      let p' := match r with Ok _ => setStep 2 (set_email e p) | Err _ => p end in
      (local m (on_email (otp_sent r)) p', [])
  | TVerify m _ _ =>
      let p' := match r with Ok token => setStep 3 (set_regToken token p) | Err _ => p end in
      (local m (on_otp (otp_checked r)) p', [])
  | TResend m => (local m (on_otp (otp_resent r)) p, [])
  | TEnroll m =>
      let p' := match r with Ok _ => add_task TDone p | Err _ => p end in
      (local m (on_pin (enrolled r)) p', [])
  | TSaved m next => (local m (on_pin (saved_pin next)) p, [])
  | TMismatch m => (local m (on_pin forget_pin) p, [])
  | TDone => (leave p, [Navigate "/login"])
  end.

(** One input; [None] when the page does not offer it. *)
Definition react (p : page) (i : input) : option (page * list call) :=
  if left_page p then None
  else
    match i, shown p with
    | Settle k r, _ =>
        match pending p !! k with
        | Some t => Some (settle t r (set_pending (delete k (pending p)) p))
        | None => None
        end
    | TypeEmail v, StepEmail s =>
        Some (set_shown (StepEmail {| es_email := v; es_loading := es_loading s; es_error := [] |}) p, [])
    | SubmitEmail, StepEmail s => submit_email s p
    | TypeDigit idx v, StepOTP s => if (idx <? 6)%nat then Some (handleInput s idx v p) else None
    | PasteDigits text, StepOTP s => Some (handlePaste s text p)
    | Resend, StepOTP s => resend s p
    | Tick, StepOTP s =>
        Some (set_shown (StepOTP {| os_digits := os_digits s; os_error := os_error s;
                os_verifying := os_verifying s; os_countdown := if 0 <? os_countdown s then os_countdown s - 1 else 0 |}) p, [])
    | Back, StepOTP _ => Some (setStep 1 p, [])
    | Back, StepUsername _ => Some (setStep 2 p, [])
    | TypeName v, StepUsername _ => Some (set_shown (StepUsername {| ns_fullName := v; ns_error := [] |}) p, [])
    | SubmitName, StepUsername s => submit_name s p
    | PressKey (Digit d), StepPIN s => if keypad s && (0 <=? d) && (d <=? 9) then Some (handleKey s (Digit d) p) else None
    | PressKey Del, StepPIN s => if keypad s then Some (handleKey s Del p) else None
    | ResetPin, StepPIN s =>
        match ps_subStep s with
        | confirm_pin => if keypad s then
            Some (set_shown (StepPIN {| ps_subStep := set_pin; ps_pin := []; ps_saved := []; ps_error := ps_error s;
                    ps_submitting := ps_submitting s; ps_apiError := ps_apiError s; ps_success := ps_success s |}) p, [])
            else None
        | set_pin => None
        end
    | Restart fresh, StepPIN s =>
        if negb (ps_success s) && negb (bool_decide (ps_apiError s = [])) then Some (restarted fresh p, []) else None
    | _, _ => None
    end.

Definition opened (operationId0 : ustr) : page :=
  {| shown := StepEmail new_email; mounted := 0; email := []; regToken := []; fullName := [];
     operationId := operationId0; pending := []; left_page := false |}.

(** ** What a run has done *)

#[local] Notation run := (list (step_taken page input call)).

(** The call of a task was answered with [v]. *)
Definition answered (k : task) (v : ustr) (t : run) : Prop :=
  exists s n, s ∈ t /\ by_input s = Settle n (Ok v) /\ pending (before s) !! n = Some k.

(** A code was sent to the address. *)
Definition code_sent (t : run) (address : ustr) : Prop :=
  exists m v, answered (TOtp m address) v t.

(** The token came in the reply to the verification of a code. *)
Definition verified_for (t : run) (address token : ustr) : Prop :=
  exists m code op, answered (TVerify m address code) token t /\ made (VerifyOtp address code op) t.

(** Six digits were entered as the PIN to be set. *)
Definition chosen (t : run) (pin : ustr) : Prop :=
  exists s q d, s ∈ t /\ shown (before s) = StepPIN q /\ ps_subStep q = set_pin /\
    by_input s = PressKey (Digit d) /\ ps_pin q ++ key_text d = pin /\ length pin = 6%nat /\ all_digits pin = true.

Definition valid_name (name : ustr) : Prop := exists v, name = trim v /\ validate v = None.

Lemma answered_cons k v s t : answered k v t -> answered k v (s :: t).
Proof. intros (s' & n & Hs & Hr). exists s', n. split; [by right | done]. Qed.

Lemma code_sent_cons s t a : code_sent t a -> code_sent (s :: t) a.
Proof. intros (m & v & Ha). exists m, v. by apply answered_cons. Qed.

Lemma verified_for_cons s t a tok : verified_for t a tok -> verified_for (s :: t) a tok.
Proof. intros (m & c & op & Ha & Hm). exists m, c, op. split; [by apply answered_cons | by apply made_cons]. Qed.

Lemma chosen_cons s t pin : chosen t pin -> chosen (s :: t) pin.
Proof. intros (s' & q & d & Hs & Hr). exists s', q, d. split; [by right | done]. Qed.

(** ** The invariant *)

Definition screen_ok (t : run) (s : screen) : Prop :=
  match s with
  | StepPIN q => all_digits (ps_pin q) = true /\ (length (ps_pin q) <= 6)%nat /\ (ps_saved q = [] \/ chosen t (ps_saved q))
  | _ => True
  end.

Definition task_ok (t : run) (k : task) : Prop :=
  match k with
  | TVerify _ e c => exists op, made (VerifyOtp e c op) t
  | TSaved _ next => chosen t next
  | _ => True
  end.

Definition verifies (k : task) : Prop := match k with TVerify _ _ _ => True | _ => False end.

Record good (t : run) (p : page) : Prop := Good {
  good_screen : screen_ok t (shown p);
  good_tasks : Forall (task_ok t) (pending p);
  good_email : (2 <= step_number (shown p))%nat \/ Exists verifies (pending p) -> code_sent t (email p);
  good_token : (3 <= step_number (shown p))%nat -> exists a, verified_for t a (regToken p);
  good_name : (4 <= step_number (shown p))%nat -> valid_name (fullName p)
}.

Lemma screen_ok_cons s t x : screen_ok t x -> screen_ok (s :: t) x.
Proof. destruct x; cbn; [done..|]. intros (? & ? & [?|?]); split_and!; auto using chosen_cons. Qed.

Lemma task_ok_cons s t k : task_ok t k -> task_ok (s :: t) k.
Proof. destruct k; cbn; try done; [|apply chosen_cons]. intros [op Ho]. exists op. by apply made_cons. Qed.

Lemma good_cons s t p : good t p -> good (s :: t) p.
Proof.
  intros [H1 H2 H3 H4 H5]. split.
  - by apply screen_ok_cons.
  - eapply Forall_impl; [exact H2|]. apply task_ok_cons.
  - intros H. apply code_sent_cons. auto.
  - intros H. destruct (H4 H) as [a Ha]. exists a. by apply verified_for_cons.
  - done.
Qed.

(** A change of the component that is shown, in the same step. *)
Lemma good_shown t s p : step_number s = step_number (shown p) -> screen_ok t s -> good t p -> good t (set_shown s p).
Proof. intros Hn Hs [H1 H2 H3 H4 H5]. split; cbn; rewrite ?Hn; done. Qed.

Lemma good_task t k p : task_ok t k -> (verifies k -> code_sent t (email p)) -> good t p -> good t (add_task k p).
Proof.
  intros Hk Hv [H1 H2 H3 H4 H5]. split; cbn; try done.
  - apply Forall_app. by split; [|constructor].
  - rewrite Exists_app, Exists_cons, Exists_nil. naive_solver.
Qed.

Lemma good_taken t k p : good t p -> good t (set_pending (delete k (pending p)) p).
Proof.
  intros [H1 H2 H3 H4 H5].
  assert (Hsub : forall x, x ∈ delete k (pending p) -> x ∈ pending p)
    by (intros x Hx; eapply elem_of_sublist; [exact Hx | apply sublist_delete]).
  split; cbn; try done.
  - apply Forall_forall. intros x Hx. eapply Forall_forall in H2; [exact H2|]. by apply Hsub.
  - intros [Hn|He]; apply H3; [by left | right]. apply Exists_exists in He as (x & Hx & Hv).
    apply Exists_exists. exists x. by split; [apply Hsub|].
Qed.

Lemma good_setStep t n p : (1 <= n <= 4)%nat ->
  ((2 <= n)%nat -> code_sent t (email p)) -> ((3 <= n)%nat -> exists a, verified_for t a (regToken p)) ->
  ((4 <= n)%nat -> valid_name (fullName p)) -> good t p -> good t (setStep n p).
Proof.
  intros Hn He Ht Hv [H1 H2 H3 H4 H5]. unfold setStep. destruct (Nat.eqb_spec (step_number (shown p)) n); [done|].
  assert (Hs : step_number (new_step n) = n) by (do 5 (destruct n as [|n]; [done || lia|]); lia).
  split; cbn [shown pending email regToken fullName]; rewrite ?Hs; try done.
  - do 4 (destruct n as [|n]; [done|]). cbn. split_and!; [done | lia | by left].
  - intros [Hn2|Hx]; [by apply He | apply H3; by right].
Qed.

Lemma good_set_email t e p : code_sent t e -> good t p -> good t (set_email e p).
Proof. intros He [H1 H2 H3 H4 H5]. by split. Qed.

Lemma good_set_token t a tok p : verified_for t a tok -> good t p -> good t (set_regToken tok p).
Proof. intros He [H1 H2 H3 H4 H5]. split; cbn; try done. intros _. by exists a. Qed.

Lemma good_set_name t n p : valid_name n -> good t p -> good t (set_fullName n p).
Proof. intros Hn [H1 H2 H3 H4 H5]. by split. Qed.

Lemma good_restarted t fresh p : good t p -> step_number (shown p) = 4%nat -> good t (restarted fresh p).
Proof.
  intros [H1 H2 H3 H4 H5] Hn. unfold restarted, setStep. cbn [shown set_fullName set_regToken set_operationId].
  rewrite Hn. split; cbn; try done; try lia. intros [?|Hx]; [lia|]. apply H3. by right.
Qed.

(** An update of the component that began a task. *)
Lemma good_local t m f p : (forall s, step_number (f s) = step_number s) ->
  (forall s, screen_ok t s -> screen_ok t (f s)) -> good t p -> good t (local m f p).
Proof.
  intros Hn Hs Hg. unfold local. destruct (_ =? _)%nat; [|done]. apply good_shown; [apply Hn | | done].
  apply Hs, Hg.
Qed.

Lemma good_opened op : good [] (opened op).
Proof. split; cbn; [done | constructor | | lia | lia]. intros [?|Hx]; [lia|]. by apply Exists_nil in Hx. Qed.

Lemma good_on_email t m f p : good t p -> good t (local m (on_email f) p).
Proof. apply good_local; by intros []. Qed.

Lemma good_on_otp t m f p : good t p -> good t (local m (on_otp f) p).
Proof. apply good_local; by intros []. Qed.

Lemma good_on_pin t m f p : (forall q, screen_ok t (StepPIN q) -> screen_ok t (StepPIN (f q))) ->
  good t p -> good t (local m (on_pin f) p).
Proof. intros Hf. apply good_local; intros []; try done. apply Hf. Qed.

Lemma screen_ok_forget t q : screen_ok t (StepPIN (forget_pin q)).
Proof. cbn. split_and!; [done | lia | by left]. Qed.

Lemma screen_ok_saved t next q : chosen t next -> screen_ok t (StepPIN (saved_pin next q)).
Proof. intros Hc. cbn. split_and!; [done | lia | by right]. Qed.

(** A reply, in a history that already holds it. *)
Lemma good_settle t k r p :
  task_ok t k -> (forall v, r = Ok v -> answered k v t) -> (verifies k -> code_sent t (email p)) ->
  good t p -> good t (settle k r p).1.
Proof.
  intros Hk Ha Hv Hg. destruct k as [m e|m e c|m|m|m next|m|]; cbn [settle fst].
  - apply good_on_email. destruct r as [v|x]; [|done].
    assert (Hc : code_sent t e) by (exists m, v; by apply Ha).
    apply good_setStep; [lia | done | lia | lia |]. by apply good_set_email.
  - apply good_on_otp. destruct r as [v|x]; [|done]. destruct Hk as [op Hop].
    assert (Hvf : verified_for t e v) by (exists m, c, op; split; [by apply Ha | done]).
    apply good_setStep; [lia | | | lia |]; cbn [set_regToken email regToken].
    + intros _. by apply Hv.
    + intros _. by exists e.
    + by eapply good_set_token.
  - by apply good_on_otp.
  - apply good_on_pin; [done|]. destruct r; [|done]. by apply good_task.
  - apply good_on_pin; [|done]. intros q _. by apply screen_ok_saved.
  - apply good_on_pin; [|done]. intros q _. apply screen_ok_forget.
  - destruct Hg as [H1 H2 H3 H4 H5]. by split.
Qed.

Lemma good_verify t s code p : step_number (shown p) = 2%nat -> made (VerifyOtp (email p) code (operationId p)) t ->
  good t p -> good t (verify s code p).1.
Proof.
  intros Hn Hm Hg. unfold verify. cbn [fst].
  assert (Hg' : good t (set_shown (StepOTP {| os_digits := os_digits s; os_error := []; os_verifying := true;
    os_countdown := os_countdown s |}) p)) by (apply good_shown; [by rewrite Hn | done | done]).
  apply good_task; [by eexists | | done]. intros _. apply Hg. left. lia.
Qed.

Lemma good_handleInput t s idx v p : step_number (shown p) = 2%nat ->
  (forall c, c ∈ (handleInput s idx v p).2 -> made c t) -> good t p -> good t (handleInput s idx v p).1.
Proof.
  intros Hn Hm Hg. revert Hm. unfold handleInput. destruct (_ || _); [done|].
  assert (Hg' : forall d e, good t (set_shown (StepOTP (with_digits d e s)) p))
    by (intros d e; apply good_shown; [by rewrite Hn | done | done]).
  cbv zeta. destruct (_ && _); [|intros _; apply Hg']. destruct (_ =? _)%nat; [|intros _; apply Hg'].
  intros Hm. apply good_verify; [done | | done]. apply Hm. by left.
Qed.

Lemma good_handlePaste t s text p : step_number (shown p) = 2%nat ->
  (forall c, c ∈ (handlePaste s text p).2 -> made c t) -> good t p -> good t (handlePaste s text p).1.
Proof.
  intros Hn Hm Hg. revert Hm. unfold handlePaste. case_bool_decide; [done|].
  assert (Hg' : forall d e, good t (set_shown (StepOTP (with_digits d e s)) p))
    by (intros d e; apply good_shown; [by rewrite Hn | done | done]).
  cbv zeta. destruct (_ =? _)%nat; [|intros _; apply Hg']. intros Hm. apply good_verify; [done | | done]. apply Hm. by left.
Qed.

(** The state of the keypad after a key. *)
Lemma good_handleKey t q k p :
  shown p = StepPIN q -> match k with Digit d => 0 <= d <= 9 | Del => True end ->
  (forall d, k = Digit d -> ps_subStep q = set_pin -> length (ps_pin q ++ key_text d) = 6%nat ->
     all_digits (ps_pin q ++ key_text d) = true -> chosen t (ps_pin q ++ key_text d)) ->
  good t p -> good t (handleKey q k p).1.
Proof.
  intros Hq Hk Hc Hg. assert (Hn : step_number (shown p) = 4%nat) by (by rewrite Hq).
  assert (Hs : screen_ok t (StepPIN q)) by (rewrite <- Hq; apply Hg). destruct Hs as (Hd & Hl & Hsv).
  assert (Hset : forall q', all_digits (ps_pin q') = true -> (length (ps_pin q') <= 6)%nat -> ps_saved q' = ps_saved q ->
    good t (set_shown (StepPIN q') p)).
  { intros q' H1 H2 H3. apply good_shown; [by rewrite Hn | | done]. cbn. by rewrite H3. }
  unfold handleKey. destruct (ps_submitting q); [done|]. destruct k as [d|]; cbn [fst].
  2: { pose proof (length_drop_last (ps_pin q)). apply Hset; [by apply all_digits_last | cbn; lia | done]. }
  destruct (Nat.leb_spec 6 (length (ps_pin q))); [done|]. cbv zeta.
  assert (Hd' : all_digits (ps_pin q ++ key_text d) = true) by (rewrite all_digits_app, Hd; by apply digit_text).
  assert (Hl' : (length (ps_pin q ++ key_text d) <= 6)%nat) by (rewrite length_app; cbn; lia).
  destruct (Nat.eqb_spec (length (ps_pin q ++ key_text d)) 6) as [H6|]; [|by apply Hset].
  destruct (ps_subStep q) eqn:Hsub; cbn [fst].
  - apply good_task; [by apply (Hc d) | done | by apply Hset].
  - destruct (ustr_eqb _ _); cbn [fst].
    + unfold finish. cbn [fst]. apply good_task; [done | done |].
      apply good_shown; [done | split_and!; done | by apply Hset].
    + apply good_task; [done | done | by apply Hset].
Qed.

Lemma good_react t p i p' cs : good t p -> react p i = Some (p', cs) ->
  good ({| before := p; by_input := i; calls := cs |} :: t) p'.
Proof.
  intros Hg Hr. set (s0 := {| before := p; by_input := i; calls := cs |}). set (T := s0 :: t).
  assert (Hin : s0 ∈ T) by left. apply (good_cons s0) in Hg. fold T in Hg.
  assert (Hmade : forall c, c ∈ cs -> made c T) by (intros c Hc; exists s0; by split).
  unfold react in Hr. destruct (left_page p); [done|].
  assert (Hstep : forall n, step_number (shown p) = n -> forall s', step_number s' = n -> screen_ok T s' ->
    good T (set_shown s' p)) by (intros n Hn s' Hn' Hok; apply good_shown; [by rewrite Hn | done | done]).
  destruct i as [v| |idx v|text| | | |v| |[d|]| |fresh|k r];
    [destruct (shown p) as [s|s|s|s] eqn:Hs; try discriminate Hr..|].
  - injection Hr as <- <-. by eapply Hstep.
  - unfold submit_email in Hr. destruct (_ || _); [done|]. injection Hr as <- <-.
    apply good_task; [done | done | by eapply Hstep].
  - destruct (idx <? 6)%nat; [|done]. injection Hr as Hr. destruct (handleInput s idx v p) as [p1 c1] eqn:Hh.
    injection Hr as -> ->. change p' with (p', cs).1. rewrite <- Hh. apply good_handleInput; [by rewrite Hs | by rewrite Hh | done].
  - injection Hr as Hr. change p' with (p', cs).1. rewrite <- Hr. apply good_handlePaste; [by rewrite Hs | by rewrite Hr | done].
  - unfold resend in Hr. destruct (_ =? 0); [|done]. injection Hr as <- <-.
    apply good_task; [done | done | by eapply Hstep].
  - injection Hr as <- <-. by eapply Hstep.
  - injection Hr as <- <-. apply good_setStep; [lia..| done].
  - injection Hr as <- <-. apply good_setStep; [lia | | lia | lia | done]. intros _. apply Hg. left. rewrite Hs. cbn. lia.
  - injection Hr as <- <-. by eapply Hstep.
  - unfold submit_name in Hr. destruct (_ <? _)%nat; [done|]. destruct (validate _) eqn:Hv; injection Hr as <- <-.
    + by eapply Hstep.
    + assert (Hvn : valid_name (trim (ns_fullName s))) by (by eexists).
      apply good_setStep; [lia | | | done | by apply good_set_name]; intros _; apply Hg; [left|]; rewrite Hs; cbn; lia.
  - destruct (_ && _) eqn:Hd; [|done]. injection Hr as Hr. change p' with (p', cs).1. rewrite <- Hr.
    rewrite !andb_true_iff, !Z.leb_le in Hd. apply good_handleKey; [done | lia | | done].
    intros d' [= <-] Hsub H6 Hda. exists s0, s, d. cbn [before by_input]. split_and!; done.
  - destruct (keypad s); [|done]. injection Hr as Hr. change p' with (p', cs).1. rewrite <- Hr.
    by apply good_handleKey.
  - destruct (ps_subStep s); [done|]. destruct (keypad s); [|done]. injection Hr as <- <-.
    eapply Hstep; [done | done |]. cbn. split_and!; [done | lia | by left].
  - destruct (_ && _); [|done]. injection Hr as <- <-. apply good_restarted; [done | by rewrite Hs].
  - destruct (pending p !! k) as [tk|] eqn:Hk; [|done]. injection Hr as Hr. change p' with (p', cs).1. rewrite <- Hr.
    assert (Hin' : tk ∈ pending p) by (by eapply list_elem_of_lookup_2).
    apply good_settle; [| | | by apply good_taken].
    + eapply Forall_forall in Hin'; [exact Hin' | apply Hg].
    + intros v ->. exists s0, k. by split_and!.
    + intros Hv. apply Hg. right. apply Exists_exists. by exists tk.
Qed.

Lemma reaches_good op t p : reaches react (opened op) t p -> good t p.
Proof. apply reaches_invariant; [apply good_opened | apply good_react]. Qed.

(** Only the last digit of a confirmation enrols. *)
Lemma enroll_by_key p i p' cs e : react p i = Some (p', cs) -> Enroll e ∈ cs ->
  exists q d, shown p = StepPIN q /\ i = PressKey (Digit d) /\ ps_subStep q = confirm_pin /\
    ps_submitting q = false /\ ps_pin q ++ key_text d = ps_saved q /\ length (ps_saved q) = 6%nat /\
    e = enrolment (ps_saved q) p.
Proof.
  intros Hr He. unfold react in Hr. destruct (left_page p); [done|].
  assert (Hno : forall c, cs = [c] -> (forall e, c <> Enroll e) -> False).
  { intros c -> Hc. apply list_elem_of_singleton in He. by eapply Hc. }
  assert (Hnil : cs <> []) by (intros ->; by apply elem_of_nil in He).
  destruct i as [v| |idx v|text| | | |v| |[d|]| |fresh|k r];
    [destruct (shown p) as [s|s|s|s] eqn:Hs; try discriminate Hr..|].
  - by injection Hr as _ <-.
  - unfold submit_email in Hr. destruct (_ || _); [done|]. injection Hr as _ Hc. exfalso. by eapply Hno.
  - unfold handleInput in Hr. destruct (_ <? _)%nat; [|done]. injection Hr as Hr. revert Hr.
    destruct (_ || _); [by intros [= _ <-]|]. destruct (_ && _); [|by intros [= _ <-]].
    destruct (_ =? _)%nat; intros [= _ Hc]; [exfalso; by eapply Hno | done].
  - unfold handlePaste in Hr. injection Hr as Hr. revert Hr. case_bool_decide; [by intros [= _ <-]|].
    destruct (_ =? _)%nat; intros [= _ Hc]; [exfalso; by eapply Hno | done].
  - unfold resend in Hr. destruct (_ =? 0); [|done]. injection Hr as _ Hc. exfalso. by eapply Hno.
  - by injection Hr as _ <-.
  - by injection Hr as _ <-.
  - by injection Hr as _ <-.
  - by injection Hr as _ <-.
  - unfold submit_name in Hr. destruct (_ <? _)%nat; [done|]. destruct (validate _); by injection Hr as _ <-.
  - destruct (_ && _); [|done]. injection Hr as Hr. unfold handleKey in Hr. revert Hr.
    destruct (ps_submitting s) eqn:Hsub; [by intros [= _ <-]|].
    destruct (_ <=? _)%nat; [by intros [= _ <-]|]. cbv zeta.
    destruct (Nat.eqb_spec (length (ps_pin s ++ key_text d)) 6) as [H6|]; [|by intros [= _ <-]].
    destruct (ps_subStep s) eqn:Hss; [by intros [= _ <-]|].
    destruct (ustr_eqb _ _) eqn:Heq; [|by intros [= _ <-]]. apply ustr_eqb_eq in Heq. rewrite Heq in *.
    intros [= _ <-]. apply list_elem_of_singleton in He. injection He as ->. by exists s, d.
  - destruct (keypad s); [|done]. injection Hr as Hr. unfold handleKey in Hr.
    destruct (ps_submitting s); by injection Hr as _ <-.
  - destruct (ps_subStep s); [done|]. destruct (keypad s); [|done]. by injection Hr as _ <-.
  - destruct (_ && _); [|done]. by injection Hr as _ <-.
  - destruct (pending p !! k) as [[]|]; [..|done]; injection Hr as _ Hc; try done. exfalso. by eapply Hno.
Qed.

(** C19: when the page enrols. In every run of the page, whatever the user does and
    in whatever order replies and timers arrive, an enrolment begins only with the
    sixth digit of a confirmation: its PIN is six digits that were first entered
    as the PIN to be set and then entered again; its name passed the checks of
    the form; a code was sent to its address; and its token came in the reply to
    the verification of a code, for some address of this run. *)
Theorem register_page_sound op t p i p' cs e :
  reaches react (opened op) t p -> react p i = Some (p', cs) -> Enroll e ∈ cs ->
  chosen t (er_pin e) /\
  (exists q d, shown p = StepPIN q /\ ps_subStep q = confirm_pin /\ i = PressKey (Digit d) /\
     ps_pin q ++ key_text d = er_pin e) /\
  valid_name (er_fullName e) /\ code_sent t (er_email e) /\ exists address, verified_for t address (er_regToken e).
Proof.
  intros Hp Hr He. apply reaches_good in Hp. destruct (enroll_by_key _ _ _ _ _ Hr He) as (q & d & Hq & -> & Hss & _ & Heq & H6 & ->).
  destruct Hp as [Hscr _ Hem Htok Hname]. rewrite Hq in *. cbn [step_number] in *.
  split_and!; [| by exists q, d | by apply Hname | apply Hem; left; lia | apply Htok; lia].
  destruct Hscr as (_ & _ & [Hnil|Hc]); [by rewrite Hnil in H6 | done].
Qed.

End page.

(** ** Concrete runs *)

Definition digit_keys : list input := replicate 6 (PressKey (Digit 7)).

(** A user who goes back while a code is being verified, and asks for a code for
    another address before the reply arrives. *)
Definition back_inputs : list input :=
  [TypeEmail (js "a@x"); SubmitEmail; Settle 0 (Ok []); PasteDigits (js "123456"); Back;
   TypeEmail (js "b@x"); SubmitEmail; Settle 1 (Ok []); Settle 0 (Ok (js "token of a"));
   TypeName (js "An Binh"); SubmitName] ++ digit_keys ++ [Settle 0 (Ok [])] ++ digit_keys.

(** The address of an enrolment need not be the verified one. [Back] is offered
    while a code is being verified, and the reply still moves the page on: there
    is a run whose calls are a code for one address, its verification, a code for
    another address that is never verified, and the enrolment of that other
    address with the token of the first. *)
Theorem register_back_race toUpperCase thrown_message :
  exists t p, reaches (react toUpperCase thrown_message) (opened (js "op")) t p /\
    all_calls t =
      [RequestOtp (js "a@x") (js "op"); VerifyOtp (js "a@x") (js "123456") (js "op");
       RequestOtp (js "b@x") (js "op");
       Enroll {| er_fullName := js "An Binh"; er_email := js "b@x"; er_pin := js "777777";
                 er_regToken := js "token of a"; er_operationId := Some (js "op") |}].
Proof.
  destruct (run_inputs (react toUpperCase thrown_message) back_inputs [] (opened (js "op"))) as [[t p]|] eqn:Hr;
    [|vm_compute in Hr; discriminate Hr].
  exists t, p. split; [eapply run_inputs_reaches; [apply reach_start | exact Hr]|].
  vm_compute in Hr. injection Hr as <- <-. vm_compute. reflexivity.
Qed.

Definition honest_inputs : list input :=
  [TypeEmail (js "a@x"); SubmitEmail; Settle 0 (Ok []); PasteDigits (js "123456"); Settle 0 (Ok (js "token of a"));
   TypeName (js "An Binh"); SubmitName] ++ digit_keys ++ [Settle 0 (Ok [])] ++ replicate 5 (PressKey (Digit 7)).

Lemma register_page_sound_witness :
  match run_inputs (react (fun s => s) (fun _ => [])) honest_inputs [] (opened (js "op")) with
  | Some (t, p) => chosen t (js "777777") /\ code_sent t (js "a@x") /\
                   exists address, verified_for t address (js "token of a")
  | None => False
  end.
Proof.
  destruct (run_inputs _ _ _ _) as [[t p]|] eqn:Hr; [|vm_compute in Hr; discriminate Hr].
  pose proof (run_inputs_reaches _ _ _ _ _ _ _ (reach_start _ _) Hr) as Hp.
  set (e := {| er_fullName := js "An Binh"; er_email := js "a@x"; er_pin := js "777777";
               er_regToken := js "token of a"; er_operationId := Some (js "op") |}).
  assert (He : exists p' cs, react (fun s => s) (fun _ => []) p (PressKey (Digit 7)) = Some (p', cs) /\
    Enroll e ∈ cs).
  { vm_compute in Hr. injection Hr as <- <-. do 2 eexists. split; [vm_compute; reflexivity | apply list_elem_of_here]. }
  destruct He as (p' & cs & Hreact & Hin).
  destruct (register_page_sound _ _ _ _ _ _ _ _ e Hp Hreact Hin) as (Hc & _ & _ & Hs & Hv). by split_and!.
Defined.
