(* ===== verification/Wire.v ===== *)
(** * The protocol buffer wire, as the generated code uses it

    [proto/bank.ts], [proto/ca.ts] and [proto/kdc.ts] call [BinaryWriter] and
    [BinaryReader] of [@bufbuild/protobuf/wire], a library outside the repository:
    [Wire] has its operations and [WireSpec] states what the generated code
    relies on. Here are also the shapes that every generated function is made
    of (the conditional writes of [encode], the [while] and [switch] of
    [decode], [longToNumber]) and what they satisfy for any message. *)

From S2P Require Import Prelude JsString Gateway UString UJson WebCrypto.

Open Scope Z_scope.

(** ** The library *)

(** A reader is given by the bytes from its position to the end of its buffer,
    a writer by the bytes it appends. [join] closes a [fork]. *)
Definition reader (A : Type) : Type := list Z -> result js_error (A * list Z).
Definition written : Type := result js_error (list Z).

Class Wire := {
  wr_uint32 : Z -> written;
  wr_int32 : Z -> written;
  wr_int64 : Z -> written;
  wr_bool : bool -> written;
  wr_string : ustr -> written;
  wr_bytes : list Z -> written;
  wr_join : list Z -> written;
  rd_uint32 : reader Z;
  rd_int32 : reader Z;
  rd_int64 : reader Z;
  rd_bool : reader bool;
  rd_string : reader ustr;
  rd_bytes : reader (list Z);
  rd_skip : Z -> reader unit
}.

(** What is written is read back, with any remainder of the buffer. *)
Definition read_back {A} (w : written) (r : reader A) (v : A) : Prop :=
  exists bs, w = Ok bs /\ forall rest, r (bs ++ rest) = Ok (v, rest).

(** A reader does not move backwards. *)
Definition forward {A} (r : reader A) : Prop :=
  forall l v l', r l = Ok (v, l') -> (length l' <= length l)%nat.

Definition int_fits (bits n : Z) : bool := (- 2 ^ (bits - 1) <=? n) && (n <? 2 ^ (bits - 1)).

(** A text that UTF-8 can carry and whose bytes have a 32-bit length. *)
Definition wire_text (s : ustr) : bool := text_ok s && (zlen s <? 2 ^ 30).
Definition wire_bytes (b : list Z) : bool := bytes_okb b && (zlen b <? 2 ^ 32).

Class WireSpec `{Wire} := {
  uint32_back n : 0 <= n < 2 ^ 32 -> read_back (wr_uint32 n) rd_uint32 n;
  int32_back n : int_fits 32 n = true -> read_back (wr_int32 n) rd_int32 n;
  int32_refused n : int_fits 32 n = false -> exists e, wr_int32 n = Err e;
  int64_back n : int_fits 64 n = true -> read_back (wr_int64 n) rd_int64 n;
  bool_back b : read_back (wr_bool b) rd_bool b;
  string_back s : wire_text s = true -> read_back (wr_string s) rd_string s;
  bytes_back b : wire_bytes b = true -> read_back (wr_bytes b) rd_bytes b;
  (** The content after its length. *)
  join_spec c p : zlen c < 2 ^ 32 -> wr_uint32 (zlen c) = Ok p -> wr_join c = Ok (p ++ c);
  (** A tag takes at least one byte, and is a 32-bit number. *)
  uint32_advances l n l' : rd_uint32 l = Ok (n, l') -> (length l' < length l)%nat /\ 0 <= n < 2 ^ 32;
  int32_forward : forward rd_int32;
  int64_forward : forward rd_int64;
  bool_forward : forward rd_bool;
  string_forward : forward rd_string;
  bytes_forward : forward rd_bytes;
  skip_forward t : forward (rd_skip t);
  (** Wire type 0 is a variable-length integer, 2 a run of bytes. *)
  skip_int64 n bs rest : wr_int64 n = Ok bs -> rd_skip 0 (bs ++ rest) = Ok (tt, rest);
  skip_bytes b bs rest : wr_bytes b = Ok bs -> rd_skip 2 (bs ++ rest) = Ok (tt, rest)
}.

(** ** Writing *)

Section Writing.
Context `{Wire}.

(** [writer.uint32(tag).method(...)]. *)
Definition tagged (tag : Z) (w : written) : written :=
  let! a := wr_uint32 tag in let! b := w in Ok (a ++ b).

(** [M.encode(v, writer.uint32(tag).fork()).join()]. *)
Definition forked (w : written) : written := let! c := w in wr_join c.

(** [if (condition) { ... }]. *)
Definition write_if (condition : bool) (w : written) : written := if condition then w else Ok [].

(** The statements of an [encode], one after the other. *)
Fixpoint writes (l : list written) : written :=
  match l with
  | [] => Ok []
  | w :: l' => let! a := w in let! b := writes l' in Ok (a ++ b)
  end.

(** [for (const v of l) { ... }]. *)
Definition write_each {A} (l : list A) (f : A -> written) : written := writes (map f l).

End Writing.

(** The conditions of [encode]: the field differs from its default. *)
Definition nonempty {A} (l : list A) : bool := match l with [] => false | _ => true end.
Definition nonzero (n : Z) : bool := negb (n =? 0).

(** ** Reading *)

(** [None]: the fuel of a loop has run out, which [decode_total] excludes. *)
Definition rd (A : Type) : Type := list Z -> option (result js_error (A * list Z)).

Definition rret {A} (a : A) : rd A := fun l => Some (Ok (a, l)).
Definition rthen {A B} (p : rd A) (k : A -> rd B) : rd B := fun l =>
  match p l with
  | Some (Ok (a, l')) => k a l'
  | Some (Err e) => Some (Err e)
  | None => None
  end.
Definition rlift {A} (r : reader A) : rd A := fun l => Some (r l).
Definition rresult {A} (r : result js_error A) : rd A := fun l => Some (let! a := r in Ok (a, l)).

Declare Scope wire_scope.
Notation "'let%' x := p 'in' k" := (rthen p (fun x => k))
  (at level 10, x name, p at level 100, k at level 200) : wire_scope.
Open Scope wire_scope.

(** [Number(n.toString())] of an integer: the nearest double, ties to the even
    significand. *)
Definition to_double (n : Z) : Z :=
  let a := Z.abs n in
  let u := 2 ^ Z.max 0 (Z.log2 a - 52) in
  let q := a / u in let r := a mod u in
  let up := if 2 * r <? u then 0 else if u <? 2 * r then 1 else if Z.even q then 0 else 1 in
  Z.sgn n * ((q + up) * u).

Definition MAX_SAFE_INTEGER : Z := 2 ^ 53 - 1.
Definition MIN_SAFE_INTEGER : Z := - (2 ^ 53 - 1).

Definition longToNumber (int64 : Z) : result js_error Z :=
  let num := to_double int64 in
  if MAX_SAFE_INTEGER <? num then Err (plain_error "Value is larger than Number.MAX_SAFE_INTEGER")
  else if num <? MIN_SAFE_INTEGER then Err (plain_error "Value is smaller than Number.MIN_SAFE_INTEGER")
  else Ok num.

(** *** An object used as a map

    Its own properties in the order of [Object.entries]: the array indices in
    ascending order, then the other names as they were added. *)
Definition entries : Type := list (ustr * ustr).

Definition array_index (k : ustr) : option Z :=
  if nonempty k && forallb is_digit k && ustr_eqb (dec (digits_value k)) k &&
     (digits_value k <? 2 ^ 32 - 1)
  then Some (digits_value k) else None.

Fixpoint insert_index {V} (n : Z) (k : ustr) (v : V) (l : list (ustr * V)) : list (ustr * V) :=
  match l with
  | [] => [(k, v)]
  | e :: l' =>
      match array_index e.1 with
      | Some n' => if n' <? n then e :: insert_index n k v l' else (k, v) :: l
      | None => (k, v) :: l
      end
  end.

(** An own property [k] with the value [v]. *)
Definition put_own {V} (k : ustr) (v : V) (l : list (ustr * V)) : list (ustr * V) :=
  if existsb (fun e => ustr_eqb e.1 k) l
  then map (fun e => if ustr_eqb e.1 k then (k, v) else e) l
  else match array_index k with Some n => insert_index n k v l | None => l ++ [(k, v)] end.

(** [o[k] = v] with a text [v]: the name [__proto__] is the setter of the
    prototype, which ignores a text. *)
Definition put_entry (k v : ustr) (l : entries) : entries :=
  if ustr_eqb k (js "__proto__") then l else put_own k v l.

(** Distinct names, without indices and [__proto__]. *)
Fixpoint entries_ok (l : entries) : bool :=
  match l with
  | [] => true
  | e :: l' =>
      negb (ustr_eqb e.1 (js "__proto__")) && negb (existsb (fun e' => ustr_eqb e'.1 e.1) l') &&
      bool_decide (array_index e.1 = None) && entries_ok l'
  end.

(** [case number: { if (tag !== expected) { break; } ... continue; }]. *)
Record field_case (M : Type) := Case { number : Z; expected : Z; statement : rd M }.
Arguments Case {M}. Arguments number {M}. Arguments expected {M}. Arguments statement {M}.

(** [switch (tag >>> 3)]: the statement that ends in [continue], if one runs. *)
Fixpoint switch {M} (tag : Z) (cases : list (field_case M)) : option (rd M) :=
  match cases with
  | [] => None
  | c :: cases' =>
      if Z.shiftr tag 3 =? number c then (if tag =? expected c then Some (statement c) else None)
      else switch tag cases'
  end.

Section Reading.
Context `{Wire}.

(** [message.x = reader.m()]. *)
Definition assign {A M} (r : rd A) (set : A -> M) : rd M := let% v := r in rret (set v).

(** [longToNumber(reader.int64())]. *)
Definition rd_long : rd Z := let% n := rlift rd_int64 in rresult (longToNumber n).

(** [M.decode(reader, reader.uint32())]. *)
Definition rd_message {A} (decode : option Z -> rd A) : rd A :=
  let% length := rlift rd_uint32 in decode (Some length).

Context {M : Type} (cases : M -> list (field_case M)).

(** The [while] of [decode]; the position is before [end] as long as more than
    [end_left] bytes are left. *)
Fixpoint decode_while (fuel : nat) (end_left : Z) (message : M) : rd M := fun l =>
  match fuel with
  | O => None
  | S f =>
      if end_left <? zlen l then
        (let% tag := rlift rd_uint32 in
         match switch tag (cases message) with
         | Some run => let% message' := run in decode_while f end_left message'
         | None =>
             if (Z.land tag 7 =? 4) || (tag =? 0) then rret message
             else let% _ := rlift (rd_skip (Z.land tag 7)) in decode_while f end_left message
         end) l
      else rret message l
  end.

(** [decode(input, length)] on a message as [createBase] makes it: every turn
    reads a tag, so the bytes left are fuel enough. *)
Definition decode_message (base : M) (length : option Z) : rd M := fun l =>
  decode_while (S (List.length l)) (match length with None => 0 | Some n => zlen l - n end) base l.

End Reading.

(** ** What is read is what was written *)

Section Theory.
Context `{WireSpec}.

(** [w] is written and read back as [v], by a reader that may loop. *)
Definition carried {A} (w : written) (r : rd A) (v : A) : Prop :=
  exists bs, w = Ok bs /\ forall rest, r (bs ++ rest) = Some (Ok (v, rest)).

Lemma carried_back {A} w (r : reader A) v : read_back w r v -> carried w (rlift r) v.
Proof. intros (bs & -> & Hr). exists bs. split; [done|]. intros rest. unfold rlift. by rewrite Hr. Qed.

Lemma to_double_safe n : Z.abs n <= MAX_SAFE_INTEGER -> to_double n = n.
Proof.
  intros Hn. unfold to_double, MAX_SAFE_INTEGER in *. cbv zeta in *.
  destruct (Z.eq_dec n 0) as [->|Hz]; [done|].
  assert (Z.log2 (Z.abs n) < 53) by (apply Z.log2_lt_pow2; lia).
  rewrite Z.max_l by lia. rewrite Z.pow_0_r, Z.div_1_r, Z.mod_1_r. cbn. rewrite Z.add_0_r, Z.mul_1_r. lia.
Qed.

Lemma to_double_large n : MAX_SAFE_INTEGER < Z.abs n ->
  MAX_SAFE_INTEGER < Z.abs (to_double n) /\ Z.sgn (to_double n) = Z.sgn n.
Proof.
  intros Hn. unfold to_double, MAX_SAFE_INTEGER in *. cbv zeta in *.
  set (a := Z.abs n) in *. set (u := 2 ^ Z.max _ _).
  assert (Hl : 53 <= Z.log2 a) by (apply Z.log2_le_pow2; lia).
  assert (Hu : u = 2 ^ (Z.log2 a - 52)) by (unfold u; by rewrite Z.max_r by lia).
  assert (H1 : 2 ^ Z.log2 a <= a) by (apply Z.log2_spec; lia).
  assert (H2 : 2 ^ Z.log2 a = 2 ^ 52 * u).
  { rewrite Hu, <- Z.pow_add_r by lia. f_equal. lia. }
  assert (2 <= u). { rewrite Hu. apply (Z.pow_le_mono_r 2 1); lia. }
  set (up := if 2 * _ <? u then _ else _).
  assert (0 <= up) by (unfold up; repeat case_match; lia).
  assert (2 ^ 52 <= a / u) by (apply Z.div_le_lower_bound; lia).
  assert (Hp : 2 ^ 53 <= (a / u + up) * u) by nia.
  assert (n = a /\ 0 < n \/ n = - a /\ n < 0) as [[Hs Hs']|[Hs Hs']] by lia.
  - rewrite (Z.sgn_pos n) by lia. rewrite Z.mul_1_l, Z.sgn_pos by lia. lia.
  - rewrite (Z.sgn_neg n) by lia.
    replace (-1 * ((a / u + up) * u)) with (- ((a / u + up) * u)) by ring.
    rewrite Z.sgn_neg by lia. lia.
Qed.

(** A 64-bit integer is a number exactly when a double holds it safely. *)
Lemma longToNumber_spec n :
  longToNumber n =
  if MAX_SAFE_INTEGER <? n then Err (plain_error "Value is larger than Number.MAX_SAFE_INTEGER")
  else if n <? MIN_SAFE_INTEGER then Err (plain_error "Value is smaller than Number.MIN_SAFE_INTEGER")
  else Ok n.
Proof.
  unfold longToNumber. destruct (Z.le_gt_cases (Z.abs n) MAX_SAFE_INTEGER) as [Hn|Hn].
  { by rewrite to_double_safe. }
  destruct (to_double_large n Hn) as [Hl Hs]. unfold MIN_SAFE_INTEGER, MAX_SAFE_INTEGER in *.
  destruct (Z.ltb_spec (2 ^ 53 - 1) n).
  - rewrite (Z.sgn_pos n) in Hs by lia. apply Z.sgn_pos_iff in Hs.
    by rewrite (proj2 (Z.ltb_lt _ _)) by lia.
  - rewrite (Z.sgn_neg n) in Hs by lia. apply Z.sgn_neg_iff in Hs.
    rewrite (proj2 (Z.ltb_ge _ _)) by lia.
    by rewrite !(proj2 (Z.ltb_lt _ _)) by lia.
Qed.

Definition safe_long (n : Z) : bool := (MIN_SAFE_INTEGER <=? n) && (n <=? MAX_SAFE_INTEGER).

Lemma carried_long n : safe_long n = true -> carried (wr_int64 n) rd_long n.
Proof.
  unfold safe_long, MIN_SAFE_INTEGER, MAX_SAFE_INTEGER. intros Hn. bool_to_Z.
  destruct (int64_back n) as (bs & -> & Hr).
  { unfold int_fits. apply andb_true_iff. split; [apply Z.leb_le | apply Z.ltb_lt]; lia. }
  exists bs. split; [done|]. intros rest. unfold rd_long, rthen, rlift, rresult. rewrite Hr, longToNumber_spec.
  unfold MIN_SAFE_INTEGER, MAX_SAFE_INTEGER. by rewrite !(proj2 (Z.ltb_ge _ _)) by lia.
Qed.

(** *** The loop of [decode], message type by message type *)

Section Message.
Context {M : Type} (cases : M -> list (field_case M)).

(** The loop ends with [r], with fuel enough. *)
Definition runs (end_left : Z) (m : M) (l : list Z) (r : result js_error (M * list Z)) : Prop :=
  exists fuel, decode_while cases fuel end_left m l = Some r.

Lemma decode_while_mono f f' e m l r :
  decode_while cases f e m l = Some r -> (f <= f')%nat -> decode_while cases f' e m l = Some r.
Proof.
  revert f' m l. induction f as [|f IH]; intros [|f'] m l Hr Hf; [done | done | lia |].
  cbn [decode_while] in *. destruct (e <? zlen l); [|done].
  unfold rthen, rlift in *. destruct (rd_uint32 l) as [[tag l1]|]; [|done].
  destruct (switch tag (cases m)) as [run|].
  - destruct (run l1) as [[[m' l2]|]|]; [|done..]. apply IH; [done | lia].
  - case_match; [done|]. destruct (rd_skip (Z.land tag 7) l1) as [[u l2]|]; [|done]. apply IH; [done | lia].
Qed.

(** After the bytes [bs] the loop has turned [m] into [m']. *)
Definition feeds (bs : list Z) (m m' : M) : Prop :=
  forall e rest r, e <= zlen rest -> runs e m' rest r -> runs e m (bs ++ rest) r.

Definition emits (w : written) (m m' : M) : Prop := exists bs, w = Ok bs /\ feeds bs m m'.

Lemma emits_nil m : emits (Ok []) m m.
Proof. exists []. split; [done|]. by intros e rest r _ Hr. Qed.

Lemma emits_cons w ws m m1 m2 : emits w m m1 -> emits (writes ws) m1 m2 -> emits (writes (w :: ws)) m m2.
Proof.
  intros (a & -> & Ha) (b & Hb & Hb'). exists (a ++ b). split; [cbn; by rewrite Hb|].
  intros e rest r He Hr. rewrite <- (assoc_L (++)). apply Ha; [|by apply Hb'].
  unfold zlen in *. rewrite length_app. lia.
Qed.

Lemma emits_if (b : bool) w m m' : (b = true -> emits w m m') -> (b = false -> m' = m) -> emits (write_if b w) m m'.
Proof. destruct b; intros Ht Hf; [by apply Ht | rewrite Hf by done; apply emits_nil]. Qed.

(** One field: its tag selects the statement, which reads the value back. *)
Lemma emits_field {A} tag w (r : rd A) v (set : A -> M) m :
  0 <= tag < 2 ^ 32 -> switch tag (cases m) = Some (assign r set) -> carried w r v ->
  emits (tagged tag w) m (set v).
Proof.
  intros Htag Hsw (bs & -> & Hr). destruct (uint32_back tag Htag) as (tb & Ht & Hrt).
  exists (tb ++ bs). split; [unfold tagged; by rewrite Ht|].
  intros e rest r' He (fuel & Hrun). exists (S fuel). cbn [decode_while].
  rewrite <- (assoc_L (++)). rewrite (proj2 (Z.ltb_lt _ _)).
  - unfold rthen at 1, rlift. rewrite Hrt, Hsw. unfold assign, rthen. by rewrite Hr.
  - specialize (Hrt (bs ++ rest)). apply uint32_advances in Hrt as [Hrt _].
    unfold zlen in *. rewrite !length_app in *. lia.
Qed.

(** A repeated field. *)
Lemma emits_each {A} (l : list A) (f : A -> written) (push : A -> M -> M) m :
  (forall v m, v ∈ l -> emits (f v) m (push v m)) ->
  emits (write_each l f) m (fold_left (fun m v => push v m) l m).
Proof.
  revert m. unfold write_each. induction l as [|v l IH]; intros m Hl; cbn [map fold_left]; [apply emits_nil|].
  eapply emits_cons; [apply Hl; left|]. apply IH. intros. apply Hl. by right.
Qed.

(** What reads a whole message when the loop consumes exactly its bytes. *)
Lemma feeds_decode bs m m' rest length :
  feeds bs m m' -> length = None /\ rest = [] \/ length = Some (zlen bs) ->
  (forall e l, exists r, decode_while cases (S (List.length l)) e m l = Some r) ->
  decode_message cases m length (bs ++ rest) = Some (Ok (m', rest)).
Proof.
  intros Hb Hlen Htot. unfold decode_message. set (e := match length with None => _ | _ => _ end).
  assert (He : e = zlen rest).
  { unfold e, zlen. destruct Hlen as [[-> ->]| ->]; [done|]. unfold zlen. rewrite length_app. lia. }
  destruct (Hb e rest (Ok (m', rest))) as [fuel Hf]; [lia| |].
  - exists 1%nat. cbn. by rewrite (proj2 (Z.ltb_ge _ _)) by lia.
  - destruct (Htot e (bs ++ rest)) as [r Hr]. rewrite Hr.
    destruct (Nat.le_ge_cases fuel (S (List.length (bs ++ rest)))).
    + eapply decode_while_mono in Hf; [|done]. congruence.
    + eapply decode_while_mono in Hr; [|done]. congruence.
Qed.

End Message.

(** ** Every decoder ends *)

Definition ends {A} (p : rd A) : Prop :=
  forall l, exists r, p l = Some r /\
    match r with Ok (_, l') => (length l' <= length l)%nat | Err _ => True end.

Lemma ends_ret {A} (a : A) : ends (rret a).
Proof. intros l. by exists (Ok (a, l)). Qed.

Lemma ends_then {A B} (p : rd A) (k : A -> rd B) : ends p -> (forall a, ends (k a)) -> ends (rthen p k).
Proof.
  intros Hp Hk l. unfold rthen. destruct (Hp l) as ([[a l1]|e] & -> & Hl); [|by eexists].
  destruct (Hk a l1) as (r & -> & Hr). exists r. split; [done|]. destruct r as [[b l2]|]; [lia | done].
Qed.

Lemma ends_lift {A} (r : reader A) : forward r -> ends (rlift r).
Proof.
  intros Hr l. exists (r l). split; [done|]. destruct (r l) as [[a l']|e] eqn:E; [by eapply Hr | done].
Qed.

Lemma uint32_forward : forward rd_uint32.
Proof. intros l v l' Hr. apply uint32_advances in Hr as [Hr _]. lia. Qed.

Lemma ends_result {A} (r : result js_error A) : ends (rresult r).
Proof. intros l. unfold rresult. eexists. split; [done|]. destruct r; cbn; [lia | done]. Qed.

Lemma ends_assign {A M} (r : rd A) (set : A -> M) : ends r -> ends (assign r set).
Proof. intros Hr. apply ends_then; [done|]. intros a. apply ends_ret. Qed.

Lemma ends_long : ends rd_long.
Proof. apply ends_then; [apply ends_lift, int64_forward|]. intros n. apply ends_result. Qed.

Lemma ends_message {A} (decode : option Z -> rd A) : (forall n, ends (decode n)) -> ends (rd_message decode).
Proof. intros Hd. apply ends_then; [apply ends_lift, uint32_forward | done]. Qed.

(** The statements of the cases end. *)
Definition cases_end {M} (cases : M -> list (field_case M)) : Prop :=
  forall m, Forall (fun c => ends (statement c)) (cases m).

Lemma switch_in {M} tag (cases : list (field_case M)) run :
  switch tag cases = Some run -> exists c, c ∈ cases /\ statement c = run.
Proof.
  induction cases as [|c cases IH]; cbn; [done|]. intros Hs.
  case_match; [case_match; [|done]|].
  - injection Hs as <-. exists c. split; [left | done].
  - destruct (IH Hs) as (c' & Hc & Hr). exists c'. split; [by right | done].
Qed.

Lemma decode_while_ends {M} (cases : M -> list (field_case M)) f e m l :
  cases_end cases -> (length l < f)%nat ->
  exists r, decode_while cases f e m l = Some r /\
    match r with Ok (_, l') => (length l' <= length l)%nat | Err _ => True end.
Proof.
  intros Hc. revert m l. induction f as [|f IH]; intros m l Hf; [lia|].
  cbn [decode_while]. case_match; [|by exists (Ok (m, l))].
  unfold rthen, rlift. destruct (rd_uint32 l) as [[tag l1]|err] eqn:Ht; [|by eexists (Err err)].
  apply uint32_advances in Ht as [Ht _].
  assert (Hnext : forall m' l2, (length l2 <= length l1)%nat -> exists r,
    decode_while cases f e m' l2 = Some r /\
    match r with Ok (_, l') => (length l' <= length l)%nat | Err _ => True end).
  { intros m' l2 H2. destruct (IH m' l2) as (r & Hr & Hl); [lia|]. exists r. split; [done|].
    destruct r as [[? ?]|]; [lia | done]. }
  destruct (switch tag (cases m)) as [run|] eqn:Hs.
  - apply switch_in in Hs as (c & Hin & <-). specialize (Hc m). rewrite Forall_forall in Hc.
    destruct (Hc c Hin l1) as ([[m' l2]|err] & -> & H2); [by apply Hnext | by exists (Err err)].
  - case_match.
    + exists (Ok (m, l1)). split; [done | lia].
    + pose proof (skip_forward (Z.land tag 7) l1) as Hk.
      destruct (rd_skip (Z.land tag 7) l1) as [[u l2]|err]; [|by exists (Err err)].
      apply Hnext. by eapply Hk.
Qed.

Lemma decode_message_ends {M} (cases : M -> list (field_case M)) base n :
  cases_end cases -> ends (decode_message cases base n).
Proof. intros Hc l. unfold decode_message. apply decode_while_ends; [done | lia]. Qed.

End Theory.

(** ** Message types

    What a generated [MessageFns] is made of, with the messages it can carry:
    texts that UTF-8 can express, numbers within their fields and contents of
    less than 4 GiB. *)
Record codec `{Wire} := Codec {
  c_name : string;
  c_message : Type;
  c_base : c_message;
  c_cases : c_message -> list (field_case c_message);
  c_encode : c_message -> written;
  c_ok : c_message -> bool
}.

Definition c_decode `{Wire} (c : codec) : option Z -> rd (c_message c) :=
  decode_message (c_cases c) (c_base c).

(** The field numbers and the tags that [decode] knows. *)
Definition c_tags `{Wire} (c : codec) : list (Z * Z) :=
  map (fun k => (number k, expected k)) (c_cases c (c_base c)).

Definition fits (w : written) : bool :=
  match w with Ok c => zlen c <? 2 ^ 32 | Err _ => false end.

(** A message inside another one. *)
Definition nested_ok `{Wire} {M} (ok : M -> bool) (encode : M -> written) (v : M) : bool :=
  ok v && fits (encode v).

(** [if (message.x !== undefined) { ... }]. *)
Definition write_opt {A} (o : option A) (f : A -> written) : written :=
  match o with Some v => f v | None => Ok [] end.

Definition opt_ok {A} (ok : A -> bool) (o : option A) : bool :=
  match o with Some v => ok v | None => true end.

(** A method of a service: its path and the messages that are serialized and
    deserialized for it ([requestSerialize], [responseDeserialize]). *)
Record rpc `{Wire} := Rpc { rpc_path : string; rpc_request : codec; rpc_response : codec }.

Section Codecs.
Context `{WireSpec}.

(** Every message is emitted by [encode] and read back, and every decoding ends. *)
Record codec_laws (c : codec) : Prop := {
  laws_end : cases_end (c_cases c);
  laws_tags m : map (fun k => (number k, expected k)) (c_cases c m) = c_tags c;
  laws_emit m : c_ok c m = true -> emits (c_cases c) (c_encode c m) (c_base c) m
}.

Lemma codec_decode_ends c n : codec_laws c -> ends (c_decode c n).
Proof. intros Hc. by apply decode_message_ends, laws_end. Qed.

Lemma codec_decode_back c m length rest : codec_laws c -> c_ok c m = true ->
  exists bs, c_encode c m = Ok bs /\
    (length = None /\ rest = [] \/ length = Some (zlen bs) ->
     c_decode c length (bs ++ rest) = Some (Ok (m, rest))).
Proof.
  intros Hc Hm. destruct (laws_emit c Hc m Hm) as (bs & He & Hf). exists bs. split; [done|].
  intros Hl. apply (feeds_decode _ _ _ m); [done | done |].
  intros e l. destruct (decode_while_ends (c_cases c) (S (List.length l)) e (c_base c) l) as (r & Hr & _);
    [by apply laws_end | lia | by exists r].
Qed.

Lemma codec_nested c v : codec_laws c -> nested_ok (c_ok c) (c_encode c) v = true ->
  carried (forked (c_encode c v)) (rd_message (c_decode c)) v.
Proof.
  intros Hc Hv. apply andb_true_iff in Hv as [Hv Hfit].
  destruct (codec_decode_back c v None [] Hc Hv) as (bs & He & _).
  unfold fits in Hfit. rewrite He in Hfit. bool_to_Z.
  destruct (uint32_back (zlen bs)) as (p & Hp & Hr); [unfold zlen; unfold zlen in Hfit; lia|].
  exists (p ++ bs). split; [unfold forked; rewrite He; cbn; by apply join_spec|].
  intros rest. rewrite <- (assoc_L (++)). unfold rd_message, rthen, rlift. rewrite Hr.
  destruct (codec_decode_back c v (Some (zlen bs)) rest Hc Hv) as (bs' & He' & Hd).
  rewrite He in He'. injection He' as <-. apply Hd. by right.
Qed.

(** *** Fields that the reader does not know *)

(** A variable-length integer or a run of bytes under a tag that no case takes:
    another number, or a known number with another wire type. *)
Inductive unknown_field (c : codec) : list Z -> Prop :=
| unknown_integer tag n tb bs :
    0 < tag < 2 ^ 32 -> switch tag (c_cases c (c_base c)) = None -> Z.land tag 7 = 0 ->
    wr_uint32 tag = Ok tb -> wr_int64 n = Ok bs -> unknown_field c (tb ++ bs)
| unknown_run tag b tb bs :
    0 < tag < 2 ^ 32 -> switch tag (c_cases c (c_base c)) = None -> Z.land tag 7 = 2 ->
    wr_uint32 tag = Ok tb -> wr_bytes b = Ok bs -> unknown_field c (tb ++ bs).

Lemma switch_none {M} tag (l l' : list (field_case M)) :
  map (fun k => (number k, expected k)) l = map (fun k => (number k, expected k)) l' ->
  switch tag l = None -> switch tag l' = None.
Proof.
  revert l'. induction l as [|k l IH]; intros [|k' l'] Hl; [done | done | done |].
  cbn in *. injection Hl as -> -> Hl. case_match; [by case_match|]. by apply IH.
Qed.

Lemma unknown_feeds c tag tb bs m :
  codec_laws c -> 0 < tag < 2 ^ 32 -> switch tag (c_cases c (c_base c)) = None ->
  Z.land tag 7 <> 4 -> wr_uint32 tag = Ok tb ->
  (forall rest, rd_skip (Z.land tag 7) (bs ++ rest) = Ok (tt, rest)) ->
  feeds (c_cases c) (tb ++ bs) m m.
Proof.
  intros Hc Htag Hsw H4 Htb Hskip e rest r He (fuel & Hr). exists (S fuel). cbn [decode_while].
  destruct (uint32_back tag ltac:(lia)) as (tb' & Ht & Hrt). rewrite Htb in Ht. injection Ht as <-.
  rewrite <- (assoc_L (++)). rewrite (proj2 (Z.ltb_lt _ _)).
  - unfold rthen at 1, rlift. rewrite Hrt, (switch_none tag (c_cases c (c_base c))); [|exact (eq_sym (laws_tags c Hc m)) | done].
    rewrite (proj2 (Z.eqb_neq (Z.land tag 7) 4) H4), (proj2 (Z.eqb_neq tag 0)) by lia. cbn [orb].
    unfold rthen, rlift. by rewrite Hskip.
  - specialize (Hrt (bs ++ rest)). apply uint32_advances in Hrt as [Hrt _].
    unfold zlen in *. rewrite !length_app in *. lia.
Qed.

Lemma unknown_field_feeds c u m : codec_laws c -> unknown_field c u -> feeds (c_cases c) u m m.
Proof.
  intros Hc [tag n tb bs Htag Hsw Ht Htb Hbs|tag b tb bs Htag Hsw Ht Htb Hbs].
  - apply (unknown_feeds c tag); try done; rewrite Ht; [done|]. intros rest. by eapply skip_int64.
  - apply (unknown_feeds c tag); try done; rewrite Ht; [done|]. intros rest. by eapply skip_bytes.
Qed.

Lemma feeds_app {M} (cases : M -> list (field_case M)) a b m m1 m2 :
  feeds cases a m m1 -> feeds cases b m1 m2 -> feeds cases (a ++ b) m m2.
Proof.
  intros Ha Hb e rest r He Hr. rewrite <- (assoc_L (++)). apply Ha; [|by apply Hb].
  unfold zlen in *. rewrite length_app. lia.
Qed.

Lemma unknown_fields_feed c us m : codec_laws c -> Forall (unknown_field c) us -> feeds (c_cases c) (concat us) m m.
Proof.
  intros Hc. induction 1 as [|u us Hu Hus IH]; cbn.
  - intros e rest r _ Hr. exact Hr.
  - eapply feeds_app; [by apply unknown_field_feeds | done].
Qed.

(** Fields of a newer service before and after those of a message are skipped. *)
Lemma decode_with_unknown c m before after : codec_laws c -> c_ok c m = true ->
  Forall (unknown_field c) before -> Forall (unknown_field c) after ->
  exists bs, c_encode c m = Ok bs /\
    c_decode c None (concat before ++ bs ++ concat after) = Some (Ok (m, [])).
Proof.
  intros Hc Hm Hb Ha. destruct (laws_emit c Hc m Hm) as (bs & He & Hf). exists bs. split; [done|].
  rewrite <- (app_nil_r (_ ++ bs ++ _)). apply (feeds_decode _ _ _ m); [|by left|].
  - eapply feeds_app; [by apply unknown_fields_feed|]. eapply feeds_app; [done|].
    by apply unknown_fields_feed.
  - intros e l. destruct (decode_while_ends (c_cases c) (S (List.length l)) e (c_base c) l) as (r & Hr & _);
      [by apply laws_end | lia | by exists r].
Qed.

(** *** The fields of a message *)

Context {M : Type} (cases : M -> list (field_case M)).

Lemma emits_repeated {A} tag (w : A -> written) (r : rd A) (get : M -> list A) (set : list A -> M -> M) l m :
  0 <= tag < 2 ^ 32 ->
  (forall m, switch tag (cases m) = Some (assign r (fun v => set (get m ++ [v]) m))) ->
  (forall a m, get (set a m) = a) -> (forall a b m, set a (set b m) = set a m) ->
  (forall m, set (get m) m = m) ->
  (forall v, v ∈ l -> carried (w v) r v) ->
  emits cases (write_each l (fun v => tagged tag (w v))) m (set (get m ++ l) m).
Proof.
  intros Htag Hsw Hgs Hss Hsg Hl.
  assert (Hfold : forall l m, fold_left (fun m v => set (get m ++ [v]) m) l m = set (get m ++ l) m).
  { clear l m Hl. induction l as [|v l IH]; intros m; cbn; [by rewrite app_nil_r|].
    rewrite IH, Hgs, Hss. by rewrite <- (assoc_L (++)). }
  rewrite <- Hfold. apply (emits_each cases l _ (fun v m => set (get m ++ [v]) m)).
  intros v m' Hv. exact (emits_field cases tag (w v) r v (fun v => set (get m' ++ [v]) m') m' Htag (Hsw m') (Hl v Hv)).
Qed.

Lemma emits_opt {A} tag (w : A -> written) (r : rd A) (set : option A -> M -> M) o m :
  0 <= tag < 2 ^ 32 -> switch tag (cases m) = Some (assign r (fun v => set (Some v) m)) ->
  (forall v, o = Some v -> carried (w v) r v) -> set None m = m ->
  emits cases (write_opt o (fun v => tagged tag (w v))) m (set o m).
Proof.
  intros Htag Hsw Ho Hn. destruct o as [v|]; [|rewrite Hn; apply emits_nil].
  exact (emits_field cases tag (w v) r v (fun v => set (Some v) m) m Htag Hsw (Ho v eq_refl)).
Qed.

End Codecs.

Lemma nonempty_false {A} (l : list A) : nonempty l = false -> l = [].
Proof. by destruct l. Qed.

Lemma nonzero_false n : nonzero n = false -> n = 0.
Proof. unfold nonzero. intros Hn. apply negb_false_iff in Hn. by apply Z.eqb_eq. Qed.

Lemma forallb_elem {A} (f : A -> bool) l v : forallb f l = true -> v ∈ l -> f v = true.
Proof. rewrite forallb_forall. intros Hl Hv. by apply Hl, list_elem_of_In. Qed.

Lemma put_entry_fresh k v l :
  ustr_eqb k (js "__proto__") = false -> existsb (fun e => ustr_eqb e.1 k) l = false ->
  array_index k = None -> put_entry k v l = l ++ [(k, v)].
Proof. unfold put_entry, put_own. by intros -> -> ->. Qed.

Lemma put_all l acc : entries_ok l = true ->
  Forall (fun e => Forall (fun e' => e'.1 <> e.1) acc) l ->
  fold_left (fun a e => put_entry e.1 e.2 a) l acc = acc ++ l.
Proof.
  revert acc. induction l as [|[k v] l IH]; intros acc Hok Hd; cbn [fold_left]; [by rewrite app_nil_r|].
  cbn in Hok. repeat (apply andb_true_iff in Hok as [Hok ?]).
  repeat match goal with H : negb _ = true |- _ => apply negb_true_iff in H end.
  apply Forall_cons in Hd as [Hk Hd]. cbn [fst snd] in *.
  rewrite put_entry_fresh, IH; [by rewrite <- (assoc_L (++)) | done | | done | | by eapply bool_decide_eq_true].
  - rewrite Forall_forall in Hd |- *. intros e He. apply Forall_app. split; [by apply Hd|].
    apply Forall_singleton. cbn. intros ->.
    assert (existsb (fun e' => ustr_eqb e'.1 e.1) l = true); [|congruence].
    apply existsb_exists. exists e. split; [by apply list_elem_of_In | by apply ustr_eqb_eq].
  - apply not_true_is_false. intros Hex. apply existsb_exists in Hex as (e & He & Hek).
    apply ustr_eqb_eq in Hek. rewrite Forall_forall in Hk. by eapply Hk, Hek; apply list_elem_of_In.
Qed.

(** A map is written entry by entry and filled again. *)
Lemma emits_entries `{WireSpec} {M E} (cases : M -> list (field_case M)) tag (w : ustr * ustr -> written)
    (r : rd E) (entry : ustr * ustr -> E) (key value : E -> ustr)
    (get : M -> entries) (set : entries -> M -> M) l m :
  0 <= tag < 2 ^ 32 ->
  (forall m, switch tag (cases m) =
             Some (assign r (fun e => set (put_entry (key e) (value e) (get m)) m))) ->
  (forall e, e ∈ l -> carried (w e) r (entry e)) ->
  (forall e, key (entry e) = e.1 /\ value (entry e) = e.2) ->
  (forall a m, get (set a m) = a) -> (forall a b m, set a (set b m) = set a m) ->
  (forall m, set (get m) m = m) -> get m = [] -> entries_ok l = true ->
  emits cases (write_each l (fun e => tagged tag (w e))) m (set l m).
Proof.
  intros Htag Hsw Hl Hkv Hgs Hss Hsg Hm Hok.
  assert (Hfold : forall l m,
    fold_left (fun m e => set (put_entry e.1 e.2 (get m)) m) l m =
    set (fold_left (fun a e => put_entry e.1 e.2 a) l (get m)) m).
  { clear l m Hl Hm Hok. induction l as [|e l IH]; intros m; cbn; [done|]. by rewrite IH, Hgs, Hss. }
  replace (set l m) with (fold_left (fun m e => set (put_entry e.1 e.2 (get m)) m) l m).
  - apply (emits_each cases l _ (fun e m => set (put_entry e.1 e.2 (get m)) m)). intros e m' He.
    destruct (Hkv e) as [Hk Hv].
    pose proof (emits_field cases tag (w e) r (entry e)
      (fun e => set (put_entry (key e) (value e) (get m')) m') m' Htag (Hsw m') (Hl e He)) as Hf.
    cbn in Hf. by rewrite Hk, Hv in Hf.
  - rewrite Hfold, Hm, put_all; [done | done |]. apply Forall_forall. intros. constructor.
Qed.

(** *** Automation *)

Create HintDb wire.
Create HintDb wire_laws.

Arguments wire_text : simpl never.
Arguments wire_bytes : simpl never.
Arguments int_fits : simpl never.
Arguments safe_long : simpl never.
Arguments nested_ok : simpl never.
Arguments opt_ok : simpl never.
Arguments entries_ok : simpl never.
Arguments forallb : simpl never.
Arguments writes : simpl never.
Arguments write_if : simpl never.
Arguments write_opt : simpl never.
Arguments write_each : simpl never.
Arguments tagged : simpl never.
Arguments forked : simpl never.
Arguments nonempty : simpl never.
Arguments nonzero : simpl never.

Lemma carried_uint32 `{WireSpec} n : 0 <= n < 2 ^ 32 -> carried (wr_uint32 n) (rlift rd_uint32) n.
Proof. intros. by apply carried_back, uint32_back. Qed.
Lemma carried_int32 `{WireSpec} n : int_fits 32 n = true -> carried (wr_int32 n) (rlift rd_int32) n.
Proof. intros. by apply carried_back, int32_back. Qed.
Lemma carried_bool `{WireSpec} b : carried (wr_bool b) (rlift rd_bool) b.
Proof. apply carried_back, bool_back. Qed.
Lemma carried_string `{WireSpec} s : wire_text s = true -> carried (wr_string s) (rlift rd_string) s.
Proof. intros. by apply carried_back, string_back. Qed.
Lemma carried_bytes `{WireSpec} b : wire_bytes b = true -> carried (wr_bytes b) (rlift rd_bytes) b.
Proof. intros. by apply carried_back, bytes_back. Qed.

#[export] Hint Resolve carried_int32 carried_bool carried_string carried_bytes carried_long : wire.
#[export] Hint Resolve ends_assign ends_lift ends_long ends_message : wire.
#[export] Hint Resolve uint32_forward int32_forward int64_forward bool_forward string_forward bytes_forward : wire.

Ltac wire_default H :=
  first [apply nonempty_false in H | apply nonzero_false in H | idtac]; subst; reflexivity.

Ltac wire_ends :=
  cbn [statement]; apply ends_assign;
  first [apply ends_long | apply ends_lift; by eauto with wire | apply ends_message; intros; by eauto with wire].

Ltac wire_field :=
  lazymatch goal with
  | |- emits _ (write_if _ _) _ _ =>
      eapply emits_if; [intros _; eapply emits_field; [lia | reflexivity | by eauto with wire]
                       | let Hd := fresh in intros Hd; wire_default Hd]
  | |- emits _ (write_opt ?o _) _ _ =>
      eapply emits_opt;
        [lia | reflexivity | let v := fresh in let Hv := fresh in intros v Hv; subst o; by eauto with wire
        | reflexivity]
  end.

Ltac wire_hyps :=
  repeat match goal with
  | H : (_ && _) = true |- _ => apply andb_true_iff in H as [? ?]
  end.

Lemma forall_carried `{Wire} {A B} (ok : A -> bool) (w : A -> written) (r : rd B) (g : A -> B) l :
  forallb ok l = true -> (forall v, ok v = true -> carried (w v) r (g v)) ->
  forall v, v ∈ l -> carried (w v) r (g v).
Proof. intros Hl Hw v Hv. by eapply Hw, forallb_elem. Qed.

(** The fields of a record one after the other, and the ends of its readers. *)
Tactic Notation "prove_codec" reference(c) reference(enc) reference(ok) :=
  unfold c; split; [ | intros; reflexivity | ];
  [ let m := fresh in intros m; cbn [c_cases c_message] in *;
    lazymatch goal with |- Forall ?P ?l => let l' := eval hnf in l in change (Forall P l') end;
    repeat (eapply List.Forall_cons; [wire_ends|]); eapply List.Forall_nil
  | let m := fresh in let Hok := fresh in
    intros m Hok; destruct m; cbn [c_encode c_cases c_base c_ok] in *; unfold ok in Hok; unfold enc;
    cbn in Hok; cbn; wire_hyps;
    repeat (eapply emits_cons;
      [lazymatch goal with
       | |- emits _ (write_each _ _) _ _ =>
           first
           [ eapply emits_repeated;
             [lia | intros; reflexivity | intros ? []; reflexivity | intros ? ? []; reflexivity | intros []; reflexivity
             | eapply (forall_carried _ _ _ id); [eassumption|]; intros; by eauto with wire]
           | eapply emits_entries;
             [lia | intros; reflexivity
             | eapply forall_carried; [eassumption|]; intros; by eauto with wire
             | intros []; split; reflexivity | intros ? []; reflexivity
             | intros ? ? []; reflexivity | intros []; reflexivity | reflexivity | eassumption] ]
       | _ => wire_field end|]);
    apply emits_nil ].
