(* ===== verification/WireModel.v ===== *)
(** * A concrete wire

    Variable-length integers, lengths and wire types as the encoding guide of
    protocol buffers has them, on byte lists: an instance of [Wire], and the
    proof that it satisfies [WireSpec]. It is only used by witnesses. Texts are
    the bytes of their code units ([WebCrypto.units_to_bytes]). *)

From S2P Require Import Prelude JsString Gateway UString UJson WebCrypto Wire.

Open Scope Z_scope.

Definition wire_error {A} (text : string) : result js_error A := Err (plain_error text).

(** ** Variable-length integers: seven bits per byte, at most ten bytes *)

Fixpoint venc (fuel : nat) (n : Z) : list Z :=
  match fuel with
  | O => []
  | S f => if n <? 128 then [n] else 128 + n mod 128 :: venc f (n / 128)
  end.

Fixpoint vdec (fuel : nat) (l : list Z) : result js_error (Z * list Z) :=
  match fuel, l with
  | O, _ => wire_error "invalid varint"
  | S _, [] => wire_error "premature EOF"
  | S f, b :: l' =>
      if b <? 128 then Ok (b, l')
      else let! r := vdec f l' in Ok (b - 128 + 128 * r.1, r.2)
  end.

Definition varint (n : Z) : list Z := venc 10 (n mod 2 ^ 64).

(** ** The operations *)

Definition signed (bits n : Z) : Z := (n + 2 ^ (bits - 1)) mod 2 ^ bits - 2 ^ (bits - 1).

Definition when_fits (b : bool) (w : list Z) : written := if b then Ok w else wire_error "invalid value".

Definition read_int (f : Z -> Z) : reader Z := fun l => let! r := vdec 10 l in Ok (f r.1, r.2).

(** [n] bytes of the rest. *)
Definition take_bytes (n : Z) : reader (list Z) := fun l =>
  if zlen l <? n then wire_error "premature EOF" else Ok (take (Z.to_nat n) l, drop (Z.to_nat n) l).

Definition read_run : reader (list Z) := fun l =>
  let! r := read_int (fun n => n mod 2 ^ 32) l in take_bytes r.1 r.2.

Definition skip_run (n : Z) : reader unit := fun l => let! r := take_bytes n l in Ok (tt, r.2).

#[export] Instance model_wire : Wire := {|
  wr_uint32 n := when_fits ((0 <=? n) && (n <? 2 ^ 32)) (varint n);
  wr_int32 n := when_fits (int_fits 32 n) (varint n);
  wr_int64 n := when_fits (int_fits 64 n) (varint n);
  wr_bool b := Ok (varint (Z.b2z b));
  wr_string s := let b := units_to_bytes s in Ok (varint (zlen b) ++ b);
  wr_bytes b := when_fits (zlen b <? 2 ^ 32) (varint (zlen b) ++ b);
  wr_join c := Ok (varint (zlen c) ++ c);
  rd_uint32 := read_int (fun n => n mod 2 ^ 32);
  rd_int32 := read_int (signed 32);
  rd_int64 := read_int (signed 64);
  rd_bool l := let! r := read_int id l in Ok (negb (r.1 =? 0), r.2);
  rd_string l := let! r := read_run l in Ok (units_of_bytes r.1, r.2);
  rd_bytes := read_run;
  rd_skip t l :=
    if t =? 0 then let! r := vdec 10 l in Ok (tt, r.2)
    else if t =? 1 then skip_run 8 l
    else if t =? 2 then let! r := read_run l in Ok (tt, r.2)
    else if t =? 5 then skip_run 4 l
    else wire_error "cant skip wire type"
|}.

(** ** It satisfies the laws *)

Arguments vdec : simpl never.
Arguments varint : simpl never.
Arguments read_int : simpl never.
Arguments read_run : simpl never.
Arguments skip_run : simpl never.

Lemma venc_S f n : venc (S f) n = if n <? 128 then [n] else 128 + n mod 128 :: venc f (n / 128).
Proof. done. Qed.

Lemma vdec_S f b l : vdec (S f) (b :: l) =
  if b <? 128 then Ok (b, l) else let! r := vdec f l in Ok (b - 128 + 128 * r.1, r.2).
Proof. done. Qed.

Lemma venc_vdec f n rest : 0 <= n < 128 ^ Z.of_nat (S f) -> vdec (S f) (venc (S f) n ++ rest) = Ok (n, rest).
Proof.
  revert n. induction f as [|f IH]; intros n Hn; rewrite Nat2Z.inj_succ, Z.pow_succ_r in Hn by lia;
    rewrite venc_S; destruct (Z.ltb_spec n 128) as [Hs|Hs]; rewrite <- ?app_comm_cons, vdec_S.
  - by rewrite (proj2 (Z.ltb_lt n 128) Hs).
  - cbn in Hn. lia.
  - by rewrite (proj2 (Z.ltb_lt n 128) Hs).
  - pose proof (Z.mod_pos_bound n 128 ltac:(lia)).
    rewrite (proj2 (Z.ltb_ge (128 + n mod 128) 128)) by lia. rewrite IH.
    + cbn [rbind fst snd]. do 2 f_equal. pose proof (Z.div_mod n 128). lia.
    + split; [apply Z.div_pos; lia | apply Z.div_lt_upper_bound; lia].
Qed.

Lemma vdec_varint n rest : vdec 10 (varint n ++ rest) = Ok (n mod 2 ^ 64, rest).
Proof. apply venc_vdec. pose proof (Z.mod_pos_bound n (2 ^ 64) ltac:(lia)).
  change (128 ^ Z.of_nat 10) with (2 ^ 70). lia. Qed.

Lemma vdec_advances f l n l' : vdec f l = Ok (n, l') -> (length l' < length l)%nat.
Proof.
  revert l n l'. induction f as [|f IH]; intros [|b l] n l'; try done; try rewrite vdec_S.
  case_match; [intros [= <- <-]; cbn; lia|].
  destruct (vdec f l) as [[m l2]|] eqn:E; cbn; [|done]. intros [= <- <-].
  apply IH in E. lia.
Qed.

Lemma read_int_back f n m : f (n mod 2 ^ 64) = m -> forall rest, read_int f (varint n ++ rest) = Ok (m, rest).
Proof. intros Hf rest. unfold read_int. rewrite vdec_varint. cbn. by rewrite Hf. Qed.

Lemma read_int_advances f l n l' : read_int f l = Ok (n, l') ->
  (length l' < length l)%nat /\ exists m, n = f m.
Proof.
  unfold read_int. destruct (vdec 10 l) as [[m l2]|] eqn:E; cbn; [|done]. intros [= <- <-].
  apply vdec_advances in E. split; [done | by exists m].
Qed.

Lemma read_run_back b rest : zlen b < 2 ^ 32 -> read_run (varint (zlen b) ++ b ++ rest) = Ok (b, rest).
Proof.
  intros Hb. unfold read_run. assert (0 <= zlen b) by (unfold zlen; lia).
  rewrite (read_int_back _ _ (zlen b)); [|rewrite (Z.mod_small (zlen b)), Z.mod_small; lia].
  cbn. unfold take_bytes, zlen in *. rewrite length_app.
  rewrite (proj2 (Z.ltb_ge (Z.of_nat (length b + length rest)) (Z.of_nat (length b)))) by lia.
  rewrite Nat2Z.id, take_app_length, drop_app_length. done.
Qed.

Lemma take_bytes_forward n : forward (take_bytes n).
Proof.
  intros l v l'. unfold take_bytes. case_match; [done|]. intros [= <- <-]. rewrite length_drop. lia.
Qed.

Lemma read_run_forward : forward read_run.
Proof.
  intros l v l'. unfold read_run. destruct (read_int _ l) as [[n l1]|] eqn:E; cbn; [|done].
  apply read_int_advances in E as [E _]. intros Ht. apply take_bytes_forward in Ht. lia.
Qed.

Lemma skip_run_forward n : forward (skip_run n).
Proof.
  intros l v l'. unfold skip_run. destruct (take_bytes n l) as [[b l1]|] eqn:E; cbn; [|done].
  intros [= <- <-]. by apply take_bytes_forward in E.
Qed.

Lemma read_int_forward f : forward (read_int f).
Proof. intros l v l' Hr. apply read_int_advances in Hr as [Hr _]. lia. Qed.

Lemma signed_back bits n : 1 < bits <= 64 -> int_fits bits n = true -> signed bits (n mod 2 ^ 64) = n.
Proof.
  intros Hb Hn. unfold int_fits in Hn. bool_to_Z. unfold signed.
  assert (H2 : 2 ^ bits = 2 * 2 ^ (bits - 1)) by (rewrite <- Z.pow_succ_r by lia; f_equal; lia).
  assert (Hd : 2 ^ 64 = 2 ^ (64 - bits) * 2 ^ bits) by (rewrite <- Z.pow_add_r by lia; f_equal; lia).
  assert (Hm : (n mod 2 ^ 64) mod 2 ^ bits = n mod 2 ^ bits).
  { symmetry. rewrite (Z.mod_eq n (2 ^ 64)) by lia. rewrite Hd.
    replace (n - 2 ^ (64 - bits) * 2 ^ bits * (n / (2 ^ (64 - bits) * 2 ^ bits)))
      with (n + - (2 ^ (64 - bits) * (n / (2 ^ (64 - bits) * 2 ^ bits))) * 2 ^ bits) by ring.
    by rewrite Z.mod_add by lia. }
  rewrite Z.add_mod, Hm, <- Z.add_mod by lia. rewrite Z.mod_small; lia.
Qed.

Lemma read_back_int (b : bool) f n : b = true -> f (n mod 2 ^ 64) = n ->
  read_back (when_fits b (varint n)) (read_int f) n.
Proof. intros -> Hf. exists (varint n). split; [done|]. by apply read_int_back. Qed.

Lemma units_length s : Forall unit_ok s -> zlen (units_to_bytes s) <= 3 * zlen s.
Proof.
  unfold zlen. induction 1 as [|u s Hu Hs IH]; [done|]. cbn [units_to_bytes flat_map].
  rewrite length_app. change (flat_map unit_bytes s) with (units_to_bytes s).
  assert (length (unit_bytes u) <= 3)%nat by (unfold unit_bytes; repeat case_match; cbn; lia). cbn [length]. lia.
Qed.

Lemma model_back_string s : wire_text s = true -> read_back (wr_string s) rd_string s.
Proof.
  intros Hs. unfold wire_text, text_ok in Hs. repeat (apply andb_true_iff in Hs as [Hs ?]).
  apply forallb_units in Hs. bool_to_Z. pose proof (units_length s Hs).
  eexists. split; [done|]. intros rest. cbn [rd_string model_wire]. rewrite <- (assoc_L (++)), read_run_back by lia. cbn.
  by rewrite units_roundtrip.
Qed.

Lemma model_back_bytes b : wire_bytes b = true -> read_back (wr_bytes b) rd_bytes b.
Proof.
  intros Hb. unfold wire_bytes in Hb. apply andb_true_iff in Hb as [_ Hb].
  exists (varint (zlen b) ++ b). split; [cbn; by rewrite Hb|]. intros rest. bool_to_Z.
  cbn [rd_bytes model_wire]. by rewrite <- (assoc_L (++)), read_run_back by lia.
Qed.

Lemma model_skip_forward t : forward (rd_skip t).
Proof.
  intros l v l'. cbn. repeat case_match; try done.
  - destruct (vdec 10 l) as [[n l1]|] eqn:E; cbn; [|done]. intros [= <- <-]. apply vdec_advances in E. lia.
  - apply skip_run_forward.
  - destruct (read_run l) as [[n l1]|] eqn:E; cbn; [|done]. intros [= <- <-]. by apply read_run_forward in E.
  - apply skip_run_forward.
Qed.

#[export] Instance model_wire_spec : WireSpec.
Proof.
  split; try (intros; apply read_int_forward).
  - intros n Hn. apply read_back_int; [|rewrite (Z.mod_small n (2 ^ 64)), Z.mod_small; lia].
    apply andb_true_iff. split; [apply Z.leb_le | apply Z.ltb_lt]; lia.
  - intros n Hn. apply read_back_int; [done|]. by apply signed_back.
  - intros n Hn. cbn. rewrite Hn. by eexists.
  - intros n Hn. apply read_back_int; [done|]. by apply signed_back.
  - intros b. exists (varint (Z.b2z b)). split; [done|]. intros rest. cbn.
    rewrite (read_int_back _ _ (Z.b2z b)) by (by destruct b). by destruct b.
  - apply model_back_string.
  - apply model_back_bytes.
  - intros c p Hc Hp. cbn in Hp. rewrite (proj2 (Z.ltb_lt _ _) Hc), andb_true_r in Hp.
    destruct (0 <=? zlen c); [|done]. by injection Hp as <-.
  - intros l n l' Hr. apply read_int_advances in Hr as [Hl [m ->]]. split; [done|].
    apply Z.mod_pos_bound. lia.
  - intros l v l'. cbn. destruct (read_int id l) as [[n l1]|] eqn:E; cbn; [|done]. intros [= <- <-].
    by eapply read_int_forward.
  - intros l v l'. cbn. destruct (read_run l) as [[n l1]|] eqn:E; cbn; [|done]. intros [= <- <-].
    by eapply read_run_forward.
  - apply read_run_forward.
  - apply model_skip_forward.
  - intros n bs rest Hw. cbn in Hw. destruct (int_fits 64 n); [|done]. injection Hw as <-. cbn.
    by rewrite vdec_varint.
  - intros b bs rest Hw. cbn in Hw. destruct (zlen b <? 2 ^ 32) eqn:Hb; [|done]. injection Hw as <-.
    bool_to_Z. cbn. by rewrite <- (assoc_L (++)), read_run_back by lia.
Qed.
