(* ===== verification/KdcProto.v ===== *)
(** * The messages of the KDC

    [api-gateway/src/proto/kdc.ts]: every message with its [createBase], [encode] and
    [decode], in the order of their dependencies. [cases] is the [switch] of
    [decode], [wf] the messages that the wire can carry. An [enum] is the number
    that it is at run time. *)

From S2P Require Import Prelude JsString Gateway UString Wire.

Open Scope Z_scope.
Open Scope wire_scope.

Module ASRequest.

(** [N] is the representation of the numbers. *)
Record msg (N : Type) := Mk {
  ownerId : ustr;
  certSn : ustr;
  nonce : list Z;
  timestamp : N;
  signature : list Z
}.

Arguments Mk {N}.
Arguments ownerId {N}.
Arguments certSn {N}.
Arguments nonce {N}.
Arguments timestamp {N}.
Arguments signature {N}.

Definition t : Type := msg Z.

Definition createBase : t := Mk [] [] [] 0 [].

Definition set_ownerId (v : ustr) (m : t) : t :=
  let 'Mk _ x1 x2 x3 x4 := m in Mk v x1 x2 x3 x4.
Definition set_certSn (v : ustr) (m : t) : t :=
  let 'Mk x0 _ x2 x3 x4 := m in Mk x0 v x2 x3 x4.
Definition set_nonce (v : list Z) (m : t) : t :=
  let 'Mk x0 x1 _ x3 x4 := m in Mk x0 x1 v x3 x4.
Definition set_timestamp (v : Z) (m : t) : t :=
  let 'Mk x0 x1 x2 _ x4 := m in Mk x0 x1 x2 v x4.
Definition set_signature (v : list Z) (m : t) : t :=
  let 'Mk x0 x1 x2 x3 _ := m in Mk x0 x1 x2 x3 v.

Section Codec.
Context `{Wire}.

Definition encode (message : t) : written :=
  writes [write_if (nonempty (ownerId message)) (tagged 10 (wr_string (ownerId message)));
    write_if (nonempty (certSn message)) (tagged 18 (wr_string (certSn message)));
    write_if (nonempty (nonce message)) (tagged 26 (wr_bytes (nonce message)));
    write_if (nonzero (timestamp message)) (tagged 32 (wr_int64 (timestamp message)));
    write_if (nonempty (signature message)) (tagged 42 (wr_bytes (signature message)))].

Definition cases (message : t) : list (field_case t) :=
  [Case 1 10 (assign (rlift rd_string) (fun v => set_ownerId v message));
   Case 2 18 (assign (rlift rd_string) (fun v => set_certSn v message));
   Case 3 26 (assign (rlift rd_bytes) (fun v => set_nonce v message));
   Case 4 32 (assign rd_long (fun v => set_timestamp v message));
   Case 5 42 (assign (rlift rd_bytes) (fun v => set_signature v message))].

Definition decode : option Z -> rd t := decode_message cases createBase.

Definition wf (message : t) : bool :=
  wire_text (ownerId message) &&
  wire_text (certSn message) &&
  wire_bytes (nonce message) &&
  safe_long (timestamp message) &&
  wire_bytes (signature message).

Definition wire : codec := Codec _ "ASRequest" t createBase cases encode wf.

End Codec.
End ASRequest.

Module ASResponse.

(** [N] is the representation of the numbers. *)
Record msg (N : Type) := Mk {
  asRep : list Z;
  tgtExpiresAtUnix : N
}.

Arguments Mk {N}.
Arguments asRep {N}.
Arguments tgtExpiresAtUnix {N}.

Definition t : Type := msg Z.

Definition createBase : t := Mk [] 0.

Definition set_asRep (v : list Z) (m : t) : t :=
  let 'Mk _ x1 := m in Mk v x1.
Definition set_tgtExpiresAtUnix (v : Z) (m : t) : t :=
  let 'Mk x0 _ := m in Mk x0 v.

Section Codec.
Context `{Wire}.

Definition encode (message : t) : written :=
  writes [write_if (nonempty (asRep message)) (tagged 10 (wr_bytes (asRep message)));
    write_if (nonzero (tgtExpiresAtUnix message)) (tagged 16 (wr_int64 (tgtExpiresAtUnix message)))].

Definition cases (message : t) : list (field_case t) :=
  [Case 1 10 (assign (rlift rd_bytes) (fun v => set_asRep v message));
   Case 2 16 (assign rd_long (fun v => set_tgtExpiresAtUnix v message))].

Definition decode : option Z -> rd t := decode_message cases createBase.

Definition wf (message : t) : bool :=
  wire_bytes (asRep message) &&
  safe_long (tgtExpiresAtUnix message).

Definition wire : codec := Codec _ "ASResponse" t createBase cases encode wf.

End Codec.
End ASResponse.

Module TGSRequest.

Record t := Mk {
  tgt : list Z;
  authenticator : list Z;
  scope : ustr;
  serviceId : ustr;
  certSn : ustr;
  nonce : list Z
}.

Definition createBase : t := Mk [] [] [] [] [] [].

Definition set_tgt (v : list Z) (m : t) : t :=
  let 'Mk _ x1 x2 x3 x4 x5 := m in Mk v x1 x2 x3 x4 x5.
Definition set_authenticator (v : list Z) (m : t) : t :=
  let 'Mk x0 _ x2 x3 x4 x5 := m in Mk x0 v x2 x3 x4 x5.
Definition set_scope (v : ustr) (m : t) : t :=
  let 'Mk x0 x1 _ x3 x4 x5 := m in Mk x0 x1 v x3 x4 x5.
Definition set_serviceId (v : ustr) (m : t) : t :=
  let 'Mk x0 x1 x2 _ x4 x5 := m in Mk x0 x1 x2 v x4 x5.
Definition set_certSn (v : ustr) (m : t) : t :=
  let 'Mk x0 x1 x2 x3 _ x5 := m in Mk x0 x1 x2 x3 v x5.
Definition set_nonce (v : list Z) (m : t) : t :=
  let 'Mk x0 x1 x2 x3 x4 _ := m in Mk x0 x1 x2 x3 x4 v.

Section Codec.
Context `{Wire}.

Definition encode (message : t) : written :=
  writes [write_if (nonempty (tgt message)) (tagged 10 (wr_bytes (tgt message)));
    write_if (nonempty (authenticator message)) (tagged 18 (wr_bytes (authenticator message)));
    write_if (nonempty (scope message)) (tagged 26 (wr_string (scope message)));
    write_if (nonempty (serviceId message)) (tagged 34 (wr_string (serviceId message)));
    write_if (nonempty (certSn message)) (tagged 42 (wr_string (certSn message)));
    write_if (nonempty (nonce message)) (tagged 50 (wr_bytes (nonce message)))].

Definition cases (message : t) : list (field_case t) :=
  [Case 1 10 (assign (rlift rd_bytes) (fun v => set_tgt v message));
   Case 2 18 (assign (rlift rd_bytes) (fun v => set_authenticator v message));
   Case 3 26 (assign (rlift rd_string) (fun v => set_scope v message));
   Case 4 34 (assign (rlift rd_string) (fun v => set_serviceId v message));
   Case 5 42 (assign (rlift rd_string) (fun v => set_certSn v message));
   Case 6 50 (assign (rlift rd_bytes) (fun v => set_nonce v message))].

Definition decode : option Z -> rd t := decode_message cases createBase.

Definition wf (message : t) : bool :=
  wire_bytes (tgt message) &&
  wire_bytes (authenticator message) &&
  wire_text (scope message) &&
  wire_text (serviceId message) &&
  wire_text (certSn message) &&
  wire_bytes (nonce message).

Definition wire : codec := Codec _ "TGSRequest" t createBase cases encode wf.

End Codec.
End TGSRequest.

Module TGSResponse.

(** [N] is the representation of the numbers. *)
Record msg (N : Type) := Mk {
  tgsRep : list Z;
  ticketExpiresAtUnix : N;
  scope : ustr;
  serviceId : ustr
}.

Arguments Mk {N}.
Arguments tgsRep {N}.
Arguments ticketExpiresAtUnix {N}.
Arguments scope {N}.
Arguments serviceId {N}.

Definition t : Type := msg Z.

Definition createBase : t := Mk [] 0 [] [].

Definition set_tgsRep (v : list Z) (m : t) : t :=
  let 'Mk _ x1 x2 x3 := m in Mk v x1 x2 x3.
Definition set_ticketExpiresAtUnix (v : Z) (m : t) : t :=
  let 'Mk x0 _ x2 x3 := m in Mk x0 v x2 x3.
Definition set_scope (v : ustr) (m : t) : t :=
  let 'Mk x0 x1 _ x3 := m in Mk x0 x1 v x3.
Definition set_serviceId (v : ustr) (m : t) : t :=
  let 'Mk x0 x1 x2 _ := m in Mk x0 x1 x2 v.

Section Codec.
Context `{Wire}.

Definition encode (message : t) : written :=
  writes [write_if (nonempty (tgsRep message)) (tagged 10 (wr_bytes (tgsRep message)));
    write_if (nonzero (ticketExpiresAtUnix message)) (tagged 16 (wr_int64 (ticketExpiresAtUnix message)));
    write_if (nonempty (scope message)) (tagged 26 (wr_string (scope message)));
    write_if (nonempty (serviceId message)) (tagged 34 (wr_string (serviceId message)))].

Definition cases (message : t) : list (field_case t) :=
  [Case 1 10 (assign (rlift rd_bytes) (fun v => set_tgsRep v message));
   Case 2 16 (assign rd_long (fun v => set_ticketExpiresAtUnix v message));
   Case 3 26 (assign (rlift rd_string) (fun v => set_scope v message));
   Case 4 34 (assign (rlift rd_string) (fun v => set_serviceId v message))].

Definition decode : option Z -> rd t := decode_message cases createBase.

Definition wf (message : t) : bool :=
  wire_bytes (tgsRep message) &&
  safe_long (ticketExpiresAtUnix message) &&
  wire_text (scope message) &&
  wire_text (serviceId message).

Definition wire : codec := Codec _ "TGSResponse" t createBase cases encode wf.

End Codec.
End TGSResponse.

Module ListAuditEventsRequest.

(** [N] is the representation of the numbers. *)
Record msg (N : Type) := Mk {
  action : ustr;
  clientId : ustr;
  certSerial : ustr;
  requestId : ustr;
  fromUnix : N;
  toUnix : N;
  limit : N;
  offset : N
}.

Arguments Mk {N}.
Arguments action {N}.
Arguments clientId {N}.
Arguments certSerial {N}.
Arguments requestId {N}.
Arguments fromUnix {N}.
Arguments toUnix {N}.
Arguments limit {N}.
Arguments offset {N}.

Definition t : Type := msg Z.

Definition createBase : t := Mk [] [] [] [] 0 0 0 0.

Definition set_action (v : ustr) (m : t) : t :=
  let 'Mk _ x1 x2 x3 x4 x5 x6 x7 := m in Mk v x1 x2 x3 x4 x5 x6 x7.
Definition set_clientId (v : ustr) (m : t) : t :=
  let 'Mk x0 _ x2 x3 x4 x5 x6 x7 := m in Mk x0 v x2 x3 x4 x5 x6 x7.
Definition set_certSerial (v : ustr) (m : t) : t :=
  let 'Mk x0 x1 _ x3 x4 x5 x6 x7 := m in Mk x0 x1 v x3 x4 x5 x6 x7.
Definition set_requestId (v : ustr) (m : t) : t :=
  let 'Mk x0 x1 x2 _ x4 x5 x6 x7 := m in Mk x0 x1 x2 v x4 x5 x6 x7.
Definition set_fromUnix (v : Z) (m : t) : t :=
  let 'Mk x0 x1 x2 x3 _ x5 x6 x7 := m in Mk x0 x1 x2 x3 v x5 x6 x7.
Definition set_toUnix (v : Z) (m : t) : t :=
  let 'Mk x0 x1 x2 x3 x4 _ x6 x7 := m in Mk x0 x1 x2 x3 x4 v x6 x7.
Definition set_limit (v : Z) (m : t) : t :=
  let 'Mk x0 x1 x2 x3 x4 x5 _ x7 := m in Mk x0 x1 x2 x3 x4 x5 v x7.
Definition set_offset (v : Z) (m : t) : t :=
  let 'Mk x0 x1 x2 x3 x4 x5 x6 _ := m in Mk x0 x1 x2 x3 x4 x5 x6 v.

Section Codec.
Context `{Wire}.

Definition encode (message : t) : written :=
  writes [write_if (nonempty (action message)) (tagged 10 (wr_string (action message)));
    write_if (nonempty (clientId message)) (tagged 18 (wr_string (clientId message)));
    write_if (nonempty (certSerial message)) (tagged 26 (wr_string (certSerial message)));
    write_if (nonempty (requestId message)) (tagged 34 (wr_string (requestId message)));
    write_if (nonzero (fromUnix message)) (tagged 40 (wr_int64 (fromUnix message)));
    write_if (nonzero (toUnix message)) (tagged 48 (wr_int64 (toUnix message)));
    write_if (nonzero (limit message)) (tagged 56 (wr_int32 (limit message)));
    write_if (nonzero (offset message)) (tagged 64 (wr_int32 (offset message)))].

Definition cases (message : t) : list (field_case t) :=
  [Case 1 10 (assign (rlift rd_string) (fun v => set_action v message));
   Case 2 18 (assign (rlift rd_string) (fun v => set_clientId v message));
   Case 3 26 (assign (rlift rd_string) (fun v => set_certSerial v message));
   Case 4 34 (assign (rlift rd_string) (fun v => set_requestId v message));
   Case 5 40 (assign rd_long (fun v => set_fromUnix v message));
   Case 6 48 (assign rd_long (fun v => set_toUnix v message));
   Case 7 56 (assign (rlift rd_int32) (fun v => set_limit v message));
   Case 8 64 (assign (rlift rd_int32) (fun v => set_offset v message))].

Definition decode : option Z -> rd t := decode_message cases createBase.

Definition wf (message : t) : bool :=
  wire_text (action message) &&
  wire_text (clientId message) &&
  wire_text (certSerial message) &&
  wire_text (requestId message) &&
  safe_long (fromUnix message) &&
  safe_long (toUnix message) &&
  int_fits 32 (limit message) &&
  int_fits 32 (offset message).

Definition wire : codec := Codec _ "ListAuditEventsRequest" t createBase cases encode wf.

End Codec.
End ListAuditEventsRequest.

Module KdcAuditRecord.

(** [N] is the representation of the numbers. *)
Record msg (N : Type) := Mk {
  id : ustr;
  action : ustr;
  clientId : ustr;
  certSerial : ustr;
  scope : ustr;
  reason : ustr;
  requestId : ustr;
  ip : ustr;
  metadataJson : ustr;
  createdAtUnix : N
}.

Arguments Mk {N}.
Arguments id {N}.
Arguments action {N}.
Arguments clientId {N}.
Arguments certSerial {N}.
Arguments scope {N}.
Arguments reason {N}.
Arguments requestId {N}.
Arguments ip {N}.
Arguments metadataJson {N}.
Arguments createdAtUnix {N}.

Definition t : Type := msg Z.

Definition createBase : t := Mk [] [] [] [] [] [] [] [] [] 0.

Definition set_id (v : ustr) (m : t) : t :=
  let 'Mk _ x1 x2 x3 x4 x5 x6 x7 x8 x9 := m in Mk v x1 x2 x3 x4 x5 x6 x7 x8 x9.
Definition set_action (v : ustr) (m : t) : t :=
  let 'Mk x0 _ x2 x3 x4 x5 x6 x7 x8 x9 := m in Mk x0 v x2 x3 x4 x5 x6 x7 x8 x9.
Definition set_clientId (v : ustr) (m : t) : t :=
  let 'Mk x0 x1 _ x3 x4 x5 x6 x7 x8 x9 := m in Mk x0 x1 v x3 x4 x5 x6 x7 x8 x9.
Definition set_certSerial (v : ustr) (m : t) : t :=
  let 'Mk x0 x1 x2 _ x4 x5 x6 x7 x8 x9 := m in Mk x0 x1 x2 v x4 x5 x6 x7 x8 x9.
Definition set_scope (v : ustr) (m : t) : t :=
  let 'Mk x0 x1 x2 x3 _ x5 x6 x7 x8 x9 := m in Mk x0 x1 x2 x3 v x5 x6 x7 x8 x9.
Definition set_reason (v : ustr) (m : t) : t :=
  let 'Mk x0 x1 x2 x3 x4 _ x6 x7 x8 x9 := m in Mk x0 x1 x2 x3 x4 v x6 x7 x8 x9.
Definition set_requestId (v : ustr) (m : t) : t :=
  let 'Mk x0 x1 x2 x3 x4 x5 _ x7 x8 x9 := m in Mk x0 x1 x2 x3 x4 x5 v x7 x8 x9.
Definition set_ip (v : ustr) (m : t) : t :=
  let 'Mk x0 x1 x2 x3 x4 x5 x6 _ x8 x9 := m in Mk x0 x1 x2 x3 x4 x5 x6 v x8 x9.
Definition set_metadataJson (v : ustr) (m : t) : t :=
  let 'Mk x0 x1 x2 x3 x4 x5 x6 x7 _ x9 := m in Mk x0 x1 x2 x3 x4 x5 x6 x7 v x9.
Definition set_createdAtUnix (v : Z) (m : t) : t :=
  let 'Mk x0 x1 x2 x3 x4 x5 x6 x7 x8 _ := m in Mk x0 x1 x2 x3 x4 x5 x6 x7 x8 v.

Section Codec.
Context `{Wire}.

Definition encode (message : t) : written :=
  writes [write_if (nonempty (id message)) (tagged 10 (wr_string (id message)));
    write_if (nonempty (action message)) (tagged 18 (wr_string (action message)));
    write_if (nonempty (clientId message)) (tagged 26 (wr_string (clientId message)));
    write_if (nonempty (certSerial message)) (tagged 34 (wr_string (certSerial message)));
    write_if (nonempty (scope message)) (tagged 42 (wr_string (scope message)));
    write_if (nonempty (reason message)) (tagged 50 (wr_string (reason message)));
    write_if (nonempty (requestId message)) (tagged 58 (wr_string (requestId message)));
    write_if (nonempty (ip message)) (tagged 66 (wr_string (ip message)));
    write_if (nonempty (metadataJson message)) (tagged 74 (wr_string (metadataJson message)));
    write_if (nonzero (createdAtUnix message)) (tagged 80 (wr_int64 (createdAtUnix message)))].

Definition cases (message : t) : list (field_case t) :=
  [Case 1 10 (assign (rlift rd_string) (fun v => set_id v message));
   Case 2 18 (assign (rlift rd_string) (fun v => set_action v message));
   Case 3 26 (assign (rlift rd_string) (fun v => set_clientId v message));
   Case 4 34 (assign (rlift rd_string) (fun v => set_certSerial v message));
   Case 5 42 (assign (rlift rd_string) (fun v => set_scope v message));
   Case 6 50 (assign (rlift rd_string) (fun v => set_reason v message));
   Case 7 58 (assign (rlift rd_string) (fun v => set_requestId v message));
   Case 8 66 (assign (rlift rd_string) (fun v => set_ip v message));
   Case 9 74 (assign (rlift rd_string) (fun v => set_metadataJson v message));
   Case 10 80 (assign rd_long (fun v => set_createdAtUnix v message))].

Definition decode : option Z -> rd t := decode_message cases createBase.

Definition wf (message : t) : bool :=
  wire_text (id message) &&
  wire_text (action message) &&
  wire_text (clientId message) &&
  wire_text (certSerial message) &&
  wire_text (scope message) &&
  wire_text (reason message) &&
  wire_text (requestId message) &&
  wire_text (ip message) &&
  wire_text (metadataJson message) &&
  safe_long (createdAtUnix message).

Definition wire : codec := Codec _ "KdcAuditRecord" t createBase cases encode wf.

End Codec.
End KdcAuditRecord.

Module ListAuditEventsResponse.

(** [N] is the representation of the numbers. *)
Record msg (N : Type) := Mk {
  events : list (KdcAuditRecord.msg N);
  total : N;
  limit : N;
  offset : N
}.

Arguments Mk {N}.
Arguments events {N}.
Arguments total {N}.
Arguments limit {N}.
Arguments offset {N}.

Definition t : Type := msg Z.

Definition createBase : t := Mk [] 0 0 0.

Definition set_events (v : list KdcAuditRecord.t) (m : t) : t :=
  let 'Mk _ x1 x2 x3 := m in Mk v x1 x2 x3.
Definition set_total (v : Z) (m : t) : t :=
  let 'Mk x0 _ x2 x3 := m in Mk x0 v x2 x3.
Definition set_limit (v : Z) (m : t) : t :=
  let 'Mk x0 x1 _ x3 := m in Mk x0 x1 v x3.
Definition set_offset (v : Z) (m : t) : t :=
  let 'Mk x0 x1 x2 _ := m in Mk x0 x1 x2 v.

Section Codec.
Context `{Wire}.

Definition encode (message : t) : written :=
  writes [write_each (events message) (fun v => tagged 10 (forked (KdcAuditRecord.encode v)));
    write_if (nonzero (total message)) (tagged 16 (wr_int32 (total message)));
    write_if (nonzero (limit message)) (tagged 24 (wr_int32 (limit message)));
    write_if (nonzero (offset message)) (tagged 32 (wr_int32 (offset message)))].

Definition cases (message : t) : list (field_case t) :=
  [Case 1 10 (assign (rd_message KdcAuditRecord.decode) (fun v => set_events (events message ++ [v]) message));
   Case 2 16 (assign (rlift rd_int32) (fun v => set_total v message));
   Case 3 24 (assign (rlift rd_int32) (fun v => set_limit v message));
   Case 4 32 (assign (rlift rd_int32) (fun v => set_offset v message))].

Definition decode : option Z -> rd t := decode_message cases createBase.

Definition wf (message : t) : bool :=
  forallb (nested_ok KdcAuditRecord.wf KdcAuditRecord.encode) (events message) &&
  int_fits 32 (total message) &&
  int_fits 32 (limit message) &&
  int_fits 32 (offset message).

Definition wire : codec := Codec _ "ListAuditEventsResponse" t createBase cases encode wf.

End Codec.
End ListAuditEventsResponse.

Module VerifyAuditChainRequest.

Record t := Mk {}.

Definition createBase : t := Mk.


Section Codec.
Context `{Wire}.

Definition encode (message : t) : written :=
  writes [].

Definition cases (message : t) : list (field_case t) :=
  [].

Definition decode : option Z -> rd t := decode_message cases createBase.

Definition wf (message : t) : bool :=
  true.

Definition wire : codec := Codec _ "VerifyAuditChainRequest" t createBase cases encode wf.

End Codec.
End VerifyAuditChainRequest.

Module VerifyAuditChainResponse.

(** [N] is the representation of the numbers. *)
Record msg (N : Type) := Mk {
  ok : bool;
  checked : N;
  brokenSeq : N;
  brokenId : ustr;
  detail : ustr
}.

Arguments Mk {N}.
Arguments ok {N}.
Arguments checked {N}.
Arguments brokenSeq {N}.
Arguments brokenId {N}.
Arguments detail {N}.

Definition t : Type := msg Z.

Definition createBase : t := Mk false 0 0 [] [].

Definition set_ok (v : bool) (m : t) : t :=
  let 'Mk _ x1 x2 x3 x4 := m in Mk v x1 x2 x3 x4.
Definition set_checked (v : Z) (m : t) : t :=
  let 'Mk x0 _ x2 x3 x4 := m in Mk x0 v x2 x3 x4.
Definition set_brokenSeq (v : Z) (m : t) : t :=
  let 'Mk x0 x1 _ x3 x4 := m in Mk x0 x1 v x3 x4.
Definition set_brokenId (v : ustr) (m : t) : t :=
  let 'Mk x0 x1 x2 _ x4 := m in Mk x0 x1 x2 v x4.
Definition set_detail (v : ustr) (m : t) : t :=
  let 'Mk x0 x1 x2 x3 _ := m in Mk x0 x1 x2 x3 v.

Section Codec.
Context `{Wire}.

Definition encode (message : t) : written :=
  writes [write_if (ok message) (tagged 8 (wr_bool (ok message)));
    write_if (nonzero (checked message)) (tagged 16 (wr_int32 (checked message)));
    write_if (nonzero (brokenSeq message)) (tagged 24 (wr_int64 (brokenSeq message)));
    write_if (nonempty (brokenId message)) (tagged 34 (wr_string (brokenId message)));
    write_if (nonempty (detail message)) (tagged 42 (wr_string (detail message)))].

Definition cases (message : t) : list (field_case t) :=
  [Case 1 8 (assign (rlift rd_bool) (fun v => set_ok v message));
   Case 2 16 (assign (rlift rd_int32) (fun v => set_checked v message));
   Case 3 24 (assign rd_long (fun v => set_brokenSeq v message));
   Case 4 34 (assign (rlift rd_string) (fun v => set_brokenId v message));
   Case 5 42 (assign (rlift rd_string) (fun v => set_detail v message))].

Definition decode : option Z -> rd t := decode_message cases createBase.

Definition wf (message : t) : bool :=
  int_fits 32 (checked message) &&
  safe_long (brokenSeq message) &&
  wire_text (brokenId message) &&
  wire_text (detail message).

Definition wire : codec := Codec _ "VerifyAuditChainResponse" t createBase cases encode wf.

End Codec.
End VerifyAuditChainResponse.

Module TicketPayload.

(** [N] is the representation of the numbers. *)
Record msg (N : Type) := Mk {
  ownerId : ustr;
  certSn : ustr;
  sessionKey : list Z;
  scope : ustr;
  serviceId : ustr;
  issuedAtUnix : N;
  expiresAtUnix : N;
  keyVersion : ustr;
  ticketId : ustr
}.

Arguments Mk {N}.
Arguments ownerId {N}.
Arguments certSn {N}.
Arguments sessionKey {N}.
Arguments scope {N}.
Arguments serviceId {N}.
Arguments issuedAtUnix {N}.
Arguments expiresAtUnix {N}.
Arguments keyVersion {N}.
Arguments ticketId {N}.

Definition t : Type := msg Z.

Definition createBase : t := Mk [] [] [] [] [] 0 0 [] [].

Definition set_ownerId (v : ustr) (m : t) : t :=
  let 'Mk _ x1 x2 x3 x4 x5 x6 x7 x8 := m in Mk v x1 x2 x3 x4 x5 x6 x7 x8.
Definition set_certSn (v : ustr) (m : t) : t :=
  let 'Mk x0 _ x2 x3 x4 x5 x6 x7 x8 := m in Mk x0 v x2 x3 x4 x5 x6 x7 x8.
Definition set_sessionKey (v : list Z) (m : t) : t :=
  let 'Mk x0 x1 _ x3 x4 x5 x6 x7 x8 := m in Mk x0 x1 v x3 x4 x5 x6 x7 x8.
Definition set_scope (v : ustr) (m : t) : t :=
  let 'Mk x0 x1 x2 _ x4 x5 x6 x7 x8 := m in Mk x0 x1 x2 v x4 x5 x6 x7 x8.
Definition set_serviceId (v : ustr) (m : t) : t :=
  let 'Mk x0 x1 x2 x3 _ x5 x6 x7 x8 := m in Mk x0 x1 x2 x3 v x5 x6 x7 x8.
Definition set_issuedAtUnix (v : Z) (m : t) : t :=
  let 'Mk x0 x1 x2 x3 x4 _ x6 x7 x8 := m in Mk x0 x1 x2 x3 x4 v x6 x7 x8.
Definition set_expiresAtUnix (v : Z) (m : t) : t :=
  let 'Mk x0 x1 x2 x3 x4 x5 _ x7 x8 := m in Mk x0 x1 x2 x3 x4 x5 v x7 x8.
Definition set_keyVersion (v : ustr) (m : t) : t :=
  let 'Mk x0 x1 x2 x3 x4 x5 x6 _ x8 := m in Mk x0 x1 x2 x3 x4 x5 x6 v x8.
Definition set_ticketId (v : ustr) (m : t) : t :=
  let 'Mk x0 x1 x2 x3 x4 x5 x6 x7 _ := m in Mk x0 x1 x2 x3 x4 x5 x6 x7 v.

Section Codec.
Context `{Wire}.

Definition encode (message : t) : written :=
  writes [write_if (nonempty (ownerId message)) (tagged 10 (wr_string (ownerId message)));
    write_if (nonempty (certSn message)) (tagged 18 (wr_string (certSn message)));
    write_if (nonempty (sessionKey message)) (tagged 26 (wr_bytes (sessionKey message)));
    write_if (nonempty (scope message)) (tagged 34 (wr_string (scope message)));
    write_if (nonempty (serviceId message)) (tagged 42 (wr_string (serviceId message)));
    write_if (nonzero (issuedAtUnix message)) (tagged 48 (wr_int64 (issuedAtUnix message)));
    write_if (nonzero (expiresAtUnix message)) (tagged 56 (wr_int64 (expiresAtUnix message)));
    write_if (nonempty (keyVersion message)) (tagged 66 (wr_string (keyVersion message)));
    write_if (nonempty (ticketId message)) (tagged 74 (wr_string (ticketId message)))].

Definition cases (message : t) : list (field_case t) :=
  [Case 1 10 (assign (rlift rd_string) (fun v => set_ownerId v message));
   Case 2 18 (assign (rlift rd_string) (fun v => set_certSn v message));
   Case 3 26 (assign (rlift rd_bytes) (fun v => set_sessionKey v message));
   Case 4 34 (assign (rlift rd_string) (fun v => set_scope v message));
   Case 5 42 (assign (rlift rd_string) (fun v => set_serviceId v message));
   Case 6 48 (assign rd_long (fun v => set_issuedAtUnix v message));
   Case 7 56 (assign rd_long (fun v => set_expiresAtUnix v message));
   Case 8 66 (assign (rlift rd_string) (fun v => set_keyVersion v message));
   Case 9 74 (assign (rlift rd_string) (fun v => set_ticketId v message))].

Definition decode : option Z -> rd t := decode_message cases createBase.

Definition wf (message : t) : bool :=
  wire_text (ownerId message) &&
  wire_text (certSn message) &&
  wire_bytes (sessionKey message) &&
  wire_text (scope message) &&
  wire_text (serviceId message) &&
  safe_long (issuedAtUnix message) &&
  safe_long (expiresAtUnix message) &&
  wire_text (keyVersion message) &&
  wire_text (ticketId message).

Definition wire : codec := Codec _ "TicketPayload" t createBase cases encode wf.

End Codec.
End TicketPayload.

(** ** The service *)

Definition KDCServiceService `{Wire} : list (string * rpc) :=
  [("requestTgt", Rpc _ "/kdc.KDCService/RequestTGT" ASRequest.wire ASResponse.wire);
   ("requestServiceTicket", Rpc _ "/kdc.KDCService/RequestServiceTicket" TGSRequest.wire TGSResponse.wire);
   ("listAuditEvents", Rpc _ "/kdc.KDCService/ListAuditEvents" ListAuditEventsRequest.wire ListAuditEventsResponse.wire);
   ("verifyAuditChain", Rpc _ "/kdc.KDCService/VerifyAuditChain" VerifyAuditChainRequest.wire VerifyAuditChainResponse.wire)].

(** ** The laws *)

Lemma kdc_ASRequest_laws `{WireSpec} : codec_laws ASRequest.wire.
Proof. prove_codec ASRequest.wire ASRequest.encode ASRequest.wf. Qed.
#[export] Hint Resolve kdc_ASRequest_laws : wire_laws.

Lemma kdc_ASResponse_laws `{WireSpec} : codec_laws ASResponse.wire.
Proof. prove_codec ASResponse.wire ASResponse.encode ASResponse.wf. Qed.
#[export] Hint Resolve kdc_ASResponse_laws : wire_laws.

Lemma kdc_TGSRequest_laws `{WireSpec} : codec_laws TGSRequest.wire.
Proof. prove_codec TGSRequest.wire TGSRequest.encode TGSRequest.wf. Qed.
#[export] Hint Resolve kdc_TGSRequest_laws : wire_laws.

Lemma kdc_TGSResponse_laws `{WireSpec} : codec_laws TGSResponse.wire.
Proof. prove_codec TGSResponse.wire TGSResponse.encode TGSResponse.wf. Qed.
#[export] Hint Resolve kdc_TGSResponse_laws : wire_laws.

Lemma kdc_ListAuditEventsRequest_laws `{WireSpec} : codec_laws ListAuditEventsRequest.wire.
Proof. prove_codec ListAuditEventsRequest.wire ListAuditEventsRequest.encode ListAuditEventsRequest.wf. Qed.
#[export] Hint Resolve kdc_ListAuditEventsRequest_laws : wire_laws.

Lemma kdc_KdcAuditRecord_laws `{WireSpec} : codec_laws KdcAuditRecord.wire.
Proof. prove_codec KdcAuditRecord.wire KdcAuditRecord.encode KdcAuditRecord.wf. Qed.
#[export] Hint Resolve kdc_KdcAuditRecord_laws : wire_laws.

#[local] Hint Extern 1 (carried (forked (KdcAuditRecord.encode _)) _ _) =>
  apply (codec_nested KdcAuditRecord.wire); [apply kdc_KdcAuditRecord_laws |] : wire.
#[local] Hint Extern 1 (ends (KdcAuditRecord.decode _)) =>
  apply (codec_decode_ends KdcAuditRecord.wire); apply kdc_KdcAuditRecord_laws : wire.

Lemma kdc_ListAuditEventsResponse_laws `{WireSpec} : codec_laws ListAuditEventsResponse.wire.
Proof. prove_codec ListAuditEventsResponse.wire ListAuditEventsResponse.encode ListAuditEventsResponse.wf. Qed.
#[export] Hint Resolve kdc_ListAuditEventsResponse_laws : wire_laws.

Lemma kdc_VerifyAuditChainRequest_laws `{WireSpec} : codec_laws VerifyAuditChainRequest.wire.
Proof. prove_codec VerifyAuditChainRequest.wire VerifyAuditChainRequest.encode VerifyAuditChainRequest.wf. Qed.
#[export] Hint Resolve kdc_VerifyAuditChainRequest_laws : wire_laws.

Lemma kdc_VerifyAuditChainResponse_laws `{WireSpec} : codec_laws VerifyAuditChainResponse.wire.
Proof. prove_codec VerifyAuditChainResponse.wire VerifyAuditChainResponse.encode VerifyAuditChainResponse.wf. Qed.
#[export] Hint Resolve kdc_VerifyAuditChainResponse_laws : wire_laws.

Lemma kdc_TicketPayload_laws `{WireSpec} : codec_laws TicketPayload.wire.
Proof. prove_codec TicketPayload.wire TicketPayload.encode TicketPayload.wf. Qed.
#[export] Hint Resolve kdc_TicketPayload_laws : wire_laws.

(** ** All the messages of [kdc.proto] *)

Definition kdc_messages `{Wire} : list codec :=
  [ASRequest.wire;
   ASResponse.wire;
   TGSRequest.wire;
   TGSResponse.wire;
   ListAuditEventsRequest.wire;
   KdcAuditRecord.wire;
   ListAuditEventsResponse.wire;
   VerifyAuditChainRequest.wire;
   VerifyAuditChainResponse.wire;
   TicketPayload.wire].

Lemma kdc_messages_laws `{WireSpec} : Forall codec_laws kdc_messages.
Proof. repeat (constructor; [eauto using kdc_ASRequest_laws, kdc_ASResponse_laws, kdc_TGSRequest_laws, kdc_TGSResponse_laws, kdc_ListAuditEventsRequest_laws, kdc_KdcAuditRecord_laws, kdc_ListAuditEventsResponse_laws, kdc_VerifyAuditChainRequest_laws, kdc_VerifyAuditChainResponse_laws, kdc_TicketPayload_laws|]). constructor. Qed.
