(* ===== verification/CaProto.v ===== *)
(** * The messages of the certificate authority

    [api-gateway/src/proto/ca.ts]: every message with its [createBase], [encode] and
    [decode], in the order of their dependencies. [cases] is the [switch] of
    [decode], [wf] the messages that the wire can carry. An [enum] is the number
    that it is at run time. *)

From S2P Require Import Prelude JsString Gateway UString Wire.

Open Scope Z_scope.
Open Scope wire_scope.

Module CertificateMetadata.

(** [N] is the representation of the numbers. *)
Record msg (N : Type) := Mk {
  serialNumber : ustr;
  ownerId : ustr;
  subjectCn : ustr;
  subjectEmail : ustr;
  fingerprintSha256 : ustr;
  status : Z;
  notBeforeUnix : N;
  notAfterUnix : N;
  issuedAtUnix : N;
  revokedAtUnix : N;
  revocationReason : ustr;
  certType : ustr;
  issuerId : ustr;
  issuerCommonName : ustr;
  issuerSerialNumber : ustr;
  chainPem : ustr;
  chainFingerprints : list ustr;
  isCa : bool;
  keyUsage : list ustr;
  extendedKeyUsage : list ustr
}.

Arguments Mk {N}.
Arguments serialNumber {N}.
Arguments ownerId {N}.
Arguments subjectCn {N}.
Arguments subjectEmail {N}.
Arguments fingerprintSha256 {N}.
Arguments status {N}.
Arguments notBeforeUnix {N}.
Arguments notAfterUnix {N}.
Arguments issuedAtUnix {N}.
Arguments revokedAtUnix {N}.
Arguments revocationReason {N}.
Arguments certType {N}.
Arguments issuerId {N}.
Arguments issuerCommonName {N}.
Arguments issuerSerialNumber {N}.
Arguments chainPem {N}.
Arguments chainFingerprints {N}.
Arguments isCa {N}.
Arguments keyUsage {N}.
Arguments extendedKeyUsage {N}.

Definition t : Type := msg Z.

Definition createBase : t := Mk [] [] [] [] [] 0 0 0 0 0 [] [] [] [] [] [] [] false [] [].

Definition set_serialNumber (v : ustr) (m : t) : t :=
  let 'Mk _ x1 x2 x3 x4 x5 x6 x7 x8 x9 x10 x11 x12 x13 x14 x15 x16 x17 x18 x19 := m in Mk v x1 x2 x3 x4 x5 x6 x7 x8 x9 x10 x11 x12 x13 x14 x15 x16 x17 x18 x19.
Definition set_ownerId (v : ustr) (m : t) : t :=
  let 'Mk x0 _ x2 x3 x4 x5 x6 x7 x8 x9 x10 x11 x12 x13 x14 x15 x16 x17 x18 x19 := m in Mk x0 v x2 x3 x4 x5 x6 x7 x8 x9 x10 x11 x12 x13 x14 x15 x16 x17 x18 x19.
Definition set_subjectCn (v : ustr) (m : t) : t :=
  let 'Mk x0 x1 _ x3 x4 x5 x6 x7 x8 x9 x10 x11 x12 x13 x14 x15 x16 x17 x18 x19 := m in Mk x0 x1 v x3 x4 x5 x6 x7 x8 x9 x10 x11 x12 x13 x14 x15 x16 x17 x18 x19.
Definition set_subjectEmail (v : ustr) (m : t) : t :=
  let 'Mk x0 x1 x2 _ x4 x5 x6 x7 x8 x9 x10 x11 x12 x13 x14 x15 x16 x17 x18 x19 := m in Mk x0 x1 x2 v x4 x5 x6 x7 x8 x9 x10 x11 x12 x13 x14 x15 x16 x17 x18 x19.
Definition set_fingerprintSha256 (v : ustr) (m : t) : t :=
  let 'Mk x0 x1 x2 x3 _ x5 x6 x7 x8 x9 x10 x11 x12 x13 x14 x15 x16 x17 x18 x19 := m in Mk x0 x1 x2 x3 v x5 x6 x7 x8 x9 x10 x11 x12 x13 x14 x15 x16 x17 x18 x19.
Definition set_status (v : Z) (m : t) : t :=
  let 'Mk x0 x1 x2 x3 x4 _ x6 x7 x8 x9 x10 x11 x12 x13 x14 x15 x16 x17 x18 x19 := m in Mk x0 x1 x2 x3 x4 v x6 x7 x8 x9 x10 x11 x12 x13 x14 x15 x16 x17 x18 x19.
Definition set_notBeforeUnix (v : Z) (m : t) : t :=
  let 'Mk x0 x1 x2 x3 x4 x5 _ x7 x8 x9 x10 x11 x12 x13 x14 x15 x16 x17 x18 x19 := m in Mk x0 x1 x2 x3 x4 x5 v x7 x8 x9 x10 x11 x12 x13 x14 x15 x16 x17 x18 x19.
Definition set_notAfterUnix (v : Z) (m : t) : t :=
  let 'Mk x0 x1 x2 x3 x4 x5 x6 _ x8 x9 x10 x11 x12 x13 x14 x15 x16 x17 x18 x19 := m in Mk x0 x1 x2 x3 x4 x5 x6 v x8 x9 x10 x11 x12 x13 x14 x15 x16 x17 x18 x19.
Definition set_issuedAtUnix (v : Z) (m : t) : t :=
  let 'Mk x0 x1 x2 x3 x4 x5 x6 x7 _ x9 x10 x11 x12 x13 x14 x15 x16 x17 x18 x19 := m in Mk x0 x1 x2 x3 x4 x5 x6 x7 v x9 x10 x11 x12 x13 x14 x15 x16 x17 x18 x19.
Definition set_revokedAtUnix (v : Z) (m : t) : t :=
  let 'Mk x0 x1 x2 x3 x4 x5 x6 x7 x8 _ x10 x11 x12 x13 x14 x15 x16 x17 x18 x19 := m in Mk x0 x1 x2 x3 x4 x5 x6 x7 x8 v x10 x11 x12 x13 x14 x15 x16 x17 x18 x19.
Definition set_revocationReason (v : ustr) (m : t) : t :=
  let 'Mk x0 x1 x2 x3 x4 x5 x6 x7 x8 x9 _ x11 x12 x13 x14 x15 x16 x17 x18 x19 := m in Mk x0 x1 x2 x3 x4 x5 x6 x7 x8 x9 v x11 x12 x13 x14 x15 x16 x17 x18 x19.
Definition set_certType (v : ustr) (m : t) : t :=
  let 'Mk x0 x1 x2 x3 x4 x5 x6 x7 x8 x9 x10 _ x12 x13 x14 x15 x16 x17 x18 x19 := m in Mk x0 x1 x2 x3 x4 x5 x6 x7 x8 x9 x10 v x12 x13 x14 x15 x16 x17 x18 x19.
Definition set_issuerId (v : ustr) (m : t) : t :=
  let 'Mk x0 x1 x2 x3 x4 x5 x6 x7 x8 x9 x10 x11 _ x13 x14 x15 x16 x17 x18 x19 := m in Mk x0 x1 x2 x3 x4 x5 x6 x7 x8 x9 x10 x11 v x13 x14 x15 x16 x17 x18 x19.
Definition set_issuerCommonName (v : ustr) (m : t) : t :=
  let 'Mk x0 x1 x2 x3 x4 x5 x6 x7 x8 x9 x10 x11 x12 _ x14 x15 x16 x17 x18 x19 := m in Mk x0 x1 x2 x3 x4 x5 x6 x7 x8 x9 x10 x11 x12 v x14 x15 x16 x17 x18 x19.
Definition set_issuerSerialNumber (v : ustr) (m : t) : t :=
  let 'Mk x0 x1 x2 x3 x4 x5 x6 x7 x8 x9 x10 x11 x12 x13 _ x15 x16 x17 x18 x19 := m in Mk x0 x1 x2 x3 x4 x5 x6 x7 x8 x9 x10 x11 x12 x13 v x15 x16 x17 x18 x19.
Definition set_chainPem (v : ustr) (m : t) : t :=
  let 'Mk x0 x1 x2 x3 x4 x5 x6 x7 x8 x9 x10 x11 x12 x13 x14 _ x16 x17 x18 x19 := m in Mk x0 x1 x2 x3 x4 x5 x6 x7 x8 x9 x10 x11 x12 x13 x14 v x16 x17 x18 x19.
Definition set_chainFingerprints (v : list ustr) (m : t) : t :=
  let 'Mk x0 x1 x2 x3 x4 x5 x6 x7 x8 x9 x10 x11 x12 x13 x14 x15 _ x17 x18 x19 := m in Mk x0 x1 x2 x3 x4 x5 x6 x7 x8 x9 x10 x11 x12 x13 x14 x15 v x17 x18 x19.
Definition set_isCa (v : bool) (m : t) : t :=
  let 'Mk x0 x1 x2 x3 x4 x5 x6 x7 x8 x9 x10 x11 x12 x13 x14 x15 x16 _ x18 x19 := m in Mk x0 x1 x2 x3 x4 x5 x6 x7 x8 x9 x10 x11 x12 x13 x14 x15 x16 v x18 x19.
Definition set_keyUsage (v : list ustr) (m : t) : t :=
  let 'Mk x0 x1 x2 x3 x4 x5 x6 x7 x8 x9 x10 x11 x12 x13 x14 x15 x16 x17 _ x19 := m in Mk x0 x1 x2 x3 x4 x5 x6 x7 x8 x9 x10 x11 x12 x13 x14 x15 x16 x17 v x19.
Definition set_extendedKeyUsage (v : list ustr) (m : t) : t :=
  let 'Mk x0 x1 x2 x3 x4 x5 x6 x7 x8 x9 x10 x11 x12 x13 x14 x15 x16 x17 x18 _ := m in Mk x0 x1 x2 x3 x4 x5 x6 x7 x8 x9 x10 x11 x12 x13 x14 x15 x16 x17 x18 v.

Section Codec.
Context `{Wire}.

Definition encode (message : t) : written :=
  writes [write_if (nonempty (serialNumber message)) (tagged 10 (wr_string (serialNumber message)));
    write_if (nonempty (ownerId message)) (tagged 18 (wr_string (ownerId message)));
    write_if (nonempty (subjectCn message)) (tagged 26 (wr_string (subjectCn message)));
    write_if (nonempty (subjectEmail message)) (tagged 34 (wr_string (subjectEmail message)));
    write_if (nonempty (fingerprintSha256 message)) (tagged 42 (wr_string (fingerprintSha256 message)));
    write_if (nonzero (status message)) (tagged 48 (wr_int32 (status message)));
    write_if (nonzero (notBeforeUnix message)) (tagged 56 (wr_int64 (notBeforeUnix message)));
    write_if (nonzero (notAfterUnix message)) (tagged 64 (wr_int64 (notAfterUnix message)));
    write_if (nonzero (issuedAtUnix message)) (tagged 72 (wr_int64 (issuedAtUnix message)));
    write_if (nonzero (revokedAtUnix message)) (tagged 80 (wr_int64 (revokedAtUnix message)));
    write_if (nonempty (revocationReason message)) (tagged 90 (wr_string (revocationReason message)));
    write_if (nonempty (certType message)) (tagged 98 (wr_string (certType message)));
    write_if (nonempty (issuerId message)) (tagged 106 (wr_string (issuerId message)));
    write_if (nonempty (issuerCommonName message)) (tagged 114 (wr_string (issuerCommonName message)));
    write_if (nonempty (issuerSerialNumber message)) (tagged 122 (wr_string (issuerSerialNumber message)));
    write_if (nonempty (chainPem message)) (tagged 130 (wr_string (chainPem message)));
    write_each (chainFingerprints message) (fun v => tagged 138 (wr_string v));
    write_if (isCa message) (tagged 144 (wr_bool (isCa message)));
    write_each (keyUsage message) (fun v => tagged 154 (wr_string v));
    write_each (extendedKeyUsage message) (fun v => tagged 162 (wr_string v))].

Definition cases (message : t) : list (field_case t) :=
  [Case 1 10 (assign (rlift rd_string) (fun v => set_serialNumber v message));
   Case 2 18 (assign (rlift rd_string) (fun v => set_ownerId v message));
   Case 3 26 (assign (rlift rd_string) (fun v => set_subjectCn v message));
   Case 4 34 (assign (rlift rd_string) (fun v => set_subjectEmail v message));
   Case 5 42 (assign (rlift rd_string) (fun v => set_fingerprintSha256 v message));
   Case 6 48 (assign (rlift rd_int32) (fun v => set_status v message));
   Case 7 56 (assign rd_long (fun v => set_notBeforeUnix v message));
   Case 8 64 (assign rd_long (fun v => set_notAfterUnix v message));
   Case 9 72 (assign rd_long (fun v => set_issuedAtUnix v message));
   Case 10 80 (assign rd_long (fun v => set_revokedAtUnix v message));
   Case 11 90 (assign (rlift rd_string) (fun v => set_revocationReason v message));
   Case 12 98 (assign (rlift rd_string) (fun v => set_certType v message));
   Case 13 106 (assign (rlift rd_string) (fun v => set_issuerId v message));
   Case 14 114 (assign (rlift rd_string) (fun v => set_issuerCommonName v message));
   Case 15 122 (assign (rlift rd_string) (fun v => set_issuerSerialNumber v message));
   Case 16 130 (assign (rlift rd_string) (fun v => set_chainPem v message));
   Case 17 138 (assign (rlift rd_string) (fun v => set_chainFingerprints (chainFingerprints message ++ [v]) message));
   Case 18 144 (assign (rlift rd_bool) (fun v => set_isCa v message));
   Case 19 154 (assign (rlift rd_string) (fun v => set_keyUsage (keyUsage message ++ [v]) message));
   Case 20 162 (assign (rlift rd_string) (fun v => set_extendedKeyUsage (extendedKeyUsage message ++ [v]) message))].

Definition decode : option Z -> rd t := decode_message cases createBase.

Definition wf (message : t) : bool :=
  wire_text (serialNumber message) &&
  wire_text (ownerId message) &&
  wire_text (subjectCn message) &&
  wire_text (subjectEmail message) &&
  wire_text (fingerprintSha256 message) &&
  int_fits 32 (status message) &&
  safe_long (notBeforeUnix message) &&
  safe_long (notAfterUnix message) &&
  safe_long (issuedAtUnix message) &&
  safe_long (revokedAtUnix message) &&
  wire_text (revocationReason message) &&
  wire_text (certType message) &&
  wire_text (issuerId message) &&
  wire_text (issuerCommonName message) &&
  wire_text (issuerSerialNumber message) &&
  wire_text (chainPem message) &&
  forallb wire_text (chainFingerprints message) &&
  forallb wire_text (keyUsage message) &&
  forallb wire_text (extendedKeyUsage message).

Definition wire : codec := Codec _ "CertificateMetadata" t createBase cases encode wf.

End Codec.
End CertificateMetadata.

Module RegisterUserRequest.

Record t := Mk {
  csrPem : ustr;
  ownerId : ustr;
  subjectEmail : ustr;
  fullName : ustr;
  role : Z
}.

Definition createBase : t := Mk [] [] [] [] 0.

Definition set_csrPem (v : ustr) (m : t) : t :=
  let 'Mk _ x1 x2 x3 x4 := m in Mk v x1 x2 x3 x4.
Definition set_ownerId (v : ustr) (m : t) : t :=
  let 'Mk x0 _ x2 x3 x4 := m in Mk x0 v x2 x3 x4.
Definition set_subjectEmail (v : ustr) (m : t) : t :=
  let 'Mk x0 x1 _ x3 x4 := m in Mk x0 x1 v x3 x4.
Definition set_fullName (v : ustr) (m : t) : t :=
  let 'Mk x0 x1 x2 _ x4 := m in Mk x0 x1 x2 v x4.
Definition set_role (v : Z) (m : t) : t :=
  let 'Mk x0 x1 x2 x3 _ := m in Mk x0 x1 x2 x3 v.

Section Codec.
Context `{Wire}.

Definition encode (message : t) : written :=
  writes [write_if (nonempty (csrPem message)) (tagged 10 (wr_string (csrPem message)));
    write_if (nonempty (ownerId message)) (tagged 18 (wr_string (ownerId message)));
    write_if (nonempty (subjectEmail message)) (tagged 26 (wr_string (subjectEmail message)));
    write_if (nonempty (fullName message)) (tagged 34 (wr_string (fullName message)));
    write_if (nonzero (role message)) (tagged 40 (wr_int32 (role message)))].

Definition cases (message : t) : list (field_case t) :=
  [Case 1 10 (assign (rlift rd_string) (fun v => set_csrPem v message));
   Case 2 18 (assign (rlift rd_string) (fun v => set_ownerId v message));
   Case 3 26 (assign (rlift rd_string) (fun v => set_subjectEmail v message));
   Case 4 34 (assign (rlift rd_string) (fun v => set_fullName v message));
   Case 5 40 (assign (rlift rd_int32) (fun v => set_role v message))].

Definition decode : option Z -> rd t := decode_message cases createBase.

Definition wf (message : t) : bool :=
  wire_text (csrPem message) &&
  wire_text (ownerId message) &&
  wire_text (subjectEmail message) &&
  wire_text (fullName message) &&
  int_fits 32 (role message).

Definition wire : codec := Codec _ "RegisterUserRequest" t createBase cases encode wf.

End Codec.
End RegisterUserRequest.

Module RegisterUserResponse.

(** [N] is the representation of the numbers. *)
Record msg (N : Type) := Mk {
  certificatePem : ustr;
  serialNumber : ustr;
  notBeforeUnix : N;
  notAfterUnix : N;
  fingerprintSha256 : ustr;
  certType : ustr;
  issuerId : ustr;
  issuerCommonName : ustr;
  issuerSerialNumber : ustr;
  chainPem : ustr;
  chainFingerprints : list ustr
}.

Arguments Mk {N}.
Arguments certificatePem {N}.
Arguments serialNumber {N}.
Arguments notBeforeUnix {N}.
Arguments notAfterUnix {N}.
Arguments fingerprintSha256 {N}.
Arguments certType {N}.
Arguments issuerId {N}.
Arguments issuerCommonName {N}.
Arguments issuerSerialNumber {N}.
Arguments chainPem {N}.
Arguments chainFingerprints {N}.

Definition t : Type := msg Z.

Definition createBase : t := Mk [] [] 0 0 [] [] [] [] [] [] [].

Definition set_certificatePem (v : ustr) (m : t) : t :=
  let 'Mk _ x1 x2 x3 x4 x5 x6 x7 x8 x9 x10 := m in Mk v x1 x2 x3 x4 x5 x6 x7 x8 x9 x10.
Definition set_serialNumber (v : ustr) (m : t) : t :=
  let 'Mk x0 _ x2 x3 x4 x5 x6 x7 x8 x9 x10 := m in Mk x0 v x2 x3 x4 x5 x6 x7 x8 x9 x10.
Definition set_notBeforeUnix (v : Z) (m : t) : t :=
  let 'Mk x0 x1 _ x3 x4 x5 x6 x7 x8 x9 x10 := m in Mk x0 x1 v x3 x4 x5 x6 x7 x8 x9 x10.
Definition set_notAfterUnix (v : Z) (m : t) : t :=
  let 'Mk x0 x1 x2 _ x4 x5 x6 x7 x8 x9 x10 := m in Mk x0 x1 x2 v x4 x5 x6 x7 x8 x9 x10.
Definition set_fingerprintSha256 (v : ustr) (m : t) : t :=
  let 'Mk x0 x1 x2 x3 _ x5 x6 x7 x8 x9 x10 := m in Mk x0 x1 x2 x3 v x5 x6 x7 x8 x9 x10.
Definition set_certType (v : ustr) (m : t) : t :=
  let 'Mk x0 x1 x2 x3 x4 _ x6 x7 x8 x9 x10 := m in Mk x0 x1 x2 x3 x4 v x6 x7 x8 x9 x10.
Definition set_issuerId (v : ustr) (m : t) : t :=
  let 'Mk x0 x1 x2 x3 x4 x5 _ x7 x8 x9 x10 := m in Mk x0 x1 x2 x3 x4 x5 v x7 x8 x9 x10.
Definition set_issuerCommonName (v : ustr) (m : t) : t :=
  let 'Mk x0 x1 x2 x3 x4 x5 x6 _ x8 x9 x10 := m in Mk x0 x1 x2 x3 x4 x5 x6 v x8 x9 x10.
Definition set_issuerSerialNumber (v : ustr) (m : t) : t :=
  let 'Mk x0 x1 x2 x3 x4 x5 x6 x7 _ x9 x10 := m in Mk x0 x1 x2 x3 x4 x5 x6 x7 v x9 x10.
Definition set_chainPem (v : ustr) (m : t) : t :=
  let 'Mk x0 x1 x2 x3 x4 x5 x6 x7 x8 _ x10 := m in Mk x0 x1 x2 x3 x4 x5 x6 x7 x8 v x10.
Definition set_chainFingerprints (v : list ustr) (m : t) : t :=
  let 'Mk x0 x1 x2 x3 x4 x5 x6 x7 x8 x9 _ := m in Mk x0 x1 x2 x3 x4 x5 x6 x7 x8 x9 v.

Section Codec.
Context `{Wire}.

Definition encode (message : t) : written :=
  writes [write_if (nonempty (certificatePem message)) (tagged 10 (wr_string (certificatePem message)));
    write_if (nonempty (serialNumber message)) (tagged 18 (wr_string (serialNumber message)));
    write_if (nonzero (notBeforeUnix message)) (tagged 24 (wr_int64 (notBeforeUnix message)));
    write_if (nonzero (notAfterUnix message)) (tagged 32 (wr_int64 (notAfterUnix message)));
    write_if (nonempty (fingerprintSha256 message)) (tagged 42 (wr_string (fingerprintSha256 message)));
    write_if (nonempty (certType message)) (tagged 50 (wr_string (certType message)));
    write_if (nonempty (issuerId message)) (tagged 58 (wr_string (issuerId message)));
    write_if (nonempty (issuerCommonName message)) (tagged 66 (wr_string (issuerCommonName message)));
    write_if (nonempty (issuerSerialNumber message)) (tagged 74 (wr_string (issuerSerialNumber message)));
    write_if (nonempty (chainPem message)) (tagged 82 (wr_string (chainPem message)));
    write_each (chainFingerprints message) (fun v => tagged 90 (wr_string v))].

Definition cases (message : t) : list (field_case t) :=
  [Case 1 10 (assign (rlift rd_string) (fun v => set_certificatePem v message));
   Case 2 18 (assign (rlift rd_string) (fun v => set_serialNumber v message));
   Case 3 24 (assign rd_long (fun v => set_notBeforeUnix v message));
   Case 4 32 (assign rd_long (fun v => set_notAfterUnix v message));
   Case 5 42 (assign (rlift rd_string) (fun v => set_fingerprintSha256 v message));
   Case 6 50 (assign (rlift rd_string) (fun v => set_certType v message));
   Case 7 58 (assign (rlift rd_string) (fun v => set_issuerId v message));
   Case 8 66 (assign (rlift rd_string) (fun v => set_issuerCommonName v message));
   Case 9 74 (assign (rlift rd_string) (fun v => set_issuerSerialNumber v message));
   Case 10 82 (assign (rlift rd_string) (fun v => set_chainPem v message));
   Case 11 90 (assign (rlift rd_string) (fun v => set_chainFingerprints (chainFingerprints message ++ [v]) message))].

Definition decode : option Z -> rd t := decode_message cases createBase.

Definition wf (message : t) : bool :=
  wire_text (certificatePem message) &&
  wire_text (serialNumber message) &&
  safe_long (notBeforeUnix message) &&
  safe_long (notAfterUnix message) &&
  wire_text (fingerprintSha256 message) &&
  wire_text (certType message) &&
  wire_text (issuerId message) &&
  wire_text (issuerCommonName message) &&
  wire_text (issuerSerialNumber message) &&
  wire_text (chainPem message) &&
  forallb wire_text (chainFingerprints message).

Definition wire : codec := Codec _ "RegisterUserResponse" t createBase cases encode wf.

End Codec.
End RegisterUserResponse.

Module VerifyCertificateRequest.

Record t := Mk {
  serialNumber : ustr;
  caller : ustr;
  includeCertificatePem : bool;
  includePublicKeyPem : bool
}.

Definition createBase : t := Mk [] [] false false.

Definition set_serialNumber (v : ustr) (m : t) : t :=
  let 'Mk _ x1 x2 x3 := m in Mk v x1 x2 x3.
Definition set_caller (v : ustr) (m : t) : t :=
  let 'Mk x0 _ x2 x3 := m in Mk x0 v x2 x3.
Definition set_includeCertificatePem (v : bool) (m : t) : t :=
  let 'Mk x0 x1 _ x3 := m in Mk x0 x1 v x3.
Definition set_includePublicKeyPem (v : bool) (m : t) : t :=
  let 'Mk x0 x1 x2 _ := m in Mk x0 x1 x2 v.

Section Codec.
Context `{Wire}.

Definition encode (message : t) : written :=
  writes [write_if (nonempty (serialNumber message)) (tagged 10 (wr_string (serialNumber message)));
    write_if (nonempty (caller message)) (tagged 18 (wr_string (caller message)));
    write_if (includeCertificatePem message) (tagged 24 (wr_bool (includeCertificatePem message)));
    write_if (includePublicKeyPem message) (tagged 32 (wr_bool (includePublicKeyPem message)))].

Definition cases (message : t) : list (field_case t) :=
  [Case 1 10 (assign (rlift rd_string) (fun v => set_serialNumber v message));
   Case 2 18 (assign (rlift rd_string) (fun v => set_caller v message));
   Case 3 24 (assign (rlift rd_bool) (fun v => set_includeCertificatePem v message));
   Case 4 32 (assign (rlift rd_bool) (fun v => set_includePublicKeyPem v message))].

Definition decode : option Z -> rd t := decode_message cases createBase.

Definition wf (message : t) : bool :=
  wire_text (serialNumber message) &&
  wire_text (caller message).

Definition wire : codec := Codec _ "VerifyCertificateRequest" t createBase cases encode wf.

End Codec.
End VerifyCertificateRequest.

Module VerifyCertificateResponse.

(** [N] is the representation of the numbers. *)
Record msg (N : Type) := Mk {
  status : Z;
  ownerId : ustr;
  subjectEmail : ustr;
  certificatePem : ustr;
  publicKeyPem : ustr;
  fingerprintSha256 : ustr;
  notBeforeUnix : N;
  notAfterUnix : N;
  revokedAtUnix : N;
  revocationReason : ustr;
  certType : ustr;
  issuerId : ustr;
  issuerCommonName : ustr;
  issuerSerialNumber : ustr;
  chainPem : ustr;
  chainFingerprints : list ustr;
  role : Z
}.

Arguments Mk {N}.
Arguments status {N}.
Arguments ownerId {N}.
Arguments subjectEmail {N}.
Arguments certificatePem {N}.
Arguments publicKeyPem {N}.
Arguments fingerprintSha256 {N}.
Arguments notBeforeUnix {N}.
Arguments notAfterUnix {N}.
Arguments revokedAtUnix {N}.
Arguments revocationReason {N}.
Arguments certType {N}.
Arguments issuerId {N}.
Arguments issuerCommonName {N}.
Arguments issuerSerialNumber {N}.
Arguments chainPem {N}.
Arguments chainFingerprints {N}.
Arguments role {N}.

Definition t : Type := msg Z.

Definition createBase : t := Mk 0 [] [] [] [] [] 0 0 0 [] [] [] [] [] [] [] 0.

Definition set_status (v : Z) (m : t) : t :=
  let 'Mk _ x1 x2 x3 x4 x5 x6 x7 x8 x9 x10 x11 x12 x13 x14 x15 x16 := m in Mk v x1 x2 x3 x4 x5 x6 x7 x8 x9 x10 x11 x12 x13 x14 x15 x16.
Definition set_ownerId (v : ustr) (m : t) : t :=
  let 'Mk x0 _ x2 x3 x4 x5 x6 x7 x8 x9 x10 x11 x12 x13 x14 x15 x16 := m in Mk x0 v x2 x3 x4 x5 x6 x7 x8 x9 x10 x11 x12 x13 x14 x15 x16.
Definition set_subjectEmail (v : ustr) (m : t) : t :=
  let 'Mk x0 x1 _ x3 x4 x5 x6 x7 x8 x9 x10 x11 x12 x13 x14 x15 x16 := m in Mk x0 x1 v x3 x4 x5 x6 x7 x8 x9 x10 x11 x12 x13 x14 x15 x16.
Definition set_certificatePem (v : ustr) (m : t) : t :=
  let 'Mk x0 x1 x2 _ x4 x5 x6 x7 x8 x9 x10 x11 x12 x13 x14 x15 x16 := m in Mk x0 x1 x2 v x4 x5 x6 x7 x8 x9 x10 x11 x12 x13 x14 x15 x16.
Definition set_publicKeyPem (v : ustr) (m : t) : t :=
  let 'Mk x0 x1 x2 x3 _ x5 x6 x7 x8 x9 x10 x11 x12 x13 x14 x15 x16 := m in Mk x0 x1 x2 x3 v x5 x6 x7 x8 x9 x10 x11 x12 x13 x14 x15 x16.
Definition set_fingerprintSha256 (v : ustr) (m : t) : t :=
  let 'Mk x0 x1 x2 x3 x4 _ x6 x7 x8 x9 x10 x11 x12 x13 x14 x15 x16 := m in Mk x0 x1 x2 x3 x4 v x6 x7 x8 x9 x10 x11 x12 x13 x14 x15 x16.
Definition set_notBeforeUnix (v : Z) (m : t) : t :=
  let 'Mk x0 x1 x2 x3 x4 x5 _ x7 x8 x9 x10 x11 x12 x13 x14 x15 x16 := m in Mk x0 x1 x2 x3 x4 x5 v x7 x8 x9 x10 x11 x12 x13 x14 x15 x16.
Definition set_notAfterUnix (v : Z) (m : t) : t :=
  let 'Mk x0 x1 x2 x3 x4 x5 x6 _ x8 x9 x10 x11 x12 x13 x14 x15 x16 := m in Mk x0 x1 x2 x3 x4 x5 x6 v x8 x9 x10 x11 x12 x13 x14 x15 x16.
Definition set_revokedAtUnix (v : Z) (m : t) : t :=
  let 'Mk x0 x1 x2 x3 x4 x5 x6 x7 _ x9 x10 x11 x12 x13 x14 x15 x16 := m in Mk x0 x1 x2 x3 x4 x5 x6 x7 v x9 x10 x11 x12 x13 x14 x15 x16.
Definition set_revocationReason (v : ustr) (m : t) : t :=
  let 'Mk x0 x1 x2 x3 x4 x5 x6 x7 x8 _ x10 x11 x12 x13 x14 x15 x16 := m in Mk x0 x1 x2 x3 x4 x5 x6 x7 x8 v x10 x11 x12 x13 x14 x15 x16.
Definition set_certType (v : ustr) (m : t) : t :=
  let 'Mk x0 x1 x2 x3 x4 x5 x6 x7 x8 x9 _ x11 x12 x13 x14 x15 x16 := m in Mk x0 x1 x2 x3 x4 x5 x6 x7 x8 x9 v x11 x12 x13 x14 x15 x16.
Definition set_issuerId (v : ustr) (m : t) : t :=
  let 'Mk x0 x1 x2 x3 x4 x5 x6 x7 x8 x9 x10 _ x12 x13 x14 x15 x16 := m in Mk x0 x1 x2 x3 x4 x5 x6 x7 x8 x9 x10 v x12 x13 x14 x15 x16.
Definition set_issuerCommonName (v : ustr) (m : t) : t :=
  let 'Mk x0 x1 x2 x3 x4 x5 x6 x7 x8 x9 x10 x11 _ x13 x14 x15 x16 := m in Mk x0 x1 x2 x3 x4 x5 x6 x7 x8 x9 x10 x11 v x13 x14 x15 x16.
Definition set_issuerSerialNumber (v : ustr) (m : t) : t :=
  let 'Mk x0 x1 x2 x3 x4 x5 x6 x7 x8 x9 x10 x11 x12 _ x14 x15 x16 := m in Mk x0 x1 x2 x3 x4 x5 x6 x7 x8 x9 x10 x11 x12 v x14 x15 x16.
Definition set_chainPem (v : ustr) (m : t) : t :=
  let 'Mk x0 x1 x2 x3 x4 x5 x6 x7 x8 x9 x10 x11 x12 x13 _ x15 x16 := m in Mk x0 x1 x2 x3 x4 x5 x6 x7 x8 x9 x10 x11 x12 x13 v x15 x16.
Definition set_chainFingerprints (v : list ustr) (m : t) : t :=
  let 'Mk x0 x1 x2 x3 x4 x5 x6 x7 x8 x9 x10 x11 x12 x13 x14 _ x16 := m in Mk x0 x1 x2 x3 x4 x5 x6 x7 x8 x9 x10 x11 x12 x13 x14 v x16.
Definition set_role (v : Z) (m : t) : t :=
  let 'Mk x0 x1 x2 x3 x4 x5 x6 x7 x8 x9 x10 x11 x12 x13 x14 x15 _ := m in Mk x0 x1 x2 x3 x4 x5 x6 x7 x8 x9 x10 x11 x12 x13 x14 x15 v.

Section Codec.
Context `{Wire}.

Definition encode (message : t) : written :=
  writes [write_if (nonzero (status message)) (tagged 8 (wr_int32 (status message)));
    write_if (nonempty (ownerId message)) (tagged 18 (wr_string (ownerId message)));
    write_if (nonempty (subjectEmail message)) (tagged 26 (wr_string (subjectEmail message)));
    write_if (nonempty (certificatePem message)) (tagged 34 (wr_string (certificatePem message)));
    write_if (nonempty (publicKeyPem message)) (tagged 42 (wr_string (publicKeyPem message)));
    write_if (nonempty (fingerprintSha256 message)) (tagged 50 (wr_string (fingerprintSha256 message)));
    write_if (nonzero (notBeforeUnix message)) (tagged 56 (wr_int64 (notBeforeUnix message)));
    write_if (nonzero (notAfterUnix message)) (tagged 64 (wr_int64 (notAfterUnix message)));
    write_if (nonzero (revokedAtUnix message)) (tagged 72 (wr_int64 (revokedAtUnix message)));
    write_if (nonempty (revocationReason message)) (tagged 82 (wr_string (revocationReason message)));
    write_if (nonempty (certType message)) (tagged 90 (wr_string (certType message)));
    write_if (nonempty (issuerId message)) (tagged 98 (wr_string (issuerId message)));
    write_if (nonempty (issuerCommonName message)) (tagged 106 (wr_string (issuerCommonName message)));
    write_if (nonempty (issuerSerialNumber message)) (tagged 114 (wr_string (issuerSerialNumber message)));
    write_if (nonempty (chainPem message)) (tagged 122 (wr_string (chainPem message)));
    write_each (chainFingerprints message) (fun v => tagged 130 (wr_string v));
    write_if (nonzero (role message)) (tagged 136 (wr_int32 (role message)))].

Definition cases (message : t) : list (field_case t) :=
  [Case 1 8 (assign (rlift rd_int32) (fun v => set_status v message));
   Case 2 18 (assign (rlift rd_string) (fun v => set_ownerId v message));
   Case 3 26 (assign (rlift rd_string) (fun v => set_subjectEmail v message));
   Case 4 34 (assign (rlift rd_string) (fun v => set_certificatePem v message));
   Case 5 42 (assign (rlift rd_string) (fun v => set_publicKeyPem v message));
   Case 6 50 (assign (rlift rd_string) (fun v => set_fingerprintSha256 v message));
   Case 7 56 (assign rd_long (fun v => set_notBeforeUnix v message));
   Case 8 64 (assign rd_long (fun v => set_notAfterUnix v message));
   Case 9 72 (assign rd_long (fun v => set_revokedAtUnix v message));
   Case 10 82 (assign (rlift rd_string) (fun v => set_revocationReason v message));
   Case 11 90 (assign (rlift rd_string) (fun v => set_certType v message));
   Case 12 98 (assign (rlift rd_string) (fun v => set_issuerId v message));
   Case 13 106 (assign (rlift rd_string) (fun v => set_issuerCommonName v message));
   Case 14 114 (assign (rlift rd_string) (fun v => set_issuerSerialNumber v message));
   Case 15 122 (assign (rlift rd_string) (fun v => set_chainPem v message));
   Case 16 130 (assign (rlift rd_string) (fun v => set_chainFingerprints (chainFingerprints message ++ [v]) message));
   Case 17 136 (assign (rlift rd_int32) (fun v => set_role v message))].

Definition decode : option Z -> rd t := decode_message cases createBase.

Definition wf (message : t) : bool :=
  int_fits 32 (status message) &&
  wire_text (ownerId message) &&
  wire_text (subjectEmail message) &&
  wire_text (certificatePem message) &&
  wire_text (publicKeyPem message) &&
  wire_text (fingerprintSha256 message) &&
  safe_long (notBeforeUnix message) &&
  safe_long (notAfterUnix message) &&
  safe_long (revokedAtUnix message) &&
  wire_text (revocationReason message) &&
  wire_text (certType message) &&
  wire_text (issuerId message) &&
  wire_text (issuerCommonName message) &&
  wire_text (issuerSerialNumber message) &&
  wire_text (chainPem message) &&
  forallb wire_text (chainFingerprints message) &&
  int_fits 32 (role message).

Definition wire : codec := Codec _ "VerifyCertificateResponse" t createBase cases encode wf.

End Codec.
End VerifyCertificateResponse.

Module GetCertificateRequest.

Record t := Mk {
  serialNumber : ustr
}.

Definition createBase : t := Mk [].

Definition set_serialNumber (v : ustr) (m : t) : t :=
  let 'Mk _ := m in Mk v.

Section Codec.
Context `{Wire}.

Definition encode (message : t) : written :=
  writes [write_if (nonempty (serialNumber message)) (tagged 10 (wr_string (serialNumber message)))].

Definition cases (message : t) : list (field_case t) :=
  [Case 1 10 (assign (rlift rd_string) (fun v => set_serialNumber v message))].

Definition decode : option Z -> rd t := decode_message cases createBase.

Definition wf (message : t) : bool :=
  wire_text (serialNumber message).

Definition wire : codec := Codec _ "GetCertificateRequest" t createBase cases encode wf.

End Codec.
End GetCertificateRequest.

Module GetCertificateResponse.

(** [N] is the representation of the numbers. *)
Record msg (N : Type) := Mk {
  certificatePem : ustr;
  ownerId : ustr;
  status : Z;
  notAfterUnix : N;
  publicKeyPem : ustr
}.

Arguments Mk {N}.
Arguments certificatePem {N}.
Arguments ownerId {N}.
Arguments status {N}.
Arguments notAfterUnix {N}.
Arguments publicKeyPem {N}.

Definition t : Type := msg Z.

Definition createBase : t := Mk [] [] 0 0 [].

Definition set_certificatePem (v : ustr) (m : t) : t :=
  let 'Mk _ x1 x2 x3 x4 := m in Mk v x1 x2 x3 x4.
Definition set_ownerId (v : ustr) (m : t) : t :=
  let 'Mk x0 _ x2 x3 x4 := m in Mk x0 v x2 x3 x4.
Definition set_status (v : Z) (m : t) : t :=
  let 'Mk x0 x1 _ x3 x4 := m in Mk x0 x1 v x3 x4.
Definition set_notAfterUnix (v : Z) (m : t) : t :=
  let 'Mk x0 x1 x2 _ x4 := m in Mk x0 x1 x2 v x4.
Definition set_publicKeyPem (v : ustr) (m : t) : t :=
  let 'Mk x0 x1 x2 x3 _ := m in Mk x0 x1 x2 x3 v.

Section Codec.
Context `{Wire}.

Definition encode (message : t) : written :=
  writes [write_if (nonempty (certificatePem message)) (tagged 10 (wr_string (certificatePem message)));
    write_if (nonempty (ownerId message)) (tagged 18 (wr_string (ownerId message)));
    write_if (nonzero (status message)) (tagged 24 (wr_int32 (status message)));
    write_if (nonzero (notAfterUnix message)) (tagged 32 (wr_int64 (notAfterUnix message)));
    write_if (nonempty (publicKeyPem message)) (tagged 42 (wr_string (publicKeyPem message)))].

Definition cases (message : t) : list (field_case t) :=
  [Case 1 10 (assign (rlift rd_string) (fun v => set_certificatePem v message));
   Case 2 18 (assign (rlift rd_string) (fun v => set_ownerId v message));
   Case 3 24 (assign (rlift rd_int32) (fun v => set_status v message));
   Case 4 32 (assign rd_long (fun v => set_notAfterUnix v message));
   Case 5 42 (assign (rlift rd_string) (fun v => set_publicKeyPem v message))].

Definition decode : option Z -> rd t := decode_message cases createBase.

Definition wf (message : t) : bool :=
  wire_text (certificatePem message) &&
  wire_text (ownerId message) &&
  int_fits 32 (status message) &&
  safe_long (notAfterUnix message) &&
  wire_text (publicKeyPem message).

Definition wire : codec := Codec _ "GetCertificateResponse" t createBase cases encode wf.

End Codec.
End GetCertificateResponse.

Module CheckRevocationRequest.

Record t := Mk {
  serialNumber : ustr
}.

Definition createBase : t := Mk [].

Definition set_serialNumber (v : ustr) (m : t) : t :=
  let 'Mk _ := m in Mk v.

Section Codec.
Context `{Wire}.

Definition encode (message : t) : written :=
  writes [write_if (nonempty (serialNumber message)) (tagged 10 (wr_string (serialNumber message)))].

Definition cases (message : t) : list (field_case t) :=
  [Case 1 10 (assign (rlift rd_string) (fun v => set_serialNumber v message))].

Definition decode : option Z -> rd t := decode_message cases createBase.

Definition wf (message : t) : bool :=
  wire_text (serialNumber message).

Definition wire : codec := Codec _ "CheckRevocationRequest" t createBase cases encode wf.

End Codec.
End CheckRevocationRequest.

Module CheckRevocationResponse.

(** [N] is the representation of the numbers. *)
Record msg (N : Type) := Mk {
  status : Z;
  reason : ustr;
  revokedAt : N
}.

Arguments Mk {N}.
Arguments status {N}.
Arguments reason {N}.
Arguments revokedAt {N}.

Definition t : Type := msg Z.

Definition createBase : t := Mk 0 [] 0.

Definition set_status (v : Z) (m : t) : t :=
  let 'Mk _ x1 x2 := m in Mk v x1 x2.
Definition set_reason (v : ustr) (m : t) : t :=
  let 'Mk x0 _ x2 := m in Mk x0 v x2.
Definition set_revokedAt (v : Z) (m : t) : t :=
  let 'Mk x0 x1 _ := m in Mk x0 x1 v.

Section Codec.
Context `{Wire}.

Definition encode (message : t) : written :=
  writes [write_if (nonzero (status message)) (tagged 8 (wr_int32 (status message)));
    write_if (nonempty (reason message)) (tagged 18 (wr_string (reason message)));
    write_if (nonzero (revokedAt message)) (tagged 24 (wr_int64 (revokedAt message)))].

Definition cases (message : t) : list (field_case t) :=
  [Case 1 8 (assign (rlift rd_int32) (fun v => set_status v message));
   Case 2 18 (assign (rlift rd_string) (fun v => set_reason v message));
   Case 3 24 (assign rd_long (fun v => set_revokedAt v message))].

Definition decode : option Z -> rd t := decode_message cases createBase.

Definition wf (message : t) : bool :=
  int_fits 32 (status message) &&
  wire_text (reason message) &&
  safe_long (revokedAt message).

Definition wire : codec := Codec _ "CheckRevocationResponse" t createBase cases encode wf.

End Codec.
End CheckRevocationResponse.

Module ListCertificatesRequest.

(** [N] is the representation of the numbers. *)
Record msg (N : Type) := Mk {
  status : ustr;
  ownerId : ustr;
  subjectEmail : ustr;
  serialNumber : ustr;
  limit : N;
  offset : N;
  performedBy : ustr;
  certType : ustr;
  issuerId : ustr
}.

Arguments Mk {N}.
Arguments status {N}.
Arguments ownerId {N}.
Arguments subjectEmail {N}.
Arguments serialNumber {N}.
Arguments limit {N}.
Arguments offset {N}.
Arguments performedBy {N}.
Arguments certType {N}.
Arguments issuerId {N}.

Definition t : Type := msg Z.

Definition createBase : t := Mk [] [] [] [] 0 0 [] [] [].

Definition set_status (v : ustr) (m : t) : t :=
  let 'Mk _ x1 x2 x3 x4 x5 x6 x7 x8 := m in Mk v x1 x2 x3 x4 x5 x6 x7 x8.
Definition set_ownerId (v : ustr) (m : t) : t :=
  let 'Mk x0 _ x2 x3 x4 x5 x6 x7 x8 := m in Mk x0 v x2 x3 x4 x5 x6 x7 x8.
Definition set_subjectEmail (v : ustr) (m : t) : t :=
  let 'Mk x0 x1 _ x3 x4 x5 x6 x7 x8 := m in Mk x0 x1 v x3 x4 x5 x6 x7 x8.
Definition set_serialNumber (v : ustr) (m : t) : t :=
  let 'Mk x0 x1 x2 _ x4 x5 x6 x7 x8 := m in Mk x0 x1 x2 v x4 x5 x6 x7 x8.
Definition set_limit (v : Z) (m : t) : t :=
  let 'Mk x0 x1 x2 x3 _ x5 x6 x7 x8 := m in Mk x0 x1 x2 x3 v x5 x6 x7 x8.
Definition set_offset (v : Z) (m : t) : t :=
  let 'Mk x0 x1 x2 x3 x4 _ x6 x7 x8 := m in Mk x0 x1 x2 x3 x4 v x6 x7 x8.
Definition set_performedBy (v : ustr) (m : t) : t :=
  let 'Mk x0 x1 x2 x3 x4 x5 _ x7 x8 := m in Mk x0 x1 x2 x3 x4 x5 v x7 x8.
Definition set_certType (v : ustr) (m : t) : t :=
  let 'Mk x0 x1 x2 x3 x4 x5 x6 _ x8 := m in Mk x0 x1 x2 x3 x4 x5 x6 v x8.
Definition set_issuerId (v : ustr) (m : t) : t :=
  let 'Mk x0 x1 x2 x3 x4 x5 x6 x7 _ := m in Mk x0 x1 x2 x3 x4 x5 x6 x7 v.

Section Codec.
Context `{Wire}.

Definition encode (message : t) : written :=
  writes [write_if (nonempty (status message)) (tagged 10 (wr_string (status message)));
    write_if (nonempty (ownerId message)) (tagged 18 (wr_string (ownerId message)));
    write_if (nonempty (subjectEmail message)) (tagged 26 (wr_string (subjectEmail message)));
    write_if (nonempty (serialNumber message)) (tagged 34 (wr_string (serialNumber message)));
    write_if (nonzero (limit message)) (tagged 40 (wr_int32 (limit message)));
    write_if (nonzero (offset message)) (tagged 48 (wr_int32 (offset message)));
    write_if (nonempty (performedBy message)) (tagged 58 (wr_string (performedBy message)));
    write_if (nonempty (certType message)) (tagged 66 (wr_string (certType message)));
    write_if (nonempty (issuerId message)) (tagged 74 (wr_string (issuerId message)))].

Definition cases (message : t) : list (field_case t) :=
  [Case 1 10 (assign (rlift rd_string) (fun v => set_status v message));
   Case 2 18 (assign (rlift rd_string) (fun v => set_ownerId v message));
   Case 3 26 (assign (rlift rd_string) (fun v => set_subjectEmail v message));
   Case 4 34 (assign (rlift rd_string) (fun v => set_serialNumber v message));
   Case 5 40 (assign (rlift rd_int32) (fun v => set_limit v message));
   Case 6 48 (assign (rlift rd_int32) (fun v => set_offset v message));
   Case 7 58 (assign (rlift rd_string) (fun v => set_performedBy v message));
   Case 8 66 (assign (rlift rd_string) (fun v => set_certType v message));
   Case 9 74 (assign (rlift rd_string) (fun v => set_issuerId v message))].

Definition decode : option Z -> rd t := decode_message cases createBase.

Definition wf (message : t) : bool :=
  wire_text (status message) &&
  wire_text (ownerId message) &&
  wire_text (subjectEmail message) &&
  wire_text (serialNumber message) &&
  int_fits 32 (limit message) &&
  int_fits 32 (offset message) &&
  wire_text (performedBy message) &&
  wire_text (certType message) &&
  wire_text (issuerId message).

Definition wire : codec := Codec _ "ListCertificatesRequest" t createBase cases encode wf.

End Codec.
End ListCertificatesRequest.

Module ListCertificatesResponse.

(** [N] is the representation of the numbers. *)
Record msg (N : Type) := Mk {
  certificates : list (CertificateMetadata.msg N);
  total : N;
  limit : N;
  offset : N
}.

Arguments Mk {N}.
Arguments certificates {N}.
Arguments total {N}.
Arguments limit {N}.
Arguments offset {N}.

Definition t : Type := msg Z.

Definition createBase : t := Mk [] 0 0 0.

Definition set_certificates (v : list CertificateMetadata.t) (m : t) : t :=
  let 'Mk _ x1 x2 x3 := m in Mk v x1 x2 x3.
Definition set_total (v : Z) (m : t) : t :=
  let 'Mk x0 _ x2 x3 := m in Mk x0 v x2 x3.
Definition set_limit (v : Z) (m : t) : t :=
  let 'Mk x0 x1 _ x3 := m in Mk x0 x1 v x3.
Definition set_offset (v : Z) (m : t) : t :=
  let 'Mk x0 x1 x2 _ := m in Mk x0 x1 x2 v.

Section Codec.
Context `{Wire}.

Definition encode (message : t) : written :=
  writes [write_each (certificates message) (fun v => tagged 10 (forked (CertificateMetadata.encode v)));
    write_if (nonzero (total message)) (tagged 16 (wr_int32 (total message)));
    write_if (nonzero (limit message)) (tagged 24 (wr_int32 (limit message)));
    write_if (nonzero (offset message)) (tagged 32 (wr_int32 (offset message)))].

Definition cases (message : t) : list (field_case t) :=
  [Case 1 10 (assign (rd_message CertificateMetadata.decode) (fun v => set_certificates (certificates message ++ [v]) message));
   Case 2 16 (assign (rlift rd_int32) (fun v => set_total v message));
   Case 3 24 (assign (rlift rd_int32) (fun v => set_limit v message));
   Case 4 32 (assign (rlift rd_int32) (fun v => set_offset v message))].

Definition decode : option Z -> rd t := decode_message cases createBase.

Definition wf (message : t) : bool :=
  forallb (nested_ok CertificateMetadata.wf CertificateMetadata.encode) (certificates message) &&
  int_fits 32 (total message) &&
  int_fits 32 (limit message) &&
  int_fits 32 (offset message).

Definition wire : codec := Codec _ "ListCertificatesResponse" t createBase cases encode wf.

End Codec.
End ListCertificatesResponse.

Module GetCertificateDetailRequest.

Record t := Mk {
  serialNumber : ustr;
  performedBy : ustr
}.

Definition createBase : t := Mk [] [].

Definition set_serialNumber (v : ustr) (m : t) : t :=
  let 'Mk _ x1 := m in Mk v x1.
Definition set_performedBy (v : ustr) (m : t) : t :=
  let 'Mk x0 _ := m in Mk x0 v.

Section Codec.
Context `{Wire}.

Definition encode (message : t) : written :=
  writes [write_if (nonempty (serialNumber message)) (tagged 10 (wr_string (serialNumber message)));
    write_if (nonempty (performedBy message)) (tagged 18 (wr_string (performedBy message)))].

Definition cases (message : t) : list (field_case t) :=
  [Case 1 10 (assign (rlift rd_string) (fun v => set_serialNumber v message));
   Case 2 18 (assign (rlift rd_string) (fun v => set_performedBy v message))].

Definition decode : option Z -> rd t := decode_message cases createBase.

Definition wf (message : t) : bool :=
  wire_text (serialNumber message) &&
  wire_text (performedBy message).

Definition wire : codec := Codec _ "GetCertificateDetailRequest" t createBase cases encode wf.

End Codec.
End GetCertificateDetailRequest.

Module GetCertificateDetailResponse.

(** [N] is the representation of the numbers. *)
Record msg (N : Type) := Mk {
  certificate : option (CertificateMetadata.msg N)
}.

Arguments Mk {N}.
Arguments certificate {N}.

Definition t : Type := msg Z.

Definition createBase : t := Mk None.

Definition set_certificate (v : option CertificateMetadata.t) (m : t) : t :=
  let 'Mk _ := m in Mk v.

Section Codec.
Context `{Wire}.

Definition encode (message : t) : written :=
  writes [write_opt (certificate message) (fun v => tagged 10 (forked (CertificateMetadata.encode v)))].

Definition cases (message : t) : list (field_case t) :=
  [Case 1 10 (assign (rd_message CertificateMetadata.decode) (fun v => set_certificate (Some v) message))].

Definition decode : option Z -> rd t := decode_message cases createBase.

Definition wf (message : t) : bool :=
  opt_ok (nested_ok CertificateMetadata.wf CertificateMetadata.encode) (certificate message).

Definition wire : codec := Codec _ "GetCertificateDetailResponse" t createBase cases encode wf.

End Codec.
End GetCertificateDetailResponse.

Module RevokeCertificateRequest.

Record t := Mk {
  serialNumber : ustr;
  reason : ustr;
  performedBy : ustr
}.

Definition createBase : t := Mk [] [] [].

Definition set_serialNumber (v : ustr) (m : t) : t :=
  let 'Mk _ x1 x2 := m in Mk v x1 x2.
Definition set_reason (v : ustr) (m : t) : t :=
  let 'Mk x0 _ x2 := m in Mk x0 v x2.
Definition set_performedBy (v : ustr) (m : t) : t :=
  let 'Mk x0 x1 _ := m in Mk x0 x1 v.

Section Codec.
Context `{Wire}.

Definition encode (message : t) : written :=
  writes [write_if (nonempty (serialNumber message)) (tagged 10 (wr_string (serialNumber message)));
    write_if (nonempty (reason message)) (tagged 18 (wr_string (reason message)));
    write_if (nonempty (performedBy message)) (tagged 26 (wr_string (performedBy message)))].

Definition cases (message : t) : list (field_case t) :=
  [Case 1 10 (assign (rlift rd_string) (fun v => set_serialNumber v message));
   Case 2 18 (assign (rlift rd_string) (fun v => set_reason v message));
   Case 3 26 (assign (rlift rd_string) (fun v => set_performedBy v message))].

Definition decode : option Z -> rd t := decode_message cases createBase.

Definition wf (message : t) : bool :=
  wire_text (serialNumber message) &&
  wire_text (reason message) &&
  wire_text (performedBy message).

Definition wire : codec := Codec _ "RevokeCertificateRequest" t createBase cases encode wf.

End Codec.
End RevokeCertificateRequest.

Module RevokeCertificateResponse.

(** [N] is the representation of the numbers. *)
Record msg (N : Type) := Mk {
  certificate : option (CertificateMetadata.msg N)
}.

Arguments Mk {N}.
Arguments certificate {N}.

Definition t : Type := msg Z.

Definition createBase : t := Mk None.

Definition set_certificate (v : option CertificateMetadata.t) (m : t) : t :=
  let 'Mk _ := m in Mk v.

Section Codec.
Context `{Wire}.

Definition encode (message : t) : written :=
  writes [write_opt (certificate message) (fun v => tagged 10 (forked (CertificateMetadata.encode v)))].

Definition cases (message : t) : list (field_case t) :=
  [Case 1 10 (assign (rd_message CertificateMetadata.decode) (fun v => set_certificate (Some v) message))].

Definition decode : option Z -> rd t := decode_message cases createBase.

Definition wf (message : t) : bool :=
  opt_ok (nested_ok CertificateMetadata.wf CertificateMetadata.encode) (certificate message).

Definition wire : codec := Codec _ "RevokeCertificateResponse" t createBase cases encode wf.

End Codec.
End RevokeCertificateResponse.

Module ListAuditEventsRequest.

(** [N] is the representation of the numbers. *)
Record msg (N : Type) := Mk {
  action : ustr;
  serialNumber : ustr;
  performedByFilter : ustr;
  fromUnix : N;
  toUnix : N;
  limit : N;
  offset : N;
  performedBy : ustr;
  requestId : ustr
}.

Arguments Mk {N}.
Arguments action {N}.
Arguments serialNumber {N}.
Arguments performedByFilter {N}.
Arguments fromUnix {N}.
Arguments toUnix {N}.
Arguments limit {N}.
Arguments offset {N}.
Arguments performedBy {N}.
Arguments requestId {N}.

Definition t : Type := msg Z.

Definition createBase : t := Mk [] [] [] 0 0 0 0 [] [].

Definition set_action (v : ustr) (m : t) : t :=
  let 'Mk _ x1 x2 x3 x4 x5 x6 x7 x8 := m in Mk v x1 x2 x3 x4 x5 x6 x7 x8.
Definition set_serialNumber (v : ustr) (m : t) : t :=
  let 'Mk x0 _ x2 x3 x4 x5 x6 x7 x8 := m in Mk x0 v x2 x3 x4 x5 x6 x7 x8.
Definition set_performedByFilter (v : ustr) (m : t) : t :=
  let 'Mk x0 x1 _ x3 x4 x5 x6 x7 x8 := m in Mk x0 x1 v x3 x4 x5 x6 x7 x8.
Definition set_fromUnix (v : Z) (m : t) : t :=
  let 'Mk x0 x1 x2 _ x4 x5 x6 x7 x8 := m in Mk x0 x1 x2 v x4 x5 x6 x7 x8.
Definition set_toUnix (v : Z) (m : t) : t :=
  let 'Mk x0 x1 x2 x3 _ x5 x6 x7 x8 := m in Mk x0 x1 x2 x3 v x5 x6 x7 x8.
Definition set_limit (v : Z) (m : t) : t :=
  let 'Mk x0 x1 x2 x3 x4 _ x6 x7 x8 := m in Mk x0 x1 x2 x3 x4 v x6 x7 x8.
Definition set_offset (v : Z) (m : t) : t :=
  let 'Mk x0 x1 x2 x3 x4 x5 _ x7 x8 := m in Mk x0 x1 x2 x3 x4 x5 v x7 x8.
Definition set_performedBy (v : ustr) (m : t) : t :=
  let 'Mk x0 x1 x2 x3 x4 x5 x6 _ x8 := m in Mk x0 x1 x2 x3 x4 x5 x6 v x8.
Definition set_requestId (v : ustr) (m : t) : t :=
  let 'Mk x0 x1 x2 x3 x4 x5 x6 x7 _ := m in Mk x0 x1 x2 x3 x4 x5 x6 x7 v.

Section Codec.
Context `{Wire}.

Definition encode (message : t) : written :=
  writes [write_if (nonempty (action message)) (tagged 10 (wr_string (action message)));
    write_if (nonempty (serialNumber message)) (tagged 18 (wr_string (serialNumber message)));
    write_if (nonempty (performedByFilter message)) (tagged 26 (wr_string (performedByFilter message)));
    write_if (nonzero (fromUnix message)) (tagged 32 (wr_int64 (fromUnix message)));
    write_if (nonzero (toUnix message)) (tagged 40 (wr_int64 (toUnix message)));
    write_if (nonzero (limit message)) (tagged 48 (wr_int32 (limit message)));
    write_if (nonzero (offset message)) (tagged 56 (wr_int32 (offset message)));
    write_if (nonempty (performedBy message)) (tagged 66 (wr_string (performedBy message)));
    write_if (nonempty (requestId message)) (tagged 74 (wr_string (requestId message)))].

Definition cases (message : t) : list (field_case t) :=
  [Case 1 10 (assign (rlift rd_string) (fun v => set_action v message));
   Case 2 18 (assign (rlift rd_string) (fun v => set_serialNumber v message));
   Case 3 26 (assign (rlift rd_string) (fun v => set_performedByFilter v message));
   Case 4 32 (assign rd_long (fun v => set_fromUnix v message));
   Case 5 40 (assign rd_long (fun v => set_toUnix v message));
   Case 6 48 (assign (rlift rd_int32) (fun v => set_limit v message));
   Case 7 56 (assign (rlift rd_int32) (fun v => set_offset v message));
   Case 8 66 (assign (rlift rd_string) (fun v => set_performedBy v message));
   Case 9 74 (assign (rlift rd_string) (fun v => set_requestId v message))].

Definition decode : option Z -> rd t := decode_message cases createBase.

Definition wf (message : t) : bool :=
  wire_text (action message) &&
  wire_text (serialNumber message) &&
  wire_text (performedByFilter message) &&
  safe_long (fromUnix message) &&
  safe_long (toUnix message) &&
  int_fits 32 (limit message) &&
  int_fits 32 (offset message) &&
  wire_text (performedBy message) &&
  wire_text (requestId message).

Definition wire : codec := Codec _ "ListAuditEventsRequest" t createBase cases encode wf.

End Codec.
End ListAuditEventsRequest.

Module AuditEventRecord_MetadataEntry.

Record t := Mk {
  key : ustr;
  value : ustr
}.

Definition createBase : t := Mk [] [].

Definition set_key (v : ustr) (m : t) : t :=
  let 'Mk _ x1 := m in Mk v x1.
Definition set_value (v : ustr) (m : t) : t :=
  let 'Mk x0 _ := m in Mk x0 v.

Section Codec.
Context `{Wire}.

Definition encode (message : t) : written :=
  writes [write_if (nonempty (key message)) (tagged 10 (wr_string (key message)));
    write_if (nonempty (value message)) (tagged 18 (wr_string (value message)))].

Definition cases (message : t) : list (field_case t) :=
  [Case 1 10 (assign (rlift rd_string) (fun v => set_key v message));
   Case 2 18 (assign (rlift rd_string) (fun v => set_value v message))].

Definition decode : option Z -> rd t := decode_message cases createBase.

Definition wf (message : t) : bool :=
  wire_text (key message) &&
  wire_text (value message).

Definition wire : codec := Codec _ "AuditEventRecord_MetadataEntry" t createBase cases encode wf.

End Codec.
End AuditEventRecord_MetadataEntry.

Module AuditEventRecord.

(** [N] is the representation of the numbers. *)
Record msg (N : Type) := Mk {
  serialNumber : ustr;
  action : ustr;
  performedBy : ustr;
  reason : ustr;
  performedAtUnix : N;
  metadata : entries;
  certType : ustr;
  issuerId : ustr
}.

Arguments Mk {N}.
Arguments serialNumber {N}.
Arguments action {N}.
Arguments performedBy {N}.
Arguments reason {N}.
Arguments performedAtUnix {N}.
Arguments metadata {N}.
Arguments certType {N}.
Arguments issuerId {N}.

Definition t : Type := msg Z.

Definition createBase : t := Mk [] [] [] [] 0 [] [] [].

Definition set_serialNumber (v : ustr) (m : t) : t :=
  let 'Mk _ x1 x2 x3 x4 x5 x6 x7 := m in Mk v x1 x2 x3 x4 x5 x6 x7.
Definition set_action (v : ustr) (m : t) : t :=
  let 'Mk x0 _ x2 x3 x4 x5 x6 x7 := m in Mk x0 v x2 x3 x4 x5 x6 x7.
Definition set_performedBy (v : ustr) (m : t) : t :=
  let 'Mk x0 x1 _ x3 x4 x5 x6 x7 := m in Mk x0 x1 v x3 x4 x5 x6 x7.
Definition set_reason (v : ustr) (m : t) : t :=
  let 'Mk x0 x1 x2 _ x4 x5 x6 x7 := m in Mk x0 x1 x2 v x4 x5 x6 x7.
Definition set_performedAtUnix (v : Z) (m : t) : t :=
  let 'Mk x0 x1 x2 x3 _ x5 x6 x7 := m in Mk x0 x1 x2 x3 v x5 x6 x7.
Definition set_metadata (v : entries) (m : t) : t :=
  let 'Mk x0 x1 x2 x3 x4 _ x6 x7 := m in Mk x0 x1 x2 x3 x4 v x6 x7.
Definition set_certType (v : ustr) (m : t) : t :=
  let 'Mk x0 x1 x2 x3 x4 x5 _ x7 := m in Mk x0 x1 x2 x3 x4 x5 v x7.
Definition set_issuerId (v : ustr) (m : t) : t :=
  let 'Mk x0 x1 x2 x3 x4 x5 x6 _ := m in Mk x0 x1 x2 x3 x4 x5 x6 v.

Section Codec.
Context `{Wire}.

Definition encode (message : t) : written :=
  writes [write_if (nonempty (serialNumber message)) (tagged 10 (wr_string (serialNumber message)));
    write_if (nonempty (action message)) (tagged 18 (wr_string (action message)));
    write_if (nonempty (performedBy message)) (tagged 26 (wr_string (performedBy message)));
    write_if (nonempty (reason message)) (tagged 34 (wr_string (reason message)));
    write_if (nonzero (performedAtUnix message)) (tagged 40 (wr_int64 (performedAtUnix message)));
    write_each (metadata message) (fun e => tagged 50 (forked (AuditEventRecord_MetadataEntry.encode (AuditEventRecord_MetadataEntry.Mk e.1 e.2))));
    write_if (nonempty (certType message)) (tagged 58 (wr_string (certType message)));
    write_if (nonempty (issuerId message)) (tagged 66 (wr_string (issuerId message)))].

Definition cases (message : t) : list (field_case t) :=
  [Case 1 10 (assign (rlift rd_string) (fun v => set_serialNumber v message));
   Case 2 18 (assign (rlift rd_string) (fun v => set_action v message));
   Case 3 26 (assign (rlift rd_string) (fun v => set_performedBy v message));
   Case 4 34 (assign (rlift rd_string) (fun v => set_reason v message));
   Case 5 40 (assign rd_long (fun v => set_performedAtUnix v message));
   Case 6 50 (assign (rd_message AuditEventRecord_MetadataEntry.decode) (fun entry =>
     set_metadata (put_entry (AuditEventRecord_MetadataEntry.key entry) (AuditEventRecord_MetadataEntry.value entry) (metadata message)) message));
   Case 7 58 (assign (rlift rd_string) (fun v => set_certType v message));
   Case 8 66 (assign (rlift rd_string) (fun v => set_issuerId v message))].

Definition decode : option Z -> rd t := decode_message cases createBase.

Definition wf (message : t) : bool :=
  wire_text (serialNumber message) &&
  wire_text (action message) &&
  wire_text (performedBy message) &&
  wire_text (reason message) &&
  safe_long (performedAtUnix message) &&
  entries_ok (metadata message) &&
  forallb (fun e => nested_ok AuditEventRecord_MetadataEntry.wf AuditEventRecord_MetadataEntry.encode (AuditEventRecord_MetadataEntry.Mk e.1 e.2)) (metadata message) &&
  wire_text (certType message) &&
  wire_text (issuerId message).

Definition wire : codec := Codec _ "AuditEventRecord" t createBase cases encode wf.

End Codec.
End AuditEventRecord.

Module ListAuditEventsResponse.

(** [N] is the representation of the numbers. *)
Record msg (N : Type) := Mk {
  events : list (AuditEventRecord.msg N);
  total : N;
  limit : N;
  offset : N
}.

Arguments Mk {N}.
Arguments events {N}.
Arguments total {N}.
Arguments limit {N}.
Arguments offset {N}.

Definition t : Type := msg Z.

Definition createBase : t := Mk [] 0 0 0.

Definition set_events (v : list AuditEventRecord.t) (m : t) : t :=
  let 'Mk _ x1 x2 x3 := m in Mk v x1 x2 x3.
Definition set_total (v : Z) (m : t) : t :=
  let 'Mk x0 _ x2 x3 := m in Mk x0 v x2 x3.
Definition set_limit (v : Z) (m : t) : t :=
  let 'Mk x0 x1 _ x3 := m in Mk x0 x1 v x3.
Definition set_offset (v : Z) (m : t) : t :=
  let 'Mk x0 x1 x2 _ := m in Mk x0 x1 x2 v.

Section Codec.
Context `{Wire}.

Definition encode (message : t) : written :=
  writes [write_each (events message) (fun v => tagged 10 (forked (AuditEventRecord.encode v)));
    write_if (nonzero (total message)) (tagged 16 (wr_int32 (total message)));
    write_if (nonzero (limit message)) (tagged 24 (wr_int32 (limit message)));
    write_if (nonzero (offset message)) (tagged 32 (wr_int32 (offset message)))].

Definition cases (message : t) : list (field_case t) :=
  [Case 1 10 (assign (rd_message AuditEventRecord.decode) (fun v => set_events (events message ++ [v]) message));
   Case 2 16 (assign (rlift rd_int32) (fun v => set_total v message));
   Case 3 24 (assign (rlift rd_int32) (fun v => set_limit v message));
   Case 4 32 (assign (rlift rd_int32) (fun v => set_offset v message))].

Definition decode : option Z -> rd t := decode_message cases createBase.

Definition wf (message : t) : bool :=
  forallb (nested_ok AuditEventRecord.wf AuditEventRecord.encode) (events message) &&
  int_fits 32 (total message) &&
  int_fits 32 (limit message) &&
  int_fits 32 (offset message).

Definition wire : codec := Codec _ "ListAuditEventsResponse" t createBase cases encode wf.

End Codec.
End ListAuditEventsResponse.

Module AppendAuditEventRequest_MetadataEntry.

Record t := Mk {
  key : ustr;
  value : ustr
}.

Definition createBase : t := Mk [] [].

Definition set_key (v : ustr) (m : t) : t :=
  let 'Mk _ x1 := m in Mk v x1.
Definition set_value (v : ustr) (m : t) : t :=
  let 'Mk x0 _ := m in Mk x0 v.

Section Codec.
Context `{Wire}.

Definition encode (message : t) : written :=
  writes [write_if (nonempty (key message)) (tagged 10 (wr_string (key message)));
    write_if (nonempty (value message)) (tagged 18 (wr_string (value message)))].

Definition cases (message : t) : list (field_case t) :=
  [Case 1 10 (assign (rlift rd_string) (fun v => set_key v message));
   Case 2 18 (assign (rlift rd_string) (fun v => set_value v message))].

Definition decode : option Z -> rd t := decode_message cases createBase.

Definition wf (message : t) : bool :=
  wire_text (key message) &&
  wire_text (value message).

Definition wire : codec := Codec _ "AppendAuditEventRequest_MetadataEntry" t createBase cases encode wf.

End Codec.
End AppendAuditEventRequest_MetadataEntry.

Module AppendAuditEventRequest.

Record t := Mk {
  action : ustr;
  serialNumber : ustr;
  performedBy : ustr;
  reason : ustr;
  metadata : entries
}.

Definition createBase : t := Mk [] [] [] [] [].

Definition set_action (v : ustr) (m : t) : t :=
  let 'Mk _ x1 x2 x3 x4 := m in Mk v x1 x2 x3 x4.
Definition set_serialNumber (v : ustr) (m : t) : t :=
  let 'Mk x0 _ x2 x3 x4 := m in Mk x0 v x2 x3 x4.
Definition set_performedBy (v : ustr) (m : t) : t :=
  let 'Mk x0 x1 _ x3 x4 := m in Mk x0 x1 v x3 x4.
Definition set_reason (v : ustr) (m : t) : t :=
  let 'Mk x0 x1 x2 _ x4 := m in Mk x0 x1 x2 v x4.
Definition set_metadata (v : entries) (m : t) : t :=
  let 'Mk x0 x1 x2 x3 _ := m in Mk x0 x1 x2 x3 v.

Section Codec.
Context `{Wire}.

Definition encode (message : t) : written :=
  writes [write_if (nonempty (action message)) (tagged 10 (wr_string (action message)));
    write_if (nonempty (serialNumber message)) (tagged 18 (wr_string (serialNumber message)));
    write_if (nonempty (performedBy message)) (tagged 26 (wr_string (performedBy message)));
    write_if (nonempty (reason message)) (tagged 34 (wr_string (reason message)));
    write_each (metadata message) (fun e => tagged 42 (forked (AppendAuditEventRequest_MetadataEntry.encode (AppendAuditEventRequest_MetadataEntry.Mk e.1 e.2))))].

Definition cases (message : t) : list (field_case t) :=
  [Case 1 10 (assign (rlift rd_string) (fun v => set_action v message));
   Case 2 18 (assign (rlift rd_string) (fun v => set_serialNumber v message));
   Case 3 26 (assign (rlift rd_string) (fun v => set_performedBy v message));
   Case 4 34 (assign (rlift rd_string) (fun v => set_reason v message));
   Case 5 42 (assign (rd_message AppendAuditEventRequest_MetadataEntry.decode) (fun entry =>
     set_metadata (put_entry (AppendAuditEventRequest_MetadataEntry.key entry) (AppendAuditEventRequest_MetadataEntry.value entry) (metadata message)) message))].

Definition decode : option Z -> rd t := decode_message cases createBase.

Definition wf (message : t) : bool :=
  wire_text (action message) &&
  wire_text (serialNumber message) &&
  wire_text (performedBy message) &&
  wire_text (reason message) &&
  entries_ok (metadata message) &&
  forallb (fun e => nested_ok AppendAuditEventRequest_MetadataEntry.wf AppendAuditEventRequest_MetadataEntry.encode (AppendAuditEventRequest_MetadataEntry.Mk e.1 e.2)) (metadata message).

Definition wire : codec := Codec _ "AppendAuditEventRequest" t createBase cases encode wf.

End Codec.
End AppendAuditEventRequest.

Module AppendAuditEventResponse.

Record t := Mk {
  recorded : bool
}.

Definition createBase : t := Mk false.

Definition set_recorded (v : bool) (m : t) : t :=
  let 'Mk _ := m in Mk v.

Section Codec.
Context `{Wire}.

Definition encode (message : t) : written :=
  writes [write_if (recorded message) (tagged 8 (wr_bool (recorded message)))].

Definition cases (message : t) : list (field_case t) :=
  [Case 1 8 (assign (rlift rd_bool) (fun v => set_recorded v message))].

Definition decode : option Z -> rd t := decode_message cases createBase.

Definition wf (message : t) : bool :=
  true.

Definition wire : codec := Codec _ "AppendAuditEventResponse" t createBase cases encode wf.

End Codec.
End AppendAuditEventResponse.

Module VerifyAuditChainRequest.

Record t := Mk {}.

Definition createBase : t := Mk.


Section Codec.
Context `{Wire}.

Definition encode (message : t) : written :=
  writes [].

Definition cases (message : t) : list (field_case t) :=
  [].

Definition decode : option Z -> rd t := decode_message cases createBase.

Definition wf (message : t) : bool :=
  true.

Definition wire : codec := Codec _ "VerifyAuditChainRequest" t createBase cases encode wf.

End Codec.
End VerifyAuditChainRequest.

Module VerifyAuditChainResponse.

(** [N] is the representation of the numbers. *)
Record msg (N : Type) := Mk {
  ok : bool;
  checked : N;
  brokenSeq : N;
  brokenId : ustr;
  detail : ustr
}.

Arguments Mk {N}.
Arguments ok {N}.
Arguments checked {N}.
Arguments brokenSeq {N}.
Arguments brokenId {N}.
Arguments detail {N}.

Definition t : Type := msg Z.

Definition createBase : t := Mk false 0 0 [] [].

Definition set_ok (v : bool) (m : t) : t :=
  let 'Mk _ x1 x2 x3 x4 := m in Mk v x1 x2 x3 x4.
Definition set_checked (v : Z) (m : t) : t :=
  let 'Mk x0 _ x2 x3 x4 := m in Mk x0 v x2 x3 x4.
Definition set_brokenSeq (v : Z) (m : t) : t :=
  let 'Mk x0 x1 _ x3 x4 := m in Mk x0 x1 v x3 x4.
Definition set_brokenId (v : ustr) (m : t) : t :=
  let 'Mk x0 x1 x2 _ x4 := m in Mk x0 x1 x2 v x4.
Definition set_detail (v : ustr) (m : t) : t :=
  let 'Mk x0 x1 x2 x3 _ := m in Mk x0 x1 x2 x3 v.

Section Codec.
Context `{Wire}.

Definition encode (message : t) : written :=
  writes [write_if (ok message) (tagged 8 (wr_bool (ok message)));
    write_if (nonzero (checked message)) (tagged 16 (wr_int32 (checked message)));
    write_if (nonzero (brokenSeq message)) (tagged 24 (wr_int64 (brokenSeq message)));
    write_if (nonempty (brokenId message)) (tagged 34 (wr_string (brokenId message)));
    write_if (nonempty (detail message)) (tagged 42 (wr_string (detail message)))].

Definition cases (message : t) : list (field_case t) :=
  [Case 1 8 (assign (rlift rd_bool) (fun v => set_ok v message));
   Case 2 16 (assign (rlift rd_int32) (fun v => set_checked v message));
   Case 3 24 (assign rd_long (fun v => set_brokenSeq v message));
   Case 4 34 (assign (rlift rd_string) (fun v => set_brokenId v message));
   Case 5 42 (assign (rlift rd_string) (fun v => set_detail v message))].

Definition decode : option Z -> rd t := decode_message cases createBase.

Definition wf (message : t) : bool :=
  int_fits 32 (checked message) &&
  safe_long (brokenSeq message) &&
  wire_text (brokenId message) &&
  wire_text (detail message).

Definition wire : codec := Codec _ "VerifyAuditChainResponse" t createBase cases encode wf.

End Codec.
End VerifyAuditChainResponse.

(** ** The service *)

Definition CAServiceService `{Wire} : list (string * rpc) :=
  [("registerUser", Rpc _ "/ca.CAService/RegisterUser" RegisterUserRequest.wire RegisterUserResponse.wire);
   ("verifyCertificate", Rpc _ "/ca.CAService/VerifyCertificate" VerifyCertificateRequest.wire VerifyCertificateResponse.wire);
   ("getCertificate", Rpc _ "/ca.CAService/GetCertificate" GetCertificateRequest.wire GetCertificateResponse.wire);
   ("checkRevocation", Rpc _ "/ca.CAService/CheckRevocation" CheckRevocationRequest.wire CheckRevocationResponse.wire);
   ("listCertificates", Rpc _ "/ca.CAService/ListCertificates" ListCertificatesRequest.wire ListCertificatesResponse.wire);
   ("getCertificateDetail", Rpc _ "/ca.CAService/GetCertificateDetail" GetCertificateDetailRequest.wire GetCertificateDetailResponse.wire);
   ("revokeCertificate", Rpc _ "/ca.CAService/RevokeCertificate" RevokeCertificateRequest.wire RevokeCertificateResponse.wire);
   ("listAuditEvents", Rpc _ "/ca.CAService/ListAuditEvents" ListAuditEventsRequest.wire ListAuditEventsResponse.wire);
   ("appendAuditEvent", Rpc _ "/ca.CAService/AppendAuditEvent" AppendAuditEventRequest.wire AppendAuditEventResponse.wire);
   ("verifyAuditChain", Rpc _ "/ca.CAService/VerifyAuditChain" VerifyAuditChainRequest.wire VerifyAuditChainResponse.wire)].

(** ** The laws *)

Lemma ca_CertificateMetadata_laws `{WireSpec} : codec_laws CertificateMetadata.wire.
Proof. prove_codec CertificateMetadata.wire CertificateMetadata.encode CertificateMetadata.wf. Qed.
#[export] Hint Resolve ca_CertificateMetadata_laws : wire_laws.

#[local] Hint Extern 1 (carried (forked (CertificateMetadata.encode _)) _ _) =>
  apply (codec_nested CertificateMetadata.wire); [apply ca_CertificateMetadata_laws |] : wire.
#[local] Hint Extern 1 (ends (CertificateMetadata.decode _)) =>
  apply (codec_decode_ends CertificateMetadata.wire); apply ca_CertificateMetadata_laws : wire.

Lemma ca_RegisterUserRequest_laws `{WireSpec} : codec_laws RegisterUserRequest.wire.
Proof. prove_codec RegisterUserRequest.wire RegisterUserRequest.encode RegisterUserRequest.wf. Qed.
#[export] Hint Resolve ca_RegisterUserRequest_laws : wire_laws.

Lemma ca_RegisterUserResponse_laws `{WireSpec} : codec_laws RegisterUserResponse.wire.
Proof. prove_codec RegisterUserResponse.wire RegisterUserResponse.encode RegisterUserResponse.wf. Qed.
#[export] Hint Resolve ca_RegisterUserResponse_laws : wire_laws.

Lemma ca_VerifyCertificateRequest_laws `{WireSpec} : codec_laws VerifyCertificateRequest.wire.
Proof. prove_codec VerifyCertificateRequest.wire VerifyCertificateRequest.encode VerifyCertificateRequest.wf. Qed.
#[export] Hint Resolve ca_VerifyCertificateRequest_laws : wire_laws.

Lemma ca_VerifyCertificateResponse_laws `{WireSpec} : codec_laws VerifyCertificateResponse.wire.
Proof. prove_codec VerifyCertificateResponse.wire VerifyCertificateResponse.encode VerifyCertificateResponse.wf. Qed.
#[export] Hint Resolve ca_VerifyCertificateResponse_laws : wire_laws.

Lemma ca_GetCertificateRequest_laws `{WireSpec} : codec_laws GetCertificateRequest.wire.
Proof. prove_codec GetCertificateRequest.wire GetCertificateRequest.encode GetCertificateRequest.wf. Qed.
#[export] Hint Resolve ca_GetCertificateRequest_laws : wire_laws.

Lemma ca_GetCertificateResponse_laws `{WireSpec} : codec_laws GetCertificateResponse.wire.
Proof. prove_codec GetCertificateResponse.wire GetCertificateResponse.encode GetCertificateResponse.wf. Qed.
#[export] Hint Resolve ca_GetCertificateResponse_laws : wire_laws.

Lemma ca_CheckRevocationRequest_laws `{WireSpec} : codec_laws CheckRevocationRequest.wire.
Proof. prove_codec CheckRevocationRequest.wire CheckRevocationRequest.encode CheckRevocationRequest.wf. Qed.
#[export] Hint Resolve ca_CheckRevocationRequest_laws : wire_laws.

Lemma ca_CheckRevocationResponse_laws `{WireSpec} : codec_laws CheckRevocationResponse.wire.
Proof. prove_codec CheckRevocationResponse.wire CheckRevocationResponse.encode CheckRevocationResponse.wf. Qed.
#[export] Hint Resolve ca_CheckRevocationResponse_laws : wire_laws.

Lemma ca_ListCertificatesRequest_laws `{WireSpec} : codec_laws ListCertificatesRequest.wire.
Proof. prove_codec ListCertificatesRequest.wire ListCertificatesRequest.encode ListCertificatesRequest.wf. Qed.
#[export] Hint Resolve ca_ListCertificatesRequest_laws : wire_laws.

Lemma ca_ListCertificatesResponse_laws `{WireSpec} : codec_laws ListCertificatesResponse.wire.
Proof. prove_codec ListCertificatesResponse.wire ListCertificatesResponse.encode ListCertificatesResponse.wf. Qed.
#[export] Hint Resolve ca_ListCertificatesResponse_laws : wire_laws.

Lemma ca_GetCertificateDetailRequest_laws `{WireSpec} : codec_laws GetCertificateDetailRequest.wire.
Proof. prove_codec GetCertificateDetailRequest.wire GetCertificateDetailRequest.encode GetCertificateDetailRequest.wf. Qed.
#[export] Hint Resolve ca_GetCertificateDetailRequest_laws : wire_laws.

Lemma ca_GetCertificateDetailResponse_laws `{WireSpec} : codec_laws GetCertificateDetailResponse.wire.
Proof. prove_codec GetCertificateDetailResponse.wire GetCertificateDetailResponse.encode GetCertificateDetailResponse.wf. Qed.
#[export] Hint Resolve ca_GetCertificateDetailResponse_laws : wire_laws.

Lemma ca_RevokeCertificateRequest_laws `{WireSpec} : codec_laws RevokeCertificateRequest.wire.
Proof. prove_codec RevokeCertificateRequest.wire RevokeCertificateRequest.encode RevokeCertificateRequest.wf. Qed.
#[export] Hint Resolve ca_RevokeCertificateRequest_laws : wire_laws.

Lemma ca_RevokeCertificateResponse_laws `{WireSpec} : codec_laws RevokeCertificateResponse.wire.
Proof. prove_codec RevokeCertificateResponse.wire RevokeCertificateResponse.encode RevokeCertificateResponse.wf. Qed.
#[export] Hint Resolve ca_RevokeCertificateResponse_laws : wire_laws.

Lemma ca_ListAuditEventsRequest_laws `{WireSpec} : codec_laws ListAuditEventsRequest.wire.
Proof. prove_codec ListAuditEventsRequest.wire ListAuditEventsRequest.encode ListAuditEventsRequest.wf. Qed.
#[export] Hint Resolve ca_ListAuditEventsRequest_laws : wire_laws.

Lemma ca_AuditEventRecord_MetadataEntry_laws `{WireSpec} : codec_laws AuditEventRecord_MetadataEntry.wire.
Proof. prove_codec AuditEventRecord_MetadataEntry.wire AuditEventRecord_MetadataEntry.encode AuditEventRecord_MetadataEntry.wf. Qed.
#[export] Hint Resolve ca_AuditEventRecord_MetadataEntry_laws : wire_laws.

#[local] Hint Extern 1 (carried (forked (AuditEventRecord_MetadataEntry.encode _)) _ _) =>
  apply (codec_nested AuditEventRecord_MetadataEntry.wire); [apply ca_AuditEventRecord_MetadataEntry_laws |] : wire.
#[local] Hint Extern 1 (ends (AuditEventRecord_MetadataEntry.decode _)) =>
  apply (codec_decode_ends AuditEventRecord_MetadataEntry.wire); apply ca_AuditEventRecord_MetadataEntry_laws : wire.

Lemma ca_AuditEventRecord_laws `{WireSpec} : codec_laws AuditEventRecord.wire.
Proof. prove_codec AuditEventRecord.wire AuditEventRecord.encode AuditEventRecord.wf. Qed.
#[export] Hint Resolve ca_AuditEventRecord_laws : wire_laws.

#[local] Hint Extern 1 (carried (forked (AuditEventRecord.encode _)) _ _) =>
  apply (codec_nested AuditEventRecord.wire); [apply ca_AuditEventRecord_laws |] : wire.
#[local] Hint Extern 1 (ends (AuditEventRecord.decode _)) =>
  apply (codec_decode_ends AuditEventRecord.wire); apply ca_AuditEventRecord_laws : wire.

Lemma ca_ListAuditEventsResponse_laws `{WireSpec} : codec_laws ListAuditEventsResponse.wire.
Proof. prove_codec ListAuditEventsResponse.wire ListAuditEventsResponse.encode ListAuditEventsResponse.wf. Qed.
#[export] Hint Resolve ca_ListAuditEventsResponse_laws : wire_laws.

Lemma ca_AppendAuditEventRequest_MetadataEntry_laws `{WireSpec} : codec_laws AppendAuditEventRequest_MetadataEntry.wire.
Proof. prove_codec AppendAuditEventRequest_MetadataEntry.wire AppendAuditEventRequest_MetadataEntry.encode AppendAuditEventRequest_MetadataEntry.wf. Qed.
#[export] Hint Resolve ca_AppendAuditEventRequest_MetadataEntry_laws : wire_laws.

#[local] Hint Extern 1 (carried (forked (AppendAuditEventRequest_MetadataEntry.encode _)) _ _) =>
  apply (codec_nested AppendAuditEventRequest_MetadataEntry.wire); [apply ca_AppendAuditEventRequest_MetadataEntry_laws |] : wire.
#[local] Hint Extern 1 (ends (AppendAuditEventRequest_MetadataEntry.decode _)) =>
  apply (codec_decode_ends AppendAuditEventRequest_MetadataEntry.wire); apply ca_AppendAuditEventRequest_MetadataEntry_laws : wire.

Lemma ca_AppendAuditEventRequest_laws `{WireSpec} : codec_laws AppendAuditEventRequest.wire.
Proof. prove_codec AppendAuditEventRequest.wire AppendAuditEventRequest.encode AppendAuditEventRequest.wf. Qed.
#[export] Hint Resolve ca_AppendAuditEventRequest_laws : wire_laws.

Lemma ca_AppendAuditEventResponse_laws `{WireSpec} : codec_laws AppendAuditEventResponse.wire.
Proof. prove_codec AppendAuditEventResponse.wire AppendAuditEventResponse.encode AppendAuditEventResponse.wf. Qed.
#[export] Hint Resolve ca_AppendAuditEventResponse_laws : wire_laws.

Lemma ca_VerifyAuditChainRequest_laws `{WireSpec} : codec_laws VerifyAuditChainRequest.wire.
Proof. prove_codec VerifyAuditChainRequest.wire VerifyAuditChainRequest.encode VerifyAuditChainRequest.wf. Qed.
#[export] Hint Resolve ca_VerifyAuditChainRequest_laws : wire_laws.

Lemma ca_VerifyAuditChainResponse_laws `{WireSpec} : codec_laws VerifyAuditChainResponse.wire.
Proof. prove_codec VerifyAuditChainResponse.wire VerifyAuditChainResponse.encode VerifyAuditChainResponse.wf. Qed.
#[export] Hint Resolve ca_VerifyAuditChainResponse_laws : wire_laws.

(** ** All the messages of [ca.proto] *)

Definition ca_messages `{Wire} : list codec :=
  [CertificateMetadata.wire;
   RegisterUserRequest.wire;
   RegisterUserResponse.wire;
   VerifyCertificateRequest.wire;
   VerifyCertificateResponse.wire;
   GetCertificateRequest.wire;
   GetCertificateResponse.wire;
   CheckRevocationRequest.wire;
   CheckRevocationResponse.wire;
   ListCertificatesRequest.wire;
   ListCertificatesResponse.wire;
   GetCertificateDetailRequest.wire;
   GetCertificateDetailResponse.wire;
   RevokeCertificateRequest.wire;
   RevokeCertificateResponse.wire;
   ListAuditEventsRequest.wire;
   AuditEventRecord_MetadataEntry.wire;
   AuditEventRecord.wire;
   ListAuditEventsResponse.wire;
   AppendAuditEventRequest_MetadataEntry.wire;
   AppendAuditEventRequest.wire;
   AppendAuditEventResponse.wire;
   VerifyAuditChainRequest.wire;
   VerifyAuditChainResponse.wire].

Lemma ca_messages_laws `{WireSpec} : Forall codec_laws ca_messages.
Proof. repeat (constructor; [eauto using ca_CertificateMetadata_laws, ca_RegisterUserRequest_laws, ca_RegisterUserResponse_laws, ca_VerifyCertificateRequest_laws, ca_VerifyCertificateResponse_laws, ca_GetCertificateRequest_laws, ca_GetCertificateResponse_laws, ca_CheckRevocationRequest_laws, ca_CheckRevocationResponse_laws, ca_ListCertificatesRequest_laws, ca_ListCertificatesResponse_laws, ca_GetCertificateDetailRequest_laws, ca_GetCertificateDetailResponse_laws, ca_RevokeCertificateRequest_laws, ca_RevokeCertificateResponse_laws, ca_ListAuditEventsRequest_laws, ca_AuditEventRecord_MetadataEntry_laws, ca_AuditEventRecord_laws, ca_ListAuditEventsResponse_laws, ca_AppendAuditEventRequest_MetadataEntry_laws, ca_AppendAuditEventRequest_laws, ca_AppendAuditEventResponse_laws, ca_VerifyAuditChainRequest_laws, ca_VerifyAuditChainResponse_laws|]). constructor. Qed.
