(* ===== verification/BankProto.v ===== *)
(** * The messages of the bank

    [api-gateway/src/proto/bank.ts]: every message with its [createBase], [encode] and
    [decode], in the order of their dependencies. [cases] is the [switch] of
    [decode], [wf] the messages that the wire can carry. An [enum] is the number
    that it is at run time. *)

From S2P Require Import Prelude JsString Gateway UString Wire.

Open Scope Z_scope.
Open Scope wire_scope.

Module CreateUserRequest.

Record t := Mk {
  userId : ustr;
  subjectEmail : ustr;
  fullName : ustr
}.

Definition createBase : t := Mk [] [] [].

Definition set_userId (v : ustr) (m : t) : t :=
  let 'Mk _ x1 x2 := m in Mk v x1 x2.
Definition set_subjectEmail (v : ustr) (m : t) : t :=
  let 'Mk x0 _ x2 := m in Mk x0 v x2.
Definition set_fullName (v : ustr) (m : t) : t :=
  let 'Mk x0 x1 _ := m in Mk x0 x1 v.

Section Codec.
Context `{Wire}.

Definition encode (message : t) : written :=
  writes [write_if (nonempty (userId message)) (tagged 10 (wr_string (userId message)));
    write_if (nonempty (subjectEmail message)) (tagged 18 (wr_string (subjectEmail message)));
    write_if (nonempty (fullName message)) (tagged 26 (wr_string (fullName message)))].

Definition cases (message : t) : list (field_case t) :=
  [Case 1 10 (assign (rlift rd_string) (fun v => set_userId v message));
   Case 2 18 (assign (rlift rd_string) (fun v => set_subjectEmail v message));
   Case 3 26 (assign (rlift rd_string) (fun v => set_fullName v message))].

Definition decode : option Z -> rd t := decode_message cases createBase.

Definition wf (message : t) : bool :=
  wire_text (userId message) &&
  wire_text (subjectEmail message) &&
  wire_text (fullName message).

Definition wire : codec := Codec _ "CreateUserRequest" t createBase cases encode wf.

End Codec.
End CreateUserRequest.

Module CheckUserEmailRequest.

Record t := Mk {
  subjectEmail : ustr
}.

Definition createBase : t := Mk [].

Definition set_subjectEmail (v : ustr) (m : t) : t :=
  let 'Mk _ := m in Mk v.

Section Codec.
Context `{Wire}.

Definition encode (message : t) : written :=
  writes [write_if (nonempty (subjectEmail message)) (tagged 10 (wr_string (subjectEmail message)))].

Definition cases (message : t) : list (field_case t) :=
  [Case 1 10 (assign (rlift rd_string) (fun v => set_subjectEmail v message))].

Definition decode : option Z -> rd t := decode_message cases createBase.

Definition wf (message : t) : bool :=
  wire_text (subjectEmail message).

Definition wire : codec := Codec _ "CheckUserEmailRequest" t createBase cases encode wf.

End Codec.
End CheckUserEmailRequest.

Module CheckUserEmailResponse.

Record t := Mk {
  exists_ : bool;
  userId : ustr;
  status : ustr
}.

Definition createBase : t := Mk false [] [].

Definition set_exists (v : bool) (m : t) : t :=
  let 'Mk _ x1 x2 := m in Mk v x1 x2.
Definition set_userId (v : ustr) (m : t) : t :=
  let 'Mk x0 _ x2 := m in Mk x0 v x2.
Definition set_status (v : ustr) (m : t) : t :=
  let 'Mk x0 x1 _ := m in Mk x0 x1 v.

Section Codec.
Context `{Wire}.

Definition encode (message : t) : written :=
  writes [write_if (exists_ message) (tagged 8 (wr_bool (exists_ message)));
    write_if (nonempty (userId message)) (tagged 18 (wr_string (userId message)));
    write_if (nonempty (status message)) (tagged 26 (wr_string (status message)))].

Definition cases (message : t) : list (field_case t) :=
  [Case 1 8 (assign (rlift rd_bool) (fun v => set_exists v message));
   Case 2 18 (assign (rlift rd_string) (fun v => set_userId v message));
   Case 3 26 (assign (rlift rd_string) (fun v => set_status v message))].

Definition decode : option Z -> rd t := decode_message cases createBase.

Definition wf (message : t) : bool :=
  wire_text (userId message) &&
  wire_text (status message).

Definition wire : codec := Codec _ "CheckUserEmailResponse" t createBase cases encode wf.

End Codec.
End CheckUserEmailResponse.

Module CreateUserResponse.

(** [N] is the representation of the numbers. *)
Record msg (N : Type) := Mk {
  userId : ustr;
  status : ustr;
  createdAtUnix : N
}.

Arguments Mk {N}.
Arguments userId {N}.
Arguments status {N}.
Arguments createdAtUnix {N}.

Definition t : Type := msg Z.

Definition createBase : t := Mk [] [] 0.

Definition set_userId (v : ustr) (m : t) : t :=
  let 'Mk _ x1 x2 := m in Mk v x1 x2.
Definition set_status (v : ustr) (m : t) : t :=
  let 'Mk x0 _ x2 := m in Mk x0 v x2.
Definition set_createdAtUnix (v : Z) (m : t) : t :=
  let 'Mk x0 x1 _ := m in Mk x0 x1 v.

Section Codec.
Context `{Wire}.

Definition encode (message : t) : written :=
  writes [write_if (nonempty (userId message)) (tagged 10 (wr_string (userId message)));
    write_if (nonempty (status message)) (tagged 18 (wr_string (status message)));
    write_if (nonzero (createdAtUnix message)) (tagged 24 (wr_int64 (createdAtUnix message)))].

Definition cases (message : t) : list (field_case t) :=
  [Case 1 10 (assign (rlift rd_string) (fun v => set_userId v message));
   Case 2 18 (assign (rlift rd_string) (fun v => set_status v message));
   Case 3 24 (assign rd_long (fun v => set_createdAtUnix v message))].

Definition decode : option Z -> rd t := decode_message cases createBase.

Definition wf (message : t) : bool :=
  wire_text (userId message) &&
  wire_text (status message) &&
  safe_long (createdAtUnix message).

Definition wire : codec := Codec _ "CreateUserResponse" t createBase cases encode wf.

End Codec.
End CreateUserResponse.

Module TransferRequest.

Record t := Mk {
  ticketV : list Z;
  authenticator : list Z;
  cipherPayload : list Z;
  iv : list Z
}.

Definition createBase : t := Mk [] [] [] [].

Definition set_ticketV (v : list Z) (m : t) : t :=
  let 'Mk _ x1 x2 x3 := m in Mk v x1 x2 x3.
Definition set_authenticator (v : list Z) (m : t) : t :=
  let 'Mk x0 _ x2 x3 := m in Mk x0 v x2 x3.
Definition set_cipherPayload (v : list Z) (m : t) : t :=
  let 'Mk x0 x1 _ x3 := m in Mk x0 x1 v x3.
Definition set_iv (v : list Z) (m : t) : t :=
  let 'Mk x0 x1 x2 _ := m in Mk x0 x1 x2 v.

Section Codec.
Context `{Wire}.

Definition encode (message : t) : written :=
  writes [write_if (nonempty (ticketV message)) (tagged 10 (wr_bytes (ticketV message)));
    write_if (nonempty (authenticator message)) (tagged 18 (wr_bytes (authenticator message)));
    write_if (nonempty (cipherPayload message)) (tagged 26 (wr_bytes (cipherPayload message)));
    write_if (nonempty (iv message)) (tagged 34 (wr_bytes (iv message)))].

Definition cases (message : t) : list (field_case t) :=
  [Case 1 10 (assign (rlift rd_bytes) (fun v => set_ticketV v message));
   Case 2 18 (assign (rlift rd_bytes) (fun v => set_authenticator v message));
   Case 3 26 (assign (rlift rd_bytes) (fun v => set_cipherPayload v message));
   Case 4 34 (assign (rlift rd_bytes) (fun v => set_iv v message))].

Definition decode : option Z -> rd t := decode_message cases createBase.

Definition wf (message : t) : bool :=
  wire_bytes (ticketV message) &&
  wire_bytes (authenticator message) &&
  wire_bytes (cipherPayload message) &&
  wire_bytes (iv message).

Definition wire : codec := Codec _ "TransferRequest" t createBase cases encode wf.

End Codec.
End TransferRequest.

Module TransferResponse.

Record t := Mk {
  apRep : list Z;
  transactionId : ustr
}.

Definition createBase : t := Mk [] [].

Definition set_apRep (v : list Z) (m : t) : t :=
  let 'Mk _ x1 := m in Mk v x1.
Definition set_transactionId (v : ustr) (m : t) : t :=
  let 'Mk x0 _ := m in Mk x0 v.

Section Codec.
Context `{Wire}.

Definition encode (message : t) : written :=
  writes [write_if (nonempty (apRep message)) (tagged 10 (wr_bytes (apRep message)));
    write_if (nonempty (transactionId message)) (tagged 18 (wr_string (transactionId message)))].

Definition cases (message : t) : list (field_case t) :=
  [Case 1 10 (assign (rlift rd_bytes) (fun v => set_apRep v message));
   Case 2 18 (assign (rlift rd_string) (fun v => set_transactionId v message))].

Definition decode : option Z -> rd t := decode_message cases createBase.

Definition wf (message : t) : bool :=
  wire_bytes (apRep message) &&
  wire_text (transactionId message).

Definition wire : codec := Codec _ "TransferResponse" t createBase cases encode wf.

End Codec.
End TransferResponse.

Module BalanceRequest.

Record t := Mk {
  ticketV : list Z;
  authenticator : list Z;
  accountId : ustr
}.

Definition createBase : t := Mk [] [] [].

Definition set_ticketV (v : list Z) (m : t) : t :=
  let 'Mk _ x1 x2 := m in Mk v x1 x2.
Definition set_authenticator (v : list Z) (m : t) : t :=
  let 'Mk x0 _ x2 := m in Mk x0 v x2.
Definition set_accountId (v : ustr) (m : t) : t :=
  let 'Mk x0 x1 _ := m in Mk x0 x1 v.

Section Codec.
Context `{Wire}.

Definition encode (message : t) : written :=
  writes [write_if (nonempty (ticketV message)) (tagged 10 (wr_bytes (ticketV message)));
    write_if (nonempty (authenticator message)) (tagged 18 (wr_bytes (authenticator message)));
    write_if (nonempty (accountId message)) (tagged 26 (wr_string (accountId message)))].

Definition cases (message : t) : list (field_case t) :=
  [Case 1 10 (assign (rlift rd_bytes) (fun v => set_ticketV v message));
   Case 2 18 (assign (rlift rd_bytes) (fun v => set_authenticator v message));
   Case 3 26 (assign (rlift rd_string) (fun v => set_accountId v message))].

Definition decode : option Z -> rd t := decode_message cases createBase.

Definition wf (message : t) : bool :=
  wire_bytes (ticketV message) &&
  wire_bytes (authenticator message) &&
  wire_text (accountId message).

Definition wire : codec := Codec _ "BalanceRequest" t createBase cases encode wf.

End Codec.
End BalanceRequest.

Module BalanceResponse.

(** [N] is the representation of the numbers. *)
Record msg (N : Type) := Mk {
  apRep : list Z;
  accountId : ustr;
  accountNumber : ustr;
  balance : N;
  currency : ustr;
  status : Z
}.

Arguments Mk {N}.
Arguments apRep {N}.
Arguments accountId {N}.
Arguments accountNumber {N}.
Arguments balance {N}.
Arguments currency {N}.
Arguments status {N}.

Definition t : Type := msg Z.

Definition createBase : t := Mk [] [] [] 0 [] 0.

Definition set_apRep (v : list Z) (m : t) : t :=
  let 'Mk _ x1 x2 x3 x4 x5 := m in Mk v x1 x2 x3 x4 x5.
Definition set_accountId (v : ustr) (m : t) : t :=
  let 'Mk x0 _ x2 x3 x4 x5 := m in Mk x0 v x2 x3 x4 x5.
Definition set_accountNumber (v : ustr) (m : t) : t :=
  let 'Mk x0 x1 _ x3 x4 x5 := m in Mk x0 x1 v x3 x4 x5.
Definition set_balance (v : Z) (m : t) : t :=
  let 'Mk x0 x1 x2 _ x4 x5 := m in Mk x0 x1 x2 v x4 x5.
Definition set_currency (v : ustr) (m : t) : t :=
  let 'Mk x0 x1 x2 x3 _ x5 := m in Mk x0 x1 x2 x3 v x5.
Definition set_status (v : Z) (m : t) : t :=
  let 'Mk x0 x1 x2 x3 x4 _ := m in Mk x0 x1 x2 x3 x4 v.

Section Codec.
Context `{Wire}.

Definition encode (message : t) : written :=
  writes [write_if (nonempty (apRep message)) (tagged 10 (wr_bytes (apRep message)));
    write_if (nonempty (accountId message)) (tagged 18 (wr_string (accountId message)));
    write_if (nonempty (accountNumber message)) (tagged 26 (wr_string (accountNumber message)));
    write_if (nonzero (balance message)) (tagged 32 (wr_int64 (balance message)));
    write_if (nonempty (currency message)) (tagged 42 (wr_string (currency message)));
    write_if (nonzero (status message)) (tagged 48 (wr_int32 (status message)))].

Definition cases (message : t) : list (field_case t) :=
  [Case 1 10 (assign (rlift rd_bytes) (fun v => set_apRep v message));
   Case 2 18 (assign (rlift rd_string) (fun v => set_accountId v message));
   Case 3 26 (assign (rlift rd_string) (fun v => set_accountNumber v message));
   Case 4 32 (assign rd_long (fun v => set_balance v message));
   Case 5 42 (assign (rlift rd_string) (fun v => set_currency v message));
   Case 6 48 (assign (rlift rd_int32) (fun v => set_status v message))].

Definition decode : option Z -> rd t := decode_message cases createBase.

Definition wf (message : t) : bool :=
  wire_bytes (apRep message) &&
  wire_text (accountId message) &&
  wire_text (accountNumber message) &&
  safe_long (balance message) &&
  wire_text (currency message) &&
  int_fits 32 (status message).

Definition wire : codec := Codec _ "BalanceResponse" t createBase cases encode wf.

End Codec.
End BalanceResponse.

Module HistoryRequest.

(** [N] is the representation of the numbers. *)
Record msg (N : Type) := Mk {
  ticketV : list Z;
  authenticator : list Z;
  accountId : ustr;
  limit : N;
  offset : N
}.

Arguments Mk {N}.
Arguments ticketV {N}.
Arguments authenticator {N}.
Arguments accountId {N}.
Arguments limit {N}.
Arguments offset {N}.

Definition t : Type := msg Z.

Definition createBase : t := Mk [] [] [] 0 0.

Definition set_ticketV (v : list Z) (m : t) : t :=
  let 'Mk _ x1 x2 x3 x4 := m in Mk v x1 x2 x3 x4.
Definition set_authenticator (v : list Z) (m : t) : t :=
  let 'Mk x0 _ x2 x3 x4 := m in Mk x0 v x2 x3 x4.
Definition set_accountId (v : ustr) (m : t) : t :=
  let 'Mk x0 x1 _ x3 x4 := m in Mk x0 x1 v x3 x4.
Definition set_limit (v : Z) (m : t) : t :=
  let 'Mk x0 x1 x2 _ x4 := m in Mk x0 x1 x2 v x4.
Definition set_offset (v : Z) (m : t) : t :=
  let 'Mk x0 x1 x2 x3 _ := m in Mk x0 x1 x2 x3 v.

Section Codec.
Context `{Wire}.

Definition encode (message : t) : written :=
  writes [write_if (nonempty (ticketV message)) (tagged 10 (wr_bytes (ticketV message)));
    write_if (nonempty (authenticator message)) (tagged 18 (wr_bytes (authenticator message)));
    write_if (nonempty (accountId message)) (tagged 26 (wr_string (accountId message)));
    write_if (nonzero (limit message)) (tagged 32 (wr_int32 (limit message)));
    write_if (nonzero (offset message)) (tagged 40 (wr_int32 (offset message)))].

Definition cases (message : t) : list (field_case t) :=
  [Case 1 10 (assign (rlift rd_bytes) (fun v => set_ticketV v message));
   Case 2 18 (assign (rlift rd_bytes) (fun v => set_authenticator v message));
   Case 3 26 (assign (rlift rd_string) (fun v => set_accountId v message));
   Case 4 32 (assign (rlift rd_int32) (fun v => set_limit v message));
   Case 5 40 (assign (rlift rd_int32) (fun v => set_offset v message))].

Definition decode : option Z -> rd t := decode_message cases createBase.

Definition wf (message : t) : bool :=
  wire_bytes (ticketV message) &&
  wire_bytes (authenticator message) &&
  wire_text (accountId message) &&
  int_fits 32 (limit message) &&
  int_fits 32 (offset message).

Definition wire : codec := Codec _ "HistoryRequest" t createBase cases encode wf.

End Codec.
End HistoryRequest.

Module TransactionRecord.

(** [N] is the representation of the numbers. *)
Record msg (N : Type) := Mk {
  transactionId : ustr;
  fromAccountNumber : ustr;
  toAccountNumber : ustr;
  amount : N;
  currency : ustr;
  status : Z;
  description : ustr;
  scope : ustr;
  createdAtUnix : N;
  completedAtUnix : N
}.

Arguments Mk {N}.
Arguments transactionId {N}.
Arguments fromAccountNumber {N}.
Arguments toAccountNumber {N}.
Arguments amount {N}.
Arguments currency {N}.
Arguments status {N}.
Arguments description {N}.
Arguments scope {N}.
Arguments createdAtUnix {N}.
Arguments completedAtUnix {N}.

Definition t : Type := msg Z.

Definition createBase : t := Mk [] [] [] 0 [] 0 [] [] 0 0.

Definition set_transactionId (v : ustr) (m : t) : t :=
  let 'Mk _ x1 x2 x3 x4 x5 x6 x7 x8 x9 := m in Mk v x1 x2 x3 x4 x5 x6 x7 x8 x9.
Definition set_fromAccountNumber (v : ustr) (m : t) : t :=
  let 'Mk x0 _ x2 x3 x4 x5 x6 x7 x8 x9 := m in Mk x0 v x2 x3 x4 x5 x6 x7 x8 x9.
Definition set_toAccountNumber (v : ustr) (m : t) : t :=
  let 'Mk x0 x1 _ x3 x4 x5 x6 x7 x8 x9 := m in Mk x0 x1 v x3 x4 x5 x6 x7 x8 x9.
Definition set_amount (v : Z) (m : t) : t :=
  let 'Mk x0 x1 x2 _ x4 x5 x6 x7 x8 x9 := m in Mk x0 x1 x2 v x4 x5 x6 x7 x8 x9.
Definition set_currency (v : ustr) (m : t) : t :=
  let 'Mk x0 x1 x2 x3 _ x5 x6 x7 x8 x9 := m in Mk x0 x1 x2 x3 v x5 x6 x7 x8 x9.
Definition set_status (v : Z) (m : t) : t :=
  let 'Mk x0 x1 x2 x3 x4 _ x6 x7 x8 x9 := m in Mk x0 x1 x2 x3 x4 v x6 x7 x8 x9.
Definition set_description (v : ustr) (m : t) : t :=
  let 'Mk x0 x1 x2 x3 x4 x5 _ x7 x8 x9 := m in Mk x0 x1 x2 x3 x4 x5 v x7 x8 x9.
Definition set_scope (v : ustr) (m : t) : t :=
  let 'Mk x0 x1 x2 x3 x4 x5 x6 _ x8 x9 := m in Mk x0 x1 x2 x3 x4 x5 x6 v x8 x9.
Definition set_createdAtUnix (v : Z) (m : t) : t :=
  let 'Mk x0 x1 x2 x3 x4 x5 x6 x7 _ x9 := m in Mk x0 x1 x2 x3 x4 x5 x6 x7 v x9.
Definition set_completedAtUnix (v : Z) (m : t) : t :=
  let 'Mk x0 x1 x2 x3 x4 x5 x6 x7 x8 _ := m in Mk x0 x1 x2 x3 x4 x5 x6 x7 x8 v.

Section Codec.
Context `{Wire}.

Definition encode (message : t) : written :=
  writes [write_if (nonempty (transactionId message)) (tagged 10 (wr_string (transactionId message)));
    write_if (nonempty (fromAccountNumber message)) (tagged 18 (wr_string (fromAccountNumber message)));
    write_if (nonempty (toAccountNumber message)) (tagged 26 (wr_string (toAccountNumber message)));
    write_if (nonzero (amount message)) (tagged 32 (wr_int64 (amount message)));
    write_if (nonempty (currency message)) (tagged 42 (wr_string (currency message)));
    write_if (nonzero (status message)) (tagged 48 (wr_int32 (status message)));
    write_if (nonempty (description message)) (tagged 58 (wr_string (description message)));
    write_if (nonempty (scope message)) (tagged 66 (wr_string (scope message)));
    write_if (nonzero (createdAtUnix message)) (tagged 72 (wr_int64 (createdAtUnix message)));
    write_if (nonzero (completedAtUnix message)) (tagged 80 (wr_int64 (completedAtUnix message)))].

Definition cases (message : t) : list (field_case t) :=
  [Case 1 10 (assign (rlift rd_string) (fun v => set_transactionId v message));
   Case 2 18 (assign (rlift rd_string) (fun v => set_fromAccountNumber v message));
   Case 3 26 (assign (rlift rd_string) (fun v => set_toAccountNumber v message));
   Case 4 32 (assign rd_long (fun v => set_amount v message));
   Case 5 42 (assign (rlift rd_string) (fun v => set_currency v message));
   Case 6 48 (assign (rlift rd_int32) (fun v => set_status v message));
   Case 7 58 (assign (rlift rd_string) (fun v => set_description v message));
   Case 8 66 (assign (rlift rd_string) (fun v => set_scope v message));
   Case 9 72 (assign rd_long (fun v => set_createdAtUnix v message));
   Case 10 80 (assign rd_long (fun v => set_completedAtUnix v message))].

Definition decode : option Z -> rd t := decode_message cases createBase.

Definition wf (message : t) : bool :=
  wire_text (transactionId message) &&
  wire_text (fromAccountNumber message) &&
  wire_text (toAccountNumber message) &&
  safe_long (amount message) &&
  wire_text (currency message) &&
  int_fits 32 (status message) &&
  wire_text (description message) &&
  wire_text (scope message) &&
  safe_long (createdAtUnix message) &&
  safe_long (completedAtUnix message).

Definition wire : codec := Codec _ "TransactionRecord" t createBase cases encode wf.

End Codec.
End TransactionRecord.

Module HistoryResponse.

(** [N] is the representation of the numbers. *)
Record msg (N : Type) := Mk {
  apRep : list Z;
  transactions : list (TransactionRecord.msg N);
  total : N;
  limit : N;
  offset : N
}.

Arguments Mk {N}.
Arguments apRep {N}.
Arguments transactions {N}.
Arguments total {N}.
Arguments limit {N}.
Arguments offset {N}.

Definition t : Type := msg Z.

Definition createBase : t := Mk [] [] 0 0 0.

Definition set_apRep (v : list Z) (m : t) : t :=
  let 'Mk _ x1 x2 x3 x4 := m in Mk v x1 x2 x3 x4.
Definition set_transactions (v : list TransactionRecord.t) (m : t) : t :=
  let 'Mk x0 _ x2 x3 x4 := m in Mk x0 v x2 x3 x4.
Definition set_total (v : Z) (m : t) : t :=
  let 'Mk x0 x1 _ x3 x4 := m in Mk x0 x1 v x3 x4.
Definition set_limit (v : Z) (m : t) : t :=
  let 'Mk x0 x1 x2 _ x4 := m in Mk x0 x1 x2 v x4.
Definition set_offset (v : Z) (m : t) : t :=
  let 'Mk x0 x1 x2 x3 _ := m in Mk x0 x1 x2 x3 v.

Section Codec.
Context `{Wire}.

Definition encode (message : t) : written :=
  writes [write_if (nonempty (apRep message)) (tagged 10 (wr_bytes (apRep message)));
    write_each (transactions message) (fun v => tagged 18 (forked (TransactionRecord.encode v)));
    write_if (nonzero (total message)) (tagged 24 (wr_int32 (total message)));
    write_if (nonzero (limit message)) (tagged 32 (wr_int32 (limit message)));
    write_if (nonzero (offset message)) (tagged 40 (wr_int32 (offset message)))].

Definition cases (message : t) : list (field_case t) :=
  [Case 1 10 (assign (rlift rd_bytes) (fun v => set_apRep v message));
   Case 2 18 (assign (rd_message TransactionRecord.decode) (fun v => set_transactions (transactions message ++ [v]) message));
   Case 3 24 (assign (rlift rd_int32) (fun v => set_total v message));
   Case 4 32 (assign (rlift rd_int32) (fun v => set_limit v message));
   Case 5 40 (assign (rlift rd_int32) (fun v => set_offset v message))].

Definition decode : option Z -> rd t := decode_message cases createBase.

Definition wf (message : t) : bool :=
  wire_bytes (apRep message) &&
  forallb (nested_ok TransactionRecord.wf TransactionRecord.encode) (transactions message) &&
  int_fits 32 (total message) &&
  int_fits 32 (limit message) &&
  int_fits 32 (offset message).

Definition wire : codec := Codec _ "HistoryResponse" t createBase cases encode wf.

End Codec.
End HistoryResponse.

Module CreateAdminSessionRequest.

Record t := Mk {
  ticketV : list Z;
  authenticator : list Z
}.

Definition createBase : t := Mk [] [].

Definition set_ticketV (v : list Z) (m : t) : t :=
  let 'Mk _ x1 := m in Mk v x1.
Definition set_authenticator (v : list Z) (m : t) : t :=
  let 'Mk x0 _ := m in Mk x0 v.

Section Codec.
Context `{Wire}.

Definition encode (message : t) : written :=
  writes [write_if (nonempty (ticketV message)) (tagged 10 (wr_bytes (ticketV message)));
    write_if (nonempty (authenticator message)) (tagged 18 (wr_bytes (authenticator message)))].

Definition cases (message : t) : list (field_case t) :=
  [Case 1 10 (assign (rlift rd_bytes) (fun v => set_ticketV v message));
   Case 2 18 (assign (rlift rd_bytes) (fun v => set_authenticator v message))].

Definition decode : option Z -> rd t := decode_message cases createBase.

Definition wf (message : t) : bool :=
  wire_bytes (ticketV message) &&
  wire_bytes (authenticator message).

Definition wire : codec := Codec _ "CreateAdminSessionRequest" t createBase cases encode wf.

End Codec.
End CreateAdminSessionRequest.

Module CreateAdminSessionResponse.

(** [N] is the representation of the numbers. *)
Record msg (N : Type) := Mk {
  apRep : list Z;
  sessionToken : ustr;
  expiresAtUnix : N;
  adminId : ustr;
  role : ustr
}.

Arguments Mk {N}.
Arguments apRep {N}.
Arguments sessionToken {N}.
Arguments expiresAtUnix {N}.
Arguments adminId {N}.
Arguments role {N}.

Definition t : Type := msg Z.

Definition createBase : t := Mk [] [] 0 [] [].

Definition set_apRep (v : list Z) (m : t) : t :=
  let 'Mk _ x1 x2 x3 x4 := m in Mk v x1 x2 x3 x4.
Definition set_sessionToken (v : ustr) (m : t) : t :=
  let 'Mk x0 _ x2 x3 x4 := m in Mk x0 v x2 x3 x4.
Definition set_expiresAtUnix (v : Z) (m : t) : t :=
  let 'Mk x0 x1 _ x3 x4 := m in Mk x0 x1 v x3 x4.
Definition set_adminId (v : ustr) (m : t) : t :=
  let 'Mk x0 x1 x2 _ x4 := m in Mk x0 x1 x2 v x4.
Definition set_role (v : ustr) (m : t) : t :=
  let 'Mk x0 x1 x2 x3 _ := m in Mk x0 x1 x2 x3 v.

Section Codec.
Context `{Wire}.

Definition encode (message : t) : written :=
  writes [write_if (nonempty (apRep message)) (tagged 10 (wr_bytes (apRep message)));
    write_if (nonempty (sessionToken message)) (tagged 18 (wr_string (sessionToken message)));
    write_if (nonzero (expiresAtUnix message)) (tagged 24 (wr_int64 (expiresAtUnix message)));
    write_if (nonempty (adminId message)) (tagged 34 (wr_string (adminId message)));
    write_if (nonempty (role message)) (tagged 42 (wr_string (role message)))].

Definition cases (message : t) : list (field_case t) :=
  [Case 1 10 (assign (rlift rd_bytes) (fun v => set_apRep v message));
   Case 2 18 (assign (rlift rd_string) (fun v => set_sessionToken v message));
   Case 3 24 (assign rd_long (fun v => set_expiresAtUnix v message));
   Case 4 34 (assign (rlift rd_string) (fun v => set_adminId v message));
   Case 5 42 (assign (rlift rd_string) (fun v => set_role v message))].

Definition decode : option Z -> rd t := decode_message cases createBase.

Definition wf (message : t) : bool :=
  wire_bytes (apRep message) &&
  wire_text (sessionToken message) &&
  safe_long (expiresAtUnix message) &&
  wire_text (adminId message) &&
  wire_text (role message).

Definition wire : codec := Codec _ "CreateAdminSessionResponse" t createBase cases encode wf.

End Codec.
End CreateAdminSessionResponse.

Module AdminOverviewRequest.

Record t := Mk {
  adminSessionToken : ustr
}.

Definition createBase : t := Mk [].

Definition set_adminSessionToken (v : ustr) (m : t) : t :=
  let 'Mk _ := m in Mk v.

Section Codec.
Context `{Wire}.

Definition encode (message : t) : written :=
  writes [write_if (nonempty (adminSessionToken message)) (tagged 10 (wr_string (adminSessionToken message)))].

Definition cases (message : t) : list (field_case t) :=
  [Case 1 10 (assign (rlift rd_string) (fun v => set_adminSessionToken v message))].

Definition decode : option Z -> rd t := decode_message cases createBase.

Definition wf (message : t) : bool :=
  wire_text (adminSessionToken message).

Definition wire : codec := Codec _ "AdminOverviewRequest" t createBase cases encode wf.

End Codec.
End AdminOverviewRequest.

Module AdminOverviewResponse.

(** [N] is the representation of the numbers. *)
Record msg (N : Type) := Mk {
  totalUsers : N;
  activeUsers : N;
  totalAccounts : N;
  totalBalance : N;
  totalTransactions : N;
  completedTransactions : N;
  failedTransactions : N;
  auditEvents24h : N
}.

Arguments Mk {N}.
Arguments totalUsers {N}.
Arguments activeUsers {N}.
Arguments totalAccounts {N}.
Arguments totalBalance {N}.
Arguments totalTransactions {N}.
Arguments completedTransactions {N}.
Arguments failedTransactions {N}.
Arguments auditEvents24h {N}.

Definition t : Type := msg Z.

Definition createBase : t := Mk 0 0 0 0 0 0 0 0.

Definition set_totalUsers (v : Z) (m : t) : t :=
  let 'Mk _ x1 x2 x3 x4 x5 x6 x7 := m in Mk v x1 x2 x3 x4 x5 x6 x7.
Definition set_activeUsers (v : Z) (m : t) : t :=
  let 'Mk x0 _ x2 x3 x4 x5 x6 x7 := m in Mk x0 v x2 x3 x4 x5 x6 x7.
Definition set_totalAccounts (v : Z) (m : t) : t :=
  let 'Mk x0 x1 _ x3 x4 x5 x6 x7 := m in Mk x0 x1 v x3 x4 x5 x6 x7.
Definition set_totalBalance (v : Z) (m : t) : t :=
  let 'Mk x0 x1 x2 _ x4 x5 x6 x7 := m in Mk x0 x1 x2 v x4 x5 x6 x7.
Definition set_totalTransactions (v : Z) (m : t) : t :=
  let 'Mk x0 x1 x2 x3 _ x5 x6 x7 := m in Mk x0 x1 x2 x3 v x5 x6 x7.
Definition set_completedTransactions (v : Z) (m : t) : t :=
  let 'Mk x0 x1 x2 x3 x4 _ x6 x7 := m in Mk x0 x1 x2 x3 x4 v x6 x7.
Definition set_failedTransactions (v : Z) (m : t) : t :=
  let 'Mk x0 x1 x2 x3 x4 x5 _ x7 := m in Mk x0 x1 x2 x3 x4 x5 v x7.
Definition set_auditEvents24h (v : Z) (m : t) : t :=
  let 'Mk x0 x1 x2 x3 x4 x5 x6 _ := m in Mk x0 x1 x2 x3 x4 x5 x6 v.

Section Codec.
Context `{Wire}.

Definition encode (message : t) : written :=
  writes [write_if (nonzero (totalUsers message)) (tagged 8 (wr_int64 (totalUsers message)));
    write_if (nonzero (activeUsers message)) (tagged 16 (wr_int64 (activeUsers message)));
    write_if (nonzero (totalAccounts message)) (tagged 24 (wr_int64 (totalAccounts message)));
    write_if (nonzero (totalBalance message)) (tagged 32 (wr_int64 (totalBalance message)));
    write_if (nonzero (totalTransactions message)) (tagged 40 (wr_int64 (totalTransactions message)));
    write_if (nonzero (completedTransactions message)) (tagged 48 (wr_int64 (completedTransactions message)));
    write_if (nonzero (failedTransactions message)) (tagged 56 (wr_int64 (failedTransactions message)));
    write_if (nonzero (auditEvents24h message)) (tagged 64 (wr_int64 (auditEvents24h message)))].

Definition cases (message : t) : list (field_case t) :=
  [Case 1 8 (assign rd_long (fun v => set_totalUsers v message));
   Case 2 16 (assign rd_long (fun v => set_activeUsers v message));
   Case 3 24 (assign rd_long (fun v => set_totalAccounts v message));
   Case 4 32 (assign rd_long (fun v => set_totalBalance v message));
   Case 5 40 (assign rd_long (fun v => set_totalTransactions v message));
   Case 6 48 (assign rd_long (fun v => set_completedTransactions v message));
   Case 7 56 (assign rd_long (fun v => set_failedTransactions v message));
   Case 8 64 (assign rd_long (fun v => set_auditEvents24h v message))].

Definition decode : option Z -> rd t := decode_message cases createBase.

Definition wf (message : t) : bool :=
  safe_long (totalUsers message) &&
  safe_long (activeUsers message) &&
  safe_long (totalAccounts message) &&
  safe_long (totalBalance message) &&
  safe_long (totalTransactions message) &&
  safe_long (completedTransactions message) &&
  safe_long (failedTransactions message) &&
  safe_long (auditEvents24h message).

Definition wire : codec := Codec _ "AdminOverviewResponse" t createBase cases encode wf.

End Codec.
End AdminOverviewResponse.

Module ListAdminUsersRequest.

(** [N] is the representation of the numbers. *)
Record msg (N : Type) := Mk {
  email : ustr;
  status : Z;
  limit : N;
  offset : N;
  adminSessionToken : ustr
}.

Arguments Mk {N}.
Arguments email {N}.
Arguments status {N}.
Arguments limit {N}.
Arguments offset {N}.
Arguments adminSessionToken {N}.

Definition t : Type := msg Z.

Definition createBase : t := Mk [] 0 0 0 [].

Definition set_email (v : ustr) (m : t) : t :=
  let 'Mk _ x1 x2 x3 x4 := m in Mk v x1 x2 x3 x4.
Definition set_status (v : Z) (m : t) : t :=
  let 'Mk x0 _ x2 x3 x4 := m in Mk x0 v x2 x3 x4.
Definition set_limit (v : Z) (m : t) : t :=
  let 'Mk x0 x1 _ x3 x4 := m in Mk x0 x1 v x3 x4.
Definition set_offset (v : Z) (m : t) : t :=
  let 'Mk x0 x1 x2 _ x4 := m in Mk x0 x1 x2 v x4.
Definition set_adminSessionToken (v : ustr) (m : t) : t :=
  let 'Mk x0 x1 x2 x3 _ := m in Mk x0 x1 x2 x3 v.

Section Codec.
Context `{Wire}.

Definition encode (message : t) : written :=
  writes [write_if (nonempty (email message)) (tagged 10 (wr_string (email message)));
    write_if (nonzero (status message)) (tagged 16 (wr_int32 (status message)));
    write_if (nonzero (limit message)) (tagged 24 (wr_int32 (limit message)));
    write_if (nonzero (offset message)) (tagged 32 (wr_int32 (offset message)));
    write_if (nonempty (adminSessionToken message)) (tagged 42 (wr_string (adminSessionToken message)))].

Definition cases (message : t) : list (field_case t) :=
  [Case 1 10 (assign (rlift rd_string) (fun v => set_email v message));
   Case 2 16 (assign (rlift rd_int32) (fun v => set_status v message));
   Case 3 24 (assign (rlift rd_int32) (fun v => set_limit v message));
   Case 4 32 (assign (rlift rd_int32) (fun v => set_offset v message));
   Case 5 42 (assign (rlift rd_string) (fun v => set_adminSessionToken v message))].

Definition decode : option Z -> rd t := decode_message cases createBase.

Definition wf (message : t) : bool :=
  wire_text (email message) &&
  int_fits 32 (status message) &&
  int_fits 32 (limit message) &&
  int_fits 32 (offset message) &&
  wire_text (adminSessionToken message).

Definition wire : codec := Codec _ "ListAdminUsersRequest" t createBase cases encode wf.

End Codec.
End ListAdminUsersRequest.

Module AdminUser.

(** [N] is the representation of the numbers. *)
Record msg (N : Type) := Mk {
  userId : ustr;
  email : ustr;
  fullName : ustr;
  status : Z;
  accountCount : N;
  totalBalance : N;
  createdAtUnix : N
}.

Arguments Mk {N}.
Arguments userId {N}.
Arguments email {N}.
Arguments fullName {N}.
Arguments status {N}.
Arguments accountCount {N}.
Arguments totalBalance {N}.
Arguments createdAtUnix {N}.

Definition t : Type := msg Z.

Definition createBase : t := Mk [] [] [] 0 0 0 0.

Definition set_userId (v : ustr) (m : t) : t :=
  let 'Mk _ x1 x2 x3 x4 x5 x6 := m in Mk v x1 x2 x3 x4 x5 x6.
Definition set_email (v : ustr) (m : t) : t :=
  let 'Mk x0 _ x2 x3 x4 x5 x6 := m in Mk x0 v x2 x3 x4 x5 x6.
Definition set_fullName (v : ustr) (m : t) : t :=
  let 'Mk x0 x1 _ x3 x4 x5 x6 := m in Mk x0 x1 v x3 x4 x5 x6.
Definition set_status (v : Z) (m : t) : t :=
  let 'Mk x0 x1 x2 _ x4 x5 x6 := m in Mk x0 x1 x2 v x4 x5 x6.
Definition set_accountCount (v : Z) (m : t) : t :=
  let 'Mk x0 x1 x2 x3 _ x5 x6 := m in Mk x0 x1 x2 x3 v x5 x6.
Definition set_totalBalance (v : Z) (m : t) : t :=
  let 'Mk x0 x1 x2 x3 x4 _ x6 := m in Mk x0 x1 x2 x3 x4 v x6.
Definition set_createdAtUnix (v : Z) (m : t) : t :=
  let 'Mk x0 x1 x2 x3 x4 x5 _ := m in Mk x0 x1 x2 x3 x4 x5 v.

Section Codec.
Context `{Wire}.

Definition encode (message : t) : written :=
  writes [write_if (nonempty (userId message)) (tagged 10 (wr_string (userId message)));
    write_if (nonempty (email message)) (tagged 18 (wr_string (email message)));
    write_if (nonempty (fullName message)) (tagged 26 (wr_string (fullName message)));
    write_if (nonzero (status message)) (tagged 32 (wr_int32 (status message)));
    write_if (nonzero (accountCount message)) (tagged 40 (wr_int64 (accountCount message)));
    write_if (nonzero (totalBalance message)) (tagged 48 (wr_int64 (totalBalance message)));
    write_if (nonzero (createdAtUnix message)) (tagged 56 (wr_int64 (createdAtUnix message)))].

Definition cases (message : t) : list (field_case t) :=
  [Case 1 10 (assign (rlift rd_string) (fun v => set_userId v message));
   Case 2 18 (assign (rlift rd_string) (fun v => set_email v message));
   Case 3 26 (assign (rlift rd_string) (fun v => set_fullName v message));
   Case 4 32 (assign (rlift rd_int32) (fun v => set_status v message));
   Case 5 40 (assign rd_long (fun v => set_accountCount v message));
   Case 6 48 (assign rd_long (fun v => set_totalBalance v message));
   Case 7 56 (assign rd_long (fun v => set_createdAtUnix v message))].

Definition decode : option Z -> rd t := decode_message cases createBase.

Definition wf (message : t) : bool :=
  wire_text (userId message) &&
  wire_text (email message) &&
  wire_text (fullName message) &&
  int_fits 32 (status message) &&
  safe_long (accountCount message) &&
  safe_long (totalBalance message) &&
  safe_long (createdAtUnix message).

Definition wire : codec := Codec _ "AdminUser" t createBase cases encode wf.

End Codec.
End AdminUser.

Module ListAdminUsersResponse.

(** [N] is the representation of the numbers. *)
Record msg (N : Type) := Mk {
  users : list (AdminUser.msg N);
  total : N;
  limit : N;
  offset : N
}.

Arguments Mk {N}.
Arguments users {N}.
Arguments total {N}.
Arguments limit {N}.
Arguments offset {N}.

Definition t : Type := msg Z.

Definition createBase : t := Mk [] 0 0 0.

Definition set_users (v : list AdminUser.t) (m : t) : t :=
  let 'Mk _ x1 x2 x3 := m in Mk v x1 x2 x3.
Definition set_total (v : Z) (m : t) : t :=
  let 'Mk x0 _ x2 x3 := m in Mk x0 v x2 x3.
Definition set_limit (v : Z) (m : t) : t :=
  let 'Mk x0 x1 _ x3 := m in Mk x0 x1 v x3.
Definition set_offset (v : Z) (m : t) : t :=
  let 'Mk x0 x1 x2 _ := m in Mk x0 x1 x2 v.

Section Codec.
Context `{Wire}.

Definition encode (message : t) : written :=
  writes [write_each (users message) (fun v => tagged 10 (forked (AdminUser.encode v)));
    write_if (nonzero (total message)) (tagged 16 (wr_int64 (total message)));
    write_if (nonzero (limit message)) (tagged 24 (wr_int32 (limit message)));
    write_if (nonzero (offset message)) (tagged 32 (wr_int32 (offset message)))].

Definition cases (message : t) : list (field_case t) :=
  [Case 1 10 (assign (rd_message AdminUser.decode) (fun v => set_users (users message ++ [v]) message));
   Case 2 16 (assign rd_long (fun v => set_total v message));
   Case 3 24 (assign (rlift rd_int32) (fun v => set_limit v message));
   Case 4 32 (assign (rlift rd_int32) (fun v => set_offset v message))].

Definition decode : option Z -> rd t := decode_message cases createBase.

Definition wf (message : t) : bool :=
  forallb (nested_ok AdminUser.wf AdminUser.encode) (users message) &&
  safe_long (total message) &&
  int_fits 32 (limit message) &&
  int_fits 32 (offset message).

Definition wire : codec := Codec _ "ListAdminUsersResponse" t createBase cases encode wf.

End Codec.
End ListAdminUsersResponse.

Module ListAdminUserAccountsRequest.

Record t := Mk {
  userId : ustr;
  adminSessionToken : ustr
}.

Definition createBase : t := Mk [] [].

Definition set_userId (v : ustr) (m : t) : t :=
  let 'Mk _ x1 := m in Mk v x1.
Definition set_adminSessionToken (v : ustr) (m : t) : t :=
  let 'Mk x0 _ := m in Mk x0 v.

Section Codec.
Context `{Wire}.

Definition encode (message : t) : written :=
  writes [write_if (nonempty (userId message)) (tagged 10 (wr_string (userId message)));
    write_if (nonempty (adminSessionToken message)) (tagged 18 (wr_string (adminSessionToken message)))].

Definition cases (message : t) : list (field_case t) :=
  [Case 1 10 (assign (rlift rd_string) (fun v => set_userId v message));
   Case 2 18 (assign (rlift rd_string) (fun v => set_adminSessionToken v message))].

Definition decode : option Z -> rd t := decode_message cases createBase.

Definition wf (message : t) : bool :=
  wire_text (userId message) &&
  wire_text (adminSessionToken message).

Definition wire : codec := Codec _ "ListAdminUserAccountsRequest" t createBase cases encode wf.

End Codec.
End ListAdminUserAccountsRequest.

Module AdminAccount.

(** [N] is the representation of the numbers. *)
Record msg (N : Type) := Mk {
  accountId : ustr;
  accountNumber : ustr;
  balance : N;
  currency : ustr;
  status : Z;
  createdAtUnix : N
}.

Arguments Mk {N}.
Arguments accountId {N}.
Arguments accountNumber {N}.
Arguments balance {N}.
Arguments currency {N}.
Arguments status {N}.
Arguments createdAtUnix {N}.

Definition t : Type := msg Z.

Definition createBase : t := Mk [] [] 0 [] 0 0.

Definition set_accountId (v : ustr) (m : t) : t :=
  let 'Mk _ x1 x2 x3 x4 x5 := m in Mk v x1 x2 x3 x4 x5.
Definition set_accountNumber (v : ustr) (m : t) : t :=
  let 'Mk x0 _ x2 x3 x4 x5 := m in Mk x0 v x2 x3 x4 x5.
Definition set_balance (v : Z) (m : t) : t :=
  let 'Mk x0 x1 _ x3 x4 x5 := m in Mk x0 x1 v x3 x4 x5.
Definition set_currency (v : ustr) (m : t) : t :=
  let 'Mk x0 x1 x2 _ x4 x5 := m in Mk x0 x1 x2 v x4 x5.
Definition set_status (v : Z) (m : t) : t :=
  let 'Mk x0 x1 x2 x3 _ x5 := m in Mk x0 x1 x2 x3 v x5.
Definition set_createdAtUnix (v : Z) (m : t) : t :=
  let 'Mk x0 x1 x2 x3 x4 _ := m in Mk x0 x1 x2 x3 x4 v.

Section Codec.
Context `{Wire}.

Definition encode (message : t) : written :=
  writes [write_if (nonempty (accountId message)) (tagged 10 (wr_string (accountId message)));
    write_if (nonempty (accountNumber message)) (tagged 18 (wr_string (accountNumber message)));
    write_if (nonzero (balance message)) (tagged 24 (wr_int64 (balance message)));
    write_if (nonempty (currency message)) (tagged 34 (wr_string (currency message)));
    write_if (nonzero (status message)) (tagged 40 (wr_int32 (status message)));
    write_if (nonzero (createdAtUnix message)) (tagged 48 (wr_int64 (createdAtUnix message)))].

Definition cases (message : t) : list (field_case t) :=
  [Case 1 10 (assign (rlift rd_string) (fun v => set_accountId v message));
   Case 2 18 (assign (rlift rd_string) (fun v => set_accountNumber v message));
   Case 3 24 (assign rd_long (fun v => set_balance v message));
   Case 4 34 (assign (rlift rd_string) (fun v => set_currency v message));
   Case 5 40 (assign (rlift rd_int32) (fun v => set_status v message));
   Case 6 48 (assign rd_long (fun v => set_createdAtUnix v message))].

Definition decode : option Z -> rd t := decode_message cases createBase.

Definition wf (message : t) : bool :=
  wire_text (accountId message) &&
  wire_text (accountNumber message) &&
  safe_long (balance message) &&
  wire_text (currency message) &&
  int_fits 32 (status message) &&
  safe_long (createdAtUnix message).

Definition wire : codec := Codec _ "AdminAccount" t createBase cases encode wf.

End Codec.
End AdminAccount.

Module ListAdminUserAccountsResponse.

(** [N] is the representation of the numbers. *)
Record msg (N : Type) := Mk {
  accounts : list (AdminAccount.msg N)
}.

Arguments Mk {N}.
Arguments accounts {N}.

Definition t : Type := msg Z.

Definition createBase : t := Mk [].

Definition set_accounts (v : list AdminAccount.t) (m : t) : t :=
  let 'Mk _ := m in Mk v.

Section Codec.
Context `{Wire}.

Definition encode (message : t) : written :=
  writes [write_each (accounts message) (fun v => tagged 10 (forked (AdminAccount.encode v)))].

Definition cases (message : t) : list (field_case t) :=
  [Case 1 10 (assign (rd_message AdminAccount.decode) (fun v => set_accounts (accounts message ++ [v]) message))].

Definition decode : option Z -> rd t := decode_message cases createBase.

Definition wf (message : t) : bool :=
  forallb (nested_ok AdminAccount.wf AdminAccount.encode) (accounts message).

Definition wire : codec := Codec _ "ListAdminUserAccountsResponse" t createBase cases encode wf.

End Codec.
End ListAdminUserAccountsResponse.

Module ListAdminTransactionsRequest.

(** [N] is the representation of the numbers. *)
Record msg (N : Type) := Mk {
  accountId : ustr;
  status : Z;
  fromUnix : N;
  toUnix : N;
  limit : N;
  offset : N;
  adminSessionToken : ustr
}.

Arguments Mk {N}.
Arguments accountId {N}.
Arguments status {N}.
Arguments fromUnix {N}.
Arguments toUnix {N}.
Arguments limit {N}.
Arguments offset {N}.
Arguments adminSessionToken {N}.

Definition t : Type := msg Z.

Definition createBase : t := Mk [] 0 0 0 0 0 [].

Definition set_accountId (v : ustr) (m : t) : t :=
  let 'Mk _ x1 x2 x3 x4 x5 x6 := m in Mk v x1 x2 x3 x4 x5 x6.
Definition set_status (v : Z) (m : t) : t :=
  let 'Mk x0 _ x2 x3 x4 x5 x6 := m in Mk x0 v x2 x3 x4 x5 x6.
Definition set_fromUnix (v : Z) (m : t) : t :=
  let 'Mk x0 x1 _ x3 x4 x5 x6 := m in Mk x0 x1 v x3 x4 x5 x6.
Definition set_toUnix (v : Z) (m : t) : t :=
  let 'Mk x0 x1 x2 _ x4 x5 x6 := m in Mk x0 x1 x2 v x4 x5 x6.
Definition set_limit (v : Z) (m : t) : t :=
  let 'Mk x0 x1 x2 x3 _ x5 x6 := m in Mk x0 x1 x2 x3 v x5 x6.
Definition set_offset (v : Z) (m : t) : t :=
  let 'Mk x0 x1 x2 x3 x4 _ x6 := m in Mk x0 x1 x2 x3 x4 v x6.
Definition set_adminSessionToken (v : ustr) (m : t) : t :=
  let 'Mk x0 x1 x2 x3 x4 x5 _ := m in Mk x0 x1 x2 x3 x4 x5 v.

Section Codec.
Context `{Wire}.

Definition encode (message : t) : written :=
  writes [write_if (nonempty (accountId message)) (tagged 10 (wr_string (accountId message)));
    write_if (nonzero (status message)) (tagged 16 (wr_int32 (status message)));
    write_if (nonzero (fromUnix message)) (tagged 24 (wr_int64 (fromUnix message)));
    write_if (nonzero (toUnix message)) (tagged 32 (wr_int64 (toUnix message)));
    write_if (nonzero (limit message)) (tagged 40 (wr_int32 (limit message)));
    write_if (nonzero (offset message)) (tagged 48 (wr_int32 (offset message)));
    write_if (nonempty (adminSessionToken message)) (tagged 58 (wr_string (adminSessionToken message)))].

Definition cases (message : t) : list (field_case t) :=
  [Case 1 10 (assign (rlift rd_string) (fun v => set_accountId v message));
   Case 2 16 (assign (rlift rd_int32) (fun v => set_status v message));
   Case 3 24 (assign rd_long (fun v => set_fromUnix v message));
   Case 4 32 (assign rd_long (fun v => set_toUnix v message));
   Case 5 40 (assign (rlift rd_int32) (fun v => set_limit v message));
   Case 6 48 (assign (rlift rd_int32) (fun v => set_offset v message));
   Case 7 58 (assign (rlift rd_string) (fun v => set_adminSessionToken v message))].

Definition decode : option Z -> rd t := decode_message cases createBase.

Definition wf (message : t) : bool :=
  wire_text (accountId message) &&
  int_fits 32 (status message) &&
  safe_long (fromUnix message) &&
  safe_long (toUnix message) &&
  int_fits 32 (limit message) &&
  int_fits 32 (offset message) &&
  wire_text (adminSessionToken message).

Definition wire : codec := Codec _ "ListAdminTransactionsRequest" t createBase cases encode wf.

End Codec.
End ListAdminTransactionsRequest.

Module AdminTransaction.

(** [N] is the representation of the numbers. *)
Record msg (N : Type) := Mk {
  transactionId : ustr;
  fromAccountNumber : ustr;
  toAccountNumber : ustr;
  amount : N;
  currency : ustr;
  status : Z;
  description : ustr;
  certSerial : ustr;
  currentHash : ustr;
  createdAtUnix : N
}.

Arguments Mk {N}.
Arguments transactionId {N}.
Arguments fromAccountNumber {N}.
Arguments toAccountNumber {N}.
Arguments amount {N}.
Arguments currency {N}.
Arguments status {N}.
Arguments description {N}.
Arguments certSerial {N}.
Arguments currentHash {N}.
Arguments createdAtUnix {N}.

Definition t : Type := msg Z.

Definition createBase : t := Mk [] [] [] 0 [] 0 [] [] [] 0.

Definition set_transactionId (v : ustr) (m : t) : t :=
  let 'Mk _ x1 x2 x3 x4 x5 x6 x7 x8 x9 := m in Mk v x1 x2 x3 x4 x5 x6 x7 x8 x9.
Definition set_fromAccountNumber (v : ustr) (m : t) : t :=
  let 'Mk x0 _ x2 x3 x4 x5 x6 x7 x8 x9 := m in Mk x0 v x2 x3 x4 x5 x6 x7 x8 x9.
Definition set_toAccountNumber (v : ustr) (m : t) : t :=
  let 'Mk x0 x1 _ x3 x4 x5 x6 x7 x8 x9 := m in Mk x0 x1 v x3 x4 x5 x6 x7 x8 x9.
Definition set_amount (v : Z) (m : t) : t :=
  let 'Mk x0 x1 x2 _ x4 x5 x6 x7 x8 x9 := m in Mk x0 x1 x2 v x4 x5 x6 x7 x8 x9.
Definition set_currency (v : ustr) (m : t) : t :=
  let 'Mk x0 x1 x2 x3 _ x5 x6 x7 x8 x9 := m in Mk x0 x1 x2 x3 v x5 x6 x7 x8 x9.
Definition set_status (v : Z) (m : t) : t :=
  let 'Mk x0 x1 x2 x3 x4 _ x6 x7 x8 x9 := m in Mk x0 x1 x2 x3 x4 v x6 x7 x8 x9.
Definition set_description (v : ustr) (m : t) : t :=
  let 'Mk x0 x1 x2 x3 x4 x5 _ x7 x8 x9 := m in Mk x0 x1 x2 x3 x4 x5 v x7 x8 x9.
Definition set_certSerial (v : ustr) (m : t) : t :=
  let 'Mk x0 x1 x2 x3 x4 x5 x6 _ x8 x9 := m in Mk x0 x1 x2 x3 x4 x5 x6 v x8 x9.
Definition set_currentHash (v : ustr) (m : t) : t :=
  let 'Mk x0 x1 x2 x3 x4 x5 x6 x7 _ x9 := m in Mk x0 x1 x2 x3 x4 x5 x6 x7 v x9.
Definition set_createdAtUnix (v : Z) (m : t) : t :=
  let 'Mk x0 x1 x2 x3 x4 x5 x6 x7 x8 _ := m in Mk x0 x1 x2 x3 x4 x5 x6 x7 x8 v.

Section Codec.
Context `{Wire}.

Definition encode (message : t) : written :=
  writes [write_if (nonempty (transactionId message)) (tagged 10 (wr_string (transactionId message)));
    write_if (nonempty (fromAccountNumber message)) (tagged 18 (wr_string (fromAccountNumber message)));
    write_if (nonempty (toAccountNumber message)) (tagged 26 (wr_string (toAccountNumber message)));
    write_if (nonzero (amount message)) (tagged 32 (wr_int64 (amount message)));
    write_if (nonempty (currency message)) (tagged 42 (wr_string (currency message)));
    write_if (nonzero (status message)) (tagged 48 (wr_int32 (status message)));
    write_if (nonempty (description message)) (tagged 58 (wr_string (description message)));
    write_if (nonempty (certSerial message)) (tagged 66 (wr_string (certSerial message)));
    write_if (nonempty (currentHash message)) (tagged 74 (wr_string (currentHash message)));
    write_if (nonzero (createdAtUnix message)) (tagged 80 (wr_int64 (createdAtUnix message)))].

Definition cases (message : t) : list (field_case t) :=
  [Case 1 10 (assign (rlift rd_string) (fun v => set_transactionId v message));
   Case 2 18 (assign (rlift rd_string) (fun v => set_fromAccountNumber v message));
   Case 3 26 (assign (rlift rd_string) (fun v => set_toAccountNumber v message));
   Case 4 32 (assign rd_long (fun v => set_amount v message));
   Case 5 42 (assign (rlift rd_string) (fun v => set_currency v message));
   Case 6 48 (assign (rlift rd_int32) (fun v => set_status v message));
   Case 7 58 (assign (rlift rd_string) (fun v => set_description v message));
   Case 8 66 (assign (rlift rd_string) (fun v => set_certSerial v message));
   Case 9 74 (assign (rlift rd_string) (fun v => set_currentHash v message));
   Case 10 80 (assign rd_long (fun v => set_createdAtUnix v message))].

Definition decode : option Z -> rd t := decode_message cases createBase.

Definition wf (message : t) : bool :=
  wire_text (transactionId message) &&
  wire_text (fromAccountNumber message) &&
  wire_text (toAccountNumber message) &&
  safe_long (amount message) &&
  wire_text (currency message) &&
  int_fits 32 (status message) &&
  wire_text (description message) &&
  wire_text (certSerial message) &&
  wire_text (currentHash message) &&
  safe_long (createdAtUnix message).

Definition wire : codec := Codec _ "AdminTransaction" t createBase cases encode wf.

End Codec.
End AdminTransaction.

Module ListAdminTransactionsResponse.

(** [N] is the representation of the numbers. *)
Record msg (N : Type) := Mk {
  transactions : list (AdminTransaction.msg N);
  total : N;
  limit : N;
  offset : N
}.

Arguments Mk {N}.
Arguments transactions {N}.
Arguments total {N}.
Arguments limit {N}.
Arguments offset {N}.

Definition t : Type := msg Z.

Definition createBase : t := Mk [] 0 0 0.

Definition set_transactions (v : list AdminTransaction.t) (m : t) : t :=
  let 'Mk _ x1 x2 x3 := m in Mk v x1 x2 x3.
Definition set_total (v : Z) (m : t) : t :=
  let 'Mk x0 _ x2 x3 := m in Mk x0 v x2 x3.
Definition set_limit (v : Z) (m : t) : t :=
  let 'Mk x0 x1 _ x3 := m in Mk x0 x1 v x3.
Definition set_offset (v : Z) (m : t) : t :=
  let 'Mk x0 x1 x2 _ := m in Mk x0 x1 x2 v.

Section Codec.
Context `{Wire}.

Definition encode (message : t) : written :=
  writes [write_each (transactions message) (fun v => tagged 10 (forked (AdminTransaction.encode v)));
    write_if (nonzero (total message)) (tagged 16 (wr_int64 (total message)));
    write_if (nonzero (limit message)) (tagged 24 (wr_int32 (limit message)));
    write_if (nonzero (offset message)) (tagged 32 (wr_int32 (offset message)))].

Definition cases (message : t) : list (field_case t) :=
  [Case 1 10 (assign (rd_message AdminTransaction.decode) (fun v => set_transactions (transactions message ++ [v]) message));
   Case 2 16 (assign rd_long (fun v => set_total v message));
   Case 3 24 (assign (rlift rd_int32) (fun v => set_limit v message));
   Case 4 32 (assign (rlift rd_int32) (fun v => set_offset v message))].

Definition decode : option Z -> rd t := decode_message cases createBase.

Definition wf (message : t) : bool :=
  forallb (nested_ok AdminTransaction.wf AdminTransaction.encode) (transactions message) &&
  safe_long (total message) &&
  int_fits 32 (limit message) &&
  int_fits 32 (offset message).

Definition wire : codec := Codec _ "ListAdminTransactionsResponse" t createBase cases encode wf.

End Codec.
End ListAdminTransactionsResponse.

Module ListAdminAuditEventsRequest.

(** [N] is the representation of the numbers. *)
Record msg (N : Type) := Mk {
  action : Z;
  userId : ustr;
  certSerial : ustr;
  requestId : ustr;
  fromUnix : N;
  toUnix : N;
  limit : N;
  offset : N;
  adminSessionToken : ustr
}.

Arguments Mk {N}.
Arguments action {N}.
Arguments userId {N}.
Arguments certSerial {N}.
Arguments requestId {N}.
Arguments fromUnix {N}.
Arguments toUnix {N}.
Arguments limit {N}.
Arguments offset {N}.
Arguments adminSessionToken {N}.

Definition t : Type := msg Z.

Definition createBase : t := Mk 0 [] [] [] 0 0 0 0 [].

Definition set_action (v : Z) (m : t) : t :=
  let 'Mk _ x1 x2 x3 x4 x5 x6 x7 x8 := m in Mk v x1 x2 x3 x4 x5 x6 x7 x8.
Definition set_userId (v : ustr) (m : t) : t :=
  let 'Mk x0 _ x2 x3 x4 x5 x6 x7 x8 := m in Mk x0 v x2 x3 x4 x5 x6 x7 x8.
Definition set_certSerial (v : ustr) (m : t) : t :=
  let 'Mk x0 x1 _ x3 x4 x5 x6 x7 x8 := m in Mk x0 x1 v x3 x4 x5 x6 x7 x8.
Definition set_requestId (v : ustr) (m : t) : t :=
  let 'Mk x0 x1 x2 _ x4 x5 x6 x7 x8 := m in Mk x0 x1 x2 v x4 x5 x6 x7 x8.
Definition set_fromUnix (v : Z) (m : t) : t :=
  let 'Mk x0 x1 x2 x3 _ x5 x6 x7 x8 := m in Mk x0 x1 x2 x3 v x5 x6 x7 x8.
Definition set_toUnix (v : Z) (m : t) : t :=
  let 'Mk x0 x1 x2 x3 x4 _ x6 x7 x8 := m in Mk x0 x1 x2 x3 x4 v x6 x7 x8.
Definition set_limit (v : Z) (m : t) : t :=
  let 'Mk x0 x1 x2 x3 x4 x5 _ x7 x8 := m in Mk x0 x1 x2 x3 x4 x5 v x7 x8.
Definition set_offset (v : Z) (m : t) : t :=
  let 'Mk x0 x1 x2 x3 x4 x5 x6 _ x8 := m in Mk x0 x1 x2 x3 x4 x5 x6 v x8.
Definition set_adminSessionToken (v : ustr) (m : t) : t :=
  let 'Mk x0 x1 x2 x3 x4 x5 x6 x7 _ := m in Mk x0 x1 x2 x3 x4 x5 x6 x7 v.

Section Codec.
Context `{Wire}.

Definition encode (message : t) : written :=
  writes [write_if (nonzero (action message)) (tagged 8 (wr_int32 (action message)));
    write_if (nonempty (userId message)) (tagged 18 (wr_string (userId message)));
    write_if (nonempty (certSerial message)) (tagged 26 (wr_string (certSerial message)));
    write_if (nonempty (requestId message)) (tagged 34 (wr_string (requestId message)));
    write_if (nonzero (fromUnix message)) (tagged 40 (wr_int64 (fromUnix message)));
    write_if (nonzero (toUnix message)) (tagged 48 (wr_int64 (toUnix message)));
    write_if (nonzero (limit message)) (tagged 56 (wr_int32 (limit message)));
    write_if (nonzero (offset message)) (tagged 64 (wr_int32 (offset message)));
    write_if (nonempty (adminSessionToken message)) (tagged 74 (wr_string (adminSessionToken message)))].

Definition cases (message : t) : list (field_case t) :=
  [Case 1 8 (assign (rlift rd_int32) (fun v => set_action v message));
   Case 2 18 (assign (rlift rd_string) (fun v => set_userId v message));
   Case 3 26 (assign (rlift rd_string) (fun v => set_certSerial v message));
   Case 4 34 (assign (rlift rd_string) (fun v => set_requestId v message));
   Case 5 40 (assign rd_long (fun v => set_fromUnix v message));
   Case 6 48 (assign rd_long (fun v => set_toUnix v message));
   Case 7 56 (assign (rlift rd_int32) (fun v => set_limit v message));
   Case 8 64 (assign (rlift rd_int32) (fun v => set_offset v message));
   Case 9 74 (assign (rlift rd_string) (fun v => set_adminSessionToken v message))].

Definition decode : option Z -> rd t := decode_message cases createBase.

Definition wf (message : t) : bool :=
  int_fits 32 (action message) &&
  wire_text (userId message) &&
  wire_text (certSerial message) &&
  wire_text (requestId message) &&
  safe_long (fromUnix message) &&
  safe_long (toUnix message) &&
  int_fits 32 (limit message) &&
  int_fits 32 (offset message) &&
  wire_text (adminSessionToken message).

Definition wire : codec := Codec _ "ListAdminAuditEventsRequest" t createBase cases encode wf.

End Codec.
End ListAdminAuditEventsRequest.

Module AdminAuditEvent.

(** [N] is the representation of the numbers. *)
Record msg (N : Type) := Mk {
  eventId : ustr;
  action : Z;
  userId : ustr;
  accountId : ustr;
  transactionId : ustr;
  certSerial : ustr;
  requestId : ustr;
  reason : ustr;
  metadataJson : ustr;
  createdAtUnix : N
}.

Arguments Mk {N}.
Arguments eventId {N}.
Arguments action {N}.
Arguments userId {N}.
Arguments accountId {N}.
Arguments transactionId {N}.
Arguments certSerial {N}.
Arguments requestId {N}.
Arguments reason {N}.
Arguments metadataJson {N}.
Arguments createdAtUnix {N}.

Definition t : Type := msg Z.

Definition createBase : t := Mk [] 0 [] [] [] [] [] [] [] 0.

Definition set_eventId (v : ustr) (m : t) : t :=
  let 'Mk _ x1 x2 x3 x4 x5 x6 x7 x8 x9 := m in Mk v x1 x2 x3 x4 x5 x6 x7 x8 x9.
Definition set_action (v : Z) (m : t) : t :=
  let 'Mk x0 _ x2 x3 x4 x5 x6 x7 x8 x9 := m in Mk x0 v x2 x3 x4 x5 x6 x7 x8 x9.
Definition set_userId (v : ustr) (m : t) : t :=
  let 'Mk x0 x1 _ x3 x4 x5 x6 x7 x8 x9 := m in Mk x0 x1 v x3 x4 x5 x6 x7 x8 x9.
Definition set_accountId (v : ustr) (m : t) : t :=
  let 'Mk x0 x1 x2 _ x4 x5 x6 x7 x8 x9 := m in Mk x0 x1 x2 v x4 x5 x6 x7 x8 x9.
Definition set_transactionId (v : ustr) (m : t) : t :=
  let 'Mk x0 x1 x2 x3 _ x5 x6 x7 x8 x9 := m in Mk x0 x1 x2 x3 v x5 x6 x7 x8 x9.
Definition set_certSerial (v : ustr) (m : t) : t :=
  let 'Mk x0 x1 x2 x3 x4 _ x6 x7 x8 x9 := m in Mk x0 x1 x2 x3 x4 v x6 x7 x8 x9.
Definition set_requestId (v : ustr) (m : t) : t :=
  let 'Mk x0 x1 x2 x3 x4 x5 _ x7 x8 x9 := m in Mk x0 x1 x2 x3 x4 x5 v x7 x8 x9.
Definition set_reason (v : ustr) (m : t) : t :=
  let 'Mk x0 x1 x2 x3 x4 x5 x6 _ x8 x9 := m in Mk x0 x1 x2 x3 x4 x5 x6 v x8 x9.
Definition set_metadataJson (v : ustr) (m : t) : t :=
  let 'Mk x0 x1 x2 x3 x4 x5 x6 x7 _ x9 := m in Mk x0 x1 x2 x3 x4 x5 x6 x7 v x9.
Definition set_createdAtUnix (v : Z) (m : t) : t :=
  let 'Mk x0 x1 x2 x3 x4 x5 x6 x7 x8 _ := m in Mk x0 x1 x2 x3 x4 x5 x6 x7 x8 v.

Section Codec.
Context `{Wire}.

Definition encode (message : t) : written :=
  writes [write_if (nonempty (eventId message)) (tagged 10 (wr_string (eventId message)));
    write_if (nonzero (action message)) (tagged 16 (wr_int32 (action message)));
    write_if (nonempty (userId message)) (tagged 26 (wr_string (userId message)));
    write_if (nonempty (accountId message)) (tagged 34 (wr_string (accountId message)));
    write_if (nonempty (transactionId message)) (tagged 42 (wr_string (transactionId message)));
    write_if (nonempty (certSerial message)) (tagged 50 (wr_string (certSerial message)));
    write_if (nonempty (requestId message)) (tagged 58 (wr_string (requestId message)));
    write_if (nonempty (reason message)) (tagged 66 (wr_string (reason message)));
    write_if (nonempty (metadataJson message)) (tagged 74 (wr_string (metadataJson message)));
    write_if (nonzero (createdAtUnix message)) (tagged 80 (wr_int64 (createdAtUnix message)))].

Definition cases (message : t) : list (field_case t) :=
  [Case 1 10 (assign (rlift rd_string) (fun v => set_eventId v message));
   Case 2 16 (assign (rlift rd_int32) (fun v => set_action v message));
   Case 3 26 (assign (rlift rd_string) (fun v => set_userId v message));
   Case 4 34 (assign (rlift rd_string) (fun v => set_accountId v message));
   Case 5 42 (assign (rlift rd_string) (fun v => set_transactionId v message));
   Case 6 50 (assign (rlift rd_string) (fun v => set_certSerial v message));
   Case 7 58 (assign (rlift rd_string) (fun v => set_requestId v message));
   Case 8 66 (assign (rlift rd_string) (fun v => set_reason v message));
   Case 9 74 (assign (rlift rd_string) (fun v => set_metadataJson v message));
   Case 10 80 (assign rd_long (fun v => set_createdAtUnix v message))].

Definition decode : option Z -> rd t := decode_message cases createBase.

Definition wf (message : t) : bool :=
  wire_text (eventId message) &&
  int_fits 32 (action message) &&
  wire_text (userId message) &&
  wire_text (accountId message) &&
  wire_text (transactionId message) &&
  wire_text (certSerial message) &&
  wire_text (requestId message) &&
  wire_text (reason message) &&
  wire_text (metadataJson message) &&
  safe_long (createdAtUnix message).

Definition wire : codec := Codec _ "AdminAuditEvent" t createBase cases encode wf.

End Codec.
End AdminAuditEvent.

Module ListAdminAuditEventsResponse.

(** [N] is the representation of the numbers. *)
Record msg (N : Type) := Mk {
  events : list (AdminAuditEvent.msg N);
  total : N;
  limit : N;
  offset : N
}.

Arguments Mk {N}.
Arguments events {N}.
Arguments total {N}.
Arguments limit {N}.
Arguments offset {N}.

Definition t : Type := msg Z.

Definition createBase : t := Mk [] 0 0 0.

Definition set_events (v : list AdminAuditEvent.t) (m : t) : t :=
  let 'Mk _ x1 x2 x3 := m in Mk v x1 x2 x3.
Definition set_total (v : Z) (m : t) : t :=
  let 'Mk x0 _ x2 x3 := m in Mk x0 v x2 x3.
Definition set_limit (v : Z) (m : t) : t :=
  let 'Mk x0 x1 _ x3 := m in Mk x0 x1 v x3.
Definition set_offset (v : Z) (m : t) : t :=
  let 'Mk x0 x1 x2 _ := m in Mk x0 x1 x2 v.

Section Codec.
Context `{Wire}.

Definition encode (message : t) : written :=
  writes [write_each (events message) (fun v => tagged 10 (forked (AdminAuditEvent.encode v)));
    write_if (nonzero (total message)) (tagged 16 (wr_int64 (total message)));
    write_if (nonzero (limit message)) (tagged 24 (wr_int32 (limit message)));
    write_if (nonzero (offset message)) (tagged 32 (wr_int32 (offset message)))].

Definition cases (message : t) : list (field_case t) :=
  [Case 1 10 (assign (rd_message AdminAuditEvent.decode) (fun v => set_events (events message ++ [v]) message));
   Case 2 16 (assign rd_long (fun v => set_total v message));
   Case 3 24 (assign (rlift rd_int32) (fun v => set_limit v message));
   Case 4 32 (assign (rlift rd_int32) (fun v => set_offset v message))].

Definition decode : option Z -> rd t := decode_message cases createBase.

Definition wf (message : t) : bool :=
  forallb (nested_ok AdminAuditEvent.wf AdminAuditEvent.encode) (events message) &&
  safe_long (total message) &&
  int_fits 32 (limit message) &&
  int_fits 32 (offset message).

Definition wire : codec := Codec _ "ListAdminAuditEventsResponse" t createBase cases encode wf.

End Codec.
End ListAdminAuditEventsResponse.

Module VerifyAuditChainRequest.

Record t := Mk {
  adminSessionToken : ustr
}.

Definition createBase : t := Mk [].

Definition set_adminSessionToken (v : ustr) (m : t) : t :=
  let 'Mk _ := m in Mk v.

Section Codec.
Context `{Wire}.

Definition encode (message : t) : written :=
  writes [write_if (nonempty (adminSessionToken message)) (tagged 10 (wr_string (adminSessionToken message)))].

Definition cases (message : t) : list (field_case t) :=
  [Case 1 10 (assign (rlift rd_string) (fun v => set_adminSessionToken v message))].

Definition decode : option Z -> rd t := decode_message cases createBase.

Definition wf (message : t) : bool :=
  wire_text (adminSessionToken message).

Definition wire : codec := Codec _ "VerifyAuditChainRequest" t createBase cases encode wf.

End Codec.
End VerifyAuditChainRequest.

Module VerifyAuditChainResponse.

(** [N] is the representation of the numbers. *)
Record msg (N : Type) := Mk {
  ok : bool;
  checked : N;
  brokenSeq : N;
  brokenId : ustr;
  detail : ustr
}.

Arguments Mk {N}.
Arguments ok {N}.
Arguments checked {N}.
Arguments brokenSeq {N}.
Arguments brokenId {N}.
Arguments detail {N}.

Definition t : Type := msg Z.

Definition createBase : t := Mk false 0 0 [] [].

Definition set_ok (v : bool) (m : t) : t :=
  let 'Mk _ x1 x2 x3 x4 := m in Mk v x1 x2 x3 x4.
Definition set_checked (v : Z) (m : t) : t :=
  let 'Mk x0 _ x2 x3 x4 := m in Mk x0 v x2 x3 x4.
Definition set_brokenSeq (v : Z) (m : t) : t :=
  let 'Mk x0 x1 _ x3 x4 := m in Mk x0 x1 v x3 x4.
Definition set_brokenId (v : ustr) (m : t) : t :=
  let 'Mk x0 x1 x2 _ x4 := m in Mk x0 x1 x2 v x4.
Definition set_detail (v : ustr) (m : t) : t :=
  let 'Mk x0 x1 x2 x3 _ := m in Mk x0 x1 x2 x3 v.

Section Codec.
Context `{Wire}.

Definition encode (message : t) : written :=
  writes [write_if (ok message) (tagged 8 (wr_bool (ok message)));
    write_if (nonzero (checked message)) (tagged 16 (wr_int32 (checked message)));
    write_if (nonzero (brokenSeq message)) (tagged 24 (wr_int64 (brokenSeq message)));
    write_if (nonempty (brokenId message)) (tagged 34 (wr_string (brokenId message)));
    write_if (nonempty (detail message)) (tagged 42 (wr_string (detail message)))].

Definition cases (message : t) : list (field_case t) :=
  [Case 1 8 (assign (rlift rd_bool) (fun v => set_ok v message));
   Case 2 16 (assign (rlift rd_int32) (fun v => set_checked v message));
   Case 3 24 (assign rd_long (fun v => set_brokenSeq v message));
   Case 4 34 (assign (rlift rd_string) (fun v => set_brokenId v message));
   Case 5 42 (assign (rlift rd_string) (fun v => set_detail v message))].

Definition decode : option Z -> rd t := decode_message cases createBase.

Definition wf (message : t) : bool :=
  int_fits 32 (checked message) &&
  safe_long (brokenSeq message) &&
  wire_text (brokenId message) &&
  wire_text (detail message).

Definition wire : codec := Codec _ "VerifyAuditChainResponse" t createBase cases encode wf.

End Codec.
End VerifyAuditChainResponse.

(** ** The service *)

Definition BankServiceService `{Wire} : list (string * rpc) :=
  [("checkUserEmail", Rpc _ "/bank.BankService/CheckUserEmail" CheckUserEmailRequest.wire CheckUserEmailResponse.wire);
   ("createUser", Rpc _ "/bank.BankService/CreateUser" CreateUserRequest.wire CreateUserResponse.wire);
   ("transferMoney", Rpc _ "/bank.BankService/TransferMoney" TransferRequest.wire TransferResponse.wire);
   ("getBalance", Rpc _ "/bank.BankService/GetBalance" BalanceRequest.wire BalanceResponse.wire);
   ("getHistory", Rpc _ "/bank.BankService/GetHistory" HistoryRequest.wire HistoryResponse.wire);
   ("createAdminSession", Rpc _ "/bank.BankService/CreateAdminSession" CreateAdminSessionRequest.wire CreateAdminSessionResponse.wire);
   ("getAdminOverview", Rpc _ "/bank.BankService/GetAdminOverview" AdminOverviewRequest.wire AdminOverviewResponse.wire);
   ("listAdminUsers", Rpc _ "/bank.BankService/ListAdminUsers" ListAdminUsersRequest.wire ListAdminUsersResponse.wire);
   ("listAdminUserAccounts", Rpc _ "/bank.BankService/ListAdminUserAccounts" ListAdminUserAccountsRequest.wire ListAdminUserAccountsResponse.wire);
   ("listAdminTransactions", Rpc _ "/bank.BankService/ListAdminTransactions" ListAdminTransactionsRequest.wire ListAdminTransactionsResponse.wire);
   ("listAdminAuditEvents", Rpc _ "/bank.BankService/ListAdminAuditEvents" ListAdminAuditEventsRequest.wire ListAdminAuditEventsResponse.wire);
   ("verifyAuditChain", Rpc _ "/bank.BankService/VerifyAuditChain" VerifyAuditChainRequest.wire VerifyAuditChainResponse.wire)].

(** ** The laws *)

Lemma bank_CreateUserRequest_laws `{WireSpec} : codec_laws CreateUserRequest.wire.
Proof. prove_codec CreateUserRequest.wire CreateUserRequest.encode CreateUserRequest.wf. Qed.
#[export] Hint Resolve bank_CreateUserRequest_laws : wire_laws.

Lemma bank_CheckUserEmailRequest_laws `{WireSpec} : codec_laws CheckUserEmailRequest.wire.
Proof. prove_codec CheckUserEmailRequest.wire CheckUserEmailRequest.encode CheckUserEmailRequest.wf. Qed.
#[export] Hint Resolve bank_CheckUserEmailRequest_laws : wire_laws.

Lemma bank_CheckUserEmailResponse_laws `{WireSpec} : codec_laws CheckUserEmailResponse.wire.
Proof. prove_codec CheckUserEmailResponse.wire CheckUserEmailResponse.encode CheckUserEmailResponse.wf. Qed.
#[export] Hint Resolve bank_CheckUserEmailResponse_laws : wire_laws.

Lemma bank_CreateUserResponse_laws `{WireSpec} : codec_laws CreateUserResponse.wire.
Proof. prove_codec CreateUserResponse.wire CreateUserResponse.encode CreateUserResponse.wf. Qed.
#[export] Hint Resolve bank_CreateUserResponse_laws : wire_laws.

Lemma bank_TransferRequest_laws `{WireSpec} : codec_laws TransferRequest.wire.
Proof. prove_codec TransferRequest.wire TransferRequest.encode TransferRequest.wf. Qed.
#[export] Hint Resolve bank_TransferRequest_laws : wire_laws.

Lemma bank_TransferResponse_laws `{WireSpec} : codec_laws TransferResponse.wire.
Proof. prove_codec TransferResponse.wire TransferResponse.encode TransferResponse.wf. Qed.
#[export] Hint Resolve bank_TransferResponse_laws : wire_laws.

Lemma bank_BalanceRequest_laws `{WireSpec} : codec_laws BalanceRequest.wire.
Proof. prove_codec BalanceRequest.wire BalanceRequest.encode BalanceRequest.wf. Qed.
#[export] Hint Resolve bank_BalanceRequest_laws : wire_laws.

Lemma bank_BalanceResponse_laws `{WireSpec} : codec_laws BalanceResponse.wire.
Proof. prove_codec BalanceResponse.wire BalanceResponse.encode BalanceResponse.wf. Qed.
#[export] Hint Resolve bank_BalanceResponse_laws : wire_laws.

Lemma bank_HistoryRequest_laws `{WireSpec} : codec_laws HistoryRequest.wire.
Proof. prove_codec HistoryRequest.wire HistoryRequest.encode HistoryRequest.wf. Qed.
#[export] Hint Resolve bank_HistoryRequest_laws : wire_laws.

Lemma bank_TransactionRecord_laws `{WireSpec} : codec_laws TransactionRecord.wire.
Proof. prove_codec TransactionRecord.wire TransactionRecord.encode TransactionRecord.wf. Qed.
#[export] Hint Resolve bank_TransactionRecord_laws : wire_laws.

#[local] Hint Extern 1 (carried (forked (TransactionRecord.encode _)) _ _) =>
  apply (codec_nested TransactionRecord.wire); [apply bank_TransactionRecord_laws |] : wire.
#[local] Hint Extern 1 (ends (TransactionRecord.decode _)) =>
  apply (codec_decode_ends TransactionRecord.wire); apply bank_TransactionRecord_laws : wire.

Lemma bank_HistoryResponse_laws `{WireSpec} : codec_laws HistoryResponse.wire.
Proof. prove_codec HistoryResponse.wire HistoryResponse.encode HistoryResponse.wf. Qed.
#[export] Hint Resolve bank_HistoryResponse_laws : wire_laws.

Lemma bank_CreateAdminSessionRequest_laws `{WireSpec} : codec_laws CreateAdminSessionRequest.wire.
Proof. prove_codec CreateAdminSessionRequest.wire CreateAdminSessionRequest.encode CreateAdminSessionRequest.wf. Qed.
#[export] Hint Resolve bank_CreateAdminSessionRequest_laws : wire_laws.

Lemma bank_CreateAdminSessionResponse_laws `{WireSpec} : codec_laws CreateAdminSessionResponse.wire.
Proof. prove_codec CreateAdminSessionResponse.wire CreateAdminSessionResponse.encode CreateAdminSessionResponse.wf. Qed.
#[export] Hint Resolve bank_CreateAdminSessionResponse_laws : wire_laws.

Lemma bank_AdminOverviewRequest_laws `{WireSpec} : codec_laws AdminOverviewRequest.wire.
Proof. prove_codec AdminOverviewRequest.wire AdminOverviewRequest.encode AdminOverviewRequest.wf. Qed.
#[export] Hint Resolve bank_AdminOverviewRequest_laws : wire_laws.

Lemma bank_AdminOverviewResponse_laws `{WireSpec} : codec_laws AdminOverviewResponse.wire.
Proof. prove_codec AdminOverviewResponse.wire AdminOverviewResponse.encode AdminOverviewResponse.wf. Qed.
#[export] Hint Resolve bank_AdminOverviewResponse_laws : wire_laws.

Lemma bank_ListAdminUsersRequest_laws `{WireSpec} : codec_laws ListAdminUsersRequest.wire.
Proof. prove_codec ListAdminUsersRequest.wire ListAdminUsersRequest.encode ListAdminUsersRequest.wf. Qed.
#[export] Hint Resolve bank_ListAdminUsersRequest_laws : wire_laws.

Lemma bank_AdminUser_laws `{WireSpec} : codec_laws AdminUser.wire.
Proof. prove_codec AdminUser.wire AdminUser.encode AdminUser.wf. Qed.
#[export] Hint Resolve bank_AdminUser_laws : wire_laws.

#[local] Hint Extern 1 (carried (forked (AdminUser.encode _)) _ _) =>
  apply (codec_nested AdminUser.wire); [apply bank_AdminUser_laws |] : wire.
#[local] Hint Extern 1 (ends (AdminUser.decode _)) =>
  apply (codec_decode_ends AdminUser.wire); apply bank_AdminUser_laws : wire.

Lemma bank_ListAdminUsersResponse_laws `{WireSpec} : codec_laws ListAdminUsersResponse.wire.
Proof. prove_codec ListAdminUsersResponse.wire ListAdminUsersResponse.encode ListAdminUsersResponse.wf. Qed.
#[export] Hint Resolve bank_ListAdminUsersResponse_laws : wire_laws.

Lemma bank_ListAdminUserAccountsRequest_laws `{WireSpec} : codec_laws ListAdminUserAccountsRequest.wire.
Proof. prove_codec ListAdminUserAccountsRequest.wire ListAdminUserAccountsRequest.encode ListAdminUserAccountsRequest.wf. Qed.
#[export] Hint Resolve bank_ListAdminUserAccountsRequest_laws : wire_laws.

Lemma bank_AdminAccount_laws `{WireSpec} : codec_laws AdminAccount.wire.
Proof. prove_codec AdminAccount.wire AdminAccount.encode AdminAccount.wf. Qed.
#[export] Hint Resolve bank_AdminAccount_laws : wire_laws.

#[local] Hint Extern 1 (carried (forked (AdminAccount.encode _)) _ _) =>
  apply (codec_nested AdminAccount.wire); [apply bank_AdminAccount_laws |] : wire.
#[local] Hint Extern 1 (ends (AdminAccount.decode _)) =>
  apply (codec_decode_ends AdminAccount.wire); apply bank_AdminAccount_laws : wire.

Lemma bank_ListAdminUserAccountsResponse_laws `{WireSpec} : codec_laws ListAdminUserAccountsResponse.wire.
Proof. prove_codec ListAdminUserAccountsResponse.wire ListAdminUserAccountsResponse.encode ListAdminUserAccountsResponse.wf. Qed.
#[export] Hint Resolve bank_ListAdminUserAccountsResponse_laws : wire_laws.

Lemma bank_ListAdminTransactionsRequest_laws `{WireSpec} : codec_laws ListAdminTransactionsRequest.wire.
Proof. prove_codec ListAdminTransactionsRequest.wire ListAdminTransactionsRequest.encode ListAdminTransactionsRequest.wf. Qed.
#[export] Hint Resolve bank_ListAdminTransactionsRequest_laws : wire_laws.

Lemma bank_AdminTransaction_laws `{WireSpec} : codec_laws AdminTransaction.wire.
Proof. prove_codec AdminTransaction.wire AdminTransaction.encode AdminTransaction.wf. Qed.
#[export] Hint Resolve bank_AdminTransaction_laws : wire_laws.

#[local] Hint Extern 1 (carried (forked (AdminTransaction.encode _)) _ _) =>
  apply (codec_nested AdminTransaction.wire); [apply bank_AdminTransaction_laws |] : wire.
#[local] Hint Extern 1 (ends (AdminTransaction.decode _)) =>
  apply (codec_decode_ends AdminTransaction.wire); apply bank_AdminTransaction_laws : wire.

Lemma bank_ListAdminTransactionsResponse_laws `{WireSpec} : codec_laws ListAdminTransactionsResponse.wire.
Proof. prove_codec ListAdminTransactionsResponse.wire ListAdminTransactionsResponse.encode ListAdminTransactionsResponse.wf. Qed.
#[export] Hint Resolve bank_ListAdminTransactionsResponse_laws : wire_laws.

Lemma bank_ListAdminAuditEventsRequest_laws `{WireSpec} : codec_laws ListAdminAuditEventsRequest.wire.
Proof. prove_codec ListAdminAuditEventsRequest.wire ListAdminAuditEventsRequest.encode ListAdminAuditEventsRequest.wf. Qed.
#[export] Hint Resolve bank_ListAdminAuditEventsRequest_laws : wire_laws.

Lemma bank_AdminAuditEvent_laws `{WireSpec} : codec_laws AdminAuditEvent.wire.
Proof. prove_codec AdminAuditEvent.wire AdminAuditEvent.encode AdminAuditEvent.wf. Qed.
#[export] Hint Resolve bank_AdminAuditEvent_laws : wire_laws.

#[local] Hint Extern 1 (carried (forked (AdminAuditEvent.encode _)) _ _) =>
  apply (codec_nested AdminAuditEvent.wire); [apply bank_AdminAuditEvent_laws |] : wire.
#[local] Hint Extern 1 (ends (AdminAuditEvent.decode _)) =>
  apply (codec_decode_ends AdminAuditEvent.wire); apply bank_AdminAuditEvent_laws : wire.

Lemma bank_ListAdminAuditEventsResponse_laws `{WireSpec} : codec_laws ListAdminAuditEventsResponse.wire.
Proof. prove_codec ListAdminAuditEventsResponse.wire ListAdminAuditEventsResponse.encode ListAdminAuditEventsResponse.wf. Qed.
#[export] Hint Resolve bank_ListAdminAuditEventsResponse_laws : wire_laws.

Lemma bank_VerifyAuditChainRequest_laws `{WireSpec} : codec_laws VerifyAuditChainRequest.wire.
Proof. prove_codec VerifyAuditChainRequest.wire VerifyAuditChainRequest.encode VerifyAuditChainRequest.wf. Qed.
#[export] Hint Resolve bank_VerifyAuditChainRequest_laws : wire_laws.

Lemma bank_VerifyAuditChainResponse_laws `{WireSpec} : codec_laws VerifyAuditChainResponse.wire.
Proof. prove_codec VerifyAuditChainResponse.wire VerifyAuditChainResponse.encode VerifyAuditChainResponse.wf. Qed.
#[export] Hint Resolve bank_VerifyAuditChainResponse_laws : wire_laws.

(** ** All the messages of [bank.proto] *)

Definition bank_messages `{Wire} : list codec :=
  [CreateUserRequest.wire;
   CheckUserEmailRequest.wire;
   CheckUserEmailResponse.wire;
   CreateUserResponse.wire;
   TransferRequest.wire;
   TransferResponse.wire;
   BalanceRequest.wire;
   BalanceResponse.wire;
   HistoryRequest.wire;
   TransactionRecord.wire;
   HistoryResponse.wire;
   CreateAdminSessionRequest.wire;
   CreateAdminSessionResponse.wire;
   AdminOverviewRequest.wire;
   AdminOverviewResponse.wire;
   ListAdminUsersRequest.wire;
   AdminUser.wire;
   ListAdminUsersResponse.wire;
   ListAdminUserAccountsRequest.wire;
   AdminAccount.wire;
   ListAdminUserAccountsResponse.wire;
   ListAdminTransactionsRequest.wire;
   AdminTransaction.wire;
   ListAdminTransactionsResponse.wire;
   ListAdminAuditEventsRequest.wire;
   AdminAuditEvent.wire;
   ListAdminAuditEventsResponse.wire;
   VerifyAuditChainRequest.wire;
   VerifyAuditChainResponse.wire].

Lemma bank_messages_laws `{WireSpec} : Forall codec_laws bank_messages.
Proof. repeat (constructor; [eauto using bank_CreateUserRequest_laws, bank_CheckUserEmailRequest_laws, bank_CheckUserEmailResponse_laws, bank_CreateUserResponse_laws, bank_TransferRequest_laws, bank_TransferResponse_laws, bank_BalanceRequest_laws, bank_BalanceResponse_laws, bank_HistoryRequest_laws, bank_TransactionRecord_laws, bank_HistoryResponse_laws, bank_CreateAdminSessionRequest_laws, bank_CreateAdminSessionResponse_laws, bank_AdminOverviewRequest_laws, bank_AdminOverviewResponse_laws, bank_ListAdminUsersRequest_laws, bank_AdminUser_laws, bank_ListAdminUsersResponse_laws, bank_ListAdminUserAccountsRequest_laws, bank_AdminAccount_laws, bank_ListAdminUserAccountsResponse_laws, bank_ListAdminTransactionsRequest_laws, bank_AdminTransaction_laws, bank_ListAdminTransactionsResponse_laws, bank_ListAdminAuditEventsRequest_laws, bank_AdminAuditEvent_laws, bank_ListAdminAuditEventsResponse_laws, bank_VerifyAuditChainRequest_laws, bank_VerifyAuditChainResponse_laws|]). constructor. Qed.
