(* ===== verification/ProtoSchema.v ===== *)
(** * The schema of the services

    [proto/kdc.proto], [proto/ca.proto] and [proto/bank.proto], which all
    services share: every message with its fields and every method. An [enum] is
    given by its name. What a schema says about the wire is [tag_of] and
    [entry_of]; [ProtoProps] compares the generated code with it. *)

From S2P Require Import Prelude.

Open Scope Z_scope.

Inductive field_type :=
| TString | TBytes | TInt32 | TInt64 | TBool
| TEnum (name : string)
| TMessage (name : string)
| TMap.

Record proto_field := Field { pf_repeated : bool; pf_type : field_type; pf_name : string; pf_number : Z }.
Record proto_message := Message { pm_name : string; pm_fields : list proto_field }.
Record proto_rpc := Method { pr_name : string; pr_request : string; pr_response : string }.
Record proto_file := File {
  package : string; service : string; methods : list proto_rpc; proto_messages : list proto_message
}.

(** Wire type 2 for what has a length, 0 for integers. *)
Definition wire_type (t : field_type) : Z :=
  match t with
  | TString | TBytes | TMessage _ | TMap => 2
  | TInt32 | TInt64 | TBool | TEnum _ => 0
  end.

(** The number and the tag of a field. *)
Definition tag_of (f : proto_field) : Z * Z := (pf_number f, pf_number f * 8 + wire_type (pf_type f)).

(** The path of a method. *)
Definition path_of (f : proto_file) (m : proto_rpc) : string :=
  ("/" ++ package f ++ "." ++ service f ++ "/" ++ pr_name m)%string.

(** [map<string, string>] is a repeated message with a key and a value. *)
Definition entry_of (name : string) : proto_message :=
  Message name [Field false TString "key" 1; Field false TString "value" 2].

Definition kdc_ASRequest : proto_message :=
  Message "ASRequest"
    [Field false TString "owner_id" 1;
     Field false TString "cert_sn" 2;
     Field false TBytes "nonce" 3;
     Field false TInt64 "timestamp" 4;
     Field false TBytes "signature" 5].

Definition kdc_ASResponse : proto_message :=
  Message "ASResponse"
    [Field false TBytes "as_rep" 1;
     Field false TInt64 "tgt_expires_at_unix" 2].

Definition kdc_TGSRequest : proto_message :=
  Message "TGSRequest"
    [Field false TBytes "tgt" 1;
     Field false TBytes "authenticator" 2;
     Field false TString "scope" 3;
     Field false TString "service_id" 4;
     Field false TString "cert_sn" 5;
     Field false TBytes "nonce" 6].

Definition kdc_TGSResponse : proto_message :=
  Message "TGSResponse"
    [Field false TBytes "tgs_rep" 1;
     Field false TInt64 "ticket_expires_at_unix" 2;
     Field false TString "scope" 3;
     Field false TString "service_id" 4].

Definition kdc_ListAuditEventsRequest : proto_message :=
  Message "ListAuditEventsRequest"
    [Field false TString "action" 1;
     Field false TString "client_id" 2;
     Field false TString "cert_serial" 3;
     Field false TString "request_id" 4;
     Field false TInt64 "from_unix" 5;
     Field false TInt64 "to_unix" 6;
     Field false TInt32 "limit" 7;
     Field false TInt32 "offset" 8].

Definition kdc_KdcAuditRecord : proto_message :=
  Message "KdcAuditRecord"
    [Field false TString "id" 1;
     Field false TString "action" 2;
     Field false TString "client_id" 3;
     Field false TString "cert_serial" 4;
     Field false TString "scope" 5;
     Field false TString "reason" 6;
     Field false TString "request_id" 7;
     Field false TString "ip" 8;
     Field false TString "metadata_json" 9;
     Field false TInt64 "created_at_unix" 10].

Definition kdc_ListAuditEventsResponse : proto_message :=
  Message "ListAuditEventsResponse"
    [Field true (TMessage "KdcAuditRecord") "events" 1;
     Field false TInt32 "total" 2;
     Field false TInt32 "limit" 3;
     Field false TInt32 "offset" 4].

Definition kdc_VerifyAuditChainRequest : proto_message :=
  Message "VerifyAuditChainRequest"
    [].

Definition kdc_VerifyAuditChainResponse : proto_message :=
  Message "VerifyAuditChainResponse"
    [Field false TBool "ok" 1;
     Field false TInt32 "checked" 2;
     Field false TInt64 "broken_seq" 3;
     Field false TString "broken_id" 4;
     Field false TString "detail" 5].

Definition kdc_TicketPayload : proto_message :=
  Message "TicketPayload"
    [Field false TString "owner_id" 1;
     Field false TString "cert_sn" 2;
     Field false TBytes "session_key" 3;
     Field false TString "scope" 4;
     Field false TString "service_id" 5;
     Field false TInt64 "issued_at_unix" 6;
     Field false TInt64 "expires_at_unix" 7;
     Field false TString "key_version" 8;
     Field false TString "ticket_id" 9].

Definition kdc_methods : list proto_rpc :=
  [Method "RequestTGT" "ASRequest" "ASResponse";
   Method "RequestServiceTicket" "TGSRequest" "TGSResponse";
   Method "ListAuditEvents" "ListAuditEventsRequest" "ListAuditEventsResponse";
   Method "VerifyAuditChain" "VerifyAuditChainRequest" "VerifyAuditChainResponse"].

Definition kdc_proto : proto_file :=
  File "kdc" "KDCService" kdc_methods
    [kdc_ASRequest;
     kdc_ASResponse;
     kdc_TGSRequest;
     kdc_TGSResponse;
     kdc_ListAuditEventsRequest;
     kdc_KdcAuditRecord;
     kdc_ListAuditEventsResponse;
     kdc_VerifyAuditChainRequest;
     kdc_VerifyAuditChainResponse;
     kdc_TicketPayload].

Definition ca_CertificateMetadata : proto_message :=
  Message "CertificateMetadata"
    [Field false TString "serial_number" 1;
     Field false TString "owner_id" 2;
     Field false TString "subject_cn" 3;
     Field false TString "subject_email" 4;
     Field false TString "fingerprint_sha256" 5;
     Field false (TEnum "CertStatus") "status" 6;
     Field false TInt64 "not_before_unix" 7;
     Field false TInt64 "not_after_unix" 8;
     Field false TInt64 "issued_at_unix" 9;
     Field false TInt64 "revoked_at_unix" 10;
     Field false TString "revocation_reason" 11;
     Field false TString "cert_type" 12;
     Field false TString "issuer_id" 13;
     Field false TString "issuer_common_name" 14;
     Field false TString "issuer_serial_number" 15;
     Field false TString "chain_pem" 16;
     Field true TString "chain_fingerprints" 17;
     Field false TBool "is_ca" 18;
     Field true TString "key_usage" 19;
     Field true TString "extended_key_usage" 20].

Definition ca_RegisterUserRequest : proto_message :=
  Message "RegisterUserRequest"
    [Field false TString "csr_pem" 1;
     Field false TString "owner_id" 2;
     Field false TString "subject_email" 3;
     Field false TString "full_name" 4;
     Field false (TEnum "IdentityRole") "role" 5].

Definition ca_RegisterUserResponse : proto_message :=
  Message "RegisterUserResponse"
    [Field false TString "certificate_pem" 1;
     Field false TString "serial_number" 2;
     Field false TInt64 "not_before_unix" 3;
     Field false TInt64 "not_after_unix" 4;
     Field false TString "fingerprint_sha256" 5;
     Field false TString "cert_type" 6;
     Field false TString "issuer_id" 7;
     Field false TString "issuer_common_name" 8;
     Field false TString "issuer_serial_number" 9;
     Field false TString "chain_pem" 10;
     Field true TString "chain_fingerprints" 11].

Definition ca_VerifyCertificateRequest : proto_message :=
  Message "VerifyCertificateRequest"
    [Field false TString "serial_number" 1;
     Field false TString "caller" 2;
     Field false TBool "include_certificate_pem" 3;
     Field false TBool "include_public_key_pem" 4].

Definition ca_VerifyCertificateResponse : proto_message :=
  Message "VerifyCertificateResponse"
    [Field false (TEnum "CertStatus") "status" 1;
     Field false TString "owner_id" 2;
     Field false TString "subject_email" 3;
     Field false TString "certificate_pem" 4;
     Field false TString "public_key_pem" 5;
     Field false TString "fingerprint_sha256" 6;
     Field false TInt64 "not_before_unix" 7;
     Field false TInt64 "not_after_unix" 8;
     Field false TInt64 "revoked_at_unix" 9;
     Field false TString "revocation_reason" 10;
     Field false TString "cert_type" 11;
     Field false TString "issuer_id" 12;
     Field false TString "issuer_common_name" 13;
     Field false TString "issuer_serial_number" 14;
     Field false TString "chain_pem" 15;
     Field true TString "chain_fingerprints" 16;
     Field false (TEnum "IdentityRole") "role" 17].

Definition ca_GetCertificateRequest : proto_message :=
  Message "GetCertificateRequest"
    [Field false TString "serial_number" 1].

Definition ca_GetCertificateResponse : proto_message :=
  Message "GetCertificateResponse"
    [Field false TString "certificate_pem" 1;
     Field false (TMessage "string ") "owner_id" 2;
     Field false (TEnum "CertStatus") "status" 3;
     Field false TInt64 "not_after_unix" 4;
     Field false TString "public_key_pem" 5].

Definition ca_CheckRevocationRequest : proto_message :=
  Message "CheckRevocationRequest"
    [Field false TString "serial_number" 1].

Definition ca_CheckRevocationResponse : proto_message :=
  Message "CheckRevocationResponse"
    [Field false (TEnum "CertStatus") "status" 1;
     Field false TString "reason" 2;
     Field false TInt64 "revoked_at" 3].

Definition ca_ListCertificatesRequest : proto_message :=
  Message "ListCertificatesRequest"
    [Field false TString "status" 1;
     Field false TString "owner_id" 2;
     Field false TString "subject_email" 3;
     Field false TString "serial_number" 4;
     Field false TInt32 "limit" 5;
     Field false TInt32 "offset" 6;
     Field false TString "performed_by" 7;
     Field false TString "cert_type" 8;
     Field false TString "issuer_id" 9].

Definition ca_ListCertificatesResponse : proto_message :=
  Message "ListCertificatesResponse"
    [Field true (TMessage "CertificateMetadata") "certificates" 1;
     Field false TInt32 "total" 2;
     Field false TInt32 "limit" 3;
     Field false TInt32 "offset" 4].

Definition ca_GetCertificateDetailRequest : proto_message :=
  Message "GetCertificateDetailRequest"
    [Field false TString "serial_number" 1;
     Field false TString "performed_by" 2].

Definition ca_GetCertificateDetailResponse : proto_message :=
  Message "GetCertificateDetailResponse"
    [Field false (TMessage "CertificateMetadata") "certificate" 1].

Definition ca_RevokeCertificateRequest : proto_message :=
  Message "RevokeCertificateRequest"
    [Field false TString "serial_number" 1;
     Field false TString "reason" 2;
     Field false TString "performed_by" 3].

Definition ca_RevokeCertificateResponse : proto_message :=
  Message "RevokeCertificateResponse"
    [Field false (TMessage "CertificateMetadata") "certificate" 1].

Definition ca_ListAuditEventsRequest : proto_message :=
  Message "ListAuditEventsRequest"
    [Field false TString "action" 1;
     Field false TString "serial_number" 2;
     Field false TString "performed_by_filter" 3;
     Field false TInt64 "from_unix" 4;
     Field false TInt64 "to_unix" 5;
     Field false TInt32 "limit" 6;
     Field false TInt32 "offset" 7;
     Field false TString "performed_by" 8;
     Field false TString "request_id" 9].

Definition ca_AuditEventRecord : proto_message :=
  Message "AuditEventRecord"
    [Field false TString "serial_number" 1;
     Field false TString "action" 2;
     Field false TString "performed_by" 3;
     Field false TString "reason" 4;
     Field false TInt64 "performed_at_unix" 5;
     Field true TMap "metadata" 6;
     Field false TString "cert_type" 7;
     Field false TString "issuer_id" 8].

Definition ca_ListAuditEventsResponse : proto_message :=
  Message "ListAuditEventsResponse"
    [Field true (TMessage "AuditEventRecord") "events" 1;
     Field false TInt32 "total" 2;
     Field false TInt32 "limit" 3;
     Field false TInt32 "offset" 4].

Definition ca_AppendAuditEventRequest : proto_message :=
  Message "AppendAuditEventRequest"
    [Field false TString "action" 1;
     Field false TString "serial_number" 2;
     Field false TString "performed_by" 3;
     Field false TString "reason" 4;
     Field true TMap "metadata" 5].

Definition ca_AppendAuditEventResponse : proto_message :=
  Message "AppendAuditEventResponse"
    [Field false TBool "recorded" 1].

Definition ca_VerifyAuditChainRequest : proto_message :=
  Message "VerifyAuditChainRequest"
    [].

Definition ca_VerifyAuditChainResponse : proto_message :=
  Message "VerifyAuditChainResponse"
    [Field false TBool "ok" 1;
     Field false TInt32 "checked" 2;
     Field false TInt64 "broken_seq" 3;
     Field false TString "broken_id" 4;
     Field false TString "detail" 5].

Definition ca_methods : list proto_rpc :=
  [Method "RegisterUser" "RegisterUserRequest" "RegisterUserResponse";
   Method "VerifyCertificate" "VerifyCertificateRequest" "VerifyCertificateResponse";
   Method "GetCertificate" "GetCertificateRequest" "GetCertificateResponse";
   Method "CheckRevocation" "CheckRevocationRequest" "CheckRevocationResponse";
   Method "ListCertificates" "ListCertificatesRequest" "ListCertificatesResponse";
   Method "GetCertificateDetail" "GetCertificateDetailRequest" "GetCertificateDetailResponse";
   Method "RevokeCertificate" "RevokeCertificateRequest" "RevokeCertificateResponse";
   Method "ListAuditEvents" "ListAuditEventsRequest" "ListAuditEventsResponse";
   Method "AppendAuditEvent" "AppendAuditEventRequest" "AppendAuditEventResponse";
   Method "VerifyAuditChain" "VerifyAuditChainRequest" "VerifyAuditChainResponse"].

Definition ca_proto : proto_file :=
  File "ca" "CAService" ca_methods
    [ca_CertificateMetadata;
     ca_RegisterUserRequest;
     ca_RegisterUserResponse;
     ca_VerifyCertificateRequest;
     ca_VerifyCertificateResponse;
     ca_GetCertificateRequest;
     ca_GetCertificateResponse;
     ca_CheckRevocationRequest;
     ca_CheckRevocationResponse;
     ca_ListCertificatesRequest;
     ca_ListCertificatesResponse;
     ca_GetCertificateDetailRequest;
     ca_GetCertificateDetailResponse;
     ca_RevokeCertificateRequest;
     ca_RevokeCertificateResponse;
     ca_ListAuditEventsRequest;
     ca_AuditEventRecord;
     entry_of "AuditEventRecord_MetadataEntry";
     ca_ListAuditEventsResponse;
     ca_AppendAuditEventRequest;
     entry_of "AppendAuditEventRequest_MetadataEntry";
     ca_AppendAuditEventResponse;
     ca_VerifyAuditChainRequest;
     ca_VerifyAuditChainResponse].

Definition bank_CreateUserRequest : proto_message :=
  Message "CreateUserRequest"
    [Field false TString "user_id" 1;
     Field false TString "subject_email" 2;
     Field false TString "full_name" 3].

Definition bank_CheckUserEmailRequest : proto_message :=
  Message "CheckUserEmailRequest"
    [Field false TString "subject_email" 1].

Definition bank_CheckUserEmailResponse : proto_message :=
  Message "CheckUserEmailResponse"
    [Field false TBool "exists" 1;
     Field false TString "user_id" 2;
     Field false TString "status" 3].

Definition bank_CreateUserResponse : proto_message :=
  Message "CreateUserResponse"
    [Field false TString "user_id" 1;
     Field false TString "status" 2;
     Field false TInt64 "created_at_unix" 3].

Definition bank_TransferRequest : proto_message :=
  Message "TransferRequest"
    [Field false TBytes "ticket_v" 1;
     Field false TBytes "authenticator" 2;
     Field false TBytes "cipher_payload" 3;
     Field false TBytes "iv" 4].

Definition bank_TransferResponse : proto_message :=
  Message "TransferResponse"
    [Field false TBytes "ap_rep" 1;
     Field false TString "transaction_id" 2].

Definition bank_BalanceRequest : proto_message :=
  Message "BalanceRequest"
    [Field false TBytes "ticket_v" 1;
     Field false TBytes "authenticator" 2;
     Field false TString "account_id" 3].

Definition bank_BalanceResponse : proto_message :=
  Message "BalanceResponse"
    [Field false TBytes "ap_rep" 1;
     Field false TString "account_id" 2;
     Field false TString "account_number" 3;
     Field false TInt64 "balance" 4;
     Field false TString "currency" 5;
     Field false (TEnum "AccountStatus") "status" 6].

Definition bank_HistoryRequest : proto_message :=
  Message "HistoryRequest"
    [Field false TBytes "ticket_v" 1;
     Field false TBytes "authenticator" 2;
     Field false TString "account_id" 3;
     Field false TInt32 "limit" 4;
     Field false TInt32 "offset" 5].

Definition bank_HistoryResponse : proto_message :=
  Message "HistoryResponse"
    [Field false TBytes "ap_rep" 1;
     Field true (TMessage "TransactionRecord") "transactions" 2;
     Field false TInt32 "total" 3;
     Field false TInt32 "limit" 4;
     Field false TInt32 "offset" 5].

Definition bank_TransactionRecord : proto_message :=
  Message "TransactionRecord"
    [Field false TString "transaction_id" 1;
     Field false TString "from_account_number" 2;
     Field false TString "to_account_number" 3;
     Field false TInt64 "amount" 4;
     Field false TString "currency" 5;
     Field false (TEnum "TransactionStatus") "status" 6;
     Field false TString "description" 7;
     Field false TString "scope" 8;
     Field false TInt64 "created_at_unix" 9;
     Field false TInt64 "completed_at_unix" 10].

Definition bank_CreateAdminSessionRequest : proto_message :=
  Message "CreateAdminSessionRequest"
    [Field false TBytes "ticket_v" 1;
     Field false TBytes "authenticator" 2].

Definition bank_CreateAdminSessionResponse : proto_message :=
  Message "CreateAdminSessionResponse"
    [Field false TBytes "ap_rep" 1;
     Field false TString "session_token" 2;
     Field false TInt64 "expires_at_unix" 3;
     Field false TString "admin_id" 4;
     Field false TString "role" 5].

Definition bank_AdminOverviewRequest : proto_message :=
  Message "AdminOverviewRequest"
    [Field false TString "admin_session_token" 1].

Definition bank_AdminOverviewResponse : proto_message :=
  Message "AdminOverviewResponse"
    [Field false TInt64 "total_users" 1;
     Field false TInt64 "active_users" 2;
     Field false TInt64 "total_accounts" 3;
     Field false TInt64 "total_balance" 4;
     Field false TInt64 "total_transactions" 5;
     Field false TInt64 "completed_transactions" 6;
     Field false TInt64 "failed_transactions" 7;
     Field false TInt64 "audit_events_24h" 8].

Definition bank_ListAdminUsersRequest : proto_message :=
  Message "ListAdminUsersRequest"
    [Field false TString "email" 1;
     Field false (TEnum "UserStatus") "status" 2;
     Field false TInt32 "limit" 3;
     Field false TInt32 "offset" 4;
     Field false TString "admin_session_token" 5].

Definition bank_ListAdminUsersResponse : proto_message :=
  Message "ListAdminUsersResponse"
    [Field true (TMessage "AdminUser") "users" 1;
     Field false TInt64 "total" 2;
     Field false TInt32 "limit" 3;
     Field false TInt32 "offset" 4].

Definition bank_AdminUser : proto_message :=
  Message "AdminUser"
    [Field false TString "user_id" 1;
     Field false TString "email" 2;
     Field false TString "full_name" 3;
     Field false (TEnum "UserStatus") "status" 4;
     Field false TInt64 "account_count" 5;
     Field false TInt64 "total_balance" 6;
     Field false TInt64 "created_at_unix" 7].

Definition bank_ListAdminUserAccountsRequest : proto_message :=
  Message "ListAdminUserAccountsRequest"
    [Field false TString "user_id" 1;
     Field false TString "admin_session_token" 2].

Definition bank_ListAdminUserAccountsResponse : proto_message :=
  Message "ListAdminUserAccountsResponse"
    [Field true (TMessage "AdminAccount") "accounts" 1].

Definition bank_AdminAccount : proto_message :=
  Message "AdminAccount"
    [Field false TString "account_id" 1;
     Field false TString "account_number" 2;
     Field false TInt64 "balance" 3;
     Field false TString "currency" 4;
     Field false (TEnum "AccountStatus") "status" 5;
     Field false TInt64 "created_at_unix" 6].

Definition bank_ListAdminTransactionsRequest : proto_message :=
  Message "ListAdminTransactionsRequest"
    [Field false TString "account_id" 1;
     Field false (TEnum "TransactionStatus") "status" 2;
     Field false TInt64 "from_unix" 3;
     Field false TInt64 "to_unix" 4;
     Field false TInt32 "limit" 5;
     Field false TInt32 "offset" 6;
     Field false TString "admin_session_token" 7].

Definition bank_ListAdminTransactionsResponse : proto_message :=
  Message "ListAdminTransactionsResponse"
    [Field true (TMessage "AdminTransaction") "transactions" 1;
     Field false TInt64 "total" 2;
     Field false TInt32 "limit" 3;
     Field false TInt32 "offset" 4].

Definition bank_AdminTransaction : proto_message :=
  Message "AdminTransaction"
    [Field false TString "transaction_id" 1;
     Field false TString "from_account_number" 2;
     Field false TString "to_account_number" 3;
     Field false TInt64 "amount" 4;
     Field false TString "currency" 5;
     Field false (TEnum "TransactionStatus") "status" 6;
     Field false TString "description" 7;
     Field false TString "cert_serial" 8;
     Field false TString "current_hash" 9;
     Field false TInt64 "created_at_unix" 10].

Definition bank_ListAdminAuditEventsRequest : proto_message :=
  Message "ListAdminAuditEventsRequest"
    [Field false (TEnum "BankAuditAction") "action" 1;
     Field false TString "user_id" 2;
     Field false TString "cert_serial" 3;
     Field false TString "request_id" 4;
     Field false TInt64 "from_unix" 5;
     Field false TInt64 "to_unix" 6;
     Field false TInt32 "limit" 7;
     Field false TInt32 "offset" 8;
     Field false TString "admin_session_token" 9].

Definition bank_ListAdminAuditEventsResponse : proto_message :=
  Message "ListAdminAuditEventsResponse"
    [Field true (TMessage "AdminAuditEvent") "events" 1;
     Field false TInt64 "total" 2;
     Field false TInt32 "limit" 3;
     Field false TInt32 "offset" 4].

Definition bank_VerifyAuditChainRequest : proto_message :=
  Message "VerifyAuditChainRequest"
    [Field false TString "admin_session_token" 1].

Definition bank_VerifyAuditChainResponse : proto_message :=
  Message "VerifyAuditChainResponse"
    [Field false TBool "ok" 1;
     Field false TInt32 "checked" 2;
     Field false TInt64 "broken_seq" 3;
     Field false TString "broken_id" 4;
     Field false TString "detail" 5].

Definition bank_AdminAuditEvent : proto_message :=
  Message "AdminAuditEvent"
    [Field false TString "event_id" 1;
     Field false (TEnum "BankAuditAction") "action" 2;
     Field false TString "user_id" 3;
     Field false TString "account_id" 4;
     Field false TString "transaction_id" 5;
     Field false TString "cert_serial" 6;
     Field false TString "request_id" 7;
     Field false TString "reason" 8;
     Field false TString "metadata_json" 9;
     Field false TInt64 "created_at_unix" 10].

Definition bank_methods : list proto_rpc :=
  [Method "CheckUserEmail" "CheckUserEmailRequest" "CheckUserEmailResponse";
   Method "CreateUser" "CreateUserRequest" "CreateUserResponse";
   Method "TransferMoney" "TransferRequest" "TransferResponse";
   Method "GetBalance" "BalanceRequest" "BalanceResponse";
   Method "GetHistory" "HistoryRequest" "HistoryResponse";
   Method "CreateAdminSession" "CreateAdminSessionRequest" "CreateAdminSessionResponse";
   Method "GetAdminOverview" "AdminOverviewRequest" "AdminOverviewResponse";
   Method "ListAdminUsers" "ListAdminUsersRequest" "ListAdminUsersResponse";
   Method "ListAdminUserAccounts" "ListAdminUserAccountsRequest" "ListAdminUserAccountsResponse";
   Method "ListAdminTransactions" "ListAdminTransactionsRequest" "ListAdminTransactionsResponse";
   Method "ListAdminAuditEvents" "ListAdminAuditEventsRequest" "ListAdminAuditEventsResponse";
   Method "VerifyAuditChain" "VerifyAuditChainRequest" "VerifyAuditChainResponse"].

Definition bank_proto : proto_file :=
  File "bank" "BankService" bank_methods
    [bank_CreateUserRequest;
     bank_CheckUserEmailRequest;
     bank_CheckUserEmailResponse;
     bank_CreateUserResponse;
     bank_TransferRequest;
     bank_TransferResponse;
     bank_BalanceRequest;
     bank_BalanceResponse;
     bank_HistoryRequest;
     bank_HistoryResponse;
     bank_TransactionRecord;
     bank_CreateAdminSessionRequest;
     bank_CreateAdminSessionResponse;
     bank_AdminOverviewRequest;
     bank_AdminOverviewResponse;
     bank_ListAdminUsersRequest;
     bank_ListAdminUsersResponse;
     bank_AdminUser;
     bank_ListAdminUserAccountsRequest;
     bank_ListAdminUserAccountsResponse;
     bank_AdminAccount;
     bank_ListAdminTransactionsRequest;
     bank_ListAdminTransactionsResponse;
     bank_AdminTransaction;
     bank_ListAdminAuditEventsRequest;
     bank_ListAdminAuditEventsResponse;
     bank_VerifyAuditChainRequest;
     bank_VerifyAuditChainResponse;
     bank_AdminAuditEvent].
