(* ===== verification/GatewayWire.v ===== *)
(** * The gateway's calls on the wire

    [Gateway] has a call of a service as an event with its data; the generated
    code has the services' methods and messages. [call_of] says which method and
    which message an event is, as the functions of [services/*.service.ts] pass
    them to the generated client, and the theorems say what reaches the service. *)

From S2P Require Import Prelude JsString JsDate Effects Gateway Buffer ErrorHandler Schema Validators AuditFetch AuditReport CaAdmin Bank UString UJson WebCrypto Wire WireModel KdcProto CaProto BankProto ProtoSchema ProtoProps.

Open Scope Z_scope.

(** A call: the method of a service, the codec of its request, the request. *)
Record call `{Wire} := Call {
  call_service : list (string * rpc);
  call_method : string;
  call_codec : codec;
  call_message : c_message call_codec
}.

Definition call_written `{Wire} (c : call) : written := c_encode (call_codec c) (call_message c).
Definition call_ok `{Wire} (c : call) : bool := c_ok (call_codec c) (call_message c).

(** The number of an enum at run time. *)
Definition IdentityRole_number (r : IdentityRole) : Z :=
  match r with
  | IDENTITY_ROLE_UNKNOWN => 0
  | IDENTITY_ROLE_CUSTOMER => 1
  | IDENTITY_ROLE_BANK_ADMIN => 2
  | IDENTITY_ROLE_CA_ADMIN => 3
  | IdentityRole_UNRECOGNIZED => -1
  end.

Definition BankAuditAction_number (a : BankAuditAction) : Z :=
  match a with
  | BANK_AUDIT_ACTION_UNKNOWN => 0
  | BANK_AUDIT_ACTION_TRANSFER_COMPLETED => 1
  | BANK_AUDIT_ACTION_TRANSFER_REJECTED => 2
  | BANK_AUDIT_ACTION_REPLAY_DETECTED => 3
  | BANK_AUDIT_ACTION_INVALID_SIGNATURE => 4
  | BANK_AUDIT_ACTION_CERTIFICATE_REJECTED => 5
  | BANK_AUDIT_ACTION_FORBIDDEN_OWNERSHIP => 6
  | BANK_AUDIT_ACTION_INSUFFICIENT_FUNDS => 7
  | BankAuditAction_UNRECOGNIZED => -1
  end.

Section Calls.
Context `{Wire}.

Definition to_ca (method : string) (c : codec) (m : c_message c) : option call :=
  Some (Call _ CAServiceService method c m).
Definition to_kdc (method : string) (c : codec) (m : c_message c) : option call :=
  Some (Call _ KDCServiceService method c m).
Definition to_bank (method : string) (c : codec) (m : c_message c) : option call :=
  Some (Call _ BankServiceService method c m).

Definition call_of_ca (e : event) : option call :=
  match e with
  | CaRegisterUser r _ =>
      to_ca "registerUser" CaProto.RegisterUserRequest.wire
        (CaProto.RegisterUserRequest.Mk (js (ru_csrPem r)) (js (ru_ownerId r)) (js (ru_subjectEmail r))
           (js (ru_fullName r)) (IdentityRole_number (ru_role r)))
  | CaVerifyCertificate r =>
      to_ca "verifyCertificate" CaProto.VerifyCertificateRequest.wire
        (CaProto.VerifyCertificateRequest.Mk (js (vr_serialNumber r)) (js (vr_caller r))
           (vr_includeCertificatePem r) (vr_includePublicKeyPem r))
  | CaRevokeCertificate r _ =>
      to_ca "revokeCertificate" CaProto.RevokeCertificateRequest.wire
        (CaProto.RevokeCertificateRequest.Mk (js (rv_serialNumber r)) (js (rv_reason r)) (js (rv_performedBy r)))
  | CaListCertificates r _ =>
      to_ca "listCertificates" CaProto.ListCertificatesRequest.wire
        (CaProto.ListCertificatesRequest.Mk (js (lc_status r)) (js (lc_ownerId r)) (js (lc_subjectEmail r))
           (js (lc_serialNumber r)) (lc_limit r) (lc_offset r) (js (lc_performedBy r))
           (js (lc_certType r)) (js (lc_issuerId r)))
  | CaGetCertificate serial performedBy _ =>
      to_ca "getCertificateDetail" CaProto.GetCertificateDetailRequest.wire
        (CaProto.GetCertificateDetailRequest.Mk (js serial) (js performedBy))
  | CaAppendAudit a _ =>
      to_ca "appendAuditEvent" CaProto.AppendAuditEventRequest.wire
        (CaProto.AppendAuditEventRequest.Mk (js (ae_action a)) (js (ae_serialNumber a)) (js (ae_performedBy a))
           (js (ae_reason a)) (map (fun e => (js e.1, js e.2)) (ae_metadata a)))
  | CaListAudit r _ =>
      to_ca "listAuditEvents" CaProto.ListAuditEventsRequest.wire
        (CaProto.ListAuditEventsRequest.Mk (js (ca_action r)) (js (ca_serialNumber r))
           (js (ca_performedByFilter r)) (ca_fromUnix r) (ca_toUnix r) (ca_limit r) (ca_offset r)
           (js (ca_performedBy r)) (js (ca_requestId r)))
  | CaVerifyChain _ =>
      to_ca "verifyAuditChain" CaProto.VerifyAuditChainRequest.wire CaProto.VerifyAuditChainRequest.Mk
  | _ => None
  end.

Definition call_of_kdc (e : event) : option call :=
  match e with
  | KdcRequestTgt r _ =>
      to_kdc "requestTgt" KdcProto.ASRequest.wire
        (KdcProto.ASRequest.Mk (js (as_ownerId r)) (js (as_certSn r)) (as_nonce r) (as_timestamp r) (as_signature r))
  | KdcRequestServiceTicket r _ =>
      to_kdc "requestServiceTicket" KdcProto.TGSRequest.wire
        (KdcProto.TGSRequest.Mk (tgs_tgt r) (tgs_authenticator r) (js (tgs_scope r)) (js (tgs_serviceId r))
           (js (tgs_certSn r)) (tgs_nonce r))
  | KdcListAudit r _ =>
      to_kdc "listAuditEvents" KdcProto.ListAuditEventsRequest.wire
        (KdcProto.ListAuditEventsRequest.Mk (js (kdc_action r)) (js (kdc_clientId r)) (js (kdc_certSerial r))
           (js (kdc_requestId r)) (kdc_fromUnix r) (kdc_toUnix r) (kdc_limit r) (kdc_offset r))
  | KdcVerifyChain _ =>
      to_kdc "verifyAuditChain" KdcProto.VerifyAuditChainRequest.wire KdcProto.VerifyAuditChainRequest.Mk
  | _ => None
  end.

(** A limit or an offset that is NaN is no integer and has no message here. *)
Definition call_of_bank (e : event) : option call :=
  match e with
  | BankCheckUserEmail email _ =>
      to_bank "checkUserEmail" CheckUserEmailRequest.wire (CheckUserEmailRequest.Mk (js email))
  | BankCreateUser r _ =>
      to_bank "createUser" BankProto.CreateUserRequest.wire
        (BankProto.CreateUserRequest.Mk (js (cu_userId r)) (js (cu_subjectEmail r)) (js (cu_fullName r)))
  | BankTransfer r _ =>
      to_bank "transferMoney" BankProto.TransferRequest.wire
        (BankProto.TransferRequest.Mk (tr_ticketV r) (tr_authenticator r) (tr_cipherPayload r) (tr_iv r))
  | BankGetBalance r _ =>
      to_bank "getBalance" BankProto.BalanceRequest.wire
        (BankProto.BalanceRequest.Mk (bal_ticketV r) (bal_authenticator r) (js (bal_accountId r)))
  | BankGetHistory r _ =>
      match hi_limit r, hi_offset r with
      | Some limit, Some offset =>
          to_bank "getHistory" BankProto.HistoryRequest.wire
            (BankProto.HistoryRequest.Mk (hi_ticketV r) (hi_authenticator r) (js (hi_accountId r)) limit offset)
      | _, _ => None
      end
  | BankCreateSession r =>
      to_bank "createAdminSession" BankProto.CreateAdminSessionRequest.wire
        (BankProto.CreateAdminSessionRequest.Mk (cas_ticketV r) (cas_authenticator r))
  | BankOverview token =>
      to_bank "getAdminOverview" AdminOverviewRequest.wire (AdminOverviewRequest.Mk (js token))
  | BankListUsers r =>
      to_bank "listAdminUsers" BankProto.ListAdminUsersRequest.wire
        (BankProto.ListAdminUsersRequest.Mk (js (lu_email r)) (lu_status r) (lu_limit r) (lu_offset r)
           (js (lu_adminSessionToken r)))
  | BankListAccounts userId token =>
      to_bank "listAdminUserAccounts" ListAdminUserAccountsRequest.wire
        (ListAdminUserAccountsRequest.Mk (js userId) (js token))
  | BankListTransactions r =>
      to_bank "listAdminTransactions" BankProto.ListAdminTransactionsRequest.wire
        (BankProto.ListAdminTransactionsRequest.Mk (js (lt_accountId r)) (lt_status r) (lt_fromUnix r)
           (lt_toUnix r) (lt_limit r) (lt_offset r) (js (lt_adminSessionToken r)))
  | BankListAudit r =>
      to_bank "listAdminAuditEvents" ListAdminAuditEventsRequest.wire
        (ListAdminAuditEventsRequest.Mk (BankAuditAction_number (bank_action r)) (js (bank_userId r))
           (js (bank_certSerial r)) (js (bank_requestId r)) (bank_fromUnix r) (bank_toUnix r)
           (bank_limit r) (bank_offset r) (js (bank_adminSessionToken r)))
  | BankVerifyChain token =>
      to_bank "verifyAuditChain" BankProto.VerifyAuditChainRequest.wire (BankProto.VerifyAuditChainRequest.Mk (js token))
  | _ => None
  end.

Definition call_of (e : event) : option call :=
  match call_of_ca e with
  | Some c => Some c
  | None => match call_of_kdc e with Some c => Some c | None => call_of_bank e end
  end.

(** The limit and the offset of a list call. *)
Definition page_of (e : event) : option (Z * Z) :=
  match e with
  | CaListCertificates r _ => Some (lc_limit r, lc_offset r)
  | CaListAudit r _ => Some (ca_limit r, ca_offset r)
  | KdcListAudit r _ => Some (kdc_limit r, kdc_offset r)
  | BankGetHistory r _ =>
      match hi_limit r, hi_offset r with Some limit, Some offset => Some (limit, offset) | _, _ => None end
  | BankListUsers r => Some (lu_limit r, lu_offset r)
  | BankListTransactions r => Some (lt_limit r, lt_offset r)
  | BankListAudit r => Some (bank_limit r, bank_offset r)
  | _ => None
  end.

End Calls.

(** ** What reaches a service *)

(** The services with the laws of their requests and replies. *)
Definition service_laws `{Wire} (s : list (string * rpc)) : Prop :=
  Forall (fun e => codec_laws (rpc_request e.2) /\ codec_laws (rpc_response e.2)) s.

Lemma kdc_service_laws `{WireSpec} : service_laws KDCServiceService.
Proof. repeat (apply List.Forall_cons; [split; auto with wire_laws|]); apply List.Forall_nil. Qed.

Lemma ca_service_laws `{WireSpec} : service_laws CAServiceService.
Proof. repeat (apply List.Forall_cons; [split; auto with wire_laws|]); apply List.Forall_nil. Qed.

Lemma bank_service_laws `{WireSpec} : service_laws BankServiceService.
Proof. repeat (apply List.Forall_cons; [split; auto with wire_laws|]); apply List.Forall_nil. Qed.

(** A method of a service whose request is this codec. *)
Definition offered `{Wire} (s : list (string * rpc)) (method : string) (c : codec) : Prop :=
  exists r, (method, r) ∈ s /\ rpc_request r = c.

Ltac prove_offered :=
  eexists; split; [repeat first [apply list_elem_of_here | apply list_elem_of_further]|reflexivity].

Lemma call_of_ca_offered `{Wire} e c : call_of_ca e = Some c ->
  call_service c = CAServiceService /\ offered (call_service c) (call_method c) (call_codec c).
Proof. destruct e; try done; intros [= <-]; (split; [done|]); cbn; prove_offered. Qed.

Lemma call_of_kdc_offered `{Wire} e c : call_of_kdc e = Some c ->
  call_service c = KDCServiceService /\ offered (call_service c) (call_method c) (call_codec c).
Proof. destruct e; try done; intros [= <-]; (split; [done|]); cbn; prove_offered. Qed.

Lemma call_of_bank_offered `{Wire} e c : call_of_bank e = Some c ->
  call_service c = BankServiceService /\ offered (call_service c) (call_method c) (call_codec c).
Proof.
  destruct e; try done; cbn [call_of_bank]; repeat case_match; try done; intros [= <-];
    (split; [done|]); cbn; prove_offered.
Qed.

Lemma call_of_offered `{WireSpec} e c : call_of e = Some c ->
  offered (call_service c) (call_method c) (call_codec c) /\ service_laws (call_service c).
Proof.
  unfold call_of. destruct (call_of_ca e) eqn:Ea; [|destruct (call_of_kdc e) eqn:Ek].
  - intros [= <-]. destruct (call_of_ca_offered _ _ Ea) as [-> Ho]. split; [done | apply ca_service_laws].
  - intros [= <-]. destruct (call_of_kdc_offered _ _ Ek) as [-> Ho]. split; [done | apply kdc_service_laws].
  - intros Eb. destruct (call_of_bank_offered _ _ Eb) as [-> Ho]. split; [done | apply bank_service_laws].
Qed.

(** A call of the gateway reaches the method it names as it was made. Every
    call that any handler makes of the CA, the KDC or the bank names a method of
    that service, and the service, decoding the bytes as the request of that
    method, gets the fields that the handler gave; provided that the texts are
    shorter than 2^30 and the numbers fit their fields. *)
Theorem calls_delivered `{WireSpec} e c :
  call_of e = Some c -> call_ok c = true ->
  exists r bs, (call_method c, r) ∈ call_service c /\ rpc_request r = call_codec c /\
    call_written c = Ok bs /\ c_decode (call_codec c) None bs = Some (Ok (call_message c, [])).
Proof.
  intros He Hc. destruct (call_of_offered e c He) as [(r & Hr & Hrc) Hl].
  unfold service_laws in Hl. rewrite Forall_forall in Hl. destruct (Hl _ Hr) as [Hlaws _]. cbn in Hlaws.
  rewrite Hrc in Hlaws. destruct (codec_decode_back (call_codec c) (call_message c) None [] Hlaws Hc) as (bs & Hb & Hd).
  exists r, bs. rewrite app_nil_r in Hd. split_and!; [done.. |]. apply Hd. by left.
Qed.

(** ** Pages that cannot be sent *)

Lemma writes_err (l : list written) w e : w ∈ l -> w = Err e -> exists e', writes l = Err e'.
Proof.
  intros Hw ->. induction l as [|a l IH]; [by apply elem_of_nil in Hw|].
  unfold writes; fold writes. apply elem_of_cons in Hw as [<-|Hw]; [by exists e|].
  destruct (IH Hw) as [e' ->]. destruct a as [a|ea]; [by exists e' | by exists ea].
Qed.

Lemma int32_field_refused `{WireSpec} tag n : int_fits 32 n = false ->
  exists e, write_if (nonzero n) (tagged tag (wr_int32 n)) = Err e.
Proof.
  intros Hn. destruct (int32_refused n Hn) as [e He].
  assert (nonzero n = true) as ->.
  { unfold nonzero. destruct (Z.eqb_spec n 0) as [->|]; [done | done]. }
  cbn. unfold tagged. destruct (wr_uint32 tag) as [tb|et]; [rewrite He; by exists e | by exists et].
Qed.

Lemma writes_refused `{WireSpec} tag n l : int_fits 32 n = false ->
  write_if (nonzero n) (tagged tag (wr_int32 n)) ∈ l -> exists e, writes l = Err e.
Proof. intros Hn Hl. destruct (int32_field_refused tag n Hn) as [e He]. by eapply writes_err. Qed.

Lemma page_unsendable `{WireSpec} e limit offset c :
  page_of e = Some (limit, offset) -> call_of e = Some c ->
  int_fits 32 limit && int_fits 32 offset = false -> exists err, call_written c = Err err.
Proof.
  intros Hp Hc Hf. apply andb_false_iff in Hf. unfold call_written.
  destruct e; try discriminate Hp; cbn in Hp; repeat case_match; try discriminate Hp;
    injection Hp as <- <-; cbn in Hc;
    repeat match goal with H : _ = Some _, Hc : context [match _ with _ => _ end] |- _ => rewrite H in Hc end;
    injection Hc as <-; cbn [call_codec call_message c_encode];
    destruct Hf as [Hf|Hf]; (eapply writes_refused; [exact Hf|]);
    repeat first [apply list_elem_of_here | apply list_elem_of_further].
Qed.

(** Pages that the gateway accepts and cannot ask for. The query validators
    of the history and of the bank administrators' lists bound the offset by 0
    only, so each offset from 2^31 to 2^53 - 1 is accepted; but no list call of
    the gateway with a limit or an offset outside 32 bits can be written: [encode]
    throws before anything is sent, for a query that was found valid. *)
Theorem offset_overflow `{WireSpec} `{Zod} :
  (forall coerce n, 2 ^ 31 <= n < 2 ^ 53 -> parses (SInt coerce [at_least 0]) (JNum n) = Some (JNum n)) /\
  (forall s, s ∈ [PaginationSchema; usersQuerySchema; transactionsQuerySchema; auditQuerySchema] ->
     exists strict fields coerce, s = SObject strict fields /\
       (("offset", SOptional (SInt coerce [at_least 0])) ∈ fields \/
        ("offset", SDefault (SInt coerce [at_least 0]) (JNum 0)) ∈ fields)) /\
  (forall e limit offset c, page_of e = Some (limit, offset) -> call_of e = Some c ->
     int_fits 32 limit && int_fits 32 offset = false -> exists err, call_written c = Err err).
Proof.
  split_and!.
  - intros coerce n Hn. cbn [parses]. replace (int_of coerce (JNum n)) with (Some n) by (by destruct coerce).
    assert (Hs : safe_integer n = true) by (unfold safe_integer; apply Z.leb_le; lia).
    assert (Hl : at_least 0 n = true) by (unfold at_least; apply Z.leb_le; lia).
    rewrite Hs. unfold forallb. by rewrite Hl.
  - intros s Hs. repeat (apply elem_of_cons in Hs as [->|Hs]); [..|by apply elem_of_nil in Hs];
      do 3 eexists; (split; [reflexivity|]);
      first [left; repeat first [apply list_elem_of_here | apply list_elem_of_further]; fail
            | right; repeat first [apply list_elem_of_here | apply list_elem_of_further]].
  - exact page_unsendable.
Qed.

(** ** Witnesses *)

Definition demo_transfer : TransferRequest :=
  {| tr_ticketV := [1; 2; 3]; tr_authenticator := [4]; tr_cipherPayload := [200; 255]; tr_iv := repeat 7 12 |}.

Lemma calls_delivered_witness :
  exists c r bs, call_of (BankTransfer demo_transfer []) = Some c /\
    (call_method c, r) ∈ call_service c /\ rpc_path r = "/bank.BankService/TransferMoney" /\
    call_written c = Ok bs /\ c_decode (call_codec c) None bs = Some (Ok (call_message c, [])).
Proof.
  eexists. assert (Hc : call_of (BankTransfer demo_transfer []) = Some _) by reflexivity.
  destruct (calls_delivered (BankTransfer demo_transfer []) _ Hc) as (r & bs & Hr & Hrc & Hb & Hd); [by vm_compute|].
  eexists (Rpc _ "/bank.BankService/TransferMoney" BankProto.TransferRequest.wire BankProto.TransferResponse.wire), bs.
  split_and!; [exact Hc | | reflexivity | exact Hb | exact Hd].
  repeat first [apply list_elem_of_here | apply list_elem_of_further].
Defined.

Lemma offset_overflow_witness :
  let request := {| hi_ticketV := [1]; hi_authenticator := [2]; hi_accountId := "a";
                    hi_limit := Some 20; hi_offset := Some (2 ^ 31) |} in
  exists c err, call_of (BankGetHistory request []) = Some c /\ call_written c = Err err.
Proof.
  cbv zeta. eexists. destruct (offset_overflow (H := model_wire) (H1 := toy_zod)) as (_ & _ & Hp).
  match goal with |- context [call_of ?e] => assert (Hc : call_of e = Some _) by reflexivity;
    destruct (Hp e 20 (2 ^ 31) _ eq_refl Hc eq_refl) as [err Herr] end.
  by exists err.
Defined.
