(* ===== verification/ProtoJson.v ===== *)
(** * The JSON side of the generated code

    What [fromJSON], [toJSON], [fromPartial] and [create] of [proto/bank.ts],
    [proto/ca.ts] and [proto/kdc.ts] are made of: the values of the language that
    they take and make, the conversions [String], [Number], [Boolean] and
    [Buffer.from], the helpers [isSet], [isObject], [bytesFromBase64] and
    [base64FromBytes] at the end of the three files, and what they satisfy for any
    message. *)

From S2P Require Import Prelude JsString Gateway Buffer UString UJson WebCrypto Wire JsNumber.

Open Scope Z_scope.

(** ** Values *)

(** The values that JSON can describe, and [undefined]. The fields of an object
    are in the order in which they were written. *)
Inductive value :=
| VUndefined
| VNull
| VBool (b : bool)
| VNum (n : number)
| VStr (s : ustr)
| VArr (l : list value)
| VObj (fields : list (ustr * value)).

Fixpoint value_of (j : ujson) : value :=
  match j with
  | UUndefined => VUndefined
  | UNull => VNull
  | UBool b => VBool b
  | UNum n => VNum (of_integer n)
  | UDec literal => VNum (StringToNumber literal)
  | UStr s => VStr s
  | UArr l => VArr (map value_of l)
  | UObj fields => VObj (map (fun f => (f.1, value_of f.2)) fields)
  end.

(** The own property that was written last. *)
Fixpoint own (name : ustr) (l : list (ustr * value)) : option value :=
  match l with
  | [] => None
  | (k, v) :: l' =>
      match own name l' with
      | Some w => Some w
      | None => if ustr_eqb k name then Some v else None
      end
  end.

Definition TypeError (message : string) : js_error :=
  {| err_code := None; err_details := None; err_message := Some message; err_meta_code := None;
     err_status := None; err_error_code := None; err_name := "TypeError"; err_activation := None |}.

Definition no_properties (kind : string) (name : string) : js_error :=
  TypeError ("Cannot read properties of " +:+ kind +:+ " (reading '" +:+ name +:+ "')").

(** [object.name]; no name of a field is a property of every text, number or array. *)
Definition member (name : string) (object : value) : result js_error value :=
  match object with
  | VUndefined => Err (no_properties "undefined" name)
  | VNull => Err (no_properties "null" name)
  | VObj l => Ok (default VUndefined (own (js name) l))
  | _ => Ok VUndefined
  end.

(** [object?.name]. *)
Definition optional_member (name : string) (object : value) : value :=
  match member name object with Ok v => v | Err _ => VUndefined end.

(** ** Conversions *)

Definition no_primitive : js_error := TypeError "Cannot convert object to primitive value".

(** An object's inherited [toString], unless a property of its own hides it: a
    JSON value is not callable, and [valueOf] gives no primitive value. *)
Definition object_text (l : list (ustr * value)) : result js_error ustr :=
  match own (js "toString") l with None => Ok (js "[object Object]") | Some _ => Err no_primitive end.

(** [String(value)]; the elements of an array are joined. *)
Fixpoint String_of (v : value) : result js_error ustr :=
  match v with
  | VUndefined => Ok (js "undefined")
  | VNull => Ok (js "null")
  | VBool b => Ok (js (if b then "true" else "false"))
  | VNum n => Ok (NumberToString n)
  | VStr s => Ok s
  | VArr l =>
      let! parts :=
        (fix go l :=
           match l with
           | [] => Ok []
           | e :: l' =>
               let! s := match e with VUndefined | VNull => Ok [] | _ => String_of e end in
               let! r := go l' in Ok (s :: r)
           end) l in
      Ok (join (js ",") parts)
  | VObj l => object_text l
  end.

(** [Number(value)]. *)
Definition Number_of (v : value) : result js_error number :=
  match v with
  | VUndefined => Ok NaN
  | VNull => Ok (Int 0)
  | VBool b => Ok (Int (if b then 1 else 0))
  | VNum n => Ok n
  | VStr s => Ok (StringToNumber s)
  | VArr _ | VObj _ => let! s := String_of v in Ok (StringToNumber s)
  end.

(** [Boolean(value)]. *)
Definition Boolean_of (v : value) : result js_error bool :=
  Ok match v with
     | VUndefined | VNull => false
     | VBool b => b
     | VNum n => number_truthy n
     | VStr s => nonempty s
     | VArr _ | VObj _ => true
     end.

(** [Buffer.from(value, base64)] of a value that is not a text belongs to Node:
    it throws, or copies the elements of an array. *)
Class NodeBuffer := { Buffer_from_object : value -> result js_error (list Z) }.

(** Node reads the low byte of a code unit. *)
Definition bytesFromBase64 `{NodeBuffer} (b64 : value) : result js_error (list Z) :=
  match b64 with VStr s => Ok (from_base64 (narrow s)) | _ => Buffer_from_object b64 end.

Definition base64FromBytes (arr : list Z) : ustr := js (to_base64 arr).

Definition isSet (v : value) : bool := match v with VUndefined | VNull => false | _ => true end.

Definition isObject (v : value) : bool := match v with VArr _ | VObj _ => true | _ => false end.

(** [Object.entries] of an object. *)
Definition own_entries (l : list (ustr * value)) : list (ustr * value) :=
  fold_left (fun o e => put_own e.1 e.2 o) l [].

Definition Object_entries (v : value) : list (ustr * value) :=
  match v with
  | VArr l => imap (fun i e => (dec (Z.of_nat i), e)) l
  | VObj l => own_entries l
  | _ => []
  end.

(** ** [fromJSON] *)

(** [isSet(object.a) ? convert(object.a) : isSet(object.b) ? convert(object.b) : initial]. *)
Fixpoint set_or {A} (names : list string) (convert : value -> result js_error A) (initial : A)
    (object : value) : result js_error A :=
  match names with
  | [] => Ok initial
  | name :: names' =>
      let! v := member name object in
      if isSet v then convert v else set_or names' convert initial object
  end.

(** [l.map((e: any) => convert(e))]. *)
Fixpoint convert_each {A} (convert : value -> result js_error A) (l : list value) : result js_error (list A) :=
  match l with
  | [] => Ok []
  | e :: l' => let! a := convert e in let! r := convert_each convert l' in Ok (a :: r)
  end.

(** [globalThis.Array.isArray(object?.a) ? object.a.map(...) : ... : []]. *)
Fixpoint array_or {A} (names : list string) (convert : value -> result js_error A) (object : value)
    : result js_error (list A) :=
  match names with
  | [] => Ok []
  | name :: names' =>
      match optional_member name object with
      | VArr l => convert_each convert l
      | _ => array_or names' convert object
      end
  end.

(** [... .reduce((acc, [key, value]) => { acc[key] = String(value); return acc; }, {})]. *)
Fixpoint reduce_entries (l : list (ustr * value)) (acc : entries) : result js_error entries :=
  match l with
  | [] => Ok acc
  | e :: l' => let! s := String_of e.2 in reduce_entries l' (put_entry e.1 s acc)
  end.

(** [isObject(object.name) ? Object.entries(object.name).reduce(...) : {}]. *)
Definition entries_or (name : string) (object : value) : result js_error entries :=
  let! v := member name object in
  if isObject v then reduce_entries (Object_entries v) [] else Ok [].

(** [case n: case text:] of a [switch] over a value. *)
Definition case_of (n : Z) (text : string) (v : value) : bool :=
  match v with
  | VNum x => bool_decide (x = Int n)
  | VStr s => ustr_eqb s (js text)
  | _ => false
  end.

(** ** [toJSON] *)

(** [if (condition) { obj.name = v; }], one after the other on a fresh object. *)
Definition member_if : Type := string * bool * value.

Definition present (l : list member_if) : value :=
  VObj (flat_map (fun e : member_if => if e.1.2 then [(js e.1.1, e.2)] else []) l).

Definition opt_set {A} (o : option A) : bool := match o with Some _ => true | None => false end.
Definition opt_value {A} (f : A -> value) (o : option A) : value :=
  match o with Some a => f a | None => VUndefined end.

(** [entries.forEach(([k, v]) => { obj.name[k] = v; })] on a fresh object. *)
Definition entries_value (l : entries) : value :=
  VObj (map (fun e => (e.1, VStr e.2)) (fold_left (fun o e => put_entry e.1 e.2 o) l [])).

(** ** [fromPartial] *)

(** The entries of a partial map that have a value. *)
Definition partial_entries (l : option (list (ustr * option ustr))) : entries :=
  fold_left (fun acc e => match e.2 with Some v => put_entry e.1 v acc | None => acc end) (default [] l) [].

Definition whole_entries (l : entries) : list (ustr * option ustr) := map (fun e => (e.1, Some e.2)) l.

(** ** A message type *)

Record json_message := Json {
  j_name : string;
  j_message : Type;
  j_partial : Type;
  j_base : j_message;
  j_fromJSON : value -> result js_error j_message;
  j_toJSON : j_message -> value;
  j_fromPartial : j_partial -> j_message;
  j_create : option j_partial -> j_message;
  j_whole : j_message -> j_partial;
  j_ok : j_message -> bool
}.

(** An [enum] value of those declared. *)
Definition one_of (values : list Z) (n : Z) : bool := existsb (Z.eqb n) values.

(** What is printed is read back, for the messages in [j_ok]; what is left out
    has its initial value; and a partial message gives the fields that it has. *)
Record json_laws (m : json_message) : Prop := {
  json_back x : j_ok m x = true -> j_fromJSON m (j_toJSON m x) = Ok x;
  json_object x : isSet (j_toJSON m x) = true;
  json_initial : j_fromJSON m (VObj []) = Ok (j_base m);
  json_initial_text : j_toJSON m (j_base m) = VObj [];
  create_initial : j_create m None = j_base m;
  create_partial p : j_create m (Some p) = j_fromPartial m p;
  partial_back x : j_ok m x = true -> j_fromPartial m (j_whole m x) = x
}.

(** ** What is printed is read back *)

Fixpoint lookup (name : string) (l : list member_if) : value :=
  match l with
  | [] => VUndefined
  | e :: l' => if String.eqb e.1.1 name then (if e.1.2 then e.2 else VUndefined) else lookup name l'
  end.

Fixpoint keys_ok (l : list member_if) : bool :=
  match l with
  | [] => true
  | e :: l' => forallb (fun e' => negb (String.eqb e'.1.1 e.1.1)) l' && keys_ok l'
  end.

Lemma js_eqb s t : ustr_eqb (js s) (js t) = String.eqb s t.
Proof.
  destruct (String.eqb_spec s t) as [->|Hne]; [by apply ustr_eqb_eq|].
  apply not_true_is_false. rewrite ustr_eqb_eq. intros He. by apply Hne, js_inj.
Qed.

Lemma own_absent name l :
  forallb (fun e' : member_if => negb (String.eqb e'.1.1 name)) l = true ->
  own (js name) (flat_map (fun e : member_if => if e.1.2 then [(js e.1.1, e.2)] else []) l) = None.
Proof.
  induction l as [|[[k []] v] l IH]; [done| |]; cbn [flat_map app own forallb fst snd]; intros H; apply andb_true_iff in H as [Hk Hl].
  - apply negb_true_iff in Hk. cbn [fst snd] in Hk. by rewrite IH, js_eqb, Hk.
  - by apply IH.
Qed.

Lemma member_present name l : keys_ok l = true -> member name (present l) = Ok (lookup name l).
Proof.
  intros Hk. unfold present, member. f_equal.
  induction l as [|[[k c] v] l IH]; [done|]. cbn in Hk. apply andb_true_iff in Hk as [Hf Hk]. specialize (IH Hk).
  cbn [flat_map lookup fst snd]. destruct (String.eqb_spec k name) as [->|Hne].
  - pose proof (own_absent name l Hf) as Ha. destruct c; cbn [app own].
    + rewrite Ha. cbn [fst snd]. by rewrite js_eqb, String.eqb_refl.
    + by rewrite Ha.
  - destruct c; cbn [app own]; [|done]. apply String.eqb_neq in Hne. rewrite js_eqb, Hne. destruct (own _ _); done.
Qed.

Lemma bind_ok {A B} (a : result js_error A) (f : A -> result js_error B) x r :
  a = Ok x -> f x = r -> rbind a f = r.
Proof. by intros -> <-. Qed.

Lemma set_or_cons {A} name names (convert : value -> result js_error A) initial object :
  set_or (name :: names) convert initial object =
  let! v := member name object in if isSet v then convert v else set_or names convert initial object.
Proof. done. Qed.

Lemma array_or_cons {A} name names (convert : value -> result js_error A) object :
  array_or (name :: names) convert object =
  match optional_member name object with
  | VArr l => convert_each convert l
  | _ => array_or names convert object
  end.
Proof. done. Qed.

Section Back.
Context {A : Type} (l : list member_if) (name : string) (names : list string).
Hypothesis Hkeys : keys_ok l = true.
Hypothesis Hnames : Forall (fun n => lookup n l = VUndefined) names.

Lemma set_or_initial (convert : value -> result js_error A) initial :
  set_or names convert initial (present l) = Ok initial.
Proof.
  induction Hnames as [|n ns Hn Hns IH]; [done|]. cbn [set_or].
  rewrite member_present, Hn by done. by apply IH.
Qed.

Lemma set_or_back (convert : value -> result js_error A) initial (c : bool) x v :
  lookup name l = (if c then x else VUndefined) ->
  (c = true -> isSet x = true /\ convert x = Ok v) -> (c = false -> v = initial) ->
  set_or (name :: names) convert initial (present l) = Ok v.
Proof.
  intros Hl Ht Hf. cbn [set_or]. rewrite member_present, Hl by done. cbn [rbind]. destruct c.
  - destruct Ht as [-> ->]; done.
  - cbn [isSet]. rewrite Hf by done. apply set_or_initial.
Qed.

Lemma convert_each_map {B} (convert : value -> result js_error B) f (xs : list B) :
  Forall (fun x => convert (f x) = Ok x) xs -> convert_each convert (map f xs) = Ok xs.
Proof. induction 1 as [|x xs Hx Hxs IH]; [done|]. cbn. by rewrite Hx, IH. Qed.

Lemma array_or_back (convert : value -> result js_error A) f xs :
  lookup name l = (if nonempty xs then VArr (map f xs) else VUndefined) ->
  Forall (fun x => convert (f x) = Ok x) xs ->
  array_or (name :: names) convert (present l) = Ok xs.
Proof.
  intros Hl Hxs. cbn [array_or]. unfold optional_member at 1. rewrite member_present, Hl by done.
  destruct xs as [|x xs]; cbn [nonempty].
  - clear Hl Hxs. induction Hnames as [|n ns Hn Hns IH]; [done|]. cbn [array_or]. unfold optional_member at 1.
    rewrite member_present, Hn by done. by apply IH.
  - by apply convert_each_map.
Qed.

End Back.

(** *** Maps *)

Lemma own_entries_all (l acc : list (ustr * value)) :
  Forall (fun e => array_index e.1 = None) l -> NoDup (map fst (acc ++ l)) ->
  fold_left (fun o e => put_own e.1 e.2 o) l acc = acc ++ l.
Proof.
  revert acc. induction l as [|[k v] l IH]; intros acc Hi Hd; cbn [fold_left]; [by rewrite app_nil_r|].
  apply Forall_cons in Hi as [Hk Hi]. cbn [fst snd] in *.
  assert (put_own k v acc = acc ++ [(k, v)]) as ->.
  { unfold put_own. rewrite Hk.
    assert (existsb (fun e => ustr_eqb e.1 k) acc = false) as ->; [|done].
    apply not_true_is_false. intros He. apply existsb_exists in He as (e & He & Hek). apply ustr_eqb_eq in Hek. subst k.
    rewrite map_app in Hd. apply NoDup_app in Hd as (_ & Hd & _).
    apply (Hd e.1); [apply list_elem_of_In, in_map, He | left]. }
  rewrite IH; [by rewrite <- (assoc_L (++)) | done | by rewrite <- (assoc_L (++))].
Qed.

Lemma entries_keys l : entries_ok l = true ->
  NoDup (map fst l) /\ Forall (fun e => array_index e.1 = None) l.
Proof.
  induction l as [|e l IH]; cbn [entries_ok]; [split; constructor|]. intros H.
  repeat (apply andb_true_iff in H as [H ?]). destruct IH as [Hd Hi]; [done|].
  split; constructor; try done; [|by eapply bool_decide_eq_true].
  intros Hin. apply list_elem_of_In, in_map_iff in Hin as (e' & He & Hin).
  match goal with H : negb (existsb _ _) = true |- _ => apply negb_true_iff in H; rename H into Hx end.
  rewrite (proj2 (existsb_exists _ _)) in Hx; [done|]. exists e'. split; [done | by apply ustr_eqb_eq].
Qed.

Lemma put_all_entries l : entries_ok l = true -> fold_left (fun o e => put_entry e.1 e.2 o) l [] = l.
Proof. intros Hl. rewrite put_all; [done | done |]. apply Forall_forall. intros. constructor. Qed.

Lemma reduce_entries_fold l acc :
  reduce_entries (map (fun e => (e.1, VStr e.2)) l) acc =
  Ok (fold_left (fun o e => put_entry e.1 e.2 o) l acc).
Proof. revert acc. induction l as [|e l IH]; intros acc; [done|]. cbn. apply IH. Qed.

Lemma entries_value_back l : entries_ok l = true ->
  reduce_entries (Object_entries (entries_value l)) [] = Ok l.
Proof.
  intros Hl. unfold entries_value, Object_entries, own_entries. rewrite put_all_entries by done.
  destruct (entries_keys l Hl) as [Hd Hi].
  rewrite own_entries_all.
  - cbn [app]. by rewrite reduce_entries_fold, put_all_entries.
  - apply Forall_map. exact Hi.
  - cbn [app]. by rewrite map_map.
Qed.

Lemma entries_or_back l name xs :
  keys_ok l = true -> lookup name l = (if nonempty xs then entries_value xs else VUndefined) ->
  entries_ok xs = true -> entries_or name (present l) = Ok xs.
Proof.
  intros Hk Hl Hxs. unfold entries_or. rewrite member_present, Hl by done.
  destruct xs as [|x xs]; [done|].
  exact (entries_value_back _ Hxs).
Qed.

Lemma partial_entries_whole l : entries_ok l = true -> partial_entries (Some (whole_entries l)) = l.
Proof.
  intros Hl. rewrite <- (put_all_entries l Hl) at 2. unfold partial_entries, whole_entries. cbn [default].
  generalize (@nil (ustr * ustr)) as acc. induction l as [|e l IH]; intros acc; [done|].
  cbn [map fold_left fst snd]. cbn in Hl. apply andb_true_iff in Hl as [_ Hl]. by apply IH.
Qed.

(** *** Fields *)

Lemma base64_back `{NodeBuffer} b : bytes_okb b = true -> bytesFromBase64 (VStr (base64FromBytes b)) = Ok b.
Proof.
  intros Hb. cbn. unfold base64FromBytes. rewrite narrow_js, base64_roundtrip; [done | by apply bytes_okb_true].
Qed.

Lemma Number_back n : whole n = true -> Number_of (VNum (Math_round n)) = Ok n.
Proof. intros Hn. cbn. by rewrite Math_round_whole. Qed.

Lemma map_back {A B} (f : B -> A) (g : A -> B) ok l :
  (forall x, ok x = true -> f (g x) = x) -> forallb ok l = true -> map f (map g l) = l.
Proof.
  intros Hf. induction l as [|x l IH]; [done|]. cbn. intros H. apply andb_true_iff in H as [Hx Hl].
  by rewrite Hf, IH.
Qed.

Lemma Forall_back {A} (convert : value -> result js_error A) f ok l :
  (forall x, ok x = true -> convert (f x) = Ok x) -> forallb ok l = true ->
  Forall (fun x => convert (f x) = Ok x) l.
Proof. intros Hc Hl. apply Forall_forall. intros x Hx. by eapply Hc, forallb_elem. Qed.

(** *** Automation *)

Definition opt_all {A} (f : A -> bool) (o : option A) : bool := match o with Some a => f a | None => true end.

(** [isSet(v) ? convert(v) : undefined] of an optional message. *)
Definition maybe {A} (convert : value -> result js_error A) (v : value) : result js_error (option A) :=
  let! a := convert v in Ok (Some a).

Lemma maybe_back {A} (convert : value -> result js_error A) f ok (o : option A) :
  (forall x, ok x = true -> convert (f x) = Ok x) -> opt_all ok o = true ->
  opt_set o = true -> maybe convert (opt_value f o) = Ok o.
Proof. intros Hc. destruct o as [x|]; [|done]. cbn. intros Hx _. unfold maybe. by rewrite Hc. Qed.

Lemma maybe_isSet {A} f (o : option A) : (forall x, isSet (f x) = true) -> opt_set o = true -> isSet (opt_value f o) = true.
Proof. destruct o; cbn; auto. Qed.

Lemma opt_set_false {A} (o : option A) : opt_set o = false -> o = None.
Proof. by destruct o. Qed.

Lemma option_back {A B} (f : B -> A) (g : A -> B) ok (o : option A) :
  (forall x, ok x = true -> f (g x) = x) -> opt_all ok o = true -> f <$> (g <$> o) = o.
Proof. intros Hf. destruct o; cbn; [|done]. intros Hx. by rewrite Hf. Qed.

Create HintDb json.

Arguments js : simpl never.
Arguments present : simpl never.
Arguments set_or : simpl never.
Arguments array_or : simpl never.
Arguments entries_or : simpl never.
Arguments entries_value : simpl never.
Arguments base64FromBytes : simpl never.
Arguments Math_round : simpl never.
Arguments number_nonzero : simpl never.
Arguments JsNumber.whole : simpl never.
Arguments opt_all : simpl never.
Arguments opt_set : simpl never.
Arguments opt_value : simpl never.
Arguments bytes_okb : simpl never.
Arguments partial_entries : simpl never.
Arguments whole_entries : simpl never.

(** Every declared value. *)
Ltac by_cases_of_enum :=
  intros H; apply existsb_exists in H as (v & Hin & He); apply Z.eqb_eq in He; subst v;
  repeat (destruct Hin as [<- | Hin]; [vm_compute; reflexivity |]); destruct Hin.

Ltac json_lookup := cbn [lookup fst snd String.eqb Ascii.eqb Bool.eqb]; reflexivity.

Ltac json_convert :=
  cbv beta;
  first [ apply base64_back; assumption
        | apply Number_back; assumption
        | match goal with |- Ok _ = Ok _ => apply (f_equal Ok) end; solve [eauto with json nocore]
        | eapply maybe_back; [intros; solve [eauto with json] | eassumption | assumption]
        | reflexivity ].

Ltac json_isSet :=
  first [ reflexivity | apply maybe_isSet; [intros; reflexivity | assumption] ].

Ltac json_default H :=
  first [ apply nonempty_false in H | apply nonzero_false in H | apply number_nonzero_false in H
        | apply opt_set_false in H | idtac ]; subst; reflexivity.

Ltac json_elements :=
  first [ apply Forall_true; reflexivity
        | eapply Forall_back; [intros; solve [eauto with json] | eassumption] ].

Ltac json_field :=
  lazymatch goal with
  | |- set_or _ _ _ _ = _ =>
      eapply set_or_back;
        [reflexivity | repeat constructor | json_lookup
        | intros ?; split; [json_isSet | json_convert] | let H := fresh in intros H; json_default H]
  | |- array_or _ _ _ = _ => eapply array_or_back; [reflexivity | repeat constructor | json_lookup | json_elements]
  | |- entries_or _ _ = _ => eapply entries_or_back; [reflexivity | json_lookup | assumption]
  end.

Ltac json_partial :=
  first [ reflexivity
        | apply partial_entries_whole; assumption
        | eapply map_back; [intros; solve [eauto with json] | eassumption]
        | eapply option_back; [intros; solve [eauto with json] | eassumption] ].

(** The fields one after the other, for both directions. *)
Tactic Notation "prove_json" reference(j) reference(from) reference(to) reference(part) reference(all) reference(good) :=
  unfold j; split;
  cbn [j_message j_partial j_base j_fromJSON j_toJSON j_fromPartial j_create j_whole j_ok];
  [ let m := fresh in let Hok := fresh in
    intros m Hok; destruct m; unfold good in Hok; cbn in Hok; wire_hyps; unfold from, to; cbn;
    repeat (eapply bind_ok; [json_field|]); reflexivity
  | intros; reflexivity
  | reflexivity
  | reflexivity
  | reflexivity
  | intros; reflexivity
  | let m := fresh in let Hok := fresh in
    intros m Hok; destruct m; unfold good in Hok; cbn in Hok; wire_hyps; unfold part, all; cbn;
    f_equal; json_partial ].
