(* ===== verification/KdcJson.v ===== *)
(** * The messages of the KDC, as JSON

    The other half of [api-gateway/src/proto/kdc.ts]: [fromJSON], [toJSON],
    [fromPartial] and [create] of every message of [KdcProto], and the conversions
    of its enums. A field of a partial message is [None] where it is [undefined].
    [whole] is a message with all its fields given, [ok] the messages that JSON
    carries: bytes in buffers, declared enum values, numbers without a fraction. *)

From S2P Require Import Prelude JsString Gateway UString Wire KdcProto JsNumber ProtoJson.

Open Scope Z_scope.

Module ASRequestJson.

Definition msg : Type := ASRequest.msg number.

Definition createBase : msg := ASRequest.Mk [] [] [] (Int 0) [].

Record partial := Part {
  p_ownerId : option ustr;
  p_certSn : option ustr;
  p_nonce : option (list Z);
  p_timestamp : option number;
  p_signature : option (list Z)
}.

Section Functions.
Context `{NodeBuffer}.

Definition fromJSON (object : value) : result js_error msg :=
  let! x0 := set_or ["ownerId"; "owner_id"] String_of [] object in
  let! x1 := set_or ["certSn"; "cert_sn"] String_of [] object in
  let! x2 := set_or ["nonce"] bytesFromBase64 [] object in
  let! x3 := set_or ["timestamp"] Number_of (Int 0) object in
  let! x4 := set_or ["signature"] bytesFromBase64 [] object in
  Ok (ASRequest.Mk x0 x1 x2 x3 x4).

Definition toJSON (message : msg) : value :=
  present [("ownerId", nonempty (ASRequest.ownerId message), VStr (ASRequest.ownerId message));
    ("certSn", nonempty (ASRequest.certSn message), VStr (ASRequest.certSn message));
    ("nonce", nonempty (ASRequest.nonce message), VStr (base64FromBytes (ASRequest.nonce message)));
    ("timestamp", number_nonzero (ASRequest.timestamp message), VNum (Math_round (ASRequest.timestamp message)));
    ("signature", nonempty (ASRequest.signature message), VStr (base64FromBytes (ASRequest.signature message)))].

Definition fromPartial (object : partial) : msg :=
  ASRequest.Mk
    (default [] (p_ownerId object))
    (default [] (p_certSn object))
    (default [] (p_nonce object))
    (default (Int 0) (p_timestamp object))
    (default [] (p_signature object)).

Definition create (base : option partial) : msg :=
  fromPartial (default (Part None None None None None) base).

Definition whole (message : msg) : partial :=
  Part
    (Some (ASRequest.ownerId message))
    (Some (ASRequest.certSn message))
    (Some (ASRequest.nonce message))
    (Some (ASRequest.timestamp message))
    (Some (ASRequest.signature message)).

Definition ok (message : msg) : bool :=
  bytes_okb (ASRequest.nonce message) &&
  JsNumber.whole (ASRequest.timestamp message) &&
  bytes_okb (ASRequest.signature message).

Definition json : json_message :=
  Json "ASRequest" msg partial createBase fromJSON toJSON fromPartial create whole ok.

End Functions.
End ASRequestJson.

Lemma kdc_ASRequest_json `{NodeBuffer} : json_laws ASRequestJson.json.
Proof. prove_json ASRequestJson.json ASRequestJson.fromJSON ASRequestJson.toJSON ASRequestJson.fromPartial ASRequestJson.whole ASRequestJson.ok. Qed.

Module ASResponseJson.

Definition msg : Type := ASResponse.msg number.

Definition createBase : msg := ASResponse.Mk [] (Int 0).

Record partial := Part {
  p_asRep : option (list Z);
  p_tgtExpiresAtUnix : option number
}.

Section Functions.
Context `{NodeBuffer}.

Definition fromJSON (object : value) : result js_error msg :=
  let! x0 := set_or ["asRep"; "as_rep"] bytesFromBase64 [] object in
  let! x1 := set_or ["tgtExpiresAtUnix"; "tgt_expires_at_unix"] Number_of (Int 0) object in
  Ok (ASResponse.Mk x0 x1).

Definition toJSON (message : msg) : value :=
  present [("asRep", nonempty (ASResponse.asRep message), VStr (base64FromBytes (ASResponse.asRep message)));
    ("tgtExpiresAtUnix", number_nonzero (ASResponse.tgtExpiresAtUnix message), VNum (Math_round (ASResponse.tgtExpiresAtUnix message)))].

Definition fromPartial (object : partial) : msg :=
  ASResponse.Mk
    (default [] (p_asRep object))
    (default (Int 0) (p_tgtExpiresAtUnix object)).

Definition create (base : option partial) : msg :=
  fromPartial (default (Part None None) base).

Definition whole (message : msg) : partial :=
  Part
    (Some (ASResponse.asRep message))
    (Some (ASResponse.tgtExpiresAtUnix message)).

Definition ok (message : msg) : bool :=
  bytes_okb (ASResponse.asRep message) &&
  JsNumber.whole (ASResponse.tgtExpiresAtUnix message).

Definition json : json_message :=
  Json "ASResponse" msg partial createBase fromJSON toJSON fromPartial create whole ok.

End Functions.
End ASResponseJson.

Lemma kdc_ASResponse_json `{NodeBuffer} : json_laws ASResponseJson.json.
Proof. prove_json ASResponseJson.json ASResponseJson.fromJSON ASResponseJson.toJSON ASResponseJson.fromPartial ASResponseJson.whole ASResponseJson.ok. Qed.

Module TGSRequestJson.

Definition msg : Type := TGSRequest.t.

Definition createBase : msg := TGSRequest.Mk [] [] [] [] [] [].

Record partial := Part {
  p_tgt : option (list Z);
  p_authenticator : option (list Z);
  p_scope : option ustr;
  p_serviceId : option ustr;
  p_certSn : option ustr;
  p_nonce : option (list Z)
}.

Section Functions.
Context `{NodeBuffer}.

Definition fromJSON (object : value) : result js_error msg :=
  let! x0 := set_or ["tgt"] bytesFromBase64 [] object in
  let! x1 := set_or ["authenticator"] bytesFromBase64 [] object in
  let! x2 := set_or ["scope"] String_of [] object in
  let! x3 := set_or ["serviceId"; "service_id"] String_of [] object in
  let! x4 := set_or ["certSn"; "cert_sn"] String_of [] object in
  let! x5 := set_or ["nonce"] bytesFromBase64 [] object in
  Ok (TGSRequest.Mk x0 x1 x2 x3 x4 x5).

Definition toJSON (message : msg) : value :=
  present [("tgt", nonempty (TGSRequest.tgt message), VStr (base64FromBytes (TGSRequest.tgt message)));
    ("authenticator", nonempty (TGSRequest.authenticator message), VStr (base64FromBytes (TGSRequest.authenticator message)));
    ("scope", nonempty (TGSRequest.scope message), VStr (TGSRequest.scope message));
    ("serviceId", nonempty (TGSRequest.serviceId message), VStr (TGSRequest.serviceId message));
    ("certSn", nonempty (TGSRequest.certSn message), VStr (TGSRequest.certSn message));
    ("nonce", nonempty (TGSRequest.nonce message), VStr (base64FromBytes (TGSRequest.nonce message)))].

Definition fromPartial (object : partial) : msg :=
  TGSRequest.Mk
    (default [] (p_tgt object))
    (default [] (p_authenticator object))
    (default [] (p_scope object))
    (default [] (p_serviceId object))
    (default [] (p_certSn object))
    (default [] (p_nonce object)).

Definition create (base : option partial) : msg :=
  fromPartial (default (Part None None None None None None) base).

Definition whole (message : msg) : partial :=
  Part
    (Some (TGSRequest.tgt message))
    (Some (TGSRequest.authenticator message))
    (Some (TGSRequest.scope message))
    (Some (TGSRequest.serviceId message))
    (Some (TGSRequest.certSn message))
    (Some (TGSRequest.nonce message)).

Definition ok (message : msg) : bool :=
  bytes_okb (TGSRequest.tgt message) &&
  bytes_okb (TGSRequest.authenticator message) &&
  bytes_okb (TGSRequest.nonce message).

Definition json : json_message :=
  Json "TGSRequest" msg partial createBase fromJSON toJSON fromPartial create whole ok.

End Functions.
End TGSRequestJson.

Lemma kdc_TGSRequest_json `{NodeBuffer} : json_laws TGSRequestJson.json.
Proof. prove_json TGSRequestJson.json TGSRequestJson.fromJSON TGSRequestJson.toJSON TGSRequestJson.fromPartial TGSRequestJson.whole TGSRequestJson.ok. Qed.

Module TGSResponseJson.

Definition msg : Type := TGSResponse.msg number.

Definition createBase : msg := TGSResponse.Mk [] (Int 0) [] [].

Record partial := Part {
  p_tgsRep : option (list Z);
  p_ticketExpiresAtUnix : option number;
  p_scope : option ustr;
  p_serviceId : option ustr
}.

Section Functions.
Context `{NodeBuffer}.

Definition fromJSON (object : value) : result js_error msg :=
  let! x0 := set_or ["tgsRep"; "tgs_rep"] bytesFromBase64 [] object in
  let! x1 := set_or ["ticketExpiresAtUnix"; "ticket_expires_at_unix"] Number_of (Int 0) object in
  let! x2 := set_or ["scope"] String_of [] object in
  let! x3 := set_or ["serviceId"; "service_id"] String_of [] object in
  Ok (TGSResponse.Mk x0 x1 x2 x3).

Definition toJSON (message : msg) : value :=
  present [("tgsRep", nonempty (TGSResponse.tgsRep message), VStr (base64FromBytes (TGSResponse.tgsRep message)));
    ("ticketExpiresAtUnix", number_nonzero (TGSResponse.ticketExpiresAtUnix message), VNum (Math_round (TGSResponse.ticketExpiresAtUnix message)));
    ("scope", nonempty (TGSResponse.scope message), VStr (TGSResponse.scope message));
    ("serviceId", nonempty (TGSResponse.serviceId message), VStr (TGSResponse.serviceId message))].

Definition fromPartial (object : partial) : msg :=
  TGSResponse.Mk
    (default [] (p_tgsRep object))
    (default (Int 0) (p_ticketExpiresAtUnix object))
    (default [] (p_scope object))
    (default [] (p_serviceId object)).

Definition create (base : option partial) : msg :=
  fromPartial (default (Part None None None None) base).

Definition whole (message : msg) : partial :=
  Part
    (Some (TGSResponse.tgsRep message))
    (Some (TGSResponse.ticketExpiresAtUnix message))
    (Some (TGSResponse.scope message))
    (Some (TGSResponse.serviceId message)).

Definition ok (message : msg) : bool :=
  bytes_okb (TGSResponse.tgsRep message) &&
  JsNumber.whole (TGSResponse.ticketExpiresAtUnix message).

Definition json : json_message :=
  Json "TGSResponse" msg partial createBase fromJSON toJSON fromPartial create whole ok.

End Functions.
End TGSResponseJson.

Lemma kdc_TGSResponse_json `{NodeBuffer} : json_laws TGSResponseJson.json.
Proof. prove_json TGSResponseJson.json TGSResponseJson.fromJSON TGSResponseJson.toJSON TGSResponseJson.fromPartial TGSResponseJson.whole TGSResponseJson.ok. Qed.

Module ListAuditEventsRequestJson.

Definition msg : Type := ListAuditEventsRequest.msg number.

Definition createBase : msg := ListAuditEventsRequest.Mk [] [] [] [] (Int 0) (Int 0) (Int 0) (Int 0).

Record partial := Part {
  p_action : option ustr;
  p_clientId : option ustr;
  p_certSerial : option ustr;
  p_requestId : option ustr;
  p_fromUnix : option number;
  p_toUnix : option number;
  p_limit : option number;
  p_offset : option number
}.

Section Functions.
Context `{NodeBuffer}.

Definition fromJSON (object : value) : result js_error msg :=
  let! x0 := set_or ["action"] String_of [] object in
  let! x1 := set_or ["clientId"; "client_id"] String_of [] object in
  let! x2 := set_or ["certSerial"; "cert_serial"] String_of [] object in
  let! x3 := set_or ["requestId"; "request_id"] String_of [] object in
  let! x4 := set_or ["fromUnix"; "from_unix"] Number_of (Int 0) object in
  let! x5 := set_or ["toUnix"; "to_unix"] Number_of (Int 0) object in
  let! x6 := set_or ["limit"] Number_of (Int 0) object in
  let! x7 := set_or ["offset"] Number_of (Int 0) object in
  Ok (ListAuditEventsRequest.Mk x0 x1 x2 x3 x4 x5 x6 x7).

Definition toJSON (message : msg) : value :=
  present [("action", nonempty (ListAuditEventsRequest.action message), VStr (ListAuditEventsRequest.action message));
    ("clientId", nonempty (ListAuditEventsRequest.clientId message), VStr (ListAuditEventsRequest.clientId message));
    ("certSerial", nonempty (ListAuditEventsRequest.certSerial message), VStr (ListAuditEventsRequest.certSerial message));
    ("requestId", nonempty (ListAuditEventsRequest.requestId message), VStr (ListAuditEventsRequest.requestId message));
    ("fromUnix", number_nonzero (ListAuditEventsRequest.fromUnix message), VNum (Math_round (ListAuditEventsRequest.fromUnix message)));
    ("toUnix", number_nonzero (ListAuditEventsRequest.toUnix message), VNum (Math_round (ListAuditEventsRequest.toUnix message)));
    ("limit", number_nonzero (ListAuditEventsRequest.limit message), VNum (Math_round (ListAuditEventsRequest.limit message)));
    ("offset", number_nonzero (ListAuditEventsRequest.offset message), VNum (Math_round (ListAuditEventsRequest.offset message)))].

Definition fromPartial (object : partial) : msg :=
  ListAuditEventsRequest.Mk
    (default [] (p_action object))
    (default [] (p_clientId object))
    (default [] (p_certSerial object))
    (default [] (p_requestId object))
    (default (Int 0) (p_fromUnix object))
    (default (Int 0) (p_toUnix object))
    (default (Int 0) (p_limit object))
    (default (Int 0) (p_offset object)).

Definition create (base : option partial) : msg :=
  fromPartial (default (Part None None None None None None None None) base).

Definition whole (message : msg) : partial :=
  Part
    (Some (ListAuditEventsRequest.action message))
    (Some (ListAuditEventsRequest.clientId message))
    (Some (ListAuditEventsRequest.certSerial message))
    (Some (ListAuditEventsRequest.requestId message))
    (Some (ListAuditEventsRequest.fromUnix message))
    (Some (ListAuditEventsRequest.toUnix message))
    (Some (ListAuditEventsRequest.limit message))
    (Some (ListAuditEventsRequest.offset message)).

Definition ok (message : msg) : bool :=
  JsNumber.whole (ListAuditEventsRequest.fromUnix message) &&
  JsNumber.whole (ListAuditEventsRequest.toUnix message) &&
  JsNumber.whole (ListAuditEventsRequest.limit message) &&
  JsNumber.whole (ListAuditEventsRequest.offset message).

Definition json : json_message :=
  Json "ListAuditEventsRequest" msg partial createBase fromJSON toJSON fromPartial create whole ok.

End Functions.
End ListAuditEventsRequestJson.

Lemma kdc_ListAuditEventsRequest_json `{NodeBuffer} : json_laws ListAuditEventsRequestJson.json.
Proof. prove_json ListAuditEventsRequestJson.json ListAuditEventsRequestJson.fromJSON ListAuditEventsRequestJson.toJSON ListAuditEventsRequestJson.fromPartial ListAuditEventsRequestJson.whole ListAuditEventsRequestJson.ok. Qed.

Module KdcAuditRecordJson.

Definition msg : Type := KdcAuditRecord.msg number.

Definition createBase : msg := KdcAuditRecord.Mk [] [] [] [] [] [] [] [] [] (Int 0).

Record partial := Part {
  p_id : option ustr;
  p_action : option ustr;
  p_clientId : option ustr;
  p_certSerial : option ustr;
  p_scope : option ustr;
  p_reason : option ustr;
  p_requestId : option ustr;
  p_ip : option ustr;
  p_metadataJson : option ustr;
  p_createdAtUnix : option number
}.

Section Functions.
Context `{NodeBuffer}.

Definition fromJSON (object : value) : result js_error msg :=
  let! x0 := set_or ["id"] String_of [] object in
  let! x1 := set_or ["action"] String_of [] object in
  let! x2 := set_or ["clientId"; "client_id"] String_of [] object in
  let! x3 := set_or ["certSerial"; "cert_serial"] String_of [] object in
  let! x4 := set_or ["scope"] String_of [] object in
  let! x5 := set_or ["reason"] String_of [] object in
  let! x6 := set_or ["requestId"; "request_id"] String_of [] object in
  let! x7 := set_or ["ip"] String_of [] object in
  let! x8 := set_or ["metadataJson"; "metadata_json"] String_of [] object in
  let! x9 := set_or ["createdAtUnix"; "created_at_unix"] Number_of (Int 0) object in
  Ok (KdcAuditRecord.Mk x0 x1 x2 x3 x4 x5 x6 x7 x8 x9).

Definition toJSON (message : msg) : value :=
  present [("id", nonempty (KdcAuditRecord.id message), VStr (KdcAuditRecord.id message));
    ("action", nonempty (KdcAuditRecord.action message), VStr (KdcAuditRecord.action message));
    ("clientId", nonempty (KdcAuditRecord.clientId message), VStr (KdcAuditRecord.clientId message));
    ("certSerial", nonempty (KdcAuditRecord.certSerial message), VStr (KdcAuditRecord.certSerial message));
    ("scope", nonempty (KdcAuditRecord.scope message), VStr (KdcAuditRecord.scope message));
    ("reason", nonempty (KdcAuditRecord.reason message), VStr (KdcAuditRecord.reason message));
    ("requestId", nonempty (KdcAuditRecord.requestId message), VStr (KdcAuditRecord.requestId message));
    ("ip", nonempty (KdcAuditRecord.ip message), VStr (KdcAuditRecord.ip message));
    ("metadataJson", nonempty (KdcAuditRecord.metadataJson message), VStr (KdcAuditRecord.metadataJson message));
    ("createdAtUnix", number_nonzero (KdcAuditRecord.createdAtUnix message), VNum (Math_round (KdcAuditRecord.createdAtUnix message)))].

Definition fromPartial (object : partial) : msg :=
  KdcAuditRecord.Mk
    (default [] (p_id object))
    (default [] (p_action object))
    (default [] (p_clientId object))
    (default [] (p_certSerial object))
    (default [] (p_scope object))
    (default [] (p_reason object))
    (default [] (p_requestId object))
    (default [] (p_ip object))
    (default [] (p_metadataJson object))
    (default (Int 0) (p_createdAtUnix object)).

Definition create (base : option partial) : msg :=
  fromPartial (default (Part None None None None None None None None None None) base).

Definition whole (message : msg) : partial :=
  Part
    (Some (KdcAuditRecord.id message))
    (Some (KdcAuditRecord.action message))
    (Some (KdcAuditRecord.clientId message))
    (Some (KdcAuditRecord.certSerial message))
    (Some (KdcAuditRecord.scope message))
    (Some (KdcAuditRecord.reason message))
    (Some (KdcAuditRecord.requestId message))
    (Some (KdcAuditRecord.ip message))
    (Some (KdcAuditRecord.metadataJson message))
    (Some (KdcAuditRecord.createdAtUnix message)).

Definition ok (message : msg) : bool :=
  JsNumber.whole (KdcAuditRecord.createdAtUnix message).

Definition json : json_message :=
  Json "KdcAuditRecord" msg partial createBase fromJSON toJSON fromPartial create whole ok.

End Functions.
End KdcAuditRecordJson.

Lemma kdc_KdcAuditRecord_json `{NodeBuffer} : json_laws KdcAuditRecordJson.json.
Proof. prove_json KdcAuditRecordJson.json KdcAuditRecordJson.fromJSON KdcAuditRecordJson.toJSON KdcAuditRecordJson.fromPartial KdcAuditRecordJson.whole KdcAuditRecordJson.ok. Qed.

#[local] Hint Extern 1 (KdcAuditRecordJson.fromJSON (KdcAuditRecordJson.toJSON _) = _) => apply (json_back KdcAuditRecordJson.json) : json.
#[local] Hint Extern 1 (KdcAuditRecordJson.fromPartial (KdcAuditRecordJson.whole _) = _) => apply (partial_back KdcAuditRecordJson.json) : json.
#[local] Hint Resolve kdc_KdcAuditRecord_json : json.

Module ListAuditEventsResponseJson.

Definition msg : Type := ListAuditEventsResponse.msg number.

Definition createBase : msg := ListAuditEventsResponse.Mk [] (Int 0) (Int 0) (Int 0).

Record partial := Part {
  p_events : option (list KdcAuditRecordJson.partial);
  p_total : option number;
  p_limit : option number;
  p_offset : option number
}.

Section Functions.
Context `{NodeBuffer}.

Definition fromJSON (object : value) : result js_error msg :=
  let! x0 := array_or ["events"] KdcAuditRecordJson.fromJSON object in
  let! x1 := set_or ["total"] Number_of (Int 0) object in
  let! x2 := set_or ["limit"] Number_of (Int 0) object in
  let! x3 := set_or ["offset"] Number_of (Int 0) object in
  Ok (ListAuditEventsResponse.Mk x0 x1 x2 x3).

Definition toJSON (message : msg) : value :=
  present [("events", nonempty (ListAuditEventsResponse.events message), VArr (map KdcAuditRecordJson.toJSON (ListAuditEventsResponse.events message)));
    ("total", number_nonzero (ListAuditEventsResponse.total message), VNum (Math_round (ListAuditEventsResponse.total message)));
    ("limit", number_nonzero (ListAuditEventsResponse.limit message), VNum (Math_round (ListAuditEventsResponse.limit message)));
    ("offset", number_nonzero (ListAuditEventsResponse.offset message), VNum (Math_round (ListAuditEventsResponse.offset message)))].

Definition fromPartial (object : partial) : msg :=
  ListAuditEventsResponse.Mk
    (default [] (map KdcAuditRecordJson.fromPartial <$> p_events object))
    (default (Int 0) (p_total object))
    (default (Int 0) (p_limit object))
    (default (Int 0) (p_offset object)).

Definition create (base : option partial) : msg :=
  fromPartial (default (Part None None None None) base).

Definition whole (message : msg) : partial :=
  Part
    (Some (map KdcAuditRecordJson.whole (ListAuditEventsResponse.events message)))
    (Some (ListAuditEventsResponse.total message))
    (Some (ListAuditEventsResponse.limit message))
    (Some (ListAuditEventsResponse.offset message)).

Definition ok (message : msg) : bool :=
  forallb KdcAuditRecordJson.ok (ListAuditEventsResponse.events message) &&
  JsNumber.whole (ListAuditEventsResponse.total message) &&
  JsNumber.whole (ListAuditEventsResponse.limit message) &&
  JsNumber.whole (ListAuditEventsResponse.offset message).

Definition json : json_message :=
  Json "ListAuditEventsResponse" msg partial createBase fromJSON toJSON fromPartial create whole ok.

End Functions.
End ListAuditEventsResponseJson.

Lemma kdc_ListAuditEventsResponse_json `{NodeBuffer} : json_laws ListAuditEventsResponseJson.json.
Proof. prove_json ListAuditEventsResponseJson.json ListAuditEventsResponseJson.fromJSON ListAuditEventsResponseJson.toJSON ListAuditEventsResponseJson.fromPartial ListAuditEventsResponseJson.whole ListAuditEventsResponseJson.ok. Qed.

Module VerifyAuditChainRequestJson.

Definition msg : Type := VerifyAuditChainRequest.t.

Definition createBase : msg := VerifyAuditChainRequest.Mk.

Record partial := Part {}.

Section Functions.
Context `{NodeBuffer}.

Definition fromJSON (object : value) : result js_error msg :=
  Ok VerifyAuditChainRequest.Mk.

Definition toJSON (message : msg) : value :=
  present [].

Definition fromPartial (object : partial) : msg :=
  VerifyAuditChainRequest.Mk.

Definition create (base : option partial) : msg :=
  fromPartial (default Part base).

Definition whole (message : msg) : partial :=
  Part.

Definition ok (message : msg) : bool :=
  true.

Definition json : json_message :=
  Json "VerifyAuditChainRequest" msg partial createBase fromJSON toJSON fromPartial create whole ok.

End Functions.
End VerifyAuditChainRequestJson.

Lemma kdc_VerifyAuditChainRequest_json `{NodeBuffer} : json_laws VerifyAuditChainRequestJson.json.
Proof. prove_json VerifyAuditChainRequestJson.json VerifyAuditChainRequestJson.fromJSON VerifyAuditChainRequestJson.toJSON VerifyAuditChainRequestJson.fromPartial VerifyAuditChainRequestJson.whole VerifyAuditChainRequestJson.ok. Qed.

Module VerifyAuditChainResponseJson.

Definition msg : Type := VerifyAuditChainResponse.msg number.

Definition createBase : msg := VerifyAuditChainResponse.Mk false (Int 0) (Int 0) [] [].

Record partial := Part {
  p_ok : option bool;
  p_checked : option number;
  p_brokenSeq : option number;
  p_brokenId : option ustr;
  p_detail : option ustr
}.

Section Functions.
Context `{NodeBuffer}.

Definition fromJSON (object : value) : result js_error msg :=
  let! x0 := set_or ["ok"] Boolean_of false object in
  let! x1 := set_or ["checked"] Number_of (Int 0) object in
  let! x2 := set_or ["brokenSeq"; "broken_seq"] Number_of (Int 0) object in
  let! x3 := set_or ["brokenId"; "broken_id"] String_of [] object in
  let! x4 := set_or ["detail"] String_of [] object in
  Ok (VerifyAuditChainResponse.Mk x0 x1 x2 x3 x4).

Definition toJSON (message : msg) : value :=
  present [("ok", VerifyAuditChainResponse.ok message, VBool (VerifyAuditChainResponse.ok message));
    ("checked", number_nonzero (VerifyAuditChainResponse.checked message), VNum (Math_round (VerifyAuditChainResponse.checked message)));
    ("brokenSeq", number_nonzero (VerifyAuditChainResponse.brokenSeq message), VNum (Math_round (VerifyAuditChainResponse.brokenSeq message)));
    ("brokenId", nonempty (VerifyAuditChainResponse.brokenId message), VStr (VerifyAuditChainResponse.brokenId message));
    ("detail", nonempty (VerifyAuditChainResponse.detail message), VStr (VerifyAuditChainResponse.detail message))].

Definition fromPartial (object : partial) : msg :=
  VerifyAuditChainResponse.Mk
    (default false (p_ok object))
    (default (Int 0) (p_checked object))
    (default (Int 0) (p_brokenSeq object))
    (default [] (p_brokenId object))
    (default [] (p_detail object)).

Definition create (base : option partial) : msg :=
  fromPartial (default (Part None None None None None) base).

Definition whole (message : msg) : partial :=
  Part
    (Some (VerifyAuditChainResponse.ok message))
    (Some (VerifyAuditChainResponse.checked message))
    (Some (VerifyAuditChainResponse.brokenSeq message))
    (Some (VerifyAuditChainResponse.brokenId message))
    (Some (VerifyAuditChainResponse.detail message)).

Definition ok (message : msg) : bool :=
  JsNumber.whole (VerifyAuditChainResponse.checked message) &&
  JsNumber.whole (VerifyAuditChainResponse.brokenSeq message).

Definition json : json_message :=
  Json "VerifyAuditChainResponse" msg partial createBase fromJSON toJSON fromPartial create whole ok.

End Functions.
End VerifyAuditChainResponseJson.

Lemma kdc_VerifyAuditChainResponse_json `{NodeBuffer} : json_laws VerifyAuditChainResponseJson.json.
Proof. prove_json VerifyAuditChainResponseJson.json VerifyAuditChainResponseJson.fromJSON VerifyAuditChainResponseJson.toJSON VerifyAuditChainResponseJson.fromPartial VerifyAuditChainResponseJson.whole VerifyAuditChainResponseJson.ok. Qed.

Module TicketPayloadJson.

Definition msg : Type := TicketPayload.msg number.

Definition createBase : msg := TicketPayload.Mk [] [] [] [] [] (Int 0) (Int 0) [] [].

Record partial := Part {
  p_ownerId : option ustr;
  p_certSn : option ustr;
  p_sessionKey : option (list Z);
  p_scope : option ustr;
  p_serviceId : option ustr;
  p_issuedAtUnix : option number;
  p_expiresAtUnix : option number;
  p_keyVersion : option ustr;
  p_ticketId : option ustr
}.

Section Functions.
Context `{NodeBuffer}.

Definition fromJSON (object : value) : result js_error msg :=
  let! x0 := set_or ["ownerId"; "owner_id"] String_of [] object in
  let! x1 := set_or ["certSn"; "cert_sn"] String_of [] object in
  let! x2 := set_or ["sessionKey"; "session_key"] bytesFromBase64 [] object in
  let! x3 := set_or ["scope"] String_of [] object in
  let! x4 := set_or ["serviceId"; "service_id"] String_of [] object in
  let! x5 := set_or ["issuedAtUnix"; "issued_at_unix"] Number_of (Int 0) object in
  let! x6 := set_or ["expiresAtUnix"; "expires_at_unix"] Number_of (Int 0) object in
  let! x7 := set_or ["keyVersion"; "key_version"] String_of [] object in
  let! x8 := set_or ["ticketId"; "ticket_id"] String_of [] object in
  Ok (TicketPayload.Mk x0 x1 x2 x3 x4 x5 x6 x7 x8).

Definition toJSON (message : msg) : value :=
  present [("ownerId", nonempty (TicketPayload.ownerId message), VStr (TicketPayload.ownerId message));
    ("certSn", nonempty (TicketPayload.certSn message), VStr (TicketPayload.certSn message));
    ("sessionKey", nonempty (TicketPayload.sessionKey message), VStr (base64FromBytes (TicketPayload.sessionKey message)));
    ("scope", nonempty (TicketPayload.scope message), VStr (TicketPayload.scope message));
    ("serviceId", nonempty (TicketPayload.serviceId message), VStr (TicketPayload.serviceId message));
    ("issuedAtUnix", number_nonzero (TicketPayload.issuedAtUnix message), VNum (Math_round (TicketPayload.issuedAtUnix message)));
    ("expiresAtUnix", number_nonzero (TicketPayload.expiresAtUnix message), VNum (Math_round (TicketPayload.expiresAtUnix message)));
    ("keyVersion", nonempty (TicketPayload.keyVersion message), VStr (TicketPayload.keyVersion message));
    ("ticketId", nonempty (TicketPayload.ticketId message), VStr (TicketPayload.ticketId message))].

Definition fromPartial (object : partial) : msg :=
  TicketPayload.Mk
    (default [] (p_ownerId object))
    (default [] (p_certSn object))
    (default [] (p_sessionKey object))
    (default [] (p_scope object))
    (default [] (p_serviceId object))
    (default (Int 0) (p_issuedAtUnix object))
    (default (Int 0) (p_expiresAtUnix object))
    (default [] (p_keyVersion object))
    (default [] (p_ticketId object)).

Definition create (base : option partial) : msg :=
  fromPartial (default (Part None None None None None None None None None) base).

Definition whole (message : msg) : partial :=
  Part
    (Some (TicketPayload.ownerId message))
    (Some (TicketPayload.certSn message))
    (Some (TicketPayload.sessionKey message))
    (Some (TicketPayload.scope message))
    (Some (TicketPayload.serviceId message))
    (Some (TicketPayload.issuedAtUnix message))
    (Some (TicketPayload.expiresAtUnix message))
    (Some (TicketPayload.keyVersion message))
    (Some (TicketPayload.ticketId message)).

Definition ok (message : msg) : bool :=
  bytes_okb (TicketPayload.sessionKey message) &&
  JsNumber.whole (TicketPayload.issuedAtUnix message) &&
  JsNumber.whole (TicketPayload.expiresAtUnix message).

Definition json : json_message :=
  Json "TicketPayload" msg partial createBase fromJSON toJSON fromPartial create whole ok.

End Functions.
End TicketPayloadJson.

Lemma kdc_TicketPayload_json `{NodeBuffer} : json_laws TicketPayloadJson.json.
Proof. prove_json TicketPayloadJson.json TicketPayloadJson.fromJSON TicketPayloadJson.toJSON TicketPayloadJson.fromPartial TicketPayloadJson.whole TicketPayloadJson.ok. Qed.

(** ** All the messages of [kdc.proto] *)

Definition kdc_json `{NodeBuffer} : list json_message :=
  [ASRequestJson.json;
   ASResponseJson.json;
   TGSRequestJson.json;
   TGSResponseJson.json;
   ListAuditEventsRequestJson.json;
   KdcAuditRecordJson.json;
   ListAuditEventsResponseJson.json;
   VerifyAuditChainRequestJson.json;
   VerifyAuditChainResponseJson.json;
   TicketPayloadJson.json].

Lemma kdc_json_laws `{NodeBuffer} : Forall json_laws kdc_json.
Proof. repeat (constructor; [eauto using kdc_ASRequest_json, kdc_ASResponse_json, kdc_TGSRequest_json, kdc_TGSResponse_json, kdc_ListAuditEventsRequest_json, kdc_KdcAuditRecord_json, kdc_ListAuditEventsResponse_json, kdc_VerifyAuditChainRequest_json, kdc_VerifyAuditChainResponse_json, kdc_TicketPayload_json|]). constructor. Qed.
