(* ===== verification/CaJson.v ===== *)
(** * The messages of the certificate authority, as JSON

    The other half of [api-gateway/src/proto/ca.ts]: [fromJSON], [toJSON],
    [fromPartial] and [create] of every message of [CaProto], and the conversions
    of its enums. A field of a partial message is [None] where it is [undefined].
    [whole] is a message with all its fields given, [ok] the messages that JSON
    carries: bytes in buffers, declared enum values, numbers without a fraction. *)

From S2P Require Import Prelude JsString Gateway UString Wire CaProto JsNumber ProtoJson.

Open Scope Z_scope.

Definition certStatusFromJSON (object : value) : Z :=
  if case_of 0 "CERT_STATUS_UNKNOWN" object then 0 else
  if case_of 1 "CERT_STATUS_ACTIVE" object then 1 else
  if case_of 2 "CERT_STATUS_REVOKED" object then 2 else
  if case_of 3 "CERT_STATUS_EXPIRED" object then 3 else
  -1.

Definition certStatusToJSON (object : Z) : string :=
  if object =? 0 then "CERT_STATUS_UNKNOWN" else
  if object =? 1 then "CERT_STATUS_ACTIVE" else
  if object =? 2 then "CERT_STATUS_REVOKED" else
  if object =? 3 then "CERT_STATUS_EXPIRED" else
  "UNRECOGNIZED".

Definition certStatus_ok : Z -> bool := one_of [0; 1; 2; 3; -1].

Lemma ca_certStatus_back n : certStatus_ok n = true ->
  certStatusFromJSON (VStr (js (certStatusToJSON n))) = n.
Proof. by_cases_of_enum. Qed.
#[local] Hint Resolve ca_certStatus_back : json.
Arguments certStatusToJSON : simpl never.
Arguments certStatus_ok : simpl never.

Definition identityRoleFromJSON (object : value) : Z :=
  if case_of 0 "IDENTITY_ROLE_UNKNOWN" object then 0 else
  if case_of 1 "IDENTITY_ROLE_CUSTOMER" object then 1 else
  if case_of 2 "IDENTITY_ROLE_BANK_ADMIN" object then 2 else
  if case_of 3 "IDENTITY_ROLE_CA_ADMIN" object then 3 else
  -1.

Definition identityRoleToJSON (object : Z) : string :=
  if object =? 0 then "IDENTITY_ROLE_UNKNOWN" else
  if object =? 1 then "IDENTITY_ROLE_CUSTOMER" else
  if object =? 2 then "IDENTITY_ROLE_BANK_ADMIN" else
  if object =? 3 then "IDENTITY_ROLE_CA_ADMIN" else
  "UNRECOGNIZED".

Definition identityRole_ok : Z -> bool := one_of [0; 1; 2; 3; -1].

Lemma ca_identityRole_back n : identityRole_ok n = true ->
  identityRoleFromJSON (VStr (js (identityRoleToJSON n))) = n.
Proof. by_cases_of_enum. Qed.
#[local] Hint Resolve ca_identityRole_back : json.
Arguments identityRoleToJSON : simpl never.
Arguments identityRole_ok : simpl never.

Module CertificateMetadataJson.

Definition msg : Type := CertificateMetadata.msg number.

Definition createBase : msg := CertificateMetadata.Mk [] [] [] [] [] 0 (Int 0) (Int 0) (Int 0) (Int 0) [] [] [] [] [] [] [] false [] [].

Record partial := Part {
  p_serialNumber : option ustr;
  p_ownerId : option ustr;
  p_subjectCn : option ustr;
  p_subjectEmail : option ustr;
  p_fingerprintSha256 : option ustr;
  p_status : option Z;
  p_notBeforeUnix : option number;
  p_notAfterUnix : option number;
  p_issuedAtUnix : option number;
  p_revokedAtUnix : option number;
  p_revocationReason : option ustr;
  p_certType : option ustr;
  p_issuerId : option ustr;
  p_issuerCommonName : option ustr;
  p_issuerSerialNumber : option ustr;
  p_chainPem : option ustr;
  p_chainFingerprints : option (list ustr);
  p_isCa : option bool;
  p_keyUsage : option (list ustr);
  p_extendedKeyUsage : option (list ustr)
}.

Section Functions.
Context `{NodeBuffer}.

Definition fromJSON (object : value) : result js_error msg :=
  let! x0 := set_or ["serialNumber"; "serial_number"] String_of [] object in
  let! x1 := set_or ["ownerId"; "owner_id"] String_of [] object in
  let! x2 := set_or ["subjectCn"; "subject_cn"] String_of [] object in
  let! x3 := set_or ["subjectEmail"; "subject_email"] String_of [] object in
  let! x4 := set_or ["fingerprintSha256"; "fingerprint_sha256"] String_of [] object in
  let! x5 := set_or ["status"] (fun v => Ok (certStatusFromJSON v)) 0 object in
  let! x6 := set_or ["notBeforeUnix"; "not_before_unix"] Number_of (Int 0) object in
  let! x7 := set_or ["notAfterUnix"; "not_after_unix"] Number_of (Int 0) object in
  let! x8 := set_or ["issuedAtUnix"; "issued_at_unix"] Number_of (Int 0) object in
  let! x9 := set_or ["revokedAtUnix"; "revoked_at_unix"] Number_of (Int 0) object in
  let! x10 := set_or ["revocationReason"; "revocation_reason"] String_of [] object in
  let! x11 := set_or ["certType"; "cert_type"] String_of [] object in
  let! x12 := set_or ["issuerId"; "issuer_id"] String_of [] object in
  let! x13 := set_or ["issuerCommonName"; "issuer_common_name"] String_of [] object in
  let! x14 := set_or ["issuerSerialNumber"; "issuer_serial_number"] String_of [] object in
  let! x15 := set_or ["chainPem"; "chain_pem"] String_of [] object in
  let! x16 := array_or ["chainFingerprints"; "chain_fingerprints"] String_of object in
  let! x17 := set_or ["isCa"; "is_ca"] Boolean_of false object in
  let! x18 := array_or ["keyUsage"; "key_usage"] String_of object in
  let! x19 := array_or ["extendedKeyUsage"; "extended_key_usage"] String_of object in
  Ok (CertificateMetadata.Mk x0 x1 x2 x3 x4 x5 x6 x7 x8 x9 x10 x11 x12 x13 x14 x15 x16 x17 x18 x19).

Definition toJSON (message : msg) : value :=
  present [("serialNumber", nonempty (CertificateMetadata.serialNumber message), VStr (CertificateMetadata.serialNumber message));
    ("ownerId", nonempty (CertificateMetadata.ownerId message), VStr (CertificateMetadata.ownerId message));
    ("subjectCn", nonempty (CertificateMetadata.subjectCn message), VStr (CertificateMetadata.subjectCn message));
    ("subjectEmail", nonempty (CertificateMetadata.subjectEmail message), VStr (CertificateMetadata.subjectEmail message));
    ("fingerprintSha256", nonempty (CertificateMetadata.fingerprintSha256 message), VStr (CertificateMetadata.fingerprintSha256 message));
    ("status", nonzero (CertificateMetadata.status message), VStr (js (certStatusToJSON (CertificateMetadata.status message))));
    ("notBeforeUnix", number_nonzero (CertificateMetadata.notBeforeUnix message), VNum (Math_round (CertificateMetadata.notBeforeUnix message)));
    ("notAfterUnix", number_nonzero (CertificateMetadata.notAfterUnix message), VNum (Math_round (CertificateMetadata.notAfterUnix message)));
    ("issuedAtUnix", number_nonzero (CertificateMetadata.issuedAtUnix message), VNum (Math_round (CertificateMetadata.issuedAtUnix message)));
    ("revokedAtUnix", number_nonzero (CertificateMetadata.revokedAtUnix message), VNum (Math_round (CertificateMetadata.revokedAtUnix message)));
    ("revocationReason", nonempty (CertificateMetadata.revocationReason message), VStr (CertificateMetadata.revocationReason message));
    ("certType", nonempty (CertificateMetadata.certType message), VStr (CertificateMetadata.certType message));
    ("issuerId", nonempty (CertificateMetadata.issuerId message), VStr (CertificateMetadata.issuerId message));
    ("issuerCommonName", nonempty (CertificateMetadata.issuerCommonName message), VStr (CertificateMetadata.issuerCommonName message));
    ("issuerSerialNumber", nonempty (CertificateMetadata.issuerSerialNumber message), VStr (CertificateMetadata.issuerSerialNumber message));
    ("chainPem", nonempty (CertificateMetadata.chainPem message), VStr (CertificateMetadata.chainPem message));
    ("chainFingerprints", nonempty (CertificateMetadata.chainFingerprints message), VArr (map VStr (CertificateMetadata.chainFingerprints message)));
    ("isCa", CertificateMetadata.isCa message, VBool (CertificateMetadata.isCa message));
    ("keyUsage", nonempty (CertificateMetadata.keyUsage message), VArr (map VStr (CertificateMetadata.keyUsage message)));
    ("extendedKeyUsage", nonempty (CertificateMetadata.extendedKeyUsage message), VArr (map VStr (CertificateMetadata.extendedKeyUsage message)))].

Definition fromPartial (object : partial) : msg :=
  CertificateMetadata.Mk
    (default [] (p_serialNumber object))
    (default [] (p_ownerId object))
    (default [] (p_subjectCn object))
    (default [] (p_subjectEmail object))
    (default [] (p_fingerprintSha256 object))
    (default 0 (p_status object))
    (default (Int 0) (p_notBeforeUnix object))
    (default (Int 0) (p_notAfterUnix object))
    (default (Int 0) (p_issuedAtUnix object))
    (default (Int 0) (p_revokedAtUnix object))
    (default [] (p_revocationReason object))
    (default [] (p_certType object))
    (default [] (p_issuerId object))
    (default [] (p_issuerCommonName object))
    (default [] (p_issuerSerialNumber object))
    (default [] (p_chainPem object))
    (default [] (p_chainFingerprints object))
    (default false (p_isCa object))
    (default [] (p_keyUsage object))
    (default [] (p_extendedKeyUsage object)).

Definition create (base : option partial) : msg :=
  fromPartial (default (Part None None None None None None None None None None None None None None None None None None None None) base).

Definition whole (message : msg) : partial :=
  Part
    (Some (CertificateMetadata.serialNumber message))
    (Some (CertificateMetadata.ownerId message))
    (Some (CertificateMetadata.subjectCn message))
    (Some (CertificateMetadata.subjectEmail message))
    (Some (CertificateMetadata.fingerprintSha256 message))
    (Some (CertificateMetadata.status message))
    (Some (CertificateMetadata.notBeforeUnix message))
    (Some (CertificateMetadata.notAfterUnix message))
    (Some (CertificateMetadata.issuedAtUnix message))
    (Some (CertificateMetadata.revokedAtUnix message))
    (Some (CertificateMetadata.revocationReason message))
    (Some (CertificateMetadata.certType message))
    (Some (CertificateMetadata.issuerId message))
    (Some (CertificateMetadata.issuerCommonName message))
    (Some (CertificateMetadata.issuerSerialNumber message))
    (Some (CertificateMetadata.chainPem message))
    (Some (CertificateMetadata.chainFingerprints message))
    (Some (CertificateMetadata.isCa message))
    (Some (CertificateMetadata.keyUsage message))
    (Some (CertificateMetadata.extendedKeyUsage message)).

Definition ok (message : msg) : bool :=
  certStatus_ok (CertificateMetadata.status message) &&
  JsNumber.whole (CertificateMetadata.notBeforeUnix message) &&
  JsNumber.whole (CertificateMetadata.notAfterUnix message) &&
  JsNumber.whole (CertificateMetadata.issuedAtUnix message) &&
  JsNumber.whole (CertificateMetadata.revokedAtUnix message).

Definition json : json_message :=
  Json "CertificateMetadata" msg partial createBase fromJSON toJSON fromPartial create whole ok.

End Functions.
End CertificateMetadataJson.

Lemma ca_CertificateMetadata_json `{NodeBuffer} : json_laws CertificateMetadataJson.json.
Proof. prove_json CertificateMetadataJson.json CertificateMetadataJson.fromJSON CertificateMetadataJson.toJSON CertificateMetadataJson.fromPartial CertificateMetadataJson.whole CertificateMetadataJson.ok. Qed.

#[local] Hint Extern 1 (CertificateMetadataJson.fromJSON (CertificateMetadataJson.toJSON _) = _) => apply (json_back CertificateMetadataJson.json) : json.
#[local] Hint Extern 1 (CertificateMetadataJson.fromPartial (CertificateMetadataJson.whole _) = _) => apply (partial_back CertificateMetadataJson.json) : json.
#[local] Hint Resolve ca_CertificateMetadata_json : json.

Module RegisterUserRequestJson.

Definition msg : Type := RegisterUserRequest.t.

Definition createBase : msg := RegisterUserRequest.Mk [] [] [] [] 0.

Record partial := Part {
  p_csrPem : option ustr;
  p_ownerId : option ustr;
  p_subjectEmail : option ustr;
  p_fullName : option ustr;
  p_role : option Z
}.

Section Functions.
Context `{NodeBuffer}.

Definition fromJSON (object : value) : result js_error msg :=
  let! x0 := set_or ["csrPem"; "csr_pem"] String_of [] object in
  let! x1 := set_or ["ownerId"; "owner_id"] String_of [] object in
  let! x2 := set_or ["subjectEmail"; "subject_email"] String_of [] object in
  let! x3 := set_or ["fullName"; "full_name"] String_of [] object in
  let! x4 := set_or ["role"] (fun v => Ok (identityRoleFromJSON v)) 0 object in
  Ok (RegisterUserRequest.Mk x0 x1 x2 x3 x4).

Definition toJSON (message : msg) : value :=
  present [("csrPem", nonempty (RegisterUserRequest.csrPem message), VStr (RegisterUserRequest.csrPem message));
    ("ownerId", nonempty (RegisterUserRequest.ownerId message), VStr (RegisterUserRequest.ownerId message));
    ("subjectEmail", nonempty (RegisterUserRequest.subjectEmail message), VStr (RegisterUserRequest.subjectEmail message));
    ("fullName", nonempty (RegisterUserRequest.fullName message), VStr (RegisterUserRequest.fullName message));
    ("role", nonzero (RegisterUserRequest.role message), VStr (js (identityRoleToJSON (RegisterUserRequest.role message))))].

Definition fromPartial (object : partial) : msg :=
  RegisterUserRequest.Mk
    (default [] (p_csrPem object))
    (default [] (p_ownerId object))
    (default [] (p_subjectEmail object))
    (default [] (p_fullName object))
    (default 0 (p_role object)).

Definition create (base : option partial) : msg :=
  fromPartial (default (Part None None None None None) base).

Definition whole (message : msg) : partial :=
  Part
    (Some (RegisterUserRequest.csrPem message))
    (Some (RegisterUserRequest.ownerId message))
    (Some (RegisterUserRequest.subjectEmail message))
    (Some (RegisterUserRequest.fullName message))
    (Some (RegisterUserRequest.role message)).

Definition ok (message : msg) : bool :=
  identityRole_ok (RegisterUserRequest.role message).

Definition json : json_message :=
  Json "RegisterUserRequest" msg partial createBase fromJSON toJSON fromPartial create whole ok.

End Functions.
End RegisterUserRequestJson.

Lemma ca_RegisterUserRequest_json `{NodeBuffer} : json_laws RegisterUserRequestJson.json.
Proof. prove_json RegisterUserRequestJson.json RegisterUserRequestJson.fromJSON RegisterUserRequestJson.toJSON RegisterUserRequestJson.fromPartial RegisterUserRequestJson.whole RegisterUserRequestJson.ok. Qed.

Module RegisterUserResponseJson.

Definition msg : Type := RegisterUserResponse.msg number.

Definition createBase : msg := RegisterUserResponse.Mk [] [] (Int 0) (Int 0) [] [] [] [] [] [] [].

Record partial := Part {
  p_certificatePem : option ustr;
  p_serialNumber : option ustr;
  p_notBeforeUnix : option number;
  p_notAfterUnix : option number;
  p_fingerprintSha256 : option ustr;
  p_certType : option ustr;
  p_issuerId : option ustr;
  p_issuerCommonName : option ustr;
  p_issuerSerialNumber : option ustr;
  p_chainPem : option ustr;
  p_chainFingerprints : option (list ustr)
}.

Section Functions.
Context `{NodeBuffer}.

Definition fromJSON (object : value) : result js_error msg :=
  let! x0 := set_or ["certificatePem"; "certificate_pem"] String_of [] object in
  let! x1 := set_or ["serialNumber"; "serial_number"] String_of [] object in
  let! x2 := set_or ["notBeforeUnix"; "not_before_unix"] Number_of (Int 0) object in
  let! x3 := set_or ["notAfterUnix"; "not_after_unix"] Number_of (Int 0) object in
  let! x4 := set_or ["fingerprintSha256"; "fingerprint_sha256"] String_of [] object in
  let! x5 := set_or ["certType"; "cert_type"] String_of [] object in
  let! x6 := set_or ["issuerId"; "issuer_id"] String_of [] object in
  let! x7 := set_or ["issuerCommonName"; "issuer_common_name"] String_of [] object in
  let! x8 := set_or ["issuerSerialNumber"; "issuer_serial_number"] String_of [] object in
  let! x9 := set_or ["chainPem"; "chain_pem"] String_of [] object in
  let! x10 := array_or ["chainFingerprints"; "chain_fingerprints"] String_of object in
  Ok (RegisterUserResponse.Mk x0 x1 x2 x3 x4 x5 x6 x7 x8 x9 x10).

Definition toJSON (message : msg) : value :=
  present [("certificatePem", nonempty (RegisterUserResponse.certificatePem message), VStr (RegisterUserResponse.certificatePem message));
    ("serialNumber", nonempty (RegisterUserResponse.serialNumber message), VStr (RegisterUserResponse.serialNumber message));
    ("notBeforeUnix", number_nonzero (RegisterUserResponse.notBeforeUnix message), VNum (Math_round (RegisterUserResponse.notBeforeUnix message)));
    ("notAfterUnix", number_nonzero (RegisterUserResponse.notAfterUnix message), VNum (Math_round (RegisterUserResponse.notAfterUnix message)));
    ("fingerprintSha256", nonempty (RegisterUserResponse.fingerprintSha256 message), VStr (RegisterUserResponse.fingerprintSha256 message));
    ("certType", nonempty (RegisterUserResponse.certType message), VStr (RegisterUserResponse.certType message));
    ("issuerId", nonempty (RegisterUserResponse.issuerId message), VStr (RegisterUserResponse.issuerId message));
    ("issuerCommonName", nonempty (RegisterUserResponse.issuerCommonName message), VStr (RegisterUserResponse.issuerCommonName message));
    ("issuerSerialNumber", nonempty (RegisterUserResponse.issuerSerialNumber message), VStr (RegisterUserResponse.issuerSerialNumber message));
    ("chainPem", nonempty (RegisterUserResponse.chainPem message), VStr (RegisterUserResponse.chainPem message));
    ("chainFingerprints", nonempty (RegisterUserResponse.chainFingerprints message), VArr (map VStr (RegisterUserResponse.chainFingerprints message)))].

Definition fromPartial (object : partial) : msg :=
  RegisterUserResponse.Mk
    (default [] (p_certificatePem object))
    (default [] (p_serialNumber object))
    (default (Int 0) (p_notBeforeUnix object))
    (default (Int 0) (p_notAfterUnix object))
    (default [] (p_fingerprintSha256 object))
    (default [] (p_certType object))
    (default [] (p_issuerId object))
    (default [] (p_issuerCommonName object))
    (default [] (p_issuerSerialNumber object))
    (default [] (p_chainPem object))
    (default [] (p_chainFingerprints object)).

Definition create (base : option partial) : msg :=
  fromPartial (default (Part None None None None None None None None None None None) base).

Definition whole (message : msg) : partial :=
  Part
    (Some (RegisterUserResponse.certificatePem message))
    (Some (RegisterUserResponse.serialNumber message))
    (Some (RegisterUserResponse.notBeforeUnix message))
    (Some (RegisterUserResponse.notAfterUnix message))
    (Some (RegisterUserResponse.fingerprintSha256 message))
    (Some (RegisterUserResponse.certType message))
    (Some (RegisterUserResponse.issuerId message))
    (Some (RegisterUserResponse.issuerCommonName message))
    (Some (RegisterUserResponse.issuerSerialNumber message))
    (Some (RegisterUserResponse.chainPem message))
    (Some (RegisterUserResponse.chainFingerprints message)).

Definition ok (message : msg) : bool :=
  JsNumber.whole (RegisterUserResponse.notBeforeUnix message) &&
  JsNumber.whole (RegisterUserResponse.notAfterUnix message).

Definition json : json_message :=
  Json "RegisterUserResponse" msg partial createBase fromJSON toJSON fromPartial create whole ok.

End Functions.
End RegisterUserResponseJson.

Lemma ca_RegisterUserResponse_json `{NodeBuffer} : json_laws RegisterUserResponseJson.json.
Proof. prove_json RegisterUserResponseJson.json RegisterUserResponseJson.fromJSON RegisterUserResponseJson.toJSON RegisterUserResponseJson.fromPartial RegisterUserResponseJson.whole RegisterUserResponseJson.ok. Qed.

Module VerifyCertificateRequestJson.

Definition msg : Type := VerifyCertificateRequest.t.

Definition createBase : msg := VerifyCertificateRequest.Mk [] [] false false.

Record partial := Part {
  p_serialNumber : option ustr;
  p_caller : option ustr;
  p_includeCertificatePem : option bool;
  p_includePublicKeyPem : option bool
}.

Section Functions.
Context `{NodeBuffer}.

Definition fromJSON (object : value) : result js_error msg :=
  let! x0 := set_or ["serialNumber"; "serial_number"] String_of [] object in
  let! x1 := set_or ["caller"] String_of [] object in
  let! x2 := set_or ["includeCertificatePem"; "include_certificate_pem"] Boolean_of false object in
  let! x3 := set_or ["includePublicKeyPem"; "include_public_key_pem"] Boolean_of false object in
  Ok (VerifyCertificateRequest.Mk x0 x1 x2 x3).

Definition toJSON (message : msg) : value :=
  present [("serialNumber", nonempty (VerifyCertificateRequest.serialNumber message), VStr (VerifyCertificateRequest.serialNumber message));
    ("caller", nonempty (VerifyCertificateRequest.caller message), VStr (VerifyCertificateRequest.caller message));
    ("includeCertificatePem", VerifyCertificateRequest.includeCertificatePem message, VBool (VerifyCertificateRequest.includeCertificatePem message));
    ("includePublicKeyPem", VerifyCertificateRequest.includePublicKeyPem message, VBool (VerifyCertificateRequest.includePublicKeyPem message))].

Definition fromPartial (object : partial) : msg :=
  VerifyCertificateRequest.Mk
    (default [] (p_serialNumber object))
    (default [] (p_caller object))
    (default false (p_includeCertificatePem object))
    (default false (p_includePublicKeyPem object)).

Definition create (base : option partial) : msg :=
  fromPartial (default (Part None None None None) base).

Definition whole (message : msg) : partial :=
  Part
    (Some (VerifyCertificateRequest.serialNumber message))
    (Some (VerifyCertificateRequest.caller message))
    (Some (VerifyCertificateRequest.includeCertificatePem message))
    (Some (VerifyCertificateRequest.includePublicKeyPem message)).

Definition ok (message : msg) : bool :=
  true.

Definition json : json_message :=
  Json "VerifyCertificateRequest" msg partial createBase fromJSON toJSON fromPartial create whole ok.

End Functions.
End VerifyCertificateRequestJson.

Lemma ca_VerifyCertificateRequest_json `{NodeBuffer} : json_laws VerifyCertificateRequestJson.json.
Proof. prove_json VerifyCertificateRequestJson.json VerifyCertificateRequestJson.fromJSON VerifyCertificateRequestJson.toJSON VerifyCertificateRequestJson.fromPartial VerifyCertificateRequestJson.whole VerifyCertificateRequestJson.ok. Qed.

Module VerifyCertificateResponseJson.

Definition msg : Type := VerifyCertificateResponse.msg number.

Definition createBase : msg := VerifyCertificateResponse.Mk 0 [] [] [] [] [] (Int 0) (Int 0) (Int 0) [] [] [] [] [] [] [] 0.

Record partial := Part {
  p_status : option Z;
  p_ownerId : option ustr;
  p_subjectEmail : option ustr;
  p_certificatePem : option ustr;
  p_publicKeyPem : option ustr;
  p_fingerprintSha256 : option ustr;
  p_notBeforeUnix : option number;
  p_notAfterUnix : option number;
  p_revokedAtUnix : option number;
  p_revocationReason : option ustr;
  p_certType : option ustr;
  p_issuerId : option ustr;
  p_issuerCommonName : option ustr;
  p_issuerSerialNumber : option ustr;
  p_chainPem : option ustr;
  p_chainFingerprints : option (list ustr);
  p_role : option Z
}.

Section Functions.
Context `{NodeBuffer}.

Definition fromJSON (object : value) : result js_error msg :=
  let! x0 := set_or ["status"] (fun v => Ok (certStatusFromJSON v)) 0 object in
  let! x1 := set_or ["ownerId"; "owner_id"] String_of [] object in
  let! x2 := set_or ["subjectEmail"; "subject_email"] String_of [] object in
  let! x3 := set_or ["certificatePem"; "certificate_pem"] String_of [] object in
  let! x4 := set_or ["publicKeyPem"; "public_key_pem"] String_of [] object in
  let! x5 := set_or ["fingerprintSha256"; "fingerprint_sha256"] String_of [] object in
  let! x6 := set_or ["notBeforeUnix"; "not_before_unix"] Number_of (Int 0) object in
  let! x7 := set_or ["notAfterUnix"; "not_after_unix"] Number_of (Int 0) object in
  let! x8 := set_or ["revokedAtUnix"; "revoked_at_unix"] Number_of (Int 0) object in
  let! x9 := set_or ["revocationReason"; "revocation_reason"] String_of [] object in
  let! x10 := set_or ["certType"; "cert_type"] String_of [] object in
  let! x11 := set_or ["issuerId"; "issuer_id"] String_of [] object in
  let! x12 := set_or ["issuerCommonName"; "issuer_common_name"] String_of [] object in
  let! x13 := set_or ["issuerSerialNumber"; "issuer_serial_number"] String_of [] object in
  let! x14 := set_or ["chainPem"; "chain_pem"] String_of [] object in
  let! x15 := array_or ["chainFingerprints"; "chain_fingerprints"] String_of object in
  let! x16 := set_or ["role"] (fun v => Ok (identityRoleFromJSON v)) 0 object in
  Ok (VerifyCertificateResponse.Mk x0 x1 x2 x3 x4 x5 x6 x7 x8 x9 x10 x11 x12 x13 x14 x15 x16).

Definition toJSON (message : msg) : value :=
  present [("status", nonzero (VerifyCertificateResponse.status message), VStr (js (certStatusToJSON (VerifyCertificateResponse.status message))));
    ("ownerId", nonempty (VerifyCertificateResponse.ownerId message), VStr (VerifyCertificateResponse.ownerId message));
    ("subjectEmail", nonempty (VerifyCertificateResponse.subjectEmail message), VStr (VerifyCertificateResponse.subjectEmail message));
    ("certificatePem", nonempty (VerifyCertificateResponse.certificatePem message), VStr (VerifyCertificateResponse.certificatePem message));
    ("publicKeyPem", nonempty (VerifyCertificateResponse.publicKeyPem message), VStr (VerifyCertificateResponse.publicKeyPem message));
    ("fingerprintSha256", nonempty (VerifyCertificateResponse.fingerprintSha256 message), VStr (VerifyCertificateResponse.fingerprintSha256 message));
    ("notBeforeUnix", number_nonzero (VerifyCertificateResponse.notBeforeUnix message), VNum (Math_round (VerifyCertificateResponse.notBeforeUnix message)));
    ("notAfterUnix", number_nonzero (VerifyCertificateResponse.notAfterUnix message), VNum (Math_round (VerifyCertificateResponse.notAfterUnix message)));
    ("revokedAtUnix", number_nonzero (VerifyCertificateResponse.revokedAtUnix message), VNum (Math_round (VerifyCertificateResponse.revokedAtUnix message)));
    ("revocationReason", nonempty (VerifyCertificateResponse.revocationReason message), VStr (VerifyCertificateResponse.revocationReason message));
    ("certType", nonempty (VerifyCertificateResponse.certType message), VStr (VerifyCertificateResponse.certType message));
    ("issuerId", nonempty (VerifyCertificateResponse.issuerId message), VStr (VerifyCertificateResponse.issuerId message));
    ("issuerCommonName", nonempty (VerifyCertificateResponse.issuerCommonName message), VStr (VerifyCertificateResponse.issuerCommonName message));
    ("issuerSerialNumber", nonempty (VerifyCertificateResponse.issuerSerialNumber message), VStr (VerifyCertificateResponse.issuerSerialNumber message));
    ("chainPem", nonempty (VerifyCertificateResponse.chainPem message), VStr (VerifyCertificateResponse.chainPem message));
    ("chainFingerprints", nonempty (VerifyCertificateResponse.chainFingerprints message), VArr (map VStr (VerifyCertificateResponse.chainFingerprints message)));
    ("role", nonzero (VerifyCertificateResponse.role message), VStr (js (identityRoleToJSON (VerifyCertificateResponse.role message))))].

Definition fromPartial (object : partial) : msg :=
  VerifyCertificateResponse.Mk
    (default 0 (p_status object))
    (default [] (p_ownerId object))
    (default [] (p_subjectEmail object))
    (default [] (p_certificatePem object))
    (default [] (p_publicKeyPem object))
    (default [] (p_fingerprintSha256 object))
    (default (Int 0) (p_notBeforeUnix object))
    (default (Int 0) (p_notAfterUnix object))
    (default (Int 0) (p_revokedAtUnix object))
    (default [] (p_revocationReason object))
    (default [] (p_certType object))
    (default [] (p_issuerId object))
    (default [] (p_issuerCommonName object))
    (default [] (p_issuerSerialNumber object))
    (default [] (p_chainPem object))
    (default [] (p_chainFingerprints object))
    (default 0 (p_role object)).

Definition create (base : option partial) : msg :=
  fromPartial (default (Part None None None None None None None None None None None None None None None None None) base).

Definition whole (message : msg) : partial :=
  Part
    (Some (VerifyCertificateResponse.status message))
    (Some (VerifyCertificateResponse.ownerId message))
    (Some (VerifyCertificateResponse.subjectEmail message))
    (Some (VerifyCertificateResponse.certificatePem message))
    (Some (VerifyCertificateResponse.publicKeyPem message))
    (Some (VerifyCertificateResponse.fingerprintSha256 message))
    (Some (VerifyCertificateResponse.notBeforeUnix message))
    (Some (VerifyCertificateResponse.notAfterUnix message))
    (Some (VerifyCertificateResponse.revokedAtUnix message))
    (Some (VerifyCertificateResponse.revocationReason message))
    (Some (VerifyCertificateResponse.certType message))
    (Some (VerifyCertificateResponse.issuerId message))
    (Some (VerifyCertificateResponse.issuerCommonName message))
    (Some (VerifyCertificateResponse.issuerSerialNumber message))
    (Some (VerifyCertificateResponse.chainPem message))
    (Some (VerifyCertificateResponse.chainFingerprints message))
    (Some (VerifyCertificateResponse.role message)).

Definition ok (message : msg) : bool :=
  certStatus_ok (VerifyCertificateResponse.status message) &&
  JsNumber.whole (VerifyCertificateResponse.notBeforeUnix message) &&
  JsNumber.whole (VerifyCertificateResponse.notAfterUnix message) &&
  JsNumber.whole (VerifyCertificateResponse.revokedAtUnix message) &&
  identityRole_ok (VerifyCertificateResponse.role message).

Definition json : json_message :=
  Json "VerifyCertificateResponse" msg partial createBase fromJSON toJSON fromPartial create whole ok.

End Functions.
End VerifyCertificateResponseJson.

Lemma ca_VerifyCertificateResponse_json `{NodeBuffer} : json_laws VerifyCertificateResponseJson.json.
Proof. prove_json VerifyCertificateResponseJson.json VerifyCertificateResponseJson.fromJSON VerifyCertificateResponseJson.toJSON VerifyCertificateResponseJson.fromPartial VerifyCertificateResponseJson.whole VerifyCertificateResponseJson.ok. Qed.

Module GetCertificateRequestJson.

Definition msg : Type := GetCertificateRequest.t.

Definition createBase : msg := GetCertificateRequest.Mk [].

Record partial := Part {
  p_serialNumber : option ustr
}.

Section Functions.
Context `{NodeBuffer}.

Definition fromJSON (object : value) : result js_error msg :=
  let! x0 := set_or ["serialNumber"; "serial_number"] String_of [] object in
  Ok (GetCertificateRequest.Mk x0).

Definition toJSON (message : msg) : value :=
  present [("serialNumber", nonempty (GetCertificateRequest.serialNumber message), VStr (GetCertificateRequest.serialNumber message))].

Definition fromPartial (object : partial) : msg :=
  GetCertificateRequest.Mk
    (default [] (p_serialNumber object)).

Definition create (base : option partial) : msg :=
  fromPartial (default (Part None) base).

Definition whole (message : msg) : partial :=
  Part
    (Some (GetCertificateRequest.serialNumber message)).

Definition ok (message : msg) : bool :=
  true.

Definition json : json_message :=
  Json "GetCertificateRequest" msg partial createBase fromJSON toJSON fromPartial create whole ok.

End Functions.
End GetCertificateRequestJson.

Lemma ca_GetCertificateRequest_json `{NodeBuffer} : json_laws GetCertificateRequestJson.json.
Proof. prove_json GetCertificateRequestJson.json GetCertificateRequestJson.fromJSON GetCertificateRequestJson.toJSON GetCertificateRequestJson.fromPartial GetCertificateRequestJson.whole GetCertificateRequestJson.ok. Qed.

Module GetCertificateResponseJson.

Definition msg : Type := GetCertificateResponse.msg number.

Definition createBase : msg := GetCertificateResponse.Mk [] [] 0 (Int 0) [].

Record partial := Part {
  p_certificatePem : option ustr;
  p_ownerId : option ustr;
  p_status : option Z;
  p_notAfterUnix : option number;
  p_publicKeyPem : option ustr
}.

Section Functions.
Context `{NodeBuffer}.

Definition fromJSON (object : value) : result js_error msg :=
  let! x0 := set_or ["certificatePem"; "certificate_pem"] String_of [] object in
  let! x1 := set_or ["ownerId"; "owner_id"] String_of [] object in
  let! x2 := set_or ["status"] (fun v => Ok (certStatusFromJSON v)) 0 object in
  let! x3 := set_or ["notAfterUnix"; "not_after_unix"] Number_of (Int 0) object in
  let! x4 := set_or ["publicKeyPem"; "public_key_pem"] String_of [] object in
  Ok (GetCertificateResponse.Mk x0 x1 x2 x3 x4).

Definition toJSON (message : msg) : value :=
  present [("certificatePem", nonempty (GetCertificateResponse.certificatePem message), VStr (GetCertificateResponse.certificatePem message));
    ("ownerId", nonempty (GetCertificateResponse.ownerId message), VStr (GetCertificateResponse.ownerId message));
    ("status", nonzero (GetCertificateResponse.status message), VStr (js (certStatusToJSON (GetCertificateResponse.status message))));
    ("notAfterUnix", number_nonzero (GetCertificateResponse.notAfterUnix message), VNum (Math_round (GetCertificateResponse.notAfterUnix message)));
    ("publicKeyPem", nonempty (GetCertificateResponse.publicKeyPem message), VStr (GetCertificateResponse.publicKeyPem message))].

Definition fromPartial (object : partial) : msg :=
  GetCertificateResponse.Mk
    (default [] (p_certificatePem object))
    (default [] (p_ownerId object))
    (default 0 (p_status object))
    (default (Int 0) (p_notAfterUnix object))
    (default [] (p_publicKeyPem object)).

Definition create (base : option partial) : msg :=
  fromPartial (default (Part None None None None None) base).

Definition whole (message : msg) : partial :=
  Part
    (Some (GetCertificateResponse.certificatePem message))
    (Some (GetCertificateResponse.ownerId message))
    (Some (GetCertificateResponse.status message))
    (Some (GetCertificateResponse.notAfterUnix message))
    (Some (GetCertificateResponse.publicKeyPem message)).

Definition ok (message : msg) : bool :=
  certStatus_ok (GetCertificateResponse.status message) &&
  JsNumber.whole (GetCertificateResponse.notAfterUnix message).

Definition json : json_message :=
  Json "GetCertificateResponse" msg partial createBase fromJSON toJSON fromPartial create whole ok.

End Functions.
End GetCertificateResponseJson.

Lemma ca_GetCertificateResponse_json `{NodeBuffer} : json_laws GetCertificateResponseJson.json.
Proof. prove_json GetCertificateResponseJson.json GetCertificateResponseJson.fromJSON GetCertificateResponseJson.toJSON GetCertificateResponseJson.fromPartial GetCertificateResponseJson.whole GetCertificateResponseJson.ok. Qed.

Module CheckRevocationRequestJson.

Definition msg : Type := CheckRevocationRequest.t.

Definition createBase : msg := CheckRevocationRequest.Mk [].

Record partial := Part {
  p_serialNumber : option ustr
}.

Section Functions.
Context `{NodeBuffer}.

Definition fromJSON (object : value) : result js_error msg :=
  let! x0 := set_or ["serialNumber"; "serial_number"] String_of [] object in
  Ok (CheckRevocationRequest.Mk x0).

Definition toJSON (message : msg) : value :=
  present [("serialNumber", nonempty (CheckRevocationRequest.serialNumber message), VStr (CheckRevocationRequest.serialNumber message))].

Definition fromPartial (object : partial) : msg :=
  CheckRevocationRequest.Mk
    (default [] (p_serialNumber object)).

Definition create (base : option partial) : msg :=
  fromPartial (default (Part None) base).

Definition whole (message : msg) : partial :=
  Part
    (Some (CheckRevocationRequest.serialNumber message)).

Definition ok (message : msg) : bool :=
  true.

Definition json : json_message :=
  Json "CheckRevocationRequest" msg partial createBase fromJSON toJSON fromPartial create whole ok.

End Functions.
End CheckRevocationRequestJson.

Lemma ca_CheckRevocationRequest_json `{NodeBuffer} : json_laws CheckRevocationRequestJson.json.
Proof. prove_json CheckRevocationRequestJson.json CheckRevocationRequestJson.fromJSON CheckRevocationRequestJson.toJSON CheckRevocationRequestJson.fromPartial CheckRevocationRequestJson.whole CheckRevocationRequestJson.ok. Qed.

Module CheckRevocationResponseJson.

Definition msg : Type := CheckRevocationResponse.msg number.

Definition createBase : msg := CheckRevocationResponse.Mk 0 [] (Int 0).

Record partial := Part {
  p_status : option Z;
  p_reason : option ustr;
  p_revokedAt : option number
}.

Section Functions.
Context `{NodeBuffer}.

Definition fromJSON (object : value) : result js_error msg :=
  let! x0 := set_or ["status"] (fun v => Ok (certStatusFromJSON v)) 0 object in
  let! x1 := set_or ["reason"] String_of [] object in
  let! x2 := set_or ["revokedAt"; "revoked_at"] Number_of (Int 0) object in
  Ok (CheckRevocationResponse.Mk x0 x1 x2).

Definition toJSON (message : msg) : value :=
  present [("status", nonzero (CheckRevocationResponse.status message), VStr (js (certStatusToJSON (CheckRevocationResponse.status message))));
    ("reason", nonempty (CheckRevocationResponse.reason message), VStr (CheckRevocationResponse.reason message));
    ("revokedAt", number_nonzero (CheckRevocationResponse.revokedAt message), VNum (Math_round (CheckRevocationResponse.revokedAt message)))].

Definition fromPartial (object : partial) : msg :=
  CheckRevocationResponse.Mk
    (default 0 (p_status object))
    (default [] (p_reason object))
    (default (Int 0) (p_revokedAt object)).

Definition create (base : option partial) : msg :=
  fromPartial (default (Part None None None) base).

Definition whole (message : msg) : partial :=
  Part
    (Some (CheckRevocationResponse.status message))
    (Some (CheckRevocationResponse.reason message))
    (Some (CheckRevocationResponse.revokedAt message)).

Definition ok (message : msg) : bool :=
  certStatus_ok (CheckRevocationResponse.status message) &&
  JsNumber.whole (CheckRevocationResponse.revokedAt message).

Definition json : json_message :=
  Json "CheckRevocationResponse" msg partial createBase fromJSON toJSON fromPartial create whole ok.

End Functions.
End CheckRevocationResponseJson.

Lemma ca_CheckRevocationResponse_json `{NodeBuffer} : json_laws CheckRevocationResponseJson.json.
Proof. prove_json CheckRevocationResponseJson.json CheckRevocationResponseJson.fromJSON CheckRevocationResponseJson.toJSON CheckRevocationResponseJson.fromPartial CheckRevocationResponseJson.whole CheckRevocationResponseJson.ok. Qed.

Module ListCertificatesRequestJson.

Definition msg : Type := ListCertificatesRequest.msg number.

Definition createBase : msg := ListCertificatesRequest.Mk [] [] [] [] (Int 0) (Int 0) [] [] [].

Record partial := Part {
  p_status : option ustr;
  p_ownerId : option ustr;
  p_subjectEmail : option ustr;
  p_serialNumber : option ustr;
  p_limit : option number;
  p_offset : option number;
  p_performedBy : option ustr;
  p_certType : option ustr;
  p_issuerId : option ustr
}.

Section Functions.
Context `{NodeBuffer}.

Definition fromJSON (object : value) : result js_error msg :=
  let! x0 := set_or ["status"] String_of [] object in
  let! x1 := set_or ["ownerId"; "owner_id"] String_of [] object in
  let! x2 := set_or ["subjectEmail"; "subject_email"] String_of [] object in
  let! x3 := set_or ["serialNumber"; "serial_number"] String_of [] object in
  let! x4 := set_or ["limit"] Number_of (Int 0) object in
  let! x5 := set_or ["offset"] Number_of (Int 0) object in
  let! x6 := set_or ["performedBy"; "performed_by"] String_of [] object in
  let! x7 := set_or ["certType"; "cert_type"] String_of [] object in
  let! x8 := set_or ["issuerId"; "issuer_id"] String_of [] object in
  Ok (ListCertificatesRequest.Mk x0 x1 x2 x3 x4 x5 x6 x7 x8).

Definition toJSON (message : msg) : value :=
  present [("status", nonempty (ListCertificatesRequest.status message), VStr (ListCertificatesRequest.status message));
    ("ownerId", nonempty (ListCertificatesRequest.ownerId message), VStr (ListCertificatesRequest.ownerId message));
    ("subjectEmail", nonempty (ListCertificatesRequest.subjectEmail message), VStr (ListCertificatesRequest.subjectEmail message));
    ("serialNumber", nonempty (ListCertificatesRequest.serialNumber message), VStr (ListCertificatesRequest.serialNumber message));
    ("limit", number_nonzero (ListCertificatesRequest.limit message), VNum (Math_round (ListCertificatesRequest.limit message)));
    ("offset", number_nonzero (ListCertificatesRequest.offset message), VNum (Math_round (ListCertificatesRequest.offset message)));
    ("performedBy", nonempty (ListCertificatesRequest.performedBy message), VStr (ListCertificatesRequest.performedBy message));
    ("certType", nonempty (ListCertificatesRequest.certType message), VStr (ListCertificatesRequest.certType message));
    ("issuerId", nonempty (ListCertificatesRequest.issuerId message), VStr (ListCertificatesRequest.issuerId message))].

Definition fromPartial (object : partial) : msg :=
  ListCertificatesRequest.Mk
    (default [] (p_status object))
    (default [] (p_ownerId object))
    (default [] (p_subjectEmail object))
    (default [] (p_serialNumber object))
    (default (Int 0) (p_limit object))
    (default (Int 0) (p_offset object))
    (default [] (p_performedBy object))
    (default [] (p_certType object))
    (default [] (p_issuerId object)).

Definition create (base : option partial) : msg :=
  fromPartial (default (Part None None None None None None None None None) base).

Definition whole (message : msg) : partial :=
  Part
    (Some (ListCertificatesRequest.status message))
    (Some (ListCertificatesRequest.ownerId message))
    (Some (ListCertificatesRequest.subjectEmail message))
    (Some (ListCertificatesRequest.serialNumber message))
    (Some (ListCertificatesRequest.limit message))
    (Some (ListCertificatesRequest.offset message))
    (Some (ListCertificatesRequest.performedBy message))
    (Some (ListCertificatesRequest.certType message))
    (Some (ListCertificatesRequest.issuerId message)).

Definition ok (message : msg) : bool :=
  JsNumber.whole (ListCertificatesRequest.limit message) &&
  JsNumber.whole (ListCertificatesRequest.offset message).

Definition json : json_message :=
  Json "ListCertificatesRequest" msg partial createBase fromJSON toJSON fromPartial create whole ok.

End Functions.
End ListCertificatesRequestJson.

Lemma ca_ListCertificatesRequest_json `{NodeBuffer} : json_laws ListCertificatesRequestJson.json.
Proof. prove_json ListCertificatesRequestJson.json ListCertificatesRequestJson.fromJSON ListCertificatesRequestJson.toJSON ListCertificatesRequestJson.fromPartial ListCertificatesRequestJson.whole ListCertificatesRequestJson.ok. Qed.

Module ListCertificatesResponseJson.

Definition msg : Type := ListCertificatesResponse.msg number.

Definition createBase : msg := ListCertificatesResponse.Mk [] (Int 0) (Int 0) (Int 0).

Record partial := Part {
  p_certificates : option (list CertificateMetadataJson.partial);
  p_total : option number;
  p_limit : option number;
  p_offset : option number
}.

Section Functions.
Context `{NodeBuffer}.

Definition fromJSON (object : value) : result js_error msg :=
  let! x0 := array_or ["certificates"] CertificateMetadataJson.fromJSON object in
  let! x1 := set_or ["total"] Number_of (Int 0) object in
  let! x2 := set_or ["limit"] Number_of (Int 0) object in
  let! x3 := set_or ["offset"] Number_of (Int 0) object in
  Ok (ListCertificatesResponse.Mk x0 x1 x2 x3).

Definition toJSON (message : msg) : value :=
  present [("certificates", nonempty (ListCertificatesResponse.certificates message), VArr (map CertificateMetadataJson.toJSON (ListCertificatesResponse.certificates message)));
    ("total", number_nonzero (ListCertificatesResponse.total message), VNum (Math_round (ListCertificatesResponse.total message)));
    ("limit", number_nonzero (ListCertificatesResponse.limit message), VNum (Math_round (ListCertificatesResponse.limit message)));
    ("offset", number_nonzero (ListCertificatesResponse.offset message), VNum (Math_round (ListCertificatesResponse.offset message)))].

Definition fromPartial (object : partial) : msg :=
  ListCertificatesResponse.Mk
    (default [] (map CertificateMetadataJson.fromPartial <$> p_certificates object))
    (default (Int 0) (p_total object))
    (default (Int 0) (p_limit object))
    (default (Int 0) (p_offset object)).

Definition create (base : option partial) : msg :=
  fromPartial (default (Part None None None None) base).

Definition whole (message : msg) : partial :=
  Part
    (Some (map CertificateMetadataJson.whole (ListCertificatesResponse.certificates message)))
    (Some (ListCertificatesResponse.total message))
    (Some (ListCertificatesResponse.limit message))
    (Some (ListCertificatesResponse.offset message)).

Definition ok (message : msg) : bool :=
  forallb CertificateMetadataJson.ok (ListCertificatesResponse.certificates message) &&
  JsNumber.whole (ListCertificatesResponse.total message) &&
  JsNumber.whole (ListCertificatesResponse.limit message) &&
  JsNumber.whole (ListCertificatesResponse.offset message).

Definition json : json_message :=
  Json "ListCertificatesResponse" msg partial createBase fromJSON toJSON fromPartial create whole ok.

End Functions.
End ListCertificatesResponseJson.

Lemma ca_ListCertificatesResponse_json `{NodeBuffer} : json_laws ListCertificatesResponseJson.json.
Proof. prove_json ListCertificatesResponseJson.json ListCertificatesResponseJson.fromJSON ListCertificatesResponseJson.toJSON ListCertificatesResponseJson.fromPartial ListCertificatesResponseJson.whole ListCertificatesResponseJson.ok. Qed.

Module GetCertificateDetailRequestJson.

Definition msg : Type := GetCertificateDetailRequest.t.

Definition createBase : msg := GetCertificateDetailRequest.Mk [] [].

Record partial := Part {
  p_serialNumber : option ustr;
  p_performedBy : option ustr
}.

Section Functions.
Context `{NodeBuffer}.

Definition fromJSON (object : value) : result js_error msg :=
  let! x0 := set_or ["serialNumber"; "serial_number"] String_of [] object in
  let! x1 := set_or ["performedBy"; "performed_by"] String_of [] object in
  Ok (GetCertificateDetailRequest.Mk x0 x1).

Definition toJSON (message : msg) : value :=
  present [("serialNumber", nonempty (GetCertificateDetailRequest.serialNumber message), VStr (GetCertificateDetailRequest.serialNumber message));
    ("performedBy", nonempty (GetCertificateDetailRequest.performedBy message), VStr (GetCertificateDetailRequest.performedBy message))].

Definition fromPartial (object : partial) : msg :=
  GetCertificateDetailRequest.Mk
    (default [] (p_serialNumber object))
    (default [] (p_performedBy object)).

Definition create (base : option partial) : msg :=
  fromPartial (default (Part None None) base).

Definition whole (message : msg) : partial :=
  Part
    (Some (GetCertificateDetailRequest.serialNumber message))
    (Some (GetCertificateDetailRequest.performedBy message)).

Definition ok (message : msg) : bool :=
  true.

Definition json : json_message :=
  Json "GetCertificateDetailRequest" msg partial createBase fromJSON toJSON fromPartial create whole ok.

End Functions.
End GetCertificateDetailRequestJson.

Lemma ca_GetCertificateDetailRequest_json `{NodeBuffer} : json_laws GetCertificateDetailRequestJson.json.
Proof. prove_json GetCertificateDetailRequestJson.json GetCertificateDetailRequestJson.fromJSON GetCertificateDetailRequestJson.toJSON GetCertificateDetailRequestJson.fromPartial GetCertificateDetailRequestJson.whole GetCertificateDetailRequestJson.ok. Qed.

Module GetCertificateDetailResponseJson.

Definition msg : Type := GetCertificateDetailResponse.msg number.

Definition createBase : msg := GetCertificateDetailResponse.Mk None.

Record partial := Part {
  p_certificate : option CertificateMetadataJson.partial
}.

Section Functions.
Context `{NodeBuffer}.

Definition fromJSON (object : value) : result js_error msg :=
  let! x0 := set_or ["certificate"] (maybe CertificateMetadataJson.fromJSON) None object in
  Ok (GetCertificateDetailResponse.Mk x0).

Definition toJSON (message : msg) : value :=
  present [("certificate", opt_set (GetCertificateDetailResponse.certificate message), opt_value CertificateMetadataJson.toJSON (GetCertificateDetailResponse.certificate message))].

Definition fromPartial (object : partial) : msg :=
  GetCertificateDetailResponse.Mk
    (CertificateMetadataJson.fromPartial <$> p_certificate object).

Definition create (base : option partial) : msg :=
  fromPartial (default (Part None) base).

Definition whole (message : msg) : partial :=
  Part
    (CertificateMetadataJson.whole <$> GetCertificateDetailResponse.certificate message).

Definition ok (message : msg) : bool :=
  opt_all CertificateMetadataJson.ok (GetCertificateDetailResponse.certificate message).

Definition json : json_message :=
  Json "GetCertificateDetailResponse" msg partial createBase fromJSON toJSON fromPartial create whole ok.

End Functions.
End GetCertificateDetailResponseJson.

Lemma ca_GetCertificateDetailResponse_json `{NodeBuffer} : json_laws GetCertificateDetailResponseJson.json.
Proof. prove_json GetCertificateDetailResponseJson.json GetCertificateDetailResponseJson.fromJSON GetCertificateDetailResponseJson.toJSON GetCertificateDetailResponseJson.fromPartial GetCertificateDetailResponseJson.whole GetCertificateDetailResponseJson.ok. Qed.

Module RevokeCertificateRequestJson.

Definition msg : Type := RevokeCertificateRequest.t.

Definition createBase : msg := RevokeCertificateRequest.Mk [] [] [].

Record partial := Part {
  p_serialNumber : option ustr;
  p_reason : option ustr;
  p_performedBy : option ustr
}.

Section Functions.
Context `{NodeBuffer}.

Definition fromJSON (object : value) : result js_error msg :=
  let! x0 := set_or ["serialNumber"; "serial_number"] String_of [] object in
  let! x1 := set_or ["reason"] String_of [] object in
  let! x2 := set_or ["performedBy"; "performed_by"] String_of [] object in
  Ok (RevokeCertificateRequest.Mk x0 x1 x2).

Definition toJSON (message : msg) : value :=
  present [("serialNumber", nonempty (RevokeCertificateRequest.serialNumber message), VStr (RevokeCertificateRequest.serialNumber message));
    ("reason", nonempty (RevokeCertificateRequest.reason message), VStr (RevokeCertificateRequest.reason message));
    ("performedBy", nonempty (RevokeCertificateRequest.performedBy message), VStr (RevokeCertificateRequest.performedBy message))].

Definition fromPartial (object : partial) : msg :=
  RevokeCertificateRequest.Mk
    (default [] (p_serialNumber object))
    (default [] (p_reason object))
    (default [] (p_performedBy object)).

Definition create (base : option partial) : msg :=
  fromPartial (default (Part None None None) base).

Definition whole (message : msg) : partial :=
  Part
    (Some (RevokeCertificateRequest.serialNumber message))
    (Some (RevokeCertificateRequest.reason message))
    (Some (RevokeCertificateRequest.performedBy message)).

Definition ok (message : msg) : bool :=
  true.

Definition json : json_message :=
  Json "RevokeCertificateRequest" msg partial createBase fromJSON toJSON fromPartial create whole ok.

End Functions.
End RevokeCertificateRequestJson.

Lemma ca_RevokeCertificateRequest_json `{NodeBuffer} : json_laws RevokeCertificateRequestJson.json.
Proof. prove_json RevokeCertificateRequestJson.json RevokeCertificateRequestJson.fromJSON RevokeCertificateRequestJson.toJSON RevokeCertificateRequestJson.fromPartial RevokeCertificateRequestJson.whole RevokeCertificateRequestJson.ok. Qed.

Module RevokeCertificateResponseJson.

Definition msg : Type := RevokeCertificateResponse.msg number.

Definition createBase : msg := RevokeCertificateResponse.Mk None.

Record partial := Part {
  p_certificate : option CertificateMetadataJson.partial
}.

Section Functions.
Context `{NodeBuffer}.

Definition fromJSON (object : value) : result js_error msg :=
  let! x0 := set_or ["certificate"] (maybe CertificateMetadataJson.fromJSON) None object in
  Ok (RevokeCertificateResponse.Mk x0).

Definition toJSON (message : msg) : value :=
  present [("certificate", opt_set (RevokeCertificateResponse.certificate message), opt_value CertificateMetadataJson.toJSON (RevokeCertificateResponse.certificate message))].

Definition fromPartial (object : partial) : msg :=
  RevokeCertificateResponse.Mk
    (CertificateMetadataJson.fromPartial <$> p_certificate object).

Definition create (base : option partial) : msg :=
  fromPartial (default (Part None) base).

Definition whole (message : msg) : partial :=
  Part
    (CertificateMetadataJson.whole <$> RevokeCertificateResponse.certificate message).

Definition ok (message : msg) : bool :=
  opt_all CertificateMetadataJson.ok (RevokeCertificateResponse.certificate message).

Definition json : json_message :=
  Json "RevokeCertificateResponse" msg partial createBase fromJSON toJSON fromPartial create whole ok.

End Functions.
End RevokeCertificateResponseJson.

Lemma ca_RevokeCertificateResponse_json `{NodeBuffer} : json_laws RevokeCertificateResponseJson.json.
Proof. prove_json RevokeCertificateResponseJson.json RevokeCertificateResponseJson.fromJSON RevokeCertificateResponseJson.toJSON RevokeCertificateResponseJson.fromPartial RevokeCertificateResponseJson.whole RevokeCertificateResponseJson.ok. Qed.

Module ListAuditEventsRequestJson.

Definition msg : Type := ListAuditEventsRequest.msg number.

Definition createBase : msg := ListAuditEventsRequest.Mk [] [] [] (Int 0) (Int 0) (Int 0) (Int 0) [] [].

Record partial := Part {
  p_action : option ustr;
  p_serialNumber : option ustr;
  p_performedByFilter : option ustr;
  p_fromUnix : option number;
  p_toUnix : option number;
  p_limit : option number;
  p_offset : option number;
  p_performedBy : option ustr;
  p_requestId : option ustr
}.

Section Functions.
Context `{NodeBuffer}.

Definition fromJSON (object : value) : result js_error msg :=
  let! x0 := set_or ["action"] String_of [] object in
  let! x1 := set_or ["serialNumber"; "serial_number"] String_of [] object in
  let! x2 := set_or ["performedByFilter"; "performed_by_filter"] String_of [] object in
  let! x3 := set_or ["fromUnix"; "from_unix"] Number_of (Int 0) object in
  let! x4 := set_or ["toUnix"; "to_unix"] Number_of (Int 0) object in
  let! x5 := set_or ["limit"] Number_of (Int 0) object in
  let! x6 := set_or ["offset"] Number_of (Int 0) object in
  let! x7 := set_or ["performedBy"; "performed_by"] String_of [] object in
  let! x8 := set_or ["requestId"; "request_id"] String_of [] object in
  Ok (ListAuditEventsRequest.Mk x0 x1 x2 x3 x4 x5 x6 x7 x8).

Definition toJSON (message : msg) : value :=
  present [("action", nonempty (ListAuditEventsRequest.action message), VStr (ListAuditEventsRequest.action message));
    ("serialNumber", nonempty (ListAuditEventsRequest.serialNumber message), VStr (ListAuditEventsRequest.serialNumber message));
    ("performedByFilter", nonempty (ListAuditEventsRequest.performedByFilter message), VStr (ListAuditEventsRequest.performedByFilter message));
    ("fromUnix", number_nonzero (ListAuditEventsRequest.fromUnix message), VNum (Math_round (ListAuditEventsRequest.fromUnix message)));
    ("toUnix", number_nonzero (ListAuditEventsRequest.toUnix message), VNum (Math_round (ListAuditEventsRequest.toUnix message)));
    ("limit", number_nonzero (ListAuditEventsRequest.limit message), VNum (Math_round (ListAuditEventsRequest.limit message)));
    ("offset", number_nonzero (ListAuditEventsRequest.offset message), VNum (Math_round (ListAuditEventsRequest.offset message)));
    ("performedBy", nonempty (ListAuditEventsRequest.performedBy message), VStr (ListAuditEventsRequest.performedBy message));
    ("requestId", nonempty (ListAuditEventsRequest.requestId message), VStr (ListAuditEventsRequest.requestId message))].

Definition fromPartial (object : partial) : msg :=
  ListAuditEventsRequest.Mk
    (default [] (p_action object))
    (default [] (p_serialNumber object))
    (default [] (p_performedByFilter object))
    (default (Int 0) (p_fromUnix object))
    (default (Int 0) (p_toUnix object))
    (default (Int 0) (p_limit object))
    (default (Int 0) (p_offset object))
    (default [] (p_performedBy object))
    (default [] (p_requestId object)).

Definition create (base : option partial) : msg :=
  fromPartial (default (Part None None None None None None None None None) base).

Definition whole (message : msg) : partial :=
  Part
    (Some (ListAuditEventsRequest.action message))
    (Some (ListAuditEventsRequest.serialNumber message))
    (Some (ListAuditEventsRequest.performedByFilter message))
    (Some (ListAuditEventsRequest.fromUnix message))
    (Some (ListAuditEventsRequest.toUnix message))
    (Some (ListAuditEventsRequest.limit message))
    (Some (ListAuditEventsRequest.offset message))
    (Some (ListAuditEventsRequest.performedBy message))
    (Some (ListAuditEventsRequest.requestId message)).

Definition ok (message : msg) : bool :=
  JsNumber.whole (ListAuditEventsRequest.fromUnix message) &&
  JsNumber.whole (ListAuditEventsRequest.toUnix message) &&
  JsNumber.whole (ListAuditEventsRequest.limit message) &&
  JsNumber.whole (ListAuditEventsRequest.offset message).

Definition json : json_message :=
  Json "ListAuditEventsRequest" msg partial createBase fromJSON toJSON fromPartial create whole ok.

End Functions.
End ListAuditEventsRequestJson.

Lemma ca_ListAuditEventsRequest_json `{NodeBuffer} : json_laws ListAuditEventsRequestJson.json.
Proof. prove_json ListAuditEventsRequestJson.json ListAuditEventsRequestJson.fromJSON ListAuditEventsRequestJson.toJSON ListAuditEventsRequestJson.fromPartial ListAuditEventsRequestJson.whole ListAuditEventsRequestJson.ok. Qed.

Module AuditEventRecord_MetadataEntryJson.

Definition msg : Type := AuditEventRecord_MetadataEntry.t.

Definition createBase : msg := AuditEventRecord_MetadataEntry.Mk [] [].

Record partial := Part {
  p_key : option ustr;
  p_value : option ustr
}.

Section Functions.
Context `{NodeBuffer}.

Definition fromJSON (object : value) : result js_error msg :=
  let! x0 := set_or ["key"] String_of [] object in
  let! x1 := set_or ["value"] String_of [] object in
  Ok (AuditEventRecord_MetadataEntry.Mk x0 x1).

Definition toJSON (message : msg) : value :=
  present [("key", nonempty (AuditEventRecord_MetadataEntry.key message), VStr (AuditEventRecord_MetadataEntry.key message));
    ("value", nonempty (AuditEventRecord_MetadataEntry.value message), VStr (AuditEventRecord_MetadataEntry.value message))].

Definition fromPartial (object : partial) : msg :=
  AuditEventRecord_MetadataEntry.Mk
    (default [] (p_key object))
    (default [] (p_value object)).

Definition create (base : option partial) : msg :=
  fromPartial (default (Part None None) base).

Definition whole (message : msg) : partial :=
  Part
    (Some (AuditEventRecord_MetadataEntry.key message))
    (Some (AuditEventRecord_MetadataEntry.value message)).

Definition ok (message : msg) : bool :=
  true.

Definition json : json_message :=
  Json "AuditEventRecord_MetadataEntry" msg partial createBase fromJSON toJSON fromPartial create whole ok.

End Functions.
End AuditEventRecord_MetadataEntryJson.

Lemma ca_AuditEventRecord_MetadataEntry_json `{NodeBuffer} : json_laws AuditEventRecord_MetadataEntryJson.json.
Proof. prove_json AuditEventRecord_MetadataEntryJson.json AuditEventRecord_MetadataEntryJson.fromJSON AuditEventRecord_MetadataEntryJson.toJSON AuditEventRecord_MetadataEntryJson.fromPartial AuditEventRecord_MetadataEntryJson.whole AuditEventRecord_MetadataEntryJson.ok. Qed.

Module AuditEventRecordJson.

Definition msg : Type := AuditEventRecord.msg number.

Definition createBase : msg := AuditEventRecord.Mk [] [] [] [] (Int 0) [] [] [].

Record partial := Part {
  p_serialNumber : option ustr;
  p_action : option ustr;
  p_performedBy : option ustr;
  p_reason : option ustr;
  p_performedAtUnix : option number;
  p_metadata : option (list (ustr * option ustr));
  p_certType : option ustr;
  p_issuerId : option ustr
}.

Section Functions.
Context `{NodeBuffer}.

Definition fromJSON (object : value) : result js_error msg :=
  let! x0 := set_or ["serialNumber"; "serial_number"] String_of [] object in
  let! x1 := set_or ["action"] String_of [] object in
  let! x2 := set_or ["performedBy"; "performed_by"] String_of [] object in
  let! x3 := set_or ["reason"] String_of [] object in
  let! x4 := set_or ["performedAtUnix"; "performed_at_unix"] Number_of (Int 0) object in
  let! x5 := entries_or "metadata" object in
  let! x6 := set_or ["certType"; "cert_type"] String_of [] object in
  let! x7 := set_or ["issuerId"; "issuer_id"] String_of [] object in
  Ok (AuditEventRecord.Mk x0 x1 x2 x3 x4 x5 x6 x7).

Definition toJSON (message : msg) : value :=
  present [("serialNumber", nonempty (AuditEventRecord.serialNumber message), VStr (AuditEventRecord.serialNumber message));
    ("action", nonempty (AuditEventRecord.action message), VStr (AuditEventRecord.action message));
    ("performedBy", nonempty (AuditEventRecord.performedBy message), VStr (AuditEventRecord.performedBy message));
    ("reason", nonempty (AuditEventRecord.reason message), VStr (AuditEventRecord.reason message));
    ("performedAtUnix", number_nonzero (AuditEventRecord.performedAtUnix message), VNum (Math_round (AuditEventRecord.performedAtUnix message)));
    ("metadata", nonempty (AuditEventRecord.metadata message), entries_value (AuditEventRecord.metadata message));
    ("certType", nonempty (AuditEventRecord.certType message), VStr (AuditEventRecord.certType message));
    ("issuerId", nonempty (AuditEventRecord.issuerId message), VStr (AuditEventRecord.issuerId message))].

Definition fromPartial (object : partial) : msg :=
  AuditEventRecord.Mk
    (default [] (p_serialNumber object))
    (default [] (p_action object))
    (default [] (p_performedBy object))
    (default [] (p_reason object))
    (default (Int 0) (p_performedAtUnix object))
    (partial_entries (p_metadata object))
    (default [] (p_certType object))
    (default [] (p_issuerId object)).

Definition create (base : option partial) : msg :=
  fromPartial (default (Part None None None None None None None None) base).

Definition whole (message : msg) : partial :=
  Part
    (Some (AuditEventRecord.serialNumber message))
    (Some (AuditEventRecord.action message))
    (Some (AuditEventRecord.performedBy message))
    (Some (AuditEventRecord.reason message))
    (Some (AuditEventRecord.performedAtUnix message))
    (Some (whole_entries (AuditEventRecord.metadata message)))
    (Some (AuditEventRecord.certType message))
    (Some (AuditEventRecord.issuerId message)).

Definition ok (message : msg) : bool :=
  JsNumber.whole (AuditEventRecord.performedAtUnix message) &&
  entries_ok (AuditEventRecord.metadata message).

Definition json : json_message :=
  Json "AuditEventRecord" msg partial createBase fromJSON toJSON fromPartial create whole ok.

End Functions.
End AuditEventRecordJson.

Lemma ca_AuditEventRecord_json `{NodeBuffer} : json_laws AuditEventRecordJson.json.
Proof. prove_json AuditEventRecordJson.json AuditEventRecordJson.fromJSON AuditEventRecordJson.toJSON AuditEventRecordJson.fromPartial AuditEventRecordJson.whole AuditEventRecordJson.ok. Qed.

#[local] Hint Extern 1 (AuditEventRecordJson.fromJSON (AuditEventRecordJson.toJSON _) = _) => apply (json_back AuditEventRecordJson.json) : json.
#[local] Hint Extern 1 (AuditEventRecordJson.fromPartial (AuditEventRecordJson.whole _) = _) => apply (partial_back AuditEventRecordJson.json) : json.
#[local] Hint Resolve ca_AuditEventRecord_json : json.

Module ListAuditEventsResponseJson.

Definition msg : Type := ListAuditEventsResponse.msg number.

Definition createBase : msg := ListAuditEventsResponse.Mk [] (Int 0) (Int 0) (Int 0).

Record partial := Part {
  p_events : option (list AuditEventRecordJson.partial);
  p_total : option number;
  p_limit : option number;
  p_offset : option number
}.

Section Functions.
Context `{NodeBuffer}.

Definition fromJSON (object : value) : result js_error msg :=
  let! x0 := array_or ["events"] AuditEventRecordJson.fromJSON object in
  let! x1 := set_or ["total"] Number_of (Int 0) object in
  let! x2 := set_or ["limit"] Number_of (Int 0) object in
  let! x3 := set_or ["offset"] Number_of (Int 0) object in
  Ok (ListAuditEventsResponse.Mk x0 x1 x2 x3).

Definition toJSON (message : msg) : value :=
  present [("events", nonempty (ListAuditEventsResponse.events message), VArr (map AuditEventRecordJson.toJSON (ListAuditEventsResponse.events message)));
    ("total", number_nonzero (ListAuditEventsResponse.total message), VNum (Math_round (ListAuditEventsResponse.total message)));
    ("limit", number_nonzero (ListAuditEventsResponse.limit message), VNum (Math_round (ListAuditEventsResponse.limit message)));
    ("offset", number_nonzero (ListAuditEventsResponse.offset message), VNum (Math_round (ListAuditEventsResponse.offset message)))].

Definition fromPartial (object : partial) : msg :=
  ListAuditEventsResponse.Mk
    (default [] (map AuditEventRecordJson.fromPartial <$> p_events object))
    (default (Int 0) (p_total object))
    (default (Int 0) (p_limit object))
    (default (Int 0) (p_offset object)).

Definition create (base : option partial) : msg :=
  fromPartial (default (Part None None None None) base).

Definition whole (message : msg) : partial :=
  Part
    (Some (map AuditEventRecordJson.whole (ListAuditEventsResponse.events message)))
    (Some (ListAuditEventsResponse.total message))
    (Some (ListAuditEventsResponse.limit message))
    (Some (ListAuditEventsResponse.offset message)).

Definition ok (message : msg) : bool :=
  forallb AuditEventRecordJson.ok (ListAuditEventsResponse.events message) &&
  JsNumber.whole (ListAuditEventsResponse.total message) &&
  JsNumber.whole (ListAuditEventsResponse.limit message) &&
  JsNumber.whole (ListAuditEventsResponse.offset message).

Definition json : json_message :=
  Json "ListAuditEventsResponse" msg partial createBase fromJSON toJSON fromPartial create whole ok.

End Functions.
End ListAuditEventsResponseJson.

Lemma ca_ListAuditEventsResponse_json `{NodeBuffer} : json_laws ListAuditEventsResponseJson.json.
Proof. prove_json ListAuditEventsResponseJson.json ListAuditEventsResponseJson.fromJSON ListAuditEventsResponseJson.toJSON ListAuditEventsResponseJson.fromPartial ListAuditEventsResponseJson.whole ListAuditEventsResponseJson.ok. Qed.

Module AppendAuditEventRequest_MetadataEntryJson.

Definition msg : Type := AppendAuditEventRequest_MetadataEntry.t.

Definition createBase : msg := AppendAuditEventRequest_MetadataEntry.Mk [] [].

Record partial := Part {
  p_key : option ustr;
  p_value : option ustr
}.

Section Functions.
Context `{NodeBuffer}.

Definition fromJSON (object : value) : result js_error msg :=
  let! x0 := set_or ["key"] String_of [] object in
  let! x1 := set_or ["value"] String_of [] object in
  Ok (AppendAuditEventRequest_MetadataEntry.Mk x0 x1).

Definition toJSON (message : msg) : value :=
  present [("key", nonempty (AppendAuditEventRequest_MetadataEntry.key message), VStr (AppendAuditEventRequest_MetadataEntry.key message));
    ("value", nonempty (AppendAuditEventRequest_MetadataEntry.value message), VStr (AppendAuditEventRequest_MetadataEntry.value message))].

Definition fromPartial (object : partial) : msg :=
  AppendAuditEventRequest_MetadataEntry.Mk
    (default [] (p_key object))
    (default [] (p_value object)).

Definition create (base : option partial) : msg :=
  fromPartial (default (Part None None) base).

Definition whole (message : msg) : partial :=
  Part
    (Some (AppendAuditEventRequest_MetadataEntry.key message))
    (Some (AppendAuditEventRequest_MetadataEntry.value message)).

Definition ok (message : msg) : bool :=
  true.

Definition json : json_message :=
  Json "AppendAuditEventRequest_MetadataEntry" msg partial createBase fromJSON toJSON fromPartial create whole ok.

End Functions.
End AppendAuditEventRequest_MetadataEntryJson.

Lemma ca_AppendAuditEventRequest_MetadataEntry_json `{NodeBuffer} : json_laws AppendAuditEventRequest_MetadataEntryJson.json.
Proof. prove_json AppendAuditEventRequest_MetadataEntryJson.json AppendAuditEventRequest_MetadataEntryJson.fromJSON AppendAuditEventRequest_MetadataEntryJson.toJSON AppendAuditEventRequest_MetadataEntryJson.fromPartial AppendAuditEventRequest_MetadataEntryJson.whole AppendAuditEventRequest_MetadataEntryJson.ok. Qed.

Module AppendAuditEventRequestJson.

Definition msg : Type := AppendAuditEventRequest.t.

Definition createBase : msg := AppendAuditEventRequest.Mk [] [] [] [] [].

Record partial := Part {
  p_action : option ustr;
  p_serialNumber : option ustr;
  p_performedBy : option ustr;
  p_reason : option ustr;
  p_metadata : option (list (ustr * option ustr))
}.

Section Functions.
Context `{NodeBuffer}.

Definition fromJSON (object : value) : result js_error msg :=
  let! x0 := set_or ["action"] String_of [] object in
  let! x1 := set_or ["serialNumber"; "serial_number"] String_of [] object in
  let! x2 := set_or ["performedBy"; "performed_by"] String_of [] object in
  let! x3 := set_or ["reason"] String_of [] object in
  let! x4 := entries_or "metadata" object in
  Ok (AppendAuditEventRequest.Mk x0 x1 x2 x3 x4).

Definition toJSON (message : msg) : value :=
  present [("action", nonempty (AppendAuditEventRequest.action message), VStr (AppendAuditEventRequest.action message));
    ("serialNumber", nonempty (AppendAuditEventRequest.serialNumber message), VStr (AppendAuditEventRequest.serialNumber message));
    ("performedBy", nonempty (AppendAuditEventRequest.performedBy message), VStr (AppendAuditEventRequest.performedBy message));
    ("reason", nonempty (AppendAuditEventRequest.reason message), VStr (AppendAuditEventRequest.reason message));
    ("metadata", nonempty (AppendAuditEventRequest.metadata message), entries_value (AppendAuditEventRequest.metadata message))].

Definition fromPartial (object : partial) : msg :=
  AppendAuditEventRequest.Mk
    (default [] (p_action object))
    (default [] (p_serialNumber object))
    (default [] (p_performedBy object))
    (default [] (p_reason object))
    (partial_entries (p_metadata object)).

Definition create (base : option partial) : msg :=
  fromPartial (default (Part None None None None None) base).

Definition whole (message : msg) : partial :=
  Part
    (Some (AppendAuditEventRequest.action message))
    (Some (AppendAuditEventRequest.serialNumber message))
    (Some (AppendAuditEventRequest.performedBy message))
    (Some (AppendAuditEventRequest.reason message))
    (Some (whole_entries (AppendAuditEventRequest.metadata message))).

Definition ok (message : msg) : bool :=
  entries_ok (AppendAuditEventRequest.metadata message).

Definition json : json_message :=
  Json "AppendAuditEventRequest" msg partial createBase fromJSON toJSON fromPartial create whole ok.

End Functions.
End AppendAuditEventRequestJson.

Lemma ca_AppendAuditEventRequest_json `{NodeBuffer} : json_laws AppendAuditEventRequestJson.json.
Proof. prove_json AppendAuditEventRequestJson.json AppendAuditEventRequestJson.fromJSON AppendAuditEventRequestJson.toJSON AppendAuditEventRequestJson.fromPartial AppendAuditEventRequestJson.whole AppendAuditEventRequestJson.ok. Qed.

Module AppendAuditEventResponseJson.

Definition msg : Type := AppendAuditEventResponse.t.

Definition createBase : msg := AppendAuditEventResponse.Mk false.

Record partial := Part {
  p_recorded : option bool
}.

Section Functions.
Context `{NodeBuffer}.

Definition fromJSON (object : value) : result js_error msg :=
  let! x0 := set_or ["recorded"] Boolean_of false object in
  Ok (AppendAuditEventResponse.Mk x0).

Definition toJSON (message : msg) : value :=
  present [("recorded", AppendAuditEventResponse.recorded message, VBool (AppendAuditEventResponse.recorded message))].

Definition fromPartial (object : partial) : msg :=
  AppendAuditEventResponse.Mk
    (default false (p_recorded object)).

Definition create (base : option partial) : msg :=
  fromPartial (default (Part None) base).

Definition whole (message : msg) : partial :=
  Part
    (Some (AppendAuditEventResponse.recorded message)).

Definition ok (message : msg) : bool :=
  true.

Definition json : json_message :=
  Json "AppendAuditEventResponse" msg partial createBase fromJSON toJSON fromPartial create whole ok.

End Functions.
End AppendAuditEventResponseJson.

Lemma ca_AppendAuditEventResponse_json `{NodeBuffer} : json_laws AppendAuditEventResponseJson.json.
Proof. prove_json AppendAuditEventResponseJson.json AppendAuditEventResponseJson.fromJSON AppendAuditEventResponseJson.toJSON AppendAuditEventResponseJson.fromPartial AppendAuditEventResponseJson.whole AppendAuditEventResponseJson.ok. Qed.

Module VerifyAuditChainRequestJson.

Definition msg : Type := VerifyAuditChainRequest.t.

Definition createBase : msg := VerifyAuditChainRequest.Mk.

Record partial := Part {}.

Section Functions.
Context `{NodeBuffer}.

Definition fromJSON (object : value) : result js_error msg :=
  Ok VerifyAuditChainRequest.Mk.

Definition toJSON (message : msg) : value :=
  present [].

Definition fromPartial (object : partial) : msg :=
  VerifyAuditChainRequest.Mk.

Definition create (base : option partial) : msg :=
  fromPartial (default Part base).

Definition whole (message : msg) : partial :=
  Part.

Definition ok (message : msg) : bool :=
  true.

Definition json : json_message :=
  Json "VerifyAuditChainRequest" msg partial createBase fromJSON toJSON fromPartial create whole ok.

End Functions.
End VerifyAuditChainRequestJson.

Lemma ca_VerifyAuditChainRequest_json `{NodeBuffer} : json_laws VerifyAuditChainRequestJson.json.
Proof. prove_json VerifyAuditChainRequestJson.json VerifyAuditChainRequestJson.fromJSON VerifyAuditChainRequestJson.toJSON VerifyAuditChainRequestJson.fromPartial VerifyAuditChainRequestJson.whole VerifyAuditChainRequestJson.ok. Qed.

Module VerifyAuditChainResponseJson.

Definition msg : Type := VerifyAuditChainResponse.msg number.

Definition createBase : msg := VerifyAuditChainResponse.Mk false (Int 0) (Int 0) [] [].

Record partial := Part {
  p_ok : option bool;
  p_checked : option number;
  p_brokenSeq : option number;
  p_brokenId : option ustr;
  p_detail : option ustr
}.

Section Functions.
Context `{NodeBuffer}.

Definition fromJSON (object : value) : result js_error msg :=
  let! x0 := set_or ["ok"] Boolean_of false object in
  let! x1 := set_or ["checked"] Number_of (Int 0) object in
  let! x2 := set_or ["brokenSeq"; "broken_seq"] Number_of (Int 0) object in
  let! x3 := set_or ["brokenId"; "broken_id"] String_of [] object in
  let! x4 := set_or ["detail"] String_of [] object in
  Ok (VerifyAuditChainResponse.Mk x0 x1 x2 x3 x4).

Definition toJSON (message : msg) : value :=
  present [("ok", VerifyAuditChainResponse.ok message, VBool (VerifyAuditChainResponse.ok message));
    ("checked", number_nonzero (VerifyAuditChainResponse.checked message), VNum (Math_round (VerifyAuditChainResponse.checked message)));
    ("brokenSeq", number_nonzero (VerifyAuditChainResponse.brokenSeq message), VNum (Math_round (VerifyAuditChainResponse.brokenSeq message)));
    ("brokenId", nonempty (VerifyAuditChainResponse.brokenId message), VStr (VerifyAuditChainResponse.brokenId message));
    ("detail", nonempty (VerifyAuditChainResponse.detail message), VStr (VerifyAuditChainResponse.detail message))].

Definition fromPartial (object : partial) : msg :=
  VerifyAuditChainResponse.Mk
    (default false (p_ok object))
    (default (Int 0) (p_checked object))
    (default (Int 0) (p_brokenSeq object))
    (default [] (p_brokenId object))
    (default [] (p_detail object)).

Definition create (base : option partial) : msg :=
  fromPartial (default (Part None None None None None) base).

Definition whole (message : msg) : partial :=
  Part
    (Some (VerifyAuditChainResponse.ok message))
    (Some (VerifyAuditChainResponse.checked message))
    (Some (VerifyAuditChainResponse.brokenSeq message))
    (Some (VerifyAuditChainResponse.brokenId message))
    (Some (VerifyAuditChainResponse.detail message)).

Definition ok (message : msg) : bool :=
  JsNumber.whole (VerifyAuditChainResponse.checked message) &&
  JsNumber.whole (VerifyAuditChainResponse.brokenSeq message).

Definition json : json_message :=
  Json "VerifyAuditChainResponse" msg partial createBase fromJSON toJSON fromPartial create whole ok.

End Functions.
End VerifyAuditChainResponseJson.

Lemma ca_VerifyAuditChainResponse_json `{NodeBuffer} : json_laws VerifyAuditChainResponseJson.json.
Proof. prove_json VerifyAuditChainResponseJson.json VerifyAuditChainResponseJson.fromJSON VerifyAuditChainResponseJson.toJSON VerifyAuditChainResponseJson.fromPartial VerifyAuditChainResponseJson.whole VerifyAuditChainResponseJson.ok. Qed.

(** ** All the messages of [ca.proto] *)

Definition ca_json `{NodeBuffer} : list json_message :=
  [CertificateMetadataJson.json;
   RegisterUserRequestJson.json;
   RegisterUserResponseJson.json;
   VerifyCertificateRequestJson.json;
   VerifyCertificateResponseJson.json;
   GetCertificateRequestJson.json;
   GetCertificateResponseJson.json;
   CheckRevocationRequestJson.json;
   CheckRevocationResponseJson.json;
   ListCertificatesRequestJson.json;
   ListCertificatesResponseJson.json;
   GetCertificateDetailRequestJson.json;
   GetCertificateDetailResponseJson.json;
   RevokeCertificateRequestJson.json;
   RevokeCertificateResponseJson.json;
   ListAuditEventsRequestJson.json;
   AuditEventRecord_MetadataEntryJson.json;
   AuditEventRecordJson.json;
   ListAuditEventsResponseJson.json;
   AppendAuditEventRequest_MetadataEntryJson.json;
   AppendAuditEventRequestJson.json;
   AppendAuditEventResponseJson.json;
   VerifyAuditChainRequestJson.json;
   VerifyAuditChainResponseJson.json].

Lemma ca_json_laws `{NodeBuffer} : Forall json_laws ca_json.
Proof. repeat (constructor; [eauto using ca_CertificateMetadata_json, ca_RegisterUserRequest_json, ca_RegisterUserResponse_json, ca_VerifyCertificateRequest_json, ca_VerifyCertificateResponse_json, ca_GetCertificateRequest_json, ca_GetCertificateResponse_json, ca_CheckRevocationRequest_json, ca_CheckRevocationResponse_json, ca_ListCertificatesRequest_json, ca_ListCertificatesResponse_json, ca_GetCertificateDetailRequest_json, ca_GetCertificateDetailResponse_json, ca_RevokeCertificateRequest_json, ca_RevokeCertificateResponse_json, ca_ListAuditEventsRequest_json, ca_AuditEventRecord_MetadataEntry_json, ca_AuditEventRecord_json, ca_ListAuditEventsResponse_json, ca_AppendAuditEventRequest_MetadataEntry_json, ca_AppendAuditEventRequest_json, ca_AppendAuditEventResponse_json, ca_VerifyAuditChainRequest_json, ca_VerifyAuditChainResponse_json|]). constructor. Qed.
