(* ===== verification/BankJson.v ===== *)
(** * The messages of the bank, as JSON

    The other half of [api-gateway/src/proto/bank.ts]: [fromJSON], [toJSON],
    [fromPartial] and [create] of every message of [BankProto], and the conversions
    of its enums. A field of a partial message is [None] where it is [undefined].
    [whole] is a message with all its fields given, [ok] the messages that JSON
    carries: bytes in buffers, declared enum values, numbers without a fraction. *)

From S2P Require Import Prelude JsString Gateway UString Wire BankProto JsNumber ProtoJson.

Open Scope Z_scope.

Definition accountStatusFromJSON (object : value) : Z :=
  if case_of 0 "ACCOUNT_STATUS_UNKNOWN" object then 0 else
  if case_of 1 "ACCOUNT_STATUS_ACTIVE" object then 1 else
  if case_of 2 "ACCOUNT_STATUS_LOCKED" object then 2 else
  if case_of 3 "ACCOUNT_STATUS_FROZEN" object then 3 else
  -1.

Definition accountStatusToJSON (object : Z) : string :=
  if object =? 0 then "ACCOUNT_STATUS_UNKNOWN" else
  if object =? 1 then "ACCOUNT_STATUS_ACTIVE" else
  if object =? 2 then "ACCOUNT_STATUS_LOCKED" else
  if object =? 3 then "ACCOUNT_STATUS_FROZEN" else
  "UNRECOGNIZED".

Definition accountStatus_ok : Z -> bool := one_of [0; 1; 2; 3; -1].

Lemma bank_accountStatus_back n : accountStatus_ok n = true ->
  accountStatusFromJSON (VStr (js (accountStatusToJSON n))) = n.
Proof. by_cases_of_enum. Qed.
#[local] Hint Resolve bank_accountStatus_back : json.
Arguments accountStatusToJSON : simpl never.
Arguments accountStatus_ok : simpl never.

Definition transactionStatusFromJSON (object : value) : Z :=
  if case_of 0 "TRANSACTION_STATUS_UNKNOWN" object then 0 else
  if case_of 1 "TRANSACTION_STATUS_PENDING" object then 1 else
  if case_of 2 "TRANSACTION_STATUS_COMPLETED" object then 2 else
  if case_of 3 "TRANSACTION_STATUS_FAILED" object then 3 else
  -1.

Definition transactionStatusToJSON (object : Z) : string :=
  if object =? 0 then "TRANSACTION_STATUS_UNKNOWN" else
  if object =? 1 then "TRANSACTION_STATUS_PENDING" else
  if object =? 2 then "TRANSACTION_STATUS_COMPLETED" else
  if object =? 3 then "TRANSACTION_STATUS_FAILED" else
  "UNRECOGNIZED".

Definition transactionStatus_ok : Z -> bool := one_of [0; 1; 2; 3; -1].

Lemma bank_transactionStatus_back n : transactionStatus_ok n = true ->
  transactionStatusFromJSON (VStr (js (transactionStatusToJSON n))) = n.
Proof. by_cases_of_enum. Qed.
#[local] Hint Resolve bank_transactionStatus_back : json.
Arguments transactionStatusToJSON : simpl never.
Arguments transactionStatus_ok : simpl never.

Definition userStatusFromJSON (object : value) : Z :=
  if case_of 0 "USER_STATUS_UNKNOWN" object then 0 else
  if case_of 1 "USER_STATUS_ACTIVE" object then 1 else
  if case_of 2 "USER_STATUS_LOCKED" object then 2 else
  -1.

Definition userStatusToJSON (object : Z) : string :=
  if object =? 0 then "USER_STATUS_UNKNOWN" else
  if object =? 1 then "USER_STATUS_ACTIVE" else
  if object =? 2 then "USER_STATUS_LOCKED" else
  "UNRECOGNIZED".

Definition userStatus_ok : Z -> bool := one_of [0; 1; 2; -1].

Lemma bank_userStatus_back n : userStatus_ok n = true ->
  userStatusFromJSON (VStr (js (userStatusToJSON n))) = n.
Proof. by_cases_of_enum. Qed.
#[local] Hint Resolve bank_userStatus_back : json.
Arguments userStatusToJSON : simpl never.
Arguments userStatus_ok : simpl never.

Definition bankAuditActionFromJSON (object : value) : Z :=
  if case_of 0 "BANK_AUDIT_ACTION_UNKNOWN" object then 0 else
  if case_of 1 "BANK_AUDIT_ACTION_TRANSFER_COMPLETED" object then 1 else
  if case_of 2 "BANK_AUDIT_ACTION_TRANSFER_REJECTED" object then 2 else
  if case_of 3 "BANK_AUDIT_ACTION_REPLAY_DETECTED" object then 3 else
  if case_of 4 "BANK_AUDIT_ACTION_INVALID_SIGNATURE" object then 4 else
  if case_of 5 "BANK_AUDIT_ACTION_CERTIFICATE_REJECTED" object then 5 else
  if case_of 6 "BANK_AUDIT_ACTION_FORBIDDEN_OWNERSHIP" object then 6 else
  if case_of 7 "BANK_AUDIT_ACTION_INSUFFICIENT_FUNDS" object then 7 else
  -1.

Definition bankAuditActionToJSON (object : Z) : string :=
  if object =? 0 then "BANK_AUDIT_ACTION_UNKNOWN" else
  if object =? 1 then "BANK_AUDIT_ACTION_TRANSFER_COMPLETED" else
  if object =? 2 then "BANK_AUDIT_ACTION_TRANSFER_REJECTED" else
  if object =? 3 then "BANK_AUDIT_ACTION_REPLAY_DETECTED" else
  if object =? 4 then "BANK_AUDIT_ACTION_INVALID_SIGNATURE" else
  if object =? 5 then "BANK_AUDIT_ACTION_CERTIFICATE_REJECTED" else
  if object =? 6 then "BANK_AUDIT_ACTION_FORBIDDEN_OWNERSHIP" else
  if object =? 7 then "BANK_AUDIT_ACTION_INSUFFICIENT_FUNDS" else
  "UNRECOGNIZED".

Definition bankAuditAction_ok : Z -> bool := one_of [0; 1; 2; 3; 4; 5; 6; 7; -1].

Lemma bank_bankAuditAction_back n : bankAuditAction_ok n = true ->
  bankAuditActionFromJSON (VStr (js (bankAuditActionToJSON n))) = n.
Proof. by_cases_of_enum. Qed.
#[local] Hint Resolve bank_bankAuditAction_back : json.
Arguments bankAuditActionToJSON : simpl never.
Arguments bankAuditAction_ok : simpl never.

Module CreateUserRequestJson.

Definition msg : Type := CreateUserRequest.t.

Definition createBase : msg := CreateUserRequest.Mk [] [] [].

Record partial := Part {
  p_userId : option ustr;
  p_subjectEmail : option ustr;
  p_fullName : option ustr
}.

Section Functions.
Context `{NodeBuffer}.

Definition fromJSON (object : value) : result js_error msg :=
  let! x0 := set_or ["userId"; "user_id"] String_of [] object in
  let! x1 := set_or ["subjectEmail"; "subject_email"] String_of [] object in
  let! x2 := set_or ["fullName"; "full_name"] String_of [] object in
  Ok (CreateUserRequest.Mk x0 x1 x2).

Definition toJSON (message : msg) : value :=
  present [("userId", nonempty (CreateUserRequest.userId message), VStr (CreateUserRequest.userId message));
    ("subjectEmail", nonempty (CreateUserRequest.subjectEmail message), VStr (CreateUserRequest.subjectEmail message));
    ("fullName", nonempty (CreateUserRequest.fullName message), VStr (CreateUserRequest.fullName message))].

Definition fromPartial (object : partial) : msg :=
  CreateUserRequest.Mk
    (default [] (p_userId object))
    (default [] (p_subjectEmail object))
    (default [] (p_fullName object)).

Definition create (base : option partial) : msg :=
  fromPartial (default (Part None None None) base).

Definition whole (message : msg) : partial :=
  Part
    (Some (CreateUserRequest.userId message))
    (Some (CreateUserRequest.subjectEmail message))
    (Some (CreateUserRequest.fullName message)).

Definition ok (message : msg) : bool :=
  true.

Definition json : json_message :=
  Json "CreateUserRequest" msg partial createBase fromJSON toJSON fromPartial create whole ok.

End Functions.
End CreateUserRequestJson.

Lemma bank_CreateUserRequest_json `{NodeBuffer} : json_laws CreateUserRequestJson.json.
Proof. prove_json CreateUserRequestJson.json CreateUserRequestJson.fromJSON CreateUserRequestJson.toJSON CreateUserRequestJson.fromPartial CreateUserRequestJson.whole CreateUserRequestJson.ok. Qed.

Module CheckUserEmailRequestJson.

Definition msg : Type := CheckUserEmailRequest.t.

Definition createBase : msg := CheckUserEmailRequest.Mk [].

Record partial := Part {
  p_subjectEmail : option ustr
}.

Section Functions.
Context `{NodeBuffer}.

Definition fromJSON (object : value) : result js_error msg :=
  let! x0 := set_or ["subjectEmail"; "subject_email"] String_of [] object in
  Ok (CheckUserEmailRequest.Mk x0).

Definition toJSON (message : msg) : value :=
  present [("subjectEmail", nonempty (CheckUserEmailRequest.subjectEmail message), VStr (CheckUserEmailRequest.subjectEmail message))].

Definition fromPartial (object : partial) : msg :=
  CheckUserEmailRequest.Mk
    (default [] (p_subjectEmail object)).

Definition create (base : option partial) : msg :=
  fromPartial (default (Part None) base).

Definition whole (message : msg) : partial :=
  Part
    (Some (CheckUserEmailRequest.subjectEmail message)).

Definition ok (message : msg) : bool :=
  true.

Definition json : json_message :=
  Json "CheckUserEmailRequest" msg partial createBase fromJSON toJSON fromPartial create whole ok.

End Functions.
End CheckUserEmailRequestJson.

Lemma bank_CheckUserEmailRequest_json `{NodeBuffer} : json_laws CheckUserEmailRequestJson.json.
Proof. prove_json CheckUserEmailRequestJson.json CheckUserEmailRequestJson.fromJSON CheckUserEmailRequestJson.toJSON CheckUserEmailRequestJson.fromPartial CheckUserEmailRequestJson.whole CheckUserEmailRequestJson.ok. Qed.

Module CheckUserEmailResponseJson.

Definition msg : Type := CheckUserEmailResponse.t.

Definition createBase : msg := CheckUserEmailResponse.Mk false [] [].

Record partial := Part {
  p_exists : option bool;
  p_userId : option ustr;
  p_status : option ustr
}.

Section Functions.
Context `{NodeBuffer}.

Definition fromJSON (object : value) : result js_error msg :=
  let! x0 := set_or ["exists"] Boolean_of false object in
  let! x1 := set_or ["userId"; "user_id"] String_of [] object in
  let! x2 := set_or ["status"] String_of [] object in
  Ok (CheckUserEmailResponse.Mk x0 x1 x2).

Definition toJSON (message : msg) : value :=
  present [("exists", CheckUserEmailResponse.exists_ message, VBool (CheckUserEmailResponse.exists_ message));
    ("userId", nonempty (CheckUserEmailResponse.userId message), VStr (CheckUserEmailResponse.userId message));
    ("status", nonempty (CheckUserEmailResponse.status message), VStr (CheckUserEmailResponse.status message))].

Definition fromPartial (object : partial) : msg :=
  CheckUserEmailResponse.Mk
    (default false (p_exists object))
    (default [] (p_userId object))
    (default [] (p_status object)).

Definition create (base : option partial) : msg :=
  fromPartial (default (Part None None None) base).

Definition whole (message : msg) : partial :=
  Part
    (Some (CheckUserEmailResponse.exists_ message))
    (Some (CheckUserEmailResponse.userId message))
    (Some (CheckUserEmailResponse.status message)).

Definition ok (message : msg) : bool :=
  true.

Definition json : json_message :=
  Json "CheckUserEmailResponse" msg partial createBase fromJSON toJSON fromPartial create whole ok.

End Functions.
End CheckUserEmailResponseJson.

Lemma bank_CheckUserEmailResponse_json `{NodeBuffer} : json_laws CheckUserEmailResponseJson.json.
Proof. prove_json CheckUserEmailResponseJson.json CheckUserEmailResponseJson.fromJSON CheckUserEmailResponseJson.toJSON CheckUserEmailResponseJson.fromPartial CheckUserEmailResponseJson.whole CheckUserEmailResponseJson.ok. Qed.

Module CreateUserResponseJson.

Definition msg : Type := CreateUserResponse.msg number.

Definition createBase : msg := CreateUserResponse.Mk [] [] (Int 0).

Record partial := Part {
  p_userId : option ustr;
  p_status : option ustr;
  p_createdAtUnix : option number
}.

Section Functions.
Context `{NodeBuffer}.

Definition fromJSON (object : value) : result js_error msg :=
  let! x0 := set_or ["userId"; "user_id"] String_of [] object in
  let! x1 := set_or ["status"] String_of [] object in
  let! x2 := set_or ["createdAtUnix"; "created_at_unix"] Number_of (Int 0) object in
  Ok (CreateUserResponse.Mk x0 x1 x2).

Definition toJSON (message : msg) : value :=
  present [("userId", nonempty (CreateUserResponse.userId message), VStr (CreateUserResponse.userId message));
    ("status", nonempty (CreateUserResponse.status message), VStr (CreateUserResponse.status message));
    ("createdAtUnix", number_nonzero (CreateUserResponse.createdAtUnix message), VNum (Math_round (CreateUserResponse.createdAtUnix message)))].

Definition fromPartial (object : partial) : msg :=
  CreateUserResponse.Mk
    (default [] (p_userId object))
    (default [] (p_status object))
    (default (Int 0) (p_createdAtUnix object)).

Definition create (base : option partial) : msg :=
  fromPartial (default (Part None None None) base).

Definition whole (message : msg) : partial :=
  Part
    (Some (CreateUserResponse.userId message))
    (Some (CreateUserResponse.status message))
    (Some (CreateUserResponse.createdAtUnix message)).

Definition ok (message : msg) : bool :=
  JsNumber.whole (CreateUserResponse.createdAtUnix message).

Definition json : json_message :=
  Json "CreateUserResponse" msg partial createBase fromJSON toJSON fromPartial create whole ok.

End Functions.
End CreateUserResponseJson.

Lemma bank_CreateUserResponse_json `{NodeBuffer} : json_laws CreateUserResponseJson.json.
Proof. prove_json CreateUserResponseJson.json CreateUserResponseJson.fromJSON CreateUserResponseJson.toJSON CreateUserResponseJson.fromPartial CreateUserResponseJson.whole CreateUserResponseJson.ok. Qed.

Module TransferRequestJson.

Definition msg : Type := TransferRequest.t.

Definition createBase : msg := TransferRequest.Mk [] [] [] [].

Record partial := Part {
  p_ticketV : option (list Z);
  p_authenticator : option (list Z);
  p_cipherPayload : option (list Z);
  p_iv : option (list Z)
}.

Section Functions.
Context `{NodeBuffer}.

Definition fromJSON (object : value) : result js_error msg :=
  let! x0 := set_or ["ticketV"; "ticket_v"] bytesFromBase64 [] object in
  let! x1 := set_or ["authenticator"] bytesFromBase64 [] object in
  let! x2 := set_or ["cipherPayload"; "cipher_payload"] bytesFromBase64 [] object in
  let! x3 := set_or ["iv"] bytesFromBase64 [] object in
  Ok (TransferRequest.Mk x0 x1 x2 x3).

Definition toJSON (message : msg) : value :=
  present [("ticketV", nonempty (TransferRequest.ticketV message), VStr (base64FromBytes (TransferRequest.ticketV message)));
    ("authenticator", nonempty (TransferRequest.authenticator message), VStr (base64FromBytes (TransferRequest.authenticator message)));
    ("cipherPayload", nonempty (TransferRequest.cipherPayload message), VStr (base64FromBytes (TransferRequest.cipherPayload message)));
    ("iv", nonempty (TransferRequest.iv message), VStr (base64FromBytes (TransferRequest.iv message)))].

Definition fromPartial (object : partial) : msg :=
  TransferRequest.Mk
    (default [] (p_ticketV object))
    (default [] (p_authenticator object))
    (default [] (p_cipherPayload object))
    (default [] (p_iv object)).

Definition create (base : option partial) : msg :=
  fromPartial (default (Part None None None None) base).

Definition whole (message : msg) : partial :=
  Part
    (Some (TransferRequest.ticketV message))
    (Some (TransferRequest.authenticator message))
    (Some (TransferRequest.cipherPayload message))
    (Some (TransferRequest.iv message)).

Definition ok (message : msg) : bool :=
  bytes_okb (TransferRequest.ticketV message) &&
  bytes_okb (TransferRequest.authenticator message) &&
  bytes_okb (TransferRequest.cipherPayload message) &&
  bytes_okb (TransferRequest.iv message).

Definition json : json_message :=
  Json "TransferRequest" msg partial createBase fromJSON toJSON fromPartial create whole ok.

End Functions.
End TransferRequestJson.

Lemma bank_TransferRequest_json `{NodeBuffer} : json_laws TransferRequestJson.json.
Proof. prove_json TransferRequestJson.json TransferRequestJson.fromJSON TransferRequestJson.toJSON TransferRequestJson.fromPartial TransferRequestJson.whole TransferRequestJson.ok. Qed.

Module TransferResponseJson.

Definition msg : Type := TransferResponse.t.

Definition createBase : msg := TransferResponse.Mk [] [].

Record partial := Part {
  p_apRep : option (list Z);
  p_transactionId : option ustr
}.

Section Functions.
Context `{NodeBuffer}.

Definition fromJSON (object : value) : result js_error msg :=
  let! x0 := set_or ["apRep"; "ap_rep"] bytesFromBase64 [] object in
  let! x1 := set_or ["transactionId"; "transaction_id"] String_of [] object in
  Ok (TransferResponse.Mk x0 x1).

Definition toJSON (message : msg) : value :=
  present [("apRep", nonempty (TransferResponse.apRep message), VStr (base64FromBytes (TransferResponse.apRep message)));
    ("transactionId", nonempty (TransferResponse.transactionId message), VStr (TransferResponse.transactionId message))].

Definition fromPartial (object : partial) : msg :=
  TransferResponse.Mk
    (default [] (p_apRep object))
    (default [] (p_transactionId object)).

Definition create (base : option partial) : msg :=
  fromPartial (default (Part None None) base).

Definition whole (message : msg) : partial :=
  Part
    (Some (TransferResponse.apRep message))
    (Some (TransferResponse.transactionId message)).

Definition ok (message : msg) : bool :=
  bytes_okb (TransferResponse.apRep message).

Definition json : json_message :=
  Json "TransferResponse" msg partial createBase fromJSON toJSON fromPartial create whole ok.

End Functions.
End TransferResponseJson.

Lemma bank_TransferResponse_json `{NodeBuffer} : json_laws TransferResponseJson.json.
Proof. prove_json TransferResponseJson.json TransferResponseJson.fromJSON TransferResponseJson.toJSON TransferResponseJson.fromPartial TransferResponseJson.whole TransferResponseJson.ok. Qed.

Module BalanceRequestJson.

Definition msg : Type := BalanceRequest.t.

Definition createBase : msg := BalanceRequest.Mk [] [] [].

Record partial := Part {
  p_ticketV : option (list Z);
  p_authenticator : option (list Z);
  p_accountId : option ustr
}.

Section Functions.
Context `{NodeBuffer}.

Definition fromJSON (object : value) : result js_error msg :=
  let! x0 := set_or ["ticketV"; "ticket_v"] bytesFromBase64 [] object in
  let! x1 := set_or ["authenticator"] bytesFromBase64 [] object in
  let! x2 := set_or ["accountId"; "account_id"] String_of [] object in
  Ok (BalanceRequest.Mk x0 x1 x2).

Definition toJSON (message : msg) : value :=
  present [("ticketV", nonempty (BalanceRequest.ticketV message), VStr (base64FromBytes (BalanceRequest.ticketV message)));
    ("authenticator", nonempty (BalanceRequest.authenticator message), VStr (base64FromBytes (BalanceRequest.authenticator message)));
    ("accountId", nonempty (BalanceRequest.accountId message), VStr (BalanceRequest.accountId message))].

Definition fromPartial (object : partial) : msg :=
  BalanceRequest.Mk
    (default [] (p_ticketV object))
    (default [] (p_authenticator object))
    (default [] (p_accountId object)).

Definition create (base : option partial) : msg :=
  fromPartial (default (Part None None None) base).

Definition whole (message : msg) : partial :=
  Part
    (Some (BalanceRequest.ticketV message))
    (Some (BalanceRequest.authenticator message))
    (Some (BalanceRequest.accountId message)).

Definition ok (message : msg) : bool :=
  bytes_okb (BalanceRequest.ticketV message) &&
  bytes_okb (BalanceRequest.authenticator message).

Definition json : json_message :=
  Json "BalanceRequest" msg partial createBase fromJSON toJSON fromPartial create whole ok.

End Functions.
End BalanceRequestJson.

Lemma bank_BalanceRequest_json `{NodeBuffer} : json_laws BalanceRequestJson.json.
Proof. prove_json BalanceRequestJson.json BalanceRequestJson.fromJSON BalanceRequestJson.toJSON BalanceRequestJson.fromPartial BalanceRequestJson.whole BalanceRequestJson.ok. Qed.

Module BalanceResponseJson.

Definition msg : Type := BalanceResponse.msg number.

Definition createBase : msg := BalanceResponse.Mk [] [] [] (Int 0) [] 0.

Record partial := Part {
  p_apRep : option (list Z);
  p_accountId : option ustr;
  p_accountNumber : option ustr;
  p_balance : option number;
  p_currency : option ustr;
  p_status : option Z
}.

Section Functions.
Context `{NodeBuffer}.

Definition fromJSON (object : value) : result js_error msg :=
  let! x0 := set_or ["apRep"; "ap_rep"] bytesFromBase64 [] object in
  let! x1 := set_or ["accountId"; "account_id"] String_of [] object in
  let! x2 := set_or ["accountNumber"; "account_number"] String_of [] object in
  let! x3 := set_or ["balance"] Number_of (Int 0) object in
  let! x4 := set_or ["currency"] String_of [] object in
  let! x5 := set_or ["status"] (fun v => Ok (accountStatusFromJSON v)) 0 object in
  Ok (BalanceResponse.Mk x0 x1 x2 x3 x4 x5).

Definition toJSON (message : msg) : value :=
  present [("apRep", nonempty (BalanceResponse.apRep message), VStr (base64FromBytes (BalanceResponse.apRep message)));
    ("accountId", nonempty (BalanceResponse.accountId message), VStr (BalanceResponse.accountId message));
    ("accountNumber", nonempty (BalanceResponse.accountNumber message), VStr (BalanceResponse.accountNumber message));
    ("balance", number_nonzero (BalanceResponse.balance message), VNum (Math_round (BalanceResponse.balance message)));
    ("currency", nonempty (BalanceResponse.currency message), VStr (BalanceResponse.currency message));
    ("status", nonzero (BalanceResponse.status message), VStr (js (accountStatusToJSON (BalanceResponse.status message))))].

Definition fromPartial (object : partial) : msg :=
  BalanceResponse.Mk
    (default [] (p_apRep object))
    (default [] (p_accountId object))
    (default [] (p_accountNumber object))
    (default (Int 0) (p_balance object))
    (default [] (p_currency object))
    (default 0 (p_status object)).

Definition create (base : option partial) : msg :=
  fromPartial (default (Part None None None None None None) base).

Definition whole (message : msg) : partial :=
  Part
    (Some (BalanceResponse.apRep message))
    (Some (BalanceResponse.accountId message))
    (Some (BalanceResponse.accountNumber message))
    (Some (BalanceResponse.balance message))
    (Some (BalanceResponse.currency message))
    (Some (BalanceResponse.status message)).

Definition ok (message : msg) : bool :=
  bytes_okb (BalanceResponse.apRep message) &&
  JsNumber.whole (BalanceResponse.balance message) &&
  accountStatus_ok (BalanceResponse.status message).

Definition json : json_message :=
  Json "BalanceResponse" msg partial createBase fromJSON toJSON fromPartial create whole ok.

End Functions.
End BalanceResponseJson.

Lemma bank_BalanceResponse_json `{NodeBuffer} : json_laws BalanceResponseJson.json.
Proof. prove_json BalanceResponseJson.json BalanceResponseJson.fromJSON BalanceResponseJson.toJSON BalanceResponseJson.fromPartial BalanceResponseJson.whole BalanceResponseJson.ok. Qed.

Module HistoryRequestJson.

Definition msg : Type := HistoryRequest.msg number.

Definition createBase : msg := HistoryRequest.Mk [] [] [] (Int 0) (Int 0).

Record partial := Part {
  p_ticketV : option (list Z);
  p_authenticator : option (list Z);
  p_accountId : option ustr;
  p_limit : option number;
  p_offset : option number
}.

Section Functions.
Context `{NodeBuffer}.

Definition fromJSON (object : value) : result js_error msg :=
  let! x0 := set_or ["ticketV"; "ticket_v"] bytesFromBase64 [] object in
  let! x1 := set_or ["authenticator"] bytesFromBase64 [] object in
  let! x2 := set_or ["accountId"; "account_id"] String_of [] object in
  let! x3 := set_or ["limit"] Number_of (Int 0) object in
  let! x4 := set_or ["offset"] Number_of (Int 0) object in
  Ok (HistoryRequest.Mk x0 x1 x2 x3 x4).

Definition toJSON (message : msg) : value :=
  present [("ticketV", nonempty (HistoryRequest.ticketV message), VStr (base64FromBytes (HistoryRequest.ticketV message)));
    ("authenticator", nonempty (HistoryRequest.authenticator message), VStr (base64FromBytes (HistoryRequest.authenticator message)));
    ("accountId", nonempty (HistoryRequest.accountId message), VStr (HistoryRequest.accountId message));
    ("limit", number_nonzero (HistoryRequest.limit message), VNum (Math_round (HistoryRequest.limit message)));
    ("offset", number_nonzero (HistoryRequest.offset message), VNum (Math_round (HistoryRequest.offset message)))].

Definition fromPartial (object : partial) : msg :=
  HistoryRequest.Mk
    (default [] (p_ticketV object))
    (default [] (p_authenticator object))
    (default [] (p_accountId object))
    (default (Int 0) (p_limit object))
    (default (Int 0) (p_offset object)).

Definition create (base : option partial) : msg :=
  fromPartial (default (Part None None None None None) base).

Definition whole (message : msg) : partial :=
  Part
    (Some (HistoryRequest.ticketV message))
    (Some (HistoryRequest.authenticator message))
    (Some (HistoryRequest.accountId message))
    (Some (HistoryRequest.limit message))
    (Some (HistoryRequest.offset message)).

Definition ok (message : msg) : bool :=
  bytes_okb (HistoryRequest.ticketV message) &&
  bytes_okb (HistoryRequest.authenticator message) &&
  JsNumber.whole (HistoryRequest.limit message) &&
  JsNumber.whole (HistoryRequest.offset message).

Definition json : json_message :=
  Json "HistoryRequest" msg partial createBase fromJSON toJSON fromPartial create whole ok.

End Functions.
End HistoryRequestJson.

Lemma bank_HistoryRequest_json `{NodeBuffer} : json_laws HistoryRequestJson.json.
Proof. prove_json HistoryRequestJson.json HistoryRequestJson.fromJSON HistoryRequestJson.toJSON HistoryRequestJson.fromPartial HistoryRequestJson.whole HistoryRequestJson.ok. Qed.

Module TransactionRecordJson.

Definition msg : Type := TransactionRecord.msg number.

Definition createBase : msg := TransactionRecord.Mk [] [] [] (Int 0) [] 0 [] [] (Int 0) (Int 0).

Record partial := Part {
  p_transactionId : option ustr;
  p_fromAccountNumber : option ustr;
  p_toAccountNumber : option ustr;
  p_amount : option number;
  p_currency : option ustr;
  p_status : option Z;
  p_description : option ustr;
  p_scope : option ustr;
  p_createdAtUnix : option number;
  p_completedAtUnix : option number
}.

Section Functions.
Context `{NodeBuffer}.

Definition fromJSON (object : value) : result js_error msg :=
  let! x0 := set_or ["transactionId"; "transaction_id"] String_of [] object in
  let! x1 := set_or ["fromAccountNumber"; "from_account_number"] String_of [] object in
  let! x2 := set_or ["toAccountNumber"; "to_account_number"] String_of [] object in
  let! x3 := set_or ["amount"] Number_of (Int 0) object in
  let! x4 := set_or ["currency"] String_of [] object in
  let! x5 := set_or ["status"] (fun v => Ok (transactionStatusFromJSON v)) 0 object in
  let! x6 := set_or ["description"] String_of [] object in
  let! x7 := set_or ["scope"] String_of [] object in
  let! x8 := set_or ["createdAtUnix"; "created_at_unix"] Number_of (Int 0) object in
  let! x9 := set_or ["completedAtUnix"; "completed_at_unix"] Number_of (Int 0) object in
  Ok (TransactionRecord.Mk x0 x1 x2 x3 x4 x5 x6 x7 x8 x9).

Definition toJSON (message : msg) : value :=
  present [("transactionId", nonempty (TransactionRecord.transactionId message), VStr (TransactionRecord.transactionId message));
    ("fromAccountNumber", nonempty (TransactionRecord.fromAccountNumber message), VStr (TransactionRecord.fromAccountNumber message));
    ("toAccountNumber", nonempty (TransactionRecord.toAccountNumber message), VStr (TransactionRecord.toAccountNumber message));
    ("amount", number_nonzero (TransactionRecord.amount message), VNum (Math_round (TransactionRecord.amount message)));
    ("currency", nonempty (TransactionRecord.currency message), VStr (TransactionRecord.currency message));
    ("status", nonzero (TransactionRecord.status message), VStr (js (transactionStatusToJSON (TransactionRecord.status message))));
    ("description", nonempty (TransactionRecord.description message), VStr (TransactionRecord.description message));
    ("scope", nonempty (TransactionRecord.scope message), VStr (TransactionRecord.scope message));
    ("createdAtUnix", number_nonzero (TransactionRecord.createdAtUnix message), VNum (Math_round (TransactionRecord.createdAtUnix message)));
    ("completedAtUnix", number_nonzero (TransactionRecord.completedAtUnix message), VNum (Math_round (TransactionRecord.completedAtUnix message)))].

Definition fromPartial (object : partial) : msg :=
  TransactionRecord.Mk
    (default [] (p_transactionId object))
    (default [] (p_fromAccountNumber object))
    (default [] (p_toAccountNumber object))
    (default (Int 0) (p_amount object))
    (default [] (p_currency object))
    (default 0 (p_status object))
    (default [] (p_description object))
    (default [] (p_scope object))
    (default (Int 0) (p_createdAtUnix object))
    (default (Int 0) (p_completedAtUnix object)).

Definition create (base : option partial) : msg :=
  fromPartial (default (Part None None None None None None None None None None) base).

Definition whole (message : msg) : partial :=
  Part
    (Some (TransactionRecord.transactionId message))
    (Some (TransactionRecord.fromAccountNumber message))
    (Some (TransactionRecord.toAccountNumber message))
    (Some (TransactionRecord.amount message))
    (Some (TransactionRecord.currency message))
    (Some (TransactionRecord.status message))
    (Some (TransactionRecord.description message))
    (Some (TransactionRecord.scope message))
    (Some (TransactionRecord.createdAtUnix message))
    (Some (TransactionRecord.completedAtUnix message)).

Definition ok (message : msg) : bool :=
  JsNumber.whole (TransactionRecord.amount message) &&
  transactionStatus_ok (TransactionRecord.status message) &&
  JsNumber.whole (TransactionRecord.createdAtUnix message) &&
  JsNumber.whole (TransactionRecord.completedAtUnix message).

Definition json : json_message :=
  Json "TransactionRecord" msg partial createBase fromJSON toJSON fromPartial create whole ok.

End Functions.
End TransactionRecordJson.

Lemma bank_TransactionRecord_json `{NodeBuffer} : json_laws TransactionRecordJson.json.
Proof. prove_json TransactionRecordJson.json TransactionRecordJson.fromJSON TransactionRecordJson.toJSON TransactionRecordJson.fromPartial TransactionRecordJson.whole TransactionRecordJson.ok. Qed.

#[local] Hint Extern 1 (TransactionRecordJson.fromJSON (TransactionRecordJson.toJSON _) = _) => apply (json_back TransactionRecordJson.json) : json.
#[local] Hint Extern 1 (TransactionRecordJson.fromPartial (TransactionRecordJson.whole _) = _) => apply (partial_back TransactionRecordJson.json) : json.
#[local] Hint Resolve bank_TransactionRecord_json : json.

Module HistoryResponseJson.

Definition msg : Type := HistoryResponse.msg number.

Definition createBase : msg := HistoryResponse.Mk [] [] (Int 0) (Int 0) (Int 0).

Record partial := Part {
  p_apRep : option (list Z);
  p_transactions : option (list TransactionRecordJson.partial);
  p_total : option number;
  p_limit : option number;
  p_offset : option number
}.

Section Functions.
Context `{NodeBuffer}.

Definition fromJSON (object : value) : result js_error msg :=
  let! x0 := set_or ["apRep"; "ap_rep"] bytesFromBase64 [] object in
  let! x1 := array_or ["transactions"] TransactionRecordJson.fromJSON object in
  let! x2 := set_or ["total"] Number_of (Int 0) object in
  let! x3 := set_or ["limit"] Number_of (Int 0) object in
  let! x4 := set_or ["offset"] Number_of (Int 0) object in
  Ok (HistoryResponse.Mk x0 x1 x2 x3 x4).

Definition toJSON (message : msg) : value :=
  present [("apRep", nonempty (HistoryResponse.apRep message), VStr (base64FromBytes (HistoryResponse.apRep message)));
    ("transactions", nonempty (HistoryResponse.transactions message), VArr (map TransactionRecordJson.toJSON (HistoryResponse.transactions message)));
    ("total", number_nonzero (HistoryResponse.total message), VNum (Math_round (HistoryResponse.total message)));
    ("limit", number_nonzero (HistoryResponse.limit message), VNum (Math_round (HistoryResponse.limit message)));
    ("offset", number_nonzero (HistoryResponse.offset message), VNum (Math_round (HistoryResponse.offset message)))].

Definition fromPartial (object : partial) : msg :=
  HistoryResponse.Mk
    (default [] (p_apRep object))
    (default [] (map TransactionRecordJson.fromPartial <$> p_transactions object))
    (default (Int 0) (p_total object))
    (default (Int 0) (p_limit object))
    (default (Int 0) (p_offset object)).

Definition create (base : option partial) : msg :=
  fromPartial (default (Part None None None None None) base).

Definition whole (message : msg) : partial :=
  Part
    (Some (HistoryResponse.apRep message))
    (Some (map TransactionRecordJson.whole (HistoryResponse.transactions message)))
    (Some (HistoryResponse.total message))
    (Some (HistoryResponse.limit message))
    (Some (HistoryResponse.offset message)).

Definition ok (message : msg) : bool :=
  bytes_okb (HistoryResponse.apRep message) &&
  forallb TransactionRecordJson.ok (HistoryResponse.transactions message) &&
  JsNumber.whole (HistoryResponse.total message) &&
  JsNumber.whole (HistoryResponse.limit message) &&
  JsNumber.whole (HistoryResponse.offset message).

Definition json : json_message :=
  Json "HistoryResponse" msg partial createBase fromJSON toJSON fromPartial create whole ok.

End Functions.
End HistoryResponseJson.

Lemma bank_HistoryResponse_json `{NodeBuffer} : json_laws HistoryResponseJson.json.
Proof. prove_json HistoryResponseJson.json HistoryResponseJson.fromJSON HistoryResponseJson.toJSON HistoryResponseJson.fromPartial HistoryResponseJson.whole HistoryResponseJson.ok. Qed.

Module CreateAdminSessionRequestJson.

Definition msg : Type := CreateAdminSessionRequest.t.

Definition createBase : msg := CreateAdminSessionRequest.Mk [] [].

Record partial := Part {
  p_ticketV : option (list Z);
  p_authenticator : option (list Z)
}.

Section Functions.
Context `{NodeBuffer}.

Definition fromJSON (object : value) : result js_error msg :=
  let! x0 := set_or ["ticketV"; "ticket_v"] bytesFromBase64 [] object in
  let! x1 := set_or ["authenticator"] bytesFromBase64 [] object in
  Ok (CreateAdminSessionRequest.Mk x0 x1).

Definition toJSON (message : msg) : value :=
  present [("ticketV", nonempty (CreateAdminSessionRequest.ticketV message), VStr (base64FromBytes (CreateAdminSessionRequest.ticketV message)));
    ("authenticator", nonempty (CreateAdminSessionRequest.authenticator message), VStr (base64FromBytes (CreateAdminSessionRequest.authenticator message)))].

Definition fromPartial (object : partial) : msg :=
  CreateAdminSessionRequest.Mk
    (default [] (p_ticketV object))
    (default [] (p_authenticator object)).

Definition create (base : option partial) : msg :=
  fromPartial (default (Part None None) base).

Definition whole (message : msg) : partial :=
  Part
    (Some (CreateAdminSessionRequest.ticketV message))
    (Some (CreateAdminSessionRequest.authenticator message)).

Definition ok (message : msg) : bool :=
  bytes_okb (CreateAdminSessionRequest.ticketV message) &&
  bytes_okb (CreateAdminSessionRequest.authenticator message).

Definition json : json_message :=
  Json "CreateAdminSessionRequest" msg partial createBase fromJSON toJSON fromPartial create whole ok.

End Functions.
End CreateAdminSessionRequestJson.

Lemma bank_CreateAdminSessionRequest_json `{NodeBuffer} : json_laws CreateAdminSessionRequestJson.json.
Proof. prove_json CreateAdminSessionRequestJson.json CreateAdminSessionRequestJson.fromJSON CreateAdminSessionRequestJson.toJSON CreateAdminSessionRequestJson.fromPartial CreateAdminSessionRequestJson.whole CreateAdminSessionRequestJson.ok. Qed.

Module CreateAdminSessionResponseJson.

Definition msg : Type := CreateAdminSessionResponse.msg number.

Definition createBase : msg := CreateAdminSessionResponse.Mk [] [] (Int 0) [] [].

Record partial := Part {
  p_apRep : option (list Z);
  p_sessionToken : option ustr;
  p_expiresAtUnix : option number;
  p_adminId : option ustr;
  p_role : option ustr
}.

Section Functions.
Context `{NodeBuffer}.

Definition fromJSON (object : value) : result js_error msg :=
  let! x0 := set_or ["apRep"; "ap_rep"] bytesFromBase64 [] object in
  let! x1 := set_or ["sessionToken"; "session_token"] String_of [] object in
  let! x2 := set_or ["expiresAtUnix"; "expires_at_unix"] Number_of (Int 0) object in
  let! x3 := set_or ["adminId"; "admin_id"] String_of [] object in
  let! x4 := set_or ["role"] String_of [] object in
  Ok (CreateAdminSessionResponse.Mk x0 x1 x2 x3 x4).

Definition toJSON (message : msg) : value :=
  present [("apRep", nonempty (CreateAdminSessionResponse.apRep message), VStr (base64FromBytes (CreateAdminSessionResponse.apRep message)));
    ("sessionToken", nonempty (CreateAdminSessionResponse.sessionToken message), VStr (CreateAdminSessionResponse.sessionToken message));
    ("expiresAtUnix", number_nonzero (CreateAdminSessionResponse.expiresAtUnix message), VNum (Math_round (CreateAdminSessionResponse.expiresAtUnix message)));
    ("adminId", nonempty (CreateAdminSessionResponse.adminId message), VStr (CreateAdminSessionResponse.adminId message));
    ("role", nonempty (CreateAdminSessionResponse.role message), VStr (CreateAdminSessionResponse.role message))].

Definition fromPartial (object : partial) : msg :=
  CreateAdminSessionResponse.Mk
    (default [] (p_apRep object))
    (default [] (p_sessionToken object))
    (default (Int 0) (p_expiresAtUnix object))
    (default [] (p_adminId object))
    (default [] (p_role object)).

Definition create (base : option partial) : msg :=
  fromPartial (default (Part None None None None None) base).

Definition whole (message : msg) : partial :=
  Part
    (Some (CreateAdminSessionResponse.apRep message))
    (Some (CreateAdminSessionResponse.sessionToken message))
    (Some (CreateAdminSessionResponse.expiresAtUnix message))
    (Some (CreateAdminSessionResponse.adminId message))
    (Some (CreateAdminSessionResponse.role message)).

Definition ok (message : msg) : bool :=
  bytes_okb (CreateAdminSessionResponse.apRep message) &&
  JsNumber.whole (CreateAdminSessionResponse.expiresAtUnix message).

Definition json : json_message :=
  Json "CreateAdminSessionResponse" msg partial createBase fromJSON toJSON fromPartial create whole ok.

End Functions.
End CreateAdminSessionResponseJson.

Lemma bank_CreateAdminSessionResponse_json `{NodeBuffer} : json_laws CreateAdminSessionResponseJson.json.
Proof. prove_json CreateAdminSessionResponseJson.json CreateAdminSessionResponseJson.fromJSON CreateAdminSessionResponseJson.toJSON CreateAdminSessionResponseJson.fromPartial CreateAdminSessionResponseJson.whole CreateAdminSessionResponseJson.ok. Qed.

Module AdminOverviewRequestJson.

Definition msg : Type := AdminOverviewRequest.t.

Definition createBase : msg := AdminOverviewRequest.Mk [].

Record partial := Part {
  p_adminSessionToken : option ustr
}.

Section Functions.
Context `{NodeBuffer}.

Definition fromJSON (object : value) : result js_error msg :=
  let! x0 := set_or ["adminSessionToken"; "admin_session_token"] String_of [] object in
  Ok (AdminOverviewRequest.Mk x0).

Definition toJSON (message : msg) : value :=
  present [("adminSessionToken", nonempty (AdminOverviewRequest.adminSessionToken message), VStr (AdminOverviewRequest.adminSessionToken message))].

Definition fromPartial (object : partial) : msg :=
  AdminOverviewRequest.Mk
    (default [] (p_adminSessionToken object)).

Definition create (base : option partial) : msg :=
  fromPartial (default (Part None) base).

Definition whole (message : msg) : partial :=
  Part
    (Some (AdminOverviewRequest.adminSessionToken message)).

Definition ok (message : msg) : bool :=
  true.

Definition json : json_message :=
  Json "AdminOverviewRequest" msg partial createBase fromJSON toJSON fromPartial create whole ok.

End Functions.
End AdminOverviewRequestJson.

Lemma bank_AdminOverviewRequest_json `{NodeBuffer} : json_laws AdminOverviewRequestJson.json.
Proof. prove_json AdminOverviewRequestJson.json AdminOverviewRequestJson.fromJSON AdminOverviewRequestJson.toJSON AdminOverviewRequestJson.fromPartial AdminOverviewRequestJson.whole AdminOverviewRequestJson.ok. Qed.

Module AdminOverviewResponseJson.

Definition msg : Type := AdminOverviewResponse.msg number.

Definition createBase : msg := AdminOverviewResponse.Mk (Int 0) (Int 0) (Int 0) (Int 0) (Int 0) (Int 0) (Int 0) (Int 0).

Record partial := Part {
  p_totalUsers : option number;
  p_activeUsers : option number;
  p_totalAccounts : option number;
  p_totalBalance : option number;
  p_totalTransactions : option number;
  p_completedTransactions : option number;
  p_failedTransactions : option number;
  p_auditEvents24h : option number
}.

Section Functions.
Context `{NodeBuffer}.

Definition fromJSON (object : value) : result js_error msg :=
  let! x0 := set_or ["totalUsers"; "total_users"] Number_of (Int 0) object in
  let! x1 := set_or ["activeUsers"; "active_users"] Number_of (Int 0) object in
  let! x2 := set_or ["totalAccounts"; "total_accounts"] Number_of (Int 0) object in
  let! x3 := set_or ["totalBalance"; "total_balance"] Number_of (Int 0) object in
  let! x4 := set_or ["totalTransactions"; "total_transactions"] Number_of (Int 0) object in
  let! x5 := set_or ["completedTransactions"; "completed_transactions"] Number_of (Int 0) object in
  let! x6 := set_or ["failedTransactions"; "failed_transactions"] Number_of (Int 0) object in
  let! x7 := set_or ["auditEvents24h"; "audit_events_24h"] Number_of (Int 0) object in
  Ok (AdminOverviewResponse.Mk x0 x1 x2 x3 x4 x5 x6 x7).

Definition toJSON (message : msg) : value :=
  present [("totalUsers", number_nonzero (AdminOverviewResponse.totalUsers message), VNum (Math_round (AdminOverviewResponse.totalUsers message)));
    ("activeUsers", number_nonzero (AdminOverviewResponse.activeUsers message), VNum (Math_round (AdminOverviewResponse.activeUsers message)));
    ("totalAccounts", number_nonzero (AdminOverviewResponse.totalAccounts message), VNum (Math_round (AdminOverviewResponse.totalAccounts message)));
    ("totalBalance", number_nonzero (AdminOverviewResponse.totalBalance message), VNum (Math_round (AdminOverviewResponse.totalBalance message)));
    ("totalTransactions", number_nonzero (AdminOverviewResponse.totalTransactions message), VNum (Math_round (AdminOverviewResponse.totalTransactions message)));
    ("completedTransactions", number_nonzero (AdminOverviewResponse.completedTransactions message), VNum (Math_round (AdminOverviewResponse.completedTransactions message)));
    ("failedTransactions", number_nonzero (AdminOverviewResponse.failedTransactions message), VNum (Math_round (AdminOverviewResponse.failedTransactions message)));
    ("auditEvents24h", number_nonzero (AdminOverviewResponse.auditEvents24h message), VNum (Math_round (AdminOverviewResponse.auditEvents24h message)))].

Definition fromPartial (object : partial) : msg :=
  AdminOverviewResponse.Mk
    (default (Int 0) (p_totalUsers object))
    (default (Int 0) (p_activeUsers object))
    (default (Int 0) (p_totalAccounts object))
    (default (Int 0) (p_totalBalance object))
    (default (Int 0) (p_totalTransactions object))
    (default (Int 0) (p_completedTransactions object))
    (default (Int 0) (p_failedTransactions object))
    (default (Int 0) (p_auditEvents24h object)).

Definition create (base : option partial) : msg :=
  fromPartial (default (Part None None None None None None None None) base).

Definition whole (message : msg) : partial :=
  Part
    (Some (AdminOverviewResponse.totalUsers message))
    (Some (AdminOverviewResponse.activeUsers message))
    (Some (AdminOverviewResponse.totalAccounts message))
    (Some (AdminOverviewResponse.totalBalance message))
    (Some (AdminOverviewResponse.totalTransactions message))
    (Some (AdminOverviewResponse.completedTransactions message))
    (Some (AdminOverviewResponse.failedTransactions message))
    (Some (AdminOverviewResponse.auditEvents24h message)).

Definition ok (message : msg) : bool :=
  JsNumber.whole (AdminOverviewResponse.totalUsers message) &&
  JsNumber.whole (AdminOverviewResponse.activeUsers message) &&
  JsNumber.whole (AdminOverviewResponse.totalAccounts message) &&
  JsNumber.whole (AdminOverviewResponse.totalBalance message) &&
  JsNumber.whole (AdminOverviewResponse.totalTransactions message) &&
  JsNumber.whole (AdminOverviewResponse.completedTransactions message) &&
  JsNumber.whole (AdminOverviewResponse.failedTransactions message) &&
  JsNumber.whole (AdminOverviewResponse.auditEvents24h message).

Definition json : json_message :=
  Json "AdminOverviewResponse" msg partial createBase fromJSON toJSON fromPartial create whole ok.

End Functions.
End AdminOverviewResponseJson.

Lemma bank_AdminOverviewResponse_json `{NodeBuffer} : json_laws AdminOverviewResponseJson.json.
Proof. prove_json AdminOverviewResponseJson.json AdminOverviewResponseJson.fromJSON AdminOverviewResponseJson.toJSON AdminOverviewResponseJson.fromPartial AdminOverviewResponseJson.whole AdminOverviewResponseJson.ok. Qed.

Module ListAdminUsersRequestJson.

Definition msg : Type := ListAdminUsersRequest.msg number.

Definition createBase : msg := ListAdminUsersRequest.Mk [] 0 (Int 0) (Int 0) [].

Record partial := Part {
  p_email : option ustr;
  p_status : option Z;
  p_limit : option number;
  p_offset : option number;
  p_adminSessionToken : option ustr
}.

Section Functions.
Context `{NodeBuffer}.

Definition fromJSON (object : value) : result js_error msg :=
  let! x0 := set_or ["email"] String_of [] object in
  let! x1 := set_or ["status"] (fun v => Ok (userStatusFromJSON v)) 0 object in
  let! x2 := set_or ["limit"] Number_of (Int 0) object in
  let! x3 := set_or ["offset"] Number_of (Int 0) object in
  let! x4 := set_or ["adminSessionToken"; "admin_session_token"] String_of [] object in
  Ok (ListAdminUsersRequest.Mk x0 x1 x2 x3 x4).

Definition toJSON (message : msg) : value :=
  present [("email", nonempty (ListAdminUsersRequest.email message), VStr (ListAdminUsersRequest.email message));
    ("status", nonzero (ListAdminUsersRequest.status message), VStr (js (userStatusToJSON (ListAdminUsersRequest.status message))));
    ("limit", number_nonzero (ListAdminUsersRequest.limit message), VNum (Math_round (ListAdminUsersRequest.limit message)));
    ("offset", number_nonzero (ListAdminUsersRequest.offset message), VNum (Math_round (ListAdminUsersRequest.offset message)));
    ("adminSessionToken", nonempty (ListAdminUsersRequest.adminSessionToken message), VStr (ListAdminUsersRequest.adminSessionToken message))].

Definition fromPartial (object : partial) : msg :=
  ListAdminUsersRequest.Mk
    (default [] (p_email object))
    (default 0 (p_status object))
    (default (Int 0) (p_limit object))
    (default (Int 0) (p_offset object))
    (default [] (p_adminSessionToken object)).

Definition create (base : option partial) : msg :=
  fromPartial (default (Part None None None None None) base).

Definition whole (message : msg) : partial :=
  Part
    (Some (ListAdminUsersRequest.email message))
    (Some (ListAdminUsersRequest.status message))
    (Some (ListAdminUsersRequest.limit message))
    (Some (ListAdminUsersRequest.offset message))
    (Some (ListAdminUsersRequest.adminSessionToken message)).

Definition ok (message : msg) : bool :=
  userStatus_ok (ListAdminUsersRequest.status message) &&
  JsNumber.whole (ListAdminUsersRequest.limit message) &&
  JsNumber.whole (ListAdminUsersRequest.offset message).

Definition json : json_message :=
  Json "ListAdminUsersRequest" msg partial createBase fromJSON toJSON fromPartial create whole ok.

End Functions.
End ListAdminUsersRequestJson.

Lemma bank_ListAdminUsersRequest_json `{NodeBuffer} : json_laws ListAdminUsersRequestJson.json.
Proof. prove_json ListAdminUsersRequestJson.json ListAdminUsersRequestJson.fromJSON ListAdminUsersRequestJson.toJSON ListAdminUsersRequestJson.fromPartial ListAdminUsersRequestJson.whole ListAdminUsersRequestJson.ok. Qed.

Module AdminUserJson.

Definition msg : Type := AdminUser.msg number.

Definition createBase : msg := AdminUser.Mk [] [] [] 0 (Int 0) (Int 0) (Int 0).

Record partial := Part {
  p_userId : option ustr;
  p_email : option ustr;
  p_fullName : option ustr;
  p_status : option Z;
  p_accountCount : option number;
  p_totalBalance : option number;
  p_createdAtUnix : option number
}.

Section Functions.
Context `{NodeBuffer}.

Definition fromJSON (object : value) : result js_error msg :=
  let! x0 := set_or ["userId"; "user_id"] String_of [] object in
  let! x1 := set_or ["email"] String_of [] object in
  let! x2 := set_or ["fullName"; "full_name"] String_of [] object in
  let! x3 := set_or ["status"] (fun v => Ok (userStatusFromJSON v)) 0 object in
  let! x4 := set_or ["accountCount"; "account_count"] Number_of (Int 0) object in
  let! x5 := set_or ["totalBalance"; "total_balance"] Number_of (Int 0) object in
  let! x6 := set_or ["createdAtUnix"; "created_at_unix"] Number_of (Int 0) object in
  Ok (AdminUser.Mk x0 x1 x2 x3 x4 x5 x6).

Definition toJSON (message : msg) : value :=
  present [("userId", nonempty (AdminUser.userId message), VStr (AdminUser.userId message));
    ("email", nonempty (AdminUser.email message), VStr (AdminUser.email message));
    ("fullName", nonempty (AdminUser.fullName message), VStr (AdminUser.fullName message));
    ("status", nonzero (AdminUser.status message), VStr (js (userStatusToJSON (AdminUser.status message))));
    ("accountCount", number_nonzero (AdminUser.accountCount message), VNum (Math_round (AdminUser.accountCount message)));
    ("totalBalance", number_nonzero (AdminUser.totalBalance message), VNum (Math_round (AdminUser.totalBalance message)));
    ("createdAtUnix", number_nonzero (AdminUser.createdAtUnix message), VNum (Math_round (AdminUser.createdAtUnix message)))].

Definition fromPartial (object : partial) : msg :=
  AdminUser.Mk
    (default [] (p_userId object))
    (default [] (p_email object))
    (default [] (p_fullName object))
    (default 0 (p_status object))
    (default (Int 0) (p_accountCount object))
    (default (Int 0) (p_totalBalance object))
    (default (Int 0) (p_createdAtUnix object)).

Definition create (base : option partial) : msg :=
  fromPartial (default (Part None None None None None None None) base).

Definition whole (message : msg) : partial :=
  Part
    (Some (AdminUser.userId message))
    (Some (AdminUser.email message))
    (Some (AdminUser.fullName message))
    (Some (AdminUser.status message))
    (Some (AdminUser.accountCount message))
    (Some (AdminUser.totalBalance message))
    (Some (AdminUser.createdAtUnix message)).

Definition ok (message : msg) : bool :=
  userStatus_ok (AdminUser.status message) &&
  JsNumber.whole (AdminUser.accountCount message) &&
  JsNumber.whole (AdminUser.totalBalance message) &&
  JsNumber.whole (AdminUser.createdAtUnix message).

Definition json : json_message :=
  Json "AdminUser" msg partial createBase fromJSON toJSON fromPartial create whole ok.

End Functions.
End AdminUserJson.

Lemma bank_AdminUser_json `{NodeBuffer} : json_laws AdminUserJson.json.
Proof. prove_json AdminUserJson.json AdminUserJson.fromJSON AdminUserJson.toJSON AdminUserJson.fromPartial AdminUserJson.whole AdminUserJson.ok. Qed.

#[local] Hint Extern 1 (AdminUserJson.fromJSON (AdminUserJson.toJSON _) = _) => apply (json_back AdminUserJson.json) : json.
#[local] Hint Extern 1 (AdminUserJson.fromPartial (AdminUserJson.whole _) = _) => apply (partial_back AdminUserJson.json) : json.
#[local] Hint Resolve bank_AdminUser_json : json.

Module ListAdminUsersResponseJson.

Definition msg : Type := ListAdminUsersResponse.msg number.

Definition createBase : msg := ListAdminUsersResponse.Mk [] (Int 0) (Int 0) (Int 0).

Record partial := Part {
  p_users : option (list AdminUserJson.partial);
  p_total : option number;
  p_limit : option number;
  p_offset : option number
}.

Section Functions.
Context `{NodeBuffer}.

Definition fromJSON (object : value) : result js_error msg :=
  let! x0 := array_or ["users"] AdminUserJson.fromJSON object in
  let! x1 := set_or ["total"] Number_of (Int 0) object in
  let! x2 := set_or ["limit"] Number_of (Int 0) object in
  let! x3 := set_or ["offset"] Number_of (Int 0) object in
  Ok (ListAdminUsersResponse.Mk x0 x1 x2 x3).

Definition toJSON (message : msg) : value :=
  present [("users", nonempty (ListAdminUsersResponse.users message), VArr (map AdminUserJson.toJSON (ListAdminUsersResponse.users message)));
    ("total", number_nonzero (ListAdminUsersResponse.total message), VNum (Math_round (ListAdminUsersResponse.total message)));
    ("limit", number_nonzero (ListAdminUsersResponse.limit message), VNum (Math_round (ListAdminUsersResponse.limit message)));
    ("offset", number_nonzero (ListAdminUsersResponse.offset message), VNum (Math_round (ListAdminUsersResponse.offset message)))].

Definition fromPartial (object : partial) : msg :=
  ListAdminUsersResponse.Mk
    (default [] (map AdminUserJson.fromPartial <$> p_users object))
    (default (Int 0) (p_total object))
    (default (Int 0) (p_limit object))
    (default (Int 0) (p_offset object)).

Definition create (base : option partial) : msg :=
  fromPartial (default (Part None None None None) base).

Definition whole (message : msg) : partial :=
  Part
    (Some (map AdminUserJson.whole (ListAdminUsersResponse.users message)))
    (Some (ListAdminUsersResponse.total message))
    (Some (ListAdminUsersResponse.limit message))
    (Some (ListAdminUsersResponse.offset message)).

Definition ok (message : msg) : bool :=
  forallb AdminUserJson.ok (ListAdminUsersResponse.users message) &&
  JsNumber.whole (ListAdminUsersResponse.total message) &&
  JsNumber.whole (ListAdminUsersResponse.limit message) &&
  JsNumber.whole (ListAdminUsersResponse.offset message).

Definition json : json_message :=
  Json "ListAdminUsersResponse" msg partial createBase fromJSON toJSON fromPartial create whole ok.

End Functions.
End ListAdminUsersResponseJson.

Lemma bank_ListAdminUsersResponse_json `{NodeBuffer} : json_laws ListAdminUsersResponseJson.json.
Proof. prove_json ListAdminUsersResponseJson.json ListAdminUsersResponseJson.fromJSON ListAdminUsersResponseJson.toJSON ListAdminUsersResponseJson.fromPartial ListAdminUsersResponseJson.whole ListAdminUsersResponseJson.ok. Qed.

Module ListAdminUserAccountsRequestJson.

Definition msg : Type := ListAdminUserAccountsRequest.t.

Definition createBase : msg := ListAdminUserAccountsRequest.Mk [] [].

Record partial := Part {
  p_userId : option ustr;
  p_adminSessionToken : option ustr
}.

Section Functions.
Context `{NodeBuffer}.

Definition fromJSON (object : value) : result js_error msg :=
  let! x0 := set_or ["userId"; "user_id"] String_of [] object in
  let! x1 := set_or ["adminSessionToken"; "admin_session_token"] String_of [] object in
  Ok (ListAdminUserAccountsRequest.Mk x0 x1).

Definition toJSON (message : msg) : value :=
  present [("userId", nonempty (ListAdminUserAccountsRequest.userId message), VStr (ListAdminUserAccountsRequest.userId message));
    ("adminSessionToken", nonempty (ListAdminUserAccountsRequest.adminSessionToken message), VStr (ListAdminUserAccountsRequest.adminSessionToken message))].

Definition fromPartial (object : partial) : msg :=
  ListAdminUserAccountsRequest.Mk
    (default [] (p_userId object))
    (default [] (p_adminSessionToken object)).

Definition create (base : option partial) : msg :=
  fromPartial (default (Part None None) base).

Definition whole (message : msg) : partial :=
  Part
    (Some (ListAdminUserAccountsRequest.userId message))
    (Some (ListAdminUserAccountsRequest.adminSessionToken message)).

Definition ok (message : msg) : bool :=
  true.

Definition json : json_message :=
  Json "ListAdminUserAccountsRequest" msg partial createBase fromJSON toJSON fromPartial create whole ok.

End Functions.
End ListAdminUserAccountsRequestJson.

Lemma bank_ListAdminUserAccountsRequest_json `{NodeBuffer} : json_laws ListAdminUserAccountsRequestJson.json.
Proof. prove_json ListAdminUserAccountsRequestJson.json ListAdminUserAccountsRequestJson.fromJSON ListAdminUserAccountsRequestJson.toJSON ListAdminUserAccountsRequestJson.fromPartial ListAdminUserAccountsRequestJson.whole ListAdminUserAccountsRequestJson.ok. Qed.

Module AdminAccountJson.

Definition msg : Type := AdminAccount.msg number.

Definition createBase : msg := AdminAccount.Mk [] [] (Int 0) [] 0 (Int 0).

Record partial := Part {
  p_accountId : option ustr;
  p_accountNumber : option ustr;
  p_balance : option number;
  p_currency : option ustr;
  p_status : option Z;
  p_createdAtUnix : option number
}.

Section Functions.
Context `{NodeBuffer}.

Definition fromJSON (object : value) : result js_error msg :=
  let! x0 := set_or ["accountId"; "account_id"] String_of [] object in
  let! x1 := set_or ["accountNumber"; "account_number"] String_of [] object in
  let! x2 := set_or ["balance"] Number_of (Int 0) object in
  let! x3 := set_or ["currency"] String_of [] object in
  let! x4 := set_or ["status"] (fun v => Ok (accountStatusFromJSON v)) 0 object in
  let! x5 := set_or ["createdAtUnix"; "created_at_unix"] Number_of (Int 0) object in
  Ok (AdminAccount.Mk x0 x1 x2 x3 x4 x5).

Definition toJSON (message : msg) : value :=
  present [("accountId", nonempty (AdminAccount.accountId message), VStr (AdminAccount.accountId message));
    ("accountNumber", nonempty (AdminAccount.accountNumber message), VStr (AdminAccount.accountNumber message));
    ("balance", number_nonzero (AdminAccount.balance message), VNum (Math_round (AdminAccount.balance message)));
    ("currency", nonempty (AdminAccount.currency message), VStr (AdminAccount.currency message));
    ("status", nonzero (AdminAccount.status message), VStr (js (accountStatusToJSON (AdminAccount.status message))));
    ("createdAtUnix", number_nonzero (AdminAccount.createdAtUnix message), VNum (Math_round (AdminAccount.createdAtUnix message)))].

Definition fromPartial (object : partial) : msg :=
  AdminAccount.Mk
    (default [] (p_accountId object))
    (default [] (p_accountNumber object))
    (default (Int 0) (p_balance object))
    (default [] (p_currency object))
    (default 0 (p_status object))
    (default (Int 0) (p_createdAtUnix object)).

Definition create (base : option partial) : msg :=
  fromPartial (default (Part None None None None None None) base).

Definition whole (message : msg) : partial :=
  Part
    (Some (AdminAccount.accountId message))
    (Some (AdminAccount.accountNumber message))
    (Some (AdminAccount.balance message))
    (Some (AdminAccount.currency message))
    (Some (AdminAccount.status message))
    (Some (AdminAccount.createdAtUnix message)).

Definition ok (message : msg) : bool :=
  JsNumber.whole (AdminAccount.balance message) &&
  accountStatus_ok (AdminAccount.status message) &&
  JsNumber.whole (AdminAccount.createdAtUnix message).

Definition json : json_message :=
  Json "AdminAccount" msg partial createBase fromJSON toJSON fromPartial create whole ok.

End Functions.
End AdminAccountJson.

Lemma bank_AdminAccount_json `{NodeBuffer} : json_laws AdminAccountJson.json.
Proof. prove_json AdminAccountJson.json AdminAccountJson.fromJSON AdminAccountJson.toJSON AdminAccountJson.fromPartial AdminAccountJson.whole AdminAccountJson.ok. Qed.

#[local] Hint Extern 1 (AdminAccountJson.fromJSON (AdminAccountJson.toJSON _) = _) => apply (json_back AdminAccountJson.json) : json.
#[local] Hint Extern 1 (AdminAccountJson.fromPartial (AdminAccountJson.whole _) = _) => apply (partial_back AdminAccountJson.json) : json.
#[local] Hint Resolve bank_AdminAccount_json : json.

Module ListAdminUserAccountsResponseJson.

Definition msg : Type := ListAdminUserAccountsResponse.msg number.

Definition createBase : msg := ListAdminUserAccountsResponse.Mk [].

Record partial := Part {
  p_accounts : option (list AdminAccountJson.partial)
}.

Section Functions.
Context `{NodeBuffer}.

Definition fromJSON (object : value) : result js_error msg :=
  let! x0 := array_or ["accounts"] AdminAccountJson.fromJSON object in
  Ok (ListAdminUserAccountsResponse.Mk x0).

Definition toJSON (message : msg) : value :=
  present [("accounts", nonempty (ListAdminUserAccountsResponse.accounts message), VArr (map AdminAccountJson.toJSON (ListAdminUserAccountsResponse.accounts message)))].

Definition fromPartial (object : partial) : msg :=
  ListAdminUserAccountsResponse.Mk
    (default [] (map AdminAccountJson.fromPartial <$> p_accounts object)).

Definition create (base : option partial) : msg :=
  fromPartial (default (Part None) base).

Definition whole (message : msg) : partial :=
  Part
    (Some (map AdminAccountJson.whole (ListAdminUserAccountsResponse.accounts message))).

Definition ok (message : msg) : bool :=
  forallb AdminAccountJson.ok (ListAdminUserAccountsResponse.accounts message).

Definition json : json_message :=
  Json "ListAdminUserAccountsResponse" msg partial createBase fromJSON toJSON fromPartial create whole ok.

End Functions.
End ListAdminUserAccountsResponseJson.

Lemma bank_ListAdminUserAccountsResponse_json `{NodeBuffer} : json_laws ListAdminUserAccountsResponseJson.json.
Proof. prove_json ListAdminUserAccountsResponseJson.json ListAdminUserAccountsResponseJson.fromJSON ListAdminUserAccountsResponseJson.toJSON ListAdminUserAccountsResponseJson.fromPartial ListAdminUserAccountsResponseJson.whole ListAdminUserAccountsResponseJson.ok. Qed.

Module ListAdminTransactionsRequestJson.

Definition msg : Type := ListAdminTransactionsRequest.msg number.

Definition createBase : msg := ListAdminTransactionsRequest.Mk [] 0 (Int 0) (Int 0) (Int 0) (Int 0) [].

Record partial := Part {
  p_accountId : option ustr;
  p_status : option Z;
  p_fromUnix : option number;
  p_toUnix : option number;
  p_limit : option number;
  p_offset : option number;
  p_adminSessionToken : option ustr
}.

Section Functions.
Context `{NodeBuffer}.

Definition fromJSON (object : value) : result js_error msg :=
  let! x0 := set_or ["accountId"; "account_id"] String_of [] object in
  let! x1 := set_or ["status"] (fun v => Ok (transactionStatusFromJSON v)) 0 object in
  let! x2 := set_or ["fromUnix"; "from_unix"] Number_of (Int 0) object in
  let! x3 := set_or ["toUnix"; "to_unix"] Number_of (Int 0) object in
  let! x4 := set_or ["limit"] Number_of (Int 0) object in
  let! x5 := set_or ["offset"] Number_of (Int 0) object in
  let! x6 := set_or ["adminSessionToken"; "admin_session_token"] String_of [] object in
  Ok (ListAdminTransactionsRequest.Mk x0 x1 x2 x3 x4 x5 x6).

Definition toJSON (message : msg) : value :=
  present [("accountId", nonempty (ListAdminTransactionsRequest.accountId message), VStr (ListAdminTransactionsRequest.accountId message));
    ("status", nonzero (ListAdminTransactionsRequest.status message), VStr (js (transactionStatusToJSON (ListAdminTransactionsRequest.status message))));
    ("fromUnix", number_nonzero (ListAdminTransactionsRequest.fromUnix message), VNum (Math_round (ListAdminTransactionsRequest.fromUnix message)));
    ("toUnix", number_nonzero (ListAdminTransactionsRequest.toUnix message), VNum (Math_round (ListAdminTransactionsRequest.toUnix message)));
    ("limit", number_nonzero (ListAdminTransactionsRequest.limit message), VNum (Math_round (ListAdminTransactionsRequest.limit message)));
    ("offset", number_nonzero (ListAdminTransactionsRequest.offset message), VNum (Math_round (ListAdminTransactionsRequest.offset message)));
    ("adminSessionToken", nonempty (ListAdminTransactionsRequest.adminSessionToken message), VStr (ListAdminTransactionsRequest.adminSessionToken message))].

Definition fromPartial (object : partial) : msg :=
  ListAdminTransactionsRequest.Mk
    (default [] (p_accountId object))
    (default 0 (p_status object))
    (default (Int 0) (p_fromUnix object))
    (default (Int 0) (p_toUnix object))
    (default (Int 0) (p_limit object))
    (default (Int 0) (p_offset object))
    (default [] (p_adminSessionToken object)).

Definition create (base : option partial) : msg :=
  fromPartial (default (Part None None None None None None None) base).

Definition whole (message : msg) : partial :=
  Part
    (Some (ListAdminTransactionsRequest.accountId message))
    (Some (ListAdminTransactionsRequest.status message))
    (Some (ListAdminTransactionsRequest.fromUnix message))
    (Some (ListAdminTransactionsRequest.toUnix message))
    (Some (ListAdminTransactionsRequest.limit message))
    (Some (ListAdminTransactionsRequest.offset message))
    (Some (ListAdminTransactionsRequest.adminSessionToken message)).

Definition ok (message : msg) : bool :=
  transactionStatus_ok (ListAdminTransactionsRequest.status message) &&
  JsNumber.whole (ListAdminTransactionsRequest.fromUnix message) &&
  JsNumber.whole (ListAdminTransactionsRequest.toUnix message) &&
  JsNumber.whole (ListAdminTransactionsRequest.limit message) &&
  JsNumber.whole (ListAdminTransactionsRequest.offset message).

Definition json : json_message :=
  Json "ListAdminTransactionsRequest" msg partial createBase fromJSON toJSON fromPartial create whole ok.

End Functions.
End ListAdminTransactionsRequestJson.

Lemma bank_ListAdminTransactionsRequest_json `{NodeBuffer} : json_laws ListAdminTransactionsRequestJson.json.
Proof. prove_json ListAdminTransactionsRequestJson.json ListAdminTransactionsRequestJson.fromJSON ListAdminTransactionsRequestJson.toJSON ListAdminTransactionsRequestJson.fromPartial ListAdminTransactionsRequestJson.whole ListAdminTransactionsRequestJson.ok. Qed.

Module AdminTransactionJson.

Definition msg : Type := AdminTransaction.msg number.

Definition createBase : msg := AdminTransaction.Mk [] [] [] (Int 0) [] 0 [] [] [] (Int 0).

Record partial := Part {
  p_transactionId : option ustr;
  p_fromAccountNumber : option ustr;
  p_toAccountNumber : option ustr;
  p_amount : option number;
  p_currency : option ustr;
  p_status : option Z;
  p_description : option ustr;
  p_certSerial : option ustr;
  p_currentHash : option ustr;
  p_createdAtUnix : option number
}.

Section Functions.
Context `{NodeBuffer}.

Definition fromJSON (object : value) : result js_error msg :=
  let! x0 := set_or ["transactionId"; "transaction_id"] String_of [] object in
  let! x1 := set_or ["fromAccountNumber"; "from_account_number"] String_of [] object in
  let! x2 := set_or ["toAccountNumber"; "to_account_number"] String_of [] object in
  let! x3 := set_or ["amount"] Number_of (Int 0) object in
  let! x4 := set_or ["currency"] String_of [] object in
  let! x5 := set_or ["status"] (fun v => Ok (transactionStatusFromJSON v)) 0 object in
  let! x6 := set_or ["description"] String_of [] object in
  let! x7 := set_or ["certSerial"; "cert_serial"] String_of [] object in
  let! x8 := set_or ["currentHash"; "current_hash"] String_of [] object in
  let! x9 := set_or ["createdAtUnix"; "created_at_unix"] Number_of (Int 0) object in
  Ok (AdminTransaction.Mk x0 x1 x2 x3 x4 x5 x6 x7 x8 x9).

Definition toJSON (message : msg) : value :=
  present [("transactionId", nonempty (AdminTransaction.transactionId message), VStr (AdminTransaction.transactionId message));
    ("fromAccountNumber", nonempty (AdminTransaction.fromAccountNumber message), VStr (AdminTransaction.fromAccountNumber message));
    ("toAccountNumber", nonempty (AdminTransaction.toAccountNumber message), VStr (AdminTransaction.toAccountNumber message));
    ("amount", number_nonzero (AdminTransaction.amount message), VNum (Math_round (AdminTransaction.amount message)));
    ("currency", nonempty (AdminTransaction.currency message), VStr (AdminTransaction.currency message));
    ("status", nonzero (AdminTransaction.status message), VStr (js (transactionStatusToJSON (AdminTransaction.status message))));
    ("description", nonempty (AdminTransaction.description message), VStr (AdminTransaction.description message));
    ("certSerial", nonempty (AdminTransaction.certSerial message), VStr (AdminTransaction.certSerial message));
    ("currentHash", nonempty (AdminTransaction.currentHash message), VStr (AdminTransaction.currentHash message));
    ("createdAtUnix", number_nonzero (AdminTransaction.createdAtUnix message), VNum (Math_round (AdminTransaction.createdAtUnix message)))].

Definition fromPartial (object : partial) : msg :=
  AdminTransaction.Mk
    (default [] (p_transactionId object))
    (default [] (p_fromAccountNumber object))
    (default [] (p_toAccountNumber object))
    (default (Int 0) (p_amount object))
    (default [] (p_currency object))
    (default 0 (p_status object))
    (default [] (p_description object))
    (default [] (p_certSerial object))
    (default [] (p_currentHash object))
    (default (Int 0) (p_createdAtUnix object)).

Definition create (base : option partial) : msg :=
  fromPartial (default (Part None None None None None None None None None None) base).

Definition whole (message : msg) : partial :=
  Part
    (Some (AdminTransaction.transactionId message))
    (Some (AdminTransaction.fromAccountNumber message))
    (Some (AdminTransaction.toAccountNumber message))
    (Some (AdminTransaction.amount message))
    (Some (AdminTransaction.currency message))
    (Some (AdminTransaction.status message))
    (Some (AdminTransaction.description message))
    (Some (AdminTransaction.certSerial message))
    (Some (AdminTransaction.currentHash message))
    (Some (AdminTransaction.createdAtUnix message)).

Definition ok (message : msg) : bool :=
  JsNumber.whole (AdminTransaction.amount message) &&
  transactionStatus_ok (AdminTransaction.status message) &&
  JsNumber.whole (AdminTransaction.createdAtUnix message).

Definition json : json_message :=
  Json "AdminTransaction" msg partial createBase fromJSON toJSON fromPartial create whole ok.

End Functions.
End AdminTransactionJson.

Lemma bank_AdminTransaction_json `{NodeBuffer} : json_laws AdminTransactionJson.json.
Proof. prove_json AdminTransactionJson.json AdminTransactionJson.fromJSON AdminTransactionJson.toJSON AdminTransactionJson.fromPartial AdminTransactionJson.whole AdminTransactionJson.ok. Qed.

#[local] Hint Extern 1 (AdminTransactionJson.fromJSON (AdminTransactionJson.toJSON _) = _) => apply (json_back AdminTransactionJson.json) : json.
#[local] Hint Extern 1 (AdminTransactionJson.fromPartial (AdminTransactionJson.whole _) = _) => apply (partial_back AdminTransactionJson.json) : json.
#[local] Hint Resolve bank_AdminTransaction_json : json.

Module ListAdminTransactionsResponseJson.

Definition msg : Type := ListAdminTransactionsResponse.msg number.

Definition createBase : msg := ListAdminTransactionsResponse.Mk [] (Int 0) (Int 0) (Int 0).

Record partial := Part {
  p_transactions : option (list AdminTransactionJson.partial);
  p_total : option number;
  p_limit : option number;
  p_offset : option number
}.

Section Functions.
Context `{NodeBuffer}.

Definition fromJSON (object : value) : result js_error msg :=
  let! x0 := array_or ["transactions"] AdminTransactionJson.fromJSON object in
  let! x1 := set_or ["total"] Number_of (Int 0) object in
  let! x2 := set_or ["limit"] Number_of (Int 0) object in
  let! x3 := set_or ["offset"] Number_of (Int 0) object in
  Ok (ListAdminTransactionsResponse.Mk x0 x1 x2 x3).

Definition toJSON (message : msg) : value :=
  present [("transactions", nonempty (ListAdminTransactionsResponse.transactions message), VArr (map AdminTransactionJson.toJSON (ListAdminTransactionsResponse.transactions message)));
    ("total", number_nonzero (ListAdminTransactionsResponse.total message), VNum (Math_round (ListAdminTransactionsResponse.total message)));
    ("limit", number_nonzero (ListAdminTransactionsResponse.limit message), VNum (Math_round (ListAdminTransactionsResponse.limit message)));
    ("offset", number_nonzero (ListAdminTransactionsResponse.offset message), VNum (Math_round (ListAdminTransactionsResponse.offset message)))].

Definition fromPartial (object : partial) : msg :=
  ListAdminTransactionsResponse.Mk
    (default [] (map AdminTransactionJson.fromPartial <$> p_transactions object))
    (default (Int 0) (p_total object))
    (default (Int 0) (p_limit object))
    (default (Int 0) (p_offset object)).

Definition create (base : option partial) : msg :=
  fromPartial (default (Part None None None None) base).

Definition whole (message : msg) : partial :=
  Part
    (Some (map AdminTransactionJson.whole (ListAdminTransactionsResponse.transactions message)))
    (Some (ListAdminTransactionsResponse.total message))
    (Some (ListAdminTransactionsResponse.limit message))
    (Some (ListAdminTransactionsResponse.offset message)).

Definition ok (message : msg) : bool :=
  forallb AdminTransactionJson.ok (ListAdminTransactionsResponse.transactions message) &&
  JsNumber.whole (ListAdminTransactionsResponse.total message) &&
  JsNumber.whole (ListAdminTransactionsResponse.limit message) &&
  JsNumber.whole (ListAdminTransactionsResponse.offset message).

Definition json : json_message :=
  Json "ListAdminTransactionsResponse" msg partial createBase fromJSON toJSON fromPartial create whole ok.

End Functions.
End ListAdminTransactionsResponseJson.

Lemma bank_ListAdminTransactionsResponse_json `{NodeBuffer} : json_laws ListAdminTransactionsResponseJson.json.
Proof. prove_json ListAdminTransactionsResponseJson.json ListAdminTransactionsResponseJson.fromJSON ListAdminTransactionsResponseJson.toJSON ListAdminTransactionsResponseJson.fromPartial ListAdminTransactionsResponseJson.whole ListAdminTransactionsResponseJson.ok. Qed.

Module ListAdminAuditEventsRequestJson.

Definition msg : Type := ListAdminAuditEventsRequest.msg number.

Definition createBase : msg := ListAdminAuditEventsRequest.Mk 0 [] [] [] (Int 0) (Int 0) (Int 0) (Int 0) [].

Record partial := Part {
  p_action : option Z;
  p_userId : option ustr;
  p_certSerial : option ustr;
  p_requestId : option ustr;
  p_fromUnix : option number;
  p_toUnix : option number;
  p_limit : option number;
  p_offset : option number;
  p_adminSessionToken : option ustr
}.

Section Functions.
Context `{NodeBuffer}.

Definition fromJSON (object : value) : result js_error msg :=
  let! x0 := set_or ["action"] (fun v => Ok (bankAuditActionFromJSON v)) 0 object in
  let! x1 := set_or ["userId"; "user_id"] String_of [] object in
  let! x2 := set_or ["certSerial"; "cert_serial"] String_of [] object in
  let! x3 := set_or ["requestId"; "request_id"] String_of [] object in
  let! x4 := set_or ["fromUnix"; "from_unix"] Number_of (Int 0) object in
  let! x5 := set_or ["toUnix"; "to_unix"] Number_of (Int 0) object in
  let! x6 := set_or ["limit"] Number_of (Int 0) object in
  let! x7 := set_or ["offset"] Number_of (Int 0) object in
  let! x8 := set_or ["adminSessionToken"; "admin_session_token"] String_of [] object in
  Ok (ListAdminAuditEventsRequest.Mk x0 x1 x2 x3 x4 x5 x6 x7 x8).

Definition toJSON (message : msg) : value :=
  present [("action", nonzero (ListAdminAuditEventsRequest.action message), VStr (js (bankAuditActionToJSON (ListAdminAuditEventsRequest.action message))));
    ("userId", nonempty (ListAdminAuditEventsRequest.userId message), VStr (ListAdminAuditEventsRequest.userId message));
    ("certSerial", nonempty (ListAdminAuditEventsRequest.certSerial message), VStr (ListAdminAuditEventsRequest.certSerial message));
    ("requestId", nonempty (ListAdminAuditEventsRequest.requestId message), VStr (ListAdminAuditEventsRequest.requestId message));
    ("fromUnix", number_nonzero (ListAdminAuditEventsRequest.fromUnix message), VNum (Math_round (ListAdminAuditEventsRequest.fromUnix message)));
    ("toUnix", number_nonzero (ListAdminAuditEventsRequest.toUnix message), VNum (Math_round (ListAdminAuditEventsRequest.toUnix message)));
    ("limit", number_nonzero (ListAdminAuditEventsRequest.limit message), VNum (Math_round (ListAdminAuditEventsRequest.limit message)));
    ("offset", number_nonzero (ListAdminAuditEventsRequest.offset message), VNum (Math_round (ListAdminAuditEventsRequest.offset message)));
    ("adminSessionToken", nonempty (ListAdminAuditEventsRequest.adminSessionToken message), VStr (ListAdminAuditEventsRequest.adminSessionToken message))].

Definition fromPartial (object : partial) : msg :=
  ListAdminAuditEventsRequest.Mk
    (default 0 (p_action object))
    (default [] (p_userId object))
    (default [] (p_certSerial object))
    (default [] (p_requestId object))
    (default (Int 0) (p_fromUnix object))
    (default (Int 0) (p_toUnix object))
    (default (Int 0) (p_limit object))
    (default (Int 0) (p_offset object))
    (default [] (p_adminSessionToken object)).

Definition create (base : option partial) : msg :=
  fromPartial (default (Part None None None None None None None None None) base).

Definition whole (message : msg) : partial :=
  Part
    (Some (ListAdminAuditEventsRequest.action message))
    (Some (ListAdminAuditEventsRequest.userId message))
    (Some (ListAdminAuditEventsRequest.certSerial message))
    (Some (ListAdminAuditEventsRequest.requestId message))
    (Some (ListAdminAuditEventsRequest.fromUnix message))
    (Some (ListAdminAuditEventsRequest.toUnix message))
    (Some (ListAdminAuditEventsRequest.limit message))
    (Some (ListAdminAuditEventsRequest.offset message))
    (Some (ListAdminAuditEventsRequest.adminSessionToken message)).

Definition ok (message : msg) : bool :=
  bankAuditAction_ok (ListAdminAuditEventsRequest.action message) &&
  JsNumber.whole (ListAdminAuditEventsRequest.fromUnix message) &&
  JsNumber.whole (ListAdminAuditEventsRequest.toUnix message) &&
  JsNumber.whole (ListAdminAuditEventsRequest.limit message) &&
  JsNumber.whole (ListAdminAuditEventsRequest.offset message).

Definition json : json_message :=
  Json "ListAdminAuditEventsRequest" msg partial createBase fromJSON toJSON fromPartial create whole ok.

End Functions.
End ListAdminAuditEventsRequestJson.

Lemma bank_ListAdminAuditEventsRequest_json `{NodeBuffer} : json_laws ListAdminAuditEventsRequestJson.json.
Proof. prove_json ListAdminAuditEventsRequestJson.json ListAdminAuditEventsRequestJson.fromJSON ListAdminAuditEventsRequestJson.toJSON ListAdminAuditEventsRequestJson.fromPartial ListAdminAuditEventsRequestJson.whole ListAdminAuditEventsRequestJson.ok. Qed.

Module AdminAuditEventJson.

Definition msg : Type := AdminAuditEvent.msg number.

Definition createBase : msg := AdminAuditEvent.Mk [] 0 [] [] [] [] [] [] [] (Int 0).

Record partial := Part {
  p_eventId : option ustr;
  p_action : option Z;
  p_userId : option ustr;
  p_accountId : option ustr;
  p_transactionId : option ustr;
  p_certSerial : option ustr;
  p_requestId : option ustr;
  p_reason : option ustr;
  p_metadataJson : option ustr;
  p_createdAtUnix : option number
}.

Section Functions.
Context `{NodeBuffer}.

Definition fromJSON (object : value) : result js_error msg :=
  let! x0 := set_or ["eventId"; "event_id"] String_of [] object in
  let! x1 := set_or ["action"] (fun v => Ok (bankAuditActionFromJSON v)) 0 object in
  let! x2 := set_or ["userId"; "user_id"] String_of [] object in
  let! x3 := set_or ["accountId"; "account_id"] String_of [] object in
  let! x4 := set_or ["transactionId"; "transaction_id"] String_of [] object in
  let! x5 := set_or ["certSerial"; "cert_serial"] String_of [] object in
  let! x6 := set_or ["requestId"; "request_id"] String_of [] object in
  let! x7 := set_or ["reason"] String_of [] object in
  let! x8 := set_or ["metadataJson"; "metadata_json"] String_of [] object in
  let! x9 := set_or ["createdAtUnix"; "created_at_unix"] Number_of (Int 0) object in
  Ok (AdminAuditEvent.Mk x0 x1 x2 x3 x4 x5 x6 x7 x8 x9).

Definition toJSON (message : msg) : value :=
  present [("eventId", nonempty (AdminAuditEvent.eventId message), VStr (AdminAuditEvent.eventId message));
    ("action", nonzero (AdminAuditEvent.action message), VStr (js (bankAuditActionToJSON (AdminAuditEvent.action message))));
    ("userId", nonempty (AdminAuditEvent.userId message), VStr (AdminAuditEvent.userId message));
    ("accountId", nonempty (AdminAuditEvent.accountId message), VStr (AdminAuditEvent.accountId message));
    ("transactionId", nonempty (AdminAuditEvent.transactionId message), VStr (AdminAuditEvent.transactionId message));
    ("certSerial", nonempty (AdminAuditEvent.certSerial message), VStr (AdminAuditEvent.certSerial message));
    ("requestId", nonempty (AdminAuditEvent.requestId message), VStr (AdminAuditEvent.requestId message));
    ("reason", nonempty (AdminAuditEvent.reason message), VStr (AdminAuditEvent.reason message));
    ("metadataJson", nonempty (AdminAuditEvent.metadataJson message), VStr (AdminAuditEvent.metadataJson message));
    ("createdAtUnix", number_nonzero (AdminAuditEvent.createdAtUnix message), VNum (Math_round (AdminAuditEvent.createdAtUnix message)))].

Definition fromPartial (object : partial) : msg :=
  AdminAuditEvent.Mk
    (default [] (p_eventId object))
    (default 0 (p_action object))
    (default [] (p_userId object))
    (default [] (p_accountId object))
    (default [] (p_transactionId object))
    (default [] (p_certSerial object))
    (default [] (p_requestId object))
    (default [] (p_reason object))
    (default [] (p_metadataJson object))
    (default (Int 0) (p_createdAtUnix object)).

Definition create (base : option partial) : msg :=
  fromPartial (default (Part None None None None None None None None None None) base).

Definition whole (message : msg) : partial :=
  Part
    (Some (AdminAuditEvent.eventId message))
    (Some (AdminAuditEvent.action message))
    (Some (AdminAuditEvent.userId message))
    (Some (AdminAuditEvent.accountId message))
    (Some (AdminAuditEvent.transactionId message))
    (Some (AdminAuditEvent.certSerial message))
    (Some (AdminAuditEvent.requestId message))
    (Some (AdminAuditEvent.reason message))
    (Some (AdminAuditEvent.metadataJson message))
    (Some (AdminAuditEvent.createdAtUnix message)).

Definition ok (message : msg) : bool :=
  bankAuditAction_ok (AdminAuditEvent.action message) &&
  JsNumber.whole (AdminAuditEvent.createdAtUnix message).

Definition json : json_message :=
  Json "AdminAuditEvent" msg partial createBase fromJSON toJSON fromPartial create whole ok.

End Functions.
End AdminAuditEventJson.

Lemma bank_AdminAuditEvent_json `{NodeBuffer} : json_laws AdminAuditEventJson.json.
Proof. prove_json AdminAuditEventJson.json AdminAuditEventJson.fromJSON AdminAuditEventJson.toJSON AdminAuditEventJson.fromPartial AdminAuditEventJson.whole AdminAuditEventJson.ok. Qed.

#[local] Hint Extern 1 (AdminAuditEventJson.fromJSON (AdminAuditEventJson.toJSON _) = _) => apply (json_back AdminAuditEventJson.json) : json.
#[local] Hint Extern 1 (AdminAuditEventJson.fromPartial (AdminAuditEventJson.whole _) = _) => apply (partial_back AdminAuditEventJson.json) : json.
#[local] Hint Resolve bank_AdminAuditEvent_json : json.

Module ListAdminAuditEventsResponseJson.

Definition msg : Type := ListAdminAuditEventsResponse.msg number.

Definition createBase : msg := ListAdminAuditEventsResponse.Mk [] (Int 0) (Int 0) (Int 0).

Record partial := Part {
  p_events : option (list AdminAuditEventJson.partial);
  p_total : option number;
  p_limit : option number;
  p_offset : option number
}.

Section Functions.
Context `{NodeBuffer}.

Definition fromJSON (object : value) : result js_error msg :=
  let! x0 := array_or ["events"] AdminAuditEventJson.fromJSON object in
  let! x1 := set_or ["total"] Number_of (Int 0) object in
  let! x2 := set_or ["limit"] Number_of (Int 0) object in
  let! x3 := set_or ["offset"] Number_of (Int 0) object in
  Ok (ListAdminAuditEventsResponse.Mk x0 x1 x2 x3).

Definition toJSON (message : msg) : value :=
  present [("events", nonempty (ListAdminAuditEventsResponse.events message), VArr (map AdminAuditEventJson.toJSON (ListAdminAuditEventsResponse.events message)));
    ("total", number_nonzero (ListAdminAuditEventsResponse.total message), VNum (Math_round (ListAdminAuditEventsResponse.total message)));
    ("limit", number_nonzero (ListAdminAuditEventsResponse.limit message), VNum (Math_round (ListAdminAuditEventsResponse.limit message)));
    ("offset", number_nonzero (ListAdminAuditEventsResponse.offset message), VNum (Math_round (ListAdminAuditEventsResponse.offset message)))].

Definition fromPartial (object : partial) : msg :=
  ListAdminAuditEventsResponse.Mk
    (default [] (map AdminAuditEventJson.fromPartial <$> p_events object))
    (default (Int 0) (p_total object))
    (default (Int 0) (p_limit object))
    (default (Int 0) (p_offset object)).

Definition create (base : option partial) : msg :=
  fromPartial (default (Part None None None None) base).

Definition whole (message : msg) : partial :=
  Part
    (Some (map AdminAuditEventJson.whole (ListAdminAuditEventsResponse.events message)))
    (Some (ListAdminAuditEventsResponse.total message))
    (Some (ListAdminAuditEventsResponse.limit message))
    (Some (ListAdminAuditEventsResponse.offset message)).

Definition ok (message : msg) : bool :=
  forallb AdminAuditEventJson.ok (ListAdminAuditEventsResponse.events message) &&
  JsNumber.whole (ListAdminAuditEventsResponse.total message) &&
  JsNumber.whole (ListAdminAuditEventsResponse.limit message) &&
  JsNumber.whole (ListAdminAuditEventsResponse.offset message).

Definition json : json_message :=
  Json "ListAdminAuditEventsResponse" msg partial createBase fromJSON toJSON fromPartial create whole ok.

End Functions.
End ListAdminAuditEventsResponseJson.

Lemma bank_ListAdminAuditEventsResponse_json `{NodeBuffer} : json_laws ListAdminAuditEventsResponseJson.json.
Proof. prove_json ListAdminAuditEventsResponseJson.json ListAdminAuditEventsResponseJson.fromJSON ListAdminAuditEventsResponseJson.toJSON ListAdminAuditEventsResponseJson.fromPartial ListAdminAuditEventsResponseJson.whole ListAdminAuditEventsResponseJson.ok. Qed.

Module VerifyAuditChainRequestJson.

Definition msg : Type := VerifyAuditChainRequest.t.

Definition createBase : msg := VerifyAuditChainRequest.Mk [].

Record partial := Part {
  p_adminSessionToken : option ustr
}.

Section Functions.
Context `{NodeBuffer}.

Definition fromJSON (object : value) : result js_error msg :=
  let! x0 := set_or ["adminSessionToken"; "admin_session_token"] String_of [] object in
  Ok (VerifyAuditChainRequest.Mk x0).

Definition toJSON (message : msg) : value :=
  present [("adminSessionToken", nonempty (VerifyAuditChainRequest.adminSessionToken message), VStr (VerifyAuditChainRequest.adminSessionToken message))].

Definition fromPartial (object : partial) : msg :=
  VerifyAuditChainRequest.Mk
    (default [] (p_adminSessionToken object)).

Definition create (base : option partial) : msg :=
  fromPartial (default (Part None) base).

Definition whole (message : msg) : partial :=
  Part
    (Some (VerifyAuditChainRequest.adminSessionToken message)).

Definition ok (message : msg) : bool :=
  true.

Definition json : json_message :=
  Json "VerifyAuditChainRequest" msg partial createBase fromJSON toJSON fromPartial create whole ok.

End Functions.
End VerifyAuditChainRequestJson.

Lemma bank_VerifyAuditChainRequest_json `{NodeBuffer} : json_laws VerifyAuditChainRequestJson.json.
Proof. prove_json VerifyAuditChainRequestJson.json VerifyAuditChainRequestJson.fromJSON VerifyAuditChainRequestJson.toJSON VerifyAuditChainRequestJson.fromPartial VerifyAuditChainRequestJson.whole VerifyAuditChainRequestJson.ok. Qed.

Module VerifyAuditChainResponseJson.

Definition msg : Type := VerifyAuditChainResponse.msg number.

Definition createBase : msg := VerifyAuditChainResponse.Mk false (Int 0) (Int 0) [] [].

Record partial := Part {
  p_ok : option bool;
  p_checked : option number;
  p_brokenSeq : option number;
  p_brokenId : option ustr;
  p_detail : option ustr
}.

Section Functions.
Context `{NodeBuffer}.

Definition fromJSON (object : value) : result js_error msg :=
  let! x0 := set_or ["ok"] Boolean_of false object in
  let! x1 := set_or ["checked"] Number_of (Int 0) object in
  let! x2 := set_or ["brokenSeq"; "broken_seq"] Number_of (Int 0) object in
  let! x3 := set_or ["brokenId"; "broken_id"] String_of [] object in
  let! x4 := set_or ["detail"] String_of [] object in
  Ok (VerifyAuditChainResponse.Mk x0 x1 x2 x3 x4).

Definition toJSON (message : msg) : value :=
  present [("ok", VerifyAuditChainResponse.ok message, VBool (VerifyAuditChainResponse.ok message));
    ("checked", number_nonzero (VerifyAuditChainResponse.checked message), VNum (Math_round (VerifyAuditChainResponse.checked message)));
    ("brokenSeq", number_nonzero (VerifyAuditChainResponse.brokenSeq message), VNum (Math_round (VerifyAuditChainResponse.brokenSeq message)));
    ("brokenId", nonempty (VerifyAuditChainResponse.brokenId message), VStr (VerifyAuditChainResponse.brokenId message));
    ("detail", nonempty (VerifyAuditChainResponse.detail message), VStr (VerifyAuditChainResponse.detail message))].

Definition fromPartial (object : partial) : msg :=
  VerifyAuditChainResponse.Mk
    (default false (p_ok object))
    (default (Int 0) (p_checked object))
    (default (Int 0) (p_brokenSeq object))
    (default [] (p_brokenId object))
    (default [] (p_detail object)).

Definition create (base : option partial) : msg :=
  fromPartial (default (Part None None None None None) base).

Definition whole (message : msg) : partial :=
  Part
    (Some (VerifyAuditChainResponse.ok message))
    (Some (VerifyAuditChainResponse.checked message))
    (Some (VerifyAuditChainResponse.brokenSeq message))
    (Some (VerifyAuditChainResponse.brokenId message))
    (Some (VerifyAuditChainResponse.detail message)).

Definition ok (message : msg) : bool :=
  JsNumber.whole (VerifyAuditChainResponse.checked message) &&
  JsNumber.whole (VerifyAuditChainResponse.brokenSeq message).

Definition json : json_message :=
  Json "VerifyAuditChainResponse" msg partial createBase fromJSON toJSON fromPartial create whole ok.

End Functions.
End VerifyAuditChainResponseJson.

Lemma bank_VerifyAuditChainResponse_json `{NodeBuffer} : json_laws VerifyAuditChainResponseJson.json.
Proof. prove_json VerifyAuditChainResponseJson.json VerifyAuditChainResponseJson.fromJSON VerifyAuditChainResponseJson.toJSON VerifyAuditChainResponseJson.fromPartial VerifyAuditChainResponseJson.whole VerifyAuditChainResponseJson.ok. Qed.

(** ** All the messages of [bank.proto] *)

Definition bank_json `{NodeBuffer} : list json_message :=
  [CreateUserRequestJson.json;
   CheckUserEmailRequestJson.json;
   CheckUserEmailResponseJson.json;
   CreateUserResponseJson.json;
   TransferRequestJson.json;
   TransferResponseJson.json;
   BalanceRequestJson.json;
   BalanceResponseJson.json;
   HistoryRequestJson.json;
   TransactionRecordJson.json;
   HistoryResponseJson.json;
   CreateAdminSessionRequestJson.json;
   CreateAdminSessionResponseJson.json;
   AdminOverviewRequestJson.json;
   AdminOverviewResponseJson.json;
   ListAdminUsersRequestJson.json;
   AdminUserJson.json;
   ListAdminUsersResponseJson.json;
   ListAdminUserAccountsRequestJson.json;
   AdminAccountJson.json;
   ListAdminUserAccountsResponseJson.json;
   ListAdminTransactionsRequestJson.json;
   AdminTransactionJson.json;
   ListAdminTransactionsResponseJson.json;
   ListAdminAuditEventsRequestJson.json;
   AdminAuditEventJson.json;
   ListAdminAuditEventsResponseJson.json;
   VerifyAuditChainRequestJson.json;
   VerifyAuditChainResponseJson.json].

Lemma bank_json_laws `{NodeBuffer} : Forall json_laws bank_json.
Proof. repeat (constructor; [eauto using bank_CreateUserRequest_json, bank_CheckUserEmailRequest_json, bank_CheckUserEmailResponse_json, bank_CreateUserResponse_json, bank_TransferRequest_json, bank_TransferResponse_json, bank_BalanceRequest_json, bank_BalanceResponse_json, bank_HistoryRequest_json, bank_TransactionRecord_json, bank_HistoryResponse_json, bank_CreateAdminSessionRequest_json, bank_CreateAdminSessionResponse_json, bank_AdminOverviewRequest_json, bank_AdminOverviewResponse_json, bank_ListAdminUsersRequest_json, bank_AdminUser_json, bank_ListAdminUsersResponse_json, bank_ListAdminUserAccountsRequest_json, bank_AdminAccount_json, bank_ListAdminUserAccountsResponse_json, bank_ListAdminTransactionsRequest_json, bank_AdminTransaction_json, bank_ListAdminTransactionsResponse_json, bank_ListAdminAuditEventsRequest_json, bank_AdminAuditEvent_json, bank_ListAdminAuditEventsResponse_json, bank_VerifyAuditChainRequest_json, bank_VerifyAuditChainResponse_json|]). constructor. Qed.
