(* ===== verification/JsonProps.v ===== *)
(** * The JSON side of the generated code, message by message

    For every message of the three [proto] files: what [toJSON] prints is read
    back by [fromJSON], under the names of the schema in either of their forms;
    [fromPartial] keeps what it is given. [kdc_requests_read]: the two requests
    that [controller/kdc.controller.ts] builds with [fromJSON] are the messages
    that [Bank] sends. *)

From S2P Require Import Prelude JsString Gateway Buffer Schema Validators AuditSemantics Bank UString UJson Wire KdcProto CaProto BankProto ProtoSchema ProtoProps GatewayWire JsNumber ProtoJson KdcJson CaJson BankJson.

Open Scope Z_scope.

(** ** Names *)

Definition capital (a : ascii) : ascii :=
  let c := code a in if (97 <=? c) && (c <=? 122) then of_code (c - 32) else a.

(** The JSON name of a field: what follows an underscore is a capital letter. *)
Fixpoint camel (s : string) : string :=
  match s with
  | String a s' =>
      if code a =? 95
      then match s' with String b s'' => String (capital b) (camel s'') | "" => "" end
      else String a (camel s')
  | "" => ""
  end.

Definition find_message (f : proto_file) (name : string) : option proto_message :=
  find (fun m => String.eqb (pm_name m) name) (proto_messages f).

(** [fromJSON] takes a field under the schema's name and under its JSON name. *)
Definition both_names (m : json_message) (name : string) : Prop :=
  forall v, j_fromJSON m (VObj [(js name, v)]) = j_fromJSON m (VObj [(js (camel name), v)]).

(** What [toJSON] writes is named by the schema. *)
Definition named_by (names : list string) (v : value) : Prop :=
  exists l, v = VObj l /\ Forall (fun e => e.1 ∈ map (fun n => js (camel n)) names) l.

Definition json_named (f : proto_file) (m : json_message) : Prop :=
  exists p, find_message f (j_name m) = Some p /\
    Forall (both_names m) (map pf_name (pm_fields p)) /\
    forall x, named_by (map pf_name (pm_fields p)) (j_toJSON m x).

Lemma present_named names l :
  forallb (fun e : member_if => existsb (fun n => String.eqb e.1.1 (camel n)) names) l = true ->
  named_by names (present l).
Proof.
  intros Hl. eexists. split; [reflexivity|]. apply Forall_forall. intros e He.
  apply list_elem_of_In, in_flat_map in He as (k & Hk & He).
  rewrite forallb_forall in Hl. specialize (Hl k Hk). apply existsb_exists in Hl as (n & Hn & Heq).
  apply String.eqb_eq in Heq. destruct k as [[key []] v]; [|done]. cbn in He, Heq.
  destruct He as [<-|[]]. cbn. subst key. apply list_elem_of_In, (in_map (fun n => js (camel n))), Hn.
Qed.

(** *** An object with one property *)

Definition among (key : string) (names : list string) : bool := existsb (String.eqb key) names.

Lemma member_single key name v :
  member name (VObj [(js key, v)]) = Ok (if String.eqb key name then v else VUndefined).
Proof. cbn [member own]. rewrite js_eqb. by destruct (String.eqb key name). Qed.

Lemma set_or_single {A} names (convert : value -> result js_error A) initial key v :
  set_or names convert initial (VObj [(js key, v)]) =
  if among key names && isSet v then convert v else Ok initial.
Proof.
  unfold among. induction names as [|n names IH]; [done|]. rewrite set_or_cons, member_single. cbn [existsb].
  destruct (String.eqb key n); cbn [rbind orb]; [|exact IH]. destruct (isSet v) eqn:Hv; [done|].
  rewrite andb_false_r. rewrite andb_false_r in IH. exact IH.
Qed.

Lemma array_or_single {A} names (convert : value -> result js_error A) key v :
  array_or names convert (VObj [(js key, v)]) =
  match v with VArr l => if among key names then convert_each convert l else Ok [] | _ => Ok [] end.
Proof.
  unfold among. induction names as [|n names IH]; [by destruct v|].
  rewrite array_or_cons. unfold optional_member. rewrite member_single. cbn [existsb].
  destruct (String.eqb key n); cbn [orb]; [|exact IH]. rewrite IH. destruct v; try done.
Qed.

Lemma entries_or_single name key v :
  entries_or name (VObj [(js key, v)]) =
  if String.eqb key name && isObject v then reduce_entries (Object_entries v) [] else Ok [].
Proof. unfold entries_or. rewrite member_single. by destruct (String.eqb key name). Qed.

Ltac head_of t := lazymatch t with ?f _ => head_of f | _ => t end.

(** Two names that the field takes alike, or does not take. *)
Lemma set_or_same {A} names (convert : value -> result js_error A) initial key key' v :
  among key names = among key' names ->
  set_or names convert initial (VObj [(js key, v)]) = set_or names convert initial (VObj [(js key', v)]).
Proof. intros H. by rewrite !set_or_single, H. Qed.

Lemma array_or_same {A} names (convert : value -> result js_error A) key key' v :
  among key names = among key' names ->
  array_or names convert (VObj [(js key, v)]) = array_or names convert (VObj [(js key', v)]).
Proof. intros H. by rewrite !array_or_single, H. Qed.

Lemma entries_or_same name key key' v :
  String.eqb key name = String.eqb key' name ->
  entries_or name (VObj [(js key, v)]) = entries_or name (VObj [(js key', v)]).
Proof. intros H. by rewrite !entries_or_single, H. Qed.

Lemma bind_same {A B} (a a' : result js_error A) (f f' : A -> result js_error B) :
  a = a' -> (forall x, f x = f' x) -> rbind a f = rbind a' f'.
Proof. intros -> Hf. destruct a'; cbn; auto. Qed.

Ltac json_both :=
  let v := fresh "v" in
  intros v; lazymatch goal with |- j_fromJSON ?m _ = _ => let h := head_of m in unfold h end;
  cbn [j_fromJSON]; lazymatch goal with |- ?l = _ => let h := head_of l in unfold h end;
  repeat (apply bind_same;
    [first [apply set_or_same | apply array_or_same | apply entries_or_same]; vm_compute; reflexivity
    | intros ?]); reflexivity.

Ltac json_names :=
  eexists; split; [vm_compute; reflexivity|]; split;
  [ cbn [map pm_fields pf_name]; repeat (apply List.Forall_cons; [json_both|]); apply List.Forall_nil
  | intros x; apply present_named; lazy; reflexivity ].

Lemma kdc_json_named `{NodeBuffer} : Forall (json_named kdc_proto) kdc_json.
Proof. repeat (apply List.Forall_cons; [json_names|]). apply List.Forall_nil. Qed.

Lemma ca_json_named `{NodeBuffer} : Forall (json_named ca_proto) ca_json.
Proof. repeat (apply List.Forall_cons; [json_names|]). apply List.Forall_nil. Qed.

Lemma bank_json_named `{NodeBuffer} : Forall (json_named bank_proto) bank_json.
Proof. repeat (apply List.Forall_cons; [json_names|]). apply List.Forall_nil. Qed.

(** ** Every message *)

Definition json_messages `{NodeBuffer} : list json_message := kdc_json ++ ca_json ++ bank_json.

Lemma json_messages_laws `{NodeBuffer} : Forall json_laws json_messages.
Proof.
  unfold json_messages. repeat apply Forall_app_2;
    [apply kdc_json_laws | apply ca_json_laws | apply bank_json_laws].
Qed.

(** C13: The JSON side of the generated code loses nothing that it can express. For
    every message of the three services whose bytes are bytes, whose enums are
    declared, whose numbers have no fraction and whose maps (the [metadata] of two
    messages) have distinct keys, none of them [__proto__] or an array index,
    [fromJSON] of what [toJSON] printed is that message, with initial values
    where nothing was printed, and [fromPartial] of all its fields is that
    message. What is printed has the JSON names of the schema's fields, and
    every field is read alike under its JSON name and under the schema's own,
    whatever its value. *)
Theorem json_faithful `{NodeBuffer} :
  Forall (fun m => forall x, j_ok m x = true ->
    j_fromJSON m (j_toJSON m x) = Ok x /\ j_fromPartial m (j_whole m x) = x) json_messages /\
  Forall (fun m => j_fromJSON m (VObj []) = Ok (j_base m) /\ j_toJSON m (j_base m) = VObj []) json_messages /\
  Forall (json_named kdc_proto) kdc_json /\ Forall (json_named ca_proto) ca_json /\
  Forall (json_named bank_proto) bank_json.
Proof.
  split_and!; [| |apply kdc_json_named | apply ca_json_named | apply bank_json_named];
    (eapply Forall_impl; [exact json_messages_laws|]; intros m Hm).
  - intros x Hx. split; [by apply json_back | by apply partial_back].
  - split; [by apply json_initial | by apply json_initial_text].
Qed.

(** The condition on the keys is needed: [toJSON] assigns [obj.metadata[k] = v],
    and an entry under [__proto__] is not printed. *)
Lemma proto_key_unprinted `{NodeBuffer} m :
  AppendAuditEventRequestJson.toJSON (AppendAuditEventRequest.Mk (js "issued") [] [] [] [(js "__proto__", m)]) =
  VObj [(js "action", VStr (js "issued")); (js "metadata", VObj [])].
Proof. reflexivity. Qed.

(** A buffer of nothing but texts. *)
Definition text_buffer : NodeBuffer :=
  {| Buffer_from_object _ := Err (TypeError "The first argument must be of type string") |}.

Definition demo_as_request : ASRequestJson.msg :=
  ASRequest.Mk (js "u-1") [7842; 55357; 56832] [0; 255; 16] (Int 1700000000) [1; 2].

Lemma json_faithful_witness :
  ASRequestJson.ok demo_as_request = true /\
  ASRequestJson.fromJSON (H := text_buffer) (ASRequestJson.toJSON demo_as_request) = Ok demo_as_request.
Proof.
  split; [vm_compute; reflexivity|].
  pose proof (proj1 (json_faithful (H := text_buffer))) as Hall. apply Forall_inv in Hall.
  apply (Hall demo_as_request). vm_compute. reflexivity.
Defined.

(** ** The requests of [kdc.controller.ts] *)

(** An object literal. *)
Definition literal (l : list (string * value)) : value := VObj (map (fun e => (js e.1, e.2)) l).

(** A property of [req.body] that was destructured. *)
Definition body_value (name : string) (req : Request) : value := value_of (widen (prop name (body req))).

Definition as_object (req : Request) : value :=
  literal [("ownerId", body_value "clientId" req); ("certSn", body_value "certSn" req);
           ("nonce", body_value "nonce" req); ("timestamp", body_value "timestamp" req);
           ("signature", body_value "preAuthSignature" req)].

Definition tgs_object (req : Request) : value :=
  literal [("tgt", body_value "tgtCiphertext" req); ("authenticator", body_value "authenticator" req);
           ("certSn", body_value "certSn" req); ("scope", body_value "requestedScope" req);
           ("serviceId", body_value "serviceId" req); ("nonce", body_value "nonce" req)].

Lemma literal_present l : literal l = present (map (fun e => (e.1, true, e.2)) l).
Proof. unfold literal, present. f_equal. induction l as [|e l IH]; [done|]. cbn. by rewrite IH. Qed.

(** A field of the literal that is set. *)
Lemma literal_field {A} l name names (convert : value -> result js_error A) initial v a :
  keys_ok (map (fun e => (e.1, true, e.2)) l) = true ->
  lookup name (map (fun e => (e.1, true, e.2)) l) = v -> isSet v = true -> convert v = Ok a ->
  set_or (name :: names) convert initial (literal l) = Ok a.
Proof.
  intros Hk Hl Hv Hc. rewrite set_or_cons, literal_present, member_present, Hl by done. cbn. by rewrite Hv.
Qed.

Lemma body_text checks name req w :
  parses (SString checks) (prop name (body req)) = Some w ->
  body_value name req = VStr (js (text_of name (body req))).
Proof.
  intros Hp. apply parses_string in Hp as (s & t & Hs & _). unfold body_value, text_of. by rewrite Hs.
Qed.

Lemma body_choice values name req w :
  parses (SEnum values) (prop name (body req)) = Some w ->
  body_value name req = VStr (js (text_of name (body req))).
Proof. unfold body_value, text_of. cbn. by destruct (prop name (body req)). Qed.

Lemma body_number name req w :
  parses (SInt false []) (prop name (body req)) = Some w ->
  body_value name req = VNum (Int (int_at name (body req))).
Proof.
  intros Hp. apply parses_int in Hp as (n & Hn & Hs & _). unfold body_value, int_at. cbn in Hn.
  destruct (prop name (body req)); try done. injection Hn as ->. cbn.
  rewrite of_integer_exact; [done|]. by apply Z.leb_le.
Qed.

Lemma base64_text_bytes `{NodeBuffer} s : bytesFromBase64 (VStr (js s)) = Ok (from_base64 s).
Proof. cbn. by rewrite narrow_js. Qed.

Ltac literal_field :=
  eapply literal_field; [reflexivity | cbn [map lookup fst snd String.eqb Ascii.eqb Bool.eqb]; eassumption
                        | reflexivity | first [apply base64_text_bytes | reflexivity]].

(** The value of a field that the schema [H] accepted. *)
Ltac in_fields := repeat first [apply list_elem_of_here | apply list_elem_of_further].

Ltac body_field H name lemma :=
  let Hv := fresh "Hv" in
  assert (Hv := H); eapply (safeParse_field _ _ _ _ name) in Hv;
  [| eapply bool_decide_eq_true_1; vm_compute; reflexivity | in_fields];
  apply lemma in Hv.

(** What the KDC is asked. Every body that the validators accept is turned by
    [fromJSON], without an exception, into the message that [Bank] sends: the
    texts of the body, its timestamp, and the bytes of its base64 texts. *)
Theorem kdc_requests_read `{ZodSpec} `{NodeBuffer} req :
  (forall d, safeParse ASRequestSchema (body req) = Ok d ->
     ASRequestJson.fromJSON (as_object req) =
     let r := as_request req in
     Ok (ASRequest.Mk (js (as_ownerId r)) (js (as_certSn r)) (as_nonce r) (Int (as_timestamp r)) (as_signature r))) /\
  (forall d, safeParse TGSRequestSchema (body req) = Ok d ->
     TGSRequestJson.fromJSON (tgs_object req) =
     let r := tgs_request req in
     Ok (TGSRequest.Mk (tgs_tgt r) (tgs_authenticator r) (js (tgs_scope r)) (js (tgs_serviceId r))
           (js (tgs_certSn r)) (tgs_nonce r))).
Proof.
  split; intros d Hd.
  - body_field Hd "clientId" body_text. body_field Hd "nonce" body_text. body_field Hd "certSn" body_text.
    body_field Hd "preAuthSignature" body_text. body_field Hd "timestamp" body_number.
    unfold ASRequestJson.fromJSON, as_object. repeat (eapply bind_ok; [literal_field|]). reflexivity.
  - body_field Hd "tgtCiphertext" body_text. body_field Hd "authenticator" body_text.
    body_field Hd "certSn" body_text. body_field Hd "nonce" body_text.
    body_field Hd "serviceId" body_choice. body_field Hd "requestedScope" body_choice.
    unfold TGSRequestJson.fromJSON, tgs_object. repeat (eapply bind_ok; [literal_field|]). reflexivity.
Qed.

(** The names of the bank's actions in [AuditSemantics] are those of the enum. *)
Lemma bank_action_names a :
  BankJson.bankAuditActionToJSON (BankAuditAction_number a) = AuditSemantics.bankAuditActionToJSON a /\
  bankAuditActionFromJSON (VStr (js (AuditSemantics.bankAuditActionToJSON a))) = BankAuditAction_number a.
Proof. destruct a; split; vm_compute; reflexivity. Qed.
