(* ===== verification/HomePage.v ===== *)
(** * The customer's home page ([pages/Home.tsx])

    The page with its four views as a state machine: the transfer form and its
    dialogs, the profile and the history that are fetched in the background, the
    certificate and the logout. [react] is one input: what the user does, or a
    reply. A reply finds the component that asked, by the number of its mount or
    of its effect, or nobody. [home_transfer_sound] is what a transfer carries
    that the page sends; [fields_behind_dialog] what it carries when the fields
    behind a dialog are reached with the keyboard; [amount_entry] how large
    amounts are rounded. *)

From S2P Require Import Prelude Effects UString UJson X509 CertParser WebCrypto Wire Sessions Browser BankClient UserError Keypad PageRun.

Open Scope Z_scope.

(** ** Numbers typed by the user *)

(** [Number] of a text of digits: a double, from 2^1024 on infinity. *)
Inductive number := Fin (n : Z) | Infinity.

Definition Number_digits (s : ustr) : number :=
  let v := to_double (digits_value s) in if v <? 2 ^ 1024 then Fin v else Infinity.

Definition positive (x : number) : bool := match x with Fin n => 0 <? n | Infinity => true end.
Definition exceeds (x : number) (bound : Z) : bool := match x with Fin n => bound <? n | Infinity => true end.

(** [value.replace(/[^\d]/g, empty)]. *)
Definition only_digits (s : ustr) : ustr := filter (fun u => is_digit u = true) s.

(** [/^\d+$/.test(s)]. *)
Definition digits1 (s : ustr) : bool := nonempty s && all_digits s.

(** [formatAmountInput]: a dot before every three digits that end the number. *)
Fixpoint formatAmountInput (s : ustr) : ustr :=
  match s with
  | [] => []
  | u :: s' =>
      u :: (if nonempty s' && (length s' mod 3 =? 0)%nat then [46] else []) ++ formatAmountInput s'
  end.

(** ** The transfer form *)

Inductive TransferModal := confirm | pin_entry | processing | success | error.

#[export] Instance TransferModal_eq_dec : EqDecision TransferModal.
Proof. solve_decision. Defined.

Record Form := {
  toAccount : ustr; amountText : ustr; description : ustr; pin : ustr; modal : option TransferModal;
  resultMessage : ustr
}.

Definition new_form : Form :=
  {| toAccount := []; amountText := []; description := []; pin := []; modal := None; resultMessage := [] |}.

(** The profile that is fetched ([BankClient.Profile]). Its name, its email and its
    status, which are only shown, are any JSON: [profile.service.ts] casts what it
    has decrypted without looking at it. The fields that the page computes with are
    the texts and the whole numbers that its interface declares and that the bank,
    the only one with the key of the reply, writes
    ([banking-service/internal/grpc/handler.go]). *)
Record Account := {
  accountId : ustr; accountNumber : ustr; balance : Z; currency : ustr; dailyTransferLimit : Z;
  dailyTransferUsed : Z; holder : ujson; email : ujson; accountStatus : ujson
}.

(** What [performTransfer] is called with. *)
Record TransferCall := {
  t_from : ustr; t_to : ustr; t_amount : number; t_description : option ustr; t_pin : ustr
}.

(** The parameters for the service, for an amount that is a number of the payload. *)
Definition transfer_params (c : TransferCall) (n : Z) : TransferParams :=
  {| BankClient.fromAccountNumber := t_from c; BankClient.toAccountNumber := t_to c;
     BankClient.amount := UNum n; BankClient.description := t_description c; BankClient.currency := None;
     BankClient.pin := t_pin c; BankClient.operationId := None |}.

Definition amountNumber (f : Form) : number := Number_digits (amountText f).

Definition canContinue (from : ustr) (f : Form) : bool :=
  digits1 (trim from) && digits1 (trim (toAccount f)) && negb (ustr_eqb (trim from) (trim (toAccount f))) &&
  digits1 (trim (amountText f)) && positive (amountNumber f).

Definition dailyRemaining (a : Account) : Z := Z.max 0 (dailyTransferLimit a - dailyTransferUsed a).

Definition warnExceedBalance (a : Account) (f : Form) : bool :=
  positive (amountNumber f) && exceeds (amountNumber f) (balance a).

Definition warnExceedDailyLimit (a : Account) (f : Form) : bool :=
  positive (amountNumber f) && negb (warnExceedBalance a f) && exceeds (amountNumber f) (dailyRemaining a).

Definition with_modal (m : option TransferModal) (p message : ustr) (f : Form) : Form :=
  {| toAccount := toAccount f; amountText := amountText f; description := description f; pin := p;
     modal := m; resultMessage := message |}.

Definition with_fields (to amount text : ustr) (f : Form) : Form :=
  {| toAccount := to; amountText := amount; description := text; pin := pin f; modal := modal f;
     resultMessage := resultMessage f |}.

Definition openConfirmation (from : ustr) (f : Form) : Form :=
  if canContinue from f then with_modal (Some confirm) (pin f) [] f else f.

Definition closeModal (f : Form) : Form :=
  match modal f with
  | Some processing => f
  | Some success => with_modal None [] (resultMessage f) (with_fields [] [] [] f)
  | _ => with_modal None [] (resultMessage f) f
  end.

(** [description.trim() || undefined]. *)
Definition or_undefined (s : ustr) : option ustr := match s with [] => None | _ => Some s end.

(** [perform], up to its [await]. *)
Definition perform (from confirmedPin : ustr) (f : Form) : Form * TransferCall :=
  (with_modal (Some processing) (pin f) [] f,
   {| t_from := trim from; t_to := trim (toAccount f); t_amount := amountNumber f;
      t_description := or_undefined (trim (description f)); t_pin := confirmedPin |}).

Definition handlePinKey (from : ustr) (k : key) (f : Form) : Form * option TransferCall :=
  match modal f with
  | Some pin_entry =>
      let (next, full) := press (pin f) k in
      let f' := with_modal (modal f) next (resultMessage f) f in
      if full then let (f'', c) := perform from next f' in (f'', Some c) else (f', None)
  | _ => (f, None)
  end.

(** What the user does with the form; the keys and the buttons of a dialog are
    there while it is open, the fields and the submission always. *)
Inductive form_input :=
| TypeTo (v : ustr)
| TypeAmount (v : ustr)
| TypeDescription (v : ustr)
| Submit
| Close
| EnterPin
| BackToConfirm
| PinKey (k : key).

Definition form_react (from : ustr) (f : Form) (i : form_input) : option (Form * option TransferCall) :=
  match i, modal f with
  | TypeTo v, _ => Some (with_fields (only_digits v) (amountText f) (description f) f, None)
  | TypeAmount v, _ => Some (with_fields (toAccount f) (only_digits v) (description f) f, None)
  | TypeDescription v, _ => Some (with_fields (toAccount f) (amountText f) v f, None)
  | Submit, _ => if canContinue from f then Some (openConfirmation from f, None) else None
  | Close, Some (confirm | pin_entry | success | error) => Some (closeModal f, None)
  | EnterPin, Some (confirm | error) => Some (with_modal (Some pin_entry) [] (resultMessage f) f, None)
  | BackToConfirm, Some pin_entry => Some (with_modal (Some confirm) [] (resultMessage f) f, None)
  | PinKey k, Some pin_entry => if offered_key k then Some (handlePinKey from k f) else None
  | _, _ => None
  end.

(** The dialog covers the page: what is behind it cannot be clicked. *)
Definition behind (i : form_input) : bool :=
  match i with TypeTo _ | TypeAmount _ | TypeDescription _ | Submit => true | _ => false end.

Section page.

Context (toUpperCase : ustr -> ustr) (thrown_message : js_exception -> ustr).

Definition message_of (e : js_exception) (fallback : string) : ustr :=
  getUserErrorMessage toUpperCase thrown_message (Some e) (u8 fallback).

(** The end of [perform]: the transaction, or what was thrown. *)
Definition performed (r : result js_exception ustr) (f : Form) : Form :=
  match r with
  | Ok id => with_modal (Some success) [] (u8 "Mã giao dịch: " ++ id) f
  | Err e => with_modal (Some error) [] (message_of e "Không thể thực hiện giao dịch. Vui lòng thử lại.") f
  end.

(** ** The page *)

Inductive view := overview | transfer | history | certificate.

#[export] Instance view_eq_dec : EqDecision view.
Proof. solve_decision. Defined.

(** [HistoryView]; [hs_fetch] is the effect that is still active. *)
Record HistoryState := {
  hs_items : list HistoryItem; hs_total : Z; hs_loading : bool; hs_error : ustr; hs_fetch : option nat
}.

(** [CertificateView]. *)
Record CertificateState := {
  cs_parsed : option ParsedCertificateJson; cs_parseError : ustr; cs_parsing : bool; cs_task : option nat
}.

Inductive panel :=
| ProfileOverview
| TransferForm (f : Form)
| HistoryView (h : HistoryState)
| CertificateView (c : CertificateState).

Definition view_of (p : panel) : view :=
  match p with
  | ProfileOverview => overview
  | TransferForm _ => transfer
  | HistoryView _ => history
  | CertificateView _ => certificate
  end.

(** What is awaited; a transfer knows the mount of its form. *)
Inductive task :=
| TLocal
| TProfile
| THistory
| TParse
| TTransfer (mount : nat).

(** The page; [next] numbers the mounts, the effects and the tasks. *)
Record home := {
  shown : panel; mounted : nat; operationId : option ustr; fullName : ustr;
  storedCertificate : option StoredCertificate; localLoading : bool; profile : option Account;
  profileLoading : bool; profileError : ustr; profileFetch : option nat; next : nat;
  pending : list (nat * task); left_page : bool
}.

(** Calls of the services, the session stores and the router. *)
Inductive call :=
| ReadDevice
| FetchProfile (operationId : option ustr)
| FetchHistory (accountId : ustr)
| ParseCertificate (pem : ujson)
| PerformTransfer (c : TransferCall)
| ClearServiceTickets
| ClearSession
| Navigate (path : string).

Inductive input :=
| FormInput (i : form_input)
| SetView (v : view)
| ReloadProfile
| ReloadHistory
| Logout
| DeviceRead (k : nat) (r : result js_exception (ustr * option StoredCertificate))
| ProfileReply (k : nat) (r : result js_exception Account)
| HistoryReply (k : nat) (r : result js_exception (list HistoryItem * Z))
| CertificateParsed (k : nat) (r : result js_exception ParsedCertificateJson)
| TransferReply (k : nat) (r : result js_exception ustr).

Definition set_shown (s : panel) (p : home) : home :=
  {| shown := s; mounted := mounted p; operationId := operationId p; fullName := fullName p;
     storedCertificate := storedCertificate p; localLoading := localLoading p; profile := profile p;
     profileLoading := profileLoading p; profileError := profileError p; profileFetch := profileFetch p;
     next := next p; pending := pending p; left_page := left_page p |}.

Definition set_pending (l : list (nat * task)) (p : home) : home :=
  {| shown := shown p; mounted := mounted p; operationId := operationId p; fullName := fullName p;
     storedCertificate := storedCertificate p; localLoading := localLoading p; profile := profile p;
     profileLoading := profileLoading p; profileError := profileError p; profileFetch := profileFetch p;
     next := next p; pending := l; left_page := left_page p |}.

(** A task with a number of its own. *)
Definition start (t : task) (p : home) : home :=
  {| shown := shown p; mounted := mounted p; operationId := operationId p; fullName := fullName p;
     storedCertificate := storedCertificate p; localLoading := localLoading p; profile := profile p;
     profileLoading := profileLoading p; profileError := profileError p; profileFetch := profileFetch p;
     next := S (next p); pending := pending p ++ [(next p, t)]; left_page := left_page p |}.

Definition set_profile (pr : option Account) (loading : bool) (message : ustr) (fetch : option nat) (p : home) : home :=
  {| shown := shown p; mounted := mounted p; operationId := operationId p; fullName := fullName p;
     storedCertificate := storedCertificate p; localLoading := localLoading p; profile := pr;
     profileLoading := loading; profileError := message; profileFetch := fetch;
     next := next p; pending := pending p; left_page := left_page p |}.

Definition set_device (name : ustr) (cert : option StoredCertificate) (p : home) : home :=
  {| shown := shown p; mounted := mounted p; operationId := operationId p; fullName := name;
     storedCertificate := cert; localLoading := false; profile := profile p;
     profileLoading := profileLoading p; profileError := profileError p; profileFetch := profileFetch p;
     next := next p; pending := pending p; left_page := left_page p |}.

Definition mount (s : panel) (p : home) : home :=
  {| shown := s; mounted := next p; operationId := operationId p; fullName := fullName p;
     storedCertificate := storedCertificate p; localLoading := localLoading p; profile := profile p;
     profileLoading := profileLoading p; profileError := profileError p; profileFetch := profileFetch p;
     next := S (next p); pending := pending p; left_page := left_page p |}.

Definition leave (p : home) : home :=
  {| shown := shown p; mounted := mounted p; operationId := operationId p; fullName := fullName p;
     storedCertificate := storedCertificate p; localLoading := localLoading p; profile := profile p;
     profileLoading := profileLoading p; profileError := profileError p; profileFetch := profileFetch p;
     next := next p; pending := pending p; left_page := true |}.

(** [profile?.accountNumber ?? empty] and [profile?.accountId ?? empty]. *)
Definition fromAccountNumber (p : home) : ustr := match profile p with Some a => accountNumber a | None => [] end.
Definition ownAccountId (p : home) : ustr := match profile p with Some a => accountId a | None => [] end.

(** The effect on [session, profileReloadKey]: the reply to an earlier fetch is
    no longer looked at. The first fetch continues the operation of the login. *)
Definition fetch_profile (op : option ustr) (p : home) : home * list call :=
  (start TProfile (set_profile (profile p) true [] (Some (next p)) p), [FetchProfile op]).

Definition reloadProfile (p : home) : home * list call := fetch_profile None p.

(** The effect of [HistoryView], when one of its dependencies has changed. *)
Definition fetch_history (h : HistoryState) (p : home) : home * list call :=
  match ownAccountId p with
  | [] =>
      (set_shown (HistoryView {| hs_items := hs_items h; hs_total := hs_total h; hs_loading := hs_loading h;
                                 hs_error := hs_error h; hs_fetch := None |}) p, [])
  | id =>
      (start THistory (set_shown (HistoryView
         {| hs_items := hs_items h; hs_total := hs_total h; hs_loading := true; hs_error := [];
            hs_fetch := Some (next p) |}) p), [FetchHistory id])
  end.

(** The effect of [CertificateView]. *)
Definition parse_certificate (c : CertificateState) (p : home) : home * list call :=
  match storedCertificate p with
  | None =>
      (set_shown (CertificateView {| cs_parsed := None; cs_parseError := []; cs_parsing := false; cs_task := None |}) p, [])
  | Some cert =>
      (start TParse (set_shown (CertificateView
         {| cs_parsed := cs_parsed c; cs_parseError := []; cs_parsing := true; cs_task := Some (next p) |}) p),
       [ParseCertificate (sc_certificatePem cert)])
  end.

Definition new_history : HistoryState :=
  {| hs_items := []; hs_total := 0; hs_loading := true; hs_error := []; hs_fetch := None |}.
Definition new_certificate : CertificateState :=
  {| cs_parsed := None; cs_parseError := []; cs_parsing := false; cs_task := None |}.

(** [setView(v)]: another view is mounted anew, the same one stays. *)
Definition setView (v : view) (p : home) : home * list call :=
  if bool_decide (view_of (shown p) = v) then (p, [])
  else match v with
       | overview => (mount ProfileOverview p, [])
       | transfer => (mount (TransferForm new_form) p, [])
       | history => let p' := mount (HistoryView new_history) p in fetch_history new_history p'
       | certificate => let p' := mount (CertificateView new_certificate) p in parse_certificate new_certificate p'
       end.

Definition handleLogout (p : home) : home * list call :=
  (leave p, [ClearServiceTickets; ClearSession; Navigate "/login"]).

(** Both reload keys change: the profile is fetched, and the history if it is shown. *)
Definition handleTransferFail (p : home) : home * list call :=
  let (p1, c1) := reloadProfile p in
  match shown p1 with
  | HistoryView h => let (p2, c2) := fetch_history h p1 in (p2, c1 ++ c2)
  | _ => (p1, c1)
  end.

(** ** Replies *)

Definition device_read (r : result js_exception (ustr * option StoredCertificate)) (p : home) : home * list call :=
  match r with
  | Err _ => (set_device (fullName p) (storedCertificate p) p, [])
  | Ok (name, cert) =>
      let p' := set_device name cert p in
      match shown p', cert with
      | CertificateView c, Some _ => parse_certificate c p'
      | _, _ => (p', [])
      end
  end.

(** The reply to the fetch of the active effect; a new account is another
    dependency of the history. *)
Definition profile_reply (k : nat) (r : result js_exception Account) (p : home) : home * list call :=
  if bool_decide (profileFetch p = Some k) then
    match r with
    | Ok a =>
        let p' := set_profile (Some a) false (profileError p) None p in
        match shown p' with
        | HistoryView h => if ustr_eqb (ownAccountId p) (accountId a) then (p', []) else fetch_history h p'
        | _ => (p', [])
        end
    | Err e => (set_profile (profile p) false (message_of e "Không tải được thông tin tài khoản") None p, [])
    end
  else (p, []).

Definition history_reply (k : nat) (r : result js_exception (list HistoryItem * Z)) (p : home) : home :=
  match shown p with
  | HistoryView h =>
      if bool_decide (hs_fetch h = Some k) then
        set_shown (HistoryView
          match r with
          | Ok (items, total) =>
              {| hs_items := items; hs_total := total; hs_loading := false; hs_error := hs_error h; hs_fetch := None |}
          | Err e =>
              {| hs_items := hs_items h; hs_total := hs_total h; hs_loading := false;
                 hs_error := message_of e "Không tải được lịch sử giao dịch"; hs_fetch := None |}
          end) p
      else p
  | _ => p
  end.

Definition certificate_parsed (k : nat) (r : result js_exception ParsedCertificateJson) (p : home) : home :=
  match shown p with
  | CertificateView c =>
      if bool_decide (cs_task c = Some k) then
        set_shown (CertificateView
          match r with
          | Ok v => {| cs_parsed := Some v; cs_parseError := cs_parseError c; cs_parsing := false; cs_task := None |}
          | Err _ => {| cs_parsed := None;
                        cs_parseError := u8 "Không thể phân tích chứng chỉ X.509 được lưu trên thiết bị";
                        cs_parsing := false; cs_task := None |}
          end) p
      else p
  | _ => p
  end.

(** The form learns the outcome if it is still mounted. *)
Definition told (m : nat) (r : result js_exception ustr) (p : home) : home :=
  match shown p with
  | TransferForm f => if (mounted p =? m)%nat then set_shown (TransferForm (performed r f)) p else p
  | _ => p
  end.

(** The page reloads in either case. *)
Definition transfer_reply (m : nat) (r : result js_exception ustr) (p : home) : home * list call :=
  let p' := told m r p in match r with Ok _ => reloadProfile p' | Err _ => handleTransferFail p' end.

(** The task with a number, and the page without it. *)
Definition take_task (k : nat) (p : home) : option (task * home) :=
  match take_numbered k (pending p) with Some (t, l) => Some (t, set_pending l p) | None => None end.

(** The button of [ProfileOverview], under the profile or under what went wrong. *)
Definition reload_offered (p : home) : bool :=
  negb (profileLoading p) && (nonempty (profileError p) || bool_decide (is_Some (profile p))).

(** One input; [None] when the page does not offer it. *)
Definition react (p : home) (i : input) : option (home * list call) :=
  if left_page p then None
  else
    match i with
    | FormInput fi =>
        match shown p with
        | TransferForm f =>
            match form_react (fromAccountNumber p) f fi with
            | Some (f', None) => Some (set_shown (TransferForm f') p, [])
            | Some (f', Some c) =>
                Some (start (TTransfer (mounted p)) (set_shown (TransferForm f') p), [PerformTransfer c])
            | None => None
            end
        | _ => None
        end
    | SetView v => Some (setView v p)
    | ReloadProfile =>
        match shown p with
        | ProfileOverview => if reload_offered p then Some (reloadProfile p) else None
        | _ => None
        end
    | ReloadHistory =>
        match shown p with
        | HistoryView h => if hs_loading h || negb (nonempty (ownAccountId p)) then None else Some (fetch_history h p)
        | _ => None
        end
    | Logout => Some (handleLogout p)
    | DeviceRead k r => match take_task k p with Some (TLocal, p') => Some (device_read r p') | _ => None end
    | ProfileReply k r => match take_task k p with Some (TProfile, p') => Some (profile_reply k r p') | _ => None end
    | HistoryReply k r => match take_task k p with Some (THistory, p') => Some (history_reply k r p', []) | _ => None end
    | CertificateParsed k r => match take_task k p with Some (TParse, p') => Some (certificate_parsed k r p', []) | _ => None end
    | TransferReply k r => match take_task k p with Some (TTransfer m, p') => Some (transfer_reply m r p') | _ => None end
    end.

Definition blank (op : option ustr) : home :=
  {| shown := ProfileOverview; mounted := 0; operationId := op; fullName := []; storedCertificate := None;
     localLoading := true; profile := None; profileLoading := true; profileError := []; profileFetch := None;
     next := 1; pending := []; left_page := false |}.

(** The page is opened: without a valid TGT it goes to the login; otherwise the
    device is read and, with the session, the profile is fetched. *)
Definition opened (session : option (option ustr)) : home * list call :=
  match session with
  | None => (leave (blank None), [Navigate "/login"])
  | Some op => let (p, c) := fetch_profile op (start TLocal (blank op)) in (p, ReadDevice :: c)
  end.

(** The dialog of the form, if one is open. *)
Definition dialog (p : home) : option TransferModal :=
  match shown p with TransferForm f => modal f | _ => None end.

(** An input that reaches behind an open dialog, with the keyboard. *)
Definition reaches_behind (p : home) (i : input) : bool :=
  match dialog p with
  | None => false
  | Some _ => match i with FormInput fi => behind fi | SetView _ | Logout => true | _ => false end
  end.

(** ** Runs *)

Definition reaches_not_behind (p : home) (i : input) : bool := negb (reaches_behind p i).

#[local] Notation run := (list (step_taken home input call)).

(** The submission of a form with these contents was accepted. *)
Definition submitted (t : run) (to amount text : ustr) : Prop :=
  exists s f, s ∈ t /\ by_input s = FormInput Submit /\ shown (before s) = TransferForm f /\
    canContinue (fromAccountNumber (before s)) f = true /\
    toAccount f = to /\ amountText f = amount /\ description f = text.

Lemma submitted_cons s t to amount text : submitted t to amount text -> submitted (s :: t) to amount text.
Proof. intros (s' & f & Hs & H). exists s', f. split; [by apply list_elem_of_further | done]. Qed.

(** The confirmation of these contents was shown. *)
Definition confirmed (t : run) (to amount text : ustr) : Prop :=
  exists s f, s ∈ t /\ shown (before s) = TransferForm f /\ modal f = Some confirm /\
    toAccount f = to /\ amountText f = amount /\ description f = text.

Lemma confirmed_cons s t to amount text : confirmed t to amount text -> confirmed (s :: t) to amount text.
Proof. intros (s' & f & Hs & H). exists s', f. split; [by apply list_elem_of_further | done]. Qed.

(** The dialogs after the confirmation. *)
Definition past_confirm (m : option TransferModal) : bool :=
  match m with Some (pin_entry | processing | error) => true | _ => false end.

(** What holds of the form in every run. *)
Record form_ok (t : run) (f : Form) : Prop := FormOk {
  fo_to : all_digits (toAccount f) = true;
  fo_amount : all_digits (amountText f) = true;
  fo_pin : pin_part (pin f);
  fo_open : modal f <> None -> submitted t (toAccount f) (amountText f) (description f);
  fo_confirmed : past_confirm (modal f) = true -> confirmed t (toAccount f) (amountText f) (description f)
}.

Definition form_of (p : home) : option Form := match shown p with TransferForm f => Some f | _ => None end.

(** A transfer is under way exactly while the form that began it says so, and
    then it is the only one. *)
Record good (t : run) (p : home) : Prop := Good {
  go_numbered : numbered (next p) (pending p);
  go_form : forall f, form_of p = Some f -> form_ok t f;
  go_mount : forall k m, (k, TTransfer m) ∈ pending p -> m = mounted p /\ dialog p = Some processing;
  go_single : forall k k' m m', (k, TTransfer m) ∈ pending p -> (k', TTransfer m') ∈ pending p -> k = k';
  go_waits : dialog p = Some processing -> exists k, (k, TTransfer (mounted p)) ∈ pending p
}.

Lemma form_ok_cons s t f : form_ok t f -> form_ok (s :: t) f.
Proof. intros [H1 H2 H3 H4 H5]. split; [done..| |]; intros Hm; [by apply submitted_cons, H4 | by apply confirmed_cons, H5]. Qed.

Lemma home_good_cons s t p : good t p -> good (s :: t) p.
Proof. intros [H0 H1 H2 H3 H4]. split; [done | |done..]. intros f Hf. by apply form_ok_cons, H1. Qed.

Lemma dialog_form p : dialog p = match form_of p with Some f => modal f | None => None end.
Proof. unfold dialog, form_of. by destruct (shown p). Qed.

Lemma form_of_shown p f : form_of p = Some f -> shown p = TransferForm f.
Proof. unfold form_of. destruct (shown p); congruence. Qed.

(** A step that leaves the form and the transfers alone. *)
Definition frame (p p' : home) : Prop :=
  form_of p' = form_of p /\ mounted p' = mounted p /\
  (forall k m, (k, TTransfer m) ∈ pending p' <-> (k, TTransfer m) ∈ pending p) /\
  (numbered (next p) (pending p) -> numbered (next p') (pending p')).

Lemma frame_intro p p' : form_of p' = form_of p -> mounted p' = mounted p -> pending p' = pending p ->
  (next p <= next p')%nat -> frame p p'.
Proof.
  intros Hf Hm Hp Hn. unfold frame. rewrite Hp. split_and!; try done. by apply numbered_le.
Qed.

#[local] Instance frame_refl : Reflexive frame.
Proof. intros p. by apply frame_intro. Qed.

#[local] Instance frame_trans : Transitive frame.
Proof.
  intros p1 p2 p3 (H1 & H2 & H3 & H) (H4 & H5 & H6 & H'). split_and!; [congruence.. | | auto].
  intros k m. by rewrite H6, H3.
Qed.

Lemma good_frame t p p' : frame p p' -> good t p -> good t p'.
Proof.
  intros (Hf & Hm & Hp & Hn) [H0 H1 H2 H3 H4]. split.
  - by apply Hn.
  - intros f. rewrite Hf. apply H1.
  - intros k m Hk. apply Hp, H2 in Hk. by rewrite dialog_form, Hf, <- dialog_form, Hm.
  - intros k k' m m' Hk Hk'. apply Hp in Hk, Hk'. by eapply H3.
  - rewrite dialog_form, Hf, <- dialog_form, Hm. intros Hd. destruct (H4 Hd) as [k Hk]. exists k. by apply Hp.
Qed.

Lemma frame_start t p : (forall m, t <> TTransfer m) -> frame p (start t p).
Proof.
  intros Ht. split_and!; [done.. | | apply numbered_add]. intros k m. cbn. rewrite elem_of_app, list_elem_of_singleton.
  split; [intros [|[= _ He]]; [done | by destruct (Ht m)] | by left].
Qed.

Lemma frame_set_shown s p : form_of p = None -> (forall f, s <> TransferForm f) -> frame p (set_shown s p).
Proof. intros Hp Hs. apply frame_intro; [|done..]. rewrite Hp. unfold form_of. cbn. destruct s; try done. by destruct (Hs f). Qed.

Lemma frame_fetch_profile op p : frame p (fetch_profile op p).1.
Proof. unfold fetch_profile. cbn [fst]. etrans; [|by apply frame_start]. by apply frame_intro. Qed.

Lemma frame_fetch_history h p : form_of p = None -> frame p (fetch_history h p).1.
Proof.
  intros Hf. unfold fetch_history. destruct (ownAccountId p); cbn [fst]; [by apply frame_set_shown|].
  etrans; [|by apply frame_start]. by apply frame_set_shown.
Qed.

Lemma frame_parse_certificate c p : form_of p = None -> frame p (parse_certificate c p).1.
Proof.
  intros Hf. unfold parse_certificate. destruct (storedCertificate p); cbn [fst]; [|by apply frame_set_shown].
  etrans; [|by apply frame_start]. by apply frame_set_shown.
Qed.

Lemma frame_handleTransferFail p : frame p (handleTransferFail p).1.
Proof.
  unfold handleTransferFail, reloadProfile. pose proof (frame_fetch_profile None p) as Hf.
  destruct (fetch_profile None p) as [p1 c1]. cbn [fst] in Hf.
  destruct (shown p1) as [| |h|] eqn:Hs; try exact Hf.
  pose proof (frame_fetch_history h p1) as Hh. destruct (fetch_history h p1) as [p2 c2]. etrans; [exact Hf|].
  apply Hh. unfold form_of. by rewrite Hs.
Qed.

Lemma frame_device_read r p : frame p (device_read r p).1.
Proof.
  unfold device_read. destruct r as [[name cert]|e]; [|by apply frame_intro].
  assert (H : frame p (set_device name cert p)) by by apply frame_intro.
  destruct (shown (set_device name cert p)) as [| | |c] eqn:Hs; try exact H.
  destruct cert as [cert|]; [|exact H]. etrans; [exact H|]. apply frame_parse_certificate. unfold form_of. by rewrite Hs.
Qed.

Lemma frame_profile_reply k r p : frame p (profile_reply k r p).1.
Proof.
  unfold profile_reply. case_bool_decide; [|done]. destruct r as [a|e]; [|by apply frame_intro].
  set (p' := set_profile (Some a) false (profileError p) None p). assert (H' : frame p p') by by apply frame_intro.
  destruct (shown p') as [| |h|] eqn:Hs; try exact H'. destruct (ustr_eqb _ _); [exact H'|].
  etrans; [exact H'|]. apply frame_fetch_history. unfold form_of. by rewrite Hs.
Qed.

Lemma frame_history_reply k r p : frame p (history_reply k r p).
Proof.
  unfold history_reply. destruct (shown p) as [| |h|] eqn:Hs; try done. case_bool_decide; [|done].
  apply frame_set_shown; [unfold form_of; by rewrite Hs | done].
Qed.

Lemma frame_certificate_parsed k r p : frame p (certificate_parsed k r p).
Proof.
  unfold certificate_parsed. destruct (shown p) as [| | |c] eqn:Hs; try done. case_bool_decide; [|done].
  apply frame_set_shown; [unfold form_of; by rewrite Hs | done].
Qed.

#[local] Hint Resolve frame_fetch_profile frame_device_read frame_profile_reply frame_history_reply
  frame_certificate_parsed frame_handleTransferFail : frame.

Lemma only_digits_all s : all_digits (only_digits s) = true.
Proof.
  apply Is_true_eq_true, forallb_True, Forall_forall. intros u Hu. apply list_elem_of_filter in Hu as [Hu _]. by rewrite Hu.
Qed.

Lemma form_ok_modal t m p' message f :
  form_ok t f -> pin_part p' -> (m <> None -> submitted t (toAccount f) (amountText f) (description f)) ->
  (past_confirm m = true -> confirmed t (toAccount f) (amountText f) (description f)) ->
  form_ok t (with_modal m p' message f).
Proof. intros [H1 H2 H3 H4 H5] Hp Hm Hc. by split. Qed.

Lemma form_ok_fields t to amount text f :
  form_ok t f -> modal f = None -> all_digits to = true -> all_digits amount = true ->
  form_ok t (with_fields to amount text f).
Proof. intros [H1 H2 H3 H4 H5] Hm Ht Ha. split; [done..| |]; cbn; by rewrite Hm. Qed.

#[local] Hint Resolve pin_part_nil only_digits_all : form.

(** An input of the form: it stays in order, and a transfer begins with the last
    digit of the PIN only. *)
Lemma form_step T from f fi f' oc :
  form_react from f fi = Some (f', oc) -> (behind fi = true -> modal f = None) -> form_ok T f ->
  (fi = Submit -> canContinue from f = true -> submitted T (toAccount f) (amountText f) (description f)) ->
  (modal f = Some confirm -> confirmed T (toAccount f) (amountText f) (description f)) ->
  form_ok T f' /\
  match oc with
  | None => modal f' = Some processing <-> modal f = Some processing
  | Some c => modal f = Some pin_entry /\ modal f' = Some processing /\ c = (perform from (t_pin c) f).2 /\
              pin_whole (t_pin c)
  end.
Proof.
  intros Hr Hb Hf Hs Hcf. pose proof (fo_amount _ _ Hf) as Ha. pose proof (fo_to _ _ Hf) as Ht.
  assert (Hopen : modal f <> None -> submitted T (toAccount f) (amountText f) (description f)) by apply Hf.
  assert (Hpast : past_confirm (modal f) = true -> confirmed T (toAccount f) (amountText f) (description f)) by apply Hf.
  destruct fi as [v|v|v| | | | |k]; cbn [form_react] in Hr.
  1-3: specialize (Hb eq_refl); injection Hr as <- <-; split; [apply form_ok_fields; auto with form | done].
  - destruct (canContinue from f) eqn:Hc; [|done]. injection Hr as <- <-. unfold openConfirmation. rewrite Hc.
    specialize (Hb eq_refl). split; [|cbn; rewrite Hb; naive_solver].
    apply form_ok_modal; [done | apply Hf | intros _; by apply Hs | done].
  - assert (Hr' : oc = None /\ f' = closeModal f /\ modal f <> Some processing)
      by (destruct (modal f) as [[]|] eqn:Hm; try done; injection Hr as <- <-; by split_and!).
    destruct Hr' as (-> & -> & Hm). unfold closeModal. split.
    + destruct (modal f) as [[]|]; try done; try (apply form_ok_modal; auto with form; done).
      split; cbn; auto with form; done.
    + destruct (modal f) as [[]|]; cbn; naive_solver.
  - destruct (modal f) as [[]|] eqn:Hm; try done; injection Hr as <- <-;
      (split; [apply form_ok_modal; auto with form | done]).
  - destruct (modal f) as [[]|] eqn:Hm; try done; injection Hr as <- <-;
      (split; [apply form_ok_modal; auto with form; done | done]).
  - destruct (modal f) as [[]|] eqn:Hm; try done. destruct (offered_key k) eqn:Hk; [|done].
    injection Hr as Hr. unfold handlePinKey in Hr. rewrite Hm in Hr.
    pose proof (press_part (pin f) k Hk (fo_pin _ _ Hf)) as Hp.
    pose proof (press_whole (pin f) k Hk (fo_pin _ _ Hf)) as Hw.
    destruct (press (pin f) k) as [next full]. cbn [fst snd] in *. destruct full.
    + unfold perform in Hr. injection Hr as <- <-. split; [|by split_and!; auto].
      apply form_ok_modal; [by apply form_ok_modal; auto with form | done | auto | auto].
    + injection Hr as <- <-. split; [|done]. apply form_ok_modal; auto with form.
Qed.

Lemma take_task_some k p t p' : take_task k p = Some (t, p') ->
  (k, t) ∈ pending p /\ p' = set_pending (filter (fun t => t.1 <> k) (pending p)) p.
Proof.
  unfold take_task. destruct (take_numbered k (pending p)) as [[t0 l]|] eqn:Hk; [|done]. intros [= -> <-].
  apply take_numbered_some in Hk as [Hk ->]. done.
Qed.

(** The page without a task that is not a transfer. *)
Lemma frame_take k p t p' : (forall m, t <> TTransfer m) ->
  (forall t', (k, t') ∈ pending p -> t' = t) -> take_task k p = Some (t, p') -> frame p p'.
Proof.
  intros Ht Hu Hk. apply take_task_some in Hk as [Hin ->]. split_and!; [done.. | | apply numbered_rest]. intros k0 m. cbn.
  rewrite list_elem_of_filter. split; [by intros [_ H]|]. intros H. split; [|done]. cbn. intros ->.
  apply (Ht m). by rewrite (Hu _ H).
Qed.


(** The form that is on the page is replaced; no transfer begins or ends. *)
Lemma good_set_form t f p f0 : form_of p = Some f0 -> form_ok t f ->
  (modal f = Some processing <-> modal f0 = Some processing) -> good t p -> good t (set_shown (TransferForm f) p).
Proof.
  intros Hp Hf Hm [H0 H1 H2 H3 H4]. assert (Hd : dialog p = modal f0) by (by rewrite dialog_form, Hp). split; cbn.
  - done.
  - by intros f' [= <-].
  - intros k m Hk. destruct (H2 k m Hk) as [-> Hd']. split; [done|]. apply Hm. congruence.
  - done.
  - intros Hpr. apply H4. rewrite Hd. by apply Hm.
Qed.

(** A transfer begins. *)
Lemma home_good_begin t f p : form_ok t f -> modal f = Some processing -> dialog p <> Some processing -> good t p ->
  good t (start (TTransfer (mounted p)) (set_shown (TransferForm f) p)).
Proof.
  intros Hf Hm Hd [H0 H1 H2 H3 H4].
  assert (Hnone : forall k m, (k, TTransfer m) ∉ pending p) by (intros k m Hk; by destruct (H2 k m Hk)).
  assert (Hone : forall k m, (k, TTransfer m) ∈ pending p ++ [(next p, TTransfer (mounted p))] ->
                   k = next p /\ m = mounted p).
  { intros k m Hk. apply elem_of_app in Hk as [Hk|Hk]; [by destruct (Hnone k m)|].
    apply list_elem_of_singleton in Hk. by injection Hk as -> ->. }
  split; cbn.
  - by apply numbered_add.
  - by intros f' [= <-].
  - intros k m Hk. by destruct (Hone k m Hk) as [_ ->].
  - intros k k' m m' Hk Hk'. destruct (Hone k m Hk), (Hone k' m' Hk'). congruence.
  - intros _. exists (next p). apply elem_of_app. right. by apply list_elem_of_singleton.
Qed.

(** Another view is mounted. *)
Lemma good_mount t s p : (forall f, s = TransferForm f -> form_ok t f /\ modal f = None) -> dialog p = None ->
  good t p -> good t (mount s p).
Proof.
  intros Hs Hd [H0 H1 H2 H3 H4].
  assert (Hnone : forall k m, (k, TTransfer m) ∉ pending p) by (intros k m Hk; destruct (H2 k m Hk); congruence).
  split; cbn.
  - eapply numbered_le; [|exact H0]. lia.
  - intros f Hf. unfold form_of in Hf. cbn in Hf. destruct s; try done. injection Hf as ->. by apply Hs.
  - intros k m Hk. by apply Hnone in Hk.
  - intros k k' m m' Hk. by apply Hnone in Hk.
  - unfold dialog. cbn. destruct s as [|f| |]; try done. intros Hm. destruct (Hs f eq_refl). congruence.
Qed.

Lemma good_setView t v p : dialog p = None -> good t p -> good t (setView v p).1.
Proof.
  intros Hd Hg. unfold setView. case_bool_decide; [done|].
  assert (Hm : forall s, (forall f, s <> TransferForm f) -> good t (mount s p)).
  { intros s Hs. apply good_mount; [|done..]. intros f Hf. by apply Hs in Hf. }
  destruct v; cbn [fst].
  - by apply Hm.
  - apply good_mount; [|done..]. intros f [= <-]. split; [|done]. by split; auto with form.
  - eapply good_frame; [by apply frame_fetch_history | by apply Hm].
  - eapply good_frame; [by apply frame_parse_certificate | by apply Hm].
Qed.

(** The reply to a transfer. *)
Lemma good_transfer_reply t k m r p p' : take_task k p = Some (TTransfer m, p') -> good t p ->
  good t (transfer_reply m r p').1.
Proof.
  intros Hk [H0 H1 H2 H3 H4]. apply take_task_some in Hk as [Hin ->]. destruct (H2 k m Hin) as [-> Hd].
  set (p' := set_pending _ p).
  assert (Hsh : exists f, shown p = TransferForm f /\ modal f = Some processing).
  { rewrite dialog_form in Hd. destruct (form_of p) as [f|] eqn:Hf; [|done]. exists f. by split; [apply form_of_shown|]. }
  destruct Hsh as (f & Hsh & Hm). assert (Hf : form_ok t f) by (apply H1; unfold form_of; by rewrite Hsh).
  assert (Hg : good t (told (mounted p) r p')).
  { assert (Hq : told (mounted p) r p' = set_shown (TransferForm (performed r f)) p')
      by (unfold told; cbn; by rewrite Hsh, Nat.eqb_refl).
    rewrite Hq. assert (Hnone : forall k' m', (k', TTransfer m') ∉ pending p').
    { intros k' m' Hk'. cbn in Hk'. apply list_elem_of_filter in Hk' as [Hne Hk']. cbn in Hne.
      by rewrite (H3 _ _ _ _ Hk' Hin) in Hne. }
    split.
    - by apply numbered_rest.
    - intros f' [= <-]. assert (modal f <> None) by congruence.
      destruct r; apply form_ok_modal; auto with form; try (intros _; apply Hf; by rewrite Hm); done.
    - intros k' m' Hk'. by apply Hnone in Hk'.
    - intros k' k2 m' m2 Hk'. by apply Hnone in Hk'.
    - by destruct r. }
  unfold transfer_reply. destruct r; (eapply good_frame; [|exact Hg]).
  - apply frame_fetch_profile.
  - apply frame_handleTransferFail.
Qed.

(** The page as it is used with the pointer. *)
#[local] Notation pointed := (disciplined reaches_not_behind react).

(** The reply to a task that is not a transfer. *)
Lemma good_reply t k tk p p' q : take_task k p = Some (tk, p') -> (forall m, tk <> TTransfer m) ->
  frame p' q -> good t p -> good t q.
Proof.
  intros Hk Ht Hq Hg. eapply good_frame; [exact Hq|]. eapply good_frame; [|exact Hg].
  eapply frame_take; [exact Ht | | exact Hk]. intros t' Hin. eapply numbered_unique; [apply Hg | | exact Hin].
  by apply take_task_some in Hk as [? _].
Qed.

Ltac reply_step :=
  match goal with
  | Hr : match take_task ?k ?p with _ => _ end = Some _ |- _ =>
      destruct (take_task k p) as [[[] ?]|] eqn:?; try discriminate Hr; injection Hr as Hr
  end.

Lemma home_good_react t p i p' cs : good t p -> pointed p i = Some (p', cs) ->
  good ({| before := p; by_input := i; calls := cs |} :: t) p'.
Proof.
  intros Hg Hr. apply disciplined_some in Hr as [Hb Hr]. unfold reaches_not_behind in Hb. apply negb_true_iff in Hb.
  apply (home_good_cons {| before := p; by_input := i; calls := cs |}) in Hg.
  assert (Hs0 : {| before := p; by_input := i; calls := cs |} ∈ {| before := p; by_input := i; calls := cs |} :: t)
    by apply list_elem_of_here.
  set (s0 := {| before := p; by_input := i; calls := cs |}) in *. set (T := s0 :: t) in *.
  unfold react in Hr. destruct (left_page p); [done|]. destruct i as [fi|v| | | |k r|k r|k r|k r|k r].
  - destruct (shown p) as [|f| |] eqn:Hsh; try done. destruct (form_react _ f fi) as [[f' oc]|] eqn:Hf; [|done].
    assert (Hfp : form_of p = Some f) by (unfold form_of; by rewrite Hsh).
    unfold reaches_behind in Hb. rewrite dialog_form, Hfp in Hb.
    destruct (form_step T _ _ _ _ _ Hf) as [Hok Hc].
    + intros Hbe. destruct (modal f); [congruence | done].
    + by apply Hg.
    + intros -> Hcan. exists s0, f. by split_and!.
    + intros Hm. exists s0, f. by split_and!.
    + destruct oc as [c|]; injection Hr as <- <-; [|by eapply good_set_form].
      destruct Hc as (Hpin & Hpr & _). apply home_good_begin; try done. rewrite dialog_form, Hfp. congruence.
  - injection Hr as Hr. change p' with (p', cs).1. rewrite <- Hr. apply good_setView; [|done].
    unfold reaches_behind in Hb. by destruct (dialog p).
  - destruct (shown p); try done. destruct (reload_offered p); [|done]. injection Hr as <- <-. eapply good_frame; [apply (frame_fetch_profile None) | done].
  - destruct (shown p) as [| |h|] eqn:Hsh; try done. destruct (_ || _); [done|]. injection Hr as Hr.
    change p' with (p', cs).1. rewrite <- Hr. eapply good_frame; [apply frame_fetch_history | done].
    unfold form_of. by rewrite Hsh.
  - injection Hr as <- <-. apply (good_frame _ p); [by apply frame_intro | done].
  - reply_step. change p' with (p', cs).1. rewrite <- Hr. eapply good_reply; eauto with frame; done.
  - reply_step. change p' with (p', cs).1. rewrite <- Hr. eapply good_reply; eauto with frame; done.
  - reply_step. subst p'. eapply good_reply; eauto with frame; done.
  - reply_step. subst p'. eapply good_reply; eauto with frame; done.
  - reply_step. change p' with (p', cs).1. rewrite <- Hr. by eapply good_transfer_reply.
Qed.

Lemma good_empty t p : pending p = [] -> shown p = ProfileOverview -> good t p.
Proof.
  intros Hp Hs. assert (Hno : forall k tk, (k, tk) ∉ pending p) by (intros k tk; rewrite Hp; apply not_elem_of_nil).
  split.
  - rewrite Hp. apply numbered_nil.
  - unfold form_of. by rewrite Hs.
  - intros k m Hk. by apply Hno in Hk.
  - intros k k' m m' Hk. by apply Hno in Hk.
  - unfold dialog. by rewrite Hs.
Qed.

Lemma home_good_opened session : good [] (opened session).1.
Proof.
  destruct session as [op|]; [|by apply good_empty]. unfold opened.
  pose proof (frame_fetch_profile op (start TLocal (blank op))) as Hf.
  destruct (fetch_profile _ _) as [q c]. eapply good_frame; [exact Hf|].
  eapply good_frame; [by apply frame_start | by apply good_empty].
Qed.

Lemma home_reaches_good session t p : reaches pointed (opened session).1 t p -> good t p.
Proof. apply reaches_invariant; [apply home_good_opened | apply home_good_react]. Qed.

(** Only the form begins a transfer. *)
Definition no_transfer (cs : list call) : Prop := forall c, PerformTransfer c ∉ cs.

Lemma no_transfer_nil : no_transfer [].
Proof. intros c. apply not_elem_of_nil. Qed.

Lemma no_transfer_cons x cs : (forall c, x <> PerformTransfer c) -> no_transfer cs -> no_transfer (x :: cs).
Proof. intros Hx Hcs c Hc. apply elem_of_cons in Hc as [Hc|Hc]; [by apply (Hx c) | by apply (Hcs c)]. Qed.

Lemma no_transfer_app cs cs' : no_transfer cs -> no_transfer cs' -> no_transfer (cs ++ cs').
Proof. intros H H' c Hc. apply elem_of_app in Hc as [Hc|Hc]; [by apply (H c) | by apply (H' c)]. Qed.

#[local] Hint Resolve no_transfer_nil no_transfer_app : calls.
#[local] Hint Extern 1 (no_transfer (_ :: _)) => (apply no_transfer_cons; [done|]) : calls.

Lemma quiet_profile op p : no_transfer (fetch_profile op p).2.
Proof. cbn. auto with calls. Qed.

Lemma quiet_history h p : no_transfer (fetch_history h p).2.
Proof. unfold fetch_history. destruct (ownAccountId p); cbn; auto with calls. Qed.

Lemma quiet_certificate c p : no_transfer (parse_certificate c p).2.
Proof. unfold parse_certificate. destruct (storedCertificate p); cbn; auto with calls. Qed.

#[local] Hint Resolve quiet_profile quiet_history quiet_certificate : calls.

Lemma quiet_setView v p : no_transfer (setView v p).2.
Proof. unfold setView. case_bool_decide; [|destruct v]; cbn [snd]; auto with calls. Qed.

Lemma quiet_fail p : no_transfer (handleTransferFail p).2.
Proof.
  unfold handleTransferFail, reloadProfile. pose proof (quiet_profile None p) as H1.
  destruct (fetch_profile None p) as [p1 c1]. destruct (shown p1) as [| |h|]; try exact H1.
  pose proof (quiet_history h p1) as H2. destruct (fetch_history h p1) as [p2 c2]. cbn in *. auto with calls.
Qed.

Lemma quiet_device r p : no_transfer (device_read r p).2.
Proof.
  unfold device_read. destruct r as [[name cert]|e]; [|cbn; auto with calls].
  destruct (shown _), cert; cbn [snd]; auto with calls.
Qed.

Lemma quiet_profile_reply k r p : no_transfer (profile_reply k r p).2.
Proof.
  unfold profile_reply. case_bool_decide; [|cbn; auto with calls]. destruct r as [a|e]; [|cbn; auto with calls].
  destruct (shown _); try (cbn; auto with calls; fail). destruct (ustr_eqb _ _); cbn [snd]; auto with calls.
Qed.

Lemma quiet_transfer_reply m r p : no_transfer (transfer_reply m r p).2.
Proof. unfold transfer_reply. destruct r; [apply quiet_profile | apply quiet_fail]. Qed.

#[local] Hint Resolve quiet_setView quiet_fail quiet_device quiet_profile_reply quiet_transfer_reply : calls.

Lemma transfer_by_form p i p' cs c : react p i = Some (p', cs) -> PerformTransfer c ∈ cs ->
  exists f f' fi, shown p = TransferForm f /\ i = FormInput fi /\
    form_react (fromAccountNumber p) f fi = Some (f', Some c) /\ cs = [PerformTransfer c].
Proof.
  intros Hr Hc. unfold react in Hr. destruct (left_page p); [done|].
  assert (Hq : no_transfer cs -> False) by (intros Hq; by apply (Hq c)).
  assert (Hno : forall q : home * list call, no_transfer q.2 -> Some q = Some (p', cs) -> False)
    by (intros q H [= ->]; auto).
  destruct i as [fi|v| | | |k r|k r|k r|k r|k r]; try (exfalso; eapply Hno; [|exact Hr]; auto with calls; fail).
  - destruct (shown p) as [|f| |] eqn:Hsh; try done. destruct (form_react _ f fi) as [[f' [c'|]]|] eqn:Hf; [| |done].
    + injection Hr as _ <-. apply list_elem_of_singleton in Hc as [= ->]. by exists f, f', fi.
    + injection Hr as _ <-. by apply elem_of_nil in Hc.
  - destruct (shown p); try done. destruct (reload_offered p); [|done].
    exfalso. eapply Hno; [|exact Hr]. apply quiet_profile.
  - destruct (shown p) as [| |h|]; try done. destruct (_ || _); [done|].
    exfalso. eapply Hno; [|exact Hr]. auto with calls.
  - exfalso. eapply Hno; [|exact Hr]. cbn. auto with calls.
  - exfalso. reply_step. refine (Hno _ _ (f_equal Some Hr)). auto with calls.
  - exfalso. reply_step. refine (Hno _ _ (f_equal Some Hr)). auto with calls.
  - exfalso. reply_step. subst. auto with calls.
  - exfalso. reply_step. subst. auto with calls.
  - exfalso. reply_step. refine (Hno _ _ (f_equal Some Hr)). auto with calls.
Qed.

Lemma sent_by_form from f fi f' c : form_react from f fi = Some (f', Some c) ->
  modal f = Some pin_entry /\ c = (perform from (t_pin c) f).2.
Proof.
  intros Hf. destruct fi as [v|v|v| | | | |k]; cbn [form_react] in Hf.
  1-3: by destruct (modal f).
  1: by destruct (canContinue from f), (modal f).
  1-3: by destruct (modal f) as [[]|].
  destruct (modal f) as [[]|] eqn:Hm; try done. destruct (offered_key k); [|done]. injection Hf as Hf.
  unfold handlePinKey in Hf. rewrite Hm in Hf. destruct (press (pin f) k) as [next [|]]; [|done].
  unfold perform in Hf. by injection Hf as _ <-.
Qed.

Lemma digit_no_space u : is_digit u = true -> is_space u = false.
Proof.
  unfold is_digit, is_space. intros Hd. bool_to_Z. apply not_true_is_false. intros He.
  apply existsb_exists in He as (x & Hx & Hu). apply Z.eqb_eq in Hu as <-. cbn in Hx. intuition lia.
Qed.

Lemma trimStart_digits s : all_digits s = true -> trimStart s = s.
Proof. destruct s as [|u s]; [done|]. intros Hs. apply andb_true_iff in Hs as [Hu _]. cbn [trimStart]. by rewrite digit_no_space. Qed.

Lemma trim_digits s : all_digits s = true -> trim s = s.
Proof.
  intros Hs. unfold trim. rewrite (trimStart_digits s) by done. rewrite trimStart_digits, rev_involutive; [done|].
  unfold all_digits in *. rewrite forallb_forall in *. intros u Hu. apply Hs. by apply in_rev.
Qed.

(** C20: the transfers of the page. In every run in which nothing behind an open
    dialog is used, whatever the user does otherwise and whenever the replies
    arrive, a transfer begins only with the sixth digit of a PIN. Its receiver,
    amount and description are those of a form whose submission was accepted in
    this run: a receiver of digits that is not the account of that moment, and a
    positive amount. Its source is the account that the page knows, and no other
    transfer is under way. *)
Theorem home_transfer_sound session t p i p' cs c :
  reaches pointed (opened session).1 t p -> pointed p i = Some (p', cs) -> PerformTransfer c ∈ cs ->
  cs = [PerformTransfer c] /\ (forall k m, (k, TTransfer m) ∉ pending p) /\ pin_whole (t_pin c) /\
  t_from c = trim (fromAccountNumber p) /\
  exists amount text, submitted t (t_to c) amount text /\
    digits1 (t_to c) = true /\ t_amount c = Number_digits amount /\ digits1 amount = true /\
    positive (t_amount c) = true /\ t_description c = or_undefined (trim text).
Proof.
  intros Hp Hr Hc. apply home_reaches_good in Hp. apply disciplined_some in Hr as [Hb Hr].
  destruct (transfer_by_form _ _ _ _ _ Hr Hc) as (f & f' & fi & Hsh & -> & Hf & ->).
  unfold reaches_not_behind, reaches_behind in Hb. apply negb_true_iff in Hb.
  assert (Hfp : form_of p = Some f) by (unfold form_of; by rewrite Hsh).
  rewrite dialog_form, Hfp in Hb. pose proof (go_form _ _ Hp f Hfp) as Hok.
  destruct (form_step t _ _ _ _ _ Hf) as (_ & Hpin & _ & Hcf & Hw); [| done | | |].
  { intros Hbe. destruct (modal f); [congruence | done]. }
  { intros ->. cbn in Hf. by destruct (canContinue _ f). }
  { intros Hcm. destruct fi; cbn in Hf; try rewrite Hcm in Hf; try done. by destruct (canContinue _ f). }
  destruct (fo_open _ _ Hok) as (s & f0 & Hs & Hi & Hs0 & Hcan & Hto & Ham & Htx); [congruence|].
  assert (Htrim : trim (toAccount f) = toAccount f) by apply trim_digits, Hok.
  pose proof (trim_digits (amountText f) (fo_amount _ _ Hok)) as Htam.
  split_and!; [done | | done | by rewrite Hcf | exists (amountText f), (description f)].
  - intros k m Hk. destruct (go_mount _ _ Hp k m Hk) as [_ Hd]. rewrite dialog_form, Hfp in Hd. congruence.
  - unfold canContinue in Hcan. unfold amountNumber in Hcan. rewrite Hto, Ham, Htrim, Htam in Hcan.
    repeat (apply andb_true_iff in Hcan as [Hcan ?]). rewrite Hcf. cbn [perform snd t_to t_amount t_description].
    rewrite Htrim. split_and!; try done. apply (fo_open _ _ Hok). congruence.
Qed.

(** C34: a transfer ends. In the same runs, while the page says that it is working
    there is exactly one transfer under way, and its outcome, whenever it comes,
    is shown in the dialog and makes the page fetch the profile again. *)
Theorem home_transfer_ends session t p :
  reaches pointed (opened session).1 t p -> dialog p = Some processing -> left_page p = false ->
  exists k, (k, TTransfer (mounted p)) ∈ pending p /\
    (forall k' m, (k', TTransfer m) ∈ pending p -> k' = k) /\
    forall r, exists p' cs, pointed p (TransferReply k r) = Some (p', cs) /\
      dialog p' = Some (if is_ok r then success else error) /\ FetchProfile None ∈ cs.
Proof.
  intros Hp Hd Hl. apply home_reaches_good in Hp as [H0 H1 H2 H3 H4]. destruct (H4 Hd) as [k Hk]. exists k.
  split_and!; [done | by eauto|]. intros r.
  assert (Htake : take_task k p = Some (TTransfer (mounted p), set_pending (filter (fun t => t.1 <> k) (pending p)) p)).
  { unfold take_task. by rewrite (take_numbered_is _ _ _ _ H0 Hk). }
  set (p1 := set_pending _ p) in *.
  assert (Hpt : pointed p (TransferReply k r) = Some (transfer_reply (mounted p) r p1)).
  { unfold disciplined, reaches_not_behind, reaches_behind. rewrite Hd. cbn. unfold react. rewrite Hl.
    by rewrite Htake. }
  exists (transfer_reply (mounted p) r p1).1, (transfer_reply (mounted p) r p1).2.
  rewrite Hpt. split; [by destruct (transfer_reply _ _ _)|].
  assert (Hsh : exists f, shown p = TransferForm f).
  { unfold dialog in Hd. destruct (shown p) as [|f| |]; try done. by exists f. }
  destruct Hsh as [f Hsh].
  assert (Hq : told (mounted p) r p1 = set_shown (TransferForm (performed r f)) p1)
    by (unfold told; cbn; by rewrite Hsh, Nat.eqb_refl).
  unfold transfer_reply. rewrite Hq. destruct r; cbn; split; try done; by apply list_elem_of_here.
Qed.
End page.

(** ** Concrete runs *)

#[local] Notation reactp := (react (fun s => s) (fun _ => [])).
#[local] Notation pointed := (disciplined reaches_not_behind reactp).

Definition an_account : Account :=
  {| accountId := js "acc"; accountNumber := js "111"; balance := 1000; currency := js "VND";
     dailyTransferLimit := 500; dailyTransferUsed := 0; holder := UStr (js "An"); email := UStr (js "an@x.vn"); accountStatus := UStr (js "active") |}.

Definition pin_keys : list input := replicate 6 (FormInput (PinKey (Digit 7))).

(** To the form, with the account that the login's operation fetched. *)
Definition filled_in : list input :=
  [ProfileReply 2 (Ok an_account); SetView transfer; FormInput (TypeTo (js "222")); FormInput (TypeAmount (js "1.50"));
   FormInput (TypeDescription (js " tea ")); FormInput Submit; FormInput EnterPin].

Definition honest_inputs : list input := filled_in ++ replicate 5 (FormInput (PinKey (Digit 7))).

Definition a_transfer : TransferCall :=
  {| t_from := js "111"; t_to := js "222"; t_amount := Fin 150; t_description := Some (js "tea"); t_pin := js "777777" |}.

Lemma home_transfer_sound_witness :
  match run_inputs pointed honest_inputs [] (opened (Some None)).1 with
  | Some (t, p) => (exists amount text, submitted t (js "222") amount text) /\ forall k m, (k, TTransfer m) ∉ pending p
  | None => False
  end.
Proof.
  destruct (run_inputs _ _ _ _) as [[t p]|] eqn:Hr; [|vm_compute in Hr; discriminate Hr].
  pose proof (run_inputs_reaches _ _ _ _ _ _ _ (reach_start _ _) Hr) as Hp.
  assert (He : exists p' cs, pointed p (FormInput (PinKey (Digit 7))) = Some (p', cs) /\ PerformTransfer a_transfer ∈ cs).
  { vm_compute in Hr. injection Hr as <- <-. do 2 eexists. split; [vm_compute; reflexivity | apply list_elem_of_here]. }
  destruct He as (p' & cs & Hreact & Hin).
  destruct (home_transfer_sound _ _ _ _ _ _ _ _ _ Hp Hreact Hin) as (_ & Hn & _ & _ & amount & text & Hs & _).
  split; [by exists amount, text | exact Hn].
Defined.

Lemma home_transfer_ends_witness :
  match run_inputs pointed (filled_in ++ pin_keys) [] (opened (Some None)).1 with
  | Some (t, p) => exists k, (k, TTransfer (mounted p)) ∈ pending p
  | None => False
  end.
Proof.
  destruct (run_inputs _ _ _ _) as [[t p]|] eqn:Hr; [|vm_compute in Hr; discriminate Hr].
  pose proof (run_inputs_reaches _ _ _ _ _ _ _ (reach_start _ _) Hr) as Hp.
  assert (Hd : dialog p = Some processing /\ left_page p = false) by (vm_compute in Hr; injection Hr as <- <-; by split).
  destruct Hd as [Hd Hl]. destruct (home_transfer_ends _ _ _ _ _ Hp Hd Hl) as (k & Hk & _). by exists k.
Defined.

Definition transfer_of (c : call) : option TransferCall := match c with PerformTransfer c => Some c | _ => None end.
Definition under_way (t : nat * task) : option nat := match t.2 with TTransfer _ => Some t.1 | _ => None end.

(** The confirmed receiver is replaced by the own account, and the amount by zero,
    behind the dialog; then, while that transfer is under way, another form is
    submitted and its transfer begins too. *)
Definition keyboard_inputs : list input :=
  filled_in ++ [FormInput (TypeTo (js "111")); FormInput (TypeAmount (js "0"))] ++ pin_keys ++
  [FormInput (TypeTo (js "333")); FormInput (TypeAmount (js "9")); FormInput Submit; FormInput EnterPin] ++ pin_keys.

(** The dialogs do not guard the form. The fields behind them can still be
    reached with the keyboard, and [perform] reads them without checking them
    again: there is a run whose first transfer goes from an account to itself with
    the amount zero, which no submission of the run confirmed, and whose second
    begins while the first is under way. *)
Theorem fields_behind_dialog toUpperCase thrown_message :
  exists t p, reaches (react toUpperCase thrown_message) (opened (Some None)).1 t p /\
    omap transfer_of (all_calls t) =
      [{| t_from := js "111"; t_to := js "111"; t_amount := Fin 0; t_description := Some (js "tea");
          t_pin := js "777777" |};
       {| t_from := js "111"; t_to := js "333"; t_amount := Fin 9; t_description := Some (js "tea");
          t_pin := js "777777" |}] /\
    length (omap under_way (pending p)) = 2%nat /\
    forall text, ~ submitted t (js "111") (js "0") text.
Proof.
  destruct (run_inputs (react toUpperCase thrown_message) keyboard_inputs [] (opened (Some None)).1) as [[t p]|] eqn:Hr;
    [|vm_compute in Hr; discriminate Hr].
  exists t, p. split; [eapply run_inputs_reaches; [apply reach_start | exact Hr]|].
  vm_compute in Hr. injection Hr as <- <-. split_and!; [vm_compute; reflexivity..|].
  intros text (s & f & Hs & Hi & Hsh & _ & Hto & _).
  repeat (apply elem_of_cons in Hs as [Hs|Hs]; [subst s; cbn in Hi, Hsh; try discriminate Hi; injection Hsh as <-; discriminate Hto|]).
  by apply elem_of_nil in Hs.
Qed.

(** ** Amounts *)

Lemma digits_value_nonneg s : all_digits s = true -> 0 <= digits_value s.
Proof.
  unfold digits_value. assert (H : forall s v, 0 <= v -> all_digits s = true -> 0 <= fold_left (fun v u => v * 10 + (u - 48)) s v).
  { clear s. intros s. induction s as [|u s IH]; intros v Hv Hs; [done|]. cbn. apply andb_true_iff in Hs as [Hu Hs].
    apply IH; [|done]. unfold is_digit in Hu. bool_to_Z. lia. }
  by apply H.
Qed.

Lemma only_digits_app a b : only_digits (a ++ b) = only_digits a ++ only_digits b.
Proof. apply filter_app. Qed.

Lemma only_digits_format s : all_digits s = true -> only_digits (formatAmountInput s) = s.
Proof.
  induction s as [|u s IH]; [done|]. intros Hs. apply andb_true_iff in Hs as [Hu Hs]. cbn [formatAmountInput].
  change (u :: ?l ++ ?k) with ([u] ++ l ++ k). rewrite !only_digits_app, IH by done.
  assert (H1 : only_digits [u] = [u]) by (unfold only_digits; by rewrite filter_cons_True). rewrite H1.
  by destruct (_ && _).
Qed.

(** The amount that is typed. What the field shows, with its dots, is read back
    as the digits that were typed; up to 2^53 - 1 the number of a transfer is
    theirs, and a number up to that bound is never the rounding of a larger one. *)
Theorem amount_entry from f s : all_digits s = true ->
  (exists f', form_react from f (TypeAmount (formatAmountInput s)) = Some (f', None) /\ amountText f' = s) /\
  (digits_value s <= MAX_SAFE_INTEGER -> Number_digits s = Fin (digits_value s)) /\
  (forall n, Number_digits s = Fin n -> n <= MAX_SAFE_INTEGER -> n = digits_value s).
Proof.
  intros Hs. pose proof (digits_value_nonneg s Hs) as Hv. split_and!.
  - eexists. split; [done|]. cbn. by apply only_digits_format.
  - intros Hle. unfold Number_digits. rewrite to_double_safe by lia.
    destruct (Z.ltb_spec (digits_value s) (2 ^ 1024)) as [|Hlt]; [done|]. exfalso.
    assert (MAX_SAFE_INTEGER < 2 ^ 1024) by (by vm_compute). lia.
  - intros n Hn Hle. unfold Number_digits in Hn. destruct (_ <? _); [|done]. injection Hn as <-.
    destruct (Z.le_gt_cases (digits_value s) MAX_SAFE_INTEGER) as [Hl|Hl]; [apply to_double_safe; lia|].
    destruct (to_double_large (digits_value s)) as [H1 H2]; [lia|]. lia.
Qed.

Lemma amount_entry_witness :
  formatAmountInput (js "1234567") = js "1.234.567" /\ Number_digits (js "1234567") = Fin 1234567.
Proof.
  destruct (amount_entry [] new_form (js "1234567") eq_refl) as (_ & Hn & _). split; [reflexivity|].
  apply Hn. vm_compute. discriminate.
Defined.

(** Larger amounts are rounded without a word, and the largest are infinite. *)
Example amount_rounded : Number_digits (js "9007199254740993") = Fin 9007199254740992.
Proof. reflexivity. Qed.

Example amount_infinite : Number_digits (repeat 57 309) = Infinity.
Proof. vm_compute. reflexivity. Qed.
