(* ===== verification/Locale.v ===== *)
(** * Numbers and dates as the pages write them

    [vi_number] is [new Intl.NumberFormat("vi-VN").format] of an integer: its digits
    with dots between groups of three. How dates are written depends on the
    browser's locale data and time zone: they are fields of [Locale], with
    [toLocaleUpperCase] and what is done with values that are no integers. [local_day]
    is the day of the month and the month, from 0, at a time. *)

From S2P Require Import Prelude JsString UString UJson WebCrypto Wire Browser.

Open Scope Z_scope.

(** A separator before every three digits that end the number. *)
Fixpoint grouped (sep : Z) (s : ustr) : ustr :=
  match s with
  | [] => []
  | u :: s' => u :: (if nonempty s' && (length s' mod 3 =? 0)%nat then [sep] else []) ++ grouped sep s'
  end.

Definition vi_number (n : Z) : ustr :=
  if n <? 0 then 45 :: grouped 46 (js (nat_string (- n))) else grouped 46 (js (nat_string n)).

Class Locale := {
  vi_date_time : Z -> ustr;
  vi_upper : ustr -> ustr;
  vi_other : ujson -> ustr;
  other_seconds : ujson -> option Z;
  other_date : ujson -> option Z;
  other_positive : ujson -> bool;
  local_day : Z -> Z * Z;
  en_medium_short : Z -> ustr;
  en_medium_medium : Z -> ustr;
}.

(** A time within the range of dates. *)
Definition time_clip (t : Z) : option Z :=
  if (t <? - 8640000000000000) || (8640000000000000 <? t) then None else Some t.

Section formats.

Context `{L : Locale}.

Definition vi_format (v : ujson) : ustr := match v with UNum n => vi_number n | v => vi_other v end.

(** [new Date(seconds * 1000)]; [None] is an invalid date. *)
Definition date_of_seconds (v : ujson) : option Z :=
  match v with
  | UNum n => time_clip (n * 1000)
  | UNull => Some 0
  | UBool b => Some (if b then 1000 else 0)
  | v => other_seconds v
  end.

(** [value > 0]. *)
Definition positive (v : ujson) : bool :=
  match v with
  | UNum n => 0 <? n
  | UBool b => b
  | UUndefined | UNull | UObj _ => false
  | v => other_positive v
  end.

(** [new Date(value)]. *)
Definition new_Date (v : ujson) : option Z :=
  match v with
  | UNum n => time_clip n
  | UNull => Some 0
  | UBool b => Some (if b then 1 else 0)
  | v => other_date v
  end.

(** [date.toLocaleString("vi-VN")]. *)
Definition toLocaleString (d : option Z) : ustr :=
  match d with Some t => vi_date_time t | None => js "Invalid Date" end.
End formats.

(** ** Reading a number back *)

Definition undotted (s : ustr) : ustr := filter (fun u => u <> 46) s.

Lemma undotted_app a b : undotted (a ++ b) = undotted a ++ undotted b.
Proof. apply filter_app. Qed.

Lemma undotted_grouped s : undotted (grouped 46 s) = undotted s.
Proof.
  induction s as [|u s IH]; [done|]. cbn [grouped]. change (u :: ?l ++ ?k) with ([u] ++ l ++ k).
  change (u :: s) with ([u] ++ s). rewrite !undotted_app, IH. f_equal. by destruct (_ && _).
Qed.

Lemma undotted_js s : sall digit_or_minus s = true -> undotted (js s) = js s.
Proof.
  intros Hs. induction s as [|a s IH]; [done|]. cbn [sall] in Hs. apply andb_true_iff in Hs as [Ha Hs].
  change (js (String a s)) with ([Z.of_N (N_of_ascii a)] ++ js s). rewrite undotted_app, IH by done.
  f_equal. unfold undotted. rewrite filter_cons_True; [done|]. intros He.
  unfold digit_or_minus, digit, code in Ha. rewrite He in Ha. done.
Qed.

Lemma undotted_vi_number n : undotted (vi_number n) = js (Z_string n).
Proof.
  pose proof (Z_string_chars n) as Hc. unfold vi_number, Z_string in *. destruct (n <? 0).
  - change (45 :: ?l) with ([45] ++ l). rewrite undotted_app, undotted_grouped.
    cbn [String.append sall] in Hc. apply andb_true_iff in Hc as [_ Hc]. by rewrite undotted_js.
  - by rewrite undotted_grouped, undotted_js.
Qed.

(** Different integers are written differently. *)
Lemma vi_number_inj a b : vi_number a = vi_number b -> a = b.
Proof. intros H. apply Z_string_inj, js_inj. by rewrite <- !undotted_vi_number, H. Qed.

Example vi_numbers : map vi_number [0; 7; 1234; -1234567; 100000] =
  map js ["0"; "7"; "1.234"; "-1.234.567"; "100.000"].
Proof. reflexivity. Qed.

(** A concrete locale: times in milliseconds, nothing else known. *)
#[export] Instance demo_locale : Locale := {|
  vi_date_time := fun t => js (Z_string t);
  vi_upper := fun s => s;
  vi_other := fun _ => js "NaN";
  other_seconds := fun _ => None;
  other_date := fun _ => None;
  other_positive := fun _ => false;
  local_day := fun t => (t / 86400000 mod 28 + 1, t / 86400000 / 28 mod 12);
  en_medium_short := fun t => js (Z_string t);
  en_medium_medium := fun t => js (Z_string t)
|}.
