(* ===== verification/View.v ===== *)
(** * What a page renders

    The elements that a component returns, as a tree whose controls carry the
    input of the page's machine that their handler gives. Kept are the texts, the
    fields with their values, the buttons with [disabled], and of the attributes
    those that depend on the state or that name something (a title, a
    placeholder); the classes that are always the same are left out, but for
    [Cover], an element that is laid over the whole window. An icon is an element
    without children.

    [controls] are the controls of a tree, [draws] the inputs that they give and
    [on_top] those of its topmost layer, when a dialog covers the page; [texts] is
    what can be read and [crashes] whether React refuses a child. Without an error
    boundary React removes a page that crashes, with all its controls: [offers] and
    [pointed_at] say what can be used and what can be clicked on a page. At the end
    the keypad of the PIN and its dots, which four pages draw. *)

From S2P Require Import Prelude JsString UString UJson WebCrypto Wire Browser Keypad.

Open Scope Z_scope.

Inductive node (I : Type) :=
| Text (s : ustr)
| Elem (tag : string) (attrs : list (string * ustr)) (children : list (node I))
| Button (attrs : list (string * ustr)) (disabled : bool) (onClick : I) (children : list (node I))
| SubmitButton (attrs : list (string * ustr)) (disabled : bool) (children : list (node I))
| Field (tag : string) (attrs : list (string * ustr)) (value : ustr) (disabled : bool) (onChange : option (ustr -> I))
| Select (attrs : list (string * ustr)) (value : ustr) (disabled : bool) (options : list (ustr * ustr)) (onChange : ustr -> I)
| Form (onSubmit : I) (children : list (node I))
| Cover (children : list (node I))
| Crash.

Arguments Text {I} s.
Arguments Elem {I} tag attrs children.
Arguments Button {I} attrs disabled onClick children.
Arguments SubmitButton {I} attrs disabled children.
Arguments Field {I} tag attrs value disabled onChange.
Arguments Select {I} attrs value disabled options onChange.
Arguments Form {I} onSubmit children.
Arguments Cover {I} children.
Arguments Crash {I}.

Abbreviation attributes := (list (string * ustr)).

Lemma or_False_r (P : Prop) : P \/ False <-> P.
Proof. tauto. Qed.

Lemma or_False_l (P : Prop) : False \/ P <-> P.
Proof. tauto. Qed.

Lemma all_elem {A} (f : A -> bool) l x : forallb f l = true -> x ∈ l -> f x = true.
Proof. intros Hl Hx. apply (proj1 (forallb_forall _ _) Hl). by apply list_elem_of_In. Qed.

Section nodes.

Context {I : Type}.

Implicit Types (n : node I) (l : list (node I)).

(** The children of an element. *)
Definition children_of n : list (node I) :=
  match n with
  | Elem _ _ l | Button _ _ _ l | SubmitButton _ _ l | Form _ l | Cover l => l
  | Text _ | Field _ _ _ _ _ | Select _ _ _ _ _ | Crash => []
  end.

(** Induction with the hypothesis for every child. *)
Lemma node_tree_ind (P : node I -> Prop) : (forall n, Forall P (children_of n) -> P n) -> forall n, P n.
Proof.
  intros step. fix go 1. intros n. apply step.
  destruct n; cbn [children_of]; try apply Forall_nil_2; induction children; constructor; auto.
Qed.

(** ** Writing elements *)

Definition txt (literal : string) : node I := Text (u8 literal).
Definition el (tag : string) l : node I := Elem tag [] l.
Definition icon (name : string) : node I := Elem name [] [].

(** [<tag className={cls}>]. *)
Definition styled (tag cls : string) l : node I := Elem tag [("className", js cls)] l.

Definition button (onClick : I) l : node I := Button [] false onClick l.

(** [{b && ...}]. *)
Definition when (b : bool) l : list (node I) := if b then l else [].

(** [{n}] of an integer. *)
Definition num (z : Z) : node I := Text (js (Z_string z)).

(** [{v}] of any value: null and booleans show nothing, a list its items, and an
    object is refused. *)
Fixpoint child (v : ujson) : list (node I) :=
  match v with
  | UStr s | UDec s => [Text s]
  | UNum z => [num z]
  | UNull | UUndefined | UBool _ => []
  | UArr l => flat_map child l
  | UObj _ => [Crash]
  end.

(** What no child refuses. *)
Definition primitive (v : ujson) : bool := match v with UArr _ | UObj _ => false | _ => true end.

(** [{v && ...}]: what is falsy is itself a child. *)
Definition guarded (v : ujson) l : list (node I) := if utruthy v then l else child v.

(** [{table[key]}] of an object literal with texts: no entry shows nothing, nor
    does a function that every object inherits; the prototype is an object. *)
Definition entry_child (table : list (string * string)) (key : ujson) : list (node I) :=
  match List.find (fun e => ustr_eqb (js e.1) (ustring key)) table with
  | Some e => [txt e.2]
  | None => when (ustr_eqb (ustring key) (js "__proto__")) [Crash]
  end.

(** An attribute of any value. *)
Definition attribute (name : string) (v : ujson) : attributes :=
  match v with UUndefined | UNull | UBool _ => [] | v => [(name, ustring v)] end.

(** ** Controls *)

Inductive control :=
| Click (i : I)
| Change (f : ustr -> I)
| Choose (values : list ustr) (f : ustr -> I).

(** An enabled button that submits a form. *)
Fixpoint submits n : bool :=
  match n with
  | SubmitButton _ disabled l => negb disabled || existsb submits l
  | Elem _ _ l | Button _ _ _ l | Form _ l | Cover l => existsb submits l
  | _ => false
  end.

Fixpoint controls n : list control :=
  match n with
  | Text _ | Crash => []
  | Elem _ _ l | SubmitButton _ _ l | Cover l => flat_map controls l
  | Button _ disabled i l => (if disabled then [] else [Click i]) ++ flat_map controls l
  | Field _ _ _ disabled onChange =>
      match onChange with Some f => if disabled then [] else [Change f] | None => [] end
  | Select _ _ disabled options f => if disabled then [] else [Choose (map fst options) f]
  | Form i l => (if existsb submits l then [Click i] else []) ++ flat_map controls l
  end.

(** The input that the use of a control can give. *)
Definition gives (i : I) (c : control) : Prop :=
  match c with
  | Click i' => i = i'
  | Change f => exists v, i = f v
  | Choose values f => exists v, v ∈ values /\ i = f v
  end.

(** The tree has a control that gives the input. *)
Definition draws n (i : I) : Prop := Exists (gives i) (controls n).

(** The element that covers the page, the last one if there are several. *)
Fixpoint covers n : list (list (node I)) :=
  match n with
  | Cover l => l :: flat_map covers l
  | Elem _ _ l | Button _ _ _ l | SubmitButton _ _ l | Form _ l => flat_map covers l
  | _ => []
  end.

(** The topmost layer has such a control. *)
Definition on_top n (i : I) : Prop :=
  match last (covers n) with
  | Some l => Exists (gives i) (flat_map controls l)
  | None => draws n i
  end.

Lemma last_cover l : flat_map covers l = [] -> last (flat_map covers [Cover l]) = Some l.
Proof. intros Hl. cbn [flat_map covers app]. by rewrite Hl. Qed.

(** ** What is read *)

(** A password field shows a dot for every character. *)
Definition field_text (attrs : attributes) (v : ustr) : ustr :=
  if existsb (fun a => String.eqb a.1 "type" && ustr_eqb a.2 (js "password")) attrs
  then map (fun _ => 8226) v else v.

(** The texts, a field's value being one. *)
Fixpoint texts n : list ustr :=
  match n with
  | Text s => [s]
  | Elem _ _ l | Button _ _ _ l | SubmitButton _ _ l | Form _ l | Cover l => flat_map texts l
  | Field _ attrs v _ _ => [field_text attrs v]
  | Select _ v _ _ _ => [v]
  | Crash => []
  end.

(** A label with its value. *)
Definition shows_row n (label : string) (value : ustr) : Prop :=
  exists before after, texts n = before ++ u8 label :: value :: after.

Fixpoint crashes n : bool :=
  match n with
  | Crash => true
  | Elem _ _ l | Button _ _ _ l | SubmitButton _ _ l | Form _ l | Cover l => existsb crashes l
  | _ => false
  end.

(** What can be used on a page, and what can be clicked or typed into without
    leaving its topmost layer: a page with a child that React refuses is removed as
    a whole, since no component of the client catches the error. *)
Definition offers n (i : I) : Prop := crashes n = false /\ draws n i.
Definition pointed_at n (i : I) : Prop := crashes n = false /\ on_top n i.

Lemma offers_shown n i : crashes n = false -> offers n i <-> draws n i.
Proof. intros Hn. unfold offers. rewrite Hn. split; [by intros [_ ?] | by split]. Qed.

Lemma pointed_at_shown n i : crashes n = false -> pointed_at n i <-> on_top n i.
Proof. intros Hn. unfold pointed_at. rewrite Hn. split; [by intros [_ ?] | by split]. Qed.

(** A child that is a value has no controls, covers nothing and, if it is
    primitive, is shown. *)
Lemma child_controls v : flat_map controls (child v) = [].
Proof.
  revert v. fix go 1. intros [| |b|z|s|s|l|l]; [reflexivity..| |reflexivity]. cbn [child]. induction l as [|v l IH]; [done|].
  cbn [flat_map]. by rewrite flat_map_app, go, IH.
Qed.

Lemma child_uncovered v : flat_map covers (child v) = [].
Proof.
  revert v. fix go 1. intros [| |b|z|s|s|l|l]; [reflexivity..| |reflexivity]. cbn [child]. induction l as [|v l IH]; [done|].
  cbn [flat_map]. by rewrite flat_map_app, go, IH.
Qed.

Lemma uor_primitive a b : primitive a = true -> primitive b = true -> primitive (uor a b) = true.
Proof. intros Ha Hb. unfold uor. by destruct (utruthy a). Qed.

Lemma child_shown v : primitive v = true -> existsb crashes (child v) = false.
Proof. by destruct v. Qed.

Lemma entry_controls table v : flat_map controls (entry_child table v) = [].
Proof. unfold entry_child. destruct (List.find _ _); [done|]. by destruct (ustr_eqb _ _). Qed.

Lemma entry_uncovered table v : flat_map covers (entry_child table v) = [].
Proof. unfold entry_child. destruct (List.find _ _); [done|]. by destruct (ustr_eqb _ _). Qed.

Lemma entry_shown table v : ustr_eqb (ustring v) (js "__proto__") = false -> existsb crashes (entry_child table v) = false.
Proof. intros Hv. unfold entry_child. destruct (List.find _ _); [done|]. by rewrite Hv. Qed.

(** A list of elements with their places. *)
Lemma offers_imap {A} (f : nat -> A -> node I) (xs : list A) i :
  Exists (gives i) (flat_map controls (imap f xs)) <-> exists j x, xs !! j = Some x /\ draws (f j x) i.
Proof.
  rewrite Exists_exists. split.
  - intros (c & Hc & Hi). apply list_elem_of_In, in_flat_map in Hc as (k & Hk & Hc).
    apply list_elem_of_In, elem_of_lookup_imap in Hk as (j & x & -> & Hx). exists j, x. split; [done|].
    apply Exists_exists. exists c. split; [by apply list_elem_of_In | done].
  - intros (j & x & Hx & Ho). apply Exists_exists in Ho as (c & Hc & Hi). exists c. split; [|done].
    apply list_elem_of_In, in_flat_map. exists (f j x). split; [|by apply list_elem_of_In].
    apply list_elem_of_In, elem_of_lookup_imap. by exists j, x.
Qed.

Lemma offers_map {A} (f : A -> node I) (xs : list A) i :
  Exists (gives i) (flat_map controls (map f xs)) <-> exists x, x ∈ xs /\ draws (f x) i.
Proof.
  rewrite Exists_exists. split.
  - intros (c & Hc & Hi). apply list_elem_of_In, in_flat_map in Hc as (k & Hk & Hc).
    apply in_map_iff in Hk as (x & <- & Hx). exists x. split; [by apply list_elem_of_In|].
    apply Exists_exists. exists c. split; [by apply list_elem_of_In | done].
  - intros (x & Hx & Ho). apply Exists_exists in Ho as (c & Hc & Hi). exists c. split; [|done].
    apply list_elem_of_In, in_flat_map. exists (f x). split; [|by apply list_elem_of_In].
    apply in_map. by apply list_elem_of_In.
Qed.

Lemma imap_uncovered {A} (f : nat -> A -> node I) (xs : list A) : (forall j x, covers (f j x) = []) ->
  flat_map covers (imap f xs) = [].
Proof.
  revert f. induction xs as [|x xs IH]; intros f Hf; [done|]. cbn [imap flat_map]. rewrite Hf. apply IH. intros. apply Hf.
Qed.

Lemma guarded_uncovered v l : flat_map covers l = [] -> flat_map covers (guarded v l) = [].
Proof. intros Hl. unfold guarded. destruct (utruthy v); [done | apply child_uncovered]. Qed.

Lemma map_shown {A} (f : A -> node I) (xs : list A) : (forall x, x ∈ xs -> crashes (f x) = false) ->
  existsb crashes (map f xs) = false.
Proof.
  induction xs as [|x xs IH]; intros Hf; [done|]. cbn [map existsb]. rewrite Hf by apply list_elem_of_here. apply IH.
  intros y Hy. by apply Hf, list_elem_of_further.
Qed.

Lemma guarded_shown v l : primitive v = true -> existsb crashes l = false -> existsb crashes (guarded v l) = false.
Proof. intros Hv Hl. unfold guarded. destruct (utruthy v); [done | by apply child_shown]. Qed.

Lemma imap_shown {A} (f : nat -> A -> node I) (xs : list A) : (forall j x, x ∈ xs -> crashes (f j x) = false) ->
  existsb crashes (imap f xs) = false.
Proof.
  revert f. induction xs as [|x xs IH]; intros f Hf; [done|]. cbn [imap existsb].
  rewrite Hf by apply list_elem_of_here. apply IH. intros j y Hy. by apply Hf, list_elem_of_further.
Qed.

Lemma imap_controls {A} (f : nat -> A -> node I) (xs : list A) : (forall j x, controls (f j x) = []) ->
  flat_map controls (imap f xs) = [].
Proof.
  revert f. induction xs as [|x xs IH]; intros f Hf; [done|]. cbn [imap flat_map]. rewrite Hf. apply IH. intros. apply Hf.
Qed.

Lemma guarded_controls v l : flat_map controls (guarded v l) = if utruthy v then flat_map controls l else [].
Proof. unfold guarded. destruct (utruthy v); [done | apply child_controls]. Qed.

(** ** Parts *)

(** The texts of [m] are a part of those of [n]. *)
Definition within (m n : node I) : Prop := exists a b, texts n = a ++ texts m ++ b.

Lemma within_refl n : within n n.
Proof. exists [], []. by rewrite app_nil_r. Qed.

Lemma within_trans m n k : within m n -> within n k -> within m k.
Proof. intros (a & b & H) (c & d & H'). exists (c ++ a), (b ++ d). by rewrite H', H, <- !app_assoc. Qed.

Lemma within_child m n : m ∈ children_of n -> within m n.
Proof.
  intros Hm. assert (Ht : texts n = flat_map texts (children_of n)) by (destruct n; by try apply elem_of_nil in Hm).
  apply list_elem_of_split in Hm as (a & b & Hc). exists (flat_map texts a), (flat_map texts b).
  by rewrite Ht, Hc, flat_map_app.
Qed.

Lemma within_in k n m : k ∈ children_of n -> within m k -> within m n.
Proof. intros Hk Hm. eapply within_trans; [exact Hm|]. by apply within_child. Qed.

(** By the path of places to it. *)
Lemma within_at j k n m : children_of n !! j = Some m -> within k m -> within k n.
Proof. intros Hj Hk. eapply within_trans; [exact Hk|]. apply within_child. by eapply list_elem_of_lookup_2. Qed.

Lemma shows_row_within m n label value : within m n -> shows_row m label value -> shows_row n label value.
Proof. intros (a & b & H) (c & d & H'). exists (a ++ c), (d ++ b). by rewrite H, H', <- !app_assoc. Qed.
End nodes.

(** Goes into the child with a number. *)
Ltac into j := eapply (within_at j); [reflexivity|].

(** Computes the controls of elements whose conditions have been decided. *)
Ltac compute_view :=
  cbn [controls flat_map app existsb submits orb andb negb el txt icon button styled when num map fst snd].

Ltac read_controls := unfold draws; compute_view; repeat (rewrite Exists_app || rewrite Exists_cons || rewrite Exists_nil); cbn [gives].

(** One direction of what a page offers: every control that was read gives an
    input that is taken. *)
Ltac each_offer :=
  let H := fresh "Hoffer" in
  intros H; repeat match type of H with _ \/ _ => destruct H as [H|H] end;
  repeat match type of H with
         | ex _ => destruct H as [? H]
         | _ /\ _ => let H' := fresh in destruct H as [H' H]
         end;
  first [done | discriminate H | injection H; intros; subst; done | subst; done | idtac].

(** The other one: the control is found among those that were read. *)
Ltac pick_offer leaf := first [leaf | left; pick_offer leaf | right; pick_offer leaf].

Ltac pick_taken leaf :=
  intros;
  repeat match goal with H : _ /\ _ |- _ => destruct H | H : ex _ |- _ => destruct H end;
  first [done | discriminate | pick_offer leaf | idtac].

Ltac offer_leaf :=
  solve [reflexivity | eexists; reflexivity | split; [done | reflexivity] | split; [done | eexists; reflexivity]
        | split; [done|]; eexists; split; [|reflexivity]; eassumption].

(** ** The keypad of the PIN

    The twelve places of the keypad, which four pages draw ([PinEntry.tsx],
    [Login.tsx], [Home.tsx], [Register.tsx]), and the row of six dots that shows
    how many digits have been entered. *)


(** The keys in their order; the tenth place is empty. *)
Definition keypad_keys : list (option key) :=
  map (fun d => Some (Digit d)) [1; 2; 3; 4; 5; 6; 7; 8; 9] ++ [None; Some (Digit 0); Some Del].

Section keypad.

Context {I : Type}.

(** What is on a key where no icon is used. *)
Definition key_face (k : key) : list (node I) :=
  match k with Del => [el "span" [txt "⌫"]] | Digit d => [Text (key_text d)] end.

Definition draw_keypad (attrs : key -> attributes) (face : key -> list (node I)) (onKey : key -> I) (disabled : bool) : node I :=
  el "div" (map (fun k =>
    match k with
    | None => el "div" []
    | Some k => Button (attrs k) disabled (onKey k) (face k)
    end) keypad_keys).

(** Six dots, [filled] of them of one colour. *)
Definition draw_dots (cls : nat -> string) : node I := el "div" (map (fun index => styled "div" (cls index) []) (seq 0 6)).

Lemma dots_controls cls : controls (draw_dots cls) = [].
Proof. reflexivity. Qed.

Lemma dots_submit cls : submits (I := I) (draw_dots cls) = false.
Proof. reflexivity. Qed.

(** [face] has no controls of its own. *)
Definition plain_face (face : key -> list (node I)) : Prop := forall k, flat_map controls (face k) = [].

Lemma key_face_plain : plain_face key_face.
Proof. by intros []. Qed.

Lemma offers_keypad attrs face onKey d i : plain_face face ->
  draws (draw_keypad attrs face onKey d) i <-> d = false /\ exists k, offered_key k = true /\ i = onKey k.
Proof.
  intros Hf. unfold draw_keypad, keypad_keys. destruct d.
  { unfold draws. compute_view. rewrite !Hf. read_controls. intuition discriminate. }
  unfold draws. compute_view. rewrite !Hf. read_controls. split.
  - intros H. split; [done|]. destruct_or! H; try done; eexists; (split; [|exact H]); done.
  - intros [_ (k & Hk & ->)]. destruct k as [dg|]; [|tauto]. cbn in Hk. apply andb_true_iff in Hk as [H1 H2]. bool_to_Z.
    assert (dg = 0 \/ dg = 1 \/ dg = 2 \/ dg = 3 \/ dg = 4 \/ dg = 5 \/ dg = 6 \/ dg = 7 \/ dg = 8 \/ dg = 9) as Hd by lia.
    destruct_or! Hd; subst; tauto.
Qed.
End keypad.
