(* ===== verification/HomeView.v ===== *)
(** * What the home page shows ([pages/Home.tsx])

    The elements of the four views and the dialogs of a transfer, for a state of
    [HomePage]. [home_controls] is that the page offers exactly the inputs that
    [HomePage.react] takes from the user, [home_pointed] that the discipline of
    its theorems is that of a pointer, both as long as React refuses no element; [confirmed_as_shown] that the transfer
    which is sent is the one that was shown. [home_pin_hidden] and [home_shown] are
    used by [ViewProps]. *)

From S2P Require Import Prelude AuditReport JsString JsDate UString UJson CertParser Schema WebCrypto Wire Sessions Browser BankClient Keypad JsNumber PageRun HomePage Locale View.

Open Scope Z_scope.

#[local] Arguments nonempty {A} !l /.

Section view.

Context `{L : Locale} `{D : Dates} {I : Type}.

#[local] Notation element := (node I).

(** ** The frame *)

Definition NAV : list (view * string * string) :=
  [(overview, "Tổng quan", "BarChart3"); (transfer, "Chuyển khoản", "Send"); (history, "Lịch sử GD", "FileText");
   (certificate, "Chứng chỉ X.509", "Shield")].

Definition Header : element := el "header" [el "div" [el "div" [icon "Lock"]; el "span" [txt "Mini Banking"]]].

(** [new Date(text)]. *)
Definition date_of_text (s : string) : option Z := match date_parse s with Some t => time_clip t | None => None end.

Definition expiry_item (label : string) (expires : option Z) : element :=
  el "div" [
    el "p" [txt label];
    el "div" (icon "CheckCircle2" ::
      match expires with
      | Some t =>
          match toISOString t with
          | Some iso => [Elem "time" [("dateTime", js iso)] [Text (toLocaleString (Some t))]]
          | None => [Crash]
          end
      | None => [el "span" [txt "Chưa có thông tin"]]
      end)].

Definition SecurityStatus (tgtExpiresAt : ujson) (certificateExpiresAt : string) : element :=
  el "div" [
    el "h2" [icon "Shield"; txt "Trạng thái phiên bảo mật"];
    el "div" [
      expiry_item "Ticket Grant Ticket expired at" (date_of_seconds tgtExpiresAt);
      expiry_item "X509 certificate expired at" (date_of_text certificateExpiresAt)]].

(** ** The transfer *)

Definition TransferPinDots (filled : nat) : element :=
  draw_dots (fun index =>
    if (index <? filled)%nat then "bg-blue-500 border-blue-500 scale-110" else "border-muted-foreground/25").

Definition TransferPinKeypad (onKey : key -> I) (disabled : bool) : element :=
  draw_keypad (fun _ => []) key_face onKey disabled.

(** [new Intl.NumberFormat("vi-VN").format(amountNumber) + " VND"]. *)
Definition amount_text (x : HomePage.number) : ustr :=
  (match x with Fin n => vi_number n | Infinity => u8 "∞" end) ++ js " VND".

Definition amountDisplay (f : HomePage.Form) : ustr := amount_text (amountNumber f).

Definition warning (a : Account) (f : HomePage.Form) : bool := warnExceedBalance a f || warnExceedDailyLimit a f.

(** The double nearest to [0.2 * n], and [0.8 * n]: the literals are
    3602879701896397 / 2^54 and 3602879701896397 / 2^52. *)
Definition fifth (n : Z) : JsNumber.number := nearest (n * 3602879701896397) (2 ^ 54).
Definition four_fifths (n : Z) : JsNumber.number := nearest (n * 3602879701896397) (2 ^ 52).

(** [n < x]. *)
Definition less (n : Z) (x : JsNumber.number) : bool :=
  match x with
  | Int m => n <? m
  | Frac m k => n * 2 ^ Z.pos k <? m
  | JsNumber.Infinity negative => negb negative
  | NaN => false
  end.

Definition limit_class (a : Account) : string :=
  if dailyRemaining a =? 0 then "text-red-400"
  else if less (dailyRemaining a) (fifth (dailyTransferLimit a)) then "text-amber-400" else "text-foreground".

(** [x || other]. *)
Definition or_text (s : ustr) (other : string) : ustr := match s with [] => u8 other | _ => s end.

Context (on : form_input -> I).

Definition render_fields (from : ustr) (a : Account) (f : HomePage.Form) : element :=
  View.Form (on Submit) [
    el "div" [icon "Send"; el "h1" [txt "Chuyển khoản"]];
    Elem "" [] (when (nonempty from) [el "div" [
      el "div" [el "p" [txt "Số dư khả dụng"]; el "p" [Text (vi_number (balance a)); txt " "; Text (currency a)]];
      el "div" [el "p" [txt "Hạn mức chuyển còn lại hôm nay"];
                styled "p" (limit_class a) [Text (vi_number (dailyRemaining a)); txt " "; Text (currency a)]]]]);
    el "div" [
      el "div" [
        el "label" [txt "Số tài khoản nguồn"];
        Field "input" [("title", u8 "Tài khoản của bạn (tự điền từ trang Tổng quan)")]
          (or_text from "Đang tải…") false None];
      el "div" [
        el "label" [txt "Số tài khoản nhận"];
        Field "input" [("placeholder", u8 "Nhập số tài khoản nhận")] (toAccount f) false (Some (fun v => on (TypeTo v)))];
      el "div" ([
        el "label" [txt "Số tiền (VND)"];
        Field "input" [("className", js (if warning a f then "border-amber-500/50 focus:border-amber-500/70" else ""));
                       ("placeholder", u8 "Nhập số tiền")]
          (formatAmountInput (amountText f)) false (Some (fun v => on (TypeAmount v)))] ++
        when (warnExceedBalance a f) [el "p" [icon "AlertTriangle";
          txt "Số dư hiển thị có thể chưa cập nhật — Bank sẽ kiểm tra lại khi gửi"]] ++
        when (warnExceedDailyLimit a f) [el "p" [icon "AlertTriangle";
          txt "Số tiền có thể vượt hạn mức chuyển tiền trong ngày"]]);
      el "div" [
        el "label" [txt "Nội dung"];
        Field "input" [("placeholder", u8 "Nhập nội dung chuyển khoản")] (description f) false
          (Some (fun v => on (TypeDescription v)))]];
    SubmitButton [] (negb (canContinue from f)) [icon "ArrowRight"; txt " Tiếp tục"]].

Definition close_icon : element := button (on Close) [icon "X"].

Definition confirm_row (label : string) (value : ustr) : element :=
  el "div" [el "span" [txt label]; el "span" [Text value]].

Definition render_confirm (from : ustr) (a : Account) (f : HomePage.Form) : element :=
  el "div" ([
    el "div" [el "h2" [txt "Xác nhận giao dịch"]; close_icon];
    el "div" [
      confirm_row "Số tài khoản nguồn" (trim from);
      confirm_row "Số tài khoản nhận" (trim (toAccount f));
      confirm_row "Nội dung" (or_text (trim (description f)) "—");
      el "div" [el "span" [txt "Số tiền"]; el "span" [Text (amountDisplay f)]]]] ++
    when (warning a f) [el "div" [el "p" [
      if warnExceedBalance a f
      then txt "⚠ Số dư hiển thị có thể chưa cập nhật. Bank sẽ kiểm tra lại — giao dịch có thể bị từ chối nếu không đủ số dư."
      else txt "⚠ Số tiền có thể vượt hạn mức chuyển tiền trong ngày. Giao dịch có thể bị từ chối."]]] ++ [
    el "div" [el "p" [txt "Vui lòng kiểm tra kỹ thông tin trước khi xác nhận. Giao dịch sau khi hoàn tất không thể hoàn tác."]];
    el "div" [
      button (on Close) [txt "Huỷ"];
      button (on EnterPin) [icon "KeyRound"; txt " Nhập mã PIN"]]]).

Definition render_pin (f : HomePage.Form) : element :=
  el "div" [
    el "div" [button (on BackToConfirm) [txt "← Quay lại"]; close_icon];
    el "div" [
      el "div" [icon "KeyRound"];
      el "p" [txt "Nhập mã PIN"];
      el "p" [txt "Xác thực giao dịch "; el "span" [Text (amountDisplay f)]]];
    TransferPinDots (length (pin f));
    TransferPinKeypad (fun k => on (PinKey k)) false].

Definition render_processing : element :=
  el "div" [
    icon "RefreshCw";
    el "h2" [txt "Đang xử lý giao dịch"];
    el "p" [txt "Đang thực hiện TGS và AP Exchange với Bank Service…"]].

Definition render_success (f : HomePage.Form) : element :=
  el "div" [
    el "div" [icon "CheckCircle2"];
    el "h2" [txt "Giao dịch thành công"];
    el "p" [txt "Đã chuyển "; el "span" [Text (amountDisplay f)]; txt "."];
    el "p" [Text (resultMessage f)];
    button (on Close) [txt "Đóng"]].

Definition render_error (f : HomePage.Form) : element :=
  el "div" [
    el "div" [icon "XCircle"];
    el "h2" [txt "Giao dịch thất bại"];
    el "p" [Text (resultMessage f)];
    el "div" [button (on Close) [txt "Đóng"]; button (on EnterPin) [txt "Thử lại"]]].

Definition render_modal (from : ustr) (a : Account) (f : HomePage.Form) : list element :=
  match modal f with
  | None => []
  | Some m => [Cover [
      match m with
      | confirm => render_confirm from a f
      | pin_entry => render_pin f
      | processing => render_processing
      | success => render_success f
      | error => render_error f
      end]]
  end.

Definition render_TransferForm (from : ustr) (a : Account) (f : HomePage.Form) : element :=
  Elem "" [] ([
    render_fields from a f;
    el "p" [txt "Client tự xin Ticket_v (scope transfer:create), ký RSA-PSS và mã hóa payload bằng K(c,v) trước khi gửi."]] ++
    render_modal from a f).

(** ** The profile *)

Definition ACCOUNT_STATUS_LABEL : list (string * (string * string)) :=
  [("active", ("Hoạt động", "bg-emerald-500/10 text-emerald-400"));
   ("locked", ("Đã khóa", "bg-amber-500/10 text-amber-400"));
   ("frozen", ("Đóng băng", "bg-red-500/10 text-red-400"))].

Definition TXN_STATUS_LABEL : list (string * (string * string)) :=
  [("completed", ("Hoàn tất", "bg-emerald-500/10 text-emerald-400"));
   ("pending", ("Đang xử lý", "bg-amber-500/10 text-amber-400"));
   ("failed", ("Thất bại", "bg-red-500/10 text-red-400"))].

(** [table[status] ?? { label: status, cls }], its label and its class. What an
    object inherits has neither. *)
Definition status_info (table : list (string * (string * string))) (status : ujson) : ujson * ujson :=
  let key := ustring status in
  match List.find (fun e => ustr_eqb (js e.1) key) table with
  | Some (_, (label, cls)) => (UStr (u8 label), UStr (js cls))
  | None =>
      if existsb (fun n => ustr_eqb (js n) key) ("__proto__" :: object_members) then (UUndefined, UUndefined)
      else (status, UStr (js "bg-muted text-muted-foreground"))
  end.

Definition fmtMoney (amount currency : ujson) : ustr := vi_format amount ++ js " " ++ ustring currency.

Definition money (amount : Z) (a : Account) : ustr := fmtMoney (UNum amount) (UStr (currency a)).

(** [x * 100]. *)
Definition percent (x : JsNumber.number) : JsNumber.number :=
  match x with
  | Int m => nearest (m * 100) 1
  | Frac m k => nearest (m * 100) (2 ^ Z.pos k)
  | x => x
  end.

(** [Math.min(100, x)]. *)
Definition min_100 (x : JsNumber.number) : JsNumber.number :=
  match x with
  | Int m => if 100 <? m then Int 100 else x
  | Frac m k => if 100 * 2 ^ Z.pos k <? m then Int 100 else x
  | JsNumber.Infinity negative => if negative then x else Int 100
  | NaN => NaN
  end.

Definition limit_percent (a : Account) : JsNumber.number :=
  min_100 (if 0 <? dailyTransferLimit a then percent (nearest (dailyTransferUsed a) (dailyTransferLimit a)) else Int 0).

(** The colour of what is used of the limit: all of it, 80 % of it, or less. *)
Definition limit_tone (a : Account) (all most else_ : string) : string :=
  if dailyTransferLimit a <=? dailyTransferUsed a then all
  else if negb (less (dailyTransferUsed a) (four_fifths (dailyTransferLimit a))) then most else else_.

Definition render_limits (a : Account) : element :=
  el "div" [
    el "div" [
      el "div" [el "p" [txt "Hạn mức trên ngày"]];
      el "p" [Text (money (dailyTransferLimit a) a)]];
    el "div" [
      el "div" [
        el "p" [txt "Đã chuyển hôm nay"];
        el "p" [Text (money (dailyTransferUsed a) a); txt " / "; Text (money (dailyTransferLimit a) a)]];
      el "div" [Elem "div" [("className", js (limit_tone a "bg-red-400" "bg-amber-400" "bg-blue-400"));
                            ("width", NumberToString (limit_percent a) ++ js "%")] []];
      styled "p" (limit_tone a "text-red-400" "text-amber-400" "text-emerald-400")
        [txt "Còn lại: "; Text (money (dailyRemaining a) a)]]].

(** [displayName.trim().charAt(0).toLocaleUpperCase("vi-VN")], which fails on a
    name that is no text. *)
Definition name_initial (displayName : ujson) : element :=
  match displayName with UStr name => Text (vi_upper (take 1 (trim name))) | _ => Crash end.

Definition render_profile (onReload : I) (tgtExpiresAt : ujson) (certificateExpiresAt : string) (fallbackName : ustr)
    (a : Account) : element :=
  let (label, cls) := status_info ACCOUNT_STATUS_LABEL (accountStatus a) in
  let displayName := uor (holder a) (UStr (or_text fallbackName "—")) in
  el "div" [
    el "div" [Button [("title", u8 "Làm mới"); ("aria-label", u8 "Làm mới thông tin tài khoản")] false onReload
      [icon "RefreshCw"; txt "Làm mới"]];
    el "div" [
      el "div" [el "div" [el "div" [
        el "div" [el "span" [name_initial displayName]];
        el "div" [el "p" (child displayName); el "p" (child (uor (email a) (UStr (u8 "—"))))]]]];
      el "div" [
        el "div" [
          el "span" [txt "Tài khoản chính"];
          Elem "span" [("className", ustring (unullish cls (UStr (js "bg-muted text-muted-foreground"))))]
            (child (unullish label (UStr (u8 "—"))))];
        el "div" [
          el "div" [el "p" [txt "Số tài khoản"]; el "p" [Text (accountNumber a)]];
          el "div" [el "p" [txt "Số dư"]; el "p" [Text (money (balance a) a)]]];
        render_limits a]];
    SecurityStatus tgtExpiresAt certificateExpiresAt].

Definition render_ProfileOverview (onReload : I) (tgtExpiresAt : ujson) (certificateExpiresAt : string)
    (fallbackName : ustr) (profile : option Account) (loading : bool) (error : ustr) : element :=
  if loading then el "div" [icon "RefreshCw"; el "p" [txt "Đang tải thông tin tài khoản…"]]
  else if nonempty error then
    el "div" [icon "XCircle"; el "p" [Text error]; button onReload [txt "Thử lại"]]
  else match profile with
       | None => Elem "" [] []
       | Some a => render_profile onReload tgtExpiresAt certificateExpiresAt fallbackName a
       end.

(** ** The certificate *)

Definition formatName (name : ParsedDistinguishedName) : ustr :=
  or_text (join (js ", ") (filter (fun s => nonempty s = true)
    [dnCommonName name; dnOrganization name; dnCountry name])) "—".

Definition subjectEmail (v : ParsedCertificateJson) : ustr :=
  match emails (subjectAltName v) with
  | (_ :: _) as e :: _ => e
  | _ => or_text (dnEmailAddress (subject v)) "—"
  end.

(** [notAfter.getTime() <= Date.now()], which an invalid date does not satisfy. *)
Definition expired (now : Z) (v : ParsedCertificateJson) : bool :=
  match date_of_text (validNotAfter v) with Some t => t <=? now | None => false end.

Definition certificate_fields (v : ParsedCertificateJson) : list (string * ustr) :=
  [("Serial Number", serialNumber v);
   ("Owner ID", or_text (default [] (ownerId v)) "—");
   ("Subject CN", or_text (dnCommonName (subject v)) "—");
   ("Subject Email", subjectEmail v);
   ("Issuer", formatName (issuer v));
   ("X.509 Version", js "v" ++ js (Z_string (version v)));
   ("Not Before", toLocaleString (date_of_text (validNotBefore v)));
   ("Not After", toLocaleString (date_of_text (validNotAfter v)));
   ("Signature Algorithm", (signatureAlgorithm v).2);
   ("Public Key Algorithm", (publicKeyAlgorithm v).2)].

Definition render_certificate (now : Z) (v : ParsedCertificateJson) : element :=
  el "div" [el "div" ([
    el "div" [
      el "div" [
        el "div" [icon "Shield"];
        el "div" [
          el "h1" [Text (or_text (dnCommonName (subject v)) "Chứng chỉ X.509")];
          el "p" [Text (subjectEmail v)]]];
      if expired now v
      then styled "span" "bg-red-500/10 text-red-400 border-red-500/20" [txt "Hết hạn"]
      else styled "span" "bg-emerald-500/10 text-emerald-400 border-emerald-500/20" [txt "Còn hiệu lực"]];
    el "div" (map (fun field => el "div" [el "p" [txt field.1]; el "p" [Text field.2]]) (certificate_fields v));
    el "div" [el "p" [txt "SHA-256 Fingerprint"]; el "p" [Text (fingerprintSha256 v)]]] ++
    when (nonempty (uris (subjectAltName v)))
      [el "div" [el "p" [txt "Subject Alternative Name · URI"]; el "p" [Text (join [10] (uris (subjectAltName v)))]]])].

Definition render_CertificateView (now : Z) (certificate : option StoredCertificate) (loading : bool)
    (c : CertificateState) : element :=
  if loading || cs_parsing c then el "div" [icon "RefreshCw"; el "p" [txt "Đang phân tích chứng chỉ X.509…"]]
  else match certificate with
  | None =>
      el "div" [icon "Shield"; el "h1" [txt "Không tìm thấy chứng chỉ X.509"];
                el "p" [txt "Thiết bị này chưa có chứng chỉ được lưu trong IndexedDB."]]
  | Some _ =>
      match cs_parseError c, cs_parsed c with
      | [], Some v => render_certificate now v
      | parseError, _ =>
          el "div" [icon "XCircle"; el "h1" [txt "Không đọc được chứng chỉ X.509"]; el "p" [Text parseError]]
      end
  end.

(** ** The history *)

Definition outgoing (ownAccountNumber : ustr) (item : HistoryItem) : bool :=
  is_text ownAccountNumber (h_fromAccountNumber item).

Definition counterparty (ownAccountNumber : ustr) (item : HistoryItem) : ujson :=
  uor (if outgoing ownAccountNumber item then h_toAccountNumber item else h_fromAccountNumber item) (UStr (u8 "—")).

(** [item.description?.trim() || "—"]. *)
Definition description_of (item : HistoryItem) : element :=
  match h_description item with
  | UUndefined | UNull => txt "—"
  | UStr s => Text (or_text (trim s) "—")
  | _ => Crash
  end.

Definition item_amount (ownAccountNumber : ustr) (item : HistoryItem) : ustr :=
  fmtMoney (h_amount item) (h_currency item).

Definition render_item (ownAccountNumber : ustr) (item : HistoryItem) : element :=
  let out := outgoing ownAccountNumber item in
  let (label, cls) := status_info TXN_STATUS_LABEL (h_status item) in
  el "li" [
    styled "div" (if out then "bg-red-500/10" else "bg-emerald-500/10")
      [styled "ArrowRight" (if out then "text-red-400 rotate-45" else "text-emerald-400 rotate-[225deg]") []];
    el "div" [
      el "p" [if out then txt "Chuyển tới" else txt "Nhận từ"; txt " ";
              el "span" (child (counterparty ownAccountNumber item))];
      el "p" [description_of item; txt " · "; Text (toLocaleString (date_of_seconds (h_createdAtUnix item)))]];
    el "div" [
      styled "p" (if out then "text-red-400" else "text-emerald-400")
        [if out then txt "-" else txt "+"; Text (item_amount ownAccountNumber item)];
      Elem "span" [("className", ustring cls)] (child label)]].

Definition render_HistoryView (onReload : I) (accountId ownAccountNumber : ustr) (profileLoading : bool)
    (h : HistoryState) : element :=
  if negb (nonempty accountId) then
    el "div" [
      styled "RefreshCw" (if profileLoading then "animate-spin" else "") [];
      el "p" [if profileLoading then txt "Đang tải thông tin tài khoản…"
              else txt "Chưa xác định được tài khoản để xem lịch sử"]]
  else
    el "div" [el "div" [
      el "div" [
        el "div" ([icon "FileText"; el "h1" [txt "Lịch sử giao dịch"]] ++
          when (negb (hs_loading h) && negb (nonempty (hs_error h))) [el "span" [txt "("; num (hs_total h); txt ")"]]);
        Button [] (hs_loading h) onReload [styled "RefreshCw" (if hs_loading h then "animate-spin" else "") []; txt " Làm mới"]];
      if hs_loading h then el "div" [icon "RefreshCw"; el "p" [txt "Đang tải lịch sử giao dịch…"]]
      else if nonempty (hs_error h) then
        el "div" [icon "XCircle"; el "p" [Text (hs_error h)]; button onReload [txt "Thử lại"]]
      else match hs_items h with
           | [] => el "div" [icon "Database"; el "p" [txt "Chưa có giao dịch nào"]]
           | items => el "ul" (map (render_item ownAccountNumber) items)
           end]].
End view.

(** ** The page *)

Section page.

Context `{L : Locale} `{D : Dates}.

(** [profile?.balance ?? 0] and the like, for the transfer form. *)
Definition no_account : Account :=
  {| accountId := []; accountNumber := []; balance := 0; currency := js "VND"; dailyTransferLimit := 0;
     dailyTransferUsed := 0; holder := UStr []; email := UStr []; accountStatus := UStr [] |}.

Definition form_account (p : home) : Account := default no_account (profile p).

Definition certificateExpiresAt (p : home) : string :=
  match storedCertificate p with Some c => sc_notAfter c | None => "" end.

(** The page at the time [now], with the expiry of the session's ticket; after
    it has been left it shows nothing. *)
Definition render (tgtExpiresAt : ujson) (now : Z) (p : home) : node input :=
  if left_page p then Elem "" [] []
  else
    el "div" [
      Header;
      el "div" [
        el "aside" (map (fun n =>
            let '(v, label, symbol) := n in
            Button [("className", js (if bool_decide (view_of (shown p) = v) then "bg-blue-600/15 text-blue-400 border border-blue-500/20"
                                      else "text-muted-foreground hover:text-foreground hover:bg-accent/50"))] false
              (SetView v) [icon symbol; el "span" [txt label]]) NAV ++
          [el "div" [button Logout [icon "LogOut"; el "span" [txt "Đăng xuất"]]]]);
        el "main" [
          match shown p with
          | ProfileOverview =>
              render_ProfileOverview ReloadProfile tgtExpiresAt (certificateExpiresAt p) (fullName p) (profile p)
                (profileLoading p) (profileError p)
          | TransferForm f => render_TransferForm FormInput (fromAccountNumber p) (form_account p) f
          | CertificateView c => render_CertificateView now (storedCertificate p) (localLoading p) c
          | HistoryView h => render_HistoryView ReloadHistory (ownAccountId p) (fromAccountNumber p) (profileLoading p) h
          end]]].
End page.

(** ** Offers of the components *)

Section draws.

Context `{L : Locale} `{D : Dates} {I : Type}.

(** ** The form *)

Lemma offers_fields (on : form_input -> I) from a f i :
  draws (render_fields on from a f) i <->
    (canContinue from f = true /\ i = on Submit) \/ (exists v, i = on (TypeTo v)) \/
    (exists v, i = on (TypeAmount v)) \/ (exists v, i = on (TypeDescription v)).
Proof.
  unfold render_fields. destruct (nonempty from), (warnExceedBalance a f), (warnExceedDailyLimit a f), (canContinue from f);
    read_controls; naive_solver.
Qed.
(** The dialog that is open offers its own buttons. *)
Definition in_dialog (m : TransferModal) (fi : form_input) : Prop :=
  match fi with
  | Close => m <> processing
  | EnterPin => m = confirm \/ m = error
  | BackToConfirm => m = pin_entry
  | PinKey k => m = pin_entry /\ offered_key k = true
  | _ => False
  end.

Lemma offers_modal (on : form_input -> I) from a f i :
  Exists (gives i) (flat_map controls (render_modal on from a f)) <->
    exists m fi, modal f = Some m /\ in_dialog m fi /\ i = on fi.
Proof.
  unfold render_modal. destruct (modal f) as [m|]; [|rewrite Exists_nil; naive_solver].
  transitivity (exists fi, in_dialog m fi /\ i = on fi); [|naive_solver].
  unfold render_confirm, render_pin, render_processing, render_success, render_error, close_icon.
  destruct m, (warning a f), (warnExceedBalance a f); unfold TransferPinDots, TransferPinKeypad; compute_view;
    rewrite ?dots_controls; read_controls; try change (Exists (gives i) (controls ?n)) with (draws n i);
    rewrite ?offers_keypad by apply key_face_plain; split.
  all: try (intros H; destruct_or! H; subst; try done).
  all: try (first [by exists Close | by exists BackToConfirm | exists EnterPin; split; [|done]; cbn; tauto]).
  all: try (intros (fi & Hd & ->); destruct fi; cbn in Hd; naive_solver).
  all: destruct H as (_ & k & Hk & ->); by exists (PinKey k).
Qed.

Lemma dialog_reacts from f m fi : modal f = Some m ->
  in_dialog m fi <-> behind fi = false /\ is_Some (form_react from f fi).
Proof.
  intros Hm. unfold form_react. rewrite Hm. split.
  - destruct fi, m; cbn; try done; try (by intros [? ?]); try (by intros [?|?]). intros [_ Hk]. by rewrite Hk.
  - destruct fi, m; cbn; try (by intros [? [? ?]]); try (by intros _); try (intros _; tauto).
    destruct (offered_key k); [done | by intros [? [? ?]]].
Qed.

Lemma offers_TransferForm (on : form_input -> I) from a f i :
  draws (render_TransferForm on from a f) i <-> exists fi, i = on fi /\ is_Some (form_react from f fi).
Proof.
  unfold render_TransferForm, draws. compute_view. rewrite Exists_app, offers_modal.
  change (Exists (gives i) (controls (render_fields on from a f))) with (draws (render_fields on from a f) i).
  rewrite offers_fields. split.
  - intros [[[Hc ->]|[[v ->]|[[v ->]|[v ->]]]]|(m & fi & Hm & Hd & ->)].
    + exists Submit. split; [done|]. cbn. rewrite Hc. by destruct (modal f).
    + exists (TypeTo v). split; [done|]. by destruct (modal f).
    + exists (TypeAmount v). split; [done|]. by destruct (modal f).
    + exists (TypeDescription v). split; [done|]. by destruct (modal f).
    + exists fi. split; [done|]. by apply (dialog_reacts from f m).
  - intros (fi & -> & [r Hr]). unfold form_react in Hr. destruct fi.
    1-3: left; right; eauto 6.
    + destruct (canContinue from f); [naive_solver | by destruct (modal f)].
    + right. destruct (modal f) as [[]|]; try done; by eexists _, Close.
    + right. destruct (modal f) as [[]|]; try done; eexists _, EnterPin; (split; [done|]); (split; [cbn; tauto | done]).
    + right. destruct (modal f) as [[]|]; try done; by eexists _, BackToConfirm.
    + right. destruct (modal f) as [[]|]; try done. destruct (offered_key k) eqn:Hk; [|done]. by eexists _, (PinKey k).
Qed.

(** ** The other views *)

Lemma status_controls (tgt : ujson) cert : controls (I := I) (SecurityStatus tgt cert) = [].
Proof.
  unfold SecurityStatus, expiry_item. compute_view.
  destruct (date_of_seconds tgt) as [t|], (date_of_text cert) as [u|]; compute_view; try destruct (toISOString t);
    try destruct (toISOString u); reflexivity.
Qed.

Lemma offers_overview (onReload : I) tgt cert name pr loading error i :
  draws (render_ProfileOverview onReload tgt cert name pr loading error) i <->
    loading = false /\ (error <> [] \/ is_Some pr) /\ i = onReload.
Proof.
  unfold render_ProfileOverview. destruct loading; [read_controls; naive_solver|].
  destruct error as [|u error]; cbn [nonempty]; [|read_controls; naive_solver].
  destruct pr as [a|]; [|read_controls; split; [done | intros (_ & [Hne|[x Hx]] & _); done]].
  unfold render_profile, render_limits. destruct (status_info _ _) as [label cls]. unfold draws. compute_view.
  assert (Hi : forall v, controls (I := I) (name_initial v) = []) by (by intros []).
  rewrite status_controls, Hi, !child_controls. read_controls. naive_solver.
Qed.

Lemma certificate_controls now cert loading c : controls (I := I) (render_CertificateView now cert loading c) = [].
Proof.
  unfold render_CertificateView. destruct (_ || _); [done|]. destruct cert; [|done].
  destruct (cs_parseError c), (cs_parsed c) as [v|]; try done. unfold render_certificate, certificate_fields.
  destruct (expired now v), (nonempty (uris (subjectAltName v))); reflexivity.
Qed.

Lemma item_controls own item : controls (I := I) (render_item own item) = [].
Proof.
  unfold render_item, description_of. destruct (status_info _ _) as [label cls]. compute_view.
  rewrite !child_controls. by destruct (outgoing own item), (h_description item).
Qed.

Lemma items_controls own items : flat_map controls (map (render_item (I := I) own) items) = [].
Proof. induction items as [|x items IH]; [done|]. cbn [map flat_map]. by rewrite item_controls, IH. Qed.

Lemma offers_history (onReload : I) id own loading h i :
  draws (render_HistoryView onReload id own loading h) i <-> id <> [] /\ hs_loading h = false /\ i = onReload.
Proof.
  unfold render_HistoryView. destruct id as [|u id]; cbn [nonempty negb].
  { destruct loading; read_controls; naive_solver. }
  destruct (hs_loading h); [read_controls; naive_solver|].
  destruct (nonempty (hs_error h)); [read_controls; naive_solver|].
  destruct (hs_items h) as [|x items]; [read_controls; naive_solver|].
  pose proof (items_controls own (x :: items)) as Hx. cbn [map flat_map] in Hx.
  unfold draws. compute_view. rewrite Hx. read_controls. naive_solver.
Qed.
End draws.

(** ** The page and its machine *)

Section correspondence.

Context `{L : Locale} `{D : Dates} (toUpperCase : ustr -> ustr) (thrown_message : js_exception -> ustr).

#[local] Notation react := (HomePage.react toUpperCase thrown_message).

(** What the user does, in contrast to the replies. *)
Definition by_user (i : input) : bool :=
  match i with FormInput _ | SetView _ | ReloadProfile | ReloadHistory | Logout => true | _ => false end.

Lemma nav_controls (here : view) (i : input) :
  Exists (gives i) (flat_map controls (map (fun n =>
    let '(v, label, symbol) := n in
    Button [("className", js (if bool_decide (here = v) then "bg-blue-600/15 text-blue-400 border border-blue-500/20"
                              else "text-muted-foreground hover:text-foreground hover:bg-accent/50"))] false
      (SetView v) [icon symbol; el "span" [txt label]]) NAV)) <-> exists v, i = SetView v.
Proof.
  unfold NAV. read_controls. split; [naive_solver|]. intros [[] ->]; tauto.
Qed.

Lemma offers_render tgt now p i :
  draws (render tgt now p) i <->
    left_page p = false /\
    ((exists v, i = SetView v) \/ i = Logout \/
     match shown p with
     | ProfileOverview => reload_offered p = true /\ i = ReloadProfile
     | TransferForm f => exists fi, i = FormInput fi /\ is_Some (form_react (fromAccountNumber p) f fi)
     | HistoryView h => ownAccountId p <> [] /\ hs_loading h = false /\ i = ReloadHistory
     | CertificateView _ => False
     end).
Proof.
  unfold render, draws. destruct (left_page p); [read_controls; naive_solver|].
  cbn [controls flat_map el Header icon txt app]. rewrite !flat_map_app, !Exists_app, nav_controls.
  cbn [controls flat_map el button icon txt app]. rewrite !Exists_cons, !Exists_nil. cbn [gives].
  change (Exists (gives i) (controls ?n)) with (draws n i). destruct (shown p) as [|f|h|c].
  - rewrite offers_overview. unfold reload_offered. rewrite andb_true_iff, negb_true_iff, orb_true_iff, bool_decide_eq_true.
    assert (He : profileError p <> [] <-> nonempty (profileError p) = true) by (by destruct (profileError p)).
    rewrite He. tauto.
  - rewrite offers_TransferForm. tauto.
  - rewrite offers_history. tauto.
  - unfold draws. rewrite certificate_controls, Exists_nil. tauto.
Qed.

(** The controls of the page give exactly the inputs of the user for which [react]
    has a step. *)
Lemma home_draws tgt now p i :
  draws (render tgt now p) i <-> by_user i = true /\ is_Some (react p i).
Proof.
  rewrite offers_render. unfold HomePage.react. destruct (left_page p); [split; [naive_solver | by intros [_ [? ?]]]|].
  destruct i as [fi|v| | | |k r|k r|k r|k r|k r]; cbn [by_user]; try (split; [|by intros [? _]]).
  all: try (intros (_ & [[? H]|[H|H]]); try discriminate H; destruct (shown p); naive_solver).
  - destruct (shown p) as [|f|h|c]; try (split; [naive_solver | by intros [_ [? ?]]]). split.
    + intros (_ & [[? H]|[H|(fi' & [= <-] & r & Hr)]]); try discriminate H. split; [done|]. rewrite Hr. by destruct r as [? []].
    + intros [_ [r Hr]]. split; [done|]. do 2 right. exists fi. split; [done|]. by destruct (form_react _ f fi).
  - split; [by split | naive_solver].
  - destruct (shown p) as [|f|h|c]; try (split; [naive_solver | by intros [_ [? ?]]]).
    destruct (reload_offered p); [split; [by split | naive_solver] | split; [naive_solver | by intros [_ [? ?]]]].
  - destruct (shown p) as [|f|h|c]; try (split; [naive_solver | by intros [_ [? ?]]]).
    destruct (ownAccountId p) as [|u id], (hs_loading h); cbn [nonempty negb orb];
      (split; [naive_solver | intros [_ [? ?]]; first [done | split; [done|]; do 2 right; by split_and!]]).
  - split; [by split | naive_solver].
Qed.

(** The page offers what its machine takes. Whatever the state of the page, if it
    has an element that React refuses nothing can be used, and otherwise its
    controls give exactly the inputs of the user for which [react] has a step: no
    button leads nowhere, and the machine takes nothing that the page does not
    offer. *)
Theorem home_controls tgt now p i :
  offers (render tgt now p) i <->
    crashes (render tgt now p) = false /\ by_user i = true /\ is_Some (react p i).
Proof. unfold offers. by rewrite home_draws. Qed.

(** ** What lies on top *)

Lemma overview_uncovered (i : input) tgt cert name pr loading error :
  covers (render_ProfileOverview i tgt cert name pr loading error) = [].
Proof.
  unfold render_ProfileOverview. destruct loading; [done|]. destruct error; [|done]. destruct pr as [a|]; [|done].
  cbn [nonempty]. unfold render_profile, SecurityStatus, expiry_item. destruct (status_info _ _) as [label cls].
  assert (Hi : forall v, covers (I := input) (name_initial v) = []) by (by intros []).
  destruct (date_of_seconds tgt) as [t|], (date_of_text cert) as [u|]; try destruct (toISOString t);
    try destruct (toISOString u); cbn [covers flat_map el txt styled icon app render_limits]; by rewrite Hi, !child_uncovered.
Qed.

Lemma certificate_uncovered at_time cert loading c : covers (I := input) (render_CertificateView at_time cert loading c) = [].
Proof.
  unfold render_CertificateView. destruct (_ || _); [done|]. destruct cert; [|done].
  destruct (cs_parseError c), (cs_parsed c) as [v|]; try done. unfold render_certificate, certificate_fields.
  destruct (expired at_time v), (nonempty (uris (subjectAltName v))); reflexivity.
Qed.

Lemma item_uncovered own item : covers (render_item (I := input) own item) = [].
Proof.
  unfold render_item, description_of. destruct (status_info _ _) as [label cls].
  cbn [covers flat_map el txt styled app]. rewrite !child_uncovered. by destruct (outgoing own item), (h_description item).
Qed.

Lemma history_uncovered (i : input) id own loading h : covers (render_HistoryView i id own loading h) = [].
Proof.
  unfold render_HistoryView. destruct (negb (nonempty id)); [by destruct loading|].
  destruct (hs_loading h); [done|]. destruct (nonempty (hs_error h)); [done|].
  assert (Hx : forall l, flat_map covers (map (render_item (I := input) own) l) = []).
  { induction l as [|x l IH]; [done|]. cbn [map flat_map]. by rewrite item_uncovered, IH. }
  destruct (hs_items h) as [|x items]; [done|]. specialize (Hx (x :: items)). cbn [map flat_map] in Hx.
  cbn [covers flat_map el map app]. by rewrite Hx.
Qed.

Lemma fields_uncovered from a f : covers (render_fields FormInput from a f) = [].
Proof. unfold render_fields. by destruct (nonempty from), (warnExceedBalance a f), (warnExceedDailyLimit a f). Qed.

Definition top_layer (p : home) : list (list (node input)) :=
  match shown p with
  | TransferForm f => flat_map covers (render_modal FormInput (fromAccountNumber p) (form_account p) f)
  | _ => []
  end.

Lemma covers_render tgt now p : left_page p = false -> covers (render tgt now p) = top_layer p.
Proof.
  intros Hl. unfold render, top_layer. rewrite Hl. unfold NAV. cbn [covers flat_map el button icon txt app Header map].
  destruct (shown p) as [|f|h|c].
  - by rewrite overview_uncovered.
  - unfold render_TransferForm. cbn [covers flat_map el txt app]. rewrite fields_uncovered, !app_nil_r. done.
  - by rewrite history_uncovered.
  - by rewrite certificate_uncovered.
Qed.

Lemma top_layer_dialog p f m : shown p = TransferForm f -> modal f = Some m ->
  exists l, render_modal FormInput (fromAccountNumber p) (form_account p) f = [Cover l] /\ top_layer p = [l].
Proof.
  intros Hs Hm. unfold top_layer. rewrite Hs. unfold render_modal. rewrite Hm. eexists. split; [done|].
  unfold render_confirm. destruct m; try reflexivity. cbn. by destruct (warning (form_account p) f), (warnExceedBalance (form_account p) f).
Qed.

(** What lies on top of the page, whether React refuses an element or not. *)
Lemma home_on_top tgt now p i :
  on_top (render tgt now p) i <->
    by_user i = true /\ is_Some (disciplined reaches_not_behind react p i).
Proof.
  destruct (left_page p) eqn:Hl.
  { unfold disciplined, HomePage.react, on_top, render, draws. rewrite Hl. cbn. split; [by rewrite Exists_nil|].
    intros [_ H]. destruct (reaches_not_behind p i); by destruct H. }
  unfold on_top. rewrite covers_render by done. destruct (dialog p) as [m|] eqn:Hd.
  - unfold dialog in Hd. destruct (shown p) as [|f|h|c] eqn:Hs; try done.
    destruct (top_layer_dialog p f m Hs Hd) as (l & Hm & ->). cbn [last].
    assert (H : Exists (gives i) (flat_map controls l) <-> exists fi, in_dialog m fi /\ i = FormInput fi).
    { pose proof (offers_modal FormInput (fromAccountNumber p) (form_account p) f i) as Ho. rewrite Hm, Hd in Ho.
      cbn [flat_map controls] in Ho. rewrite app_nil_r in Ho. rewrite Ho. naive_solver. }
    rewrite H, is_Some_disciplined.
    transitivity (reaches_not_behind p i = true /\ draws (render tgt now p) i); [|rewrite home_draws; tauto].
    rewrite offers_render, Hl, Hs. unfold reaches_not_behind, reaches_behind, dialog. rewrite Hs, Hd. split.
    + intros (fi & Hin & ->). apply (dialog_reacts (fromAccountNumber p) f m fi Hd) in Hin as [Hb Hr].
      cbn [negb]. rewrite Hb. naive_solver.
    + intros (Hb & _ & [[v ->]|[->|(fi & -> & Hr)]]); try discriminate Hb. exists fi. split; [|done].
      apply (dialog_reacts (fromAccountNumber p) f m fi Hd). split; [by apply negb_true_iff | done].
  - assert (Ht : top_layer p = []).
    { unfold top_layer, dialog in *. destruct (shown p); try done. unfold render_modal. by rewrite Hd. }
    rewrite Ht. cbn [last]. rewrite home_draws, is_Some_disciplined. unfold reaches_not_behind, reaches_behind.
    rewrite Hd. naive_solver.
Qed.

(** ** What was shown *)

Lemma dialog_within tgt now p f d : left_page p = false -> shown p = TransferForm f ->
  render_modal FormInput (fromAccountNumber p) (form_account p) f = [Cover [d]] -> within d (render tgt now p).
Proof.
  intros Hl Hs Hm. unfold render. rewrite Hl, Hs. unfold render_TransferForm. rewrite Hm.
  into 1%nat. into 1%nat. into 0%nat. into 2%nat. into 0%nat. apply within_refl.
Qed.

Lemma row_within label value : shows_row (confirm_row (I := input) label value) label value.
Proof. by exists [], []. Qed.

(** The dialog of the confirmation shows the transfer. *)
Lemma confirmation_shows tgt now p f : left_page p = false -> shown p = TransferForm f -> modal f = Some confirm ->
  shows_row (render tgt now p) "Số tài khoản nguồn" (trim (fromAccountNumber p)) /\
  shows_row (render tgt now p) "Số tài khoản nhận" (trim (toAccount f)) /\
  shows_row (render tgt now p) "Nội dung" (or_text (trim (description f)) "—") /\
  shows_row (render tgt now p) "Số tiền" (amountDisplay f).
Proof.
  intros Hl Hs Hm.
  assert (Hd : within (render_confirm FormInput (fromAccountNumber p) (form_account p) f) (render tgt now p)).
  { apply (dialog_within tgt now p f); try done. unfold render_modal. by rewrite Hm. }
  split_and!; (eapply shows_row_within; [eapply within_trans; [|exact Hd]; unfold render_confirm; into 1%nat|]).
  - into 0%nat. apply within_refl.
  - apply row_within.
  - into 1%nat. apply within_refl.
  - apply row_within.
  - into 2%nat. apply within_refl.
  - apply row_within.
  - into 3%nat. apply within_refl.
  - by exists [], [].
Qed.

Lemma amount_text_inj x y : amount_text x = amount_text y -> x = y.
Proof.
  unfold amount_text. intros H. apply app_inv_tail in H. destruct x as [n|], y as [m|].
  - f_equal. by apply vi_number_inj.
  - exfalso. apply (f_equal undotted) in H. rewrite undotted_vi_number in H.
    pose proof (Z_string_chars n) as Hc. destruct (Z_string n) as [|a s]; [done|]. injection H as Ha _.
    cbn [sall] in Hc. apply andb_true_iff in Hc as [Hc _]. unfold digit_or_minus, digit, code in Hc. rewrite Ha in Hc. done.
  - exfalso. apply (f_equal undotted) in H. rewrite undotted_vi_number in H.
    pose proof (Z_string_chars m) as Hc. destruct (Z_string m) as [|a s]; [done|]. injection H as Ha _.
    cbn [sall] in Hc. apply andb_true_iff in Hc as [Hc _]. unfold digit_or_minus, digit, code in Hc. rewrite <- Ha in Hc. done.
  - done.
Qed.

Definition pointed := disciplined reaches_not_behind react.

(** C27: what is sent was shown. In every run in which nothing behind an open dialog
    is used, a transfer that is sent was confirmed in this run: the dialog of the
    confirmation was shown with its receiver, its description and its amount, as
    they are sent, and the dialog of the PIN shows the amount when the last digit
    is entered. No other amount is written like it. *)
Theorem confirmed_as_shown tgt now session t p i p' cs c :
  reaches pointed (opened session).1 t p -> pointed p i = Some (p', cs) -> PerformTransfer c ∈ cs ->
  (exists s, s ∈ t /\ dialog (before s) = Some confirm /\
     let page := render tgt now (before s) in
     shows_row page "Số tài khoản nhận" (t_to c) /\
     shows_row page "Nội dung" (default (u8 "—") (t_description c)) /\
     shows_row page "Số tiền" (amount_text (t_amount c))) /\
  shows_row (render tgt now p) "Xác thực giao dịch " (amount_text (t_amount c)) /\
  forall x, amount_text x = amount_text (t_amount c) -> x = t_amount c.
Proof.
  intros Hp Hr Hc. pose proof (home_reaches_good _ _ _ _ _ Hp) as Hg. pose proof Hr as Hr'.
  apply disciplined_some in Hr' as [_ Hr'].
  destruct (transfer_by_form _ _ _ _ _ _ _ Hr' Hc) as (f & f' & fi & Hsh & -> & Hf & ->).
  assert (Hfp : form_of p = Some f) by (unfold form_of; by rewrite Hsh).
  pose proof (go_form _ _ Hg f Hfp) as Hok. destruct (sent_by_form _ _ _ _ _ Hf) as [Hpin Hcf].
  assert (Hl : left_page p = false) by (unfold HomePage.react in Hr'; by destruct (left_page p)).
  rewrite Hcf. cbn [perform snd t_to t_description t_amount].
  split_and!; [| |intros x Hx; exact (amount_text_inj _ _ Hx)].
  - destruct (fo_confirmed _ _ Hok) as (s & f0 & Hs & Hs0 & Hm & Hto & Ham & Htx); [by rewrite Hpin|].
    exists s. split; [done|]. split; [unfold dialog; by rewrite Hs0|].
    destruct (reaches_step _ _ _ _ _ Hp Hs) as [q Hq]. apply disciplined_some in Hq as [_ Hq].
    assert (Hl0 : left_page (before s) = false) by (unfold HomePage.react in Hq; by destruct (left_page (before s))).
    destruct (confirmation_shows tgt now (before s) f0 Hl0 Hs0 Hm) as (_ & H1 & H2 & H3).
    rewrite <- Hto, <- Htx. split_and!; [done | | by unfold amountDisplay, amountNumber in *; rewrite <- Ham].
    assert (He : default (u8 "—") (or_undefined (trim (description f0))) = or_text (trim (description f0)) "—")
      by (by destruct (trim (description f0))). by rewrite He.
  - eapply shows_row_within; [eapply dialog_within; [done..|]; unfold render_modal; by rewrite Hpin|].
    unfold render_pin. eapply shows_row_within; [into 1%nat; into 2%nat; apply within_refl|]. by exists [], [].
Qed.

(** Whatever the state of the page, two PINs of the same length give the same page:
    no element, attribute or handler depends on the digits that were entered. *)
Lemma home_pin_hidden tgt now p f q : shown p = TransferForm f -> length q = length (pin f) ->
  render tgt now (set_shown (TransferForm (with_modal (modal f) q (resultMessage f) f)) p) = render tgt now p.
Proof.
  intros Hs Hq. unfold render. cbn [left_page shown set_shown]. rewrite Hs. destruct (left_page p); [done|].
  unfold render_TransferForm, render_modal, render_pin. cbn [modal with_modal pin]. rewrite Hq. reflexivity.
Qed.

(** ** No crash *)

(** An item whose fields have the types that its interface declares. *)
Definition typed_item (item : HistoryItem) : bool :=
  primitive (h_fromAccountNumber item) && primitive (h_toAccountNumber item) && primitive (h_status item) &&
  match h_description item with UStr _ => true | _ => false end.

Lemma status_primitive table status : primitive status = true -> primitive (status_info table status).1 = true.
Proof.
  intros Hs. unfold status_info. destruct (List.find _ table) as [[k [label cls]]|]; [done|]. by destruct (existsb _ _).
Qed.

Lemma item_shown own item : typed_item item = true -> crashes (render_item (I := input) own item) = false.
Proof.
  unfold typed_item. intros H. repeat (apply andb_true_iff in H as [H ?]).
  unfold render_item. pose proof (status_primitive TXN_STATUS_LABEL (h_status item)) as Hp.
  destruct (status_info _ _) as [label cls]. cbn [crashes existsb el txt styled orb fst] in *.
  assert (Hc : primitive (counterparty own item) = true).
  { unfold counterparty, uor. destruct (outgoing own item); [destruct (utruthy (h_toAccountNumber item)) | destruct (utruthy (h_fromAccountNumber item))]; done. }
  rewrite !child_shown by auto. unfold description_of. destruct (h_description item); try done.
  by destruct (outgoing own item).
Qed.

Lemma items_shown own items : forallb typed_item items = true ->
  existsb crashes (map (render_item (I := input) own) items) = false.
Proof.
  induction items as [|x items IH]; [done|]. cbn [forallb map existsb]. intros H. apply andb_true_iff in H as [Hx Hi].
  by rewrite item_shown, IH.
Qed.

Lemma clipped_date d t : (exists u, d = time_clip u) \/ d = Some 0 \/ (exists b : bool, d = Some (if b then 1000 else 0)) ->
  d = Some t -> is_Some (toISOString t).
Proof.
  assert (Hok : - 8640000000000000 <= t <= 8640000000000000 -> is_Some (toISOString t)).
  { intros Ht. unfold toISOString. rewrite (proj2 (Z.ltb_ge t _)), (proj2 (Z.ltb_ge _ t)) by lia. cbn [orb].
    by destruct (civil_from_days _) as [[? ?] ?]. }
  intros [[u ->]|[->|[b ->]]] H; apply Hok.
  - unfold time_clip in H. destruct (Z.ltb_spec u (- 8640000000000000)); [done|].
    destruct (Z.ltb_spec 8640000000000000 u); [done|]. injection H as ->. lia.
  - injection H as <-. lia.
  - injection H as <-. destruct b; lia.
Qed.

(** The session's expiry is a number, as its interface declares. *)
Definition plain_expiry (tgt : ujson) : bool := match tgt with UNum _ | UNull | UBool _ => true | _ => false end.

Lemma expiry_shown label d : (forall t, d = Some t -> is_Some (toISOString t)) -> crashes (I := input) (expiry_item label d) = false.
Proof. intros Hd. unfold expiry_item. destruct d as [t|]; [|done]. by destruct (Hd t eq_refl) as [s ->]. Qed.

Lemma status_shown tgt cert : plain_expiry tgt = true -> crashes (I := input) (SecurityStatus tgt cert) = false.
Proof.
  intros Ht. unfold SecurityStatus. cbn [crashes existsb el icon txt orb]. rewrite !expiry_shown; [done| |].
  - intros t. apply clipped_date. unfold date_of_text. destruct (date_parse cert) as [u|]; [left; by exists u|].
    left. by exists 8640000000000001.
  - intros t. apply clipped_date. destruct tgt; try done; cbn [date_of_seconds]; eauto.
Qed.

(** A profile whose name, if it has one, is a text, and whose email and status
    React takes. *)
Definition plain_profile (a : Account) : bool :=
  match holder a with UStr _ => true | v => negb (utruthy v) end && primitive (email a) && primitive (accountStatus a).

Lemma profile_not_crashing (onReload : input) tgt cert name a : plain_expiry tgt = true -> plain_profile a = true ->
  crashes (render_profile onReload tgt cert name a) = false.
Proof.
  intros Ht Ha. unfold plain_profile in Ha. apply andb_true_iff in Ha as [Ha Hs]. apply andb_true_iff in Ha as [Hn He].
  unfold render_profile. destruct (status_info _ _) as [label cls] eqn:Hi.
  pose proof (status_primitive ACCOUNT_STATUS_LABEL (accountStatus a) Hs) as Hp. rewrite Hi in Hp. cbn [fst] in Hp.
  assert (Hd : exists s, uor (holder a) (UStr (or_text name "—")) = UStr s).
  { unfold uor. destruct (holder a) as [| |[]|z|s|s|l|l]; cbn in *; try done; try (by eexists).
    - destruct z; [by eexists | discriminate..].
    - by destruct s; eexists. }
  destruct Hd as [s ->]. cbn [crashes existsb el txt icon orb render_limits styled name_initial child].
  rewrite status_shown by done. rewrite !child_shown; [done | by destruct label | by apply uor_primitive].
Qed.

(** The transfer form does not crash. *)
Lemma form_shown tgt now p f : shown p = TransferForm f -> crashes (render tgt now p) = false.
Proof.
  intros Hs. unfold render. rewrite Hs. destruct (left_page p); [done|]. unfold NAV.
  cbn [crashes existsb el button icon txt orb Header map app].
  unfold render_TransferForm, render_fields, render_modal, render_confirm, warning.
  by destruct (nonempty _), (warnExceedBalance _ f), (warnExceedDailyLimit _ f), (modal f) as [[]|].
Qed.

(** The page does not crash on what its interfaces declare: with an expiry of the
    session that is a number, a profile and a history whose items are texts and
    numbers, every state of the page is rendered. *)
Lemma home_shown tgt now p :
  plain_expiry tgt = true ->
  (forall a, profile p = Some a -> plain_profile a = true) ->
  (forall h, shown p = HistoryView h -> forallb typed_item (hs_items h) = true) ->
  crashes (render tgt now p) = false.
Proof.
  intros Ht Ha Hh. destruct (shown p) as [|f|h|c] eqn:Hs; [| by eapply form_shown | |];
    unfold render; rewrite Hs; (destruct (left_page p); [done|]); unfold NAV;
    cbn [crashes existsb el button icon txt orb Header map app].
  - unfold render_ProfileOverview. destruct (profileLoading p); [done|]. destruct (nonempty (profileError p)); [done|].
    destruct (profile p) as [a|]; [|done]. by rewrite profile_not_crashing by eauto.
  - specialize (Hh h eq_refl). unfold render_HistoryView. destruct (negb (nonempty _)); [by destruct (profileLoading p)|].
    destruct (hs_loading h); [done|]. destruct (nonempty (hs_error h)); [done|].
    destruct (hs_items h) as [|x items] eqn:Hi; [done|]. pose proof (items_shown (fromAccountNumber p) _ Hh) as Hx.
    cbn [map existsb] in Hx. cbn [crashes existsb el txt icon styled orb map]. by rewrite Hx.
  - unfold render_CertificateView. destruct (localLoading p || cs_parsing c); [done|]. destruct (storedCertificate p); [|done].
    destruct (cs_parseError c), (cs_parsed c) as [v|]; try done. unfold render_certificate, certificate_fields.
    by destruct (expired now v), (nonempty (uris (subjectAltName v))).
Qed.

(** C28: what a pointer reaches. A page with an element that React refuses is
    removed, and nothing can be clicked; otherwise, since a dialog covers the page,
    what can be clicked or typed into without leaving it are exactly the user's
    inputs under the discipline of the page's theorems ([reaches_not_behind]): they
    speak of every run in which the page is used with a pointer. While the transfer
    form is shown, with or without a dialog, React refuses nothing. *)
Theorem home_pointed tgt now p i :
  (pointed_at (render tgt now p) i <->
     crashes (render tgt now p) = false /\ by_user i = true /\
     is_Some (disciplined reaches_not_behind react p i)) /\
  (forall f, shown p = TransferForm f ->
     (pointed_at (render tgt now p) i <-> by_user i = true /\ is_Some (disciplined reaches_not_behind react p i))).
Proof.
  split; [unfold pointed_at; by rewrite home_on_top|]. intros f Hf.
  rewrite pointed_at_shown by (by eapply form_shown). apply home_on_top.
Qed.
End correspondence.

(** ** Concrete pages *)

#[local] Instance no_dates : Dates := {| date_parse := fun _ => None |}.

#[local] Notation reactp := (disciplined reaches_not_behind (react (fun s => s) (fun _ => []))).

Lemma confirmed_as_shown_witness :
  match run_inputs reactp honest_inputs [] (opened (Some None)).1 with
  | Some (t, p) =>
      (exists s, s ∈ t /\ shows_row (render UNull 0 (before s)) "Số tiền" (js "150 VND")) /\
      shows_row (render UNull 0 p) "Xác thực giao dịch " (js "150 VND")
  | None => False
  end.
Proof.
  destruct (run_inputs _ _ _ _) as [[t p]|] eqn:Hr; [|vm_compute in Hr; discriminate Hr].
  pose proof (run_inputs_reaches _ _ _ _ _ _ _ (reach_start _ _) Hr) as Hp.
  assert (He : exists p' cs, reactp p (FormInput (PinKey (Digit 7))) = Some (p', cs) /\ PerformTransfer a_transfer ∈ cs).
  { vm_compute in Hr. injection Hr as <- <-. do 2 eexists. split; [vm_compute; reflexivity | apply list_elem_of_here]. }
  destruct He as (p' & cs & Hreact & Hin).
  destruct (confirmed_as_shown _ _ UNull 0 _ _ _ _ _ _ _ Hp Hreact Hin) as ((s & Hs & _ & _ & _ & Ha) & Hpin & _).
  split; [by exists s | exact Hpin].
Defined.

(** A description that is no text takes the whole page down. *)
Definition a_broken_item : HistoryItem :=
  {| h_transactionId := UStr []; h_fromAccountNumber := UStr []; h_toAccountNumber := UStr []; h_amount := UNum 1;
     h_currency := UStr []; h_status := UStr []; h_description := UNum 1; h_scope := UStr []; h_createdAtUnix := UNum 0;
     h_completedAtUnix := UNum 0 |}.

Example broken_item_crashes : crashes (I := input) (render_item [] a_broken_item) = true.
Proof. reflexivity. Qed.
