(* ===== verification/PinPages.v ===== *)
(** * The pages that only ask for a PIN, and the activation of administrators

    [PinLogin] is the login of the customer ([pages/Login.tsx]) and the login
    panels of the two administrators ([AdminCA.tsx], [AdminBank.tsx]): one state
    machine, with what differs in a record. [ActivationPage] is the form of
    [AdminCAActivate.tsx] and [AdminBankActivate.tsx]. Both are machines of
    [PageRun]; a reply finds the attempt by its number. *)

From S2P Require Import Prelude Effects UString UJson WebCrypto Wire Browser UserError Keypad PageRun Provision.

Open Scope Z_scope.

(** [errorMessage] of the certificate authority's page; [PlatformError] and the
    errors of the parsers are [Error]s, with the text they carry. *)
Definition errorMessage (thrown_message : js_exception -> ustr) (err : js_exception) : ustr :=
  match err with
  | ApiError code message _ => code ++ u8 ": " ++ message
  | JsError message => message
  | e => thrown_message e
  end.

(** ** Logins *)

Module PinLogin.

(** What the three pages differ in: whether the device is read first, the message
    when that fails, and how an exception becomes a message. *)
Record LoginKind := { lk_reads_device : bool; lk_unreadable : ustr; lk_message : js_exception -> ustr }.

Definition customer_login (toUpperCase : ustr -> ustr) (thrown_message : js_exception -> ustr) : LoginKind :=
  {| lk_reads_device := true;
     lk_unreadable := u8 "Không thể đọc dữ liệu đăng ký trên thiết bị này";
     lk_message := fun e => getUserErrorMessage toUpperCase thrown_message (Some e) (u8 "Mã PIN không chính xác") |}.

Definition bank_admin_login (toUpperCase : ustr -> ustr) (thrown_message : js_exception -> ustr) : LoginKind :=
  {| lk_reads_device := true;
     lk_unreadable := u8 "Không thể đọc chứng chỉ Bank Admin trên thiết bị này";
     lk_message := fun e => getUserErrorMessage toUpperCase thrown_message (Some e)
       (u8 "Mã PIN không chính xác hoặc chứng chỉ không có quyền Bank Admin") |}.

Definition ca_admin_login (thrown_message : js_exception -> ustr) : LoginKind :=
  {| lk_reads_device := false; lk_unreadable := []; lk_message := errorMessage thrown_message |}.

(** [attempts] are the calls in flight; [next] numbers them. *)
Record login := {
  fullName : ustr; ready : bool; enrolled : bool; pin : ustr; verifying : bool; error : ustr;
  reading : bool; attempts : list nat; next : nat; left_page : bool
}.

(** The call is [performAsExchange], [createAdminSession] or
    [loginAdminCAWithCertificate]; [Enter] is what follows its success. *)
Inductive call := ReadDevice | Verify (candidate : ustr) | Enter.

Inductive input :=
| PressKey (k : key)
| DeviceRead (r : result js_exception (ustr * bool))
| Verified (n : nat) (r : result js_exception unit).

Section panel.

Context (kind : LoginKind).

Definition opened : login :=
  {| fullName := []; ready := negb (lk_reads_device kind); enrolled := negb (lk_reads_device kind); pin := [];
     verifying := false; error := []; reading := lk_reads_device kind; attempts := []; next := 0; left_page := false |}.

Definition with_pin (v message : ustr) (p : login) : login :=
  {| fullName := fullName p; ready := ready p; enrolled := enrolled p; pin := v; verifying := verifying p;
     error := message; reading := reading p; attempts := attempts p; next := next p; left_page := left_page p |}.

(** The end of the effect that reads the device. *)
Definition device_read (r : result js_exception (ustr * bool)) (p : login) : login :=
  let p' name has message :=
    {| fullName := name; ready := true; enrolled := has; pin := pin p; verifying := verifying p; error := message;
       reading := false; attempts := attempts p; next := next p; left_page := left_page p |} in
  match r with
  | Ok (name, has) => p' name has (error p)
  | Err _ => p' (fullName p) (enrolled p) (lk_unreadable kind)
  end.

(** [verifyPin], up to its [await]. *)
Definition verifyPin (candidate : ustr) (p : login) : login * list call :=
  ({| fullName := fullName p; ready := ready p; enrolled := enrolled p; pin := pin p; verifying := true; error := [];
      reading := reading p; attempts := attempts p ++ [next p]; next := S (next p); left_page := left_page p |},
   [Verify candidate]).

(** And the rest of it. *)
Definition verified (n : nat) (r : result js_exception unit) (p : login) : login * list call :=
  let rest := filter (fun m => m <> n) (attempts p) in
  match r with
  | Ok _ =>
      ({| fullName := fullName p; ready := ready p; enrolled := enrolled p; pin := pin p; verifying := false;
          error := error p; reading := reading p; attempts := rest; next := next p; left_page := true |}, [Enter])
  | Err e =>
      ({| fullName := fullName p; ready := ready p; enrolled := enrolled p; pin := []; verifying := false;
          error := lk_message kind e; reading := reading p; attempts := rest; next := next p;
          left_page := left_page p |}, [])
  end.

Definition handleKey (k : key) (p : login) : login * list call :=
  if negb (ready p) || negb (enrolled p) || verifying p then (p, [])
  else
    let (v, whole) := press (pin p) k in
    let p' := with_pin v [] p in
    if whole then verifyPin v p' else (p', []).

(** The keypad is there when the device is enrolled, and disabled meanwhile. *)
Definition keypad (p : login) : bool := ready p && enrolled p && negb (verifying p).

Definition react (p : login) (i : input) : option (login * list call) :=
  if left_page p then None
  else
    match i with
    | PressKey k => if keypad p && offered_key k then Some (handleKey k p) else None
    | DeviceRead r => if reading p then Some (device_read r p, []) else None
    | Verified n r => if bool_decide (n ∈ attempts p) then Some (verified n r p) else None
    end.

#[local] Notation run := (list (step_taken login input call)).

(** The keys pressed since the page was opened or an attempt was answered, the
    latest first. *)
Fixpoint keys_since (t : run) : list key :=
  match t with
  | [] => []
  | s :: t' =>
      match by_input s with
      | PressKey k => k :: keys_since t'
      | DeviceRead _ => keys_since t'
      | Verified _ _ => []
      end
  end.

(** What these keys enter. *)
Definition entered (keys : list key) : ustr := foldr (fun k v => (press v k).1) [] keys.

Record good (t : run) (p : login) : Prop := Good {
  go_pin : left_page p = false -> pin p = entered (keys_since t);
  go_part : pin_part (pin p);
  go_idle : verifying p = false -> attempts p = [];
  go_one : verifying p = true -> exists n, attempts p = [n]
}.

Lemma login_good_handleKey t k p p' cs : left_page p = false -> keypad p = true -> offered_key k = true -> good t p ->
  handleKey k p = (p', cs) -> good ({| before := p; by_input := PressKey k; calls := cs |} :: t) p'.
Proof.
  intros Hl Hk Ho [H1 H2 H3 H4] Hr. unfold handleKey in Hr. unfold keypad in Hk. bool_to_Z.
  rewrite H, H5, H0 in Hr. cbn [negb orb] in Hr. specialize (H1 Hl). specialize (H3 H0).
  pose proof (press_part (pin p) k Ho H2) as Hp.
  assert (He : entered (k :: keys_since t) = (press (pin p) k).1) by (cbn; by rewrite H1).
  destruct (press (pin p) k) as [v whole]. cbn [fst] in *.
  destruct whole; injection Hr as <- <-; split; cbn; try done; try (by rewrite H3); try (by rewrite H0).
  - intros _. exists (next p). by rewrite H3.
Qed.

Lemma login_good_react t p i p' cs : good t p -> react p i = Some (p', cs) ->
  good ({| before := p; by_input := i; calls := cs |} :: t) p'.
Proof.
  intros Hg Hr. unfold react in Hr. destruct (left_page p) eqn:Hl; [done|]. destruct i as [k|r|n r].
  - destruct (keypad p) eqn:Hk; [|done]. destruct (offered_key k) eqn:Ho; [|done]. injection Hr as Hr.
    by eapply login_good_handleKey.
  - destruct (reading p); [|done]. injection Hr as <- <-. destruct Hg as [H1 H2 H3 H4].
    destruct r as [[name has]|e]; split; cbn; auto.
  - case_bool_decide as Hn; [|done]. injection Hr as Hr. destruct Hg as [H1 H2 H3 H4].
    assert (Hrest : filter (fun m => m <> n) (attempts p) = []).
    { destruct (verifying p); [|rewrite (H3 eq_refl) in Hn; by apply elem_of_nil in Hn].
      destruct (H4 eq_refl) as [m Hm]. rewrite Hm in Hn |- *. apply list_elem_of_singleton in Hn as ->.
      rewrite filter_cons_False by (intros Hne; by apply Hne). done. }
    unfold verified in Hr. rewrite Hrest in Hr.
    destruct r; injection Hr as <- <-; split; cbn; try done; apply pin_part_nil.
Qed.

Lemma login_reaches_good t p : reaches react opened t p -> good t p.
Proof. apply reaches_invariant; [split; try done; apply pin_part_nil | apply login_good_react]. Qed.

(** What a login verifies. In every run of the three pages a PIN is verified
    only when its sixth digit is pressed: it is six digits, exactly what the keys
    pressed since the last attempt enter. The device was found enrolled (where it
    is read), and no other attempt is in flight. *)
Theorem pin_login_sound t p i p' cs candidate :
  reaches react opened t p -> react p i = Some (p', cs) -> Verify candidate ∈ cs ->
  exists k, i = PressKey k /\ candidate = entered (k :: keys_since t) /\ pin_whole candidate /\
    attempts p = [] /\ length (attempts p') = 1%nat /\ ready p = true /\ enrolled p = true.
Proof.
  intros Hp Hr Hc. apply login_reaches_good in Hp as [H1 H2 H3 H4]. unfold react in Hr.
  destruct (left_page p); [done|]. specialize (H1 eq_refl). destruct i as [k|r|n r].
  - exists k. destruct (keypad p) eqn:Hk; [|done]. destruct (offered_key k) eqn:Ho; [|done]. injection Hr as Hr.
    unfold keypad in Hk. bool_to_Z. unfold handleKey in Hr. rewrite H, H5, H0 in Hr. cbn [negb orb] in Hr.
    pose proof (press_whole (pin p) k Ho H2) as Hw.
    assert (He : entered (k :: keys_since t) = (press (pin p) k).1) by (cbn; by rewrite H1).
    destruct (press (pin p) k) as [v whole]. cbn [fst snd] in *.
    destruct whole; injection Hr as <- <-; [|by apply elem_of_nil in Hc].
    apply list_elem_of_singleton in Hc as [= ->]. cbn. rewrite (H3 H0). split_and!; auto.
  - destruct (reading p); [|done]. injection Hr as _ <-. by apply elem_of_nil in Hc.
  - case_bool_decide; [|done]. injection Hr as Hr. unfold verified in Hr.
    destruct r; injection Hr as _ <-; [by apply list_elem_of_singleton in Hc | by apply elem_of_nil in Hc].
Qed.
End panel.

Definition some_kind : LoginKind := customer_login (fun s => s) (fun _ => []).

Lemma pin_login_sound_witness :
  match run_inputs (react some_kind)
          (DeviceRead (Ok (js "An", true)) :: replicate 6 (PressKey (Digit 1)) ++ [Verified 0 (Err (JsError (js "no")))] ++
           [PressKey (Digit 3); PressKey Del] ++ replicate 5 (PressKey (Digit 2))) [] (opened some_kind) with
  | Some (t, p) => pin_whole (entered (Digit 2 :: keys_since t))
  | None => False
  end.
Proof.
  destruct (run_inputs _ _ _ _) as [[t p]|] eqn:Hr; [|vm_compute in Hr; discriminate Hr].
  pose proof (run_inputs_reaches _ _ _ _ _ _ _ (reach_start _ _) Hr) as Hp.
  assert (He : exists p' cs, react some_kind p (PressKey (Digit 2)) = Some (p', cs) /\ Verify (js "222222") ∈ cs).
  { vm_compute in Hr. injection Hr as <- <-. do 2 eexists. split; [vm_compute; reflexivity | apply list_elem_of_here]. }
  destruct He as (p' & cs & Hreact & Hin).
  destruct (pin_login_sound _ _ _ _ _ _ _ Hp Hreact Hin) as (k & Hk & Hc & Hw & _). injection Hk as <-.
  by rewrite Hc in Hw.
Defined.
End PinLogin.

(** ** The activation of an administrator *)

Module ActivationPage.

(** [/^\d{6}$/.test(pin)]. *)
Definition six_digits (s : ustr) : bool := all_digits s && (length s =? 6)%nat.

(** [email.includes(at sign)]. *)
Definition has_at (email : ustr) : bool := existsb (Z.eqb 64) email.

Inductive PinStep := enter_pin | confirm.

(** What the two pages differ in: the messages, and whether the PIN is entered on
    the keypad or typed into two fields. *)
Record ActivationKind := {
  ak_keypad : bool; ak_incomplete : ustr; ak_pin : ustr; ak_message : js_exception -> ustr; ak_next : string
}.

Definition ca_admin_activation (toUpperCase : ustr -> ustr) (thrown_message : js_exception -> ustr) : ActivationKind :=
  {| ak_keypad := true;
     ak_incomplete := u8 "Vui lòng nhập đầy đủ token, email và tên đã đưuọc cấp";
     ak_pin := u8 "Mã PIN phải đủ 6 chữ số";
     ak_message := fun e => getUserErrorMessage toUpperCase thrown_message (Some e)
       (u8 "Không thể kích hoạt CA Admin. Vui lòng kiểm tra lại thông tin.");
     ak_next := "/admin-ca" |}.

Definition bank_admin_activation (toUpperCase : ustr -> ustr) (thrown_message : js_exception -> ustr) : ActivationKind :=
  {| ak_keypad := false;
     ak_incomplete := u8 "Vui lòng nhập đầy đủ token, email và họ tên đã được cấp";
     ak_pin := u8 "Mã PIN phải gồm đúng 6 chữ số";
     ak_message := fun e => getUserErrorMessage toUpperCase thrown_message (Some e)
       (u8 "Không thể kích hoạt Bank Admin. Vui lòng kiểm tra lại thông tin.");
     ak_next := "/admin-bank" |}.

Record form := {
  token : ustr; email : ustr; fullName : ustr; pin : ustr; confirmPin : ustr; pinStep : PinStep;
  submitting : bool; success : bool; error : ustr; attempts : list nat; next : nat; timer : bool; left_page : bool
}.

Record Activate := { a_activationToken : ustr; a_email : ustr; a_fullName : ustr; a_pin : ustr }.

(** [RemoveToken] is [history.replaceState], without the fragment. *)
Inductive call := RemoveToken | ActivateAdmin (a : Activate) | StartTimer | Navigate (path : string).

Inductive input :=
| TypeToken (v : ustr)
| TypeEmail (v : ustr)
| TypeName (v : ustr)
| TypePin (v : ustr)
| TypeConfirm (v : ustr)
| ChooseStep (s : PinStep)
| PressKey (k : key)
| Submit
| Activated (n : nat) (r : result js_exception unit)
| TimerFires.

Section page.

Context (kind : ActivationKind).

Definition set_fields (tk em name : ustr) (f : form) : form :=
  {| token := tk; email := em; fullName := name; pin := pin f; confirmPin := confirmPin f; pinStep := pinStep f;
     submitting := submitting f; success := success f; error := error f; attempts := attempts f; next := next f;
     timer := timer f; left_page := left_page f |}.

Definition set_pins (p c : ustr) (s : PinStep) (f : form) : form :=
  {| token := token f; email := email f; fullName := fullName f; pin := p; confirmPin := c; pinStep := s;
     submitting := submitting f; success := success f; error := error f; attempts := attempts f; next := next f;
     timer := timer f; left_page := left_page f |}.

Definition set_error (message : ustr) (f : form) : form :=
  {| token := token f; email := email f; fullName := fullName f; pin := pin f; confirmPin := confirmPin f;
     pinStep := pinStep f; submitting := submitting f; success := success f; error := message; attempts := attempts f;
     next := next f; timer := timer f; left_page := left_page f |}.

Definition blank : form :=
  {| token := []; email := []; fullName := []; pin := []; confirmPin := []; pinStep := enter_pin; submitting := false;
     success := false; error := []; attempts := []; next := 0; timer := false; left_page := false |}.

(** The effect that reads the link. *)
Definition opened (hash : ustr) : form * list call :=
  match page_token hash with
  | [] => (blank, [])
  | tk => (set_fields tk [] [] blank, [RemoveToken])
  end.

(** What is wrong with the form, the first check that fails. *)
Definition form_error (f : form) : option ustr :=
  if negb (nonempty (trim (token f))) || negb (has_at (email f)) || (length (trim (fullName f)) <? 2)%nat
  then Some (ak_incomplete kind)
  else if negb (six_digits (pin f)) then Some (ak_pin kind)
  else if negb (ustr_eqb (pin f) (confirmPin f)) then Some (u8 "Mã PIN xác nhận không khớp")
  else None.

Definition activation_of (f : form) : Activate :=
  {| a_activationToken := token f; a_email := email f; a_fullName := fullName f; a_pin := pin f |}.

(** [submit], up to its [await]. *)
Definition submit (f : form) : form * list call :=
  match form_error f with
  | Some message => (set_error message f, [])
  | None =>
      ({| token := token f; email := email f; fullName := fullName f; pin := pin f; confirmPin := confirmPin f;
          pinStep := pinStep f; submitting := true; success := success f; error := []; attempts := attempts f ++ [next f];
          next := S (next f); timer := timer f; left_page := left_page f |},
       [ActivateAdmin (activation_of f)])
  end.

(** And the rest of it. *)
Definition activated (n : nat) (r : result js_exception unit) (f : form) : form * list call :=
  let f' ok message :=
    {| token := token f; email := email f; fullName := fullName f; pin := pin f; confirmPin := confirmPin f;
       pinStep := pinStep f; submitting := false; success := ok; error := message;
       attempts := filter (fun m => m <> n) (attempts f); next := next f; timer := ok; left_page := left_page f |} in
  match r with
  | Ok _ => (f' true (error f), [StartTimer])
  | Err e => (f' false (ak_message kind e), [])
  end.

(** [handlePinKey] of the certificate authority's page. *)
Definition handlePinKey (k : key) (f0 : form) : form :=
  if submitting f0 then f0
  else
    let f := set_error [] f0 in
    match k, pinStep f with
    | Del, enter_pin => set_pins (drop_last (pin f)) (confirmPin f) enter_pin f
    | Del, confirm =>
        match confirmPin f with
        | [] => set_pins (pin f) [] enter_pin f
        | c => set_pins (pin f) (drop_last c) confirm f
        end
    | Digit d, enter_pin =>
        if (6 <=? length (pin f))%nat then set_pins (pin f) (confirmPin f) confirm f
        else
          let v := pin f ++ key_text d in
          set_pins v (confirmPin f) (if (length v =? 6)%nat then confirm else enter_pin) f
    | Digit d, confirm =>
        if (6 <=? length (confirmPin f))%nat then f else set_pins (pin f) (confirmPin f ++ key_text d) confirm f
    end.

(** [value.replace(/\D/g, empty)] of a field of at most six units. *)
Definition pin_field (v : ustr) : ustr := filter (fun u => is_digit u = true) (take 6 v).

(** The form is there until the activation succeeded. *)
Definition react (f : form) (i : input) : option (form * list call) :=
  if left_page f then None
  else
    let shown := negb (success f) in
    match i with
    | TypeToken v => if shown then Some (set_fields v (email f) (fullName f) f, []) else None
    | TypeEmail v => if shown then Some (set_fields (token f) v (fullName f) f, []) else None
    | TypeName v => if shown then Some (set_fields (token f) (email f) v f, []) else None
    | TypePin v =>
        if shown && negb (ak_keypad kind) then Some (set_pins (pin_field v) (confirmPin f) (pinStep f) f, []) else None
    | TypeConfirm v =>
        if shown && negb (ak_keypad kind) then Some (set_pins (pin f) (pin_field v) (pinStep f) f, []) else None
    | ChooseStep s => if shown && ak_keypad kind then Some (set_pins (pin f) (confirmPin f) s f, []) else None
    | PressKey k =>
        if shown && ak_keypad kind && negb (submitting f) && offered_key k then Some (handlePinKey k f, []) else None
    | Submit => if shown && negb (submitting f) then Some (submit f) else None
    | Activated n r => if bool_decide (n ∈ attempts f) then Some (activated n r f) else None
    | TimerFires =>
        if timer f then
          Some ({| token := token f; email := email f; fullName := fullName f; pin := pin f; confirmPin := confirmPin f;
                   pinStep := pinStep f; submitting := submitting f; success := success f; error := error f;
                   attempts := attempts f; next := next f; timer := false; left_page := true |},
                [Navigate (ak_next kind)])
        else None
    end.

Record good (f : form) : Prop := Good {
  go_pin : pin_part (pin f);
  go_confirm : pin_part (confirmPin f);
  go_idle : submitting f = false -> attempts f = [];
  go_one : submitting f = true -> exists n, attempts f = [n]
}.

Lemma pin_field_part v : pin_part (pin_field v).
Proof.
  split.
  - apply Is_true_eq_true, forallb_True, Forall_forall. intros u Hu. apply list_elem_of_filter in Hu as [Hu _]. by rewrite Hu.
  - unfold pin_field. etrans; [apply length_filter|]. rewrite length_take. lia.
Qed.

Lemma add_digit s d : offered_key (Digit d) = true -> (6 <=? length s)%nat = false -> pin_part s ->
  pin_part (s ++ key_text d).
Proof.
  intros Hk Hl Hs. pose proof (press_part s (Digit d) Hk Hs) as Hp. unfold press in Hp. by rewrite Hl in Hp.
Qed.

Lemma drop_part s : pin_part s -> pin_part (drop_last s).
Proof. apply (press_part s Del eq_refl). Qed.

#[local] Hint Resolve pin_field_part add_digit drop_part pin_part_nil : pins.

Lemma good_handlePinKey k f : offered_key k = true -> good f -> good (handlePinKey k f).
Proof.
  intros Hk [H1 H2 H3 H4]. unfold handlePinKey. destruct (submitting f) eqn:Hs; [split; by rewrite ?Hs|].
  destruct k as [d|]; cbn [pinStep set_error pin confirmPin].
  - destruct (pinStep f); destruct (6 <=? _)%nat eqn:Hl; split; cbn; rewrite ?Hs; auto with pins.
  - destruct (pinStep f); [|destruct (confirmPin f) eqn:Hc]; split; cbn [pin confirmPin submitting attempts set_pins set_error];
      rewrite ?Hs; auto with pins.
Qed.

Lemma activation_good_react f i f' cs : good f -> react f i = Some (f', cs) -> good f'.
Proof.
  intros Hg Hr. unfold react in Hr. destruct (left_page f); [done|]. pose proof Hg as [H1 H2 H3 H4].
  destruct i as [v|v|v|v|v|s|k| |n r|].
  1-6: destruct (_ : bool); [|done]; injection Hr as <- <-; split; cbn; auto with pins.
  - destruct (_ && _) eqn:Hb; [|done]. apply andb_true_iff in Hb as [Hb Hk]. injection Hr as <- <-.
    by apply good_handlePinKey.
  - destruct (_ && _) eqn:Hb; [|done]. bool_to_Z. injection Hr as Hr. unfold submit in Hr.
    destruct (form_error f); injection Hr as <- <-; split; cbn; auto; try done.
    intros _. exists (next f). by rewrite H3.
  - case_bool_decide as Hn; [|done]. injection Hr as Hr.
    assert (Hrest : filter (fun m => m <> n) (attempts f) = []).
    { destruct (submitting f); [|rewrite (H3 eq_refl) in Hn; by apply elem_of_nil in Hn].
      destruct (H4 eq_refl) as [m Hm]. rewrite Hm in Hn |- *. apply list_elem_of_singleton in Hn as ->.
      rewrite filter_cons_False by (intros Hne; by apply Hne). done. }
    unfold activated in Hr. rewrite Hrest in Hr. destruct r; injection Hr as <- <-; split; cbn; auto; done.
  - destruct (timer f); [|done]. injection Hr as <- <-. split; cbn; auto.
Qed.

Lemma activation_good_opened hash : good (opened hash).1.
Proof. unfold opened. destruct (page_token hash); split; cbn; auto with pins; done. Qed.

(** C26: what an activation sends. In every run of both pages an activation begins
    only with a submission of the form, while none is in flight and none has
    succeeded. Its token is not blank, its address has an at sign, its name two
    letters and its PIN six digits, which were entered twice. *)
Theorem activation_page_sound hash t f i f' cs a :
  reaches react (opened hash).1 t f -> react f i = Some (f', cs) -> ActivateAdmin a ∈ cs ->
  i = Submit /\ cs = [ActivateAdmin a] /\ a = activation_of f /\ attempts f = [] /\ success f = false /\
  trim (a_activationToken a) <> [] /\ has_at (a_email a) = true /\ (2 <= length (trim (a_fullName a)))%nat /\
  pin_whole (a_pin a) /\ confirmPin f = a_pin a.
Proof.
  intros Hp Hr Ha. assert (Hg : good f).
  { revert Hp. apply (reaches_invariant react (fun _ => good)); [apply activation_good_opened|].
    intros ??????. by apply activation_good_react. }
  unfold react in Hr. destruct (left_page f); [done|].
  assert (Hnil : cs <> []) by (intros ->; by apply elem_of_nil in Ha).
  destruct i as [v|v|v|v|v|s|k| |n r|]; try (destruct (_ : bool); [|done]; by injection Hr as _ <-).
  - destruct (negb (success f) && negb (submitting f)) eqn:Hb; [|done]. bool_to_Z. injection Hr as Hr. unfold submit in Hr.
    destruct (form_error f) eqn:He; injection Hr as _ <-; [done|]. apply list_elem_of_singleton in Ha as [= ->].
    unfold form_error in He. destruct (_ || _) eqn:H1; [done|]. bool_to_Z.
    destruct (six_digits (pin f)) eqn:H6; [|done]. destruct (ustr_eqb _ _) eqn:Heq; [|done]. apply ustr_eqb_eq in Heq.
    unfold six_digits in H6. apply andb_true_iff in H6 as [Hd Hl]. apply Nat.eqb_eq in Hl.
    match goal with H : (_ <? 2)%nat = false |- _ => apply Nat.ltb_ge in H end.
    split_and!; try done; [by apply (go_idle _ Hg)|].
    intros Htr. change (trim (token f) = []) in Htr. by rewrite Htr in H1.
  - case_bool_decide; [|done]. injection Hr as Hr. unfold activated in Hr.
    destruct r; injection Hr as _ <-; [by apply list_elem_of_singleton in Ha | done].
  - destruct (timer f); [|done]. injection Hr as _ <-. by apply list_elem_of_singleton in Ha.
Qed.
End page.

Definition some_kind : ActivationKind := ca_admin_activation (fun s => s) (fun _ => []).

Definition some_inputs : list input :=
  [TypeEmail (js "a@x"); TypeName (js "An"); Submit] ++ replicate 12 (PressKey (Digit 4)).

Lemma activation_page_sound_witness :
  match run_inputs (react some_kind) some_inputs [] (opened (js "#token=abc")).1 with
  | Some (t, f) => trim (token f) <> [] /\ pin_whole (pin f)
  | None => False
  end.
Proof.
  destruct (run_inputs _ _ _ _) as [[t f]|] eqn:Hr; [|vm_compute in Hr; discriminate Hr].
  pose proof (run_inputs_reaches _ _ _ _ _ _ _ (reach_start _ _) Hr) as Hp.
  assert (He : exists f' cs, react some_kind f Submit = Some (f', cs) /\ ActivateAdmin (activation_of f) ∈ cs).
  { vm_compute in Hr. injection Hr as <- <-. do 2 eexists. split; [vm_compute; reflexivity | apply list_elem_of_here]. }
  destruct He as (f' & cs & Hreact & Hin).
  destruct (activation_page_sound _ _ _ _ _ _ _ _ Hp Hreact Hin) as (_ & _ & _ & _ & _ & Ht & _ & _ & Hw & _).
  by split.
Defined.
End ActivationPage.
