(* ===== verification/PinViews.v ===== *)
(** * What the login and activation pages show

    The elements of [pages/Login.tsx], of the two administrators' login panels
    ([AdminCA.tsx], [AdminBank.tsx]) and of the two activation forms, for the
    machines of [PinPages]. [login_controls] and [activation_controls] are that the
    pages offer what the machines take; the lemmas at the end are used by
    [ViewProps.pins_never_shown]. *)

From S2P Require Import Prelude UString UJson WebCrypto Wire Keypad PageRun PinPages Locale View.

Open Scope Z_scope.

#[local] Arguments nonempty {A} !l /.

(** ** [components/PinEntry.tsx] *)

Inductive PinTone := blue | cyan.

Definition toneClasses (t : PinTone) : string :=
  match t with blue => "bg-blue-500 border-blue-500" | cyan => "bg-cyan-500 border-cyan-500" end.

Definition dot_class (filled : nat) (error : bool) (tone : PinTone) (i : nat) : string :=
  if error then "bg-red-500 border-red-500"
  else if (i <? filled)%nat then toneClasses tone +:+ " scale-110" else "border-muted-foreground/25".

Section views.

Context `{L : Locale} {I : Type}.

#[local] Notation element := (node I).

Definition PinDots (filled : nat) (error : bool) (tone : PinTone) : element := draw_dots (dot_class filled error tone).

Definition entry_face (k : key) : list element := match k with Del => [icon "Delete"] | Digit d => [Text (key_text d)] end.

Definition entry_label (k : key) : attributes :=
  [("aria-label", match k with Del => js "Delete digit" | Digit d => js "Digit " ++ key_text d end)].

Definition PinKeypad (onKey : key -> I) (disabled : bool) : element := draw_keypad entry_label entry_face onKey disabled.

Definition Link (to : string) (l : list element) : element := Elem "Link" [("to", js to)] l.

(** ** The logins *)

Context (onKey : key -> I).

(** [Login.tsx] has dots and a keypad of its own. *)
Definition LoginDots (filled : nat) (error : bool) : element := draw_dots (dot_class filled error blue).
Definition LoginKeypad (disabled : bool) : element := draw_keypad (fun _ => []) key_face onKey disabled.

(** The initial of a name, or the picture of a person. *)
Definition initial (name : ustr) : element :=
  match vi_upper (take 1 (trim name)) with [] => icon "UserRound" | s => el "span" [Text s] end.

Definition greeting (name : ustr) (nobody : string) : ustr :=
  match name with [] => u8 nobody | _ => u8 "Xin chào, " ++ name end.

Definition render_Login (p : PinLogin.login) : element :=
  if PinLogin.left_page p then Elem "" [] []
  else
    el "div" [el "div" [
      el "div" [el "div" [icon "Lock"]; el "p" [txt "Mini Banking System"]];
      el "div" [
        (if negb (PinLogin.ready p) then
           el "div" [icon "RefreshCw"; el "p" [txt "Đang đọc thông tin đăng ký…"]]
         else if negb (PinLogin.enrolled p) then
           el "div" [
             el "div" [icon "KeyRound"];
             el "h1" [txt "Thiết bị chưa được đăng ký"];
             el "p" [txt "Không tìm thấy khóa và chứng chỉ cục bộ để xác minh mã PIN."];
             Link "/register" [txt "Đăng ký tài khoản"]]
         else
           Elem "" [] ([
             el "div" [
               el "div" [initial (PinLogin.fullName p)];
               el "p" [Text (greeting (PinLogin.fullName p) "Xin chào")];
               el "p" [txt "Nhập mã PIN để đăng nhập"]];
             LoginDots (length (PinLogin.pin p)) (nonempty (PinLogin.error p))] ++
             when (PinLogin.verifying p) [el "p" [icon "RefreshCw"; txt " Đang xác minh…"]] ++
             when (nonempty (PinLogin.error p) && negb (PinLogin.verifying p))
               [el "div" [icon "XCircle"; el "p" [Text (PinLogin.error p)]]] ++
             [LoginKeypad (PinLogin.verifying p)]));
        el "div" [el "p" [txt "Chưa có tài khoản?"; txt " "; Link "/register" [txt "Đăng ký"]]]]]].

(** [LoginPanel] of [AdminCA.tsx]. *)
Definition ca_LoginPanel (p : PinLogin.login) : element :=
  if PinLogin.left_page p then Elem "" [] []
  else
    el "div" [el "div" ([
      el "div" [el "div" [icon "ShieldCheck"];
                el "div" [el "h1" [txt "Admin CA"]; el "p" [txt "Nhập mã PIN để ký phiên cert-based"]]];
      PinDots (length (PinLogin.pin p)) (nonempty (PinLogin.error p)) cyan] ++
      when (PinLogin.verifying p) [el "p" [icon "Loader2"; txt " Đang tiến hành ký..."]] ++
      when (nonempty (PinLogin.error p) && negb (PinLogin.verifying p)) [el "p" [Text (PinLogin.error p)]] ++ [
      PinKeypad onKey (PinLogin.verifying p);
      el "p" [txt "Chưa kích hoạt CA Admin? "; Link "/admin-ca/activate" [txt "Kích hoạt"]]])].

(** [LoginPanel] of [AdminBank.tsx]. *)
Definition bank_LoginPanel (p : PinLogin.login) : element :=
  if PinLogin.left_page p then Elem "" [] []
  else
    el "div" [el "div" [
      (if negb (PinLogin.ready p) then
         el "div" [icon "RefreshCw"; el "p" [txt "Đang đọc chứng chỉ Bank Admin..."]]
       else if negb (PinLogin.enrolled p) then
         el "div" [
           el "div" [icon "KeyRound"];
           el "h1" [txt "Thiết bị chưa được kích hoạt"];
           el "p" [txt "Không tìm thấy private key và chứng chỉ Bank Admin trong trình duyệt này."];
           Link "/admin-bank/activate" [txt "Kích hoạt Bank Admin"]]
       else
         Elem "" [] ([
           el "div" [
             el "div" [initial (PinLogin.fullName p)];
             el "p" [Text (greeting (PinLogin.fullName p) "Xin chào, Bank Admin")];
             el "p" [txt "Nhập mã PIN để mở bảng điều khiển"]];
           PinDots (length (PinLogin.pin p)) (nonempty (PinLogin.error p)) cyan] ++
           when (PinLogin.verifying p) [el "p" [icon "RefreshCw"; txt " Đang xác minh..."]] ++
           when (nonempty (PinLogin.error p) && negb (PinLogin.verifying p))
             [el "div" [icon "XCircle"; el "p" [Text (PinLogin.error p)]]] ++
           [PinKeypad onKey (PinLogin.verifying p)]));
      el "div" [el "p" [txt "Chưa kích hoạt Bank Admin?"; txt " "; Link "/admin-bank/activate" [txt "Kích hoạt"]]]]].
End views.

(** ** The activations *)

Module Activation.

Import ActivationPage.

#[local] Notation element := (node input).

Section forms.

Context (f : form).

(** A field with its label. *)
Definition labelled (label : string) (field : element) : element := el "label" [el "span" [txt label]; field].

Definition error_box : list element := when (nonempty (error f)) [el "div" [Text (error f)]].

Definition identity_fields : list element := [
  labelled "One-time token" (el "div" [icon "KeyRound";
    Field "input" [("placeholder", u8 "Token từ liên kết email")] (token f) false (Some TypeToken)]);
  el "div" [
    labelled "Email Admin" (Field "input" [("type", js "email")] (email f) false (Some TypeEmail));
    labelled "Họ và tên" (Field "input" [] (fullName f) false (Some TypeName))]].

Definition step_button (s : PinStep) (label : string) (l : list element) : element :=
  Button [("className", js (if match s, pinStep f with enter_pin, enter_pin | confirm, confirm => true | _, _ => false end
                            then "border-cyan-500 bg-cyan-500/10" else "border-border bg-background hover:bg-secondary"))]
    false (ChooseStep s) (el "span" [txt label] :: l).

Definition submit_button (busy idle : string) : element :=
  SubmitButton [] (submitting f) (if submitting f then [icon "RefreshCw"; txt busy] else [txt idle]).

(** [AdminCAActivate.tsx]: the PIN is entered on the keypad. *)
Definition render_AdminCAActivate : element :=
  if left_page f then Elem "" [] []
  else
    el "div" [el "div" [
      el "div" [el "div" [icon "ShieldCheck"]; el "p" [txt "CA Admin Enrollment"]];
      el "div" (if success f then
        [el "div" [icon "CheckCircle"; el "h1" [txt "Kích hoạt CA Admin thành công"];
                   el "p" [txt "Chứng chỉ CA Admin đã được lưu trên thiết bị. Đang di chuyển đến Dashboard..."]]]
      else
        [el "div" [el "h1" [txt "Kích hoạt CA Admin"];
                   el "p" [txt "Token được điền từ liên kết email. Vui lòng nhập email và tên đã được provision."]]] ++
        error_box ++
        [View.Form Submit (identity_fields ++ [
           el "div" [
             step_button enter_pin "Mã PIN"
               [PinDots (length (pin f)) (nonempty (error f) && (length (pin f) <? 6)%nat) cyan];
             step_button confirm "Xác nhận PIN"
               [PinDots (length (confirmPin f))
                  (nonempty (error f) && (length (pin f) =? 6)%nat && (0 <? length (confirmPin f))%nat &&
                   negb (ustr_eqb (pin f) (confirmPin f))) cyan]];
           PinKeypad PressKey (submitting f);
           el "div" [icon "Lock";
             el "p" [txt "PIN và private key chỉ được xử lý trong browser. Gateway chỉ nhận token và CSR."]];
           submit_button " Đang kích hoạt..." "Kich hoat"]);
         el "p" [txt "Da kich hoat? "; Link "/admin-ca" [txt "Đăng nhập Admin CA"]]])]].

(** [AdminBankActivate.tsx]: the PIN is typed into two password fields. *)
Definition pin_input (value : ustr) (on : ustr -> input) : element :=
  Field "input" [("type", js "password"); ("maxLength", js "6")] value false (Some on).

Definition render_AdminBankActivate : element :=
  if left_page f then Elem "" [] []
  else
    el "div" [el "div" [
      el "div" [el "div" [icon "ShieldCheck"]; el "p" [txt "Bank Admin Enrollment"]];
      el "div" (if success f then
        [el "div" [icon "CheckCircle"; el "h1" [txt "Kích hoạt thành công"];
                   el "p" [txt "Chứng chỉ đã được lưu trên thiết bị. Đang chuyển đến trang đăng nhập…"]]]
      else
        [el "div" [el "h1" [txt "Kích hoạt Bank Admin"];
                   el "p" [txt "Token được điền từ liên kết email. Vui lòng nhập lại email và họ tên đã provision."]]] ++
        error_box ++
        [View.Form Submit (identity_fields ++ [
           el "div" [
             labelled "Mã PIN" (pin_input (pin f) TypePin);
             labelled "Xác nhận PIN" (pin_input (confirmPin f) TypeConfirm)];
           el "div" [icon "Lock";
             el "p" [txt "PIN và private key chỉ được xử lý trong trình duyệt. Gateway chỉ nhận token và CSR."]];
           submit_button " Đang kích hoạt…" "Kích hoạt"]);
         el "p" [txt "Đã kích hoạt? "; Link "/admin-bank" [txt "Đăng nhập Bank Admin"]]])]].
End forms.
End Activation.

(** ** The logins offer the keypad *)

Section logins.

Context `{L : Locale}.

Lemma entry_face_plain {I} : plain_face (I := I) entry_face.
Proof. by intros []. Qed.

Lemma offers_PinKeypad {I} (onKey : key -> I) d i :
  draws (PinKeypad onKey d) i <-> d = false /\ exists k, offered_key k = true /\ i = onKey k.
Proof. apply offers_keypad, entry_face_plain. Qed.

Lemma initial_controls {I} name : controls (I := I) (initial name) = [].
Proof. unfold initial. by destruct (vi_upper _). Qed.

Lemma offers_login_keypad (p : PinLogin.login) (n : node PinLogin.input) i :
  (draws n i <-> PinLogin.left_page p = false /\ PinLogin.keypad p = true /\
     exists k, offered_key k = true /\ i = PinLogin.PressKey k) ->
  forall kind, draws n i <->
    (exists k, i = PinLogin.PressKey k) /\ is_Some (PinLogin.react kind p i).
Proof.
  intros Hn kind. rewrite Hn. unfold PinLogin.react. split.
  - intros (Hl & Hk & k & Ho & ->). split; [by exists k|]. rewrite Hl, Hk, Ho. by destruct (PinLogin.handleKey k p).
  - intros [[k ->] [r Hr]]. destruct (PinLogin.left_page p); [done|].
    destruct (PinLogin.keypad p) eqn:Hk; [|done]. destruct (offered_key k) eqn:Ho; [|done]. split_and!; eauto.
Qed.

(** The controls of the three login pages. *)
Lemma login_draws kind p i :
  (draws (render_Login PinLogin.PressKey p) i <->
     (exists k, i = PinLogin.PressKey k) /\ is_Some (PinLogin.react kind p i)) /\
  (draws (bank_LoginPanel PinLogin.PressKey p) i <->
     (exists k, i = PinLogin.PressKey k) /\ is_Some (PinLogin.react kind p i)) /\
  (PinLogin.ready p = true -> PinLogin.enrolled p = true ->
   draws (ca_LoginPanel PinLogin.PressKey p) i <->
     (exists k, i = PinLogin.PressKey k) /\ is_Some (PinLogin.react kind p i)).
Proof.
  split_and!; [| |intros Hr He]; apply offers_login_keypad; unfold PinLogin.keypad;
    unfold render_Login, bank_LoginPanel, ca_LoginPanel.
  all: destruct (PinLogin.left_page p); [read_controls; split; [tauto | by intros (? & ? & _)]|].
  all: try rewrite Hr, He; try destruct (PinLogin.ready p); try (read_controls; split; [tauto | by intros (? & ? & _)]; fail).
  all: try destruct (PinLogin.enrolled p); try (read_controls; split; [tauto | by intros (? & ? & _)]; fail).
  all: unfold draws, LoginDots, PinDots, LoginKeypad, Link; destruct (PinLogin.verifying p), (nonempty (PinLogin.error p));
    compute_view; rewrite ?initial_controls, ?dots_controls; read_controls;
    try change (Exists (gives i) (controls ?n)) with (draws n i).
  all: rewrite ?offers_PinKeypad, ?(offers_keypad _ _ _ _ _ key_face_plain); naive_solver.
Qed.

(** No login page has an element that React refuses. *)
Lemma initial_shown {I} name : crashes (I := I) (initial name) = false.
Proof. unfold initial. by destruct (vi_upper _). Qed.

Lemma login_shown {I} (onKey : key -> I) p :
  crashes (render_Login onKey p) = false /\ crashes (bank_LoginPanel onKey p) = false /\
  crashes (ca_LoginPanel onKey p) = false.
Proof.
  unfold render_Login, bank_LoginPanel, ca_LoginPanel, LoginDots, PinDots, LoginKeypad, Link.
  destruct (PinLogin.left_page p); [done|].
  destruct (PinLogin.ready p), (PinLogin.enrolled p), (PinLogin.verifying p), (nonempty (PinLogin.error p));
    cbn [crashes existsb el txt icon styled app orb when negb]; by rewrite ?initial_shown.
Qed.

(** The logins offer what their machines take: each of the three pages has an
    enabled keypad exactly when the machine takes its keys, and no other control. *)
Theorem login_controls kind p i :
  (offers (render_Login PinLogin.PressKey p) i <->
     (exists k, i = PinLogin.PressKey k) /\ is_Some (PinLogin.react kind p i)) /\
  (offers (bank_LoginPanel PinLogin.PressKey p) i <->
     (exists k, i = PinLogin.PressKey k) /\ is_Some (PinLogin.react kind p i)) /\
  (PinLogin.ready p = true -> PinLogin.enrolled p = true ->
   offers (ca_LoginPanel PinLogin.PressKey p) i <->
     (exists k, i = PinLogin.PressKey k) /\ is_Some (PinLogin.react kind p i)).
Proof.
  destruct (login_shown PinLogin.PressKey p) as (H1 & H2 & H3). rewrite !offers_shown by done. apply login_draws.
Qed.
End logins.

(** ** The activations offer the form *)

Section activations.

Import ActivationPage Activation.

Definition by_user (i : input) : bool := match i with Activated _ _ | TimerFires => false | _ => true end.

Lemma PinKeypad_submit d : submits (PinKeypad PressKey d) = false.
Proof. by destruct d. Qed.

(** What the machine takes while the form is shown. *)
Lemma activation_reacts kind f i : left_page f = false -> success f = false ->
  (by_user i = true /\ is_Some (react kind f i)) <->
  match i with
  | TypeToken _ | TypeEmail _ | TypeName _ => True
  | TypePin _ | TypeConfirm _ => ak_keypad kind = false
  | ChooseStep _ => ak_keypad kind = true
  | PressKey k => ak_keypad kind = true /\ submitting f = false /\ offered_key k = true
  | Submit => submitting f = false
  | Activated _ _ | TimerFires => False
  end.
Proof.
  intros Hl Hs. unfold react. rewrite Hl, Hs. destruct i as [v|v|v|v|v|s|k| |n r|]; cbn [by_user negb andb].
  1-3: split; [done | by split].
  1-3: destruct (ak_keypad kind); (split; [by intros [_ [? ?]] | by split]).
  - destruct (ak_keypad kind), (submitting f), (offered_key k); (split; [by intros [_ [? ?]] | by intros (? & ? & ?)]).
  - destruct (submitting f); [split; [by intros [_ [? ?]] | done]|]. split; [done|]. split; [done|].
    by destruct (submit kind f).
  - split; [by intros [? _] | done].
  - split; [by intros [? _] | done].
Qed.

(** The controls of the two activation forms. *)
Lemma activation_draws kind f i :
  (ak_keypad kind = true ->
   draws (render_AdminCAActivate f) i <-> by_user i = true /\ is_Some (react kind f i)) /\
  (ak_keypad kind = false ->
   draws (render_AdminBankActivate f) i <-> by_user i = true /\ is_Some (react kind f i)).
Proof.
  split; intros Hk; (destruct (left_page f) eqn:Hl; [|destruct (success f) eqn:Hs]).
  all: try (unfold render_AdminCAActivate, render_AdminBankActivate, react; rewrite Hl, ?Hs; read_controls;
    split; [tauto|]; destruct i; intros [? [? ?]]; done).
  all: rewrite (activation_reacts kind f i Hl Hs), Hk; unfold render_AdminCAActivate, render_AdminBankActivate; rewrite Hl, Hs;
    unfold identity_fields, error_box, step_button, submit_button, labelled, pin_input, PinDots, Link, draws;
    destruct (nonempty (error f)), (submitting f); compute_view; rewrite ?dots_controls, ?dots_submit, ?PinKeypad_submit;
    read_controls; try change (Exists (gives i) (controls ?n)) with (draws n i); rewrite ?offers_PinKeypad.
  all: destruct i as [v|v|v|v|v|[]|k| |n r|]; (split; [each_offer | pick_taken offer_leaf]).
Qed.

Lemma activation_shown f : crashes (render_AdminCAActivate f) = false /\ crashes (render_AdminBankActivate f) = false.
Proof.
  unfold render_AdminCAActivate, render_AdminBankActivate, identity_fields, error_box, step_button, submit_button, labelled,
    pin_input, PinDots, Link.
  by destruct (left_page f), (success f), (nonempty (error f)), (submitting f), (pinStep f).
Qed.

(** The activation forms offer what their machine takes: the fields, the
    keypad or the two password fields, and the submission, all until the activation
    has succeeded, the keys and the submission not while one is under way. *)
Theorem activation_controls kind f i :
  (ak_keypad kind = true ->
   offers (render_AdminCAActivate f) i <-> by_user i = true /\ is_Some (react kind f i)) /\
  (ak_keypad kind = false ->
   offers (render_AdminBankActivate f) i <-> by_user i = true /\ is_Some (react kind f i)).
Proof. destruct (activation_shown f) as [H1 H2]. rewrite !offers_shown by done. apply activation_draws. Qed.
End activations.

(** ** No PIN is shown *)

Section pins.

Context `{L : Locale}.

(** The login pages do not depend on the digits. *)
Lemma login_pin_hidden p q : length q = length (PinLogin.pin p) ->
  let p' := PinLogin.with_pin q (PinLogin.error p) p in
  render_Login PinLogin.PressKey p' = render_Login PinLogin.PressKey p /\
  ca_LoginPanel PinLogin.PressKey p' = ca_LoginPanel PinLogin.PressKey p /\
  bank_LoginPanel PinLogin.PressKey p' = bank_LoginPanel PinLogin.PressKey p.
Proof.
  intros Hq. unfold render_Login, ca_LoginPanel, bank_LoginPanel.
  cbn [PinLogin.left_page PinLogin.ready PinLogin.enrolled PinLogin.pin PinLogin.error PinLogin.verifying PinLogin.fullName PinLogin.with_pin].
  rewrite Hq. by split_and!.
Qed.

(** The form with the keypad shows whether the two PINs agree, and nothing else. *)
Lemma ca_activation_pin_hidden f a b :
  length a = length (ActivationPage.pin f) -> length b = length (ActivationPage.confirmPin f) ->
  ustr_eqb a b = ustr_eqb (ActivationPage.pin f) (ActivationPage.confirmPin f) ->
  Activation.render_AdminCAActivate (ActivationPage.set_pins a b (ActivationPage.pinStep f) f) =
  Activation.render_AdminCAActivate f.
Proof.
  intros Ha Hb He. unfold Activation.render_AdminCAActivate. cbn [ActivationPage.left_page ActivationPage.success ActivationPage.pin
    ActivationPage.confirmPin ActivationPage.error ActivationPage.submitting ActivationPage.set_pins].
  rewrite Ha, Hb, He. reflexivity.
Qed.

(** The password fields show dots. *)
Lemma bank_activation_pin_hidden f a b :
  length a = length (ActivationPage.pin f) -> length b = length (ActivationPage.confirmPin f) ->
  texts (Activation.render_AdminBankActivate (ActivationPage.set_pins a b (ActivationPage.pinStep f) f)) =
  texts (Activation.render_AdminBankActivate f).
Proof.
  assert (Hd : forall s t : ustr, length s = length t -> map (fun _ => 8226) s = map (fun _ => 8226) t).
  { induction s as [|u s IH]; intros [|v t] H; try done. cbn. f_equal. apply IH. by injection H. }
  intros Ha Hb. unfold Activation.render_AdminBankActivate. cbn [ActivationPage.left_page ActivationPage.success ActivationPage.set_pins].
  destruct (ActivationPage.left_page f); [done|]. destruct (ActivationPage.success f); [done|].
  unfold Activation.error_box, Activation.identity_fields, Activation.submit_button, Activation.labelled, Activation.pin_input.
  cbn [ActivationPage.pin ActivationPage.confirmPin ActivationPage.error ActivationPage.submitting ActivationPage.token
    ActivationPage.email ActivationPage.fullName ActivationPage.set_pins].
  cbn [texts flat_map el app]. rewrite !flat_map_app. cbn [texts flat_map el app].
  assert (Hf : forall s, field_text [("type", js "password"); ("maxLength", js "6")] s = map (fun _ => 8226) s) by done.
  by rewrite !Hf, (Hd _ _ Ha), (Hd _ _ Hb).
Qed.
End pins.
