(* ===== verification/RegisterView.v ===== *)
(** * What the registration page shows ([pages/Register.tsx])

    The elements of the four steps for a state of [RegisterPage].
    [register_controls] is that the page offers what its machine takes,
    [register_pin_hidden] that the digits of the PIN are not shown (for
    [ViewProps.pins_never_shown]). *)

From S2P Require Import Prelude JsString Effects UString UJson WebCrypto Wire Browser Keypad PageRun RegisterPage Locale View PinViews.

Open Scope Z_scope.

#[local] Arguments nonempty {A} !l /.

#[local] Notation element := (node input).

Section view.

(** What [newOperationId] gives at the next click. *)
Context (fresh : ustr).

Definition AuthShell (l : list element) : element :=
  el "div" [el "div" [
    el "div" [el "div" [icon "Lock"]; el "p" [txt "Mini Banking System"]];
    el "div" l]].

Definition StepDots (current total : nat) : element :=
  el "div" (map (fun i =>
    styled "div" (if (i + 1 =? current)%nat then "w-6 h-1.5 bg-blue-500"
                  else if (i + 1 <? current)%nat then "w-1.5 h-1.5 bg-blue-500/40"
                  else "w-1.5 h-1.5 bg-muted-foreground/20") []) (seq 0 total)).

Definition RegisterDots (filled : nat) : element :=
  draw_dots (fun i => if (i <? filled)%nat then "bg-blue-500 border-blue-500 scale-110" else "border-muted-foreground/25").

(** It is never disabled. *)
Definition RegisterKeypad (onKey : key -> input) : element := draw_keypad (fun _ => []) key_face onKey false.

Definition ErrorBanner (message : ustr) : element := el "div" [icon "AlertTriangle"; el "p" [Text message]].

Definition back_button (label : string) (i : input) : element := button i [icon "ArrowLeft"; txt label].

Definition render_StepEmail (s : EmailState) : list element :=
  [el "div" [el "div" [icon "Mail"]; el "h1" [txt "Đăng ký tài khoản"]; el "p" [txt "Nhập email để nhận mã OTP xác thực"]]] ++
  when (nonempty (es_error s)) [ErrorBanner (es_error s)] ++ [
  View.Form SubmitEmail [
    el "div" [el "label" [txt "Email"];
              Field "input" [("type", js "email"); ("placeholder", js "ten@example.com")] (es_email s) false (Some TypeEmail)];
    SubmitButton [] (negb (at_sign (es_email s)) || es_loading s)
      [if es_loading s then icon "RefreshCw" else txt "Gửi mã OTP"]];
  el "p" [txt "Đã có tài khoản?"; txt " "; Link "/login" [txt "Đăng nhập"]]].

(** [String(n).padStart(2, "0")]. *)
Definition two_digits (n : Z) : ustr := js (if n <? 10 then String "0" (Z_string n) else Z_string n).

Definition fmt (s : Z) : ustr := two_digits (s / 60) ++ js ":" ++ two_digits (s mod 60).

Definition digit_class (error : ustr) (d : ustr) : string :=
  if nonempty error then "border-red-500 text-red-400"
  else if nonempty d then "border-blue-500" else "border-border focus:border-blue-500".

(** The six fields, and the place that takes what is pasted into them. *)
Definition render_digits (s : OtpState) : list element :=
  Field "div" [] [] (os_verifying s) (Some PasteDigits) ::
  imap (fun i d => Field "input" [("className", js (digit_class (os_error s) d))] d (os_verifying s) (Some (TypeDigit i)))
    (os_digits s).

Definition render_StepOTP (email : ustr) (s : OtpState) : list element :=
  [back_button " Quay lại" Back;
   el "div" [el "div" [icon "Shield"]; el "h1" [txt "Xác thực email"];
             el "p" [txt "Mã OTP đã gửi đến"; txt " "; el "span" [Text email]]];
   el "div" (render_digits s)] ++
  when (os_verifying s) [el "p" [icon "RefreshCw"; txt " Đang xác thực…"]] ++
  when (nonempty (os_error s) && negb (os_verifying s)) [el "p" [Text (os_error s)]] ++ [
  el "div" [
    el "span" [Text (fmt (os_countdown s))];
    if os_countdown s =? 0 then button Resend [txt "Gửi lại mã"]
    else el "span" [txt "Hết hạn sau "; Text (fmt (os_countdown s))]]].

Definition name_words (s : NameState) : nat := words false (trim (ns_fullName s)).

Definition rule_item (rule : string) (ok : bool) : element :=
  el "div" [styled "span" (if ok then "bg-emerald-400" else "bg-muted-foreground/30") [];
            styled "span" (if ok then "text-emerald-400" else "text-muted-foreground/50") [txt rule]].

Definition render_StepUsername (s : NameState) : list element := [
  back_button " Quay lại" Back;
  el "div" [el "div" [icon "UserRound"]; el "h1" [txt "Họ và tên"]; el "p" [txt "Tên đầy đủ của bạn trong hệ thống"]];
  View.Form SubmitName [
    el "div" ([
      el "label" [txt "Họ và tên"];
      Field "input" [("className", js (if nonempty (ns_error s) then "border-red-500"
                                       else if nonempty (trim (ns_fullName s)) then "border-blue-500"
                                       else "border-border focus:border-blue-500"));
                     ("placeholder", u8 "Nguyễn Văn A")] (ns_fullName s) false (Some TypeName)] ++
      when (nonempty (ns_error s)) [el "p" [Text (ns_error s)]]);
    el "div" [rule_item "Ít nhất 2 ký tự" (2 <=? length (trim (ns_fullName s)))%nat;
              rule_item "Bao gồm cả họ và tên" (2 <=? name_words s)%nat];
    SubmitButton [] (name_words s <? 2)%nat [txt "Tiếp tục"]]].

Definition render_StepPIN (s : PinState) : list element :=
  if ps_success s then
    [el "div" [el "div" [icon "CheckCircle"]; el "h2" [txt "Đăng ký thành công"];
               el "p" [txt "Chứng chỉ đã được cấp · Đang chuyển đến trang đăng nhập…"]]]
  else if nonempty (ps_apiError s) then
    [el "div" [el "div" [icon "AlertTriangle"]; el "h2" [txt "Cấp chứng chỉ thất bại"]; el "p" [Text (ps_apiError s)];
               button (Restart fresh) [txt "Đăng ký lại"]]]
  else if ps_submitting s then
    [el "div" [icon "RefreshCw"; el "h2" [txt "Đang tạo khóa & chứng chỉ"];
               el "p" [txt "Sinh cặp khóa RSA, tạo CSR và gửi tới CA…"]]]
  else
    let setting := match ps_subStep s with set_pin => true | confirm_pin => false end in
    when (negb setting) [back_button " Đặt lại" ResetPin] ++ [
    el "div" [
      el "div" [icon "Key"];
      el "h1" [if setting then txt "Đặt mã PIN" else txt "Xác nhận mã PIN"];
      el "p" [if setting then txt "Mã PIN 6 chữ số bảo vệ khóa bí mật của bạn" else txt "Nhập lại mã PIN để xác nhận"]];
    RegisterDots (length (ps_pin s))] ++
    when (ps_error s) [el "p" [txt "Mã PIN không khớp. Thử lại."]] ++
    [RegisterKeypad PressKey] ++
    when setting [el "p" [txt "Mã PIN dùng để mã hóa khóa bí mật — không chia sẻ với ai"]].

Definition render_Register (p : page) : element :=
  if left_page p then Elem "" [] []
  else AuthShell (StepDots (step_number (shown p)) 4 ::
    match shown p with
    | StepEmail s => render_StepEmail s
    | StepOTP s => render_StepOTP (email p) s
    | StepUsername s => render_StepUsername s
    | StepPIN s => render_StepPIN s
    end).
End view.

(** ** The page and its machine *)

Section correspondence.

Context (fresh : ustr) (toUpperCase : ustr -> ustr) (thrown_message : js_exception -> ustr).

#[local] Notation react := (RegisterPage.react toUpperCase thrown_message).

(** What the user does: the fields of the code are disabled while it is verified,
    and a restart takes the next operation id. *)
Definition by_user (p : page) (i : input) : bool :=
  match i with
  | TypeDigit _ _ | PasteDigits _ => match shown p with StepOTP s => negb (os_verifying s) | _ => true end
  | Restart f => ustr_eqb f fresh
  | Tick | Settle _ _ => false
  | _ => true
  end.

(** The code has six places. *)
Definition six_screen (s : screen) : Prop := match s with StepOTP s => length (os_digits s) = 6%nat | _ => True end.

Definition six_places (p : page) : Prop := six_screen (shown p).

Lemma six_setStep n p : six_places p -> six_places (setStep n p).
Proof. unfold setStep. destruct (_ =? _)%nat; [done|]. intros _. unfold six_places. cbn. by destruct n as [|[|[|[|n]]]]. Qed.

Lemma six_local m f p : (forall s, six_screen s -> six_screen (f s)) -> six_places p -> six_places (local m f p).
Proof. unfold local. destruct (_ =? _)%nat; [|done]. intros Hf Hp. by apply Hf. Qed.

Lemma length_spread text : (length text <= 6)%nat -> length (spread text) = 6%nat.
Proof. intros H. unfold spread. rewrite length_app, length_map, length_drop. cbn [no_digits replicate length]. lia. Qed.

Lemma six_settle t r p : six_places p -> six_places (settle toUpperCase thrown_message t r p).1.
Proof.
  intros Hp. destruct t as [m e|m e c|m|m|m next|m|]; cbn [settle fst]; try apply six_local; try done.
  all: try by intros [].
  all: destruct r; try done; try by apply six_setStep.
  all: by intros [].
Qed.

Lemma six_input s n v p : length (os_digits s) = 6%nat -> six_places p -> six_places (handleInput s n v p).1.
Proof.
  intros Hs Hp. unfold handleInput. destruct (_ || _); [done|]. cbv zeta.
  assert (Hn : length (<[n := last_unit v]> (os_digits s)) = 6%nat) by (by rewrite length_insert).
  by destruct (_ && _); [destruct (_ =? _)%nat|].
Qed.

Lemma six_paste s text p : length (os_digits s) = 6%nat -> six_places p -> six_places (handlePaste s text p).1.
Proof.
  intros Hs Hp. unfold handlePaste. case_bool_decide; [done|]. cbv zeta.
  pose proof (length_spread (take 6 (filter (fun u => is_digit u = true) text)) ltac:(rewrite length_take; lia)) as Hn.
  by destruct (_ =? _)%nat.
Qed.

(** The other steps have no such places. *)
Lemma six_key s k p : shown p = StepPIN s -> six_places p -> six_places (handleKey s k p).1.
Proof.
  intros Hs Hp. unfold handleKey. destruct (ps_submitting s); [done|]. destruct k as [d|]; [|done].
  destruct (_ <=? _)%nat; [done|]. cbv zeta. destruct (_ =? _)%nat; [|done]. destruct (ps_subStep s); [done|].
  by destruct (ustr_eqb _ _).
Qed.

Lemma six_react p i p' cs : six_places p -> react p i = Some (p', cs) -> six_places p'.
Proof.
  intros Hp Hr. change p' with (p', cs).1. set (out := (p', cs)) in *. clearbody out. clear p' cs.
  unfold RegisterPage.react in Hr. destruct (left_page p); [done|]. assert (Hp' := Hp). unfold six_places in Hp'.
  destruct i as [v| |n v|text| | | |v| |[d|]| |f|n r]; [destruct (shown p) as [s|s|s|s] eqn:Hs; try discriminate Hr..|];
    repeat match type of Hr with
      | submit_email _ _ = _ => unfold submit_email in Hr
      | submit_name _ _ = _ => unfold submit_name in Hr
      | RegisterPage.resend _ _ = _ => unfold RegisterPage.resend in Hr
      | (if ?b then _ else _) = _ => destruct b; try discriminate Hr
      | (match ?x with _ => _ end) = _ => destruct x; try discriminate Hr
      end; injection Hr as <-; cbn [fst]; try done.
  - by apply six_input.
  - by apply six_paste.
  - by apply six_setStep.
  - by apply six_setStep.
  - by apply six_setStep.
  - by apply six_key.
  - by apply six_key.
  - by apply six_setStep.
  - by apply six_settle.
Qed.

Lemma reaches_six op t p : reaches react (opened op) t p -> six_places p.
Proof. apply (reaches_invariant react (fun _ p => six_places p)); [done|]. intros. by eapply six_react. Qed.

(** Which inputs a step takes from the user. *)
Definition step_takes (s : screen) (i : input) : Prop :=
  match s, i with
  | StepEmail _, TypeEmail _ => True
  | StepEmail s, SubmitEmail => at_sign (es_email s) = true /\ es_loading s = false
  | StepOTP s, TypeDigit n _ => (n < 6)%nat /\ os_verifying s = false
  | StepOTP s, PasteDigits _ => os_verifying s = false
  | StepOTP s, Resend => os_countdown s = 0
  | StepOTP _, Back | StepUsername _, Back | StepUsername _, TypeName _ => True
  | StepUsername s, SubmitName => (2 <= name_words s)%nat
  | StepPIN s, PressKey k => keypad s = true /\ offered_key k = true
  | StepPIN s, ResetPin => keypad s = true /\ ps_subStep s = confirm_pin
  | StepPIN s, Restart f => f = fresh /\ ps_success s = false /\ ps_apiError s <> []
  | _, _ => False
  end.

Lemma register_reacts p i : left_page p = false ->
  by_user p i = true /\ is_Some (react p i) <-> step_takes (shown p) i.
Proof.
  intros Hl. unfold RegisterPage.react. rewrite Hl. unfold by_user, step_takes.
  destruct i as [v| |n v|text| | | |v| |k| |f|n r], (shown p) as [s|s|s|s];
    try (split; [intros [? [? ?]]; try destruct k; done | done]); try (split; [intros _; done | by intros _; eauto]).
  - unfold submit_email. destruct (at_sign _), (es_loading s); cbn; (split; [by intros [_ [? ?]] | intros [? ?]; by eauto]).
  - destruct (os_verifying s), (Nat.ltb_spec n 6); cbn; (split; [by intros [? [? ?]] | intros [? ?]; try lia; eauto]).
  - destruct (os_verifying s); cbn; (split; [by intros [? [? ?]] | intros ?; eauto]).
  - unfold RegisterPage.resend. destruct (Z.eqb_spec (os_countdown s) 0); (split; [by intros [_ [? ?]] | intros ?; by eauto]).
  - unfold submit_name, name_words. destruct (Nat.ltb_spec (words false (trim (ns_fullName s))) 2).
    + split; [by intros [_ [? ?]] | lia].
    + split; [done|]. intros _. split; [done|]. destruct (validate _); eauto.
  - destruct k as [d|]; cbn [offered_key]; destruct (keypad s); cbn [andb]; try destruct ((0 <=? d) && (d <=? 9));
      (split; [by intros [_ [? ?]] | intros [? ?]; by eauto]).
  - destruct (ps_subStep s), (keypad s); (split; [by intros [_ [? ?]] | intros [? ?]; by eauto]).
  - destruct (ps_success s), (bool_decide_reflect (ps_apiError s = [])); cbn [negb andb];
      rewrite ustr_eqb_eq; (split; [by intros [? [? ?]] | intros (? & ? & ?); by eauto]).
Qed.

Lemma offers_digits s i : length (os_digits s) = 6%nat ->
  Exists (gives i) (flat_map controls (render_digits s)) <->
  os_verifying s = false /\ ((exists text, i = PasteDigits text) \/ exists n v, (n < 6)%nat /\ i = TypeDigit n v).
Proof.
  intros Hs. unfold render_digits. destruct s as [ds e ver cd]. cbn [os_digits os_verifying os_error] in *.
  do 7 (destruct ds as [|? ds]; try discriminate Hs). destruct ver; unfold draws; cbn -[gives];
    repeat (rewrite Exists_cons || rewrite Exists_nil); cbn [gives]; [naive_solver|]. split.
  - intros H. split; [done|]. destruct_or! H; destruct H as [v ->]; eauto; right; do 2 eexists; (split; [|reflexivity]); lia.
  - intros [_ [[text ->]|(n & v & Hn & ->)]]; [left; by eexists|]. do 6 (destruct n as [|n]; [eauto 9|]). lia.
Qed.

(** The controls of each step, and the inputs that its machine takes. *)
Lemma register_draws op t p i : reaches react (opened op) t p ->
  draws (render_Register fresh p) i <-> by_user p i = true /\ is_Some (react p i).
Proof.
  intros Hr. pose proof (reaches_six _ _ _ Hr) as H6. unfold six_places in H6. unfold render_Register.
  destruct (left_page p) eqn:Hl.
  { unfold RegisterPage.react. rewrite Hl. read_controls. split; [done | by intros [_ [? ?]]]. }
  rewrite register_reacts by done. destruct (shown p) as [s|s|s|s]; cbn [six_screen] in H6.
  all: unfold AuthShell, StepDots, draws; cbn [step_number seq map].
  - unfold render_StepEmail, Link. destruct (nonempty (es_error s)), (at_sign (es_email s)) eqn:Ha, (es_loading s) eqn:Hd;
      read_controls; destruct i; cbn [step_takes]; rewrite ?Ha, ?Hd; (split; [each_offer | pick_taken offer_leaf]).
  - unfold render_StepOTP, back_button. destruct (os_verifying s) eqn:Hv, (nonempty (os_error s)), (Z.eqb_spec (os_countdown s) 0);
      read_controls; rewrite offers_digits, Hv by done;
      destruct i; cbn [step_takes]; rewrite ?Hv; (split; [|intros H; try done; naive_solver]).
    all: intros H; naive_solver.
  - unfold render_StepUsername, back_button, rule_item. destruct (nonempty (ns_error s)), (Nat.ltb_spec (name_words s) 2);
      read_controls; destruct i; cbn [step_takes]; (split; [each_offer | pick_taken offer_leaf]); lia.
  - unfold render_StepPIN, back_button, RegisterKeypad, RegisterDots.
    assert (Hk : keypad s = negb (ps_success s) && negb (nonempty (ps_apiError s)) && negb (ps_submitting s))
      by (unfold keypad; by destruct (ps_apiError s)).
    assert (Hi : step_takes (StepPIN s) i <->
      (keypad s = true /\ exists k, offered_key k = true /\ i = PressKey k) \/
      (keypad s = true /\ ps_subStep s = confirm_pin /\ i = ResetPin) \/
      (i = Restart fresh /\ ps_success s = false /\ nonempty (ps_apiError s) = true))
      by (destruct i; cbn [step_takes]; destruct (ps_apiError s); naive_solver).
    rewrite Hi, Hk. clear Hi Hk. 
    destruct (ps_success s); [|destruct (nonempty (ps_apiError s)); [|destruct (ps_submitting s); [|destruct (ps_subStep s), (ps_error s)]]].
    all: cbn [negb andb]; unfold draws; compute_view; rewrite ?dots_controls; read_controls.
    all: try change (Exists (gives ?i) (controls ?n)) with (draws n i); rewrite ?(offers_keypad _ _ _ _ _ key_face_plain).
    all: naive_solver.
Qed.

(** No step has an element that React refuses. *)
Lemma register_shown p : crashes (render_Register fresh p) = false.
Proof.
  unfold render_Register. destruct (left_page p); [done|]. destruct (shown p) as [s|s|s|s];
    unfold AuthShell, StepDots; cbn [step_number seq map].
  - unfold render_StepEmail, Link. by destruct (nonempty (es_error s)), (es_loading s).
  - unfold render_StepOTP, render_digits, back_button. cbn [crashes existsb el txt icon button styled app orb].
    rewrite imap_shown by done. by destruct (os_verifying s), (nonempty (os_error s)), (os_countdown s =? 0).
  - unfold render_StepUsername, back_button, rule_item. by destruct (nonempty (ns_error s)).
  - unfold render_StepPIN, back_button, RegisterKeypad, RegisterDots.
    by destruct (ps_success s), (nonempty (ps_apiError s)), (ps_submitting s), (ps_subStep s), (ps_error s).
Qed.

(** C32: each step of the registration offers what its machine takes: the code can
    be typed or pasted while it is not being checked, another one is asked for when
    the countdown has ended, the name is submitted when it has two words, and after
    a failed enrolment the only control is the one that begins again, with a new
    operation id. *)
Theorem register_controls op t p i : reaches react (opened op) t p ->
  offers (render_Register fresh p) i <-> by_user p i = true /\ is_Some (react p i).
Proof. intros Hr. rewrite offers_shown by apply register_shown. by eapply register_draws. Qed.

(** Two PINs of the same length give the same page, and so do two saved ones. *)
Lemma register_pin_hidden p s pin saved : shown p = StepPIN s -> length pin = length (ps_pin s) ->
  render_Register fresh (set_shown (StepPIN {| ps_subStep := ps_subStep s; ps_pin := pin; ps_saved := saved;
    ps_error := ps_error s; ps_submitting := ps_submitting s; ps_apiError := ps_apiError s; ps_success := ps_success s |}) p) =
  render_Register fresh p.
Proof.
  intros Hs Hl. unfold render_Register. cbn [left_page shown set_shown]. rewrite Hs. destruct (left_page p); [done|].
  unfold render_StepPIN. cbn [ps_subStep ps_pin ps_error ps_submitting ps_apiError ps_success step_number]. by rewrite Hl.
Qed.
End correspondence.

(** ** Concrete pages *)

(** The address is typed: the code can be asked for. *)
Lemma register_controls_witness :
  exists p, run_inputs (react (fun s => s) (fun _ => [])) [TypeEmail (js "a@b.vn")] [] (opened []) =
      Some p /\ offers (render_Register [] p.2) SubmitEmail.
Proof.
  destruct (run_inputs _ _ _ _) as [[t p]|] eqn:Hr; [|vm_compute in Hr; discriminate Hr].
  eexists. split; [reflexivity|]. pose proof (run_inputs_reaches _ _ _ _ _ _ _ (reach_start _ _) Hr) as Hp.
  apply (register_controls [] _ _ _ _ _ SubmitEmail Hp). split; [done|]. vm_compute in Hr. injection Hr as <- <-.
  vm_compute. by eexists.
Defined.
