(* ===== verification/AdminCaPage.v ===== *)
(** * The page of the certificate authority's administrator ([pages/AdminCA.tsx])

    The list of certificates with its filters and pages, the detail of one, the
    dialog that revokes one and the session, as a machine of [PageRun]; the login
    panel is [PinPages.PinLogin] and the audit log [AuditPanel] below. An
    [async] function is its call, and the reply that finds its task; it keeps the
    filters and the offset of the rendering in which it was called. [revoke_confirmed]
    is when a certificate is revoked; [stale_certificates] what a late reply
    does to the list. *)

From S2P Require Import Prelude Effects JsString UString UJson WebCrypto Wire Browser PageRun PinPages AdminClient.

Open Scope Z_scope.

Definition PAGE_SIZE : Z := 20.

(** [err instanceof ApiError && (err.status === 401 || err.status === 403)]. *)
Definition auth_error (e : js_exception) : bool :=
  match e with ApiError _ _ status => (status =? 401) || (status =? 403) | _ => false end.

(** A reply of a list. *)
Record Page (A : Type) := { pg_items : list A; pg_total : Z; pg_offset : Z }.

Arguments pg_items {A} p.
Arguments pg_total {A} p.
Arguments pg_offset {A} p.

Definition canPrev (offset : Z) : bool := 0 <? offset.
Definition canNext (offset total : Z) : bool := offset + PAGE_SIZE <? total.
Definition prev_offset (offset : Z) : Z := Z.max 0 (offset - PAGE_SIZE).
Definition next_offset (offset : Z) : Z := offset + PAGE_SIZE.

(** ** A certificate, as far as the page reads it *)

Record AdminCertificate := {
  serial : ustr; status : ustr; cert_type : ustr; issuer_id : ustr; issuer_common_name : ustr;
  issuer_serial_number : ustr; owner_id : ustr; cn : ustr; cert_email : ustr; chain_pem : ustr;
  chain_fingerprints : list ustr; key_usage : list ustr; extended_key_usage : list ustr; fingerprint : ustr;
  not_before : Z; not_after : Z; issued_at : Z; revoked_at : option Z; revocation_reason : option ustr
}.

Definition isRevokable (cert : option AdminCertificate) : bool :=
  match cert with
  | Some c => ustr_eqb (status c) (js "active") && ustr_eqb (cert_type c) (js "client")
  | None => false
  end.

Definition shortValue (keep : nat) (value : ustr) : ustr :=
  if negb (nonempty value) then js "-"
  else if (length value <=? keep * 2 + 3)%nat then value
  else take keep value ++ js "..." ++ drop (length value - keep) value.

(** [s || "-"]. *)
Definition or_dash (s : ustr) : ustr := match s with [] => js "-" | _ => s end.

(** What can be copied from the detail of a certificate, with its label. *)
Definition copyable (c : AdminCertificate) : list (ustr * ustr) :=
  filter (fun x => x.1 <> js "-")
    [(serial c, js "Serial"); (fingerprint c, js "Fingerprint"); (or_dash (issuer_serial_number c), js "Issuer serial")] ++
  imap (fun i f => (f, js "Chain fingerprint " ++ js (Z_string (Z.of_nat i + 1)))) (chain_fingerprints c) ++
  (if nonempty (chain_pem c) then [(chain_pem c, js "Chain PEM")] else []).

(** The label under the title. *)
Definition pageLabel (offset total : Z) : ustr :=
  if total =? 0 then js "0 of 0"
  else js (Z_string (offset + 1)) ++ js "-" ++ js (Z_string (Z.min (offset + PAGE_SIZE) total)) ++ js " of " ++
       js (Z_string total).

(** ** The page *)

Inductive View := certificates | audit.

#[export] Instance View_eq_dec : EqDecision View.
Proof. solve_decision. Defined.

Record Filters := { f_status : ustr; f_certType : ustr; f_issuerId : ustr; f_search : ustr }.

#[export] Instance Filters_eq_dec : EqDecision Filters.
Proof. solve_decision. Defined.

Definition no_filters : Filters := {| f_status := js "all"; f_certType := js "all"; f_issuerId := []; f_search := [] |}.

Definition STATUS_OPTIONS : list ustr := map js ["all"; "active"; "revoked"; "expired"].
Definition TYPE_OPTIONS : list ustr := map js ["all"; "client"; "service_tls"; "intermediate_ca"; "root_ca"].

(** One of the filters changes: the texts to anything, the others to an option. *)
Definition filter_step (f f' : Filters) : bool :=
  bool_decide (f' = {| f_status := f_status f; f_certType := f_certType f; f_issuerId := f_issuerId f; f_search := f_search f' |}) ||
  bool_decide (f' = {| f_status := f_status f; f_certType := f_certType f; f_issuerId := f_issuerId f'; f_search := f_search f |}) ||
  (bool_decide (f' = {| f_status := f_status f'; f_certType := f_certType f; f_issuerId := f_issuerId f; f_search := f_search f |}) &&
   bool_decide (f_status f' ∈ STATUS_OPTIONS)) ||
  (bool_decide (f' = {| f_status := f_status f; f_certType := f_certType f'; f_issuerId := f_issuerId f; f_search := f_search f |}) &&
   bool_decide (f_certType f' ∈ TYPE_OPTIONS)).

(** The parameters of a query. *)
Definition list_params (f : Filters) (offset : Z) : CertificateListParams :=
  {| cl_status := Some (f_status f); cl_certType := Some (f_certType f); cl_issuerId := Some (f_issuerId f);
     cl_search := Some (f_search f); cl_limit := Some PAGE_SIZE; cl_offset := Some offset |}.

(** [TReload] is the list after a revocation, which [confirmRevoke] awaits;
    [TRevoke] keeps the filters and the offset of its rendering. *)
Inductive task :=
| TList
| TDetail
| TRevoke (f : Filters) (offset : Z)
| TReload
| TCopy (label : ustr).

(** [stored] is the token in the local storage, [debounce] the timer of the
    filters with what it read, [reason] the state of the dialog. *)
Record page := {
  view : View; stored : ustr; token : ustr; email : ustr; items : list AdminCertificate; total : Z; filters : Filters;
  offset : Z; loading : bool; error : ustr; message : ustr; selected : option AdminCertificate; detailLoading : bool;
  revokeTarget : option AdminCertificate; reason : ustr; revokeError : ustr; revokeSubmitting : bool;
  debounce : option (Filters * ustr); pending : list (nat * task); next : nat
}.

Inductive call :=
| ListCertificates (p : CertificateListParams)
| GetDetail (serial : ustr)
| Revoke (serial reason : ustr)
| ClearAdminSession
| Copy (value : ustr).

Inductive input :=
| LoggedIn (email token : ustr)
| SignOut
| SetView (v : View)
| SetFilters (f : Filters)
| DebounceFires
| Refresh
| PrevPage
| NextPage
| OpenDetail (i : nat)
| CloseDetail
| RevokeRow (i : nat)
| RevokeDetail
| TypeReason (v : ustr)
| CancelRevoke
| ConfirmRevoke
| CopyValue (value label : ustr)
| MessageFades
| AuditAuthError
| ListReply (k : nat) (r : result js_exception (Page AdminCertificate))
| DetailReply (k : nat) (r : result js_exception AdminCertificate)
| RevokeReply (k : nat) (r : result js_exception AdminCertificate)
| CopyReply (k : nat) (r : result js_exception unit).

Section ca_page.

Context (thrown_message : js_exception -> ustr).

(** Setters. *)
Definition set_session (st tk em : ustr) (p : page) : page :=
  {| view := view p; stored := st; token := tk; email := em; items := items p; total := total p; filters := filters p;
     offset := offset p; loading := loading p; error := error p; message := message p; selected := selected p;
     detailLoading := detailLoading p; revokeTarget := revokeTarget p; reason := reason p; revokeError := revokeError p;
     revokeSubmitting := revokeSubmitting p; debounce := debounce p; pending := pending p; next := next p |}.

Definition set_list (l : list AdminCertificate) (t o : Z) (busy : bool) (err : ustr) (p : page) : page :=
  {| view := view p; stored := stored p; token := token p; email := email p; items := l; total := t; filters := filters p;
     offset := o; loading := busy; error := err; message := message p; selected := selected p;
     detailLoading := detailLoading p; revokeTarget := revokeTarget p; reason := reason p; revokeError := revokeError p;
     revokeSubmitting := revokeSubmitting p; debounce := debounce p; pending := pending p; next := next p |}.

Definition set_loading (busy : bool) (err : ustr) (p : page) : page :=
  set_list (items p) (total p) (offset p) busy err p.

Definition set_filters (f : Filters) (d : option (Filters * ustr)) (v : View) (p : page) : page :=
  {| view := v; stored := stored p; token := token p; email := email p; items := items p; total := total p; filters := f;
     offset := offset p; loading := loading p; error := error p; message := message p; selected := selected p;
     detailLoading := detailLoading p; revokeTarget := revokeTarget p; reason := reason p; revokeError := revokeError p;
     revokeSubmitting := revokeSubmitting p; debounce := d; pending := pending p; next := next p |}.

Definition set_detail (c : option AdminCertificate) (busy : bool) (p : page) : page :=
  {| view := view p; stored := stored p; token := token p; email := email p; items := items p; total := total p;
     filters := filters p; offset := offset p; loading := loading p; error := error p; message := message p;
     selected := c; detailLoading := busy; revokeTarget := revokeTarget p; reason := reason p;
     revokeError := revokeError p; revokeSubmitting := revokeSubmitting p; debounce := debounce p; pending := pending p;
     next := next p |}.

Definition set_dialog (c : option AdminCertificate) (why err : ustr) (busy : bool) (p : page) : page :=
  {| view := view p; stored := stored p; token := token p; email := email p; items := items p; total := total p;
     filters := filters p; offset := offset p; loading := loading p; error := error p; message := message p;
     selected := selected p; detailLoading := detailLoading p; revokeTarget := c; reason := why; revokeError := err;
     revokeSubmitting := busy; debounce := debounce p; pending := pending p; next := next p |}.

Definition set_message (m : ustr) (p : page) : page :=
  {| view := view p; stored := stored p; token := token p; email := email p; items := items p; total := total p;
     filters := filters p; offset := offset p; loading := loading p; error := error p; message := m;
     selected := selected p; detailLoading := detailLoading p; revokeTarget := revokeTarget p; reason := reason p;
     revokeError := revokeError p; revokeSubmitting := revokeSubmitting p; debounce := debounce p; pending := pending p;
     next := next p |}.

Definition set_pending (l : list (nat * task)) (n : nat) (p : page) : page :=
  {| view := view p; stored := stored p; token := token p; email := email p; items := items p; total := total p;
     filters := filters p; offset := offset p; loading := loading p; error := error p; message := message p;
     selected := selected p; detailLoading := detailLoading p; revokeTarget := revokeTarget p; reason := reason p;
     revokeError := revokeError p; revokeSubmitting := revokeSubmitting p; debounce := debounce p; pending := l; next := n |}.

Definition start (t : task) (p : page) : page := set_pending (pending p ++ [(next p, t)]) (S (next p)) p.

Definition errorMessage : js_exception -> ustr := PinPages.errorMessage thrown_message.

(** [loadCertificates(nextOffset)] up to its [await], with the filters of its
    rendering; without a stored token it does nothing. *)
Definition load (t : task) (f : Filters) (nextOffset : Z) (p : page) : page * list call :=
  match stored p with
  | [] => (p, [])
  | _ => (start t (set_loading true [] p), [ListCertificates (list_params f nextOffset)])
  end.

(** The session ends: [clearAdminSession] and [setToken]; the dialog is unmounted. *)
Definition end_session (em : ustr) (p : page) : page :=
  set_dialog (revokeTarget p) [] (revokeError p) (revokeSubmitting p) (set_session [] [] em p).

(** And the rest of it. *)
Definition loaded (r : result js_exception (Page AdminCertificate)) (p : page) : page * list call :=
  match r with
  | Ok resp => (set_list (pg_items resp) (pg_total resp) (pg_offset resp) false (error p) p, [])
  | Err e =>
      let p' := set_loading false (errorMessage e) p in
      if auth_error e then (end_session (email p) p', [ClearAdminSession]) else (p', [])
  end.

Definition openDetail (c : AdminCertificate) (p : page) : page * list call :=
  (start TDetail (set_loading (loading p) [] (set_detail (Some c) true p)), [GetDetail (serial c)]).

Definition detailed (r : result js_exception AdminCertificate) (p : page) : page :=
  match r with
  | Ok c => set_detail (Some c) false p
  | Err e => set_loading (loading p) (errorMessage e) (set_detail (selected p) false p)
  end.

(** [setRevokeTarget]; the dialog forgets the reason when the serial changes. *)
Definition setRevokeTarget (c : option AdminCertificate) (p : page) : page :=
  let same := bool_decide (serial <$> c = serial <$> revokeTarget p) in
  set_dialog c (if same then reason p else []) (revokeError p) (revokeSubmitting p) p.

Definition confirmRevoke (c : AdminCertificate) (p : page) : page * list call :=
  (start (TRevoke (filters p) (offset p)) (set_dialog (revokeTarget p) (reason p) [] true p), [Revoke (serial c) (reason p)]).

Definition submitted (p : page) : page := set_dialog (revokeTarget p) (reason p) (revokeError p) false p.

Definition revoked (f : Filters) (o : Z) (r : result js_exception AdminCertificate) (p : page) : page * list call :=
  match r with
  | Ok c =>
      let p1 := set_detail (Some c) (detailLoading p) (setRevokeTarget None (set_message (js "Certificate revoked") p)) in
      match load TReload f o p1 with
      | (p2, []) => (submitted p2, [])
      | r => r
      end
  | Err e => (set_dialog (revokeTarget p) (reason p) (errorMessage e) false p, [])
  end.

Definition copied (label : ustr) (r : result js_exception unit) (p : page) : page :=
  match r with Ok _ => set_message (label ++ js " copied") p | Err _ => p end.

Definition blank (tk em : ustr) : page :=
  {| view := certificates; stored := tk; token := tk; email := em; items := []; total := 0; filters := no_filters;
     offset := 0; loading := false; error := []; message := []; selected := None; detailLoading := false;
     revokeTarget := None; reason := []; revokeError := []; revokeSubmitting := false;
     debounce := Some (no_filters, tk); pending := []; next := 0 |}.

(** The effects of the first rendering. *)
Definition opened (tk em : ustr) : page * list call := load TList no_filters 0 (blank tk em).

(** The table and its controls. *)
Definition list_shown (p : page) : bool := bool_decide (view p = certificates).

Definition row (i : nat) (p : page) : option AdminCertificate :=
  if list_shown p && negb (loading p) then items p !! i else None.

Definition with_task {A} (k : nat) (p : page) (f : task -> page -> option A) : option A :=
  match take_numbered k (pending p) with Some (t, l) => f t (set_pending l (next p) p) | None => None end.

(** What the user does with the page of a session. *)
Definition user_react (p : page) (i : input) : option (page * list call) :=
  match i with
  | SignOut => Some (end_session [] p, [ClearAdminSession])
  | SetView v => Some (set_filters (filters p) (debounce p) v p, [])
  | SetFilters f =>
      if negb (list_shown p && filter_step (filters p) f) then None
      else if bool_decide (f = filters p) then Some (p, [])
      else Some (set_filters f (Some (f, token p)) (view p) p, [])
  | Refresh => if list_shown p then Some (load TList (filters p) (offset p) p) else None
  | PrevPage =>
      if list_shown p && canPrev (offset p) then Some (load TList (filters p) (prev_offset (offset p)) p) else None
  | NextPage =>
      if list_shown p && canNext (offset p) (total p) then Some (load TList (filters p) (next_offset (offset p)) p) else None
  | OpenDetail i => match row i p with Some c => Some (openDetail c p) | None => None end
  | CloseDetail => if bool_decide (is_Some (selected p)) || detailLoading p then Some (set_detail None (detailLoading p) p, []) else None
  | RevokeRow i =>
      match row i p with Some c => if isRevokable (Some c) then Some (setRevokeTarget (Some c) p, []) else None | None => None end
  | RevokeDetail =>
      if negb (detailLoading p) && isRevokable (selected p) then Some (setRevokeTarget (selected p) p, []) else None
  | TypeReason v =>
      match revokeTarget p with
      | Some _ => Some (set_dialog (revokeTarget p) v (revokeError p) (revokeSubmitting p) p, [])
      | None => None
      end
  | CancelRevoke => match revokeTarget p with Some _ => Some (setRevokeTarget None p, []) | None => None end
  | ConfirmRevoke =>
      match revokeTarget p with
      | Some c => if revokeSubmitting p || negb (nonempty (trim (reason p))) then None else Some (confirmRevoke c p)
      | None => None
      end
  | CopyValue value label =>
      match selected p with
      | Some c =>
          if detailLoading p || negb (bool_decide ((value, label) ∈ copyable c)) then None
          else Some (start (TCopy label) p, [Copy value])
      | None => None
      end
  | _ => None
  end.

(** Replies and timers, with or without a session; a rejected copy is not handled. *)
Definition late_react (p : page) (i : input) : option (page * list call) :=
  match i with
  | LoggedIn em tk =>
      if nonempty (token p) then None
      else
        let p' := set_session tk tk em p in
        Some (if nonempty tk then load TList (filters p') 0 p' else (p', []))
  | AuditAuthError => Some (end_session (email p) p, [ClearAdminSession])
  | MessageFades => if nonempty (message p) then Some (set_message [] p, []) else None
  | DebounceFires =>
      match debounce p with
      | Some (f, tk) =>
          let p' := set_filters (filters p) None (view p) p in
          Some (if nonempty tk then load TList f 0 p' else (p', []))
      | None => None
      end
  | ListReply k r =>
      with_task k p (fun t p' =>
        match t with
        | TList => Some (loaded r p')
        | TReload => let (p2, cs) := loaded r p' in Some (submitted p2, cs)
        | _ => None
        end)
  | DetailReply k r => with_task k p (fun t p' => match t with TDetail => Some (detailed r p', []) | _ => None end)
  | RevokeReply k r => with_task k p (fun t p' => match t with TRevoke f o => Some (revoked f o r p') | _ => None end)
  | CopyReply k r => with_task k p (fun t p' => match t with TCopy label => Some (copied label r p', []) | _ => None end)
  | _ => None
  end.

Definition react (p : page) (i : input) : option (page * list call) :=
  match late_react p i with
  | Some r => Some r
  | None => if nonempty (token p) then user_react p i else None
  end.

(** ** The invariant of the runs *)

#[local] Notation run := (list (step_taken page input call)).

(** A reply of this run had the certificate. *)
Definition brings (c : AdminCertificate) (i : input) : Prop :=
  match i with
  | ListReply _ (Ok resp) => c ∈ pg_items resp
  | DetailReply _ (Ok c') | RevokeReply _ (Ok c') => c = c'
  | _ => False
  end.

Definition served (t : run) (c : AdminCertificate) : Prop := exists s, s ∈ t /\ brings c (by_input s).

Lemma served_cons s t c : served t c -> served (s :: t) c.
Proof. intros (s' & Hs & Hc). exists s'. split; [by apply list_elem_of_further | done]. Qed.

Definition revokes (t : task) : bool := match t with TRevoke _ _ | TReload => true | _ => false end.

Record good (t : run) (p : page) : Prop := Good {
  go_numbered : numbered (next p) (pending p);
  go_items : forall c, c ∈ items p -> served t c;
  go_selected : forall c, selected p = Some c -> served t c;
  go_target : forall c, revokeTarget p = Some c -> served t c /\ isRevokable (Some c) = true;
  go_idle : revokeSubmitting p = false -> of_kind revokes (pending p) = [];
  go_busy : revokeSubmitting p = true -> exists k, of_kind revokes (pending p) = [k]
}.

(** The parts that matter to it. *)
Definition core (p : page) :=
  (items p, selected p, revokeTarget p, revokeSubmitting p, pending p, next p).

Lemma ca_good_core t p p' : core p' = core p -> good t p -> good t p'.
Proof. unfold core. intros [= H1 H2 H3 H4 H5 H6] [G1 G2 G3 G4 G5 G6]. split; by rewrite ?H1, ?H2, ?H3, ?H4, ?H5, ?H6. Qed.

Lemma ca_good_cons s t p : good t p -> good (s :: t) p.
Proof.
  intros [G1 G2 G3 G4 G5 G6]. split; auto using served_cons. intros c Hc. destruct (G4 c Hc).
  split; [by apply served_cons | done].
Qed.

Lemma ca_good_start t tk p : revokes tk = false -> good t p -> good t (start tk p).
Proof.
  intros Ht [G1 G2 G3 G4 G5 G6]. split; cbn [start set_pending items selected revokeTarget revokeSubmitting pending next]; auto.
  - by apply numbered_add.
  - intros H. rewrite of_kind_add, Ht, app_nil_r. by apply G5.
  - intros H. rewrite of_kind_add, Ht, app_nil_r. by apply G6.
Qed.

Lemma good_load t tk f o p : revokes tk = false -> good t p -> good t (load tk f o p).1.
Proof.
  intros Ht Hg. unfold load. destruct (stored p); [done|]. apply ca_good_start; [done|]. by apply (ca_good_core _ p).
Qed.

Lemma good_detail t c b p : (forall c', c = Some c' -> served t c') -> good t p -> good t (set_detail c b p).
Proof. intros Hc [G1 G2 G3 G4 G5 G6]. by split. Qed.

Lemma good_target t c p : (forall c', c = Some c' -> served t c' /\ isRevokable (Some c') = true) -> good t p ->
  good t (setRevokeTarget c p).
Proof. intros Hc [G1 G2 G3 G4 G5 G6]. by split. Qed.

(** A task of another kind has been answered. *)
Lemma ca_good_taken t k tk p l : take_numbered k (pending p) = Some (tk, l) -> revokes tk = false -> good t p ->
  good t (set_pending l (next p) p).
Proof.
  intros Hk Ht [G1 G2 G3 G4 G5 G6]. apply take_numbered_some in Hk as [Hin ->].
  split; cbn [set_pending items selected revokeTarget revokeSubmitting pending next]; auto.
  - by apply numbered_rest.
  - intros H. erewrite of_kind_rest_other; eauto.
  - intros H. erewrite of_kind_rest_other; eauto.
Qed.

(** The revocation has been answered, or the list after it. *)
Lemma good_taken_revoke t k tk p l : take_numbered k (pending p) = Some (tk, l) -> revokes tk = true -> good t p ->
  of_kind revokes l = [] /\ good t (submitted (set_pending l (next p) p)).
Proof.
  intros Hk Ht [G1 G2 G3 G4 G5 G6]. apply take_numbered_some in Hk as [Hin ->].
  assert (Hnil : of_kind revokes (filter (fun x => x.1 <> k) (pending p)) = []).
  { pose proof (of_kind_elem revokes _ _ _ Hin Ht) as Hk. rewrite of_kind_rest.
    destruct (revokeSubmitting p); [|rewrite (G5 eq_refl) in Hk; by apply elem_of_nil in Hk].
    destruct (G6 eq_refl) as [m Hm]. rewrite Hm in Hk |- *. apply list_elem_of_singleton in Hk as ->.
    by rewrite filter_cons_False by auto. }
  split; [done|]. split; cbn; auto; [by apply numbered_rest | done].
Qed.

Lemma good_end_session t em p : good t p -> good t (end_session em p).
Proof. by apply ca_good_core. Qed.

Lemma good_loaded t r p : (forall resp c, r = Ok resp -> c ∈ pg_items resp -> served t c) -> good t p -> good t (loaded r p).1.
Proof.
  intros Hr Hg. unfold loaded. destruct r as [resp|e].
  - destruct Hg as [G1 G2 G3 G4 G5 G6]. split; cbn; eauto.
  - assert (Hp : good t (set_loading false (errorMessage e) p)) by by apply (ca_good_core _ p).
    destruct (auth_error e); [by apply good_end_session | done].
Qed.

(** A revocation starts, or the list after one. *)
Lemma ca_good_begin t tk p : of_kind revokes (pending p) = [] -> revokes tk = true -> revokeSubmitting p = true ->
  good t (submitted p) -> good t (start tk p).
Proof.
  intros Hnil Ht Hs [G1 G2 G3 G4 G5 G6].
  split; cbn [start set_pending items selected revokeTarget revokeSubmitting pending next]; auto.
  - by apply numbered_add.
  - congruence.
  - intros _. exists (next p). by rewrite of_kind_add, Ht, Hnil.
Qed.

Lemma good_confirm t c p : revokeSubmitting p = false -> good t p -> good t (confirmRevoke c p).1.
Proof.
  intros Hs Hg. apply ca_good_begin; [by apply (go_idle _ _ Hg) | done | done|]. apply (ca_good_core _ p); [|done].
  unfold core. cbn. by rewrite Hs.
Qed.

Lemma good_revoked t k f o r p l : take_numbered k (pending p) = Some (TRevoke f o, l) ->
  (forall c, r = Ok c -> served t c) -> good t p -> good t (revoked f o r (set_pending l (next p) p)).1.
Proof.
  intros Hk Hr Hg. destruct (good_taken_revoke _ _ _ _ _ Hk eq_refl Hg) as [Hnil Hg'].
  set (q := set_pending l (next p) p) in *. unfold revoked. destruct r as [c|e]; [|by apply (ca_good_core _ (submitted q))].
  set (p1 := set_detail _ _ _). assert (Hp1 : good t (submitted p1)).
  { apply (ca_good_core _ (set_detail (Some c) (detailLoading q) (setRevokeTarget None (submitted q)))); [done|].
    apply good_detail; [intros c' [= <-]; by apply Hr|]. by apply good_target. }
  unfold load. destruct (stored p1); [done|]. cbn [fst].
  assert (Hsub : revokeSubmitting p = true).
  { apply take_numbered_some in Hk as [Hin _]. destruct (revokeSubmitting p) eqn:Hs; [done|].
    pose proof (of_kind_elem revokes _ _ _ Hin eq_refl) as Hk. rewrite (go_idle _ _ Hg Hs) in Hk. by apply elem_of_nil in Hk. }
  apply ca_good_begin; [exact Hnil | done | exact Hsub | by apply (ca_good_core _ (submitted p1))].
Qed.

Lemma row_items n p c : row n p = Some c -> c ∈ items p.
Proof. unfold row. destruct (_ && _); [apply list_elem_of_lookup_2 | done]. Qed.

Lemma ca_good_user t p i p' cs : good t p -> user_react p i = Some (p', cs) -> good t p'.
Proof.
  intros Hg Hr. unfold user_react in Hr.
  assert (Hload : forall f o q, Some (load TList f o p) = Some q -> good t q.1) by (intros f o q [= <-]; by apply good_load).
  destruct i as [em tk| |v|f| | | | |n| |n| |v| | |value label| | |k r|k r|k r|k r]; try done.
  - injection Hr as <- _. by apply good_end_session.
  - injection Hr as <- _. by apply (ca_good_core _ p).
  - destruct (negb _); [done|]. case_bool_decide; injection Hr as <- _; [done | by apply (ca_good_core _ p)].
  - destruct (list_shown p); [|done]. by apply (Hload _ _ _ Hr).
  - destruct (_ && _); [|done]. by apply (Hload _ _ _ Hr).
  - destruct (_ && _); [|done]. by apply (Hload _ _ _ Hr).
  - destruct (row n p) as [c|] eqn:Hc; [|done]. injection Hr as <- _. apply row_items in Hc. apply ca_good_start; [done|].
    apply (ca_good_core _ (set_detail (Some c) true p)); [done|]. apply good_detail; [|done].
    intros c' [= <-]. by apply (go_items _ _ Hg).
  - destruct (_ || _); [|done]. injection Hr as <- _. by apply good_detail.
  - destruct (row n p) as [c|] eqn:Hc; [|done]. destruct (isRevokable (Some c)) eqn:Hi; [|done]. injection Hr as <- _.
    apply row_items in Hc. apply good_target; [|done]. intros c' [= <-]. split; [by apply (go_items _ _ Hg) | done].
  - destruct (negb _ && isRevokable (selected p)) eqn:Hi; [|done]. apply andb_true_iff in Hi as [_ Hi]. injection Hr as <- _.
    apply good_target; [|done]. intros c' Hc. rewrite Hc in Hi. split; [by apply (go_selected _ _ Hg) | done].
  - destruct (revokeTarget p) eqn:Hc; [|done]. injection Hr as <- _. apply (ca_good_core _ p); [|done]. unfold core. cbn. congruence.
  - destruct (revokeTarget p); [|done]. injection Hr as <- _. by apply good_target.
  - destruct (revokeTarget p) as [c|]; [|done]. destruct (revokeSubmitting p) eqn:Hs; [done|]. cbn in Hr.
    destruct (negb _); [done|]. injection Hr as <- _. by apply (good_confirm t c).
  - destruct (selected p); [|done]. destruct (_ || _); [done|]. injection Hr as <- _. by apply ca_good_start.
Qed.

Lemma good_late t p i p' cs : (forall c, brings c i -> served t c) -> good t p ->
  late_react p i = Some (p', cs) -> good t p'.
Proof.
  intros Hb Hg Hr. unfold late_react, with_task in Hr.
  destruct i as [em tk| |v|f| | | | |n| |n| |v| | |value label| | |k r|k r|k r|k r]; try done.
  - destruct (nonempty (token p)); [done|]. injection Hr as Hr. change p' with (p', cs).1. rewrite <- Hr.
    destruct (nonempty tk); [apply good_load; [done|]|]; by apply (ca_good_core _ p).
  - destruct (debounce p) as [[f tk]|]; [|done]. injection Hr as Hr. change p' with (p', cs).1. rewrite <- Hr.
    destruct (nonempty tk); [apply good_load; [done|]|]; by apply (ca_good_core _ p).
  - destruct (nonempty _); [|done]. injection Hr as <- _. by apply (ca_good_core _ p).
  - injection Hr as <- _. by apply good_end_session.
  - destruct (take_numbered k (pending p)) as [[[| | | |] l]|] eqn:Hk; try done.
    + injection Hr as Hr. change p' with (p', cs).1. rewrite <- Hr. apply good_loaded; [|by eapply ca_good_taken].
      intros resp c -> Hc. by apply Hb.
    + destruct (good_taken_revoke _ _ _ _ _ Hk eq_refl Hg) as [_ Hg']. set (q := set_pending l (next p) p) in *.
      destruct (loaded r q) as [p2 c2] eqn:Hl. injection Hr as <- _.
      assert (H2 : good t (loaded r (submitted q)).1) by (apply good_loaded; [intros resp c -> Hc; by apply Hb | done]).
      apply (ca_good_core _ (loaded r (submitted q)).1); [|done]. change p2 with (p2, c2).1. rewrite <- Hl.
      unfold loaded. destruct r; [done|]. by destruct (auth_error e).
  - destruct (take_numbered k (pending p)) as [[[| | | |] l]|] eqn:Hk; try done. injection Hr as <- _.
    assert (Hq : good t (set_pending l (next p) p)) by by eapply ca_good_taken.
    destruct r as [c|e]; [apply good_detail; [intros c' [= <-]; by apply Hb | done]|].
    by apply (ca_good_core _ (set_pending l (next p) p)).
  - destruct (take_numbered k (pending p)) as [[[| | | |] l]|] eqn:Hk; try done. injection Hr as Hr.
    change p' with (p', cs).1. rewrite <- Hr. eapply good_revoked; [done | | done]. intros c ->. by apply Hb.
  - destruct (take_numbered k (pending p)) as [[[| | | |] l]|] eqn:Hk; try done. injection Hr as <- _.
    assert (Hq : good t (set_pending l (next p) p)) by by eapply ca_good_taken.
    destruct r; [by apply (ca_good_core _ (set_pending l (next p) p)) | done].
Qed.

Lemma ca_good_react t p i p' cs : good t p -> react p i = Some (p', cs) ->
  good ({| before := p; by_input := i; calls := cs |} :: t) p'.
Proof.
  intros Hg Hr. apply (ca_good_cons {| before := p; by_input := i; calls := cs |}) in Hg. unfold react in Hr.
  destruct (late_react p i) as [[q c]|] eqn:Hl.
  - injection Hr as <- <-. eapply good_late; [|exact Hg | exact Hl]. intros c0 Hc. eexists. split; [apply list_elem_of_here | exact Hc].
  - destruct (nonempty (token p)); [|done]. by eapply ca_good_user.
Qed.

Lemma ca_reaches_good tk em t p : reaches react (opened tk em).1 t p -> good t p.
Proof.
  apply reaches_invariant; [|apply ca_good_react]. apply good_load; [done|]. split; cbn; try done.
  - apply numbered_nil.
  - intros c Hc. by apply elem_of_nil in Hc.
Qed.

(** ** Revocations *)

Definition no_revocation (cs : list call) : Prop := forall s why, Revoke s why ∉ cs.

Lemma quiet_load t f o p : no_revocation (load t f o p).2.
Proof.
  intros s why. unfold load. destruct (stored p); cbn; [apply not_elem_of_nil|].
  intros Hc. by apply list_elem_of_singleton in Hc.
Qed.

Lemma quiet_loaded r p : no_revocation (loaded r p).2.
Proof.
  intros s why. unfold loaded. destruct r as [resp|e]; [apply not_elem_of_nil|]. destruct (auth_error e); cbn.
  - intros Hc. by apply list_elem_of_singleton in Hc.
  - apply not_elem_of_nil.
Qed.

Lemma quiet_revoked f o r p : no_revocation (revoked f o r p).2.
Proof.
  intros s why. unfold revoked. destruct r as [c|e]; [|apply not_elem_of_nil].
  set (p1 := set_detail _ _ _). pose proof (quiet_load TReload f o p1 s why) as Hq.
  destruct (load TReload f o p1) as [p2 [|x cs]]; [apply not_elem_of_nil | exact Hq].
Qed.

Lemma quiet_late p i p' cs : late_react p i = Some (p', cs) -> no_revocation cs.
Proof.
  intros Hr. assert (Hno : forall q, no_revocation q.2 -> Some q = Some (p', cs) -> no_revocation cs) by (by intros q H [= ->]).
  assert (Hnil : forall q : page, Some (q, []) = Some (p', cs) -> no_revocation cs)
    by (intros q [= _ <-] s why; apply not_elem_of_nil).
  unfold late_react, with_task in Hr.
  destruct i as [em tk| |v|f| | | | |n| |n| |v| | |value label| | |k r|k r|k r|k r]; try done.
  - destruct (nonempty (token p)); [done|]. destruct (nonempty tk); [|by eapply Hnil]. eapply Hno; [apply quiet_load | exact Hr].
  - destruct (debounce p) as [[f tk]|]; [|done]. destruct (nonempty tk); [|by eapply Hnil].
    eapply Hno; [apply quiet_load | exact Hr].
  - destruct (nonempty _); [by eapply Hnil | done].
  - injection Hr as _ <-. intros s why Hc. by apply list_elem_of_singleton in Hc.
  - destruct (take_numbered k (pending p)) as [[[| | | |] l]|]; try done.
    + eapply Hno; [apply quiet_loaded | exact Hr].
    + set (q := set_pending l (next p) p) in *. pose proof (quiet_loaded r q) as Hq.
      destruct (loaded r q) as [p2 c2]. by injection Hr as _ <-.
  - destruct (take_numbered k (pending p)) as [[[| | | |] l]|]; try done. by eapply Hnil.
  - destruct (take_numbered k (pending p)) as [[[| | | |] l]|]; try done. eapply Hno; [apply quiet_revoked | exact Hr].
  - destruct (take_numbered k (pending p)) as [[[| | | |] l]|]; try done. by eapply Hnil.
Qed.

Lemma revoke_by_confirm p i p' cs s why : user_react p i = Some (p', cs) -> Revoke s why ∈ cs ->
  i = ConfirmRevoke /\ exists c, revokeTarget p = Some c /\ revokeSubmitting p = false /\
    nonempty (trim (reason p)) = true /\ s = serial c /\ why = reason p /\ cs = [Revoke s why].
Proof.
  intros Hr Hc. assert (Hq : no_revocation cs -> False) by (intros Hq; by apply (Hq s why)).
  assert (Hno : forall f o, Some (load TList f o p) = Some (p', cs) -> False).
  { intros f o [= He]. apply Hq. change cs with (p', cs).2. rewrite <- He. apply quiet_load. }
  assert (Hone : forall (q : page) c, Some (q, [c]) = Some (p', cs) -> Revoke s why <> c -> False).
  { intros q c [= _ <-] Hne. by apply list_elem_of_singleton in Hc. }
  assert (Hnil : forall q : page, Some (q, []) = Some (p', cs) -> False)
    by (intros q [= _ <-]; by apply elem_of_nil in Hc).
  unfold user_react in Hr.
  destruct i as [em tk| |v|f| | | | |n| |n| |v| | |value label| | |k r|k r|k r|k r]; try done; try by destruct (Hnil _ Hr).
  - by destruct (Hone _ _ Hr).
  - destruct (negb _); [done|]. case_bool_decide; by destruct (Hnil _ Hr).
  - destruct (list_shown p); [by destruct (Hno _ _ Hr) | done].
  - destruct (_ && _); [by destruct (Hno _ _ Hr) | done].
  - destruct (_ && _); [by destruct (Hno _ _ Hr) | done].
  - destruct (row n p); [by destruct (Hone _ _ Hr) | done].
  - destruct (_ || _); [by destruct (Hnil _ Hr) | done].
  - destruct (row n p) as [c|]; [|done]. destruct (isRevokable (Some c)); [by destruct (Hnil _ Hr) | done].
  - destruct (_ && _); [by destruct (Hnil _ Hr) | done].
  - destruct (revokeTarget p); [by destruct (Hnil _ Hr) | done].
  - destruct (revokeTarget p); [by destruct (Hnil _ Hr) | done].
  - split; [done|]. destruct (revokeTarget p) as [c|]; [|done]. destruct (revokeSubmitting p); [done|]. cbn in Hr.
    destruct (nonempty (trim (reason p))); [|done]. injection Hr as _ <-. apply list_elem_of_singleton in Hc as [= -> ->].
    exists c. by split_and!.
  - destruct (selected p); [|done]. destruct (_ || _); [done|]. by destruct (Hone _ _ Hr).
Qed.

(** C22: what is revoked. In every run of the page, in whatever order replies, timers
    and sessions come, a revocation is sent only by the confirmation of the
    dialog, for the serial that the dialog shows, with a reason that is not
    blank. The certificate came in a reply of this run, as an active one of a
    client, and no other revocation, nor the list after one, is in flight. *)
Theorem revoke_confirmed tk em t p i p' cs s why :
  reaches react (opened tk em).1 t p -> react p i = Some (p', cs) -> Revoke s why ∈ cs ->
  i = ConfirmRevoke /\ cs = [Revoke s why] /\ trim why <> [] /\ of_kind revokes (pending p) = [] /\
  exists c, revokeTarget p = Some c /\ serial c = s /\ served t c /\
    status c = js "active" /\ cert_type c = js "client".
Proof.
  intros Hp Hr Hc. apply ca_reaches_good in Hp. unfold react in Hr. destruct (late_react p i) as [[q c]|] eqn:Hl.
  { injection Hr as <- <-. by apply (quiet_late _ _ _ _ Hl) in Hc. }
  destruct (nonempty (token p)); [|done].
  destruct (revoke_by_confirm _ _ _ _ _ _ Hr Hc) as (-> & c & Ht & Hs & Hw & -> & -> & ->).
  destruct (go_target _ _ Hp c Ht) as [Hsv Hi]. unfold isRevokable in Hi. apply andb_true_iff in Hi as [Ha Hct].
  apply ustr_eqb_eq in Ha. apply ustr_eqb_eq in Hct. split_and!; [done | done | | by apply (go_idle _ _ Hp) | by exists c].
  intros He. by rewrite He in Hw.
Qed.
End ca_page.

(** ** Concrete runs *)

Definition a_certificate (s st : string) : AdminCertificate :=
  {| serial := js s; status := js st; cert_type := js "client"; issuer_id := js "ca-1"; issuer_common_name := js "CA";
     issuer_serial_number := js "00"; owner_id := js "u"; cn := js "An"; cert_email := js "an@x.vn"; chain_pem := [];
     chain_fingerprints := []; key_usage := []; extended_key_usage := []; fingerprint := js "ff"; not_before := 1;
     not_after := 2; issued_at := 1; revoked_at := None; revocation_reason := None |}.

Definition a_list (l : list AdminCertificate) : result js_exception (Page AdminCertificate) :=
  Ok {| pg_items := l; pg_total := zlen l; pg_offset := 0 |}.

Definition revoke_inputs : list input :=
  [ListReply 0 (a_list [a_certificate "01" "active"; a_certificate "02" "revoked"]); OpenDetail 1; RevokeRow 0;
   DetailReply 1 (Ok (a_certificate "02" "revoked")); TypeReason (js "key lost")].

Lemma revoke_confirmed_witness :
  match run_inputs (react (fun _ => [])) revoke_inputs [] (opened (js "tok") []).1 with
  | Some (t, p) => exists c, revokeTarget p = Some c /\ served t c /\ status c = js "active"
  | None => False
  end.
Proof.
  destruct (run_inputs _ _ _ _) as [[t p]|] eqn:Hr; [|vm_compute in Hr; discriminate Hr].
  pose proof (run_inputs_reaches _ _ _ _ _ _ _ (reach_start _ _) Hr) as Hp.
  assert (He : exists p' cs, react (fun _ => []) p ConfirmRevoke = Some (p', cs) /\ Revoke (js "01") (js "key lost") ∈ cs).
  { vm_compute in Hr. injection Hr as <- <-. do 2 eexists. split; [vm_compute; reflexivity | apply list_elem_of_here]. }
  destruct He as (p' & cs & Hreact & Hin).
  destruct (revoke_confirmed _ _ _ _ _ _ _ _ _ _ Hp Hreact Hin) as (_ & _ & _ & _ & c & Ht & _ & Hs & Ha & _).
  by exists c.
Defined.

Definition revoked_only : Filters := {| f_status := js "revoked"; f_certType := js "all"; f_issuerId := []; f_search := [] |}.

(** The administrator asks for the revoked certificates before the first list has
    come; its reply comes last. *)
Definition stale_inputs : list input :=
  [SetFilters revoked_only; DebounceFires; ListReply 1 (a_list [a_certificate "02" "revoked"]);
   ListReply 0 (a_list [a_certificate "01" "active"; a_certificate "02" "revoked"])].

(** The list and its filters can disagree. A reply is shown whatever was asked
    since: there is a run that ends with the filter on revoked certificates, with
    the list of all of them, an active one among them, and with nothing awaited. *)
Theorem stale_certificates thrown_message :
  exists t p, reaches (react thrown_message) (opened (js "tok") []).1 t p /\
    (opened (js "tok") []).2 ++ all_calls t =
      [ListCertificates (list_params no_filters 0); ListCertificates (list_params revoked_only 0)] /\
    filters p = revoked_only /\ debounce p = None /\ pending p = [] /\ loading p = false /\ error p = [] /\
    map status (items p) = [js "active"; js "revoked"].
Proof.
  destruct (run_inputs (react thrown_message) stale_inputs [] (opened (js "tok") []).1) as [[t p]|] eqn:Hr;
    [|vm_compute in Hr; discriminate Hr].
  exists t, p. split; [eapply run_inputs_reaches; [apply reach_start | exact Hr]|].
  vm_compute in Hr. injection Hr as <- <-. by vm_compute.
Qed.

(** ** The audit log ([AuditPanel], and [KdcPanel] of [AdminSOC.tsx])

    Both are this machine: an action, a text to search for, and pages of the
    list; they differ in the query. A session that is refused is reported to the
    parent, even when the panel is gone. *)

Module AuditPanel.

Record panel (A : Type) := {
  items : list A; total : Z; offset : Z; action : ustr; search : ustr; loading : bool; error : ustr;
  debounce : option (ustr * ustr); pending : list (nat * unit); next : nat; mounted : bool
}.

Arguments items {A} p.
Arguments total {A} p.
Arguments offset {A} p.
Arguments action {A} p.
Arguments search {A} p.
Arguments loading {A} p.
Arguments error {A} p.
Arguments debounce {A} p.
Arguments pending {A} p.
Arguments next {A} p.
Arguments mounted {A} p.

Inductive call := Query (action search : ustr) (limit offset : Z) | AuthError.

Inductive input (A : Type) :=
| SetFilter (action search : ustr)
| DebounceFires
| PrevPage
| NextPage
| RefreshList
| Unmount
| Reply (k : nat) (r : result js_exception (Page A)).

Arguments SetFilter {A} _ _.
Arguments DebounceFires {A}.
Arguments PrevPage {A}.
Arguments NextPage {A}.
Arguments RefreshList {A}.
Arguments Unmount {A}.
Arguments Reply {A} _ _.

(** The two queries. *)
Definition ca_audit_params (action serial : ustr) (limit offset : Z) : CaAuditListParams :=
  {| al_action := Some action; al_serial := Some serial; al_performedBy := None; al_limit := Some limit;
     al_offset := Some offset |}.

Definition kdc_audit_params (action search : ustr) (limit offset : Z) : KdcAuditListParams :=
  {| kl_action := Some action; kl_clientId := None; kl_certSerial := Some search; kl_requestId := None;
     kl_limit := Some limit; kl_offset := Some offset |}.

Section audit_panel.

Context {A : Type} (errorMessage : js_exception -> ustr).

Definition opened : panel A :=
  {| items := []; total := 0; offset := 0; action := js "all"; search := []; loading := false; error := [];
     debounce := Some (js "all", []); pending := []; next := 0; mounted := true |}.

(** [loadAudit(nextOffset)] of a rendering with these filters. *)
Definition loadAudit (a s : ustr) (nextOffset : Z) (p : panel A) : panel A * list call :=
  ({| items := items p; total := total p; offset := offset p; action := action p; search := search p; loading := true;
      error := []; debounce := debounce p; pending := pending p ++ [(next p, tt)]; next := S (next p);
      mounted := mounted p |}, [Query a s PAGE_SIZE nextOffset]).

Definition set_filter (a s : ustr) (d : option (ustr * ustr)) (m : bool) (p : panel A) : panel A :=
  {| items := items p; total := total p; offset := offset p; action := a; search := s; loading := loading p;
     error := error p; debounce := d; pending := pending p; next := next p; mounted := m |}.

Definition replied (l : list (nat * unit)) (r : result js_exception (Page A)) (p : panel A) : panel A * list call :=
  let p' its tot off err :=
    {| items := its; total := tot; offset := off; action := action p; search := search p; loading := false; error := err;
       debounce := debounce p; pending := l; next := next p; mounted := mounted p |} in
  match r with
  | Ok resp => (p' (pg_items resp) (pg_total resp) (pg_offset resp) (error p), [])
  | Err e => (p' (items p) (total p) (offset p) (errorMessage e), if auth_error e then [AuthError] else [])
  end.

Definition react (p : panel A) (i : input A) : option (panel A * list call) :=
  match i with
  | Reply k r =>
      match take_numbered k (pending p) with Some (_, l) => Some (replied l r p) | None => None end
  | _ =>
      if negb (mounted p) then None
      else
        match i with
        | SetFilter a s =>
            if ustr_eqb a (action p) && ustr_eqb s (search p) then Some (p, [])
            else Some (set_filter a s (Some (a, s)) true p, [])
        | DebounceFires =>
            match debounce p with
            | Some (a, s) => Some (loadAudit a s 0 (set_filter (action p) (search p) None true p))
            | None => None
            end
        | PrevPage => if canPrev (offset p) then Some (loadAudit (action p) (search p) (prev_offset (offset p)) p) else None
        | NextPage =>
            if canNext (offset p) (total p) then Some (loadAudit (action p) (search p) (next_offset (offset p)) p) else None
        | RefreshList => Some (loadAudit (action p) (search p) (offset p) p)
        | _ => Some (set_filter (action p) (search p) None false p, [])
        end
  end.

(** A reply with an offset and a total that are not negative. *)
Definition page_ok (p : panel A) (i : input A) : bool :=
  match i with Reply _ (Ok resp) => (0 <=? pg_offset resp) && (0 <=? pg_total resp) | _ => true end.

(** The pages that are asked for. While the replies have an offset and a total
    that are not negative, every query is for twenty rows; it repeats the page that
    is shown, begins the list again, or starts in front of the shown page or, after
    it, in front of the end of the list. *)
Theorem audit_pages_in_range t p i p' cs a s limit o :
  reaches (disciplined page_ok react) opened t p -> disciplined page_ok react p i = Some (p', cs) ->
  Query a s limit o ∈ cs ->
  limit = 20 /\ 0 <= o /\ (o = offset p \/ o = 0 \/ (o < offset p /\ offset p - 20 <= o) \/ (o = offset p + 20 /\ o < total p)).
Proof.
  intros Hp Hr Hc. assert (Hg : 0 <= offset p /\ 0 <= total p).
  { revert Hp. apply (reaches_invariant (disciplined page_ok react) (fun _ p => 0 <= offset p /\ 0 <= total p)); [done|].
    clear. intros t p i p' cs Hg Hr. apply disciplined_some in Hr as [Hok Hr]. unfold react in Hr.
    destruct i as [a s| | | | | |k r]; cbn in Hr;
      [destruct (mounted p); [|done]; cbn in Hr..|].
    - destruct (_ && _); by injection Hr as <- _.
    - destruct (debounce p) as [[a s]|]; [|done]. by injection Hr as <- _.
    - destruct (canPrev _); [|done]. by injection Hr as <- _.
    - destruct (canNext _ _); [|done]. by injection Hr as <- _.
    - by injection Hr as <- _.
    - by injection Hr as <- _.
    - destruct (take_numbered k (pending p)) as [[u l]|]; [|done]. destruct r as [resp|e]; injection Hr as <- _; [|done].
      cbn in Hok. bool_to_Z. by split. }
  apply disciplined_some in Hr as [_ Hr]. unfold react in Hr.
  destruct i as [a0 s0| | | | | |k r]; cbn in Hr; [destruct (mounted p); [|done]; cbn in Hr..|].
  - destruct (_ && _); injection Hr as _ <-; by apply elem_of_nil in Hc.
  - destruct (debounce p) as [[a0 s0]|]; [|done]. injection Hr as _ <-. apply list_elem_of_singleton in Hc as [= -> -> -> ->].
    split_and!; auto; lia.
  - destruct (canPrev _) eqn:Hcp; [|done]. injection Hr as _ <-. apply list_elem_of_singleton in Hc as [= -> -> -> ->].
    unfold canPrev in Hcp. bool_to_Z. unfold prev_offset, PAGE_SIZE. split_and!; lia.
  - destruct (canNext _ _) eqn:Hcn; [|done]. injection Hr as _ <-. apply list_elem_of_singleton in Hc as [= -> -> -> ->].
    unfold canNext, PAGE_SIZE in Hcn. bool_to_Z. unfold next_offset, PAGE_SIZE. split_and!; lia.
  - injection Hr as _ <-. apply list_elem_of_singleton in Hc as [= -> -> -> ->]. split_and!; auto; lia.
  - injection Hr as _ <-. by apply elem_of_nil in Hc.
  - destruct (take_numbered k (pending p)) as [[u l]|]; [|done]. destruct r as [resp|e]; injection Hr as _ <-;
      [by apply elem_of_nil in Hc|]. destruct (auth_error e); [by apply list_elem_of_singleton in Hc | by apply elem_of_nil in Hc].
Qed.
End audit_panel.

Definition no_message : js_exception -> ustr := fun _ => [].

Lemma audit_pages_in_range_witness :
  match run_inputs (disciplined page_ok (react no_message))
          [DebounceFires; Reply 0 (Ok {| pg_items := [1; 2]; pg_total := 50; pg_offset := 20 |})] [] opened with
  | Some (t, p) => 40 < total p
  | None => False
  end.
Proof.
  destruct (run_inputs _ _ _ _) as [[t p]|] eqn:Hr; [|vm_compute in Hr; discriminate Hr].
  pose proof (run_inputs_reaches _ _ _ _ _ _ _ (reach_start _ _) Hr) as Hp.
  assert (He : offset p = 20 /\ exists p' cs, disciplined page_ok (react no_message) p NextPage = Some (p', cs) /\
    Query (js "all") [] 20 40 ∈ cs).
  { vm_compute in Hr. injection Hr as <- <-. split; [done|]. do 2 eexists. split; [vm_compute; reflexivity | apply list_elem_of_here]. }
  destruct He as (Ho & p' & cs & Hreact & Hin).
  destruct (audit_pages_in_range _ _ _ _ _ _ _ _ _ _ Hp Hreact Hin) as (_ & _ & [H|[H|[H|H]]]); lia.
Defined.
End AuditPanel.
