(* ===== verification/AdminBankPage.v ===== *)
(** * The page of the bank's administrator ([pages/AdminBank.tsx])

    The four views with their filters and pages, the dialog with the accounts of a
    user and the session, as a machine of [PageRun]; the login panel is
    [PinPages.PinLogin]. A reply changes the state whatever has happened since it
    was asked for. [accounts_of_selected] is what the dialog shows while users are
    selected one after the other; [accounts_of_another] what it can show
    otherwise. *)

From S2P Require Import Prelude Effects JsString UString UJson WebCrypto Wire Browser UserError PageRun PinPages AdminClient.

Open Scope Z_scope.

(** [SESSION_ERRORS]. *)
Definition SESSION_ERRORS : list string :=
  ["ADMIN_SESSION_REQUIRED"; "ADMIN_SESSION_INVALID"; "ADMIN_SESSION_EXPIRED"; "UNAUTHENTICATED"]%string.

Definition session_error (e : js_exception) : bool :=
  match e with ApiError code _ _ => existsb (fun c => ustr_eqb code (js c)) SESSION_ERRORS | _ => false end.

Inductive View := overview | users | transactions | audit.

#[export] Instance View_eq_dec : EqDecision View.
Proof. solve_decision. Defined.

(** [PageResult]. *)
Record PageResult (A : Type) := { pr_items : list A; pr_total : Z; pr_limit : Z; pr_offset : Z }.

Arguments pr_items {A} p.
Arguments pr_total {A} p.
Arguments pr_limit {A} p.
Arguments pr_offset {A} p.

Definition emptyPage {A} : PageResult A := {| pr_items := []; pr_total := 0; pr_limit := 20; pr_offset := 0 |}.

(** [Pager]: its label, and the offsets of its two buttons where they work. *)
Definition pager_label {A} (p : PageResult A) : ustr :=
  if pr_total p =? 0 then u8 "0 kết quả"
  else js (Z_string (pr_offset p + 1)) ++ u8 "–" ++ js (Z_string (Z.min (pr_offset p + zlen (pr_items p)) (pr_total p))) ++
       js " / " ++ js (Z_string (pr_total p)).

Definition pager_prev {A} (p : PageResult A) : option Z :=
  if pr_offset p =? 0 then None else Some (Z.max 0 (pr_offset p - pr_limit p)).

Definition pager_next {A} (p : PageResult A) : option Z :=
  if pr_total p <=? pr_offset p + pr_limit p then None else Some (pr_offset p + pr_limit p).

(** A user and an account, as far as the page decides on them. *)
Record AdminUser := { user_id : ustr; full_name : ustr; user_fields : ujson }.
Record AdminAccount := { account_id : ustr; account_fields : ujson }.

(** The status of the form of users, and of transactions, as the query has it. *)
Definition user_status (s : ustr) : option string :=
  if ustr_eqb s (u8 "Đang hoạt đông") then Some "active"%string
  else if ustr_eqb s (u8 "Đã bị khóa") then Some "locked"%string
  else None.

Definition transaction_status (s : ustr) : option string :=
  if ustr_eqb s (u8 "Đang xử lý") then Some "pending"%string
  else if ustr_eqb s (u8 "Đã hoàn tất") then Some "completed"%string
  else if ustr_eqb s (u8 "Thất bại") then Some "failed"%string
  else None.

(** [x || undefined]. *)
Definition or_undefined (s : ustr) : option ustr := match s with [] => None | _ => Some s end.

Record Filters := { userEmail : ustr; userStatus : ustr; transactionStatus : ustr; auditAction : ustr }.

(** [TAccounts] knows, for the proofs, whose accounts are awaited; its reply
    does not look at it. *)
Inductive task := TView (v : View) | TAccounts (id : ustr).

Record page := {
  authenticated : bool; view : View; loading : bool; error : ustr; overview_data : option ujson;
  user_page : PageResult AdminUser; transaction_page : PageResult ujson; audit_page : PageResult ujson;
  accounts : list AdminAccount; accountsLoading : bool; selectedUser : option AdminUser; filters : Filters;
  pending : list (nat * task); next : nat
}.

Inductive call :=
| QueryOverview
| QueryUsers (email : option ustr) (status : option string) (limit offset : Z)
| QueryTransactions (status : option string) (limit offset : Z)
| QueryAudit (action : option ustr) (limit offset : Z)
| QueryAccounts (id : ustr)
| ClearServiceTickets
| ClearSession.

(** What a view's query brings. *)
Inductive view_data :=
| OverviewData (d : ujson)
| UsersData (d : PageResult AdminUser)
| TransactionsData (d : PageResult ujson)
| AuditData (d : PageResult ujson).

Inductive input :=
| SetView (v : View)
| Reload
| SetFilters (f : Filters)
| SubmitFilter
| PagerPrev
| PagerNext
| RefreshAudit
| SelectUser (i : nat)
| CloseUser
| LogOut
| LoggedIn
| ViewReply (k : nat) (r : result js_exception view_data)
| AccountsReply (k : nat) (r : result js_exception (list AdminAccount)).

Section bank_page.

Context (toUpperCase : ustr -> ustr) (thrown_message : js_exception -> ustr).

(** Setters. *)
Definition set_state (auth : bool) (v : View) (busy : bool) (err : ustr) (p : page) : page :=
  {| authenticated := auth; view := v; loading := busy; error := err; overview_data := overview_data p;
     user_page := user_page p; transaction_page := transaction_page p; audit_page := audit_page p;
     accounts := accounts p; accountsLoading := accountsLoading p; selectedUser := selectedUser p; filters := filters p;
     pending := pending p; next := next p |}.

Definition set_accounts (l : list AdminAccount) (busy : bool) (u : option AdminUser) (p : page) : page :=
  {| authenticated := authenticated p; view := view p; loading := loading p; error := error p;
     overview_data := overview_data p; user_page := user_page p; transaction_page := transaction_page p;
     audit_page := audit_page p; accounts := l; accountsLoading := busy; selectedUser := u; filters := filters p;
     pending := pending p; next := next p |}.

Definition set_filters (f : Filters) (p : page) : page :=
  {| authenticated := authenticated p; view := view p; loading := loading p; error := error p;
     overview_data := overview_data p; user_page := user_page p; transaction_page := transaction_page p;
     audit_page := audit_page p; accounts := accounts p; accountsLoading := accountsLoading p;
     selectedUser := selectedUser p; filters := f; pending := pending p; next := next p |}.

Definition set_data (d : view_data) (p : page) : page :=
  {| authenticated := authenticated p; view := view p; loading := loading p; error := error p;
     overview_data := match d with OverviewData o => Some o | _ => overview_data p end;
     user_page := match d with UsersData u => u | _ => user_page p end;
     transaction_page := match d with TransactionsData u => u | _ => transaction_page p end;
     audit_page := match d with AuditData u => u | _ => audit_page p end;
     accounts := accounts p; accountsLoading := accountsLoading p; selectedUser := selectedUser p; filters := filters p;
     pending := pending p; next := next p |}.

Definition set_pending (l : list (nat * task)) (n : nat) (p : page) : page :=
  {| authenticated := authenticated p; view := view p; loading := loading p; error := error p;
     overview_data := overview_data p; user_page := user_page p; transaction_page := transaction_page p;
     audit_page := audit_page p; accounts := accounts p; accountsLoading := accountsLoading p;
     selectedUser := selectedUser p; filters := filters p; pending := l; next := n |}.

Definition start (t : task) (p : page) : page := set_pending (pending p ++ [(next p, t)]) (S (next p)) p.

(** [fail]. *)
Definition fail (err : js_exception) (p : page) : page * list call :=
  if session_error err then (set_state false (view p) (loading p) (error p) p, [ClearServiceTickets; ClearSession])
  else (set_state (authenticated p) (view p) (loading p)
          (getUserErrorMessage toUpperCase thrown_message (Some err) (u8 "Không thể tải dữ liệu quản trị Bank")) p, []).

(** The queries of the views. *)
Definition loadUsers (f : Filters) (offset : Z) : call :=
  QueryUsers (or_undefined (trim (userEmail f))) (user_status (userStatus f)) 20 offset.
Definition loadTransactions (f : Filters) (offset : Z) : call :=
  QueryTransactions (transaction_status (transactionStatus f)) 20 offset.
Definition loadAudit (f : Filters) (offset : Z) : call := QueryAudit (or_undefined (auditAction f)) 20 offset.

Definition view_query (target : View) (f : Filters) (offset : Z) : call :=
  match target with
  | overview => QueryOverview
  | users => loadUsers f offset
  | transactions => loadTransactions f offset
  | audit => loadAudit f offset
  end.

(** [loadView], up to its [await], and the rest of it. *)
Definition loadView (target : View) (offset : Z) (p : page) : page * list call :=
  (start (TView target) (set_state (authenticated p) (view p) true [] p), [view_query target (filters p) offset]).

Definition view_loaded (r : result js_exception view_data) (p : page) : page * list call :=
  let (p', cs) := match r with Ok d => (set_data d p, []) | Err e => fail e p end in
  (set_state (authenticated p') (view p') false (error p') p', cs).

(** The reply is of the view that was asked for. *)
Definition reply_of (target : View) (r : result js_exception view_data) : bool :=
  match r, target with
  | Ok (OverviewData _), overview | Ok (UsersData _), users | Ok (TransactionsData _), transactions
  | Ok (AuditData _), audit | Err _, _ => true
  | _, _ => false
  end.

(** [selectUser], up to its [await], and the rest of it. *)
Definition selectUser (u : AdminUser) (p : page) : page * list call :=
  (start (TAccounts (user_id u)) (set_accounts [] true (Some u) (set_state (authenticated p) (view p) (loading p) [] p)),
   [QueryAccounts (user_id u)]).

Definition accounts_loaded (r : result js_exception (list AdminAccount)) (p : page) : page * list call :=
  let (p', cs) :=
    match r with Ok l => (set_accounts l (accountsLoading p) (selectedUser p) p, []) | Err e => fail e p end in
  (set_accounts (accounts p') false (selectedUser p') p', cs).

Definition handleLogout (p : page) : page * list call :=
  (set_state false (view p) (loading p) (error p) p, [ClearServiceTickets; ClearSession]).

Definition blank : page :=
  {| authenticated := true; view := overview; loading := true; error := []; overview_data := None;
     user_page := emptyPage; transaction_page := emptyPage; audit_page := emptyPage; accounts := [];
     accountsLoading := false; selectedUser := None;
     filters := {| userEmail := []; userStatus := []; transactionStatus := []; auditAction := [] |};
     pending := []; next := 0 |}.

(** The effect on [view, authenticated]. *)
Definition shown_anew (p : page) : page * list call := if authenticated p then loadView (view p) 0 p else (p, []).

Definition opened : page * list call := shown_anew blank.

(** The pages of the shown view. *)
Definition pager_of (dir : forall A, PageResult A -> option Z) (p : page) : option Z :=
  match view p with
  | overview => None
  | users => dir _ (user_page p)
  | transactions => dir _ (transaction_page p)
  | audit => dir _ (audit_page p)
  end.

(** What the user does; the views and their forms are shown when nothing loads. *)
Definition user_react (p : page) (i : input) : option (page * list call) :=
  match i with
  | SetView v =>
      if bool_decide (v = view p) then Some (p, [])
      else Some (shown_anew (set_state (authenticated p) v (loading p) (error p) p))
  | Reload => if loading p then None else Some (loadView (view p) 0 p)
  | SetFilters f => if loading p then None else Some (set_filters f p, [])
  | SubmitFilter => if loading p || bool_decide (view p = overview) then None else Some (loadView (view p) 0 p)
  | PagerPrev =>
      if loading p then None
      else match pager_of (@pager_prev) p with Some o => Some (loadView (view p) o p) | None => None end
  | PagerNext =>
      if loading p then None
      else match pager_of (@pager_next) p with Some o => Some (loadView (view p) o p) | None => None end
  | RefreshAudit =>
      if loading p || negb (bool_decide (view p = audit)) then None
      else Some (loadView audit (pr_offset (audit_page p)) p)
  | SelectUser i =>
      if loading p || negb (bool_decide (view p = users)) then None
      else match pr_items (user_page p) !! i with Some u => Some (selectUser u p) | None => None end
  | CloseUser =>
      match selectedUser p with Some _ => Some (set_accounts (accounts p) (accountsLoading p) None p, []) | None => None end
  | LogOut => Some (handleLogout p)
  | _ => None
  end.

Definition react (p : page) (i : input) : option (page * list call) :=
  match i with
  | ViewReply k r =>
      match take_numbered k (pending p) with
      | Some (TView v, l) => if reply_of v r then Some (view_loaded r (set_pending l (next p) p)) else None
      | _ => None
      end
  | AccountsReply k r =>
      match take_numbered k (pending p) with
      | Some (TAccounts _, l) => Some (accounts_loaded r (set_pending l (next p) p))
      | _ => None
      end
  | LoggedIn => if authenticated p then None else Some (shown_anew (set_state true overview (loading p) (error p) p))
  | _ => if authenticated p then user_react p i else None
  end.

(** ** The accounts that are shown *)

#[local] Notation run := (list (step_taken page input call)).

(** Users are selected one after the other: not while accounts are awaited. *)
Definition one_at_a_time (p : page) (i : input) : bool :=
  match i with SelectUser _ => negb (accountsLoading p) | _ => true end.

(** The accounts came in the reply to the query for a user. *)
Definition answered (t : run) (id : ustr) (l : list AdminAccount) : Prop :=
  exists s k, s ∈ t /\ by_input s = AccountsReply k (Ok l) /\ (k, TAccounts id) ∈ pending (before s).

Definition awaits_accounts (t : task) : bool := match t with TAccounts _ => true | _ => false end.

Record good (t : run) (p : page) : Prop := Good {
  go_numbered : numbered (next p) (pending p);
  go_idle : accountsLoading p = false -> of_kind awaits_accounts (pending p) = [] /\
    forall u, selectedUser p = Some u -> accounts p = [] \/ answered t (user_id u) (accounts p);
  go_busy : accountsLoading p = true -> exists k id, of_kind awaits_accounts (pending p) = [k] /\
    (k, TAccounts id) ∈ pending p /\ accounts p = [] /\ forall u, selectedUser p = Some u -> user_id u = id
}.

Definition core (p : page) := (accounts p, accountsLoading p, selectedUser p, pending p, next p).

Lemma bank_good_core t p p' : core p' = core p -> good t p -> good t p'.
Proof. unfold core. intros [= H1 H2 H3 H4 H5] [G1 G2 G3]. split; by rewrite ?H1, ?H2, ?H3, ?H4, ?H5. Qed.

Lemma bank_good_cons s t p : good t p -> good (s :: t) p.
Proof.
  intros [G1 G2 G3]. split; [done | | done]. intros Hi. destruct (G2 Hi) as [H1 H2]. split; [done|].
  intros u Hu. destruct (H2 u Hu) as [H|(s' & k & Hs & H)]; [by left | right]. exists s', k.
  split; [by apply list_elem_of_further | done].
Qed.

Lemma bank_good_start t v p : good t p -> good t (start (TView v) p).
Proof.
  intros [G1 G2 G3]. split; cbn [start set_pending accounts accountsLoading selectedUser pending next].
  - by apply numbered_add.
  - intros H. rewrite of_kind_add. cbn [awaits_accounts]. rewrite app_nil_r. by apply G2.
  - intros H. rewrite of_kind_add. cbn [awaits_accounts]. rewrite app_nil_r. destruct (G3 H) as (k & id & H1 & H2 & H3).
    exists k, id. split_and!; try done; try apply H3. apply elem_of_app. by left.
Qed.

Lemma good_loadView t v o p : good t p -> good t (loadView v o p).1.
Proof. intros Hg. apply bank_good_start. by apply (bank_good_core _ p). Qed.

Lemma good_shown_anew t p : good t p -> good t (shown_anew p).1.
Proof. intros Hg. unfold shown_anew. destruct (authenticated p); [by apply good_loadView | done]. Qed.

Lemma core_fail e p : core (fail e p).1 = core p.
Proof. unfold fail. by destruct (session_error e). Qed.

Lemma good_selectUser t u p : accountsLoading p = false -> good t p -> good t (selectUser u p).1.
Proof.
  intros Hi [G1 G2 G3]. destruct (G2 Hi) as [Hnil _].
  split; cbn [selectUser fst start set_pending set_accounts accounts accountsLoading selectedUser pending next set_state].
  - by apply numbered_add.
  - done.
  - intros _. exists (next p), (user_id u). split_and!.
    + by rewrite of_kind_add, Hnil.
    + apply elem_of_app. right. by apply list_elem_of_singleton.
    + done.
    + by intros u' [= <-].
Qed.

Lemma good_view_reply t k v r l p : take_numbered k (pending p) = Some (TView v, l) -> good t p ->
  good t (view_loaded r (set_pending l (next p) p)).1.
Proof.
  intros Hk [G1 G2 G3]. apply take_numbered_some in Hk as [Hin ->].
  set (q := set_pending _ _ p). assert (Hq : good t q).
  { split; unfold q; cbn [set_pending accounts accountsLoading selectedUser pending next].
    - by apply numbered_rest.
    - intros H. destruct (G2 H). erewrite of_kind_rest_other; eauto.
    - intros H. destruct (G3 H) as (k' & id & H1 & H2 & H3). exists k', id. erewrite of_kind_rest_other; eauto.
      split_and!; try done; try apply H3. apply list_elem_of_filter. split; [|done]. cbn. intros ->.
      by pose proof (numbered_unique _ _ _ _ _ G1 Hin H2). }
  apply (bank_good_core _ q); [|done]. unfold view_loaded. destruct r as [d|e]; [done|].
  pose proof (core_fail e q) as Hc. destruct (fail e q) as [p' cs]. exact Hc.
Qed.

Lemma good_accounts_reply t s k id r l p : take_numbered k (pending p) = Some (TAccounts id, l) ->
  before s = p -> by_input s = AccountsReply k r -> good t p ->
  good (s :: t) (accounts_loaded r (set_pending l (next p) p)).1.
Proof.
  intros Hk Hb Hi [G1 G2 G3]. apply take_numbered_some in Hk as [Hin ->]. set (q := set_pending _ _ p).
  pose proof (of_kind_elem awaits_accounts _ _ _ Hin eq_refl) as Hk.
  destruct (accountsLoading p) eqn:Hl; [|destruct (G2 eq_refl) as [Hn _]; rewrite Hn in Hk; by apply elem_of_nil in Hk].
  destruct (G3 eq_refl) as (k' & id' & H1 & H2 & H3 & H4). rewrite H1 in Hk. apply list_elem_of_singleton in Hk as <-.
  pose proof (numbered_unique _ _ _ _ _ G1 Hin H2) as He. injection He as ->.
  assert (Hnil : of_kind awaits_accounts (pending q) = []).
  { unfold q. cbn [set_pending pending]. rewrite of_kind_rest, H1. by rewrite filter_cons_False by auto. }
  assert (Hq : forall p', core p' = (accounts p', false, selectedUser p, pending q, next q) ->
    (accounts p' = [] \/ exists l, r = Ok l /\ accounts p' = l) -> good (s :: t) p').
  { unfold core. intros p' [= Hload Hsel Hpen Hnx] Hacc. split; rewrite ?Hload, ?Hsel, ?Hpen, ?Hnx; [by apply numbered_rest | | done].
    intros _. split; [done|]. intros u Hu. destruct Hacc as [Hacc|(l & -> & Hacc)]; [by left|]. right.
    rewrite (H4 u Hu). exists s, k. rewrite Hb, Hi, Hacc. split_and!; [apply list_elem_of_here | done | done]. }
  unfold accounts_loaded. destruct r as [l|e].
  - apply Hq; [done|]. right. by exists l.
  - pose proof (core_fail e q) as Hc. destruct (fail e q) as [p' cs]. unfold core in Hc. cbn [fst] in *.
    injection Hc as E1 E2 E3 E4 E5. apply Hq; [unfold core; cbn; congruence|]. left. cbn. by rewrite E1.
Qed.

Lemma bank_good_user t p i p' cs : one_at_a_time p i = true -> good t p -> user_react p i = Some (p', cs) -> good t p'.
Proof.
  intros Hd Hg Hr. assert (Hload : forall v o q, Some (loadView v o p) = Some q -> good t q.1)
    by (intros v o q [= <-]; by apply good_loadView).
  unfold user_react in Hr. destruct i as [v| |f| | | | |n| | | |k r|k r]; try done.
  - case_bool_decide; [by injection Hr as <- _|]. injection Hr as Hr. change p' with (p', cs).1. rewrite <- Hr.
    apply good_shown_anew. by apply (bank_good_core _ p).
  - destruct (loading p); [done|]. by apply (Hload _ _ _ Hr).
  - destruct (loading p); [done|]. injection Hr as <- _. by apply (bank_good_core _ p).
  - destruct (_ || _); [done|]. by apply (Hload _ _ _ Hr).
  - destruct (loading p); [done|]. destruct (pager_of _ p); [|done]. by apply (Hload _ _ _ Hr).
  - destruct (loading p); [done|]. destruct (pager_of _ p); [|done]. by apply (Hload _ _ _ Hr).
  - destruct (_ || _); [done|]. by apply (Hload _ _ _ Hr).
  - destruct (_ || _); [done|]. destruct (_ !! n) as [u|]; [|done]. cbn in Hd. apply negb_true_iff in Hd.
    injection Hr as <- _. by apply (good_selectUser t u).
  - destruct (selectedUser p) eqn:Hs; [|done]. injection Hr as <- _. destruct Hg as [G1 G2 G3]. split; cbn; try done.
    + intros H. destruct (G2 H). by split.
    + intros H. destruct (G3 H) as (k & id & H1 & H2 & H3 & _). by exists k, id.
  - injection Hr as <- _. by apply (bank_good_core _ p).
Qed.

Lemma bank_good_react t p i p' cs : good t p -> disciplined one_at_a_time react p i = Some (p', cs) ->
  good ({| before := p; by_input := i; calls := cs |} :: t) p'.
Proof.
  intros Hg Hr. apply disciplined_some in Hr as [Hd Hr]. unfold react in Hr.
  assert (Huser : (if authenticated p then user_react p i else None) = Some (p', cs) ->
    good ({| before := p; by_input := i; calls := cs |} :: t) p').
  { destruct (authenticated p); [|done]. intros Hu. apply bank_good_cons. by eapply bank_good_user. }
  destruct i as [v| |f| | | | |n| | | |k r|k r]; try exact (Huser Hr).
  - destruct (authenticated p); [done|]. apply (f_equal (from_option fst p)) in Hr. cbn [from_option fst] in Hr.
    rewrite <- Hr. apply bank_good_cons, good_shown_anew. by apply (bank_good_core _ p).
  - destruct (take_numbered k (pending p)) as [[[v|id] l]|] eqn:Hk; try done. destruct (reply_of v r); [|done].
    injection Hr as Hr. change p' with (p', cs).1. rewrite <- Hr. apply bank_good_cons. by eapply good_view_reply.
  - destruct (take_numbered k (pending p)) as [[[v|id] l]|] eqn:Hk; try done. injection Hr as Hr.
    set (s0 := {| before := p; by_input := _; calls := cs |}).
    change p' with (p', cs).1. rewrite <- Hr. by eapply good_accounts_reply.
Qed.

(** C21: whose accounts are shown. In every run in which no user is selected while
    accounts are awaited, the accounts that the dialog shows when it has loaded
    came in the reply to the query for the very user whose name it shows; or it
    shows none. *)
Theorem accounts_of_selected t p u :
  reaches (disciplined one_at_a_time react) opened.1 t p -> selectedUser p = Some u -> accountsLoading p = false ->
  accounts p = [] \/ answered t (user_id u) (accounts p).
Proof.
  intros Hp Hu Hl. assert (Hg : good t p).
  { revert Hp. apply reaches_invariant; [|apply bank_good_react]. apply good_shown_anew.
    split; cbn; try done. apply numbered_nil. }
  by apply (go_idle _ _ Hg).
Qed.
End bank_page.

(** ** Concrete runs *)

Definition a_user (id name : string) : AdminUser := {| user_id := js id; full_name := js name; user_fields := UNull |}.
Definition an_account (id : string) : AdminAccount := {| account_id := js id; account_fields := UNull |}.

Definition to_users : list input :=
  [ViewReply 0 (Ok (OverviewData UNull)); SetView users;
   ViewReply 1 (Ok (UsersData {| pr_items := [a_user "u1" "An"; a_user "u2" "Binh"]; pr_total := 2; pr_limit := 20; pr_offset := 0 |}))].

Lemma accounts_of_selected_witness :
  match run_inputs (disciplined one_at_a_time (react (fun s => s) (fun _ => [])))
          (to_users ++ [SelectUser 0; AccountsReply 2 (Ok [an_account "a1"]); CloseUser; SelectUser 1;
                        AccountsReply 3 (Ok [an_account "a2"])]) [] opened.1 with
  | Some (t, p) => answered t (js "u2") [an_account "a2"]
  | None => False
  end.
Proof.
  destruct (run_inputs _ _ _ _) as [[t p]|] eqn:Hr; [|vm_compute in Hr; discriminate Hr].
  pose proof (run_inputs_reaches _ _ _ _ _ _ _ (reach_start _ _) Hr) as Hp.
  assert (Hd : selectedUser p = Some (a_user "u2" "Binh") /\ accountsLoading p = false /\ accounts p = [an_account "a2"])
    by (vm_compute in Hr; injection Hr as <- <-; by vm_compute).
  destruct Hd as (Hu & Hl & Ha).
  destruct (accounts_of_selected _ _ _ _ _ Hp Hu Hl) as [H|H]; rewrite Ha in H; [done | exact H].
Defined.

(** The dialog of the first user is closed while it loads, and the second one's is
    opened; the replies come in the other order. *)
Definition overtaking : list input :=
  to_users ++ [SelectUser 0; CloseUser; SelectUser 1; AccountsReply 3 (Ok [an_account "a2"]);
               AccountsReply 2 (Ok [an_account "a1"])].

(** A user's dialog can show another user's accounts. The reply to the query
    of a dialog that was closed is not dropped: there is a run that ends with the
    dialog of the second user, loaded and with nothing awaited, and in it the
    accounts that came for the first. *)
Theorem accounts_of_another toUpperCase thrown_message :
  exists t p, reaches (react toUpperCase thrown_message) opened.1 t p /\
    selectedUser p = Some (a_user "u2" "Binh") /\ accountsLoading p = false /\ pending p = [] /\ error p = [] /\
    accounts p = [an_account "a1"] /\ answered t (js "u1") (accounts p) /\ ~ answered t (js "u2") (accounts p).
Proof.
  destruct (run_inputs (react toUpperCase thrown_message) overtaking [] opened.1) as [[t p]|] eqn:Hr;
    [|vm_compute in Hr; discriminate Hr].
  exists t, p. split; [eapply run_inputs_reaches; [apply reach_start | exact Hr]|].
  vm_compute in Hr. injection Hr as <- <-. split_and!; try (by vm_compute).
  - eexists _, 2%nat. split_and!; [apply list_elem_of_here | done | apply list_elem_of_here].
  - intros (s & k & Hs & Hi & Hk).
    repeat (apply elem_of_cons in Hs as [Hs|Hs]; [subst s; cbn in Hi, Hk; try discriminate Hi; injection Hi as <-|]).
    + repeat (apply elem_of_cons in Hk as [Hk|Hk]; [discriminate Hk|]). by apply elem_of_nil in Hk.
    + by apply elem_of_nil in Hs.
Qed.
