(* ===== verification/TimelineView.v ===== *)
(** * The audit timeline of the browser ([components/AuditTimeline.tsx])

    [toAuditVM] makes the rows of the three administrators' audit views from what
    the gateway sends, [filtered] and [counts] are the toolbar. [timeline_faithful]
    puts them behind the gateway's enrichment ([AuditTimeline.enriched_item]). The
    second part has the component's elements, with the state that it keeps: the
    toolbar and the row that is open. The three consoles embed it with handlers of
    their own; [offers_timeline] is what it offers, [timeline_renders] that the
    events of the gateway do not crash it. *)

From S2P Require Import Prelude Effects JsString UString UJson Json WebCrypto Wire Browser AuditSemantics AuditTimeline Gateway Locale View.

Open Scope Z_scope.

(** [raw.name] of a value that is neither null nor undefined. *)
Definition member (name : string) (raw : ujson) : ujson :=
  match raw with UObj l => default UUndefined (ufield (js name) l) | _ => UUndefined end.

(** [raw?.name]. *)
Definition member_opt (name : string) (raw : ujson) : ujson :=
  match raw with UUndefined | UNull => UUndefined | _ => member name raw end.

(** The fields of a row may be of any type: [raw] is [any]. *)
Record AuditEventVM := {
  id : ujson; source : ujson; timestamp : ujson; action : ujson; category : ujson; severity : ujson; outcome : ujson;
  actorDisplay : ujson; actorType : ujson; description : ujson; target : ujson; reason : ujson; requestId : ujson;
  metadata : ujson
}.

Definition none : ujson := UStr [].

(** [raw.actor && typeof raw.actor === object ? raw.actor : undefined]. *)
Definition actor_object (raw : ujson) : ujson :=
  match member "actor" raw with UObj l => UObj l | UArr l => UArr l | _ => UUndefined end.

(** [x0 ?? x1 ?? ... ?? last]. *)
Definition first_given (l : list ujson) (last : ujson) : ujson := foldr unullish last l.

Definition toAuditVM (raw : ujson) (index : nat) : result js_exception AuditEventVM :=
  match raw with
  | UUndefined | UNull => Err type_error
  | _ =>
      let f name := member name raw in
      let actor := actor_object raw in
      Ok {|
        id := first_given [f "id"; f "event_id"]
                (UStr (ustring (unullish (f "source") (UStr (js "ev"))) ++ js "-" ++ js (Z_string (Z.of_nat index))));
        source := f "source";
        timestamp := first_given [f "timestamp"; f "performed_at"; f "created_at"] none;
        action := unullish (f "action") none;
        category := unullish (f "category") (UStr (js "cert_lifecycle"));
        severity := unullish (f "severity") (UStr (js "info"));
        outcome := unullish (f "outcome") (UStr (js "success"));
        actorDisplay := first_given [f "actor_display"; member_opt "display" actor; f "performed_by"; f "client_id"; f "user_id"]
                          (UStr (u8 "—"));
        actorType := unullish (f "actor_type") (member_opt "type" actor);
        description := first_given [f "description"; f "action"] none;
        target := first_given [f "target"; f "serial_number"; f "cert_serial"; f "transaction_id"] none;
        reason := unullish (f "reason") none;
        requestId := first_given [f "request_id"; member_opt "request_id" (f "metadata")] none;
        metadata := f "metadata"
      |}
  end.

(** [items.map((it, i) => toAuditVM(it, i))]. *)
Definition rows (items : list ujson) : result js_exception (list AuditEventVM) :=
  rmapM (fun x => toAuditVM x.2 x.1) (imap pair items).

Section toolbar.

Context `{P : Platform}.

Record Toolbar := { t_severity : ustr; t_category : ustr; t_query : ustr }.

Definition is_all (s : ustr) : bool := ustr_eqb s (js "all").

Definition haystack (e : AuditEventVM) : ustr :=
  UString.toLowerCase (join (js " ") (map ustring
    [action e; description e; actorDisplay e; target e; reason e; requestId e])).

Definition shows (t : Toolbar) (e : AuditEventVM) : bool :=
  (is_all (t_severity t) || is_text (t_severity t) (severity e)) &&
  (is_all (t_category t) || is_text (t_category t) (category e)) &&
  match UString.toLowerCase (UString.trim (t_query t)) with [] => true | q => includes q (haystack e) end.

Definition filtered (t : Toolbar) (events : list AuditEventVM) : list AuditEventVM :=
  List.filter (shows t) events.

(** [counts[e.severity]++] for the three severities. *)
Definition severity_count (s : string) (events : list AuditEventVM) : Z :=
  Z.of_nat (countb (fun e => is_text (js s) (severity e)) events).

(** [shorten(value, keep)]. *)
Definition shorten (keep : nat) (value : ustr) : ustr :=
  if (keep * 2 + 1 <? length value)%nat
  then take keep value ++ u8 "…" ++ drop (length value - keep) value else value.

Definition all_shown : Toolbar := {| t_severity := js "all"; t_category := js "all"; t_query := [] |}.

(** ** Behind the gateway *)

(** What the gateway says of an item. *)
Definition semantics_of (i : TimelineItem) : AuditSemantics :=
  enrichAudit {| raw_source := ti_source i; raw_action := ti_action i; raw_actor := ti_actor i;
                 raw_reason := ti_reason i; raw_target := ti_target i |}.

(** The row of an item. *)
Definition row_of (i : TimelineItem) (n : nat) : AuditEventVM :=
  let s := semantics_of i in
  {| id := UStr (js (source_text (ti_source i)) ++ js "-" ++ js (Z_string (Z.of_nat n)));
     source := UStr (js (source_text (ti_source i)));
     timestamp := UStr (js (ti_timestamp i));
     action := UStr (js (ti_action i));
     category := unullish (widen (category_json (AuditSemantics.category s))) (UStr (js "cert_lifecycle"));
     severity := UStr (js (severity_text (AuditSemantics.severity s)));
     outcome := UStr (js (outcome_text (AuditSemantics.outcome s)));
     actorDisplay := UStr (js (actor_display (AuditSemantics.actor s)));
     actorType := UStr (js (actor_type_text (actor_type (AuditSemantics.actor s))));
     description := UStr (js (AuditSemantics.description s));
     target := UStr (js (ti_target i));
     reason := UStr (js (ti_reason i));
     requestId := UStr (js (ti_request_id i));
     metadata := widen (ti_metadata i) |}.

Lemma toAuditVM_enriched i n : toAuditVM (widen (enriched_item i)) n = Ok (row_of i n).
Proof. reflexivity. Qed.

Lemma rows_enriched its :
  rows (map (fun i => widen (enriched_item i)) its) = Ok (imap (fun n i => row_of i n) its).
Proof.
  unfold rows.
  assert (H : forall f : nat -> nat, rmapM (fun x => toAuditVM x.2 x.1)
      (imap (fun n => pair (f n)) (map (fun i => widen (enriched_item i)) its)) = Ok (imap (fun n i => row_of i (f n)) its)).
  { induction its as [|i its IH]; intros f; [done|]. cbn [map imap rmapM rbind fst snd].
    rewrite toAuditVM_enriched. cbn [rbind]. specialize (IH (fun n => f (S n))). unfold compose. by rewrite IH. }
  apply (H (fun n => n)).
Qed.

Lemma is_text_js a b : is_text (js a) (UStr (js b)) = String.eqb b a.
Proof.
  unfold is_text. destruct (String.eqb_spec b a) as [->|Hne]; [by apply ustr_eqb_eq|].
  apply not_true_is_false. intros He. by apply ustr_eqb_eq, js_inj in He.
Qed.

Lemma severity_counts_all its n0 :
  let vms := imap (fun n i => row_of i (n0 + n)) its in
  severity_count "info" vms + severity_count "warning" vms + severity_count "critical" vms = zlen its.
Proof.
  revert n0. induction its as [|i its IH]; intros n0; [done|]. cbn [imap]. cbv zeta. unfold severity_count.
  rewrite !countb_cons, zlen_cons.
  specialize (IH (S n0)). cbv zeta in IH. unfold severity_count in IH.
  assert (He : imap ((fun n i => row_of i (n0 + n)) ∘ S) its = imap (fun n i => row_of i (S n0 + n)) its)
    by (apply imap_ext; intros k x _; unfold compose; f_equal; lia).
  rewrite He, <- IH. cbn [severity row_of]. rewrite !is_text_js.
  destruct (AuditSemantics.severity (semantics_of i)); cbn [severity_text String.eqb Ascii.eqb Bool.eqb Nat.b2n]; lia.
Qed.

(** What the timeline shows of the gateway's events. The rows of a timeline
    are its items, in their order, with the severity, the outcome, the actor and the
    description of the enrichment and the fields of the event; the three counters
    add up to all of them, and without a filter all are shown. *)
Theorem timeline_faithful its : UString.toLowerCase [] = [] ->
  exists vms, rows (map (fun i => widen (enriched_item i)) its) = Ok vms /\
    length vms = length its /\
    (forall n i, its !! n = Some i -> exists e, vms !! n = Some e /\
       severity e = UStr (js (severity_text (AuditSemantics.severity (semantics_of i)))) /\
       outcome e = UStr (js (outcome_text (AuditSemantics.outcome (semantics_of i)))) /\
       actorDisplay e = UStr (js (actor_display (AuditSemantics.actor (semantics_of i)))) /\
       description e = UStr (js (AuditSemantics.description (semantics_of i))) /\
       action e = UStr (js (ti_action i)) /\ target e = UStr (js (ti_target i)) /\ reason e = UStr (js (ti_reason i)) /\
       requestId e = UStr (js (ti_request_id i)) /\ timestamp e = UStr (js (ti_timestamp i))) /\
    severity_count "info" vms + severity_count "warning" vms + severity_count "critical" vms = zlen its /\
    filtered all_shown vms = vms.
Proof.
  intros Hlow. exists (imap (fun n i => row_of i n) its). split_and!.
  - apply rows_enriched.
  - apply length_imap.
  - intros n i Hi. exists (row_of i n). rewrite list_lookup_imap, Hi. by split_and!.
  - apply (severity_counts_all its 0).
  - unfold filtered. induction (imap (fun n i => row_of i n) its) as [|e l IH]; [done|].
    cbn [List.filter]. rewrite IH. unfold shows. cbn. by rewrite Hlow.
Qed.
End toolbar.

Definition an_item : TimelineItem :=
  {| ti_source := kdc; ti_action := "as_rejected"; ti_actor := "c1"; ti_target := "01"; ti_reason := "revoked";
     ti_request_id := "r"; ti_timestamp := "2026-01-01T00:00:00.000Z"; ti_ts := 0; ti_metadata := JNull |}.

Lemma timeline_faithful_witness :
  exists vms, rows (map (fun i => widen (enriched_item i)) [an_item]) = Ok vms /\
    severity_count "warning" vms = 1 /\ map severity vms = [UStr (js "warning")].
Proof.
  destruct (@timeline_faithful demo_platform [an_item] eq_refl) as (vms & Hr & _ & Hi & _). exists vms.
  split; [exact Hr|]. vm_compute in Hr. injection Hr as <-. by vm_compute.
Defined.

(** ** The elements *)


#[local] Arguments nonempty {A} !l /.

(** [a === b]; an object that is compared is the one that was stored. *)
#[export] Instance ujson_eq_dec : EqDecision ujson.
Proof.
  refine (fix go a b : Decision (a = b) :=
    match a, b with
    | UUndefined, UUndefined | UNull, UNull => left eq_refl
    | UBool x, UBool y => cast_if (decide (x = y))
    | UNum x, UNum y => cast_if (decide (x = y))
    | UDec x, UDec y => cast_if (decide (x = y))
    | UStr x, UStr y => cast_if (decide (x = y))
    | UArr x, UArr y => cast_if (@list_eq_dec ujson go x y)
    | UObj x, UObj y =>
        cast_if (@list_eq_dec (ustr * ujson) (fun p q =>
          match p, q with (k, v), (k', v') => cast_if_and (decide (k = k')) (go v v') end) x y)
    | _, _ => right _
    end); congruence.
Defined.

(** ** [JSON.stringify(value, null, 2)] *)

Definition on_lines (left right : string) (indent : nat) (l : list ustr) : ustr :=
  match l with
  | [] => js left ++ js right
  | _ => js left ++ 10 :: repeat 32 (indent + 2) ++ join (js "," ++ 10 :: repeat 32 (indent + 2)) l ++
         10 :: repeat 32 indent ++ js right
  end.

Fixpoint pretty (indent : nat) (j : ujson) : ustr :=
  match j with
  | UArr l => on_lines "[" "]" indent (map (pretty (indent + 2)) l)
  | UObj fields =>
      on_lines "{" "}" indent (flat_map (fun f =>
        if u_undefined f.2 then [] else [uquote f.1 ++ js ": " ++ pretty (indent + 2) f.2]) fields)
  | j => ustringify j
  end.

Example pretty_lines :
  pretty 0 (UObj [(js "a", UNum 1); (js "b", UArr [UBool true; UObj []]); (js "c", UUndefined)]) =
  js "{" ++ 10 :: js "  " ++ uquote (js "a") ++ js ": 1," ++ 10 :: js "  " ++ uquote (js "b") ++ js ": [" ++
  10 :: js "    true," ++ 10 :: js "    {}" ++ 10 :: js "  ]" ++ 10 :: js "}".
Proof. reflexivity. Qed.

(** ** The component *)

Record timeline := { bar : Toolbar; expanded : ujson }.

Definition new_timeline : timeline := {| bar := all_shown; expanded := UNull |}.

Inductive timeline_input :=
| TypeQuery (v : ustr)
| ChooseSeverity (s : ustr)
| ChooseCategory (c : ustr)
| ToggleRow (n : nat).

(** [AuditTimelineProps]: an event that the component hands to its parent is the
    input of the parent that its handler gives. *)
Record AuditTimelineProps (I : Type) := {
  tp_events : list AuditEventVM; tp_loading : bool; tp_error : ustr; tp_onRetry : option I; tp_onRefresh : option I;
  tp_onViewSession : option (ujson -> I); tp_showSource : bool; tp_emptyLabel : string
}.

Arguments tp_events {I} a.
Arguments tp_loading {I} a.
Arguments tp_error {I} a.
Arguments tp_onRetry {I} a.
Arguments tp_onRefresh {I} a.
Arguments tp_onViewSession {I} a.
Arguments tp_showSource {I} a.
Arguments tp_emptyLabel {I} a.

Definition SEVERITY_ORDER : list string := ["info"; "warning"; "critical"].

Definition CATEGORY_LABEL : list (string * string) :=
  [("key_issuance", "Key issuance"); ("cert_lifecycle", "Cert lifecycle"); ("authentication", "Authentication");
   ("resource_access", "Resource access"); ("admin_action", "Admin action")].

Definition severity_choices : list ustr := map js ("all" :: SEVERITY_ORDER).

Definition category_choices : list (ustr * ustr) :=
  (js "all", js "All categories") :: map (fun c => (js c.1, js c.2)) CATEGORY_LABEL.

Definition severityClasses (severity : ujson) : string :=
  if is_text (js "critical") severity then "border-red-500/30 bg-red-500/10 text-red-400"
  else if is_text (js "warning") severity then "border-amber-500/30 bg-amber-500/10 text-amber-300"
  else "border-emerald-500/25 bg-emerald-500/10 text-emerald-400".

Section component.

Context `{P : Platform} `{L : Locale} {I : Type} (props : AuditTimelineProps I).

(** The rows that are shown. *)
Definition visible (tl : timeline) : list AuditEventVM :=
  if tp_loading props then [] else filtered (bar tl) (tp_events props).

Definition is_open (tl : timeline) (e : AuditEventVM) : bool := bool_decide (expanded tl = id e).

Definition timeline_react (tl : timeline) (i : timeline_input) : option timeline :=
  let with_bar b := {| bar := b; expanded := expanded tl |} in
  match i with
  | TypeQuery v => Some (with_bar {| t_severity := t_severity (bar tl); t_category := t_category (bar tl); t_query := v |})
  | ChooseSeverity s =>
      if bool_decide (s ∈ severity_choices)
      then Some (with_bar {| t_severity := s; t_category := t_category (bar tl); t_query := t_query (bar tl) |}) else None
  | ChooseCategory c =>
      if bool_decide (c ∈ map fst category_choices)
      then Some (with_bar {| t_severity := t_severity (bar tl); t_category := c; t_query := t_query (bar tl) |}) else None
  | ToggleRow n =>
      match visible tl !! n with
      | Some e => Some {| bar := bar tl; expanded := if is_open tl e then UNull else id e |}
      | None => None
      end
  end.

#[local] Notation element := (node I).

Definition SeverityIcon (severity : ujson) : element :=
  if is_text (js "critical") severity then icon "ShieldAlert"
  else if is_text (js "warning") severity then icon "AlertTriangle" else icon "ShieldCheck".

Definition formatIso (value : ujson) : list element :=
  if negb (utruthy value) then [txt "—"]
  else match new_Date value with Some t => [Text (en_medium_medium t)] | None => child value end.

(** [shorten(value, keep)] of any value, as a child. *)
Definition shorten_child (keep : nat) (value : ujson) : list element :=
  match value with
  | UStr s => [Text (shorten keep s)]
  | UArr l =>
      if (keep * 2 + 1 <? length l)%nat
      then [Text (ustring (UArr (take keep l)) ++ u8 "…" ++ ustring (UArr (drop (length l - keep) l)))] else child value
  | _ => child value
  end.

(** [value == null]. *)
Definition nullish (value : ujson) : bool := match value with UUndefined | UNull => true | _ => false end.

Definition Detail (label : string) (value : list element) (mono : bool) : element :=
  el "div" [el "span" [txt label; txt ":"]; styled "span" (if mono then "font-mono" else "") value].

(** [e.actorDisplay (e.actorType)]. *)
Definition actor_text (e : AuditEventVM) : ustr :=
  ustring (actorDisplay e) ++ (if utruthy (actorType e) then js " (" ++ ustring (actorType e) ++ js ")" else []).

Definition render_details (e : AuditEventVM) : element :=
  el "div" (
    [Detail "Actor" [Text (actor_text e)] false] ++
    guarded (target e) [Detail "Target" (child (target e)) true] ++
    guarded (reason e) [Detail "Reason" (child (reason e)) false] ++
    guarded (requestId e) [Detail "Request ID" (child (requestId e)) true] ++
    when (negb (nullish (metadata e)))
      [el "div" [el "span" [txt "Metadata: "]; el "pre" [Text (pretty 0 (metadata e))]]] ++
    match tp_onViewSession props with
    | Some onViewSession =>
        guarded (requestId e)
          [button (onViewSession (requestId e))
             ([icon "Activity"; txt "View full session ("] ++ shorten_child 6 (requestId e) ++ [txt ")"])]
    | None => []
    end).

Context (on : timeline_input -> I).

Definition render_row (tl : timeline) (n : nat) (e : AuditEventVM) : element :=
  let opened := is_open tl e in
  el "div" ([
    button (on (ToggleRow n)) [
      el "span" [if opened then icon "ChevronDown" else icon "ChevronRight"];
      styled "span" (severityClasses (severity e)) (SeverityIcon (severity e) :: child (severity e));
      el "div" [
        el "div" (el "span" (child (description e)) ::
                  when (is_text (js "denied") (outcome e)) [el "span" [txt "denied"]]);
        el "div" ([
          el "span" (child (action e)); el "span" [txt "·"]; el "span" (entry_child CATEGORY_LABEL (category e)); el "span" [txt "·"];
          el "span" (child (actorDisplay e))] ++
          (if tp_showSource props
           then guarded (source e) [el "span" [txt "·"]; el "span" (child (source e))] else []))];
      el "span" (formatIso (timestamp e))]] ++
    when opened [render_details e]).

Definition severity_button (tl : timeline) (s : string) : element :=
  Button [("className", js (if ustr_eqb (t_severity (bar tl)) (js s) then "bg-cyan-600 text-white"
                            else "bg-card text-muted-foreground hover:text-foreground"))] false (on (ChooseSeverity (js s)))
    (if String.eqb s "all" then [txt "All"]
     else [txt s; Text (js " (" ++ js (Z_string (severity_count s (tp_events props))) ++ js ")")]).

Definition render_toolbar (tl : timeline) : element :=
  el "div" ([
    el "div" [icon "Search";
      Field "input" [("placeholder", u8 "Search action, actor, reason…")] (t_query (bar tl)) false
        (Some (fun v => on (TypeQuery v)))];
    el "div" (map (severity_button tl) ("all" :: SEVERITY_ORDER));
    Select [] (t_category (bar tl)) false category_choices (fun c => on (ChooseCategory c))] ++
    match tp_onRefresh props with
    | Some onRefresh =>
        [Button [("aria-label", js "Refresh")] false onRefresh
           [styled "RefreshCw" (if tp_loading props then "animate-spin" else "") []]]
    | None => []
    end).

Definition render_AuditTimeline (tl : timeline) : element :=
  el "div" ([render_toolbar tl] ++
    when (nonempty (tp_error props)) [
      el "div" ([el "p" [Text (tp_error props)]] ++
        match tp_onRetry props with Some onRetry => [button onRetry [txt "Retry"]] | None => [] end)] ++ [
    el "div" (
      if tp_loading props then [el "div" [icon "Loader2"; txt " Loading audit events"]]
      else match filtered (bar tl) (tp_events props) with
           | [] => [el "div" [icon "Activity"; txt (tp_emptyLabel props)]]
           | l => imap (render_row tl) l
           end)]).

(** ** What it offers *)

(** What the component hands to its parent. *)
Definition handed (tl : timeline) (i : I) : Prop :=
  tp_onRefresh props = Some i \/
  (tp_error props <> [] /\ tp_onRetry props = Some i) \/
  (exists e onViewSession, e ∈ visible tl /\ is_open tl e = true /\ utruthy (requestId e) = true /\
     tp_onViewSession props = Some onViewSession /\ i = onViewSession (requestId e)).

Lemma iso_controls v : flat_map controls (formatIso v) = [].
Proof. unfold formatIso. destruct (negb _); [done|]. destruct (new_Date v); [done | apply child_controls]. Qed.

Lemma shorten_controls k v : flat_map controls (shorten_child k v) = [].
Proof. unfold shorten_child. destruct v; try apply child_controls; [done|]. destruct (_ <? _)%nat; [done | apply child_controls]. Qed.

Lemma offers_details e i :
  draws (render_details e) i <->
    exists onViewSession, utruthy (requestId e) = true /\ tp_onViewSession props = Some onViewSession /\
      i = onViewSession (requestId e).
Proof.
  unfold draws, render_details, Detail. cbn [controls el]. rewrite !flat_map_app, !guarded_controls.
  cbn [controls flat_map el txt styled app]. rewrite !child_controls. cbn [app].
  assert (Hm : flat_map controls (when (negb (nullish (metadata e)))
     [el "div" [el "span" [txt "Metadata: "]; el "pre" [Text (pretty 0 (metadata e))]]] : list element) = [])
    by by destruct (nullish (metadata e)).
  rewrite Hm. destruct (utruthy (target e)), (utruthy (reason e)), (tp_onViewSession props) as [f|]; cbn [app];
    rewrite ?guarded_controls; destruct (utruthy (requestId e)); cbn [controls flat_map button app icon txt];
    rewrite ?flat_map_app, ?shorten_controls; read_controls; naive_solver.
Qed.

Lemma offers_row tl n e i :
  draws (render_row tl n e) i <-> i = on (ToggleRow n) \/ (is_open tl e = true /\ draws (render_details e) i).
Proof.
  assert (Hs : flat_map controls (if tp_showSource props
     then guarded (source e) [el "span" [txt "·"]; el "span" (child (source e))] else [] : list element) = []).
  { destruct (tp_showSource props); [|done]. rewrite guarded_controls. cbn [controls flat_map el txt].
    rewrite child_controls. by destruct (utruthy (source e)). }
  unfold draws at 1, render_row. cbn [controls el]. rewrite flat_map_app. cbn [controls flat_map button el styled].
  rewrite !flat_map_app. cbn [controls flat_map el txt]. rewrite !child_controls, iso_controls, entry_controls, Hs.
  destruct (is_open tl e), (is_text (js "denied") (outcome e)); unfold SeverityIcon;
    destruct (is_text (js "critical") (severity e)), (is_text (js "warning") (severity e)); read_controls;
    try change (Exists (gives i) (controls ?n)) with (draws n i); naive_solver.
Qed.

Lemma offers_toolbar tl i :
  draws (render_toolbar tl) i <->
    (exists ti, (match ti with ToggleRow _ => False | _ => True end) /\ i = on ti /\ is_Some (timeline_react tl ti)) \/
    tp_onRefresh props = Some i.
Proof.
  transitivity ((exists v, i = on (TypeQuery v)) \/ (exists s, s ∈ "all" :: SEVERITY_ORDER /\ i = on (ChooseSeverity (js s))) \/
    (exists c, c ∈ map fst category_choices /\ i = on (ChooseCategory c)) \/ tp_onRefresh props = Some i).
  - unfold draws, render_toolbar. generalize ("all" :: SEVERITY_ORDER). intros choices. cbn [controls el].
    rewrite flat_map_app, Exists_app. cbn [controls flat_map el icon txt app]. rewrite Exists_cons, Exists_app, offers_map.
    assert (Hr : Exists (gives i) (flat_map controls match tp_onRefresh props with
       | Some onRefresh => [Button [("aria-label", js "Refresh")] false onRefresh
           [styled "RefreshCw" (if tp_loading props then "animate-spin" else "") []]]
       | None => [] end) <-> tp_onRefresh props = Some i)
      by (destruct (tp_onRefresh props); read_controls; naive_solver).
    rewrite Hr. assert (Hb : forall s, draws (severity_button tl s) i <-> i = on (ChooseSeverity (js s)))
      by (intros s; unfold severity_button; destruct (String.eqb s "all"); read_controls; naive_solver).
    assert (He : (exists s, s ∈ choices /\ draws (severity_button tl s) i) <->
                 (exists s, s ∈ choices /\ i = on (ChooseSeverity (js s)))) by (by setoid_rewrite Hb).
    rewrite He, !Exists_cons, !Exists_nil. cbn [gives]. tauto.
  - split.
    + intros [[v ->]|[(s & Hs & ->)|[(c & Hc & ->)|H]]]; [left..|by right].
      * by exists (TypeQuery v).
      * exists (ChooseSeverity (js s)). split_and!; [done..|]. unfold timeline_react.
        rewrite bool_decide_eq_true_2; [done|]. by apply list_elem_of_fmap_2.
      * exists (ChooseCategory c). split_and!; [done..|]. unfold timeline_react. by rewrite bool_decide_eq_true_2.
    + intros [(ti & Hn & -> & r & Hr)|H]; [|tauto]. unfold timeline_react in Hr. destruct ti as [v|s|c|n]; [by left; exists v| | |done].
      * case_bool_decide as Hs; [|done]. apply list_elem_of_fmap in Hs as (s' & -> & Hs). right. left. by exists s'.
      * case_bool_decide as Hc; [|done]. right. right. left. by exists c.
Qed.

(** The timeline offers what its state takes, and what it hands to its parent. *)
Lemma offers_timeline tl i :
  draws (render_AuditTimeline tl) i <->
    (exists ti, i = on ti /\ is_Some (timeline_react tl ti)) \/ handed tl i.
Proof.
  transitivity (draws (render_toolbar tl) i \/ (tp_error props <> [] /\ tp_onRetry props = Some i) \/
    exists n e, visible tl !! n = Some e /\ draws (render_row tl n e) i).
  - unfold draws at 1, render_AuditTimeline. cbn [controls el]. rewrite !flat_map_app, !Exists_app.
    cbn [flat_map app controls]. rewrite !app_nil_r.
    assert (He : Exists (gives i) (flat_map controls (when (nonempty (tp_error props)) [
      el "div" ([el "p" [Text (tp_error props)]] ++
        match tp_onRetry props with Some onRetry => [button onRetry [txt "Retry"]] | None => [] end)])) <->
      (tp_error props <> [] /\ tp_onRetry props = Some i)).
    { destruct (tp_error props); destruct (tp_onRetry props); cbn [nonempty when]; read_controls; naive_solver. }
    rewrite He. change (Exists (gives i) (controls (render_toolbar tl))) with (draws (render_toolbar tl) i).
    assert (Hr : Exists (gives i) (flat_map controls (if tp_loading props then [el "div" [icon "Loader2"; txt " Loading audit events"]]
      else match filtered (bar tl) (tp_events props) with
           | [] => [el "div" [icon "Activity"; txt (tp_emptyLabel props)]]
           | l => imap (render_row tl) l
           end)) <-> exists n e, visible tl !! n = Some e /\ draws (render_row tl n e) i).
    { unfold visible. destruct (tp_loading props); [read_controls; naive_solver|].
      destruct (filtered _ _) as [|e l]; [read_controls; naive_solver|]. apply offers_imap. }
    by rewrite Hr.
  - rewrite offers_toolbar. setoid_rewrite offers_row. setoid_rewrite offers_details. unfold handed. split.
    + intros [[(ti & _ & ?)|?]|[?|(n & e & Hn & [->|(Ho & f & Hr)])]]; [left; by exists ti|tauto|tauto| |].
      * left. exists (ToggleRow n). split; [done|]. cbn. by rewrite Hn.
      * do 3 right. exists e, f. split; [apply list_elem_of_lookup; by exists n | done].
    + intros [(ti & -> & Hr)|[?|[?|(e & f & He & Ho & Hq & Hv & ->)]]]; [|tauto|tauto|].
      * destruct ti as [v|s|c|n]; [left; left; eexists; split; [|split; [done | exact Hr]]; done..|].
        do 2 right. cbn in Hr. destruct (visible tl !! n) as [e|] eqn:Hn; [|by destruct Hr]. exists n, e. tauto.
      * apply list_elem_of_lookup in He as [n Hn]. do 2 right. exists n, e. split; [done|]. right. split; [done|]. by exists f.
Qed.

(** It covers nothing. *)
Lemma timeline_uncovered tl : covers (render_AuditTimeline tl) = [].
Proof.
  assert (Hd : forall e, covers (render_details e) = []).
  { intros e. unfold render_details, Detail. cbn [covers el]. rewrite !flat_map_app, !guarded_uncovered;
      try (cbn [covers flat_map el txt styled app]; by rewrite ?child_uncovered).
    destruct (tp_onViewSession props); [rewrite guarded_uncovered|]; [by destruct (nullish (metadata e))| |by destruct (nullish (metadata e))].
    cbn [covers flat_map el button icon txt app]. rewrite flat_map_app. unfold shorten_child.
    destruct (requestId e); try (by rewrite ?child_uncovered); try done. by destruct (_ <? _)%nat; rewrite ?child_uncovered. }
  assert (Hr : forall n e, covers (render_row tl n e) = []).
  { intros n e. unfold render_row. cbn [covers el]. rewrite flat_map_app. cbn [covers flat_map button el styled txt app].
    rewrite !child_uncovered, entry_uncovered. unfold formatIso, SeverityIcon.
    destruct (is_open tl e); cbn [when flat_map]; rewrite ?Hd;
      destruct (is_text (js "critical") (severity e)), (is_text (js "warning") (severity e)), (is_text (js "denied") (outcome e));
      destruct (negb (utruthy (timestamp e))), (new_Date (timestamp e));
      cbn [covers flat_map when icon txt el app]; rewrite ?child_uncovered; destruct (tp_showSource props); try done;
      rewrite ?flat_map_app, ?guarded_uncovered; try done; cbn [covers flat_map el txt app]; by rewrite ?child_uncovered. }
  unfold render_AuditTimeline, render_toolbar. cbn [covers el]. rewrite !flat_map_app. cbn [flat_map covers el].
  destruct (tp_onRefresh props), (nonempty (tp_error props)), (tp_onRetry props), (tp_loading props),
    (filtered (bar tl) (tp_events props)); cbn [when flat_map covers el txt button icon app map]; try done.
  all: by rewrite imap_uncovered.
Qed.
End component.

(** ** No crash *)

(** A row whose fields are no objects, as its interface declares. *)
Definition plain_row (e : AuditEventVM) : bool :=
  forallb primitive [source e; timestamp e; action e; severity e; actorDisplay e; description e; target e; reason e; requestId e] &&
  negb (ustr_eqb (ustring (category e)) (js "__proto__")).

Section shown.

Context `{P : Platform} `{L : Locale} {I : Type} (props : AuditTimelineProps I) (on : timeline_input -> I).

Lemma iso_shown v : primitive v = true -> existsb crashes (formatIso (I := I) v) = false.
Proof. intros Hv. unfold formatIso. destruct (negb _); [done|]. destruct (new_Date v); [done | by apply child_shown]. Qed.

Lemma shorten_shown k v : primitive v = true -> existsb crashes (shorten_child (I := I) k v) = false.
Proof. intros Hv. unfold shorten_child. by destruct v. Qed.

Lemma row_shown tl n e : plain_row e = true -> crashes (render_row props on tl n e) = false.
Proof.
  unfold plain_row. cbn [forallb]. intros H. apply andb_true_iff in H as [H Hc]. apply negb_true_iff in Hc.
  repeat (apply andb_true_iff in H as [? H]).
  assert (Hd : crashes (render_details props e) = false).
  { unfold render_details, Detail. cbn [crashes el]. rewrite !existsb_app, !guarded_shown; try done;
      try (cbn [crashes existsb el txt styled orb app]; by rewrite child_shown).
    destruct (tp_onViewSession props); [|by destruct (nullish (metadata e))]. rewrite guarded_shown; [|done|].
    - by destruct (nullish (metadata e)).
    - cbn [crashes existsb button]. by rewrite !existsb_app, shorten_shown. }
  assert (Hs : existsb crashes (if tp_showSource props
     then guarded (source e) [el "span" [txt "·"]; el "span" (child (source e))] else [] : list (node I)) = false).
  { destruct (tp_showSource props); [|done]. rewrite guarded_shown; [done | done|]. cbn [existsb crashes el txt]. by rewrite child_shown. }
  unfold render_row. cbn [crashes el app]. cbn [existsb crashes button el styled txt orb app].
  rewrite ?child_shown, ?iso_shown, ?entry_shown, Hs by done. unfold SeverityIcon.
  destruct (is_open tl e); cbn [when existsb]; rewrite ?Hd;
    destruct (is_text (js "critical") (severity e)), (is_text (js "warning") (severity e)), (is_text (js "denied") (outcome e)); done.
Qed.

Lemma timeline_shown tl : forallb plain_row (tp_events props) = true -> crashes (render_AuditTimeline props on tl) = false.
Proof.
  intros Hp. unfold render_AuditTimeline. cbn [crashes el]. rewrite !existsb_app. cbn [existsb crashes el].
  assert (Ht : crashes (render_toolbar props on tl) = false) by (unfold render_toolbar; by destruct (tp_onRefresh props)).
  assert (Hrows : existsb crashes (imap (render_row props on tl) (filtered (bar tl) (tp_events props))) = false).
  { apply imap_shown. intros j e He. apply row_shown. apply list_elem_of_In, filter_In in He as [He _].
    by apply (proj1 (forallb_forall _ _) Hp). }
  rewrite Ht. destruct (tp_loading props), (nonempty (tp_error props)), (tp_onRetry props), (filtered (bar tl) (tp_events props));
    cbn [when existsb crashes el txt button icon orb app]; rewrite ?orb_false_r; done.
Qed.
End shown.

Lemma row_of_plain i n : plain_row (row_of i n) = true.
Proof.
  unfold plain_row, row_of. cbn [forallb primitive source timestamp action severity actorDisplay description target reason requestId
    category andb]. destruct (AuditSemantics.category (semantics_of i)) as [| | | | |m]; try done. cbn [category_json].
  by destruct (String.eqb m "__proto__").
Qed.

(** The timeline shows every event of the gateway. What the gateway sends of
    its items becomes rows, and whatever handlers embed them, and whatever is
    typed, filtered and opened, they are rendered: no field of an event takes the
    page down. *)
Theorem timeline_renders its :
  exists vms, rows (map (fun i => widen (enriched_item i)) its) = Ok vms /\
    forall (P : Platform) (L : Locale) (I : Type) (props : AuditTimelineProps I) on tl,
      tp_events props = vms -> crashes (render_AuditTimeline props on tl) = false.
Proof.
  eexists. split; [apply rows_enriched|]. intros P L I props on tl He. apply timeline_shown. rewrite He.
  apply forallb_forall. intros e Hin. apply list_elem_of_In, elem_of_lookup_imap in Hin as (n & i & -> & _). apply row_of_plain.
Qed.
