(* ===== verification/CaView.v ===== *)
(** * What the certificate authority's administrator sees ([pages/AdminCA.tsx])

    The elements of the page for a state of [AdminCaPage]: the list with its
    filters, the detail of a certificate, the dialog of a revocation, and the audit
    log, which is an [AuditPanel] around an [TimelineView.timeline]. The controls of
    each part give the inputs of its own machine, joined in [ca_input].
    [ca_controls] is that the page offers what the machines take, as long as React
    refuses no element, [revoked_as_shown] that the certificate which is revoked is the one that the dialog names. *)

From S2P Require Import Prelude JsString UString UJson WebCrypto Wire Browser Keypad PageRun PinPages AdminClient Locale View PinViews TimelineView AdminCaPage.

Open Scope Z_scope.

#[local] Arguments nonempty {A} !l /.

(** What the parts of the page take from the user. *)
Inductive ca_input :=
| OnLogin (k : key)
| OnPage (i : input)
| OnAudit (i : AuditPanel.input ujson)
| OnTimeline (i : timeline_input).

#[local] Notation element := (node ca_input).

(** ** Texts and colours *)

Definition statusClass (status : ustr) : string :=
  if ustr_eqb status (js "active") then "border-emerald-500/30 bg-emerald-500/10 text-emerald-400"
  else if ustr_eqb status (js "revoked") then "border-red-500/30 bg-red-500/10 text-red-400"
  else if ustr_eqb status (js "expired") then "border-amber-500/30 bg-amber-500/10 text-amber-300"
  else "border-border bg-muted text-muted-foreground".

Definition typeClass (type : ustr) : string :=
  if ustr_eqb type (js "client") then "border-cyan-500/30 bg-cyan-500/10 text-cyan-300"
  else if ustr_eqb type (js "service_tls") then "border-violet-500/30 bg-violet-500/10 text-violet-300"
  else if ustr_eqb type (js "intermediate_ca") then "border-amber-500/30 bg-amber-500/10 text-amber-300"
  else if ustr_eqb type (js "root_ca") then "border-red-500/30 bg-red-500/10 text-red-300"
  else "border-border bg-muted text-muted-foreground".

Definition typeLabel (type : ustr) : ustr :=
  js (if ustr_eqb type (js "root_ca") then "Root CA"
      else if ustr_eqb type (js "intermediate_ca") then "Intermediate CA"
      else if ustr_eqb type (js "service_tls") then "Service TLS"
      else if ustr_eqb type (js "client") then "Client"
      else if ustr_eqb type (js "all") then "All" else "-").

(** [NAV]. *)
Definition CA_NAV : list (View * string * string) :=
  [(certificates, "Certificates", "ShieldCheck"); (audit, "Audit Log", "Activity")].

Definition AUDIT_ACTION_OPTIONS : list string :=
  ["all"; "issued"; "revoked"; "looked_up"; "verify_certificate"; "issuer_provisioned"; "chain_verified"].

Section view.

Context `{P : Platform} `{L : Locale}.

(** The format refuses an invalid date, which takes the page down. *)
Definition formatUnix (value : option Z) : list element :=
  match value with
  | None | Some 0 => [txt "-"]
  | Some n => match time_clip (n * 1000) with Some t => [Text (en_medium_short t)] | None => [Crash] end
  end.

Definition ca_Header (email : ustr) : element :=
  el "header" [el "div" [
    el "div" [el "div" [icon "Lock"]; el "span" [txt "Mini Banking"]];
    el "div" [el "span" [Text (match email with [] => js "admin-ca" | _ => email end)];
              button (OnPage SignOut) [txt "Sign out"]]]].

(** ** The detail of a certificate *)

Definition copy_button (label : ustr) (value copied : ustr) : element :=
  Button [("aria-label", label)] false (OnPage (CopyValue value copied)) [icon "Clipboard"].

(** Some of the values can be copied. *)
Definition detail_text (copy : bool) (label : string) (value : ustr) : element :=
  el "div" [el "p" [txt label];
            el "div" (el "p" [Text value] ::
              when (copy && negb (bool_decide (value = js "-"))) [copy_button (js "Copy " ++ js label) value (js label)])].

Definition detail_date (label : string) (value : option Z) : element :=
  el "div" [el "p" [txt label]; el "div" [el "p" (formatUnix value)]].

(** [l.length ? l.join(", ") : "-"]. *)
Definition listed (l : list ustr) : ustr := match l with [] => js "-" | _ => join (js ", ") l end.

Definition detail_rows (c : AdminCertificate) : list element := [
  detail_text true "Serial" (serial c);
  detail_text true "Fingerprint" (fingerprint c);
  detail_text false "Certificate type" (typeLabel (cert_type c));
  detail_text false "Issuer ID" (or_dash (issuer_id c));
  detail_text false "Issuer common name" (or_dash (issuer_common_name c));
  detail_text true "Issuer serial" (or_dash (issuer_serial_number c));
  detail_text false "Common name" (cn c);
  detail_text false "Email" (cert_email c);
  detail_text false "Owner ID" (owner_id c);
  detail_text false "Key usage" (listed (key_usage c));
  detail_text false "Extended key usage" (listed (extended_key_usage c));
  detail_date "Valid from" (Some (not_before c));
  detail_date "Valid until" (Some (not_after c));
  detail_date "Issued at" (Some (issued_at c));
  detail_date "Revoked at" (revoked_at c);
  detail_text false "Revocation reason" (or_dash (default [] (revocation_reason c)))].

Definition chain_item (index : nat) (fingerprint : ustr) : element :=
  let number := js (Z_string (Z.of_nat index + 1)) in
  el "div" [el "p" [Text fingerprint];
            copy_button (js "Copy chain fingerprint " ++ number) fingerprint (js "Chain fingerprint " ++ number)].

Definition render_detail (c : AdminCertificate) : element :=
  el "div" ([
    el "div" [
      el "div" [styled "span" (statusClass (status c)) [Text (status c)];
                styled "span" (typeClass (cert_type c)) [Text (typeLabel (cert_type c))]];
      Button [] (negb (isRevokable (Some c))) (OnPage RevokeDetail) [txt "Revoke"]]] ++
    detail_rows c ++ [
    el "div" [el "p" [txt "Chain fingerprints"];
              el "div" (match chain_fingerprints c with [] => [el "p" [txt "-"]] | l => imap chain_item l end)];
    el "div" [
      el "div" (el "p" [txt "Chain PEM"] ::
        when (nonempty (chain_pem c)) [copy_button (js "Copy chain PEM") (chain_pem c) (js "Chain PEM")]);
      el "pre" [Text (or_dash (chain_pem c))]]]).

Definition render_DetailPanel (certificate : option AdminCertificate) (loading : bool) : list element :=
  if negb (bool_decide (is_Some certificate)) && negb loading then []
  else [el "div" [
    el "div" [el "h2" [txt "Certificate Detail"];
              Button [("aria-label", js "Close")] false (OnPage CloseDetail) [icon "X"]];
    match certificate with
    | Some c => if loading then el "div" [icon "Loader2"; txt " Loading"] else render_detail c
    | None => el "div" [icon "Loader2"; txt " Loading"]
    end]].

(** ** The dialog *)

Definition render_RevokeDialog (certificate : option AdminCertificate) (reason : ustr) (submitting : bool) (error : ustr) : list element :=
  match certificate with
  | None => []
  | Some c => [Cover [el "div" ([
      el "div" [el "div" [icon "AlertTriangle"];
                el "div" [el "h2" [txt "Revoke certificate"]; el "p" [Text (serial c)]]];
      el "div" [el "label" [txt "Reason"];
                Field "textarea" [] reason false (Some (fun v => OnPage (TypeReason v)))];
      el "p" [txt "This action cannot be undone."]] ++
      when (nonempty error) [el "p" [Text error]] ++ [
      el "div" [
        button (OnPage CancelRevoke) [txt "Cancel"];
        Button [] (submitting || negb (nonempty (trim reason))) (OnPage ConfirmRevoke)
          [if submitting then txt "Revoking..." else txt "Confirm"]]])]]
  end.

(** ** The list *)

Definition th (label : string) : element := el "th" [txt label].

Definition td (l : list element) : element := el "td" l.

Definition render_row (index : nat) (c : AdminCertificate) : element :=
  el "tr" [
    td [Text (shortValue 8 (serial c))];
    td [styled "span" (typeClass (cert_type c)) [Text (typeLabel (cert_type c))]];
    td [Text (cert_email c)];
    td [Text (shortValue 8 (owner_id c))];
    td [el "div" [el "p" [Text (or_dash (issuer_id c))]; el "p" [Text (or_dash (issuer_common_name c))]]];
    td [styled "span" (statusClass (status c)) [Text (status c)]];
    td (formatUnix (Some (issued_at c)));
    td (formatUnix (Some (not_after c)));
    td [el "div" [
      button (OnPage (OpenDetail index)) [txt "Detail"];
      Button [] (negb (isRevokable (Some c))) (OnPage (RevokeRow index)) [txt "Revoke"]]]].

Definition render_table (p : page) : element :=
  el "table" [
    el "thead" [el "tr" (map th
      ["Serial"; "Type"; "Email"; "Owner ID"; "Issuer"; "Status"; "Issued"; "Expires"; "Action"])];
    el "tbody" (
      if loading p then [el "tr" [td [icon "Loader2"; txt " Loading certificates"]]]
      else match items p with
           | [] => [el "tr" [td [txt "No certificates found"]]]
           | l => imap render_row l
           end)].

(** A button of a choice among the filters. *)
Definition choice_button (chosen : bool) (f : Filters) (label : ustr) : element :=
  Button [("className", js (if chosen then "bg-cyan-600 text-white" else "bg-card text-muted-foreground hover:text-foreground"))]
    false (OnPage (SetFilters f)) [Text label].

Definition with_status (f : Filters) (s : ustr) : Filters :=
  {| f_status := s; f_certType := f_certType f; f_issuerId := f_issuerId f; f_search := f_search f |}.
Definition with_type (f : Filters) (t : ustr) : Filters :=
  {| f_status := f_status f; f_certType := t; f_issuerId := f_issuerId f; f_search := f_search f |}.
Definition with_issuer (f : Filters) (v : ustr) : Filters :=
  {| f_status := f_status f; f_certType := f_certType f; f_issuerId := v; f_search := f_search f |}.
Definition with_search (f : Filters) (v : ustr) : Filters :=
  {| f_status := f_status f; f_certType := f_certType f; f_issuerId := f_issuerId f; f_search := v |}.

Definition render_filters (f : Filters) : element :=
  el "div" [
    el "div" [icon "Search";
      Field "input" [("placeholder", js "Email or serial")] (f_search f) false
        (Some (fun v => OnPage (SetFilters (with_search f v))))];
    Field "input" [("placeholder", js "Issuer ID")] (f_issuerId f) false
      (Some (fun v => OnPage (SetFilters (with_issuer f v))));
    el "div" (map (fun option => choice_button (ustr_eqb (f_status f) option) (with_status f option) option) STATUS_OPTIONS);
    el "div" (map (fun option => choice_button (ustr_eqb (f_certType f) option) (with_type f option) (typeLabel option)) TYPE_OPTIONS)].

Definition page_button (label symbol : string) (disabled : bool) (i : ca_input) : element :=
  Button [("aria-label", js label)] disabled i [icon symbol].

Definition render_certificates (p : page) : element :=
  el "main" [
    el "div" ([
      el "div" [
        el "div" [el "h1" [txt "Certificates"]; el "p" [Text (pageLabel (offset p) (total p))]];
        el "div" [
          Button [("aria-label", js "Refresh")] false (OnPage Refresh)
            [styled "RefreshCw" (if loading p then "animate-spin" else "") []];
          page_button "Previous page" "ChevronLeft" (negb (canPrev (offset p))) (OnPage PrevPage);
          page_button "Next page" "ChevronRight" (negb (canNext (offset p) (total p))) (OnPage NextPage)]];
      render_filters (filters p)] ++
      when (nonempty (message p)) [el "p" [Text (message p)]] ++
      when (nonempty (error p)) [el "div" [el "p" [Text (error p)]; button (OnPage Refresh) [txt "Retry"]]]);
    el "div" [el "div" [render_table p]]].

(** ** The audit log *)

(** [{ ...e, source }]; the indexes of a text or a list are read by nothing. *)
Definition with_source (src : string) (e : ujson) : ujson :=
  UObj ((match e with UObj l => l | _ => [] end) ++ [(js "source", UStr (js src))]).

Definition audit_page_label (offset total : Z) : ustr :=
  if total =? 0 then js "No events" else pageLabel offset total ++ js " events".

(** Its filters: the text is typed, the action one of the options. *)
Definition audit_filter {A} (options : list string) (a : AuditPanel.panel A) (i : AuditPanel.input A) : bool :=
  match i with
  | AuditPanel.SetFilter action search =>
      ustr_eqb action (AuditPanel.action a) ||
      (ustr_eqb search (AuditPanel.search a) && bool_decide (action ∈ map js options))
  | _ => true
  end.

Definition action_options (options : list string) : list (ustr * ustr) :=
  map (fun o => (js o, if String.eqb o "all" then js "All actions" else js o)) options.

Definition audit_props (a : AuditPanel.panel ujson) (events : list AuditEventVM) : AuditTimelineProps ca_input :=
  {| tp_events := events; tp_loading := AuditPanel.loading a; tp_error := AuditPanel.error a;
     tp_onRetry := Some (OnAudit AuditPanel.RefreshList); tp_onRefresh := Some (OnAudit AuditPanel.RefreshList);
     tp_onViewSession := None; tp_showSource := false; tp_emptyLabel := "No audit events found" |}.

Definition render_AuditPanel (a : AuditPanel.panel ujson) (tl : timeline) : element :=
  el "main" [
    el "div" [
      el "div" [el "h1" [txt "Audit Log"]; el "p" [Text (audit_page_label (AuditPanel.offset a) (AuditPanel.total a))]];
      el "div" [
        page_button "Previous page" "ChevronLeft" (negb (canPrev (AuditPanel.offset a))) (OnAudit AuditPanel.PrevPage);
        page_button "Next page" "ChevronRight" (negb (canNext (AuditPanel.offset a) (AuditPanel.total a)))
          (OnAudit AuditPanel.NextPage)]];
    el "div" [
      el "div" [icon "Search";
        Field "input" [("placeholder", js "Filter by serial number")] (AuditPanel.search a) false
          (Some (fun v => OnAudit (AuditPanel.SetFilter (AuditPanel.action a) v)))];
      Select [] (AuditPanel.action a) false (action_options AUDIT_ACTION_OPTIONS)
        (fun v => OnAudit (AuditPanel.SetFilter v (AuditPanel.search a)))];
    match rows (map (with_source "ca") (AuditPanel.items a)) with
    | Ok events => render_AuditTimeline (audit_props a events) OnTimeline tl
    | Err _ => Crash
    end].

(** ** The page *)

Definition render_nav (here : View) : element :=
  el "aside" (map (fun n =>
      let '(v, label, symbol) := n in
      Button [("className", js (if bool_decide (here = v) then "bg-cyan-600/15 text-cyan-300 border border-cyan-500/20"
                                else "text-muted-foreground hover:text-foreground hover:bg-accent/50"))] false
        (OnPage (SetView v)) [icon symbol; el "span" [txt label]]) CA_NAV ++
    [el "div" [el "p" [txt "admin-ca"]]]).

(** [AdminCA], with the states of the components that it holds when they are mounted. *)
Definition render_AdminCA (p : page) (login : PinLogin.login) (a : AuditPanel.panel ujson) (tl : timeline) : element :=
  if negb (nonempty (token p)) then ca_LoginPanel OnLogin login
  else
    el "div" ([
      ca_Header (email p);
      el "div" [
        render_nav (view p);
        match view p with audit => render_AuditPanel a tl | certificates => render_certificates p end]] ++
      render_DetailPanel (selected p) (detailLoading p) ++
      render_RevokeDialog (revokeTarget p) (reason p) (revokeSubmitting p) (revokeError p)).
End view.

(** ** What the parts offer *)

Section draws.

Context `{P : Platform} `{L : Locale}.

Lemma unix_controls v : flat_map controls (formatUnix v) = [].
Proof. unfold formatUnix. destruct v as [[|n|n]|]; try done; by destruct (time_clip _). Qed.

Lemma offers_copy_button l v c i : draws (copy_button l v c) i <-> i = OnPage (CopyValue v c).
Proof. unfold copy_button. read_controls. tauto. Qed.

Lemma offers_detail_text (copy : bool) label v i :
  draws (detail_text copy label v) i <-> copy = true /\ v <> js "-" /\ i = OnPage (CopyValue v (js label)).
Proof.
  unfold detail_text, copy_button. destruct copy; cbn [andb]; [|read_controls; intuition discriminate].
  destruct (bool_decide_reflect (v = js "-")); read_controls; naive_solver.
Qed.

Lemma offers_detail_date label v i : draws (detail_date label v) i <-> False.
Proof. unfold draws, detail_date. compute_view. rewrite unix_controls. apply Exists_nil. Qed.

(** The detail offers to copy what can be copied, and to revoke. *)
Lemma offers_detail c i :
  draws (render_detail c) i <->
    (isRevokable (Some c) = true /\ i = OnPage RevokeDetail) \/
    exists v l, (v, l) ∈ copyable c /\ i = OnPage (CopyValue v l).
Proof.
  assert (Hrows : Exists (gives i) (flat_map controls (detail_rows c)) <->
    exists v l, (v, l) ∈ filter (fun x => x.1 <> js "-") [(serial c, js "Serial"); (fingerprint c, js "Fingerprint");
      (or_dash (issuer_serial_number c), js "Issuer serial")] /\ i = OnPage (CopyValue v l)).
  { unfold detail_rows. cbn [flat_map]. rewrite !Exists_app. change (Exists (gives i) (controls ?n)) with (draws n i).
    rewrite !offers_detail_text, !offers_detail_date, Exists_nil. split.
    - intros H. destruct_or! H; try done; destruct H as (? & Hd & ->); try discriminate; eexists _, _; (split; [|done]);
        (apply list_elem_of_filter; split; [exact Hd|]); rewrite !elem_of_cons; tauto.
    - intros (v & l & Hin & ->). apply list_elem_of_filter in Hin as [Hd Hin]. rewrite !elem_of_cons, elem_of_nil in Hin.
      destruct Hin as [[= -> ->]|[[= -> ->]|[[= -> ->]|[]]]]; cbn in Hd; tauto. }
  assert (Hchain : Exists (gives i) (flat_map controls
      (match chain_fingerprints c with [] => [el "p" [txt "-"]] | l => imap chain_item l end)) <->
    exists v l, (v, l) ∈ imap (fun i f => (f, js "Chain fingerprint " ++ js (Z_string (Z.of_nat i + 1)))) (chain_fingerprints c) /\
      i = OnPage (CopyValue v l)).
  { destruct (chain_fingerprints c) as [|f l] eqn:Hf; [read_controls; setoid_rewrite elem_of_nil; naive_solver|].
    rewrite <- Hf. setoid_rewrite elem_of_lookup_imap. rewrite offers_imap. unfold chain_item, copy_button. split.
    - intros (j & x & Hx & Ho). revert Ho. read_controls. intros Ho. assert (i = OnPage (CopyValue x (js "Chain fingerprint " ++ js (Z_string (Z.of_nat j + 1))))) as -> by tauto.
      eexists _, _. split; [|done]. by exists j, x.
    - intros (v & l' & (j & x & [= -> ->] & Hx) & ->). exists j, x. split; [done|]. read_controls. tauto. }
  unfold draws, render_detail. cbn [controls el]. rewrite !flat_map_app, !Exists_app, Hrows.
  cbn [flat_map controls el txt styled]. rewrite !app_nil_r, !Exists_app, Hchain.
  assert (Hpem : Exists (gives i) (flat_map controls
      (when (nonempty (chain_pem c)) [copy_button (js "Copy chain PEM") (chain_pem c) (js "Chain PEM")])) <->
    exists v l, (v, l) ∈ (if nonempty (chain_pem c) then [(chain_pem c, js "Chain PEM")] else []) /\ i = OnPage (CopyValue v l)).
  { unfold copy_button. destruct (nonempty (chain_pem c)); read_controls.
    - split; [intros [->|[]]; eexists _, _; split; [apply list_elem_of_here | done]|].
      intros (v & l & Hin & ->). apply list_elem_of_singleton in Hin as [= -> ->]. by left.
    - split; [done|]. intros (v & l & Hin & _). by apply elem_of_nil in Hin. }
  rewrite Hpem, Exists_nil. unfold copyable. repeat setoid_rewrite elem_of_app.
  assert (Hr : Exists (gives i) (if negb (isRevokable (Some c)) then [] else [Click (OnPage RevokeDetail)]) <->
    isRevokable (Some c) = true /\ i = OnPage RevokeDetail)
    by (destruct (isRevokable (Some c)); cbn [negb]; rewrite ?Exists_cons, Exists_nil; cbn [gives]; intuition discriminate).
  rewrite Hr. split.
  - intros [[[]|?]|[(v & l & ? & ?)|[[[]|(v & l & ? & ?)]|[[]|(v & l & ? & ?)]]]]; [by left|right; exists v, l; tauto..].
  - intros [?|(v & l & [?|[?|?]] & ?)]; [tauto|right..]; [left; by exists v, l | right; left; right; by exists v, l|].
    do 3 right. by exists v, l.
Qed.

Lemma offers_DetailPanel cert loading i :
  Exists (gives i) (flat_map controls (render_DetailPanel cert loading)) <->
    ((is_Some cert \/ loading = true) /\ i = OnPage CloseDetail) \/
    exists c, cert = Some c /\ loading = false /\ draws (render_detail c) i.
Proof.
  unfold render_DetailPanel. destruct cert as [c|]; [rewrite bool_decide_eq_true_2 by done | rewrite bool_decide_eq_false_2 by (by intros [? ?])];
    cbn [negb andb]; destruct loading; cbn [negb]; read_controls; try change (Exists (gives i) (controls ?n)) with (draws n i).
  4: rewrite ?Exists_nil; split; [done | intros [[[[? ?]|?] _]|(? & ? & _)]; done].
  all: split; [naive_solver|]; intros [[_ ->]|(c' & Hc & ? & ?)]; [tauto|]; try done; injection Hc as <-; tauto.
Qed.

Lemma offers_RevokeDialog cert why busy err i :
  Exists (gives i) (flat_map controls (render_RevokeDialog cert why busy err)) <->
    is_Some cert /\ ((exists v, i = OnPage (TypeReason v)) \/ i = OnPage CancelRevoke \/
      (busy = false /\ nonempty (trim why) = true /\ i = OnPage ConfirmRevoke)).
Proof.
  unfold render_RevokeDialog. destruct cert as [c|]; [|rewrite Exists_nil; split; [done | by intros [[? ?] _]]].
  destruct busy, (nonempty (trim why)), (nonempty err); cbn [orb negb when]; read_controls; naive_solver.
Qed.

Lemma offers_certificate_row n c i :
  draws (render_row n c) i <-> i = OnPage (OpenDetail n) \/ (isRevokable (Some c) = true /\ i = OnPage (RevokeRow n)).
Proof.
  unfold draws, render_row, td. compute_view. rewrite !unix_controls.
  destruct (isRevokable (Some c)); cbn [negb]; read_controls; intuition discriminate.
Qed.

Lemma offers_table p i :
  draws (render_table p) i <->
    loading p = false /\ exists n c, items p !! n = Some c /\
      (i = OnPage (OpenDetail n) \/ (isRevokable (Some c) = true /\ i = OnPage (RevokeRow n))).
Proof.
  unfold draws, render_table, th, td. cbn [controls flat_map el txt map app]. rewrite app_nil_r.
  destruct (loading p); [read_controls; naive_solver|]. destruct (items p) as [|c l]; [read_controls; naive_solver|].
  rewrite offers_imap. setoid_rewrite offers_certificate_row. naive_solver.
Qed.

Lemma offers_filters f i :
  draws (render_filters f) i <-> exists f', filter_step f f' = true /\ i = OnPage (SetFilters f').
Proof.
  transitivity ((exists v, i = OnPage (SetFilters (with_search f v))) \/ (exists v, i = OnPage (SetFilters (with_issuer f v))) \/
    (exists s, s ∈ STATUS_OPTIONS /\ i = OnPage (SetFilters (with_status f s))) \/
    (exists t, t ∈ TYPE_OPTIONS /\ i = OnPage (SetFilters (with_type f t)))).
  - unfold draws, render_filters. generalize STATUS_OPTIONS TYPE_OPTIONS. intros statuses types. cbn [controls flat_map el icon app].
    rewrite app_nil_r, !Exists_cons, Exists_app, !offers_map. unfold choice_button. cbn [gives].
    assert (Hb : forall cls f' l, draws (Button [("className", cls)] false (OnPage (SetFilters f')) [Text l]) i <->
      i = OnPage (SetFilters f')) by (intros; read_controls; tauto).
    setoid_rewrite Hb. tauto.
  - unfold filter_step. split.
    + intros [[v ->]|[[v ->]|[(s & Hs & ->)|(t & Ht & ->)]]]; (eexists; split; [|reflexivity]);
        rewrite !orb_true_iff, !andb_true_iff, !bool_decide_eq_true.
      * by left; left; left.
      * by left; left; right.
      * by left; right.
      * by right.
    + intros (f' & Hf & ->). rewrite !orb_true_iff, !andb_true_iff, !bool_decide_eq_true in Hf.
      destruct Hf as [[[Hf|Hf]|[Hf Hs]]|[Hf Ht]]; [left|right; left|do 2 right; left|do 3 right].
      * exists (f_search f'). by rewrite Hf at 1.
      * exists (f_issuerId f'). by rewrite Hf at 1.
      * exists (f_status f'). split; [done|]. by rewrite Hf at 1.
      * exists (f_certType f'). split; [done|]. by rewrite Hf at 1.
Qed.

Lemma offers_page_button label symbol d (j i : ca_input) :
  draws (page_button label symbol d j) i <-> d = false /\ i = j.
Proof. unfold page_button. destruct d; read_controls; intuition discriminate. Qed.

Lemma offers_certificates p i :
  draws (render_certificates p) i <->
    i = OnPage Refresh \/ (canPrev (offset p) = true /\ i = OnPage PrevPage) \/
    (canNext (offset p) (total p) = true /\ i = OnPage NextPage) \/
    draws (render_filters (filters p)) i \/ draws (render_table p) i.
Proof.
  unfold draws at 1, render_certificates.
  destruct (nonempty (message p)), (nonempty (error p)); cbn [when app]; read_controls;
    try change (Exists (gives i) (controls ?n)) with (draws n i); rewrite !offers_page_button, !negb_false_iff; tauto.
Qed.

(** What the user does with the audit log, the rest being replies and timers. *)
Definition audit_by_user {A} (i : AuditPanel.input A) : bool :=
  match i with
  | AuditPanel.SetFilter _ _ | AuditPanel.PrevPage | AuditPanel.NextPage | AuditPanel.RefreshList => true
  | _ => false
  end.

Lemma rows_with_source src items : exists events, rows (map (with_source src) items) = Ok events /\ length events = length items.
Proof.
  unfold rows.
  assert (H : forall f : nat -> nat, exists events, rmapM (fun x => toAuditVM x.2 x.1)
      (imap (fun n => pair (f n)) (map (with_source src) items)) = Ok events /\ length events = length items).
  { induction items as [|e items IH]; intros f; [by exists []|]. cbn [map imap rmapM fst snd].
    destruct (toAuditVM (with_source src e) (f 0%nat)) as [vm|x] eqn:Hvm; [|by unfold with_source, toAuditVM in Hvm].
    cbn [rbind]. destruct (IH (fun n => f (S n))) as (events & He & Hl). unfold compose. rewrite He. cbn [rbind].
    exists (vm :: events). split; [done|]. cbn. by rewrite Hl. }
  apply (H (fun n => n)).
Qed.

Lemma audit_reacts {A} (errorMessage : js_exception -> ustr) options (a : AuditPanel.panel A) ai :
  AuditPanel.mounted a = true ->
  (audit_by_user ai = true /\ audit_filter options a ai = true /\ is_Some (AuditPanel.react errorMessage a ai)) <->
  match ai with
  | AuditPanel.SetFilter action search =>
      action = AuditPanel.action a \/ (search = AuditPanel.search a /\ action ∈ map js options)
  | AuditPanel.PrevPage => canPrev (AuditPanel.offset a) = true
  | AuditPanel.NextPage => canNext (AuditPanel.offset a) (AuditPanel.total a) = true
  | AuditPanel.RefreshList => True
  | _ => False
  end.
Proof.
  intros Hm. unfold AuditPanel.react. rewrite Hm. destruct ai as [v s| | | | | |k r]; cbn [audit_by_user audit_filter negb].
  - rewrite orb_true_iff, andb_true_iff, !ustr_eqb_eq, bool_decide_eq_true. destruct (_ && _); naive_solver.
  - naive_solver.
  - destruct (canPrev _); naive_solver.
  - destruct (canNext _ _); naive_solver.
  - naive_solver.
  - naive_solver.
  - naive_solver.
Qed.

Definition audit_events (src : string) (items : list ujson) : list AuditEventVM :=
  match rows (map (with_source src) items) with Ok events => events | Err _ => [] end.

(** The audit log offers what its machine and the timeline in it take. *)
Lemma offers_AuditPanel (errorMessage : js_exception -> ustr) a tl i : AuditPanel.mounted a = true ->
  draws (render_AuditPanel a tl) i <->
    (exists ai, i = OnAudit ai /\ audit_by_user ai = true /\ audit_filter AUDIT_ACTION_OPTIONS a ai = true /\
       is_Some (AuditPanel.react errorMessage a ai)) \/
    exists ti, i = OnTimeline ti /\
      is_Some (timeline_react (audit_props a (audit_events "ca" (AuditPanel.items a))) tl ti).
Proof.
  intros Hm. setoid_rewrite (audit_reacts errorMessage AUDIT_ACTION_OPTIONS a _ Hm).
  unfold draws at 1, render_AuditPanel, audit_events. generalize AUDIT_ACTION_OPTIONS. intros options.
  destruct (rows_with_source "ca" (AuditPanel.items a)) as (events & He & _). rewrite He. set (props := audit_props a events).
  read_controls. change (Exists (gives i) (controls ?n)) with (draws n i).
  rewrite !offers_page_button, !negb_false_iff, offers_timeline. unfold handed. cbn [tp_onRefresh tp_onRetry tp_onViewSession props audit_props].
  assert (Ho : map fst (action_options options) = map js options)
    by (unfold action_options; rewrite map_map; by apply map_ext).
  rewrite Ho. split.
  - intros H. destruct_or! H; try done.
    + left. destruct H as [H ->]. by exists AuditPanel.PrevPage.
    + left. destruct H as [H ->]. by exists AuditPanel.NextPage.
    + left. destruct H as [v ->]. eexists. split; [done|]. by left.
    + left. destruct H as (v & Hv & ->). eexists. split; [done|]. by right.
    + by right.
    + left. injection H as <-. by exists AuditPanel.RefreshList.
    + left. destruct H as [_ [= <-]]. by exists AuditPanel.RefreshList.
    + by destruct H as (? & ? & _ & _ & _ & [=] & _).
  - intros [(ai & -> & Ha)|H]; [|tauto]. destruct ai as [v s| | | | | |k r]; try done; try tauto.
    destruct Ha as [->|[-> Hv]]; [right; left; by exists s | do 2 right; left; by exists v].
Qed.

Lemma offers_nav here i : draws (render_nav here) i <-> exists v, i = OnPage (SetView v).
Proof. unfold render_nav, CA_NAV. read_controls. split; [naive_solver|]. intros [[] ->]; tauto. Qed.

Lemma offers_ca_login p i :
  draws (ca_LoginPanel OnLogin p) i <->
    PinLogin.left_page p = false /\ PinLogin.verifying p = false /\ exists k, offered_key k = true /\ i = OnLogin k.
Proof.
  unfold ca_LoginPanel. destruct (PinLogin.left_page p); [read_controls; naive_solver|].
  unfold draws, PinDots, Link. destruct (PinLogin.verifying p), (nonempty (PinLogin.error p));
    compute_view; rewrite ?dots_controls; read_controls. all: try change (Exists (gives i) (controls ?n)) with (draws n i).
  all: rewrite ?offers_PinKeypad; naive_solver.
Qed.
End draws.

(** ** The page and its machines *)

Section correspondence.

Context `{P : Platform} `{L : Locale} (thrown_message : js_exception -> ustr).

#[local] Notation react := (AdminCaPage.react thrown_message).

(** What the user does, in contrast to replies and timers. *)
Definition by_user (i : input) : bool :=
  match i with
  | LoggedIn _ _ | DebounceFires | MessageFades | AuditAuthError | ListReply _ _ | DetailReply _ _ | RevokeReply _ _
  | CopyReply _ _ => false
  | _ => true
  end.

Lemma row_shown_list p n c : row n p = Some c <-> view p = certificates /\ loading p = false /\ items p !! n = Some c.
Proof.
  unfold row, list_shown. destruct (bool_decide_reflect (view p = certificates)), (loading p); cbn; naive_solver.
Qed.

Lemma is_Some_if {A} (b : bool) (x : A) : is_Some (if b then Some x else None) <-> b = true.
Proof. destruct b; naive_solver. Qed.

(** What the page takes from the user, read off its guards. *)
Definition page_takes (p : page) (i : input) : Prop :=
  token p <> [] /\
  match i with
  | SignOut | SetView _ => True
  | SetFilters f => view p = certificates /\ filter_step (filters p) f = true
  | Refresh => view p = certificates
  | PrevPage => view p = certificates /\ canPrev (offset p) = true
  | NextPage => view p = certificates /\ canNext (offset p) (total p) = true
  | OpenDetail n => exists c, row n p = Some c
  | CloseDetail => is_Some (selected p) \/ detailLoading p = true
  | RevokeRow n => exists c, row n p = Some c /\ isRevokable (Some c) = true
  | RevokeDetail => detailLoading p = false /\ isRevokable (selected p) = true
  | TypeReason _ | CancelRevoke => is_Some (revokeTarget p)
  | ConfirmRevoke => is_Some (revokeTarget p) /\ revokeSubmitting p = false /\ nonempty (trim (reason p)) = true
  | CopyValue v l => exists c, selected p = Some c /\ detailLoading p = false /\ (v, l) ∈ copyable c
  | _ => False
  end.

Lemma ca_reacts p i : by_user i = true /\ is_Some (react p i) <-> page_takes p i.
Proof.
  assert (Ht : token p <> [] <-> nonempty (token p) = true) by by destruct (token p).
  assert (Hl : list_shown p = true <-> view p = certificates) by (unfold list_shown; apply bool_decide_eq_true).
  unfold page_takes, AdminCaPage.react. destruct i as [em tk| |v|f| | | | |n| |n| |v| | |v l| | |k r|k r|k r|k r];
    cbn [by_user late_react user_react]; try (split; [by intros [? _] | by intros [_ ?]]).
  all: destruct (nonempty (token p)); [|split; [by intros [_ [? ?]] | intros [Hne _]; by apply Ht in Hne]].
  all: rewrite Ht.
  - split; [done|]. intros _. by split.
  - split; [done|]. intros _. by split.
  - rewrite <- Hl. destruct (list_shown p), (filter_step (filters p) f); cbn [andb negb]; try case_bool_decide; naive_solver.
  - rewrite <- Hl, is_Some_if. naive_solver.
  - rewrite <- Hl, is_Some_if, andb_true_iff. naive_solver.
  - rewrite <- Hl, is_Some_if, andb_true_iff. naive_solver.
  - destruct (row n p); naive_solver.
  - rewrite is_Some_if, orb_true_iff, bool_decide_eq_true. naive_solver.
  - destruct (row n p) as [c|]; [rewrite is_Some_if; naive_solver|]. naive_solver.
  - rewrite is_Some_if, andb_true_iff, negb_true_iff. naive_solver.
  - destruct (revokeTarget p); naive_solver.
  - destruct (revokeTarget p); naive_solver.
  - destruct (revokeTarget p); [|naive_solver]. destruct (revokeSubmitting p), (nonempty (trim (reason p))); naive_solver.
  - destruct (selected p) as [c|]; [|naive_solver]. destruct (detailLoading p); [naive_solver|]. cbn [orb].
    destruct (bool_decide_reflect ((v, l) ∈ copyable c)); naive_solver.
Qed.

Lemma ca_offers_render p login a tl i :
  draws (render_AdminCA p login a tl) i <->
    (token p = [] /\ draws (ca_LoginPanel OnLogin login) i) \/
    (token p <> [] /\
      (i = OnPage SignOut \/ (exists v, i = OnPage (SetView v)) \/
       draws (match view p with audit => render_AuditPanel a tl | certificates => render_certificates p end) i \/
       Exists (gives i) (flat_map controls (render_DetailPanel (selected p) (detailLoading p))) \/
       Exists (gives i) (flat_map controls
         (render_RevokeDialog (revokeTarget p) (reason p) (revokeSubmitting p) (revokeError p))))).
Proof.
  unfold render_AdminCA. destruct (token p) as [|u tk]; cbn [nonempty negb]; [naive_solver|].
  unfold draws at 1. cbn [controls el]. rewrite !flat_map_app, !Exists_app. unfold ca_Header. read_controls.
  change (Exists (gives i) (controls ?n)) with (draws n i). rewrite offers_nav. naive_solver.
Qed.

(** The controls of the page. *)
Lemma ca_draws p login a tl : AuditPanel.mounted a = true ->
  (forall i, draws (render_AdminCA p login a tl) (OnPage i) <-> by_user i = true /\ is_Some (react p i)) /\
  (forall ai, draws (render_AdminCA p login a tl) (OnAudit ai) <->
     (token p <> [] /\ view p = audit) /\ audit_by_user ai = true /\ audit_filter AUDIT_ACTION_OPTIONS a ai = true /\
     is_Some (AuditPanel.react (errorMessage thrown_message) a ai)) /\
  (forall ti, draws (render_AdminCA p login a tl) (OnTimeline ti) <->
     (token p <> [] /\ view p = audit) /\
     is_Some (timeline_react (audit_props a (audit_events "ca" (AuditPanel.items a))) tl ti)) /\
  (forall k, draws (render_AdminCA p login a tl) (OnLogin k) <->
     token p = [] /\ PinLogin.left_page login = false /\ PinLogin.verifying login = false /\ offered_key k = true).
Proof.
  intros Hm. set (m := errorMessage thrown_message).
  assert (Hview : forall i, draws (match view p with audit => render_AuditPanel a tl | certificates => render_certificates p end) i <->
    (view p = audit /\ draws (render_AuditPanel a tl) i) \/ (view p = certificates /\ draws (render_certificates p) i))
    by (intros i; destruct (view p); naive_solver).
  assert (Hall : forall i, draws (render_AdminCA p login a tl) i <->
    (token p = [] /\ PinLogin.left_page login = false /\ PinLogin.verifying login = false /\
       exists k, offered_key k = true /\ i = OnLogin k) \/
    (token p <> [] /\ view p = audit /\ ((exists ai, i = OnAudit ai /\ audit_by_user ai = true /\
       audit_filter AUDIT_ACTION_OPTIONS a ai = true /\ is_Some (AuditPanel.react m a ai)) \/
       exists ti, i = OnTimeline ti /\ is_Some (timeline_react (audit_props a (audit_events "ca" (AuditPanel.items a))) tl ti))) \/
    exists pi, i = OnPage pi /\ by_user pi = true /\ is_Some (react p pi)).
  { intros i. rewrite ca_offers_render, Hview, offers_ca_login, (offers_AuditPanel m a tl i Hm), offers_certificates,
      offers_filters, offers_table, offers_DetailPanel, offers_RevokeDialog.
    transitivity ((token p = [] /\ PinLogin.left_page login = false /\ PinLogin.verifying login = false /\
       exists k, offered_key k = true /\ i = OnLogin k) \/
      (token p <> [] /\ view p = audit /\ ((exists ai, i = OnAudit ai /\ audit_by_user ai = true /\
        audit_filter AUDIT_ACTION_OPTIONS a ai = true /\ is_Some (AuditPanel.react m a ai)) \/
        exists ti, i = OnTimeline ti /\ is_Some (timeline_react (audit_props a (audit_events "ca" (AuditPanel.items a))) tl ti))) \/
      exists pi, i = OnPage pi /\ page_takes p pi); [|by setoid_rewrite ca_reacts]. split.
    - intros [H|[Ht H]]; [tauto|]. destruct H as [->|[[v ->]|[[[Hv H]|[Hv H]]|[H|H]]]]; [| |tauto|..];
        do 2 right; try (by eexists; split; [reflexivity | split]).
      + destruct H as [->|[[? ->]|[[? ->]|[(f & Hf & ->)|(Hl & n & c & Hc & [->|[Hr ->]])]]]];
          (eexists; split; [reflexivity|]; split; [done|]); try done; exists c;
          try split; try done; by apply row_shown_list.
      + destruct H as [[? ->]|(c & Hc & Hl & Ho)]; [by eexists; split; [reflexivity | split]|].
        apply offers_detail in Ho as [[Hr ->]|(v & l & Hin & ->)]; (eexists; split; [reflexivity|]; split; [done|]).
        * by rewrite Hc.
        * by exists c.
      + destruct H as [Hs [[v ->]|[->|(? & ? & ->)]]]; by eexists; split; [reflexivity | split].
    - intros [H|[H|(pi & -> & Ht & H)]]; [tauto..|]. right. split; [done|].
      destruct pi as [em tk| |v|f| | | | |n| |n| |v| | |v l| | |k r|k r|k r|k r]; try done; cbn in H.
      + by left.
      + right; left. by exists v.
      + destruct H as [Hv Hf]. right; right; left; right. split; [done|]. do 3 right; left. by exists f.
      + right; right; left; right. split; [done|]. by left.
      + destruct H as [Hv Hf]. right; right; left; right. split; [done|]. by right; left.
      + destruct H as [Hv Hf]. right; right; left; right. split; [done|]. by do 2 right; left.
      + destruct H as [c Hc]. apply row_shown_list in Hc as (Hv & Hl & Hc). right; right; left; right. split; [done|].
        do 4 right. split; [done|]. exists n, c. split; [done|]. by left.
      + do 3 right; left. by left.
      + destruct H as (c & Hc & Hr). apply row_shown_list in Hc as (Hv & Hl & Hc). right; right; left; right. split; [done|].
        do 4 right. split; [done|]. exists n, c. split; [done|]. by right.
      + destruct H as [Hl Hr]. do 3 right; left. right. destruct (selected p) as [c|]; [|done]. exists c. split_and!; [done..|].
        apply offers_detail. by left.
      + do 4 right. split; [done|]. left. by exists v.
      + do 4 right. split; [done|]. by right; left.
      + destruct H as (Hc & Hs & Hr). do 4 right. split; [done|]. by do 2 right.
      + destruct H as (c & Hc & Hl & Hin). do 3 right; left. right. exists c. split_and!; [done..|].
        apply offers_detail. right. by exists v, l. }
  split_and!; intros x; rewrite Hall; split.
  - intros [(_ & _ & _ & ? & _ & [=])|[(_ & _ & [(? & [=] & _)|(? & [=] & _)])|(? & [= <-] & H)]]. exact H.
  - intros H. right; right. by exists x.
  - intros [(_ & _ & _ & ? & _ & [=])|[(Ht & Hv & [(? & [= <-] & H)|(? & [=] & _)])|(? & [=] & _)]]. done.
  - intros [[Ht Hv] H]. right; left. split_and!; [done..|]. left. by exists x.
  - intros [(_ & _ & _ & ? & _ & [=])|[(Ht & Hv & [(? & [=] & _)|(? & [= <-] & H)])|(? & [=] & _)]]. done.
  - intros [[Ht Hv] H]. right; left. split_and!; [done..|]. right. by exists x.
  - intros [(Ht & Hl & Hv & ? & Hk & [= <-])|[(_ & _ & [(? & [=] & _)|(? & [=] & _)])|(? & [=] & _)]]. done.
  - intros (Ht & Hl & Hv & Hk). left. split_and!; [done..|]. by exists x.
Qed.

(** The administrator's page offers what its machines take. Whatever the states
    of the page, of the login and of the audit log, if React refuses an element
    nothing can be used, and otherwise the controls give exactly the inputs of the
    user for which the page has a step; those of the audit log and of its timeline
    are offered while it is shown, and the keys of the login without a session. *)
Theorem ca_controls p login a tl : AuditPanel.mounted a = true ->
  (forall i, offers (render_AdminCA p login a tl) (OnPage i) <->
     crashes (render_AdminCA p login a tl) = false /\ by_user i = true /\ is_Some (react p i)) /\
  (forall ai, offers (render_AdminCA p login a tl) (OnAudit ai) <->
     crashes (render_AdminCA p login a tl) = false /\ (token p <> [] /\ view p = audit) /\ audit_by_user ai = true /\ audit_filter AUDIT_ACTION_OPTIONS a ai = true /\
     is_Some (AuditPanel.react (errorMessage thrown_message) a ai)) /\
  (forall ti, offers (render_AdminCA p login a tl) (OnTimeline ti) <->
     crashes (render_AdminCA p login a tl) = false /\ (token p <> [] /\ view p = audit) /\
     is_Some (timeline_react (audit_props a (audit_events "ca" (AuditPanel.items a))) tl ti)) /\
  (forall k, offers (render_AdminCA p login a tl) (OnLogin k) <->
     crashes (render_AdminCA p login a tl) = false /\ token p = [] /\ PinLogin.left_page login = false /\ PinLogin.verifying login = false /\ offered_key k = true).
Proof.
  intros Hm. destruct (ca_draws p login a tl Hm) as (H1 & H2 & H3 & H4). unfold offers. split_and!; intros x.
  - by rewrite H1.
  - by rewrite H2.
  - by rewrite H3.
  - by rewrite H4.
Qed.

(** ** What lies on top *)

Lemma unix_uncovered v : flat_map covers (formatUnix v) = [].
Proof. unfold formatUnix. destruct v as [[|n|n]|]; try done; by destruct (time_clip _). Qed.

Lemma detail_uncovered c : covers (render_detail c) = [].
Proof.
  assert (Ht : forall copy label v, covers (detail_text copy label v) = [])
    by (intros copy label v; unfold detail_text, copy_button; by destruct (copy && _)).
  assert (Hd : forall label v, covers (detail_date label v) = [])
    by (intros label v; unfold detail_date; cbn [covers flat_map el txt]; by rewrite unix_uncovered).
  unfold render_detail, detail_rows. cbn [covers el]. rewrite !flat_map_app. cbn [flat_map covers el txt button styled app].
  rewrite !Ht, !Hd. destruct (chain_fingerprints c) as [|f l]; [by destruct (nonempty (chain_pem c))|].
  rewrite imap_uncovered by done. by destruct (nonempty (chain_pem c)).
Qed.

Lemma certificates_uncovered p : covers (render_certificates p) = [].
Proof.
  assert (Hr : forall n c, covers (render_row n c) = [])
    by (intros n c; unfold render_row, td; cbn [covers flat_map el txt button styled app]; by rewrite !unix_uncovered).
  assert (Ht : covers (render_table p) = []).
  { unfold render_table, th, td. cbn [covers flat_map el txt map app]. destruct (loading p); [done|].
    destruct (items p); [done|]. by rewrite imap_uncovered. }
  unfold render_certificates. cbn [covers el]. cbn [flat_map covers el txt]. rewrite !flat_map_app, Ht.
  by destruct (nonempty (message p)), (nonempty (error p)).
Qed.

Lemma audit_uncovered a tl : covers (render_AuditPanel a tl) = [].
Proof.
  unfold render_AuditPanel. cbn [covers flat_map el txt page_button icon app].
  destruct (rows _); [by rewrite timeline_uncovered | done].
Qed.

Lemma ca_login_uncovered login : covers (ca_LoginPanel OnLogin login) = [].
Proof. unfold ca_LoginPanel. by destruct (PinLogin.left_page login), (PinLogin.verifying login), (nonempty (PinLogin.error login)). Qed.

Definition dialog_of (p : page) : list (node ca_input) :=
  render_RevokeDialog (revokeTarget p) (reason p) (revokeSubmitting p) (revokeError p).

Lemma ca_covers_render p login a tl : token p <> [] ->
  covers (render_AdminCA p login a tl) = flat_map covers (dialog_of p).
Proof.
  intros Ht. unfold render_AdminCA. destruct (token p); [done|]. cbn [nonempty negb covers el]. rewrite !flat_map_app.
  assert (Hd : flat_map covers (render_DetailPanel (selected p) (detailLoading p)) = []).
  { unfold render_DetailPanel. destruct (_ && _); [done|]. cbn [flat_map covers el txt icon].
    destruct (selected p); destruct (detailLoading p); cbn [flat_map covers el txt icon]; by rewrite ?detail_uncovered. }
  rewrite Hd. cbn [flat_map covers el ca_Header txt button icon render_nav CA_NAV map app].
  destruct (view p); by rewrite ?certificates_uncovered, ?audit_uncovered.
Qed.

(** What lies on top while the dialog of a revocation is open. *)
Lemma revocation_on_top p login a tl i : token p <> [] -> is_Some (revokeTarget p) ->
  on_top (render_AdminCA p login a tl) i <->
    exists pi, i = OnPage pi /\ is_Some (react p pi) /\
      match pi with TypeReason _ | CancelRevoke | ConfirmRevoke => True | _ => False end.
Proof.
  intros Ht Hd. transitivity (Exists (gives i) (flat_map controls (dialog_of p))).
  - unfold on_top. rewrite ca_covers_render by done. unfold dialog_of, render_RevokeDialog. destruct (revokeTarget p) as [c|]; [|by destruct Hd].
    rewrite last_cover by (by destruct (nonempty (revokeError p)), (revokeSubmitting p)).
    match goal with |- _ <-> Exists _ (flat_map controls [Cover ?l]) =>
      change (flat_map controls [Cover l]) with (flat_map controls l ++ []) end. by rewrite app_nil_r.
  - unfold dialog_of. rewrite offers_RevokeDialog. split.
    + intros [_ [[v ->]|[->|(Hb & Hr & ->)]]]; (eexists; split; [reflexivity|]; split; [|done]); by apply ca_reacts.
    + intros (pi & -> & Hr & Hk). split; [done|].
      assert (Hp : page_takes p pi) by (apply ca_reacts; split; [by destruct pi | done]). destruct Hp as [_ Hp].
      destruct pi; try done; [left; eauto | tauto | naive_solver].
Qed.

(** Nothing reaches past the dialog of a revocation. While it is open, and React
    refuses no element of the page, what can be clicked or typed into are its
    reason, its cancellation and its confirmation, as far as the page takes them; a
    list that is reloaded, another certificate or the end of the session are out of
    reach. *)
Theorem revocation_is_modal p login a tl i : token p <> [] -> is_Some (revokeTarget p) ->
  pointed_at (render_AdminCA p login a tl) i <->
    crashes (render_AdminCA p login a tl) = false /\
    exists pi, i = OnPage pi /\ is_Some (react p pi) /\
      match pi with TypeReason _ | CancelRevoke | ConfirmRevoke => True | _ => False end.
Proof. intros Ht Hd. unfold pointed_at. by rewrite revocation_on_top. Qed.

(** C31: what is revoked was shown. A revocation is sent from the dialog alone, and
    what it sends is what the dialog shows at that moment: the serial number under
    its title, in full, and the reason in its field; the button that sends it lies
    on top, and is in reach as long as React refuses no element of the page. *)
Theorem revoked_as_shown p login a tl i p' cs s why :
  react p i = Some (p', cs) -> Revoke s why ∈ cs ->
  let shown := render_AdminCA p login a tl in
  i = ConfirmRevoke /\ shows_row shown "Revoke certificate" s /\ shows_row shown "Reason" why /\
  on_top shown (OnPage i) /\ (crashes shown = false -> pointed_at shown (OnPage i)).
Proof.
  intros Hr Hc shown. assert (Hu : token p <> [] /\ user_react p i = Some (p', cs)).
  { pose proof Hr as Hr'. unfold AdminCaPage.react in Hr'. destruct (late_react thrown_message p i) as [[q c]|] eqn:Hl.
    - injection Hr' as <- <-. by apply (quiet_late _ _ _ _ _ Hl) in Hc.
    - destruct (token p); [done|]. by split. }
  destruct Hu as [Ht Hu]. destruct (revoke_by_confirm _ _ _ _ _ _ Hu Hc) as (-> & c & Hd & _ & _ & -> & -> & _).
  split; [done|]. assert (Hin : forall d, d ∈ dialog_of p -> within d shown).
  { intros d Hin. unfold shown, render_AdminCA. destruct (token p); [done|]. cbn [nonempty negb].
    eapply within_in; [|apply within_refl]. cbn [children_of el]. rewrite !elem_of_app. by right; right. }
  unfold dialog_of, render_RevokeDialog in Hin. rewrite Hd in Hin. split_and!.
  - eapply shows_row_within; [apply Hin, list_elem_of_here|]. by eexists [], _.
  - eapply shows_row_within; [apply Hin, list_elem_of_here|]. by eexists [_; _], _.
  - apply revocation_on_top; [done | by eexists|]. exists ConfirmRevoke. by rewrite Hr.
  - intros Hs. apply pointed_at_shown; [done|]. apply revocation_on_top; [done | by eexists|]. exists ConfirmRevoke. by rewrite Hr.
Qed.
End correspondence.

(** ** Concrete pages *)

Definition a_login : PinLogin.login := PinLogin.opened (PinLogin.ca_admin_login (fun _ => [])).

(** The dialog with a reason, for an active certificate. *)
Definition revoking : page :=
  set_dialog (Some (a_certificate "01" "active")) (js "key lost") [] false (opened (js "tok") []).1.

Definition nothing_thrown : js_exception -> ustr := fun _ => [].

Lemma ca_controls_witness :
  offers (render_AdminCA (P := demo_platform) revoking a_login AuditPanel.opened new_timeline) (OnPage ConfirmRevoke).
Proof.
  apply (proj1 (ca_controls (P := demo_platform) nothing_thrown revoking a_login AuditPanel.opened new_timeline eq_refl)).
  split; [reflexivity|]. split; [reflexivity | by eexists].
Defined.

Lemma revocation_is_modal_witness :
  pointed_at (render_AdminCA (P := demo_platform) revoking a_login AuditPanel.opened new_timeline) (OnPage CancelRevoke) /\
  ~ pointed_at (render_AdminCA (P := demo_platform) revoking a_login AuditPanel.opened new_timeline) (OnPage Refresh).
Proof.
  assert (Ht : token revoking <> []) by done. assert (Hd : is_Some (revokeTarget revoking)) by by eexists.
  pose proof (fun i => revocation_is_modal (P := demo_platform) nothing_thrown revoking a_login AuditPanel.opened new_timeline i Ht Hd) as H.
  split; [apply H; split; [reflexivity|]; exists CancelRevoke; split; [reflexivity | split; [by eexists | done]] | intros Hp].
  apply H in Hp as (_ & pi & [= <-] & _ & []).
Defined.

Lemma revoked_as_shown_witness :
  shows_row (render_AdminCA (P := demo_platform) revoking a_login AuditPanel.opened new_timeline) "Revoke certificate" (js "01").
Proof.
  assert (Hr : exists p' cs, react nothing_thrown revoking ConfirmRevoke = Some (p', cs) /\ Revoke (js "01") (js "key lost") ∈ cs)
    by (do 2 eexists; split; [vm_compute; reflexivity | apply list_elem_of_here]).
  destruct Hr as (p' & cs & Hr & Hc).
  exact (proj1 (proj2 (revoked_as_shown (P := demo_platform) nothing_thrown revoking a_login AuditPanel.opened new_timeline _ _ _ _ _ Hr Hc))).
Defined.
