(* ===== verification/BankView.v ===== *)
(** * What the bank's administrator sees ([pages/AdminBank.tsx])

    The elements of the page for a state of [AdminBankPage]: the figures of the
    overview with their chart, the tables of users, transactions and audit events
    with their forms and pages, and the dialog with a user's accounts.
    [bank_controls] is that a page without a crash offers what its machine takes, [bank_shown]
    that plain data do not crash it. *)

From S2P Require Import Prelude AuditReport JsString JsDate UString UJson WebCrypto Wire Browser Keypad PageRun PinPages AdminClient Locale View PinViews TimelineView AdminBankPage.

Open Scope Z_scope.

#[local] Arguments nonempty {A} !l /.

(** What the parts of the page take from the user. *)
Inductive bank_input :=
| OnLogin (k : key)
| OnPage (i : input)
| OnTimeline (i : timeline_input).

#[local] Notation element := (node bank_input).

(** [NAV]. *)
Definition BANK_NAV : list (View * string * string) :=
  [(overview, "Tổng quan", "BarChart3"); (users, "Người dùng", "Users"); (transactions, "Ledger", "Database");
   (audit, "Security Audit", "Activity")].

(** ** Formats *)

(** [JSON.parse] of a text, or the text; nothing is an empty object. *)
Definition safeParseJson (raw : ujson) : ujson :=
  if utruthy raw then default raw (uparse (ustring raw)) else UObj [].

Definition STATUS_LABELS : list (string * string) :=
  [("active", "Đang hoạt đông"); ("locked", "Đã bị khóa"); ("frozen", "Tạm khóa"); ("unknown", "Không xác định")].

(** The map of [TxBadge]. *)
Definition TX_BADGES : list (string * (string * string)) :=
  [("completed", ("bg-emerald-500/10 text-emerald-400 border-emerald-500/20", "Đã hoàn tất"));
   ("failed", ("bg-red-500/10 text-red-400 border-red-500/20", "Thất bại"));
   ("pending", ("bg-sky-500/10 text-sky-400 border-sky-500/20", "Đang xử lý"))].

Definition CARD_COLORS : list (string * string) :=
  [("blue", "text-blue-400 bg-blue-500/10"); ("cyan", "text-cyan-400 bg-cyan-500/10");
   ("emerald", "text-emerald-400 bg-emerald-500/10"); ("amber", "text-amber-400 bg-amber-500/10");
   ("purple", "text-purple-400 bg-purple-500/10"); ("red", "text-red-400 bg-red-500/10")].

Definition card_color (color : string) : string :=
  match List.find (fun c => String.eqb c.1 color) CARD_COLORS with Some c => c.2 | None => "undefined" end.

(** Plain JavaScript numbers and dates of the figures. *)
Record chart_day := { cd_day : ustr; cd_txns : Z; cd_amount : Z }.

Section view.

Context `{P : Platform} `{L : Locale} (toUpperCase : ustr -> ustr).

Definition dateTime (unix : ujson) : ustr :=
  if positive unix then toLocaleString (date_of_seconds unix) else u8 "—".

Definition formatVND (n : ujson) : ustr := vi_format n ++ u8 " ₫".

(** [trunc(s, n)], as a child: a text or a list is cut; what has no length is refused. *)
Definition trunc (s : ujson) (n : nat) : list element :=
  match s with
  | UStr t => [Text (if (n <? length t)%nat then take n t ++ u8 "…" else t)]
  | UArr l => if (n <? length l)%nat then [Text (ustring (UArr (take n l)) ++ u8 "…")] else child s
  | UUndefined | UNull => [Crash]
  | _ => child s
  end.

(** ** The chart

    Its figures are computed from the dates of the last thirty days and nothing
    else. The factors 1.2, 1.6, 2 and 2.4 never give a half, so that rounding their
    doubles is rounding the fractions. *)

Definition chart_point (t : Z) : chart_day :=
  let (date, month) := local_day t in
  let seed := date + month * 3 in
  let txns := 2 + seed mod 9 in
  {| cd_day := js (Z_string date) ++ js "/" ++ js (Z_string (month + 1)); cd_txns := txns;
     cd_amount := (txns * (12 + seed mod 4 * 4) + 5) / 10 * 1000000 |}.

Definition generateDynamicChartData (now : Z) : list chart_day :=
  map (fun i => chart_point (now - i * 24 * 60 * 60 * 1000)) (rev (seqZ 0 30)).

Definition chart_json (l : list chart_day) : ujson :=
  UArr (map (fun d => UObj [(js "day", UStr (cd_day d)); (js "txns", UNum (cd_txns d)); (js "amount", UNum (cd_amount d))]) l).

Definition render_chart (now : Z) : element :=
  el "div" [
    el "div" [
      el "h3" [txt "Lưu lượng giao dịch — 30 ngày"];
      el "div" [el "span" [el "span" []; txt " Số giao dịch"]; el "span" [el "span" []; txt " Tổng số tiền"]]];
    Elem "AreaChart" [("data", ustringify (chart_json (generateDynamicChartData now)))] []].

(** ** Components *)

Definition bank_Header : element :=
  el "header" [el "div" [el "div" [icon "Lock"]; el "span" [txt "Mini Banking · Bank Admin"]]].

Definition Loading : element := el "div" [icon "RefreshCw"; txt " Đang tải dữ liệu…"].

Definition Empty (message : string) : element := el "div" [txt message].

Definition Pager {A} (p : PageResult A) : element :=
  el "div" [
    el "span" [Text (pager_label p)];
    el "div" [
      Button [] (negb (bool_decide (is_Some (pager_prev p)))) (OnPage PagerPrev) [txt "Trước"];
      Button [] (negb (bool_decide (is_Some (pager_next p)))) (OnPage PagerNext) [txt "Sau"]]].

Definition StatCard (label : string) (value : ustr) (sub : option ustr) (symbol color : string) : element :=
  el "div" [
    styled "div" (card_color color) [icon symbol];
    el "div" ([el "p" [txt label]; el "p" [Text value]] ++
      match sub with Some s => when (nonempty s) [el "p" [Text s]] | None => [] end)].

(** [TxBadge]: a status without an entry has no [cls]. *)
Definition TxBadge (status : ujson) : element :=
  match List.find (fun e => ustr_eqb (js e.1) (ustring status)) TX_BADGES with
  | Some (_, (cls, label)) => styled "span" cls [el "span" []; txt label]
  | None =>
      if existsb (fun n => ustr_eqb (js n) (ustring status)) ("__proto__" :: object_members)
      then styled "span" "undefined" [el "span" []] else Crash
  end.

(** ** The views *)

Definition render_overview (now : Z) (o : ujson) : element :=
  let figure name := ustring (member name o) in
  el "div" [
    el "div" [
      StatCard "Tổng người dùng" (figure "total_users") (Some (figure "active_users" ++ u8 " đang hoạt động")) "Users" "blue";
      StatCard "Tổng tài khoản" (figure "total_accounts") None "WalletCards" "cyan";
      StatCard "Tổng số dư" (formatVND (member "total_balance" o)) None "Building2" "emerald";
      StatCard "Tổng giao dịch" (figure "total_transactions") (Some (figure "completed_transactions" ++ u8 " hoàn tất"))
        "Database" "purple";
      StatCard "Giao dịch lỗi" (figure "failed_transactions") None "ShieldAlert" "red";
      StatCard "Audit 24 giờ" (figure "audit_events_24h") None "Activity" "amber"];
    render_chart now].

Definition all_or (label : string) (options : list string) : list (ustr * ustr) :=
  ([], u8 label) :: map (fun o => (u8 o, u8 o)) options.

Definition USER_STATUS : list (ustr * ustr) := all_or "Tất cả trạng thái" ["Đang hoạt đông"; "Đã bị khóa"].
Definition TRANSACTION_STATUS : list (ustr * ustr) := all_or "Tất cả trạng thái" ["Đang xử lý"; "Đã hoàn tất"; "Thất bại"].
Definition AUDIT_ACTIONS : list (ustr * ustr) := all_or "Tất cả sự kiện"
  ["transfer_completed"; "transfer_rejected"; "replay_detected"; "invalid_signature"; "certificate_rejected";
   "forbidden_ownership"; "insufficient_funds"].

Definition with_email (f : Filters) (v : ustr) : Filters :=
  {| userEmail := v; userStatus := userStatus f; transactionStatus := transactionStatus f; auditAction := auditAction f |}.
Definition with_user_status (f : Filters) (v : ustr) : Filters :=
  {| userEmail := userEmail f; userStatus := v; transactionStatus := transactionStatus f; auditAction := auditAction f |}.
Definition with_transaction_status (f : Filters) (v : ustr) : Filters :=
  {| userEmail := userEmail f; userStatus := userStatus f; transactionStatus := v; auditAction := auditAction f |}.
Definition with_action (f : Filters) (v : ustr) : Filters :=
  {| userEmail := userEmail f; userStatus := userStatus f; transactionStatus := transactionStatus f; auditAction := v |}.

Definition filter_form (l : list element) : element :=
  View.Form (OnPage SubmitFilter) (l ++ [SubmitButton [] false [txt "Áp dụng"]]).

Definition th_row (labels : list string) : element := el "thead" [el "tr" (map (fun l => el "th" [txt l]) labels)].

Definition cell (l : list element) : element := el "td" l.

(** A row that is clicked. *)
Definition user_row (index : nat) (u : AdminUser) : element :=
  let f name := member name (user_fields u) in
  Button [("element", js "tr")] false (OnPage (SelectUser index)) [
    cell [el "p" [Text (full_name u)]; el "p" (child (f "email"))];
    cell [styled "span" (if is_text (js "active") (f "status") then "text-emerald-400" else "text-red-400")
            (entry_child STATUS_LABELS (f "status"))];
    cell (child (f "account_count"));
    cell [Text (formatVND (f "total_balance"))];
    cell [Text (dateTime (f "created_at_unix"))]].

Definition users_table (l : list AdminUser) : element :=
  match l with
  | [] => Empty "Không có người dùng phù hợp."
  | _ => el "table" [th_row ["Người dùng"; "Trạng thái"; "Tài khoản"; "Tổng số dư"; "Ngày tạo"]; el "tbody" (imap user_row l)]
  end.

Definition render_users (p : page) : element :=
  el "div" [
    filter_form [
      Field "input" [("placeholder", u8 "Lọc theo email")] (userEmail (filters p)) false
        (Some (fun v => OnPage (SetFilters (with_email (filters p) v))));
      Select [] (userStatus (filters p)) false USER_STATUS (fun v => OnPage (SetFilters (with_user_status (filters p) v)))];
    el "div" [users_table (pr_items (user_page p))];
    Pager (user_page p)].

(** A property is read from the row: null and undefined have none. *)
Definition data_row (row : ujson) (l : list element) : element :=
  match row with UUndefined | UNull => Crash | _ => el "tr" l end.

Definition transaction_row (t : ujson) : element :=
  let f name := member name t in
  data_row t [
    cell [Text (dateTime (f "created_at_unix"))];
    cell [el "p" (child (f "from_account_number")); el "p" (txt "→ " :: child (f "to_account_number"))];
    cell [Text (formatVND (f "amount"))];
    Elem "td" (attribute "title" (f "description")) (child (uor (f "description") (UStr (u8 "—"))));
    cell [if is_text (js "unknown") (f "status") then txt "unknown" else TxBadge (f "status")];
    Elem "td" (attribute "title" (f "current_hash")) (trunc (f "current_hash") 18)].

Definition transactions_table (l : list ujson) : element :=
  match l with
  | [] => Empty "Không có giao dịch phù hợp."
  | _ => el "table" [th_row ["Thời gian"; "Từ / Đến"; "Số tiền"; "Nội dung"; "Trạng thái"; "Chain hash"];
                     el "tbody" (map transaction_row l)]
  end.

Definition render_transactions (p : page) : element :=
  el "div" [
    filter_form [
      Select [] (transactionStatus (filters p)) false TRANSACTION_STATUS
        (fun v => OnPage (SetFilters (with_transaction_status (filters p) v)))];
    el "div" [transactions_table (pr_items (transaction_page p))];
    Pager (transaction_page p)].

(** [{ ...event, source, timestamp, metadata }]; an invalid date is refused. *)
Definition audit_item (event : ujson) : option ujson :=
  match event with
  | UUndefined | UNull => None
  | _ =>
      match date_of_seconds (member "created_at_unix" event) with
      | Some t =>
          match toISOString t with
          | Some iso => Some (UObj ((match event with UObj l => l | _ => [] end) ++
              [(js "source", UStr (js "bank")); (js "timestamp", UStr (js iso));
               (js "metadata", safeParseJson (member "metadata_json" event))]))
          | None => None
          end
      | None => None
      end
  end.

Definition audit_rows (events : list ujson) : option (list AuditEventVM) :=
  match mapM audit_item events with
  | Some l => match rows l with Ok vms => Some vms | Err _ => None end
  | None => None
  end.

Definition bank_timeline_props (events : list AuditEventVM) : AuditTimelineProps bank_input :=
  {| tp_events := events; tp_loading := false; tp_error := []; tp_onRetry := None; tp_onRefresh := Some (OnPage RefreshAudit);
     tp_onViewSession := None; tp_showSource := false; tp_emptyLabel := "Không có sự kiện audit phù hợp." |}.

Definition render_audit (p : page) (tl : timeline) : element :=
  el "div" [
    filter_form [
      Select [] (auditAction (filters p)) false AUDIT_ACTIONS (fun v => OnPage (SetFilters (with_action (filters p) v)))];
    match audit_rows (pr_items (audit_page p)) with
    | Some events => render_AuditTimeline (bank_timeline_props events) OnTimeline tl
    | None => Crash
    end;
    Pager (audit_page p)].

(** ** The accounts of a user *)

Definition account_card (index : nat) (a : AdminAccount) : element :=
  let f name := member name (account_fields a) in
  el "div" [
    el "div" [
      el "span" [if (index =? 0)%nat then txt "Tài khoản chính"
                 else Text (u8 "Tài khoản " ++ js (Z_string (Z.of_nat index + 1)))];
      styled "span" (if is_text (js "active") (f "status") then "bg-emerald-500/10 text-emerald-400" else "bg-red-500/10 text-red-400")
        (entry_child STATUS_LABELS (f "status"))];
    el "div" [
      el "div" [el "p" [txt "Số tài khoản"]; el "p" (child (f "account_number"))];
      el "div" [el "p" [txt "Số dư"]; el "p" [Text (formatVND (f "balance"))]]];
    el "div" [
      el "p" [txt "Hạn mức ngày"];
      el "p" ([Text (vi_format (uor (f "daily_transfer_used") (UNum 0))); txt " / ";
               Text (vi_format (uor (f "daily_transfer_limit") (UNum 50000000))); txt " "] ++
              child (uor (f "currency") (UStr (js "VND"))))]].

(** The space around the dialog closes it. *)
Definition render_dialog (u : option AdminUser) (accounts : list AdminAccount) (loading : bool) : list element :=
  match u with
  | None => []
  | Some u => [Cover [
      Button [("element", js "div")] false (OnPage CloseUser) [];
      el "div" [
        el "div" [
          el "div" [
            el "div" [el "span" [Text (match toUpperCase (take 1 (trim (full_name u))) with [] => js "?" | s => s end)]];
            el "div" [el "h2" [Text (full_name u)]; el "p" (child (member "email" (user_fields u)))]];
          Button [("aria-label", u8 "Đóng")] false (OnPage CloseUser) [icon "X"]];
        if loading then Loading
        else match accounts with
             | [] => Empty "Người dùng chưa có tài khoản."
             | l => el "div" (imap account_card l)
             end]]]
  end.

(** ** The page *)

Definition bank_nav (here : View) : element :=
  el "aside" (map (fun n =>
      let '(v, label, symbol) := n in
      Button [("className", js (if bool_decide (here = v) then "bg-cyan-600/15 text-cyan-400 border border-cyan-500/20"
                                else "text-muted-foreground hover:text-foreground hover:bg-accent/50"))] false
        (OnPage (SetView v)) [icon symbol; el "span" [txt label]]) BANK_NAV ++
    [el "div" [button (OnPage LogOut) [icon "LogOut"; el "span" [txt "Đăng xuất"]]]]).

Definition view_title (v : View) : string :=
  match List.find (fun n => bool_decide (n.1.1 = v)) BANK_NAV with Some n => n.1.2 | None => "" end.

Definition render_view (now : Z) (p : page) (tl : timeline) : list element :=
  if loading p then [Loading]
  else match view p with
       | overview => match overview_data p with Some o => guarded o [render_overview now o] | None => [] end
       | users => [render_users p]
       | transactions => [render_transactions p]
       | audit => [render_audit p tl]
       end.

(** [AdminBank], whose chart was computed at the time [now]. *)
Definition render_AdminBank (now : Z) (p : page) (login : PinLogin.login) (tl : timeline) : element :=
  if negb (authenticated p) then bank_LoginPanel OnLogin login
  else
    el "div" ([
      bank_Header;
      el "div" [
        bank_nav (view p);
        el "main" [el "div" ([
          el "div" [
            el "div" [el "h1" [txt (view_title (view p))]];
            Button [] (loading p) (OnPage Reload)
              [styled "RefreshCw" (if loading p then "animate-spin" else "") []; txt " Làm mới"]]] ++
          when (nonempty (error p)) [el "div" [icon "ShieldAlert"; txt " "; Text (error p)]] ++
          render_view now p tl)]]] ++
      render_dialog (selectedUser p) (accounts p) (accountsLoading p)).
End view.

(** ** What the parts offer *)

Section draws.

Context `{P : Platform} `{L : Locale}.

Lemma offers_user_row n u i : draws (user_row n u) i <-> i = OnPage (SelectUser n).
Proof.
  unfold draws, user_row, cell. compute_view. rewrite !child_controls, entry_controls. read_controls. tauto.
Qed.

Lemma offers_pager {A} (p : PageResult A) i :
  draws (Pager p) i <-> (is_Some (pager_prev p) /\ i = OnPage PagerPrev) \/ (is_Some (pager_next p) /\ i = OnPage PagerNext).
Proof.
  unfold Pager. destruct (bool_decide_reflect (is_Some (pager_prev p))), (bool_decide_reflect (is_Some (pager_next p)));
    cbn [negb]; read_controls; tauto.
Qed.

Lemma offers_filter_form l i :
  existsb submits l = false ->
  draws (filter_form l) i <-> i = OnPage SubmitFilter \/ Exists (gives i) (flat_map controls l).
Proof.
  intros Hl. unfold draws, filter_form. cbn [controls]. rewrite existsb_app, flat_map_app. cbn [existsb submits negb orb].
  rewrite Hl. cbn [orb flat_map controls txt app]. rewrite app_nil_r, Exists_cons. done.
Qed.

Lemma th_controls labels : controls (I := bank_input) (th_row labels) = [].
Proof.
  unfold th_row. cbn [controls flat_map el]. rewrite !app_nil_r. induction labels as [|l labels IH]; [done|]. exact IH.
Qed.

Lemma offers_users p i :
  draws (render_users p) i <->
    i = OnPage SubmitFilter \/ (exists v, i = OnPage (SetFilters (with_email (filters p) v))) \/
    (exists v, v ∈ map fst USER_STATUS /\ i = OnPage (SetFilters (with_user_status (filters p) v))) \/
    (exists n u, pr_items (user_page p) !! n = Some u /\ i = OnPage (SelectUser n)) \/ draws (Pager (user_page p)) i.
Proof.
  unfold draws at 1, render_users. generalize USER_STATUS. intros options. cbn [controls flat_map el]. rewrite !Exists_app.
  change (Exists (gives i) (controls ?n)) with (draws n i). rewrite offers_filter_form by done.
  assert (Ht : forall l, draws (users_table l) i <-> exists n u, l !! n = Some u /\ i = OnPage (SelectUser n)).
  { intros [|u l]; [unfold users_table, Empty; read_controls; naive_solver|]. unfold draws, users_table.
    cbn [controls flat_map el]. rewrite th_controls, !app_nil_r. cbn [app]. rewrite offers_imap. by setoid_rewrite offers_user_row. }
  rewrite Ht. read_controls. tauto.
Qed.

Lemma badge_controls status : controls (TxBadge status) = [].
Proof. unfold TxBadge. destruct (List.find _ _) as [[? [? ?]]|]; [done|]. by destruct (existsb _ _). Qed.

Lemma trunc_controls v n : flat_map controls (trunc v n) = [].
Proof. unfold trunc. destruct v; try apply child_controls; try done. destruct (_ <? _)%nat; [done | apply child_controls]. Qed.

Lemma transaction_controls t : controls (transaction_row t) = [].
Proof.
  unfold transaction_row, cell. set (f := fun name => member name t). cbv zeta.
  assert (H : forall l, flat_map controls l = [] -> controls (data_row t l) = []) by (intros l Hl; unfold data_row; by destruct t).
  apply H. compute_view. rewrite !child_controls, trunc_controls. by destruct (is_text _ _); [|rewrite badge_controls].
Qed.

Lemma offers_transactions p i :
  draws (render_transactions p) i <->
    i = OnPage SubmitFilter \/
    (exists v, v ∈ map fst TRANSACTION_STATUS /\ i = OnPage (SetFilters (with_transaction_status (filters p) v))) \/
    draws (Pager (transaction_page p)) i.
Proof.
  unfold draws at 1, render_transactions. generalize TRANSACTION_STATUS. intros options. cbn [controls flat_map el].
  rewrite !Exists_app. change (Exists (gives i) (controls ?n)) with (draws n i). rewrite offers_filter_form by done.
  assert (Ht : forall l, flat_map controls (map transaction_row l) = [])
    by (induction l as [|t l IH]; [done|]; cbn [map flat_map]; by rewrite transaction_controls, IH).
  assert (Hx : forall l, draws (transactions_table l) i <-> False).
  { unfold draws. intros [|t l]; [apply Exists_nil|]. unfold transactions_table. cbn [controls flat_map el].
    rewrite th_controls, Ht. apply Exists_nil. }
  rewrite Hx. read_controls. tauto.
Qed.

Lemma offers_audit p tl events i : audit_rows (pr_items (audit_page p)) = Some events ->
  draws (render_audit p tl) i <->
    i = OnPage SubmitFilter \/
    (exists v, v ∈ map fst AUDIT_ACTIONS /\ i = OnPage (SetFilters (with_action (filters p) v))) \/
    (exists ti, i = OnTimeline ti /\ is_Some (timeline_react (bank_timeline_props events) tl ti)) \/
    i = OnPage RefreshAudit \/ draws (Pager (audit_page p)) i.
Proof.
  intros He. unfold draws at 1, render_audit. rewrite He. generalize AUDIT_ACTIONS. intros options. cbn [controls flat_map el].
  rewrite !Exists_app. change (Exists (gives i) (controls ?n)) with (draws n i). rewrite offers_filter_form by done.
  rewrite offers_timeline. unfold handed. cbn [tp_onRefresh tp_onRetry tp_onViewSession bank_timeline_props]. read_controls.
  split.
  - intros H. destruct_or! H; try tauto; naive_solver.
  - intros H. destruct_or! H; naive_solver.
Qed.

(** The dialog offers to be closed. *)
Lemma offers_dialog toUpperCase u l busy i :
  Exists (gives i) (flat_map controls (render_dialog toUpperCase u l busy)) <-> is_Some u /\ i = OnPage CloseUser.
Proof.
  unfold render_dialog. destruct u as [u|]; [|rewrite Exists_nil; naive_solver].
  assert (Hc : forall n a, controls (account_card n a) = []).
  { intros n a. unfold account_card. destruct (n =? 0)%nat; compute_view; by rewrite !child_controls, entry_controls. }
  assert (Hbody : controls (if busy then Loading else match l with
     | [] => Empty "Người dùng chưa có tài khoản." | l => el "div" (imap account_card l) end) = []).
  { destruct busy; [done|]. destruct l as [|a l]; [done|]. by apply imap_controls. }
  cbn [flat_map controls el txt button icon app]. rewrite child_controls. cbn [app].
  rewrite !Exists_cons, Exists_app. cbn [gives].
  rewrite Hbody, !Exists_nil. split; [intros [H|[H|[[]|[]]]]; by split | intros [_ H]; by left].
Qed.

Lemma bank_nav_offers here i : draws (bank_nav here) i <-> (exists v, i = OnPage (SetView v)) \/ i = OnPage LogOut.
Proof. unfold bank_nav, BANK_NAV. read_controls. split; [naive_solver|]. intros [[[] ->]|H]; tauto. Qed.

Lemma chart_controls now : controls (render_chart now) = [].
Proof. reflexivity. Qed.

Lemma overview_controls now o : controls (render_overview now o) = [].
Proof.
  assert (Hs : forall label v sub symbol color, controls (StatCard label v sub symbol color) = [])
    by (intros label v [s|] symbol color; unfold StatCard; [by destruct (nonempty s) | done]).
  unfold render_overview. cbn [controls flat_map el]. by rewrite !Hs, chart_controls.
Qed.

Lemma offers_bank_login p i :
  draws (bank_LoginPanel OnLogin p) i <->
    PinLogin.left_page p = false /\ PinLogin.keypad p = true /\ exists k, offered_key k = true /\ i = OnLogin k.
Proof.
  unfold bank_LoginPanel, PinLogin.keypad. destruct (PinLogin.left_page p); [read_controls; naive_solver|].
  destruct (PinLogin.ready p); [|read_controls; naive_solver]. destruct (PinLogin.enrolled p); [|read_controls; naive_solver].
  unfold draws, PinDots, Link. destruct (PinLogin.verifying p), (nonempty (PinLogin.error p));
    compute_view; rewrite ?initial_controls, ?dots_controls; read_controls.
  all: try change (Exists (gives i) (controls ?n)) with (draws n i).
  all: rewrite ?offers_PinKeypad; naive_solver.
Qed.
End draws.

(** ** The page and its machine *)

#[export] Instance BankFilters_eq_dec : EqDecision Filters.
Proof. solve_decision. Defined.

(** What the form of a view can change: a text is typed, the others are options. *)
Definition form_step (v : View) (f f' : Filters) : bool :=
  match v with
  | overview => false
  | users =>
      bool_decide (f' = with_email f (userEmail f')) ||
      (bool_decide (f' = with_user_status f (userStatus f')) && bool_decide (userStatus f' ∈ map fst USER_STATUS))
  | transactions =>
      bool_decide (f' = with_transaction_status f (transactionStatus f')) &&
      bool_decide (transactionStatus f' ∈ map fst TRANSACTION_STATUS)
  | audit => bool_decide (f' = with_action f (auditAction f')) && bool_decide (auditAction f' ∈ map fst AUDIT_ACTIONS)
  end.

Definition in_form (p : page) (i : input) : bool :=
  match i with SetFilters f => form_step (view p) (filters p) f | _ => true end.

(** What the user does, in contrast to the replies. *)
Definition by_user (i : input) : bool := match i with LoggedIn | ViewReply _ _ | AccountsReply _ _ => false | _ => true end.

Section correspondence.

Context `{P : Platform} `{L : Locale} (toUpperCase : ustr -> ustr) (thrown_message : js_exception -> ustr).

#[local] Notation react := (AdminBankPage.react toUpperCase thrown_message).
#[local] Notation render := (render_AdminBank toUpperCase).

(** What the page takes from the user, read off its guards. *)
Definition page_takes (p : page) (i : input) : Prop :=
  authenticated p = true /\
  match i with
  | SetView _ | LogOut => True
  | Reload => loading p = false
  | SetFilters f => loading p = false /\ form_step (view p) (filters p) f = true
  | SubmitFilter => loading p = false /\ view p <> overview
  | PagerPrev => loading p = false /\ is_Some (pager_of (@pager_prev) p)
  | PagerNext => loading p = false /\ is_Some (pager_of (@pager_next) p)
  | RefreshAudit => loading p = false /\ view p = audit
  | SelectUser n => loading p = false /\ view p = users /\ is_Some (pr_items (user_page p) !! n)
  | CloseUser => is_Some (selectedUser p)
  | _ => False
  end.

Lemma bank_reacts p i : by_user i = true /\ in_form p i = true /\ is_Some (react p i) <-> page_takes p i.
Proof.
  unfold page_takes, AdminBankPage.react.
  destruct i as [v| |f| | | | |n| | | |k r|k r]; cbn [by_user in_form]; try (split; [by intros [? _] | by intros [_ ?]]).
  all: destruct (authenticated p); [cbn [user_react] | split; [by intros (_ & _ & ? & ?) | by intros [? _]]].
  - destruct (bool_decide (v = view p)); naive_solver.
  - destruct (loading p); naive_solver.
  - destruct (loading p); naive_solver.
  - destruct (loading p), (bool_decide_reflect (view p = overview)); cbn [orb]; naive_solver.
  - destruct (loading p); [naive_solver|]. destruct (pager_of _ p); naive_solver.
  - destruct (loading p); [naive_solver|]. destruct (pager_of _ p); naive_solver.
  - destruct (loading p), (bool_decide_reflect (view p = audit)); cbn [orb negb]; naive_solver.
  - destruct (loading p), (bool_decide_reflect (view p = users)); cbn [orb negb]; try naive_solver.
    destruct (pr_items (user_page p) !! n); naive_solver.
  - destruct (selectedUser p); naive_solver.
  - naive_solver.
Qed.

(** The forms change what [form_step] lets them. *)
Lemma users_form f f' : form_step users f f' = true <->
  (exists v, f' = with_email f v) \/ (exists v, v ∈ map fst USER_STATUS /\ f' = with_user_status f v).
Proof.
  unfold form_step. rewrite orb_true_iff, andb_true_iff, !bool_decide_eq_true. split.
  - intros [H|[H Hv]]; [left; by eexists | right; by eexists].
  - intros [[v ->]|(v & Hv & ->)]; [by left | by right].
Qed.

Lemma transactions_form f f' : form_step transactions f f' = true <->
  exists v, v ∈ map fst TRANSACTION_STATUS /\ f' = with_transaction_status f v.
Proof.
  unfold form_step. rewrite andb_true_iff, !bool_decide_eq_true. split; [intros [H Hv]; by eexists | by intros (v & Hv & ->)].
Qed.

Lemma audit_form f f' : form_step audit f f' = true <-> exists v, v ∈ map fst AUDIT_ACTIONS /\ f' = with_action f v.
Proof.
  unfold form_step. rewrite andb_true_iff, !bool_decide_eq_true. split; [intros [H Hv]; by eexists | by intros (v & Hv & ->)].
Qed.

Lemma view_renders now p tl : authenticated p = true -> loading p = false -> view p = audit ->
  (exists login, crashes (render now p login tl) = false) -> exists events, audit_rows (pr_items (audit_page p)) = Some events.
Proof.
  intros Ha Hl Hv [login Hc]. destruct (audit_rows (pr_items (audit_page p))) as [events|] eqn:He; [by exists events|].
  unfold render_AdminBank in Hc. rewrite Ha in Hc. cbn [negb crashes el] in Hc. rewrite existsb_app in Hc.
  cbn [existsb crashes el] in Hc. rewrite !existsb_app in Hc. unfold render_view in Hc. rewrite Hl, Hv in Hc.
  unfold render_audit in Hc. rewrite He in Hc. cbn [existsb crashes el] in Hc. rewrite ?orb_true_r in Hc. cbn in Hc.
  by rewrite ?orb_true_r in Hc.
Qed.

(** The shown view offers what its form, its rows and its pages take. *)
Lemma offers_view now p tl i : authenticated p = true ->
  (loading p = false -> view p = audit -> exists events, audit_rows (pr_items (audit_page p)) = Some events) ->
  Exists (gives i) (flat_map controls (render_view now p tl)) <->
    (exists pi, i = OnPage pi /\ page_takes p pi /\
       match pi with SetFilters _ | SubmitFilter | PagerPrev | PagerNext | RefreshAudit | SelectUser _ => True | _ => False end) \/
    exists ti events, i = OnTimeline ti /\ loading p = false /\ view p = audit /\
      audit_rows (pr_items (audit_page p)) = Some events /\ is_Some (timeline_react (bank_timeline_props events) tl ti).
Proof.
  intros Ha He. unfold render_view, page_takes. rewrite Ha. unfold pager_of.
  destruct (loading p); [unfold Loading; read_controls; split; [tauto|]; intros [(pi & _ & [_ Hp] & Hk)|(? & ? & _ & ? & _)]; [|done];
    destruct pi; tauto || by destruct Hp|].
  destruct (view p) eqn:Hv.
  - assert (Hn : flat_map controls (match overview_data p with Some o => guarded o [render_overview now o] | None => [] end) = []).
    { destruct (overview_data p) as [o|]; [|done]. rewrite guarded_controls. cbn [flat_map]. rewrite overview_controls. by destruct (utruthy o). }
    rewrite Hn, Exists_nil. split; [done|]. intros [(pi & _ & [_ Hp] & Hk)|(? & ? & _ & _ & ? & _)]; [|done].
    destruct pi; try done; destruct Hp as [_ Hp]; try done; by destruct Hp.
  - cbn [flat_map]. rewrite app_nil_r. change (Exists (gives i) (controls ?n)) with (draws n i). rewrite offers_users, offers_pager. split.
    + intros [->|[[v ->]|[(v & Hin & ->)|[(n & u & Hu & ->)|[[Hn ->]|[Hn ->]]]]]]; left;
        (eexists; split; [reflexivity|]; split; [split; [done|]|done]); try (split; [done|]); try done.
      * apply users_form. left. by eexists.
      * apply users_form. right. by eexists.
    + intros [(pi & -> & [_ Hp] & Hk)|(? & ? & _ & _ & ? & _)]; [|done].
      destruct pi as [v| |f| | | | |n| | | |k r|k r]; try done; destruct Hp as [_ Hp]; try done.
      * apply users_form in Hp as [[v ->]|(v & Hin & ->)]; [right; left; by exists v | do 2 right; left; by exists v].
      * by left.
      * do 4 right. by left.
      * do 4 right. by right.
      * destruct Hp as [_ [u Hu]]. do 3 right. left. by exists n, u.
  - cbn [flat_map]. rewrite app_nil_r. change (Exists (gives i) (controls ?n)) with (draws n i). rewrite offers_transactions, offers_pager. split.
    + intros [->|[(v & Hin & ->)|[[Hn ->]|[Hn ->]]]]; left;
        (eexists; split; [reflexivity|]; split; [split; [done|]|done]); try (split; [done|]); try done.
      apply transactions_form. by eexists.
    + intros [(pi & -> & [_ Hp] & Hk)|(? & ? & _ & _ & ? & _)]; [|done].
      destruct pi as [v| |f| | | | |n| | | |k r|k r]; try done; destruct Hp as [_ Hp]; try done.
      * apply transactions_form in Hp as (v & Hin & ->). right; left. by exists v.
      * by left.
      * do 2 right. by left.
      * do 2 right. by right.
      * by destruct Hp.
  - destruct (He eq_refl eq_refl) as [events Hev]. cbn [flat_map]. rewrite app_nil_r.
    change (Exists (gives i) (controls ?n)) with (draws n i). rewrite (offers_audit p tl events i Hev), offers_pager. split.
    + intros [->|[(v & Hin & ->)|[(ti & -> & Hr)|[->|[[Hn ->]|[Hn ->]]]]]]; [left|left|right|left..];
        try (eexists; split; [reflexivity|]; split; [split; [done|]|done]; try (split; [done|]); try done).
      * apply audit_form. by eexists.
      * exists ti, events. by split_and!.
    + intros [(pi & -> & [_ Hp] & Hk)|(ti & ev & -> & _ & _ & Hev' & Hr)].
      * destruct pi as [v| |f| | | | |n| | | |k r|k r]; try done; destruct Hp as [_ Hp]; try done.
        -- apply audit_form in Hp as (v & Hin & ->). right; left. by exists v.
        -- by left.
        -- do 4 right. by left.
        -- do 4 right. by right.
        -- do 3 right. by left.
        -- by destruct Hp.
      * rewrite Hev in Hev'. injection Hev' as ->. do 2 right; left. by exists ti.
Qed.

(** C33: the bank administrator's page offers what its machines take. As long as it
    is rendered without a crash, the controls give exactly the inputs of the user
    for which the page has a step, a form changing its own filters only; the
    timeline of the audit view and the keys of the login are offered while they
    are shown. *)
Theorem bank_controls now p login tl : crashes (render now p login tl) = false ->
  (forall i, offers (render now p login tl) (OnPage i) <-> by_user i = true /\ in_form p i = true /\ is_Some (react p i)) /\
  (forall ti, offers (render now p login tl) (OnTimeline ti) <->
     exists events, (authenticated p = true /\ loading p = false /\ view p = audit) /\
       audit_rows (pr_items (audit_page p)) = Some events /\ is_Some (timeline_react (bank_timeline_props events) tl ti)) /\
  (forall k, offers (render now p login tl) (OnLogin k) <->
     authenticated p = false /\ PinLogin.left_page login = false /\ PinLogin.keypad login = true /\ offered_key k = true).
Proof.
  intros Hc. assert (Ho : forall i, offers (render now p login tl) i <-> draws (render now p login tl) i)
    by (intros i; by apply offers_shown).
  setoid_rewrite Ho. clear Ho. destruct (authenticated p) eqn:Ha.
  2: { assert (Hr : render now p login tl = bank_LoginPanel OnLogin login) by (unfold render_AdminBank; by rewrite Ha).
    rewrite Hr. split_and!; intros x; rewrite offers_bank_login; [|naive_solver..].
    rewrite bank_reacts. split; [by intros (_ & _ & k & _ & [=]) | intros [H _]; congruence]. }
  assert (Hall : forall i, draws (render now p login tl) i <->
    (exists pi, i = OnPage pi /\ page_takes p pi) \/
    exists ti events, i = OnTimeline ti /\ loading p = false /\ view p = audit /\
      audit_rows (pr_items (audit_page p)) = Some events /\ is_Some (timeline_react (bank_timeline_props events) tl ti)).
  { intros i. assert (He : loading p = false -> view p = audit -> exists events, audit_rows (pr_items (audit_page p)) = Some events)
      by (intros Hl Hv; apply (view_renders now p tl Ha Hl Hv); by exists login).
    pose proof (offers_view now p tl i Ha He) as Hv.
    assert (Hr : draws (render now p login tl) i <->
      (exists v, i = OnPage (SetView v)) \/ i = OnPage LogOut \/ (loading p = false /\ i = OnPage Reload) \/
      Exists (gives i) (flat_map controls (render_view now p tl)) \/ (is_Some (selectedUser p) /\ i = OnPage CloseUser)).
    { unfold render_AdminBank. rewrite Ha. cbn [negb]. unfold draws at 1. cbn [controls el bank_Header].
      rewrite flat_map_app, Exists_app, offers_dialog. cbn [controls flat_map el icon txt app]. rewrite !app_nil_r, !Exists_app.
      change (Exists (gives i) (controls (bank_nav (view p)))) with (draws (bank_nav (view p)) i). rewrite bank_nav_offers.
      rewrite !flat_map_app, !Exists_app. cbn [controls flat_map el icon txt app styled].
      assert (Hx : flat_map controls (when (nonempty (error p)) [el "div" [icon "ShieldAlert"; txt " "; Text (error p)]] : list (node bank_input)) = [])
        by by destruct (nonempty (error p)).
      rewrite Hx. destruct (loading p); rewrite ?app_nil_r, ?Exists_cons, !Exists_nil; cbn [gives]; intuition discriminate. }
    rewrite Hr, Hv. unfold page_takes. rewrite Ha. split.
    - intros [[v ->]|[->|[[Hl ->]|[[(pi & -> & [_ Hp] & _)|H]|[Hs ->]]]]]; [left..|by right|left]; by eexists.
    - intros [(pi & -> & _ & Hp)|H]; [|tauto].
      destruct pi as [v| |f| | | | |n| | | |k r|k r]; try done; [left; by exists v | tauto| | | | | | | tauto | tauto].
      all: do 3 right; left; left; eexists; (split; [reflexivity|]); by split. }
  split_and!; intros x; rewrite Hall, ?bank_reacts; split.
  - intros [(pi & [= <-] & H)|(? & ? & [=] & _)]. exact H.
  - intros H. left. by exists x.
  - intros [(pi & [=] & _)|(ti & events & [= <-] & Hl & Hv & H)]. by exists events.
  - intros (events & (_ & Hl & Hv) & H). right. by exists x, events.
  - intros [(pi & [=] & _)|(? & ? & [=] & _)].
  - by intros [? _].
Qed.
End correspondence.

(** ** No crash *)

Definition no_prototype (key : ujson) : bool := negb (ustr_eqb (ustring key) (js "__proto__")).

(** Rows whose fields the page can show. *)
Definition plain_user (u : AdminUser) : bool :=
  let f name := member name (user_fields u) in primitive (f "email") && primitive (f "account_count") && no_prototype (f "status").

Definition plain_account (a : AdminAccount) : bool :=
  let f name := member name (account_fields a) in
  primitive (f "account_number") && primitive (f "currency") && no_prototype (f "status").

Definition known_status (status : ujson) : bool :=
  existsb (fun s => is_text (js s) status) ["unknown"; "completed"; "failed"; "pending"].

Definition plain_transaction (t : ujson) : bool :=
  let f name := member name t in
  match t with UUndefined | UNull => false | _ => true end &&
  primitive (f "from_account_number") && primitive (f "to_account_number") && primitive (f "description") &&
  known_status (f "status") && match f "current_hash" with UStr _ => true | _ => false end.

(** The data of a page. *)
Record plain_page `{L : Locale} (p : page) : Prop := {
  pp_users : forallb plain_user (pr_items (user_page p)) = true;
  pp_transactions : forallb plain_transaction (pr_items (transaction_page p)) = true;
  pp_audit : exists events, audit_rows (pr_items (audit_page p)) = Some events /\ forallb plain_row events = true;
  pp_accounts : forallb plain_account (accounts p) = true;
  pp_selected : forall u, selectedUser p = Some u -> plain_user u = true
}.

Section shown.

Context `{P : Platform} `{L : Locale} (toUpperCase : ustr -> ustr).

Lemma user_shown n u : plain_user u = true -> crashes (user_row n u) = false.
Proof.
  unfold plain_user. intros H. apply andb_true_iff in H as [H Hs]. apply andb_true_iff in H as [He Ha].
  unfold user_row, cell. cbn [crashes existsb el styled]. rewrite !child_shown, entry_shown; [done| |done|done].
  by apply negb_true_iff.
Qed.

Lemma account_shown n a : plain_account a = true -> crashes (account_card n a) = false.
Proof.
  unfold plain_account. intros H. apply andb_true_iff in H as [H Hs]. apply andb_true_iff in H as [Hn Hc]. apply negb_true_iff in Hs.
  unfold account_card. cbn [crashes existsb el styled txt app]. rewrite !child_shown, entry_shown by (done || by apply uor_primitive).
  by destruct (n =? 0)%nat.
Qed.

Lemma badge_shown status : known_status status = true -> is_text (js "unknown") status = false -> crashes (TxBadge status) = false.
Proof.
  unfold known_status. cbn [existsb]. intros H Hu. rewrite Hu in H. cbn [orb] in H. rewrite !orb_true_iff, !is_text_true in H.
  destruct H as [->|[->|[->|H]]]; done.
Qed.

Lemma transaction_shown t : plain_transaction t = true -> crashes (transaction_row t) = false.
Proof.
  unfold plain_transaction. intros H. repeat (apply andb_true_iff in H as [H ?]).
  assert (Hr : forall l, existsb crashes l = false -> crashes (data_row t l) = false)
    by (intros l Hl; unfold data_row; by destruct t).
  unfold transaction_row, cell. apply Hr. cbn [crashes existsb el txt]. rewrite !child_shown by (done || by apply uor_primitive).
  destruct (member "current_hash" t); try done. cbn [trunc existsb crashes]. rewrite !orb_false_r. cbn [orb].
  destruct (is_text (js "unknown") (member "status" t)) eqn:Hu; [done|]. by apply badge_shown.
Qed.

Lemma pager_shown {A} (p : PageResult A) : crashes (Pager p) = false.
Proof. done. Qed.

Lemma overview_shown now o : crashes (render_overview now o) = false.
Proof.
  assert (Hs : forall label v sub symbol color, crashes (StatCard label v sub symbol color) = false)
    by (intros label v [s|] symbol color; unfold StatCard; [by destruct (nonempty s) | done]).
  unfold render_overview. cbn [crashes existsb el]. by rewrite !Hs.
Qed.

Lemma users_shown p : forallb plain_user (pr_items (user_page p)) = true -> crashes (render_users p) = false.
Proof.
  intros Hu. unfold render_users, users_table. cbn [crashes existsb el filter_form app]. destruct (pr_items (user_page p)) as [|u l]; [done|].
  cbn [crashes existsb el]. rewrite imap_shown; [done|]. intros j x Hx. apply user_shown. by apply (all_elem _ (u :: l)).
Qed.

Lemma transactions_shown p : forallb plain_transaction (pr_items (transaction_page p)) = true -> crashes (render_transactions p) = false.
Proof.
  intros Hu. unfold render_transactions, transactions_table. cbn [crashes existsb el filter_form app].
  destruct (pr_items (transaction_page p)) as [|t l]; [done|].
  cbn [crashes el]. cbn [existsb crashes el]. rewrite map_shown; [done|]. intros x Hx. apply transaction_shown. by apply (all_elem _ (t :: l)).
Qed.

Lemma dialog_shown u l busy : (forall v, u = Some v -> plain_user v = true) -> forallb plain_account l = true ->
  existsb crashes (render_dialog toUpperCase u l busy) = false.
Proof.
  intros Hu Hl. unfold render_dialog. destruct u as [u|]; [|done]. specialize (Hu u eq_refl). unfold plain_user in Hu.
  apply andb_true_iff in Hu as [Hu _]. apply andb_true_iff in Hu as [He _].
  cbn [existsb crashes el txt icon]. rewrite child_shown by done. cbn [orb]. destruct busy; [done|]. destruct l as [|a l]; [done|].
  cbn [crashes el]. rewrite imap_shown; [done|]. intros j x Hx. apply account_shown. by apply (all_elem _ (a :: l)).
Qed.

(** A page whose data are plain is rendered. *)
Lemma bank_shown now p login tl : plain_page p -> crashes (render_AdminBank toUpperCase now p login tl) = false.
Proof.
  intros [Hu Ht (events & He & Hev) Hac Hs]. unfold render_AdminBank. destruct (authenticated p); cbn [negb].
  2: { unfold bank_LoginPanel. destruct (PinLogin.left_page login), (PinLogin.ready login), (PinLogin.enrolled login); try done.
    unfold initial. by destruct (PinLogin.verifying login), (nonempty (PinLogin.error login)), (vi_upper _). }
  cbn [crashes el]. rewrite existsb_app, (dialog_shown _ _ _ Hs Hac), orb_false_r. cbn [existsb crashes el].
  rewrite !existsb_app. assert (Hv : existsb crashes (render_view now p tl) = false).
  { unfold render_view. destruct (loading p); [done|]. destruct (view p); cbn [existsb].
    - destruct (overview_data p) as [o|]; [|done]. unfold guarded. destruct (utruthy o) eqn:Ho; cbn [existsb]; [by rewrite overview_shown|].
      apply child_shown. by destruct o.
    - by rewrite users_shown.
    - by rewrite transactions_shown.
    - unfold render_audit. rewrite He. cbn [crashes existsb el filter_form]. by rewrite timeline_shown, pager_shown. }
  rewrite Hv. by destruct (nonempty (error p)).
Qed.
End shown.

(** ** A concrete page *)

Definition nothing_thrown : js_exception -> ustr := fun _ => [].

(** The users of a reply are shown. *)
Definition users_listed : page :=
  {| authenticated := true; view := users; loading := false; error := []; overview_data := None;
     user_page := {| pr_items := [a_user "u1" "An"; a_user "u2" "Ba"]; pr_total := 30; pr_limit := 20; pr_offset := 0 |};
     transaction_page := emptyPage; audit_page := emptyPage; accounts := []; accountsLoading := false; selectedUser := None;
     filters := {| userEmail := []; userStatus := []; transactionStatus := []; auditAction := [] |}; pending := []; next := 0 |}.

Definition a_bank_login : PinLogin.login := PinLogin.opened (PinLogin.bank_admin_login (fun s => s) nothing_thrown).

Lemma bank_controls_witness :
  offers (render_AdminBank (P := demo_platform) (fun s => s) 0 users_listed a_bank_login new_timeline) (OnPage (SelectUser 1)) /\
  offers (render_AdminBank (P := demo_platform) (fun s => s) 0 users_listed a_bank_login new_timeline) (OnPage PagerNext).
Proof.
  assert (Hc : crashes (render_AdminBank (P := demo_platform) (fun s => s) 0 users_listed a_bank_login new_timeline) = false)
    by reflexivity.
  destruct (bank_controls (P := demo_platform) (fun s => s) nothing_thrown 0 users_listed a_bank_login new_timeline Hc) as [H _].
  split; apply H; (split; [reflexivity|]; split; [reflexivity | by eexists]).
Defined.
