(* ===== verification/SocPage.v ===== *)
(** * The page of the security administrator ([pages/AdminSOC.tsx])

    The login form, the session drawer, the cross-service panel with the check of
    the audit chains, and the page that holds them; the list of key issuances is
    [AdminCaPage.AuditPanel] and the timeline [TimelineView]. [drawer_of_request] is
    whose events the drawer shows. *)

From S2P Require Import Prelude JsString JsDate Effects Gateway Json Redis Activation Schema Validators AuditSemantics AuditFetch AuditTimeline UString UJson WebCrypto Wire Browser PageRun PinPages AdminClient AdminCaPage TimelineView.

Open Scope Z_scope.

(** [errorMessage] of this page. *)
Definition socErrorMessage (thrown_message : js_exception -> ustr) (err : js_exception) : ustr :=
  match err with ApiError _ message _ => message | JsError message => message | e => thrown_message e end.

(** ** The verdict on the audit chains *)

Definition is_false (j : ujson) : bool := match j with UBool false => true | _ => false end.

(** [!s.checked || s.ok !== false]. *)
Definition source_ok (s : ujson) : bool := negb (utruthy (member "checked" s)) || negb (is_false (member "ok" s)).

(** What is said of one source. *)
Definition source_status (s : ujson) : ustr :=
  if utruthy (member "checked" s) then
    if utruthy (member "ok" s) then js "ok (" ++ ustring (member "verified" s) ++ js ")"
    else js "broken @" ++ ustring (member "broken_seq" s)
  else ustring (unullish (member "detail" s) (UStr (js "skipped"))).

(** [data] of an answer, as the client has it. *)
Definition client_data (o : Gateway.outcome) : option ujson :=
  match o with Respond _ _ (Json (JObj l)) => widen <$> field "data" l | _ => None end.

(** ** The login form *)

Section soc_login.

Context `{P : Platform} `{W : WebCrypto} `{ClientEnv}.

(** [submit]: the address of the session that is then shown. *)
Definition submitLogin (email password : ustr) : br ujson :=
  let* session := loginSecAdmin (UString.toLowerCase (UString.trim email)) password in
  do* storeSocSession session in
  prop_of "email" session.

End soc_login.

(** ** The session drawer *)

Module SessionDrawer.

(** [live] is the effect whose reply is still looked at; the tasks know, for the
    proofs, what was asked for. *)
Record drawer := {
  requestId : ustr; items : list AuditEventVM; loading : bool; error : ustr; live : option nat;
  pending : list (nat * ustr); next : nat
}.

Inductive call := GetAuditTimeline (id : ustr).

Inductive input := ShowRequest (id : ustr) | Reply (k : nat) (r : result js_exception ujson).

(** [res.items.map(...)]. *)
Definition timeline_rows (res : ujson) : result js_exception (list AuditEventVM) :=
  match res with
  | UUndefined | UNull => Err type_error
  | _ => match member "items" res with UArr l => rows l | _ => Err type_error end
  end.

Section session_drawer.

Context (errorMessage : js_exception -> ustr).

(** The effect on [requestId]. *)
Definition effect (d : drawer) : drawer * list call :=
  ({| requestId := requestId d; items := items d; loading := true; error := []; live := Some (next d);
      pending := pending d ++ [(next d, requestId d)]; next := S (next d) |}, [GetAuditTimeline (requestId d)]).

Definition opened (id : ustr) : drawer * list call :=
  effect {| requestId := id; items := []; loading := true; error := []; live := None; pending := []; next := 0 |}.

Definition replied (k : nat) (r : result js_exception ujson) (l : list (nat * ustr)) (d : drawer) : drawer :=
  let d' its err busy lv :=
    {| requestId := requestId d; items := its; loading := busy; error := err; live := lv; pending := l; next := next d |} in
  if bool_decide (live d = Some k) then
    match rbind r timeline_rows with
    | Ok its => d' its (error d) false None
    | Err e => d' (items d) (errorMessage e) false None
    end
  else d' (items d) (error d) (loading d) (live d).

Definition react (d : drawer) (i : input) : option (drawer * list call) :=
  match i with
  | ShowRequest id =>
      if ustr_eqb id (requestId d) then Some (d, [])
      else Some (effect {| requestId := id; items := items d; loading := loading d; error := error d; live := live d;
                           pending := pending d; next := next d |})
  | Reply k r =>
      match take_numbered k (pending d) with Some (_, l) => Some (replied k r l d, []) | None => None end
  end.

(** Failures have a message. *)
Definition has_message (d : drawer) (i : input) : bool :=
  match i with
  | Reply _ r => match rbind r timeline_rows with Ok _ => true | Err e => Wire.nonempty (errorMessage e) end
  | ShowRequest _ => true
  end.

#[local] Notation run := (list (step_taken drawer input call)).

(** The rows are those of a reply to the query for a request. *)
Definition answered (t : run) (id : ustr) (its : list AuditEventVM) : Prop :=
  exists s k res, s ∈ t /\ by_input s = Reply k (Ok res) /\ (k, id) ∈ pending (before s) /\ timeline_rows res = Ok its.

Lemma drawer_answered_cons s t id its : answered t id its -> answered (s :: t) id its.
Proof. intros (s' & k & res & Hs & H). exists s', k, res. split; [by apply list_elem_of_further | done]. Qed.

Record good (t : run) (d : drawer) : Prop := Good {
  go_numbered : numbered (next d) (pending d);
  go_live : forall k, live d = Some k -> (k, requestId d) ∈ pending d;
  go_loading : loading d = false -> live d = None;
  go_items : loading d = false -> error d = [] -> answered t (requestId d) (items d)
}.

Lemma good_effect t d : numbered (next d) (pending d) -> good t (effect d).1.
Proof.
  intros Hn. split; cbn; try done; [by apply numbered_add|].
  intros k [= <-]. apply elem_of_app. right. by apply list_elem_of_singleton.
Qed.

Lemma drawer_good_react t d i d' cs : good t d -> disciplined has_message react d i = Some (d', cs) ->
  good ({| before := d; by_input := i; calls := cs |} :: t) d'.
Proof.
  intros [H1 H2 H3 H4] Hr. apply disciplined_some in Hr as [Hm Hr]. unfold react in Hr. destruct i as [id|k r].
  - destruct (ustr_eqb id (requestId d)).
    + injection Hr as <- <-. split; auto using drawer_answered_cons.
    + injection Hr as <- <-. by apply (good_effect _ {| requestId := id; items := items d; loading := loading d;
        error := error d; live := live d; pending := pending d; next := next d |}).
  - destruct (take_numbered k (pending d)) as [[id l]|] eqn:Hk; [|done]. injection Hr as <- <-.
    apply take_numbered_some in Hk as [Hin ->]. unfold replied. case_bool_decide as Hl.
    + pose proof (numbered_unique _ _ _ _ _ H1 (H2 k Hl) Hin) as He. subst id.
      cbn [has_message] in Hm. destruct (rbind r timeline_rows) as [its|e] eqn:Hrow; split; cbn; try done; try by apply numbered_rest.
      * intros _ _. destruct r as [res|e]; [|done]. exists {| before := d; by_input := Reply k (Ok res); calls := [] |}, k, res.
        split_and!; [apply list_elem_of_here | done | done | done].
      * intros _ He. by rewrite He in Hm.
    + split; cbn; auto using numbered_rest.
      * intros k' Hk'. apply list_elem_of_filter. split; [|by apply H2]. cbn. congruence.
      * intros Hld Her. by apply drawer_answered_cons, H4.
Qed.

(** Whose events the drawer shows. In every run, whatever requests it is made
    to show and in whatever order the replies come, a drawer that has loaded
    without a message shows the rows of a reply to the query for the very request
    in its title. *)
Theorem drawer_of_request id0 t d :
  reaches (disciplined has_message react) (opened id0).1 t d -> loading d = false -> error d = [] ->
  answered t (requestId d) (items d).
Proof.
  intros Hp Hl He. assert (Hg : good t d); [|by apply (go_items _ _ Hg)].
  revert Hp. apply reaches_invariant; [|apply drawer_good_react]. apply good_effect, numbered_nil.
Qed.
End session_drawer.

Definition message : js_exception -> ustr := fun _ => js "failed".

Lemma drawer_of_request_witness :
  match run_inputs (disciplined (has_message message) (react message))
          [ShowRequest (js "r2"); Reply 1 (Ok (UObj [(js "items", UArr [UObj [(js "action", UStr (js "x"))]])]));
           Reply 0 (Ok (UObj [(js "items", UArr [])]))] [] (opened (js "r1")).1 with
  | Some (t, d) => answered t (js "r2") (items d) /\ length (items d) = 1%nat
  | None => False
  end.
Proof.
  destruct (run_inputs _ _ _ _) as [[t d]|] eqn:Hr; [|vm_compute in Hr; discriminate Hr].
  pose proof (run_inputs_reaches _ _ _ _ _ _ _ (reach_start _ _) Hr) as Hp.
  assert (Hd : loading d = false /\ error d = [] /\ requestId d = js "r2" /\ length (items d) = 1%nat)
    by (vm_compute in Hr; injection Hr as <- <-; by vm_compute).
  destruct Hd as (Hl & He & Hi & Hn). pose proof (drawer_of_request _ _ _ _ Hp Hl He) as Ha. rewrite Hi in Ha. by split.
Defined.
End SessionDrawer.

(** ** The cross-service panel *)

Module CrossServicePanel.

Inductive task := TSummary | TVerify | TExport.

Record panel := {
  summary : option ujson; verify : option ujson; verifying : bool; lookup : ustr; error : ustr;
  pending : list (nat * task); next : nat
}.

Inductive call := GetAuditSummary | VerifyAuditChains | Export (format : ustr) | ViewSession (id : ustr) | AuthError.

Inductive input :=
| RunVerify
| ExportAs (format : ustr)
| TypeLookup (v : ustr)
| OpenLookup
| SummaryReply (k : nat) (r : result js_exception ujson)
| VerifyReply (k : nat) (r : result js_exception ujson)
| ExportReply (k : nat) (r : result js_exception ustr).

Section cross_service.

Context (errorMessage : js_exception -> ustr).

Definition set_panel (s v : option ujson) (busy : bool) (look err : ustr) (l : list (nat * task)) (n : nat) : panel :=
  {| summary := s; verify := v; verifying := busy; lookup := look; error := err; pending := l; next := n |}.

Definition opened : panel * list call :=
  (set_panel None None false [] [] [(0%nat, TSummary)] 1, [GetAuditSummary]).

Definition runVerify (p : panel) : panel * list call :=
  (set_panel (summary p) (verify p) true (lookup p) [] (pending p ++ [(next p, TVerify)]) (S (next p)), [VerifyAuditChains]).

Definition exportAs (format : ustr) (p : panel) : panel * list call :=
  (set_panel (summary p) (verify p) (verifying p) (lookup p) (error p) (pending p ++ [(next p, TExport)]) (S (next p)),
   [Export format]).

(** A summary that is refused is only reported when the session is. *)
Definition summary_reply (r : result js_exception ujson) (l : list (nat * task)) (p : panel) : panel * list call :=
  match r with
  | Ok s => (set_panel (Some s) (verify p) (verifying p) (lookup p) (error p) l (next p), [])
  | Err e => (set_panel (summary p) (verify p) (verifying p) (lookup p) (error p) l (next p),
              if auth_error e then [AuthError] else [])
  end.

Definition verify_reply (r : result js_exception ujson) (l : list (nat * task)) (p : panel) : panel :=
  match r with
  | Ok v => set_panel (summary p) (Some v) false (lookup p) (error p) l (next p)
  | Err e => set_panel (summary p) (verify p) false (lookup p) (errorMessage e) l (next p)
  end.

Definition export_reply (r : result js_exception ustr) (l : list (nat * task)) (p : panel) : panel :=
  set_panel (summary p) (verify p) (verifying p) (lookup p)
    (match r with Ok _ => error p | Err e => errorMessage e end) l (next p).

Definition react (p : panel) (i : input) : option (panel * list call) :=
  match i with
  | RunVerify => if verifying p then None else Some (runVerify p)
  | ExportAs f => Some (exportAs f p)
  | TypeLookup v =>
      Some (set_panel (summary p) (verify p) (verifying p) v (error p) (pending p) (next p), [])
  | OpenLookup => match UString.trim (lookup p) with [] => None | id => Some (p, [ViewSession id]) end
  | SummaryReply k r =>
      match take_numbered k (pending p) with Some (TSummary, l) => Some (summary_reply r l p) | _ => None end
  | VerifyReply k r =>
      match take_numbered k (pending p) with Some (TVerify, l) => Some (verify_reply r l p, []) | _ => None end
  | ExportReply k r =>
      match take_numbered k (pending p) with Some (TExport, l) => Some (export_reply r l p, []) | _ => None end
  end.

(** A failed check leaves the verdict of the check before it on the page. *)
Lemma verdict_stays e l p : verify (verify_reply (Err e) l p) = verify p.
Proof. done. Qed.
End cross_service.
End CrossServicePanel.
