(* ===== verification/SocConsole.v ===== *)
(** * The security administrator's console: [AdminSOC] of [pages/AdminSOC.tsx]

    The page that holds the login form, the list of key issuances
    ([AdminCaPage.AuditPanel]), the cross-service panel and the session drawer
    ([SocPage]), and lets them sign out, follow a request and switch views. What
    the panels ask for is sent with the token that local storage holds then. A
    panel that is gone still gets its replies, and may still sign out.
    [console_session] is whose token is used. *)

From S2P Require Import Prelude JsString UString UJson WebCrypto Wire Browser PageRun PinPages AdminClient AdminCaPage TimelineView SocPage.

Open Scope Z_scope.

Inductive View := ViewKdc | ViewCross.

#[export] Instance View_eq_dec : EqDecision View.
Proof. solve_decision. Defined.

#[local] Notation KdcPanel := (AuditPanel.panel AuditEventVM).
#[local] Notation KdcInput := (AuditPanel.input AuditEventVM).

(** The form of [LoginPanel]; [flight] is a login that is awaited. *)
Record LoginPanel := { in_email : ustr; in_password : ustr; flight : bool; login_error : ustr }.

(** [stored] is what local storage holds, an absent entry being empty. At most one
    panel is mounted; [left] are those that were and may still get replies. *)
Record console := {
  stored : ustr * ustr; token : ustr; email : ustr; view : View; session : option ustr;
  login : LoginPanel; kdc : option KdcPanel; cross : option CrossServicePanel.panel;
  drawer : option SessionDrawer.drawer;
  left_kdc : list KdcPanel; left_cross : list CrossServicePanel.panel
}.

(** The requests of the panels. *)
Inductive query :=
| QKdc (action search : ustr) (limit offset : Z)
| QSummary
| QVerify
| QExport (format : ustr)
| QTimeline (id : ustr).

Inductive call := Send (bearer : ustr) (q : query) | SendLogin (email password : ustr).

Inductive input :=
| TypeLogin (email password : ustr)
| SubmitLogin
| LoginReply (r : result js_exception (ustr * ustr))
| SignOut
| SetView (v : View)
| OpenRow (id : ustr)
| CloseDrawer
| KdcStep (i : KdcInput)
| CrossStep (i : CrossServicePanel.input)
| DrawerReply (k : nat) (r : result js_exception ujson)
| LeftKdcReply (n k : nat) (r : result js_exception (Page AuditEventVM))
| LeftSummaryReply (n k : nat) (r : result js_exception ujson).

Section console.

Context `{P : Platform} (errorMessage : js_exception -> ustr) (envToken : ustr).

(** [a || b] on texts. *)
Definition text_or (a b : ustr) : ustr := if Wire.nonempty a then a else b.

Definition getStoredToken (c : console) : ustr := text_or (stored c).1 envToken.

(** ** What is rendered *)

(** The form as it is mounted. *)
Definition new_login (stored_email : ustr) : LoginPanel :=
  {| in_email := text_or stored_email (js "soc.admin@demo.local"); in_password := []; flight := false; login_error := [] |}.

Definition send (c : console) (q : query) : call := Send (getStoredToken c) q.

(** The requests of a mounted panel, a session that is refused apart. *)
Definition kdc_sends (c : console) (cs : list AuditPanel.call) : list call :=
  omap (fun x => match x with AuditPanel.Query a s l o => Some (send c (QKdc a s l o)) | AuditPanel.AuthError => None end) cs.

Definition cross_sends (c : console) (cs : list CrossServicePanel.call) : list call :=
  omap (fun x => match x with
                 | CrossServicePanel.GetAuditSummary => Some (send c QSummary)
                 | CrossServicePanel.VerifyAuditChains => Some (send c QVerify)
                 | CrossServicePanel.Export f => Some (send c (QExport f))
                 | _ => None
                 end) cs.

Definition drawer_sends (c : console) (cs : list SessionDrawer.call) : list call :=
  map (fun '(SessionDrawer.GetAuditTimeline id) => send c (QTimeline id)) cs.

Definition with_panels (k : option KdcPanel) (x : option CrossServicePanel.panel) (d : option SessionDrawer.drawer)
    (lk : list KdcPanel) (lx : list CrossServicePanel.panel) (c : console) : console :=
  {| stored := stored c; token := token c; email := email c; view := view c; session := session c; login := login c;
     kdc := k; cross := x; drawer := d; left_kdc := lk; left_cross := lx |}.

(** A panel that is mounted begins with its effect. *)
Definition mount_view (c : console) : console * list call :=
  match view c with
  | ViewKdc => (with_panels (Some AuditPanel.opened) None (drawer c) (left_kdc c) (left_cross c) c, [])
  | ViewCross =>
      let '(p, cs) := CrossServicePanel.opened in
      (with_panels None (Some p) (drawer c) (left_kdc c) (left_cross c) c, cross_sends c cs)
  end.

Definition mount_drawer (c : console) : console * list call :=
  match session c with
  | Some id =>
      let '(d, cs) := SessionDrawer.opened id in
      (with_panels (kdc c) (cross c) (Some d) (left_kdc c) (left_cross c) c, drawer_sends c cs)
  | None => (c, [])
  end.

(** The panel that is mounted is left. *)
Definition leave_view (c : console) : console :=
  let lk := match kdc c with
            | Some p => left_kdc c ++ [AuditPanel.set_filter (AuditPanel.action p) (AuditPanel.search p) None false p]
            | None => left_kdc c end in
  let lx := match cross c with Some p => left_cross c ++ [p] | None => left_cross c end in
  with_panels None None (drawer c) lk lx c.

(** ** Signing in and out *)

(** [logout], and the login form that is rendered then. *)
Definition logout (c : console) : console :=
  let c' := leave_view c in
  {| stored := ([], []); token := []; email := []; view := view c; session := session c;
     login := if Wire.nonempty (token c) then new_login [] else login c; kdc := None; cross := None; drawer := None;
     left_kdc := left_kdc c'; left_cross := left_cross c' |}.

Definition set_login (l : LoginPanel) (c : console) : console :=
  {| stored := stored c; token := token c; email := email c; view := view c; session := session c; login := l;
     kdc := kdc c; cross := cross c; drawer := drawer c; left_kdc := left_kdc c; left_cross := left_cross c |}.

(** [submit], up to its [await]. *)
Definition submit (c : console) : console * list call :=
  let l := login c in
  (set_login {| in_email := in_email l; in_password := in_password l; flight := true; login_error := [] |} c,
   [SendLogin (UString.toLowerCase (UString.trim (in_email l))) (in_password l)]).

(** [storeSocSession(session)] and [onLogin(session.email)]: the console is
    rendered with the panel of its view, and with the drawer if a request is still
    followed. *)
Definition signed_in (tok mail : ustr) (c : console) : console * list call :=
  let l := {| in_email := in_email (login c); in_password := in_password (login c); flight := false;
              login_error := login_error (login c) |} in
  let c1 := {| stored := (tok, mail); token := text_or tok envToken; email := mail; view := view c; session := session c;
               login := l; kdc := None; cross := None; drawer := None; left_kdc := left_kdc c; left_cross := left_cross c |} in
  if Wire.nonempty (token c1) then
    let '(c2, cs) := mount_view c1 in
    let '(c3, cs') := mount_drawer c2 in (c3, cs ++ cs')
  else (c1, []).

Definition login_failed (e : js_exception) (c : console) : console :=
  set_login {| in_email := in_email (login c); in_password := in_password (login c); flight := false;
               login_error := errorMessage e |} c.

(** ** Following a request *)

(** [setSession(id)]: the drawer is mounted, or gets another request. *)
Definition setSession (id : ustr) (c : console) : console * list call :=
  let c1 := {| stored := stored c; token := token c; email := email c; view := view c; session := Some id;
               login := login c; kdc := kdc c; cross := cross c; drawer := drawer c; left_kdc := left_kdc c;
               left_cross := left_cross c |} in
  match drawer c with
  | None => mount_drawer c1
  | Some d =>
      match SessionDrawer.react errorMessage d (SessionDrawer.ShowRequest id) with
      | Some (d', cs) => (with_panels (kdc c1) (cross c1) (Some d') (left_kdc c1) (left_cross c1) c1, drawer_sends c1 cs)
      | None => (c1, [])
      end
  end.

Definition closeDrawer (c : console) : console :=
  {| stored := stored c; token := token c; email := email c; view := view c; session := None; login := login c;
     kdc := kdc c; cross := cross c; drawer := None; left_kdc := left_kdc c; left_cross := left_cross c |}.

Definition setView (v : View) (c : console) : console * list call :=
  if decide (v = view c) then (c, [])
  else
    let c1 := leave_view c in
    mount_view {| stored := stored c1; token := token c1; email := email c1; view := v; session := session c1;
                  login := login c1; kdc := None; cross := None; drawer := drawer c1; left_kdc := left_kdc c1;
                  left_cross := left_cross c1 |}.

(** ** The console *)

(** [useState(getStoredSocToken())] and [useState(getStoredSocEmail())]. *)
Definition opened (storage : ustr * ustr) : console * list call :=
  let c := {| stored := storage; token := text_or storage.1 envToken; email := storage.2; view := ViewKdc; session := None;
              login := new_login storage.2; kdc := None; cross := None; drawer := None; left_kdc := []; left_cross := [] |} in
  if Wire.nonempty (token c) then mount_view c else (c, []).

Definition row_offers (id : ustr) (e : AuditEventVM) : bool := is_text id (TimelineView.requestId e).

Definition is_unmount (i : KdcInput) : bool := match i with AuditPanel.Unmount => true | _ => false end.

Definition kdc_refused (cs : list AuditPanel.call) : bool :=
  existsb (fun x => match x with AuditPanel.AuthError => true | _ => false end) cs.

Definition cross_refused (cs : list CrossServicePanel.call) : bool :=
  existsb (fun x => match x with CrossServicePanel.AuthError => true | _ => false end) cs.

Definition followed (cs : list CrossServicePanel.call) : option ustr :=
  head (omap (fun x => match x with CrossServicePanel.ViewSession id => Some id | _ => None end) cs).

Definition kdc_step (p : KdcPanel) (i : KdcInput) (c : console) : option (console * list call) :=
  match AuditPanel.react errorMessage p i with
  | Some (p', cs) =>
      let c1 := with_panels (Some p') (cross c) (drawer c) (left_kdc c) (left_cross c) c in
      Some (if kdc_refused cs then (logout c1, []) else (c1, kdc_sends c1 cs))
  | None => None
  end.

Definition cross_step (p : CrossServicePanel.panel) (i : CrossServicePanel.input) (c : console) : option (console * list call) :=
  match CrossServicePanel.react errorMessage p i with
  | Some (p', cs) =>
      let c1 := with_panels (kdc c) (Some p') (drawer c) (left_kdc c) (left_cross c) c in
      Some (if cross_refused cs then (logout c1, [])
            else match followed cs with Some id => setSession id c1 | None => (c1, cross_sends c1 cs) end)
  | None => None
  end.

(** The reply to a panel that was left: only a refused session still matters. *)
Definition left_kdc_reply (n k : nat) (r : result js_exception (Page AuditEventVM)) (c : console) : option (console * list call) :=
  match left_kdc c !! n with
  | Some p =>
      match AuditPanel.react errorMessage p (AuditPanel.Reply k r) with
      | Some (p', cs) =>
          let c1 := with_panels (kdc c) (cross c) (drawer c) (<[n := p']> (left_kdc c)) (left_cross c) c in
          Some (if kdc_refused cs then logout c1 else c1, [])
      | None => None
      end
  | None => None
  end.

Definition left_summary_reply (n k : nat) (r : result js_exception ujson) (c : console) : option (console * list call) :=
  match left_cross c !! n with
  | Some p =>
      match CrossServicePanel.react errorMessage p (CrossServicePanel.SummaryReply k r) with
      | Some (p', cs) =>
          let c1 := with_panels (kdc c) (cross c) (drawer c) (left_kdc c) (<[n := p']> (left_cross c)) c in
          Some (if cross_refused cs then logout c1 else c1, [])
      | None => None
      end
  | None => None
  end.

Definition react (c : console) (i : input) : option (console * list call) :=
  match i with
  | TypeLogin e pw =>
      if Wire.nonempty (token c) then None
      else Some (set_login {| in_email := e; in_password := pw; flight := flight (login c);
                              login_error := login_error (login c) |} c, [])
  | SubmitLogin => if Wire.nonempty (token c) || flight (login c) then None else Some (submit c)
  | LoginReply r =>
      if negb (flight (login c)) then None
      else Some (match r with Ok (tok, mail) => signed_in tok mail c | Err e => (login_failed e c, []) end)
  | SignOut => if Wire.nonempty (token c) then Some (logout c, []) else None
  | SetView v => if Wire.nonempty (token c) then Some (setView v c) else None
  | OpenRow id =>
      match kdc c with
      | Some p => if Wire.nonempty id && existsb (row_offers id) (AuditPanel.items p) then Some (setSession id c) else None
      | None => None
      end
  | CloseDrawer => match drawer c with Some _ => Some (closeDrawer c, []) | None => None end
  | KdcStep i => match kdc c with Some p => if is_unmount i then None else kdc_step p i c | None => None end
  | CrossStep i => match cross c with Some p => cross_step p i c | None => None end
  | DrawerReply k r =>
      match drawer c with
      | Some d =>
          match SessionDrawer.react errorMessage d (SessionDrawer.Reply k r) with
          | Some (d', cs) => Some (with_panels (kdc c) (cross c) (Some d') (left_kdc c) (left_cross c) c, drawer_sends c cs)
          | None => None
          end
      | None => None
      end
  | LeftKdcReply n k r => left_kdc_reply n k r c
  | LeftSummaryReply n k r => left_summary_reply n k r c
  end.

(** ** Whose session is used *)

#[local] Notation run := (list (step_taken console input call)).

(** What the latest login gave, or what local storage held at first. *)
Fixpoint last_login (storage : ustr * ustr) (t : run) : ustr * ustr :=
  match t with
  | [] => storage
  | s :: t' => match by_input s with LoginReply (Ok given) => given | _ => last_login storage t' end
  end.

Definition given_token (l : ustr * ustr) : ustr := text_or l.1 envToken.

(** What signing in and out changes. *)
Definition core (c : console) : (ustr * ustr) * ustr * ustr := (stored c, token c, email c).

Definition sent_with (b : ustr) (x : call) : Prop := match x with Send b' _ => b' = b | SendLogin _ _ => True end.

(** A step of the panels: the session stays and is the one that is used. *)
Definition keeps (c : console) (r : console * list call) : Prop :=
  core r.1 = core c /\ Forall (sent_with (getStoredToken c)) r.2.

Lemma stored_token_core c c' : core c' = core c -> getStoredToken c' = getStoredToken c.
Proof. unfold core, getStoredToken. by intros [= -> _ _]. Qed.

Lemma Forall_omap_all {A B} (Q : B -> Prop) (f : A -> option B) l :
  (forall a b, f a = Some b -> Q b) -> Forall Q (omap f l).
Proof. intros H. apply Forall_forall. intros b Hb. apply list_elem_of_omap in Hb as (a & _ & Ha). by eapply H. Qed.

Lemma kdc_sends_with c cs : Forall (sent_with (getStoredToken c)) (kdc_sends c cs).
Proof. apply Forall_omap_all. by intros [] ? [= <-]. Qed.

Lemma cross_sends_with c cs : Forall (sent_with (getStoredToken c)) (cross_sends c cs).
Proof. apply Forall_omap_all. by intros [] ? [= <-]. Qed.

Lemma drawer_sends_with c cs : Forall (sent_with (getStoredToken c)) (drawer_sends c cs).
Proof. apply Forall_map, Forall_true. by intros []. Qed.

Lemma keeps_mount_view c : keeps c (mount_view c).
Proof. unfold mount_view. destruct (view c); (split; [done|]); [constructor | apply (cross_sends_with c)]. Qed.

Lemma keeps_mount_drawer c : keeps c (mount_drawer c).
Proof.
  unfold mount_drawer. destruct (session c); [|by split; constructor].
  destruct (SessionDrawer.opened _) as [d cs]. split; [done | apply drawer_sends_with].
Qed.

Lemma keeps_setView v c : keeps c (setView v c).
Proof.
  unfold setView. case_decide; [by split; constructor|].
  match goal with |- keeps _ (mount_view ?c1) => destruct (keeps_mount_view c1) as [H1 H2] end.
  split; [exact H1|]. exact H2.
Qed.

Lemma keeps_setSession id c : keeps c (setSession id c).
Proof.
  unfold setSession. destruct (drawer c) as [d|].
  - destruct (SessionDrawer.react _ _ _) as [[d' cs]|]; [|by split; constructor].
    split; [done|]. cbn [snd]. match goal with |- Forall _ (drawer_sends ?c1 _) => exact (drawer_sends_with c1 cs) end.
  - match goal with |- keeps _ (mount_drawer ?c1) => destruct (keeps_mount_drawer c1) as [H1 H2] end.
    split; [exact H1 | exact H2].
Qed.

(** Nothing is rendered but the login form. *)
Definition signed_out (c : console) : Prop := kdc c = None /\ cross c = None /\ drawer c = None.

Definition no_query (x : call) : Prop := match x with Send _ _ => False | SendLogin _ _ => True end.

(** A step without a login: the panels go on with the session, the form is used,
    or the session ends. *)
Inductive kind (c : console) : console * list call -> Prop :=
| goes_on r : token c <> [] -> keeps c r -> kind c r
| stays_out c' cs : token c = [] -> core c' = core c -> signed_out c' -> Forall no_query cs -> kind c (c', cs)
| ends c' : kind c (logout c', []).

Definition is_login (i : input) : Prop := match i with LoginReply (Ok _) => True | _ => False end.

Lemma token_given (s : ustr) : Wire.nonempty s = true -> s <> [].
Proof. by destruct s. Qed.

#[export] Instance is_login_dec i : Decision (is_login i).
Proof. unfold is_login. repeat case_match; apply _. Defined.

Lemma with_panels_core k x d lk lx c : core (with_panels k x d lk lx c) = core c.
Proof. done. Qed.

(** What does not touch the session keeps it, signed in or out. *)
Lemma kind_same c c' : core c' = core c -> (token c = [] -> signed_out c') -> kind c (c', []).
Proof.
  intros Hc Ho. destruct (decide (token c = [])) as [He|He]; [apply stays_out; auto; constructor|].
  apply goes_on; [done|]. by split; [|constructor].
Qed.

Lemma kind_kdc_step p i c r : token c <> [] -> kdc_step p i c = Some r -> kind c r.
Proof.
  unfold kdc_step. intros Ht. destruct (AuditPanel.react _ _ _) as [[p' cs]|]; [|done]. intros [= <-].
  destruct (kdc_refused cs); [apply ends|]. apply goes_on; [done|]. split; [done|]. apply (kdc_sends_with c).
Qed.

Lemma kind_cross_step p i c r : token c <> [] -> cross_step p i c = Some r -> kind c r.
Proof.
  unfold cross_step. intros Ht. destruct (CrossServicePanel.react _ _ _) as [[p' cs]|]; [|done]. intros [= <-].
  destruct (cross_refused cs); [apply ends|]. apply goes_on; [done|]. destruct (followed cs) as [id|].
  - exact (keeps_setSession id (with_panels (kdc c) (Some p') (drawer c) (left_kdc c) (left_cross c) c)).
  - split; [done|]. apply (cross_sends_with c).
Qed.

Lemma kind_left_kdc n k x c r : (token c = [] -> signed_out c) -> left_kdc_reply n k x c = Some r -> kind c r.
Proof.
  unfold left_kdc_reply. intros Ho. destruct (left_kdc c !! n) as [p|]; [|done].
  destruct (AuditPanel.react _ _ _) as [[p' cs]|]; [|done]. intros [= <-].
  destruct (kdc_refused cs); [apply ends | by apply kind_same].
Qed.

Lemma kind_left_summary n k x c r : (token c = [] -> signed_out c) -> left_summary_reply n k x c = Some r -> kind c r.
Proof.
  unfold left_summary_reply. intros Ho. destruct (left_cross c !! n) as [p|]; [|done].
  destruct (CrossServicePanel.react _ _ _) as [[p' cs]|]; [|done]. intros [= <-].
  destruct (cross_refused cs); [apply ends | by apply kind_same].
Qed.

Lemma react_kind c i r : (token c = [] -> signed_out c) -> react c i = Some r -> ~ is_login i -> kind c r.
Proof.
  intros Ho Hr Hi. assert (Hk : forall p, kdc c = Some p -> token c <> []) by (intros p Hp He; destruct (Ho He); congruence).
  assert (Hx : forall p, cross c = Some p -> token c <> []) by (intros p Hp He; destruct (Ho He) as (_ & ? & _); congruence).
  assert (Hd : forall d, drawer c = Some d -> token c <> []) by (intros p Hp He; destruct (Ho He) as (_ & _ & ?); congruence).
  destruct i as [e pw| |x| |v|id| |i|i|k x|n k x|n k x]; cbn [react] in Hr.
  - destruct (Wire.nonempty (token c)) eqn:Ht; [done|]. injection Hr as <-. by apply kind_same.
  - destruct (Wire.nonempty (token c)) eqn:Ht; [done|]. apply nonempty_false in Ht. cbn [orb] in Hr.
    destruct (flight (login c)); [done|]. injection Hr as <-. apply stays_out; auto. by repeat constructor.
  - destruct x as [given|e]; [by destruct Hi|]. destruct (flight (login c)); [|done]. injection Hr as <-. by apply kind_same.
  - destruct (Wire.nonempty (token c)); [|done]. injection Hr as <-. apply ends.
  - destruct (Wire.nonempty (token c)) eqn:Ht; [|done]. injection Hr as <-.
    apply goes_on; [by apply token_given | apply keeps_setView].
  - destruct (kdc c) as [p|] eqn:Hp; [|done]. destruct (_ && _); [|done]. injection Hr as <-.
    apply goes_on; [by eapply Hk | apply keeps_setSession].
  - destruct (drawer c) as [d|] eqn:Hp; [|done]. injection Hr as <-. apply kind_same; [done|]. intros He. by destruct (Hd d eq_refl).
  - destruct (kdc c) as [p|] eqn:Hp; [|done]. destruct (is_unmount i); [done|]. by eapply kind_kdc_step; [eapply Hk|].
  - destruct (cross c) as [p|] eqn:Hp; [|done]. by eapply kind_cross_step; [eapply Hx|].
  - destruct (drawer c) as [d|] eqn:Hp; [|done]. destruct (SessionDrawer.react _ _ _) as [[d' cs]|]; [|done].
    injection Hr as <-. apply goes_on; [by eapply Hd|]. split; [done|]. apply (drawer_sends_with c).
  - by eapply kind_left_kdc.
  - by eapply kind_left_summary.
Qed.

(** A login that was answered. *)
Lemma signed_in_spec given c : let r := signed_in given.1 given.2 c in
  core r.1 = (given, given_token given, given.2) /\ (token r.1 = [] -> signed_out r.1) /\
  Forall (fun x => sent_with (given_token given) x /\ (given_token given = [] -> no_query x)) r.2.
Proof.
  unfold signed_in. destruct given as [tok mail]. cbn [fst snd].
  set (c1 := {| stored := _; token := _; email := _; view := _; session := _; login := _; kdc := _; cross := _; drawer := _;
                left_kdc := _; left_cross := _ |}).
  destruct (Wire.nonempty (token c1)) eqn:Ht; [|split_and!; by try constructor].
  apply token_given in Ht. pose proof (keeps_mount_view c1) as [Hv1 Hv2].
  destruct (mount_view c1) as [c2 cs]. pose proof (keeps_mount_drawer c2) as [Hd1 Hd2].
  destruct (mount_drawer c2) as [c3 cs']. cbn [fst snd] in *. rewrite Hv1 in Hd1.
  split_and!; [exact Hd1 | |].
  - intros He. unfold core in Hd1. congruence.
  - rewrite (stored_token_core _ _ Hv1) in Hd2. apply Forall_app. change (token c1) with (given_token (tok, mail)) in Ht.
    split; (eapply Forall_impl; [eassumption|]; intros x Hx; by split).
Qed.

Record good (storage : ustr * ustr) (t : run) (c : console) : Prop := Good {
  so_out : token c = [] -> signed_out c;
  so_in : token c <> [] -> core c = (last_login storage t, given_token (last_login storage t), (last_login storage t).2)
}.

Lemma console_good_react storage t c i c' cs : good storage t c -> react c i = Some (c', cs) ->
  good storage ({| before := c; by_input := i; calls := cs |} :: t) c'.
Proof.
  intros [H1 H2] Hr. destruct (decide (is_login i)) as [Hi|Hi].
  - destruct i as [| |[given|]| | | | | | | | |]; try done. cbn in Hr. destruct (flight (login c)); [|done].
    destruct given as [tok mail]. injection Hr as Hr. pose proof (signed_in_spec (tok, mail) c) as (Hc & Ho & _).
    cbn [fst snd] in *. rewrite Hr in *. split; [exact Ho|]. intros _. exact Hc.
  - assert (Hl : last_login storage ({| before := c; by_input := i; calls := cs |} :: t) = last_login storage t)
      by (cbn; destruct i as [| |[]| | | | | | | | |]; try done; by destruct Hi).
    pose proof (react_kind c i (c', cs) H1 Hr Hi) as Hk. inversion Hk as [r Ht [Hc Hs]|c1 cs1 Ht Hc Ho Hn|c1]; subst.
    + cbn [fst] in Hc. split; [unfold core in Hc; intros; congruence|]. intros _. rewrite Hc, Hl. by apply H2.
    + split; [done|]. unfold core in Hc. intros; congruence.
    + by split.
Qed.

Lemma console_good_opened storage : good storage [] (opened storage).1.
Proof.
  unfold opened. set (c := {| stored := _; token := _; email := _; view := _; session := _; login := _; kdc := _; cross := _;
    drawer := _; left_kdc := _; left_cross := _ |}). destruct (Wire.nonempty (token c)) eqn:Ht.
  - split; [by apply token_given in Ht|]. intros _. cbn. by destruct storage.
  - apply nonempty_false in Ht. by split.
Qed.

(** C23: Whose session the console uses. In every run, whatever panels come and go and
    whenever their replies arrive, every query is sent with the token of the
    latest login (or of the storage that the page was opened with), never without
    one, and the address that the page then shows is the one of that same login;
    while nobody is signed in, only a login that succeeds makes queries. *)
Theorem console_session storage t c i c' cs b q :
  reaches react (opened storage).1 t c -> react c i = Some (c', cs) -> Send b q ∈ cs ->
  let l := last_login storage ({| before := c; by_input := i; calls := cs |} :: t) in
  b = text_or l.1 envToken /\ b <> [] /\ stored c' = l /\ token c' = b /\ email c' = l.2 /\
  (token c = [] -> exists given, i = LoginReply (Ok given)).
Proof.
  intros Hp Hr Hq. assert (Hg : good storage t c).
  { revert Hp. apply reaches_invariant; [apply console_good_opened | apply console_good_react]. }
  pose proof (console_good_react _ _ _ _ _ _ Hg Hr) as [Ho' Hi']. cbv zeta.
  set (l := last_login storage _) in *.
  assert (Hs : b = getStoredToken c' /\ token c' <> [] /\ (token c = [] -> is_login i)).
  { destruct (decide (is_login i)) as [Hi|Hi].
    - destruct i as [| |[given|]| | | | | | | | |]; try done. cbn in Hr. destruct (flight (login c)); [|done].
      destruct given as [tok mail]. injection Hr as Hr. pose proof (signed_in_spec (tok, mail) c) as (Hc & _ & Hf).
      cbn [fst snd] in *. rewrite Hr in Hc, Hf. rewrite Forall_forall in Hf. destruct (Hf _ Hq) as [Hb Hn].
      cbn in Hb, Hn, Hc. unfold core in Hc. injection Hc as Hst Htk _. split_and!; [|congruence | done].
      rewrite Hb. unfold getStoredToken. by rewrite Hst.
    - destruct Hg as [H1 H2]. pose proof (react_kind c i (c', cs) H1 Hr Hi) as Hk.
      inversion Hk as [r Ht [Hc Hf]|c1 cs1 Ht Hc Ho Hn|c1]; subst.
      + cbn [fst snd] in *. rewrite Forall_forall in Hf. specialize (Hf _ Hq). cbn in Hf.
        rewrite (stored_token_core _ _ Hc). split_and!; [done | unfold core in Hc; congruence | done].
      + rewrite Forall_forall in Hn. by destruct (Hn _ Hq).
      + by apply elem_of_nil in Hq. }
  destruct Hs as (Hb & Ht & Hlog). specialize (Hi' Ht). unfold core, given_token in Hi'. injection Hi' as Hst Htk Hem.
  assert (Hbt : b = token c') by (rewrite Hb, Htk; unfold getStoredToken; by rewrite Hst).
  split_and!; try congruence. intros He. specialize (Hlog He). destruct i as [| |[given|]| | | | | | | | |]; try done. by exists given.
Qed.
End console.

Definition refused : js_exception := ApiError (js "UNAUTHORIZED") [] 401.
Definition alice : ustr * ustr := (js "token-a", js "alice").
Definition bob : ustr * ustr := (js "token-b", js "bob").

#[local] Notation run_console storage inputs :=
  (run_inputs (react (P := demo_platform) (fun _ => []) []) inputs [] (opened [] storage).1).

(** Alice follows a request, signs out, and Bob signs in. *)
Definition handover : list input :=
  [KdcStep AuditPanel.DebounceFires; SetView ViewCross; CrossStep (CrossServicePanel.TypeLookup (js "r-1"));
   CrossStep CrossServicePanel.OpenLookup; SignOut; SubmitLogin; LoginReply (Ok bob)].

(** The request that Alice followed is asked for again, with Bob's token. *)
Lemma followed_request_returns :
  match run_console alice handover with
  | Some (t, c) => made (Send (js "token-b") (QTimeline (js "r-1"))) t /\ email c = js "bob"
  | None => False
  end.
Proof.
  destruct (run_console alice handover) as [[t c]|] eqn:Hr; [|vm_compute in Hr; discriminate Hr].
  vm_compute in Hr. injection Hr as <- <-. split; [|done]. eexists. split; [apply list_elem_of_here|].
  apply list_elem_of_further, list_elem_of_here.
Qed.

(** A refusal of Alice's query, which was still awaited, signs Bob out. *)
Lemma late_refusal_signs_out :
  match run_console alice (handover ++ [LeftKdcReply 0 0 (Err refused)]) with
  | Some (t, c) => token c = [] /\ stored c = ([], [])
  | None => False
  end.
Proof. vm_compute. by split. Qed.

Lemma console_session_witness :
  match run_console alice handover with
  | Some (t, c) => exists c' cs, react (P := demo_platform) (fun _ => []) [] c (CrossStep CrossServicePanel.RunVerify) = Some (c', cs) /\
      Send (js "token-b") QVerify ∈ cs /\ email c' = js "bob"
  | None => False
  end.
Proof.
  destruct (run_console alice handover) as [[t c]|] eqn:Hr; [|vm_compute in Hr; discriminate Hr].
  pose proof (run_inputs_reaches _ _ _ _ _ _ _ (reach_start _ _) Hr) as Hp.
  assert (He : last_login alice t = bob /\
    exists c' cs, react (P := demo_platform) (fun _ => []) [] c (CrossStep CrossServicePanel.RunVerify) = Some (c', cs) /\
      Send (js "token-b") QVerify ∈ cs).
  { vm_compute in Hr. injection Hr as <- <-. split; [done|]. do 2 eexists. split; [vm_compute; reflexivity | apply list_elem_of_here]. }
  destruct He as (Hl & c' & cs & Hreact & Hin). exists c', cs. split; [exact Hreact|]. split; [exact Hin|].
  destruct (console_session _ _ _ _ _ _ _ _ _ _ Hp Hreact Hin) as (_ & _ & _ & _ & He & _).
  cbn in He. rewrite He, Hl. done.
Defined.
