(* ===== verification/SocView.v ===== *)
(** * What the security administrator sees ([pages/AdminSOC.tsx])

    The elements of the login form and of the console for a state of [SocConsole]:
    the list of key issuances, the cross-service panel with the summary, the
    verdict on the audit chains and the anomalies, and the drawer with the timeline
    of a request. [soc_controls] is that the console offers what its machine
    takes, as long as React refuses no element ([console_removed] is a run where it
    does), [verdict_shown] what is read of the audit chains. *)

From S2P Require Import Prelude JsString JsDate Effects Gateway Json Redis Activation Schema Validators AuditSemantics AuditFetch AuditTimeline UString UJson WebCrypto Wire Browser PageRun PinPages AdminClient Locale View TimelineView AdminCaPage CaView SocPage SocConsole.

Open Scope Z_scope.

#[local] Arguments nonempty {A} !l /.

(** What the parts of the page take from the user. *)
Inductive soc_input :=
| OnConsole (i : SocConsole.input)
| OnKdcTimeline (i : timeline_input)
| OnDrawerTimeline (i : timeline_input).

#[local] Notation element := (node soc_input).

(** [NAV]. *)
Definition SOC_NAV : list (SocConsole.View * string * string) :=
  [(ViewKdc, "Key Issuance", "KeyRound"); (ViewCross, "Cross-service", "Activity")].

Definition KDC_ACTIONS : list string := ["all"; "as_ticket_issued"; "as_rejected"; "tgs_ticket_issued"; "tgs_rejected"].

(** ** Values of any type

    A property of null or undefined is refused; [length] is an own property of
    texts and lists. *)

Definition uget (name : string) (v : ujson) : option ujson :=
  match v with UUndefined | UNull => None | _ => Some (member name v) end.

Definition ulength (v : ujson) : option ujson :=
  match v with
  | UArr l => Some (UNum (zlen l))
  | UStr s => Some (UNum (zlen s))
  | _ => uget "length" v
  end.

(** [Object.entries(v)]. *)
Definition entries (v : ujson) : option (list (ustr * ujson)) :=
  match v with
  | UUndefined | UNull => None
  | UObj l => Some l
  | UArr l => Some (imap (fun n x => (js (Z_string (Z.of_nat n)), x)) l)
  | UStr s => Some (imap (fun n x => (js (Z_string (Z.of_nat n)), UStr [x])) s)
  | _ => Some []
  end.

Section view.

Context `{P : Platform} `{L : Locale} (toUpperCase : ustr -> ustr).

(** [f v], or a refusal. *)
Definition given (v : option ujson) (f : ujson -> list element) : list element :=
  match v with Some x => f x | None => [Crash] end.

(** ** The login *)

Definition render_Login (l : LoginPanel) : element :=
  el "div" [View.Form (OnConsole SubmitLogin) ([
    el "div" [el "div" [icon "Lock"]; el "h1" [txt "Security Operations"]];
    el "div" [
      Field "input" [("placeholder", js "Email")] (in_email l) false
        (Some (fun v => OnConsole (TypeLogin v (in_password l))));
      Field "input" [("type", js "password"); ("placeholder", js "Password")] (in_password l) false
        (Some (fun v => OnConsole (TypeLogin (in_email l) v)))]] ++
    when (nonempty (login_error l)) [el "p" [Text (login_error l)]] ++
    [SubmitButton [] (flight l) [if flight l then txt "Signing in…" else txt "Sign in"]])].

(** ** The list of key issuances *)

Definition kdc_props (a : AuditPanel.panel AuditEventVM) : AuditTimelineProps soc_input :=
  {| tp_events := AuditPanel.items a; tp_loading := AuditPanel.loading a; tp_error := AuditPanel.error a;
     tp_onRetry := Some (OnConsole (KdcStep AuditPanel.RefreshList));
     tp_onRefresh := Some (OnConsole (KdcStep AuditPanel.RefreshList));
     tp_onViewSession := Some (fun id => OnConsole (OpenRow (ustring id))); tp_showSource := false;
     tp_emptyLabel := "No key-issuance events found" |}.

Definition arrow (symbol : string) (disabled : bool) (i : soc_input) : element := Button [] disabled i [icon symbol].

Definition kdc_page_label (offset total : Z) : ustr := if total =? 0 then js "No events" else pageLabel offset total.

Definition render_KdcPanel (a : AuditPanel.panel AuditEventVM) (tl : timeline) : element :=
  el "div" [
    el "div" [
      el "div" [el "h1" [txt "Key Issuance (KDC)"]; el "p" [Text (kdc_page_label (AuditPanel.offset a) (AuditPanel.total a))]];
      el "div" [
        arrow "ChevronLeft" (negb (canPrev (AuditPanel.offset a))) (OnConsole (KdcStep AuditPanel.PrevPage));
        arrow "ChevronRight" (negb (canNext (AuditPanel.offset a) (AuditPanel.total a)))
          (OnConsole (KdcStep AuditPanel.NextPage))]];
    el "div" [
      el "div" [icon "Search";
        Field "input" [("placeholder", js "Filter by cert serial")] (AuditPanel.search a) false
          (Some (fun v => OnConsole (KdcStep (AuditPanel.SetFilter (AuditPanel.action a) v))))];
      Select [] (AuditPanel.action a) false (action_options KDC_ACTIONS)
        (fun v => OnConsole (KdcStep (AuditPanel.SetFilter v (AuditPanel.search a))))];
    render_AuditTimeline (kdc_props a) OnKdcTimeline tl].

(** ** The cross-service panel *)

Definition card (label tone : string) (value : list element) : element :=
  el "div" [el "p" [txt label]; styled "p" tone value].

Definition render_cards (s : ujson) : element :=
  let figure v := given v child in
  let anomalies := match uget "anomalies" s with Some a => ulength a | None => None end in
  el "div" [
    card "Events (24h)" "text-foreground" (figure (uget "total" s));
    card "Security events" "text-amber-300" (figure (uget "security_events" s));
    card "Critical" "text-red-400" (given (uget "by_severity" s) (fun v => figure (uget "critical" v)));
    card "Denied" "text-amber-300" (given (uget "by_outcome" s) (fun v => figure (uget "denied" v)));
    card "Anomalies" (if utruthy (default UUndefined anomalies) then "text-red-400" else "text-muted-foreground") (figure anomalies)].

Definition anomaly_item (a : ujson) : element :=
  el "li" [el "span" (given (uget "actor" a) child);
           Elem "" [] (txt " — " :: given (uget "denied_count" a) child ++ [txt " denied"])].

Definition render_anomalies (s : ujson) : list element :=
  match uget "anomalies" s with
  | Some a =>
      given (ulength a) (fun n => when (positive n) [
        el "div" [el "p" [txt "Anomalies (≥5 denied / window)"];
                  match a with UArr l => el "ul" (map anomaly_item l) | _ => Crash end]])
  | None => [Crash]
  end.

(** What is said of one source. *)
Definition source_item (e : ustr * ujson) : element :=
  let (src, s) := e in
  match s with
  | UUndefined | UNull => Crash
  | _ => el "span" ([Text (toUpperCase src); txt ": "] ++
           (if utruthy (member "checked" s) then [Text (source_status s)]
            else child (unullish (member "detail" s) (UStr (js "skipped")))))
  end.

Definition verdict_box (ok : bool) (l : list element) : element :=
  styled "div" (if ok then "border-emerald-500/30 bg-emerald-500/10 text-emerald-300"
                else "border-red-500/30 bg-red-500/10 text-red-300")
    ([if ok then txt "Audit hash chain verified — no tampering detected." else txt "Audit chain integrity check FAILED.";
      txt " "] ++ l).

Definition render_verdict (verify : ujson) : element :=
  match uget "sources" verify with
  | Some v =>
      match entries v with
      | Some l => verdict_box (forallb (fun e => source_ok e.2) l) (map source_item l)
      | None => Crash
      end
  | None => Crash
  end.

Definition render_CrossServicePanel (x : CrossServicePanel.panel) : element :=
  let on i := OnConsole (CrossStep i) in
  el "div" ([
    el "div" [
      el "h1" [txt "Cross-service security"];
      el "div" [
        Button [] (CrossServicePanel.verifying x) (on CrossServicePanel.RunVerify)
          [styled "ShieldCheck" (if CrossServicePanel.verifying x then "animate-pulse" else "") []; txt " Verify integrity"];
        button (on (CrossServicePanel.ExportAs (js "csv"))) [icon "Download"; txt " CSV"];
        button (on (CrossServicePanel.ExportAs (js "json"))) [icon "Download"; txt " JSON"]]]] ++
    (match CrossServicePanel.summary x with Some s => when (utruthy s) [render_cards s] | None => [] end) ++
    when (nonempty (CrossServicePanel.error x)) [el "p" [Text (CrossServicePanel.error x)]] ++
    (match CrossServicePanel.verify x with Some v => guarded v [render_verdict v] | None => [] end) ++
    (match CrossServicePanel.summary x with Some s => guarded s (render_anomalies s) | None => [] end) ++ [
    el "div" [
      el "p" [txt "Trace a session by request id"];
      el "div" [
        Field "input" [("placeholder", js "request_id (UUID)")] (CrossServicePanel.lookup x) false
          (Some (fun v => on (CrossServicePanel.TypeLookup v)));
        Button [] (negb (nonempty (UString.trim (CrossServicePanel.lookup x)))) (on CrossServicePanel.OpenLookup)
          [txt "Open timeline"]]]]).

(** ** The drawer: the space around it closes it *)

Definition drawer_props (d : SessionDrawer.drawer) : AuditTimelineProps soc_input :=
  {| tp_events := SessionDrawer.items d; tp_loading := SessionDrawer.loading d; tp_error := SessionDrawer.error d;
     tp_onRetry := None; tp_onRefresh := None; tp_onViewSession := None; tp_showSource := true;
     tp_emptyLabel := "No events for this request id" |}.

Definition render_SessionDrawer (d : SessionDrawer.drawer) (tl : timeline) : element :=
  Cover [
    Button [("element", js "div")] false (OnConsole CloseDrawer) [];
    el "div" [
      el "div" [
        el "div" [el "h2" [txt "Session timeline"]; el "p" [Text (SessionDrawer.requestId d)]];
        button (OnConsole CloseDrawer) [icon "X"]];
      el "div" [render_AuditTimeline (drawer_props d) OnDrawerTimeline tl]]].

(** ** The page *)

Definition soc_Header (email : ustr) : element :=
  el "header" [el "div" [
    el "div" [el "div" [icon "ShieldCheck"]; el "span" [txt "Security Operations"]];
    el "div" [el "span" [Text (text_or email (js "security-admin"))];
              button (OnConsole SignOut) [txt "Sign out"]]]].

Definition soc_nav (here : SocConsole.View) : element :=
  el "aside" (map (fun n =>
      let '(v, label, symbol) := n in
      Button [("className", js (if bool_decide (here = v) then "bg-red-600/15 text-red-300 border border-red-500/20"
                                else "text-muted-foreground hover:text-foreground hover:bg-accent/50"))] false
        (OnConsole (SocConsole.SetView v)) [icon symbol; el "span" [txt label]]) SOC_NAV ++
    [el "div" [el "p" [txt "security-admin"]]]).

Definition render_panel (c : console) (tl : timeline) : list element :=
  match view c with
  | ViewKdc => match kdc c with Some a => [render_KdcPanel a tl] | None => [] end
  | ViewCross => match cross c with Some x => [render_CrossServicePanel x] | None => [] end
  end.

(** [AdminSOC], with the timelines of the list and of the drawer. *)
Definition render_AdminSOC (c : console) (tl dl : timeline) : element :=
  if negb (nonempty (token c)) then render_Login (login c)
  else
    el "div" ([
      soc_Header (email c);
      el "div" [soc_nav (view c); el "main" (render_panel c tl)]] ++
      match drawer c with Some d => [render_SessionDrawer d dl] | None => [] end).
End view.

(** ** What the parts offer *)

Section draws.

Context `{P : Platform} `{L : Locale}.

Lemma offers_login_form l i :
  draws (render_Login l) i <->
    (flight l = false /\ i = OnConsole SubmitLogin) \/ (exists v, i = OnConsole (TypeLogin v (in_password l))) \/
    (exists v, i = OnConsole (TypeLogin (in_email l) v)).
Proof. unfold render_Login. destruct (flight l), (nonempty (login_error l)); cbn [when app]; read_controls; naive_solver. Qed.

Lemma offers_arrow symbol d (j i : soc_input) : draws (arrow symbol d j) i <-> d = false /\ i = j.
Proof. unfold arrow. destruct d; read_controls; intuition discriminate. Qed.

(** The rows whose request can be followed. *)
Definition follows (a : AuditPanel.panel AuditEventVM) (tl : timeline) (id : ustr) : Prop :=
  exists e, e ∈ visible (kdc_props a) tl /\ is_open tl e = true /\ utruthy (requestId e) = true /\ id = ustring (requestId e).

Lemma offers_KdcPanel (errorMessage : js_exception -> ustr) a tl i : AuditPanel.mounted a = true ->
  draws (render_KdcPanel a tl) i <->
    (exists ai, i = OnConsole (KdcStep ai) /\ audit_by_user ai = true /\ audit_filter KDC_ACTIONS a ai = true /\
       is_Some (AuditPanel.react errorMessage a ai)) \/
    (exists id, i = OnConsole (OpenRow id) /\ follows a tl id) \/
    exists ti, i = OnKdcTimeline ti /\ is_Some (timeline_react (kdc_props a) tl ti).
Proof.
  intros Hm. setoid_rewrite (audit_reacts errorMessage KDC_ACTIONS a _ Hm).
  unfold draws at 1, render_KdcPanel. generalize KDC_ACTIONS. intros options. set (props := kdc_props a).
  read_controls. change (Exists (gives i) (controls ?n)) with (draws n i).
  rewrite !offers_arrow, !negb_false_iff, offers_timeline. unfold handed, follows. fold props. cbn [tp_onRefresh tp_onRetry tp_onViewSession props kdc_props].
  assert (Ho : map fst (action_options options) = map js options)
    by (unfold action_options; rewrite map_map; by apply map_ext).
  rewrite Ho. split.
  - intros H. destruct_or! H; try done.
    + left. destruct H as [H ->]. by exists AuditPanel.PrevPage.
    + left. destruct H as [H ->]. by exists AuditPanel.NextPage.
    + left. destruct H as [v ->]. eexists. split; [done|]. by left.
    + left. destruct H as (v & Hv & ->). eexists. split; [done|]. by right.
    + by right; right.
    + left. injection H as <-. by exists AuditPanel.RefreshList.
    + left. destruct H as [_ [= <-]]. by exists AuditPanel.RefreshList.
    + right; left. destruct H as (e & f & He & Hop & Hq & [= <-] & ->). eexists. split; [done|]. by exists e.
  - intros [(ai & -> & Ha)|[(id & -> & e & He & Hop & Hq & ->)|H]]; [| |tauto].
    + destruct ai as [v s| | | | | |k r]; try done; try tauto.
      destruct Ha as [->|[-> Hv]]; [right; left; by exists s | do 2 right; left; by exists v].
    + do 3 right. left. do 3 right. by eexists e, _.
Qed.

Lemma offers_drawer d tl i :
  draws (render_SessionDrawer d tl) i <->
    i = OnConsole CloseDrawer \/ exists ti, i = OnDrawerTimeline ti /\ is_Some (timeline_react (drawer_props d) tl ti).
Proof.
  unfold render_SessionDrawer. read_controls. change (Exists (gives i) (controls ?n)) with (draws n i).
  rewrite offers_timeline. unfold handed. cbn [tp_onRefresh tp_onRetry tp_onViewSession drawer_props]. naive_solver.
Qed.

Lemma given_controls v f : (forall x, flat_map controls (f x) = []) -> flat_map controls (given v f) = [].
Proof. intros Hf. by destruct v; [apply Hf|]. Qed.

Lemma cards_controls s : controls (render_cards s) = [].
Proof.
  unfold render_cards, card. cbv zeta. compute_view.
  rewrite !given_controls; try done; intros; try apply child_controls; apply given_controls, child_controls.
Qed.

Lemma anomalies_controls s : flat_map controls (render_anomalies s) = [].
Proof.
  assert (Hi : forall x, controls (anomaly_item x) = []).
  { intros x. unfold anomaly_item. cbn [controls flat_map el txt app]. by rewrite !flat_map_app, !given_controls by apply child_controls. }
  assert (Hl : forall l, flat_map controls (map anomaly_item l) = []) by (induction l as [|x l IH]; [done|]; cbn [map flat_map]; by rewrite Hi, IH).
  unfold render_anomalies. destruct (uget "anomalies" s) as [a|]; [|done]. apply given_controls. intros n.
  destruct (positive n); [|done]. destruct a as [| |b|z|d|t|l|o]; try done. cbn [when flat_map controls el txt]. by rewrite Hl.
Qed.

Lemma verdict_controls toUpperCase v : controls (render_verdict toUpperCase v) = [].
Proof.
  unfold render_verdict. destruct (uget "sources" v) as [w|]; [|done]. destruct (entries w) as [l|]; [|done].
  unfold verdict_box. cbn [controls styled]. rewrite flat_map_app. assert (Hl : flat_map controls (map (source_item toUpperCase) l) = []).
  { induction l as [|[src s] l IH]; [done|]. cbn [map flat_map]. rewrite IH, app_nil_r. unfold source_item.
    destruct s; try done; cbn [controls el]; rewrite flat_map_app; cbn [flat_map controls txt app];
      destruct (utruthy (member "checked" _)); try done; apply child_controls. }
  rewrite Hl. by destruct (forallb _ l).
Qed.

Lemma offers_CrossServicePanel (errorMessage : js_exception -> ustr) toUpperCase x i :
  draws (render_CrossServicePanel toUpperCase x) i <->
    exists xi, i = OnConsole (CrossStep xi) /\ is_Some (CrossServicePanel.react errorMessage x xi) /\
      match xi with
      | CrossServicePanel.ExportAs f => f = js "csv" \/ f = js "json"
      | CrossServicePanel.RunVerify | CrossServicePanel.TypeLookup _ | CrossServicePanel.OpenLookup => True
      | _ => False
      end.
Proof.
  assert (Hs : flat_map controls (match CrossServicePanel.summary x with Some s => when (utruthy s) [render_cards s] | None => [] end) = []).
  { destruct (CrossServicePanel.summary x) as [s|]; [|done]. destruct (utruthy s); [|done]. cbn [when flat_map]. by rewrite cards_controls. }
  assert (Hv : flat_map controls (match CrossServicePanel.verify x with Some v => guarded v [render_verdict toUpperCase v] | None => [] end) = []).
  { destruct (CrossServicePanel.verify x) as [v|]; [|done]. rewrite guarded_controls. cbn [flat_map]. rewrite verdict_controls.
    by destruct (utruthy v). }
  assert (Ha : flat_map controls (match CrossServicePanel.summary x with Some s => guarded s (render_anomalies s) | None => [] end) = []).
  { destruct (CrossServicePanel.summary x) as [s|]; [|done]. rewrite guarded_controls, anomalies_controls. by destruct (utruthy s). }
  unfold draws, render_CrossServicePanel. cbn [controls el]. rewrite !flat_map_app, Hs, Hv, Ha.
  transitivity ((CrossServicePanel.verifying x = false /\ i = OnConsole (CrossStep CrossServicePanel.RunVerify)) \/
    i = OnConsole (CrossStep (CrossServicePanel.ExportAs (js "csv"))) \/ i = OnConsole (CrossStep (CrossServicePanel.ExportAs (js "json"))) \/
    (exists v, i = OnConsole (CrossStep (CrossServicePanel.TypeLookup v))) \/
    (nonempty (UString.trim (CrossServicePanel.lookup x)) = true /\ i = OnConsole (CrossStep CrossServicePanel.OpenLookup))).
  - destruct (CrossServicePanel.verifying x), (nonempty (CrossServicePanel.error x)), (nonempty (UString.trim (CrossServicePanel.lookup x)));
      cbn [when negb]; read_controls; intuition discriminate.
  - unfold CrossServicePanel.react. split.
    + intros [[Hb ->]|[->|[->|[[v ->]|[Hn ->]]]]]; eexists; (split; [reflexivity|]).
      * by rewrite Hb.
      * split; [done | by left].
      * split; [done | by right].
      * done.
      * by destruct (UString.trim (CrossServicePanel.lookup x)).
    + intros (xi & -> & Hr & Hk). destruct xi as [|f|v| |k r|k r|k r]; try done.
      * destruct (CrossServicePanel.verifying x); [by destruct Hr | by left].
      * destruct Hk as [->| ->]; tauto.
      * do 3 right. left. by exists v.
      * do 4 right. by destruct (UString.trim (CrossServicePanel.lookup x)); [destruct Hr|].
Qed.
End draws.

(** ** The console and its machine *)

Section correspondence.

Context `{P : Platform} `{L : Locale} (errorMessage : js_exception -> ustr) (envToken : ustr) (toUpperCase : ustr -> ustr).

#[local] Notation react := (SocConsole.react errorMessage envToken).
#[local] Notation render := (render_AdminSOC toUpperCase).

(** What is mounted: with a session the panel of the view and no other. *)
Definition shape (c : console) : Prop :=
  if nonempty (token c) then
    match view c with
    | ViewKdc => (exists a, kdc c = Some a /\ AuditPanel.mounted a = true) /\ cross c = None
    | ViewCross => kdc c = None /\ is_Some (cross c)
    end
  else signed_out c.

Lemma shape_logout c : shape (logout c).
Proof. by split. Qed.

Lemma shape_mount c : token c <> [] -> shape (mount_view envToken c).1.
Proof.
  intros Ht. unfold mount_view, shape. destruct (view c) eqn:Hv; cbn; rewrite Hv; destruct (token c); try done.
  split; [by eexists | done].
Qed.

(** The parts on which it depends. *)
Definition skeleton (c : console) := (token c, view c, kdc c, cross c).

Lemma shape_same c c' : skeleton c' = skeleton c -> token c <> [] -> shape c -> shape c'.
Proof. unfold skeleton, shape. intros [= -> -> -> ->]. by destruct (token c). Qed.

Lemma skeleton_mount_drawer c : skeleton (mount_drawer envToken c).1 = skeleton c.
Proof. unfold mount_drawer. destruct (session c); [|done]. by destruct (SessionDrawer.opened _). Qed.

Lemma skeleton_setSession id c : skeleton (setSession errorMessage envToken id c).1 = skeleton c.
Proof.
  unfold setSession. destruct (drawer c) as [d|]; [|etransitivity; [apply skeleton_mount_drawer | done]].
  by destruct (SessionDrawer.react _ _ _) as [[? ?]|].
Qed.

Lemma mounted_kept a ai a' cs : AuditPanel.mounted a = true -> is_unmount ai = false ->
  AuditPanel.react (A := AuditEventVM) errorMessage a ai = Some (a', cs) -> AuditPanel.mounted a' = true.
Proof.
  intros Hm Hu. unfold AuditPanel.react. rewrite Hm. destruct ai as [v s| | | | | |k r]; try done; cbn [negb].
  - destruct (_ && _); by intros [= <- _].
  - destruct (AuditPanel.debounce a) as [[v s]|]; [|done]. by intros [= <- _].
  - destruct (canPrev _); [|done]. by intros [= <- _].
  - destruct (canNext _ _); [|done]. by intros [= <- _].
  - by intros [= <- _].
  - destruct (take_numbered _ _) as [[? l]|]; [|done]. destruct r; by intros [= <- _].
Qed.

Lemma shape_signed_in tok mail c : shape (signed_in envToken tok mail c).1.
Proof.
  unfold signed_in. match goal with |- context [mount_view _ ?c1] => set (c1' := c1) end.
  destruct (nonempty (token c1')) eqn:Ht; [|unfold shape; cbn [fst]; fold c1'; rewrite Ht; by split_and!].
  assert (Hne : token c1' <> []) by by destruct (token c1').
  pose proof (shape_mount c1' Hne) as Hs. pose proof (skeleton_mount_drawer (mount_view envToken c1').1) as Hd.
  assert (Hk : token (mount_view envToken c1').1 = token c1') by (unfold mount_view; by destruct (view c1')).
  destruct (mount_view envToken c1') as [c2 cs]. cbn [fst] in *. destruct (mount_drawer envToken c2) as [c3 cs'].
  cbn [fst] in *. apply (shape_same c2); [done | by rewrite Hk | done].
Qed.

Lemma shape_react c i c' cs : shape c -> react c i = Some (c', cs) -> shape c'.
Proof.
  intros Hs Hr.
  assert (Hsame : forall x, skeleton x = skeleton c -> (drawer c = None -> drawer x = None) -> shape x).
  { intros x Hx Hd. destruct (nonempty (token c)) eqn:Ht; [apply (shape_same c); [done | by destruct (token c) | done]|].
    unfold shape in *. rewrite Ht in Hs. destruct Hs as (H1 & H2 & H3). unfold skeleton in Hx. injection Hx as H4 H5 H6 H7.
    rewrite H4, Ht. split_and!; [congruence | congruence | by apply Hd]. }
  assert (Hk : forall a, kdc c = Some a -> nonempty (token c) = true /\ view c = ViewKdc /\ cross c = None /\ AuditPanel.mounted a = true).
  { intros a Ha. unfold shape in Hs. destruct (nonempty (token c)); [|destruct Hs; congruence]. split; [done|].
    destruct (view c); [|destruct Hs; congruence]. destruct Hs as [(a' & Ha' & Hm) Hc]. split_and!; congruence. }
  assert (Hx : forall x, cross c = Some x -> nonempty (token c) = true /\ view c = ViewCross /\ kdc c = None).
  { intros x Hx. unfold shape in Hs. destruct (nonempty (token c)); [|destruct Hs as (_ & ? & _); congruence]. split; [done|].
    destruct (view c); [destruct Hs; congruence|]. by destruct Hs. }
  destruct i as [e pw| |r| |v|id| |i|i|k r|n k r|n k r]; cbn [SocConsole.react] in Hr.
  - destruct (Wire.nonempty (token c)); [done|]. injection Hr as <- _. by apply Hsame.
  - destruct (_ || _); [done|]. injection Hr as <- _. by apply Hsame.
  - destruct (flight (login c)); [|done]. cbn [negb] in Hr. destruct r as [[tok mail]|e].
    + injection Hr as Hr. change c' with (c', cs).1. rewrite <- Hr. apply shape_signed_in.
    + injection Hr as <- _. by apply Hsame.
  - destruct (Wire.nonempty (token c)); [|done]. injection Hr as <- _. apply shape_logout.
  - destruct (Wire.nonempty (token c)) eqn:Ht; [|done]. injection Hr as Hr. change c' with (c', cs).1. rewrite <- Hr.
    unfold setView. case_decide; [done|]. apply shape_mount. cbn. by destruct (token c).
  - destruct (kdc c) as [a|] eqn:Ha; [|done]. destruct (_ && _); [|done]. injection Hr as Hr. change c' with (c', cs).1. rewrite <- Hr.
    apply (shape_same c); [apply skeleton_setSession | | done]. destruct (Hk a eq_refl) as [Ht _]. by destruct (token c).
  - destruct (drawer c); [|done]. injection Hr as <- _. by apply Hsame.
  - destruct (kdc c) as [a|] eqn:Ha; [|done]. destruct (is_unmount i) eqn:Hu; [done|]. unfold kdc_step in Hr.
    destruct (AuditPanel.react errorMessage a i) as [[a' cs']|] eqn:Har; [|done]. injection Hr as Hr.
    destruct (kdc_refused cs'); [injection Hr as <- _; apply shape_logout|]. injection Hr as <- _.
    destruct (Hk a eq_refl) as (Ht & Hv & Hc & Hm). unfold shape. cbn. rewrite Ht, Hv. split; [|done].
    exists a'. split; [done|]. by apply (mounted_kept a i a' cs').
  - destruct (cross c) as [x|] eqn:Hcx; [|done]. unfold cross_step in Hr.
    destruct (CrossServicePanel.react errorMessage x i) as [[x' cs']|]; [|done]. injection Hr as Hr.
    destruct (cross_refused cs'); [injection Hr as <- _; apply shape_logout|].
    destruct (Hx x eq_refl) as (Ht & Hv & Hkn). set (c1 := with_panels _ _ _ _ _ c) in Hr.
    assert (Hs1 : shape c1) by (unfold shape; cbn; rewrite Ht, Hv; by split).
    destruct (followed cs') as [id|]; [|by injection Hr as <- _].
    change c' with (c', cs).1. rewrite <- Hr. apply (shape_same c1); [apply skeleton_setSession | cbn; by destruct (token c) | done].
  - destruct (drawer c) as [d|] eqn:Hd; [|done]. destruct (SessionDrawer.react _ _ _) as [[d' cs']|]; [|done].
    injection Hr as <- _. by apply Hsame.
  - unfold left_kdc_reply in Hr. destruct (left_kdc c !! n) as [a|]; [|done].
    destruct (AuditPanel.react _ _ _) as [[a' cs']|]; [|done]. injection Hr as <- _.
    destruct (kdc_refused cs'); [apply shape_logout | by apply Hsame].
  - unfold left_summary_reply in Hr. destruct (left_cross c !! n) as [a|]; [|done].
    destruct (CrossServicePanel.react _ _ _) as [[a' cs']|]; [|done]. injection Hr as <- _.
    destruct (cross_refused cs'); [apply shape_logout | by apply Hsame].
Qed.

Lemma shape_reached storage t c : reaches react (opened envToken storage).1 t c -> shape c.
Proof.
  apply (reaches_invariant react (fun _ c => shape c)).
  - unfold opened. set (c0 := {| stored := _; token := _; email := _; view := _; session := _; login := _; kdc := _; cross := _;
      drawer := _; left_kdc := _; left_cross := _ |}). destruct (Wire.nonempty (token c0)) eqn:Ht.
    + apply shape_mount. by destruct (token c0).
    + unfold shape. cbn [fst]. rewrite Ht. by split_and!.
  - intros _ c0 i c' cs Hs Hr. by eapply shape_react.
Qed.

(** What the user does, in contrast to the replies; a form changes one of its
    fields at a time. *)
Definition by_user (c : console) (i : SocConsole.input) : bool :=
  match i with
  | TypeLogin e pw => ustr_eqb e (in_email (login c)) || ustr_eqb pw (in_password (login c))
  | SubmitLogin | SignOut | SetView _ | CloseDrawer => true
  | KdcStep ai => audit_by_user ai && match kdc c with Some a => audit_filter KDC_ACTIONS a ai | None => true end
  | CrossStep (CrossServicePanel.ExportAs f) => ustr_eqb f (js "csv") || ustr_eqb f (js "json")
  | CrossStep (CrossServicePanel.RunVerify | CrossServicePanel.TypeLookup _ | CrossServicePanel.OpenLookup) => true
  | _ => false
  end.

Lemma soc_nav_offers here i : draws (soc_nav here) i <-> exists v, i = OnConsole (SetView v).
Proof. unfold soc_nav, SOC_NAV. read_controls. split; [naive_solver|]. intros [[] ->]; tauto. Qed.

(** The console as it is rendered with a session. *)
Lemma soc_offers_render c tl dl i : nonempty (token c) = true ->
  draws (render c tl dl) i <->
    i = OnConsole SignOut \/ (exists v, i = OnConsole (SetView v)) \/
    Exists (gives i) (flat_map controls (render_panel toUpperCase c tl)) \/
    exists d, drawer c = Some d /\ draws (render_SessionDrawer d dl) i.
Proof.
  intros Ht. unfold render_AdminSOC. rewrite Ht. cbn [negb]. unfold draws at 1, soc_Header. cbn [controls el]. rewrite flat_map_app, Exists_app.
  assert (Hd : Exists (gives i) (flat_map controls match drawer c with Some d => [render_SessionDrawer d dl] | None => [] end) <->
    exists d, drawer c = Some d /\ draws (render_SessionDrawer d dl) i).
  { destruct (drawer c) as [d|]; cbn [flat_map]; [rewrite app_nil_r | rewrite Exists_nil]; naive_solver. }
  rewrite Hd. read_controls. change (Exists (gives i) (controls (soc_nav (view c)))) with (draws (soc_nav (view c)) i).
  rewrite soc_nav_offers. tauto.
Qed.

Lemma some_such {A} (x : A) (Q : A -> Prop) : (exists y, Some x = Some y /\ Q y) <-> Q x.
Proof. split; [by intros (y & [= <-] & H) | intros H; by exists x]. Qed.

(** What the machine takes from the user, with what is mounted. *)
Lemma console_reacts c i : shape c ->
  by_user c i = true /\ is_Some (react c i) <->
  match i with
  | TypeLogin e pw => token c = [] /\ (e = in_email (login c) \/ pw = in_password (login c))
  | SubmitLogin => token c = [] /\ flight (login c) = false
  | SignOut | SetView _ => token c <> []
  | CloseDrawer => is_Some (drawer c)
  | KdcStep ai =>
      exists a, kdc c = Some a /\ audit_by_user ai = true /\ audit_filter KDC_ACTIONS a ai = true /\
        is_Some (AuditPanel.react errorMessage a ai)
  | CrossStep xi =>
      exists x, cross c = Some x /\ is_Some (CrossServicePanel.react errorMessage x xi) /\
        match xi with
        | CrossServicePanel.ExportAs f => f = js "csv" \/ f = js "json"
        | CrossServicePanel.RunVerify | CrossServicePanel.TypeLookup _ | CrossServicePanel.OpenLookup => True
        | _ => False
        end
  | _ => False
  end.
Proof.
  intros Hs. assert (Ht : token c = [] <-> nonempty (token c) = false) by by destruct (token c).
  assert (Ht' : token c <> [] <-> nonempty (token c) = true) by by destruct (token c).
  destruct i as [e pw| |r| |v|id| |i|i|k r|n k r|n k r]; cbn [by_user SocConsole.react]; try (split; [by intros [? _] | done]).
  - rewrite orb_true_iff, !ustr_eqb_eq, Ht. destruct (nonempty (token c)); naive_solver.
  - rewrite Ht. destruct (nonempty (token c)), (flight (login c)); cbn [orb]; naive_solver.
  - rewrite Ht'. destruct (nonempty (token c)); naive_solver.
  - rewrite Ht'. destruct (nonempty (token c)); naive_solver.
  - destruct (drawer c); naive_solver.
  - destruct (kdc c) as [a|]; [|split; [by intros [_ [? ?]] | by intros (? & [=] & _)]]. rewrite some_such, andb_true_iff.
    destruct (is_unmount i) eqn:Hu; [destruct i; try done; split; [by intros [[? _] _] | by intros [? _]]|].
    unfold kdc_step. destruct (AuditPanel.react errorMessage a i) as [[? ?]|].
    + split; [intros [[? ?] _]; by split_and! | intros (? & ? & _); by split_and!].
    + split; [by intros [_ [? ?]] | by intros (_ & _ & ? & ?)].
  - destruct (cross c) as [x|]; [|split; [by intros [_ [? ?]] | by intros (? & [=] & _)]]. rewrite some_such. unfold cross_step.
    assert (Hr : is_Some (match CrossServicePanel.react errorMessage x i with
      | Some (p', cs) =>
          let c1 := with_panels (kdc c) (Some p') (drawer c) (left_kdc c) (left_cross c) c in
          Some (if cross_refused cs then (logout c1, [])
                else match followed cs with Some id => setSession errorMessage envToken id c1 | None => (c1, cross_sends envToken c1 cs) end)
      | None => None end) <-> is_Some (CrossServicePanel.react errorMessage x i)).
    { destruct (CrossServicePanel.react errorMessage x i) as [[? ?]|]; split; try done; by intros [? ?]. }
    rewrite Hr. destruct i as [|f|v| |k r|k r|k r]; try tauto; try (split; [by intros [? _] | by intros [_ ?]]).
    rewrite orb_true_iff, !ustr_eqb_eq. tauto.
Qed.

(** The controls of the console, whether React refuses an element or not. *)
Lemma soc_draws storage t c tl dl : reaches react (opened envToken storage).1 t c ->
  (forall i, (match i with OpenRow _ => False | _ => True end) ->
     draws (render c tl dl) (OnConsole i) <-> by_user c i = true /\ is_Some (react c i)) /\
  (forall id, draws (render c tl dl) (OnConsole (OpenRow id)) <-> exists a, kdc c = Some a /\ follows a tl id) /\
  (forall ti, draws (render c tl dl) (OnKdcTimeline ti) <->
     exists a, kdc c = Some a /\ is_Some (timeline_react (kdc_props a) tl ti)) /\
  (forall ti, draws (render c tl dl) (OnDrawerTimeline ti) <->
     exists d, drawer c = Some d /\ is_Some (timeline_react (drawer_props d) dl ti)).
Proof.
  intros Hp. pose proof (shape_reached _ _ _ Hp) as Hs. clear Hp.
  assert (Hall : forall i, draws (render c tl dl) i <->
    (exists ci, i = OnConsole ci /\ by_user c ci = true /\ is_Some (react c ci)) \/
    (exists id a, i = OnConsole (OpenRow id) /\ kdc c = Some a /\ follows a tl id) \/
    (exists ti a, i = OnKdcTimeline ti /\ kdc c = Some a /\ is_Some (timeline_react (kdc_props a) tl ti)) \/
    (exists ti d, i = OnDrawerTimeline ti /\ drawer c = Some d /\ is_Some (timeline_react (drawer_props d) dl ti))).
  { intros i. setoid_rewrite (fun ci => console_reacts c ci Hs). unfold shape in Hs. destruct (nonempty (token c)) eqn:Ht.
    - rewrite soc_offers_render by done. setoid_rewrite offers_drawer. unfold render_panel.
      assert (Hne : token c <> []) by by destruct (token c). destruct (view c).
      + destruct Hs as [(a & Ha & Hm) Hx]. rewrite Ha, Hx. cbn [flat_map]. rewrite app_nil_r.
        change (Exists (gives i) (controls (render_KdcPanel a tl))) with (draws (render_KdcPanel a tl) i).
        rewrite (offers_KdcPanel errorMessage a tl i Hm). split.
        * intros [->|[[v ->]|[[(ai & -> & Hr)|[(id & -> & Hf)|(ti & -> & Hr)]]|(d & Hd & [->|(ti & -> & Hr)])]]].
          -- left. by eexists.
          -- left. by eexists.
          -- left. eexists. split; [done|]. by exists a.
          -- right; left. by exists id, a.
          -- do 2 right; left. by exists ti, a.
          -- left. eexists. split; [done|]. by exists d.
          -- do 3 right. by exists ti, d.
        * intros [(ci & -> & Hr)|[(id & a' & -> & [= <-] & Hf)|[(ti & a' & -> & [= <-] & Hr)|(ti & d & -> & Hd & Hr)]]].
          -- destruct ci as [e pw| |r| |v|id| |ai|xi|k r|n k r|n k r]; try done; try (by destruct Hr; done).
             ++ by left.
             ++ right; left. by exists v.
             ++ destruct Hr as [d Hd]. do 3 right. exists d. split; [done|]. by left.
             ++ destruct Hr as (a' & [= <-] & Hr). do 2 right; left. left. by exists ai.
             ++ by destruct Hr as (x & [=] & _).
          -- do 2 right; left. right; left. by exists id.
          -- do 2 right; left. do 2 right. by exists ti.
          -- do 3 right. exists d. split; [done|]. right. by exists ti.
      + destruct Hs as [Ha [x Hx]]. rewrite Ha, Hx. cbn [flat_map]. rewrite app_nil_r.
        change (Exists (gives i) (controls (render_CrossServicePanel toUpperCase x))) with (draws (render_CrossServicePanel toUpperCase x) i).
        rewrite (offers_CrossServicePanel errorMessage toUpperCase x i). split.
        * intros [->|[[v ->]|[(xi & -> & Hr)|(d & Hd & [->|(ti & -> & Hr)])]]].
          -- left. by eexists.
          -- left. by eexists.
          -- left. eexists. split; [done|]. by exists x.
          -- left. eexists. split; [done|]. by exists d.
          -- do 3 right. by exists ti, d.
        * intros [(ci & -> & Hr)|[(id & a' & -> & [=] & Hf)|[(ti & a' & -> & [=] & Hr)|(ti & d & -> & Hd & Hr)]]].
          -- destruct ci as [e pw| |r| |v|id| |ai|xi|k r|n k r|n k r]; try done; try (by destruct Hr; done).
             ++ by left.
             ++ right; left. by exists v.
             ++ destruct Hr as [d Hd]. do 3 right. exists d. split; [done|]. by left.
             ++ by destruct Hr as (a' & [=] & _).
             ++ destruct Hr as (x' & [= <-] & Hr). do 2 right; left. by exists xi.
          -- do 3 right. exists d. split; [done|]. right. by exists ti.
    - destruct Hs as (Ha & Hx & Hd). assert (He : token c = []) by by destruct (token c).
      unfold render_AdminSOC. rewrite Ht. cbn [negb]. rewrite offers_login_form, Ha, Hx, Hd. split.
      + intros [[Hf ->]|[[v ->]|[v ->]]]; left; (eexists; split; [reflexivity|]); (split; [done|]); [done | by right | by left].
      + intros [(ci & -> & Hr)|[(? & ? & _ & [=] & _)|[(? & ? & _ & [=] & _)|(? & ? & _ & [=] & _)]]].
        destruct ci as [e pw| |r| |v|id| |ai|xi|k r|n k r|n k r]; try done; try (by destruct Hr as (? & [=] & _)); try (by destruct Hr).
        * destruct Hr as [_ [->| ->]]; [do 2 right; by exists pw | right; left; by exists e].
        * left. by destruct Hr. }
  split_and!; intros x; [intros Hx|..]; rewrite Hall; split.
  - intros [(ci & [= <-] & H)|[(id & a & [= ->] & _)|[(? & ? & [=] & _)|(? & ? & [=] & _)]]]; done.
  - intros H. left. by exists x.
  - intros [(ci & [= <-] & H & _)|[(id & a & [= <-] & H)|[(? & ? & [=] & _)|(? & ? & [=] & _)]]]; [done | by exists a].
  - intros (a & H). right; left. by exists x, a.
  - intros [(ci & [=] & _)|[(id & a & [=] & H)|[(? & a & [= <-] & H)|(? & ? & [=] & _)]]]. by exists a.
  - intros (a & H). do 2 right; left. by exists x, a.
  - intros [(ci & [=] & _)|[(id & a & [=] & H)|[(? & a & [=] & H)|(? & d & [= <-] & H)]]]. by exists d.
  - intros (d & H). do 3 right. by exists x, d.
Qed.

(** C25: the security console offers what its machine takes. In every run, whatever
    panels come and go: if React refuses an element, for instance a reply of the
    cross-service panel that has not the figures of its interface, the console is
    removed and nothing can be used; otherwise the controls that are rendered give
    exactly the inputs of the user for which the console has a step, a request being
    followed from the rows that are shown and open, and the timelines take their
    inputs while they are mounted. *)
Theorem soc_controls storage t c tl dl : reaches react (opened envToken storage).1 t c ->
  (forall i, (match i with OpenRow _ => False | _ => True end) ->
     offers (render c tl dl) (OnConsole i) <->
     crashes (render c tl dl) = false /\ by_user c i = true /\ is_Some (react c i)) /\
  (forall id, offers (render c tl dl) (OnConsole (OpenRow id)) <->
     crashes (render c tl dl) = false /\ exists a, kdc c = Some a /\ follows a tl id) /\
  (forall ti, offers (render c tl dl) (OnKdcTimeline ti) <->
     crashes (render c tl dl) = false /\ exists a, kdc c = Some a /\ is_Some (timeline_react (kdc_props a) tl ti)) /\
  (forall ti, offers (render c tl dl) (OnDrawerTimeline ti) <->
     crashes (render c tl dl) = false /\ exists d, drawer c = Some d /\ is_Some (timeline_react (drawer_props d) dl ti)).
Proof.
  intros Hp. destruct (soc_draws storage t c tl dl Hp) as (H1 & H2 & H3 & H4). unfold offers.
  split_and!; intros x; [intros Hx; by rewrite H1 by done|..].
  - by rewrite H2.
  - by rewrite H3.
  - by rewrite H4.
Qed.
End correspondence.

(** ** The verdict on the audit chains *)

(** What is said of a source can be shown. *)
Definition plain_source (s : ujson) : bool :=
  match s with UObj _ => utruthy (member "checked" s) || primitive (unullish (member "detail" s) (UStr (js "skipped"))) | _ => false end.

Definition verdict_text (ok : bool) : ustr :=
  if ok then u8 "Audit hash chain verified — no tampering detected." else u8 "Audit chain integrity check FAILED.".

Lemma verdict_reads `{P : Platform} `{L : Locale} toUpperCase fields l b :
  member "sources" (UObj fields) = UObj l -> forallb (fun e => plain_source e.2) l = true ->
  forallb (fun e => source_ok e.2) l = b ->
  crashes (render_verdict toUpperCase (UObj fields)) = false /\
  head (texts (render_verdict toUpperCase (UObj fields))) = Some (verdict_text b) /\
  forall x, CrossServicePanel.verify x = Some (UObj fields) ->
    within (render_verdict toUpperCase (UObj fields)) (render_CrossServicePanel toUpperCase x).
Proof.
  intros Hs Hp <-. assert (Hr : render_verdict toUpperCase (UObj fields) =
    verdict_box (forallb (fun e => source_ok e.2) l) (map (source_item toUpperCase) l)).
  { unfold render_verdict. cbn [uget]. by rewrite Hs. }
  rewrite Hr. split_and!.
  - unfold verdict_box. cbn [crashes styled]. rewrite existsb_app, map_shown;
      [by destruct (forallb (fun e => source_ok e.2) l)|].
    intros [src s] He. apply (all_elem _ _ _ Hp) in He. unfold plain_source in He. cbn [snd] in He. destruct s as [| | | | | | |o]; try done.
    unfold source_item. cbn [crashes el]. rewrite existsb_app. cbn [existsb crashes txt orb].
    destruct (utruthy (member "checked" (UObj o))); [done|]. by apply child_shown.
  - unfold verdict_box, verdict_text. by destruct (forallb (fun e => source_ok e.2) l).
  - intros x Hx. rewrite <- Hr. eapply within_in; [|apply within_refl]. unfold render_CrossServicePanel. cbn [children_of el].
    rewrite Hx. unfold guarded. cbn [utruthy]. rewrite !elem_of_app. do 3 right. left. apply list_elem_of_here.
Qed.

(** C24: what is read of the audit chains. After every run of the gateway's check
    that is answered, the panel that has its data shows them, and says that the
    integrity check failed exactly when one of the services found its chain broken:
    no service needs to have been reached for the text that no tampering was
    detected. *)
Theorem verdict_shown (P : Platform) (L : Locale) toUpperCase req :
  always (handleAuditVerify req) (fun t r =>
    match r with
    | Ok o => exists data, client_data o = Some data /\ crashes (render_verdict toUpperCase data) = false /\
        head (texts (render_verdict toUpperCase data)) = Some (verdict_text (forallb Datatypes.id (verdicts t))) /\
        forall x, CrossServicePanel.verify x = Some data ->
          within (render_verdict toUpperCase data) (render_CrossServicePanel toUpperCase x)
    | Err e => err_message e = Some "Invalid time value"%string \/
               readCookie (cookie req) BANK_SESSION_COOKIE = Err e
    end).
Proof.
  unfold handleAuditVerify, attempt. gw_unfold. gw_cbn. gw_reply ca_r; gw_reply kdc_r;
    (destruct (readCookie (cookie req) BANK_SESSION_COOKIE) as [token|e]; gw_cbn; [|by right]);
    (destruct (Validators.nonempty token) eqn:Hn; gw_cbn; [gw_reply bank_r|]); gw_reply ms;
    (destruct (toISOString ms) as [ts|]; gw_cbn; [|by left]);
    (eexists; split; [reflexivity|]; eapply verdict_reads; [reflexivity|..]);
    unfold chain_json, verdicts; cbn [chain_ok fst snd omap list_omap chain_verdict request answer];
    repeat match goal with |- context [va_ok ?v] => destruct (va_ok v) end; reflexivity.
Qed.

(** ** A concrete console *)

Lemma soc_controls_witness :
  let c := (opened [] alice).1 in
  offers (render_AdminSOC (P := demo_platform) (fun s => s) c new_timeline new_timeline) (OnConsole (SetView ViewCross)) /\
  ~ offers (render_AdminSOC (P := demo_platform) (fun s => s) c new_timeline new_timeline) (OnConsole SubmitLogin).
Proof.
  intros c. pose proof (reach_start (react (P := demo_platform) (fun _ => []) []) c) as Hp.
  destruct (soc_controls (P := demo_platform) (fun _ => []) [] (fun s => s) alice [] c new_timeline new_timeline Hp) as (H & _).
  split; [apply H; [done|]; split; [reflexivity|]; split; [reflexivity | by eexists] | rewrite H by done; intros (_ & _ & [r Hr]); discriminate Hr].
Defined.

(** A summary without its figures takes the console down: nothing can be used, not
    even the end of the session. *)
Definition without_figures : option (list (step_taken console input call) * console) :=
  run_inputs (react (P := demo_platform) (fun _ => []) [])
    [SetView ViewCross; CrossStep (CrossServicePanel.SummaryReply 0 (Ok (UObj [])))] [] (opened [] alice).1.

Example console_removed :
  match without_figures with
  | Some (_, c) =>
      let page := render_AdminSOC (P := demo_platform) (fun s => s) c new_timeline new_timeline in
      crashes page = true /\ draws page (OnConsole SignOut) /\ ~ offers page (OnConsole SignOut)
  | None => False
  end.
Proof.
  destruct without_figures as [[t c]|] eqn:Hr; [|vm_compute in Hr; discriminate Hr]. intros page.
  assert (Hc : crashes page = true) by (unfold page; vm_compute in Hr; injection Hr as <- <-; vm_compute; reflexivity).
  split; [exact Hc|]. split; [|unfold offers; rewrite Hc; by intros [? _]].
  assert (Hp : reaches (react (P := demo_platform) (fun _ => []) []) (opened [] alice).1 t c)
    by (eapply run_inputs_reaches; [apply reach_start | exact Hr]).
  apply (soc_draws (P := demo_platform) (fun _ => []) [] (fun s => s) alice t c new_timeline new_timeline Hp); [done|].
  unfold react. vm_compute in Hr. injection Hr as <- <-. split; [reflexivity | by eexists].
Qed.
