(* ===== verification/ViewProps.v ===== *)
(** * What the pages show, over all of them

    [pins_never_shown] is about every page with a PIN. [gateway_data_shown] puts the
    gateway and the pages together: whatever rows the gateway sends to the
    customer's page (with a profile that can be shown) and to the page of the bank's administrator, no state that a
    run reaches takes the page down. *)

From S2P Require Import Prelude Effects JsDate JsString UString UJson WebCrypto Wire Browser Schema Gateway AuditSemantics AuditFetch CaAdmin Bank AdminBank EndToEnd BankClient TimelineView PageRun PinPages RegisterPage HomePage AdminBankPage Locale View PinViews HomeView RegisterView BankView.

Open Scope Z_scope.

(** ** Runs whose inputs satisfy a property *)

Section fed.

Context {P I C : Type} (react : P -> I -> option (P * list C)) (ok : I -> Prop) (good : P -> Prop).

(** Every input of the run is [ok]. *)
Definition fed (t : list (step_taken P I C)) : Prop := forall s, s ∈ t -> ok (by_input s).

Lemma fed_invariant start t p : good start ->
  (forall p i p' cs, ok i -> good p -> react p i = Some (p', cs) -> good p') ->
  reaches react start t p -> fed t -> good p.
Proof.
  intros H0 Hs Hr. induction Hr as [|t p i p' cs Hr IH Hp]; intros Hf; [done|].
  eapply Hs; [exact (Hf _ (list_elem_of_here _ _)) | | exact Hp]. apply IH. intros s Hin. by apply Hf, list_elem_of_further.
Qed.

Lemma fed_run inputs t p t' p' : Forall ok inputs -> fed t -> run_inputs react inputs t p = Some (t', p') -> fed t'.
Proof.
  revert t p. induction inputs as [|i rest IH]; intros t p Hi Ht; cbn [run_inputs]; [by intros [= <- <-]|].
  apply Forall_cons_1 in Hi as [H Hi]. destruct (react p i) as [[p1 cs]|]; [|done]. apply IH; [done|].
  intros s Hs. apply elem_of_cons in Hs as [->|Hs]; [exact H | by apply Ht].
Qed.
End fed.

(** ** The customer's page *)

Section home.

Context `{P : Platform} `{L : Locale} `{D : Dates} `{W : WebCrypto} (toUpperCase : ustr -> ustr) (thrown_message : js_exception -> ustr).

#[local] Notation profile_reply := (HomePage.profile_reply toUpperCase thrown_message).
#[local] Notation history_reply := (HomePage.history_reply toUpperCase thrown_message).
#[local] Notation told := (HomePage.told toUpperCase thrown_message).

(** A history that the gateway has sent, and a profile that can be shown. *)
Definition gateway_replies (i : HomePage.input) : Prop :=
  match i with
  | HistoryReply _ (Ok (items, _)) =>
      forall item, item ∈ items -> exists r, mapItem (widen (transaction_json r)) = Ret item
  | ProfileReply _ (Ok a) => plain_profile a = true
  | _ => True
  end.

Definition shown_history (p : home) : Prop :=
  match HomePage.shown p with HistoryView h => forallb typed_item (hs_items h) = true | _ => True end.

Lemma gateway_item r item : mapItem (widen (transaction_json r)) = Ret item -> typed_item item = true.
Proof. intros H. unfold mapItem, transaction_json in H. vm_compute in H. injection H as <-. reflexivity. Qed.

Lemma fetch_history_shown h p : forallb typed_item (hs_items h) = true -> shown_history (fetch_history h p).1.
Proof. intros Hh. unfold fetch_history. by destruct (ownAccountId p). Qed.

Lemma reload_shown p : shown_history p -> shown_history (reloadProfile p).1.
Proof. done. Qed.

Lemma fail_shown p : shown_history p -> shown_history (handleTransferFail p).1.
Proof.
  intros Hp. unfold handleTransferFail, reloadProfile, fetch_profile. cbn [HomePage.shown HomePage.start HomePage.set_profile].
  destruct (HomePage.shown p) as [|f|h|c] eqn:Hs; unfold shown_history in *; cbn [fst HomePage.shown HomePage.start HomePage.set_profile];
    rewrite ?Hs; try done. rewrite Hs in Hp.
  match goal with |- context [fetch_history h ?q] => pose proof (fetch_history_shown h q Hp) as Hf; by destruct (fetch_history h q) end.
Qed.

Lemma setView_shown v p : shown_history p -> shown_history (setView v p).1.
Proof.
  intros Hp. unfold setView. case_bool_decide; [done|]. destruct v; [done..| |].
  - by apply fetch_history_shown.
  - unfold parse_certificate. by destruct (storedCertificate _).
Qed.

Lemma device_shown r p : shown_history p -> shown_history (device_read r p).1.
Proof.
  intros Hp. unfold device_read. destruct r as [[name cert]|]; [|done]. unfold shown_history in Hp. cbn [HomePage.shown HomePage.set_device].
  destruct (HomePage.shown p) as [|f|h|c] eqn:Hs, cert; unfold shown_history, parse_certificate; cbn; by rewrite ?Hs.
Qed.

Lemma profile_shown k r p : shown_history p -> shown_history (profile_reply k r p).1.
Proof.
  intros Hp. unfold HomePage.profile_reply. case_bool_decide; [|done]. destruct r as [a|]; [|done]. cbn [HomePage.shown HomePage.set_profile].
  destruct (HomePage.shown p) as [|f|h|c] eqn:Hs; unfold shown_history in *; cbn [fst HomePage.shown HomePage.set_profile]; rewrite ?Hs in *; try done.
  destruct (ustr_eqb _ _); [|by apply fetch_history_shown]. cbn. by rewrite Hs.
Qed.

Lemma reply_shown k r p : gateway_replies (HistoryReply k r) -> shown_history p -> shown_history (history_reply k r p).
Proof.
  intros Hr Hp. unfold HomePage.history_reply. unfold shown_history in Hp. destruct (HomePage.shown p) as [|f|h|c] eqn:Hs;
    try (unfold shown_history; by rewrite Hs). case_bool_decide; [|unfold shown_history; by rewrite Hs].
  destruct r as [[items total]|]; [|done]. unfold shown_history. cbn. apply forallb_forall. intros item Hin.
  destruct (Hr item) as [t Ht]; [by apply list_elem_of_In|]. by eapply gateway_item.
Qed.

Lemma home_step p i p' cs : gateway_replies i -> shown_history p ->
  HomePage.react toUpperCase thrown_message p i = Some (p', cs) -> shown_history p'.
Proof.
  intros Hi Hp Hr. change p' with (p', cs).1. set (out := (p', cs)) in *. clearbody out. clear p' cs.
  unfold HomePage.react, take_task in Hr. destruct (HomePage.left_page p); [done|].
  assert (Hq : forall l, shown_history (HomePage.set_pending l p)) by done.
  destruct i as [fi|v| | | |k r|k r|k r|k r|k r].
  - destruct (HomePage.shown p) as [|f|h|c] eqn:Hs; try done. destruct (form_react _ _ _) as [[f' [c|]]|]; try done; by injection Hr as <-.
  - injection Hr as <-. by apply setView_shown.
  - destruct (HomePage.shown p) eqn:Hs; try done. destruct (reload_offered p); [|done]. injection Hr as <-. by apply reload_shown.
  - unfold shown_history in Hp. destruct (HomePage.shown p) as [| |h|]; try done. destruct (_ || _); [done|]. injection Hr as <-.
    by apply fetch_history_shown.
  - by injection Hr as <-.
  - destruct (take_numbered _ _) as [[[] l]|]; try done. injection Hr as <-. by apply device_shown.
  - destruct (take_numbered _ _) as [[[] l]|]; try done. injection Hr as <-. by apply profile_shown.
  - destruct (take_numbered _ _) as [[[] l]|]; try done. injection Hr as <-. by apply reply_shown.
  - destruct (take_numbered _ _) as [[[] l]|]; try done. injection Hr as <-. unfold certificate_parsed, shown_history.
    specialize (Hq l). unfold shown_history in Hq. destruct (HomePage.shown (HomePage.set_pending l p)) as [|f|h|c] eqn:Hs; rewrite ?Hs; try done.
    case_bool_decide; cbn [fst HomePage.shown HomePage.set_shown]; by rewrite ?Hs.
  - destruct (take_numbered _ _) as [[[] l]|]; try done. injection Hr as <-.
    assert (Ht : shown_history (told mount r (HomePage.set_pending l p))).
    { specialize (Hq l). unfold HomePage.told, shown_history in *. destruct (HomePage.shown (HomePage.set_pending l p)) as [|f|h|c] eqn:Hs; rewrite ?Hs; try done.
      destruct (_ =? _)%nat; cbn; by rewrite ?Hs. }
    unfold transfer_reply. destruct r; [by apply reload_shown | by apply fail_shown].
Qed.

(** Only a reply changes the profile. *)
Lemma fetch_keeps h p : profile (fetch_history h p).1 = profile p.
Proof. unfold fetch_history. by destruct (ownAccountId p). Qed.

Lemma fail_keeps p : profile (handleTransferFail p).1 = profile p.
Proof.
  unfold handleTransferFail, reloadProfile, fetch_profile. cbn [HomePage.shown HomePage.start HomePage.set_profile].
  destruct (HomePage.shown p) as [|f|h|c]; try done.
  match goal with |- context [fetch_history h ?q] => pose proof (fetch_keeps h q) as Hf; by destruct (fetch_history h q) end.
Qed.

Lemma profile_step p i p' cs : HomePage.react toUpperCase thrown_message p i = Some (p', cs) ->
  profile p' = profile p \/ exists k a, i = ProfileReply k (Ok a) /\ profile p' = Some a.
Proof.
  intros Hr. change p' with (p', cs).1. set (out := (p', cs)) in *. clearbody out. clear p' cs.
  unfold HomePage.react, take_task in Hr. destruct (HomePage.left_page p); [done|].
  destruct i as [fi|v| | | |k r|k r|k r|k r|k r].
  - destruct (HomePage.shown p) as [|f|h|c]; try done. destruct (form_react _ _ _) as [[f' [c|]]|]; try done; injection Hr as <-; by left.
  - injection Hr as <-. left. unfold setView. case_bool_decide; [done|]. destruct v; [done..| |].
    + exact (fetch_keeps _ (mount (HistoryView new_history) p)).
    + unfold parse_certificate. by destruct (storedCertificate _).
  - destruct (HomePage.shown p); try done. destruct (reload_offered p); [|done]. injection Hr as <-. by left.
  - destruct (HomePage.shown p) as [| |h|]; try done. destruct (_ || _); [done|]. injection Hr as <-. left. apply fetch_keeps.
  - injection Hr as <-. by left.
  - destruct (take_numbered _ _) as [[[] l]|]; try done. injection Hr as <-. left. unfold device_read, parse_certificate.
    destruct r as [[name [cert|]]|]; try done; cbn [HomePage.shown HomePage.set_device HomePage.set_pending]; by destruct (HomePage.shown p).
  - destruct (take_numbered _ _) as [[[] l]|]; try done. injection Hr as <-. unfold HomePage.profile_reply.
    case_bool_decide; [|by left]. destruct r as [a|]; [|by left]. right. exists k, a. split; [done|].
    cbn [HomePage.shown HomePage.set_profile HomePage.set_pending].
    destruct (HomePage.shown p) as [|f|h|c]; try done. destruct (ustr_eqb _ _); [done|]. by rewrite fetch_keeps.
  - destruct (take_numbered _ _) as [[[] l]|]; try done. injection Hr as <-. left. unfold HomePage.history_reply.
    cbn [HomePage.shown HomePage.set_pending]. destruct (HomePage.shown p); try done. by case_bool_decide.
  - destruct (take_numbered _ _) as [[[] l]|]; try done. injection Hr as <-. left. unfold certificate_parsed.
    cbn [HomePage.shown HomePage.set_pending]. destruct (HomePage.shown p); try done. by case_bool_decide.
  - destruct (take_numbered _ _) as [[[] l]|]; try done. injection Hr as <-. left.
    assert (Ht : profile (told mount r (HomePage.set_pending l p)) = profile p).
    { unfold HomePage.told. cbn [HomePage.shown HomePage.set_pending HomePage.mounted]. destruct (HomePage.shown p); try done.
      by destruct (_ =? _)%nat. }
    unfold transfer_reply. destruct r; [exact Ht | by rewrite fail_keeps].
Qed.

Lemma home_run_profile session t p : reaches (HomePage.react toUpperCase thrown_message) (HomePage.opened session).1 t p ->
  fed gateway_replies t -> forall a, profile p = Some a -> plain_profile a = true.
Proof.
  apply (fed_invariant _ _ (fun p => forall a, profile p = Some a -> plain_profile a = true)); [by destruct session|].
  intros q i q' cs Hi Hq Hr a Ha. apply profile_step in Hr as [Hr|(k & b & -> & Hr)]; rewrite Hr in Ha; [by apply Hq|].
  by injection Ha as ->.
Qed.

Lemma home_run_shown session t p : reaches (HomePage.react toUpperCase thrown_message) (HomePage.opened session).1 t p ->
  fed gateway_replies t -> shown_history p.
Proof. apply fed_invariant; [by destruct session | apply home_step]. Qed.
End home.

(** ** The page of the bank's administrator *)

(** A time that JavaScript has a date for. *)
Definition dated (e : BankAuditRecord) : Prop := - 8640000000000 <= bank_recAt e <= 8640000000000.

Section audit.

Context `{P : Platform} `{L : Locale}.

Lemma event_time e : member "created_at_unix" (widen (bank_event_json e)) = UNum (bank_recAt e).
Proof. reflexivity. Qed.

Lemma event_item e : dated e -> exists item, audit_item (widen (bank_event_json e)) = Some item /\
  forall n, exists vm, toAuditVM item n = Ok vm /\ plain_row vm = true.
Proof.
  intros He. unfold audit_item. rewrite event_time.
  assert (Hc : time_clip (bank_recAt e * 1000) = Some (bank_recAt e * 1000)).
  { unfold time_clip, dated in *. by rewrite (proj2 (Z.ltb_ge _ _)), (proj2 (Z.ltb_ge _ _)) by lia. }
  assert (Hd  : is_Some (toISOString (bank_recAt e * 1000))) by exact (clipped_date _ _ (or_introl (ex_intro _ _ eq_refl)) Hc).
  cbn [date_of_seconds]. rewrite Hc. destruct Hd as [iso ->].
  eexists. split; [reflexivity|]. intros n. eexists. split; [reflexivity|].
  unfold plain_row. apply andb_true_iff. split; [reflexivity|].
  set (s := enrichAudit {| raw_source := AuditSemantics.bank; raw_action := auditActionText (bank_recAction e);
    raw_actor := bank_recUserId e; raw_reason := bank_recReason e;
    raw_target := first_text (bank_recTransactionId e) (bank_recAccountId e) (bank_recCertSerial e) |}).
  match goal with |- context [ustring (category ?v)] => 
    assert (Hcat : category v = unullish (widen (category_json (AuditSemantics.category s))) (UStr (js "cert_lifecycle"))) by reflexivity end.
  rewrite Hcat. destruct (AuditSemantics.category s) as [| | | | |m]; try done. cbn [category_json].
  by destruct (String.eqb m "__proto__").
Qed.

Lemma dated_rows events : (forall t, t ∈ events -> exists e, dated e /\ t = widen (bank_event_json e)) ->
  exists vms, audit_rows events = Some vms /\ forallb plain_row vms = true.
Proof.
  intros He. assert (Hi : exists items, mapM audit_item events = Some items /\
    forall item, item ∈ items -> forall n, exists vm, toAuditVM item n = Ok vm /\ plain_row vm = true).
  { induction events as [|t events IH]; [by exists []; split; [|intros item Hx; apply elem_of_nil in Hx]|].
    destruct (He t) as (e & Hd & ->); [by left|]. destruct (event_item e Hd) as (item & Hi & Hp).
    destruct IH as (items & Hm & Hps); [by intros u Hu; apply He; right|]. exists (item :: items). split.
    - apply mapM_Some in Hm. apply mapM_Some. by constructor.
    - intros x Hx. apply elem_of_cons in Hx as [->|Hx]; [exact Hp | by apply Hps]. }
  destruct Hi as (items & Hm & Hps). unfold audit_rows. rewrite Hm. clear Hm He. unfold rows.
  assert (Hr : forall f : nat -> nat, exists vms, rmapM (fun x => toAuditVM x.2 x.1) (imap (fun n => pair (f n)) items) = Ok vms /\
    forallb plain_row vms = true).
  { induction items as [|x items IH]; intros f; [by exists []|]. cbn [imap rmapM fst snd].
    destruct (Hps x (list_elem_of_here _ _) (f 0%nat)) as (vm & -> & Hv). cbn [rbind].
    destruct (IH (fun y Hy => Hps y (list_elem_of_further _ _ _ Hy)) (fun n => f (S n))) as (vms & Hr & Hvs).
    exists (vm :: vms). unfold compose. rewrite Hr. split; [done|]. apply andb_true_iff. by split. }
  destruct (Hr (fun n => n)) as (vms & Hv & Hp). exists vms. split; [|done]. change (imap pair items) with (imap (fun n => pair n) items). cbv beta in Hv. by rewrite Hv.
Qed.
End audit.

Section bank.

Context `{P : Platform} `{L : Locale} (toUpperCase : ustr -> ustr) (thrown_message : js_exception -> ustr).

(** What the gateway answers to the queries of the page: rows of users, accounts,
    transactions and events, and any overview. *)
Definition gateway_data (i : AdminBankPage.input) : Prop :=
  match i with
  | ViewReply _ (Ok (UsersData d)) => forall u, u ∈ pr_items d -> exists r, user_fields u = widen (user_json r)
  | ViewReply _ (Ok (TransactionsData d)) => forall t, t ∈ pr_items d -> exists r, t = widen (admin_transaction_json r)
  | ViewReply _ (Ok (AuditData d)) => forall t, t ∈ pr_items d -> exists e, dated e /\ t = widen (bank_event_json e)
  | AccountsReply _ (Ok l) => forall a, a ∈ l -> exists r, account_fields a = widen (account_json r)
  | _ => True
  end.

Lemma gateway_user u r : user_fields u = widen (user_json r) -> plain_user u = true.
Proof. intros Hu. unfold plain_user, no_prototype. rewrite Hu. unfold user_json, userStatusText. by case_ifs. Qed.

Lemma gateway_account a r : account_fields a = widen (account_json r) -> plain_account a = true.
Proof. intros Ha. unfold plain_account, no_prototype. rewrite Ha. unfold account_json, accountStatusText. by destruct (ac_status r =? 1), (ac_status r =? 2), (ac_status r =? 3). Qed.

Lemma gateway_transaction r : plain_transaction (widen (admin_transaction_json r)) = true.
Proof. unfold plain_transaction, known_status, admin_transaction_json, transactionStatusText. by case_ifs. Qed.

Lemma plain_set_data v d p : gateway_data (ViewReply v (Ok d)) -> plain_page p -> plain_page (set_data d p).
Proof.
  intros Hd [H1 H2 H3 H4 H5]. destruct d as [o|d|d|d]; split; cbn [set_data user_page transaction_page audit_page accounts selectedUser]; try done.
  - apply forallb_forall. intros u Hu. destruct (Hd u) as [r Hr]; [by apply list_elem_of_In|]. by eapply gateway_user.
  - apply forallb_forall. intros u Hu. destruct (Hd u) as [r ->]; [by apply list_elem_of_In|]. apply gateway_transaction.
  - by apply dated_rows.
Qed.

(** The parts of the state that the rows are in. *)
Lemma plain_same p q : plain_page p ->
  user_page q = user_page p -> transaction_page q = transaction_page p -> audit_page q = audit_page p ->
  (forallb plain_account (accounts q) = true) ->
  (forall u, selectedUser q = Some u -> plain_user u = true) -> plain_page q.
Proof. intros [H1 H2 H3 H4 H5] E1 E2 E3 E4 E5. split; by rewrite ?E1, ?E2, ?E3. Qed.

Ltac same H := apply (plain_same _ _ H); try done; first [exact (pp_accounts _ H) | exact (pp_selected _ H) | idtac].

Lemma plain_fail e p : plain_page p -> plain_page (fail toUpperCase thrown_message e p).1.
Proof. intros Hp. unfold fail. by destruct (session_error e); same Hp. Qed.

Lemma plain_shown_anew p : plain_page p -> plain_page (shown_anew p).1.
Proof. intros Hp. unfold shown_anew. destruct (authenticated p); [by same Hp | done]. Qed.

Lemma bank_user_step p i out : plain_page p -> user_react p i = Some out -> plain_page out.1.
Proof.
  intros Hp Hr. assert (Hload : forall v o, Some (loadView v o p) = Some out -> plain_page out.1) by (intros v o [= <-]; by same Hp).
  unfold user_react in Hr. destruct i as [v| |f| | | | |n| | | |k r|k r]; try done.
  - case_bool_decide; injection Hr as <-; [done|]. apply plain_shown_anew. by same Hp.
  - destruct (loading p); [done|]. by apply Hload in Hr.
  - destruct (loading p); [done|]. injection Hr as <-. by same Hp.
  - destruct (_ || _); [done|]. by apply Hload in Hr.
  - destruct (loading p); [done|]. destruct (pager_of _ p); [|done]. by apply Hload in Hr.
  - destruct (loading p); [done|]. destruct (pager_of _ p); [|done]. by apply Hload in Hr.
  - destruct (_ || _); [done|]. by apply Hload in Hr.
  - destruct (_ || _); [done|]. destruct (_ !! n) as [u|] eqn:Hu; [|done]. injection Hr as <-. same Hp.
    intros u' [= <-]. apply list_elem_of_lookup_2 in Hu. by apply (all_elem _ _ _ (pp_users _ Hp)).
  - destruct (selectedUser p); [|done]. injection Hr as <-. by same Hp.
  - injection Hr as <-. by same Hp.
Qed.

Lemma bank_step p i p' cs : gateway_data i -> plain_page p ->
  AdminBankPage.react toUpperCase thrown_message p i = Some (p', cs) -> plain_page p'.
Proof.
  intros Hi Hp Hr. change p' with (p', cs).1. set (out := (p', cs)) in *. clearbody out. clear p' cs.
  assert (Hq : forall l n, plain_page (set_pending l n p)) by (intros; by same Hp).
  assert (Hu : (if authenticated p then user_react p i else None) = Some out -> plain_page out.1)
    by (destruct (authenticated p); [apply bank_user_step | done]; done).
  unfold AdminBankPage.react in Hr. destruct i as [v| |f| | | | |n| | | |k r|k r]; try exact (Hu Hr).
  - destruct (authenticated p); [done|]. injection Hr as <-. apply plain_shown_anew. by same Hp.
  - destruct (take_numbered k (pending p)) as [[[v|id] l]|]; try done. destruct (reply_of v r); [|done]. injection Hr as <-.
    unfold view_loaded. specialize (Hq l (next p)). destruct r as [d|e].
    + pose proof (plain_set_data k d _ Hi Hq) as Hd. by same Hd.
    + pose proof (plain_fail e _ Hq) as Hf. destruct (fail _ _ e _) as [q cs]. by same Hf.
  - destruct (take_numbered k (pending p)) as [[[v|id] l]|]; try done. injection Hr as <-.
    unfold accounts_loaded. specialize (Hq l (next p)). destruct r as [d|e].
    + same Hq. apply forallb_forall. intros a Ha. destruct (Hi a) as [x Hx]; [by apply list_elem_of_In|]. by eapply gateway_account.
    + pose proof (plain_fail e _ Hq) as Hf. destruct (fail _ _ e _) as [q cs]. by same Hf.
Qed.

Lemma bank_run_plain t p : reaches (AdminBankPage.react toUpperCase thrown_message) AdminBankPage.opened.1 t p ->
  fed gateway_data t -> plain_page p.
Proof. apply fed_invariant; [split; try done; by exists [] | apply bank_step]. Qed.
End bank.

(** ** The properties *)

(** C30: what the gateway sends is shown. In every run of the customer's page whose
    histories are the gateway's lists of transactions and whose profiles have a
    name, if any, that is a text and an email and a status that are no lists or
    objects (the other fields are texts and whole numbers, as the bank writes them),
    when the expiry of the session is a number, a boolean or null; and in every run
    of the page of the bank's administrator whose rows are the users, accounts,
    transactions and dated events that the gateway writes: in whatever order replies,
    errors and inputs come, no state has an element that React refuses. *)
Theorem gateway_data_shown (P : Platform) (L : Locale) (D : Dates) (W : WebCrypto) (toUpperCase : ustr -> ustr)
    (thrown_message : js_exception -> ustr) :
  (forall tgt now session t p, plain_expiry tgt = true ->
     reaches (HomePage.react toUpperCase thrown_message) (HomePage.opened session).1 t p -> fed gateway_replies t ->
     crashes (HomeView.render tgt now p) = false) /\
  (forall now login tl t p,
     reaches (AdminBankPage.react toUpperCase thrown_message) AdminBankPage.opened.1 t p -> fed gateway_data t ->
     crashes (render_AdminBank toUpperCase now p login tl) = false).
Proof.
  split.
  - intros tgt now session t p Ht Hr Hf. pose proof (home_run_shown _ _ _ _ _ Hr Hf) as Hs.
    apply home_shown; [done | by eapply home_run_profile|]. intros h Hh. unfold shown_history in Hs. by rewrite Hh in Hs.
  - intros now login tl t p Hr Hf. apply bank_shown. by eapply bank_run_plain.
Qed.

(** C29: no digit of a PIN is shown. On the customer's page and in the registration,
    and in the three logins, two PINs of the same length give the same elements. On
    the activation page of the certificate authority, where the colour of the dots
    shows whether the PIN agrees with its repetition, two such pairs give the same
    elements if they have the same lengths and both agree or both do not; on the
    bank's, two pairs with the same lengths give the same texts, whose password
    fields show dots. Nothing else that is read on the screen depends on the digits. *)
Theorem pins_never_shown (L : Locale) (D : Dates) :
  (forall tgt now p f q, HomePage.shown p = TransferForm f -> length q = length (pin f) ->
     HomeView.render tgt now (HomePage.set_shown (TransferForm (with_modal (modal f) q (resultMessage f) f)) p) =
     HomeView.render tgt now p) /\
  (forall fresh p s pin saved, RegisterPage.shown p = StepPIN s -> length pin = length (ps_pin s) ->
     render_Register fresh (RegisterPage.set_shown (StepPIN {| ps_subStep := ps_subStep s; ps_pin := pin; ps_saved := saved;
       ps_error := ps_error s; ps_submitting := ps_submitting s; ps_apiError := ps_apiError s; ps_success := ps_success s |}) p) =
     render_Register fresh p) /\
  (forall p q, length q = length (PinLogin.pin p) ->
     let p' := PinLogin.with_pin q (PinLogin.error p) p in
     render_Login PinLogin.PressKey p' = render_Login PinLogin.PressKey p /\
     ca_LoginPanel PinLogin.PressKey p' = ca_LoginPanel PinLogin.PressKey p /\
     bank_LoginPanel PinLogin.PressKey p' = bank_LoginPanel PinLogin.PressKey p) /\
  (forall f a b, length a = length (ActivationPage.pin f) -> length b = length (ActivationPage.confirmPin f) ->
     let f' := ActivationPage.set_pins a b (ActivationPage.pinStep f) f in
     (ustr_eqb a b = ustr_eqb (ActivationPage.pin f) (ActivationPage.confirmPin f) ->
      Activation.render_AdminCAActivate f' = Activation.render_AdminCAActivate f) /\
     texts (Activation.render_AdminBankActivate f') = texts (Activation.render_AdminBankActivate f)).
Proof.
  split_and!.
  - intros. by apply home_pin_hidden.
  - intros. by apply register_pin_hidden.
  - intros. by apply login_pin_hidden.
  - intros f a b Ha Hb. split; [by apply ca_activation_pin_hidden | by apply bank_activation_pin_hidden].
Qed.

(** ** Concrete pages *)

#[local] Instance no_dates : Dates := {| date_parse := fun _ => None |}.

Definition no_upper : ustr -> ustr := fun s => s.
Definition nothing : js_exception -> ustr := fun _ => [].

Definition a_record : Transaction :=
  {| tx_id := "t1"; tx_from := "111"; tx_to := "222"; tx_amount := 1000; tx_currency := "VND"; tx_status := 2;
     tx_description := "tea"; tx_scope := "transfer"; tx_createdAtUnix := 1700000000; tx_completedAtUnix := 1700000001 |}.

(** The item that the client reads of it. *)
Definition an_item : HistoryItem :=
  {| h_transactionId := UStr (js "t1"); h_fromAccountNumber := UStr (js "111"); h_toAccountNumber := UStr (js "222");
     h_amount := UNum 1000; h_currency := UStr (js "VND"); h_status := UStr (js "completed"); h_description := UStr (js "tea");
     h_scope := UStr (js "transfer"); h_createdAtUnix := UNum 1700000000; h_completedAtUnix := UNum 1700000001 |}.

Definition history_opened : list HomePage.input :=
  [ProfileReply 2 (Ok HomePage.an_account); HomePage.SetView HomePage.history; HistoryReply 4 (Ok ([an_item], 1))].

Definition a_row : Gateway.AdminUser :=
  {| us_userId := "u1"; us_email := "an@x.vn"; us_fullName := "An"; us_status := 1; us_accountCount := 2;
     us_totalBalance := 5000; us_createdAtUnix := 1700000000 |}.

Definition an_event : BankAuditRecord :=
  {| bank_recId := "e1"; bank_recAction := BANK_AUDIT_ACTION_TRANSFER_COMPLETED; bank_recUserId := "u1"; bank_recAccountId := "a1";
     bank_recTransactionId := "t1"; bank_recCertSerial := "01"; bank_recRequestId := "r"; bank_recReason := "";
     bank_recMetadataJson := "{}"; bank_recAt := 1700000000 |}.

Definition page_of {A} (l : list A) : PageResult A := {| pr_items := l; pr_total := zlen l; pr_limit := 20; pr_offset := 0 |}.

Definition audit_opened : list AdminBankPage.input :=
  [ViewReply 0 (Ok (OverviewData (UObj []))); AdminBankPage.SetView users;
   ViewReply 1 (Ok (UsersData (page_of [{| user_id := js "u1"; full_name := js "An"; user_fields := widen (user_json a_row) |}])));
   AdminBankPage.SetView audit; ViewReply 2 (Ok (AuditData (page_of [widen (bank_event_json an_event)])))].

Lemma gateway_data_shown_witness :
  match run_inputs (HomePage.react no_upper nothing) history_opened [] (HomePage.opened (Some None)).1,
        run_inputs (AdminBankPage.react no_upper nothing) audit_opened [] AdminBankPage.opened.1 with
  | Some (_, p), Some (_, q) =>
      crashes (HomeView.render (UNum 1700000000) 0 p) = false /\
      crashes (render_AdminBank no_upper 0 q a_bank_login new_timeline) = false
  | _, _ => False
  end.
Proof.
  destruct (run_inputs (HomePage.react _ _) _ _ _) as [[t p]|] eqn:Hr; [|vm_compute in Hr; discriminate Hr].
  destruct (run_inputs (AdminBankPage.react _ _) _ _ _) as [[u q]|] eqn:Hq; [|vm_compute in Hq; discriminate Hq].
  destruct (gateway_data_shown demo_platform demo_locale no_dates toy_webcrypto no_upper nothing) as [H1 H2].
  split.
  - eapply H1; [reflexivity | eapply run_inputs_reaches; [apply reach_start | exact Hr]|].
    eapply fed_run; [|by intros s Hs; apply elem_of_nil in Hs | exact Hr]. repeat constructor.
    intros item Hi. apply list_elem_of_singleton in Hi as ->. exists a_record. reflexivity.
  - eapply H2; [eapply run_inputs_reaches; [apply reach_start | exact Hq]|].
    eapply fed_run; [|by intros s Hs; apply elem_of_nil in Hs | exact Hq]. repeat constructor.
    + intros x Hx. apply list_elem_of_singleton in Hx as ->. by exists a_row.
    + intros x Hx. apply list_elem_of_singleton in Hx as ->. exists an_event. split; [split; vm_compute; discriminate | done].
Defined.

(** The form with digits of a PIN, and the other pages. *)
Definition entering (pin : ustr) : home :=
  HomePage.set_shown (TransferForm (with_modal (Some pin_entry) pin [] new_form)) (HomePage.opened (Some None)).1.

Definition setting (pin : ustr) : RegisterPage.page :=
  RegisterPage.set_shown (StepPIN {| ps_subStep := set_pin; ps_pin := pin; ps_saved := []; ps_error := false;
    ps_submitting := false; ps_apiError := []; ps_success := false |}) (RegisterPage.opened []).

Lemma pins_never_shown_witness :
  HomeView.render UNull 0 (entering (js "1234")) = HomeView.render UNull 0 (entering (js "9876")) /\
  render_Register [] (setting (js "12")) = render_Register [] (setting (js "34")).
Proof.
  destruct (pins_never_shown demo_locale no_dates) as (H1 & H2 & _). split.
  - exact (H1 UNull 0 (entering (js "9876")) _ (js "1234") eq_refl eq_refl).
  - exact (H2 [] (setting (js "34")) _ (js "12") [] eq_refl eq_refl).
Defined.
